(* ===== verification/_CoqProject ===== *)
-Q . S2P
Prelude.v
Memory.v
Bytes.v
Str.v
Kernel.v
KMonad.v
Boot.v
Mmu.v
Spinlock.v
SpinProtocol.v
Kalloc.v
Sched.v
SleepProtocol.v
Vm.v
VmWalk.v
VmSpace.v
Cow.v
CowShare.v
CowFree.v
CowFail.v
UserMem.v
VmSamples.v
Ide.v
Ring.v
Bio.v
BioSpec.v
Log.v
LogSpec.v
Fs.v
FsBlocks.v
FsInode.v
FsFile.v
FsIO.v
FsDir.v
FsPath.v
Pipe.v
PipeSpec.v
File.v
Kbd.v
Console.v
FsSamples.v
Proc.v
Kthread.v
Exec.v
Mutex.v
MutexProtocol.v
Syscall.v
SyscallSpec.v
SysFile.v
Trap.v
Barrier.v
Fssp.v
FsspSpec.v
Umalloc.v
UmallocSpec.v
User.v
Ulib.v
Grep.v
Sh.v
ShSpec.v
Mkfs.v
MkfsSpec.v
MkfsImage.v
MkfsTree.v
Progs.v
Hw.v
Mp.v
Start.v
Bootmain.v
Asm.v
BootAsm.v
KthreadSpec.v
