(* ===== verification/Prelude.v ===== *)
(** * An xv6 kernel with threads, mutexes and copy-on-write fork

    This library models the programs of the repository (C and assembly files
    under src/) and proves properties of them: the kernel, from the boot
    block to the system calls, the user programs with their library, and
    mkfs, which makes the first disk.  The kernel is xv6 with kernel threads
    (kthread.c), mutexes for user threads (mutex.c) and a fork that shares
    pages until they are written (cow_fork).

    The parts meet as follows.  The boot block (bootasm.S, bootmain.c) loads
    the kernel, whose start-up code (entry.S, main.c, mp.c) starts the other
    processors.  User code enters the kernel through usys.S, vectors.pl and
    trapasm.S; trap.c calls syscall.c, which calls the process, thread and
    mutex functions (proc.c, kthread.c, mutex.c) and the file calls
    (sysfile.c).  Those use file.c and pipe.c, then fs.c, log.c, bio.c and a
    disk driver, and vm.c over kalloc.c for memory.  Waiting is [sleep] over
    [sched] and swtch.S; spinlock.c guards all of it.

    ** How code becomes definitions

    A kernel function is a computation in the monad [M] (KMonad.v): it takes a
    schedule and a kernel state and returns a value, panics, faults or stays
    off the CPU.  The kernel state (Kernel.v) is one record with a field per
    global variable, the CPU that runs the code, the physical memory and the
    devices.  Structures are records with the fields of the C structures;
    pointers into static tables are indices, pointers to pages are kernel
    virtual addresses.  [int] and [uint] are integers with the wrap-around of
    their width written out ([u32], [s32] below).  The functions keep their C
    names.

    Where code waits (a spin lock that is taken, [swtch] in [sched]) the rest
    of the machine runs: this is one entry of the schedule, an arbitrary
    function on states.  A loop that waits has one more turn than there are
    entries as fuel, which [loop_unfold] shows to be enough; other loops have
    as fuel a bound on their number of turns that is computed from their
    arguments, and the theorems show that they return.

    A user program is a computation in [prog] (User.v): it makes system
    calls, is given the kernel's answers as a list of replies, and leaves the
    list of calls it made.  Code that only talks to devices (Hw.v) is the
    same with accesses to ports and registers in place of system calls.
    Assembly routines are lists of instructions that run on a processor with
    registers, flags and memory (Asm.v).  Programs whose threads share memory
    (fssp.c and the protocols of spin locks, mutexes, sleep and wakeup) are
    step relations, so that a theorem about them is about every interleaving.
    A step of fssp.c has one access to memory that threads share.  The steps of
    the spin lock protocol are groups of statements: [pushcli] with the test by
    [holding], one [xchg] of the loop, recording the owner, the test with
    clearing the owner, and the last [xchg] with [popcli].  What happens under a lock is one step of the mutex protocol, except that
    going to sleep is a step after the lock of the mutex table is given up;
    a step of the sleep protocol is one action of [sleep] or [wakeup].

    ** Fuel

    [loop] (KMonad.v) and [uloop] (User.v) turn once more than there are
    schedule entries or replies: each turn uses one, so a loop never stops for
    want of fuel.  The parser of the shell has four times the length of the
    line plus four, which [shell_parse_wf] shows to be enough for every line.
    The list of free blocks in umalloc.c is walked with a bound from the size
    of the heap: a block has eight bytes at least, and [heap_fuel_enough] shows
    that the list of a well-formed heap is shorter.  [dirlookup] has a
    turn per entry and two more, [namex] one per byte of the path and one more,
    since every turn takes an element off.  [readseg], [mpentries],
    the loops of mkfs and the loops over a file turn at most once per sector,
    byte, block or byte range of their arguments.

    ** Files of the kernel

    - Memory.v, Bytes.v, Str.v: memory as bytes, fields of byte arrays, and
      string.c, whose loops are shown to compute one-step updates.
    - Kernel.v, KMonad.v, Boot.v: the state, the monad, and the state before
      [main].  [Symbols] has what the linker provides.
    - Spinlock.v, SpinProtocol.v: spinlock.c, and mutual exclusion of the lock
      when several CPUs run the steps of [acquire] and [release].
    - Kalloc.v: kalloc.c refines a stack of pages; start-up frees every page.
    - Sched.v, SleepProtocol.v: [sched], [yield], [sleep], [wakeup] of proc.c,
      and that sleepers and wakers on several CPUs lose no wakeup.
    - Mmu.v, Vm.v, VmWalk.v, VmSpace.v: mmu.h and vm.c; page tables are read
      from memory by [pte_of], and [mappages] and [setupkvm] are shown to map
      what they should.
    - Cow.v, CowShare.v, CowFree.v, CowFail.v, UserMem.v: the address spaces of all
      processes, with an invariant that ties page tables, free list and page
      counters together; [cow_copyuvm], [cow_shareuvm], [cow_deallocuvm],
      [cow_freevm], [allocuvm] and [deallocuvm] are shown against what each
      process reads, out of memory as well.  CowFail.v has what
      [cow_shareuvm] leaves when it fails.  VmSamples.v: concrete address spaces.
    - Ide.v, Ring.v, Bio.v, BioSpec.v: ide.c and memide.c behind the interface
      [Disk], and bio.c, which refines an array of blocks for any driver that
      satisfies [DiskOk].
    - Log.v, LogSpec.v: log.c, and atomicity of [commit] under crashes.
    - Fs.v: fs.c.  FsBlocks.v, FsInode.v, FsFile.v, FsIO.v: what a
      transaction sees of the disk, the free map ([balloc], [bfree]), inodes
      on disk ([iupdate]), the blocks of a file ([bmap]), and [readi] and
      [writei] as reads and writes of an array of bytes.
      FsDir.v, FsPath.v: a directory as a map from names to inode numbers
      ([dirlookup], [dirlink]), the references that the inode cache counts
      ([iget], [iput]), and [namex], which resolves a path in the tree on the
      disk and loses no reference.  FsSamples.v: a disk with a file.
    - Pipe.v, PipeSpec.v: pipe.c; a pipe is a queue of bytes for both ends,
      and loses and invents nothing while one end sleeps.
    - File.v: file.c.
    - Kbd.v, Console.v: kbd.c, kbd.h, console.c, uart.c.
    - Proc.v, Kthread.v, Exec.v: proc.c, kthread.c, exec.c.
    - Mutex.v, MutexProtocol.v: mutex.c, and what a mutex promises to threads
      of which any may unlock it.
    - Syscall.v, SyscallSpec.v: syscall.c, sysproc.c, systhread.c; what
      [argptr] and [argstr] accept.
    - SysFile.v, Trap.v: sysfile.c, trap.c.

    ** Files of the start-up code and the machine

    - Hw.v: picirq.c, ioapic.c, timer.c and lapic.c as sequences of device
      accesses; [cmostime] reads a consistent date.
    - Mp.v: mp.c; [mpinit] counts the processors of every table of known
      entries, and overruns its array if there are more than NCPU.
    - Start.v: main.c; [startothers] gives each other processor a stack and
      starts it, and the boot page directory maps what entry.S relies on.
    - Bootmain.v: bootmain.c; the segments of the kernel are read and the rest
      of each is zeroed.
    - Asm.v: swtch.S, trapasm.S, vectors.pl, usys.S and initcode.S; a switch
      comes back to its caller with its registers, and a system call passes
      its number and arguments in and its result out.
    - BootAsm.v: asm.h, bootasm.S, entry.S and entryother.S, from real mode to
      the first C function.
    - KthreadSpec.v: what kthread.c does: the first switch to a new thread starts
      its function on its stack, [kthread_exit] wakes the threads that wait, and
      [kthread_join] waits under every schedule and frees what the thread had.

    ** Files of the user programs

    - User.v, Ulib.v: programs and their calls, ulib.c and printf.c.
    - Umalloc.v, UmallocSpec.v: umalloc.c on the bytes of the heap; blocks in
      use never overlap and keep their bytes, the free list stays sorted and
      joined, and [malloc] fails only for want of memory.
    - Grep.v: grep.c; its matcher against regular expressions, and the lines
      it writes.
    - Sh.v, ShSpec.v: sh.c; a parser that ends on every line and reads back
      every command that is written out.
    - Barrier.v, Fssp.v, FsspSpec.v: fssp.c; rounds of its barrier, the firing
      squad and its history under every interleaving, with the exit that
      [kthread_join] can miss.
    - Mkfs.v, MkfsSpec.v, MkfsImage.v, MkfsTree.v: mkfs.c; its image satisfies
      the invariants that the theorems about fs.c start from, and [namex] finds
      every file in it.
    - Progs.v: cat, echo, init, kill, ln, ls, mkdir, rm, wc and the like.

    ** Not modelled

    The test programs (usertests.c, forktest.c, stressfs.c, ...), which call
    the system and print what they see.  The order of the calls in [main],
    [mpenter] and [mpmain], which run on several processors and do not return.
    The TLB and the caches of the processor.  The loops in which the boot code
    stops a machine that cannot start.  What a kernel panic leaves behind,
    beyond what it prints.  The scripts that build the images. *)

From stdpp Require Export base list strings.
From Stdlib Require Export ZArith Lia FunctionalExtensionality.

#[global] Open Scope Z_scope.

Create HintDb xv6 discriminated.

(** ** 32-bit integers

    A [uint] is a [Z] in [0, 2^32), an [int] a [Z] in [-2^31, 2^31).  The
    arithmetic of the sources wraps around at those widths. *)

Definition W32 : Z := 4294967296.
Definition u32 (x : Z) : Z := x mod 4294967296.
Definition s32 (x : Z) : Z :=
  let y := u32 x in if y <? 2147483648 then y else y - 4294967296.
Definition u16 (x : Z) : Z := x mod 65536.
Definition s16 (x : Z) : Z :=
  let y := u16 x in if y <? 32768 then y else y - 65536.
Definition u8 (x : Z) : Z := x mod 256.
Definition s8 (x : Z) : Z :=
  let y := u8 x in if y <? 128 then y else y - 256.

(** C truth values: an [int] is true when it is not zero. *)
Definition truth (x : Z) : bool := negb (x =? 0).
Definition b2z (b : bool) : Z := if b then 1 else 0.

(** ** Tables

    The kernel's tables are fixed arrays, modelled as lists.  [find_idx] is
    the index of the first entry that satisfies a test: the loops
    [for(p = table; p < &table[N]; p++) if(test(p)) goto found;]. *)

Fixpoint find_idx {A} (f : A -> bool) (l : list A) : option nat :=
  match l with
  | [] => None
  | x :: l' => if f x then Some O else S <$> find_idx f l'
  end.

Section Words.

Lemma u32_range x : 0 <= u32 x < 4294967296.
Proof. unfold u32. apply Z.mod_pos_bound. lia. Qed.

Lemma u32_small x : 0 <= x < 4294967296 -> u32 x = x.
Proof. intros. unfold u32. by apply Z.mod_small. Qed.

Lemma u32_idemp x : u32 (u32 x) = u32 x.
Proof. apply u32_small, u32_range. Qed.

Lemma s32_small x : -2147483648 <= x < 2147483648 -> s32 x = x.
Proof.
  intros H. unfold s32, u32.
  destruct (Z_lt_le_dec x 0).
  - rewrite <- (Z_mod_plus_full x 1), Z.mod_small by lia.
    destruct (Z.ltb_spec (x + 1 * 4294967296) 2147483648); lia.
  - rewrite Z.mod_small by lia.
    destruct (Z.ltb_spec x 2147483648); lia.
Qed.

Lemma s32_range x : -2147483648 <= s32 x < 2147483648.
Proof.
  unfold s32. pose proof (u32_range x).
  destruct (Z.ltb_spec (u32 x) 2147483648); lia.
Qed.

Lemma u32_add_l x y : u32 (u32 x + y) = u32 (x + y).
Proof. unfold u32. by rewrite Zplus_mod_idemp_l. Qed.

Lemma u32_add_r x y : u32 (x + u32 y) = u32 (x + y).
Proof. unfold u32. by rewrite Zplus_mod_idemp_r. Qed.

Lemma u32_sub_l x y : u32 (u32 x - y) = u32 (x - y).
Proof. unfold u32. by rewrite Zminus_mod_idemp_l. Qed.

Lemma u32_sub_r x y : u32 (x - u32 y) = u32 (x - y).
Proof. unfold u32. by rewrite Zminus_mod_idemp_r. Qed.

Lemma u32_s32 x : u32 (s32 x) = u32 x.
Proof.
  unfold s32. pose proof (u32_range x).
  destruct (Z.ltb_spec (u32 x) 2147483648).
  - apply u32_idemp.
  - unfold u32 at 1. replace (u32 x - 4294967296) with (u32 x + (-1) * 4294967296) by lia.
    rewrite Z_mod_plus_full. by rewrite Z.mod_small.
Qed.

Lemma truth_true x : truth x = true <-> x <> 0.
Proof. unfold truth. rewrite negb_true_iff. apply Z.eqb_neq. Qed.

Lemma truth_false x : truth x = false <-> x = 0.
Proof. unfold truth. rewrite negb_false_iff. apply Z.eqb_eq. Qed.

End Words.

Section Tables.
Context {A : Type}.
Implicit Types (f : A -> bool) (l : list A).

Lemma find_idx_Some f l i :
  find_idx f l = Some i <->
  (exists x, l !! i = Some x /\ f x = true) /\
  (forall j y, (j < i)%nat -> l !! j = Some y -> f y = false).
Proof.
  revert i. induction l as [|x l IH]; intros i; simpl.
  { split; [done|]. intros [(y & Hy & _) _]. done. }
  destruct (f x) eqn:Hfx.
  - split.
    + intros [= <-]. split; [by exists x|]. intros; lia.
    + intros [_ Hlt]. destruct i as [|i]; [done|].
      specialize (Hlt O x ltac:(lia) eq_refl). congruence.
  - split.
    + destruct (find_idx f l) as [k|] eqn:Hk; [|done]. intros [= <-].
      destruct (proj1 (IH k) eq_refl) as [(y & Hy & Hfy) Hlt].
      split; [by exists y|]. intros [|j] z Hj Hz; [by simplify_eq/=|].
      apply (Hlt j z); [lia|done].
    + intros [(y & Hy & Hfy) Hlt]. destruct i as [|i]; [simplify_eq/=; congruence|].
      assert (find_idx f l = Some i) as ->; [|done].
      apply IH. split; [by exists y|]. intros j z Hj Hz.
      apply (Hlt (S j) z); [lia|done].
Qed.

Lemma find_idx_None f l :
  find_idx f l = None <-> (forall i x, l !! i = Some x -> f x = false).
Proof.
  induction l as [|x l IH]; simpl.
  { split; [|done]. intros _ i y; by rewrite lookup_nil. }
  destruct (f x) eqn:Hfx.
  - split; [done|]. intros H. specialize (H O x eq_refl). congruence.
  - destruct (find_idx f l); simpl.
    + split; [done|]. intros H. exfalso.
      assert (Some n = None) as Hn; [|done].
      apply IH. intros i y Hy. apply (H (S i) y). done.
    + split; [|done]. intros _ [|i] y Hy; [by simplify_eq/=|].
      apply (proj1 IH eq_refl i y). done.
Qed.

Lemma find_idx_lt f l i : find_idx f l = Some i -> (i < length l)%nat.
Proof.
  intros [(x & Hx & _) _]%find_idx_Some. by apply lookup_lt_Some in Hx.
Qed.

End Tables.

(** ** Updates of one entry of a table *)

Lemma alter_twice {A} (f g : A -> A) b (l : list A) : alter g b (alter f b l) = alter (fun x => g (f x)) b l.
Proof.
  apply list_eq. intros i. destruct (decide (b = i)) as [->|Hne].
  - rewrite !list_lookup_alter_eq. by destruct (l !! i).
  - by rewrite !list_lookup_alter_ne.
Qed.

Lemma alter_insert {A} (f : A -> A) b (l : list A) x : l !! b = Some x -> alter f b l = <[b := f x]> l.
Proof.
  intros Hx. apply list_eq. intros i. destruct (decide (b = i)) as [->|Hne].
  - rewrite list_lookup_alter_eq, Hx, list_lookup_insert_eq by (by apply lookup_lt_Some in Hx). done.
  - by rewrite list_lookup_alter_ne, list_lookup_insert_ne.
Qed.

(** ** Sums over lists *)

Fixpoint zsum {A} (f : A -> Z) (l : list A) : Z :=
  match l with
  | [] => 0
  | x :: l' => f x + zsum f l'
  end.

Section Sums.
Context {A : Type}.
Implicit Types (f g : A -> Z) (l : list A).

Lemma zsum_ext f g l : (forall x, x ∈ l -> f x = g x) -> zsum f l = zsum g l.
Proof.
  induction l as [|x l IH]; intros E; [done|]. simpl.
  rewrite (E x) by apply list_elem_of_here. f_equal. apply IH.
  intros y Hy. apply E. by apply list_elem_of_further.
Qed.

Lemma zsum_zero f l : (forall x, x ∈ l -> f x = 0) -> zsum f l = 0.
Proof.
  intros E. rewrite (zsum_ext f (fun _ => 0)) by done. clear. induction l; simpl; lia.
Qed.

Lemma zsum_nonneg f l : (forall x, x ∈ l -> 0 <= f x) -> 0 <= zsum f l.
Proof.
  induction l as [|x l IH]; intros E; simpl; [lia|].
  pose proof (E x (list_elem_of_here x l)).
  assert (0 <= zsum f l) by (apply IH; intros y Hy; apply E; by apply list_elem_of_further). lia.
Qed.

Lemma zsum_app f l k : zsum f (l ++ k) = zsum f l + zsum f k.
Proof. induction l as [|x l IH]; simpl; [done|]. rewrite IH. lia. Qed.

(** One term of the sum, and a change of one term. *)
Lemma zsum_ge f l x : (forall y, y ∈ l -> 0 <= f y) -> x ∈ l -> f x <= zsum f l.
Proof.
  intros Hp (l1 & l2 & ->)%list_elem_of_split. rewrite zsum_app. simpl.
  assert (0 <= zsum f l1) by (apply zsum_nonneg; intros y Hy; apply Hp; rewrite elem_of_app; auto).
  assert (0 <= zsum f l2); [|lia].
  apply zsum_nonneg. intros y Hy. apply Hp. rewrite elem_of_app. right. by apply list_elem_of_further.
Qed.

Lemma zsum_change f g l x :
  NoDup l -> x ∈ l -> (forall y, y ∈ l -> y <> x -> f y = g y) -> zsum f l = zsum g l - g x + f x.
Proof.
  intros Hn (l1 & l2 & ->)%list_elem_of_split E. apply NoDup_app in Hn as (_ & Hd & Hn).
  apply NoDup_cons in Hn as [Hx _]. rewrite !zsum_app. simpl.
  rewrite (zsum_ext f g l1), (zsum_ext f g l2); [lia| |].
  - intros y Hy. apply E; [rewrite elem_of_app; right; by apply list_elem_of_further|]. by intros ->.
  - intros y Hy. apply E; [rewrite elem_of_app; by left|]. intros ->. apply (Hd x Hy), list_elem_of_here.
Qed.

Lemma zsum_two f l x y :
  (forall z, z ∈ l -> 0 <= f z) -> x ∈ l -> y ∈ l -> x <> y -> f x + f y <= zsum f l.
Proof.
  intros Hp (l1 & l2 & ->)%list_elem_of_split Hy Hne. rewrite zsum_app. simpl.
  assert (H1 : forall z, z ∈ l1 -> 0 <= f z) by (intros; apply Hp; rewrite elem_of_app; auto).
  assert (H2 : forall z, z ∈ l2 -> 0 <= f z)
    by (intros; apply Hp; rewrite elem_of_app; right; by apply list_elem_of_further).
  pose proof (zsum_nonneg f l1 H1). pose proof (zsum_nonneg f l2 H2).
  rewrite elem_of_app, elem_of_cons in Hy. destruct Hy as [Hy|[->|Hy]]; [|done|].
  - pose proof (zsum_ge f l1 y H1 Hy). lia.
  - pose proof (zsum_ge f l2 y H2 Hy). lia.
Qed.

Lemma zsum_le f l : (forall x, x ∈ l -> f x <= 1) -> zsum f l <= Z.of_nat (length l).
Proof.
  induction l as [|x l IH]; intros E; simpl; [lia|].
  pose proof (E x (list_elem_of_here x l)).
  assert (zsum f l <= Z.of_nat (length l)) by (apply IH; intros y Hy; apply E; by apply list_elem_of_further).
  lia.
Qed.

Lemma zsum_mono f g l : (forall x, x ∈ l -> f x <= g x) -> zsum f l <= zsum g l.
Proof.
  induction l as [|x l IH]; intros E; simpl; [lia|].
  pose proof (E x (list_elem_of_here x l)).
  assert (zsum f l <= zsum g l) by (apply IH; intros y Hy; apply E; by apply list_elem_of_further). lia.
Qed.

Lemma zsum_pos f l : 0 < zsum f l -> exists x, x ∈ l /\ 0 < f x.
Proof.
  induction l as [|x l IH]; simpl; [lia|]. intros Hs. destruct (Z_lt_le_dec 0 (f x)).
  - exists x. split; [apply list_elem_of_here|done].
  - destruct IH as (y & Hy & ?); [lia|]. exists y. split; [by apply list_elem_of_further|done].
Qed.

End Sums.

(** ** Tactics *)

(** Case analysis on the boolean tests of a goal, with the integer
    comparisons turned into propositions. *)
Ltac zbool :=
  repeat match goal with
  | H : (_ =? _) = true |- _ => apply Z.eqb_eq in H
  | H : (_ =? _) = false |- _ => apply Z.eqb_neq in H
  | H : (_ <? _) = true |- _ => apply Z.ltb_lt in H
  | H : (_ <? _) = false |- _ => apply Z.ltb_ge in H
  | H : (_ <=? _) = true |- _ => apply Z.leb_le in H
  | H : (_ <=? _) = false |- _ => apply Z.leb_gt in H
  | H : (_ && _)%bool = true |- _ => apply andb_true_iff in H as [? ?]
  | H : (_ || _)%bool = false |- _ => apply orb_false_iff in H as [? ?]
  | H : negb _ = true |- _ => apply negb_true_iff in H
  | H : negb _ = false |- _ => apply negb_false_iff in H
  end.

Ltac zcase :=
  match goal with
  | |- context [?x =? ?y] => destruct (Z.eqb_spec x y)
  | |- context [?x <? ?y] => destruct (Z.ltb_spec x y)
  | |- context [?x <=? ?y] => destruct (Z.leb_spec x y)
  end.
