(* ===== verification/Memory.v ===== *)
(** * Physical memory

    Memory is a total function from byte addresses to bytes.  The kernel
    reads and writes 32-bit words in little-endian order, and whole ranges
    with the string operations of string.c, given here as one-step updates
    (the loops of string.c are shown to implement them in Str.v). *)

From stdpp Require Import base list.
From S2P Require Import Prelude.

Definition mem : Type := Z -> Z.

Definition ld8 (m : mem) (a : Z) : Z := m a mod 256.
Definition st8 (m : mem) (a v : Z) : mem :=
  fun x => if x =? a then v mod 256 else m x.

Definition ld32 (m : mem) (a : Z) : Z :=
  ld8 m a + 256 * ld8 m (a + 1) + 65536 * ld8 m (a + 2) + 16777216 * ld8 m (a + 3).
Definition st32 (m : mem) (a v : Z) : mem :=
  fun x => if (a <=? x) && (x <? a + 4) then (v / 2 ^ (8 * (x - a))) mod 256 else m x.

(** [memset(dst, c, n)] and [memmove(dst, src, n)] on one memory. *)
Definition mset (m : mem) (dst c n : Z) : mem :=
  fun x => if (dst <=? x) && (x <? dst + n) then c mod 256 else m x.
Definition mmove (m : mem) (dst src n : Z) : mem :=
  fun x => if (dst <=? x) && (x <? dst + n) then m (src + (x - dst)) else m x.

(** Copy a list of bytes to memory and read one back. *)
Definition mwrite (m : mem) (dst : Z) (bs : list Z) : mem :=
  fun x => if (dst <=? x) && (x <? dst + Z.of_nat (length bs))
           then nth (Z.to_nat (x - dst)) bs 0 mod 256 else m x.
Definition mread (m : mem) (src : Z) (n : nat) : list Z :=
  map (fun i => ld8 m (src + Z.of_nat i)) (seq 0 n).

Section MemoryLemmas.
Implicit Types m : mem.

Lemma ld8_range m a : 0 <= ld8 m a < 256.
Proof. apply Z.mod_pos_bound. lia. Qed.

Lemma ld32_range m a : 0 <= ld32 m a < 4294967296.
Proof.
  unfold ld32. pose proof (ld8_range m a). pose proof (ld8_range m (a + 1)).
  pose proof (ld8_range m (a + 2)). pose proof (ld8_range m (a + 3)). lia.
Qed.

(** A word is determined by its four bytes. *)
Lemma ld32_ext m m' a :
  (forall x, a <= x < a + 4 -> m x = m' x) -> ld32 m a = ld32 m' a.
Proof. intros H. unfold ld32, ld8. by rewrite !H by lia. Qed.

Lemma st32_other m a v x : ~ (a <= x < a + 4) -> st32 m a v x = m x.
Proof. intros H. unfold st32. repeat (zcase; simpl); lia || done. Qed.

Lemma mset_other m d c n x : ~ (d <= x < d + n) -> mset m d c n x = m x.
Proof. intros H. unfold mset. repeat (zcase; simpl); lia || done. Qed.

Lemma mset_in m d c n x : d <= x < d + n -> mset m d c n x = c mod 256.
Proof. intros H. unfold mset. repeat (zcase; simpl); lia || done. Qed.

Lemma mmove_other m d s n x : ~ (d <= x < d + n) -> mmove m d s n x = m x.
Proof. intros H. unfold mmove. repeat (zcase; simpl); lia || done. Qed.

Lemma mmove_in m d s n x : d <= x < d + n -> mmove m d s n x = m (s + (x - d)).
Proof. intros H. unfold mmove. repeat (zcase; simpl); lia || done. Qed.

Lemma mwrite_other m d bs x :
  ~ (d <= x < d + Z.of_nat (length bs)) -> mwrite m d bs x = m x.
Proof. intros H. unfold mwrite. repeat (zcase; simpl); lia || done. Qed.

Lemma st32_in m a v x :
  a <= x < a + 4 -> st32 m a v x = (v / 2 ^ (8 * (x - a))) mod 256.
Proof. intros H. unfold st32. repeat (zcase; simpl); lia || done. Qed.

Lemma ld32_st32_eq m a v : 0 <= v < 4294967296 -> ld32 (st32 m a v) a = v.
Proof.
  intros Hv. unfold ld32, ld8. rewrite !st32_in by lia.
  replace (a - a) with 0 by lia. replace (a + 1 - a) with 1 by lia.
  replace (a + 2 - a) with 2 by lia. replace (a + 3 - a) with 3 by lia.
  change (2 ^ (8 * 0)) with 1. change (2 ^ (8 * 1)) with 256.
  change (2 ^ (8 * 2)) with 65536. change (2 ^ (8 * 3)) with 16777216.
  rewrite !Z.mod_mod by lia. rewrite Z.div_1_r.
  Z.div_mod_to_equations. lia.
Qed.

Lemma ld32_st32_ne m a b v : a + 4 <= b \/ b + 4 <= a -> ld32 (st32 m a v) b = ld32 m b.
Proof. intros H. apply ld32_ext. intros x Hx. apply st32_other. lia. Qed.

Lemma ld32_mset_out m d c n a : a + 4 <= d \/ d + n <= a -> ld32 (mset m d c n) a = ld32 m a.
Proof. intros H. apply ld32_ext. intros x Hx. apply mset_other. lia. Qed.

Lemma ld32_mset_zero m d n a : d <= a -> a + 4 <= d + n -> ld32 (mset m d 0 n) a = 0.
Proof.
  intros H1 H2. unfold ld32, ld8. rewrite !mset_in by lia. done.
Qed.

Lemma ld32_mmove_out m d s n a :
  a + 4 <= d \/ d + n <= a -> ld32 (mmove m d s n) a = ld32 m a.
Proof. intros H. apply ld32_ext. intros x Hx. apply mmove_other. lia. Qed.

Lemma ld32_mmove_in m d s n a :
  d <= a -> a + 4 <= d + n -> ld32 (mmove m d s n) a = ld32 m (s + (a - d)).
Proof.
  intros H1 H2. unfold ld32, ld8. rewrite !mmove_in by lia.
  replace (s + (a + 1 - d)) with (s + (a - d) + 1) by lia.
  replace (s + (a + 2 - d)) with (s + (a - d) + 2) by lia.
  replace (s + (a + 3 - d)) with (s + (a - d) + 3) by lia. done.
Qed.

Lemma ld32_mwrite_out m d bs a :
  a + 4 <= d \/ d + Z.of_nat (length bs) <= a -> ld32 (mwrite m d bs) a = ld32 m a.
Proof. intros H. apply ld32_ext. intros x Hx. apply mwrite_other. lia. Qed.

Lemma mread_length m a n : length (mread m a n) = n.
Proof. unfold mread. by rewrite length_map, length_seq. Qed.

Lemma mread_mwrite m a bs :
  Forall (fun b => 0 <= b < 256) bs -> mread (mwrite m a bs) a (length bs) = bs.
Proof.
  intros Hbs. apply list_eq. intros i.
  unfold mread. rewrite list_lookup_fmap.
  destruct (decide (i < length bs)%nat) as [Hi|Hi].
  - rewrite lookup_seq_lt by lia. simpl.
    destruct (lookup_lt_is_Some_2 bs i Hi) as [b Hb]. rewrite Hb. f_equal.
    unfold ld8, mwrite. repeat (zcase; simpl); try lia.
    replace (Z.to_nat (a + Z.of_nat i - a)) with i by lia.
    rewrite (nth_lookup_Some bs i 0 b Hb).
    rewrite Forall_lookup in Hbs. specialize (Hbs i b Hb); simpl in Hbs.
    by rewrite (Z.mod_small b), Z.mod_small by lia.
  - rewrite lookup_seq_ge by lia. simpl. symmetry. apply lookup_ge_None. lia.
Qed.

End MemoryLemmas.
