(* ===== verification/Bytes.v ===== *)
(** * Bytes in buffers

    A disk block or another C array of bytes is a list of bytes.  The kernel
    reads and writes 16- and 32-bit little-endian fields and ranges of it. *)

From stdpp Require Import base list strings.
From S2P Require Import Prelude.

(** ** Definitions *)

Definition byte_at (l : list Z) (i : Z) : Z := nth (Z.to_nat i) l 0.
Definition get16 (l : list Z) (i : Z) : Z := byte_at l i + 256 * byte_at l (i + 1).
Definition get32 (l : list Z) (i : Z) : Z :=
  byte_at l i + 256 * byte_at l (i + 1) + 65536 * byte_at l (i + 2) + 16777216 * byte_at l (i + 3).

Definition le16 (v : Z) : list Z := [v mod 256; v / 256 mod 256].
Definition le32 (v : Z) : list Z :=
  [v mod 256; v / 256 mod 256; v / 65536 mod 256; v / 16777216 mod 256].

(** Bytes [i..i+n) of [l], and [l] with [bs] copied to position [i]. *)
Definition slice (l : list Z) (i n : Z) : list Z := take (Z.to_nat n) (drop (Z.to_nat i) l).
Definition splice (l : list Z) (i : Z) (bs : list Z) : list Z :=
  take (Z.to_nat i) l ++ bs ++ drop (Z.to_nat i + length bs) l.
Definition put16 (l : list Z) (i v : Z) : list Z := splice l i (le16 v).
Definition put32 (l : list Z) (i v : Z) : list Z := splice l i (le32 v).
Definition zeros (n : Z) : list Z := replicate (Z.to_nat n) 0.

(** The bytes of a string constant. *)
Definition bytes_of (s : string) : list Z :=
  map (fun c => Z.of_N (Ascii.N_of_ascii c)) (String.list_ascii_of_string s).

Definition is_byte (b : Z) : Prop := 0 <= b < 256.

(** ** Lemmas *)

Lemma splice_length l i bs :
  0 <= i -> i + Z.of_nat (length bs) <= Z.of_nat (length l) -> length (splice l i bs) = length l.
Proof.
  intros. unfold splice. rewrite !length_app, length_take, length_drop. lia.
Qed.

Lemma slice_length l i n :
  0 <= i -> 0 <= n -> i + n <= Z.of_nat (length l) -> length (slice l i n) = Z.to_nat n.
Proof. intros. unfold slice. rewrite length_take, length_drop. lia. Qed.

(** A range reads back what was written to it. *)
Lemma slice_splice_eq l i bs :
  0 <= i -> i + Z.of_nat (length bs) <= Z.of_nat (length l) ->
  slice (splice l i bs) i (Z.of_nat (length bs)) = bs.
Proof.
  intros H0 H1. unfold slice, splice. rewrite drop_app_length' by (rewrite length_take; lia).
  apply take_app_length'. lia.
Qed.

Lemma byte_at_splice_eq l i bs k :
  0 <= i -> i + Z.of_nat (length bs) <= Z.of_nat (length l) -> 0 <= k < Z.of_nat (length bs) ->
  byte_at (splice l i bs) (i + k) = byte_at bs k.
Proof.
  intros H0 H1 Hk. unfold byte_at, splice.
  rewrite app_nth2; rewrite length_take; [|lia]. rewrite app_nth1 by lia. f_equal. lia.
Qed.

Lemma byte_at_splice_ne l i bs k :
  0 <= i -> i + Z.of_nat (length bs) <= Z.of_nat (length l) ->
  0 <= k -> k < i \/ i + Z.of_nat (length bs) <= k ->
  byte_at (splice l i bs) k = byte_at l k.
Proof.
  intros H0 H1 Hk Hd. unfold byte_at, splice. destruct Hd.
  - rewrite app_nth1 by (rewrite length_take; lia).
    rewrite nth_lookup, lookup_take_lt, <- nth_lookup by lia. done.
  - rewrite app_nth2; rewrite length_take; [|lia]. rewrite app_nth2 by lia.
    rewrite !nth_lookup, lookup_drop. do 2 f_equal. lia.
Qed.

Lemma get32_put32_eq l i v :
  0 <= i -> i + 4 <= Z.of_nat (length l) -> 0 <= v < 4294967296 -> get32 (put32 l i v) i = v.
Proof.
  intros H0 H1 Hv. unfold get32, put32.
  assert (E : forall k, 0 <= k < 4 -> byte_at (splice l i (le32 v)) (i + k) = byte_at (le32 v) k)
    by (intros k Hk; apply byte_at_splice_eq; simpl; lia).
  pose proof (E 0 ltac:(lia)) as E0. rewrite Z.add_0_r in E0. rewrite E0, !E by lia.
  unfold byte_at. simpl. Z.div_mod_to_equations. lia.
Qed.

Lemma get32_splice_ne l i bs k :
  0 <= i -> i + Z.of_nat (length bs) <= Z.of_nat (length l) ->
  0 <= k -> k + 4 <= i \/ i + Z.of_nat (length bs) <= k ->
  get32 (splice l i bs) k = get32 l k.
Proof. intros. unfold get32. rewrite !byte_at_splice_ne by lia. done. Qed.

Lemma get16_put16_eq l i v :
  0 <= i -> i + 2 <= Z.of_nat (length l) -> 0 <= v < 65536 -> get16 (put16 l i v) i = v.
Proof.
  intros H0 H1 Hv. unfold get16, put16.
  assert (E : forall k, 0 <= k < 2 -> byte_at (splice l i (le16 v)) (i + k) = byte_at (le16 v) k)
    by (intros k Hk; apply byte_at_splice_eq; simpl; lia).
  pose proof (E 0 ltac:(lia)) as E0. rewrite Z.add_0_r in E0. rewrite E0, !E by lia.
  unfold byte_at. simpl. Z.div_mod_to_equations. lia.
Qed.

Lemma get16_splice_ne l i bs k :
  0 <= i -> i + Z.of_nat (length bs) <= Z.of_nat (length l) ->
  0 <= k -> k + 2 <= i \/ i + Z.of_nat (length bs) <= k ->
  get16 (splice l i bs) k = get16 l k.
Proof. intros. unfold get16. rewrite !byte_at_splice_ne by lia. done. Qed.

Lemma put32_length l i v :
  0 <= i -> i + 4 <= Z.of_nat (length l) -> length (put32 l i v) = length l.
Proof. intros. apply splice_length; simpl; lia. Qed.

Lemma put16_length l i v :
  0 <= i -> i + 2 <= Z.of_nat (length l) -> length (put16 l i v) = length l.
Proof. intros. apply splice_length; simpl; lia. Qed.
