(* ===== verification/Str.v ===== *)
(** * String operations (string.c)

    [memset], [memcmp] and [memmove] are the loops of string.c on a memory;
    the functions on strings work on arrays of bytes, where reading past the
    end of the list gives 0, the terminator.  Shown: the loops implement the
    one-step updates [mset] and [mmove] that the rest of the kernel is
    modelled with, overlapping moves included. *)

From S2P Require Import Prelude Memory.

(** ** Definitions *)

Module Str.

(** [rep stosb] and [rep stosl] *)
Fixpoint stosb (m : mem) (dst c : Z) (n : nat) : mem :=
  match n with
  | O => m
  | S n' => stosb (st8 m dst c) (dst + 1) c n'
  end.
Fixpoint stosl (m : mem) (dst w : Z) (n : nat) : mem :=
  match n with
  | O => m
  | S n' => stosl (st32 m dst w) (dst + 4) w n'
  end.

Definition memset (m : mem) (dst c n : Z) : mem :=
  if (Z.rem (s32 dst) 4 =? 0) && (n mod 4 =? 0) then
    let c := Z.land c 255 in
    stosl m dst (Z.lor (Z.lor (Z.lor (Z.shiftl c 24) (Z.shiftl c 16)) (Z.shiftl c 8)) c)
      (Z.to_nat (n / 4))
  else stosb m dst c (Z.to_nat n).

Fixpoint memcmp_loop (m : mem) (s1 s2 : Z) (n : nat) : Z :=
  match n with
  | O => 0
  | S n' =>
    if negb (ld8 m s1 =? ld8 m s2) then ld8 m s1 - ld8 m s2
    else memcmp_loop m (s1 + 1) (s2 + 1) n'
  end.
Definition memcmp (m : mem) (v1 v2 n : Z) : Z := memcmp_loop m v1 v2 (Z.to_nat n).

(** The two loops of memmove: downwards from the ends, and upwards. *)
Fixpoint move_down (m : mem) (d s : Z) (n : nat) : mem :=
  match n with
  | O => m
  | S n' => move_down (st8 m (d - 1) (ld8 m (s - 1))) (d - 1) (s - 1) n'
  end.
Fixpoint move_up (m : mem) (d s : Z) (n : nat) : mem :=
  match n with
  | O => m
  | S n' => move_up (st8 m d (ld8 m s)) (d + 1) (s + 1) n'
  end.
Definition memmove (m : mem) (dst src n : Z) : mem :=
  if (src <? dst) && (dst <? u32 (src + n))
  then move_down m (dst + n) (src + n) (Z.to_nat n)
  else move_up m dst src (Z.to_nat n).
Definition memcpy (m : mem) (dst src n : Z) : mem := memmove m dst src n.

Definition chr (l : list Z) : Z := nth 0 l 0.

Fixpoint strncmp (p q : list Z) (n : nat) : Z :=
  match n with
  | O => 0
  | S n' =>
    if negb (chr p =? 0) && (chr p =? chr q) then strncmp (tail p) (tail q) n'
    else chr p - chr q
  end.

(** The [n] bytes that strncpy writes. *)
Fixpoint strncpy (t : list Z) (n : nat) : list Z :=
  match n with
  | O => []
  | S n' => if chr t =? 0 then replicate n 0 else chr t :: strncpy (tail t) n'
  end.

(** The bytes that safestrcpy writes: the loop, then the terminator. *)
Fixpoint safestrcpy_loop (t : list Z) (n : nat) : list Z :=
  match n with
  | O => []
  | S n' => if chr t =? 0 then [0] else chr t :: safestrcpy_loop (tail t) n'
  end.
Definition safestrcpy (t : list Z) (n : Z) : list Z :=
  if n <=? 0 then [] else safestrcpy_loop t (Z.to_nat (n - 1)) ++ [0].

Fixpoint strlen (s : list Z) : Z :=
  match s with
  | [] => 0
  | c :: s' => if c =? 0 then 0 else 1 + strlen s'
  end.

End Str.

(** ** The loops implement the bulk updates *)

Lemma stosb_spec n : forall m dst c x,
  Str.stosb m dst c n x = mset m dst c (Z.of_nat n) x.
Proof.
  induction n as [|n IH]; intros m dst c x; cbn [Str.stosb].
  - unfold mset. repeat (zcase; cbn [andb]); done || lia.
  - rewrite IH, Nat2Z.inj_succ. unfold mset, st8. repeat (zcase; cbn [andb]); done || lia.
Qed.

(** A word whose four bytes are all [c]. *)
Definition word4 (c : Z) : Z :=
  Z.lor (Z.lor (Z.lor (Z.shiftl c 24) (Z.shiftl c 16)) (Z.shiftl c 8)) c.

Lemma word4_bytes c : 0 <= c < 256 -> word4 c = c * 16843009.
Proof.
  intros Hc. unfold word4.
  assert (Hl : forall a b k, 0 <= k -> 0 <= b < 2 ^ k -> Z.lor (Z.shiftl a k) b = a * 2 ^ k + b).
  { intros a b k Hk Hb. rewrite Z.shiftl_mul_pow2 by done. symmetry. apply Z.add_nocarry_lor.
    apply Z.bits_inj'. intros i Hi. rewrite Z.land_spec, Z.bits_0.
    destruct (Z_lt_le_dec i k).
    - by rewrite Z.mul_pow2_bits_low.
    - destruct (Z.eq_dec b 0) as [->|]; [by rewrite Z.bits_0, andb_false_r|].
      rewrite (Z.bits_above_log2 b), andb_false_r; [done|lia|].
      apply Z.lt_le_trans with k; [|lia]. apply Z.log2_lt_pow2; lia. }
  rewrite <- !Z.lor_assoc.
  rewrite (Hl c c 8), (Hl c (c * 2 ^ 8 + c) 16), (Hl c (c * 2 ^ 16 + (c * 2 ^ 8 + c)) 24) by lia. lia.
Qed.

Lemma word4_byte c k : 0 <= c < 256 -> 0 <= k < 4 -> (word4 c / 2 ^ (8 * k)) mod 256 = c.
Proof.
  intros Hc Hk. rewrite word4_bytes by done.
  assert (k = 0 \/ k = 1 \/ k = 2 \/ k = 3) as [-> | [-> | [-> | ->]]] by lia;
    [change (2 ^ (8 * 0)) with 1|change (2 ^ (8 * 1)) with 256|change (2 ^ (8 * 2)) with 65536
    |change (2 ^ (8 * 3)) with 16777216]; Z.div_mod_to_equations; lia.
Qed.

Lemma stosl_spec n : forall m dst c x,
  0 <= c < 256 -> Str.stosl m dst (word4 c) n x = mset m dst c (4 * Z.of_nat n) x.
Proof.
  induction n as [|n IH]; intros m dst c x Hc; cbn [Str.stosl].
  - unfold mset. repeat (zcase; cbn [andb]); done || lia.
  - rewrite IH, Nat2Z.inj_succ by done. destruct (decide (dst <= x < dst + 4)) as [Hx|Hx].
    + rewrite (mset_in m) by lia. unfold mset at 1. repeat (zcase; cbn [andb]); try lia;
        rewrite st32_in by done; rewrite word4_byte by lia; rewrite Z.mod_small; done || lia.
    + unfold mset. rewrite st32_other by done. repeat (zcase; cbn [andb]); done || lia.
Qed.

(** [memset] of string.c, by words or by bytes, sets exactly the [n] bytes at
    [dst] to the low byte of [c]. *)
Lemma memset_spec m dst c n x : 0 <= n -> Str.memset m dst c n x = mset m dst c n x.
Proof.
  intros Hn. unfold Str.memset. destruct (_ && _)%bool eqn:E.
  - zbool. fold (word4 (Z.land c 255)). change 255 with (Z.ones 8).
    rewrite Z.land_ones by lia. change (2 ^ 8) with 256.
    pose proof (Z.mod_pos_bound c 256). rewrite stosl_spec by lia.
    replace (4 * Z.of_nat (Z.to_nat (n / 4))) with n.
    + unfold mset. by rewrite Z.mod_mod by lia.
    + rewrite Z2Nat.id by (apply Z.div_pos; lia). Z.div_mod_to_equations. lia.
  - rewrite stosb_spec. by rewrite Z2Nat.id.
Qed.

Definition byte_mem (m : mem) : Prop := forall x, 0 <= m x < 256.

Lemma st8_bytes m a v : byte_mem m -> byte_mem (st8 m a v).
Proof.
  intros Hm x. unfold st8. destruct (x =? a); [apply Z.mod_pos_bound; lia|apply Hm].
Qed.

Lemma ld8_byte m a : byte_mem m -> ld8 m a = m a.
Proof. intros Hm. apply Z.mod_small, Hm. Qed.

Lemma move_up_spec n : forall m d s x,
  byte_mem m -> d <= s \/ s + Z.of_nat n <= d ->
  Str.move_up m d s n x = mmove m d s (Z.of_nat n) x.
Proof.
  induction n as [|n IH]; intros m d s x Hm Hd; cbn [Str.move_up].
  - unfold mmove. repeat (zcase; cbn [andb]); done || lia.
  - rewrite IH by (try apply st8_bytes; done || lia). rewrite ld8_byte by done.
    unfold mmove, st8. rewrite (Z.mod_small (m s)) by apply Hm.
    repeat (zcase; cbn [andb]); try lia; try done; f_equal; lia.
Qed.

Lemma move_down_spec n : forall m d s x,
  byte_mem m -> s <= d ->
  Str.move_down m (d + Z.of_nat n) (s + Z.of_nat n) n x = mmove m d s (Z.of_nat n) x.
Proof.
  induction n as [|n IH]; intros m d s x Hm Hd; cbn [Str.move_down].
  - unfold mmove. repeat (zcase; cbn [andb]); done || lia.
  - replace (d + Z.of_nat (S n) - 1) with (d + Z.of_nat n) by lia.
    replace (s + Z.of_nat (S n) - 1) with (s + Z.of_nat n) by lia.
    rewrite IH by (try apply st8_bytes; done). rewrite ld8_byte by done.
    unfold mmove, st8. rewrite (Z.mod_small (m (s + Z.of_nat n))) by apply Hm.
    repeat (zcase; cbn [andb]); try lia; try done; f_equal; lia.
Qed.

(** The string operations of string.c implement the bulk updates of memory
    that the model of the kernel uses: [memset] sets exactly the bytes of its
    range, whether it stores words or bytes, and [memmove] copies the
    original bytes also when source and destination overlap. *)
Theorem string_ops_bulk m dst src c n x :
  byte_mem m -> 0 <= n -> 0 <= src -> src + n < 4294967296 -> 0 <= dst ->
  Str.memset m dst c n x = mset m dst c n x /\
  Str.memmove m dst src n x = mmove m dst src n x.
Proof.
  intros Hm Hn Hs Hb Hd. split; [by apply memset_spec|]. unfold Str.memmove.
  rewrite u32_small by lia. destruct (Z.ltb_spec src dst); simpl; [destruct (Z.ltb_spec dst (src + n))|].
  - replace n with (Z.of_nat (Z.to_nat n)) at 1 2 by lia. rewrite move_down_spec by (done || lia).
    by rewrite Z2Nat.id.
  - rewrite move_up_spec by (done || lia). by rewrite Z2Nat.id.
  - rewrite move_up_spec by (done || lia). by rewrite Z2Nat.id.
Qed.

Lemma string_ops_bulk_witness :
  Str.memmove (fun x => x mod 256) 3 1 5 6 = 4 /\ Str.memset (fun x => 0) 4 257 8 7 = 1.
Proof.
  split.
  - rewrite (proj2 (string_ops_bulk (fun x => x mod 256) 3 1 0 5 6 ltac:(intros y; apply Z.mod_pos_bound; lia)
      ltac:(lia) ltac:(lia) ltac:(lia) ltac:(lia))). reflexivity.
  - rewrite (proj1 (string_ops_bulk (fun x => 0) 4 0 257 8 7 ltac:(intros y; lia)
      ltac:(lia) ltac:(lia) ltac:(lia) ltac:(lia))). reflexivity.
Defined.
