(* ===== verification/Kernel.v ===== *)
(** * The kernel's data: constants, structures and global variables

    One record per C structure and one record [kstate] for the global
    variables of the kernel together with the physical memory, the CPU that
    executes the code and the devices.  Pointers into a static table are
    indices of the table ([None] is the null pointer), pointers into memory
    obtained from [kalloc] are kernel virtual addresses. *)

From stdpp Require Import base list gmap strings.
From S2P Require Import Prelude.

(** ** Constants (param.h, mmu.h, memlayout.h, fs.h) *)

Definition NPROC : nat := 64.
Definition NTHREAD : nat := 16.
Definition KSTACKSIZE : Z := 4096.
Definition NOFILE : nat := 16.
Definition NFILE : nat := 100.
Definition NINODE : nat := 50.
Definition NDEV : Z := 10.
Definition ROOTDEV : Z := 1.
Definition MAXARG : Z := 32.
Definition MAXOPBLOCKS : Z := 10.
Definition LOGSIZE : Z := 30.
Definition NBUF : nat := 30.
Definition FSSIZE : Z := 1000.
Definition MAX_MUTEXES : nat := 64.

Definition PGSIZE : Z := 4096.
Definition NPDENTRIES : nat := 1024.
Definition NPTENTRIES : Z := 1024.
Definition KERNBASE : Z := 2147483648.
Definition EXTMEM : Z := 1048576.
Definition PHYSTOP : Z := 234881024.
Definition DEVSPACE : Z := 4261412864.
Definition KERNLINK : Z := 2148532224.

Definition FL_IF : Z := 512.
Definition PTE_P : Z := 1.
Definition PTE_W : Z := 2.
Definition PTE_U : Z := 4.
Definition PTE_PS : Z := 128.
Definition PTE_SH : Z := 512.
Definition DPL_USER : Z := 3.
Definition SEG_KCODE : Z := 1.
Definition SEG_KDATA : Z := 2.
Definition SEG_KCPU : Z := 3.
Definition SEG_UCODE : Z := 4.
Definition SEG_UDATA : Z := 5.
Definition SEG_TSS : Z := 6.

Definition BSIZE : Z := 512.
Definition B_BUSY : Z := 1.
Definition B_VALID : Z := 2.
Definition B_DIRTY : Z := 4.

(** Kernel virtual and physical addresses (memlayout.h). *)
Definition v2p (a : Z) : Z := u32 (a - KERNBASE).
Definition p2v (a : Z) : Z := u32 (a + KERNBASE).

(** ** Structures *)

(** [enum procstate] (kthread.h), used for processes and for threads. *)
Inductive procstate : Type :=
  UNUSED | EMBRYO | SLEEPING | RUNNABLE | RUNNING | ZOMBIE.

(** [enum mxstate] (mutex.h). *)
Inductive mxstate : Type := FREE | LOCKED | UNLOCKED.

(** The type of an open file (file.h). *)
Inductive fdtype : Type := FD_NONE | FD_PIPE | FD_INODE.

(** The drivers a [devsw] entry can point to: the console's read and write. *)
Inductive devfn : Type := DevConsole.

(** A [struct thread *]: the process and the slot of its [pthreads]. *)
Definition tptr : Type := nat * nat.

(** Sleep channels.  The sources sleep on the addresses of kernel objects;
    each constructor is one kind of object, [Cnull] the null pointer. *)
Inductive chan : Type :=
| Cnull
| Cproc (p : nat)
| Cthread (t : tptr)
| Cmutex (m : nat)
| Cticks
| Cbuf (b : nat)
| Cinode (i : nat)
| Clog
| Cnread (p : Z)
| Cnwrite (p : Z)
| Cinput.

(** The spinlocks of the kernel. *)
Inductive lockid : Type :=
| Lptable
| Lproc (p : nat)
| Lmxtable
| Lkmem
| Lpg_count
| Ltickslock
| Lftable
| Licache
| Lbcache
| Llog
| Lcons
| Lide
| Lpipe (p : Z).

(** [struct segdesc] (mmu.h). *)
Record segdesc : Type := mkSegdesc {
  lim_15_0 : Z; base_15_0 : Z; base_23_16 : Z; sd_type : Z; sd_s : Z;
  sd_dpl : Z; sd_p : Z; lim_19_16 : Z; sd_avl : Z; sd_rsv1 : Z; sd_db : Z;
  sd_g : Z; base_31_24 : Z
}.

(** Per-CPU state ([struct cpu] of proc.h, with the registers the kernel reads
    and writes): [c_if] is the interrupt flag of %eflags, [c_ebp] the frame
    pointer of the running function. *)
Record cpu : Type := mkCpu {
  c_id : Z;
  c_ncli : Z;
  c_intena : Z;
  c_if : bool;
  c_proc : option nat;
  c_thread : option tptr;
  c_cr2 : Z;
  c_cr3 : Z;
  c_esp0 : Z;
  c_ss0 : Z;
  c_tr : Z;
  c_gdt : list segdesc;
  c_ebp : Z
}.

(** [struct spinlock] (spinlock.h).  A CPU is named by its [id]. *)
Record spinlock : Type := mkLock {
  l_locked : Z;
  l_name : string;
  l_cpu : option Z;
  l_pcs : list Z
}.

(** [struct thread] (kthread.h). *)
Record thread : Type := mkThread {
  t_kstack : Z;
  t_state : procstate;
  t_tid : Z;
  t_tproc : option nat;
  t_tf : Z;
  t_context : Z;
  t_chan : chan;
  t_killed : Z;
  t_name : list Z
}.

(** [struct proc] (proc.h); the lock of process [i] is [Lproc i]. *)
Record proc : Type := mkProc {
  p_sz : Z;
  p_pgdir : Z;
  p_state : procstate;
  p_pid : Z;
  p_parent : option nat;
  p_killed : Z;
  p_ofile : list (option nat);
  p_cwd : option nat;
  p_name : list Z;
  p_threads : list thread;
  p_executed : Z
}.

(** [kthread_mutex_t] (mutex.h). *)
Record kthread_mutex_t : Type := mkMutex {
  m_state : mxstate;
  m_mxid : Z;
  m_owner : option tptr
}.

(** The anonymous [kmem] of kalloc.c; its lock is [Lkmem]. *)
Record kmem_t : Type := mkKmem {
  km_use_lock : Z;
  km_freelist : Z
}.

(** [struct file] (file.h). *)
Record file : Type := mkFile {
  f_type : fdtype;
  f_ref : Z;
  f_readable : Z;
  f_writable : Z;
  f_pipe : Z;
  f_ip : option nat;
  f_off : Z
}.

(** [struct pipe] (pipe.c); the lock of the pipe at address [a] is [Lpipe a]. *)
Record pipe : Type := mkPipe {
  pi_data : list Z;
  pi_nread : Z;
  pi_nwrite : Z;
  pi_readopen : Z;
  pi_writeopen : Z
}.

(** [struct inode] (file.h): the in-memory copy of an inode. *)
Record inode : Type := mkInode {
  i_dev : Z;
  i_inum : Z;
  i_ref : Z;
  i_flags : Z;
  i_type : Z;
  i_major : Z;
  i_minor : Z;
  i_nlink : Z;
  i_size : Z;
  i_addrs : list Z
}.

(** [struct buf] (buf.h).  A buffer is named by its index in [bcache.buf]; the
    list head [bcache.head] is the entry after the last buffer. *)
Record buf : Type := mkBuf {
  b_flags : Z;
  b_dev : Z;
  b_blockno : Z;
  b_prev : nat;
  b_next : nat;
  b_qnext : option nat;
  b_data : list Z
}.

(** [struct superblock] (fs.h). *)
Record superblock : Type := mkSb {
  sb_size : Z;
  sb_nblocks : Z;
  sb_ninodes : Z;
  sb_nlog : Z;
  sb_logstart : Z;
  sb_inodestart : Z;
  sb_bmapstart : Z
}.

(** [struct log] (log.c), its [struct logheader] flattened into [lg_n] and
    [lg_block]; its lock is [Llog]. *)
Record log_t : Type := mkLog {
  lg_start : Z;
  lg_size : Z;
  lg_outstanding : Z;
  lg_committing : Z;
  lg_dev : Z;
  lg_n : Z;
  lg_block : list Z
}.

(** The global variables of the file system (file.c, pipe.c, fs.c, bio.c,
    log.c, ide.c) and the disk: [fs_disk] maps a block number to its bytes,
    [fs_writes] is the sequence of block writes the disk has performed. *)
Record fsstate : Type := mkFs {
  fs_ftable : list file;
  fs_pipes : gmap Z pipe;
  fs_icache : list inode;
  fs_sb : superblock;
  fs_bufs : list buf;
  fs_log : log_t;
  fs_disk : Z -> list Z;
  fs_writes : list (Z * list Z);
  fs_idequeue : option nat;
  fs_havedisk1 : Z;
  fs_devsw : list (option devfn)
}.

(** The console (console.c, kbd.c, uart.c) and the devices: [d_in] are the
    status bytes that the disk controller offers to the next [inb]
    instructions, [d_out] the bytes written by [outb], [d_crt] and [d_cursor]
    the memory and the cursor register of the display, [d_kbdq] and [d_comq]
    the bytes that wait in the keyboard controller and the serial port. *)
Record devstate : Type := mkDev {
  d_inbuf : list Z;
  d_r : Z;
  d_w : Z;
  d_e : Z;
  d_locking : Z;
  d_panicked : Z;
  d_uart : Z;
  d_in : list Z;
  d_out : list (Z * Z);
  d_crt : Z -> Z;
  d_cursor : Z;
  d_shift : Z;
  d_kbdq : list Z;
  d_comq : list Z
}.

(** The kernel: the CPU that runs the code, the locks, the physical memory
    (bytes by physical address) and the global variables. *)
Record kstate : Type := mkK {
  k_cpu : cpu;
  k_lock : lockid -> spinlock;
  k_mem : Z -> Z;
  k_kmem : kmem_t;
  k_page_counters : Z -> Z;
  k_kpgdir : Z;
  k_ptable : list proc;
  k_initproc : option nat;
  k_nextpid : Z;
  k_nexttid : Z;
  k_first : Z;
  k_mxtable : list kthread_mutex_t;
  k_nextmxid : Z;
  k_ticks : Z;
  k_fs : fsstate;
  k_dev : devstate
}.

(** ** Field updates *)

Definition set_c_id (v : Z) (r : cpu) : cpu :=
  mkCpu v (c_ncli r) (c_intena r) (c_if r) (c_proc r) (c_thread r) (c_cr2 r)
    (c_cr3 r) (c_esp0 r) (c_ss0 r) (c_tr r) (c_gdt r) (c_ebp r).
Definition set_c_ncli (v : Z) (r : cpu) : cpu :=
  mkCpu (c_id r) v (c_intena r) (c_if r) (c_proc r) (c_thread r) (c_cr2 r)
    (c_cr3 r) (c_esp0 r) (c_ss0 r) (c_tr r) (c_gdt r) (c_ebp r).
Definition set_c_intena (v : Z) (r : cpu) : cpu :=
  mkCpu (c_id r) (c_ncli r) v (c_if r) (c_proc r) (c_thread r) (c_cr2 r)
    (c_cr3 r) (c_esp0 r) (c_ss0 r) (c_tr r) (c_gdt r) (c_ebp r).
Definition set_c_if (v : bool) (r : cpu) : cpu :=
  mkCpu (c_id r) (c_ncli r) (c_intena r) v (c_proc r) (c_thread r) (c_cr2 r)
    (c_cr3 r) (c_esp0 r) (c_ss0 r) (c_tr r) (c_gdt r) (c_ebp r).
Definition set_c_proc (v : option nat) (r : cpu) : cpu :=
  mkCpu (c_id r) (c_ncli r) (c_intena r) (c_if r) v (c_thread r) (c_cr2 r)
    (c_cr3 r) (c_esp0 r) (c_ss0 r) (c_tr r) (c_gdt r) (c_ebp r).
Definition set_c_thread (v : option tptr) (r : cpu) : cpu :=
  mkCpu (c_id r) (c_ncli r) (c_intena r) (c_if r) (c_proc r) v (c_cr2 r)
    (c_cr3 r) (c_esp0 r) (c_ss0 r) (c_tr r) (c_gdt r) (c_ebp r).
Definition set_c_cr2 (v : Z) (r : cpu) : cpu :=
  mkCpu (c_id r) (c_ncli r) (c_intena r) (c_if r) (c_proc r) (c_thread r) v
    (c_cr3 r) (c_esp0 r) (c_ss0 r) (c_tr r) (c_gdt r) (c_ebp r).
Definition set_c_cr3 (v : Z) (r : cpu) : cpu :=
  mkCpu (c_id r) (c_ncli r) (c_intena r) (c_if r) (c_proc r) (c_thread r)
    (c_cr2 r) v (c_esp0 r) (c_ss0 r) (c_tr r) (c_gdt r) (c_ebp r).
Definition set_c_esp0 (v : Z) (r : cpu) : cpu :=
  mkCpu (c_id r) (c_ncli r) (c_intena r) (c_if r) (c_proc r) (c_thread r)
    (c_cr2 r) (c_cr3 r) v (c_ss0 r) (c_tr r) (c_gdt r) (c_ebp r).
Definition set_c_ss0 (v : Z) (r : cpu) : cpu :=
  mkCpu (c_id r) (c_ncli r) (c_intena r) (c_if r) (c_proc r) (c_thread r)
    (c_cr2 r) (c_cr3 r) (c_esp0 r) v (c_tr r) (c_gdt r) (c_ebp r).
Definition set_c_tr (v : Z) (r : cpu) : cpu :=
  mkCpu (c_id r) (c_ncli r) (c_intena r) (c_if r) (c_proc r) (c_thread r)
    (c_cr2 r) (c_cr3 r) (c_esp0 r) (c_ss0 r) v (c_gdt r) (c_ebp r).
Definition set_c_gdt (v : list segdesc) (r : cpu) : cpu :=
  mkCpu (c_id r) (c_ncli r) (c_intena r) (c_if r) (c_proc r) (c_thread r)
    (c_cr2 r) (c_cr3 r) (c_esp0 r) (c_ss0 r) (c_tr r) v (c_ebp r).
Definition set_c_ebp (v : Z) (r : cpu) : cpu :=
  mkCpu (c_id r) (c_ncli r) (c_intena r) (c_if r) (c_proc r) (c_thread r)
    (c_cr2 r) (c_cr3 r) (c_esp0 r) (c_ss0 r) (c_tr r) (c_gdt r) v.

Definition set_l_locked (v : Z) (r : spinlock) : spinlock :=
  mkLock v (l_name r) (l_cpu r) (l_pcs r).
Definition set_l_name (v : string) (r : spinlock) : spinlock :=
  mkLock (l_locked r) v (l_cpu r) (l_pcs r).
Definition set_l_cpu (v : option Z) (r : spinlock) : spinlock :=
  mkLock (l_locked r) (l_name r) v (l_pcs r).
Definition set_l_pcs (v : list Z) (r : spinlock) : spinlock :=
  mkLock (l_locked r) (l_name r) (l_cpu r) v.

Definition set_t_kstack (v : Z) (r : thread) : thread :=
  mkThread v (t_state r) (t_tid r) (t_tproc r) (t_tf r) (t_context r)
    (t_chan r) (t_killed r) (t_name r).
Definition set_t_state (v : procstate) (r : thread) : thread :=
  mkThread (t_kstack r) v (t_tid r) (t_tproc r) (t_tf r) (t_context r)
    (t_chan r) (t_killed r) (t_name r).
Definition set_t_tid (v : Z) (r : thread) : thread :=
  mkThread (t_kstack r) (t_state r) v (t_tproc r) (t_tf r) (t_context r)
    (t_chan r) (t_killed r) (t_name r).
Definition set_t_tproc (v : option nat) (r : thread) : thread :=
  mkThread (t_kstack r) (t_state r) (t_tid r) v (t_tf r) (t_context r)
    (t_chan r) (t_killed r) (t_name r).
Definition set_t_tf (v : Z) (r : thread) : thread :=
  mkThread (t_kstack r) (t_state r) (t_tid r) (t_tproc r) v (t_context r)
    (t_chan r) (t_killed r) (t_name r).
Definition set_t_context (v : Z) (r : thread) : thread :=
  mkThread (t_kstack r) (t_state r) (t_tid r) (t_tproc r) (t_tf r) v
    (t_chan r) (t_killed r) (t_name r).
Definition set_t_chan (v : chan) (r : thread) : thread :=
  mkThread (t_kstack r) (t_state r) (t_tid r) (t_tproc r) (t_tf r)
    (t_context r) v (t_killed r) (t_name r).
Definition set_t_killed (v : Z) (r : thread) : thread :=
  mkThread (t_kstack r) (t_state r) (t_tid r) (t_tproc r) (t_tf r)
    (t_context r) (t_chan r) v (t_name r).
Definition set_t_name (v : list Z) (r : thread) : thread :=
  mkThread (t_kstack r) (t_state r) (t_tid r) (t_tproc r) (t_tf r)
    (t_context r) (t_chan r) (t_killed r) v.

Definition set_p_sz (v : Z) (r : proc) : proc :=
  mkProc v (p_pgdir r) (p_state r) (p_pid r) (p_parent r) (p_killed r)
    (p_ofile r) (p_cwd r) (p_name r) (p_threads r) (p_executed r).
Definition set_p_pgdir (v : Z) (r : proc) : proc :=
  mkProc (p_sz r) v (p_state r) (p_pid r) (p_parent r) (p_killed r)
    (p_ofile r) (p_cwd r) (p_name r) (p_threads r) (p_executed r).
Definition set_p_state (v : procstate) (r : proc) : proc :=
  mkProc (p_sz r) (p_pgdir r) v (p_pid r) (p_parent r) (p_killed r)
    (p_ofile r) (p_cwd r) (p_name r) (p_threads r) (p_executed r).
Definition set_p_pid (v : Z) (r : proc) : proc :=
  mkProc (p_sz r) (p_pgdir r) (p_state r) v (p_parent r) (p_killed r)
    (p_ofile r) (p_cwd r) (p_name r) (p_threads r) (p_executed r).
Definition set_p_parent (v : option nat) (r : proc) : proc :=
  mkProc (p_sz r) (p_pgdir r) (p_state r) (p_pid r) v (p_killed r) (p_ofile r)
    (p_cwd r) (p_name r) (p_threads r) (p_executed r).
Definition set_p_killed (v : Z) (r : proc) : proc :=
  mkProc (p_sz r) (p_pgdir r) (p_state r) (p_pid r) (p_parent r) v (p_ofile r)
    (p_cwd r) (p_name r) (p_threads r) (p_executed r).
Definition set_p_ofile (v : list (option nat)) (r : proc) : proc :=
  mkProc (p_sz r) (p_pgdir r) (p_state r) (p_pid r) (p_parent r) (p_killed r)
    v (p_cwd r) (p_name r) (p_threads r) (p_executed r).
Definition set_p_cwd (v : option nat) (r : proc) : proc :=
  mkProc (p_sz r) (p_pgdir r) (p_state r) (p_pid r) (p_parent r) (p_killed r)
    (p_ofile r) v (p_name r) (p_threads r) (p_executed r).
Definition set_p_name (v : list Z) (r : proc) : proc :=
  mkProc (p_sz r) (p_pgdir r) (p_state r) (p_pid r) (p_parent r) (p_killed r)
    (p_ofile r) (p_cwd r) v (p_threads r) (p_executed r).
Definition set_p_threads (v : list thread) (r : proc) : proc :=
  mkProc (p_sz r) (p_pgdir r) (p_state r) (p_pid r) (p_parent r) (p_killed r)
    (p_ofile r) (p_cwd r) (p_name r) v (p_executed r).
Definition set_p_executed (v : Z) (r : proc) : proc :=
  mkProc (p_sz r) (p_pgdir r) (p_state r) (p_pid r) (p_parent r) (p_killed r)
    (p_ofile r) (p_cwd r) (p_name r) (p_threads r) v.

Definition set_m_state (v : mxstate) (r : kthread_mutex_t) : kthread_mutex_t :=
  mkMutex v (m_mxid r) (m_owner r).
Definition set_m_mxid (v : Z) (r : kthread_mutex_t) : kthread_mutex_t :=
  mkMutex (m_state r) v (m_owner r).
Definition set_m_owner (v : option tptr) (r : kthread_mutex_t) : kthread_mutex_t :=
  mkMutex (m_state r) (m_mxid r) v.

Definition set_km_use_lock (v : Z) (r : kmem_t) : kmem_t :=
  mkKmem v (km_freelist r).
Definition set_km_freelist (v : Z) (r : kmem_t) : kmem_t :=
  mkKmem (km_use_lock r) v.

Definition set_f_type (v : fdtype) (r : file) : file :=
  mkFile v (f_ref r) (f_readable r) (f_writable r) (f_pipe r) (f_ip r)
    (f_off r).
Definition set_f_ref (v : Z) (r : file) : file :=
  mkFile (f_type r) v (f_readable r) (f_writable r) (f_pipe r) (f_ip r)
    (f_off r).
Definition set_f_readable (v : Z) (r : file) : file :=
  mkFile (f_type r) (f_ref r) v (f_writable r) (f_pipe r) (f_ip r) (f_off r).
Definition set_f_writable (v : Z) (r : file) : file :=
  mkFile (f_type r) (f_ref r) (f_readable r) v (f_pipe r) (f_ip r) (f_off r).
Definition set_f_pipe (v : Z) (r : file) : file :=
  mkFile (f_type r) (f_ref r) (f_readable r) (f_writable r) v (f_ip r)
    (f_off r).
Definition set_f_ip (v : option nat) (r : file) : file :=
  mkFile (f_type r) (f_ref r) (f_readable r) (f_writable r) (f_pipe r) v
    (f_off r).
Definition set_f_off (v : Z) (r : file) : file :=
  mkFile (f_type r) (f_ref r) (f_readable r) (f_writable r) (f_pipe r)
    (f_ip r) v.

Definition set_pi_data (v : list Z) (r : pipe) : pipe :=
  mkPipe v (pi_nread r) (pi_nwrite r) (pi_readopen r) (pi_writeopen r).
Definition set_pi_nread (v : Z) (r : pipe) : pipe :=
  mkPipe (pi_data r) v (pi_nwrite r) (pi_readopen r) (pi_writeopen r).
Definition set_pi_nwrite (v : Z) (r : pipe) : pipe :=
  mkPipe (pi_data r) (pi_nread r) v (pi_readopen r) (pi_writeopen r).
Definition set_pi_readopen (v : Z) (r : pipe) : pipe :=
  mkPipe (pi_data r) (pi_nread r) (pi_nwrite r) v (pi_writeopen r).
Definition set_pi_writeopen (v : Z) (r : pipe) : pipe :=
  mkPipe (pi_data r) (pi_nread r) (pi_nwrite r) (pi_readopen r) v.

Definition set_i_dev (v : Z) (r : inode) : inode :=
  mkInode v (i_inum r) (i_ref r) (i_flags r) (i_type r) (i_major r)
    (i_minor r) (i_nlink r) (i_size r) (i_addrs r).
Definition set_i_inum (v : Z) (r : inode) : inode :=
  mkInode (i_dev r) v (i_ref r) (i_flags r) (i_type r) (i_major r) (i_minor r)
    (i_nlink r) (i_size r) (i_addrs r).
Definition set_i_ref (v : Z) (r : inode) : inode :=
  mkInode (i_dev r) (i_inum r) v (i_flags r) (i_type r) (i_major r)
    (i_minor r) (i_nlink r) (i_size r) (i_addrs r).
Definition set_i_flags (v : Z) (r : inode) : inode :=
  mkInode (i_dev r) (i_inum r) (i_ref r) v (i_type r) (i_major r) (i_minor r)
    (i_nlink r) (i_size r) (i_addrs r).
Definition set_i_type (v : Z) (r : inode) : inode :=
  mkInode (i_dev r) (i_inum r) (i_ref r) (i_flags r) v (i_major r) (i_minor r)
    (i_nlink r) (i_size r) (i_addrs r).
Definition set_i_major (v : Z) (r : inode) : inode :=
  mkInode (i_dev r) (i_inum r) (i_ref r) (i_flags r) (i_type r) v (i_minor r)
    (i_nlink r) (i_size r) (i_addrs r).
Definition set_i_minor (v : Z) (r : inode) : inode :=
  mkInode (i_dev r) (i_inum r) (i_ref r) (i_flags r) (i_type r) (i_major r) v
    (i_nlink r) (i_size r) (i_addrs r).
Definition set_i_nlink (v : Z) (r : inode) : inode :=
  mkInode (i_dev r) (i_inum r) (i_ref r) (i_flags r) (i_type r) (i_major r)
    (i_minor r) v (i_size r) (i_addrs r).
Definition set_i_size (v : Z) (r : inode) : inode :=
  mkInode (i_dev r) (i_inum r) (i_ref r) (i_flags r) (i_type r) (i_major r)
    (i_minor r) (i_nlink r) v (i_addrs r).
Definition set_i_addrs (v : list Z) (r : inode) : inode :=
  mkInode (i_dev r) (i_inum r) (i_ref r) (i_flags r) (i_type r) (i_major r)
    (i_minor r) (i_nlink r) (i_size r) v.

Definition set_b_flags (v : Z) (r : buf) : buf :=
  mkBuf v (b_dev r) (b_blockno r) (b_prev r) (b_next r) (b_qnext r) (b_data r).
Definition set_b_dev (v : Z) (r : buf) : buf :=
  mkBuf (b_flags r) v (b_blockno r) (b_prev r) (b_next r) (b_qnext r)
    (b_data r).
Definition set_b_blockno (v : Z) (r : buf) : buf :=
  mkBuf (b_flags r) (b_dev r) v (b_prev r) (b_next r) (b_qnext r) (b_data r).
Definition set_b_prev (v : nat) (r : buf) : buf :=
  mkBuf (b_flags r) (b_dev r) (b_blockno r) v (b_next r) (b_qnext r)
    (b_data r).
Definition set_b_next (v : nat) (r : buf) : buf :=
  mkBuf (b_flags r) (b_dev r) (b_blockno r) (b_prev r) v (b_qnext r)
    (b_data r).
Definition set_b_qnext (v : option nat) (r : buf) : buf :=
  mkBuf (b_flags r) (b_dev r) (b_blockno r) (b_prev r) (b_next r) v (b_data r).
Definition set_b_data (v : list Z) (r : buf) : buf :=
  mkBuf (b_flags r) (b_dev r) (b_blockno r) (b_prev r) (b_next r) (b_qnext r)
    v.

Definition set_sb_size (v : Z) (r : superblock) : superblock :=
  mkSb v (sb_nblocks r) (sb_ninodes r) (sb_nlog r) (sb_logstart r)
    (sb_inodestart r) (sb_bmapstart r).
Definition set_sb_nblocks (v : Z) (r : superblock) : superblock :=
  mkSb (sb_size r) v (sb_ninodes r) (sb_nlog r) (sb_logstart r)
    (sb_inodestart r) (sb_bmapstart r).
Definition set_sb_ninodes (v : Z) (r : superblock) : superblock :=
  mkSb (sb_size r) (sb_nblocks r) v (sb_nlog r) (sb_logstart r)
    (sb_inodestart r) (sb_bmapstart r).
Definition set_sb_nlog (v : Z) (r : superblock) : superblock :=
  mkSb (sb_size r) (sb_nblocks r) (sb_ninodes r) v (sb_logstart r)
    (sb_inodestart r) (sb_bmapstart r).
Definition set_sb_logstart (v : Z) (r : superblock) : superblock :=
  mkSb (sb_size r) (sb_nblocks r) (sb_ninodes r) (sb_nlog r) v
    (sb_inodestart r) (sb_bmapstart r).
Definition set_sb_inodestart (v : Z) (r : superblock) : superblock :=
  mkSb (sb_size r) (sb_nblocks r) (sb_ninodes r) (sb_nlog r) (sb_logstart r) v
    (sb_bmapstart r).
Definition set_sb_bmapstart (v : Z) (r : superblock) : superblock :=
  mkSb (sb_size r) (sb_nblocks r) (sb_ninodes r) (sb_nlog r) (sb_logstart r)
    (sb_inodestart r) v.

Definition set_lg_start (v : Z) (r : log_t) : log_t :=
  mkLog v (lg_size r) (lg_outstanding r) (lg_committing r) (lg_dev r) (lg_n r)
    (lg_block r).
Definition set_lg_size (v : Z) (r : log_t) : log_t :=
  mkLog (lg_start r) v (lg_outstanding r) (lg_committing r) (lg_dev r)
    (lg_n r) (lg_block r).
Definition set_lg_outstanding (v : Z) (r : log_t) : log_t :=
  mkLog (lg_start r) (lg_size r) v (lg_committing r) (lg_dev r) (lg_n r)
    (lg_block r).
Definition set_lg_committing (v : Z) (r : log_t) : log_t :=
  mkLog (lg_start r) (lg_size r) (lg_outstanding r) v (lg_dev r) (lg_n r)
    (lg_block r).
Definition set_lg_dev (v : Z) (r : log_t) : log_t :=
  mkLog (lg_start r) (lg_size r) (lg_outstanding r) (lg_committing r) v
    (lg_n r) (lg_block r).
Definition set_lg_n (v : Z) (r : log_t) : log_t :=
  mkLog (lg_start r) (lg_size r) (lg_outstanding r) (lg_committing r)
    (lg_dev r) v (lg_block r).
Definition set_lg_block (v : list Z) (r : log_t) : log_t :=
  mkLog (lg_start r) (lg_size r) (lg_outstanding r) (lg_committing r)
    (lg_dev r) (lg_n r) v.

Definition set_fs_ftable (v : list file) (r : fsstate) : fsstate :=
  mkFs v (fs_pipes r) (fs_icache r) (fs_sb r) (fs_bufs r) (fs_log r)
    (fs_disk r) (fs_writes r) (fs_idequeue r) (fs_havedisk1 r) (fs_devsw r).
Definition set_fs_pipes (v : gmap Z pipe) (r : fsstate) : fsstate :=
  mkFs (fs_ftable r) v (fs_icache r) (fs_sb r) (fs_bufs r) (fs_log r)
    (fs_disk r) (fs_writes r) (fs_idequeue r) (fs_havedisk1 r) (fs_devsw r).
Definition set_fs_icache (v : list inode) (r : fsstate) : fsstate :=
  mkFs (fs_ftable r) (fs_pipes r) v (fs_sb r) (fs_bufs r) (fs_log r)
    (fs_disk r) (fs_writes r) (fs_idequeue r) (fs_havedisk1 r) (fs_devsw r).
Definition set_fs_sb (v : superblock) (r : fsstate) : fsstate :=
  mkFs (fs_ftable r) (fs_pipes r) (fs_icache r) v (fs_bufs r) (fs_log r)
    (fs_disk r) (fs_writes r) (fs_idequeue r) (fs_havedisk1 r) (fs_devsw r).
Definition set_fs_bufs (v : list buf) (r : fsstate) : fsstate :=
  mkFs (fs_ftable r) (fs_pipes r) (fs_icache r) (fs_sb r) v (fs_log r)
    (fs_disk r) (fs_writes r) (fs_idequeue r) (fs_havedisk1 r) (fs_devsw r).
Definition set_fs_log (v : log_t) (r : fsstate) : fsstate :=
  mkFs (fs_ftable r) (fs_pipes r) (fs_icache r) (fs_sb r) (fs_bufs r) v
    (fs_disk r) (fs_writes r) (fs_idequeue r) (fs_havedisk1 r) (fs_devsw r).
Definition set_fs_disk (v : Z -> list Z) (r : fsstate) : fsstate :=
  mkFs (fs_ftable r) (fs_pipes r) (fs_icache r) (fs_sb r) (fs_bufs r)
    (fs_log r) v (fs_writes r) (fs_idequeue r) (fs_havedisk1 r) (fs_devsw r).
Definition set_fs_writes (v : list (Z * list Z)) (r : fsstate) : fsstate :=
  mkFs (fs_ftable r) (fs_pipes r) (fs_icache r) (fs_sb r) (fs_bufs r)
    (fs_log r) (fs_disk r) v (fs_idequeue r) (fs_havedisk1 r) (fs_devsw r).
Definition set_fs_idequeue (v : option nat) (r : fsstate) : fsstate :=
  mkFs (fs_ftable r) (fs_pipes r) (fs_icache r) (fs_sb r) (fs_bufs r)
    (fs_log r) (fs_disk r) (fs_writes r) v (fs_havedisk1 r) (fs_devsw r).
Definition set_fs_havedisk1 (v : Z) (r : fsstate) : fsstate :=
  mkFs (fs_ftable r) (fs_pipes r) (fs_icache r) (fs_sb r) (fs_bufs r)
    (fs_log r) (fs_disk r) (fs_writes r) (fs_idequeue r) v (fs_devsw r).
Definition set_fs_devsw (v : list (option devfn)) (r : fsstate) : fsstate :=
  mkFs (fs_ftable r) (fs_pipes r) (fs_icache r) (fs_sb r) (fs_bufs r)
    (fs_log r) (fs_disk r) (fs_writes r) (fs_idequeue r) (fs_havedisk1 r) v.

Definition set_d_inbuf (v : list Z) (r : devstate) : devstate :=
  mkDev v (d_r r) (d_w r) (d_e r) (d_locking r) (d_panicked r) (d_uart r)
    (d_in r) (d_out r) (d_crt r) (d_cursor r) (d_shift r) (d_kbdq r)
    (d_comq r).
Definition set_d_r (v : Z) (r : devstate) : devstate :=
  mkDev (d_inbuf r) v (d_w r) (d_e r) (d_locking r) (d_panicked r) (d_uart r)
    (d_in r) (d_out r) (d_crt r) (d_cursor r) (d_shift r) (d_kbdq r)
    (d_comq r).
Definition set_d_w (v : Z) (r : devstate) : devstate :=
  mkDev (d_inbuf r) (d_r r) v (d_e r) (d_locking r) (d_panicked r) (d_uart r)
    (d_in r) (d_out r) (d_crt r) (d_cursor r) (d_shift r) (d_kbdq r)
    (d_comq r).
Definition set_d_e (v : Z) (r : devstate) : devstate :=
  mkDev (d_inbuf r) (d_r r) (d_w r) v (d_locking r) (d_panicked r) (d_uart r)
    (d_in r) (d_out r) (d_crt r) (d_cursor r) (d_shift r) (d_kbdq r)
    (d_comq r).
Definition set_d_locking (v : Z) (r : devstate) : devstate :=
  mkDev (d_inbuf r) (d_r r) (d_w r) (d_e r) v (d_panicked r) (d_uart r)
    (d_in r) (d_out r) (d_crt r) (d_cursor r) (d_shift r) (d_kbdq r)
    (d_comq r).
Definition set_d_panicked (v : Z) (r : devstate) : devstate :=
  mkDev (d_inbuf r) (d_r r) (d_w r) (d_e r) (d_locking r) v (d_uart r)
    (d_in r) (d_out r) (d_crt r) (d_cursor r) (d_shift r) (d_kbdq r)
    (d_comq r).
Definition set_d_uart (v : Z) (r : devstate) : devstate :=
  mkDev (d_inbuf r) (d_r r) (d_w r) (d_e r) (d_locking r) (d_panicked r) v
    (d_in r) (d_out r) (d_crt r) (d_cursor r) (d_shift r) (d_kbdq r)
    (d_comq r).
Definition set_d_in (v : list Z) (r : devstate) : devstate :=
  mkDev (d_inbuf r) (d_r r) (d_w r) (d_e r) (d_locking r) (d_panicked r)
    (d_uart r) v (d_out r) (d_crt r) (d_cursor r) (d_shift r) (d_kbdq r)
    (d_comq r).
Definition set_d_out (v : list (Z * Z)) (r : devstate) : devstate :=
  mkDev (d_inbuf r) (d_r r) (d_w r) (d_e r) (d_locking r) (d_panicked r)
    (d_uart r) (d_in r) v (d_crt r) (d_cursor r) (d_shift r) (d_kbdq r)
    (d_comq r).
Definition set_d_crt (v : Z -> Z) (r : devstate) : devstate :=
  mkDev (d_inbuf r) (d_r r) (d_w r) (d_e r) (d_locking r) (d_panicked r)
    (d_uart r) (d_in r) (d_out r) v (d_cursor r) (d_shift r) (d_kbdq r)
    (d_comq r).
Definition set_d_cursor (v : Z) (r : devstate) : devstate :=
  mkDev (d_inbuf r) (d_r r) (d_w r) (d_e r) (d_locking r) (d_panicked r)
    (d_uart r) (d_in r) (d_out r) (d_crt r) v (d_shift r) (d_kbdq r)
    (d_comq r).
Definition set_d_shift (v : Z) (r : devstate) : devstate :=
  mkDev (d_inbuf r) (d_r r) (d_w r) (d_e r) (d_locking r) (d_panicked r)
    (d_uart r) (d_in r) (d_out r) (d_crt r) (d_cursor r) v (d_kbdq r)
    (d_comq r).
Definition set_d_kbdq (v : list Z) (r : devstate) : devstate :=
  mkDev (d_inbuf r) (d_r r) (d_w r) (d_e r) (d_locking r) (d_panicked r)
    (d_uart r) (d_in r) (d_out r) (d_crt r) (d_cursor r) (d_shift r) v
    (d_comq r).
Definition set_d_comq (v : list Z) (r : devstate) : devstate :=
  mkDev (d_inbuf r) (d_r r) (d_w r) (d_e r) (d_locking r) (d_panicked r)
    (d_uart r) (d_in r) (d_out r) (d_crt r) (d_cursor r) (d_shift r)
    (d_kbdq r) v.

Definition set_k_cpu (v : cpu) (r : kstate) : kstate :=
  mkK v (k_lock r) (k_mem r) (k_kmem r) (k_page_counters r) (k_kpgdir r)
    (k_ptable r) (k_initproc r) (k_nextpid r) (k_nexttid r) (k_first r)
    (k_mxtable r) (k_nextmxid r) (k_ticks r) (k_fs r) (k_dev r).
Definition set_k_lock (v : lockid -> spinlock) (r : kstate) : kstate :=
  mkK (k_cpu r) v (k_mem r) (k_kmem r) (k_page_counters r) (k_kpgdir r)
    (k_ptable r) (k_initproc r) (k_nextpid r) (k_nexttid r) (k_first r)
    (k_mxtable r) (k_nextmxid r) (k_ticks r) (k_fs r) (k_dev r).
Definition set_k_mem (v : Z -> Z) (r : kstate) : kstate :=
  mkK (k_cpu r) (k_lock r) v (k_kmem r) (k_page_counters r) (k_kpgdir r)
    (k_ptable r) (k_initproc r) (k_nextpid r) (k_nexttid r) (k_first r)
    (k_mxtable r) (k_nextmxid r) (k_ticks r) (k_fs r) (k_dev r).
Definition set_k_kmem (v : kmem_t) (r : kstate) : kstate :=
  mkK (k_cpu r) (k_lock r) (k_mem r) v (k_page_counters r) (k_kpgdir r)
    (k_ptable r) (k_initproc r) (k_nextpid r) (k_nexttid r) (k_first r)
    (k_mxtable r) (k_nextmxid r) (k_ticks r) (k_fs r) (k_dev r).
Definition set_k_page_counters (v : Z -> Z) (r : kstate) : kstate :=
  mkK (k_cpu r) (k_lock r) (k_mem r) (k_kmem r) v (k_kpgdir r) (k_ptable r)
    (k_initproc r) (k_nextpid r) (k_nexttid r) (k_first r) (k_mxtable r)
    (k_nextmxid r) (k_ticks r) (k_fs r) (k_dev r).
Definition set_k_kpgdir (v : Z) (r : kstate) : kstate :=
  mkK (k_cpu r) (k_lock r) (k_mem r) (k_kmem r) (k_page_counters r) v
    (k_ptable r) (k_initproc r) (k_nextpid r) (k_nexttid r) (k_first r)
    (k_mxtable r) (k_nextmxid r) (k_ticks r) (k_fs r) (k_dev r).
Definition set_k_ptable (v : list proc) (r : kstate) : kstate :=
  mkK (k_cpu r) (k_lock r) (k_mem r) (k_kmem r) (k_page_counters r)
    (k_kpgdir r) v (k_initproc r) (k_nextpid r) (k_nexttid r) (k_first r)
    (k_mxtable r) (k_nextmxid r) (k_ticks r) (k_fs r) (k_dev r).
Definition set_k_initproc (v : option nat) (r : kstate) : kstate :=
  mkK (k_cpu r) (k_lock r) (k_mem r) (k_kmem r) (k_page_counters r)
    (k_kpgdir r) (k_ptable r) v (k_nextpid r) (k_nexttid r) (k_first r)
    (k_mxtable r) (k_nextmxid r) (k_ticks r) (k_fs r) (k_dev r).
Definition set_k_nextpid (v : Z) (r : kstate) : kstate :=
  mkK (k_cpu r) (k_lock r) (k_mem r) (k_kmem r) (k_page_counters r)
    (k_kpgdir r) (k_ptable r) (k_initproc r) v (k_nexttid r) (k_first r)
    (k_mxtable r) (k_nextmxid r) (k_ticks r) (k_fs r) (k_dev r).
Definition set_k_nexttid (v : Z) (r : kstate) : kstate :=
  mkK (k_cpu r) (k_lock r) (k_mem r) (k_kmem r) (k_page_counters r)
    (k_kpgdir r) (k_ptable r) (k_initproc r) (k_nextpid r) v (k_first r)
    (k_mxtable r) (k_nextmxid r) (k_ticks r) (k_fs r) (k_dev r).
Definition set_k_first (v : Z) (r : kstate) : kstate :=
  mkK (k_cpu r) (k_lock r) (k_mem r) (k_kmem r) (k_page_counters r)
    (k_kpgdir r) (k_ptable r) (k_initproc r) (k_nextpid r) (k_nexttid r) v
    (k_mxtable r) (k_nextmxid r) (k_ticks r) (k_fs r) (k_dev r).
Definition set_k_mxtable (v : list kthread_mutex_t) (r : kstate) : kstate :=
  mkK (k_cpu r) (k_lock r) (k_mem r) (k_kmem r) (k_page_counters r)
    (k_kpgdir r) (k_ptable r) (k_initproc r) (k_nextpid r) (k_nexttid r)
    (k_first r) v (k_nextmxid r) (k_ticks r) (k_fs r) (k_dev r).
Definition set_k_nextmxid (v : Z) (r : kstate) : kstate :=
  mkK (k_cpu r) (k_lock r) (k_mem r) (k_kmem r) (k_page_counters r)
    (k_kpgdir r) (k_ptable r) (k_initproc r) (k_nextpid r) (k_nexttid r)
    (k_first r) (k_mxtable r) v (k_ticks r) (k_fs r) (k_dev r).
Definition set_k_ticks (v : Z) (r : kstate) : kstate :=
  mkK (k_cpu r) (k_lock r) (k_mem r) (k_kmem r) (k_page_counters r)
    (k_kpgdir r) (k_ptable r) (k_initproc r) (k_nextpid r) (k_nexttid r)
    (k_first r) (k_mxtable r) (k_nextmxid r) v (k_fs r) (k_dev r).
Definition set_k_fs (v : fsstate) (r : kstate) : kstate :=
  mkK (k_cpu r) (k_lock r) (k_mem r) (k_kmem r) (k_page_counters r)
    (k_kpgdir r) (k_ptable r) (k_initproc r) (k_nextpid r) (k_nexttid r)
    (k_first r) (k_mxtable r) (k_nextmxid r) (k_ticks r) v (k_dev r).
Definition set_k_dev (v : devstate) (r : kstate) : kstate :=
  mkK (k_cpu r) (k_lock r) (k_mem r) (k_kmem r) (k_page_counters r)
    (k_kpgdir r) (k_ptable r) (k_initproc r) (k_nextpid r) (k_nexttid r)
    (k_first r) (k_mxtable r) (k_nextmxid r) (k_ticks r) (k_fs r) v.

(** ** Decidable equality *)

#[global] Instance procstate_eq_dec : EqDecision procstate.
Proof. solve_decision. Defined.
#[global] Instance mxstate_eq_dec : EqDecision mxstate.
Proof. solve_decision. Defined.
#[global] Instance fdtype_eq_dec : EqDecision fdtype.
Proof. solve_decision. Defined.
#[global] Instance chan_eq_dec : EqDecision chan.
Proof. solve_decision. Defined.
#[global] Instance lockid_eq_dec : EqDecision lockid.
Proof. solve_decision. Defined.

(** C's [==] on states, channels and pointers. *)
Definition state_eqb (a b : procstate) : bool := bool_decide (a = b).
Definition chan_eqb (a b : chan) : bool := bool_decide (a = b).

(** ** Symbols the linker assigns

    kernel.ld places the kernel at [KERNLINK], its data at the page-aligned
    symbol [data] and the first free byte at [end]; [forkret] and [trapret]
    are code addresses, [ts_addr c] is the address of [cpus[c].ts] and
    [kcpu_addr c] that of [cpus[c].cpu]; [initcode] is the program of
    initcode.S and [fs_img_size] the size of the disk image that memide.c
    links in. *)
Class Symbols : Type := {
  sym_data : Z;
  sym_end : Z;
  sym_forkret : Z;
  sym_trapret : Z;
  ts_addr : Z -> Z;
  kcpu_addr : Z -> Z;
  initcode : list Z;
  fs_img_size : Z
}.

(** What kernel.ld promises of them. *)
Class SymbolsOk `{Symbols} : Prop := {
  data_aligned : sym_data mod PGSIZE = 0;
  data_above : KERNLINK < sym_data;
  end_above : sym_data <= sym_end;
  end_below : sym_end <= KERNBASE + 4 * 1024 * 1024;
  forkret_word : 0 <= sym_forkret < 4294967296;
  trapret_word : 0 <= sym_trapret < 4294967296
}.
