(* ===== verification/KMonad.v ===== *)
(** * Kernel code as a state and error monad

    A kernel function is a computation [M A]: it runs on a schedule and a
    kernel state and returns a value, panics, faults (dereferences a null or
    wild pointer), or gives up the CPU for good.

    Code that gives up the CPU ([swtch] in [sched]) or spins on a lock lets
    the rest of the machine run: other CPUs, other threads and interrupt
    handlers.  What they do until this code runs again is one entry of the
    schedule, a function on kernel states.  Theorems quantify over the
    schedule, so they cover every interleaving at these points; when the
    schedule is used up the result is [Off], the state in which the thread
    stays off the CPU. *)

From stdpp Require Import base list gmap strings.
From S2P Require Import Prelude Memory Kernel.

Definition env : Type := list (kstate -> kstate).

Inductive res (A : Type) : Type :=
| Ok (a : A) (e : env) (s : kstate)
| Panic (msg : string) (s : kstate)
| Fault (msg : string)
| Off (s : kstate).
Arguments Ok {A} _ _ _.
Arguments Panic {A} _ _.
Arguments Fault {A} _.
Arguments Off {A} _.

Definition M (A : Type) : Type := env -> kstate -> res A.

#[global] Instance M_ret : MRet M := fun A a e s => Ok a e s.
#[global] Instance M_bind : MBind M := fun A B f m e s =>
  match m e s with
  | Ok a e' s' => f a e' s'
  | Panic msg s' => Panic msg s'
  | Fault msg => Fault msg
  | Off s' => Off s'
  end.

(** ** Primitives *)

Definition gets {A} (f : kstate -> A) : M A := fun e s => Ok (f s) e s.
Definition modify (f : kstate -> kstate) : M unit := fun e s => Ok tt e (f s).
Definition panic {A} (msg : string) : M A := fun _ s => Panic msg s.
Definition fault {A} (msg : string) : M A := fun _ _ => Fault msg.
(** [for(;;);]: this CPU does nothing any more. *)
Definition halt {A} : M A := fun _ s => Off s.
Definition when (b : bool) (m : M unit) : M unit := if b then m else mret tt.

(** The rest of the machine runs until this code gets the CPU (or its next
    turn in a spin loop) back. *)
Definition others_run : M unit := fun e s =>
  match e with
  | [] => Off s
  | f :: e' => Ok tt e' (f s)
  end.

(** [for(x in l) f(x)]. *)
Fixpoint forM {A} (l : list A) (f : A -> M unit) : M unit :=
  match l with
  | [] => mret tt
  | x :: l' => f x ;; forM l' f
  end.

(** A loop whose body either leaves it with a value or lets others run and
    goes round again.  Each round takes at least one entry of the schedule,
    so one more round than there are entries is enough fuel. *)
Fixpoint loop_fuel {A} (n : nat) (body : M (option A)) : M A :=
  match n with
  | O => fun _ s => Off s
  | S n' =>
    r ← body;
    match r with
    | Some a => mret a
    | None => loop_fuel n' body
    end
  end.
Definition loop {A} (body : M (option A)) : M A :=
  fun e s => loop_fuel (S (length e)) body e s.

(** ** Access to the tables *)

Definition upd_cpu (f : cpu -> cpu) (s : kstate) : kstate := set_k_cpu (f (k_cpu s)) s.
Definition upd_lock (l : lockid) (f : spinlock -> spinlock) (s : kstate) : kstate :=
  set_k_lock (fun l' => if decide (l' = l) then f (k_lock s l) else k_lock s l') s.
Definition upd_mem (f : mem -> mem) (s : kstate) : kstate := set_k_mem (f (k_mem s)) s.
Definition upd_kmem (f : kmem_t -> kmem_t) (s : kstate) : kstate :=
  set_k_kmem (f (k_kmem s)) s.
Definition upd_counter (i : Z) (f : Z -> Z) (s : kstate) : kstate :=
  set_k_page_counters
    (fun j => if j =? i then f (k_page_counters s i) else k_page_counters s j) s.
Definition upd_proc (i : nat) (f : proc -> proc) (s : kstate) : kstate :=
  set_k_ptable (alter f i (k_ptable s)) s.
Definition upd_thread (t : tptr) (f : thread -> thread) (s : kstate) : kstate :=
  upd_proc t.1 (fun p => set_p_threads (alter f t.2 (p_threads p)) p) s.
Definition upd_mutex (i : nat) (f : kthread_mutex_t -> kthread_mutex_t) (s : kstate) : kstate :=
  set_k_mxtable (alter f i (k_mxtable s)) s.
Definition upd_fs (f : fsstate -> fsstate) (s : kstate) : kstate := set_k_fs (f (k_fs s)) s.
Definition upd_dev (f : devstate -> devstate) (s : kstate) : kstate := set_k_dev (f (k_dev s)) s.

(** Dereference of a pointer that may be null, and of an index. *)
Definition deref {A} (msg : string) (o : option A) : M A :=
  match o with
  | Some a => mret a
  | None => fault msg
  end.
Definition proc_at (i : nat) : M proc :=
  gets (fun s => k_ptable s !! i) ≫= deref "proc".
Definition thread_of (s : kstate) (t : tptr) : option thread :=
  p ← k_ptable s !! t.1; p_threads p !! t.2.
Definition thread_at (t : tptr) : M thread :=
  gets (fun s => thread_of s t) ≫= deref "thread".

(** The per-CPU variables [proc] and [thread]. *)
Definition curproc : M nat := gets (fun s => c_proc (k_cpu s)) ≫= deref "proc".
Definition curthread : M tptr := gets (fun s => c_thread (k_cpu s)) ≫= deref "thread".

(** ** Facts about the monad *)

Section MonadLemmas.
Context {A B : Type}.

Lemma bind_ok (m : M A) (f : A -> M B) e s a e' s' :
  m e s = Ok a e' s' -> (m ≫= f) e s = f a e' s'.
Proof. intros H. unfold mbind, M_bind. by rewrite H. Qed.

Lemma bind_panic (m : M A) (f : A -> M B) e s msg s' :
  m e s = Panic msg s' -> (m ≫= f) e s = Panic msg s'.
Proof. intros H. unfold mbind, M_bind. by rewrite H. Qed.

Lemma bind_off (m : M A) (f : A -> M B) e s s' :
  m e s = Off s' -> (m ≫= f) e s = Off s'.
Proof. intros H. unfold mbind, M_bind. by rewrite H. Qed.

Lemma bind_inv_ok (m : M A) (f : A -> M B) e s b e' s' :
  (m ≫= f) e s = Ok b e' s' ->
  exists a e1 s1, m e s = Ok a e1 s1 /\ f a e1 s1 = Ok b e' s'.
Proof.
  unfold mbind, M_bind. destruct (m e s) as [a e1 s1| | |]; try done.
  intros H. by exists a, e1, s1.
Qed.

Lemma ret_ok (a : A) e s : (mret a : M A) e s = Ok a e s.
Proof. done. Qed.

Lemma gets_ok (f : kstate -> A) e s : gets f e s = Ok (f s) e s.
Proof. done. Qed.

End MonadLemmas.

Lemma bind_assoc {A B C} (m : M A) (f : A -> M B) (g : B -> M C) e s :
  ((m ≫= f) ≫= g) e s = (m ≫= (fun a => f a ≫= g)) e s.
Proof. unfold mbind, M_bind. by destruct (m e s). Qed.

Lemma modify_ok f e s : modify f e s = Ok tt e (f s).
Proof. done. Qed.

Lemma curproc_ok e s i : c_proc (k_cpu s) = Some i -> curproc e s = Ok i e s.
Proof. intros H. unfold curproc. erewrite bind_ok by apply gets_ok. by rewrite H. Qed.

Lemma curthread_ok e s t : c_thread (k_cpu s) = Some t -> curthread e s = Ok t e s.
Proof. intros H. unfold curthread. erewrite bind_ok by apply gets_ok. by rewrite H. Qed.

Lemma proc_at_ok e s i p : k_ptable s !! i = Some p -> proc_at i e s = Ok p e s.
Proof. intros H. unfold proc_at. erewrite bind_ok by apply gets_ok. by rewrite H. Qed.

Lemma thread_at_ok e s t x : thread_of s t = Some x -> thread_at t e s = Ok x e s.
Proof. intros H. unfold thread_at. erewrite bind_ok by apply gets_ok. by rewrite H. Qed.

(** ** Loops that let others run *)

(** A computation that leaves the schedule shorter whenever it asks for
    another round. *)
Definition consumes {A} (body : M (option A)) : Prop :=
  forall e s e' s', body e s = Ok None e' s' -> (length e' < length e)%nat.

(** A computation that takes from the schedule and never adds to it, and one
    that takes at least one entry whenever it returns. *)
Definition shrinks {A} (m : M A) : Prop :=
  forall e s a e' s', m e s = Ok a e' s' -> (length e' <= length e)%nat.
Definition takes {A} (m : M A) : Prop :=
  forall e s a e' s', m e s = Ok a e' s' -> (length e' < length e)%nat.

Lemma shrinks_bind {A B} (m : M A) (f : A -> M B) :
  shrinks m -> (forall a, shrinks (f a)) -> shrinks (m ≫= f).
Proof.
  intros Hm Hf e s b e' s' (a & e1 & s1 & H1 & H2)%bind_inv_ok.
  apply Hm in H1. apply Hf in H2. lia.
Qed.

Lemma takes_bind_l {A B} (m : M A) (f : A -> M B) :
  takes m -> (forall a, shrinks (f a)) -> takes (m ≫= f).
Proof.
  intros Hm Hf e s b e' s' (a & e1 & s1 & H1 & H2)%bind_inv_ok.
  apply Hm in H1. apply Hf in H2. lia.
Qed.

Lemma takes_bind_r {A B} (m : M A) (f : A -> M B) :
  shrinks m -> (forall a, takes (f a)) -> takes (m ≫= f).
Proof.
  intros Hm Hf e s b e' s' (a & e1 & s1 & H1 & H2)%bind_inv_ok.
  apply Hm in H1. apply Hf in H2. lia.
Qed.

Lemma shrinks_ret {A} (a : A) : shrinks (mret a).
Proof. by intros e s b e' s' [= _ <- _]. Qed.

Lemma shrinks_gets {A} (f : kstate -> A) : shrinks (gets f).
Proof. by intros e s b e' s' [= _ <- _]. Qed.

Lemma shrinks_modify f : shrinks (modify f).
Proof. intros e s b e' s' E. unfold modify in E. by simplify_eq. Qed.

Lemma shrinks_panic {A} msg : shrinks (panic msg : M A).
Proof. done. Qed.

Lemma shrinks_fault {A} msg : shrinks (fault msg : M A).
Proof. done. Qed.

Lemma takes_others : takes others_run.
Proof. intros [|f e] s a e' s' E; [done|]. cbn in E. simplify_eq/=. lia. Qed.

Lemma takes_shrinks {A} (m : M A) : takes m -> shrinks m.
Proof. intros H e s a e' s' E%H. lia. Qed.

Lemma shrinks_deref {A} msg (o : option A) : shrinks (deref msg o).
Proof. destruct o; [apply shrinks_ret|apply shrinks_fault]. Qed.

Lemma shrinks_when b m : shrinks m -> shrinks (when b m).
Proof. destruct b; [done|intros _; apply shrinks_ret]. Qed.

Lemma shrinks_loop_fuel {A} n (body : M (option A)) : shrinks body -> shrinks (loop_fuel n body).
Proof.
  intros Hb. induction n as [|n IH]; [done|]. cbn [loop_fuel].
  apply shrinks_bind; [done|]. intros [a|]; [apply shrinks_ret|done].
Qed.

Lemma shrinks_loop {A} (body : M (option A)) : shrinks body -> shrinks (loop body).
Proof. intros Hb e s a e' s'. by apply shrinks_loop_fuel. Qed.

Lemma shrinks_proc_at i : shrinks (proc_at i).
Proof. apply shrinks_bind; [apply shrinks_gets|intros; apply shrinks_deref]. Qed.

Lemma shrinks_thread_at i : shrinks (thread_at i).
Proof. apply shrinks_bind; [apply shrinks_gets|intros; apply shrinks_deref]. Qed.

Lemma shrinks_curproc : shrinks curproc.
Proof. apply shrinks_bind; [apply shrinks_gets|intros; apply shrinks_deref]. Qed.

Lemma shrinks_curthread : shrinks curthread.
Proof. apply shrinks_bind; [apply shrinks_gets|intros; apply shrinks_deref]. Qed.

#[export] Hint Resolve shrinks_ret shrinks_gets shrinks_modify shrinks_panic shrinks_fault
  takes_others shrinks_deref shrinks_when shrinks_loop shrinks_proc_at shrinks_thread_at
  shrinks_curproc shrinks_curthread : xv6.

(** Straight-line code shrinks the schedule when its pieces do. *)
Ltac shrink :=
  repeat match goal with
  | |- shrinks (_ ≫= _) => apply shrinks_bind; [|intros ?]
  | |- shrinks (if ?b then _ else _) => destruct b
  | |- shrinks (match ?o with _ => _ end) => destruct o
  | |- shrinks (when _ _) => apply shrinks_when
  | |- shrinks (loop _) => apply shrinks_loop
  | |- shrinks others_run => apply takes_shrinks, takes_others
  | |- shrinks _ => solve [auto with xv6]
  end.

(** A loop whose body lets others run before it goes round again. *)
Lemma consumes_bind {A B} (m : M A) (f : A -> M (option B)) :
  shrinks m -> (forall a, consumes (f a)) -> consumes (m ≫= f).
Proof.
  intros Hm Hf e s e' s' (a & e1 & s1 & H1 & H2)%bind_inv_ok.
  apply Hm in H1. apply Hf in H2. lia.
Qed.

Lemma consumes_some {A} (a : A) : consumes (mret (Some a)).
Proof. done. Qed.

Lemma consumes_takes {A} (m : M (option A)) : takes m -> consumes m.
Proof. intros H e s e' s' E. by apply H in E. Qed.

Lemma loop_fuel_enough {A} (body : M (option A)) :
  consumes body ->
  forall n e s, (length e < n)%nat -> loop_fuel n body e s = loop body e s.
Proof.
  intros Hc n. unfold loop. induction n as [|n IH]; intros e s Hn; [lia|].
  cbn [loop_fuel]. unfold mbind, M_bind.
  destruct (body e s) as [[a|] e' s'| | |] eqn:Hb; try done.
  pose proof (Hc _ _ _ _ Hb). rewrite IH by lia.
  destruct (length e) as [|k] eqn:Hk; [lia|].
  assert (Hgen : forall k1 k2 e1 s1, (length e1 < k1)%nat -> (length e1 < k2)%nat ->
                 loop_fuel k1 body e1 s1 = loop_fuel k2 body e1 s1).
  { clear -Hc. induction k1 as [|k1 IH]; intros k2 e1 s1 H1 H2; [lia|].
    destruct k2 as [|k2]; [lia|]. cbn [loop_fuel]. unfold mbind, M_bind.
    destruct (body e1 s1) as [[a|] e2 s2| | |] eqn:Hb; try done.
    pose proof (Hc _ _ _ _ Hb). apply IH; lia. }
  apply Hgen; lia.
Qed.

Lemma loop_unfold {A} (body : M (option A)) e s :
  consumes body ->
  loop body e s =
  (r ← body; match r with Some a => mret a | None => loop body end) e s.
Proof.
  intros Hc. unfold loop at 1. cbn [loop_fuel]. unfold mbind, M_bind.
  destruct (body e s) as [[a|] e' s'| | |] eqn:Hb; try done.
  apply loop_fuel_enough; [done|]. by eapply Hc.
Qed.

(** ** Lock table updates *)

Lemma lock_upd_eq l f s : k_lock (upd_lock l f s) l = f (k_lock s l).
Proof. simpl. by rewrite decide_True. Qed.

Lemma lock_upd_ne l l' f s : l <> l' -> k_lock (upd_lock l f s) l' = k_lock s l'.
Proof. intros H. simpl. by rewrite decide_False by congruence. Qed.

(** ** Thread and process table updates *)

Lemma ptable_upd_length i f s : length (k_ptable (upd_proc i f s)) = length (k_ptable s).
Proof. apply length_alter. Qed.

Lemma proc_upd_eq i f s p :
  k_ptable s !! i = Some p -> k_ptable (upd_proc i f s) !! i = Some (f p).
Proof. intros H. simpl. by rewrite list_lookup_alter_eq, H. Qed.

Lemma proc_upd_ne i j f s : i <> j -> k_ptable (upd_proc i f s) !! j = k_ptable s !! j.
Proof. intros H. simpl. by rewrite list_lookup_alter_ne. Qed.

Lemma thread_upd_eq t f s x :
  thread_of s t = Some x -> thread_of (upd_thread t f s) t = Some (f x).
Proof.
  unfold thread_of, upd_thread. simpl.
  destruct (k_ptable s !! t.1) as [p|] eqn:Hp; [|done]. simpl. intros Hx.
  rewrite list_lookup_alter_eq, Hp. simpl. by rewrite list_lookup_alter_eq, Hx.
Qed.

Lemma thread_upd_ne t t' f s :
  t <> t' -> thread_of (upd_thread t f s) t' = thread_of s t'.
Proof.
  intros Hne. unfold thread_of, upd_thread. simpl.
  destruct (decide (t.1 = t'.1)) as [Heq|Hn].
  - rewrite <- Heq. rewrite list_lookup_alter_eq.
    destruct (k_ptable s !! t.1) as [p|]; [|done]. simpl.
    rewrite list_lookup_alter_ne; [done|].
    intros H2. apply Hne. destruct t, t'; simpl in *; congruence.
  - by rewrite list_lookup_alter_ne.
Qed.

(** ** Running code in a proof *)

(** Unfold the monad so that [cbn] can run straight-line code. *)
Ltac mrun :=
  unfold mbind, M_bind, mret, M_ret, gets, modify, panic, fault, when, deref.

(** Run the first statement, whose result is known by [H]. *)
Tactic Notation "mstep" uconstr(H) :=
  cbn beta iota; erewrite bind_ok by (eapply H); cbn beta iota.
Tactic Notation "mstep" uconstr(H) "by" tactic3(t) :=
  cbn beta iota; erewrite bind_ok by (eapply H; t); cbn beta iota.
Tactic Notation "mstep" :=
  cbn beta iota;
  erewrite bind_ok by (first [apply ret_ok|apply gets_ok|apply modify_ok]);
  cbn beta iota.
