(* ===== verification/Boot.v ===== *)
(** * The state the boot loader leaves

    The kernel's globals before [main] runs: the data of the sources, with
    everything else zero, and one choice of the linker's symbols.  The
    concrete states of the other files start from here. *)

From S2P Require Import Prelude Memory Kernel KMonad.

(** ** Definitions *)

Definition zero_segdesc : segdesc := mkSegdesc 0 0 0 0 0 0 0 0 0 0 0 0 0.
Definition zero_cpu : cpu :=
  mkCpu 0 0 0 false None None 0 0 0 0 0 (replicate 7 zero_segdesc) 0.
Definition zero_lock : spinlock := mkLock 0 "" None (replicate 10 0).
Definition zero_thread : thread := mkThread 0 UNUSED 0 None 0 0 Cnull 0 (replicate 16 0).
Definition zero_proc : proc :=
  mkProc 0 0 UNUSED 0 None 0 (replicate NOFILE None) None (replicate 16 0)
    (replicate NTHREAD zero_thread) 0.
Definition zero_mutex : kthread_mutex_t := mkMutex FREE 0 None.
Definition zero_file : file := mkFile FD_NONE 0 0 0 0 None 0.
Definition zero_inode : inode := mkInode 0 0 0 0 0 0 0 0 0 (replicate 13 0).
Definition zero_buf : buf := mkBuf 0 0 0 0 0 None (replicate 512 0).
Definition zero_fs : fsstate :=
  mkFs (replicate NFILE zero_file) ∅ (replicate NINODE zero_inode) (mkSb 0 0 0 0 0 0 0)
    (replicate (S NBUF) zero_buf) (mkLog 0 0 0 0 0 0 (replicate (Z.to_nat LOGSIZE) 0)) (fun _ => replicate 512 0)
    [] None 0 (replicate 10 None).
Definition zero_dev : devstate := mkDev (replicate 128 0) 0 0 0 0 0 0 [] [] (fun _ => 0) 0 0 [] [].
Definition boot : kstate :=
  mkK zero_cpu (fun _ => zero_lock) (fun _ => 0) (mkKmem 0 0) (fun _ => 0) 0
    (replicate NPROC zero_proc) None 1 1 1 (replicate MAX_MUTEXES zero_mutex) 1 0 zero_fs zero_dev.

(** A kernel of a little more than one megabyte, linked at KERNLINK. *)
Definition sample_symbols : Symbols := {|
  sym_data := 2148560896; sym_end := 2148626432; sym_forkret := 2148540000;
  sym_trapret := 2148550000; ts_addr := fun c => 2148600000 + 256 * c;
  kcpu_addr := fun c => 2148600200 + 256 * c; initcode := [106; 0; 235; 254];
  fs_img_size := 512000 |}.

(** ** Lemmas *)

Lemma sample_symbols_ok : @SymbolsOk sample_symbols.
Proof. split; cbn; unfold KERNLINK, KERNBASE, EXTMEM; done || lia. Qed.
