(* ===== verification/Mmu.v ===== *)
(** * Page arithmetic (mmu.h, memlayout.h)

    The address and page-table-entry macros of mmu.h as bit operations on
    32-bit words, with the arithmetic form the other proofs use. *)

From S2P Require Import Prelude Kernel.

Definition PGROUNDUP (sz : Z) : Z := Z.land (u32 (sz + PGSIZE - 1)) 4294963200.
Definition PGROUNDDOWN (a : Z) : Z := Z.land a 4294963200.
Definition PDX (va : Z) : Z := Z.land (Z.shiftr va 22) 1023.
Definition PTX (va : Z) : Z := Z.land (Z.shiftr va 12) 1023.
Definition PGADDR (d t o : Z) : Z := u32 (Z.lor (Z.lor (Z.shiftl d 22) (Z.shiftl t 12)) o).
Definition PTE_ADDR (pte : Z) : Z := Z.land pte 4294963200.
Definition PTE_FLAGS (pte : Z) : Z := Z.land pte 4095.

(** [x & bit] as a C condition *)
Definition has (x bit : Z) : bool := truth (Z.land x bit).

(** [x & ~bit] on a 32-bit word *)
Definition clear (x bit : Z) : Z := Z.land x (u32 (Z.lnot bit)).

Definition SEG (type base lim dpl : Z) : segdesc :=
  mkSegdesc (Z.land (Z.shiftr lim 12) 65535) (Z.land base 65535)
    (Z.land (Z.shiftr base 16) 255) type 1 dpl 1 (Z.shiftr lim 28) 0 0 1 1
    (Z.shiftr base 24).
Definition SEG16 (type base lim dpl : Z) : segdesc :=
  mkSegdesc (Z.land lim 65535) (Z.land base 65535)
    (Z.land (Z.shiftr base 16) 255) type 1 dpl 1 (Z.shiftr lim 16) 0 0 1 0
    (Z.shiftr base 24).

(** ** Arithmetic forms *)

Definition word (x : Z) : Prop := 0 <= x < 4294967296.
Definition aligned (x : Z) : Prop := x mod 4096 = 0.

Lemma mask_pages x : word x -> Z.land x 4294963200 = x / 4096 * 4096.
Proof.
  intros Hx. change 4294963200 with (Z.ldiff (Z.ones 32) (Z.ones 12)).
  rewrite Z.ldiff_land, Z.land_assoc, <- Z.ldiff_land.
  rewrite Z.land_ones by lia. rewrite Z.mod_small by exact Hx.
  rewrite Z.ldiff_ones_r, Z.shiftl_mul_pow2, Z.shiftr_div_pow2 by lia. done.
Qed.

Lemma PGROUNDDOWN_eq a : word a -> PGROUNDDOWN a = a / 4096 * 4096.
Proof. apply mask_pages. Qed.

Lemma PTE_ADDR_eq a : word a -> PTE_ADDR a = a / 4096 * 4096.
Proof. apply mask_pages. Qed.

Lemma PTE_FLAGS_eq a : PTE_FLAGS a = a mod 4096.
Proof. unfold PTE_FLAGS. change 4095 with (Z.ones 12). by rewrite Z.land_ones. Qed.

Lemma PGROUNDUP_eq a : 0 <= a -> a + 4095 < 4294967296 -> PGROUNDUP a = (a + 4095) / 4096 * 4096.
Proof.
  intros. unfold PGROUNDUP, PGSIZE. rewrite u32_small by lia.
  rewrite mask_pages by (unfold word; lia). do 2 f_equal. lia.
Qed.

Lemma PDX_eq va : word va -> PDX va = va / 4194304.
Proof.
  intros Hva. unfold PDX, word in *. change 1023 with (Z.ones 10).
  rewrite Z.land_ones, Z.shiftr_div_pow2 by lia.
  change (2 ^ 22) with 4194304. change (2 ^ 10) with 1024.
  apply Z.mod_small. split; [apply Z.div_pos; lia|].
  apply Z.div_lt_upper_bound; lia.
Qed.

Lemma PTX_eq va : PTX va = va / 4096 mod 1024.
Proof.
  unfold PTX. change 1023 with (Z.ones 10).
  by rewrite Z.land_ones, Z.shiftr_div_pow2 by lia.
Qed.

(** A virtual address is its directory index, table index and offset. *)
Lemma va_split va : word va -> va = PDX va * 4194304 + PTX va * 4096 + va mod 4096.
Proof.
  intros Hva. rewrite PDX_eq, PTX_eq by done.
  Z.div_mod_to_equations. lia.
Qed.

(** Two addresses with the same indices are on the same page. *)
Lemma same_page va vb :
  word va -> word vb -> PDX va = PDX vb -> PTX va = PTX vb -> va / 4096 = vb / 4096.
Proof.
  intros Ha Hb Hd Ht. pose proof (va_split va Ha) as Ea. pose proof (va_split vb Hb) as Eb.
  rewrite Hd, Ht in Ea. Z.div_mod_to_equations. lia.
Qed.

Lemma page_indices va vb :
  word va -> word vb -> va / 4096 = vb / 4096 -> PDX va = PDX vb /\ PTX va = PTX vb.
Proof.
  intros Ha Hb H. rewrite !PDX_eq, !PTX_eq, H by done. split; [|done].
  replace 4194304 with (4096 * 1024) by lia.
  rewrite <- !Z.div_div by lia. by rewrite H.
Qed.

Lemma PDX_range va : word va -> 0 <= PDX va < 1024.
Proof.
  intros Hva. rewrite PDX_eq by done. unfold word in Hva.
  split; [apply Z.div_pos; lia|apply Z.div_lt_upper_bound; lia].
Qed.

Lemma PTX_range va : 0 <= PTX va < 1024.
Proof. rewrite PTX_eq. apply Z.mod_pos_bound. lia. Qed.

(** ** Page table entries *)

Lemma land_aligned_small pa f : aligned pa -> 0 <= f < 4096 -> Z.land pa f = 0.
Proof.
  intros Ha Hf. apply Z.bits_inj'. intros n Hn. rewrite Z.land_spec, Z.bits_0.
  destruct (Z_lt_le_dec n 12).
  - assert (pa = Z.shiftl (pa / 4096) 12) as ->.
    { rewrite Z.shiftl_mul_pow2 by lia. change (2 ^ 12) with 4096.
      unfold aligned in Ha. pose proof (Z.div_mod pa 4096). lia. }
    by rewrite Z.shiftl_spec_low.
  - assert (f = f mod 2 ^ 12) as -> by (rewrite Z.mod_small; [done|exact Hf]).
    rewrite Z.mod_pow2_bits_high by lia. apply andb_false_r.
Qed.

Lemma lor_aligned pa f : aligned pa -> 0 <= f < 4096 -> Z.lor pa f = pa + f.
Proof. intros. symmetry. apply Z.add_nocarry_lor. by apply land_aligned_small. Qed.

Lemma aligned_add_div pa f : aligned pa -> 0 <= f < 4096 -> (pa + f) / 4096 * 4096 = pa.
Proof. unfold aligned. intros. Z.div_mod_to_equations. lia. Qed.

Lemma aligned_add_mod pa f : aligned pa -> 0 <= f < 4096 -> (pa + f) mod 4096 = f.
Proof. unfold aligned. intros. Z.div_mod_to_equations. lia. Qed.

Lemma PTE_ADDR_lor pa f :
  word pa -> aligned pa -> 0 <= f < 4096 -> PTE_ADDR (Z.lor pa f) = pa.
Proof.
  intros Hw Ha Hf. rewrite lor_aligned by done.
  rewrite PTE_ADDR_eq; [by apply aligned_add_div|].
  unfold word, aligned in *. split; [lia|]. Z.div_mod_to_equations. lia.
Qed.

Lemma PTE_FLAGS_lor pa f : aligned pa -> 0 <= f < 4096 -> PTE_FLAGS (Z.lor pa f) = f.
Proof.
  intros Ha Hf. rewrite PTE_FLAGS_eq, lor_aligned by done. by apply aligned_add_mod.
Qed.

(** A flag test looks only at the flags. *)
Lemma has_flags x b : 0 <= b < 4096 -> has x b = has (PTE_FLAGS x) b.
Proof.
  intros Hb. unfold has, PTE_FLAGS. rewrite <- Z.land_assoc. do 2 f_equal.
  change 4095 with (Z.ones 12). rewrite Z.land_comm, Z.land_ones by lia.
  symmetry. apply Z.mod_small. exact Hb.
Qed.

Lemma word_lor a b : word a -> word b -> word (Z.lor a b).
Proof.
  unfold word. intros Ha Hb. split; [apply Z.lor_nonneg; lia|].
  destruct (Z.eq_dec (Z.lor a b) 0) as [E|E]; [rewrite E; lia|].
  change 4294967296 with (2 ^ 32). apply Z.log2_lt_pow2.
  { assert (0 <= Z.lor a b) by (apply Z.lor_nonneg; lia). lia. }
  rewrite Z.log2_lor by lia.
  assert (forall x, 0 <= x < 2 ^ 32 -> Z.log2 x < 32).
  { intros x Hx. destruct (Z.eq_dec x 0) as [->|]; [done|]. apply Z.log2_lt_pow2; lia. }
  apply Z.max_lub_lt; auto.
Qed.

Lemma PTE_split pte : word pte -> pte = PTE_ADDR pte + PTE_FLAGS pte.
Proof.
  intros H. rewrite PTE_ADDR_eq, PTE_FLAGS_eq by done. pose proof (Z.div_mod pte 4096). lia.
Qed.

Lemma PTE_ADDR_aligned pte : word pte -> aligned (PTE_ADDR pte).
Proof. intros H. rewrite PTE_ADDR_eq by done. unfold aligned. apply Z.mod_mul. lia. Qed.

Lemma PTE_ADDR_word pte : word pte -> word (PTE_ADDR pte).
Proof.
  intros H. rewrite PTE_ADDR_eq by done. unfold word in *.
  split; [apply Z.mul_nonneg_nonneg; [apply Z.div_pos; lia|lia]|].
  Z.div_mod_to_equations. lia.
Qed.

Lemma PTE_FLAGS_range pte : 0 <= PTE_FLAGS pte < 4096.
Proof. rewrite PTE_FLAGS_eq. apply Z.mod_pos_bound. lia. Qed.

(** ** Setting and clearing one flag *)

(** A flag is a bit: [bit n] among the low twelve. *)
Lemma has_testbit x n : 0 <= n -> has x (2 ^ n) = Z.testbit x n.
Proof.
  intros Hn. unfold has, truth.
  assert (E : Z.land x (2 ^ n) = if Z.testbit x n then 2 ^ n else 0).
  { apply Z.bits_inj'. intros k Hk. rewrite Z.land_spec, Z.pow2_bits_eqb by done.
    destruct (Z.eqb_spec n k) as [->|Hne].
    - destruct (Z.testbit x k); [|by rewrite Z.bits_0]. by rewrite Z.pow2_bits_true.
    - rewrite andb_false_r. destruct (Z.testbit x n); [|by rewrite Z.bits_0].
      by rewrite Z.pow2_bits_false. }
  rewrite E. destruct (Z.testbit x n); [|done].
  destruct (Z.eqb_spec (2 ^ n) 0); [|done]. pose proof (Z.pow_pos_nonneg 2 n). lia.
Qed.

Lemma lor_testbit x n k : 0 <= n -> 0 <= k ->
  Z.testbit (Z.lor x (2 ^ n)) k = (k =? n) || Z.testbit x k.
Proof.
  intros Hn Hk. rewrite Z.lor_spec, Z.pow2_bits_eqb by done.
  rewrite (Z.eqb_sym n k). apply orb_comm.
Qed.

Lemma clear_testbit x n k : word x -> 0 <= n -> 0 <= k ->
  Z.testbit (clear x (2 ^ n)) k = negb (k =? n) && Z.testbit x k.
Proof.
  intros Hx Hn Hk. unfold clear, u32. change 4294967296 with (2 ^ 32).
  rewrite Z.land_spec. destruct (Z_lt_le_dec k 32).
  - rewrite Z.mod_pow2_bits_low, Z.lnot_spec, Z.pow2_bits_eqb by lia.
    rewrite (Z.eqb_sym n k). apply andb_comm.
  - assert (Z.testbit x k = false) as ->; [|by rewrite !andb_false_r].
    assert (x = x mod 2 ^ 32) as -> by (symmetry; apply Z.mod_small; exact Hx).
    by rewrite Z.mod_pow2_bits_high by lia.
Qed.

Lemma word_clear x b : word x -> word (clear x b).
Proof.
  intros Hx. assert (E : Z.land x (Z.ones 32) = x)
    by (rewrite Z.land_ones by lia; apply Z.mod_small; exact Hx).
  unfold clear. rewrite <- E, <- Z.land_assoc, (Z.land_comm (Z.ones 32)), Z.land_assoc.
  rewrite Z.land_ones by lia. apply (Z.mod_pos_bound _ (2 ^ 32)). lia.
Qed.

Lemma PTE_ADDR_testbit x k : 0 <= k -> Z.testbit (PTE_ADDR x) k = Z.testbit x k && (12 <=? k) && (k <? 32).
Proof.
  intros Hk. unfold PTE_ADDR. change 4294963200 with (Z.shiftl (Z.ones 20) 12).
  rewrite Z.land_spec, Z.shiftl_spec by done. rewrite <- andb_assoc. f_equal.
  destruct (Z.leb_spec 12 k); simpl.
  - destruct (Z.ltb_spec k 32).
    + rewrite Z.ones_spec_low; done || lia.
    + rewrite Z.ones_spec_high; done || lia.
  - apply Z.testbit_neg_r. lia.
Qed.

(** Flags do not change the address. *)
Lemma PTE_ADDR_set x n : 0 <= n < 12 -> PTE_ADDR (Z.lor x (2 ^ n)) = PTE_ADDR x.
Proof.
  intros Hn. apply Z.bits_inj'. intros k Hk. rewrite !PTE_ADDR_testbit, lor_testbit by lia.
  repeat (zcase; simpl); try lia; by rewrite ?andb_false_r.
Qed.

Lemma PTE_ADDR_clear x n : word x -> 0 <= n < 12 -> PTE_ADDR (clear x (2 ^ n)) = PTE_ADDR x.
Proof.
  intros Hx Hn. apply Z.bits_inj'. intros k Hk. rewrite !PTE_ADDR_testbit, clear_testbit by (done || lia).
  repeat (zcase; simpl); try lia; by rewrite ?andb_false_r.
Qed.
