(* ===== verification/Spinlock.v ===== *)
(** * Spin locks (spinlock.c)

    [acquire], [release], the nested interrupt disabling of
    [pushcli]/[popcli] and the call-stack recorder [getcallerpcs]; then the
    normal forms of critical sections that the other components use, and the
    lock protocol run by several CPUs at once. *)

From stdpp Require Import base list strings.
From S2P Require Import Prelude Memory Kernel KMonad.

(** ** Definitions *)

Definition initlock (lk : lockid) (name : string) : M unit :=
  modify (upd_lock lk (fun l => set_l_cpu None (set_l_locked 0 (set_l_name name l)))).

(** [lock->locked && lock->cpu == cpu] *)
Definition is_holding (lk : lockid) (s : kstate) : bool :=
  truth (l_locked (k_lock s lk)) &&
  bool_decide (l_cpu (k_lock s lk) = Some (c_id (k_cpu s))).
Definition holding (lk : lockid) : M bool := gets (is_holding lk).

(** The interrupt flag of %eflags and the instructions that set it. *)
Definition readeflags (s : kstate) : Z := if c_if (k_cpu s) then FL_IF else 0.
Definition cli : M unit := modify (upd_cpu (set_c_if false)).
Definition sti : M unit := modify (upd_cpu (set_c_if true)).

Definition pushcli : M unit :=
  eflags ← gets readeflags;
  cli;;
  n ← gets (fun s => c_ncli (k_cpu s));
  modify (upd_cpu (set_c_ncli (n + 1)));;
  when (n =? 0) (modify (upd_cpu (set_c_intena (Z.land eflags FL_IF)))).

Definition popcli : M unit :=
  eflags ← gets readeflags;
  if truth (Z.land eflags FL_IF) then panic "popcli - interruptible" else
  n ← gets (fun s => c_ncli (k_cpu s) - 1);
  modify (upd_cpu (set_c_ncli n));;
  if n <? 0 then panic "popcli" else
  intena ← gets (fun s => c_intena (k_cpu s));
  when ((n =? 0) && truth intena) sti.

(** Follow the %ebp chain: at most ten return addresses, then zeros. *)
Fixpoint walk_frames (m : mem) (ebp : Z) (n : nat) : list Z :=
  match n with
  | O => []
  | S n' =>
    if (ebp =? 0) || (ebp <? KERNBASE) || (ebp =? 4294967295)
    then replicate n 0
    else ld32 m (v2p (u32 (ebp + 4))) :: walk_frames m (ld32 m (v2p ebp)) n'
  end.
Definition getcallerpcs (v : Z) (s : kstate) : list Z :=
  walk_frames (k_mem s) (u32 (v - 8)) 10.

(** [xchg(&lk->locked, v)] *)
Definition xchg_locked (lk : lockid) (v : Z) : M Z := fun e s =>
  Ok (l_locked (k_lock s lk)) e (upd_lock lk (set_l_locked v) s).

Definition acquire (lk : lockid) : M unit :=
  pushcli;;
  h ← holding lk;
  if h : bool then panic "acquire" else
  loop (old ← xchg_locked lk 1;
        if old =? 0 then mret (Some tt) else others_run;; mret None);;
  modify (fun s => upd_lock lk (set_l_cpu (Some (c_id (k_cpu s)))) s);;
  modify (fun s => upd_lock lk (set_l_pcs (getcallerpcs (c_ebp (k_cpu s) + 8) s)) s).

Definition release (lk : lockid) : M unit :=
  h ← holding lk;
  if negb h then panic "release" else
  modify (upd_lock lk (fun l => set_l_pcs (<[0%nat:=0]> (l_pcs l)) l));;
  modify (upd_lock lk (set_l_cpu None));;
  xchg_locked lk 0;;
  popcli.

(** ** Normal forms of [acquire] and [release] *)

(** The CPU with interrupts pushed once more, and popped once. *)
Definition pushed (c : cpu) : cpu :=
  set_c_intena (if c_ncli c =? 0 then (if c_if c then FL_IF else 0) else c_intena c)
    (set_c_ncli (c_ncli c + 1) (set_c_if false c)).
Definition popped (c : cpu) : cpu :=
  set_c_if ((c_ncli c - 1 =? 0) && truth (c_intena c)) (set_c_ncli (c_ncli c - 1) c).

(** The state in which this CPU has taken [lk], and has given it back. *)
Definition acquired (lk : lockid) (s : kstate) : kstate :=
  upd_lock lk (fun l => mkLock 1 (l_name l) (Some (c_id (k_cpu s)))
                          (getcallerpcs (c_ebp (k_cpu s) + 8) s))
    (upd_cpu pushed s).
Definition released (lk : lockid) (s : kstate) : kstate :=
  upd_lock lk (fun l => mkLock 0 (l_name l) None (<[0%nat:=0]> (l_pcs l)))
    (upd_cpu popped s).

Definition unlocked (s : kstate) (lk : lockid) : Prop := l_locked (k_lock s lk) = 0.
Definition held (s : kstate) (lk : lockid) : Prop :=
  l_locked (k_lock s lk) = 1 /\ l_cpu (k_lock s lk) = Some (c_id (k_cpu s)).

(** Interrupts are off while the CPU is inside a pushed region. *)
Definition cli_ok (c : cpu) : Prop := 0 <= c_ncli c /\ (0 < c_ncli c -> c_if c = false).

(** ** Lemmas *)

Lemma upd_lock_compose lk f g s :
  upd_lock lk f (upd_lock lk g s) = upd_lock lk (fun l => f (g l)) s.
Proof.
  unfold upd_lock, set_k_lock. cbn. f_equal. apply functional_extensionality. intros l.
  by destruct (decide (l = lk)); [rewrite decide_True|].
Qed.

Lemma upd_lock_ext lk f g s :
  f (k_lock s lk) = g (k_lock s lk) -> upd_lock lk f s = upd_lock lk g s.
Proof. intros H. unfold upd_lock. by rewrite H. Qed.

Lemma pushcli_ok e s : pushcli e s = Ok tt e (upd_cpu pushed s).
Proof.
  destruct s as [c ? ? ? ? ? ? ? ? ? ? ? ? ? ? ?], c as [? n ? i ? ? ? ? ? ? ? ? ?].
  unfold pushcli, upd_cpu, pushed, cli. mrun. cbn.
  destruct (n =? 0); [|done]. by destruct i.
Qed.

Lemma popcli_ok e s :
  c_if (k_cpu s) = false -> 0 < c_ncli (k_cpu s) -> popcli e s = Ok tt e (upd_cpu popped s).
Proof.
  destruct s as [c ? ? ? ? ? ? ? ? ? ? ? ? ? ? ?], c as [? n ? i ? ? ? ? ? ? ? ? ?].
  cbn. intros -> Hn. unfold popcli, readeflags, upd_cpu, popped, sti. mrun.
  cbn -[Z.land Z.sub]. rewrite Z.land_0_l. cbn -[Z.sub].
  destruct (Z.ltb_spec (n - 1) 0); [lia|]. by destruct ((n - 1 =? 0) && _)%bool.
Qed.

Definition spin (lk : lockid) : M unit :=
  loop (old ← xchg_locked lk 1;
        if old =? 0 then mret (Some tt) else others_run;; mret None).

Lemma spin_consumes lk :
  consumes (old ← xchg_locked lk 1;
            if old =? 0 then mret (Some tt) else others_run;; mret None).
Proof.
  intros e s e' s'. unfold mbind, M_bind, xchg_locked. cbn.
  destruct (_ =? 0); [done|]. destruct e as [|f e]; simpl; [done|].
  intros [= <- <-]. lia.
Qed.

Lemma shrinks_acquire lk : shrinks (acquire lk).
Proof.
  unfold acquire, pushcli, cli, holding. shrink.
  intros e s b e' s' E. unfold xchg_locked in E. by simplify_eq.
Qed.

Lemma shrinks_release lk : shrinks (release lk).
Proof.
  unfold release, popcli, sti, holding. shrink.
  intros e s b e' s' E. unfold xchg_locked in E. by simplify_eq.
Qed.
#[export] Hint Resolve shrinks_acquire shrinks_release : xv6.

Lemma spin_free lk e s :
  unlocked s lk -> spin lk e s = Ok tt e (upd_lock lk (set_l_locked 1) s).
Proof.
  intros H. unfold spin. rewrite loop_unfold by apply spin_consumes.
  unfold mbind, M_bind, xchg_locked. by rewrite H.
Qed.

(** While another CPU holds the lock, one turn of the spin loop lets the
    rest of the machine run and tries again. *)
Lemma spin_busy lk f e s :
  ~ unlocked s lk ->
  spin lk (f :: e) s = spin lk e (f (upd_lock lk (set_l_locked 1) s)).
Proof.
  intros H. unfold spin at 1. rewrite loop_unfold by apply spin_consumes.
  unfold mbind, M_bind, xchg_locked. cbn.
  destruct (Z.eqb_spec (l_locked (k_lock s lk)) 0); [by destruct H|done].
Qed.

Lemma acquire_free lk e s : unlocked s lk -> acquire lk e s = Ok tt e (acquired lk s).
Proof.
  intros H. unfold acquire. rewrite (bind_ok _ _ _ _ _ _ _ (pushcli_ok e s)).
  assert (Hh : is_holding lk (upd_cpu pushed s) = false).
  { unfold is_holding. simpl. rewrite H. done. }
  unfold holding. rewrite (bind_ok _ _ _ _ _ _ _ (gets_ok _ _ _)), Hh.
  rewrite (bind_ok _ _ _ _ _ _ _ (spin_free lk e (upd_cpu pushed s) H)).
  rewrite (bind_ok _ _ _ _ _ _ _ (modify_ok _ _ _)), modify_ok.
  rewrite !upd_lock_compose. f_equal.
Qed.

Lemma acquire_recursive lk e s : held s lk -> exists s', acquire lk e s = Panic "acquire" s'.
Proof.
  intros [H1 H2]. unfold acquire. rewrite (bind_ok _ _ _ _ _ _ _ (pushcli_ok e s)).
  unfold holding. rewrite (bind_ok _ _ _ _ _ _ _ (gets_ok _ _ _)).
  unfold is_holding. simpl. rewrite H1, H2. rewrite bool_decide_true by done.
  by eexists.
Qed.

Lemma release_held lk e s :
  held s lk -> cli_ok (k_cpu s) -> 0 < c_ncli (k_cpu s) ->
  release lk e s = Ok tt e (released lk s).
Proof.
  intros [H1 H2] [_ Hif] Hn. unfold release, holding.
  rewrite (bind_ok _ _ _ _ _ _ _ (gets_ok _ _ _)).
  unfold is_holding. rewrite H1, H2, bool_decide_true by done. cbn [truth negb andb Z.eqb].
  rewrite (bind_ok _ _ _ _ _ _ _ (modify_ok _ _ _)).
  rewrite (bind_ok _ _ _ _ _ _ _ (modify_ok _ _ _)).
  unfold xchg_locked, mbind, M_bind. cbn beta iota.
  rewrite popcli_ok by (simpl; auto). f_equal. unfold released.
  change (upd_cpu popped (upd_lock lk (set_l_locked 0) ?x))
    with (upd_lock lk (set_l_locked 0) (upd_cpu popped x)).
  change (upd_cpu popped (upd_lock lk (set_l_cpu None) ?x))
    with (upd_lock lk (set_l_cpu None) (upd_cpu popped x)).
  match goal with |- context [upd_cpu popped (upd_lock lk ?f s)] =>
    change (upd_cpu popped (upd_lock lk f s)) with (upd_lock lk f (upd_cpu popped s)) end.
  by rewrite !upd_lock_compose.
Qed.

Lemma release_not_held lk e s :
  is_holding lk s = false -> release lk e s = Panic "release" s.
Proof.
  intros H. unfold release, holding.
  rewrite (bind_ok _ _ _ _ _ _ _ (gets_ok _ _ _)), H. done.
Qed.

(** ** Critical sections

    After [acquire]; ...; [release] the CPU is as before except for the saved
    interrupt flag, and the lock is free again. *)

Definition touched (c : cpu) : cpu :=
  set_c_intena (if c_ncli c =? 0 then (if c_if c then FL_IF else 0) else c_intena c) c.

Lemma popped_pushed c : cli_ok c -> popped (pushed c) = touched c.
Proof.
  destruct c as [? n ia i ? ? ? ? ? ? ? ? ?]. unfold cli_ok, popped, pushed, touched. cbn.
  intros [H0 H1]. replace (n + 1 - 1) with n by lia.
  destruct (Z.eqb_spec n 0) as [->|]; cbn.
  - by destruct i.
  - rewrite H1 by lia. done.
Qed.

Lemma cli_ok_pushed c : cli_ok c -> cli_ok (pushed c).
Proof. unfold cli_ok, pushed. cbn. intros [? ?]. split; [lia|done]. Qed.

Lemma cli_ok_popped c : cli_ok c -> 0 < c_ncli c -> cli_ok (popped c).
Proof.
  unfold cli_ok, popped. cbn. intros [? ?] ?. split; [lia|]. intros ?.
  destruct (Z.eqb_spec (c_ncli c - 1) 0); [lia|done].
Qed.

Lemma unlocked_acquired_ne lk lk' s :
  lk <> lk' -> unlocked s lk' -> unlocked (acquired lk s) lk'.
Proof. intros Hne H. unfold unlocked, acquired. by rewrite lock_upd_ne. Qed.

Lemma unlocked_released_eq lk s : unlocked (released lk s) lk.
Proof. unfold unlocked, released. by rewrite lock_upd_eq. Qed.

Lemma unlocked_released_ne lk lk' s :
  lk <> lk' -> unlocked s lk' -> unlocked (released lk s) lk'.
Proof. intros Hne H. unfold unlocked, released. by rewrite lock_upd_ne. Qed.

Lemma unlocked_released lk lk' s : unlocked s lk' -> unlocked (released lk s) lk'.
Proof.
  intros H. destruct (decide (lk = lk')) as [->|Hne].
  - apply unlocked_released_eq.
  - by apply unlocked_released_ne.
Qed.

Lemma held_acquired lk s : held (acquired lk s) lk.
Proof. unfold held, acquired. by rewrite lock_upd_eq. Qed.

Lemma held_acquired_ne lk lk' s : lk <> lk' -> held s lk' -> held (acquired lk s) lk'.
Proof. intros Hne [H1 H2]. unfold held, acquired. by rewrite lock_upd_ne. Qed.

Lemma held_released_ne lk lk' s : lk <> lk' -> held s lk' -> held (released lk s) lk'.
Proof. intros Hne [H1 H2]. unfold held, released. by rewrite lock_upd_ne. Qed.

Lemma cli_ok_acquired lk s : cli_ok (k_cpu s) -> cli_ok (k_cpu (acquired lk s)).
Proof. apply cli_ok_pushed. Qed.

Lemma cli_ok_released lk s :
  cli_ok (k_cpu s) -> 0 < c_ncli (k_cpu s) -> cli_ok (k_cpu (released lk s)).
Proof. apply cli_ok_popped. Qed.

Lemma ncli_acquired lk s : c_ncli (k_cpu (acquired lk s)) = c_ncli (k_cpu s) + 1.
Proof. done. Qed.

Lemma ncli_released lk s : c_ncli (k_cpu (released lk s)) = c_ncli (k_cpu s) - 1.
Proof. done. Qed.

(** One critical section that changes nothing else. *)
Definition crit (lk : lockid) (s : kstate) : kstate :=
  upd_lock lk (fun l => mkLock 0 (l_name l) None
                          (<[0%nat:=0]> (getcallerpcs (c_ebp (k_cpu s) + 8) s)))
    (upd_cpu touched s).

Lemma released_acquired lk s :
  cli_ok (k_cpu s) -> released lk (acquired lk s) = crit lk s.
Proof.
  intros H. unfold released, acquired.
  match goal with |- context [upd_cpu popped (upd_lock lk ?f ?x)] =>
    change (upd_cpu popped (upd_lock lk f x)) with (upd_lock lk f (upd_cpu popped x)) end.
  rewrite upd_lock_compose. unfold crit.
  assert (Hc : upd_cpu popped (upd_cpu pushed s) = upd_cpu touched s).
  { unfold upd_cpu, set_k_cpu. cbn. by rewrite popped_pushed. }
  by rewrite Hc.
Qed.

Lemma unlocked_crit lk lk' s : unlocked s lk' -> unlocked (crit lk s) lk'.
Proof.
  intros H. unfold unlocked, crit. destruct (decide (lk = lk')) as [->|Hne].
  - by rewrite lock_upd_eq.
  - by rewrite lock_upd_ne.
Qed.

Lemma held_crit_ne lk lk' s : lk <> lk' -> held s lk' -> held (crit lk s) lk'.
Proof. intros Hne [H1 H2]. unfold held, crit. by rewrite lock_upd_ne. Qed.

Lemma cli_ok_crit lk s : cli_ok (k_cpu s) -> cli_ok (k_cpu (crit lk s)).
Proof. done. Qed.

(** The side conditions on locks and interrupts: peel off the updates of
    other fields, then use the lemmas above. *)
Ltac ctl_ne := solve [discriminate | congruence].
Ltac ctl_step :=
  match goal with
  | H : ?P |- ?P => exact H
  | |- held (acquired ?lk _) ?lk => apply held_acquired
  | |- held (acquired _ _) _ => apply held_acquired_ne; [ctl_ne|]
  | |- held (released _ _) _ => apply held_released_ne; [ctl_ne|]
  | |- held (crit _ _) _ => apply held_crit_ne; [ctl_ne|]
  | |- held (?f ?s) ?lk => change (held s lk)
  | |- unlocked (released ?lk _) ?lk => apply unlocked_released_eq
  | |- unlocked (acquired _ _) _ => apply unlocked_acquired_ne; [ctl_ne|]
  | |- unlocked (released _ _) _ => apply unlocked_released
  | |- unlocked (crit _ _) _ => apply unlocked_crit
  | |- unlocked (?f ?s) ?lk => change (unlocked s lk)
  | |- cli_ok (k_cpu (acquired _ _)) => apply cli_ok_acquired
  | |- cli_ok (k_cpu (released _ _)) => apply cli_ok_released
  | |- cli_ok (k_cpu (crit _ _)) => apply cli_ok_crit
  | |- cli_ok (k_cpu (?f ?s)) => change (cli_ok (k_cpu s))
  | H : cli_ok (k_cpu ?s) |- _ < _ => destruct H as [? ?]; simpl in *; lia
  | |- _ < _ => simpl; lia
  | |- _ <> _ => ctl_ne
  end.
Ltac ctl := repeat ctl_step.
