(* ===== verification/SpinProtocol.v ===== *)
(** * The spin lock run by several CPUs

    [acquire] and [release] of one lock, cut into five groups of statements
    (below), between which other CPUs act.  The statements are the definitions
    of Spinlock.v, run on the shared state and the state of one CPU.  Shown: at most one CPU is between the [xchg] that took the lock and
    the [xchg] that gives it back, and neither function panics. *)

From stdpp Require Import base list strings.
From S2P Require Import Prelude Memory Kernel KMonad Boot Spinlock.

(** ** Definitions *)

(** Where a CPU is in [acquire]/[release]. *)
Inductive lkpc : Type :=
| Outside      (* not using the lock *)
| Spinning     (* in the while loop of acquire *)
| Taken        (* xchg returned 0, lk->cpu not yet recorded *)
| Inside       (* acquire has returned *)
| Leaving      (* release has cleared lk->cpu, not yet lk->locked *)
| Panicked.

#[global] Instance lkpc_eq_dec : EqDecision lkpc.
Proof. solve_decision. Defined.

Record smp : Type := mkSmp {
  shared : kstate;
  cpu_of : Z -> cpu;
  pc_of : Z -> lkpc
}.

(** The state as CPU [c] sees it, and the machine after [c] reached state
    [s] and moved to [p]. *)
Definition view (c : Z) (x : smp) : kstate := set_k_cpu (cpu_of x c) (shared x).
Definition after (c : Z) (x : smp) (s : kstate) (p : lkpc) : smp :=
  mkSmp s (fun d => if d =? c then k_cpu s else cpu_of x d)
          (fun d => if d =? c then p else pc_of x d).

(** [pushcli(); if(holding(lk)) panic("acquire");] *)
Definition acquire_enter (lk : lockid) (s : kstate) : kstate * lkpc :=
  match (pushcli;; holding lk) [] s with
  | Ok false _ s' => (s', Spinning)
  | _ => (s, Panicked)
  end.
(** [xchg(&lk->locked, 1) != 0] once *)
Definition acquire_try (lk : lockid) (s : kstate) : kstate * lkpc :=
  match xchg_locked lk 1 [] s with
  | Ok old _ s' => (s', if old =? 0 then Taken else Spinning)
  | _ => (s, Panicked)
  end.
(** [lk->cpu = cpu; getcallerpcs(&lk, lk->pcs);] *)
Definition acquire_record (lk : lockid) (s : kstate) : kstate * lkpc :=
  (upd_lock lk (set_l_pcs (getcallerpcs (c_ebp (k_cpu s) + 8) s))
     (upd_lock lk (set_l_cpu (Some (c_id (k_cpu s)))) s), Inside).
(** [if(!holding(lk)) panic("release"); lk->pcs[0] = 0; lk->cpu = 0;] *)
Definition release_check (lk : lockid) (s : kstate) : kstate * lkpc :=
  if is_holding lk s
  then (upd_lock lk (set_l_cpu None)
          (upd_lock lk (fun l => set_l_pcs (<[0%nat:=0]> (l_pcs l)) l) s), Leaving)
  else (s, Panicked).
(** [xchg(&lk->locked, 0); popcli();] *)
Definition release_store (lk : lockid) (s : kstate) : kstate * lkpc :=
  match (xchg_locked lk 0;; popcli) [] s with
  | Ok _ _ s' => (s', Outside)
  | _ => (s, Panicked)
  end.

(** One step of one CPU.  Inside the critical section a CPU changes anything
    but the lock; outside it changes anything but the lock and what the
    nesting of [pushcli] needs. *)
Inductive lk_step (lk : lockid) (x : smp) : smp -> Prop :=
| step_enter c : pc_of x c = Outside ->
    lk_step lk x (let '(s, p) := acquire_enter lk (view c x) in after c x s p)
| step_try c : pc_of x c = Spinning ->
    lk_step lk x (let '(s, p) := acquire_try lk (view c x) in after c x s p)
| step_record c : pc_of x c = Taken ->
    lk_step lk x (let '(s, p) := acquire_record lk (view c x) in after c x s p)
| step_work c s : pc_of x c = Inside ->
    k_lock s lk = k_lock (shared x) lk -> k_cpu s = cpu_of x c ->
    lk_step lk x (after c x s Inside)
| step_check c : pc_of x c = Inside ->
    lk_step lk x (let '(s, p) := release_check lk (view c x) in after c x s p)
| step_store c : pc_of x c = Leaving ->
    lk_step lk x (let '(s, p) := release_store lk (view c x) in after c x s p)
| step_elsewhere c s : pc_of x c = Outside ->
    k_lock s lk = k_lock (shared x) lk -> c_id (k_cpu s) = c -> cli_ok (k_cpu s) ->
    lk_step lk x (after c x s Outside).

Inductive lk_reach (lk : lockid) : smp -> Prop :=
| reach_init x :
    l_locked (k_lock (shared x) lk) = 0 -> l_cpu (k_lock (shared x) lk) = None ->
    (forall c, pc_of x c = Outside) ->
    (forall c, c_id (cpu_of x c) = c /\ cli_ok (cpu_of x c)) ->
    lk_reach lk x
| reach_step x y : lk_reach lk x -> lk_step lk x y -> lk_reach lk y.

(** The CPU owns the lock word. *)
Definition owns (p : lkpc) : Prop := p = Taken \/ p = Inside \/ p = Leaving.

Record lk_inv (lk : lockid) (x : smp) : Prop := {
  inv_free : l_locked (k_lock (shared x) lk) = 0 -> forall c, ~ owns (pc_of x c);
  inv_word : l_locked (k_lock (shared x) lk) = 0 \/ l_locked (k_lock (shared x) lk) = 1;
  inv_one : forall c d, owns (pc_of x c) -> owns (pc_of x d) -> c = d;
  inv_cpu : forall c, l_cpu (k_lock (shared x) lk) = Some c <-> pc_of x c = Inside;
  inv_id : forall c, c_id (cpu_of x c) = c /\ cli_ok (cpu_of x c);
  inv_cli : forall c, pc_of x c <> Outside -> 0 < c_ncli (cpu_of x c);
  inv_nopanic : forall c, pc_of x c <> Panicked
}.

(** ** Lemmas *)

Section Protocol.
Context (lk : lockid).

Lemma after_pc c x s p d : pc_of (after c x s p) d = if d =? c then p else pc_of x d.
Proof. done. Qed.

Lemma after_cpu c x s p d : cpu_of (after c x s p) d = if d =? c then k_cpu s else cpu_of x d.
Proof. done. Qed.

Lemma owns_dec p : owns p \/ ~ owns p.
Proof. unfold owns. destruct p; naive_solver. Qed.

(** A step of a CPU that owns the lock neither before nor after, and leaves
    the lock record alone up to the word being 1 when it was not free. *)
Lemma inv_bystander x c s p :
  lk_inv lk x -> ~ owns (pc_of x c) -> ~ owns p -> p <> Panicked ->
  k_lock s lk = k_lock (shared x) lk ->
  c_id (k_cpu s) = c -> cli_ok (k_cpu s) -> (p <> Outside -> 0 < c_ncli (k_cpu s)) ->
  lk_inv lk (after c x s p).
Proof.
  intros [Hf Hw H1 Hc Hi Hn Hp] Ho Ho' Hpk Hl Hid Hcli Hncli.
  assert (HnI : pc_of x c <> Inside) by (intros E; apply Ho; unfold owns; auto).
  assert (HnI' : p <> Inside) by (intros E; apply Ho'; unfold owns; auto).
  split; cbn [shared after]; rewrite ?Hl.
  - intros H0 d. rewrite after_pc. zcase; [done|]. by apply Hf.
  - done.
  - intros a b. rewrite !after_pc. repeat zcase; naive_solver.
  - intros d. rewrite after_pc, Hc. zcase; naive_solver.
  - intros d. rewrite after_cpu. zcase; [by subst|apply Hi].
  - intros d. rewrite after_pc, after_cpu. zcase; [done|apply Hn].
  - intros d. rewrite after_pc. zcase; [done|apply Hp].
Qed.

(** A step of the owner that stays the owner. *)
Lemma inv_owner x c s p :
  lk_inv lk x -> owns (pc_of x c) -> owns p ->
  l_locked (k_lock s lk) = l_locked (k_lock (shared x) lk) ->
  l_cpu (k_lock s lk) = (if decide (p = Inside) then Some c else None) ->
  k_cpu s = cpu_of x c ->
  lk_inv lk (after c x s p).
Proof.
  intros [Hf Hw H1 Hc Hi Hn Hp] Ho Ho' Hl Hcpu Hk.
  split; cbn [shared after]; rewrite ?Hl.
  - intros H0. exfalso. by apply (Hf H0 c).
  - done.
  - intros a b. rewrite !after_pc. repeat zcase; naive_solver.
  - intros d. rewrite after_pc, Hcpu. zcase.
    + subst. case_decide; naive_solver.
    + assert (pc_of x d <> Inside).
      { intros E. assert (d = c) by (apply H1; [rewrite E; unfold owns; auto|done]). done. }
      case_decide; naive_solver.
  - intros d. rewrite after_cpu, Hk. zcase; [by subst; apply Hi|apply Hi].
  - intros d. rewrite after_pc, after_cpu, Hk. zcase; [|apply Hn].
    intros _. subst. apply Hn. unfold owns in Ho. intros E. rewrite E in Ho. naive_solver.
  - intros d. rewrite after_pc. zcase; [|apply Hp]. unfold owns in Ho'. naive_solver.
Qed.

Lemma view_holding_outside x c :
  lk_inv lk x -> pc_of x c <> Inside -> is_holding lk (upd_cpu pushed (view c x)) = false.
Proof.
  intros Hx Hpc. unfold is_holding. cbn. rewrite (proj1 (inv_id _ _ Hx c)).
  rewrite bool_decide_false; [apply andb_false_r|].
  intros E. by apply Hpc, (inv_cpu _ _ Hx).
Qed.

(** What a CPU owns is decided by where it is. *)
Ltac pcs := unfold owns in *; intuition congruence.

Lemma inv_enter x c :
  lk_inv lk x -> pc_of x c = Outside ->
  lk_inv lk (let '(s, p) := acquire_enter lk (view c x) in after c x s p).
Proof.
  intros Hx Ho. pose proof (inv_id _ _ Hx c) as Hi.
  unfold acquire_enter. erewrite bind_ok by apply pushcli_ok. unfold holding, gets.
  rewrite view_holding_outside by (done || congruence).
  apply inv_bystander; try done; try (rewrite Ho; pcs); try pcs; cbn; try apply Hi.
  - apply cli_ok_pushed, Hi.
  - pose proof (proj1 (proj2 Hi)). lia.
Qed.

(** The [xchg] that finds the lock free makes its CPU the owner. *)
Lemma inv_taken x c s :
  lk_inv lk x -> pc_of x c = Spinning -> l_locked (k_lock (shared x) lk) = 0 ->
  k_lock s lk = set_l_locked 1 (k_lock (shared x) lk) -> k_cpu s = cpu_of x c ->
  lk_inv lk (after c x s Taken).
Proof.
  intros [Hf Hw H1 Hc Hi Hn Hp] Ho E Hl Hk.
  assert (HnI : forall d, pc_of x d <> Inside)
    by (intros d Hd; apply (Hf E d); rewrite Hd; unfold owns; auto).
  split; cbn [shared after]; rewrite ?Hl; cbn [l_locked l_cpu set_l_locked].
  - done.
  - auto.
  - intros a b. rewrite !after_pc.
    pose proof (Hf E a). pose proof (Hf E b). repeat zcase; subst; tauto.
  - intros d. rewrite after_pc, Hc. pose proof (HnI d). zcase; naive_solver.
  - intros d. rewrite after_cpu, Hk. zcase; [subst; apply Hi|apply Hi].
  - intros d. rewrite after_pc, after_cpu, Hk. zcase; [subst|apply Hn].
    intros _. apply Hn. by rewrite Ho.
  - intros d. rewrite after_pc. zcase; [done|apply Hp].
Qed.

Lemma inv_try x c :
  lk_inv lk x -> pc_of x c = Spinning ->
  lk_inv lk (let '(s, p) := acquire_try lk (view c x) in after c x s p).
Proof.
  intros Hx Ho. unfold acquire_try, xchg_locked. cbn -[upd_lock].
  destruct (Z.eqb_spec (l_locked (k_lock (shared x) lk)) 0) as [E|E].
  - apply inv_taken; try done. by rewrite lock_upd_eq.
  - apply inv_bystander; try done; try (rewrite Ho; pcs); try pcs;
      try apply (inv_id _ _ Hx c).
    + rewrite lock_upd_eq. cbn. destruct (inv_word _ _ Hx) as [|Hw]; [done|].
      destruct (k_lock (shared x) lk); cbn in *. by subst.
    + cbn. intros _. apply (inv_cli _ _ Hx). by rewrite Ho.
Qed.

Lemma inv_check x c :
  lk_inv lk x -> pc_of x c = Inside ->
  lk_inv lk (let '(s, p) := release_check lk (view c x) in after c x s p).
Proof.
  intros Hx Ho. unfold release_check.
  assert (is_holding lk (view c x) = true) as ->.
  { unfold is_holding. cbn. rewrite (proj1 (inv_id _ _ Hx c)).
    rewrite bool_decide_true by (by apply (inv_cpu _ _ Hx)).
    destruct (inv_word _ _ Hx) as [H0| ->]; [|done].
    exfalso. apply (inv_free _ _ Hx H0 c). rewrite Ho. unfold owns; auto. }
  apply inv_owner; try done; unfold owns; auto; rewrite ?lock_upd_eq; cbn; done.
Qed.

(** The owner that clears the word leaves no owner. *)
Lemma inv_cleared x c s :
  lk_inv lk x -> pc_of x c = Leaving ->
  k_lock s lk = set_l_locked 0 (k_lock (shared x) lk) -> k_cpu s = popped (cpu_of x c) ->
  lk_inv lk (after c x s Outside).
Proof.
  intros [Hf Hw H1 Hc Hi Hn Hp] Ho Hl0 Hk0.
  assert (HnI : forall d, pc_of x d <> Inside).
  { intros d Hd. assert (d = c) as -> by (apply H1; rewrite ?Hd, ?Ho; unfold owns; auto).
    congruence. }
  assert (Hcli : 0 < c_ncli (cpu_of x c)) by (apply Hn; congruence).
  split; cbn [shared after]; rewrite ?Hl0; cbn [l_locked l_cpu set_l_locked].
  - intros _ d. rewrite after_pc. zcase; [unfold owns; naive_solver|]. intros Hd.
    assert (d = c) by (apply H1; [done|rewrite Ho; unfold owns; auto]). done.
  - auto.
  - intros a b. rewrite !after_pc. repeat zcase; subst; unfold owns in *; naive_solver.
  - intros d. rewrite after_pc, Hc. pose proof (HnI d). zcase; naive_solver.
  - intros d. rewrite after_cpu, Hk0. zcase; [subst|apply Hi].
    split; [apply Hi|]. apply cli_ok_popped; [apply Hi|done].
  - intros d. rewrite after_pc, after_cpu. zcase; [done|apply Hn].
  - intros d. rewrite after_pc. zcase; [done|apply Hp].
Qed.

Lemma inv_store x c :
  lk_inv lk x -> pc_of x c = Leaving ->
  lk_inv lk (let '(s, p) := release_store lk (view c x) in after c x s p).
Proof.
  intros Hx Ho. unfold release_store, xchg_locked, mbind, M_bind. cbn beta iota.
  assert (Hcli : 0 < c_ncli (cpu_of x c)) by (apply (inv_cli _ _ Hx); congruence).
  rewrite popcli_ok; cbn [k_cpu upd_lock set_k_lock view set_k_cpu];
    [|by apply (proj2 (proj2 (inv_id _ _ Hx c)))|done].
  apply inv_cleared; try done. cbn. by rewrite decide_True.
Qed.

Lemma inv_step x y : lk_inv lk x -> lk_step lk x y -> lk_inv lk y.
Proof.
  intros Hx Hs. pose proof (inv_id _ _ Hx) as Hi.
  destruct Hs as [c Ho|c Ho|c Ho|c s Ho Hl Hk|c Ho|c Ho|c s Ho Hl Hid Hcli].
  - by apply inv_enter.
  - by apply inv_try.
  - unfold acquire_record. apply inv_owner; try done; unfold owns; auto;
      rewrite ?lock_upd_eq; cbn; try done. by rewrite (proj1 (Hi c)).
  - apply inv_owner; try done; unfold owns; auto; rewrite Hl; try done.
    rewrite decide_True by done. by apply (inv_cpu _ _ Hx).
  - by apply inv_check.
  - by apply inv_store.
  - apply inv_bystander; try done; rewrite ?Ho; pcs.
Qed.

Lemma inv_reach x : lk_reach lk x -> lk_inv lk x.
Proof.
  induction 1 as [x H0 H1 H2 H3|x y _ IH Hs]; [|by eapply inv_step].
  split; auto.
  - intros _ c. rewrite H2. unfold owns. naive_solver.
  - intros c d. rewrite H2. unfold owns. naive_solver.
  - intros c. rewrite H1, H2. naive_solver.
  - intros c. by rewrite H2.
  - intros c. by rewrite H2.
Qed.

End Protocol.

(** ** The protocol is safe *)

(** C2: Mutual exclusion of spin locks on any number of CPUs: however their
    steps interleave, two CPUs are never both past the successful [xchg] of
    [acquire] and before the [xchg] of [release], no CPU panics in [acquire]
    or [release], and interrupts are off on every CPU inside. *)
Theorem spinlock_mutual_exclusion lk x :
  lk_reach lk x ->
  (forall c d, owns (pc_of x c) -> owns (pc_of x d) -> c = d) /\
  (forall c, pc_of x c <> Panicked) /\
  (forall c, pc_of x c = Inside -> c_if (cpu_of x c) = false).
Proof.
  intros H%inv_reach. split; [apply H|split; [apply H|]].
  intros c Hc. apply (inv_id _ _ H c), (inv_cli _ _ H). congruence.
Qed.

(** ** Witness *)

(** CPU 0 has taken the lock while CPU 1 spins. *)
Definition smp_boot : smp := mkSmp boot (fun c => set_c_id c zero_cpu) (fun _ => Outside).
Definition lk_run (f : kstate -> kstate * lkpc) (c : Z) (x : smp) : smp :=
  let '(s, p) := f (view c x) in after c x s p.
Definition contended : smp :=
  lk_run (acquire_try Lkmem) 1 (lk_run (acquire_enter Lkmem) 1
    (lk_run (acquire_record Lkmem) 0 (lk_run (acquire_try Lkmem) 0
       (lk_run (acquire_enter Lkmem) 0 smp_boot)))).

Lemma contended_reach : lk_reach Lkmem contended.
Proof.
  unfold contended, lk_run.
  eapply reach_step; [|by apply step_try].
  eapply reach_step; [|by apply step_enter].
  eapply reach_step; [|by apply step_record].
  eapply reach_step; [|by apply step_try].
  eapply reach_step; [|by apply step_enter].
  apply reach_init; done || (intros c; split; [done|split; done]).
Qed.

Lemma spinlock_mutual_exclusion_witness :
  pc_of contended 0 = Inside /\ pc_of contended 1 = Spinning /\
  c_if (cpu_of contended 0) = false.
Proof.
  split; [reflexivity|split; [reflexivity|]].
  exact (proj2 (proj2 (spinlock_mutual_exclusion Lkmem contended contended_reach)) 0 eq_refl).
Defined.
