(* ===== verification/Kalloc.v ===== *)
(** * The physical page allocator (kalloc.c)

    Free pages are linked through their first word.  [free_list s l] says
    that the list that starts at [kmem.freelist] is exactly the pages [l]:
    distinct, page-aligned, between the end of the kernel and PHYSTOP. *)

From S2P Require Import Prelude Memory Kernel KMonad Boot Mmu Spinlock.

(** ** Definitions *)

Section Kalloc.
Context `{Symbols}.

(** [struct run]: the [next] pointer of a free page. *)
Definition run_next (m : mem) (r : Z) : Z := ld32 m (v2p r).

Definition kfree (v : Z) : M unit :=
  if truth (v mod PGSIZE) || (v <? sym_end) || (PHYSTOP <=? v2p v)
  then panic "kfree" else
  (* Fill with junk to catch dangling refs. *)
  modify (upd_mem (fun m => mset m (v2p v) 1 PGSIZE));;
  use_lock ← gets (fun s => km_use_lock (k_kmem s));
  when (truth use_lock) (acquire Lkmem);;
  head ← gets (fun s => km_freelist (k_kmem s));
  modify (upd_mem (fun m => st32 m (v2p v) head));;
  modify (upd_kmem (set_km_freelist v));;
  use_lock ← gets (fun s => km_use_lock (k_kmem s));
  when (truth use_lock) (release Lkmem).

Definition kalloc : M Z :=
  use_lock ← gets (fun s => km_use_lock (k_kmem s));
  when (truth use_lock) (acquire Lkmem);;
  r ← gets (fun s => km_freelist (k_kmem s));
  when (truth r) (modify (fun s => upd_kmem (set_km_freelist (run_next (k_mem s) r)) s));;
  use_lock ← gets (fun s => km_use_lock (k_kmem s));
  when (truth use_lock) (release Lkmem);;
  mret r.

(** [for(; p + PGSIZE <= vend; p += PGSIZE) kfree(p);] *)
Fixpoint freerange_from (n : nat) (p vend : Z) : M unit :=
  match n with
  | O => mret tt
  | S n' =>
    if u32 (p + PGSIZE) <=? vend
    then kfree p;; freerange_from n' (u32 (p + PGSIZE)) vend
    else mret tt
  end.
(** Each turn moves [p] one page up, so the pages below [vend] are enough
    turns. *)
Definition freerange (vstart vend : Z) : M unit :=
  freerange_from (S (Z.to_nat (vend / PGSIZE))) (PGROUNDUP vstart) vend.

Definition kinit1 (vstart vend : Z) : M unit :=
  initlock Lkmem "kmem";;
  modify (upd_kmem (set_km_use_lock 0));;
  freerange vstart vend.

Definition kinit2 (vstart vend : Z) : M unit :=
  freerange vstart vend;;
  modify (upd_kmem (set_km_use_lock 1)).

(** ** Invariant *)

(** A page the allocator manages. *)
Definition kpage (v : Z) : Prop :=
  v mod PGSIZE = 0 /\ sym_end <= v /\ KERNBASE <= v < KERNBASE + PHYSTOP.

Fixpoint chain (m : mem) (p : Z) (l : list Z) : Prop :=
  match l with
  | [] => p = 0
  | x :: l' => p = x /\ chain m (run_next m x) l'
  end.

Record free_list (s : kstate) (l : list Z) : Prop := {
  fl_chain : chain (k_mem s) (km_freelist (k_kmem s)) l;
  fl_nodup : NoDup l;
  fl_pages : Forall kpage l
}.

(** The allocator's lock can be taken. *)
Definition kmem_ready (s : kstate) : Prop := cli_ok (k_cpu s) /\ unlocked s Lkmem.

(** The state after the allocator's critical section. *)
Definition kmem_crit (s : kstate) : kstate :=
  if truth (km_use_lock (k_kmem s)) then crit Lkmem s else s.

(** The states after [kalloc] took the page at the head and after [kfree]. *)
Definition kalloc_state (s : kstate) : kstate :=
  upd_kmem (set_km_freelist (run_next (k_mem s) (km_freelist (k_kmem s)))) (kmem_crit s).
Definition kfree_state (v : Z) (s : kstate) : kstate :=
  upd_kmem (set_km_freelist v)
    (upd_mem (fun m => st32 m (v2p v) (km_freelist (k_kmem s)))
       (kmem_crit (upd_mem (fun m => mset m (v2p v) 1 PGSIZE) s))).

(** ** The allocator as an abstract stack

    What users of the allocator do: allocate, free, and write to memory. *)
Inductive kop : Type :=
| Alloc
| Free (v : Z)
| Client (f : mem -> mem).

Definition run_kop (o : kop) : M Z :=
  match o with
  | Alloc => kalloc
  | Free v => kfree v;; mret 0
  | Client f => modify (upd_mem f);; mret 0
  end.
Fixpoint run_kops (os : list kop) : M (list Z) :=
  match os with
  | [] => mret []
  | o :: os' => r ← run_kop o; rs ← run_kops os'; mret (r :: rs)
  end.

(** The specification: the free pages are a stack; [kalloc] returns 0 when
    it is empty. *)
Definition spec_kop (o : kop) (l : list Z) : Z * list Z :=
  match o with
  | Alloc => (default 0 (head l), tail l)
  | Free v => (0, v :: l)
  | Client _ => (0, l)
  end.
Fixpoint spec_kops (os : list kop) (l : list Z) : list Z * list Z :=
  match os with
  | [] => ([], l)
  | o :: os' =>
    let '(r, l1) := spec_kop o l in
    let '(rs, l2) := spec_kops os' l1 in (r :: rs, l2)
  end.

(** The rules for the users: free only pages that are not free, and do not
    write to free pages. *)
Definition legal_kop (o : kop) (l : list Z) : Prop :=
  match o with
  | Alloc => True
  | Free v => kpage v /\ v ∉ l
  | Client f => forall m x, x ∈ l -> forall a, x - KERNBASE <= a < x - KERNBASE + PGSIZE -> f m a = m a
  end.
Fixpoint legal_kops (os : list kop) (l : list Z) : Prop :=
  match os with
  | [] => True
  | o :: os' => legal_kop o l /\ legal_kops os' (spec_kop o l).2
  end.

(** ** Lemmas *)

Lemma v2p_kpage v : kpage v -> v2p v = v - KERNBASE.
Proof. intros (_ & _ & ?). unfold v2p, KERNBASE, PHYSTOP in *. apply u32_small. lia. Qed.

Lemma p2v_v2p v : KERNBASE <= v < 4294967296 -> p2v (v2p v) = v.
Proof. intros. unfold p2v, v2p, KERNBASE in *. rewrite (u32_small (v - _)), u32_small; lia. Qed.

Lemma v2p_p2v a : 0 <= a < KERNBASE -> v2p (p2v a) = a.
Proof. intros. unfold p2v, v2p, KERNBASE in *. rewrite (u32_small (a + _)), u32_small; lia. Qed.

Lemma kpage_bounds v :
  kpage v -> 0 <= v - KERNBASE /\ v - KERNBASE + 4096 <= PHYSTOP /\ (v - KERNBASE) mod 4096 = 0.
Proof.
  unfold kpage, KERNBASE, PHYSTOP, PGSIZE. intros (Ha & _ & ?).
  Z.div_mod_to_equations. lia.
Qed.

Lemma kpage_disjoint v w : kpage v -> kpage w -> v <> w -> v + 4096 <= w \/ w + 4096 <= v.
Proof.
  unfold kpage, PGSIZE. intros (Ha & _ & ?) (Hb & _ & ?) Hne.
  Z.div_mod_to_equations. lia.
Qed.

Lemma kpage_nonzero v : kpage v -> v <> 0.
Proof. unfold kpage, KERNBASE. lia. Qed.

Lemma kfree_guard v : kpage v ->
  truth (v mod PGSIZE) || (v <? sym_end) || (PHYSTOP <=? v2p v) = false.
Proof.
  intros Hv. rewrite v2p_kpage by done. destruct Hv as (Ha & He & Hr).
  rewrite Ha. cbn. repeat zcase; simpl; lia || done.
Qed.

Lemma kfree_ok v e s : kpage v -> kmem_ready s -> kfree v e s = Ok tt e (kfree_state v s).
Proof.
  intros Hv [Hc Hu]. unfold kfree. rewrite kfree_guard by done. mstep. mstep.
  unfold kfree_state, kmem_crit. cbn [k_kmem upd_mem set_k_mem].
  destruct (truth (km_use_lock (k_kmem s))) eqn:Hl; unfold when.
  - mstep acquire_free by (exact Hu). mstep. mstep. mstep. mstep.
    cbn [k_kmem km_use_lock upd_kmem set_k_kmem set_km_freelist upd_mem set_k_mem acquired
         upd_lock set_k_lock upd_cpu set_k_cpu]. rewrite Hl.
    rewrite release_held by ctl. rewrite <- released_acquired by ctl. done.
  - mstep. mstep. mstep. mstep. mstep.
    cbn [k_kmem km_use_lock upd_kmem set_k_kmem set_km_freelist upd_mem set_k_mem].
    by rewrite Hl.
Qed.

Lemma kfree_bad v e s : ~ (v mod PGSIZE = 0 /\ sym_end <= v /\ v2p v < PHYSTOP) ->
  kfree v e s = Panic "kfree" s.
Proof.
  intros Hv. unfold kfree.
  assert (truth (v mod PGSIZE) || (v <? sym_end) || (PHYSTOP <=? v2p v) = true) as ->; [|done].
  apply not_false_iff_true. intros E. zbool. apply Hv.
  apply truth_false in H0. lia.
Qed.

Lemma kalloc_empty e s :
  km_freelist (k_kmem s) = 0 -> kmem_ready s -> kalloc e s = Ok 0 e (kmem_crit s).
Proof.
  intros Hf [Hc Hu]. unfold kalloc. mstep. unfold kmem_crit.
  destruct (truth (km_use_lock (k_kmem s))) eqn:Hl; unfold when.
  - mstep acquire_free by (exact Hu). mstep.
    cbn [k_kmem acquired upd_lock set_k_lock upd_cpu set_k_cpu]. rewrite Hf. mstep. mstep.
    cbn [k_kmem acquired upd_lock set_k_lock upd_cpu set_k_cpu]. rewrite Hl.
    mstep release_held by ctl. by rewrite released_acquired by ctl.
  - mstep. mstep. rewrite Hf. mstep. mstep. rewrite Hl. done.
Qed.

Lemma kalloc_page e s :
  km_freelist (k_kmem s) <> 0 -> kmem_ready s ->
  kalloc e s = Ok (km_freelist (k_kmem s)) e (kalloc_state s).
Proof.
  intros Hf [Hc Hu]. unfold kalloc. mstep. unfold kalloc_state, kmem_crit.
  apply truth_true in Hf.
  destruct (truth (km_use_lock (k_kmem s))) eqn:Hl; unfold when.
  - mstep acquire_free by (exact Hu). mstep.
    cbn [k_kmem acquired upd_lock set_k_lock upd_cpu set_k_cpu]. rewrite Hf. mstep. mstep.
    cbn [k_kmem km_use_lock upd_kmem set_k_kmem set_km_freelist acquired upd_lock set_k_lock
         upd_cpu set_k_cpu]. rewrite Hl.
    mstep release_held by ctl. rewrite <- released_acquired by ctl. done.
  - mstep. mstep. rewrite Hf. mstep. mstep.
    cbn [k_kmem km_use_lock upd_kmem set_k_kmem set_km_freelist]. by rewrite Hl.
Qed.

(** ** The free list as a stack of pages *)

Lemma chain_frame m m' p l :
  (forall x, x ∈ l -> run_next m' x = run_next m x) -> chain m p l -> chain m' p l.
Proof.
  revert p. induction l as [|x l IH]; intros p Hx; simpl; [done|].
  intros [-> Hc]. split; [done|]. rewrite Hx by apply list_elem_of_here.
  apply IH; [|done]. intros y Hy. apply Hx. by apply list_elem_of_further.
Qed.

(** Memory may change anywhere but in the first words of the free pages. *)
Lemma free_list_frame s s' l :
  k_kmem s' = k_kmem s ->
  (forall x, x ∈ l -> kpage x ->
     ld32 (k_mem s') (x - KERNBASE) = ld32 (k_mem s) (x - KERNBASE)) ->
  free_list s l -> free_list s' l.
Proof.
  intros Hk Hm [Hc Hn Hp]. split; [|done..]. rewrite Hk.
  eapply chain_frame; [|exact Hc]. intros x Hx. unfold run_next.
  assert (kpage x) by (rewrite Forall_forall in Hp; by apply Hp).
  rewrite v2p_kpage by done. by apply Hm.
Qed.

Lemma free_list_page s l x : free_list s l -> x ∈ l -> kpage x.
Proof. intros [_ _ Hp] Hx. rewrite Forall_forall in Hp. by apply Hp. Qed.

(** The critical section changes neither memory nor the free list. *)
Lemma kmem_crit_mem s : k_mem (kmem_crit s) = k_mem s.
Proof. unfold kmem_crit. by destruct (truth _). Qed.

Lemma kmem_crit_kmem s : k_kmem (kmem_crit s) = k_kmem s.
Proof. unfold kmem_crit. by destruct (truth _). Qed.

Lemma kmem_crit_ready s : kmem_ready s -> kmem_ready (kmem_crit s).
Proof.
  unfold kmem_ready, kmem_crit. destruct (truth _); [|done]. intros [Hc Hu].
  split; [done|]. by apply unlocked_crit.
Qed.

Lemma kalloc_state_mem s : k_mem (kalloc_state s) = k_mem s.
Proof. apply kmem_crit_mem. Qed.

Lemma kfree_state_mem v s :
  k_mem (kfree_state v s) = st32 (mset (k_mem s) (v2p v) 1 PGSIZE) (v2p v) (km_freelist (k_kmem s)).
Proof. unfold kfree_state. cbn. by rewrite kmem_crit_mem. Qed.

Lemma kalloc_state_ready s : kmem_ready s -> kmem_ready (kalloc_state s).
Proof.
  intros H0. by apply kmem_crit_ready in H0.
Qed.

Lemma kfree_state_ready v s : kmem_ready s -> kmem_ready (kfree_state v s).
Proof.
  intros H0. assert (H1 : kmem_ready (upd_mem (fun m => mset m (v2p v) 1 PGSIZE) s)) by done.
  by apply kmem_crit_ready in H1.
Qed.

Lemma kalloc_pop e s x l :
  free_list s (x :: l) -> kmem_ready s ->
  kalloc e s = Ok x e (kalloc_state s) /\ free_list (kalloc_state s) l.
Proof.
  intros [[Hx Hc] Hn Hp] Hr. apply Forall_cons in Hp as [Hpx Hp].
  split.
  - rewrite kalloc_page; [by rewrite Hx| |done]. rewrite Hx. by apply kpage_nonzero.
  - apply NoDup_cons in Hn as [_ Hn]. split; [|done..].
    rewrite kalloc_state_mem. cbn. rewrite Hx. exact Hc.
Qed.

Lemma kalloc_none e s :
  free_list s [] -> kmem_ready s -> kalloc e s = Ok 0 e (kmem_crit s) /\ free_list (kmem_crit s) [].
Proof.
  intros [Hc ? ?] Hr. split; [by apply kalloc_empty|].
  split; [|done..]. by rewrite kmem_crit_kmem.
Qed.

Lemma chain_word m p l : Forall kpage l -> chain m p l -> word p.
Proof.
  unfold word. destruct l as [|x l]; simpl; [intros _ ->; lia|].
  intros [(_ & _ & ?) _]%Forall_cons [-> _]. unfold KERNBASE, PHYSTOP in *. lia.
Qed.

Lemma kfree_push e s v l :
  kpage v -> v ∉ l -> free_list s l -> kmem_ready s ->
  kfree v e s = Ok tt e (kfree_state v s) /\ free_list (kfree_state v s) (v :: l).
Proof.
  intros Hv Hnin [Hc Hn Hp] Hr. split; [by apply kfree_ok|].
  split; [|by apply NoDup_cons|by apply Forall_cons].
  rewrite kfree_state_mem. cbn. split; [done|]. unfold run_next at 1.
  rewrite ld32_st32_eq by (by eapply chain_word).
  eapply chain_frame; [|exact Hc]. intros x Hx. unfold run_next.
  assert (Hpx : kpage x) by (rewrite Forall_forall in Hp; by apply Hp).
  assert (x <> v) by congruence.
  destruct (kpage_disjoint x v); [done..| |];
    rewrite !v2p_kpage by done; rewrite ld32_st32_ne, ld32_mset_out; unfold PGSIZE; done || lia.
Qed.

(** ** [freerange] *)

(** The [n] pages that start at [p]. *)
Definition pages_from (p : Z) (n : nat) : list Z :=
  map (fun i => p + 4096 * Z.of_nat i) (seq 0 n).

Lemma pages_from_S p n : pages_from p (S n) = p :: pages_from (p + 4096) n.
Proof.
  unfold pages_from. cbn [seq map]. f_equal; [lia|].
  rewrite <- seq_shift, map_map. apply map_ext. intros i. lia.
Qed.

Lemma freerange_from_ok fuel n p vend e s l :
  (n < fuel)%nat -> 0 <= p -> vend <= KERNBASE + PHYSTOP ->
  p + 4096 * Z.of_nat n <= vend < p + 4096 * Z.of_nat n + 4096 ->
  Forall kpage (pages_from p n) -> (forall x, x ∈ pages_from p n -> x ∉ l) ->
  free_list s l -> kmem_ready s ->
  exists s', freerange_from fuel p vend e s = Ok tt e s' /\
    free_list s' (rev (pages_from p n) ++ l) /\ kmem_ready s'.
Proof.
  revert fuel p s l. induction n as [|n IH]; intros fuel p s l Hf H0 Hv Hr Hk Hd Hfl Hrd.
  - destruct fuel as [|fuel]; [lia|]. exists s. split; [|done].
    unfold KERNBASE, PHYSTOP in Hv.
    cbn [freerange_from]. unfold PGSIZE. rewrite u32_small by lia.
    destruct (Z.leb_spec (p + 4096) vend); [lia|done].
  - destruct fuel as [|fuel]; [lia|]. cbn [freerange_from].
    rewrite pages_from_S in *. apply Forall_cons in Hk as [Hkp Hk].
    unfold PGSIZE in *. unfold KERNBASE, PHYSTOP in Hv. rewrite u32_small by lia.
    destruct (Z.leb_spec (p + 4096) vend); [|lia].
    destruct (kfree_push e s p l) as [Hkf Hfl']; [done| |done..|].
    { apply Hd. apply list_elem_of_here. }
    mstep Hkf.
    destruct (IH fuel (p + 4096) (kfree_state p s) (p :: l)) as (s' & Hs' & Hl' & Hr');
      try done; try lia.
    { intros x Hx. apply not_elem_of_cons. split; [|by apply Hd, list_elem_of_further].
      unfold pages_from in Hx. apply list_elem_of_fmap in Hx as (i & -> & _). lia. }
    { by apply kfree_state_ready. }
    exists s'. split; [done|]. split; [|done]. cbn [rev]. rewrite <- app_assoc. done.
Qed.

Lemma run_kop_ok o e s l :
  free_list s l -> kmem_ready s -> legal_kop o l ->
  exists s', run_kop o e s = Ok (spec_kop o l).1 e s' /\
    free_list s' (spec_kop o l).2 /\ kmem_ready s'.
Proof.
  intros Hl Hr Ho. destruct o as [|v|f]; cbn [run_kop spec_kop fst snd].
  - destruct l as [|x l].
    + destruct (kalloc_none e s) as [-> ?]; [done..|]. eexists. split; [done|].
      split; [done|]. by apply kmem_crit_ready.
    + destruct (kalloc_pop e s x l) as [-> ?]; [done..|]. eexists. split; [done|].
      split; [done|]. by apply kalloc_state_ready.
  - destruct Ho as [Hv Hn]. destruct (kfree_push e s v l) as [Hk ?]; [done..|].
    mstep Hk. eexists. split; [done|]. split; [done|]. by apply kfree_state_ready.
  - mstep. eexists. split; [done|]. split; [|done].
    eapply free_list_frame; [| |exact Hl]; [done|]. intros x Hx Hp. cbn.
    apply ld32_ext. intros a Ha. apply (Ho _ x Hx). unfold PGSIZE. lia.
Qed.

(** C3: The page allocator implements a stack of pages: whatever sequence of
    [kalloc], [kfree] and writes to allocated memory is run, each call returns
    what the abstract stack returns (0 exactly when no page is free), nothing
    panics, and the free list in memory is again the abstract stack.  A page
    is never handed out twice without being freed in between, since the
    stack has no duplicates. *)
Theorem kalloc_refines_stack os e s l :
  free_list s l -> kmem_ready s -> legal_kops os l ->
  exists s', run_kops os e s = Ok (spec_kops os l).1 e s' /\
    free_list s' (spec_kops os l).2 /\ kmem_ready s'.
Proof.
  revert s l. induction os as [|o os IH]; intros s l Hl Hr Ho; cbn [run_kops spec_kops].
  - by exists s.
  - destruct Ho as [Ho Hos]. destruct (run_kop_ok o e s l) as (s1 & E1 & Hl1 & Hr1); [done..|].
    destruct (spec_kop o l) as [r l1]. destruct (IH s1 l1) as (s2 & E2 & Hl2 & Hr2); [done..|].
    destruct (spec_kops os l1) as [rs l2]. exists s2. split; [|done].
    mstep E1. by mstep E2.
Qed.

Lemma elem_of_pages_from x p n :
  x ∈ pages_from p n <-> exists i, 0 <= i < Z.of_nat n /\ x = p + 4096 * i.
Proof.
  unfold pages_from. rewrite list_elem_of_fmap. split.
  - intros (i & -> & Hi%elem_of_seq). exists (Z.of_nat i). lia.
  - intros (i & Hi & ->). exists (Z.to_nat i). rewrite elem_of_seq. split; lia.
Qed.

Lemma elem_of_rev (x : Z) l : x ∈ rev l <-> x ∈ l.
Proof. rewrite !list_elem_of_In. symmetry. apply in_rev. Qed.

(** The pages of [freerange(vstart, vend)]: the whole pages between. *)
Definition range_pages (vstart vend : Z) : list Z :=
  pages_from (PGROUNDUP vstart) (Z.to_nat ((vend - PGROUNDUP vstart) / 4096)).

Lemma range_pages_spec vstart vend x :
  0 <= vstart -> vend <= KERNBASE + PHYSTOP -> vstart <= vend ->
  x ∈ range_pages vstart vend <-> x mod 4096 = 0 /\ vstart <= x /\ x + 4096 <= vend.
Proof.
  unfold KERNBASE, PHYSTOP. intros H0 H1 H2. unfold range_pages.
  rewrite elem_of_pages_from, PGROUNDUP_eq by lia. split.
  - intros (i & Hi & ->). Z.div_mod_to_equations. lia.
  - intros (Ha & Hb & Hc). exists ((x - (vstart + 4095) / 4096 * 4096) / 4096).
    Z.div_mod_to_equations. lia.
Qed.

Lemma freerange_ok vstart vend e s l :
  sym_end <= vstart -> KERNBASE <= vstart <= vend -> vend <= KERNBASE + PHYSTOP ->
  PGROUNDUP vstart <= vend -> (forall x, x ∈ range_pages vstart vend -> x ∉ l) ->
  free_list s l -> kmem_ready s ->
  exists s', freerange vstart vend e s = Ok tt e s' /\
    free_list s' (rev (range_pages vstart vend) ++ l) /\ kmem_ready s'.
Proof.
  intros He Hb Hv Hs Hd Hl Hr. unfold KERNBASE, PHYSTOP in *.
  pose proof (PGROUNDUP_eq vstart ltac:(lia) ltac:(lia)) as Hup.
  apply freerange_from_ok; try done; try lia; unfold PGSIZE.
  all: try (Z.div_mod_to_equations; lia).
  apply Forall_forall. intros x Hx. apply range_pages_spec in Hx; unfold KERNBASE, PHYSTOP in *; try lia.
  unfold kpage, KERNBASE, PHYSTOP, PGSIZE. lia.
Qed.

Lemma free_list_use_lock s l v : free_list s l -> free_list (upd_kmem (set_km_use_lock v) s) l.
Proof. intros [? ? ?]. by split. Qed.

(** What [main] does with the allocator, the rest of the start-up code left
    out: [kinit1(end, P2V(4MB)); kinit2(P2V(4MB), P2V(PHYSTOP));]. *)
Definition kinit : M unit :=
  kinit1 sym_end (p2v (4 * 1024 * 1024));;
  kinit2 (p2v (4 * 1024 * 1024)) (p2v PHYSTOP).

Lemma kinit_range mid top e s :
  KERNBASE <= sym_end <= mid -> mid mod 4096 = 0 -> top mod 4096 = 0 ->
  mid <= top <= KERNBASE + PHYSTOP ->
  km_freelist (k_kmem s) = 0 -> cli_ok (k_cpu s) ->
  exists s' l, (kinit1 sym_end mid;; kinit2 mid top) e s = Ok tt e s' /\
    free_list s' l /\ kmem_ready s' /\ km_use_lock (k_kmem s') = 1 /\
    forall x, x ∈ l <-> x mod 4096 = 0 /\ sym_end <= x /\ x + 4096 <= top.
Proof.
  intros He Hm Ht Hmt Hf Hc. unfold KERNBASE, PHYSTOP in *.
  assert (Hup : PGROUNDUP sym_end <= mid /\ PGROUNDUP mid <= top).
  { rewrite !PGROUNDUP_eq by lia. Z.div_mod_to_equations. lia. }
  set (s0 := upd_kmem (set_km_use_lock 0)
               (upd_lock Lkmem (fun l => set_l_cpu None (set_l_locked 0 (set_l_name "kmem" l))) s)).
  destruct (freerange_ok sym_end mid e s0 []) as (s1 & E1 & Hl1 & Hr1);
    unfold KERNBASE, PHYSTOP; try lia; [intros ??; apply not_elem_of_nil|by split; [|constructor..]|by split|].
  destruct (freerange_ok mid top e s1 (rev (range_pages sym_end mid) ++ []))
    as (s2 & E2 & Hl2 & Hr2); unfold KERNBASE, PHYSTOP; try lia; try done.
  { intros x Hx%range_pages_spec; unfold KERNBASE, PHYSTOP; try lia.
    rewrite app_nil_r, elem_of_rev, range_pages_spec; unfold KERNBASE, PHYSTOP; lia. }
  eexists (upd_kmem (set_km_use_lock 1) s2), _. split_and!; [|by apply free_list_use_lock|done..|].
  - unfold kinit1, kinit2, initlock. rewrite !bind_assoc. mstep. rewrite bind_assoc. mstep.
    fold s0. mstep E1. by mstep E2.
  - intros x. rewrite !elem_of_app, !elem_of_rev.
    rewrite !range_pages_spec by (unfold KERNBASE, PHYSTOP; lia).
    rewrite elem_of_nil. clear - Hm Hmt He. Z.div_mod_to_equations. lia.
Qed.

(** Start-up puts every page of physical memory above the kernel on the free
    list, each exactly once, and nothing else: the pages [x] with
    [end <= x] and [x + PGSIZE <= P2V(PHYSTOP)].  From then on the allocator
    uses its lock, which is free. *)
Theorem kinit_frees_all `{!SymbolsOk} e s :
  km_freelist (k_kmem s) = 0 -> cli_ok (k_cpu s) ->
  exists s' l, kinit e s = Ok tt e s' /\ free_list s' l /\ kmem_ready s' /\
    km_use_lock (k_kmem s') = 1 /\
    forall x, x ∈ l <-> x mod PGSIZE = 0 /\ sym_end <= x /\ x + PGSIZE <= KERNBASE + PHYSTOP.
Proof.
  pose proof data_above. pose proof end_above. pose proof end_below.
  unfold KERNLINK, KERNBASE, EXTMEM in *.
  apply kinit_range; unfold KERNBASE, PHYSTOP; try done; change (p2v (4 * 1024 * 1024)) with 2151677952; lia.
Qed.

End Kalloc.

(** ** Witnesses *)

(** Two pages on the free list of the sample kernel. *)
Definition two_pages : list Z := [2148630528; 2148634624].
Definition two_pages_state : kstate :=
  upd_kmem (fun _ => mkKmem 1 2148630528)
    (upd_mem (fun m => st32 m 1146880 2148634624) boot).

Lemma two_pages_free : @free_list sample_symbols two_pages_state two_pages.
Proof.
  split.
  - vm_compute. repeat split; reflexivity.
  - apply (bool_decide_unpack _). vm_compute. exact I.
  - repeat constructor; vm_compute; done.
Qed.

Lemma kalloc_refines_stack_witness :
  exists s', @run_kops sample_symbols [Alloc; Free 2148630528; Alloc; Alloc; Alloc] [] two_pages_state
    = Ok [2148630528; 0; 2148630528; 2148634624; 0] [] s'.
Proof.
  destruct (@kalloc_refines_stack sample_symbols [Alloc; Free 2148630528; Alloc; Alloc; Alloc]
              [] two_pages_state two_pages) as (s' & E & _).
  - exact two_pages_free.
  - split; [split; done|done].
  - cbn. split_and!; try done.
    apply not_elem_of_cons. split; [done|apply not_elem_of_nil].
  - exists s'. exact E.
Defined.

Lemma kinit_frees_all_witness :
  exists s' l, @kinit sample_symbols [] boot = Ok tt [] s' /\ @free_list sample_symbols s' l.
Proof.
  destruct (@kinit_frees_all sample_symbols sample_symbols_ok [] boot) as (s' & l & E & Hl & _);
    [reflexivity|split; done|].
  exists s', l. split; [exact E|exact Hl].
Defined.
