(* ===== verification/Sched.v ===== *)
(** * Giving up the CPU: sched, yield, sleep and wakeup (proc.c)

    [swtch] hands the CPU to the scheduler; what the machine does until this
    thread is switched to again is one entry of the schedule (KMonad.v). *)

From S2P Require Import Prelude Memory Kernel KMonad Boot Mmu Spinlock.

(** ** Definitions *)

(** Enter the scheduler.  [swtch(&thread->context, cpu->scheduler)] is
    [others_run]. *)
Definition sched : M unit :=
  h ← holding Lptable;
  if negb h then panic "sched ptable.lock" else
  ncli ← gets (fun s => c_ncli (k_cpu s));
  if negb (ncli =? 1) then panic "sched locks" else
  i ← curproc;
  p ← proc_at i;
  if state_eqb (p_state p) RUNNING then panic "sched running" else
  eflags ← gets readeflags;
  if truth (Z.land eflags FL_IF) then panic "sched interruptible" else
  intena ← gets (fun s => c_intena (k_cpu s));
  t ← curthread;
  others_run;;
  modify (upd_cpu (set_c_intena intena)).

Definition yield : M unit :=
  acquire Lptable;;
  t ← curthread;
  modify (upd_thread t (set_t_state RUNNABLE));;
  sched;;
  release Lptable.

(** Atomically release [lk] and sleep on [ch]; [lk = None] is a null
    pointer. *)
Definition sleep (ch : chan) (lk : option lockid) : M unit :=
  p ← gets (fun s => c_proc (k_cpu s));
  t ← gets (fun s => c_thread (k_cpu s));
  match p, t, lk with
  | None, _, _ | _, None, _ => panic "sleep"
  | _, _, None => panic "sleep without lk"
  | Some _, Some t, Some lk =>
    when (negb (bool_decide (lk = Lptable))) (acquire Lptable;; release lk);;
    modify (upd_thread t (set_t_chan ch));;
    modify (upd_thread t (set_t_state SLEEPING));;
    sched;;
    (* Tidy up. *)
    t' ← curthread;
    modify (upd_thread t' (set_t_chan Cnull));;
    when (negb (bool_decide (lk = Lptable))) (release Lptable;; acquire lk)
  end.

(** Wake up every thread sleeping on [ch]: the two nested loops of wakeup1
    visit each thread of each process once. *)
Definition wake (ch : chan) (t : thread) : thread :=
  if state_eqb (t_state t) SLEEPING && chan_eqb (t_chan t) ch
  then set_t_state RUNNABLE t else t.
Definition wakeup1 (ch : chan) (s : kstate) : kstate :=
  set_k_ptable (map (fun p => set_p_threads (map (wake ch) (p_threads p)) p) (k_ptable s)) s.

Definition wakeup (ch : chan) : M unit :=
  acquire Lptable;;
  modify (wakeup1 ch);;
  release Lptable.

Definition acqptable : M unit := acquire Lptable.
Definition relptable : M unit := release Lptable.

(** ** Running in the kernel *)

(** This CPU runs thread [t] of process [i] in the kernel, holds no lock,
    and the per-CPU variables point at it. *)
Record running (s : kstate) (i : nat) (t : tptr) : Prop := {
  run_proc : c_proc (k_cpu s) = Some i;
  run_thread : c_thread (k_cpu s) = Some t;
  run_same : t.1 = i;
  run_ex : is_Some (thread_of s t);
  run_cli : cli_ok (k_cpu s);
  run_ncli : c_ncli (k_cpu s) = 0
}.

(** The state in which a thread that sleeps on [ch] has called [swtch]. *)
Definition dozed (t : tptr) (ch : chan) (s : kstate) : kstate :=
  upd_thread t (set_t_state SLEEPING) (upd_thread t (set_t_chan ch) s).

(** The state a sleeping thread leaves behind when it sleeps on [ch] giving
    up [lk]. *)
Definition sleep_point (t : tptr) (ch : chan) (lk : lockid) (s : kstate) : kstate :=
  dozed t ch (if bool_decide (lk = Lptable) then s else released lk (acquired Lptable s)).

(** The rest of [sleep] once the thread is switched to again. *)
Definition sleep_tail (lk : lockid) : M unit :=
  t' ← curthread;
  modify (upd_thread t' (set_t_chan Cnull));;
  when (negb (bool_decide (lk = Lptable))) (release Lptable;; acquire lk).

(** What the scheduler promises when it switches to thread [t]: the per-CPU
    variables point at it, it is RUNNING, and this CPU holds [ptable.lock]
    and nothing else, with interrupts off. *)
Record resumed (s : kstate) (i : nat) (t : tptr) : Prop := {
  rs_proc : c_proc (k_cpu s) = Some i;
  rs_thread : c_thread (k_cpu s) = Some t;
  rs_state : t_state <$> thread_of s t = Some RUNNING;
  rs_held : held s Lptable;
  rs_ncli : c_ncli (k_cpu s) = 1;
  rs_cli : cli_ok (k_cpu s)
}.

(** ** Lemmas *)

Lemma state_eqb_eq a b : state_eqb a b = true <-> a = b.
Proof. unfold state_eqb. by rewrite bool_decide_eq_true. Qed.

Lemma state_eqb_ne a b : state_eqb a b = false <-> a <> b.
Proof. unfold state_eqb. by rewrite bool_decide_eq_false. Qed.

Lemma state_eqb_refl a : state_eqb a a = true.
Proof. by apply state_eqb_eq. Qed.

(** [sched] reaches [swtch]. *)
Lemma sched_runs e s i t p :
  held s Lptable -> c_ncli (k_cpu s) = 1 -> c_if (k_cpu s) = false ->
  c_proc (k_cpu s) = Some i -> c_thread (k_cpu s) = Some t ->
  k_ptable s !! i = Some p -> p_state p <> RUNNING ->
  sched e s = match e with
              | [] => Off s
              | f :: e' => Ok tt e' (upd_cpu (set_c_intena (c_intena (k_cpu s))) (f s))
              end.
Proof.
  intros [H1 H2] Hn Hif Hp Ht Hi Hst. unfold sched, holding.
  mstep. unfold is_holding. rewrite H1, H2, bool_decide_true by done. cbn [truth negb andb Z.eqb].
  mstep. rewrite Hn. cbn [Z.eqb Pos.eqb negb].
  mstep curproc_ok by done. mstep proc_at_ok by done.
  rewrite (proj2 (state_eqb_ne _ _) Hst). mstep.
  unfold readeflags. rewrite Hif. change (truth (Z.land 0 FL_IF)) with false. mstep.
  mstep curthread_ok by done.
  unfold others_run. destruct e as [|f e]; [done|]. done.
Qed.

Lemma takes_sched : takes sched.
Proof.
  unfold sched, holding.
  repeat match goal with
  | |- takes (_ ≫= _) => apply takes_bind_r; [solve [auto with xv6]|intros ?]
  | |- takes (if ?b then _ else _) => destruct b; [done|]
  end.
  apply takes_bind_l; auto with xv6.
Qed.

Lemma takes_sleep ch lk : takes (sleep ch lk).
Proof.
  unfold sleep. do 2 (apply takes_bind_r; [by auto with xv6|intros ?]).
  destruct a as [p|]; [|done]. destruct a0 as [t|]; [|done]. destruct lk as [lk|]; [|done].
  do 3 (apply takes_bind_r; [shrink|intros ?]).
  apply takes_bind_l; [apply takes_sched|intros ?; shrink].
Qed.
#[export] Hint Resolve takes_sleep : xv6.

Lemma wake_state ch t :
  t_state (wake ch t) =
  if decide (t_state t = SLEEPING /\ t_chan t = ch) then RUNNABLE else t_state t.
Proof.
  unfold wake, state_eqb, chan_eqb. case_decide as Hd; repeat case_bool_decide; naive_solver.
Qed.

Lemma wakeup1_thread ch s t :
  thread_of (wakeup1 ch s) t = wake ch <$> thread_of s t.
Proof.
  unfold thread_of, wakeup1. cbn. rewrite list_lookup_fmap.
  destruct (k_ptable s !! t.1) as [p|]; [|done]. cbn.
  by rewrite list_lookup_fmap.
Qed.

Lemma wakeup1_proc ch s i :
  k_ptable (wakeup1 ch s) !! i =
  (fun p => set_p_threads (map (wake ch) (p_threads p)) p) <$> k_ptable s !! i.
Proof. unfold wakeup1. cbn. by rewrite list_lookup_fmap. Qed.

Lemma wakeup_ok ch e s :
  unlocked s Lptable -> cli_ok (k_cpu s) ->
  wakeup ch e s = Ok tt e (wakeup1 ch (crit Lptable s)).
Proof.
  intros Hu Hc. unfold wakeup. mstep acquire_free by done. mstep.
  rewrite release_held by ctl. rewrite <- released_acquired by done. done.
Qed.

Lemma running_not_if s : cli_ok (k_cpu s) -> c_ncli (k_cpu s) = 1 -> c_if (k_cpu s) = false.
Proof. intros [_ H] Hn. apply H. lia. Qed.

(** [sleep] up to [swtch], and after it. *)
Lemma sleep_runs ch lk e s i t p :
  c_proc (k_cpu s) = Some i -> c_thread (k_cpu s) = Some t ->
  k_ptable s !! i = Some p -> p_state p <> RUNNING ->
  held s lk -> c_ncli (k_cpu s) = 1 -> cli_ok (k_cpu s) ->
  (lk <> Lptable -> unlocked s Lptable) ->
  sleep ch (Some lk) e s =
  match e with
  | [] => Off (sleep_point t ch lk s)
  | f :: e' =>
    sleep_tail lk e'
      (upd_cpu (set_c_intena (c_intena (k_cpu (sleep_point t ch lk s))))
         (f (sleep_point t ch lk s)))
  end.
Proof.
  intros Hp Ht Hi Hst Hh Hn Hc Hu. unfold sleep. mstep. mstep. rewrite Hp, Ht.
  assert (Hpt : forall s', k_ptable s' = k_ptable s ->
    exists p', k_ptable (dozed t ch s') !! i = Some p' /\ p_state p' <> RUNNING).
  { intros s' E. unfold dozed, upd_thread. cbn. rewrite E.
    destruct (decide (t.1 = i)) as [<-|].
    - rewrite !list_lookup_alter_eq, Hi. cbn. by eexists.
    - rewrite !list_lookup_alter_ne by done. eauto. }
  unfold sleep_point, sleep_tail. case_bool_decide as Hd; unfold when; cbn [negb].
  - subst. mstep. mstep. mstep.
    destruct (Hpt s eq_refl) as (p' & Hp' & Hs').
    pose proof (sched_runs e (dozed t ch s) i t p' Hh Hn (running_not_if _ Hc Hn) Hp Ht Hp' Hs').
    destruct e as [|f e]; [by erewrite bind_off by done|]. by mstep H.
  - rewrite bind_assoc. mstep acquire_free by auto.
    mstep release_held by ctl. mstep. mstep.
    destruct (Hpt (released lk (acquired Lptable s)) eq_refl) as (p' & Hp' & Hs').
    pose proof (sched_runs e (dozed t ch (released lk (acquired Lptable s))) i t p').
    destruct e as [|f e].
    + erewrite bind_off; [reflexivity|]. apply H; [ctl|cbn; lia|cbn; by rewrite Hn|exact Hp|exact Ht|exact Hp'|exact Hs'].
    + erewrite bind_ok; [reflexivity|]. apply H; [ctl|cbn; lia|cbn; by rewrite Hn|exact Hp|exact Ht|exact Hp'|exact Hs'].
Qed.

Lemma sleep_tail_ptable e s t :
  c_thread (k_cpu s) = Some t ->
  sleep_tail Lptable e s = Ok tt e (upd_thread t (set_t_chan Cnull) s).
Proof. intros Ht. unfold sleep_tail. mstep curthread_ok by done. by mstep. Qed.

Lemma sleep_tail_lock lk e s t :
  lk <> Lptable -> c_thread (k_cpu s) = Some t ->
  held s Lptable -> cli_ok (k_cpu s) -> c_ncli (k_cpu s) = 1 -> unlocked s lk ->
  sleep_tail lk e s =
  Ok tt e (acquired lk (released Lptable (upd_thread t (set_t_chan Cnull) s))).
Proof.
  intros Hne Ht Hh Hc Hn Hu. unfold sleep_tail. mstep curthread_ok by done. mstep.
  rewrite bool_decide_false by done. unfold when; cbn [negb].
  mstep release_held by ctl. apply acquire_free. ctl.
Qed.

Lemma dozed_thread t ch s th :
  thread_of s t = Some th ->
  thread_of (dozed t ch s) t = Some (set_t_state SLEEPING (set_t_chan ch th)).
Proof. intros H. unfold dozed. by do 2 apply thread_upd_eq. Qed.

Lemma thread_of_ptable s s' t : k_ptable s' = k_ptable s -> thread_of s' t = thread_of s t.
Proof. unfold thread_of. by intros ->. Qed.

Lemma sleep_point_thread t ch lk s th :
  thread_of s t = Some th ->
  thread_of (sleep_point t ch lk s) t = Some (set_t_state SLEEPING (set_t_chan ch th)).
Proof. intros H. unfold sleep_point. apply dozed_thread. by destruct (bool_decide _). Qed.

(** A caller that may sleep: it runs on this CPU with [lk] as its only lock. *)
Record may_sleep (s : kstate) (i : nat) (t : tptr) (lk : lockid) : Prop := {
  ms_proc : c_proc (k_cpu s) = Some i;
  ms_thread : c_thread (k_cpu s) = Some t;
  ms_state : exists p, k_ptable s !! i = Some p /\ p_state p <> RUNNING;
  ms_ex : is_Some (thread_of s t);
  ms_held : held s lk;
  ms_ncli : c_ncli (k_cpu s) = 1;
  ms_cli : cli_ok (k_cpu s);
  ms_ptable : lk <> Lptable -> unlocked s Lptable
}.

Lemma sleep_off ch lk s i t :
  may_sleep s i t lk -> sleep ch (Some lk) [] s = Off (sleep_point t ch lk s).
Proof.
  intros [Hp Ht (p & Hi & Hst) Hth Hh Hn Hc Hu]. by rewrite (sleep_runs ch lk [] s i t p).
Qed.

Lemma sleep_point_locks t ch lk s :
  lk <> Lptable -> held s lk -> unlocked s Lptable ->
  held (sleep_point t ch lk s) Lptable /\ unlocked (sleep_point t ch lk s) lk.
Proof.
  intros Hne Hh Hu. unfold sleep_point. rewrite bool_decide_false by done.
  split; unfold dozed; ctl.
Qed.

(** The state in which [sleep] returns, when the machine did [f] meanwhile. *)
Definition woken (t : tptr) (ch : chan) (lk : lockid) (f : kstate -> kstate) (s : kstate) : kstate :=
  let s1 := sleep_point t ch lk s in
  acquired lk (released Lptable (upd_thread t (set_t_chan Cnull)
    (upd_cpu (set_c_intena (c_intena (k_cpu s1))) (f s1)))).

Lemma sleep_woken ch lk s i t f e :
  may_sleep s i t lk -> lk <> Lptable ->
  resumed (f (sleep_point t ch lk s)) i t -> unlocked (f (sleep_point t ch lk s)) lk ->
  sleep ch (Some lk) (f :: e) s = Ok tt e (woken t ch lk f s).
Proof.
  intros [Hp Ht (p & Hi & Hst) Hth Hh Hn Hc Hu] Hne [Rp Rt Rs Rh Rn Rc] Ru.
  rewrite (sleep_runs ch lk (f :: e) s i t p) by done. by apply sleep_tail_lock.
Qed.

Lemma woken_may_sleep ch lk s i t f :
  lk <> Lptable -> resumed (f (sleep_point t ch lk s)) i t ->
  (exists p, k_ptable (f (sleep_point t ch lk s)) !! i = Some p /\ p_state p <> RUNNING) ->
  may_sleep (woken t ch lk f s) i t lk.
Proof.
  intros Hne [Rp Rt Rs Rh Rn Rc] (p & Hp & Hst). unfold woken.
  set (g := upd_cpu _ (f _)).
  assert (Hg : exists q, k_ptable (upd_thread t (set_t_chan Cnull) g) !! i = Some q /\ p_state q <> RUNNING).
  { destruct (decide (t.1 = i)) as [E|E].
    - unfold upd_thread. rewrite E. eexists. split; [apply (proc_upd_eq i _ g p Hp)|exact Hst].
    - exists p. split; [|done]. unfold upd_thread. by rewrite proc_upd_ne. }
  split.
  - exact Rp.
  - exact Rt.
  - exact Hg.
  - change (is_Some (thread_of (upd_thread t (set_t_chan Cnull) g) t)).
    destruct (thread_of (f (sleep_point t ch lk s)) t) as [th|] eqn:E; [|done].
    exists (set_t_chan Cnull th). by apply thread_upd_eq.
  - ctl.
  - cbn. lia.
  - ctl.
  - intros _. apply unlocked_acquired_ne; [done|]. apply unlocked_released_eq.
Qed.

(** [sleep] returns with the caller's lock held again: once the scheduler
    switches back to the thread and [lk] is free, [sleep] returns, this CPU
    holds [lk] and not [ptable.lock], the thread is RUNNING and no longer
    waits on a channel. *)
Theorem sleep_returns_locked ch lk s i t f e :
  may_sleep s i t lk -> lk <> Lptable ->
  (forall s1, sleep ch (Some lk) [] s = Off s1 -> resumed (f s1) i t /\ unlocked (f s1) lk) ->
  exists s', sleep ch (Some lk) (f :: e) s = Ok tt e s' /\
    held s' lk /\ unlocked s' Lptable /\ c_ncli (k_cpu s') = 1 /\
    exists th, thread_of s' t = Some th /\ t_state th = RUNNING /\ t_chan th = Cnull.
Proof.
  intros Hms Hne Hf. specialize (Hf (sleep_point t ch lk s) (sleep_off _ _ _ _ _ Hms)).
  destruct Hf as [Hr Ru]. exists (woken t ch lk f s). split; [by eapply sleep_woken|].
  destruct Hr as [Rp Rt Rs Rh Rn Rc]. unfold woken. set (g := upd_cpu _ (f _)).
  split; [ctl|]. split; [|split; [cbn; lia|]].
  - apply unlocked_acquired_ne; [done|]. apply unlocked_released_eq.
  - destruct (thread_of (f (sleep_point t ch lk s)) t) as [th|] eqn:Eth; [|done].
    exists (set_t_chan Cnull th). rewrite (thread_of_ptable (upd_thread t (set_t_chan Cnull) g)) by done.
    split; [by apply thread_upd_eq|]. cbn in Rs. by simplify_eq.
Qed.

(** [wakeup(ch)] makes RUNNABLE exactly the threads that sleep on [ch] and
    changes no other thread, process or lock ([ptable.lock] is taken and
    given back). *)
Theorem wakeup_exact ch e s :
  unlocked s Lptable -> cli_ok (k_cpu s) ->
  exists s', wakeup ch e s = Ok tt e s' /\ unlocked s' Lptable /\
    (forall lk, lk <> Lptable -> k_lock s' lk = k_lock s lk) /\
    forall t, thread_of s' t =
      (fun th => if decide (t_state th = SLEEPING /\ t_chan th = ch)
                 then set_t_state RUNNABLE th else th) <$> thread_of s t.
Proof.
  intros Hu Hc. rewrite wakeup_ok by done. eexists. split; [done|]. split_and!.
  - change (unlocked (crit Lptable s) Lptable). by apply unlocked_crit.
  - intros lk Hne. change (k_lock (crit Lptable s) lk = k_lock s lk). unfold crit. by rewrite lock_upd_ne.
  - intros t. rewrite wakeup1_thread, (thread_of_ptable s) by done.
    destruct (thread_of s t) as [th|]; [|done]. cbn. f_equal.
    unfold wake, state_eqb, chan_eqb. case_decide; repeat case_bool_decide; naive_solver.
Qed.

(** ** Witnesses *)

(** Thread 0 of process 0 runs and holds [mxtable.lock]; and the same thread
    when the scheduler has switched back to it. *)
Definition one_running : kstate :=
  upd_thread (0, 0)%nat (set_t_state RUNNING)
    (upd_proc 0 (set_p_state RUNNABLE)
      (upd_cpu (fun c => set_c_thread (Some (0, 0)%nat) (set_c_proc (Some 0%nat) c)) boot)).
Definition one_caller : kstate := acquired Lmxtable one_running.
Definition switched_back (s : kstate) : kstate := upd_thread (0, 0)%nat (set_t_state RUNNING) s.

Lemma one_caller_may_sleep : may_sleep one_caller 0 (0, 0)%nat Lmxtable.
Proof.
  split; first [done|by eexists].
Qed.

Lemma sleep_returns_locked_witness :
  exists s', sleep (Cmutex 3) (Some Lmxtable) [switched_back] one_caller = Ok tt [] s' /\ held s' Lmxtable.
Proof.
  destruct (sleep_returns_locked (Cmutex 3) Lmxtable one_caller 0 (0, 0)%nat switched_back [])
    as (s' & E & Hh & _).
  - exact one_caller_may_sleep.
  - discriminate.
  - intros s1 E. rewrite (sleep_off _ _ _ _ _ one_caller_may_sleep) in E.
    assert (s1 = sleep_point (0, 0)%nat (Cmutex 3) Lmxtable one_caller) as -> by congruence.
    split; [|reflexivity].
    split; try reflexivity; [split; reflexivity|].
    split; [vm_compute; discriminate|intros _; reflexivity].
  - exists s'. split; [exact E|exact Hh].
Defined.

Lemma wakeup_exact_witness :
  exists s', wakeup (Cmutex 3) [] one_running = Ok tt [] s' /\ unlocked s' Lptable.
Proof.
  destruct (wakeup_exact (Cmutex 3) [] one_running) as (s' & E & Hu & _).
  - reflexivity.
  - split; [vm_compute; discriminate|done].
  - exists s'. split; [exact E|exact Hu].
Defined.
