(* ===== verification/SleepProtocol.v ===== *)
(** * No wakeup is lost (proc.c)

    [sleep] and [wakeup] as sequences of actions, one for each lock operation and
    each store to the process table, and the interleavings of these actions by
    threads on several CPUs.  The threads share a condition that is protected by
    a lock [lk]: waiting threads run [while(!cond) sleep(ch, lk)], others set the
    condition under the lock and call [wakeup(ch)], before or after they release
    it.  Shown: whenever a thread sleeps on [ch] although the condition holds,
    some thread is still to execute the loop of its [wakeup]. *)

From stdpp Require Import base list.
From S2P Require Import Prelude Memory Kernel KMonad Boot Spinlock Sched.

(** ** The actions *)

Inductive kact : Type :=
| KAcq (l : lockid)        (* acquire(l) *)
| KRel (l : lockid)        (* release(l) *)
| KChan (c : chan)         (* thread->chan = c *)
| KState (st : procstate)  (* thread->state = st *)
| KSwtch                   (* sched() *)
| KTidy                    (* thread->chan = 0, after sched *)
| KWakeAll (c : chan).     (* the loops of wakeup1 *)

(** An action of thread [t] on this CPU. *)
Definition do_kact (t : tptr) (a : kact) : M unit :=
  match a with
  | KAcq l => acquire l
  | KRel l => release l
  | KChan c => modify (upd_thread t (set_t_chan c))
  | KState st => modify (upd_thread t (set_t_state st))
  | KSwtch => sched
  | KTidy => t' ← curthread; modify (upd_thread t' (set_t_chan Cnull))
  | KWakeAll c => modify (wakeup1 c)
  end.
Fixpoint do_code (t : tptr) (l : list kact) : M unit :=
  match l with
  | [] => mret tt
  | a :: l' => do_kact t a;; do_code t l'
  end.

Definition sleep_code (ch : chan) (lk : lockid) : list kact :=
  [KAcq Lptable; KRel lk; KChan ch; KState SLEEPING; KSwtch; KTidy; KRel Lptable; KAcq lk].
Definition wakeup_code (ch : chan) : list kact := [KAcq Lptable; KWakeAll ch; KRel Lptable].

(** ** Threads on several CPUs *)

(** Where a thread is. *)
Inductive spc : Type :=
| PIdle              (* somewhere else *)
| PEnter             (* a waiter at acquire(lk) *)
| PTest              (* at the test of while(!cond) *)
| PSleep (n : nat)   (* at action n of sleep *)
| PBack (n : nat)    (* switched away, with action n of sleep to follow *)
| PTake              (* after the loop, at cond = 0 *)
| PLeave             (* at release(lk) *)
| PSet               (* a waking thread at acquire(lk) *)
| PPut               (* at cond = 1 *)
| PEarly             (* at release(lk), wakeup follows *)
| PWake (in_lk : bool) (n : nat).  (* at action n of wakeup, before release(lk) or after it *)

(** The process table, who holds which lock, the condition, and where the
    threads are. *)
Record ssys : Type := mkS {
  ss_k : kstate;
  ss_lock : lockid -> option tptr;
  ss_cond : bool;
  ss_pc : tptr -> spc
}.

Definition set_lock (l : lockid) (o : option tptr) (x : ssys) : ssys :=
  mkS (ss_k x) (fun l' => if decide (l' = l) then o else ss_lock x l') (ss_cond x) (ss_pc x).
Definition set_table (f : kstate -> kstate) (x : ssys) : ssys := mkS (f (ss_k x)) (ss_lock x) (ss_cond x) (ss_pc x).
Definition set_cond (b : bool) (x : ssys) : ssys := mkS (ss_k x) (ss_lock x) b (ss_pc x).
Definition goto (t : tptr) (p : spc) (x : ssys) : ssys :=
  mkS (ss_k x) (ss_lock x) (ss_cond x) (fun u => if decide (u = t) then p else ss_pc x u).

(** An action of thread [t]; [None] while it has to wait for a lock.  [swtch]
    leaves [ptable.lock] to the scheduler, which releases it. *)
Definition act (t : tptr) (a : kact) (x : ssys) : option ssys :=
  match a with
  | KAcq l => if ss_lock x l then None else Some (set_lock l (Some t) x)
  | KRel l => if decide (ss_lock x l = Some t) then Some (set_lock l None x) else None
  | KChan c => Some (set_table (upd_thread t (set_t_chan c)) x)
  | KState st => Some (set_table (upd_thread t (set_t_state st)) x)
  | KSwtch => if decide (ss_lock x Lptable = Some t) then Some (set_lock Lptable None x) else None
  | KTidy => Some (set_table (upd_thread t (set_t_chan Cnull)) x)
  | KWakeAll c => Some (set_table (wakeup1 c) x)
  end.

(** The thread is asleep on the channel. *)
Definition sleeps_on (ch : chan) (s : kstate) (t : tptr) : Prop :=
  exists th, thread_of s t = Some th /\ t_state th = SLEEPING /\ t_chan th = ch.

Section Protocol.
Context (ch : chan) (lk : lockid).

Definition after_sleep (n : nat) (a : kact) : spc :=
  match a with
  | KSwtch => PBack (S n)
  | _ => if decide (S n = length (sleep_code ch lk)) then PTest else PSleep (S n)
  end.
Definition after_wake (in_lk : bool) (n : nat) : spc :=
  if decide (S n = length (wakeup_code ch)) then (if in_lk then PLeave else PIdle) else PWake in_lk (S n).

Inductive sstep (x : ssys) : ssys -> Prop :=
| ss_start t p : ss_pc x t = PIdle -> p = PEnter \/ p = PSet -> sstep x (goto t p x)
(** Waiting threads *)
| ss_enter t y : ss_pc x t = PEnter -> act t (KAcq lk) x = Some y -> sstep x (goto t PTest y)
| ss_test t : ss_pc x t = PTest -> sstep x (goto t (if ss_cond x then PTake else PSleep 0) x)
| ss_sleep t n a y : ss_pc x t = PSleep n -> sleep_code ch lk !! n = Some a -> act t a x = Some y ->
    sstep x (goto t (after_sleep n a) y)
| ss_back t n th y : ss_pc x t = PBack n -> thread_of (ss_k x) t = Some th -> t_state th = RUNNABLE ->
    act t (KAcq Lptable) x = Some y -> sstep x (goto t (PSleep n) (set_table (upd_thread t (set_t_state RUNNING)) y))
| ss_take t : ss_pc x t = PTake -> sstep x (goto t PLeave (set_cond false x))
| ss_leave t y : ss_pc x t = PLeave -> act t (KRel lk) x = Some y -> sstep x (goto t PIdle y)
(** Waking threads *)
| ss_set t y : ss_pc x t = PSet -> act t (KAcq lk) x = Some y -> sstep x (goto t PPut y)
| ss_put t p : ss_pc x t = PPut -> p = PWake true 0 \/ p = PEarly -> sstep x (goto t p (set_cond true x))
| ss_early t y : ss_pc x t = PEarly -> act t (KRel lk) x = Some y -> sstep x (goto t (PWake false 0) y)
| ss_wake t b n a y : ss_pc x t = PWake b n -> wakeup_code ch !! n = Some a -> act t a x = Some y ->
    sstep x (goto t (after_wake b n) y)
(** The rest of the kernel: it takes and releases locks, and changes the table
    but puts nobody to sleep on [ch].  Spurious wakeups are allowed. *)
| ss_other_lock t a l y : ss_pc x t = PIdle -> a = KAcq l \/ a = KRel l -> act t a x = Some y -> sstep x y
| ss_other s : (forall t, sleeps_on ch s t -> sleeps_on ch (ss_k x) t) -> sstep x (set_table (fun _ => s) x).

Inductive sreach : ssys -> Prop :=
| sr_init x : (forall t, ss_pc x t = PIdle) -> (forall t, ~ sleeps_on ch (ss_k x) t) -> sreach x
| sr_step x y : sreach x -> sstep x y -> sreach y.

(** The thread has set the condition and has yet to run the loops of [wakeup1]. *)
Definition still_wakes (p : spc) : bool :=
  match p with PEarly | PWake _ 0 | PWake _ 1 => true | _ => false end.

(** ** Invariant *)

Definition has_lk (p : spc) : bool :=
  match p with PTest | PSleep 0 | PSleep 1 | PTake | PLeave | PPut | PEarly | PWake true _ => true | _ => false end.
Definition has_ptable (p : spc) : bool :=
  match p with PSleep (1 | 2 | 3 | 4 | 5 | 6) | PWake _ (1 | 2) => true | _ => false end.
(** It has seen that the condition does not hold, and has [lk] still. *)
Definition tested (p : spc) : bool := match p with PSleep (0 | 1) => true | _ => false end.
(** It has given up [lk] and is going to sleep. *)
Definition dozing (p : spc) : bool := match p with PSleep (2 | 3 | 4) => true | _ => false end.
Definition down (p : spc) : bool := match p with PSleep (3 | 4) | PBack _ => true | _ => false end.

Record sinv (x : ssys) : Prop := {
  si_lk : forall t, has_lk (ss_pc x t) = true -> ss_lock x lk = Some t;
  si_ptable : forall t, has_ptable (ss_pc x t) = true -> ss_lock x Lptable = Some t;
  si_back : forall t n, ss_pc x t = PBack n -> n = 5%nat;
  si_tested : forall t, tested (ss_pc x t) = true -> ss_cond x = false;
  si_down : forall t, sleeps_on ch (ss_k x) t -> down (ss_pc x t) = true;
  si_wake : ss_cond x = true -> forall t, dozing (ss_pc x t) = true \/ sleeps_on ch (ss_k x) t ->
    exists w, still_wakes (ss_pc x w) = true
}.

(** ** Lemmas *)

Hypothesis Hlk : lk <> Lptable.
Hypothesis Hch : ch <> Cnull.

(** Only the entry of [t] has changed, and [t] sleeps on [ch] only if it did, or
    after its place is [down]. *)
Lemma sleeps_upd t f s u : u <> t -> sleeps_on ch (upd_thread t f s) u -> sleeps_on ch s u.
Proof. intros Hne (th & Hth & H). rewrite thread_upd_ne in Hth by done. by exists th. Qed.

Lemma sleeps_tidy t s : ~ sleeps_on ch (upd_thread t (set_t_chan Cnull) s) t.
Proof.
  intros (th & Hth & _ & Hc). unfold thread_of, upd_thread in Hth. cbn in Hth. rewrite list_lookup_alter_eq in Hth.
  destruct (k_ptable s !! t.1) as [p|]; [|done]. cbn in Hth. rewrite list_lookup_alter_eq in Hth.
  destruct (p_threads p !! t.2); [|done]. cbn in Hth. by simplify_eq.
Qed.

Lemma sleeps_running t s : ~ sleeps_on ch (upd_thread t (set_t_state RUNNING) s) t.
Proof.
  intros (th & Hth & Hs & _). unfold thread_of, upd_thread in Hth. cbn in Hth. rewrite list_lookup_alter_eq in Hth.
  destruct (k_ptable s !! t.1) as [p|]; [|done]. cbn in Hth. rewrite list_lookup_alter_eq in Hth.
  destruct (p_threads p !! t.2); [|done]. cbn in Hth. by simplify_eq.
Qed.

Lemma sleeps_wakeup s t : ~ sleeps_on ch (wakeup1 ch s) t.
Proof.
  intros (th & Hth & Hs & Hc). rewrite wakeup1_thread in Hth.
  destruct (thread_of s t) as [a|]; [|done]. injection Hth as <-. rewrite wake_state in Hs.
  assert (t_chan (wake ch a) = t_chan a) as E by (unfold wake; by destruct (_ && _)%bool).
  case_decide as Hd; [done|]. apply Hd. split; [done|]. congruence.
Qed.

(** What is left to show when thread [t] goes from its place to [p] and the rest
    of the state becomes that of [y]. *)
Lemma sinv_goto x y t p :
  sinv x -> ss_pc y = ss_pc x ->
  (forall u, u <> t -> has_lk (ss_pc x u) = true -> ss_lock y lk = Some u) ->
  (has_lk p = true -> ss_lock y lk = Some t) ->
  (forall u, u <> t -> has_ptable (ss_pc x u) = true -> ss_lock y Lptable = Some u) ->
  (has_ptable p = true -> ss_lock y Lptable = Some t) ->
  (forall n, p = PBack n -> n = 5%nat) ->
  (forall u, u <> t -> tested (ss_pc x u) = true -> ss_cond y = false) -> (tested p = true -> ss_cond y = false) ->
  (forall u, sleeps_on ch (ss_k y) u -> u <> t -> sleeps_on ch (ss_k x) u) ->
  (sleeps_on ch (ss_k y) t -> down p = true) ->
  (ss_cond y = true -> still_wakes p = true \/
     (forall u, dozing (ss_pc x u) = false \/ u = t) /\ (forall u, ~ sleeps_on ch (ss_k y) u) /\ dozing p = false \/
     ss_cond x = true /\ still_wakes (ss_pc x t) = false /\
       (dozing p = true \/ sleeps_on ch (ss_k y) t -> dozing (ss_pc x t) = true \/ sleeps_on ch (ss_k x) t)) ->
  sinv (goto t p y).
Proof.
  intros [L P B T D W] Epc L1 L2 P1 P2 B1 T1 T2 S1 S2 W1.
  split; cbn; rewrite ?Epc.
  - intros u. case_decide; [by subst|by apply L1].
  - intros u. case_decide; [by subst|by apply P1].
  - intros u n. case_decide; [by apply B1|by apply B].
  - intros u. case_decide; [by apply T2|by apply T1].
  - intros u Hu. case_decide; [by subst; apply S2|]. by apply D, S1.
  - intros Hc u Hu. destruct (W1 Hc) as [Hp|[(Hd & Hs & Hp)|(Hcx & Ht & Hcase)]].
    + exists t. by rewrite decide_True.
    + exfalso. destruct Hu as [Hu|Hu]; [|by apply Hs in Hu]. case_decide; [congruence|]. destruct (Hd u); congruence.
    + assert (exists w, still_wakes (ss_pc x w) = true) as (w & Hw).
      { case_decide as E; [subst; apply (W Hcx t); auto|]. apply (W Hcx u). destruct Hu as [Hu|Hu]; [by left|right; by apply S1]. }
      exists w. by rewrite decide_False by congruence.
Qed.

Lemma tested_lk p : tested p = true -> has_lk p = true.
Proof. by destruct p as [| | |[|[|n]]| | | | | | |]. Qed.
Lemma dozing_ptable p : dozing p = true -> has_ptable p = true.
Proof. by destruct p as [| | |[|[|[|[|[|n]]]]]| | | | | | |]. Qed.

Lemma act_acq t l x y : act t (KAcq l) x = Some y -> ss_lock x l = None /\ y = set_lock l (Some t) x.
Proof. cbn. destruct (ss_lock x l); [done|]. intros [= <-]. done. Qed.
Lemma act_rel t l x y : act t (KRel l) x = Some y -> ss_lock x l = Some t /\ y = set_lock l None x.
Proof. cbn. case_decide; [|done]. intros [= <-]. done. Qed.
Lemma act_swtch t x y : act t KSwtch x = Some y -> ss_lock x Lptable = Some t /\ y = set_lock Lptable None x.
Proof. cbn. case_decide; [|done]. intros [= <-]. done. Qed.

Ltac split_act :=
  match goal with
  | Ha : act _ (KAcq _) _ = Some _ |- _ => apply act_acq in Ha as [Ha ->]
  | Ha : act _ (KRel _) _ = Some _ |- _ => apply act_rel in Ha as [Ha ->]
  | Ha : act _ KSwtch _ = Some _ |- _ => apply act_swtch in Ha as [Ha ->]
  | Ha : act _ _ _ = Some _ |- _ => injection Ha as <-
  end.
Ltac holders :=
  repeat match goal with
  | Hi : sinv ?x, H : tested (ss_pc ?x ?u) = true |- _ =>
    lazymatch goal with _ : ss_cond x = false |- _ => fail | _ => idtac end; pose proof (si_tested _ Hi u H)
  | Hi : sinv ?x, H : has_lk (ss_pc ?x ?u) = true |- _ => apply (si_lk _ Hi) in H
  | Hi : sinv ?x, H : has_ptable (ss_pc ?x ?u) = true |- _ => apply (si_ptable _ Hi) in H
  end.
(** A thread that is not [down] does not sleep on [ch]. *)
Ltac awake Hi Ht :=
  match goal with
  | H : sleeps_on ch (ss_k ?x) ?t |- _ => let F := fresh in pose proof (si_down _ Hi _ H) as F; rewrite Ht in F; discriminate F
  end.
Ltac place Hi Ht :=
  apply (sinv_goto _ _ _ _ Hi); [reflexivity|..]; rewrite ?Ht; cbn; intros; repeat case_decide; subst;
  try solve [done|apply (si_lk _ Hi); by rewrite Ht|apply (si_ptable _ Hi); by rewrite Ht|eapply (si_tested _ Hi); by rewrite Ht|left; reflexivity|awake Hi Ht|holders; (done || congruence)|eauto using sleeps_upd, si_tested
    |right; right; split_and!; [done|reflexivity|intros [?|?]; (done || awake Hi Ht || auto)]].

(** While [t] is in its critical section of [ptable.lock] nobody else is going to
    sleep. *)
Lemma only_dozing x t b : sinv x -> ss_pc x t = PWake b 1 -> forall u, dozing (ss_pc x u) = false \/ u = t.
Proof.
  intros Hi Ht u. destruct (dozing (ss_pc x u)) eqn:E; [|by left]. right.
  apply dozing_ptable, (si_ptable _ Hi) in E. pose proof (si_ptable _ Hi t) as P. rewrite Ht in P.
  specialize (P eq_refl). congruence.
Qed.

(** A thread that is outside of the protocol takes or releases any lock. *)
Lemma sinv_lock x t l a y :
  sinv x -> ss_pc x t = PIdle -> a = KAcq l \/ a = KRel l -> act t a x = Some y -> sinv y.
Proof.
  intros Hi Ht Hal Ha.
  assert (exists o, y = set_lock l o x /\ (ss_lock x l = None \/ ss_lock x l = Some t)) as (o & -> & Ho).
  { destruct Hal as [-> | ->]; split_act; eauto. }
  split; cbn; try apply Hi.
  - intros u Hu. pose proof (si_lk _ Hi _ Hu). case_decide; [subst|done]. destruct Ho; [congruence|].
    assert (u = t) as -> by congruence. by rewrite Ht in Hu.
  - intros u Hu. pose proof (si_ptable _ Hi _ Hu). case_decide; [subst|done]. destruct Ho; [congruence|].
    assert (u = t) as -> by congruence. by rewrite Ht in Hu.
Qed.

Lemma sinv_step x y : sinv x -> sstep x y -> sinv y.
Proof.
  intros Hi Hs. destruct Hs as [t p Ht Hp|t y Ht Ha|t Ht|t n a y Ht Hn Ha|t n th y Ht Hth Hst Ha|t Ht|t y Ht Ha|t y Ht Ha|t p Ht Hp|t y Ht Ha|t b n a y Ht Hn Ha|t a l y Ht Hal Ha|s Hs].
  - destruct Hp as [-> | ->]; place Hi Ht.
  - split_act. place Hi Ht.
  - destruct (ss_cond x) eqn:Ec; place Hi Ht.
  - destruct n as [|[|[|[|[|[|[|[|n]]]]]]]]; try done; injection Hn as <-; split_act; place Hi Ht.
    + exfalso. assert (ss_cond x = false) by (eapply (si_tested _ Hi); by rewrite Ht). congruence.
    + exfalso. by eapply sleeps_tidy.
    + right. right. split_and!; [done|done|]. intros [?|?]; [done|]. exfalso. by eapply sleeps_tidy.
  - split_act. pose proof (si_back _ Hi _ _ Ht) as ->. place Hi Ht.
    + exfalso. by eapply sleeps_running.
    + right. right. split_and!; [done|done|]. intros [?|?]; [done|]. exfalso. by eapply sleeps_running.
  - place Hi Ht.
  - split_act. place Hi Ht.
  - split_act. place Hi Ht.
  - assert (forall u, u <> t -> tested (ss_pc x u) = true -> False) as Hno.
    { intros u Hne Hu. apply tested_lk, (si_lk _ Hi) in Hu. pose proof (si_lk _ Hi t). rewrite Ht in *. naive_solver. }
    destruct Hp as [-> | ->]; place Hi Ht; exfalso; eauto.
  - split_act. place Hi Ht.
  - destruct n as [|[|[|n]]]; try done; injection Hn as <-; split_act; destruct b; place Hi Ht;
      try (exfalso; by eapply sleeps_wakeup); right; left; eauto using only_dozing, sleeps_wakeup.
  - exact (sinv_lock x t l a y Hi Ht Hal Ha).
  - split; try apply Hi; cbn.
    + intros u Hu. by apply (si_down _ Hi), Hs.
    + intros Hc u Hu. apply (si_wake _ Hi Hc u). naive_solver.
Qed.

Lemma sinv_reach x : sreach x -> sinv x.
Proof.
  induction 1 as [x Hp Hs|x y _ Hi Hst]; [|by eapply sinv_step].
  split; intros *; rewrite ?Hp; try done; [by intros ?%Hs|]. intros ? u. rewrite Hp. intros [?|?%Hs]; done.
Qed.
End Protocol.

(** ** The code is these actions *)

Lemma bind_ext {A B} (m : M A) (f g : A -> M B) e s :
  (forall a e' s', f a e' s' = g a e' s') -> (m ≫= f) e s = (m ≫= g) e s.
Proof. intros H. unfold mbind, M_bind. by destruct (m e s). Qed.

Lemma bind_skip (m : M unit) e s : m e s = (m;; mret tt) e s.
Proof. unfold mbind, M_bind. by destruct (m e s) as [[] ? ?| | |]. Qed.

Ltac same_code := repeat first [rewrite bind_assoc|apply bind_ext; intros|apply bind_skip].

Lemma sleep_is_code ch lk t i e s :
  lk <> Lptable -> c_proc (k_cpu s) = Some i -> c_thread (k_cpu s) = Some t ->
  sleep ch (Some lk) e s = do_code t (sleep_code ch lk) e s.
Proof.
  intros Hlk Hp Ht. unfold sleep. do 2 mstep. rewrite Hp, Ht, bool_decide_false by done.
  cbn [negb when do_code sleep_code do_kact]. same_code.
Qed.

Lemma wakeup_is_code ch t e s : wakeup ch e s = do_code t (wakeup_code ch) e s.
Proof. unfold wakeup. cbn [do_code wakeup_code do_kact]. same_code. Qed.

(** ** Property *)

(** C9: The sleep/wakeup protocol loses no wakeup, on any number of CPUs.  For a
    lock [lk] other than [ptable.lock], [sleep(ch, lk)] is the sequence of actions
    [sleep_code] (it has taken [ptable.lock] before it releases [lk]) and
    [wakeup(ch)] is [wakeup_code].  Threads that execute these actions in any
    interleaving, waiters running [while(!cond) sleep(ch, lk)] under [lk] and
    others setting [cond] under [lk] and calling [wakeup(ch)] before or after
    they release it, never reach a state where [cond] holds, a thread sleeps on
    [ch], and no thread is left that has set [cond] and is still to run the
    loops of [wakeup1].  The window between the release of [lk] and the switch
    is part of the interleavings. *)
Theorem sleep_no_lost_wakeup ch lk :
  lk <> Lptable -> ch <> Cnull ->
  (forall e s i t, c_proc (k_cpu s) = Some i -> c_thread (k_cpu s) = Some t ->
     sleep ch (Some lk) e s = do_code t (sleep_code ch lk) e s) /\
  (forall e s t, wakeup ch e s = do_code t (wakeup_code ch) e s) /\
  (forall x t, sreach ch lk x -> ss_cond x = true -> sleeps_on ch (ss_k x) t ->
     exists w, still_wakes (ss_pc x w) = true).
Proof.
  intros Hlk Hch. split_and!.
  - intros e s i t. by apply sleep_is_code.
  - intros e s t. apply wakeup_is_code.
  - intros x t Hr Hc Hs. apply (si_wake _ _ _ (sinv_reach _ _ Hlk Hch _ Hr) Hc t). by right.
Qed.

(** Thread 0 has gone to sleep, then thread 1 has set the condition and released
    the lock: its wakeup is to come. *)
Definition at_start : ssys := mkS one_running (fun _ => None) false (fun _ => PIdle).
Definition zero_slept : ssys :=
  let t := (0, 0)%nat in
  goto t (PBack 5) (set_lock Lptable None
  (goto t (PSleep 4) (set_table (upd_thread t (set_t_state SLEEPING))
  (goto t (PSleep 3) (set_table (upd_thread t (set_t_chan (Cmutex 3)))
  (goto t (PSleep 2) (set_lock Lmxtable None
  (goto t (PSleep 1) (set_lock Lptable (Some t)
  (goto t (PSleep 0)
  (goto t PTest (set_lock Lmxtable (Some t)
  (goto t PEnter at_start))))))))))))).
Definition one_set : ssys :=
  let t := (0, 1)%nat in
  goto t (PWake false 0) (set_lock Lmxtable None
  (goto t PEarly (set_cond true
  (goto t PPut (set_lock Lmxtable (Some t)
  (goto t PSet zero_slept)))))).

Lemma none_sleeps ch s t :
  forallb (fun p => forallb (fun th => negb (state_eqb (t_state th) SLEEPING)) (p_threads p)) (k_ptable s) = true ->
  ~ sleeps_on ch s t.
Proof.
  intros Hf (th & Hth & Hs & _). unfold thread_of in Hth. destruct (k_ptable s !! t.1) as [p|] eqn:Ep; [|done].
  rewrite forallb_forall in Hf. specialize (Hf p (proj1 (list_elem_of_In _ _) (list_elem_of_lookup_2 _ _ _ Ep))).
  rewrite forallb_forall in Hf. specialize (Hf th (proj1 (list_elem_of_In _ _) (list_elem_of_lookup_2 _ _ _ Hth))).
  by rewrite Hs in Hf.
Qed.

Lemma sleep_moves ch lk x t n a y :
  sreach ch lk x -> ss_pc x t = PSleep n -> sleep_code ch lk !! n = Some a -> act t a x = Some y ->
  sreach ch lk (goto t (after_sleep ch lk n a) y).
Proof. intros Hr Hp Ha Hy. eapply sr_step; [exact Hr|]. by eapply ss_sleep. Qed.

Lemma zero_slept_reach : sreach (Cmutex 3) Lmxtable zero_slept.
Proof.
  set (t := (0, 0)%nat).
  assert (sreach (Cmutex 3) Lmxtable at_start) as R.
  { apply sr_init; [done|]. intros u. by apply none_sleeps. }
  eapply sr_step in R as R0; [|by apply (ss_start _ _ _ t PEnter); [|left]].
  eapply sr_step in R0 as R1; [|by eapply (ss_enter _ _ _ t)].
  eapply sr_step in R1 as R2; [|by apply (ss_test _ _ _ t)].
  pose proof (sleep_moves _ _ _ t 0 _ _ R2 eq_refl eq_refl eq_refl) as R3.
  pose proof (sleep_moves _ _ _ t 1 _ _ R3 eq_refl eq_refl eq_refl) as R4.
  pose proof (sleep_moves _ _ _ t 2 _ _ R4 eq_refl eq_refl eq_refl) as R5.
  pose proof (sleep_moves _ _ _ t 3 _ _ R5 eq_refl eq_refl eq_refl) as R6.
  exact (sleep_moves _ _ _ t 4 _ _ R6 eq_refl eq_refl eq_refl).
Qed.

Lemma one_set_reach : sreach (Cmutex 3) Lmxtable one_set.
Proof.
  set (t := (0, 1)%nat). pose proof zero_slept_reach as R.
  eapply sr_step in R as R0; [|by apply (ss_start _ _ _ t PSet); [|right]].
  eapply sr_step in R0 as R1; [|by eapply (ss_set _ _ _ t)].
  eapply sr_step in R1 as R2; [|by apply (ss_put _ _ _ t PEarly); [|right]].
  eapply sr_step in R2 as R3; [|by eapply (ss_early _ _ _ t)]. exact R3.
Qed.

Lemma sleep_no_lost_wakeup_witness :
  sleeps_on (Cmutex 3) (ss_k one_set) (0, 0)%nat /\ exists w, still_wakes (ss_pc one_set w) = true.
Proof.
  assert (sleeps_on (Cmutex 3) (ss_k one_set) (0, 0)%nat) as Hs by (eexists; split_and!; reflexivity).
  split; [exact Hs|].
  apply (sleep_no_lost_wakeup (Cmutex 3) Lmxtable ltac:(discriminate) ltac:(discriminate)) with (0, 0)%nat;
    [exact one_set_reach|reflexivity|exact Hs].
Defined.
