(* ===== verification/Vm.v ===== *)
(** * Virtual memory (vm.c)

    Page directories and page tables are pages of physical memory; an entry
    is a 32-bit word.  The copy-on-write operations and the reference
    counters of shared pages are at the end.  [loaduvm], which reads from a
    file, is in Exec.v.  The message that [allocuvm] prints when memory runs
    out is left out: it only reaches the console. *)

From S2P Require Import Prelude Memory Kernel KMonad Mmu Spinlock Kalloc.

(** ** Definitions *)

Section Vm.
Context `{Symbols}.

(** Read and write the word at a kernel virtual address. *)
Definition ldk (a : Z) : M Z := gets (fun s => ld32 (k_mem s) (v2p a)).
Definition stk (a v : Z) : M unit := modify (upd_mem (fun m => st32 m (v2p a) v)).
(** [memset(v, c, n)] and [memmove(dst, src, n)] on kernel virtual addresses. *)
Definition memset (v c n : Z) : M unit := modify (upd_mem (fun m => mset m (v2p v) c n)).
Definition memmove (dst src n : Z) : M unit :=
  modify (upd_mem (fun m => mmove m (v2p dst) (v2p src) n)).

(** [PA_INX] *)
Definition PA_INX (pa : Z) : Z := Z.shiftr pa 12.
Definition counter (pa : Z) : M Z := gets (fun s => k_page_counters s (PA_INX pa)).
Definition set_counter (pa v : Z) : M unit := modify (upd_counter (PA_INX pa) (fun _ => v)).

Definition STA_X : Z := 8.
Definition STA_W : Z := 2.
Definition STA_R : Z := 2.
Definition STS_T32A : Z := 9.

(** [cpu->gdt[i] = d] *)
Definition set_gdt (i : Z) (d : segdesc) : M unit :=
  modify (upd_cpu (fun c => set_c_gdt (<[Z.to_nat i := d]> (c_gdt c)) c)).
Definition clear_s (d : segdesc) : segdesc :=
  mkSegdesc (lim_15_0 d) (base_15_0 d) (base_23_16 d) (sd_type d) 0 (sd_dpl d) (sd_p d)
    (lim_19_16 d) (sd_avl d) (sd_rsv1 d) (sd_db d) (sd_g d) (base_31_24 d).

(** Segment descriptors of CPU [c], which [cpunum] returned. *)
Definition seginit (c : Z) : M unit :=
  initlock Lpg_count "counter_lock";;
  set_gdt SEG_KCODE (SEG (Z.lor STA_X STA_R) 0 4294967295 0);;
  set_gdt SEG_KDATA (SEG STA_W 0 4294967295 0);;
  set_gdt SEG_UCODE (SEG (Z.lor STA_X STA_R) 0 4294967295 DPL_USER);;
  set_gdt SEG_UDATA (SEG STA_W 0 4294967295 DPL_USER);;
  set_gdt SEG_KCPU (SEG STA_W (kcpu_addr c) 12 0);;
  modify (upd_cpu (set_c_id c));;
  modify (upd_cpu (set_c_proc None)).

(** The address of the PTE of [va], 0 when there is no page table and none
    may be or can be allocated. *)
Definition walkpgdir (pgdir va : Z) (alloc : bool) : M Z :=
  let pde := u32 (pgdir + 4 * PDX va) in
  e ← ldk pde;
  if has e PTE_P then
    mret (u32 (p2v (PTE_ADDR e) + 4 * PTX va))
  else if negb alloc then mret 0 else
    pgtab ← kalloc;
    if pgtab =? 0 then mret 0 else
    memset pgtab 0 PGSIZE;;
    stk pde (Z.lor (Z.lor (Z.lor (v2p pgtab) PTE_P) PTE_W) PTE_U);;
    mret (u32 (pgtab + 4 * PTX va)).

(** The loop of mappages, one page a turn. *)
Fixpoint mappages_loop (n : nat) (pgdir a last pa perm : Z) : M Z :=
  match n with
  | O => fault "mappages"
  | S n' =>
    pte ← walkpgdir pgdir a true;
    if pte =? 0 then mret (-1) else
    v ← ldk pte;
    if has v PTE_P then panic "remap" else
    stk pte (Z.lor (Z.lor pa perm) PTE_P);;
    if a =? last then mret 0 else
    mappages_loop n' pgdir (u32 (a + PGSIZE)) last (u32 (pa + PGSIZE)) perm
  end.
(** The loop ends when [a] meets [last], after as many turns as there are
    pages from one to the other. *)
Definition mappages (pgdir va size pa perm : Z) : M Z :=
  let a := PGROUNDDOWN va in
  let last := PGROUNDDOWN (u32 (va + size - 1)) in
  mappages_loop (S (Z.to_nat (u32 (last - a) / PGSIZE))) pgdir a last pa perm.

(** [struct kmap] *)
Record kmap_t : Type := mkKmap {
  km_virt : Z; km_phys_start : Z; km_phys_end : Z; km_perm : Z
}.
Definition kmap : list kmap_t :=
  [ mkKmap KERNBASE 0 EXTMEM PTE_W;
    mkKmap KERNLINK (v2p KERNLINK) (v2p sym_data) 0;
    mkKmap sym_data (v2p sym_data) PHYSTOP PTE_W;
    mkKmap DEVSPACE DEVSPACE 0 PTE_W ].

Fixpoint map_kernel (pgdir : Z) (ks : list kmap_t) : M Z :=
  match ks with
  | [] => mret pgdir
  | k :: ks' =>
    r ← mappages pgdir (km_virt k) (u32 (km_phys_end k - km_phys_start k))
          (km_phys_start k) (km_perm k);
    if r <? 0 then mret 0 else map_kernel pgdir ks'
  end.
Definition setupkvm : M Z :=
  pgdir ← kalloc;
  if pgdir =? 0 then mret 0 else
  memset pgdir 0 PGSIZE;;
  if DEVSPACE <? p2v PHYSTOP then panic "PHYSTOP too high" else
  map_kernel pgdir kmap.

Definition lcr3 (v : Z) : M unit := modify (upd_cpu (set_c_cr3 v)).
Definition switchkvm : M unit :=
  kpgdir ← gets k_kpgdir;
  lcr3 (v2p kpgdir).
Definition kvmalloc : M unit :=
  kpgdir ← setupkvm;
  modify (set_k_kpgdir kpgdir);;
  switchkvm.

Definition switchuvm (i : nat) : M unit :=
  pushcli;;
  c ← gets (fun s => c_id (k_cpu s));
  set_gdt SEG_TSS (clear_s (SEG16 STS_T32A (ts_addr c) 103 0));;
  modify (upd_cpu (set_c_ss0 (SEG_KDATA * 8)));;
  t ← curthread;
  th ← thread_at t;
  modify (upd_cpu (set_c_esp0 (u32 (t_kstack th + KSTACKSIZE))));;
  modify (upd_cpu (set_c_tr (SEG_TSS * 8)));;
  p ← proc_at i;
  if p_pgdir p =? 0 then panic "switchuvm: no pgdir" else
  lcr3 (v2p (p_pgdir p));;
  popcli.

(** Load [init] into address 0 of [pgdir]; a failed [kalloc] is a write
    through a null pointer. *)
Definition inituvm (pgdir : Z) (init : list Z) : M unit :=
  let sz := Z.of_nat (length init) in
  if PGSIZE <=? sz then panic "inituvm: more than a page" else
  mem ← kalloc;
  if mem =? 0 then fault "inituvm" else
  memset mem 0 PGSIZE;;
  mappages pgdir 0 PGSIZE (v2p mem) (Z.lor PTE_W PTE_U);;
  modify (upd_mem (fun m => mwrite m (v2p mem) init)).

(** What deallocuvm does about a page it finds. *)
Definition free_page (pte pa : Z) : M unit :=
  kfree (p2v pa);;
  stk pte 0.
(** What cow_deallocuvm does about it: the page is freed with its last
    reference. *)
Definition drop_ref (pte pa : Z) : M unit :=
  c ← counter pa;
  set_counter pa (s32 (c - 1));;
  c ← counter pa;
  when (c =? 0) (kfree (p2v pa));;
  stk pte 0.

(** The loop of both, from [a] up to [oldsz]; a missing page table is
    skipped. *)
Fixpoint dealloc_loop (drop : Z -> Z -> M unit) (n : nat) (pgdir a oldsz : Z) : M unit :=
  match n with
  | O => mret tt
  | S n' =>
    if a <? oldsz then
      pte ← walkpgdir pgdir a false;
      if pte =? 0 then
        dealloc_loop drop n' pgdir (u32 (u32 (a + (NPTENTRIES - 1) * PGSIZE) + PGSIZE)) oldsz
      else
        v ← ldk pte;
        (if has v PTE_P then
          let pa := PTE_ADDR v in
          if pa =? 0 then panic "kfree" else drop pte pa
        else mret tt);;
        dealloc_loop drop n' pgdir (u32 (a + PGSIZE)) oldsz
    else mret tt
  end.
Definition deallocuvm (pgdir oldsz newsz : Z) : M Z :=
  if oldsz <=? newsz then mret oldsz else
  dealloc_loop free_page (S (Z.to_nat (oldsz / PGSIZE))) pgdir (PGROUNDUP newsz) oldsz;;
  mret newsz.

(** The loop of allocuvm. *)
Fixpoint allocuvm_loop (n : nat) (pgdir a oldsz newsz : Z) : M Z :=
  match n with
  | O => mret newsz
  | S n' =>
    if a <? newsz then
      mem ← kalloc;
      if mem =? 0 then
        deallocuvm pgdir newsz oldsz;;
        mret 0
      else
        memset mem 0 PGSIZE;;
        mappages pgdir a PGSIZE (v2p mem) (Z.lor PTE_W PTE_U);;
        set_counter (v2p mem) 1;;
        allocuvm_loop n' pgdir (u32 (a + PGSIZE)) oldsz newsz
    else mret newsz
  end.
Definition allocuvm (pgdir oldsz newsz : Z) : M Z :=
  if KERNBASE <=? newsz then mret 0 else
  if newsz <? oldsz then mret oldsz else
  allocuvm_loop (S (Z.to_nat (newsz / PGSIZE))) pgdir (PGROUNDUP oldsz) oldsz newsz.

Definition cow_deallocuvm (pgdir oldsz newsz : Z) : M Z :=
  if oldsz <=? newsz then mret oldsz else
  acquire Lpg_count;;
  dealloc_loop drop_ref (S (Z.to_nat (oldsz / PGSIZE))) pgdir (PGROUNDUP newsz) oldsz;;
  release Lpg_count;;
  mret newsz.

(** Free the page tables of the directory. *)
Definition free_tables (pgdir : Z) : M unit :=
  forM (seq 0 NPDENTRIES) (fun i =>
    e ← ldk (u32 (pgdir + 4 * Z.of_nat i));
    when (has e PTE_P) (kfree (p2v (PTE_ADDR e)))).
Definition freevm (pgdir : Z) : M unit :=
  if pgdir =? 0 then panic "freevm: no pgdir" else
  deallocuvm pgdir KERNBASE 0;;
  free_tables pgdir;;
  kfree pgdir.
Definition cow_freevm (pgdir : Z) : M unit :=
  if pgdir =? 0 then panic "freevm: no pgdir" else
  cow_deallocuvm pgdir KERNBASE 0;;
  free_tables pgdir;;
  kfree pgdir.

Definition clearpteu (pgdir uva : Z) : M unit :=
  pte ← walkpgdir pgdir uva false;
  if pte =? 0 then panic "clearpteu" else
  v ← ldk pte;
  stk pte (clear v PTE_U).

(** The loop of copyuvm: [false] is the jump to [bad]. *)
Fixpoint copyuvm_loop (n : nat) (pgdir d i sz : Z) : M bool :=
  match n with
  | O => mret true
  | S n' =>
    if i <? sz then
      pte ← walkpgdir pgdir i false;
      if pte =? 0 then panic "copyuvm: pte should exist" else
      v ← ldk pte;
      if negb (has v PTE_P) then panic "copyuvm: page not present" else
      let pa := PTE_ADDR v in
      let flags := PTE_FLAGS v in
      mem ← kalloc;
      if mem =? 0 then mret false else
      memmove mem (p2v pa) PGSIZE;;
      set_counter (v2p mem) 1;;
      r ← mappages d i PGSIZE (v2p mem) flags;
      if r <? 0 then mret false else
      copyuvm_loop n' pgdir d (u32 (i + PGSIZE)) sz
    else mret true
  end.
Definition copyuvm (pgdir sz : Z) : M Z :=
  d ← setupkvm;
  if d =? 0 then mret 0 else
  ok ← copyuvm_loop (S (Z.to_nat (sz / PGSIZE))) pgdir d 0 sz;
  if ok : bool then mret d else
  freevm d;;
  mret 0.

Definition inc_counter (pa : Z) : M unit :=
  c ← counter pa;
  if c =? 0 then set_counter pa 2 else set_counter pa (s32 (c + 1)).

(** The loop of cow_shareuvm: every page of the parent becomes shared and
    read-only and is mapped in the child too. *)
Fixpoint cow_shareuvm_loop (n : nat) (pgdir d i sz : Z) : M bool :=
  match n with
  | O => mret true
  | S n' =>
    if i <? sz then
      pte ← walkpgdir pgdir i false;
      if pte =? 0 then panic "copyuvm: pte should exist" else
      v ← ldk pte;
      if negb (has v PTE_P) then panic "copyuvm: page not present" else
      stk pte (Z.lor v PTE_SH);;
      v ← ldk pte;
      stk pte (clear v PTE_W);;
      v ← ldk pte;
      let pa := PTE_ADDR v in
      let flags := PTE_FLAGS v in
      r ← mappages d i PGSIZE pa flags;
      if r <? 0 then mret false else
      inc_counter pa;;
      cow_shareuvm_loop n' pgdir d (u32 (i + PGSIZE)) sz
    else mret true
  end.
Definition cow_shareuvm (pgdir sz : Z) : M Z :=
  d ← setupkvm;
  if d =? 0 then mret 0 else
  acquire Lpg_count;;
  ok ← cow_shareuvm_loop (S (Z.to_nat (sz / PGSIZE))) pgdir d 0 sz;
  if ok : bool then
    release Lpg_count;;
    i ← curproc;
    switchuvm i;;
    mret d
  else
    release Lpg_count;;
    freevm d;;
    mret 0.

(** What [cow_copyuvm] does about a shared page: copy it when there are other
    references to it, and make the entry writable.  [false] is the jump to
    [bad]. *)
Definition cow_resolve (pte pa flags : Z) : M bool :=
  c ← counter pa;
  if 1 <? c then
    mem ← kalloc;
    if mem =? 0 then mret false else
    memmove mem (p2v pa) PGSIZE;;
    set_counter (v2p mem) 1;;
    stk pte (Z.lor (v2p mem) flags);;
    v ← ldk pte;
    stk pte (clear v PTE_SH);;
    v ← ldk pte;
    stk pte (Z.lor v PTE_W);;
    c ← counter pa;
    set_counter pa (s32 (c - 1));;
    mret true
  else
    v ← ldk pte;
    stk pte (clear v PTE_SH);;
    v ← ldk pte;
    stk pte (Z.lor v PTE_W);;
    mret true.

(** After a page fault at the address in %cr2: give the process a writable
    page of its own.  Returns the address of the PTE, or 0. *)
Definition cow_copyuvm (pgdir : Z) : M Z :=
  acquire Lpg_count;;
  faulty_address ← gets (fun s => c_cr2 (k_cpu s));
  pte ← walkpgdir pgdir faulty_address false;
  if pte =? 0 then release Lpg_count;; mret 0 else
  v ← ldk pte;
  let pa := PTE_ADDR v in
  let flags := PTE_FLAGS v in
  if negb (has flags PTE_SH) then release Lpg_count;; mret 0 else
  i ← curproc;
  p ← proc_at i;
  if faulty_address <? p_sz p then
    ok ← cow_resolve pte pa flags;
    release Lpg_count;;
    if ok : bool then
      switchuvm i;;
      mret pte
    else mret 0
  else
    release Lpg_count;;
    mret 0.

(** The kernel address of a user page; [*pte] faults without a table. *)
Definition uva2ka (pgdir uva : Z) : M Z :=
  pte ← walkpgdir pgdir uva false;
  if pte =? 0 then fault "uva2ka" else
  v ← ldk pte;
  if negb (has v PTE_P) then mret 0 else
  if negb (has v PTE_U) then mret 0 else
  mret (p2v (PTE_ADDR v)).

(** Copy the bytes [buf] to user address [va]. *)
Fixpoint copyout_loop (n : nat) (pgdir va : Z) (buf : list Z) : M Z :=
  match n with
  | O => mret 0
  | S n' =>
    if (length buf =? 0)%nat then mret 0 else
    let va0 := PGROUNDDOWN va in
    pa0 ← uva2ka pgdir va0;
    if pa0 =? 0 then mret (-1) else
    let n := Z.min (PGSIZE - (va - va0)) (Z.of_nat (length buf)) in
    modify (upd_mem (fun m => mwrite m (v2p (u32 (pa0 + (va - va0)))) (take (Z.to_nat n) buf)));;
    copyout_loop n' pgdir (u32 (va0 + PGSIZE)) (drop (Z.to_nat n) buf)
  end.
Definition copyout (pgdir va : Z) (buf : list Z) : M Z :=
  copyout_loop (S (length buf)) pgdir va buf.

Definition page_refs (ppn : Z) (s : kstate) : Z := k_page_counters s ppn.

(** ** Address translation

    What the MMU does with a user access: the physical address of [va] under
    page directory [pgdir] (a kernel virtual address), for a read or a
    write. *)
Definition pde_of (m : mem) (pgdir va : Z) : Z := ld32 m (v2p (u32 (pgdir + 4 * PDX va))).
Definition pte_of (m : mem) (pgdir va : Z) : Z :=
  let e := pde_of m pgdir va in
  if has e PTE_P then ld32 m (v2p (u32 (p2v (PTE_ADDR e) + 4 * PTX va))) else 0.
Definition user_pa (m : mem) (pgdir va : Z) (write : bool) : option Z :=
  let v := pte_of m pgdir va in
  if has v PTE_P && has v PTE_U && (negb write || has v PTE_W)
  then Some (PTE_ADDR v + va mod PGSIZE) else None.
Definition user_byte (m : mem) (pgdir va : Z) : option Z :=
  ld8 m <$> user_pa m pgdir va false.

End Vm.
