(* ===== verification/VmWalk.v ===== *)
(** * Page directories in memory: walkpgdir and mappages (vm.c)

    [pd_ok m pgdir] says that the page at [pgdir] is a page directory: its
    present entries point to distinct page tables, all pages of the
    allocator.  Under it a directory is a map from virtual pages to entries,
    [pte_of m pgdir va]; [walkpgdir] finds the entry, and [mappages] changes
    exactly the entries of its range. *)

From S2P Require Import Prelude Memory Kernel KMonad Boot Mmu Spinlock Kalloc Vm.

(** ** Definitions *)

Section VmWalk.
Context `{Symbols}.

(** The physical address [x] is in the page with kernel address [p]. *)
Definition in_page (p x : Z) : Prop := p - KERNBASE <= x < p - KERNBASE + 4096.

(** The page table of directory entry [i]. *)
Definition table_of (m : mem) (pgdir i : Z) : option Z :=
  let e := ld32 m (pgdir - KERNBASE + 4 * i) in
  if has e PTE_P then Some (p2v (PTE_ADDR e)) else None.

Record pd_ok (m : mem) (pgdir : Z) : Prop := {
  pd_page : kpage pgdir;
  pd_tables : forall i t, 0 <= i < 1024 -> table_of m pgdir i = Some t -> kpage t /\ t <> pgdir;
  pd_inj : forall i j t, 0 <= i < 1024 -> 0 <= j < 1024 ->
    table_of m pgdir i = Some t -> table_of m pgdir j = Some t -> i = j
}.

(** The pages a directory is made of: itself and its tables. *)
Definition pd_pages (m : mem) (pgdir p : Z) : Prop :=
  p = pgdir \/ exists i, 0 <= i < 1024 /\ table_of m pgdir i = Some p.

(** Memory is unchanged outside the pages [F]. *)
Definition frame (F : Z -> Prop) (m m' : mem) : Prop :=
  forall x, (forall p, F p -> ~ in_page p x) -> m' x = m x.

(** A directory, the allocator with free pages [l], and nothing shared. *)
Record vm_ok (s : kstate) (l : list Z) (pgdir : Z) : Prop := {
  vm_free : free_list s l;
  vm_ready : kmem_ready s;
  vm_pd : pd_ok (k_mem s) pgdir;
  vm_sep : forall p, pd_pages (k_mem s) pgdir p -> p ∉ l
}.

(** Nothing but memory, the free list and the allocator's lock changed. *)
Definition erase (s : kstate) : kstate :=
  set_k_mem (fun _ => 0) (set_k_kmem (mkKmem (km_use_lock (k_kmem s)) 0)
    (upd_lock Lkmem (fun _ => zero_lock) (upd_cpu (set_c_intena 0) s))).
Definition quiet (s s' : kstate) : Prop := erase s' = erase s.

(** What working on directory [pgdir] does: pages are taken off the free
    list and become pages of the directory, and memory changes only in the pages of the directory and in
    pages taken from the list. *)
Record vm_rel (pgdir : Z) (s : kstate) (l : list Z) (s' : kstate) (l' : list Z) : Prop := {
  vr_ok : vm_ok s' l' pgdir;
  vr_quiet : quiet s s';
  vr_taken : exists new, l = new ++ l' /\
    (forall p, pd_pages (k_mem s') pgdir p <-> pd_pages (k_mem s) pgdir p \/ p ∈ new) /\
    frame (fun p => pd_pages (k_mem s) pgdir p \/ p ∈ new) (k_mem s) (k_mem s')
}.

(** ** Geometry of pages *)

Lemma kpage_word p : kpage p -> word p.
Proof. unfold kpage, word, KERNBASE, PHYSTOP. lia. Qed.

Lemma kpage_entry p i : kpage p -> 0 <= i < 1024 ->
  u32 (p + 4 * i) = p + 4 * i /\ v2p (p + 4 * i) = p - KERNBASE + 4 * i.
Proof.
  unfold kpage, KERNBASE, PHYSTOP. intros (_ & _ & ?) ?.
  split; [apply u32_small; lia|]. unfold v2p, KERNBASE. rewrite u32_small; lia.
Qed.

Lemma in_page_entry p i x : 0 <= i < 1024 ->
  p - KERNBASE + 4 * i <= x < p - KERNBASE + 4 * i + 4 -> in_page p x.
Proof. unfold in_page. lia. Qed.

Lemma in_page_disjoint p q x : kpage p -> kpage q -> p <> q -> in_page p x -> ~ in_page q x.
Proof. intros Hp Hq Hne. unfold in_page. destruct (kpage_disjoint p q Hp Hq Hne); lia. Qed.

(** Words of different pages do not overlap. *)
Lemma entry_disjoint p q i j : kpage p -> kpage q -> 0 <= i < 1024 -> 0 <= j < 1024 ->
  p <> q \/ i <> j ->
  p - KERNBASE + 4 * i + 4 <= q - KERNBASE + 4 * j \/ q - KERNBASE + 4 * j + 4 <= p - KERNBASE + 4 * i.
Proof.
  intros Hp Hq Hi Hj Hne. destruct (Z.eq_dec p q) as [->|Hd]; [lia|].
  destruct (kpage_disjoint p q Hp Hq Hd); lia.
Qed.

Lemma ld32_entry_ext m m' p i : 0 <= i < 1024 ->
  (forall x, in_page p x -> m' x = m x) ->
  ld32 m' (p - KERNBASE + 4 * i) = ld32 m (p - KERNBASE + 4 * i).
Proof. intros Hi Hx. apply ld32_ext. intros x Hr. apply Hx. by eapply in_page_entry. Qed.

Lemma frame_page F m m' p : frame F m m' -> kpage p -> (forall q, F q -> kpage q /\ q <> p) ->
  forall x, in_page p x -> m' x = m x.
Proof.
  intros Hf Hp HF x Hx. apply Hf. intros q Hq. destruct (HF q Hq).
  by eapply (in_page_disjoint p q).
Qed.

Lemma frame_trans F G m1 m2 m3 :
  frame F m1 m2 -> frame G m2 m3 -> (forall p, G p -> F p) -> frame F m1 m3.
Proof.
  intros H1 H2 HG x Hx. rewrite H2 by (intros p Hp; apply Hx; auto). by apply H1.
Qed.

Lemma frame_mono F G m m' : frame F m m' -> (forall p, F p -> G p) -> frame G m m'.
Proof. intros Hf HG x Hx. apply Hf. intros p Hp. apply Hx. auto. Qed.

Lemma frame_refl F m : frame F m m.
Proof. by intros x _. Qed.

Lemma frame_st32 m p i v : kpage p -> 0 <= i < 1024 ->
  frame (fun q => q = p) m (st32 m (p - KERNBASE + 4 * i) v).
Proof.
  intros Hp Hi x Hx. apply st32_other. intros Hr. apply (Hx p eq_refl). by eapply in_page_entry.
Qed.

Lemma frame_mset m p c : frame (fun q => q = p) m (mset m (p - KERNBASE) c 4096).
Proof. intros x Hx. apply mset_other. intros Hr. by apply (Hx p eq_refl). Qed.

(** ** Directories *)

(** A directory whose pages did not change is the same directory. *)
Lemma table_of_ext m m' pgdir i : 0 <= i < 1024 ->
  (forall x, in_page pgdir x -> m' x = m x) -> table_of m' pgdir i = table_of m pgdir i.
Proof. intros Hi Hx. unfold table_of. by rewrite (ld32_entry_ext m m'). Qed.

Lemma pd_pages_ext m m' pgdir p :
  (forall x, in_page pgdir x -> m' x = m x) -> pd_pages m' pgdir p <-> pd_pages m pgdir p.
Proof.
  intros Hx. unfold pd_pages. split; intros [?|(i & Hi & Ht)]; auto; right; exists i;
    (split; [done|]); by rewrite ?(table_of_ext m m') in *.
Qed.

Lemma pd_ok_ext m m' pgdir :
  pd_ok m pgdir -> (forall x, in_page pgdir x -> m' x = m x) -> pd_ok m' pgdir.
Proof.
  intros [Hp Ht Hi] Hx. split; [done| |].
  - intros i t Hr. rewrite (table_of_ext m m') by done. by apply Ht.
  - intros i j t Hr Hr'. rewrite !(table_of_ext m m') by done. by apply Hi.
Qed.

Lemma pd_pages_kpage m pgdir p : pd_ok m pgdir -> pd_pages m pgdir p -> kpage p.
Proof. intros [Hp Ht _] [->|(i & Hi & E)]; [done|]. by eapply Ht. Qed.

Lemma pd_pages_self m pgdir : pd_pages m pgdir pgdir.
Proof. by left. Qed.

Lemma pd_pages_table m pgdir i t : 0 <= i < 1024 -> table_of m pgdir i = Some t -> pd_pages m pgdir t.
Proof. intros. right. eauto. Qed.

(** The entry of a virtual address, in terms of the tables. *)
Lemma pde_of_eq m pgdir va : kpage pgdir -> word va ->
  pde_of m pgdir va = ld32 m (pgdir - KERNBASE + 4 * PDX va).
Proof.
  intros Hp Hva. unfold pde_of. destruct (kpage_entry pgdir (PDX va) Hp (PDX_range va Hva)) as [-> ->]. done.
Qed.

Lemma pte_of_eq m pgdir va : pd_ok m pgdir -> word va ->
  pte_of m pgdir va =
  match table_of m pgdir (PDX va) with
  | Some t => ld32 m (t - KERNBASE + 4 * PTX va)
  | None => 0
  end.
Proof.
  intros Hd Hva. unfold pte_of. rewrite pde_of_eq by (done || apply Hd).
  pose proof (pd_tables _ _ Hd (PDX va)) as Ht. unfold table_of in *.
  destruct (has (ld32 m (pgdir - KERNBASE + 4 * PDX va)) PTE_P); [|done].
  destruct (Ht _ (PDX_range va Hva) eq_refl) as [Hk _].
  destruct (kpage_entry _ (PTX va) Hk (PTX_range va)) as [-> ->]. done.
Qed.

Lemma pte_of_word m pgdir va : word (pte_of m pgdir va).
Proof. unfold pte_of. destruct (has _ _); [apply ld32_range|unfold word; lia]. Qed.

(** The entries of a directory whose pages are the same. *)
Lemma pte_of_ext m m' pgdir va : pd_ok m pgdir -> word va ->
  (forall p x, pd_pages m pgdir p -> in_page p x -> m' x = m x) ->
  pte_of m' pgdir va = pte_of m pgdir va.
Proof.
  intros Hd Hva Hx.
  assert (Hself : forall x, in_page pgdir x -> m' x = m x) by (intros; apply (Hx pgdir); [by left|done]).
  rewrite !pte_of_eq by (done || by eapply pd_ok_ext).
  rewrite (table_of_ext m m') by (done || by apply PDX_range).
  destruct (table_of m pgdir (PDX va)) as [t|] eqn:Et; [|done].
  apply ld32_entry_ext; [apply PTX_range|]. intros x. apply Hx.
  eapply pd_pages_table; [|done]. by apply PDX_range.
Qed.

(** ** What stays the same *)

Lemma quiet_refl s : quiet s s.
Proof. done. Qed.

Lemma quiet_trans s1 s2 s3 : quiet s1 s2 -> quiet s2 s3 -> quiet s1 s3.
Proof. unfold quiet. congruence. Qed.

Lemma quiet_ptable s s' : quiet s s' -> k_ptable s' = k_ptable s.
Proof. intros E. exact (f_equal k_ptable E). Qed.

Lemma quiet_counters s s' : quiet s s' -> k_page_counters s' = k_page_counters s.
Proof. intros E. exact (f_equal k_page_counters E). Qed.

Lemma quiet_cpu s s' : quiet s s' ->
  set_c_intena 0 (k_cpu s') = set_c_intena 0 (k_cpu s).
Proof. intros E. exact (f_equal k_cpu E). Qed.

Lemma quiet_lock s s' lk : quiet s s' -> lk <> Lkmem -> k_lock s' lk = k_lock s lk.
Proof.
  intros E Hne. apply (f_equal (fun z => k_lock z lk)) in E. unfold erase in E.
  change (k_lock (upd_lock Lkmem (fun _ => zero_lock) s') lk =
          k_lock (upd_lock Lkmem (fun _ => zero_lock) s) lk) in E.
  by rewrite !lock_upd_ne in E by done.
Qed.

Lemma quiet_mem f s : quiet s (upd_mem f s).
Proof. done. Qed.

Lemma quiet_kmem_crit s : quiet s (kmem_crit s).
Proof.
  unfold kmem_crit. destruct (truth _); [|done]. unfold quiet, erase, crit.
  change (upd_lock Lkmem (fun _ => zero_lock) (upd_cpu (set_c_intena 0)
            (upd_lock Lkmem ?f (upd_cpu touched s)))) with
    (upd_lock Lkmem (fun _ => zero_lock) (upd_lock Lkmem f (upd_cpu (set_c_intena 0) s))).
  rewrite upd_lock_compose. done.
Qed.

Lemma quiet_kalloc s : quiet s (kalloc_state s).
Proof. unfold kalloc_state. apply (quiet_trans _ _ _ (quiet_kmem_crit s)). done. Qed.

(** ** walkpgdir *)

Lemma walk_entry m pgdir va : pd_ok m pgdir -> word va ->
  ld32 m (v2p (u32 (pgdir + 4 * PDX va))) = ld32 m (pgdir - KERNBASE + 4 * PDX va).
Proof.
  intros Hd Hva. destruct (kpage_entry pgdir (PDX va) (pd_page _ _ Hd) (PDX_range va Hva)) as [-> ->]. done.
Qed.

Lemma walk_present pgdir va alloc e s t :
  pd_ok (k_mem s) pgdir -> word va -> table_of (k_mem s) pgdir (PDX va) = Some t ->
  walkpgdir pgdir va alloc e s = Ok (t + 4 * PTX va) e s.
Proof.
  intros Hd Hva Ht. unfold walkpgdir, ldk. mstep. rewrite walk_entry by done.
  pose proof Ht as Ht'. unfold table_of in Ht.
  destruct (has (ld32 (k_mem s) (pgdir - KERNBASE + 4 * PDX va)) PTE_P); [|done]. simplify_eq.
  destruct (pd_tables _ _ Hd _ _ (PDX_range va Hva) Ht') as [Hk _].
  destruct (kpage_entry _ (PTX va) Hk (PTX_range va)) as [-> _]. done.
Qed.

Lemma walk_absent pgdir va e s :
  pd_ok (k_mem s) pgdir -> word va -> table_of (k_mem s) pgdir (PDX va) = None ->
  walkpgdir pgdir va false e s = Ok 0 e s.
Proof.
  intros Hd Hva Ht. unfold walkpgdir, ldk. mstep. rewrite walk_entry by done.
  unfold table_of in Ht. by destruct (has _ PTE_P).
Qed.

Lemma walk_full pgdir va e s :
  pd_ok (k_mem s) pgdir -> word va -> table_of (k_mem s) pgdir (PDX va) = None ->
  free_list s [] -> kmem_ready s ->
  walkpgdir pgdir va true e s = Ok 0 e (kmem_crit s).
Proof.
  intros Hd Hva Ht Hl Hr. unfold walkpgdir, ldk. mstep. rewrite walk_entry by done.
  unfold table_of in Ht. destruct (has _ PTE_P); [done|]. cbn [negb].
  destruct (kalloc_none e s Hl Hr) as [E _]. by mstep E.
Qed.

(** The directory entry of a new table. *)
Definition new_pde (t : Z) : Z := Z.lor (Z.lor (Z.lor (v2p t) PTE_P) PTE_W) PTE_U.
Definition new_table (pgdir va t : Z) (m : mem) : mem :=
  st32 (mset m (t - KERNBASE) 0 4096) (pgdir - KERNBASE + 4 * PDX va) (new_pde t).

Lemma walk_new pgdir va e s t l :
  pd_ok (k_mem s) pgdir -> word va -> table_of (k_mem s) pgdir (PDX va) = None ->
  free_list s (t :: l) -> kmem_ready s ->
  walkpgdir pgdir va true e s =
    Ok (t + 4 * PTX va) e (upd_mem (new_table pgdir va t) (kalloc_state s)).
Proof.
  intros Hd Hva Ht Hl Hr. unfold walkpgdir, ldk. mstep. rewrite walk_entry by done.
  unfold table_of in Ht. destruct (has _ PTE_P); [done|]. cbn [negb].
  destruct (kalloc_pop e s t l Hl Hr) as [E _]. mstep E.
  assert (Hk : kpage t) by (eapply free_list_page; [done|apply list_elem_of_here]).
  destruct (Z.eqb_spec t 0) as [->|]; [by apply kpage_nonzero in Hk|].
  unfold memset, stk. mstep. mstep.
  destruct (kpage_entry _ (PTX va) Hk (PTX_range va)) as [-> _].
  destruct (kpage_entry pgdir (PDX va) (pd_page _ _ Hd) (PDX_range va Hva)) as [-> ->].
  unfold new_table, new_pde, PGSIZE. rewrite (v2p_kpage t Hk). done.
Qed.

Lemma new_pde_table t : kpage t -> word (new_pde t) /\ has (new_pde t) PTE_P = true /\ p2v (PTE_ADDR (new_pde t)) = t.
Proof.
  intros Hk. pose proof (kpage_bounds t Hk) as (H0 & H1 & H2). unfold new_pde.
  rewrite v2p_kpage by done. rewrite <- !Z.lor_assoc.
  change (Z.lor PTE_P (Z.lor PTE_W PTE_U)) with 7.
  assert (Hw : word (t - KERNBASE)) by (unfold word, PHYSTOP in *; lia).
  split_and!.
  - apply word_lor; [done|unfold word; lia].
  - rewrite has_flags by (unfold PTE_P; lia). by rewrite PTE_FLAGS_lor by (done || lia).
  - rewrite PTE_ADDR_lor by (done || lia). rewrite <- (v2p_kpage t Hk). apply p2v_v2p.
    unfold kpage, KERNBASE, PHYSTOP in *. lia.
Qed.

Section NewTable.
Context (m : mem) (pgdir va t : Z).
Hypothesis Hd : pd_ok m pgdir.
Hypothesis Hva : word va.
Hypothesis Hk : kpage t.
Hypothesis Hfresh : ~ pd_pages m pgdir t.

Lemma new_table_ne : t <> pgdir.
Proof. intros ->. apply Hfresh. by left. Qed.

Lemma frame_new_table : frame (fun p => p = pgdir \/ p = t) m (new_table pgdir va t m).
Proof.
  unfold new_table. eapply frame_trans.
  - eapply frame_mono; [apply frame_mset|]. by right.
  - apply frame_st32; [apply Hd|by apply PDX_range].
  - by left.
Qed.

Lemma new_table_of i : 0 <= i < 1024 ->
  table_of (new_table pgdir va t m) pgdir i = if i =? PDX va then Some t else table_of m pgdir i.
Proof.
  intros Hi. pose proof new_table_ne. unfold table_of, new_table. destruct (Z.eqb_spec i (PDX va)) as [->|Hne].
  - destruct (new_pde_table t Hk) as (Hw & Hp & Ht). rewrite ld32_st32_eq by done. by rewrite Hp, Ht.
  - rewrite ld32_st32_ne, ld32_mset_out; [done| |].
    + destruct (kpage_disjoint t pgdir Hk (pd_page _ _ Hd)); [done|lia..].
    + apply entry_disjoint; try apply Hd; auto using PDX_range.
Qed.

Lemma new_table_pd : pd_ok (new_table pgdir va t m) pgdir.
Proof.
  pose proof new_table_ne. split; [apply Hd| |].
  - intros i u Hi. rewrite new_table_of by done. zcase; [by intros [= <-]|]. by apply Hd.
  - intros i j u Hi Hj. rewrite !new_table_of by done. repeat zcase; intros; simplify_eq; [done| | |].
    + destruct Hfresh. eapply pd_pages_table; [|eassumption]; done.
    + destruct Hfresh. eapply pd_pages_table; [|eassumption]; done.
    + by eapply (pd_inj _ _ Hd).
Qed.

Lemma new_table_pages p : pd_pages (new_table pgdir va t m) pgdir p -> pd_pages m pgdir p \/ p = t.
Proof.
  intros [->|(i & Hi & E)]; [by left; left|]. rewrite new_table_of in E by done.
  destruct (i =? PDX va); simplify_eq; [by right|]. left. eapply pd_pages_table; [|eassumption]; done.
Qed.

Lemma new_table_has p : table_of m pgdir (PDX va) = None -> word va ->
  pd_pages m pgdir p \/ p = t -> pd_pages (new_table pgdir va t m) pgdir p.
Proof.
  intros Hno Hw [[->|(i & Hi & E)]| ->]; [by left| |]; right.
  - exists i. split; [done|]. rewrite new_table_of by done. destruct (Z.eqb_spec i (PDX va)) as [->|]; [congruence|done].
  - exists (PDX va). split; [by apply PDX_range|]. rewrite new_table_of by (by apply PDX_range). by rewrite Z.eqb_refl.
Qed.

Lemma new_table_pte v : table_of m pgdir (PDX va) = None -> word v ->
  pte_of (new_table pgdir va t m) pgdir v = pte_of m pgdir v.
Proof.
  intros Hn Hv. pose proof new_table_ne. rewrite !pte_of_eq by (done || apply new_table_pd).
  rewrite new_table_of by (by apply PDX_range). pose proof (PTX_range v).
  destruct (Z.eqb_spec (PDX v) (PDX va)) as [E|E].
  - rewrite E, Hn. unfold new_table. rewrite ld32_st32_ne.
    + apply ld32_mset_zero; lia.
    + apply entry_disjoint; try apply Hd; auto using PDX_range.
  - destruct (table_of m pgdir (PDX v)) as [u|] eqn:Eu; [|done].
    destruct (pd_tables _ _ Hd _ _ (PDX_range v Hv) Eu) as [Hku Hne].
    apply ld32_entry_ext; [done|]. apply (frame_page _ _ _ _ frame_new_table Hku).
    intros q [-> | ->]; (split; [apply Hd || done|]); [congruence|].
    intros ->. apply Hfresh. eapply pd_pages_table; [|done]. by apply PDX_range.
Qed.

End NewTable.

Lemma upd_mem_kalloc f s : k_mem (upd_mem f (kalloc_state s)) = f (k_mem s).
Proof. rewrite <- (kalloc_state_mem s). done. Qed.

(** Free pages other than the ones taken keep their links. *)
Lemma free_list_mem s l s' F :
  free_list s l -> k_kmem s' = k_kmem s -> frame F (k_mem s) (k_mem s') ->
  (forall q, F q -> kpage q /\ q ∉ l) -> free_list s' l.
Proof.
  intros Hl Hk Hf HF. eapply free_list_frame; [done| |done]. intros x Hx Hp.
  apply ld32_ext. intros a Ha. apply (frame_page _ _ _ x Hf Hp).
  - intros q Hq. destruct (HF q Hq) as [? Hn]. split; [done|]. by intros ->.
  - unfold in_page. lia.
Qed.

Lemma kmem_ready_mem f s : kmem_ready s -> kmem_ready (upd_mem f s).
Proof. done. Qed.

Lemma vm_rel_refl pgdir s l : vm_ok s l pgdir -> vm_rel pgdir s l s l.
Proof.
  intros Hv. split; [done|done|]. exists []. split; [done|]. split; [|apply frame_refl].
  intros p. rewrite elem_of_nil. tauto.
Qed.

Lemma vm_rel_trans pgdir s1 l1 s2 l2 s3 l3 :
  vm_rel pgdir s1 l1 s2 l2 -> vm_rel pgdir s2 l2 s3 l3 -> vm_rel pgdir s1 l1 s3 l3.
Proof.
  intros [_ Hq1 (n1 & -> & Hp1 & Hf1)] [Hv Hq2 (n2 & -> & Hp2 & Hf2)].
  split; [done|by eapply quiet_trans|]. exists (n1 ++ n2). split; [by rewrite app_assoc|].
  assert (Hsub : forall p, pd_pages (k_mem s2) pgdir p \/ p ∈ n2 -> pd_pages (k_mem s1) pgdir p \/ p ∈ n1 ++ n2).
  { intros p. rewrite Hp1, elem_of_app. tauto. }
  split; [intros p; rewrite Hp2, Hp1, elem_of_app; tauto|].
  eapply frame_trans; [|exact Hf2|done]. eapply frame_mono; [exact Hf1|].
  intros p [Hp|Hp]; rewrite ?elem_of_app; auto.
Qed.

Lemma vm_ok_crit s l pgdir : vm_ok s l pgdir -> vm_ok (kmem_crit s) l pgdir.
Proof.
  intros [Hl Hr Hd Hs]. split; rewrite ?kmem_crit_mem; [|by apply kmem_crit_ready|done|done].
  destruct Hl as [Hc Hn Hp]. split; [|done|done]. by rewrite kmem_crit_kmem, kmem_crit_mem.
Qed.

Lemma vm_rel_crit s l pgdir : vm_ok s l pgdir -> vm_rel pgdir s l (kmem_crit s) l.
Proof.
  intros Hv. split; [by apply vm_ok_crit|apply quiet_kmem_crit|]. exists [].
  rewrite kmem_crit_mem. split; [done|]. split; [|apply frame_refl]. intros p. rewrite elem_of_nil. tauto.
Qed.

Lemma walk_new_rel pgdir va s t l :
  vm_ok s (t :: l) pgdir -> word va -> table_of (k_mem s) pgdir (PDX va) = None ->
  vm_rel pgdir s (t :: l) (upd_mem (new_table pgdir va t) (kalloc_state s)) l.
Proof.
  intros [Hl Hr Hd Hs] Hva Hn. pose proof (list_elem_of_here t l) as Hin.
  assert (Hk : kpage t) by (by eapply free_list_page).
  assert (Hfr : ~ pd_pages (k_mem s) pgdir t) by (intros F; by apply (Hs t)).
  destruct (kalloc_pop [] s t l Hl Hr) as [_ Hl'].
  assert (Hnd : t ∉ l) by (pose proof (fl_nodup _ _ Hl) as Hnd; by apply NoDup_cons in Hnd as [? _]).
  assert (Hpl : forall p, pd_pages (k_mem s) pgdir p -> p ∉ l)
    by (intros p Hp F; apply (Hs p Hp); by apply list_elem_of_further).
  split.
  - split.
    + eapply free_list_mem; [exact Hl'|done| |].
      * rewrite upd_mem_kalloc, kalloc_state_mem. by apply frame_new_table.
      * intros q [-> | ->]; (split; [done || apply Hd|]); [|done]. apply Hpl. by left.
    + by apply kmem_ready_mem, kalloc_state_ready.
    + rewrite upd_mem_kalloc. by apply new_table_pd.
    + rewrite upd_mem_kalloc. intros p [Hp| ->]%new_table_pages; auto.
  - apply (quiet_trans _ _ _ (quiet_kalloc s)), quiet_mem.
  - exists [t]. split; [done|]. rewrite upd_mem_kalloc. split.
    + intros p. rewrite list_elem_of_singleton. split; [intros [Hp| ->]%new_table_pages; auto|].
      by apply new_table_has.
    + eapply frame_mono; [by apply frame_new_table|].
      intros p [-> | ->]; [left; by left|right; apply list_elem_of_here].
Qed.

(** [walkpgdir(pgdir, va, 1)]: the address of the entry of [va], in a state
    with the same entries, or 0 when a table is missing and no page is
    free. *)
Lemma walk_alloc pgdir va e s l :
  vm_ok s l pgdir -> word va ->
  (table_of (k_mem s) pgdir (PDX va) = None /\ l = [] /\
     walkpgdir pgdir va true e s = Ok 0 e (kmem_crit s)) \/
  exists t s' l', walkpgdir pgdir va true e s = Ok (t + 4 * PTX va) e s' /\
    vm_rel pgdir s l s' l' /\ table_of (k_mem s') pgdir (PDX va) = Some t /\
    forall v, word v -> pte_of (k_mem s') pgdir v = pte_of (k_mem s) pgdir v.
Proof.
  intros Hv Hva. pose proof Hv as [Hl Hr Hd Hs].
  destruct (table_of (k_mem s) pgdir (PDX va)) as [t|] eqn:Et.
  - right. exists t, s, l. split_and!; [by apply walk_present|by apply vm_rel_refl|done|done].
  - destruct l as [|t l]; [left; split_and!; [done..|by apply walk_full]|].
    right. exists t. eexists _, l. split; [by eapply walk_new|].
    assert (Hk : kpage t) by (eapply free_list_page; [done|apply list_elem_of_here]).
    assert (Hfr : ~ pd_pages (k_mem s) pgdir t)
      by (intros F; apply (Hs t F), list_elem_of_here).
    split; [by apply walk_new_rel|]. rewrite upd_mem_kalloc. split.
    + rewrite new_table_of by (done || by apply PDX_range). by rewrite Z.eqb_refl.
    + intros v Hw. by apply new_table_pte.
Qed.

(** ** Writing an entry *)

Section Store.
Context (s : kstate) (l : list Z) (pgdir va t v : Z).
Hypothesis Hv : vm_ok s l pgdir.
Hypothesis Hva : word va.
Hypothesis Ht : table_of (k_mem s) pgdir (PDX va) = Some t.
Hypothesis Hw : word v.

Let m := k_mem s.
Let m' := st32 m (t - KERNBASE + 4 * PTX va) v.

Lemma store_table : kpage t /\ t <> pgdir.
Proof. apply (pd_tables _ _ (vm_pd _ _ _ Hv) (PDX va)); [by apply PDX_range|done]. Qed.

Lemma store_frame : frame (fun p => p = t) m m'.
Proof. apply frame_st32; [apply store_table|apply PTX_range]. Qed.

Lemma store_dir x : in_page pgdir x -> m' x = m x.
Proof.
  apply (frame_page _ _ _ pgdir store_frame); [apply (vm_pd _ _ _ Hv)|].
  intros q ->. apply store_table.
Qed.

Lemma store_pages p : pd_pages m' pgdir p <-> pd_pages m pgdir p.
Proof. apply pd_pages_ext, store_dir. Qed.

Lemma store_rel : vm_rel pgdir s l (upd_mem (fun _ => m') s) l.
Proof.
  pose proof store_table as [Hk Hne]. pose proof Hv as [Hl Hr Hd Hs].
  assert (Htp : pd_pages m pgdir t) by (eapply pd_pages_table; [|exact Ht]; by apply PDX_range).
  split.
  - split.
    + eapply free_list_mem; [exact Hl|done|exact store_frame|]. intros q ->. auto.
    + done.
    + eapply pd_ok_ext; [exact Hd|apply store_dir].
    + intros p Hp. apply Hs, store_pages, Hp.
  - done.
  - exists []. split; [done|]. split; [intros p; rewrite elem_of_nil, (store_pages p); tauto|].
    eapply frame_mono; [exact store_frame|]. intros q ->. by left.
Qed.

Lemma store_pte w : word w ->
  pte_of m' pgdir w = if w / 4096 =? va / 4096 then v else pte_of m pgdir w.
Proof.
  intros Hww. pose proof store_table as [Hk Hne]. pose proof (vm_pd _ _ _ Hv) as Hd.
  rewrite !pte_of_eq by (done || eapply pd_ok_ext, store_dir; exact Hd).
  rewrite (table_of_ext m m') by (by apply PDX_range || apply store_dir).
  destruct (Z.eqb_spec (w / 4096) (va / 4096)) as [E|E].
  - destruct (page_indices w va) as [-> ->]; [done..|]. unfold m at 1. rewrite Ht.
    unfold m'. by rewrite ld32_st32_eq.
  - destruct (table_of m pgdir (PDX w)) as [u|] eqn:Eu; [|done].
    destruct (pd_tables _ _ Hd _ _ (PDX_range w Hww) Eu) as [Hku Hneu].
    unfold m'. apply ld32_st32_ne. apply entry_disjoint; auto using PTX_range.
    destruct (Z.eq_dec t u) as [->|]; [right|by left]. intros Ep.
    apply E. apply same_page; [done..| |done]. symmetry.
    by eapply (pd_inj _ _ Hd); [apply PDX_range..|exact Ht|].
Qed.

Lemma store_run e : stk (t + 4 * PTX va) v e s = Ok tt e (upd_mem (fun _ => m') s).
Proof.
  unfold stk. destruct (kpage_entry t (PTX va) (proj1 store_table) (PTX_range va)) as [_ ->]. done.
Qed.

Lemma load_run e : ldk (t + 4 * PTX va) e s = Ok (pte_of m pgdir va) e s.
Proof.
  unfold ldk. destruct (kpage_entry t (PTX va) (proj1 store_table) (PTX_range va)) as [_ ->].
  rewrite pte_of_eq by (done || apply Hv). unfold m. by rewrite Ht.
Qed.

End Store.

(** ** mappages *)

(** One turn of the loop of mappages: the entry of [a] is written, or no
    page is left for its table. *)
Definition map_entry (pa perm : Z) : Z := Z.lor (Z.lor pa perm) PTE_P.

Lemma map_entry_word pa perm : word pa -> 0 <= perm < 4096 -> word (map_entry pa perm).
Proof. intros. unfold map_entry. repeat apply word_lor; try done; unfold word, PTE_P; lia. Qed.

(** The entries after the first [k] pages from [a] on were mapped to [pa]. *)
Definition mapped (m : mem) (pgdir a pa perm k v : Z) : Z :=
  if (a <=? v) && (v <? a + 4096 * k) then map_entry (pa + (v / 4096 * 4096 - a)) perm
  else pte_of m pgdir v.

Lemma walk_nonzero t va : kpage t -> t + 4 * PTX va =? 0 = false.
Proof.
  intros Hk. apply Z.eqb_neq. pose proof (PTX_range va). unfold kpage, KERNBASE in Hk. lia.
Qed.

Lemma map_turn pgdir a pa perm e s l (rest : M Z) :
  vm_ok s l pgdir -> word a -> word pa -> 0 <= perm < 4096 ->
  has (pte_of (k_mem s) pgdir a) PTE_P = false ->
  let turn : M Z :=
    pte ← walkpgdir pgdir a true;
    if pte =? 0 then mret (-1) else
    v ← ldk pte;
    if has v PTE_P then panic "remap" else
    stk pte (map_entry pa perm);; rest in
  (l = [] /\ turn e s = Ok (-1) e (kmem_crit s)) \/
  exists s' l', turn e s = rest e s' /\ vm_rel pgdir s l s' l' /\
    forall v, word v ->
      pte_of (k_mem s') pgdir v = if v / 4096 =? a / 4096 then map_entry pa perm else pte_of (k_mem s) pgdir v.
Proof.
  intros Hv Ha Hpa Hperm Hnp turn. unfold turn.
  destruct (walk_alloc pgdir a e s l Hv Ha) as [(Hn & -> & E)|(t & s1 & l1 & E & Hrel & Ht & Hpte)].
  - left. split; [done|]. by mstep E.
  - right. pose proof (vr_ok _ _ _ _ _ Hrel) as Hv1.
    pose proof (map_entry_word pa perm Hpa Hperm) as Hw.
    exists (upd_mem (fun _ => st32 (k_mem s1) (t - KERNBASE + 4 * PTX a) (map_entry pa perm)) s1), l1.
    split; [|split].
    + mstep E. rewrite walk_nonzero by (exact (proj1 (store_table s1 l1 pgdir a t Hv1 Ha Ht))). mstep (load_run s1 l1 pgdir a t Hv1 Ha Ht).
      rewrite Hpte, Hnp by done. by mstep (store_run s1 l1 pgdir a t _ Hv1 Ha Ht).
    + eapply vm_rel_trans; [exact Hrel|]. by apply store_rel.
    + intros v Hvw. rewrite <- Hpte by done. by eapply store_pte.
Qed.

Lemma mapped_zero m pgdir a pa perm v : mapped m pgdir a pa perm 0 v = pte_of m pgdir v.
Proof. unfold mapped. repeat zcase; simpl; done || lia. Qed.

(** The first page and then the [k] pages after it. *)
Lemma mapped_step m m' pgdir a pa perm k v :
  a mod 4096 = 0 -> 0 <= k ->
  pte_of m' pgdir v = (if v / 4096 =? a / 4096 then map_entry pa perm else pte_of m pgdir v) ->
  mapped m' pgdir (a + 4096) (pa + 4096) perm k v = mapped m pgdir a pa perm (k + 1) v.
Proof.
  intros Ha Hk E. unfold mapped. rewrite E. clear E.
  repeat (zcase; simpl); try done; try (exfalso; Z.div_mod_to_equations; lia); f_equal;
    Z.div_mod_to_equations; lia.
Qed.

Lemma mappages_loop_ok n : forall pgdir a last pa perm e s l,
  vm_ok s l pgdir -> a mod 4096 = 0 -> 0 <= a -> last = a + 4096 * Z.of_nat n -> last < 4294967296 ->
  0 <= pa -> pa + 4096 * Z.of_nat n < 4294967296 -> 0 <= perm < 4096 ->
  (forall v, a <= v < last + 4096 -> word v -> has (pte_of (k_mem s) pgdir v) PTE_P = false) ->
  exists r s' l' k, mappages_loop (S n) pgdir a last pa perm e s = Ok r e s' /\
    vm_rel pgdir s l s' l' /\
    (r = 0 /\ k = Z.of_nat (S n) \/ r = -1 /\ 0 <= k <= Z.of_nat n /\ l' = []) /\
    forall v, word v -> pte_of (k_mem s') pgdir v = mapped (k_mem s) pgdir a pa perm k v.
Proof.
  induction n as [|n IH]; intros pgdir a last pa perm e s l Hv Ha H0 -> Hlast Hpa Hpa' Hperm Hnp.
  all: assert (Hwa : word a) by (unfold word; lia).
  all: assert (Hwp : word pa) by (unfold word; lia).
  all: assert (Hna : has (pte_of (k_mem s) pgdir a) PTE_P = false) by (apply Hnp; [lia|done]).
  - cbn [mappages_loop]. replace (a =? a + 4096 * Z.of_nat 0) with true by (symmetry; apply Z.eqb_eq; lia).
    destruct (map_turn pgdir a pa perm e s l (mret 0))
      as [[-> E]|(s' & l' & E & Hrel & Hpte)]; [done..| |].
    + exists (-1), (kmem_crit s), [], 0. split; [exact E|]. split; [by apply vm_rel_crit|].
      split; [right; split_and!; done || lia|]. intros v _. by rewrite kmem_crit_mem, mapped_zero.
    + exists 0, s', l', 1. split; [exact E|split; [done|]]. split; [by left|]. intros v Hvw.
      rewrite <- (mapped_step (k_mem s) (k_mem s') pgdir a pa perm 0) by (try lia; auto).
      by rewrite mapped_zero.
  - set (last := a + 4096 * Z.of_nat (S n)) in *. remember (S n) as fuel eqn:Hfuel. cbn [mappages_loop].
    replace (a =? last) with false by (symmetry; apply Z.eqb_neq; lia).
    unfold PGSIZE. rewrite (u32_small (a + 4096)), (u32_small (pa + 4096)) by lia.
    destruct (map_turn pgdir a pa perm e s l (mappages_loop fuel pgdir (a + 4096) last (pa + 4096) perm))
      as [[-> E]|(s1 & l1 & E & Hrel & Hpte)]; [done..| |].
    + exists (-1), (kmem_crit s), [], 0. split; [exact E|]. split; [by apply vm_rel_crit|].
      split; [right; split_and!; done || lia|]. intros v _. by rewrite kmem_crit_mem, mapped_zero.
    + destruct (IH pgdir (a + 4096) last (pa + 4096) perm e s1 l1) as (r & s' & l' & k & Er & Hr' & Hres & Hp');
        try lia; [apply Hrel| | |].
      * Z.div_mod_to_equations. lia.
      * intros v Hv1 Hvw. rewrite Hpte by done. zcase; [|by apply Hnp; [lia|]].
        exfalso. Z.div_mod_to_equations. lia.
      * exists r, s', l', (k + 1). subst fuel. split; [rewrite <- Er; exact E|].
        split; [by eapply vm_rel_trans|].
        split; [destruct Hres as [[-> ->]|(-> & ? & ->)]; [left|right]; split_and!; done || lia|].
        intros v Hvw. rewrite Hp' by done. apply mapped_step; [done|lia|by apply Hpte].
Qed.

(** The first and last page of a range, and the number of pages after the
    first. *)
Definition first_page (va : Z) : Z := va / 4096 * 4096.
Definition page_span (va size : Z) : Z := ((va + size - 1) / 4096 - va / 4096).

Lemma mappages_ok pgdir va size pa perm e s l :
  vm_ok s l pgdir -> 0 <= va -> 0 < size -> va + size <= 4294967296 ->
  0 <= pa -> pa + 4096 * page_span va size < 4294967296 -> 0 <= perm < 4096 ->
  (forall v, first_page va <= v -> v / 4096 <= (va + size - 1) / 4096 -> word v ->
     has (pte_of (k_mem s) pgdir v) PTE_P = false) ->
  exists r s' l' k, mappages pgdir va size pa perm e s = Ok r e s' /\
    vm_rel pgdir s l s' l' /\
    (r = 0 /\ k = page_span va size + 1 \/ r = -1 /\ 0 <= k <= page_span va size /\ l' = []) /\
    forall v, word v -> pte_of (k_mem s') pgdir v = mapped (k_mem s) pgdir (first_page va) pa perm k v.
Proof.
  unfold first_page, page_span. intros Hv H0 Hs Hva Hpa Hpa' Hperm Hnp. unfold mappages.
  rewrite (u32_small (va + size - 1)) by lia. rewrite !PGROUNDDOWN_eq by (unfold word; lia).
  set (a := va / 4096 * 4096). set (n := (va + size - 1) / 4096 - va / 4096) in *.
  assert (Hn : 0 <= n) by (subst n; Z.div_mod_to_equations; lia).
  assert (Elast : (va + size - 1) / 4096 * 4096 = a + 4096 * n) by (subst a n; lia).
  rewrite Elast. unfold PGSIZE.
  assert (Hb : 0 <= a /\ a + 4096 * n < 4294967296) by (subst a n; Z.div_mod_to_equations; lia).
  replace (a + 4096 * n - a) with (n * 4096) by lia. rewrite u32_small, Z.div_mul by lia.
  destruct (mappages_loop_ok (Z.to_nat n) pgdir a (a + 4096 * n) pa perm e s l)
    as (r & s' & l' & k & E & Hrel & Hres & Hpte); try lia; try done.
  { subst a. apply Z.mod_mul. lia. }
  { intros v Hr Hw. apply Hnp; [|clear - Hr Elast|done]; subst a n; Z.div_mod_to_equations; lia. }
  exists r, s', l', k. split; [done|]. split; [done|]. split; [|done].
  destruct Hres as [[-> ->]|(-> & Hk & ->)]; [left|right]; split_and!; done || lia.
Qed.

(** [mappages] that returns 0 has mapped exactly the pages of its range: the
    entry of every page from the one of [va] to the one of [va + size - 1]
    points to the corresponding page from [pa] on with permissions [perm], and
    the entry of every other page is as before.  It returns -1 only when the
    allocator has run out of pages, and it never panics on a range that is
    not mapped. *)
Theorem mappages_maps_range pgdir va size pa perm e s l :
  vm_ok s l pgdir -> 0 <= va -> 0 < size -> va + size <= 4294967296 ->
  0 <= pa -> pa + 4096 * page_span va size < 4294967296 -> 0 <= perm < 4096 ->
  (forall v, first_page va <= v -> v / 4096 <= (va + size - 1) / 4096 -> word v ->
     has (pte_of (k_mem s) pgdir v) PTE_P = false) ->
  exists r s' l', mappages pgdir va size pa perm e s = Ok r e s' /\
    vm_ok s' l' pgdir /\ quiet s s' /\
    (r = -1 /\ l' = [] \/
     r = 0 /\ forall v, word v -> pte_of (k_mem s') pgdir v =
       if (first_page va <=? v) && (v / 4096 <=? (va + size - 1) / 4096)
       then Z.lor (Z.lor (pa + (first_page v - first_page va)) perm) PTE_P
       else pte_of (k_mem s) pgdir v).
Proof.
  intros Hv H0 Hs Hva Hpa Hpa' Hperm Hnp.
  destruct (mappages_ok pgdir va size pa perm e s l) as (r & s' & l' & k & E & Hrel & Hres & Hpte); [done..|].
  exists r, s', l'. split; [done|]. split; [apply Hrel|]. split; [apply Hrel|].
  destruct Hres as [[-> ->]|(-> & Hk & ->)]; [right|by left]. split; [done|].
  intros v Hw. rewrite Hpte by done. unfold mapped, map_entry, first_page, page_span in *.
  repeat (zcase; simpl); try done; exfalso; Z.div_mod_to_equations; lia.
Qed.

End VmWalk.
