(* ===== verification/VmSpace.v ===== *)
(** * Address spaces: the kernel's part and user memory (vm.c)

    What [setupkvm] builds, and what [allocuvm] and [copyuvm] do to the map
    from virtual pages to entries of VmWalk.v. *)

From S2P Require Import Prelude Memory Kernel KMonad Boot Mmu Spinlock Kalloc Vm VmWalk.

(** ** Definitions *)

Section VmSpace.
Context `{Symbols}.

(** A directory [d] built from pages of the free list. *)
Record new_dir (d : Z) (s : kstate) (l : list Z) (s' : kstate) (l' : list Z) : Prop := {
  nd_ok : vm_ok s' l' d;
  nd_quiet : quiet s s';
  nd_taken : exists new, l = new ++ l' /\
    (forall p, pd_pages (k_mem s') d p <-> p ∈ new) /\
    frame (fun p => p ∈ new) (k_mem s) (k_mem s')
}.

(** The entry that a list of kernel mappings gives to address [v]. *)
Definition km_size (k : kmap_t) : Z := u32 (km_phys_end k - km_phys_start k).
Fixpoint kmap_pte (ks : list kmap_t) (v : Z) : option Z :=
  match ks with
  | [] => None
  | k :: ks' =>
    if (km_virt k <=? v) && (v <? km_virt k + km_size k)
    then Some (map_entry (km_phys_start k + (first_page v - km_virt k)) (km_perm k))
    else kmap_pte ks' v
  end.

(** The mappings are page aligned, in ascending order and do not overlap. *)
Fixpoint kmap_ok (base : Z) (ks : list kmap_t) : Prop :=
  match ks with
  | [] => True
  | k :: ks' =>
    (0 <= base <= km_virt k /\ km_virt k mod 4096 = 0 /\ 0 < km_size k /\ km_size k mod 4096 = 0 /\
     km_virt k + km_size k <= 4294967296 /\ 0 <= km_phys_start k /\
     km_phys_start k + km_size k <= 4294967296 /\ 0 <= km_perm k < 4096) /\
    kmap_ok (km_virt k + km_size k) ks'
  end.

(** ** Lemmas *)

Lemma new_dir_rel d s l s1 l1 s2 l2 :
  new_dir d s l s1 l1 -> vm_rel d s1 l1 s2 l2 -> new_dir d s l s2 l2.
Proof.
  intros [_ Hq1 (n1 & -> & Hp1 & Hf1)] [Hv Hq2 (n2 & -> & Hp2 & Hf2)].
  split; [done|by eapply quiet_trans|]. exists (n1 ++ n2). split; [by rewrite app_assoc|].
  assert (Hsub : forall p, pd_pages (k_mem s1) d p \/ p ∈ n2 -> p ∈ n1 ++ n2).
  { intros p. rewrite elem_of_app. intros [Hp|Hp]; [left; by apply Hp1|by right]. }
  split; [intros p; rewrite Hp2, Hp1, elem_of_app; tauto|].
  eapply frame_trans; [|exact Hf2|done]. eapply frame_mono; [exact Hf1|].
  intros p Hp. rewrite elem_of_app. by left.
Qed.

Lemma fresh_dir s l d :
  free_list s (d :: l) -> kmem_ready s ->
  let s1 := upd_mem (fun m => mset m (d - KERNBASE) 0 4096) (kalloc_state s) in
  new_dir d s (d :: l) s1 l /\ forall v, word v -> pte_of (k_mem s1) d v = 0.
Proof.
  intros Hl Hr s1.
  assert (Hk : kpage d) by (eapply free_list_page; [done|apply list_elem_of_here]).
  assert (Hnd : d ∉ l) by (pose proof (fl_nodup _ _ Hl) as Hnd; by apply NoDup_cons in Hnd as [? _]).
  assert (Hm : k_mem s1 = mset (k_mem s) (d - KERNBASE) 0 4096) by apply upd_mem_kalloc.
  assert (Ht : forall i, 0 <= i < 1024 -> table_of (k_mem s1) d i = None).
  { intros i Hi. unfold table_of. rewrite Hm, ld32_mset_zero by lia. done. }
  assert (Hpages : forall p, pd_pages (k_mem s1) d p -> p = d).
  { intros p [->|(i & Hi & E)]; [done|]. by rewrite Ht in E. }
  assert (Hd : pd_ok (k_mem s1) d).
  { split; [done| |].
    - intros i t Hi E. by rewrite Ht in E.
    - intros i j t Hi _ E. by rewrite Ht in E. }
  split; [split|].
  - destruct (kalloc_pop [] s d l Hl Hr) as [_ Hl']. split; [| |done|].
    + eapply (free_list_mem _ _ _ (fun p => p = d)); [exact Hl'|done| |].
      * rewrite Hm, kalloc_state_mem. apply frame_mset.
      * intros q ->. done.
    + by apply kmem_ready_mem, kalloc_state_ready.
    + by intros p ->%Hpages.
  - apply (quiet_trans _ _ _ (quiet_kalloc s)), quiet_mem.
  - exists [d]. split; [done|]. split.
    + intros p. rewrite list_elem_of_singleton. split; [by intros ->%Hpages|intros ->; by left].
    + rewrite Hm. eapply frame_mono; [apply frame_mset|]. intros p ->. apply list_elem_of_here.
  - intros v Hw. rewrite pte_of_eq by done. by rewrite Ht by (by apply PDX_range).
Qed.

(** A directory has at most 1025 pages. *)
Lemma count_images (d : Z) (f : Z -> option Z) (L l : list Z) :
  NoDup l -> (forall p, p ∈ l -> p = d \/ exists i, i ∈ L /\ f i = Some p) -> (length l <= S (length L))%nat.
Proof.
  intros Hn Hp. assert (Ho : forall L, (length (omap f L) <= length L)%nat).
  { clear. induction L as [|x L IH]; cbn; [lia|]. destruct (f x); cbn; lia. }
  transitivity (length (d :: omap f L)); [|cbn; apply le_n_S, Ho].
  apply submseteq_length, NoDup_submseteq; [done|]. intros p Hin. rewrite elem_of_cons, list_elem_of_omap. by apply Hp.
Qed.

Lemma pd_count m d l : NoDup l -> (forall p, p ∈ l -> pd_pages m d p) -> Z.of_nat (length l) <= 1025.
Proof.
  intros Hn Hp. pose proof (count_images d (table_of m d) (seqZ 0 1024) l Hn) as Hc. rewrite length_seqZ in Hc.
  enough (length l <= S (Z.to_nat 1024))%nat by lia. apply Hc. intros p [->|(i & Hi & E)]%Hp; [by left|right].
  exists i. split; [apply elem_of_seqZ; lia|done].
Qed.

Lemma kmap_pte_below ks : forall base v, kmap_ok base ks -> v < base -> kmap_pte ks v = None.
Proof.
  induction ks as [|k ks IH]; intros base v Hok Hv; [done|]. destruct Hok as [Hk Hok]. cbn.
  repeat (zcase; simpl); try lia; apply (IH (km_virt k + km_size k)); done || lia.
Qed.

Lemma map_kernel_ok ks : forall base d e s l,
  kmap_ok base ks -> vm_ok s l d ->
  (forall v, base <= v -> word v -> pte_of (k_mem s) d v = 0) ->
  exists r s' l', map_kernel d ks e s = Ok r e s' /\ vm_rel d s l s' l' /\
    (r = 0 /\ l' = [] \/
     r = d /\ forall v, word v -> pte_of (k_mem s') d v = default (pte_of (k_mem s) d v) (kmap_pte ks v)).
Proof.
  induction ks as [|k ks IH]; intros base d e s l Hok Hv Hz; cbn [map_kernel].
  { exists d, s, l. split; [done|]. split; [by apply vm_rel_refl|]. by right. }
  destruct Hok as [Hk Hok]. fold (km_size k).
  assert (Hsp : page_span (km_virt k) (km_size k) = km_size k / 4096 - 1)
    by (unfold page_span; Z.div_mod_to_equations; lia).
  destruct (mappages_ok d (km_virt k) (km_size k) (km_phys_start k) (km_perm k) e s l)
    as (r & s1 & l1 & n & E & Hrel & Hres & Hpte); try lia; try done.
  { rewrite Hsp. Z.div_mod_to_equations. lia. }
  { intros v Hr _ Hw. rewrite Hz; [done| |done]. unfold first_page in Hr. Z.div_mod_to_equations. lia. }
  destruct Hres as [[-> ->]|(-> & _ & ->)].
  2: { exists 0, s1, []. split; [by mstep E|]. split; [done|]. by left. }
  assert (Hp1 : forall v, word v -> pte_of (k_mem s1) d v =
    if (km_virt k <=? v) && (v <? km_virt k + km_size k)
    then map_entry (km_phys_start k + (first_page v - km_virt k)) (km_perm k) else pte_of (k_mem s) d v).
  { intros v Hw. rewrite Hpte by done. unfold mapped. rewrite Hsp.
    replace (first_page (km_virt k)) with (km_virt k) by (unfold first_page; Z.div_mod_to_equations; lia).
    replace (km_virt k + 4096 * (km_size k / 4096 - 1 + 1)) with (km_virt k + km_size k)
      by (Z.div_mod_to_equations; lia). done. }
  destruct (IH (km_virt k + km_size k) d e s1 l1 Hok) as (r & s' & l' & E' & Hrel' & Hres').
  { apply Hrel. }
  { intros v Hb Hw. rewrite Hp1 by done. repeat (zcase; simpl); try lia; apply Hz; done || lia. }
  exists r, s', l'. split; [by mstep E|]. split; [by eapply vm_rel_trans|].
  destruct Hres' as [?|[-> Hp']]; [by left|]. right. split; [done|].
  intros v Hw. rewrite Hp', Hp1 by done. cbn.
  repeat (zcase; simpl); try done.
  rewrite (kmap_pte_below ks (km_virt k + km_size k)); done || lia.
Qed.

Lemma kernel_kmap_ok `{!SymbolsOk} : kmap_ok KERNBASE kmap.
Proof.
  pose proof data_aligned as Ha. pose proof data_above. pose proof end_above. pose proof end_below.
  unfold KERNLINK, KERNBASE, PGSIZE in *.
  assert (E1 : km_size (mkKmap KERNLINK (v2p KERNLINK) (v2p sym_data) 0) = sym_data - KERNLINK).
  { unfold km_size, v2p, KERNLINK, KERNBASE. cbn [km_phys_end km_phys_start].
    rewrite (u32_small (sym_data - _)), (u32_small (2148532224 - _)), u32_small; lia. }
  assert (E2 : km_size (mkKmap sym_data (v2p sym_data) PHYSTOP PTE_W) = PHYSTOP + KERNBASE - sym_data).
  { unfold km_size, v2p, PHYSTOP, KERNBASE. cbn [km_phys_end km_phys_start].
    rewrite (u32_small (sym_data - _)), u32_small; lia. }
  assert (Ev : v2p sym_data = sym_data - KERNBASE) by (unfold v2p, KERNBASE; rewrite u32_small; lia).
  unfold kmap. cbn [kmap_ok]. rewrite E1, E2. cbn [km_virt km_phys_start km_perm]. rewrite Ev.
  change (km_size (mkKmap KERNBASE 0 EXTMEM PTE_W)) with 1048576.
  change (km_size (mkKmap DEVSPACE DEVSPACE 0 PTE_W)) with 33554432.
  change (v2p KERNLINK) with 1048576. unfold KERNLINK, KERNBASE, PHYSTOP, DEVSPACE, PTE_W.
  split_and!; try done; try lia; Z.div_mod_to_equations; lia.
Qed.

Lemma setupkvm_ok `{!SymbolsOk} e s l :
  free_list s l -> kmem_ready s ->
  exists r s' l', setupkvm e s = Ok r e s' /\
    (r = 0 /\ l' = [] /\ quiet s s' /\ free_list s' [] /\ kmem_ready s' /\
       frame (fun p => p ∈ l) (k_mem s) (k_mem s') /\ Z.of_nat (length l) <= 1025 \/
     new_dir r s l s' l' /\
     forall v, word v -> pte_of (k_mem s') r v = default 0 (kmap_pte kmap v)).
Proof.
  intros Hl Hr. unfold setupkvm. destruct l as [|d l].
  { destruct (kalloc_none e s Hl Hr) as [E Hl']. exists 0, (kmem_crit s), []. split; [by mstep E|].
    left. split_and!; [done..|apply quiet_kmem_crit|done|by apply kmem_crit_ready| |cbn; lia].
    rewrite kmem_crit_mem. apply frame_refl. }
  assert (Hk : kpage d) by (eapply free_list_page; [done|apply list_elem_of_here]).
  destruct (kalloc_pop e s d l Hl Hr) as [E _]. destruct (fresh_dir s l d Hl Hr) as [Hnd Hz].
  set (s1 := upd_mem _ (kalloc_state s)) in *.
  destruct (map_kernel_ok kmap KERNBASE d e s1 l kernel_kmap_ok) as (r & s' & l' & E' & Hrel & Hres).
  { apply Hnd. }
  { intros v _ Hw. by apply Hz. }
  assert (Hrun : setupkvm e s = Ok r e s').
  { unfold setupkvm. mstep E. destruct (Z.eqb_spec d 0) as [->|]; [by apply kpage_nonzero in Hk|].
    unfold memset. mstep. change (DEVSPACE <? p2v PHYSTOP) with false. cbn iota.
    rewrite v2p_kpage by done. exact E'. }
  exists r, s', l'. split; [exact Hrun|]. destruct Hres as [[-> ->]|[-> Hp]].
  - left. pose proof (new_dir_rel _ _ _ _ _ _ _ Hnd Hrel) as [Hv Hq (new & Hnew & Hp & Hf)]. rewrite app_nil_r in Hnew.
    split_and!; [done..|apply Hv|apply Hv| |].
    + eapply frame_mono; [exact Hf|]. intros p Hin. by rewrite Hnew.
    + rewrite Hnew. apply (pd_count (k_mem s') d); [rewrite <- Hnew; apply Hl|]. intros p. apply Hp.
  - right. split; [by eapply new_dir_rel|]. intros v Hw. by rewrite Hp, Hz.
Qed.

(** The kernel's entries do not carry PTE_U. *)
Lemma kmap_pte_flags ks base v x :
  kmap_ok base ks -> Forall (fun k => (km_phys_start k mod 4096 = 0) /\ (km_perm k = 0 \/ km_perm k = PTE_W)) ks ->
  kmap_pte ks v = Some x -> has x PTE_U = false.
Proof.
  revert base. induction ks as [|k ks IH]; intros base Hok Hf; [done|].
  destruct Hok as [Hk Hok]. apply Forall_cons in Hf as [[Hal Hp] Hf]. cbn.
  destruct (Z.leb_spec (km_virt k) v); simpl; [|by eapply IH].
  destruct (Z.ltb_spec v (km_virt k + km_size k)); [|by eapply IH]. intros [= <-].
  rewrite has_flags by (unfold PTE_U; lia). unfold map_entry. rewrite <- Z.lor_assoc.
  rewrite PTE_FLAGS_lor.
  - destruct Hp as [-> | ->]; done.
  - unfold aligned, first_page. Z.div_mod_to_equations. lia.
  - destruct Hp as [-> | ->]; by vm_compute.
Qed.

Lemma kernel_kmap_flags `{!SymbolsOk} :
  Forall (fun k => (km_phys_start k mod 4096 = 0) /\ (km_perm k = 0 \/ km_perm k = PTE_W)) kmap.
Proof.
  pose proof data_aligned as Ha. pose proof data_above. pose proof end_above. pose proof end_below.
  unfold KERNLINK, KERNBASE, PGSIZE in *.
  assert (Ev : v2p sym_data = sym_data - KERNBASE) by (unfold v2p, KERNBASE; rewrite u32_small; lia).
  unfold kmap. repeat apply Forall_cons_2; cbn [km_phys_start km_perm]; try apply Forall_nil_2;
    (split; [|by auto]); [done|done| |done]. rewrite Ev. unfold KERNBASE. Z.div_mod_to_equations. lia.
Qed.

(** The entries of the direct map of physical memory. *)
Lemma kernel_kmap_direct `{!SymbolsOk} v :
  KERNBASE <= v < KERNBASE + PHYSTOP ->
  kmap_pte kmap v = Some (map_entry (first_page v - KERNBASE)
    (if (KERNLINK <=? v) && (v <? sym_data) then 0 else PTE_W)).
Proof.
  pose proof data_aligned as Ha. pose proof data_above. pose proof end_above. pose proof end_below.
  unfold KERNLINK, KERNBASE, PGSIZE, PHYSTOP in *. intros Hv.
  assert (Ev : v2p sym_data = sym_data - 2147483648) by (unfold v2p, KERNBASE; rewrite u32_small; lia).
  unfold kmap, kmap_pte, km_size, KERNLINK, KERNBASE, EXTMEM, PHYSTOP.
  cbn [km_virt km_phys_start km_phys_end km_perm]. rewrite Ev.
  change (v2p 2148532224) with 1048576. change (u32 (1048576 - 0)) with 1048576.
  rewrite (u32_small (sym_data - 2147483648 - 1048576)), (u32_small (234881024 - (sym_data - 2147483648))) by lia.
  repeat (zcase; simpl); try lia; do 2 f_equal; lia.
Qed.

(** [setupkvm] either runs out of memory (it returns 0 with no page left on
    the free list) or returns a new page directory, made of pages that were
    free and nothing else.  It gives user code access to nothing, maps
    KERNBASE..KERNBASE+PHYSTOP to physical memory, writable except for the
    kernel's text and read-only data, and changes no memory but the pages it
    took. *)
Theorem setupkvm_maps_kernel `{!SymbolsOk} e s l :
  free_list s l -> kmem_ready s ->
  exists r s' l', setupkvm e s = Ok r e s' /\
    (r = 0 /\ l' = [] \/
     new_dir r s l s' l' /\
     (forall v w, word v -> user_pa (k_mem s') r v w = None) /\
     forall v, KERNBASE <= v < KERNBASE + PHYSTOP ->
       pte_of (k_mem s') r v =
       Z.lor (Z.lor (first_page v - KERNBASE) (if (KERNLINK <=? v) && (v <? sym_data) then 0 else PTE_W)) PTE_P).
Proof.
  intros Hl Hr. destruct (setupkvm_ok e s l Hl Hr) as (r & s' & l' & E & Hres).
  exists r, s', l'. split; [exact E|]. destruct Hres as [(? & ? & _)|[Hnd Hp]]; [by left|right].
  split; [done|]. split.
  - intros v w Hw. unfold user_pa. rewrite Hp by done.
    destruct (kmap_pte kmap v) as [x|] eqn:Ex; [|done]. cbn.
    rewrite (kmap_pte_flags _ _ _ _ kernel_kmap_ok kernel_kmap_flags Ex).
    by rewrite andb_false_r.
  - intros v Hv. rewrite Hp by (unfold word, KERNBASE, PHYSTOP in *; lia).
    by rewrite kernel_kmap_direct.
Qed.

End VmSpace.

(** ** Witnesses *)

Lemma two_pages_ready : kmem_ready two_pages_state.
Proof. split; [split; done|done]. Qed.

(** An empty directory in the first of two free pages. *)
Definition empty_dir : kstate :=
  upd_mem (fun m => mset m (2148630528 - KERNBASE) 0 4096) (@kalloc_state two_pages_state).

Lemma empty_dir_ok :
  @vm_ok sample_symbols empty_dir [2148634624] 2148630528 /\
  forall v, word v -> pte_of (k_mem empty_dir) 2148630528 v = 0.
Proof.
  destruct (@fresh_dir sample_symbols two_pages_state [2148634624] 2148630528) as [Hnd Hz];
    [exact two_pages_free|exact two_pages_ready|].
  split; [apply Hnd|exact Hz].
Qed.

Lemma mappages_maps_range_witness :
  exists r s', mappages 2148630528 4096 8192 12288 7 [] empty_dir = Ok r [] s'.
Proof.
  destruct (@mappages_maps_range sample_symbols 2148630528 4096 8192 12288 7 [] empty_dir [2148634624])
    as (r & s' & l' & E & _).
  - exact (proj1 empty_dir_ok).
  - lia.
  - lia.
  - lia.
  - lia.
  - vm_compute. reflexivity.
  - lia.
  - intros v _ _ Hw. rewrite (proj2 empty_dir_ok v Hw). reflexivity.
  - exists r, s'. exact E.
Defined.

Lemma setupkvm_maps_kernel_witness :
  exists r s', @setupkvm sample_symbols [] two_pages_state = Ok r [] s'.
Proof.
  destruct (@setupkvm_maps_kernel sample_symbols sample_symbols_ok [] two_pages_state two_pages)
    as (r & s' & l' & E & _).
  - exact two_pages_free.
  - exact two_pages_ready.
  - exists r, s'. exact E.
Defined.
