(* ===== verification/Cow.v ===== *)
(** * Sharing pages between address spaces (the copy-on-write part of vm.c)

    Several page directories at once, with the reference counters of the
    user pages they map.  [spaces s l ds] is the invariant: the directories
    [ds] and the free list [l] are disjoint, the counter of every mapped page
    is the number of its mappings (or 0 for a page that was never counted and
    has one), and a page that is mapped writable has no other mapping.  Then
    what one process writes no other process reads, and [cow_shareuvm],
    [cow_copyuvm] and [cow_deallocuvm] keep the invariant without changing
    what any process sees. *)

From stdpp Require Import base list list_numbers.
From S2P Require Import Prelude Memory Kernel KMonad Boot Mmu Spinlock Kalloc Vm VmWalk VmSpace.

(** ** Definitions *)

Section Cow.
Context `{Symbols}.

(** The pages below KERNBASE, and the entry of one of them. *)
Definition NUPAGES : Z := 524288.
Definition upte (m : mem) (d i : Z) : Z := pte_of m d (4096 * i).
(** The number of pages below address [sz]. *)
Definition npages (sz : Z) : Z := (sz + 4095) / 4096.

(** The page an entry points to, as a kernel address. *)
Definition frame_of (v : Z) : Z := p2v (PTE_ADDR v).
Definition maps (v p : Z) : bool := has v PTE_P && (frame_of v =? p).

(** The user pages of the directories [ds], and the number of them that are
    mapped to [p] by the entries [T]. *)
Definition spots (ds : list Z) : list (Z * Z) := d ← ds; (fun i => (d, i)) <$> seqZ 0 NUPAGES.
Definition refs (T : Z -> Z -> Z) (ds : list Z) (p : Z) : Z :=
  zsum (fun x => b2z (maps (T x.1 x.2) p)) (spots ds).

(** Page [p] is part of one of the directories. *)
Definition dir_page (m : mem) (ds : list Z) (p : Z) : Prop := exists d, d ∈ ds /\ pd_pages m d p.

(** Directories [ds] next to the allocator with free pages [l]. *)
Record layout (s : kstate) (l ds : list Z) : Prop := {
  ly_free : free_list s l;
  ly_ready : kmem_ready s;
  ly_nodup : NoDup ds;
  ly_pd : forall d, d ∈ ds -> pd_ok (k_mem s) d;
  ly_sep : forall p, dir_page (k_mem s) ds p -> p ∉ l;
  ly_disj : forall d d' p, d ∈ ds -> d' ∈ ds ->
    pd_pages (k_mem s) d p -> pd_pages (k_mem s) d' p -> d = d'
}.

(** The entries [T] of the user pages, the counters [C] by page, the free
    pages [l], and the pages [D] the directories are made of. *)
Record cow_ok (T : Z -> Z -> Z) (C : Z -> Z) (l ds : list Z) (D : Z -> Prop) : Prop := {
  co_frames : forall d i, (d, i) ∈ spots ds -> has (T d i) PTE_P = true ->
    kpage (frame_of (T d i)) /\ frame_of (T d i) ∉ l /\ ~ D (frame_of (T d i));
  co_zero : forall d i, (d, i) ∈ spots ds -> has (T d i) PTE_P = false -> T d i = 0;
  co_count : forall p, 0 < refs T ds p -> C p = refs T ds p \/ (C p = 0 /\ refs T ds p = 1);
  co_excl : forall d i, (d, i) ∈ spots ds -> has (T d i) PTE_P = true -> has (T d i) PTE_W = true ->
    refs T ds (frame_of (T d i)) = 1
}.

Definition refcount (s : kstate) (p : Z) : Z := k_page_counters s (PA_INX (v2p p)).

Record spaces (s : kstate) (l ds : list Z) : Prop := {
  sp_layout : layout s l ds;
  sp_cow : cow_ok (upte (k_mem s)) (refcount s) l ds (dir_page (k_mem s) ds);
  sp_few : (length ds <= NPROC)%nat
}.

(** Page [q] belongs to none of the address spaces and is not free. *)
Definition unused (s : kstate) (l ds : list Z) (q : Z) : Prop :=
  kpage q /\ q ∉ l /\ ~ dir_page (k_mem s) ds q /\ refs (upte (k_mem s)) ds q = 0.

(** User code of directory [d] sees the same memory. *)
Definition same_view (m m' : mem) (d : Z) : Prop :=
  forall va, 0 <= va < KERNBASE -> user_byte m' d va = user_byte m d va.

(** ** Entries and references *)

Lemma elem_of_spots d i ds : (d, i) ∈ spots ds <-> d ∈ ds /\ 0 <= i < NUPAGES.
Proof.
  unfold spots. rewrite list_elem_of_bind. split.
  - intros (d' & Hi & Hd). apply list_elem_of_fmap in Hi as (j & [= -> ->] & Hj).
    apply elem_of_seqZ in Hj. split; [done|lia].
  - intros [Hd Hi]. exists d. split; [|done]. apply list_elem_of_fmap_2, elem_of_seqZ. lia.
Qed.

Lemma NoDup_spots ds : NoDup ds -> NoDup (spots ds).
Proof.
  intros Hn. apply NoDup_bind; [| |done].
  - intros d1 d2 [d i] _ _ H1 H2.
    apply list_elem_of_fmap in H1 as (? & [= -> _] & _).
    by apply list_elem_of_fmap in H2 as (? & [= -> _] & _).
  - intros d _. apply NoDup_fmap_2; [by intros ?? [=]|apply NoDup_seqZ].
Qed.

Lemma maps_true v p : maps v p = true <-> has v PTE_P = true /\ frame_of v = p.
Proof. unfold maps. rewrite andb_true_iff, Z.eqb_eq. done. Qed.

Lemma maps_range v p : 0 <= b2z (maps v p) <= 1.
Proof. destruct (maps v p); simpl; lia. Qed.

Lemma refs_nonneg T ds p : 0 <= refs T ds p.
Proof. apply zsum_nonneg. intros x _. apply maps_range. Qed.

Lemma refs_ext T T' ds p :
  (forall d i, (d, i) ∈ spots ds -> T' d i = T d i) -> refs T' ds p = refs T ds p.
Proof. intros E. apply zsum_ext. intros [d i] Hx. simpl. by rewrite E. Qed.

Lemma refs_pos T ds p d i :
  (d, i) ∈ spots ds -> has (T d i) PTE_P = true -> frame_of (T d i) = p -> 0 < refs T ds p.
Proof.
  intros Hx Hp Hf. unfold refs.
  assert (b2z (maps (T d i) p) = 1) by (rewrite (proj2 (maps_true _ _)); done).
  pose proof (zsum_ge (fun x => b2z (maps (T x.1 x.2) p)) (spots ds) (d, i)
    (fun y _ => proj1 (maps_range _ _)) Hx) as Hg. simpl in Hg. lia.
Qed.

Lemma refs_pos_inv T ds p : 0 < refs T ds p ->
  exists d i, (d, i) ∈ spots ds /\ has (T d i) PTE_P = true /\ frame_of (T d i) = p.
Proof.
  intros ([d i] & Hx & Hm)%zsum_pos. simpl in Hm. exists d, i. split; [done|].
  apply maps_true. by destruct (maps (T d i) p).
Qed.

Lemma spots_cons d ds : spots (d :: ds) = ((fun i => (d, i)) <$> seqZ 0 NUPAGES) ++ spots ds.
Proof. done. Qed.

Lemma spots_length ds : Z.of_nat (length (spots ds)) = NUPAGES * Z.of_nat (length ds).
Proof.
  induction ds as [|d ds IH]; [done|]. rewrite spots_cons, length_app, length_fmap, length_seqZ.
  rewrite Nat2Z.inj_add, IH. unfold NUPAGES. simpl length. lia.
Qed.

Lemma refs_bound T ds p : (length ds <= NPROC)%nat -> refs T ds p <= 33554432.
Proof.
  intros Hl. unfold refs. etrans; [apply zsum_le; intros x _; apply maps_range|].
  rewrite spots_length. unfold NUPAGES, NPROC in *. lia.
Qed.

(** A page with one reference is mapped in one place. *)
Lemma refs_one T ds p d i d' i' :
  refs T ds p = 1 -> (d, i) ∈ spots ds -> (d', i') ∈ spots ds ->
  has (T d i) PTE_P = true -> frame_of (T d i) = p ->
  has (T d' i') PTE_P = true -> frame_of (T d' i') = p -> d = d' /\ i = i'.
Proof.
  intros H1 Hx Hx' Hp Hf Hp' Hf'. destruct (decide ((d, i) = (d', i'))) as [[= -> ->]|Hne]; [done|].
  pose proof (zsum_two (fun x => b2z (maps (T x.1 x.2) p)) (spots ds) (d, i) (d', i')
    (fun y _ => proj1 (maps_range _ _)) Hx Hx' Hne) as Hg. simpl in Hg. rewrite !(proj2 (maps_true _ _)) in Hg by done. unfold refs in H1. simpl in Hg. lia.
Qed.

(** One entry changes. *)
Definition tset (T : Z -> Z -> Z) (d i v : Z) : Z -> Z -> Z :=
  fun d' i' => if decide (d' = d /\ i' = i) then v else T d' i'.

Lemma tset_eq T d i v : tset T d i v d i = v.
Proof. unfold tset. by rewrite decide_True. Qed.

Lemma tset_ne T d i v d' i' : (d', i') <> (d, i) -> tset T d i v d' i' = T d' i'.
Proof. intros Hne. unfold tset. rewrite decide_False; [done|]. naive_solver. Qed.

Lemma refs_tset T ds d i v p :
  NoDup ds -> (d, i) ∈ spots ds ->
  refs (tset T d i v) ds p = refs T ds p - b2z (maps (T d i) p) + b2z (maps v p).
Proof.
  intros Hn Hx. unfold refs.
  rewrite (zsum_change _ (fun x => b2z (maps (T x.1 x.2) p)) (spots ds) (d, i)); simpl.
  - by rewrite tset_eq.
  - by apply NoDup_spots.
  - done.
  - intros [d' i'] _ Hne. simpl. by rewrite tset_ne.
Qed.

Lemma frame_addr v : word v -> kpage (frame_of v) -> PTE_ADDR v = frame_of v - KERNBASE.
Proof.
  intros Hv Hk. pose proof (PTE_ADDR_word v Hv) as Hw. unfold frame_of, p2v, kpage, word, KERNBASE, PHYSTOP in *.
  pose proof (u32_range (PTE_ADDR v + 2147483648)). unfold u32 in *.
  Z.div_mod_to_equations. lia.
Qed.

(** ** Several directories *)

Lemma layout_vm s l ds d : layout s l ds -> d ∈ ds -> vm_ok s l d.
Proof.
  intros Hy Hd. split; [apply Hy|apply Hy|by apply (ly_pd _ _ _ Hy)|].
  intros p Hp. apply (ly_sep _ _ _ Hy). by exists d.
Qed.

Lemma layout_kpage s l ds p : layout s l ds -> dir_page (k_mem s) ds p -> kpage p.
Proof. intros Hy (d & Hd & Hp). eapply pd_pages_kpage; [by apply (ly_pd _ _ _ Hy)|done]. Qed.

Lemma layout_ext s s' l ds :
  layout s l ds -> k_mem s' = k_mem s -> k_kmem s' = k_kmem s -> kmem_ready s' -> layout s' l ds.
Proof.
  intros [Hf Hr Hn Hp Hs Hd] Em Ek Hr'. split; rewrite ?Em; try done.
  destruct Hf as [Hc ? ?]. split; [|done..]. by rewrite Em, Ek.
Qed.

(** What working on directory [d] does to all of them. *)
Record grows (ds : list Z) (d : Z) (s : kstate) (l : list Z) (s' : kstate) (l' : list Z) : Prop := {
  gr_layout : layout s' l' ds;
  gr_free : forall p, p ∈ l' -> p ∈ l;
  gr_dirs : forall p, dir_page (k_mem s') ds p -> dir_page (k_mem s) ds p \/ p ∈ l;
  gr_user : forall p x, kpage p -> p ∉ l -> ~ dir_page (k_mem s) ds p -> in_page p x ->
    k_mem s' x = k_mem s x;
  gr_others : forall d' va, d' ∈ ds -> d' <> d -> word va ->
    pte_of (k_mem s') d' va = pte_of (k_mem s) d' va;
  gr_counters : k_page_counters s' = k_page_counters s;
  gr_keeps : forall d' p, d' ∈ d :: ds -> pd_pages (k_mem s) d' p -> pd_pages (k_mem s') d' p;
  gr_taken : forall p, p ∈ l -> p ∉ l' -> pd_pages (k_mem s') d p
}.

Section Grows.
Context (s : kstate) (l : list Z) (s' : kstate) (l' ds : list Z) (d : Z).
Hypothesis Hy : layout s l ds.
Hypothesis Hd : d ∈ ds.
Hypothesis Hr : vm_rel d s l s' l'.

Lemma rel_keeps d' p x : d' ∈ ds -> d' <> d -> pd_pages (k_mem s) d' p -> in_page p x ->
  k_mem s' x = k_mem s x.
Proof.
  intros Hd' Hne Hp. destruct Hr as [_ _ (new & -> & _ & Hf)].
  apply (frame_page _ _ _ p Hf); [eapply layout_kpage; [done|by exists d']|].
  intros q [Hq|Hq].
  - split; [eapply layout_kpage; [done|by exists d]|]. intros ->. apply Hne.
    by eapply (ly_disj _ _ _ Hy).
  - split; [eapply free_list_page; [apply Hy|]; rewrite elem_of_app; by left|].
    intros ->. apply (ly_sep _ _ _ Hy p); [by exists d'|]. rewrite elem_of_app. by left.
Qed.

Lemma rel_pages d' p : d' ∈ ds -> d' <> d -> pd_pages (k_mem s') d' p <-> pd_pages (k_mem s) d' p.
Proof. intros Hd' Hne. apply pd_pages_ext. intros x. apply (rel_keeps d'); [done..|by left]. Qed.

Lemma rel_own p : pd_pages (k_mem s') d p -> pd_pages (k_mem s) d p \/ p ∈ l.
Proof.
  destruct Hr as [_ _ (new & -> & Hn & _)]. intros [?|?]%Hn; [by left|right].
  rewrite elem_of_app. by left.
Qed.

Lemma rel_sub p : p ∈ l' -> p ∈ l.
Proof. destruct Hr as [_ _ (new & -> & _)]. rewrite elem_of_app. by right. Qed.

Lemma rel_disj d' p : d' ∈ ds -> d' <> d -> pd_pages (k_mem s') d p -> pd_pages (k_mem s') d' p -> False.
Proof.
  intros Hd' Hne Hp Hp'. rewrite rel_pages in Hp' by done. apply rel_own in Hp as [Hp|Hp].
  - apply Hne. by eapply (ly_disj _ _ _ Hy).
  - apply (ly_sep _ _ _ Hy p); [by exists d'|done].
Qed.

Lemma rel_layout : layout s' l' ds.
Proof.
  pose proof (vr_ok _ _ _ _ _ Hr) as Hv. split; [apply Hv|apply Hv|apply Hy| | |].
  - intros d' Hd'. destruct (decide (d' = d)) as [->|Hne]; [apply Hv|].
    eapply pd_ok_ext; [by apply (ly_pd _ _ _ Hy)|]. intros x. apply (rel_keeps d'); [done..|by left].
  - intros p (d' & Hd' & Hp). destruct (decide (d' = d)) as [->|Hne]; [by apply (vm_sep _ _ _ Hv)|].
    rewrite rel_pages in Hp by done. intros Hin%rel_sub. by apply (ly_sep _ _ _ Hy p); [exists d'|].
  - intros d1 d2 p H1 H2 Hp1 Hp2.
    destruct (decide (d1 = d)) as [->|N1], (decide (d2 = d)) as [->|N2]; [done| | |].
    + destruct (rel_disj d2 p); auto.
    + destruct (rel_disj d1 p); auto.
    + rewrite rel_pages in Hp1, Hp2 by done. by eapply (ly_disj _ _ _ Hy).
Qed.

Lemma grows_rel : grows ds d s l s' l'.
Proof.
  split.
  - apply rel_layout.
  - apply rel_sub.
  - intros p (d' & Hd' & Hp). destruct (decide (d' = d)) as [->|Hne].
    + destruct (rel_own p Hp); [left; by exists d|by right].
    + left. exists d'. by rewrite <- rel_pages.
  - intros p x Hk Hl Hn. destruct Hr as [_ _ (new & -> & _ & Hf)].
    apply (frame_page _ _ _ p Hf Hk). intros q [Hq|Hq].
    + split; [eapply layout_kpage; [done|by exists d]|]. intros ->. apply Hn. by exists d.
    + split; [eapply free_list_page; [apply Hy|]; rewrite elem_of_app; by left|].
      intros ->. apply Hl. rewrite elem_of_app. by left.
  - intros d' va Hd' Hne Hw. apply pte_of_ext; [by apply (ly_pd _ _ _ Hy)|done|].
    intros p x. by apply rel_keeps.
  - apply quiet_counters, Hr.
  - intros d' p Hd' Hp. destruct (decide (d' = d)) as [->|Hne]; [|apply elem_of_cons in Hd' as [?|?]; [done|by rewrite rel_pages]].
    destruct Hr as [_ _ (new & _ & Hn & _)]. apply Hn. by left.
  - intros p Hp Hno. destruct Hr as [_ _ (new & -> & Hn & _)]. apply Hn. apply elem_of_app in Hp as [?|?]; [by right|done].
Qed.

End Grows.

(** A user page is written. *)
Lemma layout_user s s' l ds q :
  layout s l ds -> kpage q -> q ∉ l -> ~ dir_page (k_mem s) ds q ->
  frame (fun p => p = q) (k_mem s) (k_mem s') -> k_kmem s' = k_kmem s -> kmem_ready s' ->
  layout s' l ds /\
  (forall p, dir_page (k_mem s') ds p <-> dir_page (k_mem s) ds p) /\
  (forall d va, d ∈ ds -> word va -> pte_of (k_mem s') d va = pte_of (k_mem s) d va) /\
  (forall d i, d ∈ ds -> 0 <= i < 1024 -> table_of (k_mem s') d i = table_of (k_mem s) d i).
Proof.
  intros Hy Hq Hl Hnd Hf Hk Hr.
  assert (Hx : forall d p x, d ∈ ds -> pd_pages (k_mem s) d p -> in_page p x -> k_mem s' x = k_mem s x).
  { intros d p x Hd Hp. apply (frame_page _ _ _ p Hf); [eapply layout_kpage; [done|by exists d]|].
    intros ? ->. split; [done|]. intros ->. apply Hnd. by exists d. }
  assert (Hpp : forall d p, d ∈ ds -> pd_pages (k_mem s') d p <-> pd_pages (k_mem s) d p).
  { intros d p Hd. apply pd_pages_ext. intros x. apply (Hx d); [done|by left]. }
  assert (Hdp : forall p, dir_page (k_mem s') ds p <-> dir_page (k_mem s) ds p).
  { intros p. split; intros (d & Hd & Hp); exists d; split; try done; by apply Hpp. }
  split_and!; [|done| |].
  - split; [|done|apply Hy| | |].
    + eapply free_list_mem; [apply Hy|done|exact Hf|]. by intros ? ->.
    + intros d Hd. eapply pd_ok_ext; [by apply (ly_pd _ _ _ Hy)|]. intros x.
      apply (Hx d); [done|by left].
    + intros p Hp. apply (ly_sep _ _ _ Hy). by apply Hdp.
    + intros d d' p Hd Hd' Hp Hp'. apply Hpp in Hp, Hp'; [|done..]. by eapply (ly_disj _ _ _ Hy).
  - intros d va Hd Hw. apply pte_of_ext; [by apply (ly_pd _ _ _ Hy)|done|].
    intros p x. by apply (Hx d).
  - intros d i Hd Hi. apply table_of_ext; [done|]. intros x. apply (Hx d); [done|by left].
Qed.

(** An entry is written. *)
Lemma entry_set_all s l ds d va t v e :
  layout s l ds -> d ∈ ds -> word va -> table_of (k_mem s) d (PDX va) = Some t -> word v ->
  exists m', stk (t + 4 * PTX va) v e s = Ok tt e (upd_mem (fun _ => m') s) /\
    grows ds d s l (upd_mem (fun _ => m') s) l /\
    (forall i, 0 <= i < 1024 -> table_of m' d i = table_of (k_mem s) d i) /\
    forall w, word w -> pte_of m' d w = if w / 4096 =? va / 4096 then v else pte_of (k_mem s) d w.
Proof.
  intros Hy Hd Hva Ht Hw. pose proof (layout_vm _ _ _ _ Hy Hd) as Hv.
  eexists. split; [by eapply store_run|]. split; [|split].
  - apply grows_rel; [done..|]. by apply store_rel.
  - intros i Hi. apply table_of_ext; [done|]. by eapply store_dir.
  - intros w Hww. by eapply store_pte.
Qed.

Lemma entry_set s l ds d va t v e :
  layout s l ds -> d ∈ ds -> word va -> table_of (k_mem s) d (PDX va) = Some t -> word v ->
  exists m', stk (t + 4 * PTX va) v e s = Ok tt e (upd_mem (fun _ => m') s) /\
    grows ds d s l (upd_mem (fun _ => m') s) l /\ table_of m' d (PDX va) = Some t /\
    forall w, word w -> pte_of m' d w = if w / 4096 =? va / 4096 then v else pte_of (k_mem s) d w.
Proof.
  intros Hy Hd Hva Ht Hw. destruct (entry_set_all s l ds d va t v e Hy Hd Hva Ht Hw) as (m' & E & G & T & P).
  exists m'. split_and!; try done. by rewrite T by (by apply PDX_range).
Qed.

Lemma pte_of_page m d va : word va -> pte_of m d va = upte m d (va / 4096).
Proof.
  intros Hva. assert (Hw : word (4096 * (va / 4096))) by (unfold word in *; Z.div_mod_to_equations; lia).
  destruct (page_indices va (4096 * (va / 4096))) as [E1 E2]; [done..| |].
  { Z.div_mod_to_equations. lia. }
  unfold upte, pte_of, pde_of. by rewrite E1, E2.
Qed.

Lemma page_word i : 0 <= i < NUPAGES -> word (4096 * i).
Proof. unfold NUPAGES, word. lia. Qed.

Lemma page_index va : 0 <= va < KERNBASE -> 0 <= va / 4096 < NUPAGES.
Proof. unfold KERNBASE, NUPAGES. intros. Z.div_mod_to_equations. lia. Qed.

Lemma upte_word m d i : word (upte m d i).
Proof. apply pte_of_word. Qed.

(** The entries of all directories after the entry of [va] in [d] became
    [v]. *)
Lemma grows_tset ds d s l s' l' va v :
  grows ds d s l s' l' ->
  (forall w, word w -> pte_of (k_mem s') d w = if w / 4096 =? va / 4096 then v else pte_of (k_mem s) d w) ->
  forall d' i, (d', i) ∈ spots ds ->
    upte (k_mem s') d' i = tset (upte (k_mem s)) d (va / 4096) v d' i.
Proof.
  intros Hg E d' i [Hd Hi]%elem_of_spots. pose proof (page_word i Hi) as Hw.
  unfold tset. case_decide as Hc.
  - destruct Hc as [-> ->]. unfold upte. rewrite E by done.
    rewrite (proj2 (Z.eqb_eq _ _)); [done|]. Z.div_mod_to_equations. lia.
  - unfold upte. destruct (decide (d' = d)) as [->|Hne]; [|by apply (gr_others _ _ _ _ _ _ Hg)].
    rewrite E by done. rewrite (proj2 (Z.eqb_neq _ _)); [done|].
    intros Ei. apply Hc. split; [done|]. Z.div_mod_to_equations. lia.
Qed.

Lemma user_byte_eq m d va : 0 <= va < KERNBASE ->
  user_byte m d va =
  let v := upte m d (va / 4096) in
  if has v PTE_P && has v PTE_U then Some (ld8 m (PTE_ADDR v + va mod 4096)) else None.
Proof.
  intros Hva. unfold user_byte, user_pa. rewrite pte_of_page by (unfold word, KERNBASE in *; lia).
  cbn zeta. rewrite andb_true_r. by destruct (has _ PTE_P && has _ PTE_U).
Qed.

(** The same view from equal access bits and equal contents. *)
Lemma same_view_intro m m' d :
  (forall i, 0 <= i < NUPAGES ->
     has (upte m' d i) PTE_P = has (upte m d i) PTE_P /\
     (has (upte m d i) PTE_P = true ->
      has (upte m' d i) PTE_U = has (upte m d i) PTE_U /\
      forall o, 0 <= o < 4096 -> m' (PTE_ADDR (upte m' d i) + o) = m (PTE_ADDR (upte m d i) + o))) ->
  same_view m m' d.
Proof.
  intros E va Hva. rewrite !user_byte_eq by done. cbn zeta.
  destruct (E (va / 4096) (page_index va Hva)) as [-> E2].
  destruct (has (upte m d (va / 4096)) PTE_P); [|done]. destruct E2 as [-> E3]; [done|].
  simpl. destruct (has _ PTE_U); [|done]. f_equal. unfold ld8. rewrite E3; [done|].
  apply Z.mod_pos_bound. lia.
Qed.

Lemma same_view_refl m d : same_view m m d.
Proof. by intros va _. Qed.

Lemma same_view_trans m1 m2 m3 d : same_view m1 m2 d -> same_view m2 m3 d -> same_view m1 m3 d.
Proof. intros H1 H2 va Hva. by rewrite H2, H1. Qed.

(** ** Keeping the invariant *)

Lemma cow_mono T T' C C' l l' ds D D' :
  cow_ok T C l ds D -> (forall d i, (d, i) ∈ spots ds -> T' d i = T d i) ->
  (forall p, p ∈ l' -> p ∈ l) -> (forall p, D' p -> D p \/ p ∈ l) ->
  (forall p, 0 < refs T ds p -> C' p = C p) -> cow_ok T' C' l' ds D'.
Proof.
  intros [Hf Hz Hc He] ET El ED EC.
  assert (ER : forall p, refs T' ds p = refs T ds p) by (intros; by apply refs_ext).
  split.
  - intros d i Hx. rewrite ET by done. intros (Hk & Hl & Hd)%Hf; [|done].
    split_and!; [done|auto|]. intros [?|?]%ED; auto.
  - intros d i Hx. rewrite ET by done. by apply Hz.
  - intros p. rewrite ER. intros Hp. rewrite EC by done. auto.
  - intros d i Hx. rewrite ET, ER by done. by apply He.
Qed.

Section Tset.
Context (T : Z -> Z -> Z) (C : Z -> Z) (l ds : list Z) (D : Z -> Prop) (d i : Z).
Hypothesis Hco : cow_ok T C l ds D.
Hypothesis Hn : NoDup ds.
Hypothesis Hx : (d, i) ∈ spots ds.

Let p0 := frame_of (T d i).

(** Every statement about the entries of [tset T d i v] is one about [v] and
    one about the other entries of [T]. *)
Lemma tset_cases v (P : Z -> Z -> Z -> Prop) :
  P d i v -> (forall d' i', (d', i') ∈ spots ds -> (d', i') <> (d, i) -> P d' i' (T d' i')) ->
  forall d' i', (d', i') ∈ spots ds -> P d' i' (tset T d i v d' i').
Proof.
  intros H0 H1 d' i' Hx'. destruct (decide ((d', i') = (d, i))) as [[= -> ->]|Hne].
  - by rewrite tset_eq.
  - rewrite tset_ne by done. by apply H1.
Qed.

Lemma refs_kpage p : 0 < refs T ds p -> kpage p.
Proof.
  intros (d' & i' & Hx' & Pu & <-)%refs_pos_inv. by apply (co_frames _ _ _ _ _ Hco d' i').
Qed.

(** The entry keeps its page. *)
Lemma cow_flags v :
  has (T d i) PTE_P = true -> has v PTE_P = true -> frame_of v = p0 ->
  (has v PTE_W = true -> refs T ds p0 = 1) -> cow_ok (tset T d i v) C l ds D.
Proof.
  intros Hp Hp' Ef Hw. destruct Hco as [Hf Hz Hc He].
  assert (ER : forall p, refs (tset T d i v) ds p = refs T ds p).
  { intros p. rewrite refs_tset by done. assert (maps v p = maps (T d i) p) as ->; [|lia].
    unfold maps. by rewrite Hp, Hp', Ef. }
  split.
  - apply (tset_cases v (fun _ _ u => has u PTE_P = true -> kpage (frame_of u) /\ frame_of u ∉ l /\ ~ D (frame_of u))).
    + intros _. rewrite Ef. by apply Hf.
    + intros; by apply Hf.
  - apply (tset_cases v (fun _ _ u => has u PTE_P = false -> u = 0)); [congruence|]. intros; by apply Hz.
  - intros p. rewrite ER. apply Hc.
  - apply (tset_cases v (fun _ _ u => has u PTE_P = true -> has u PTE_W = true -> refs _ ds (frame_of u) = 1)).
    + intros _ Hv. rewrite ER, Ef. auto.
    + intros d' i' Hx' _. rewrite ER. by apply He.
Qed.

(** The entry moves from a page with other references to a fresh page. *)
Lemma cow_fresh v q C' l' D' :
  has (T d i) PTE_P = true -> has v PTE_P = true -> frame_of v = q ->
  refs T ds q = 0 -> kpage q -> q ∉ l' -> ~ D' q -> 1 < C p0 ->
  (forall p, p ∈ l' -> p ∈ l) -> (forall p, D' p -> D p \/ p ∈ l) ->
  C' q = 1 -> C' p0 = C p0 - 1 -> (forall p, kpage p -> p <> q -> p <> p0 -> C' p = C p) ->
  cow_ok (tset T d i v) C' l' ds D'.
Proof.
  intros Hp Hp' Ef Hq Hk Hql Hqd Hc0 El ED Cq Cp Co. destruct Hco as [Hf Hz Hc He].
  assert (Hne : q <> p0).
  { intros ->. pose proof (refs_pos T ds p0 d i Hx Hp eq_refl). lia. }
  assert (ER : forall p, refs (tset T d i v) ds p =
    refs T ds p - b2z (bool_decide (p = p0)) + b2z (bool_decide (p = q))).
  { intros p. rewrite refs_tset by done. unfold maps. rewrite Hp, Hp', Ef. simpl. fold p0.
    f_equal; [f_equal|]; f_equal; apply eq_true_iff_eq; rewrite Z.eqb_eq, bool_decide_eq_true; naive_solver. }
  assert (R0 : refs T ds p0 = C p0).
  { destruct (Hc p0 (refs_pos T ds p0 d i Hx Hp eq_refl)); lia. }
  split.
  - apply (tset_cases v (fun _ _ u => has u PTE_P = true -> kpage (frame_of u) /\ frame_of u ∉ l' /\ ~ D' (frame_of u))).
    + intros _. by rewrite Ef.
    + intros d' i' Hx' _ (? & ? & ?)%Hf; [|done]. split_and!; [done|auto|]. intros [?|?]%ED; auto.
  - apply (tset_cases v (fun _ _ u => has u PTE_P = false -> u = 0)); [congruence|]. intros; by apply Hz.
  - intros p. rewrite ER. repeat case_bool_decide; subst; simpl; intros Hpos; try done; [lia..|].
    replace (refs T ds p - 0 + 0) with (refs T ds p) in * by lia.
    rewrite Co by (done || by apply refs_kpage). by apply Hc.
  - apply (tset_cases v (fun _ _ u => has u PTE_P = true -> has u PTE_W = true -> refs _ ds (frame_of u) = 1)).
    + intros _ _. rewrite ER, Ef, Hq, bool_decide_false, bool_decide_true by done. done.
    + intros d' i' Hx' Hne' Pu Wu. rewrite ER. pose proof (He d' i' Hx' Pu Wu) as E1.
      rewrite !bool_decide_false; simpl; [lia| |].
      * intros E. rewrite E in E1. lia.
      * intros E. rewrite E in E1. lia.
Qed.

(** A free entry gets a page that nobody maps. *)
Lemma cow_alloc v q C' l' D' :
  has (T d i) PTE_P = false -> has v PTE_P = true -> frame_of v = q ->
  refs T ds q = 0 -> kpage q -> q ∉ l' -> ~ D' q ->
  (forall p, p ∈ l' -> p ∈ l) -> (forall p, D' p -> D p \/ p ∈ l) ->
  C' q = 1 -> (forall p, kpage p -> p <> q -> C' p = C p) ->
  cow_ok (tset T d i v) C' l' ds D'.
Proof.
  intros Hp Hp' Ef Hq Hk Hql Hqd El ED Cq Co. destruct Hco as [Hf Hz Hc He].
  assert (ER : forall p, refs (tset T d i v) ds p = refs T ds p + b2z (bool_decide (p = q))).
  { intros p. rewrite refs_tset by done. unfold maps. rewrite Hp, Hp', Ef. simpl.
    assert (q =? p = bool_decide (p = q)) as ->; [|lia].
    apply eq_true_iff_eq. rewrite Z.eqb_eq, bool_decide_eq_true. naive_solver. }
  split.
  - apply (tset_cases v (fun _ _ u => has u PTE_P = true -> kpage (frame_of u) /\ frame_of u ∉ l' /\ ~ D' (frame_of u))).
    + intros _. by rewrite Ef.
    + intros d' i' Hx' _ (? & ? & ?)%Hf; [|done]. split_and!; [done|auto|]. intros [?|?]%ED; auto.
  - apply (tset_cases v (fun _ _ u => has u PTE_P = false -> u = 0)); [congruence|]. intros; by apply Hz.
  - intros p. rewrite ER. case_bool_decide as E; simpl; intros Hpos; [subst p; left; lia|].
    replace (refs T ds p + 0) with (refs T ds p) in * by lia.
    rewrite Co by (done || by apply refs_kpage). by apply Hc.
  - apply (tset_cases v (fun _ _ u => has u PTE_P = true -> has u PTE_W = true -> refs _ ds (frame_of u) = 1)).
    + intros _ _. rewrite ER, Ef, Hq, bool_decide_true by done. done.
    + intros d' i' Hx' _ Pu Wu. rewrite ER, bool_decide_false; [simpl; rewrite He by done; lia|].
      intros E. pose proof (refs_pos T ds q d' i' Hx' Pu E). lia.
Qed.

(** A free entry gets a page that is mapped elsewhere, read-only. *)
Lemma cow_share v p C' :
  has (T d i) PTE_P = false -> has v PTE_P = true -> has v PTE_W = false -> frame_of v = p ->
  0 < refs T ds p ->
  (forall d' i', (d', i') ∈ spots ds -> has (T d' i') PTE_P = true -> frame_of (T d' i') = p ->
     has (T d' i') PTE_W = false) ->
  C' p = (if C p =? 0 then 2 else C p + 1) -> (forall p', kpage p' -> p' <> p -> C' p' = C p') ->
  cow_ok (tset T d i v) C' l ds D.
Proof.
  intros Hp Hp' Hw' Ef Hpos Hnw Cp Co. destruct Hco as [Hf Hz Hc He].
  assert (ER : forall p', refs (tset T d i v) ds p' = refs T ds p' + b2z (bool_decide (p' = p))).
  { intros p'. rewrite refs_tset by done. unfold maps. rewrite Hp, Hp', Ef. simpl.
    assert (p =? p' = bool_decide (p' = p)) as ->; [|lia].
    apply eq_true_iff_eq. rewrite Z.eqb_eq, bool_decide_eq_true. naive_solver. }
  split.
  - apply (tset_cases v (fun _ _ u => has u PTE_P = true -> kpage (frame_of u) /\ frame_of u ∉ l /\ ~ D (frame_of u))).
    + intros _. rewrite Ef. destruct (refs_pos_inv T ds p Hpos) as (d' & i' & Hx' & Pu & <-). by apply Hf.
    + intros d' i' Hx' _. by apply Hf.
  - apply (tset_cases v (fun _ _ u => has u PTE_P = false -> u = 0)); [congruence|]. intros; by apply Hz.
  - intros p'. rewrite ER. case_bool_decide as E; simpl; intros Hpos'.
    + subst p'. left. rewrite Cp. destruct (Hc p Hpos) as [-> |[-> ->]]; [|done].
      destruct (Z.eqb_spec (refs T ds p) 0); lia.
    + replace (refs T ds p' + 0) with (refs T ds p') in * by lia.
      rewrite Co by (done || by apply refs_kpage). by apply Hc.
  - apply (tset_cases v (fun _ _ u => has u PTE_P = true -> has u PTE_W = true -> refs _ ds (frame_of u) = 1)).
    + congruence.
    + intros d' i' Hx' _ Pu Wu. rewrite ER, bool_decide_false; [simpl; rewrite He by done; lia|].
      intros E. by rewrite (Hnw d' i') in Wu.
Qed.

(** The entry is cleared; the page may be freed when this was its last
    reference. *)
Lemma cow_drop C' l' D' :
  has (T d i) PTE_P = true -> refs T ds p0 = 1 \/ C' p0 = C p0 - 1 ->
  (forall p, kpage p -> p <> p0 -> C' p = C p) ->
  (forall p, p ∈ l' -> p ∈ l \/ p = p0 /\ refs T ds p0 = 1) -> (forall p, D' p -> D p) ->
  cow_ok (tset T d i 0) C' l' ds D'.
Proof.
  intros Hp Cp Co El ED. destruct Hco as [Hf Hz Hc He].
  assert (ER : forall p, refs (tset T d i 0) ds p = refs T ds p - b2z (bool_decide (p = p0))).
  { intros p. rewrite refs_tset by done. unfold maps at 1. rewrite Hp. fold p0. change (maps 0 p) with false. simpl.
    assert (p0 =? p = bool_decide (p = p0)) as ->; [|lia].
    apply eq_true_iff_eq. rewrite Z.eqb_eq, bool_decide_eq_true. naive_solver. }
  pose proof (Hc p0 (refs_pos T ds p0 d i Hx Hp eq_refl)) as R0.
  split.
  - apply (tset_cases 0 (fun _ _ u => has u PTE_P = true -> kpage (frame_of u) /\ frame_of u ∉ l' /\ ~ D' (frame_of u))).
    + done.
    + intros d' i' Hx' Hne Pu. destruct (Hf d' i' Hx' Pu) as (? & Hl & ?). split_and!; [done| |auto].
      intros [?|[E C1]]%El; [done|]. apply Hne. destruct (refs_one T ds p0 d i d' i') as [-> ->]; done.
  - apply (tset_cases 0 (fun _ _ u => has u PTE_P = false -> u = 0)); [done|]. intros; by apply Hz.
  - intros p. rewrite ER. case_bool_decide as E; simpl; intros Hpos.
    + subst p. left. destruct Cp; lia.
    + replace (refs T ds p - 0) with (refs T ds p) in * by lia.
      rewrite Co by (done || by apply refs_kpage). by apply Hc.
  - apply (tset_cases 0 (fun _ _ u => has u PTE_P = true -> has u PTE_W = true -> refs _ ds (frame_of u) = 1)).
    + done.
    + intros d' i' Hx' Hne Pu Wu. rewrite ER. pose proof (He d' i' Hx' Pu Wu) as E1.
      rewrite bool_decide_false; [simpl; lia|]. intros E. apply Hne.
      rewrite E in E1. destruct (refs_one T ds p0 d i d' i') as [-> ->]; done.
Qed.

End Tset.

(** ** Loading an address space *)

Lemma popcli_cpu e s c' :
  k_cpu s = c' -> c_if c' = false -> 0 < c_ncli c' ->
  popcli e s = Ok tt e (set_k_cpu (popped c') s).
Proof. intros <- Hi Hn. by rewrite popcli_ok. Qed.

(** [switchuvm] loads the page directory and changes only the CPU. *)
Lemma switchuvm_ok i e s t th p :
  c_thread (k_cpu s) = Some t -> thread_of s t = Some th ->
  k_ptable s !! i = Some p -> p_pgdir p <> 0 -> cli_ok (k_cpu s) ->
  exists c', switchuvm i e s = Ok tt e (set_k_cpu c' s) /\
    c_cr3 c' = v2p (p_pgdir p) /\ cli_ok c' /\ c_ncli c' = c_ncli (k_cpu s) /\
    c_proc c' = c_proc (k_cpu s) /\ c_thread c' = c_thread (k_cpu s) /\ c_id c' = c_id (k_cpu s).
Proof.
  intros Ht Hth Hp Hpg Hc. unfold switchuvm. mstep pushcli_ok. mstep. unfold set_gdt. mstep. mstep.
  mstep curthread_ok by (exact Ht). mstep thread_at_ok by (exact Hth). mstep. mstep.
  mstep proc_at_ok by (exact Hp). rewrite (proj2 (Z.eqb_neq _ _) Hpg). unfold lcr3. mstep.
  destruct Hc as [H0 Hif].
  rewrite (popcli_cpu _ _ _ eq_refl) by (cbn; done || lia).
  eexists. split; [reflexivity|]. cbn. split_and!; try done; [|lia].
  unfold cli_ok. cbn. split; [lia|]. intros. destruct (Z.eqb_spec (c_ncli (k_cpu s) + 1 - 1) 0); [lia|done].
Qed.

(** ** Making an entry private *)

Definition private (v : Z) : Z := Z.lor (clear v PTE_SH) PTE_W.

Lemma private_bits v : word v ->
  word (private v) /\ frame_of (private v) = frame_of v /\ PTE_ADDR (private v) = PTE_ADDR v /\
  has (private v) PTE_P = has v PTE_P /\ has (private v) PTE_U = has v PTE_U /\
  has (private v) PTE_W = true /\ has (private v) PTE_SH = false.
Proof.
  intros Hw. unfold private.
  assert (Ea : PTE_ADDR (Z.lor (clear v PTE_SH) PTE_W) = PTE_ADDR v).
  { change PTE_W with (2 ^ 1). change PTE_SH with (2 ^ 9).
    rewrite PTE_ADDR_set, PTE_ADDR_clear by (done || lia). done. }
  split_and!.
  - apply word_lor; [by apply word_clear|unfold word, PTE_W; lia].
  - unfold frame_of. by rewrite Ea.
  - done.
  - change PTE_P with (2 ^ 0). change PTE_W with (2 ^ 1). change PTE_SH with (2 ^ 9).
    by rewrite !has_testbit, lor_testbit, clear_testbit by (done || lia).
  - change PTE_U with (2 ^ 2). change PTE_W with (2 ^ 1). change PTE_SH with (2 ^ 9).
    by rewrite !has_testbit, lor_testbit, clear_testbit by (done || lia).
  - change PTE_W with (2 ^ 1). change PTE_SH with (2 ^ 9).
    by rewrite !has_testbit, lor_testbit by (done || lia).
  - change PTE_W with (2 ^ 1). change PTE_SH with (2 ^ 9).
    by rewrite !has_testbit, lor_testbit, clear_testbit by (done || lia).
Qed.

Lemma grows_trans ds d s1 l1 s2 l2 s3 l3 :
  grows ds d s1 l1 s2 l2 -> grows ds d s2 l2 s3 l3 -> grows ds d s1 l1 s3 l3.
Proof.
  intros [Hy1 Hf1 Hd1 Hu1 Ho1 Hc1 Hk1 Ht1] [Hy2 Hf2 Hd2 Hu2 Ho2 Hc2 Hk2 Ht2]. split.
  - done.
  - auto.
  - intros p [Hp|Hp]%Hd2; auto.
  - intros p x Hk Hl Hn Hx. rewrite (Hu2 p x Hk), (Hu1 p x Hk); auto. intros [?|?]%Hd1; auto.
  - intros d' va Hd Hne Hw. by rewrite Ho2, Ho1.
  - congruence.
  - auto.
  - intros p Hp Hno. destruct (decide (p ∈ l2)); [by apply Ht2|]. apply Hk2; [apply list_elem_of_here|by apply Ht1].
Qed.

Lemma grows_refl ds d s l : layout s l ds -> grows ds d s l s l.
Proof. intros Hy. split; auto. done. Qed.

(** The last two stores of [cow_copyuvm]: the entry loses PTE_SH and gets
    PTE_W. *)
Lemma entry_private {B} s l ds d va t e (rest : M B) :
  layout s l ds -> d ∈ ds -> word va -> table_of (k_mem s) d (PDX va) = Some t ->
  exists m',
    (v ← ldk (t + 4 * PTX va); stk (t + 4 * PTX va) (clear v PTE_SH);;
     v ← ldk (t + 4 * PTX va); stk (t + 4 * PTX va) (Z.lor v PTE_W);; rest) e s =
      rest e (upd_mem (fun _ => m') s) /\
    grows ds d s l (upd_mem (fun _ => m') s) l /\ table_of m' d (PDX va) = Some t /\
    forall w, word w -> pte_of m' d w =
      if w / 4096 =? va / 4096 then private (pte_of (k_mem s) d va) else pte_of (k_mem s) d w.
Proof.
  intros Hy Hd Hva Ht. pose proof (pte_of_word (k_mem s) d va) as Hw.
  destruct (entry_set s l ds d va t (clear (pte_of (k_mem s) d va) PTE_SH) e Hy Hd Hva Ht)
    as (m1 & E1 & G1 & Ht1 & P1); [by apply word_clear|].
  pose proof (gr_layout _ _ _ _ _ _ G1) as Hy1.
  set (s1 := upd_mem (fun _ => m1) s) in *.
  destruct (entry_set s1 l ds d va t (private (pte_of (k_mem s) d va)) e Hy1 Hd Hva Ht1)
    as (m2 & E2 & G2 & Ht2 & P2); [by apply private_bits|].
  exists m2. split; [|split; [by eapply grows_trans|split; [done|]]].
  - mstep (load_run s l d va t (layout_vm _ _ _ _ Hy Hd) Hva Ht). mstep E1.
    mstep (load_run s1 l d va t (layout_vm _ _ _ _ Hy1 Hd) Hva Ht1).
    change (k_mem s1) with m1. rewrite (P1 va Hva), Z.eqb_refl. by mstep E2.
  - intros w Hww. rewrite P2 by done. destruct (w / 4096 =? va / 4096) eqn:Ew; [done|].
    change (k_mem s1) with m1. by rewrite P1, Ew.
Qed.

Lemma spaces_ext s s' l ds :
  spaces s l ds -> k_mem s' = k_mem s -> k_kmem s' = k_kmem s ->
  k_page_counters s' = k_page_counters s -> kmem_ready s' -> spaces s' l ds.
Proof.
  intros [Hy Hc Hf] Em Ek Ec Hr. split; [by eapply layout_ext| |done].
  unfold refcount. by rewrite Em, Ec.
Qed.

(** ** Resolving a fault on a shared page *)

(** Nothing but memory, the counters, the free list and the allocator's lock
    changed. *)
Definition no_counters (s : kstate) : kstate := set_k_page_counters (fun _ => 0) s.
Definition cow_quiet (s s' : kstate) : Prop := quiet (no_counters s) (no_counters s').

Lemma cow_quiet_trans s1 s2 s3 : cow_quiet s1 s2 -> cow_quiet s2 s3 -> cow_quiet s1 s3.
Proof. apply quiet_trans. Qed.

Lemma quiet_cow s s' : quiet s s' -> cow_quiet s s'.
Proof. unfold cow_quiet, quiet, erase, no_counters. intros E. exact (f_equal (set_k_page_counters (fun _ => 0)) E). Qed.

Lemma cow_quiet_mem f s : cow_quiet s (upd_mem f s).
Proof. done. Qed.

Lemma cow_quiet_counter p f s : cow_quiet s (upd_counter p f s).
Proof. done. Qed.

Lemma cow_quiet_lock s s' lk : cow_quiet s s' -> lk <> Lkmem -> k_lock s' lk = k_lock s lk.
Proof. intros E Hne. exact (quiet_lock _ _ lk E Hne). Qed.

Lemma cow_quiet_ptable s s' : cow_quiet s s' -> k_ptable s' = k_ptable s.
Proof. intros E. exact (quiet_ptable _ _ E). Qed.

Lemma cow_quiet_cpu s s' : cow_quiet s s' ->
  c_ncli (k_cpu s') = c_ncli (k_cpu s) /\ c_proc (k_cpu s') = c_proc (k_cpu s) /\
  c_thread (k_cpu s') = c_thread (k_cpu s) /\ c_id (k_cpu s') = c_id (k_cpu s) /\
  c_if (k_cpu s') = c_if (k_cpu s).
Proof.
  intros E. pose proof (quiet_cpu _ _ E) as Ec.
  pose proof (f_equal c_ncli Ec). pose proof (f_equal c_proc Ec). pose proof (f_equal c_thread Ec).
  pose proof (f_equal c_id Ec). pose proof (f_equal c_if Ec). done.
Qed.

Lemma cow_quiet_held s s' lk : cow_quiet s s' -> lk <> Lkmem -> held s lk -> held s' lk.
Proof.
  intros E Hne [H1 H2]. unfold held. rewrite (cow_quiet_lock _ _ _ E Hne).
  by rewrite (proj1 (proj2 (proj2 (proj2 (cow_quiet_cpu _ _ E))))).
Qed.

(** The free list loses its first page. *)
Lemma layout_pop s q l ds : layout s (q :: l) ds ->
  layout (kalloc_state s) l ds /\ kpage q /\ q ∉ l /\ ~ dir_page (k_mem s) ds q.
Proof.
  intros [Hf Hr Hn Hp Hs Hd]. destruct (kalloc_pop [] s q l Hf Hr) as [_ Hf'].
  pose proof (list_elem_of_here q l) as Hq. split_and!.
  - split; rewrite ?kalloc_state_mem; try done; [by apply kalloc_state_ready|].
    intros p Hp' Hin. apply (Hs p Hp'). by apply list_elem_of_further.
  - by apply (free_list_page s (q :: l)).
  - pose proof (fl_nodup _ _ Hf) as Hnd. by apply NoDup_cons in Hnd as [? _].
  - intros Hdp. by apply (Hs q).
Qed.

Lemma PA_INX_inj p q : kpage p -> kpage q -> PA_INX (p - KERNBASE) = PA_INX (q - KERNBASE) -> p = q.
Proof.
  intros Hp%kpage_bounds Hq%kpage_bounds. unfold PA_INX.
  rewrite !Z.shiftr_div_pow2 by lia. change (2 ^ 12) with 4096. intros E.
  Z.div_mod_to_equations. lia.
Qed.

(** A page that is not mapped has no references. *)
Lemma refs_free T C l ds D p : cow_ok T C l ds D -> p ∈ l -> refs T ds p = 0.
Proof.
  intros Hc Hp. pose proof (refs_nonneg T ds p).
  destruct (Z_lt_le_dec 0 (refs T ds p)) as [Hpos|]; [|lia].
  destruct (refs_pos_inv T ds p Hpos) as (d & i & Hx & Pu & <-).
  by destruct (co_frames _ _ _ _ _ Hc d i Hx Pu) as (_ & ? & _).
Qed.

Lemma refcount_set s p v q : kpage p -> kpage q ->
  refcount (upd_counter (PA_INX (p - KERNBASE)) (fun _ => v) s) q = if decide (q = p) then v else refcount s q.
Proof.
  intros Hp Hq. unfold refcount, upd_counter. cbn. rewrite v2p_kpage by done.
  destruct (Z.eqb_spec (PA_INX (q - KERNBASE)) (PA_INX (p - KERNBASE))) as [E|E]; case_decide; subst; try done.
  by apply PA_INX_inj in E.
Qed.

(** The contents of a page that user code may see. *)
Lemma frame_content s l ds d i o :
  spaces s l ds -> (d, i) ∈ spots ds -> has (upte (k_mem s) d i) PTE_P = true -> 0 <= o < 4096 ->
  let p := frame_of (upte (k_mem s) d i) in
  PTE_ADDR (upte (k_mem s) d i) = p - KERNBASE /\ in_page p (PTE_ADDR (upte (k_mem s) d i) + o) /\
  kpage p /\ p ∉ l /\ ~ dir_page (k_mem s) ds p.
Proof.
  intros [Hy Hc _] Hx Pu Ho p. destruct (co_frames _ _ _ _ _ Hc d i Hx Pu) as (Hk & Hl & Hd).
  assert (E : PTE_ADDR (upte (k_mem s) d i) = p - KERNBASE) by (apply frame_addr; [apply upte_word|done]).
  split_and!; try done. unfold in_page. rewrite E. lia.
Qed.

(** The view of directories whose entries are the same. *)
Lemma same_view_entries s l ds d' m' :
  spaces s l ds -> d' ∈ ds ->
  (forall i, 0 <= i < NUPAGES -> upte m' d' i = upte (k_mem s) d' i) ->
  (forall p x, kpage p -> p ∉ l -> ~ dir_page (k_mem s) ds p -> in_page p x -> m' x = k_mem s x) ->
  same_view (k_mem s) m' d'.
Proof.
  intros Hs Hd E Hu. apply same_view_intro. intros i Hi. rewrite E by done. split; [done|].
  intros Pu. split; [done|]. intros o Ho.
  destruct (frame_content s l ds d' i o) as (_ & Hin & Hk & Hl & Hn); try done.
  { apply elem_of_spots. auto. }
  by eapply Hu.
Qed.

(** The views when one entry changes but not what it shows. *)
Lemma same_view_tset s l ds d i v m' :
  spaces s l ds -> (d, i) ∈ spots ds ->
  (forall d' i', (d', i') ∈ spots ds -> upte m' d' i' = tset (upte (k_mem s)) d i v d' i') ->
  (forall p x, kpage p -> p ∉ l -> ~ dir_page (k_mem s) ds p -> in_page p x -> m' x = k_mem s x) ->
  has v PTE_P = has (upte (k_mem s) d i) PTE_P -> has v PTE_U = has (upte (k_mem s) d i) PTE_U ->
  (forall o, 0 <= o < 4096 -> m' (PTE_ADDR v + o) = k_mem s (PTE_ADDR (upte (k_mem s) d i) + o)) ->
  forall d', d' ∈ ds -> same_view (k_mem s) m' d'.
Proof.
  intros Hs Hx E Hu EP EU Ec d' Hd'. apply same_view_intro. intros j Hj.
  assert (Hx' : (d', j) ∈ spots ds) by (by apply elem_of_spots). rewrite E by done.
  destruct (decide ((d', j) = (d, i))) as [[= -> ->]|Hne].
  - rewrite tset_eq. auto.
  - rewrite tset_ne by done. split; [done|]. intros Pu. split; [done|]. intros o Ho.
    destruct (frame_content s l ds d' j o) as (_ & Hin & Hk & Hl & Hn); try done. by eapply Hu.
Qed.

(** The fault at [va] in directory [d] is resolved: the entry is writable
    and its page has no other mapping, and nobody sees a difference. *)
Record resolved (ds : list Z) (d va : Z) (s : kstate) (l : list Z) (s' : kstate) (l' : list Z) : Prop := {
  rv_spaces : spaces s' l' ds;
  rv_quiet : cow_quiet s s';
  rv_views : forall d', d' ∈ ds -> same_view (k_mem s) (k_mem s') d';
  rv_present : has (pte_of (k_mem s') d va) PTE_P = true;
  rv_user : has (pte_of (k_mem s') d va) PTE_U = has (pte_of (k_mem s) d va) PTE_U;
  rv_write : has (pte_of (k_mem s') d va) PTE_W = true;
  rv_shared : has (pte_of (k_mem s') d va) PTE_SH = false
}.

Section Resolve.
Context (s : kstate) (l ds : list Z) (d va t : Z).
Hypothesis Hs : spaces s l ds.
Hypothesis Hd : d ∈ ds.
Hypothesis Hva : 0 <= va < KERNBASE.
Hypothesis Ht : table_of (k_mem s) d (PDX va) = Some t.
Hypothesis Hp : has (pte_of (k_mem s) d va) PTE_P = true.

Let v := pte_of (k_mem s) d va.
Let i := va / 4096.

Lemma rv_word : word va.
Proof. unfold word, KERNBASE in *. lia. Qed.

Lemma rv_spot : (d, i) ∈ spots ds.
Proof. apply elem_of_spots. split; [done|]. by apply page_index. Qed.

Lemma rv_v : v = upte (k_mem s) d i.
Proof. apply pte_of_page, rv_word. Qed.

Lemma rv_frame : kpage (frame_of v) /\ PTE_ADDR v = frame_of v - KERNBASE /\
  frame_of v ∉ l /\ ~ dir_page (k_mem s) ds (frame_of v).
Proof.
  pose proof (frame_content s l ds d i 0 Hs rv_spot) as Hc. rewrite <- rv_v in Hc.
  by destruct (Hc Hp ltac:(lia)) as (E & _ & Hk & Hl & Hn).
Qed.

(** The counter of the page. *)
Lemma rv_counter e : counter (PTE_ADDR v) e s = Ok (refcount s (frame_of v)) e s.
Proof.
  destruct rv_frame as (Hk & E & _). unfold counter, refcount. by rewrite E, v2p_kpage.
Qed.

Lemma resolve_own e : refcount s (frame_of v) <= 1 ->
  exists s', cow_resolve (t + 4 * PTX va) (PTE_ADDR v) (PTE_FLAGS v) e s = Ok true e s' /\
    resolved ds d va s l s' l.
Proof.
  intros Hc. pose proof Hs as [Hy Hco Hfew]. pose proof rv_word as Hw. pose proof rv_spot as Hx.
  destruct (entry_private s l ds d va t e (mret true) Hy Hd Hw Ht) as (m' & E & Hg & _ & P). fold v in P.
  pose proof (pte_of_word (k_mem s) d va : word v) as Hv.
  destruct (private_bits v Hv) as (_ & Ef & Ea & EP & EU & EW & ES).
  exists (upd_mem (fun _ => m') s). split.
  { unfold cow_resolve. mstep rv_counter. rewrite (proj2 (Z.ltb_ge _ _) Hc). exact E. }
  assert (Eva : pte_of m' d va = private v) by (by rewrite P, Z.eqb_refl).
  pose proof (grows_tset ds d s l _ l va (private v) Hg P) as ET. cbn [k_mem upd_mem set_k_mem] in ET.
  assert (R1 : refs (upte (k_mem s)) ds (frame_of v) = 1).
  { pose proof (refs_pos (upte (k_mem s)) ds (frame_of v) d i Hx) as Hpos. rewrite <- rv_v in Hpos.
    specialize (Hpos Hp eq_refl). destruct (co_count _ _ _ _ _ Hco _ Hpos); lia. }
  split; cbn [k_mem upd_mem set_k_mem]; rewrite ?Eva; try done.
  - split; [apply Hg| |done]. eapply cow_mono.
    + apply (cow_flags _ _ _ _ _ d i Hco (ly_nodup _ _ _ Hy) Hx (private v));
        rewrite <- ?rv_v; rewrite ?EP; done.
    + exact ET.
    + done.
    + apply Hg.
    + intros p _. done.
  - eapply same_view_tset; [exact Hs|exact Hx|exact ET|apply Hg|rewrite <- rv_v; done..|].
    intros o Ho. rewrite Ea, <- rv_v. destruct rv_frame as (Hk & Eq & Hl & Hn).
    apply (gr_user _ _ _ _ _ _ Hg (frame_of v)); try done. unfold in_page. lia.
  - by rewrite EP.
Qed.

(** The copy in the new page [q]. *)
Definition copied (q : Z) : kstate :=
  upd_counter (PA_INX (q - KERNBASE)) (fun _ => 1)
    (upd_mem (fun m => mmove m (q - KERNBASE) (PTE_ADDR v) 4096) (kalloc_state s)).

Lemma copied_ok q l0 : l = q :: l0 ->
  layout (copied q) l0 ds /\ q ∉ l0 /\ kpage q /\ ~ dir_page (k_mem (copied q)) ds q /\
  table_of (k_mem (copied q)) d (PDX va) = Some t /\
  (forall p, dir_page (k_mem (copied q)) ds p <-> dir_page (k_mem s) ds p) /\
  (forall d' w, d' ∈ ds -> word w -> pte_of (k_mem (copied q)) d' w = pte_of (k_mem s) d' w).
Proof.
  intros ->. destruct (layout_pop s q l0 ds (sp_layout _ _ _ Hs)) as (Hy1 & Hq & Hql & Hqd).
  assert (Em : k_mem (copied q) = mmove (k_mem s) (q - KERNBASE) (PTE_ADDR v) 4096).
  { change (k_mem (copied q)) with (mmove (k_mem (kalloc_state s)) (q - KERNBASE) (PTE_ADDR v) 4096).
    by rewrite kalloc_state_mem. }
  destruct (layout_user (kalloc_state s) (copied q) l0 ds q) as (Hy2 & Hdp & Hpt & Htb); try done.
  - by rewrite kalloc_state_mem.
  - rewrite Em, kalloc_state_mem. intros x Hx. apply mmove_other. intros Hr. by apply (Hx q).
  - apply (ly_ready _ _ _ Hy1).
  - rewrite kalloc_state_mem in *. split_and!; try done.
    + rewrite Hdp. done.
    + rewrite Htb; [done..|]. apply PDX_range, rv_word.
Qed.

Lemma copied_quiet q : cow_quiet s (copied q).
Proof. apply (cow_quiet_trans _ (kalloc_state s)); [apply quiet_cow, quiet_kalloc|done]. Qed.

(** The entry that points to the copy. *)
Definition copy_pte (q : Z) : Z := Z.lor (q - KERNBASE) (PTE_FLAGS v).

Lemma copy_pte_bits q : kpage q ->
  word (copy_pte q) /\ frame_of (copy_pte q) = q /\ PTE_ADDR (copy_pte q) = q - KERNBASE /\
  has (copy_pte q) PTE_P = true /\ has (copy_pte q) PTE_U = has v PTE_U.
Proof.
  intros Hk. pose proof (kpage_bounds q Hk) as (H0 & H1 & H2). pose proof (PTE_FLAGS_range v) as Hf.
  assert (Hw : word (q - KERNBASE)) by (unfold word, PHYSTOP in *; lia).
  assert (Ea : PTE_ADDR (copy_pte q) = q - KERNBASE) by (by apply PTE_ADDR_lor).
  assert (Eb : forall b, 0 <= b < 4096 -> has (copy_pte q) b = has v b).
  { intros b Hb. rewrite has_flags by done. unfold copy_pte. rewrite PTE_FLAGS_lor by done.
    by rewrite <- has_flags. }
  split_and!.
  - apply word_lor; [done|unfold word; lia].
  - unfold frame_of. rewrite Ea, <- (v2p_kpage q Hk). apply p2v_v2p.
    unfold kpage, KERNBASE, PHYSTOP in *. lia.
  - done.
  - rewrite Eb by (unfold PTE_P; lia). exact Hp.
  - apply Eb. unfold PTE_U. lia.
Qed.

Lemma resolve_copy_run q l0 e : l = q :: l0 -> 1 < refcount s (frame_of v) ->
  exists m5,
    let s5 := upd_mem (fun _ => m5) (copied q) in
    cow_resolve (t + 4 * PTX va) (PTE_ADDR v) (PTE_FLAGS v) e s =
      Ok true e (upd_counter (PA_INX (PTE_ADDR v)) (fun _ => s32 (refcount s (frame_of v) - 1)) s5) /\
    grows ds d (copied q) l0 s5 l0 /\
    forall w, word w -> pte_of m5 d w =
      if w / 4096 =? va / 4096 then private (copy_pte q) else pte_of (k_mem s) d w.
Proof.
  intros El Hc. pose proof rv_word as Hw. destruct rv_frame as (Hk & Ea & Hl & Hn).
  destruct (copied_ok q l0 El) as (Hy & Hql & Hq & Hqd & Htb & _ & Hpt).
  destruct (copy_pte_bits q Hq) as (Hwc & _).
  destruct (entry_set (copied q) l0 ds d va t (copy_pte q) e Hy Hd Hw Htb Hwc) as (m4 & E4 & G4 & T4 & P4).
  destruct (entry_private (upd_mem (fun _ => m4) (copied q)) l0 ds d va t e
    (c ← counter (PTE_ADDR v); set_counter (PTE_ADDR v) (s32 (c - 1));; mret true)
    (gr_layout _ _ _ _ _ _ G4) Hd Hw T4) as (m5 & E5 & G5 & T5 & P5).
  exists m5. cbn zeta. split; [|split].
  - unfold cow_resolve. mstep rv_counter. rewrite (proj2 (Z.ltb_lt _ _) Hc).
    rewrite El in Hs. destruct (kalloc_pop e s q l0) as [Ek _]; [apply Hs|apply Hs|]. mstep Ek.
    rewrite (proj2 (Z.eqb_neq _ _) (kpage_nonzero q Hq)). unfold memmove, set_counter at 1. mstep. mstep.
    rewrite !(v2p_kpage q Hq), Ea, v2p_p2v by (unfold kpage, KERNBASE, PHYSTOP in *; lia).
    rewrite <- Ea. fold (copy_pte q). fold (copied q). mstep E4. etrans; [exact E5|].
    unfold counter. mstep. unfold set_counter. mstep. f_equal. f_equal. f_equal.
    cbn. rewrite (proj2 (Z.eqb_neq _ _)).
    + rewrite (quiet_counters _ _ (quiet_kmem_crit s)). unfold refcount. by rewrite Ea, v2p_kpage.
    + rewrite Ea. intros E%PA_INX_inj; [|done..]. subst q. apply Hl. rewrite El. apply list_elem_of_here.
  - eapply grows_trans; [exact G4|exact G5].
  - intros w Hww. rewrite P5 by done. cbn [k_mem upd_mem set_k_mem].
    destruct (w / 4096 =? va / 4096) eqn:Ew; [by rewrite P4, Z.eqb_refl|].
    by rewrite P4, Ew, Hpt.
Qed.

(** The invariant with the copy. *)
Lemma copy_cow q l0 s6 : l = q :: l0 -> 1 < refcount s (frame_of v) ->
  (forall d' j, (d', j) ∈ spots ds ->
     upte (k_mem s6) d' j = tset (upte (k_mem s)) d i (private (copy_pte q)) d' j) ->
  (forall p, dir_page (k_mem s6) ds p -> dir_page (k_mem s) ds p \/ p ∈ l0) ->
  (forall p, kpage p -> refcount s6 p =
     if decide (p = frame_of v) then s32 (refcount s (frame_of v) - 1)
     else if decide (p = q) then 1 else refcount s p) ->
  cow_ok (upte (k_mem s6)) (refcount s6) l0 ds (dir_page (k_mem s6) ds).
Proof.
  intros El Hc ET ED EC. destruct rv_frame as (Hk & _ & Hl & _). pose proof rv_spot as Hx.
  pose proof (sp_cow _ _ _ Hs) as Hco. destruct (copied_ok q l0 El) as (_ & Hql & Hq & Hqd & _ & Hdp & _).
  destruct (copy_pte_bits q Hq) as (Hwc & Hfq & _ & Hpq & _).
  destruct (private_bits _ Hwc) as (_ & Ef & _ & EP & _).
  assert (Hqin : q ∈ l) by (rewrite El; apply list_elem_of_here).
  assert (Hne : q <> frame_of v) by congruence.
  assert (Hb : 1 < refcount s (frame_of v) <= 33554432).
  { split; [done|]. pose proof (refs_pos (upte (k_mem s)) ds (frame_of v) d i Hx) as Hpos.
    rewrite <- rv_v in Hpos. specialize (Hpos Hp eq_refl).
    pose proof (refs_bound (upte (k_mem s)) ds (frame_of v) (sp_few _ _ _ Hs)).
    destruct (co_count _ _ _ _ _ Hco _ Hpos); lia. }
  eapply (cow_mono _ _ (refcount s6) _ l0 _ _ (dir_page (k_mem s6) ds)); [|exact ET|by auto..].
  apply (cow_fresh _ _ _ _ _ d i Hco (ly_nodup _ _ _ (sp_layout _ _ _ Hs)) Hx (private (copy_pte q)) q);
    rewrite <- ?rv_v; rewrite ?EP, ?Ef; try done.
  - by eapply refs_free.
  - intros [Hd'|?]%ED; [|done]. by apply Hqd, Hdp.
  - intros p Hin. rewrite El. by apply list_elem_of_further.
  - intros p [?|?]%ED; [by left|right]. rewrite El. by apply list_elem_of_further.
  - rewrite EC by done. by rewrite decide_False, decide_True.
  - rewrite EC, decide_True by done. apply s32_small. lia.
  - intros p Hkp Np Np0. rewrite EC by done. by rewrite !decide_False.
Qed.

Lemma resolve_copy q l0 e : l = q :: l0 -> 1 < refcount s (frame_of v) ->
  exists s', cow_resolve (t + 4 * PTX va) (PTE_ADDR v) (PTE_FLAGS v) e s = Ok true e s' /\
    resolved ds d va s l s' l0.
Proof.
  intros El Hc. destruct (resolve_copy_run q l0 e El Hc) as (m5 & E & G & P).
  destruct (copied_ok q l0 El) as (Hy & Hql & Hq & Hqd & _ & Hdp & Hpt).
  destruct (copy_pte_bits q Hq) as (Hwc & Hfq & Haq & Hpq & Huq).
  destruct (private_bits _ Hwc) as (_ & Ef & Ea & EP & EU & EW & ES).
  destruct rv_frame as (Hk & Eav & Hl & Hn). pose proof rv_spot as Hx. pose proof rv_word as Hw.
  assert (Hqin : q ∈ l) by (rewrite El; apply list_elem_of_here).
  assert (Hne : frame_of v <> q) by congruence.
  assert (Eva : pte_of m5 d va = private (copy_pte q)) by (by rewrite P, Z.eqb_refl).
  assert (ET : forall d' j, (d', j) ∈ spots ds ->
    upte m5 d' j = tset (upte (k_mem s)) d i (private (copy_pte q)) d' j).
  { intros d' j Hj. etrans; [apply (grows_tset _ _ _ _ _ _ va (private (copy_pte q)) G); [|done]|].
    - intros w Hww. cbn [k_mem upd_mem set_k_mem]. rewrite P by done.
      destruct (w / 4096 =? va / 4096); [done|]. by rewrite Hpt.
    - unfold tset, i. case_decide; [done|]. apply elem_of_spots in Hj as [Hj1 Hj2].
      apply Hpt; [done|by apply page_word]. }
  assert (EM : forall p x, kpage p -> p ∉ l0 -> ~ dir_page (k_mem s) ds p -> in_page p x ->
    m5 x = mmove (k_mem s) (q - KERNBASE) (PTE_ADDR v) 4096 x).
  { intros p x Hkp Hlp Hnp Hin. rewrite <- (kalloc_state_mem s).
    apply (gr_user _ _ _ _ _ _ G p x Hkp Hlp); [by rewrite Hdp|done]. }
  eexists. split; [exact E|]. split; cbn [k_mem upd_counter set_k_page_counters upd_mem set_k_mem]; rewrite ?Eva; try done.
  - split; [| |apply Hs].
    + eapply layout_ext; [exact (gr_layout _ _ _ _ _ _ G)|done..|]. apply (gr_layout _ _ _ _ _ _ G).
    + apply (copy_cow q l0); try done.
      * intros p [Hp'|?]%(gr_dirs _ _ _ _ _ _ G); [left; by apply Hdp|by right].
      * intros p Hkp. rewrite Eav, refcount_set by done. case_decide; [done|].
        change (refcount (upd_mem (fun _ => m5) (copied q)) p) with (refcount (copied q) p).
        unfold copied. rewrite refcount_set by done. case_decide; [done|]. unfold refcount.
        change (k_page_counters (upd_mem ?f ?x)) with (k_page_counters x).
        by rewrite (quiet_counters _ _ (quiet_kalloc s)).
  - apply (cow_quiet_trans _ (copied q)); [apply copied_quiet|done].
  - eapply same_view_tset; [exact Hs|exact Hx|exact ET| |by rewrite <- rv_v, EP, Hpq|by rewrite <- rv_v, EU, Huq|].
    + intros p x Hkp Hlp Hnp Hin. rewrite (EM p x); try done.
      * apply mmove_other. apply (in_page_disjoint p q); try done. intros ->. done.
      * intros Hin0. apply Hlp. rewrite El. by apply list_elem_of_further.
    + intros o Ho. rewrite Ea, Haq, <- rv_v. rewrite (EM q); try done.
      * rewrite mmove_in by lia. f_equal. lia.
      * by rewrite <- Hdp.
      * unfold in_page. lia.
  - by rewrite EP.
  - by rewrite EU.
Qed.

End Resolve.

(** Without a free page a page with other references stays shared. *)
Lemma resolve_full s ds d va t e :
  spaces s [] ds -> d ∈ ds -> 0 <= va < KERNBASE -> table_of (k_mem s) d (PDX va) = Some t ->
  has (pte_of (k_mem s) d va) PTE_P = true ->
  1 < refcount s (frame_of (pte_of (k_mem s) d va)) ->
  cow_resolve (t + 4 * PTX va) (PTE_ADDR (pte_of (k_mem s) d va)) (PTE_FLAGS (pte_of (k_mem s) d va)) e s =
    Ok false e (kmem_crit s).
Proof.
  intros Hs Hd Hva Ht Hp Hc. unfold cow_resolve. mstep (rv_counter s [] ds d va Hs Hd Hva Hp).
  rewrite (proj2 (Z.ltb_lt _ _) Hc).
  destruct (kalloc_none e s) as [E _]; [apply Hs|apply Hs|]. by mstep E.
Qed.

(** A thread of process [i] runs in the kernel on this CPU. *)
Record in_kernel (s : kstate) (i : nat) (p : proc) : Prop := {
  ik_proc : c_proc (k_cpu s) = Some i;
  ik_entry : k_ptable s !! i = Some p;
  ik_thread : exists t th, c_thread (k_cpu s) = Some t /\ thread_of s t = Some th;
  ik_cli : cli_ok (k_cpu s)
}.

Lemma in_kernel_quiet s s' i p : in_kernel s i p -> cow_quiet s s' -> in_kernel s' i p.
Proof.
  intros [H1 H2 (t & th & H3 & H4) [H5 H6]] Hq.
  destruct (cow_quiet_cpu _ _ Hq) as (En & Ep & Et & _ & Ei). pose proof (cow_quiet_ptable _ _ Hq) as Etb.
  split; rewrite ?Ep, ?Etb; try done.
  - exists t, th. rewrite Et. unfold thread_of. by rewrite Etb.
  - unfold cli_ok. by rewrite En, Ei.
Qed.

Lemma kmem_ready_held s s' lk : kmem_ready s -> lk <> Lkmem -> s' = acquired lk s -> kmem_ready s'.
Proof. intros [Hc Hu] Hne ->. split; ctl. Qed.

(** [cow_copyuvm] up to [cow_resolve], and after it. *)
Lemma cow_copyuvm_run d e s l ds i p t :
  layout s l ds -> d ∈ ds -> unlocked s Lpg_count -> in_kernel s i p ->
  word (c_cr2 (k_cpu s)) -> table_of (k_mem s) d (PDX (c_cr2 (k_cpu s))) = Some t ->
  has (pte_of (k_mem s) d (c_cr2 (k_cpu s))) PTE_SH = true -> c_cr2 (k_cpu s) < p_sz p ->
  let va := c_cr2 (k_cpu s) in
  let v := pte_of (k_mem s) d va in
  cow_copyuvm d e s =
  (ok ← cow_resolve (t + 4 * PTX va) (PTE_ADDR v) (PTE_FLAGS v);
   release Lpg_count;;
   if ok : bool then switchuvm i;; mret (t + 4 * PTX va) else mret 0) e (acquired Lpg_count s).
Proof.
  intros Hy Hd Hu Hk Hw Ht Hsh Hsz va v. unfold cow_copyuvm. mstep acquire_free by done. mstep.
  change (c_cr2 (k_cpu (acquired Lpg_count s))) with va.
  assert (Hy' : layout (acquired Lpg_count s) l ds).
  { eapply layout_ext; [exact Hy|done..|]. eapply kmem_ready_held; [apply Hy| |done]. done. }
  mstep (walk_present d va false e (acquired Lpg_count s) t (ly_pd _ _ _ Hy d Hd) Hw Ht).
  rewrite walk_nonzero by (eapply (store_table s l d va t (layout_vm _ _ _ _ Hy Hd)); done).
  mstep (load_run _ l d va t (layout_vm _ _ _ _ Hy' Hd) Hw Ht).
  change (pte_of (k_mem (acquired Lpg_count s)) d va) with v.
  rewrite <- has_flags by (unfold PTE_SH; lia). fold va v in Hsh. rewrite Hsh. cbn [negb].
  mstep curproc_ok by (exact (ik_proc _ _ _ Hk)). mstep proc_at_ok by (exact (ik_entry _ _ _ Hk)).
  by rewrite (proj2 (Z.ltb_lt va (p_sz p)) Hsz).
Qed.

(** Giving [pg_count_lock] back. *)
Lemma spaces_released s s1 l ds lk :
  lk <> Lkmem -> spaces s1 l ds -> cow_quiet (acquired lk s) s1 -> cli_ok (k_cpu s) ->
  (forall e, release lk e s1 = Ok tt e (released lk s1)) /\ spaces (released lk s1) l ds /\
  cli_ok (k_cpu (released lk s1)) /\ unlocked (released lk s1) lk.
Proof.
  intros Hne Hs Hq Hc. destruct (cow_quiet_cpu _ _ Hq) as (En & _ & _ & _ & Ei).
  assert (Hc1 : cli_ok (k_cpu s1)).
  { unfold cli_ok. rewrite En, Ei. by apply (cli_ok_acquired lk) in Hc. }
  assert (Hn1 : 0 < c_ncli (k_cpu s1)) by (rewrite En, ncli_acquired; destruct Hc; lia).
  assert (Hh : held s1 lk) by (eapply cow_quiet_held; [exact Hq|done|apply held_acquired]).
  pose proof (ly_ready _ _ _ (sp_layout _ _ _ Hs)) as [_ Hu].
  split_and!.
  - intros e. by apply release_held.
  - eapply spaces_ext; [exact Hs|done..|]. split; [by apply cli_ok_released|by apply unlocked_released].
  - by apply cli_ok_released.
  - apply unlocked_released_eq.
Qed.

(** The fault at the address in %cr2. *)
Definition shared_fault (s : kstate) (d : Z) (p : proc) : Prop :=
  let va := c_cr2 (k_cpu s) in
  0 <= va < p_sz p /\ p_sz p <= KERNBASE /\
  has (pte_of (k_mem s) d va) PTE_P = true /\ has (pte_of (k_mem s) d va) PTE_SH = true.

Lemma present_table m d va : pd_ok m d -> word va -> has (pte_of m d va) PTE_P = true ->
  exists t, table_of m d (PDX va) = Some t.
Proof.
  intros Hd Hw. rewrite pte_of_eq by done. destruct (table_of m d (PDX va)); [eauto|done].
Qed.

Lemma spaces_cpu s c l ds : spaces s l ds -> cli_ok c -> spaces (set_k_cpu c s) l ds.
Proof.
  intros Hs Hc. eapply spaces_ext; [exact Hs|done..|]. split; [done|].
  apply (ly_ready _ _ _ (sp_layout _ _ _ Hs)).
Qed.

Lemma spaces_acquired s l ds lk : lk <> Lkmem -> spaces s l ds -> spaces (acquired lk s) l ds.
Proof.
  intros Hne Hs. eapply spaces_ext; [exact Hs|done..|].
  eapply kmem_ready_held; [apply Hs|exact Hne|done].
Qed.

(** The end of [cow_copyuvm] when the fault was resolved. *)
Lemma fault_done ds d va s l s1 l1 i p e :
  resolved ds d va (acquired Lpg_count s) l s1 l1 -> in_kernel s i p -> p_pgdir p = d -> d <> 0 ->
  exists s', (release Lpg_count;; switchuvm i) e s1 = Ok tt e s' /\
    spaces s' l1 ds /\ k_mem s' = k_mem s1 /\ unlocked s' Lpg_count /\ c_cr3 (k_cpu s') = v2p d.
Proof.
  intros Hr Hk Hpg Hd. pose proof (rv_quiet _ _ _ _ _ _ _ Hr) as Hq.
  destruct (spaces_released s s1 l1 ds Lpg_count) as (E & Hs & Hc & Hu); [done|apply Hr|done|apply Hk|].
  assert (Hk1 : in_kernel s1 i p).
  { eapply in_kernel_quiet; [|exact Hq]. destruct Hk. split; try done. by apply cli_ok_acquired. }
  destruct Hk1 as [H1 H2 (t & th & H3 & H4) _].
  destruct (switchuvm_ok i e (released Lpg_count s1) t th p) as (c' & E' & Ecr & Hc' & _); try done; [congruence|].
  exists (set_k_cpu c' (released Lpg_count s1)). split; [by mstep (E e)|].
  split_and!; try done; [by apply spaces_cpu|]. cbn. by rewrite Ecr, Hpg.
Qed.

(** ... and when no page was free. *)
Lemma fault_full s ds lk e :
  lk <> Lkmem -> spaces s [] ds -> cli_ok (k_cpu s) ->
  let s1 := kmem_crit (acquired lk s) in
  release lk e s1 = Ok tt e (released lk s1) /\ spaces (released lk s1) [] ds /\
  unlocked (released lk s1) lk /\ forall d, same_view (k_mem s) (k_mem (released lk s1)) d.
Proof.
  intros Hne Hs Hc s1. pose proof (spaces_acquired s [] ds lk Hne Hs) as Hs0.
  destruct (spaces_released s s1 [] ds lk) as (E & Hs' & _ & Hu); try done.
  - eapply spaces_ext; [exact Hs0|apply kmem_crit_mem|apply kmem_crit_kmem|
      exact (quiet_counters _ _ (quiet_kmem_crit _))|apply kmem_crit_ready, Hs0].
  - apply quiet_cow, quiet_kmem_crit.
  - split_and!; try done. intros d. change (same_view (k_mem s) (k_mem s1) d).
    unfold s1. rewrite kmem_crit_mem. apply same_view_refl.
Qed.

(** A page with more than one counted reference. *)
Lemma counted s l ds d va :
  spaces s l ds -> d ∈ ds -> 0 <= va < KERNBASE -> has (pte_of (k_mem s) d va) PTE_P = true ->
  1 < refcount s (frame_of (pte_of (k_mem s) d va)) ->
  1 < refs (upte (k_mem s)) ds (frame_of (pte_of (k_mem s) d va)).
Proof.
  intros Hs Hd Hva HP Hc. pose proof (rv_spot ds d va Hd Hva) as Hx.
  pose proof (refs_pos (upte (k_mem s)) ds (frame_of (pte_of (k_mem s) d va)) d (va / 4096) Hx) as Hpos.
  rewrite <- (pte_of_page _ _ va) in Hpos by (unfold word, KERNBASE in *; lia).
  specialize (Hpos HP eq_refl). destruct (co_count _ _ _ _ _ (sp_cow _ _ _ Hs) _ Hpos); lia.
Qed.

Lemma resolve_ok s l ds d va t e :
  spaces s l ds -> d ∈ ds -> 0 <= va < KERNBASE -> table_of (k_mem s) d (PDX va) = Some t ->
  has (pte_of (k_mem s) d va) PTE_P = true ->
  l <> [] \/ refcount s (frame_of (pte_of (k_mem s) d va)) <= 1 ->
  exists s' l',
    cow_resolve (t + 4 * PTX va) (PTE_ADDR (pte_of (k_mem s) d va)) (PTE_FLAGS (pte_of (k_mem s) d va)) e s =
      Ok true e s' /\ resolved ds d va s l s' l'.
Proof.
  intros Hs Hd Hva Ht HP Hl.
  destruct (Z_lt_le_dec 1 (refcount s (frame_of (pte_of (k_mem s) d va)))) as [Hc|Hc].
  - destruct l as [|q l0]; [destruct Hl; [done|lia]|].
    destruct (resolve_copy s (q :: l0) ds d va t Hs Hd Hva Ht HP q l0 e eq_refl Hc) as (s' & E & Hr). eauto.
  - destruct (resolve_own s l ds d va t Hs Hd Hva Ht HP e Hc) as (s' & E & Hr). eauto.
Qed.

Lemma fault_resolved e s l ds d i p :
  spaces s l ds -> d ∈ ds -> unlocked s Lpg_count -> in_kernel s i p -> p_pgdir p = d ->
  shared_fault s d p ->
  let va := c_cr2 (k_cpu s) in
  exists r s' l', cow_copyuvm d e s = Ok r e s' /\ spaces s' l' ds /\ unlocked s' Lpg_count /\
    (forall d', d' ∈ ds -> same_view (k_mem s) (k_mem s') d') /\
    ((r = 0 /\ l = [] /\ 1 < refs (upte (k_mem s)) ds (frame_of (pte_of (k_mem s) d va))) \/
     (r <> 0 /\ has (pte_of (k_mem s') d va) PTE_W = true /\ has (pte_of (k_mem s') d va) PTE_SH = false /\
      has (pte_of (k_mem s') d va) PTE_U = has (pte_of (k_mem s) d va) PTE_U /\
      has (pte_of (k_mem s') d va) PTE_P = true /\ c_cr3 (k_cpu s') = v2p d)).
Proof.
  intros Hs Hd Hu Hk Hpg (Hva & Hsz & HP & HSH) va. fold va in Hva, HP, HSH.
  pose proof (sp_layout _ _ _ Hs) as Hy. assert (Hw : word va) by (unfold word, KERNBASE in *; lia).
  assert (Hb : 0 <= va < KERNBASE) by lia.
  destruct (present_table (k_mem s) d va (ly_pd _ _ _ Hy d Hd) Hw HP) as [t Ht].
  pose proof (spaces_acquired s l ds Lpg_count ltac:(done) Hs) as Hs0.
  rewrite (cow_copyuvm_run d e s l ds i p t) by (done || apply Hva). cbn zeta. fold va.
  destruct (decide (l = [] /\ 1 < refcount s (frame_of (pte_of (k_mem s) d va)))) as [[-> Hc]|Hn].
  - destruct (fault_full s ds Lpg_count e) as (E' & Hs' & Hu' & Hv'); [done|done|apply Hk|].
    eexists 0, _, []. split; [|split_and!; [exact Hs'|done|by intros d' _|left; eauto using counted]].
    mstep (resolve_full (acquired Lpg_count s) ds d va t e Hs0 Hd Hb Ht HP Hc). by mstep E'.
  - destruct (resolve_ok (acquired Lpg_count s) l ds d va t e Hs0 Hd Hb Ht HP) as (s1 & l1 & E1 & Hr).
    { destruct l; [right|by left]. apply Z.nlt_ge. intros ?. by apply Hn. }
    destruct (fault_done ds d va s l s1 l1 i p e Hr Hk Hpg) as (s' & E' & Hs' & Em & Hu' & Ecr).
    { apply kpage_nonzero, (ly_pd _ _ _ Hy d Hd). }
    exists (t + 4 * PTX va), s', l1. rewrite Em. split; [|split_and!; [done..|apply Hr|right]].
    + mstep E1. rewrite <- bind_assoc. by mstep E'.
    + split_and!; [|apply Hr..|done].
      apply Z.eqb_neq, walk_nonzero. by eapply (store_table s l d va t (layout_vm _ _ _ _ Hy Hd)).
Qed.

(** C10: A write to a shared page of the running process: [cow_copyuvm]
    returns the entry, which is now writable, not shared, and the only mapping
    of its page; or it returns 0 and no page was free although the page has
    other mappings.  Either way the invariant holds again, the lock is free,
    and every process reads the same memory as before. *)
Theorem cow_fault_resolved e s l ds d i p :
  spaces s l ds -> d ∈ ds -> unlocked s Lpg_count -> in_kernel s i p -> p_pgdir p = d ->
  shared_fault s d p ->
  let va := c_cr2 (k_cpu s) in
  exists r s' l', cow_copyuvm d e s = Ok r e s' /\ spaces s' l' ds /\ unlocked s' Lpg_count /\
    (forall d', d' ∈ ds -> same_view (k_mem s) (k_mem s') d') /\
    ((r = 0 /\ l = [] /\ 1 < refs (upte (k_mem s)) ds (frame_of (pte_of (k_mem s) d va))) \/
     (r <> 0 /\ has (pte_of (k_mem s') d va) PTE_W = true /\ has (pte_of (k_mem s') d va) PTE_SH = false /\
      has (pte_of (k_mem s') d va) PTE_U = has (pte_of (k_mem s) d va) PTE_U /\
      refs (upte (k_mem s')) ds (frame_of (pte_of (k_mem s') d va)) = 1 /\ c_cr3 (k_cpu s') = v2p d)).
Proof.
  intros Hs Hd Hu Hk Hpg Hf va. pose proof Hf as (Hva & Hsz & _). fold va in Hva.
  destruct (fault_resolved e s l ds d i p Hs Hd Hu Hk Hpg Hf) as (r & s' & l' & E & Hs' & Hu' & Hv & Hres).
  exists r, s', l'. split_and!; [done..|]. fold va in Hres.
  destruct Hres as [?|(Hr & HW & HSH & HU & HP & Hcr)]; [by left|right]. split_and!; try done.
  rewrite pte_of_page in * by (unfold word, KERNBASE in *; lia).
  apply (co_excl _ _ _ _ _ (sp_cow _ _ _ Hs')); [|done|done]. apply rv_spot; [done|lia].
Qed.

(** A fault that is not a write to a shared page of the process (no
    entry, a page that is not shared, or an address past its size): returns 0
    and changes nothing but the lock it took. *)
Theorem cow_fault_refused e s l ds d i p :
  spaces s l ds -> d ∈ ds -> unlocked s Lpg_count -> in_kernel s i p ->
  word (c_cr2 (k_cpu s)) ->
  has (pte_of (k_mem s) d (c_cr2 (k_cpu s))) PTE_SH = false \/ p_sz p <= c_cr2 (k_cpu s) ->
  cow_copyuvm d e s = Ok 0 e (crit Lpg_count s).
Proof.
  intros Hs Hd Hu Hk Hw Hr. set (va := c_cr2 (k_cpu s)) in *. pose proof (sp_layout _ _ _ Hs) as Hy.
  pose proof (sp_layout _ _ _ (spaces_acquired s l ds Lpg_count ltac:(done) Hs)) as Hy'.
  pose proof (ik_cli _ _ _ Hk) as Hc. unfold cow_copyuvm. mstep acquire_free by done. mstep.
  change (c_cr2 (k_cpu (acquired Lpg_count s))) with va.
  assert (Erel : release Lpg_count e (acquired Lpg_count s) = Ok tt e (crit Lpg_count s)).
  { rewrite release_held by ctl. by rewrite released_acquired. }
  destruct (table_of (k_mem s) d (PDX va)) as [t|] eqn:Ht.
  2: { mstep (walk_absent d va e (acquired Lpg_count s) (ly_pd _ _ _ Hy d Hd) Hw Ht).
       rewrite Z.eqb_refl. by mstep Erel. }
  mstep (walk_present d va false e (acquired Lpg_count s) t (ly_pd _ _ _ Hy d Hd) Hw Ht).
  rewrite walk_nonzero by (by eapply (store_table s l d va t (layout_vm _ _ _ _ Hy Hd))).
  mstep (load_run _ l d va t (layout_vm _ _ _ _ Hy' Hd) Hw Ht).
  change (pte_of (k_mem (acquired Lpg_count s)) d va) with (pte_of (k_mem s) d va).
  rewrite <- has_flags by (unfold PTE_SH; lia).
  destruct (has (pte_of (k_mem s) d va) PTE_SH) eqn:Esh; cbn [negb]; [|by mstep Erel].
  destruct Hr as [?|Hsz]; [done|].
  mstep curproc_ok by (exact (ik_proc _ _ _ Hk)). mstep proc_at_ok by (exact (ik_entry _ _ _ Hk)).
  rewrite (proj2 (Z.ltb_ge va (p_sz p)) Hsz). by mstep Erel.
Qed.

(** ** Isolation *)

Lemma user_pa_entry m d va pa : 0 <= va < KERNBASE -> user_pa m d va true = Some pa ->
  let v := upte m d (va / 4096) in
  has v PTE_P = true /\ has v PTE_U = true /\ has v PTE_W = true /\ pa = PTE_ADDR v + va mod 4096.
Proof.
  intros Hva. unfold user_pa. rewrite pte_of_page by (unfold word, KERNBASE in *; lia). cbn zeta.
  destruct (has _ PTE_P), (has _ PTE_U), (has _ PTE_W); simpl; try done. by intros [= <-].
Qed.

(** Different user addresses of the directories are different bytes, when
    one of them is writable. *)
Lemma user_bytes_apart s l ds d va d' va' :
  spaces s l ds -> d ∈ ds -> d' ∈ ds -> 0 <= va < KERNBASE -> 0 <= va' < KERNBASE ->
  has (upte (k_mem s) d (va / 4096)) PTE_P = true -> has (upte (k_mem s) d (va / 4096)) PTE_W = true ->
  has (upte (k_mem s) d' (va' / 4096)) PTE_P = true ->
  PTE_ADDR (upte (k_mem s) d (va / 4096)) + va mod 4096 =
    PTE_ADDR (upte (k_mem s) d' (va' / 4096)) + va' mod 4096 -> d = d' /\ va = va'.
Proof.
  intros Hs Hd Hd' Hva Hva' HP HW HP' E.
  pose proof (rv_spot ds d va Hd Hva) as Hx. pose proof (rv_spot ds d' va' Hd' Hva') as Hx'.
  pose proof (Z.mod_pos_bound va 4096 ltac:(lia)). pose proof (Z.mod_pos_bound va' 4096 ltac:(lia)).
  destruct (frame_content s l ds d (va / 4096) 0 Hs Hx HP ltac:(lia)) as (E1 & _ & Hk1 & _).
  destruct (frame_content s l ds d' (va' / 4096) 0 Hs Hx' HP' ltac:(lia)) as (E2 & _ & Hk2 & _).
  assert (Ef : frame_of (upte (k_mem s) d' (va' / 4096)) = frame_of (upte (k_mem s) d (va / 4096))).
  { destruct (Z.eq_dec (frame_of (upte (k_mem s) d' (va' / 4096))) (frame_of (upte (k_mem s) d (va / 4096)))) as [|Hne]; [done|].
    destruct (kpage_disjoint _ _ Hk2 Hk1 Hne); lia. }
  pose proof (co_excl _ _ _ _ _ (sp_cow _ _ _ Hs) d (va / 4096) Hx HP HW) as R.
  destruct (refs_one _ ds _ d (va / 4096) d' (va' / 4096) R Hx Hx' HP eq_refl HP' Ef) as [-> Ei].
  split; [done|]. rewrite (Z.div_mod va 4096), (Z.div_mod va' 4096) by lia. lia.
Qed.

(** A store to an address that the directory maps writable changes that byte
    for it and nothing else that a process reads. *)
Lemma store_isolated s l ds d va pa b :
  spaces s l ds -> d ∈ ds -> 0 <= va < KERNBASE -> user_pa (k_mem s) d va true = Some pa ->
  let m' := st8 (k_mem s) pa b in
  spaces (upd_mem (fun _ => m') s) l ds /\ user_byte m' d va = Some (b mod 256) /\
  forall d' va', d' ∈ ds -> 0 <= va' < KERNBASE -> (d', va') <> (d, va) ->
    user_byte m' d' va' = user_byte (k_mem s) d' va'.
Proof.
  intros Hs Hd Hva Hpa m'. destruct (user_pa_entry _ _ _ _ Hva Hpa) as (HP & HU & HW & ->).
  pose proof (rv_spot ds d va Hd Hva) as Hx. pose proof (Z.mod_pos_bound va 4096 ltac:(lia)) as Ho.
  destruct (frame_content s l ds d (va / 4096) (va mod 4096) Hs Hx HP Ho) as (_ & Hin & Hk & Hl & Hn).
  set (pa := PTE_ADDR (upte (k_mem s) d (va / 4096)) + va mod 4096) in *.
  destruct (layout_user s (upd_mem (fun _ => m') s) l ds (frame_of (upte (k_mem s) d (va / 4096))))
    as (Hy & Hdp & Hpt & _); try done; [apply Hs| |apply Hs|].
  { intros x Hx'. unfold m', st8. cbn. zcase; [|done]. subst x. by destruct (Hx' _ eq_refl). }
  assert (ET : forall d' i, (d', i) ∈ spots ds -> upte m' d' i = upte (k_mem s) d' i).
  { intros d' i [Hd' Hi]%elem_of_spots. apply Hpt; [done|by apply page_word]. }
  split; [split; [done| |apply Hs]|split].
  - eapply cow_mono; [apply Hs|exact ET|done| |done]. intros p Hp. left. by apply Hdp.
  - rewrite user_byte_eq by done. cbn zeta. rewrite ET, HP, HU by done. simpl. f_equal.
    fold pa. unfold ld8, m', st8. by rewrite Z.eqb_refl, Z.mod_mod.
  - intros d' va' Hd' Hva' Hne. rewrite !user_byte_eq by done. cbn zeta.
    rewrite ET by (by apply rv_spot).
    destruct (has (upte (k_mem s) d' (va' / 4096)) PTE_P) eqn:HP'; [|done]. simpl.
    destruct (has (upte (k_mem s) d' (va' / 4096)) PTE_U); [|done]. f_equal. unfold ld8, m', st8. destruct (Z.eqb_spec (PTE_ADDR (upte (k_mem s) d' (va' / 4096)) + va' mod 4096) pa) as [E|]; [|done].
    destruct Hne. symmetry in E.
    destruct (user_bytes_apart s l ds d va d' va' Hs Hd Hd' Hva Hva' HP HW HP' E) as [<- <-]. done.
Qed.

(** A store by user code: through the mapping if it is writable; otherwise the
    processor faults with the address in %cr2, the handler calls
    [cow_copyuvm], and the instruction is restarted if that gave a page. *)
Definition store_byte (pa b : Z) : M bool := modify (upd_mem (fun m => st8 m pa b));; mret true.
Definition user_store (d va b : Z) : M bool :=
  pa ← gets (fun s => user_pa (k_mem s) d va true);
  match pa with
  | Some pa => store_byte pa b
  | None =>
    modify (upd_cpu (set_c_cr2 va));;
    r ← cow_copyuvm d;
    if r =? 0 then mret false else
    pa ← gets (fun s => user_pa (k_mem s) d va true);
    match pa with Some pa => store_byte pa b | None => mret false end
  end.

(** Of all addresses of the directories, [va] in [d] reads [b] now, and the
    others what they read before. *)
Definition stored (ds : list Z) (d va b : Z) (m m' : mem) : Prop :=
  user_byte m' d va = Some (b mod 256) /\
  forall d' va', d' ∈ ds -> 0 <= va' < KERNBASE -> (d', va') <> (d, va) ->
    user_byte m' d' va' = user_byte m d' va'.

Lemma user_pa_write m d va :
  has (pte_of m d va) PTE_P = true -> has (pte_of m d va) PTE_U = true -> has (pte_of m d va) PTE_W = true ->
  user_pa m d va true = Some (PTE_ADDR (pte_of m d va) + va mod 4096).
Proof. intros HP HU HW. unfold user_pa. by rewrite HP, HU, HW. Qed.

Lemma user_pa_read_only m d va :
  has (pte_of m d va) PTE_W = false -> user_pa m d va true = None.
Proof. intros HW. unfold user_pa. rewrite HW. by rewrite !andb_false_r. Qed.

Lemma store_byte_ok s l ds d va pa b e :
  spaces s l ds -> d ∈ ds -> 0 <= va < KERNBASE -> user_pa (k_mem s) d va true = Some pa ->
  exists s', store_byte pa b e s = Ok true e s' /\ spaces s' l ds /\ stored ds d va b (k_mem s) (k_mem s').
Proof.
  intros Hs Hd Hva Hpa. destruct (store_isolated s l ds d va pa b Hs Hd Hva Hpa) as (Hs' & Hb & Hv).
  eexists. split; [unfold store_byte; mstep; done|]. split; [exact Hs'|]. by split.
Qed.

(** C11: Isolation: a store by the running process to a present user page
    that is writable or shared.  If the page is writable, or if a page for the
    copy is free or not needed, the byte is stored for this process, and no
    byte that any process reads at another address or in another address space
    changes.  Otherwise nothing that a process reads changes.  The invariant
    holds again. *)
Theorem user_store_isolated e s l ds d i p va b :
  spaces s l ds -> d ∈ ds -> unlocked s Lpg_count -> in_kernel s i p -> p_pgdir p = d ->
  0 <= va < p_sz p -> p_sz p <= KERNBASE ->
  let v := pte_of (k_mem s) d va in
  has v PTE_P = true -> has v PTE_U = true -> has v PTE_W = true \/ has v PTE_SH = true ->
  exists r s' l', user_store d va b e s = Ok r e s' /\ spaces s' l' ds /\
    if r : bool then stored ds d va b (k_mem s) (k_mem s')
    else l = [] /\ has v PTE_W = false /\ 1 < refs (upte (k_mem s)) ds (frame_of v) /\
         forall d', d' ∈ ds -> same_view (k_mem s) (k_mem s') d'.
Proof.
  intros Hs Hd Hu Hk Hpg Hva Hsz v HP HU HWS. assert (Hb : 0 <= va < KERNBASE) by lia.
  unfold user_store. mstep. fold v in HP, HU. destruct (has v PTE_W) eqn:HW.
  { rewrite user_pa_write by done.
    destruct (store_byte_ok s l ds d va _ b e Hs Hd Hb (user_pa_write _ _ _ HP HU HW)) as (s' & E & Hs' & Hst).
    by exists true, s', l. }
  rewrite user_pa_read_only by done. mstep. destruct HWS as [?|HSH]; [done|].
  set (s1 := upd_cpu (set_c_cr2 va) s).
  assert (Hk1 : in_kernel s1 i p) by (destruct Hk as [? ? ? ?]; by split).
  destruct (fault_resolved e s1 l ds d i p) as (r & s2 & l2 & E2 & Hs2 & _ & Hv2 & Hres); try done.
  { apply spaces_cpu; [done|apply Hk]. }
  mstep E2. destruct Hres as [(-> & -> & Hr)|(Hr & HW' & _ & HU' & HP' & _)].
  { exists false, s2, l2. by rewrite Z.eqb_refl. }
  rewrite (proj2 (Z.eqb_neq _ _) Hr). mstep. change (c_cr2 (k_cpu s1)) with va in *.
  assert (HU2 : has (pte_of (k_mem s2) d va) PTE_U = true) by (by rewrite HU').
  rewrite (user_pa_write _ _ _ HP' HU2 HW').
  destruct (store_byte_ok s2 l2 ds d va _ b e Hs2 Hd Hb (user_pa_write _ _ _ HP' HU2 HW')) as (s3 & E3 & Hs3 & Hst & Hoth).
  exists true, s3, l2. split_and!; [done..|]. split; [done|].
  intros d' va' Hd' Hva' Hne. rewrite Hoth by done. by apply Hv2.
Qed.


End Cow.
