(* ===== verification/CowShare.v ===== *)
(** * Sharing an address space: cow_shareuvm, deallocuvm, cow_deallocuvm (vm.c)

    [cow_shareuvm] maps every page of the parent read-only in a new directory
    and keeps the invariant [spaces] of Cow.v. *)

From stdpp Require Import base list list_numbers.
From S2P Require Import Prelude Memory Kernel KMonad Boot Mmu Spinlock Kalloc Vm VmWalk VmSpace Cow.

(** ** Definitions *)

Section CowShare.
Context `{Symbols}.

(** The entry of a page that becomes shared. *)
Definition share (v : Z) : Z := clear (Z.lor v PTE_SH) PTE_W.

(** ** Lemmas *)

Lemma share_bits v : word v ->
  word (share v) /\ frame_of (share v) = frame_of v /\ PTE_ADDR (share v) = PTE_ADDR v /\
  has (share v) PTE_P = has v PTE_P /\ has (share v) PTE_U = has v PTE_U /\
  has (share v) PTE_W = false /\ has (share v) PTE_SH = true.
Proof.
  intros Hw. unfold share.
  assert (Hw' : word (Z.lor v PTE_SH)) by (apply word_lor; [done|unfold word, PTE_SH; lia]).
  assert (Ea : PTE_ADDR (clear (Z.lor v PTE_SH) PTE_W) = PTE_ADDR v).
  { change PTE_W with (2 ^ 1). rewrite PTE_ADDR_clear by (done || lia).
    change PTE_SH with (2 ^ 9). by rewrite PTE_ADDR_set by lia. }
  assert (Eb : forall n, 0 <= n -> has (clear (Z.lor v PTE_SH) PTE_W) (2 ^ n) =
                 negb (n =? 1) && ((n =? 9) || has v (2 ^ n))).
  { intros n Hn. rewrite !has_testbit by done. change PTE_W with (2 ^ 1).
    rewrite clear_testbit by (done || lia). change PTE_SH with (2 ^ 9). by rewrite lor_testbit by lia. }
  split_and!; [by apply word_clear|unfold frame_of; by rewrite Ea|done|..].
  - apply (Eb 0). lia.
  - apply (Eb 2). lia.
  - apply (Eb 1). lia.
  - apply (Eb 9). lia.
Qed.

(** Mapping the page of an entry with the flags of the entry gives the
    entry. *)
Lemma map_entry_same v : word v -> has v PTE_P = true -> map_entry (PTE_ADDR v) (PTE_FLAGS v) = v.
Proof.
  intros Hw Hp. unfold map_entry.
  rewrite (lor_aligned (PTE_ADDR v) (PTE_FLAGS v)) by (by apply PTE_ADDR_aligned || apply PTE_FLAGS_range).
  rewrite <- PTE_split by done. apply Z.bits_inj'. intros n Hn.
  change PTE_P with (2 ^ 0) in *. rewrite lor_testbit by lia.
  rewrite has_testbit in Hp by lia. destruct (Z.eqb_spec n 0) as [->|]; [by rewrite Hp|done].
Qed.

(** The two stores to the entry of the parent. *)
Lemma entry_share s l ds d va t e :
  layout s l ds -> d ∈ ds -> word va -> table_of (k_mem s) d (PDX va) = Some t ->
  exists m',
    (forall B (rest : Z -> M B),
      (stk (t + 4 * PTX va) (Z.lor (pte_of (k_mem s) d va) PTE_SH);;
       v ← ldk (t + 4 * PTX va); stk (t + 4 * PTX va) (clear v PTE_W);;
       v ← ldk (t + 4 * PTX va); rest v) e s =
      rest (share (pte_of (k_mem s) d va)) e (upd_mem (fun _ => m') s)) /\
    grows ds d s l (upd_mem (fun _ => m') s) l /\
    forall w, word w -> pte_of m' d w =
      if w / 4096 =? va / 4096 then share (pte_of (k_mem s) d va) else pte_of (k_mem s) d w.
Proof.
  intros Hy Hd Hva Ht. pose proof (pte_of_word (k_mem s) d va) as Hw.
  destruct (entry_set s l ds d va t (Z.lor (pte_of (k_mem s) d va) PTE_SH) e Hy Hd Hva Ht)
    as (m1 & E1 & G1 & Ht1 & P1); [apply word_lor; [done|unfold word, PTE_SH; lia]|].
  pose proof (gr_layout _ _ _ _ _ _ G1) as Hy1. set (s1 := upd_mem (fun _ => m1) s) in *.
  destruct (entry_set s1 l ds d va t (share (pte_of (k_mem s) d va)) e Hy1 Hd Hva Ht1)
    as (m2 & E2 & G2 & Ht2 & P2); [by apply share_bits|].
  pose proof (gr_layout _ _ _ _ _ _ G2) as Hy2.
  exists m2. split; [|split; [by eapply grows_trans|]].
  - intros B rest. mstep E1. mstep (load_run s1 l d va t (layout_vm _ _ _ _ Hy1 Hd) Hva Ht1).
    change (k_mem s1) with m1. rewrite (P1 va Hva), Z.eqb_refl. mstep E2.
    mstep (load_run _ l d va t (layout_vm _ _ _ _ Hy2 Hd) Hva Ht2).
    cbn [k_mem upd_mem set_k_mem]. by rewrite (P2 va Hva), Z.eqb_refl.
  - intros w Hww. rewrite P2 by done. destruct (w / 4096 =? va / 4096) eqn:Ew; [done|].
    change (k_mem s1) with m1. by rewrite P1, Ew.
Qed.

(** The parent's entry becomes shared. *)
Lemma share_parent s l ds d i t e :
  spaces s l ds -> d ∈ ds -> 0 <= i < NUPAGES -> table_of (k_mem s) d (PDX (4096 * i)) = Some t ->
  has (upte (k_mem s) d i) PTE_P = true ->
  exists m',
    (forall B (rest : Z -> M B),
      (stk (t + 4 * PTX (4096 * i)) (Z.lor (upte (k_mem s) d i) PTE_SH);;
       v ← ldk (t + 4 * PTX (4096 * i)); stk (t + 4 * PTX (4096 * i)) (clear v PTE_W);;
       v ← ldk (t + 4 * PTX (4096 * i)); rest v) e s =
      rest (share (upte (k_mem s) d i)) e (upd_mem (fun _ => m') s)) /\
    spaces (upd_mem (fun _ => m') s) l ds /\
    (forall d' j, (d', j) ∈ spots ds ->
       upte m' d' j = tset (upte (k_mem s)) d i (share (upte (k_mem s) d i)) d' j) /\
    (forall d', d' ∈ ds -> same_view (k_mem s) m' d') /\
    (forall d' p, d' ∈ ds -> pd_pages (k_mem s) d' p -> pd_pages m' d' p).
Proof.
  intros Hs Hd Hi Ht HP. set (v := upte (k_mem s) d i). pose proof (page_word i Hi) as Hw.
  assert (Hx : (d, i) ∈ spots ds) by (by apply elem_of_spots).
  assert (Ei : 4096 * i / 4096 = i) by (Z.div_mod_to_equations; lia).
  destruct (entry_share s l ds d (4096 * i) t e (sp_layout _ _ _ Hs) Hd Hw Ht) as (m' & E & G & P).
  fold (upte (k_mem s) d i) in E, P. fold v in E, P.
  destruct (share_bits v (upte_word _ _ _)) as (_ & Ef & Ea & EP & EU & EW & _).
  pose proof (grows_tset ds d s l _ l (4096 * i) (share v) G P) as ET. rewrite Ei in ET.
  exists m'. split_and!; [done| |done| |intros d' p Hd'; apply (gr_keeps _ _ _ _ _ _ G); by apply list_elem_of_further].
  - split; [apply G| |apply Hs]. eapply cow_mono; [|exact ET|done|apply G|done].
    apply cow_flags; try apply Hs; try done; rewrite ?EP, ?EW; done.
  - eapply same_view_tset; [exact Hs|exact Hx|exact ET|apply G|done..|].
    intros o Ho. rewrite Ea. destruct (frame_content s l ds d i o Hs Hx HP Ho) as (_ & Hin & Hk & Hl & Hn).
    by apply (gr_user _ _ _ _ _ _ G (frame_of v)).
Qed.

(** One page is mapped at a free entry. *)
Lemma map_one s l ds d i pa perm e :
  spaces s l ds -> d ∈ ds -> 0 <= i < NUPAGES -> upte (k_mem s) d i = 0 -> word pa -> 0 <= perm < 4096 ->
  exists r s' l', mappages d (4096 * i) 4096 pa perm e s = Ok r e s' /\
    quiet s s' /\ grows ds d s l s' l' /\
    (r = -1 /\ l' = [] /\ (forall w, word w -> pte_of (k_mem s') d w = pte_of (k_mem s) d w) \/
     r = 0 /\ forall w, word w -> pte_of (k_mem s') d w =
       if w / 4096 =? 4096 * i / 4096 then map_entry pa perm else pte_of (k_mem s) d w).
Proof.
  intros Hs Hd Hi H0 Hpa Hperm. pose proof (page_word i Hi) as Hw. pose proof (sp_layout _ _ _ Hs) as Hy.
  assert (Ei : 4096 * i / 4096 = i) by (Z.div_mod_to_equations; lia).
  assert (Esp : page_span (4096 * i) 4096 = 0) by (unfold page_span; Z.div_mod_to_equations; lia).
  assert (Efp : first_page (4096 * i) = 4096 * i) by (unfold first_page; rewrite Ei; lia).
  destruct (mappages_ok d (4096 * i) 4096 pa perm e s l (layout_vm _ _ _ _ Hy Hd))
    as (r & s' & l' & k & E & Hrel & Hres & P); unfold word, NUPAGES in *; try lia.
  { intros w Hr Hr' Hww. rewrite Efp in Hr. rewrite pte_of_page by done.
    replace (w / 4096) with i by (Z.div_mod_to_equations; lia). by rewrite H0. }
  exists r, s', l'. split; [done|]. split; [apply Hrel|]. split; [by apply grows_rel|].
  rewrite Esp, Efp in *. destruct Hres as [[-> ->]|(-> & Hk & ->)].
  - right. split; [done|]. intros w Hww. rewrite P by done. unfold mapped. rewrite Ei.
    destruct (Z.eqb_spec (w / 4096) i) as [<-|Hne]; repeat (zcase; simpl); try done;
      try (exfalso; Z.div_mod_to_equations; lia).
    by replace (w / 4096 * 4096 - 4096 * (w / 4096)) with 0 by lia; rewrite Z.add_0_r.
  - left. split_and!; [done..|]. intros w Hww. rewrite P by done. replace k with 0 by lia. apply mapped_zero.
Qed.

(** Nothing was mapped: only pages for tables may have been taken. *)
Lemma map_failed s l ds d s' l' :
  spaces s l ds -> grows ds d s l s' l' ->
  (forall w, word w -> pte_of (k_mem s') d w = pte_of (k_mem s) d w) ->
  spaces s' l' ds /\
  (forall d' j, (d', j) ∈ spots ds -> upte (k_mem s') d' j = upte (k_mem s) d' j) /\
  (forall q, unused s l ds q -> unused s' l' ds q).
Proof.
  intros Hs G P.
  assert (ET : forall d' j, (d', j) ∈ spots ds -> upte (k_mem s') d' j = upte (k_mem s) d' j).
  { intros d' j [Hd' Hj]%elem_of_spots. pose proof (page_word j Hj). unfold upte.
    destruct (decide (d' = d)) as [->|]; [by apply P|]. by apply (gr_others _ _ _ _ _ _ G). }
  split_and!; [|done|].
  - split; [apply G| |apply Hs]. eapply cow_mono; [apply Hs|exact ET|apply G|apply G|].
    intros p _. unfold refcount. by rewrite (gr_counters _ _ _ _ _ _ G).
  - intros q (Hk & Hl & Hd & Hr). split_and!; [done| | |].
    + intros Hq. by apply Hl, (gr_free _ _ _ _ _ _ G).
    + intros Hq. by destruct (gr_dirs _ _ _ _ _ _ G q Hq).
    + by rewrite (refs_ext (upte (k_mem s))).
Qed.

(** A byte whose entry stays the same. *)
Lemma grows_byte s l ds d s' l' d' va :
  spaces s l ds -> grows ds d s l s' l' -> d' ∈ ds -> 0 <= va < KERNBASE ->
  upte (k_mem s') d' (va / 4096) = upte (k_mem s) d' (va / 4096) ->
  user_byte (k_mem s') d' va = user_byte (k_mem s) d' va.
Proof.
  intros Hs G Hd' Hva Ee. rewrite !user_byte_eq by done. cbn zeta. rewrite Ee.
  destruct (has (upte (k_mem s) d' (va / 4096)) PTE_P) eqn:HP; [|done]. simpl.
  destruct (has _ PTE_U); [|done]. f_equal. unfold ld8. f_equal.
  destruct (frame_content s l ds d' (va / 4096) (va mod 4096)) as (_ & Hin & Hkp & Hlp & Hdp); try done;
    [by apply rv_spot|apply Z.mod_pos_bound; lia|]. by eapply (gr_user _ _ _ _ _ _ G).
Qed.

Lemma grows_view s l ds d s' l' d' :
  spaces s l ds -> grows ds d s l s' l' -> d' ∈ ds -> d' <> d -> same_view (k_mem s) (k_mem s') d'.
Proof.
  intros Hs G Hd' Hne va Hva. eapply grows_byte; [done..|].
  apply (gr_others _ _ _ _ _ _ G); [done..|]. by apply page_word, page_index.
Qed.

(** A page with a read-only mapping has no writable one. *)
Lemma no_writer T C l ds D d i d' i' :
  cow_ok T C l ds D -> (d, i) ∈ spots ds -> has (T d i) PTE_P = true -> has (T d i) PTE_W = false ->
  (d', i') ∈ spots ds -> has (T d' i') PTE_P = true -> frame_of (T d' i') = frame_of (T d i) ->
  has (T d' i') PTE_W = false.
Proof.
  intros Hc Hx HP HW Hx' HP' Ef. destruct (has (T d' i') PTE_W) eqn:HW'; [|done].
  pose proof (co_excl _ _ _ _ _ Hc d' i' Hx' HP' HW') as R. rewrite Ef in R.
  destruct (refs_one T ds _ d' i' d i R Hx' Hx HP' Ef HP eq_refl) as [-> ->]. congruence.
Qed.

(** The counter of a page with references. *)
Definition inc (c : Z) : Z := if c =? 0 then 2 else c + 1.

Lemma inc_counter_ok s p e :
  kpage p -> 0 <= refcount s p <= 33554432 ->
  inc_counter (p - KERNBASE) e s =
    Ok tt e (upd_counter (PA_INX (p - KERNBASE)) (fun _ => inc (refcount s p)) s).
Proof.
  intros Hk Hc. unfold inc_counter, counter, set_counter. mstep.
  assert (Er : k_page_counters s (PA_INX (p - KERNBASE)) = refcount s p)
    by (unfold refcount; by rewrite v2p_kpage). rewrite Er. unfold inc.
  destruct (refcount s p =? 0); [done|]. rewrite s32_small by lia. done.
Qed.

(** The reference of the child is counted. *)
Lemma share_counted s l ds d0 d i s' l' e :
  spaces s l ds -> (d0, i) ∈ spots ds -> (d, i) ∈ spots ds ->
  let v := upte (k_mem s) d0 i in
  has v PTE_P = true -> has v PTE_W = false -> upte (k_mem s) d i = 0 ->
  grows ds d s l s' l' ->
  (forall d' j, (d', j) ∈ spots ds -> upte (k_mem s') d' j = tset (upte (k_mem s)) d i v d' j) ->
  exists s2, inc_counter (PTE_ADDR v) e s' = Ok tt e s2 /\ cow_quiet s' s2 /\
    k_mem s2 = k_mem s' /\ spaces s2 l' ds.
Proof.
  intros Hs Hx0 Hx v HP HW H0 G ET. pose proof (sp_cow _ _ _ Hs) as Hco. set (p := frame_of v).
  destruct (frame_content s l ds d0 i 0 Hs Hx0 HP ltac:(lia)) as (Ea & _ & Hk & _). fold v p in Ea, Hk.
  pose proof (refs_pos (upte (k_mem s)) ds p d0 i Hx0 HP eq_refl) as Hpos.
  pose proof (refs_bound (upte (k_mem s)) ds p (sp_few _ _ _ Hs)) as Hb.
  assert (Er : forall q, refcount s' q = refcount s q)
    by (intros q; unfold refcount; by rewrite (gr_counters _ _ _ _ _ _ G)).
  assert (Hc : 0 <= refcount s' p <= 33554432)
    by (rewrite Er; destruct (co_count _ _ _ _ _ Hco p Hpos); lia).
  eexists. split; [rewrite Ea; by apply inc_counter_ok|]. split_and!; [done|done|].
  split; [|eapply cow_mono; [|exact ET|by apply G|by apply G|done]|apply Hs].
  - eapply layout_ext; [apply G|done..|]. apply G.
  - apply (cow_share _ _ _ _ _ d i Hco (ly_nodup _ _ _ (sp_layout _ _ _ Hs)) Hx v p); try done.
    + by rewrite H0.
    + intros d' i' Hx' HP' Ef. by eapply (no_writer (upte (k_mem s)) _ _ _ _ d0 i d' i').
    + rewrite refcount_set, decide_True by done. by rewrite Er.
    + intros p' Hk' Hne. rewrite refcount_set, decide_False by done. apply Er.
Qed.

(** The child's entry is mapped to the parent's page. *)
Lemma share_child s l ds d0 d i e :
  spaces s l ds -> d0 ∈ ds -> d ∈ ds -> 0 <= i < NUPAGES ->
  let v := upte (k_mem s) d0 i in
  has v PTE_P = true -> has v PTE_W = false -> upte (k_mem s) d i = 0 ->
  exists r s' l', mappages d (4096 * i) 4096 (PTE_ADDR v) (PTE_FLAGS v) e s = Ok r e s' /\
    quiet s s' /\ (forall d', d' ∈ ds -> d' <> d -> same_view (k_mem s) (k_mem s') d') /\
    (forall p, pd_pages (k_mem s) d p \/ p ∈ l /\ p ∉ l' -> pd_pages (k_mem s') d p) /\
    ((r = -1 /\ l' = [] /\ spaces s' l' ds /\
        forall d' j, (d', j) ∈ spots ds -> upte (k_mem s') d' j = upte (k_mem s) d' j) \/
     (r = 0 /\ exists s2, inc_counter (PTE_ADDR v) e s' = Ok tt e s2 /\ cow_quiet s' s2 /\
        k_mem s2 = k_mem s' /\ spaces s2 l' ds /\
        forall d' j, (d', j) ∈ spots ds -> upte (k_mem s') d' j = tset (upte (k_mem s)) d i v d' j)).
Proof.
  intros Hs Hd0 Hd Hi v HP HW H0. pose proof (upte_word (k_mem s) d0 i : word v) as Hv.
  assert (Hx0 : (d0, i) ∈ spots ds) by (by apply elem_of_spots).
  assert (Hx : (d, i) ∈ spots ds) by (by apply elem_of_spots).
  assert (Ei : 4096 * i / 4096 = i) by (Z.div_mod_to_equations; lia).
  destruct (map_one s l ds d i (PTE_ADDR v) (PTE_FLAGS v) e Hs Hd Hi H0) as (r & s' & l' & E & Hq & G & Hres);
    [by apply PTE_ADDR_word|apply PTE_FLAGS_range|]. rewrite map_entry_same in Hres by done.
  exists r, s', l'. split; [done|]. split; [done|].
  split; [intros d' Hd' Hne; by eapply grows_view|].
  split; [intros p [Hp|[Hp Hno]]; [apply (gr_keeps _ _ _ _ _ _ G d); [apply list_elem_of_here|done]|by apply (gr_taken _ _ _ _ _ _ G)]|].
  destruct Hres as [(-> & -> & P)|[-> P]].
  - left. destruct (map_failed s l ds d s' [] Hs G P) as (Hs' & ET & _). done.
  - right. split; [done|]. pose proof (grows_tset _ _ _ _ _ _ _ _ G P) as ET. rewrite Ei in ET.
    destruct (share_counted s l ds d0 d i s' l' e) as (s2 & E2 & Hq2 & Em & Hs2); try done.
    exists s2. done.
Qed.

(** ** The loop of cow_shareuvm *)

(** The entries [T] when the first [kp] pages of the parent [d0] became
    shared and the first [kc] of them are mapped in the child [d]. *)
Definition shared_upto (T0 T : Z -> Z -> Z) (ds : list Z) (d0 d kp kc : Z) : Prop :=
  forall d' j, (d', j) ∈ spots ds -> T d' j =
    if decide (d' = d0 /\ j < kp) then share (T0 d0 j)
    else if decide (d' = d /\ j < kc) then share (T0 d0 j) else T0 d' j.

Section ShareLoop.
Context (s0 : kstate) (l0 ds : list Z) (d0 d sz : Z).
Hypothesis Hd0 : d0 ∈ ds.
Hypothesis Hd : d ∈ ds.
Hypothesis Hne : d0 <> d.
Hypothesis Hsz : 0 <= sz <= KERNBASE.
Hypothesis Hall : forall j, 0 <= j < npages sz -> has (upte (k_mem s0) d0 j) PTE_P = true.
Hypothesis Hnone : forall j, 0 <= j < NUPAGES -> upte (k_mem s0) d j = 0.

(** What holds in the loop. *)
Record sharing (s : kstate) (l : list Z) (kp kc : Z) : Prop := {
  sh_spaces : spaces s l ds;
  sh_quiet : cow_quiet s0 s;
  sh_views : forall d', d' ∈ ds -> d' <> d -> same_view (k_mem s0) (k_mem s) d';
  sh_entries : shared_upto (upte (k_mem s0)) (upte (k_mem s)) ds d0 d kp kc;
  sh_taken : forall p, pd_pages (k_mem s0) d p \/ p ∈ l0 /\ p ∉ l -> pd_pages (k_mem s) d p
}.

Lemma shared_parent_step T0 T T1 k :
  shared_upto T0 T ds d0 d k k -> T d0 k = T0 d0 k ->
  (forall d' j, (d', j) ∈ spots ds -> T1 d' j = tset T d0 k (share (T d0 k)) d' j) ->
  shared_upto T0 T1 ds d0 d (k + 1) k.
Proof.
  intros Hu E ET d' j Hx. rewrite ET by done. destruct (decide ((d', j) = (d0, k))) as [[= -> ->]|N].
  - rewrite tset_eq, E, decide_True by lia. done.
  - rewrite tset_ne, Hu by done. destruct (decide (d' = d0 /\ j < k)) as [[-> ?]|N1].
    + by rewrite decide_True by lia.
    + rewrite (decide_False (P := d' = d0 /\ j < k + 1)); [done|]. intros [-> ?].
      assert (j = k) by lia. by subst.
Qed.

Lemma shared_child_step T0 T T1 k :
  shared_upto T0 T ds d0 d (k + 1) k ->
  (forall d' j, (d', j) ∈ spots ds -> T1 d' j = tset T d k (share (T0 d0 k)) d' j) ->
  shared_upto T0 T1 ds d0 d (k + 1) (k + 1).
Proof.
  intros Hu ET d' j Hx. rewrite ET by done. destruct (decide ((d', j) = (d, k))) as [[= -> ->]|N].
  - rewrite tset_eq, decide_False, decide_True by naive_solver lia. done.
  - rewrite tset_ne, Hu by done. case_decide; [done|]. destruct (decide (d' = d /\ j < k)) as [[-> ?]|N1].
    + by rewrite decide_True by lia.
    + rewrite (decide_False (P := d' = d /\ j < k + 1)); [done|]. intros [-> ?].
      assert (j = k) by lia. by subst.
Qed.

(** One page: the entry of the parent, the entry of the child, the
    counter. *)
Lemma share_page s l k e :
  sharing s l k k -> 0 <= k < npages sz ->
  exists t m1 r s2 l2,
    let v := share (upte (k_mem s) d0 k) in
    let pte := t + 4 * PTX (4096 * k) in
    table_of (k_mem s) d0 (PDX (4096 * k)) = Some t /\ has (upte (k_mem s) d0 k) PTE_P = true /\
    (forall B (rest : Z -> M B),
      (stk pte (Z.lor (upte (k_mem s) d0 k) PTE_SH);; v ← ldk pte; stk pte (clear v PTE_W);;
       v ← ldk pte; rest v) e s = rest v e (upd_mem (fun _ => m1) s)) /\
    mappages d (4096 * k) 4096 (PTE_ADDR v) (PTE_FLAGS v) e (upd_mem (fun _ => m1) s) = Ok r e s2 /\
    (r = -1 /\ l2 = [] /\ sharing s2 l2 (k + 1) k \/
     r = 0 /\ exists s3, inc_counter (PTE_ADDR v) e s2 = Ok tt e s3 /\ sharing s3 l2 (k + 1) (k + 1)).
Proof.
  intros [Hs Hq Hv Hu Htk] Hk. unfold npages in Hk.
  assert (Hi : 0 <= k < NUPAGES) by (unfold NUPAGES, KERNBASE in *; Z.div_mod_to_equations; lia).
  assert (Hx0 : (d0, k) ∈ spots ds) by (by apply elem_of_spots).
  assert (Hx : (d, k) ∈ spots ds) by (by apply elem_of_spots).
  assert (E0 : upte (k_mem s) d0 k = upte (k_mem s0) d0 k)
    by (rewrite Hu by done; by rewrite !decide_False by lia).
  assert (E1 : upte (k_mem s) d k = 0).
  { rewrite Hu by done. rewrite !decide_False by lia. by apply Hnone. }
  assert (HP : has (upte (k_mem s) d0 k) PTE_P = true) by (rewrite E0; by apply Hall).
  destruct (present_table (k_mem s) d0 (4096 * k)) as [t Ht];
    [by apply (ly_pd _ _ _ (sp_layout _ _ _ Hs))|by apply page_word|done|].
  destruct (share_bits (upte (k_mem s) d0 k) (upte_word _ _ _)) as (_ & _ & _ & EP & _ & EW & _).
  destruct (share_parent s l ds d0 k t e Hs Hd0 Hi Ht HP) as (m1 & Er & Hs1 & ET1 & Hv1 & Hpp1).
  pose proof (shared_parent_step _ _ _ k Hu E0 ET1) as Hu1.
  assert (Ev : upte m1 d0 k = share (upte (k_mem s) d0 k)) by (by rewrite ET1, tset_eq).
  assert (E1' : upte m1 d k = 0) by (rewrite ET1, tset_ne by (done || congruence); done).
  pose proof (share_child (upd_mem (fun _ => m1) s) l ds d0 d k e Hs1 Hd0 Hd Hi) as Hsc.
  cbn [k_mem upd_mem set_k_mem] in Hsc. rewrite Ev, EP, EW in Hsc. cbn zeta in Hsc.
  destruct (Hsc HP eq_refl E1') as (r & s2 & l2 & Em & Hq2 & Hv2 & Htk2 & Hres).
  exists t, m1, r, s2, l2. split_and!; [done..|]. fold (cow_quiet s0 s) in Hq.
  assert (Hq2' : cow_quiet s0 s2).
  { apply (cow_quiet_trans _ s _ Hq). apply quiet_cow in Hq2. by eapply cow_quiet_trans; [|exact Hq2]. }
  assert (Hv2' : forall d', d' ∈ ds -> d' <> d -> same_view (k_mem s0) (k_mem s2) d').
  { intros d' Hd' N. eapply same_view_trans; [by apply Hv|]. eapply same_view_trans; [by apply Hv1|]. by apply Hv2. }
  assert (Htk' : forall p, pd_pages (k_mem s0) d p \/ p ∈ l0 /\ p ∉ l2 -> pd_pages (k_mem s2) d p).
  { intros p Hp. apply Htk2. cbn. destruct (decide (p ∈ l)) as [Hin|Hout].
    - destruct Hp as [Hp|[_ Hno]]; [left; auto|by right].
    - left. apply Hpp1; [done|]. apply Htk. destruct Hp as [?|[? _]]; auto. }
  destruct Hres as [(-> & -> & Hs2 & ET2)|(-> & s3 & E3 & Hq3 & Em3 & Hs3 & ET2)]; [left|right].
  - split_and!; try done. split; try done. intros d' j Hj. rewrite ET2 by done. by apply Hu1.
  - split; [done|]. exists s3. split; [done|]. split; rewrite ?Em3; try done.
    + by eapply cow_quiet_trans.
    + eapply shared_child_step; [exact Hu1|]. intros d' j Hj. rewrite ET2 by done. by rewrite E0.
Qed.

Lemma share_loop_ok n : forall s l k e,
  sharing s l k k -> 0 <= k <= npages sz -> npages sz <= k + Z.of_nat n ->
  exists ok s' l', cow_shareuvm_loop n d0 d (4096 * k) sz e s = Ok ok e s' /\
    (ok = true /\ sharing s' l' (npages sz) (npages sz) \/
     ok = false /\ l' = [] /\ exists k', 0 <= k' < npages sz /\ sharing s' l' (k' + 1) k').
Proof.
  induction n as [|n IH]; intros s l k e Hsh Hk Hn.
  { exists true, s, l. split; [done|]. left. split; [done|]. by replace (npages sz) with k by lia. }
  cbn [cow_shareuvm_loop]. destruct (Z.ltb_spec (4096 * k) sz) as [Hlt|Hge].
  2: { exists true, s, l. split; [done|]. left. split; [done|].
       replace (npages sz) with k; [done|]. unfold npages in *. Z.div_mod_to_equations. lia. }
  assert (Hk' : 0 <= k < npages sz) by (unfold npages in *; Z.div_mod_to_equations; lia).
  assert (Hi : 0 <= k < NUPAGES) by (unfold npages, NUPAGES, KERNBASE in *; Z.div_mod_to_equations; lia).
  destruct (share_page s l k e Hsh Hk') as (t & m1 & r & s2 & l2 & Ht & HP & Er & Em & Hres).
  pose proof (sp_layout _ _ _ (sh_spaces _ _ _ _ Hsh)) as Hy. pose proof (page_word k Hi) as Hw.
  mstep (walk_present d0 (4096 * k) false e s t (ly_pd _ _ _ Hy d0 Hd0) Hw Ht).
  rewrite walk_nonzero by (by eapply (store_table s l d0 (4096 * k) t (layout_vm _ _ _ _ Hy Hd0))).
  mstep (load_run s l d0 (4096 * k) t (layout_vm _ _ _ _ Hy Hd0) Hw Ht).
  fold (upte (k_mem s) d0 k). rewrite HP. cbn [negb]. rewrite Er. mstep Em.
  replace (u32 (4096 * k + PGSIZE)) with (4096 * (k + 1))
    by (unfold PGSIZE; rewrite u32_small; unfold NUPAGES in *; lia).
  destruct Hres as [(-> & -> & Hsh2)|(-> & s3 & E3 & Hsh3)].
  - exists false, s2, []. split; [done|]. right. split_and!; [done..|]. by exists k.
  - rewrite (proj2 (Z.ltb_ge 0 0)) by lia. mstep E3. by apply (IH s3 l2 (k + 1)); [|lia..].
Qed.

End ShareLoop.

(** ** cow_shareuvm *)

(** A directory that maps no user page adds no reference. *)
Lemma refs_cons T ds d p :
  (forall j, 0 <= j < NUPAGES -> T d j = 0) -> refs T (d :: ds) p = refs T ds p.
Proof.
  intros Hz. unfold refs. rewrite spots_cons, zsum_app, zsum_zero; [done|].
  intros [d' j] (j' & [= -> ->] & Hj)%list_elem_of_fmap. apply elem_of_seqZ in Hj. simpl.
  rewrite Hz by lia. done.
Qed.

Lemma cow_new_dir T C l ds D d T' C' l' D' :
  cow_ok T C l ds D -> (forall d' j, (d', j) ∈ spots ds -> T' d' j = T d' j) ->
  (forall j, 0 <= j < NUPAGES -> T' d j = 0) ->
  (forall p, p ∈ l' -> p ∈ l) -> (forall p, D' p -> D p \/ p ∈ l) -> (forall p, C' p = C p) ->
  cow_ok T' C' l' (d :: ds) D'.
Proof.
  intros [Hf Hz Hc He] ET E0 El ED EC.
  assert (ER : forall p, refs T' (d :: ds) p = refs T ds p)
    by (intros p; rewrite refs_cons by done; by apply refs_ext).
  assert (Hcase : forall d' j, (d', j) ∈ spots (d :: ds) -> T' d' j = 0 \/ (d', j) ∈ spots ds /\ T' d' j = T d' j).
  { intros d' j [[->|Hd]%elem_of_cons Hj]%elem_of_spots; [left; by apply E0|right].
    assert ((d', j) ∈ spots ds) by (by apply elem_of_spots). auto. }
  split.
  - intros d' j [E|[Hx E]]%Hcase; rewrite E; [done|]. intros (? & ? & ?)%Hf; [|done].
    split_and!; [done|auto|]. intros [?|?]%ED; auto.
  - intros d' j [E|[Hx E]]%Hcase; rewrite E; [done|]. by apply Hz.
  - intros p. rewrite ER, EC. apply Hc.
  - intros d' j [E|[Hx E]]%Hcase; rewrite E; [done|]. rewrite ER. by apply He.
Qed.

Section NewDir.
Context (s : kstate) (l ds : list Z) (d : Z) (s1 : kstate) (l1 : list Z).
Hypothesis Hy : layout s l ds.
Hypothesis Hnd : new_dir d s l s1 l1.

Lemma nd_keeps p x : kpage p -> p ∉ l -> in_page p x -> k_mem s1 x = k_mem s x.
Proof.
  intros Hk Hl. destruct Hnd as [_ _ (new & -> & _ & Hf)]. apply (frame_page _ _ _ p Hf Hk).
  intros q Hq. split.
  - eapply free_list_page; [apply Hy|]. rewrite elem_of_app. by left.
  - intros ->. apply Hl. rewrite elem_of_app. by left.
Qed.

Lemma nd_own p : pd_pages (k_mem s1) d p -> p ∈ l.
Proof. destruct Hnd as [_ _ (new & -> & Hp & _)]. intros ?%Hp. rewrite elem_of_app. by left. Qed.

Lemma nd_sub p : p ∈ l1 -> p ∈ l.
Proof. destruct Hnd as [_ _ (new & -> & _)]. rewrite elem_of_app. by right. Qed.

Lemma nd_dir d' p x : d' ∈ ds -> pd_pages (k_mem s) d' p -> in_page p x -> k_mem s1 x = k_mem s x.
Proof.
  intros Hd Hp. assert (Hdp : dir_page (k_mem s) ds p) by (by exists d').
  apply nd_keeps; [by eapply layout_kpage|by apply (ly_sep _ _ _ Hy)].
Qed.

Lemma nd_pages d' p : d' ∈ ds -> pd_pages (k_mem s1) d' p <-> pd_pages (k_mem s) d' p.
Proof. intros Hd. apply pd_pages_ext. intros x. apply (nd_dir d'); [done|by left]. Qed.

Lemma nd_fresh : d ∉ ds.
Proof.
  intros Hd. apply (ly_sep _ _ _ Hy d); [exists d; split; [done|by left]|]. apply nd_own. by left.
Qed.

Lemma nd_layout : layout s1 l1 (d :: ds).
Proof.
  pose proof (nd_ok _ _ _ _ _ Hnd) as Hv. split.
  - apply Hv.
  - apply Hv.
  - apply NoDup_cons. split; [apply nd_fresh|apply Hy].
  - intros d' [->|Hd]%elem_of_cons; [apply Hv|]. eapply pd_ok_ext; [by apply (ly_pd _ _ _ Hy)|].
    intros x. apply (nd_dir d'); [done|by left].
  - intros p (d' & [->|Hd]%elem_of_cons & Hp); [by apply (vm_sep _ _ _ Hv)|].
    rewrite nd_pages in Hp by done. intros Hin%nd_sub. apply (ly_sep _ _ _ Hy p); [by exists d'|done].
  - assert (Hx : forall d' p, d' ∈ ds -> pd_pages (k_mem s1) d p -> pd_pages (k_mem s1) d' p -> False).
    { intros d' p Hd Hp%nd_own Hp'. rewrite nd_pages in Hp' by done.
      apply (ly_sep _ _ _ Hy p); [by exists d'|done]. }
    intros d1 d2 p [->|H1]%elem_of_cons [->|H2]%elem_of_cons Hp1 Hp2; try done.
    + destruct (Hx d2 p); done.
    + destruct (Hx d1 p); done.
    + rewrite nd_pages in Hp1, Hp2 by done. by eapply (ly_disj _ _ _ Hy).
Qed.

Lemma nd_entries d' j : (d', j) ∈ spots ds -> upte (k_mem s1) d' j = upte (k_mem s) d' j.
Proof.
  intros [Hd Hj]%elem_of_spots. apply pte_of_ext; [by apply (ly_pd _ _ _ Hy)|by apply page_word|].
  intros p x. by apply nd_dir.
Qed.

End NewDir.

(** A new directory joins the others. *)
Lemma spaces_new_dir s l ds d s1 l1 :
  spaces s l ds -> (length ds < NPROC)%nat -> new_dir d s l s1 l1 ->
  (forall v, 0 <= v < KERNBASE -> pte_of (k_mem s1) d v = 0) ->
  spaces s1 l1 (d :: ds) /\ forall d', d' ∈ ds -> same_view (k_mem s) (k_mem s1) d'.
Proof.
  intros Hs Hlen Hnd Hz. pose proof (sp_layout _ _ _ Hs) as Hy. split.
  - split; [by eapply nd_layout| |simpl; lia].
    eapply cow_new_dir; [apply Hs|by eapply nd_entries| |by eapply nd_sub| |].
    + intros j Hj. apply Hz. unfold NUPAGES, KERNBASE in *. lia.
    + intros p (d' & [->|Hd]%elem_of_cons & Hp); [right; by eapply nd_own|left].
      exists d'. by rewrite <- (nd_pages s l ds d s1 l1 Hy Hnd d').
    + intros p. unfold refcount. by rewrite (quiet_counters _ _ (nd_quiet _ _ _ _ _ Hnd)).
  - intros d' Hd. eapply same_view_entries; [exact Hs|done| |].
    + intros j Hj. eapply nd_entries; [done..|]. by apply elem_of_spots.
    + intros p x Hk Hl _. by eapply nd_keeps.
Qed.

Lemma kmap_user `{!SymbolsOk} v : 0 <= v < KERNBASE -> default 0 (kmap_pte kmap v) = 0.
Proof. intros Hv. rewrite (kmap_pte_below kmap KERNBASE); [done|apply kernel_kmap_ok|lia]. Qed.

(** What the child sees: the pages of the parent below [sz]. *)
Lemma shared_view s0 l0 ds d0 d sz s l :
  sharing s0 l0 ds d0 d s l (npages sz) (npages sz) -> d0 ∈ ds -> d ∈ ds -> d0 <> d ->
  0 <= sz <= KERNBASE ->
  (forall j, 0 <= j < NUPAGES -> upte (k_mem s0) d j = 0) ->
  forall va, 0 <= va < KERNBASE ->
    user_byte (k_mem s) d va =
    (if va / 4096 <? npages sz then user_byte (k_mem s) d0 va else None) /\
    user_pa (k_mem s) d va true = None.
Proof.
  intros [Hs Hq Hv Hu _] Hd0 Hd Hne Hsz Hz va Hva. pose proof (page_index va Hva) as Hi.
  rewrite !user_byte_eq by done. unfold user_pa. rewrite pte_of_page by (unfold word, KERNBASE in *; lia).
  cbn zeta. rewrite !Hu by (by apply elem_of_spots).
  destruct (Z.ltb_spec (va / 4096) (npages sz)) as [Hlt|Hge].
  - rewrite (decide_False (P := d = d0 /\ _)), !decide_True by naive_solver. split; [done|].
    destruct (share_bits (upte (k_mem s0) d0 (va / 4096)) (upte_word _ _ _)) as (_ & _ & _ & _ & _ & -> & _).
    by rewrite andb_false_r.
  - rewrite !(decide_False (P := _ /\ _)) by lia. by rewrite Hz.
Qed.

(** The free pages were used up for a directory that was given up. *)
Lemma spaces_lost s l ds s' :
  spaces s l ds -> quiet s s' -> free_list s' [] -> kmem_ready s' ->
  frame (fun p => p ∈ l) (k_mem s) (k_mem s') ->
  spaces s' [] ds /\ forall d, d ∈ ds -> same_view (k_mem s) (k_mem s') d.
Proof.
  intros Hs Hq Hl Hr Hf. pose proof (sp_layout _ _ _ Hs) as Hy.
  assert (Hkeep : forall p x, kpage p -> p ∉ l -> in_page p x -> k_mem s' x = k_mem s x).
  { intros p x Hk Hp. apply (frame_page _ _ _ p Hf Hk). intros q Hq'.
    split; [by eapply free_list_page; [apply Hy|]|]. by intros ->. }
  assert (Hdir : forall d p x, d ∈ ds -> pd_pages (k_mem s) d p -> in_page p x -> k_mem s' x = k_mem s x).
  { intros d p x Hd Hp. assert (dir_page (k_mem s) ds p) by (by exists d).
    apply Hkeep; [by eapply layout_kpage|by apply (ly_sep _ _ _ Hy)]. }
  assert (Hpp : forall d p, d ∈ ds -> pd_pages (k_mem s') d p <-> pd_pages (k_mem s) d p).
  { intros d p Hd. apply pd_pages_ext. intros x. apply (Hdir d); [done|by left]. }
  assert (ET : forall d j, (d, j) ∈ spots ds -> upte (k_mem s') d j = upte (k_mem s) d j).
  { intros d j [Hd Hj]%elem_of_spots. apply pte_of_ext; [by apply (ly_pd _ _ _ Hy)|by apply page_word|].
    intros p x. by apply Hdir. }
  split; [split; [split| |apply Hs]|].
  - done.
  - done.
  - apply Hy.
  - intros d Hd. eapply pd_ok_ext; [by apply (ly_pd _ _ _ Hy)|]. intros x. apply (Hdir d); [done|by left].
  - intros p _. apply not_elem_of_nil.
  - intros d d' p Hd Hd' Hp Hp'. rewrite Hpp in Hp, Hp' by done. by eapply (ly_disj _ _ _ Hy).
  - eapply cow_mono; [apply Hs|exact ET| | |].
    + intros p Hp. by apply not_elem_of_nil in Hp.
    + intros p (d & Hd & Hp). left. exists d. by rewrite <- Hpp.
    + intros p _. unfold refcount. by rewrite (quiet_counters _ _ Hq).
  - intros d Hd. eapply same_view_entries; [exact Hs|done| |].
    + intros j Hj. apply ET. by apply elem_of_spots.
    + intros p x Hk Hp _. by apply Hkeep.
Qed.

(** The end of [cow_shareuvm] when every page was shared. *)
Lemma share_done s s1 l ds i p e :
  spaces s1 l ds -> cow_quiet (acquired Lpg_count s) s1 -> in_kernel s i p -> p_pgdir p <> 0 ->
  exists s', (release Lpg_count;; i ← curproc; switchuvm i) e s1 = Ok tt e s' /\
    spaces s' l ds /\ k_mem s' = k_mem s1 /\ unlocked s' Lpg_count.
Proof.
  intros Hs1 Hq Hk Hpg.
  destruct (spaces_released s s1 l ds Lpg_count) as (E & Hs & Hc & Hu); [done|done|done|apply Hk|].
  assert (Hk1 : in_kernel s1 i p).
  { eapply in_kernel_quiet; [|exact Hq]. destruct Hk. split; try done. by apply cli_ok_acquired. }
  destruct Hk1 as [H1 H2 (t & th & H3 & H4) _].
  destruct (switchuvm_ok i e (released Lpg_count s1) t th p) as (c' & E' & _ & Hc' & _); try done.
  exists (set_k_cpu c' (released Lpg_count s1)). split; [|by split_and!; [apply spaces_cpu|..]].
  mstep (E e). by mstep curproc_ok by (exact H1).
Qed.

(** Sharing starts with nothing shared. *)
Lemma sharing_start s l ds d0 d :
  spaces s l (d :: ds) -> sharing s l (d :: ds) d0 d s l 0 0.
Proof.
  intros Hs. split; [done|done|intros; apply same_view_refl| |by intros p [?|[? []]]].
  intros d' j [_ Hj]%elem_of_spots. by rewrite !decide_False by lia.
Qed.

(** The result of [cow_shareuvm]: a child [d] with the parent's memory. *)
Record shared_child (ds : list Z) (d0 sz d : Z) (s s' : kstate) (l' : list Z) : Prop := {
  sc_spaces : spaces s' l' (d :: ds);
  sc_new : d ∉ ds;
  sc_views : forall d', d' ∈ ds -> same_view (k_mem s) (k_mem s') d';
  sc_child : forall va, 0 <= va < KERNBASE -> user_byte (k_mem s') d va =
    if va / 4096 <? npages sz then user_byte (k_mem s) d0 va else None;
  sc_readonly : forall va, 0 <= va < KERNBASE -> user_pa (k_mem s') d va true = None;
  sc_parent : forall va, 0 <= va < sz -> user_pa (k_mem s') d0 va true = None;
  sc_unlocked : unlocked s' Lpg_count
}.

(** The parent cannot write to the pages it shares. *)
Lemma shared_parent_view s0 l0 ds d0 d sz s l :
  sharing s0 l0 ds d0 d s l (npages sz) (npages sz) -> d0 ∈ ds -> 0 <= sz <= KERNBASE ->
  forall va, 0 <= va < sz -> user_pa (k_mem s) d0 va true = None.
Proof.
  intros [Hs Hq Hv Hu _] Hd0 Hsz va Hva. assert (Hb : 0 <= va < KERNBASE) by lia.
  pose proof (page_index va Hb) as Hi. unfold user_pa.
  rewrite pte_of_page by (unfold word, KERNBASE in *; lia). cbn zeta.
  rewrite Hu by (by apply elem_of_spots). rewrite decide_True.
  - destruct (share_bits (upte (k_mem s0) d0 (va / 4096)) (upte_word _ _ _)) as (_ & _ & _ & _ & _ & -> & _).
    by rewrite andb_false_r.
  - split; [done|]. unfold npages. Z.div_mod_to_equations. lia.
Qed.

(** [cow_shareuvm] once the directory [d] of the child is set up. *)
Definition share_pages (d0 d sz : Z) : M Z :=
  acquire Lpg_count;;
  ok ← cow_shareuvm_loop (S (Z.to_nat (sz / PGSIZE))) d0 d 0 sz;
  if ok : bool then release Lpg_count;; i ← curproc; switchuvm i;; mret d
  else release Lpg_count;; freevm d;; mret 0.

Section SharePages.
Context (s : kstate) (l ds : list Z) (d0 d sz : Z) (i : nat) (p : proc).
Hypothesis Hs : spaces s l (d :: ds).
Hypothesis Hd0 : d0 ∈ ds.
Hypothesis Hd : d ∉ ds.
Hypothesis Hu : unlocked s Lpg_count.
Hypothesis Hk : in_kernel s i p.
Hypothesis Hpg : p_pgdir p <> 0.
Hypothesis Hsz : 0 <= sz <= KERNBASE.
Hypothesis Hall : forall j, 0 <= j < npages sz -> has (upte (k_mem s) d0 j) PTE_P = true.
Hypothesis Hz : forall j, 0 <= j < NUPAGES -> upte (k_mem s) d j = 0.

Lemma sp_in0 : d0 ∈ d :: ds.
Proof. by apply list_elem_of_further. Qed.

Lemma sp_ne : d0 <> d.
Proof. by intros ->. Qed.

Lemma share_loop_run e : exists ok s' l',
  cow_shareuvm_loop (S (Z.to_nat (sz / PGSIZE))) d0 d 0 sz e (acquired Lpg_count s) = Ok ok e s' /\
  (ok = true /\ sharing (acquired Lpg_count s) l (d :: ds) d0 d s' l' (npages sz) (npages sz) \/
   ok = false /\ l' = [] /\ exists k, 0 <= k < npages sz /\
     sharing (acquired Lpg_count s) l (d :: ds) d0 d s' l' (k + 1) k).
Proof.
  apply (share_loop_ok (acquired Lpg_count s) l (d :: ds) d0 d sz sp_in0 (list_elem_of_here _ _) sp_ne Hsz Hall Hz
    (S (Z.to_nat (sz / PGSIZE))) (acquired Lpg_count s) l 0 e).
  - apply sharing_start, spaces_acquired; done.
  - unfold npages. Z.div_mod_to_equations. lia.
  - unfold npages, PGSIZE. Z.div_mod_to_equations. lia.
Qed.

Lemma share_pages_ok e :
  exists s' l',
    (share_pages d0 d sz e s = Ok d e s' /\ shared_child ds d0 sz d s s' l') \/
    (share_pages d0 d sz e s = (freevm d;; mret 0) e s' /\ l' = [] /\ spaces s' l' (d :: ds) /\
       exists k, 0 <= k < npages sz /\
       shared_upto (upte (k_mem s)) (upte (k_mem s')) (d :: ds) d0 d (k + 1) k /\
       (forall d', d' ∈ ds -> same_view (k_mem s) (k_mem s') d') /\
       forall p, pd_pages (k_mem s) d p \/ p ∈ l -> pd_pages (k_mem s') d p).
Proof.
  destruct (share_loop_run e) as (ok & s1 & l1 & E & Hres). unfold share_pages.
  mstep acquire_free by (exact Hu). mstep E. destruct Hres as [[-> Hsh]|(-> & -> & k & Hkk & Hsh)].
  - destruct (share_done s s1 l1 (d :: ds) i p e) as (s' & E' & Hs' & Em & Hu');
      [apply Hsh|apply Hsh|done|done|]. exists s', l1. left. split.
    { rewrite <- bind_assoc in E'. rewrite <- !bind_assoc. by mstep E'. }
    pose proof (shared_view _ _ _ _ _ _ _ _ Hsh sp_in0 (list_elem_of_here _ _) sp_ne Hsz Hz) as Hvw.
    split; rewrite ?Em; try done.
    + intros d' Hd'. apply (sh_views _ _ _ _ _ _ _ _ _ Hsh); [by apply list_elem_of_further|congruence].
    + intros va Hva. rewrite (proj1 (Hvw va Hva)). destruct (_ <? _); [|done].
      apply (sh_views _ _ _ _ _ _ _ _ _ Hsh); [apply sp_in0|apply sp_ne|done].
    + intros va Hva. apply (Hvw va Hva).
    + by apply (shared_parent_view _ _ _ _ _ _ _ _ Hsh sp_in0).
  - destruct (spaces_released s s1 [] (d :: ds) Lpg_count) as (E' & Hs' & _ & _); [done|apply Hsh|apply Hsh|apply Hk|].
    exists (released Lpg_count s1), []. right. split; [by mstep (E' e)|]. split_and!; try done.
    exists k. split; [done|]. split; [apply Hsh|]. split.
    2: { intros q Hq. apply (sh_taken _ _ _ _ _ _ _ _ _ Hsh). pose proof (not_elem_of_nil q). destruct Hq; auto. }
    intros d' Hd'.
    apply (sh_views _ _ _ _ _ _ _ _ _ Hsh); [by apply list_elem_of_further|congruence].
Qed.

End SharePages.

(** Memory ran out when the first [k] pages were shared with the child [d]. *)
Record half_shared (ds : list Z) (d0 d k : Z) (s s' : kstate) : Prop := {
  hs_spaces : spaces s' [] (d :: ds);
  hs_new : d ∉ ds;
  hs_parent : forall d' j, (d', j) ∈ spots ds -> upte (k_mem s') d' j =
    if decide (d' = d0 /\ j < k + 1) then share (upte (k_mem s) d0 j) else upte (k_mem s) d' j;
  hs_child : forall j, 0 <= j < NUPAGES -> upte (k_mem s') d j =
    if decide (j < k) then share (upte (k_mem s) d0 j) else 0;
  hs_views : forall d', d' ∈ ds -> same_view (k_mem s) (k_mem s') d'
}.

Lemma half_shared_intro s s1 s' ds d0 d k n :
  0 <= k < n -> spaces s' [] (d :: ds) -> d ∉ ds -> d0 ∈ ds -> (forall j, 0 <= j < n -> (d0, j) ∈ spots ds) ->
  (forall d' j, (d', j) ∈ spots ds -> upte (k_mem s1) d' j = upte (k_mem s) d' j) ->
  (forall j, 0 <= j < NUPAGES -> upte (k_mem s1) d j = 0) ->
  shared_upto (upte (k_mem s1)) (upte (k_mem s')) (d :: ds) d0 d (k + 1) k ->
  (forall d', d' ∈ ds -> same_view (k_mem s) (k_mem s1) d') -> (forall d', d' ∈ ds -> same_view (k_mem s1) (k_mem s') d') ->
  half_shared ds d0 d k s s'.
Proof.
  intros Hk Hs' Hfr Hd0 Hsp He Hz Hup Hv1 Hv2. split; [done|done| | |].
  - intros d' j Hx. pose proof Hx as [Hd' Hj]%elem_of_spots.
    rewrite Hup by (apply elem_of_spots; split; [by apply list_elem_of_further|done]).
    destruct (decide (d' = d0 /\ j < k + 1)) as [[-> Hlt]|N]; [by rewrite He|].
    rewrite decide_False by (intros [-> _]; done). by apply He.
  - intros j Hj. rewrite Hup by (apply elem_of_spots; split; [apply list_elem_of_here|done]).
    rewrite decide_False by (intros [-> _]; done). destruct (decide (j < k)) as [Hlt|Hge].
    + rewrite decide_True by done. by rewrite He by (apply Hsp; lia).
    + rewrite decide_False by lia. by apply Hz.
  - intros d' Hd'. eapply same_view_trans; [by apply Hv1|by apply Hv2].
Qed.

(** [cow_shareuvm] returns the child, or 0 before anything was shared, or it goes
    on with [freevm] of the child. *)
Lemma cow_shareuvm_run `{!SymbolsOk} e s l ds d0 sz i p :
  spaces s l ds -> (length ds < NPROC)%nat -> d0 ∈ ds -> unlocked s Lpg_count -> in_kernel s i p ->
  p_pgdir p <> 0 -> 0 <= sz <= KERNBASE ->
  (forall j, 0 <= j < npages sz -> has (upte (k_mem s) d0 j) PTE_P = true) ->
  exists s',
    (exists d l', cow_shareuvm d0 sz e s = Ok d e s' /\ shared_child ds d0 sz d s s' l') \/
    (cow_shareuvm d0 sz e s = Ok 0 e s' /\ Z.of_nat (length l) <= 1025 /\ spaces s' [] ds /\
       forall d', d' ∈ ds -> same_view (k_mem s) (k_mem s') d') \/
    (exists d k, cow_shareuvm d0 sz e s = (freevm d;; mret 0) e s' /\ Z.of_nat (length l) <= 1025 /\
       0 <= k < npages sz /\ half_shared ds d0 d k s s').
Proof.
  intros Hs Hlen Hd0 Hu Hk Hpg Hsz Hall. unfold cow_shareuvm.
  destruct (setupkvm_ok e s l) as (d & s1 & l1 & E1 & Hres); [apply Hs|apply Hs|].
  destruct Hres as [(-> & -> & Hq & Hl1 & Hr1 & Hf & Hfew)|[Hnd Hp1]].
  { destruct (spaces_lost s l ds s1 Hs Hq Hl1 Hr1 Hf) as [Hs1 Hv]. exists s1. right. left.
    split; [by mstep E1|done]. }
  assert (Hz : forall v, 0 <= v < KERNBASE -> pte_of (k_mem s1) d v = 0).
  { intros v Hv. rewrite Hp1 by (unfold word, KERNBASE in *; lia). by apply kmap_user. }
  destruct (spaces_new_dir s l ds d s1 l1 Hs Hlen Hnd Hz) as [Hs1 Hv1].
  pose proof (nd_fresh s l ds d s1 l1 (sp_layout _ _ _ Hs) Hnd) as Hfr.
  pose proof (nd_quiet _ _ _ _ _ Hnd) as Hq.
  pose proof (nd_entries s l ds d s1 l1 (sp_layout _ _ _ Hs) Hnd) as He.
  assert (Hz' : forall j, 0 <= j < NUPAGES -> upte (k_mem s1) d j = 0)
    by (intros j Hj; apply Hz; unfold NUPAGES, KERNBASE in *; lia).
  assert (Hsp : forall j, 0 <= j < npages sz -> (d0, j) ∈ spots ds)
    by (intros j Hj; apply elem_of_spots; split; [done|]; unfold npages, NUPAGES, KERNBASE in *; Z.div_mod_to_equations; lia).
  assert (Er : cow_shareuvm d0 sz e s = share_pages d0 d sz e s1).
  { unfold cow_shareuvm. mstep E1.
    by rewrite (proj2 (Z.eqb_neq _ _) (kpage_nonzero d (pd_page _ _ (vm_pd _ _ _ (nd_ok _ _ _ _ _ Hnd))))). }
  destruct (share_pages_ok s1 l1 ds d0 d sz i p Hs1 Hd0 Hfr) with (e := e) as (s' & l' & Hres); try done.
  - unfold unlocked. by rewrite (quiet_lock _ _ Lpg_count Hq).
  - by apply (in_kernel_quiet s), quiet_cow.
  - intros j Hj. rewrite He by auto. by apply Hall.
  - unfold cow_shareuvm in Er. rewrite Er. exists s'.
    destruct Hres as [[E [A B C D F G I]]|(E & -> & Hs' & k & Hkk & Hup & Hv' & Hown)]; [left|right; right].
    + exists d, l'. split; [done|]. split; try done.
      * intros d' Hd'. eapply same_view_trans; [by apply Hv1|by apply C].
      * intros va Hva. rewrite D by done. destruct (_ <? _); [|done]. by apply Hv1.
    + exists d, k. split; [done|]. split.
      { apply (pd_count (k_mem s') d); [apply (fl_nodup _ _ (ly_free _ _ _ (sp_layout _ _ _ Hs)))|].
        intros q Hin. apply Hown. destruct Hnd as [_ _ (new & -> & Hnew & _)].
        apply elem_of_app in Hin as [Hin|Hin]; [left; by apply Hnew|by right]. }
      split; [done|]. by apply (half_shared_intro s s1 s' ds d0 d k (npages sz)).
Qed.

End CowShare.
