(* ===== verification/CowFree.v ===== *)
(** * Giving up an address space: cow_deallocuvm, cow_freevm, deallocuvm (vm.c)

    [cow_deallocuvm] drops the references of a directory to a range of pages
    and frees each page with its last reference; it keeps the invariant
    [spaces] of Cow.v.  [deallocuvm] frees every page of the range, whatever
    its references. *)

From stdpp Require Import base list list_numbers.
From S2P Require Import Prelude Memory Kernel KMonad Boot Mmu Spinlock Kalloc Vm VmWalk VmSpace Cow.

Section CowFree.
Context `{Symbols}.

(** ** Freeing a page *)

Lemma kfree_frame s p : kpage p ->
  frame (fun q => q = p) (k_mem s) (k_mem (kfree_state p s)).
Proof.
  intros Hk x Hx. rewrite kfree_state_mem, v2p_kpage by done. unfold PGSIZE.
  assert (Hn : ~ (p - KERNBASE <= x < p - KERNBASE + 4096)) by (by apply (Hx p)).
  rewrite st32_other, mset_other; [done|lia|lia].
Qed.

Lemma quiet_kfree s p : quiet s (kfree_state p s).
Proof.
  unfold kfree_state. apply (quiet_trans _ (upd_mem (fun m => mset m (v2p p) 1 PGSIZE) s)); [done|].
  eapply quiet_trans; [apply quiet_kmem_crit|]. done.
Qed.

Lemma layout_push s p l ds :
  layout s l ds -> kpage p -> p ∉ l -> ~ dir_page (k_mem s) ds p ->
  layout (kfree_state p s) (p :: l) ds /\
  (forall q, dir_page (k_mem (kfree_state p s)) ds q <-> dir_page (k_mem s) ds q) /\
  (forall d va, d ∈ ds -> word va -> pte_of (k_mem (kfree_state p s)) d va = pte_of (k_mem s) d va) /\
  (forall d i, d ∈ ds -> 0 <= i < 1024 -> table_of (k_mem (kfree_state p s)) d i = table_of (k_mem s) d i).
Proof.
  intros Hy Hk Hl Hd. set (s1 := upd_mem (fun _ => k_mem (kfree_state p s)) s).
  destruct (layout_user s s1 l ds p Hy Hk Hl Hd (kfree_frame s p Hk) eq_refl) as (Hy1 & Hdp & Hpt & Htb).
  { apply (ly_ready _ _ _ Hy). }
  split_and!; [|done..].
  destruct (kfree_push [] s p l Hk Hl (ly_free _ _ _ Hy) (ly_ready _ _ _ Hy)) as [_ Hf].
  destruct Hy1 as [_ _ Hn Hp Hs Hdj]. split; try done.
  - apply kfree_state_ready, Hy.
  - intros q Hq. rewrite not_elem_of_cons. split; [|by apply Hs]. intros ->. by apply Hd, Hdp.
Qed.

(** ** Dropping one reference *)

Lemma frame_not_low `{!SymbolsOk} p : kpage p -> p - KERNBASE =? 0 = false.
Proof.
  intros (_ & He & _). pose proof end_above. pose proof data_above. apply Z.eqb_neq.
  unfold KERNLINK, KERNBASE in *. lia.
Qed.

(** The entry of [va] in [d] is cleared and its page [p] freed when [fr];
    before that the counter of [p] may have been changed ([s1]). *)
Section Drop.
Context (s : kstate) (l ds : list Z) (d va t : Z).
Hypothesis Hs : spaces s l ds.
Hypothesis Hd : d ∈ ds.
Hypothesis Hva : 0 <= va < KERNBASE.
Hypothesis Ht : table_of (k_mem s) d (PDX va) = Some t.
Hypothesis Hp : has (pte_of (k_mem s) d va) PTE_P = true.

Let v := pte_of (k_mem s) d va.
Let i := va / 4096.
Let p := frame_of v.

Context (s1 : kstate) (fr : bool).
Hypothesis Hm1 : k_mem s1 = k_mem s.
Hypothesis Hk1 : k_kmem s1 = k_kmem s.
Hypothesis Hr1 : kmem_ready s1.
Hypothesis Hq1 : cow_quiet s s1.
Hypothesis Ho1 : forall q, kpage q -> q <> p -> refcount s1 q = refcount s q.
Hypothesis Hp1 : refs (upte (k_mem s)) ds p = 1 \/ refcount s1 p = refcount s p - 1.
Hypothesis Hfr : fr = true -> refs (upte (k_mem s)) ds p = 1.

Let s2 := if fr then kfree_state p s1 else s1.
Let l2 := if fr then p :: l else l.

Lemma drop_frame : kpage p /\ PTE_ADDR v = p - KERNBASE /\ p ∉ l /\ ~ dir_page (k_mem s) ds p.
Proof. exact (rv_frame s l ds d va Hs Hd Hva Hp). Qed.

Lemma drop_entry : v = upte (k_mem s) d i.
Proof. apply pte_of_page. unfold word, KERNBASE in *. lia. Qed.

Lemma drop_layout1 : layout s1 l ds.
Proof. eapply layout_ext; [apply Hs|done..]. Qed.

Lemma drop_layout2 :
  layout s2 l2 ds /\ (forall j, 0 <= j < 1024 -> table_of (k_mem s2) d j = table_of (k_mem s) d j) /\
  (forall q, dir_page (k_mem s2) ds q <-> dir_page (k_mem s) ds q) /\
  (forall d' w, d' ∈ ds -> word w -> pte_of (k_mem s2) d' w = pte_of (k_mem s) d' w) /\
  (forall q x, kpage q -> q <> p -> in_page q x -> k_mem s2 x = k_mem s x) /\
  k_page_counters s2 = k_page_counters s1 /\ cow_quiet s s2.
Proof.
  destruct drop_frame as (Hk & _ & Hl & Hn). pose proof drop_layout1 as Hy1.
  unfold s2, l2. destruct fr; [|by rewrite Hm1]. rewrite <- Hm1 in *.
  destruct (layout_push s1 p l ds Hy1 Hk Hl Hn) as (Hy2 & Hdp & Hpt & Htb). split_and!; try done.
  - intros j Hj. by apply Htb.
  - intros q x Hq Hne. apply (frame_page _ _ _ q (kfree_frame s1 p Hk) Hq). intros ? ->. done.
  - exact (quiet_counters _ _ (quiet_kfree s1 p)).
  - apply (cow_quiet_trans _ s1); [done|]. apply quiet_cow, quiet_kfree.
Qed.

Lemma drop_run e : exists m3,
  (when fr (kfree p);; stk (t + 4 * PTX va) 0) e s1 = Ok tt e (upd_mem (fun _ => m3) s2) /\
  grows ds d s2 l2 (upd_mem (fun _ => m3) s2) l2 /\
  (forall j, 0 <= j < 1024 -> table_of m3 d j = table_of (k_mem s) d j) /\
  forall w, word w -> pte_of m3 d w = if w / 4096 =? va / 4096 then 0 else pte_of (k_mem s) d w.
Proof.
  destruct drop_frame as (Hk & Ea & Hl & Hn). pose proof drop_layout2 as (Hy2 & Ht2 & _ & Hpt & _).
  assert (Hw : word va) by (unfold word, KERNBASE in *; lia).
  destruct (entry_set_all s2 l2 ds d va t 0 e Hy2 Hd Hw) as (m3 & E & G & T3 & P);
    [by rewrite Ht2 by (by apply PDX_range)|unfold word; lia|].
  exists m3. split_and!; [|done|by intros j Hj; rewrite T3, Ht2|].
  - unfold s2 in *. destruct fr; unfold when; [|by mstep]. mstep kfree_ok by done. exact E.
  - intros w Hww. rewrite P by done. destruct (w / 4096 =? va / 4096); [done|]. by apply Hpt.
Qed.

Lemma drop_list q : q ∈ l2 <-> q ∈ l \/ q = p /\ fr = true.
Proof. unfold l2. destruct fr; [rewrite elem_of_cons|]; naive_solver. Qed.

Section Dropped.
Context (m3 : mem).
Hypothesis G : grows ds d s2 l2 (upd_mem (fun _ => m3) s2) l2.
Hypothesis P : forall w, word w -> pte_of m3 d w = if w / 4096 =? va / 4096 then 0 else pte_of (k_mem s) d w.

Lemma drop_entries d' j : (d', j) ∈ spots ds -> upte m3 d' j = tset (upte (k_mem s)) d i 0 d' j.
Proof.
  pose proof drop_layout2 as (_ & _ & _ & Hpt & _). intros Hx.
  etrans; [apply (grows_tset _ _ _ _ _ _ va 0 G)|]; [|done|].
  - intros w Hw. cbn [k_mem upd_mem set_k_mem]. rewrite P by done.
    destruct (w / 4096 =? va / 4096); [done|]. symmetry. by apply Hpt.
  - unfold tset, i. case_decide; [done|]. apply elem_of_spots in Hx as [Hx1 Hx2].
    apply Hpt; [done|by apply page_word].
Qed.

Lemma drop_spaces : spaces (upd_mem (fun _ => m3) s2) l2 ds.
Proof.
  pose proof drop_layout2 as (Hy2 & _ & Hdp & _ & _ & Hcnt & _). destruct drop_frame as (Hk & Ea & Hl & Hn).
  pose proof (gr_layout _ _ _ _ _ _ G) as Hy3. pose proof (rv_spot ds d va Hd Hva) as Hx.
  pose proof drop_entry as Ev.
  assert (EC : forall q, refcount (upd_mem (fun _ => m3) s2) q = refcount s1 q)
    by (intros q; unfold refcount; cbn; by rewrite Hcnt).
  split; [done| |apply Hs].
  eapply (cow_mono _ _ (refcount (upd_mem (fun _ => m3) s2)) _ l2 _ _ (dir_page m3 ds));
    [|exact drop_entries|by auto..].
  apply (cow_drop _ _ _ _ _ d i (sp_cow _ _ _ Hs) (ly_nodup _ _ _ (sp_layout _ _ _ Hs)) Hx);
    rewrite <- ?Ev; fold p.
  - exact Hp.
  - by rewrite EC.
  - intros q Hq Hne. rewrite EC. by apply Ho1.
  - intros q [?|[-> C1]]%drop_list; auto.
  - intros q Hq. destruct (gr_dirs _ _ _ _ _ _ G q Hq) as [Hq'|Hq']; [by apply Hdp|].
    by destruct (ly_sep _ _ _ Hy3 q Hq).
Qed.

Lemma drop_views d' va' : d' ∈ ds -> 0 <= va' < KERNBASE ->
  user_byte m3 d' va' =
  if decide (d' = d /\ va' / 4096 = i) then None else user_byte (k_mem s) d' va'.
Proof.
  intros Hd' Hva'. pose proof (rv_spot ds d' va' Hd' Hva') as Hx'.
  pose proof (rv_spot ds d va Hd Hva) as Hx. destruct drop_frame as (Hk & _ & Hl & Hn).
  pose proof drop_layout2 as (Hy2 & _ & Hdp & _ & Hfm & _). pose proof drop_entry as Ev.
  rewrite !user_byte_eq by done. cbn zeta. rewrite drop_entries by done. unfold tset. case_decide as E; [done|].
  destruct (has (upte (k_mem s) d' (va' / 4096)) PTE_P) eqn:HP'; [|done].
  destruct (has (upte (k_mem s) d' (va' / 4096)) PTE_U); [|done]. simpl. f_equal. unfold ld8. f_equal.
  destruct (frame_content s l ds d' (va' / 4096) (va' mod 4096) Hs Hx' HP') as (_ & Hin & Hkq & Hlq & Hnq);
    [apply Z.mod_pos_bound; lia|]. set (q := frame_of (upte (k_mem s) d' (va' / 4096))) in *.
  assert (Hq : q <> p \/ fr = false).
  { destruct (decide (q = p)) as [Eq|]; [right|by left]. apply not_true_iff_false. intros C1. apply E.
    assert (HPd : has (upte (k_mem s) d i) PTE_P = true) by (rewrite <- Ev; exact Hp).
    destruct (refs_one (upte (k_mem s)) ds p d' (va' / 4096) d i) as [-> ->]; try done; [by apply Hfr|by rewrite <- Ev]. }
  transitivity (k_mem s2 (PTE_ADDR (upte (k_mem s) d' (va' / 4096)) + va' mod 4096)).
  - apply (gr_user _ _ _ _ _ _ G q); [done| |by rewrite Hdp|done].
    intros [?|[-> C1]]%drop_list; [done|]. destruct Hq; congruence.
  - destruct Hq as [Hq|Hq]; [by apply (Hfm q)|]. unfold s2. rewrite Hq. by rewrite Hm1.
Qed.

End Dropped.

Lemma drop_ok e : exists s' l',
  (when fr (kfree p);; stk (t + 4 * PTX va) 0) e s1 = Ok tt e s' /\
  spaces s' l' ds /\ cow_quiet s s' /\ k_page_counters s' = k_page_counters s1 /\
  (forall d' j, (d', j) ∈ spots ds -> upte (k_mem s') d' j = tset (upte (k_mem s)) d i 0 d' j) /\
  (forall d' va', d' ∈ ds -> 0 <= va' < KERNBASE -> user_byte (k_mem s') d' va' =
     if decide (d' = d /\ va' / 4096 = i) then None else user_byte (k_mem s) d' va') /\
  (forall j, 0 <= j < 1024 -> table_of (k_mem s') d j = table_of (k_mem s) d j) /\
  (forall q, q ∈ l' <-> q ∈ l \/ q = p /\ fr = true).
Proof.
  destruct (drop_run e) as (m3 & E & G & T3 & P). exists (upd_mem (fun _ => m3) s2), l2.
  pose proof drop_layout2 as (_ & _ & _ & _ & _ & Hcnt & Hq). split_and!; try done.
  - by apply drop_spaces.
  - by apply drop_entries.
  - by apply drop_views.
  - apply drop_list.
Qed.

End Drop.

(** [cow_deallocuvm] drops one reference. *)
Section DropRef.
Context (s : kstate) (l ds : list Z) (d va t : Z).
Hypothesis Hs : spaces s l ds.
Hypothesis Hd : d ∈ ds.
Hypothesis Hva : 0 <= va < KERNBASE.
Hypothesis Ht : table_of (k_mem s) d (PDX va) = Some t.
Hypothesis Hp : has (pte_of (k_mem s) d va) PTE_P = true.

Let v := pte_of (k_mem s) d va.
Let p := frame_of v.
Let c := refcount s p.

Lemma drop_counted : 0 < refs (upte (k_mem s)) ds p <= 33554432 /\
  (c = refs (upte (k_mem s)) ds p \/ c = 0 /\ refs (upte (k_mem s)) ds p = 1).
Proof.
  pose proof (rv_spot ds d va Hd Hva) as Hx.
  pose proof (refs_pos (upte (k_mem s)) ds p d (va / 4096) Hx) as Hpos.
  rewrite <- (pte_of_page _ _ va) in Hpos by (unfold word, KERNBASE in *; lia).
  specialize (Hpos Hp eq_refl). pose proof (refs_bound (upte (k_mem s)) ds p (sp_few _ _ _ Hs)).
  split; [lia|]. apply (co_count _ _ _ _ _ (sp_cow _ _ _ Hs) _ Hpos).
Qed.

Lemma drop_ref_ok e : exists s' l',
  drop_ref (t + 4 * PTX va) (PTE_ADDR v) e s = Ok tt e s' /\
  spaces s' l' ds /\ cow_quiet s s' /\
  (forall q, kpage q -> refcount s' q = if decide (q = p) then c - 1 else refcount s q) /\
  (forall d' j, (d', j) ∈ spots ds -> upte (k_mem s') d' j = tset (upte (k_mem s)) d (va / 4096) 0 d' j) /\
  (forall d' va', d' ∈ ds -> 0 <= va' < KERNBASE -> user_byte (k_mem s') d' va' =
     if decide (d' = d /\ va' / 4096 = va / 4096) then None else user_byte (k_mem s) d' va') /\
  (forall j, 0 <= j < 1024 -> table_of (k_mem s') d j = table_of (k_mem s) d j) /\
  (forall q, q ∈ l' <-> q ∈ l \/ q = p /\ c = 1).
Proof.
  destruct (rv_frame s l ds d va Hs Hd Hva Hp) as (Hk & Ea & Hl & Hn). fold v p in Hk, Ea, Hl, Hn.
  destruct drop_counted as [Hr Hc]. set (s1 := upd_counter (PA_INX (p - KERNBASE)) (fun _ => c - 1) s).
  assert (ER : forall q, kpage q -> refcount s1 q = if decide (q = p) then c - 1 else refcount s q)
    by (intros q Hq; unfold s1; by apply refcount_set).
  destruct (drop_ok s l ds d va t Hs Hd Hva Ht Hp s1 (c =? 1)) with (e := e)
    as (s' & l' & E & Hs' & Hq & Hcnt & ET & EV & Htb & EL); try done.
  - apply (sp_layout _ _ _ Hs).
  - intros q Hq Hne. by rewrite ER, decide_False.
  - right. by rewrite ER, decide_True.
  - intros C1%Z.eqb_eq. fold v p. lia.
  - exists s', l'. split_and!; try done.
    + unfold drop_ref. mstep (rv_counter s l ds d va Hs Hd Hva Hp). fold v p c. rewrite Ea.
      unfold set_counter, counter. mstep. mstep. cbn [k_page_counters upd_counter set_k_page_counters].
      rewrite Z.eqb_refl, s32_small by lia. fold s1.
      replace (c - 1 =? 0) with (c =? 1) by (destruct (Z.eqb_spec c 1), (Z.eqb_spec (c - 1) 0); lia).
      rewrite <- (v2p_kpage p Hk), p2v_v2p by (unfold kpage, KERNBASE, PHYSTOP in *; lia). exact E.
    + intros q Hkq. rewrite <- ER by done. unfold refcount. by rewrite Hcnt.
    + intros q. rewrite EL. by rewrite Z.eqb_eq.
Qed.

(** [deallocuvm] frees a page that is not shared. *)
Lemma free_page_ok e : refs (upte (k_mem s)) ds p = 1 -> exists s' l',
  free_page (t + 4 * PTX va) (PTE_ADDR v) e s = Ok tt e s' /\
  spaces s' l' ds /\ cow_quiet s s' /\
  (forall d' j, (d', j) ∈ spots ds -> upte (k_mem s') d' j = tset (upte (k_mem s)) d (va / 4096) 0 d' j) /\
  (forall d' va', d' ∈ ds -> 0 <= va' < KERNBASE -> user_byte (k_mem s') d' va' =
     if decide (d' = d /\ va' / 4096 = va / 4096) then None else user_byte (k_mem s) d' va') /\
  (forall j, 0 <= j < 1024 -> table_of (k_mem s') d j = table_of (k_mem s) d j) /\
  (forall q, q ∈ l' <-> q ∈ l \/ q = p).
Proof.
  intros R1. destruct (rv_frame s l ds d va Hs Hd Hva Hp) as (Hk & Ea & Hl & Hn). fold v p in Hk, Ea, Hl, Hn.
  destruct (drop_ok s l ds d va t Hs Hd Hva Ht Hp s true) with (e := e)
    as (s' & l' & E & Hs' & Hq & Hcnt & ET & EV & Htb & EL); try done.
  - apply (sp_layout _ _ _ Hs).
  - by left.
  - exists s', l'. split_and!; try done.
    intros q. rewrite EL. fold v p. naive_solver.
Qed.

End DropRef.

(** ** The loop of deallocuvm and cow_deallocuvm *)

(** The loop skips 4 MB where there is no page table, so it must get to
    such a place at a multiple of 4 MB. *)
Definition no_gap (m : mem) (d k : Z) : Prop := table_of m d (k / 1024) = None -> k mod 1024 = 0.

Lemma page_dir j : 0 <= j < NUPAGES -> PDX (4096 * j) = j / 1024.
Proof.
  intros Hj. rewrite PDX_eq by (by apply page_word). change 4194304 with (4096 * 1024).
  rewrite <- Z.div_div by lia. f_equal. Z.div_mod_to_equations. lia.
Qed.

Lemma absent_zero s l ds d j : layout s l ds -> d ∈ ds -> 0 <= j < NUPAGES ->
  table_of (k_mem s) d (j / 1024) = None -> upte (k_mem s) d j = 0.
Proof.
  intros Hy Hd Hj Ht. unfold upte. rewrite pte_of_eq, page_dir, Ht; try done; [|by apply page_word].
  by apply (ly_pd _ _ _ Hy).
Qed.

(** What the loop needs to know of the directory: its entries are zero or map
    a page of the allocator. *)
Record mapped_dir (s : kstate) (l ds : list Z) (d : Z) : Prop := {
  md_layout : layout s l ds;
  md_frames : forall j, 0 <= j < NUPAGES -> has (upte (k_mem s) d j) PTE_P = true -> kpage (frame_of (upte (k_mem s) d j));
  md_zero : forall j, 0 <= j < NUPAGES -> has (upte (k_mem s) d j) PTE_P = false -> upte (k_mem s) d j = 0
}.

Lemma spaces_mapped s l ds d : spaces s l ds -> d ∈ ds -> mapped_dir s l ds d.
Proof.
  intros Hs Hd. split; [apply Hs| |]; intros j Hj HP; assert ((d, j) ∈ spots ds) by (by apply elem_of_spots).
  - by apply (co_frames _ _ _ _ _ (sp_cow _ _ _ Hs)).
  - by apply (co_zero _ _ _ _ _ (sp_cow _ _ _ Hs)).
Qed.

(** The loop keeps an invariant [Inv], where [Inv k] says that the pages
    [a..k) of [d] have been dealt with, when dropping one page does. *)
Section DeallocLoop.
Context `{!SymbolsOk} (m0 : mem) (ds : list Z) (d a oldsz : Z) (drop : Z -> Z -> M unit).
Context (Inv : Z -> kstate -> list Z -> Prop).
Let N := (oldsz + 4095) / 4096.
Hypothesis Hd : d ∈ ds.
Hypothesis Ha : 0 <= a.
Hypothesis Hsz : 0 <= oldsz <= KERNBASE.
Hypothesis inv_mapped : forall k s l, Inv k s l -> mapped_dir s l ds d.
Hypothesis inv_tables : forall k s l i, Inv k s l -> 0 <= i < 1024 -> table_of (k_mem s) d i = table_of m0 d i.
Hypothesis inv_more : forall k k' s l, Inv k s l -> a <= k <= k' -> k' <= NUPAGES ->
  (forall j, k <= j < k' -> upte (k_mem s) d j = 0) -> Inv k' s l.
Hypothesis inv_drop : forall k s l t e, Inv k s l -> a <= k < N ->
  table_of (k_mem s) d (PDX (4096 * k)) = Some t -> has (upte (k_mem s) d k) PTE_P = true ->
  exists s' l', drop (t + 4 * PTX (4096 * k)) (PTE_ADDR (upte (k_mem s) d k)) e s = Ok tt e s' /\ Inv (k + 1) s' l'.

Lemma dealloc_turn s l k t e (rest : M unit) :
  Inv k s l -> a <= k < N -> N <= NUPAGES -> table_of (k_mem s) d (PDX (4096 * k)) = Some t ->
  exists s' l',
    (v ← ldk (t + 4 * PTX (4096 * k));
     (if has v PTE_P then
        if PTE_ADDR v =? 0 then panic "kfree" else drop (t + 4 * PTX (4096 * k)) (PTE_ADDR v)
      else mret tt);; rest) e s = rest e s' /\ Inv (k + 1) s' l'.
Proof.
  intros Hi Hk HN Ht. pose proof (inv_mapped _ _ _ Hi) as Hs.
  assert (Hr : 0 <= k < NUPAGES) by lia. pose proof (page_word k Hr) as Hw.
  mstep (load_run s l d (4096 * k) t (layout_vm _ _ _ _ (md_layout _ _ _ _ Hs) Hd) Hw Ht).
  fold (upte (k_mem s) d k). destruct (has (upte (k_mem s) d k) PTE_P) eqn:HP.
  - destruct (inv_drop k s l t e Hi Hk Ht HP) as (s' & l' & E & Hi'). exists s', l'. split; [|done].
    pose proof (md_frames _ _ _ _ Hs k Hr HP) as Hkp.
    pose proof (frame_addr (upte (k_mem s) d k) (upte_word _ _ _) Hkp) as Ea.
    cbn zeta. rewrite Ea, frame_not_low, <- Ea by done. by mstep E.
  - exists s, l. split; [by mstep|]. apply (inv_more k); [done|lia|lia|]. intros j Hj.
    replace j with k by lia. by apply (md_zero _ _ _ _ Hs).
Qed.

Lemma dealloc_loop_ok n : forall k s l e,
  Inv (Z.min k N) s l -> a <= k -> no_gap m0 d k -> N <= k + Z.of_nat n ->
  exists s' l', dealloc_loop drop n d (4096 * k) oldsz e s = Ok tt e s' /\ Inv N s' l'.
Proof.
  induction n as [|n IH]; intros k s l e Hi Hak Hgap Hn.
  { exists s, l. split; [done|]. by rewrite Z.min_r in Hi by lia. }
  cbn [dealloc_loop]. destruct (Z.ltb_spec (4096 * k) oldsz) as [Hlt|Hge].
  2: { exists s, l. split; [done|]. rewrite Z.min_r in Hi; [done|]. unfold N. Z.div_mod_to_equations. lia. }
  assert (HkN : k < N /\ N <= NUPAGES) by (unfold N, NUPAGES, KERNBASE in *; Z.div_mod_to_equations; lia).
  rewrite Z.min_l in Hi by lia. pose proof (md_layout _ _ _ _ (inv_mapped _ _ _ Hi)) as Hy.
  assert (Hk : 0 <= k < NUPAGES) by lia. pose proof (page_word k Hk) as Hw.
  assert (Hki : 0 <= k / 1024 < 1024) by (unfold NUPAGES in *; Z.div_mod_to_equations; lia).
  assert (Etb : table_of (k_mem s) d (PDX (4096 * k)) = table_of m0 d (k / 1024))
    by (rewrite page_dir by done; by eapply inv_tables).
  destruct (table_of m0 d (k / 1024)) as [t|] eqn:Ht.
  - mstep (walk_present d (4096 * k) false e s t (ly_pd _ _ _ Hy d Hd) Hw Etb).
    rewrite walk_nonzero by (by eapply (store_table s l d (4096 * k) t (layout_vm _ _ _ _ Hy Hd))).
    replace (u32 (4096 * k + PGSIZE)) with (4096 * (k + 1))
      by (unfold PGSIZE; rewrite u32_small; unfold NUPAGES in *; lia).
    destruct (dealloc_turn s l k t e (dealloc_loop drop n d (4096 * (k + 1)) oldsz) Hi) as (s' & l' & E & Hi');
      [lia|lia|done|]. cbn iota. rewrite E. apply (IH (k + 1) s' l' e); [by rewrite Z.min_l by lia|lia| |lia].
    intros Hno. destruct (Z.eq_dec ((k + 1) / 1024) (k / 1024)) as [Ei|Ei]; [congruence|].
    Z.div_mod_to_equations. lia.
  - mstep (walk_absent d (4096 * k) e s (ly_pd _ _ _ Hy d Hd) Hw Etb). rewrite Z.eqb_refl.
    replace (u32 (u32 (4096 * k + (NPTENTRIES - 1) * PGSIZE) + PGSIZE)) with (4096 * (k + 1024))
      by (unfold PGSIZE, NPTENTRIES; rewrite !u32_small; unfold NUPAGES in *; rewrite ?u32_small; lia).
    specialize (Hgap Ht). apply (IH (k + 1024) s l e); [|lia|intros _; Z.div_mod_to_equations; lia|lia].
    apply (inv_more k); [done|lia|lia|]. intros j Hj. eapply absent_zero; [done|done|lia|].
    rewrite (inv_tables _ _ _ _ Hi) by (unfold NUPAGES in *; Z.div_mod_to_equations; lia).
    rewrite <- Ht. f_equal. Z.div_mod_to_equations. lia.
Qed.

End DeallocLoop.

(** ** Dropping references *)

(** Page [p] is mapped and its counter says how often. *)
Definition counted (s : kstate) (ds : list Z) (p : Z) : Prop :=
  0 < refs (upte (k_mem s)) ds p /\ refcount s p = refs (upte (k_mem s)) ds p.

(** The pages [a..b) of directory [d] have been given up. *)
Record dropped (s0 : kstate) (l0 ds : list Z) (d a b : Z) (s : kstate) (l : list Z) : Prop := {
  dp_spaces : spaces s l ds;
  dp_quiet : cow_quiet s0 s;
  dp_entries : forall d' j, (d', j) ∈ spots ds -> upte (k_mem s) d' j =
    if decide (d' = d /\ a <= j < b) then 0 else upte (k_mem s0) d' j;
  dp_views : forall d' va, d' ∈ ds -> 0 <= va < KERNBASE -> user_byte (k_mem s) d' va =
    if decide (d' = d /\ a <= va / 4096 < b) then None else user_byte (k_mem s0) d' va;
  dp_tables : forall i, 0 <= i < 1024 -> table_of (k_mem s) d i = table_of (k_mem s0) d i;
  dp_more : forall p, p ∈ l0 -> p ∈ l;
  dp_freed : forall p, p ∈ l -> p ∈ l0 \/ counted s0 ds p;
  dp_leak : forall p, refcount s0 p = 0 -> refs (upte (k_mem s0)) ds p = 1 ->
    refcount s p = 0 /\ refs (upte (k_mem s)) ds p = 1 \/ refs (upte (k_mem s)) ds p = 0;
  dp_exact : forall p, counted s0 ds p -> refcount s p = refs (upte (k_mem s)) ds p /\
    (refs (upte (k_mem s)) ds p = 0 -> p ∈ l)
}.

Section DropLoop.
Context (s0 : kstate) (l0 ds : list Z) (d a : Z).
Hypothesis Hs0 : spaces s0 l0 ds.
Hypothesis Hd : d ∈ ds.
Hypothesis Ha : 0 <= a.

(** A page that is not there is given up already. *)
Lemma dropped_more b b' s l :
  dropped s0 l0 ds d a b s l -> a <= b <= b' -> b' <= NUPAGES ->
  (forall j, b <= j < b' -> upte (k_mem s) d j = 0) -> dropped s0 l0 ds d a b' s l.
Proof.
  intros [Hs Hq He Hv Ht Hm Hf Hk Hx] Hb Hb' Hz. split; try done.
  - intros d' j Hj. rewrite He by done. destruct (decide (d' = d /\ a <= j < b)) as [[-> ?]|N].
    + by rewrite decide_True by lia.
    + destruct (decide (d' = d /\ a <= j < b')) as [[-> ?]|N']; [|done].
      rewrite <- (Hz j) by lia. rewrite He by done. by rewrite decide_False.
  - intros d' va Hd' Hva. rewrite Hv by done. destruct (decide (d' = d /\ a <= va / 4096 < b)) as [[-> ?]|N].
    + by rewrite decide_True by lia.
    + destruct (decide (d' = d /\ a <= va / 4096 < b')) as [[-> ?]|N']; [|done].
      rewrite <- (decide_False (P := d = d /\ a <= va / 4096 < b) None (user_byte (k_mem s0) d va)) by done.
      rewrite <- Hv by done. rewrite user_byte_eq by done. cbn zeta. by rewrite Hz by lia.
Qed.

(** One present page. *)
Lemma dropped_step `{!SymbolsOk} k s l t e :
  dropped s0 l0 ds d a k s l -> a <= k < NUPAGES -> table_of (k_mem s) d (PDX (4096 * k)) = Some t ->
  has (upte (k_mem s) d k) PTE_P = true ->
  exists s' l', drop_ref (t + 4 * PTX (4096 * k)) (PTE_ADDR (upte (k_mem s) d k)) e s = Ok tt e s' /\
    dropped s0 l0 ds d a (k + 1) s' l'.
Proof.
  intros [Hs Hq He Hv Htb Hm Hf Hlk Hx] Hk Ht HP.
  assert (Hva : 0 <= 4096 * k < KERNBASE) by (unfold NUPAGES, KERNBASE in *; lia).
  assert (Ei : 4096 * k / 4096 = k) by (Z.div_mod_to_equations; lia).
  assert (Hxk : (d, k) ∈ spots ds) by (apply elem_of_spots; split; [done|lia]).
  destruct (drop_ref_ok s l ds d (4096 * k) t Hs Hd Hva Ht HP e) as (s' & l' & E & Hs' & Hq' & EC & ET & EV & T3 & EL).
  rewrite Ei in *. fold (upte (k_mem s) d k) in *. set (p0 := frame_of (upte (k_mem s) d k)) in *.
  assert (E0 : upte (k_mem s) d k = upte (k_mem s0) d k) by (rewrite He, decide_False by (done || lia); done).
  assert (ER : forall p, refs (upte (k_mem s')) ds p = refs (upte (k_mem s)) ds p - b2z (bool_decide (p = p0))).
  { intros p. rewrite (refs_ext (tset (upte (k_mem s)) d k 0)) by done.
    rewrite refs_tset by (try done; apply Hs). change (maps 0 p) with false. unfold maps. rewrite HP. simpl.
    fold p0. assert (p0 =? p = bool_decide (p = p0)) as ->; [|lia].
    apply eq_true_iff_eq. rewrite Z.eqb_eq, bool_decide_eq_true. naive_solver. }
  exists s', l'. split; [done|]. split; [done|by eapply cow_quiet_trans|..].
  - intros d' j Hj. rewrite ET by done. unfold tset. rewrite He by done.
    repeat case_decide; try done; exfalso; naive_solver lia.
  - intros d' va Hd' Hva'. rewrite EV, Hv by done. repeat case_decide; try done; exfalso; naive_solver lia.
  - intros j Hj. by rewrite T3, Htb.
  - intros p Hp. apply EL. auto.
  - intros p [Hp|[-> E1]]%EL; [by apply Hf|right].
    assert (Hpos : 0 < refs (upte (k_mem s0)) ds p0)
      by (eapply (refs_pos _ ds p0 d k Hxk); [by rewrite <- E0|unfold p0; by rewrite E0]).
    pose proof (refs_pos (upte (k_mem s)) ds p0 d k Hxk HP eq_refl).
    destruct (co_count _ _ _ _ _ (sp_cow _ _ _ Hs0) _ Hpos) as [?|[Hc1 Hc2]]; [done|].
    destruct (Hlk p0 Hc1 Hc2); lia.
  - intros p Hz H1. rewrite ER. assert (Hkp : kpage p) by (eapply refs_kpage; [apply Hs0|lia]).
    rewrite EC by done. pose proof (refs_pos (upte (k_mem s)) ds p0 d k Hxk HP eq_refl) as Hpos.
    case_bool_decide as Ep; simpl; [rewrite decide_True by done|rewrite decide_False by done].
    + right. subst p. destruct (Hlk p0 Hz H1); lia.
    + destruct (Hlk p Hz H1); [left|right]; lia.
  - intros p Hpc. destruct (Hx p Hpc) as [E1 E2]. rewrite ER.
    assert (Hkp : kpage p) by (eapply refs_kpage; [apply Hs0|apply Hpc]).
    rewrite EC, E1 by done. case_bool_decide as Ep; simpl; [rewrite decide_True by done|rewrite decide_False by done].
    + subst p. split; [lia|]. intros ?. apply EL. right. split; [done|lia].
    + split; [lia|]. intros ?. apply EL. left. apply E2. lia.
Qed.

End DropLoop.

(** ** cow_deallocuvm *)

Lemma dropped_start s l ds d a : spaces s l ds -> dropped s l ds d a a s l.
Proof.
  intros Hs. split; try done.
  - intros d' j _. by rewrite decide_False by lia.
  - intros d' va _ _. by rewrite decide_False by lia.
  - by left.
  - by left.
  - intros p [Hpos Hc]. split; [done|lia].
Qed.

(** What giving up the pages [a..b) of [d] does. *)
Record given_up (ds : list Z) (d a b : Z) (s : kstate) (l : list Z) (s' : kstate) (l' : list Z) : Prop := {
  gu_spaces : spaces s' l' ds;
  gu_entries : forall d' j, (d', j) ∈ spots ds -> upte (k_mem s') d' j =
    if decide (d' = d /\ a <= j < b) then 0 else upte (k_mem s) d' j;
  gu_views : forall d' va, d' ∈ ds -> 0 <= va < KERNBASE -> user_byte (k_mem s') d' va =
    if decide (d' = d /\ a <= va / 4096 < b) then None else user_byte (k_mem s) d' va;
  gu_free : forall p, p ∈ l' <-> p ∈ l \/ counted s ds p /\ refs (upte (k_mem s')) ds p = 0
}.

Lemma cow_dealloc_ok `{!SymbolsOk} e s l ds d oldsz newsz :
  spaces s l ds -> d ∈ ds -> unlocked s Lpg_count -> cli_ok (k_cpu s) ->
  0 <= newsz < oldsz -> oldsz <= KERNBASE -> no_gap (k_mem s) d (npages newsz) ->
  exists s' l', cow_deallocuvm d oldsz newsz e s = Ok newsz e s' /\
    given_up ds d (npages newsz) (npages oldsz) s l s' l' /\ unlocked s' Lpg_count /\ cli_ok (k_cpu s') /\
    (forall i, 0 <= i < 1024 -> table_of (k_mem s') d i = table_of (k_mem s) d i).
Proof.
  intros Hs Hd Hu Hc Hn Ho Hgap. unfold cow_deallocuvm.
  rewrite (proj2 (Z.leb_gt oldsz newsz)) by lia. mstep acquire_free by (exact Hu).
  rewrite PGROUNDUP_eq by (unfold KERNBASE in *; lia). fold (npages newsz). rewrite (Z.mul_comm (npages newsz)).
  pose proof (spaces_acquired s l ds Lpg_count ltac:(done) Hs) as Hs0.
  assert (Hle : 0 <= npages newsz <= npages oldsz) by (unfold npages; Z.div_mod_to_equations; lia).
  destruct (dealloc_loop_ok (k_mem s) ds d (npages newsz) oldsz drop_ref
    (dropped (acquired Lpg_count s) l ds d (npages newsz)) Hd (proj1 Hle) ltac:(lia))
    with (n := S (Z.to_nat (oldsz / PGSIZE))) (k := npages newsz) (s := acquired Lpg_count s) (l := l) (e := e)
    as (s1 & l1 & E & Hdp).
  - intros k s1 l1 Hdp. apply spaces_mapped; [apply Hdp|done].
  - intros k s1 l1 i Hdp. apply (dp_tables _ _ _ _ _ _ _ _ Hdp).
  - intros k k' s1 l1 Hdp Hk Hk' Hz. eapply dropped_more; [exact Hdp|done..].
  - intros k s1 l1 t e' Hdp Hk Ht HP. eapply dropped_step; [exact Hs0|exact Hd|apply Hle|done|exact Hdp| |exact Ht|exact HP].
    unfold NUPAGES, KERNBASE in *. Z.div_mod_to_equations. lia.
  - fold (npages oldsz). rewrite Z.min_l by apply Hle. by apply dropped_start.
  - lia.
  - exact Hgap.
  - unfold PGSIZE, npages. Z.div_mod_to_equations. lia.
  - mstep E. destruct (spaces_released s s1 l1 ds Lpg_count) as (Er & Hs1 & Hc1 & Hu1);
      [done|apply Hdp|apply Hdp|done|]. mstep (Er e).
    exists (released Lpg_count s1), l1. split; [done|]. split; [|by split_and!; [..|apply Hdp]].
    destruct Hdp as [Hsd _ He Hv _ Hm Hf _ Hx]. split; try done. intros p. split.
    + intros Hp. destruct (Hf p Hp) as [?|?]; [by left|right]. split; [done|].
      by eapply refs_free; [apply Hsd|].
    + intros [Hp|[Hp Hz]]; [by apply Hm|by apply Hx].
Qed.

(** C36: [cow_deallocuvm] gives up the pages of [newsz..oldsz) of one process:
    they are gone from its address space and nothing else that a process reads
    changes.  The pages that become free are exactly those that nobody maps
    any more and whose counter was the number of their mappings; a page with
    one mapping and counter 0, as [inituvm] leaves it, is not mapped any more
    and not free either.  The first page of the range is in a page table that
    exists or is at a multiple of 4 MB ([no_gap]): from any other page the loop
    (vm.c:295) would step 4 MB ahead and miss the start of the next table. *)
Theorem cow_deallocuvm_drops `{!SymbolsOk} e s l ds d oldsz newsz :
  spaces s l ds -> d ∈ ds -> unlocked s Lpg_count -> cli_ok (k_cpu s) ->
  0 <= newsz < oldsz -> oldsz <= KERNBASE -> no_gap (k_mem s) d (npages newsz) ->
  exists s' l', cow_deallocuvm d oldsz newsz e s = Ok newsz e s' /\ unlocked s' Lpg_count /\
    given_up ds d (npages newsz) (npages oldsz) s l s' l'.
Proof.
  intros Hs Hd Hu Hc Hn Ho Hgap.
  destruct (cow_dealloc_ok e s l ds d oldsz newsz Hs Hd Hu Hc Hn Ho Hgap) as (s' & l' & E & Hg & Hu' & _).
  eauto.
Qed.

(** ** cow_freevm *)

Lemma spaces_push s l ds q : spaces s l ds -> unused s l ds q ->
  spaces (kfree_state q s) (q :: l) ds /\
  (forall d, d ∈ ds -> same_view (k_mem s) (k_mem (kfree_state q s)) d) /\
  (forall p, unused s l ds p -> p <> q -> unused (kfree_state q s) (q :: l) ds p).
Proof.
  intros Hs (Hk & Hl & Hd & Hr). pose proof (sp_layout _ _ _ Hs) as Hy.
  destruct (layout_push s q l ds Hy Hk Hl Hd) as (Hy' & Hdp & Hpt & _).
  assert (ET : forall d j, (d, j) ∈ spots ds -> upte (k_mem (kfree_state q s)) d j = upte (k_mem s) d j).
  { intros d j [Hd' Hj]%elem_of_spots. apply Hpt; [done|by apply page_word]. }
  split; [split; [done| |apply Hs]|split].
  - eapply (cow_mono _ _ (refcount s) _ (q :: l) _ _ (dir_page (k_mem s) ds)); [|exact ET|done| |].
    + destruct (sp_cow _ _ _ Hs) as [Hf Hz Hc He]. split; try done. intros d i Hx HP.
      destruct (Hf d i Hx HP) as (? & Hl' & ?). split_and!; [done| |done].
      rewrite not_elem_of_cons. split; [|done]. intros E.
      pose proof (refs_pos _ ds q d i Hx HP E). lia.
    + intros p Hp. left. by apply Hdp.
    + intros p _. unfold refcount. by rewrite (quiet_counters _ _ (quiet_kfree s q)).
  - intros d Hd'. apply same_view_intro. intros i Hi.
    assert (Hx : (d, i) ∈ spots ds) by (by apply elem_of_spots). rewrite ET by done. split; [done|].
    intros HP. split; [done|]. intros o Ho.
    destruct (frame_content s l ds d i o Hs Hx HP Ho) as (_ & Hin & Hkp & _).
    apply (frame_page _ _ _ _ (kfree_frame s q Hk) Hkp); [|done]. intros ? ->. split; [done|].
    intros E. pose proof (refs_pos _ ds q d i Hx HP (eq_sym E)). lia.
  - intros p (Hkp & Hlp & Hdp' & Hrp) Hne. split_and!; [done|by rewrite not_elem_of_cons|by rewrite Hdp|].
    by rewrite (refs_ext (upte (k_mem s))).
Qed.

(** A directory that maps no user page any more leaves the others. *)
Lemma spaces_tail s l ds d : spaces s l (d :: ds) ->
  (forall j, 0 <= j < NUPAGES -> upte (k_mem s) d j = 0) ->
  spaces s l ds /\ (forall p, pd_pages (k_mem s) d p -> unused s l ds p).
Proof.
  intros Hs Hz. destruct (sp_layout _ _ _ Hs) as [Hf Hr Hn Hp Hse Hdj].
  apply NoDup_cons in Hn as [Hnd Hn]. pose proof (sp_few _ _ _ Hs) as Hfew. simpl in Hfew.
  assert (Hdir : forall p, dir_page (k_mem s) ds p -> dir_page (k_mem s) (d :: ds) p)
    by (intros p (d' & ? & ?); exists d'; split; [by apply list_elem_of_further|done]).
  assert (ER : forall p, refs (upte (k_mem s)) ds p = refs (upte (k_mem s)) (d :: ds) p).
  { intros p. unfold refs. rewrite spots_cons, zsum_app.
    rewrite (zsum_zero _ ((fun i => (d, i)) <$> _)); [done|].
    intros [d' j] (j' & [= -> ->] & Hj)%list_elem_of_fmap. apply elem_of_seqZ in Hj. simpl. by rewrite Hz by lia. }
  assert (Hsp : forall d' j, (d', j) ∈ spots ds -> (d', j) ∈ spots (d :: ds))
    by (intros d' j [? ?]%elem_of_spots; apply elem_of_spots; split; [by apply list_elem_of_further|done]).
  destruct (sp_cow _ _ _ Hs) as [Cf Cz Cc Ce]. split.
  - split; [split; try done| |lia].
    + intros d' Hd'. apply Hp. by apply list_elem_of_further.
    + intros p Hp'. apply Hse. auto.
    + intros d1 d2 p H1 H2. apply Hdj; by apply list_elem_of_further.
    + split.
      * intros d' i Hx HP. destruct (Cf d' i (Hsp _ _ Hx) HP) as (? & ? & Hnd'). split_and!; try done.
        intros Hq. by apply Hnd', Hdir.
      * intros d' i Hx. apply Cz. auto.
      * intros p. rewrite ER. apply Cc.
      * intros d' i Hx. rewrite ER. apply Ce. auto.
  - intros p Hpp. assert (Hdp : dir_page (k_mem s) (d :: ds) p) by (exists d; split; [apply list_elem_of_here|done]).
    split_and!.
    + eapply layout_kpage; [apply Hs|done].
    + by apply Hse.
    + intros (d' & Hd' & Hp'). destruct Hnd. rewrite (Hdj d d' p); try done; [apply list_elem_of_here|by apply list_elem_of_further].
    + rewrite ER. pose proof (refs_nonneg (upte (k_mem s)) (d :: ds) p).
      destruct (Z_lt_le_dec 0 (refs (upte (k_mem s)) (d :: ds) p)) as [Hpos|]; [|lia].
      destruct (refs_pos_inv _ _ _ Hpos) as (d' & i & Hx & HP & <-).
      by destruct (Cf d' i Hx HP) as (_ & _ & []).
Qed.

(** What is left of a directory of which the tables from [i] on are not yet
    freed. *)
Record husk (s : kstate) (l ds : list Z) (d i : Z) : Prop := {
  hk_dir : unused s l ds d;
  hk_tables : forall j t, i <= j < 1024 -> table_of (k_mem s) d j = Some t -> unused s l ds t /\ t <> d;
  hk_inj : forall j k t, i <= j < 1024 -> i <= k < 1024 ->
    table_of (k_mem s) d j = Some t -> table_of (k_mem s) d k = Some t -> j = k
}.

Lemma husk_push s l ds d i t :
  spaces s l ds -> husk s l ds d i -> 0 <= i < 1024 -> table_of (k_mem s) d i = Some t ->
  husk (kfree_state t s) (t :: l) ds d (i + 1) /\
  forall j, 0 <= j < 1024 -> table_of (k_mem (kfree_state t s)) d j = table_of (k_mem s) d j.
Proof.
  intros Hs [Hd Ht Hi] Hr Hti. destruct (Ht i t ltac:(lia) Hti) as [Hut Hne].
  destruct (spaces_push s l ds t Hs Hut) as (_ & _ & Hun).
  assert (Htb : forall j, 0 <= j < 1024 -> table_of (k_mem (kfree_state t s)) d j = table_of (k_mem s) d j).
  { intros j Hj. apply table_of_ext; [done|]. apply (frame_page _ _ _ d (kfree_frame s t (proj1 Hut))); [apply Hd|].
    intros ? ->. split; [apply Hut|done]. }
  split; [|done]. split.
  - by apply Hun.
  - intros j u Hj. rewrite Htb by lia. intros Hu. destruct (Ht j u ltac:(lia) Hu) as [Huu Hud].
    split; [|done]. apply Hun; [done|]. intros ->. assert (i = j) by (apply (Hi i j t); done || lia). lia.
  - intros j k u Hj Hk. rewrite !Htb by lia. apply Hi; lia.
Qed.

Lemma free_tables_ok n : forall i s l ds d e,
  spaces s l ds -> husk s l ds d i -> 0 <= i -> i + Z.of_nat n = 1024 ->
  exists s' l',
    forM (seq (Z.to_nat i) n) (fun i =>
      e ← ldk (u32 (d + 4 * Z.of_nat i));
      when (has e PTE_P) (kfree (p2v (PTE_ADDR e)))) e s = Ok tt e s' /\
    spaces s' l' ds /\ husk s' l' ds d 1024 /\
    (forall d', d' ∈ ds -> same_view (k_mem s) (k_mem s') d') /\
    (forall p, p ∈ l' <-> p ∈ l \/ exists j, i <= j < 1024 /\ table_of (k_mem s) d j = Some p) /\
    (forall q x, kpage q -> (forall j, i <= j < 1024 -> table_of (k_mem s) d j <> Some q) -> in_page q x -> k_mem s' x = k_mem s x).
Proof.
  induction n as [|n IH]; intros i s l ds d e Hs Hh H0 Hn.
  { exists s, l. assert (i = 1024) as -> by lia. split; [done|]. split; [done|]. split; [done|]. split.
    - intros d' _. apply same_view_refl.
    - split; [|done]. intros p. split; [by left|]. intros [?|(j & ? & _)]; [done|lia]. }
  cbn [seq forM]. rewrite bind_assoc. pose proof (proj1 (hk_dir _ _ _ _ _ Hh)) as Hkd.
  unfold ldk at 1. mstep. rewrite Z2Nat.id by lia.
  destruct (kpage_entry d i Hkd ltac:(lia)) as [-> ->].
  replace (S (Z.to_nat i)) with (Z.to_nat (i + 1)) by lia.
  destruct (has (ld32 (k_mem s) (d - KERNBASE + 4 * i)) PTE_P) eqn:HP.
  - set (t := p2v (PTE_ADDR (ld32 (k_mem s) (d - KERNBASE + 4 * i)))).
    assert (Ht : table_of (k_mem s) d i = Some t) by (unfold table_of; by rewrite HP).
    destruct (husk_push s l ds d i t Hs Hh ltac:(lia) Ht) as [Hh' Htb].
    destruct (hk_tables _ _ _ _ _ Hh i t ltac:(lia) Ht) as [Hut _].
    destruct (spaces_push s l ds t Hs Hut) as (Hs' & Hv & _).
    destruct (IH (i + 1) (kfree_state t s) (t :: l) ds d e Hs' Hh' ltac:(lia) ltac:(lia))
      as (s' & l' & E & Hs2 & Hh2 & Hv2 & Hl2 & Hm2).
    exists s', l'. split; [|split_and!; try done].
    + unfold when. mstep kfree_ok by (try apply Hut; apply (sp_layout _ _ _ Hs)). exact E.
    + intros d' Hd'. eapply same_view_trans; [by apply Hv|by apply Hv2].
    + intros p. rewrite Hl2, elem_of_cons. split.
      * intros [[->|?]|(j & Hj & Hjt)]; [right; exists i; split; [lia|done]|by left|right].
        rewrite Htb in Hjt by lia. exists j. split; [lia|done].
      * intros [?|(j & Hj & Hjt)]; [auto|]. destruct (Z.eq_dec j i) as [->|]; [left; left; congruence|].
        right. exists j. rewrite Htb by lia. split; [lia|done].
    + intros q x Hq Hno Hx. rewrite (Hm2 q x Hq) by (try done; intros j Hj; rewrite Htb by lia; apply Hno; lia).
      apply (frame_page _ _ _ q (kfree_frame s t (proj1 Hut)) Hq); [|done]. intros ? ->. split; [apply Hut|].
      intros ->. by apply (Hno i); [lia|].
  - assert (Ht : table_of (k_mem s) d i = None) by (unfold table_of; by rewrite HP).
    destruct (IH (i + 1) s l ds d e Hs) as (s' & l' & E & Hs2 & Hh2 & Hv2 & Hl2 & Hm2); [|lia..|].
    { destruct Hh as [A B C]. split; [done| |].
      - intros j t Hj. apply B. lia.
      - intros j k t Hj Hk. apply C; lia. }
    exists s', l'. split; [by mstep|]. split_and!; try done.
    + intros p. rewrite Hl2. split; (intros [?|(j & Hj & Hjt)]; [by left|right]); exists j; (split; [|done]); [lia|].
      destruct (Z.eq_dec j i) as [->|]; [congruence|lia].
    + intros q x Hq Hno. apply Hm2; [done|]. intros j Hj. apply Hno. lia.
Qed.

(** The pages of a directory that maps no user page any more are freed. *)
Lemma free_dir_ok s l ds d e :
  spaces s l (d :: ds) -> (forall j, 0 <= j < NUPAGES -> upte (k_mem s) d j = 0) ->
  exists s' l', (free_tables d;; kfree d) e s = Ok tt e s' /\ spaces s' l' ds /\
    (forall d', d' ∈ ds -> same_view (k_mem s) (k_mem s') d') /\
    (forall p, p ∈ l' <-> p ∈ l \/ pd_pages (k_mem s) d p).
Proof.
  intros Hs Hz. destruct (spaces_tail s l ds d Hs Hz) as [Hs1 Hun].
  pose proof (ly_pd _ _ _ (sp_layout _ _ _ Hs) d (list_elem_of_here _ _)) as Hpd.
  assert (Hh : husk s l ds d 0).
  { split.
    - apply Hun. by left.
    - intros j t Hj Ht. split; [apply Hun; right; eauto|]. by eapply (pd_tables _ _ Hpd).
    - apply Hpd. }
  destruct (free_tables_ok NPDENTRIES 0 s l ds d e Hs1 Hh) as (s1 & l1 & E & Hs2 & Hh2 & Hv & Hl & _); [lia|done|].
  change (Z.to_nat 0) with O in E. fold (free_tables d) in E.
  destruct (spaces_push s1 l1 ds d Hs2 (hk_dir _ _ _ _ _ Hh2)) as (Hs3 & Hv3 & _).
  exists (kfree_state d s1), (d :: l1). split_and!.
  - rewrite (bind_ok _ _ _ _ _ _ _ E). apply kfree_ok; [apply Hh2|apply (sp_layout _ _ _ Hs2)].
  - done.
  - intros d' Hd'. eapply same_view_trans; [by apply Hv|by apply Hv3].
  - intros p. rewrite elem_of_cons, Hl. unfold pd_pages. naive_solver.
Qed.

(** C37: [cow_freevm] gives an address space up: the other processes read what
    they read before and keep the invariant.  The pages that become free are
    exactly those of the directory and its tables and those that no other
    process maps and whose counter was the number of their mappings; a page
    that only this process maps with counter 0, as [inituvm] leaves it, is lost. *)
Theorem cow_freevm_frees `{!SymbolsOk} e s l ds d :
  spaces s l (d :: ds) -> unlocked s Lpg_count -> cli_ok (k_cpu s) ->
  exists s' l', cow_freevm d e s = Ok tt e s' /\ spaces s' l' ds /\
    (forall d', d' ∈ ds -> same_view (k_mem s) (k_mem s') d') /\
    (forall p, p ∈ l' <-> p ∈ l \/ pd_pages (k_mem s) d p \/
       counted s (d :: ds) p /\ refs (upte (k_mem s)) ds p = 0).
Proof.
  intros Hs Hu Hc. pose proof (ly_pd _ _ _ (sp_layout _ _ _ Hs) d (list_elem_of_here _ _)) as Hpd.
  pose proof (ly_nodup _ _ _ (sp_layout _ _ _ Hs)) as Hnd. apply NoDup_cons in Hnd as [Hfr _].
  destruct (cow_dealloc_ok e s l (d :: ds) d KERNBASE 0 Hs (list_elem_of_here _ _) Hu Hc)
    as (s1 & l1 & E1 & [Hs1 He1 Hv1 Hf1] & _ & _ & Ht1); try (unfold KERNBASE; lia).
  { by intros _. }
  change (npages 0) with 0 in *. change (npages KERNBASE) with NUPAGES in *.
  assert (Hz : forall j, 0 <= j < NUPAGES -> upte (k_mem s1) d j = 0).
  { intros j Hj. rewrite He1 by (apply elem_of_spots; split; [apply list_elem_of_here|done]).
    by rewrite decide_True. }
  assert (He : forall d' j, (d', j) ∈ spots ds -> upte (k_mem s1) d' j = upte (k_mem s) d' j).
  { intros d' j [Hd' Hj]%elem_of_spots. rewrite He1, decide_False; [done| |].
    - by intros [-> _].
    - apply elem_of_spots. split; [by apply list_elem_of_further|done]. }
  destruct (free_dir_ok s1 l1 ds d e Hs1 Hz) as (s2 & l2 & E2 & Hs2 & Hv2 & Hl2).
  exists s2, l2. split_and!; try done.
  - unfold cow_freevm. rewrite (proj2 (Z.eqb_neq _ _) (kpage_nonzero d (pd_page _ _ Hpd))). mstep E1. exact E2.
  - intros d' Hd'. eapply same_view_trans; [|by apply Hv2]. intros va Hva.
    rewrite Hv1 by (done || by apply list_elem_of_further). rewrite decide_False; [done|]. by intros [-> _].
  - intros p. rewrite Hl2, Hf1.
    assert (pd_pages (k_mem s1) d p <-> pd_pages (k_mem s) d p) as ->.
    { unfold pd_pages. split; (intros [?|(i & Hi & Hp)]; [by left|right; exists i]).
      - by rewrite <- Ht1.
      - by rewrite Ht1. }
    assert (refs (upte (k_mem s1)) (d :: ds) p = refs (upte (k_mem s)) ds p) as ->; [|tauto].
    unfold refs at 1. rewrite spots_cons, zsum_app, zsum_zero; [by apply refs_ext|].
    intros [d' j] (j' & [= -> ->] & Hj)%list_elem_of_fmap. apply elem_of_seqZ in Hj. simpl. by rewrite Hz by lia.
Qed.

(** ** deallocuvm and shared pages *)

(** One page is taken away with [deallocuvm]. *)
Lemma deallocuvm_one `{!SymbolsOk} e s l ds d k :
  spaces s l ds -> d ∈ ds -> 0 <= k < NUPAGES -> has (upte (k_mem s) d k) PTE_P = true ->
  let p := frame_of (upte (k_mem s) d k) in
  exists m', deallocuvm d (4096 * (k + 1)) (4096 * k) e s =
      Ok (4096 * k) e (upd_mem (fun _ => m') (kfree_state p s)) /\
    grows ds d (kfree_state p s) (p :: l) (upd_mem (fun _ => m') (kfree_state p s)) (p :: l) /\
    (forall d' j, d' ∈ ds -> 0 <= j < NUPAGES -> upte (k_mem (kfree_state p s)) d' j = upte (k_mem s) d' j).
Proof.
  intros Hs Hd Hk HP p. pose proof (page_word k Hk) as Hw. pose proof (sp_layout _ _ _ Hs) as Hy.
  assert (Hx : (d, k) ∈ spots ds) by (by apply elem_of_spots).
  destruct (frame_content s l ds d k 0 Hs Hx HP ltac:(lia)) as (Ea & _ & Hkp & Hlp & Hdp). fold p in Ea, Hkp, Hlp, Hdp.
  destruct (present_table (k_mem s) d (4096 * k) (ly_pd _ _ _ Hy d Hd) Hw HP) as [t Ht].
  destruct (layout_push s p l ds Hy Hkp Hlp Hdp) as (Hy' & _ & Hpt & Htb).
  destruct (entry_set (kfree_state p s) (p :: l) ds d (4096 * k) t 0 e Hy' Hd Hw) as (m' & E & G & _ & _);
    [by rewrite Htb by (done || by apply PDX_range)|unfold word; lia|].
  exists m'. split_and!; [|done|intros d' j Hd' Hj; by apply Hpt; [|apply page_word]].
  unfold deallocuvm, NUPAGES in *. rewrite (proj2 (Z.leb_gt (4096 * (k + 1)) (4096 * k))) by lia.
  rewrite PGROUNDUP_eq by lia. replace ((4096 * k + 4095) / 4096 * 4096) with (4096 * k) by (Z.div_mod_to_equations; lia).
  replace (4096 * (k + 1) / PGSIZE) with (k + 1) by (unfold PGSIZE; Z.div_mod_to_equations; lia).
  replace (S (Z.to_nat (k + 1))) with (S (S (Z.to_nat k))) by lia. cbn [dealloc_loop].
  rewrite (proj2 (Z.ltb_lt (4096 * k) (4096 * (k + 1)))) by lia. rewrite bind_assoc.
  mstep (walk_present d (4096 * k) false e s t (ly_pd _ _ _ Hy d Hd) Hw Ht).
  rewrite walk_nonzero by (by eapply (store_table s l d (4096 * k) t (layout_vm _ _ _ _ Hy Hd))).
  rewrite bind_assoc. mstep (load_run s l d (4096 * k) t (layout_vm _ _ _ _ Hy Hd) Hw Ht).
  fold (upte (k_mem s) d k). unfold free_page. rewrite HP, Ea, frame_not_low, <- (v2p_kpage p Hkp), p2v_v2p
    by (done || (unfold kpage, KERNBASE, PHYSTOP in *; lia)).
  rewrite !bind_assoc. mstep kfree_ok by (try done; apply Hy). mstep E.
  unfold PGSIZE. rewrite u32_small by lia.
  by rewrite (proj2 (Z.ltb_ge (4096 * k + 4096) (4096 * (k + 1)))) by lia.
Qed.

(** C40: [deallocuvm] (which [growproc], [exec] and [wait] use, for processes
    made by [cow_fork] too) frees a page that another process still maps: the
    page is at the head of the free list, so the next [kalloc] hands it out. *)
Theorem deallocuvm_frees_shared `{!SymbolsOk} e s l ds d k d2 j :
  spaces s l ds -> d ∈ ds -> 0 <= k < NUPAGES -> has (upte (k_mem s) d k) PTE_P = true ->
  d2 ∈ ds -> d2 <> d -> 0 <= j < NUPAGES -> has (upte (k_mem s) d2 j) PTE_P = true ->
  let p := frame_of (upte (k_mem s) d k) in
  frame_of (upte (k_mem s) d2 j) = p ->
  exists s', deallocuvm d (4096 * (k + 1)) (4096 * k) e s = Ok (4096 * k) e s' /\
    free_list s' (p :: l) /\ has (upte (k_mem s') d2 j) PTE_P = true /\
    frame_of (upte (k_mem s') d2 j) = p /\ exists s2, kalloc e s' = Ok p e s2.
Proof.
  intros Hs Hd Hk HP Hd2 Hne Hj HP2 p Ef.
  destruct (deallocuvm_one e s l ds d k Hs Hd Hk HP) as (m' & E & G & Hpt). fold p in E, G, Hpt.
  pose proof (gr_layout _ _ _ _ _ _ G) as Hy. eexists. split; [exact E|].
  assert (E2 : upte m' d2 j = upte (k_mem s) d2 j).
  { rewrite <- (Hpt d2 j) by done. apply (gr_others _ _ _ _ _ _ G); [done..|by apply page_word]. }
  split_and!; [apply Hy|cbn; by rewrite E2|cbn; by rewrite E2|].
  destruct (kalloc_pop e _ p l (ly_free _ _ _ Hy) (ly_ready _ _ _ Hy)) as [Ek _]. eauto.
Qed.

End CowFree.
