(* ===== verification/CowFail.v ===== *)
(** * cow_shareuvm when memory runs out (vm.c)

    [cow_shareuvm] gives the directory of the child back with [freevm], which
    frees the pages that are shared already although the parent maps them.  Here
    is what [freevm] does to a directory whose pages others map too, and the
    theorem about all outcomes of [cow_shareuvm]. *)

From stdpp Require Import base list list_numbers.
From S2P Require Import Prelude Memory Kernel KMonad Boot Mmu Spinlock Kalloc Vm VmWalk VmSpace Cow CowShare CowFree.

Section CowFail.
Context `{Symbols} `{!SymbolsOk}.

Lemma spaces_none s l : free_list s l -> kmem_ready s -> spaces s l [].
Proof.
  intros Hl Hr. split; [split| |simpl; lia]; try done.
  - constructor.
  - intros d Hd. by apply elem_of_nil in Hd.
  - intros p (d & Hd & _). by apply elem_of_nil in Hd.
  - intros d d' p Hd. by apply elem_of_nil in Hd.
  - split; try (intros d i Hx; by apply elem_of_spots in Hx as [Hx%elem_of_nil _]).
    intros p Hp. unfold refs, spots in Hp. simpl in Hp. lia.
Qed.

(** ** freevm of a directory whose pages may be mapped elsewhere *)

Section FreeUsed.
Context (s0 : kstate) (l0 : list Z) (d : Z).
Notation T0 := (upte (k_mem s0) d).
Hypothesis Hy0 : layout s0 l0 [d].
Hypothesis Hf0 : forall j, 0 <= j < NUPAGES -> has (T0 j) PTE_P = true ->
  kpage (frame_of (T0 j)) /\ frame_of (T0 j) ∉ l0 /\ ~ pd_pages (k_mem s0) d (frame_of (T0 j)).
Hypothesis Hz0 : forall j, 0 <= j < NUPAGES -> has (T0 j) PTE_P = false -> T0 j = 0.
Hypothesis Hinj : forall i j, 0 <= i < NUPAGES -> 0 <= j < NUPAGES ->
  has (T0 i) PTE_P = true -> has (T0 j) PTE_P = true -> frame_of (T0 i) = frame_of (T0 j) -> i = j.

(** A page that is not free, not of the directory, and not mapped in it. *)
Definition bystander (q : Z) : Prop :=
  kpage q /\ q ∉ l0 /\ ~ pd_pages (k_mem s0) d q /\
  forall j, 0 <= j < NUPAGES -> has (T0 j) PTE_P = true -> frame_of (T0 j) <> q.

(** The first [k] pages are freed. *)
Record freeing (k : Z) (s : kstate) (l : list Z) : Prop := {
  fe_layout : layout s l [d];
  fe_entries : forall j, 0 <= j < NUPAGES -> upte (k_mem s) d j = if decide (j < k) then 0 else T0 j;
  fe_tables : forall i, 0 <= i < 1024 -> table_of (k_mem s) d i = table_of (k_mem s0) d i;
  fe_list : forall p, p ∈ l <-> p ∈ l0 \/ exists j, 0 <= j < k /\ j < NUPAGES /\ has (T0 j) PTE_P = true /\ frame_of (T0 j) = p;
  fe_mem : forall q x, bystander q -> in_page q x -> k_mem s x = k_mem s0 x
}.

Lemma freeing_start : freeing 0 s0 l0.
Proof.
  split; try done.
  - intros j Hj. by rewrite decide_False by lia.
  - intros p. split; [by left|]. intros [?|(j & ? & _)]; [done|lia].
Qed.

Lemma freeing_mapped k s l : freeing k s l -> mapped_dir s l [d] d.
Proof.
  intros [Hy He _ _ _]. split; [done| |]; intros j Hj; rewrite He by done; case_decide; try done; [|by apply Hz0].
  intros HP. by apply Hf0.
Qed.

Lemma freeing_more k k' s l :
  freeing k s l -> 0 <= k <= k' -> k' <= NUPAGES -> (forall j, k <= j < k' -> upte (k_mem s) d j = 0) -> freeing k' s l.
Proof.
  intros [Hy He Ht Hl Hm] Hk Hk' Hz.
  assert (Hnil : forall j, k <= j < k' -> T0 j = 0).
  { intros j Hj. rewrite <- (Hz j Hj), He, decide_False by lia. done. }
  split; try done.
  - intros j Hj. rewrite He by done. repeat case_decide; try done; [lia|]. by rewrite Hnil by lia.
  - intros p. rewrite Hl. split; (intros [?|(j & Hj & Hju & HP & Ef)]; [by left|right]); exists j; (split_and!; [lia| |done|done|done]); [lia|].
    destruct (Z_lt_le_dec j k) as [|Hge]; [lia|]. rewrite Hnil in HP by lia. done.
Qed.

Lemma freeing_dir k s l p : freeing k s l -> dir_page (k_mem s) [d] p <-> pd_pages (k_mem s0) d p.
Proof.
  intros Hf. assert (E : pd_pages (k_mem s) d p <-> pd_pages (k_mem s0) d p).
  { split; (intros [->|(i & Hi & Hp)]; [by left|right; exists i; split; [done|]]);
      [by rewrite <- (fe_tables _ _ _ Hf)|by rewrite (fe_tables _ _ _ Hf)]. }
  rewrite <- E. split; [|intros Hp; exists d; split; [apply list_elem_of_here|done]].
  intros (d' & ->%list_elem_of_singleton & Hp). done.
Qed.

Lemma freeing_step k s l t e :
  freeing k s l -> 0 <= k < NUPAGES -> table_of (k_mem s) d (PDX (4096 * k)) = Some t -> has (upte (k_mem s) d k) PTE_P = true ->
  exists s' l', free_page (t + 4 * PTX (4096 * k)) (PTE_ADDR (upte (k_mem s) d k)) e s = Ok tt e s' /\ freeing (k + 1) s' l'.
Proof.
  intros Hf Hk Ht HP. pose proof (freeing_dir k s l) as Hdir. pose proof Hf as [Hy He Htb Hl Hm].
  assert (E0 : upte (k_mem s) d k = T0 k) by (by rewrite He, decide_False by (done || lia)). rewrite E0 in HP |- *.
  set (p := frame_of (T0 k)). destruct (Hf0 k Hk HP) as (Hkp & Hpl0 & Hpd). fold p in Hkp, Hpl0, Hpd.
  assert (Hpl : p ∉ l).
  { rewrite Hl. intros [?|(j & Hj & Hju & HPj & Ef)]; [done|]. apply Hinj in Ef; [lia|lia|done|done|done]. }
  assert (Hnd : ~ dir_page (k_mem s) [d] p) by (by rewrite (Hdir p Hf)).
  pose proof (page_word k Hk) as Hw.
  destruct (layout_push s p l [d] Hy Hkp Hpl Hnd) as (Hy1 & Hdp & Hpt & Htb1).
  destruct (entry_set_all (kfree_state p s) (p :: l) [d] d (4096 * k) t 0 e Hy1 (list_elem_of_here _ _) Hw) as (m' & E & G & T3 & P3);
    [by rewrite Htb1 by (apply list_elem_of_here || by apply PDX_range)|unfold word; lia|].
  eexists _, (p :: l). split; [unfold free_page; change (p2v (PTE_ADDR (T0 k))) with p; mstep kfree_ok by (done || apply Hy); exact E|].
  split; cbn [k_mem upd_mem set_k_mem].
  - apply G.
  - intros j Hj. pose proof (page_word j Hj) as Hwj. unfold upte at 1. rewrite P3 by done.
    replace (4096 * j / 4096) with j by (Z.div_mod_to_equations; lia). replace (4096 * k / 4096) with k by (Z.div_mod_to_equations; lia).
    rewrite Hpt by (apply list_elem_of_here || done). fold (upte (k_mem s) d j). rewrite He by done.
    destruct (Z.eqb_spec j k); repeat case_decide; try done; lia.
  - intros i Hi. by rewrite T3, Htb1, Htb by (done || apply list_elem_of_here).
  - intros q. rewrite elem_of_cons, Hl. split.
    + intros [->|[?|(j & Hj & Hr)]]; [right; exists k; split_and!; (done || lia)|by left|right; exists j; split; [lia|done]].
    + intros [?|(j & Hj & Hju & HPj & Ef)]; [by auto|]. destruct (Z.eq_dec j k) as [->|]; [by left|right; right].
      exists j. split; [lia|done].
  - intros q x Hq Hx. pose proof Hq as (Hkq & Hql0 & Hqd & Hqf). rewrite <- (Hm q x Hq Hx).
    assert (Hqp : q <> p) by (intros ->; by apply (Hqf k)).
    etransitivity; [apply (gr_user _ _ _ _ _ _ G q x Hkq); [rewrite not_elem_of_cons; split; [done|]|by rewrite Hdp, (Hdir q Hf)|done]|].
    + rewrite Hl. intros [?|(j & Hj & Hju & HPj & Ef)]; [done|]. by apply (Hqf j); [lia|..].
    + apply (frame_page _ _ _ q (kfree_frame s p Hkp) Hkq); [|done]. intros ? ->. done.
Qed.
Lemma unused_none s l q : kpage q -> q ∉ l -> unused s l [] q.
Proof. intros Hk Hl. split_and!; [done|done| |done]. by intros (d' & ?%elem_of_nil & _). Qed.

Lemma freed_husk s l : freeing NUPAGES s l -> spaces s l [] /\ husk s l [] d 0.
Proof.
  intros Hf. pose proof (fe_layout _ _ _ Hf) as Hy. pose proof (ly_pd _ _ _ Hy d (list_elem_of_here _ _)) as Hpd.
  assert (Hun : forall p, pd_pages (k_mem s) d p -> unused s l [] p).
  { intros p Hp. assert (Hdp : dir_page (k_mem s) [d] p) by (exists d; split; [apply list_elem_of_here|done]).
    apply unused_none; [by eapply layout_kpage|by apply (ly_sep _ _ _ Hy)]. }
  split; [apply spaces_none; apply Hy|]. split.
  - apply Hun. by left.
  - intros j t Hj Ht. split; [apply Hun; right; eauto|]. by eapply (pd_tables _ _ Hpd).
  - apply Hpd.
Qed.

Lemma freevm_used e : exists s' l', freevm d e s0 = Ok tt e s' /\ free_list s' l' /\
  (forall p, p ∈ l0 \/ pd_pages (k_mem s0) d p -> p ∈ l') /\
  (forall j, 0 <= j < NUPAGES -> has (T0 j) PTE_P = true -> frame_of (T0 j) ∈ l') /\
  (forall q x, bystander q -> in_page q x -> k_mem s' x = k_mem s0 x).
Proof.
  pose proof (ly_pd _ _ _ Hy0 d (list_elem_of_here _ _)) as Hpd.
  destruct (dealloc_loop_ok (k_mem s0) [d] d 0 KERNBASE free_page freeing (list_elem_of_here _ _) ltac:(lia) ltac:(unfold KERNBASE; lia))
    with (n := S (Z.to_nat (KERNBASE / PGSIZE))) (k := 0) (s := s0) (l := l0) (e := e) as (s1 & l1 & E1 & Hf1).
  - apply freeing_mapped.
  - intros k s l i Hf. apply (fe_tables _ _ _ Hf).
  - intros k k' s l. apply freeing_more.
  - intros k s l t e' Hf Hk. apply (freeing_step k s l t e' Hf). change ((KERNBASE + 4095) / 4096) with NUPAGES in Hk. done.
  - change ((KERNBASE + 4095) / 4096) with NUPAGES. change (Z.min 0 NUPAGES) with 0. apply freeing_start.
  - lia.
  - by intros _.
  - vm_compute. discriminate.
  - change ((KERNBASE + 4095) / 4096) with NUPAGES in Hf1. destruct (freed_husk s1 l1 Hf1) as [Hs1 Hh1].
    destruct (free_tables_ok NPDENTRIES 0 s1 l1 [] d e Hs1 Hh1) as (s2 & l2 & E2 & Hs2 & Hh2 & _ & Hl2 & Hm2); [lia|done|].
    change (Z.to_nat 0) with O in E2. fold (free_tables d) in E2.
    destruct (spaces_push s2 l2 [] d Hs2 (hk_dir _ _ _ _ _ Hh2)) as (Hs3 & _ & _). pose proof (fe_tables _ _ _ Hf1) as Htb.
    exists (kfree_state d s2), (d :: l2). split_and!.
    + unfold freevm, deallocuvm. rewrite (proj2 (Z.eqb_neq _ _) (kpage_nonzero d (pd_page _ _ Hpd))).
      rewrite (proj2 (Z.leb_gt KERNBASE 0)) by (unfold KERNBASE; lia). change (PGROUNDUP 0) with (4096 * 0).
      rewrite bind_assoc. mstep E1. mstep. mstep E2. apply kfree_ok; [apply Hh2|apply (sp_layout _ _ _ Hs2)].
    + apply (sp_layout _ _ _ Hs3).
    + intros p Hp. rewrite elem_of_cons, Hl2, (fe_list _ _ _ Hf1). destruct Hp as [Hp|[->|(i & Hi & Hp)]]; [by auto|by auto|].
      right. right. exists i. by rewrite Htb.
    + intros j Hj HP. rewrite elem_of_cons, Hl2, (fe_list _ _ _ Hf1). right. left. right. exists j. split_and!; (done || lia).
    + intros q x Hq Hx. pose proof Hq as (Hkq & _ & Hqd & _). rewrite <- (fe_mem _ _ _ Hf1 q x Hq Hx), <- (Hm2 q x Hkq); [| |done].
      * apply (frame_page _ _ _ q (kfree_frame s2 d (pd_page _ _ Hpd)) Hkq); [|done]. intros ? ->. split; [apply Hpd|].
        intros ->. apply Hqd. by left.
      * intros j Hj. rewrite Htb by done. intros Ht. apply Hqd. right. by exists j.
Qed.
End FreeUsed.
(** ** All outcomes of cow_shareuvm *)

(** The first [k] pages of the parent are on the free list, although all
    directories map what they mapped before; the other pages have kept their
    contents. *)
Record lost_pages (ds : list Z) (d0 k : Z) (s s' : kstate) (l' : list Z) : Prop := {
  lp_free : free_list s' l';
  lp_lost : forall j, 0 <= j < k -> frame_of (upte (k_mem s) d0 j) ∈ l';
  lp_maps : forall d' j, (d', j) ∈ spots ds ->
    has (upte (k_mem s') d' j) PTE_P = has (upte (k_mem s) d' j) PTE_P /\
    frame_of (upte (k_mem s') d' j) = frame_of (upte (k_mem s) d' j);
  lp_views : forall d' va, d' ∈ ds -> 0 <= va < KERNBASE ->
    (forall j, 0 <= j < k -> frame_of (upte (k_mem s) d0 j) <> frame_of (upte (k_mem s) d' (va / 4096))) ->
    user_byte (k_mem s') d' va = user_byte (k_mem s) d' va
}.

Section Half.
Context (s s1 : kstate) (ds : list Z) (d0 d k : Z).
Hypothesis Hh : half_shared ds d0 d k s s1.
Hypothesis Hd0 : d0 ∈ ds.
Hypothesis Hk : 0 <= k < NUPAGES.
Hypothesis Hall : forall j, 0 <= j < k -> has (upte (k_mem s) d0 j) PTE_P = true.
Hypothesis Hinj : forall i j, 0 <= i < k -> 0 <= j < k ->
  frame_of (upte (k_mem s) d0 i) = frame_of (upte (k_mem s) d0 j) -> i = j.

Lemma half_layout : layout s1 [] [d].
Proof.
  destruct (sp_layout _ _ _ (hs_spaces _ _ _ _ _ _ Hh)) as [Hf Hr Hn Hp Hse Hdj].
  assert (Hin : forall d', d' ∈ [d] -> d' ∈ d :: ds) by (intros d' ->%list_elem_of_singleton; apply list_elem_of_here).
  split; try done; [apply NoDup_singleton|auto| |].
  - intros p _ ?%elem_of_nil. done.
  - intros d1 d2 p ->%list_elem_of_singleton ->%list_elem_of_singleton. done.
Qed.

Lemma half_child j : 0 <= j < NUPAGES -> has (upte (k_mem s1) d j) PTE_P = true ->
  j < k /\ frame_of (upte (k_mem s1) d j) = frame_of (upte (k_mem s) d0 j).
Proof.
  intros Hj. rewrite (hs_child _ _ _ _ _ _ Hh j Hj). case_decide; [|done].
  intros _. split; [done|]. apply share_bits, upte_word.
Qed.

Lemma half_spot d' j : d' ∈ d :: ds -> 0 <= j < NUPAGES -> has (upte (k_mem s1) d' j) PTE_P = true ->
  kpage (frame_of (upte (k_mem s1) d' j)) /\ ~ dir_page (k_mem s1) (d :: ds) (frame_of (upte (k_mem s1) d' j)).
Proof.
  intros Hd' Hj HP. assert (Hx : (d', j) ∈ spots (d :: ds)) by (by apply elem_of_spots).
  by destruct (co_frames _ _ _ _ _ (sp_cow _ _ _ (hs_spaces _ _ _ _ _ _ Hh)) d' j Hx HP) as (? & _ & ?).
Qed.

(** The pages of the other directories, and the pages that are not shared. *)
Lemma half_dirs d' q : d' ∈ ds -> pd_pages (k_mem s1) d' q -> bystander s1 [] d q.
Proof.
  intros Hd' Hq. pose proof (sp_layout _ _ _ (hs_spaces _ _ _ _ _ _ Hh)) as Hy.
  assert (Hdp : dir_page (k_mem s1) (d :: ds) q) by (exists d'; split; [by apply list_elem_of_further|done]).
  split_and!; [by eapply layout_kpage|apply not_elem_of_nil| |].
  - intros Hq'. apply (hs_new _ _ _ _ _ _ Hh). rewrite (ly_disj _ _ _ Hy d d' q); try done; [apply list_elem_of_here|by apply list_elem_of_further].
  - intros j Hj HP <-. by destruct (half_spot d j (list_elem_of_here _ _) Hj HP) as [_ []].
Qed.

Lemma half_page d' j : d' ∈ ds -> 0 <= j < NUPAGES -> has (upte (k_mem s1) d' j) PTE_P = true ->
  (forall i, 0 <= i < k -> frame_of (upte (k_mem s) d0 i) <> frame_of (upte (k_mem s1) d' j)) ->
  bystander s1 [] d (frame_of (upte (k_mem s1) d' j)).
Proof.
  intros Hd' Hj HP Hno. destruct (half_spot d' j) as [Hkp Hnd]; [by apply list_elem_of_further|done..|].
  split_and!; [done|apply not_elem_of_nil| |].
  - intros Hq. apply Hnd. exists d. split; [apply list_elem_of_here|done].
  - intros i Hi HPi. destruct (half_child i Hi HPi) as [Hik ->]. apply Hno. lia.
Qed.

Lemma half_entry d' j : (d', j) ∈ spots ds ->
  has (upte (k_mem s1) d' j) PTE_P = has (upte (k_mem s) d' j) PTE_P /\
  frame_of (upte (k_mem s1) d' j) = frame_of (upte (k_mem s) d' j).
Proof.
  intros Hx. rewrite (hs_parent _ _ _ _ _ _ Hh) by done. case_decide as Hd'; [|done]. destruct Hd' as [-> _].
  split; apply share_bits, upte_word.
Qed.

Lemma half_freed e : exists s' l', (freevm d;; mret 0) e s1 = Ok 0 e s' /\ lost_pages ds d0 k s s' l'.
Proof.
  pose proof (hs_spaces _ _ _ _ _ _ Hh) as Hs. pose proof (sp_layout _ _ _ Hs) as Hy.
  destruct (freevm_used s1 [] d half_layout) with (e := e) as (s' & l' & E & Hfl & _ & Hlost & Hm).
  - intros j Hj HP. destruct (half_spot d j (list_elem_of_here _ _) Hj HP) as [Hkp Hnd].
    split_and!; [done|apply not_elem_of_nil|]. intros Hp. apply Hnd. exists d. split; [apply list_elem_of_here|done].
  - intros j Hj. apply (co_zero _ _ _ _ _ (sp_cow _ _ _ Hs)), elem_of_spots. split; [apply list_elem_of_here|done].
  - intros i j Hi Hj HPi HPj. destruct (half_child i Hi HPi) as [? ->], (half_child j Hj HPj) as [? ->]. apply Hinj; lia.
  - assert (He : forall d' j, (d', j) ∈ spots ds -> upte (k_mem s') d' j = upte (k_mem s1) d' j).
    { intros d' j [Hd' Hj]%elem_of_spots. apply pte_of_ext; [apply Hy; by apply list_elem_of_further|by apply page_word|].
      intros q x Hq. by apply Hm, (half_dirs d'). }
    exists s', l'. split; [by mstep E|]. split; [done| | |].
    + intros j Hj. assert (Hc : upte (k_mem s1) d j = share (upte (k_mem s) d0 j))
        by (rewrite (hs_child _ _ _ _ _ _ Hh) by lia; by rewrite decide_True by lia).
      destruct (share_bits (upte (k_mem s) d0 j) (upte_word _ _ _)) as (_ & <- & _ & EP & _). rewrite <- Hc.
      apply Hlost; [lia|]. rewrite Hc, EP. by apply Hall.
    + intros d' j Hx. rewrite He by done. by apply half_entry.
    + intros d' va Hd' Hva Hno. rewrite <- (hs_views _ _ _ _ _ _ Hh d' Hd' va Hva).
      pose proof (page_index va Hva) as Hi. assert (Hx : (d', va / 4096) ∈ spots ds) by (by apply elem_of_spots).
      rewrite !user_byte_eq by done. cbn zeta. rewrite He by done.
      destruct (has (upte (k_mem s1) d' (va / 4096)) PTE_P) eqn:HP; [|done]. cbn. destruct (has _ PTE_U); [|done].
      f_equal. unfold ld8. f_equal. apply (Hm (frame_of (upte (k_mem s1) d' (va / 4096)))).
      * apply half_page; [done..|]. intros i Hik. rewrite (proj2 (half_entry _ _ Hx)). by apply Hno.
      * destruct (frame_content s1 [] (d :: ds) d' (va / 4096) (va mod 4096) Hs) as (_ & Hin & _); try done;
          [apply elem_of_spots; split; [by apply list_elem_of_further|done]|apply Z.mod_pos_bound; lia].
Qed.
End Half.

(** C12: [cow_shareuvm] for a parent all of whose pages below [sz] are present,
    none of them mapped twice.  It returns a new directory that reads as the
    parent's memory below [sz] and as nothing elsewhere, in which no user page
    is writable, as none below [sz] is in the parent any more; what the existing
    processes read does not change.  Or there is no memory for the new directory:
    it returns 0 and no process reads anything else than before.  Or memory runs
    out at page [k] of the parent: it returns 0 as well, but the first [k] pages
    of the parent are on the free list while the parent still maps them; all
    other pages keep their contents.  Both failures need that at most 1025 pages
    were free, the pages of one directory. *)
Theorem cow_shareuvm_shares e s l ds d0 sz i p :
  spaces s l ds -> (length ds < NPROC)%nat -> d0 ∈ ds -> unlocked s Lpg_count -> in_kernel s i p ->
  p_pgdir p <> 0 -> 0 <= sz <= KERNBASE ->
  (forall j, 0 <= j < npages sz -> has (upte (k_mem s) d0 j) PTE_P = true) ->
  (forall j j', 0 <= j < npages sz -> 0 <= j' < npages sz ->
     frame_of (upte (k_mem s) d0 j) = frame_of (upte (k_mem s) d0 j') -> j = j') ->
  exists s' l',
    (exists d, cow_shareuvm d0 sz e s = Ok d e s' /\ shared_child ds d0 sz d s s' l') \/
    (cow_shareuvm d0 sz e s = Ok 0 e s' /\ Z.of_nat (length l) <= 1025 /\ l' = [] /\ spaces s' l' ds /\
       forall d', d' ∈ ds -> same_view (k_mem s) (k_mem s') d') \/
    (exists k, cow_shareuvm d0 sz e s = Ok 0 e s' /\ Z.of_nat (length l) <= 1025 /\ 0 <= k < npages sz /\
       lost_pages ds d0 k s s' l').
Proof.
  intros Hs Hlen Hd0 Hu Hk Hpg Hsz Hall Hinj.
  destruct (cow_shareuvm_run e s l ds d0 sz i p Hs Hlen Hd0 Hu Hk Hpg Hsz Hall)
    as (s1 & [(d & l' & E & Hc)|[(E & Hfew & Hs1 & Hv)|(d & k & E & Hfew & Hkk & Hh)]]).
  - exists s1, l'. left. by exists d.
  - exists s1, []. right. by left.
  - assert (Hkr : 0 <= k < NUPAGES) by (unfold npages, NUPAGES, KERNBASE in *; Z.div_mod_to_equations; lia).
    destruct (half_freed s s1 ds d0 d k Hh Hkr) with (e := e) as (s' & l' & E' & Hl).
    + intros j Hj. apply Hall. lia.
    + intros a b Ha Hb. apply Hinj; lia.
    + exists s', l'. right. right. exists k. split; [congruence|]. done.
Qed.

End CowFail.
