(* ===== verification/UserMem.v ===== *)
(** * User memory: allocuvm and deallocuvm (vm.c)

    Growing and shrinking an address space, as changes of the invariant
    [spaces] of Cow.v: the pages that are added are fresh. *)

From stdpp Require Import base list list_numbers.
From S2P Require Import Prelude Memory Kernel KMonad Boot Mmu Spinlock Kalloc Vm VmWalk VmSpace Cow CowShare CowFree.

Section UserMem.
Context `{Symbols}.

(** ** Fresh pages *)

(** [kalloc] and a write to the page it returned. *)
Lemma spaces_pop s q l ds f :
  spaces s (q :: l) ds -> (forall m, frame (fun p => p = q) m (f m)) ->
  let s1 := upd_mem f (kalloc_state s) in
  spaces s1 l ds /\ unused s1 l ds q /\ k_mem s1 = f (k_mem s) /\ cow_quiet s s1 /\
  (forall d j, (d, j) ∈ spots ds -> upte (k_mem s1) d j = upte (k_mem s) d j) /\
  (forall d, d ∈ ds -> same_view (k_mem s) (k_mem s1) d).
Proof.
  intros Hs Hf s1. destruct (layout_pop s q l ds (sp_layout _ _ _ Hs)) as (Hy & Hk & Hl & Hd).
  assert (Em : k_mem s1 = f (k_mem s)) by (unfold s1; cbn; by rewrite kmem_crit_mem).
  assert (Hf1 : frame (fun p => p = q) (k_mem (kalloc_state s)) (k_mem s1))
    by (rewrite Em, kalloc_state_mem; apply Hf).
  assert (Hd1 : ~ dir_page (k_mem (kalloc_state s)) ds q) by (by rewrite kalloc_state_mem).
  destruct (layout_user (kalloc_state s) s1 l ds q Hy Hk Hl Hd1 Hf1 eq_refl (ly_ready _ _ _ Hy))
    as (Hy1 & Hdp & Hpt & _).
  rewrite kalloc_state_mem in Hdp, Hpt.
  assert (ET : forall d j, (d, j) ∈ spots ds -> upte (k_mem s1) d j = upte (k_mem s) d j).
  { intros d j [Hd' Hj]%elem_of_spots. apply Hpt; [done|by apply page_word]. }
  assert (Hq : refs (upte (k_mem s)) ds q = 0) by (eapply refs_free; [apply Hs|apply list_elem_of_here]).
  split_and!; try done.
  - split; [done| |apply Hs]. eapply cow_mono; [apply Hs|exact ET| | |].
    + intros p Hp. by apply list_elem_of_further.
    + intros p Hp. left. by apply Hdp.
    + intros p _. unfold refcount. cbn. by rewrite (quiet_counters _ _ (quiet_kmem_crit s)).
  - split_and!; [done..|by rewrite Hdp|]. by rewrite (refs_ext (upte (k_mem s))).
  - apply (cow_quiet_trans _ (kalloc_state s)); [apply quiet_cow, quiet_kalloc|done].
  - intros d Hd'. eapply same_view_entries; [exact Hs|done| |].
    + intros j Hj. apply ET. by apply elem_of_spots.
    + intros p x Hkp Hlp Hdp' Hin. rewrite Em. apply (frame_page _ _ _ p (Hf (k_mem s)) Hkp); [|done].
      intros ? ->. split; [done|]. intros ->. apply Hlp. apply list_elem_of_here.
Qed.

(** The counter of a page that nobody maps. *)
Lemma spaces_counter s l ds q v :
  spaces s l ds -> unused s l ds q ->
  spaces (upd_counter (PA_INX (q - KERNBASE)) (fun _ => v) s) l ds.
Proof.
  intros Hs (Hk & Hl & Hd & Hr). split; [|eapply cow_mono; [apply Hs|done..|by left|]|apply Hs].
  - eapply layout_ext; [apply Hs|done..|]. apply (sp_layout _ _ _ Hs).
  - intros p Hpos. rewrite refcount_set, decide_False; try done; [intros ->; lia|].
    eapply refs_kpage; [apply Hs|done].
Qed.

Lemma fresh_entry q perm : kpage q -> 0 <= perm < 4096 ->
  let v := map_entry (q - KERNBASE) perm in
  word v /\ frame_of v = q /\ PTE_ADDR v = q - KERNBASE /\ has v PTE_P = true /\
  forall n, 0 < n < 12 -> has v (2 ^ n) = has perm (2 ^ n).
Proof.
  intros Hk Hp v. pose proof (kpage_bounds q Hk) as (H0 & H1 & H2).
  assert (Hw : word (q - KERNBASE)) by (unfold word, PHYSTOP in *; lia).
  assert (Ea : PTE_ADDR v = q - KERNBASE).
  { unfold v, map_entry. change PTE_P with (2 ^ 0). rewrite PTE_ADDR_set by lia. by apply PTE_ADDR_lor. }
  split_and!.
  - by apply map_entry_word.
  - unfold frame_of. rewrite Ea, <- (v2p_kpage q Hk). apply p2v_v2p. unfold kpage, KERNBASE, PHYSTOP in *. lia.
  - done.
  - unfold v, map_entry. change PTE_P with (2 ^ 0). by rewrite has_testbit, lor_testbit by lia.
  - intros n Hn. unfold v, map_entry. change PTE_P with (2 ^ 0).
    rewrite has_testbit, lor_testbit by lia. destruct (Z.eqb_spec n 0); [lia|]. simpl.
    rewrite <- has_testbit by lia. assert (2 ^ n < 4096) by (change 4096 with (2 ^ 12); apply Z.pow_lt_mono_r; lia).
    pose proof (Z.pow_pos_nonneg 2 n).
    rewrite has_flags, PTE_FLAGS_lor by (done || lia). done.
Qed.

(** The memory of [d] with page [k] replaced. *)
Definition view_but (m m' : mem) (d k : Z) : Prop :=
  forall va, 0 <= va < KERNBASE -> va / 4096 <> k -> user_byte m' d va = user_byte m d va.

(** The mapping of a fresh page is counted. *)
Lemma map_counted s l ds d k q perm s' l' :
  spaces s l ds -> unused s l ds q -> (d, k) ∈ spots ds -> upte (k_mem s) d k = 0 -> 0 <= perm < 4096 ->
  grows ds d s l s' l' ->
  (forall d' j, (d', j) ∈ spots ds ->
     upte (k_mem s') d' j = tset (upte (k_mem s)) d k (map_entry (q - KERNBASE) perm) d' j) ->
  spaces (upd_counter (PA_INX (q - KERNBASE)) (fun _ => 1) s') l' ds.
Proof.
  intros Hs (Hkq & Hlq & Hdq & Hrq) Hx H0 Hperm G ET.
  destruct (fresh_entry q perm Hkq Hperm) as (_ & Ef & _ & EP & _).
  set (s2 := upd_counter (PA_INX (q - KERNBASE)) (fun _ => 1) s').
  split; [|eapply (cow_mono _ _ (refcount s2) _ l' _ _ (dir_page (k_mem s') ds)); [|exact ET|by auto..]|apply Hs].
  - eapply layout_ext; [apply G|done..|]. apply (gr_layout _ _ _ _ _ _ G).
  - apply (cow_alloc _ _ _ _ _ d k (sp_cow _ _ _ Hs) (ly_nodup _ _ _ (sp_layout _ _ _ Hs)) Hx _ q); try done.
    + by rewrite H0.
    + intros Hq. by apply Hlq, (gr_free _ _ _ _ _ _ G).
    + intros Hq. by destruct (gr_dirs _ _ _ _ _ _ G q Hq).
    + apply G.
    + apply G.
    + unfold s2. by rewrite refcount_set, decide_True.
    + intros p Hkp Hne. unfold s2. rewrite refcount_set, decide_False by done. unfold refcount.
      by rewrite (gr_counters _ _ _ _ _ _ G).
Qed.

(** A fresh page is mapped at a free entry. *)
Lemma map_fresh s l ds d k q perm e :
  spaces s l ds -> unused s l ds q -> d ∈ ds -> 0 <= k < NUPAGES -> upte (k_mem s) d k = 0 ->
  0 <= perm < 4096 ->
  exists r s' l', mappages d (4096 * k) 4096 (v2p q) perm e s = Ok r e s' /\
    cow_quiet s s' /\ k_page_counters s' = k_page_counters s /\
    (forall d', d' ∈ ds -> d' <> d -> same_view (k_mem s) (k_mem s') d') /\
    (forall x, in_page q x -> k_mem s' x = k_mem s x) /\ view_but (k_mem s) (k_mem s') d k /\
    ((r = -1 /\ l' = [] /\ spaces s' l' ds /\ unused s' l' ds q /\
        forall d' j, (d', j) ∈ spots ds -> upte (k_mem s') d' j = upte (k_mem s) d' j) \/
     (r = 0 /\ spaces (upd_counter (PA_INX (q - KERNBASE)) (fun _ => 1) s') l' ds /\
        forall d' j, (d', j) ∈ spots ds -> upte (k_mem s') d' j =
          tset (upte (k_mem s)) d k (map_entry (q - KERNBASE) perm) d' j)).
Proof.
  intros Hs Hun Hd Hk H0 Hperm. pose proof Hun as (Hkq & Hlq & Hdq & Hrq). rewrite v2p_kpage by done.
  assert (Hwq : word (q - KERNBASE)) by (pose proof (kpage_bounds q Hkq); unfold word, PHYSTOP in *; lia).
  assert (Hx : (d, k) ∈ spots ds) by (by apply elem_of_spots).
  assert (Ek : 4096 * k / 4096 = k) by (Z.div_mod_to_equations; lia).
  destruct (map_one s l ds d k (q - KERNBASE) perm e Hs Hd Hk H0 Hwq Hperm) as (r & s' & l' & E & Hq & G & Hres).
  exists r, s', l'.
  split_and!; [done|by apply quiet_cow|apply G|intros; by eapply grows_view|intros x; by apply (gr_user _ _ _ _ _ _ G)|..].
  { intros va Hva Hne. eapply grows_byte; [done..|]. pose proof (page_index va Hva) as Hi. pose proof (page_word _ Hi) as Hw.
    destruct Hres as [(_ & _ & P)|[_ P]]; unfold upte; rewrite P by done; [done|].
    destruct (Z.eqb_spec (4096 * (va / 4096) / 4096) (4096 * k / 4096)) as [Ec|]; [|done].
    destruct Hne. Z.div_mod_to_equations. lia. }
  destruct Hres as [(-> & -> & P)|[-> P]]; [left|right].
  - destruct (map_failed s l ds d s' [] Hs G P) as (Hs' & ET & Hun'). split_and!; auto.
  - pose proof (grows_tset _ _ _ _ _ _ _ _ G P) as ET. rewrite Ek in ET.
    split_and!; [done| |done]. by eapply map_counted.
Qed.

(** ** deallocuvm *)

(** The pages [a..b) of [d], which nobody else maps, have been freed. *)
Record freed (s0 : kstate) (l0 ds : list Z) (d a b : Z) (s : kstate) (l : list Z) : Prop := {
  fr_spaces : spaces s l ds;
  fr_quiet : cow_quiet s0 s;
  fr_entries : forall d' j, (d', j) ∈ spots ds -> upte (k_mem s) d' j =
    if decide (d' = d /\ a <= j < b) then 0 else upte (k_mem s0) d' j;
  fr_views : forall d' va, d' ∈ ds -> 0 <= va < KERNBASE -> user_byte (k_mem s) d' va =
    if decide (d' = d /\ a <= va / 4096 < b) then None else user_byte (k_mem s0) d' va;
  fr_tables : forall i, 0 <= i < 1024 -> table_of (k_mem s) d i = table_of (k_mem s0) d i;
  fr_list : forall p, p ∈ l <-> p ∈ l0 \/
    exists j, a <= j < b /\ has (upte (k_mem s0) d j) PTE_P = true /\ frame_of (upte (k_mem s0) d j) = p
}.

(** The pages [a..b) of [d] are mapped nowhere else. *)
Definition own_pages (s : kstate) (ds : list Z) (d a b : Z) : Prop :=
  forall j, a <= j < b -> has (upte (k_mem s) d j) PTE_P = true ->
    refs (upte (k_mem s)) ds (frame_of (upte (k_mem s) d j)) = 1.

Lemma freed_start s l ds d a : spaces s l ds -> freed s l ds d a a s l.
Proof.
  intros Hs. split; try done.
  - intros d' j _. by rewrite decide_False by lia.
  - intros d' va _ _. by rewrite decide_False by lia.
  - intros p. split; [by left|]. intros [?|(j & ? & _)]; [done|lia].
Qed.

Lemma freed_refs s0 l0 ds d a b s l p :
  freed s0 l0 ds d a b s l -> refs (upte (k_mem s)) ds p <= refs (upte (k_mem s0)) ds p.
Proof.
  intros Hf. apply zsum_mono. intros [d' j] Hx. simpl. rewrite (fr_entries _ _ _ _ _ _ _ _ Hf) by done.
  case_decide; [|lia]. apply maps_range.
Qed.

Section FreeLoop.
Context (s0 : kstate) (l0 ds : list Z) (d a N : Z).
Hypothesis Hd : d ∈ ds.
Hypothesis Ha : 0 <= a.
Hypothesis HN : N <= NUPAGES.
Hypothesis Hown : own_pages s0 ds d a N.

Lemma freed_more b b' s l :
  freed s0 l0 ds d a b s l -> a <= b <= b' -> b' <= NUPAGES ->
  (forall j, b <= j < b' -> upte (k_mem s) d j = 0) -> freed s0 l0 ds d a b' s l.
Proof.
  intros [Hs Hq He Hv Ht Hl] Hb Hb' Hz.
  assert (Hz0 : forall j, b <= j < b' -> upte (k_mem s0) d j = 0).
  { intros j Hj. rewrite <- (Hz j Hj), He by (apply elem_of_spots; split; [done|lia]).
    by rewrite decide_False by lia. }
  split; try done.
  - intros d' j Hj. rewrite He by done. destruct (decide (d' = d /\ a <= j < b)) as [[-> ?]|Nb].
    + by rewrite decide_True by lia.
    + destruct (decide (d' = d /\ a <= j < b')) as [[-> ?]|Nb']; [|done]. apply Hz0. lia.
  - intros d' va Hd' Hva. rewrite Hv by done. destruct (decide (d' = d /\ a <= va / 4096 < b)) as [[-> ?]|Nb].
    + by rewrite decide_True by lia.
    + destruct (decide (d' = d /\ a <= va / 4096 < b')) as [[-> ?]|Nb']; [|done].
      rewrite user_byte_eq by done. cbn zeta. by rewrite Hz0 by lia.
  - intros p. rewrite Hl. split; (intros [?|(j & Hj & HP & Hf)]; [by left|right]); exists j.
    + split; [lia|done].
    + split; [|done]. destruct (Z_lt_le_dec j b); [lia|]. by rewrite Hz0 in HP by lia.
Qed.

Lemma freed_step k s l t e :
  freed s0 l0 ds d a k s l -> a <= k < N -> table_of (k_mem s) d (PDX (4096 * k)) = Some t ->
  has (upte (k_mem s) d k) PTE_P = true ->
  exists s' l', free_page (t + 4 * PTX (4096 * k)) (PTE_ADDR (upte (k_mem s) d k)) e s = Ok tt e s' /\
    freed s0 l0 ds d a (k + 1) s' l'.
Proof.
  intros Hfd Hk Ht HP. pose proof Hfd as [Hs Hq He Hv Htb Hl].
  assert (Hva : 0 <= 4096 * k < KERNBASE) by (unfold NUPAGES, KERNBASE in *; lia).
  assert (Ei : 4096 * k / 4096 = k) by (Z.div_mod_to_equations; lia).
  assert (Hxk : (d, k) ∈ spots ds) by (apply elem_of_spots; split; [done|lia]).
  assert (E0 : upte (k_mem s) d k = upte (k_mem s0) d k) by (rewrite He, decide_False by (done || lia); done).
  assert (R1 : refs (upte (k_mem s)) ds (frame_of (upte (k_mem s) d k)) = 1).
  { pose proof (refs_pos (upte (k_mem s)) ds _ d k Hxk HP eq_refl).
    pose proof (freed_refs _ _ _ _ _ _ _ _ (frame_of (upte (k_mem s) d k)) Hfd).
    rewrite E0 in *. rewrite (Hown k) in * by (done || lia). lia. }
  destruct (free_page_ok s l ds d (4096 * k) t Hs Hd Hva Ht HP e R1) as (s' & l' & E & Hs' & Hq' & ET & EV & T3 & EL).
  rewrite Ei in *. fold (upte (k_mem s) d k) in *.
  exists s', l'. split; [done|]. split; [done|by eapply cow_quiet_trans|..].
  - intros d' j Hj. rewrite ET by done. unfold tset. rewrite He by done.
    repeat case_decide; try done; exfalso; naive_solver lia.
  - intros d' va Hd' Hva'. rewrite EV, Hv by done. repeat case_decide; try done; exfalso; naive_solver lia.
  - intros j Hj. by rewrite T3, Htb.
  - intros p. rewrite EL, Hl, E0. split.
    + intros [[?|(j & Hj & Hjp)]| ->]; [by left|right; exists j; split; [lia|done]|].
      right. exists k. rewrite E0 in HP. split; [lia|done].
    + intros [?|(j & Hj & HPj & Ef)]; [auto|]. destruct (Z.eq_dec j k) as [->|]; [by right|].
      left. right. exists j. split; [lia|done].
Qed.

End FreeLoop.

(** [deallocuvm] on pages that are not shared: they are gone from the
    address space and on the free list, nothing else that a process reads
    changes, and the result is the new size. *)
Theorem deallocuvm_frees `{!SymbolsOk} e s l ds d oldsz newsz :
  spaces s l ds -> d ∈ ds -> 0 <= newsz < oldsz -> oldsz <= KERNBASE ->
  no_gap (k_mem s) d (npages newsz) -> own_pages s ds d (npages newsz) (npages oldsz) ->
  exists s' l', deallocuvm d oldsz newsz e s = Ok newsz e s' /\
    freed s l ds d (npages newsz) (npages oldsz) s' l'.
Proof.
  intros Hs Hd Hn Ho Hgap Hown. unfold deallocuvm.
  rewrite (proj2 (Z.leb_gt oldsz newsz)) by lia.
  rewrite PGROUNDUP_eq by (unfold KERNBASE in *; lia). fold (npages newsz). rewrite (Z.mul_comm (npages newsz)).
  assert (Hle : 0 <= npages newsz <= npages oldsz) by (unfold npages; Z.div_mod_to_equations; lia).
  assert (HN : npages oldsz <= NUPAGES) by (unfold npages, NUPAGES, KERNBASE in *; Z.div_mod_to_equations; lia).
  destruct (dealloc_loop_ok (k_mem s) ds d (npages newsz) oldsz free_page
    (freed s l ds d (npages newsz)) Hd (proj1 Hle) ltac:(lia))
    with (n := S (Z.to_nat (oldsz / PGSIZE))) (k := npages newsz) (s := s) (l := l) (e := e)
    as (s1 & l1 & E & Hfr).
  - intros k s1 l1 Hfr. apply spaces_mapped; [apply Hfr|done].
  - intros k s1 l1 i Hfr. apply (fr_tables _ _ _ _ _ _ _ _ Hfr).
  - intros k k' s1 l1 Hfr Hk Hk' Hz. eapply freed_more; [exact Hd|apply Hle|exact Hfr|done..].
  - intros k s1 l1 t e' Hfr Hk Ht HP. eapply freed_step; [exact Hd|apply Hle|exact HN|exact Hown|exact Hfr|done..].
  - fold (npages oldsz). rewrite Z.min_l by apply Hle. by apply freed_start.
  - lia.
  - exact Hgap.
  - unfold PGSIZE, npages. Z.div_mod_to_equations. lia.
  - exists s1, l1. split; [by mstep E|done].
Qed.

(** ** allocuvm *)

(** The pages [a..k) of [d] are new, zero and writable. *)
Record grown (s0 : kstate) (ds : list Z) (d a k : Z) (s : kstate) (l : list Z) : Prop := {
  gw_spaces : spaces s l ds;
  gw_quiet : cow_quiet s0 s;
  gw_views : forall d', d' ∈ ds -> d' <> d -> same_view (k_mem s0) (k_mem s) d';
  gw_bytes : forall va, 0 <= va < KERNBASE -> user_byte (k_mem s) d va =
    if decide (a <= va / 4096 < k) then Some 0 else user_byte (k_mem s0) d va;
  gw_new : forall j, a <= j < k -> j < NUPAGES -> has (upte (k_mem s) d j) PTE_P = true /\
    has (upte (k_mem s) d j) PTE_U = true /\ has (upte (k_mem s) d j) PTE_W = true;
  gw_old : forall j, 0 <= j < NUPAGES -> ~ (a <= j < k) -> upte (k_mem s) d j = upte (k_mem s0) d j
}.

Lemma frame_zero q : kpage q -> forall m, frame (fun p => p = q) m (mset m (v2p q) 0 PGSIZE).
Proof. intros Hk m. rewrite v2p_kpage by done. apply frame_mset. Qed.

Section AllocLoop.
Context (s0 : kstate) (ds : list Z) (d a : Z).
Hypothesis Hd : d ∈ ds.
Hypothesis Ha : 0 <= a.

(** A state in which nothing changed for the directories. *)
Lemma grown_same k s l s' l' :
  grown s0 ds d a k s l -> spaces s' l' ds -> cow_quiet s s' ->
  (forall d' j, (d', j) ∈ spots ds -> upte (k_mem s') d' j = upte (k_mem s) d' j) ->
  (forall d', d' ∈ ds -> same_view (k_mem s) (k_mem s') d') -> grown s0 ds d a k s' l'.
Proof.
  intros [Hs Hq Hv Hb Hn Ho] Hs' Hq' ET Hv'.
  assert (ETd : forall j, 0 <= j < NUPAGES -> upte (k_mem s') d j = upte (k_mem s) d j)
    by (intros j Hj; apply ET; by apply elem_of_spots).
  split.
  - done.
  - by eapply cow_quiet_trans.
  - intros d' Hd' Hne. eapply same_view_trans; [by apply Hv|by apply Hv'].
  - intros va Hva. rewrite (Hv' d Hd va Hva). by apply Hb.
  - intros j Hj Hlt. rewrite ETd by lia. by apply Hn.
  - intros j Hj Hn'. rewrite ETd by done. by apply Ho.
Qed.

(** The next page is mapped. *)
Lemma grown_step k s l q s1 s2 l2 :
  grown s0 ds d a k s l -> a <= k < NUPAGES -> kpage q ->
  cow_quiet s s1 -> (forall d', d' ∈ ds -> same_view (k_mem s) (k_mem s1) d') ->
  (forall d' j, (d', j) ∈ spots ds -> upte (k_mem s1) d' j = upte (k_mem s) d' j) ->
  (forall x, in_page q x -> k_mem s1 x = 0) ->
  cow_quiet s1 s2 -> (forall d', d' ∈ ds -> d' <> d -> same_view (k_mem s1) (k_mem s2) d') ->
  (forall x, in_page q x -> k_mem s2 x = k_mem s1 x) -> view_but (k_mem s1) (k_mem s2) d k ->
  spaces s2 l2 ds ->
  (forall d' j, (d', j) ∈ spots ds -> upte (k_mem s2) d' j =
     tset (upte (k_mem s1)) d k (map_entry (q - KERNBASE) (Z.lor PTE_W PTE_U)) d' j) ->
  grown s0 ds d a (k + 1) s2 l2.
Proof.
  intros [Hs Hq Hv Hb Hn Ho] Hk Hkq Hq1 Hv1 ET1 Hz Hq2 Hv2 Hx2 Hvb Hs2 ET2.
  destruct (fresh_entry q (Z.lor PTE_W PTE_U) Hkq ltac:(vm_compute; split; congruence)) as (_ & _ & Ea & EP & EF).
  pose proof (EF 1 ltac:(lia)) as EW. pose proof (EF 2 ltac:(lia)) as EU.
  change (has (Z.lor PTE_W PTE_U) (2 ^ 1)) with true in EW. change (has (Z.lor PTE_W PTE_U) (2 ^ 2)) with true in EU.
  change (2 ^ 1) with PTE_W in EW. change (2 ^ 2) with PTE_U in EU.
  assert (ETd : forall j, 0 <= j < NUPAGES -> upte (k_mem s2) d j =
    if decide (j = k) then map_entry (q - KERNBASE) (Z.lor PTE_W PTE_U) else upte (k_mem s) d j).
  { intros j Hj. assert (Hx : (d, j) ∈ spots ds) by (by apply elem_of_spots). rewrite ET2 by done. unfold tset.
    destruct (decide (j = k)) as [->|Hne]; [by rewrite decide_True|]. rewrite decide_False by naive_solver.
    by apply ET1. }
  split.
  - done.
  - eapply cow_quiet_trans; [exact Hq|]. by eapply cow_quiet_trans.
  - intros d' Hd' Hne. eapply same_view_trans; [by apply Hv|]. eapply same_view_trans; [by apply Hv1|by apply Hv2].
  - intros va Hva. destruct (Z.eq_dec (va / 4096) k) as [E|Hne].
    + rewrite decide_True by lia. rewrite user_byte_eq by done. cbn zeta.
      rewrite ETd, decide_True, EP, EU, Ea by (done || by apply page_index). simpl. f_equal. unfold ld8.
      pose proof (Z.mod_pos_bound va 4096 ltac:(lia)).
      rewrite Hx2, Hz by (unfold in_page; lia). done.
    + rewrite Hvb, (Hv1 d Hd), Hb by done. destruct (decide (a <= va / 4096 < k)).
      * by rewrite decide_True by lia.
      * by rewrite decide_False by lia.
  - intros j Hj Hlt. rewrite ETd by lia. case_decide; [done|]. apply Hn; lia.
  - intros j Hj Hnj. rewrite ETd by done. rewrite decide_False by lia. apply Ho; [done|lia].
Qed.

Lemma grown_crit k s l : grown s0 ds d a k s l -> grown s0 ds d a k (kmem_crit s) l.
Proof.
  intros Hg. pose proof (gw_spaces _ _ _ _ _ _ _ Hg) as Hs.
  apply (grown_same k s l); [done| |apply quiet_cow, quiet_kmem_crit|by rewrite kmem_crit_mem|].
  - eapply spaces_ext; [exact Hs|apply kmem_crit_mem|apply kmem_crit_kmem|
      exact (quiet_counters _ _ (quiet_kmem_crit _))|apply kmem_crit_ready, Hs].
  - intros d' _. rewrite kmem_crit_mem. apply same_view_refl.
Qed.

(** One page: [kalloc], [memset], [mappages], the counter. *)
Lemma alloc_page k s q l e :
  grown s0 ds d a k s (q :: l) -> a <= k < NUPAGES -> upte (k_mem s0) d k = 0 ->
  let s1 := upd_mem (fun m => mset m (v2p q) 0 PGSIZE) (kalloc_state s) in
  exists r s2 l2, mappages d (4096 * k) PGSIZE (v2p q) (Z.lor PTE_W PTE_U) e s1 = Ok r e s2 /\
    let s3 := upd_counter (PA_INX (v2p q)) (fun _ => 1) s2 in
    (grown s0 ds d a (k + 1) s3 l2 \/ l2 = [] /\ grown s0 ds d a k s3 l2).
Proof.
  intros Hg Hk H0 s1. pose proof (gw_spaces _ _ _ _ _ _ _ Hg) as Hs.
  assert (Hkq : kpage q) by (eapply free_list_page; [apply Hs|apply list_elem_of_here]).
  destruct (spaces_pop s q l ds (fun m => mset m (v2p q) 0 PGSIZE) Hs (frame_zero q Hkq))
    as (Hs1 & Hun & Em & Hq1 & ET1 & Hv1). fold s1 in Hs1, Hun, Em, Hq1, ET1, Hv1.
  assert (Hx : (d, k) ∈ spots ds) by (apply elem_of_spots; split; [done|lia]).
  assert (E0 : upte (k_mem s1) d k = 0) by (rewrite ET1 by done; rewrite (gw_old _ _ _ _ _ _ _ Hg) by lia; done).
  destruct (map_fresh s1 l ds d k q (Z.lor PTE_W PTE_U) e Hs1 Hun Hd ltac:(lia) E0)
    as (r & s2 & l2 & E & Hq2 & Hc2 & Hv2 & Hx2 & Hvb & Hres); [vm_compute; split; congruence|].
  exists r, s2, l2. split; [exact E|]. cbn zeta. rewrite v2p_kpage by done.
  destruct Hres as [(_ & -> & Hs2 & Hun2 & ET2)|(_ & Hs2 & ET2)]; [right|left].
  - split; [done|]. apply (grown_same k s (q :: l)); [done|by apply spaces_counter| | |].
    + eapply cow_quiet_trans; [exact Hq1|]. by eapply cow_quiet_trans; [exact Hq2|].
    + intros d' j Hj. cbn [k_mem upd_counter set_k_page_counters]. by rewrite ET2, ET1.
    + intros d' Hd' va Hva. cbn [k_mem upd_counter set_k_page_counters].
      rewrite <- (Hv1 d' Hd' va Hva). destruct (decide (d' = d)) as [->|Hne]; [|by apply Hv2].
      destruct (Z.eq_dec (va / 4096) k) as [Ek|]; [|by apply Hvb].
      rewrite !user_byte_eq by done. cbn zeta. rewrite ET2 by (by apply rv_spot). by rewrite Ek, E0.
  - eapply (grown_step k s (q :: l) q s1); try done.
    intros x Hin. rewrite Em, v2p_kpage by done. by rewrite mset_in.
Qed.

Lemma alloc_turn k s l n oldsz newsz e :
  grown s0 ds d a k s l -> a <= k < npages newsz -> newsz < KERNBASE -> upte (k_mem s0) d k = 0 ->
  (l = [] /\ grown s0 ds d a k (kmem_crit s) [] /\
     allocuvm_loop (S n) d (4096 * k) oldsz newsz e s = (deallocuvm d newsz oldsz;; mret 0) e (kmem_crit s)) \/
  exists s' l',
    allocuvm_loop (S n) d (4096 * k) oldsz newsz e s = allocuvm_loop n d (4096 * (k + 1)) oldsz newsz e s' /\
    (grown s0 ds d a (k + 1) s' l' \/ l' = [] /\ grown s0 ds d a k s' l').
Proof.
  intros Hg Hk Hsz H0. pose proof (gw_spaces _ _ _ _ _ _ _ Hg) as Hs. cbn [allocuvm_loop].
  assert (Hr : a <= k < NUPAGES /\ 4096 * k < newsz)
    by (unfold npages, NUPAGES, KERNBASE in *; Z.div_mod_to_equations; lia).
  rewrite (proj2 (Z.ltb_lt _ _) (proj2 Hr)).
  replace (u32 (4096 * k + PGSIZE)) with (4096 * (k + 1))
    by (unfold PGSIZE; rewrite u32_small; unfold NUPAGES in *; lia).
  destruct l as [|q l].
  - left. split; [done|]. split; [by apply grown_crit|].
    destruct (kalloc_none e s) as [E _]; [apply Hs|apply Hs|]. by mstep E.
  - right. destruct (alloc_page k s q l e Hg (proj1 Hr) H0) as (r & s2 & l2 & E & Hres).
    eexists _, l2. split; [|exact Hres].
    destruct (kalloc_pop e s q l) as [Ek _]; [apply Hs|apply Hs|]. mstep Ek.
    assert (Hkq : kpage q) by (eapply free_list_page; [apply Hs|apply list_elem_of_here]).
    rewrite (proj2 (Z.eqb_neq _ _) (kpage_nonzero q Hkq)). unfold memset, set_counter. mstep. mstep E. by mstep.
Qed.

Lemma alloc_out k s n oldsz newsz e :
  spaces s [] ds -> 4096 * k < newsz ->
  allocuvm_loop (S n) d (4096 * k) oldsz newsz e s = (deallocuvm d newsz oldsz;; mret 0) e (kmem_crit s).
Proof.
  intros Hs Hk. cbn [allocuvm_loop]. rewrite (proj2 (Z.ltb_lt _ _) Hk).
  destruct (kalloc_none e s) as [E _]; [apply Hs|apply Hs|]. by mstep E.
Qed.

Lemma alloc_end k s n oldsz newsz e :
  newsz <= 4096 * k -> allocuvm_loop n d (4096 * k) oldsz newsz e s = Ok newsz e s.
Proof. intros Hk. destruct n; [done|]. cbn [allocuvm_loop]. by rewrite (proj2 (Z.ltb_ge _ _) Hk). Qed.

Lemma alloc_loop_ok n : forall k s l oldsz newsz e,
  grown s0 ds d a k s l -> a <= k <= npages newsz -> npages newsz <= k + Z.of_nat n -> newsz < KERNBASE ->
  (forall j, a <= j < npages newsz -> upte (k_mem s0) d j = 0) ->
  exists s' l',
    (allocuvm_loop n d (4096 * k) oldsz newsz e s = Ok newsz e s' /\ grown s0 ds d a (npages newsz) s' l') \/
    (allocuvm_loop n d (4096 * k) oldsz newsz e s = Ok newsz e s' /\ l' = [] /\ a < npages newsz /\
       grown s0 ds d a (npages newsz - 1) s' l') \/
    (allocuvm_loop n d (4096 * k) oldsz newsz e s = (deallocuvm d newsz oldsz;; mret 0) e s' /\ l' = [] /\
       exists k', a <= k' < npages newsz /\ grown s0 ds d a k' s' l').
Proof.
  induction n as [|n IH]; intros k s l oldsz newsz e Hg Hk Hn Hsz H0.
  { exists s, l. left. assert (npages newsz = k) as -> by lia. done. }
  assert (Hiff : forall j, 4096 * j < newsz <-> j < npages newsz)
    by (intros j; unfold npages; Z.div_mod_to_equations; lia).
  destruct (Z_lt_le_dec k (npages newsz)) as [Hlt|Hge].
  2: { exists s, l. left. assert (npages newsz = k) as -> by lia. split; [|done].
       apply alloc_end. apply Z.nlt_ge. rewrite Hiff. lia. }
  destruct (alloc_turn k s l n oldsz newsz e Hg ltac:(lia) Hsz (H0 k ltac:(lia)))
    as [(-> & Hg' & E)|(s' & l' & E & [Hg'|[-> Hg']])]; rewrite E.
  - exists (kmem_crit s), []. right. right. split_and!; [done..|]. exists k. split; [lia|done].
  - by apply (IH (k + 1) s' l' oldsz newsz e); [|lia..|].
  - destruct (Z_lt_le_dec (k + 1) (npages newsz)) as [Hlt'|Hge'].
    + destruct n as [|n]; [lia|]. exists (kmem_crit s'), []. right. right.
      split; [apply alloc_out; [apply Hg'|by apply Hiff]|]. split; [done|]. exists k.
      split; [lia|by apply grown_crit].
    + exists s', []. right. left. rewrite alloc_end by (apply Z.nlt_ge; rewrite Hiff; lia).
      split_and!; [done|done|lia|]. by replace (npages newsz - 1) with k by lia.
Qed.

End AllocLoop.

Lemma grown_start s l ds d a : spaces s l ds -> grown s ds d a a s l.
Proof.
  intros Hs. split; try done.
  - intros va _. by rewrite decide_False by lia.
  - intros j Hj. lia.
Qed.

(** C38: [allocuvm] from [oldsz] to [newsz], when no page in between is
    mapped: it returns [newsz] with new pages in between, which read as zero,
    are writable by the process and mapped nowhere else, and nobody's memory
    changes otherwise.  If memory runs out it goes on with [deallocuvm] and
    the result 0; except that when the page table for the last page cannot be
    allocated it returns [newsz] with that page not mapped. *)
Theorem allocuvm_grows e s l ds d oldsz newsz :
  spaces s l ds -> d ∈ ds -> 0 <= oldsz <= newsz -> newsz < KERNBASE ->
  (forall j, npages oldsz <= j < npages newsz -> upte (k_mem s) d j = 0) ->
  exists s' l',
    (allocuvm d oldsz newsz e s = Ok newsz e s' /\
       grown s ds d (npages oldsz) (npages newsz) s' l' /\ own_pages s' ds d (npages oldsz) (npages newsz)) \/
    (allocuvm d oldsz newsz e s = Ok newsz e s' /\ l' = [] /\ npages oldsz < npages newsz /\
       grown s ds d (npages oldsz) (npages newsz - 1) s' l') \/
    (allocuvm d oldsz newsz e s = (deallocuvm d newsz oldsz;; mret 0) e s' /\ l' = [] /\
       exists k, npages oldsz <= k < npages newsz /\ grown s ds d (npages oldsz) k s' l').
Proof.
  intros Hs Hd Ho Hsz H0. unfold allocuvm.
  rewrite (proj2 (Z.leb_gt KERNBASE newsz)), (proj2 (Z.ltb_ge newsz oldsz)) by lia.
  rewrite PGROUNDUP_eq by (unfold KERNBASE in *; lia). fold (npages oldsz). rewrite (Z.mul_comm (npages oldsz)).
  assert (Ha : 0 <= npages oldsz <= npages newsz) by (unfold npages; Z.div_mod_to_equations; lia).
  destruct (alloc_loop_ok s ds d (npages oldsz) Hd (proj1 Ha) (S (Z.to_nat (newsz / PGSIZE))) (npages oldsz) s l
    oldsz newsz e (grown_start s l ds d _ Hs)) as (s' & l' & Hres); [lia| |done|done|].
  { unfold npages, PGSIZE in *. Z.div_mod_to_equations. lia. }
  exists s', l'. destruct Hres as [[E Hg]|[?|?]]; [left|right; by left|right; by right].
  split_and!; [done..|]. intros j Hj HP.
  assert (Hn : j < NUPAGES) by (unfold npages, NUPAGES, KERNBASE in *; Z.div_mod_to_equations; lia).
  apply (co_excl _ _ _ _ _ (sp_cow _ _ _ (gw_spaces _ _ _ _ _ _ _ Hg))); [|done|by apply (gw_new _ _ _ _ _ _ _ Hg)].
  apply elem_of_spots. split; [done|lia].
Qed.

End UserMem.
