(* ===== verification/VmSamples.v ===== *)
(** * Sample address spaces

    Small address spaces, built by the definitions of the model, at which the
    theorems about the memory of processes apply: a kernel with one running
    process and six free pages, two page directories in the first two of them,
    and a user page in the third, mapped in one of the directories or shared by
    both. *)

From stdpp Require Import base list list_numbers.

From S2P Require Import Prelude Memory Kernel KMonad Boot Mmu Spinlock Kalloc Sched Vm VmWalk VmSpace Cow CowShare CowFree CowFail UserMem.

Definition pg (n : Z) : Z := 2148630528 + 4096 * n.
Definition six_pages : list Z := [pg 0; pg 1; pg 2; pg 3; pg 4; pg 5].
Definition link (n : Z) (m : mem) : mem := st32 m (pg n - KERNBASE) (pg (n + 1)).

(** Process 0 runs with directory [pg 0] and size 4096 and has faulted at 16. *)
Definition six_state : kstate :=
  upd_kmem (fun _ => mkKmem 1 (pg 0))
    (upd_mem (fun m => link 4 (link 3 (link 2 (link 1 (link 0 m)))))
      (upd_cpu (set_c_cr2 16) (upd_proc 0 (fun p => set_p_sz 4096 (set_p_pgdir (pg 0) p)) one_running))).

Definition new_dir_state (d : Z) (s : kstate) : kstate :=
  upd_mem (fun m => mset m (d - KERNBASE) 0 4096) (kalloc_state s).
Definition after {A} (r : res A) (s0 : kstate) : kstate := match r with Ok _ _ s => s | _ => s0 end.
Definition code (r : res Z) : Z := match r with Ok v _ _ => v | _ => -2 end.

Definition dirs_state : kstate := new_dir_state (pg 1) (new_dir_state (pg 0) six_state).
(** A user page, filled with zeroes. *)
Definition page_state : kstate :=
  upd_mem (fun m => mset m (v2p (pg 2)) 0 PGSIZE) (kalloc_state dirs_state).
Definition map_page (perm : Z) : res Z :=
  mappages (pg 0) (4096 * 0) 4096 (v2p (pg 2)) perm [] page_state.
Definition one_page (perm : Z) : kstate :=
  upd_counter (PA_INX (pg 2 - KERNBASE)) (fun _ => 1) (after (map_page perm) page_state).
(** Page 0 of directory [pg 0] is its own, or is shared with [pg 1]. *)
Definition own_state : kstate := one_page 6.
Definition ro_state : kstate := one_page 516.
Definition share_page_0 : res Z :=
  let v := upte (k_mem ro_state) (pg 0) 0 in
  mappages (pg 1) (4096 * 0) 4096 (PTE_ADDR v) (PTE_FLAGS v) [] ro_state.
Definition shared_state : kstate :=
  let s := after share_page_0 ro_state in
  after (inc_counter (PTE_ADDR (upte (k_mem ro_state) (pg 0) 0)) [] s) s.

Section Samples.
Local Existing Instance sample_symbols.
Local Existing Instance sample_symbols_ok.

Lemma six_ready : kmem_ready six_state.
Proof. split; [split; done|done]. Qed.

Lemma six_free : free_list six_state six_pages.
Proof.
  split.
  - vm_compute. repeat split; reflexivity.
  - apply (bool_decide_unpack _). vm_compute. exact I.
  - repeat constructor; vm_compute; done.
Qed.

Lemma six_in_kernel : exists p, in_kernel six_state 0 p /\ p_pgdir p = pg 0 /\ p_sz p = 4096.
Proof.
  eexists. split; [split; [reflexivity|reflexivity| |split; done]|done].
  exists (0, 0)%nat. eexists. split; reflexivity.
Qed.

Lemma sample_new_dir s l ds d :
  spaces s (d :: l) ds -> (length ds < NPROC)%nat -> spaces (new_dir_state d s) l (d :: ds) /\
  cow_quiet s (new_dir_state d s) /\
  (forall d' j, (d', j) ∈ spots ds -> upte (k_mem (new_dir_state d s)) d' j = upte (k_mem s) d' j) /\
  (forall j, 0 <= j < NUPAGES -> upte (k_mem (new_dir_state d s)) d j = 0).
Proof.
  intros Hs Hn. destruct (fresh_dir s l d) as [Hnd Hz]; [apply Hs|apply Hs|].
  destruct (spaces_new_dir s (d :: l) ds d _ l Hs Hn Hnd) as [Hs' _].
  { intros v Hv. apply Hz. unfold word, KERNBASE in *. lia. }
  split_and!; [done|apply quiet_cow, (nd_quiet _ _ _ _ _ Hnd)| |].
  - intros d' j. by apply (nd_entries s (d :: l) ds d _ l (sp_layout _ _ _ Hs) Hnd).
  - intros j Hj. apply Hz. by apply page_word.
Qed.

Definition two_dirs : list Z := [pg 1; pg 0].

Lemma dir0_in : pg 0 ∈ two_dirs.
Proof. right. left. Qed.
Lemma dir1_in : pg 1 ∈ two_dirs.
Proof. left. Qed.
Lemma spot0 d : d ∈ two_dirs -> (d, 0) ∈ spots two_dirs.
Proof. intros Hd. by apply elem_of_spots. Qed.

Lemma dirs_ok : spaces dirs_state [pg 2; pg 3; pg 4; pg 5] two_dirs /\ cow_quiet six_state dirs_state /\
  forall d j, (d, j) ∈ spots two_dirs -> upte (k_mem dirs_state) d j = 0.
Proof.
  destruct (sample_new_dir six_state [pg 1; pg 2; pg 3; pg 4; pg 5] [] (pg 0)) as (H1 & Q1 & _ & Z1);
    [apply spaces_none; [exact six_free|exact six_ready]|unfold NPROC; simpl; lia|].
  destruct (sample_new_dir _ _ _ (pg 1) H1) as (H2 & Q2 & E2 & Z2); [unfold NPROC; simpl; lia|].
  split_and!; [exact H2|by eapply cow_quiet_trans|].
  intros d j [Hd Hj]%elem_of_spots. apply elem_of_cons in Hd as [->|Hd]; [by apply Z2|].
  unfold dirs_state. rewrite E2 by (by apply elem_of_spots). apply list_elem_of_singleton in Hd as ->. by apply Z1.
Qed.

Lemma page_ok : spaces page_state [pg 3; pg 4; pg 5] two_dirs /\ cow_quiet six_state page_state /\
  unused page_state [pg 3; pg 4; pg 5] two_dirs (pg 2) /\
  forall d j, (d, j) ∈ spots two_dirs -> upte (k_mem page_state) d j = 0.
Proof.
  destruct dirs_ok as (Hs & Hq & Hz).
  destruct (spaces_pop dirs_state (pg 2) [pg 3; pg 4; pg 5] two_dirs (fun m => mset m (v2p (pg 2)) 0 PGSIZE) Hs)
    as (Hs1 & Hu & _ & Hq1 & He & _).
  { apply frame_zero. split; vm_compute; done. }
  split_and!; [exact Hs1|by eapply cow_quiet_trans|done|].
  intros d j Hx. unfold page_state. by rewrite He, Hz.
Qed.

Local Opaque page_state.

(** The mapping succeeds. *)
Lemma one_page_ok perm :
  code (map_page perm) = 0 -> 0 <= perm < 4096 ->
  exists l, spaces (one_page perm) l two_dirs /\ cow_quiet six_state (one_page perm) /\
  forall d j, (d, j) ∈ spots two_dirs -> upte (k_mem (one_page perm)) d j =
    tset (fun _ _ => 0) (pg 0) 0 (map_entry (pg 2 - KERNBASE) perm) d j.
Proof.
  intros Hc Hp. destruct page_ok as (Hs & Hq & Hu & Hz).
  assert (H0 : upte (k_mem page_state) (pg 0) 0 = 0) by (apply Hz, spot0, dir0_in).
  assert (Hk : 0 <= 0 < NUPAGES) by (unfold NUPAGES; lia).
  pose proof (map_fresh page_state _ two_dirs (pg 0) 0 (pg 2) perm [] Hs Hu dir0_in Hk H0 Hp) as Hm.
  destruct Hm as (r & s' & l' & E & Hq' & _ & _ & _ & _ & Hres).
  unfold code, one_page in *. unfold map_page in *. rewrite E in *. cbn [after] in *.
  destruct Hres as [(-> & _)|(_ & Hs' & He)]; [discriminate Hc|]. clear Hc E. exists l'. split_and!; [exact Hs'| |].
  - eapply cow_quiet_trans; [exact Hq|]. eapply cow_quiet_trans; [exact Hq'|]. done.
  - intros d j Hx. cbn. rewrite He by done. unfold tset. by rewrite Hz.
Qed.

(** The entry of the page in the two states. *)
Lemma own_ok : exists l, spaces own_state l two_dirs /\ cow_quiet six_state own_state /\
  forall d j, (d, j) ∈ spots two_dirs ->
    upte (k_mem own_state) d j = tset (fun _ _ => 0) (pg 0) 0 (map_entry (pg 2 - KERNBASE) 6) d j.
Proof. apply (one_page_ok 6); [vm_compute; reflexivity|lia]. Qed.

Lemma ro_ok : exists l, spaces ro_state l two_dirs /\ cow_quiet six_state ro_state /\
  forall d j, (d, j) ∈ spots two_dirs ->
    upte (k_mem ro_state) d j = tset (fun _ _ => 0) (pg 0) 0 (map_entry (pg 2 - KERNBASE) 516) d j.
Proof. apply (one_page_ok 516); [vm_compute; reflexivity|lia]. Qed.
Local Opaque own_state ro_state.

Lemma shared_ok : exists l, spaces shared_state l two_dirs /\ cow_quiet six_state shared_state /\
  forall d, d ∈ two_dirs -> upte (k_mem shared_state) d 0 = map_entry (pg 2 - KERNBASE) 516.
Proof.
  destruct ro_ok as (l & Hs & Hq & He).
  assert (H0 : upte (k_mem ro_state) (pg 0) 0 = map_entry (pg 2 - KERNBASE) 516)
    by (rewrite He by (apply spot0, dir0_in); by rewrite tset_eq).
  assert (H1 : upte (k_mem ro_state) (pg 1) 0 = 0)
    by (by rewrite He by (apply spot0, dir1_in)).
  set (v := map_entry (pg 2 - KERNBASE) 516) in H0.
  assert (HP : has v PTE_P = true) by (vm_compute; reflexivity).
  assert (HW : has v PTE_W = false) by (vm_compute; reflexivity).
  assert (Hk : 0 <= 0 < NUPAGES) by (unfold NUPAGES; lia).
  pose proof (share_child ro_state l two_dirs (pg 0) (pg 1) 0 [] Hs dir0_in dir1_in Hk) as Hc.
  cbn zeta in Hc. rewrite H0 in Hc. destruct (Hc HP HW H1) as (r & s' & l' & E & Hq' & _ & _ & Hres).
  assert (Ec : code share_page_0 = 0) by (vm_compute; reflexivity).
  unfold shared_state, share_page_0, code in Ec |- *. cbn zeta in Ec |- *. rewrite H0, E in Ec |- *. cbn [after] in Ec |- *.
  destruct Hres as [(-> & _)|(_ & s2 & E2 & Hq2 & Em & Hs2 & He2)]; [discriminate Ec|]. rewrite E2. cbn [after].
  exists l'. split_and!; [done| |].
  - eapply cow_quiet_trans; [exact Hq|]. eapply cow_quiet_trans; [by apply quiet_cow|done].
  - intros d Hd. rewrite Em, He2 by (apply spot0, Hd).
    apply elem_of_cons in Hd as [->|Hd%list_elem_of_singleton]; [by rewrite tset_eq|]. rewrite Hd.
    unfold tset. rewrite decide_False by (intros [[=] _]). exact H0.
Qed.

Lemma shared_cr2 : c_cr2 (k_cpu shared_state) = 16.
Proof. vm_compute. reflexivity. Qed.
Lemma own_cr2 : c_cr2 (k_cpu own_state) = 16.
Proof. vm_compute. reflexivity. Qed.
Lemma shared_unlocked : unlocked shared_state Lpg_count.
Proof. vm_compute. reflexivity. Qed.
Lemma own_unlocked : unlocked own_state Lpg_count.
Proof. vm_compute. reflexivity. Qed.
Lemma shared_pte : pte_of (k_mem shared_state) (pg 0) 16 = map_entry (pg 2 - KERNBASE) 516.
Proof. vm_compute. reflexivity. Qed.
Lemma own_pte : pte_of (k_mem own_state) (pg 0) 16 = map_entry (pg 2 - KERNBASE) 6.
Proof. vm_compute. reflexivity. Qed.

Lemma cow_fault_resolved_witness :
  exists r s', cow_copyuvm (pg 0) [] shared_state = Ok r [] s' /\ unlocked s' Lpg_count.
Proof.
  destruct shared_ok as (l & Hs & Hq & _). destruct six_in_kernel as (p & Hk & Hp & Hz).
  destruct (cow_fault_resolved [] shared_state l two_dirs (pg 0) 0 p Hs dir0_in shared_unlocked
    (in_kernel_quiet _ _ _ _ Hk Hq) Hp) as (r & s' & l' & E & _ & Hu & _).
  - unfold shared_fault. rewrite shared_cr2, Hz, shared_pte. vm_compute. repeat split; discriminate.
  - exists r, s'. split; [exact E|exact Hu].
Defined.

Lemma cow_fault_refused_witness :
  cow_copyuvm (pg 0) [] own_state = Ok 0 [] (crit Lpg_count own_state).
Proof.
  destruct own_ok as (l & Hs & Hq & _). destruct six_in_kernel as (p & Hk & Hp & Hz).
  apply (cow_fault_refused [] own_state l two_dirs (pg 0) 0 p Hs dir0_in own_unlocked
    (in_kernel_quiet _ _ _ _ Hk Hq)).
  - rewrite own_cr2. unfold word. lia.
  - left. rewrite own_cr2, own_pte. vm_compute. reflexivity.
Defined.

Lemma user_store_isolated_witness :
  exists r s', user_store (pg 0) 16 7 [] own_state = Ok r [] s' /\
    (r = true -> user_byte (k_mem s') (pg 0) 16 = Some (7 mod 256)).
Proof.
  destruct own_ok as (l & Hs & Hq & _). destruct six_in_kernel as (p & Hk & Hp & Hz).
  destruct (user_store_isolated [] own_state l two_dirs (pg 0) 0 p 16 7 Hs dir0_in own_unlocked
    (in_kernel_quiet _ _ _ _ Hk Hq) Hp) as (r & s' & l' & E & _ & Hr).
  - rewrite Hz. lia.
  - rewrite Hz. unfold KERNBASE. lia.
  - rewrite own_pte. vm_compute. reflexivity.
  - rewrite own_pte. vm_compute. reflexivity.
  - left. rewrite own_pte. vm_compute. reflexivity.
  - exists r, s'. split; [exact E|]. intros ->. apply Hr.
Defined.

(** ** More free pages *)

Lemma chain_unique m l1 : forall p l2, Forall kpage l1 -> Forall kpage l2 -> chain m p l1 -> chain m p l2 -> l1 = l2.
Proof.
  induction l1 as [|x l1 IH]; intros p [|y l2] H1 H2 C1 C2; [done| | |].
  - destruct C2 as [-> _]. apply Forall_cons in H2 as [Hy _]. by apply kpage_nonzero in Hy.
  - destruct C1 as [-> _]. apply Forall_cons in H1 as [Hx _]. by apply kpage_nonzero in Hx.
  - destruct C1 as [-> C1], C2 as [-> C2]. apply Forall_cons in H1 as [_ H1], H2 as [_ H2]. f_equal. by eapply IH.
Qed.

Lemma own_list l : free_list own_state l -> l = [pg 4; pg 5].
Proof.
  intros [Hc _ Hp]. apply (chain_unique (k_mem own_state) l (km_freelist (k_kmem own_state))); [done| |done|].
  - repeat constructor; vm_compute; done.
  - vm_compute. repeat split; reflexivity.
Qed.

(** The pages of the two directories are among the six. *)
Lemma own_dirs p : dir_page (k_mem own_state) two_dirs p -> p <= pg 5.
Proof.
  assert (Ht : forallb (fun d => forallb (fun i => match table_of (k_mem own_state) d i with Some t => t <=? pg 5 | None => true end)
    (seqZ 0 1024)) two_dirs = true) by (vm_compute; reflexivity).
  rewrite forallb_forall in Ht. intros (d & Hd & [->|(i & Hi & E)]).
  - apply elem_of_cons in Hd as [->|Hd%list_elem_of_singleton]; [|rewrite Hd]; unfold pg; lia.
  - specialize (Ht d (proj1 (list_elem_of_In _ _) Hd)). rewrite forallb_forall in Ht.
    assert (Hin : i ∈ seqZ 0 1024) by (apply elem_of_seqZ; lia).
    specialize (Ht i (proj1 (list_elem_of_In _ _) Hin)). rewrite E in Ht. by apply Z.leb_le.
Qed.

Lemma pg_page n : 0 <= n < 50000 -> kpage (pg n).
Proof.
  intros Hn. unfold kpage, pg, PGSIZE, KERNBASE, PHYSTOP. cbn. split_and!; [|lia..]. Z.div_mod_to_equations. lia.
Qed.

Lemma own_unused n : 6 <= n < 50000 -> unused own_state [pg 4; pg 5] two_dirs (pg n).
Proof.
  intros Hn. destruct own_ok as (l & Hs & _ & He). split_and!.
  - apply pg_page. lia.
  - rewrite !not_elem_of_cons. unfold pg. split_and!; [lia|lia|apply not_elem_of_nil].
  - intros Hd%own_dirs. unfold pg in Hd. lia.
  - pose proof (refs_nonneg (upte (k_mem own_state)) two_dirs (pg n)).
    destruct (Z_lt_le_dec 0 (refs (upte (k_mem own_state)) two_dirs (pg n))) as [Hpos|]; [|lia].
    destruct (refs_pos_inv _ _ _ Hpos) as (d & j & Hx & HP & Ef). rewrite He in HP, Ef by done. unfold tset in HP, Ef.
    case_decide; [|discriminate HP]. assert (Ep : frame_of (map_entry (pg 2 - KERNBASE) 6) = pg 2) by (vm_compute; reflexivity).
    rewrite Ep in Ef. clear - Ef Hn. unfold pg in Ef. lia.
Qed.

(** The same state with 1100 more free pages. *)
Fixpoint stocked (n : nat) : kstate :=
  match n with
  | O => own_state
  | S n' => kfree_state (pg (10 + Z.of_nat n')) (stocked n')
  end.

Lemma stocked_ok n : (n <= 2000)%nat -> exists l, spaces (stocked n) l two_dirs /\ length l = (n + 2)%nat /\ quiet own_state (stocked n) /\
  (forall d, d ∈ two_dirs -> same_view (k_mem own_state) (k_mem (stocked n)) d) /\
  forall i, (n <= i <= 2000)%nat -> unused (stocked n) l two_dirs (pg (10 + Z.of_nat i)).
Proof.
  induction n as [|n IH]; intros Hn.
  - destruct own_ok as (l & Hs & _). pose proof (own_list l (ly_free _ _ _ (sp_layout _ _ _ Hs))) as ->.
    exists [pg 4; pg 5]. split_and!; [done|done|done|intros; apply same_view_refl|]. intros i Hi. apply own_unused. lia.
  - destruct (IH ltac:(lia)) as (l & Hs & Hl & Hq & Hv & Hu). destruct (spaces_push _ _ _ _ Hs (Hu n ltac:(lia))) as (Hs' & Hv' & Hu').
    eexists. split_and!; [exact Hs'|cbn; lia| | |].
    + eapply quiet_trans; [exact Hq|apply quiet_kfree].
    + intros d Hd. eapply same_view_trans; [by apply Hv|by apply Hv'].
    + intros i Hi. apply Hu'; [apply Hu; lia|]. unfold pg. lia.
Qed.

Lemma own_present j : 0 <= j < npages 4096 -> has (upte (k_mem own_state) (pg 0) j) PTE_P = true.
Proof.
  intros Hj. assert (j = 0) as -> by (unfold npages in Hj; change ((4096 + 4095) / 4096) with 1 in Hj; lia).
  vm_compute. reflexivity.
Qed.

Lemma stocked_present n j : same_view (k_mem own_state) (k_mem (stocked n)) (pg 0) -> 0 <= j < npages 4096 ->
  has (upte (k_mem (stocked n)) (pg 0) j) PTE_P = true.
Proof.
  intros Hv Hj. assert (j = 0) as -> by (unfold npages in Hj; change ((4096 + 4095) / 4096) with 1 in Hj; lia).
  assert (Hb : 0 <= 0 < KERNBASE) by (unfold KERNBASE; lia). specialize (Hv 0 Hb).
  assert (Ho : exists b, user_byte (k_mem own_state) (pg 0) 0 = Some b) by (eexists; vm_compute; reflexivity). destruct Ho as [b Ho].
  rewrite Ho, user_byte_eq in Hv by done. cbn zeta in Hv. change (0 / 4096) with 0 in Hv.
  destruct (has (upte (k_mem (stocked n)) (pg 0) 0) PTE_P); [reflexivity|]. cbn [andb] in Hv. discriminate Hv.
Qed.

(** With 1102 free pages the page is shared with a new directory. *)
Lemma cow_shareuvm_shares_witness :
  exists s l s' l' d, s = stocked 1100 /\ spaces s l two_dirs /\ cow_shareuvm (pg 0) 4096 [] s = Ok d [] s' /\
    shared_child two_dirs (pg 0) 4096 d s s' l'.
Proof.
  destruct (stocked_ok 1100 ltac:(lia)) as (l & Hs & Hl & Hq & Hv & _). destruct six_in_kernel as (p & Hk & Hp & Hz).
  destruct own_ok as (_ & _ & Hq0 & _).
  destruct (cow_shareuvm_shares [] (stocked 1100) l two_dirs (pg 0) 4096 0 p Hs) as (s' & l' & Hres).
  - unfold NPROC. simpl. lia.
  - exact dir0_in.
  - unfold unlocked. rewrite (quiet_lock _ _ Lpg_count Hq) by discriminate. exact own_unlocked.
  - exact (in_kernel_quiet _ _ _ _ (in_kernel_quiet _ _ _ _ Hk Hq0) (quiet_cow _ _ Hq)).
  - rewrite Hp. discriminate.
  - unfold KERNBASE. lia.
  - intros j. apply stocked_present. apply Hv, dir0_in.
  - intros j j' Hj Hj' _. unfold npages in Hj, Hj'. change ((4096 + 4095) / 4096) with 1 in Hj, Hj'. lia.
  - exists (stocked 1100), l, s', l'. destruct Hres as [(d & E & Hc)|[(_ & Hfew & _)|(k & _ & Hfew & _)]]; [|exfalso; lia..].
    exists d. split; [reflexivity|]. split; [exact Hs|]. split; [exact E|exact Hc].
Defined.

Lemma cow_deallocuvm_drops_witness :
  exists s' l', cow_deallocuvm (pg 0) 4096 0 [] shared_state = Ok 0 [] s' /\ spaces s' l' two_dirs /\
    user_byte (k_mem s') (pg 0) 0 = None /\
    user_byte (k_mem s') (pg 1) 0 = user_byte (k_mem shared_state) (pg 1) 0 /\
    frame_of (upte (k_mem s') (pg 1) 0) = pg 2 /\ pg 2 ∉ l'.
Proof.
  destruct shared_ok as (l & Hs & Hq & _). destruct six_in_kernel as (p & Hk & _).
  destruct (cow_deallocuvm_drops [] shared_state l two_dirs (pg 0) 4096 0 Hs dir0_in shared_unlocked
    (ik_cli _ _ _ (in_kernel_quiet _ _ _ _ Hk Hq))) as (s' & l' & E & Hu & [Hs' He Hv _]).
  - lia.
  - unfold KERNBASE. lia.
  - intros _. reflexivity.
  - assert (Hx : (pg 1, 0) ∈ spots two_dirs) by (apply elem_of_spots; split; [exact dir1_in|unfold NUPAGES; lia]).
    assert (E1 : upte (k_mem s') (pg 1) 0 = upte (k_mem shared_state) (pg 1) 0)
      by (rewrite He by exact Hx; apply decide_False; intros [C _]; discriminate C).
    assert (Ef : frame_of (upte (k_mem s') (pg 1) 0) = pg 2) by (rewrite E1; vm_compute; reflexivity).
    exists s', l'. split; [exact E|]. split; [exact Hs'|]. split; [|split; [|split; [exact Ef|]]].
    + rewrite (Hv (pg 0) 0 dir0_in) by (unfold KERNBASE; lia). apply decide_True.
      split; [reflexivity|]. split; reflexivity || discriminate.
    + rewrite (Hv (pg 1) 0 dir1_in) by (unfold KERNBASE; lia). apply decide_False. intros [C _]. discriminate C.
    + intros Hl. pose proof (refs_free _ _ _ _ _ _ (sp_cow _ _ _ Hs') Hl) as H0.
      assert (0 < refs (upte (k_mem s')) two_dirs (pg 2)); [|clear -H H0; lia].
      apply (refs_pos _ _ _ (pg 1) 0 Hx); [rewrite E1; vm_compute; reflexivity|exact Ef].
Defined.

Lemma cow_freevm_frees_witness :
  exists s' l', cow_freevm (pg 1) [] shared_state = Ok tt [] s' /\ spaces s' l' [pg 0] /\
    same_view (k_mem shared_state) (k_mem s') (pg 0) /\ pg 1 ∈ l' /\ free_list s' l'.
Proof.
  destruct shared_ok as (l & Hs & Hq & _). destruct six_in_kernel as (p & Hk & _).
  destruct (cow_freevm_frees [] shared_state l [pg 0] (pg 1) Hs shared_unlocked
    (ik_cli _ _ _ (in_kernel_quiet _ _ _ _ Hk Hq))) as (s' & l' & E & Hs' & Hv & Hf).
  exists s', l'. split; [exact E|]. split; [exact Hs'|]. split; [apply Hv, list_elem_of_here|].
  split; [|apply (sp_layout _ _ _ Hs')]. apply Hf. right. left. left. reflexivity.
Defined.

Lemma deallocuvm_frees_shared_witness :
  exists s' s2, deallocuvm (pg 0) 4096 0 [] shared_state = Ok 0 [] s' /\ kalloc [] s' = Ok (pg 2) [] s2 /\
    frame_of (upte (k_mem s') (pg 1) 0) = pg 2.
Proof.
  destruct shared_ok as (l & Hs & Hq & _).
  assert (Ef : frame_of (upte (k_mem shared_state) (pg 0) 0) = pg 2) by (vm_compute; reflexivity).
  destruct (deallocuvm_frees_shared [] shared_state l two_dirs (pg 0) 0 (pg 1) 0 Hs dir0_in)
    as (s' & E & _ & _ & Ep & s2 & Ek).
  - unfold NUPAGES. lia.
  - vm_compute. reflexivity.
  - exact dir1_in.
  - discriminate.
  - unfold NUPAGES. lia.
  - vm_compute. reflexivity.
  - vm_compute. reflexivity.
  - exists s', s2. rewrite Ef in Ep, Ek. split; [exact E|]. split; [exact Ek|exact Ep].
Defined.

Lemma own_entries j : 0 < j < NUPAGES -> upte (k_mem own_state) (pg 0) j = 0.
Proof.
  intros Hj. destruct own_ok as (l & _ & _ & He). rewrite He by (apply elem_of_spots; split; [exact dir0_in|lia]).
  unfold tset. by rewrite decide_False by lia.
Qed.

Lemma own_refs : refs (upte (k_mem own_state)) two_dirs (pg 2) = 1.
Proof.
  destruct own_ok as (l & Hs & _).
  assert (Ef : frame_of (upte (k_mem own_state) (pg 0) 0) = pg 2) by (vm_compute; reflexivity).
  rewrite <- Ef. apply (co_excl _ _ _ _ _ (sp_cow _ _ _ Hs)); [apply spot0, dir0_in|vm_compute; reflexivity..].
Qed.

Lemma deallocuvm_frees_witness :
  exists s' (l' : list Z), deallocuvm (pg 0) 4096 0 [] own_state = Ok 0 [] s' /\ pg 2 ∈ l'.
Proof.
  destruct own_ok as (l & Hs & _).
  assert (Ef : frame_of (upte (k_mem own_state) (pg 0) 0) = pg 2) by (vm_compute; reflexivity).
  destruct (deallocuvm_frees [] own_state l two_dirs (pg 0) 4096 0 Hs dir0_in) as (s' & l' & E & Hf).
  - lia.
  - unfold KERNBASE. lia.
  - intros _. reflexivity.
  - intros j Hj _. change (npages 0) with 0 in Hj. change (npages 4096) with 1 in Hj.
    assert (j = 0) as -> by lia. rewrite Ef. exact own_refs.
  - exists s', l'. split; [exact E|]. apply (fr_list _ _ _ _ _ _ _ _ Hf). right. exists 0.
    split; [vm_compute; split; [discriminate|reflexivity]|]. split; [vm_compute; reflexivity|exact Ef].
Defined.

Lemma allocuvm_grows_witness :
  exists s', allocuvm (pg 0) 4096 8192 [] own_state = Ok 8192 [] s' \/
    allocuvm (pg 0) 4096 8192 [] own_state = (deallocuvm (pg 0) 8192 4096;; mret 0) [] s'.
Proof.
  destruct own_ok as (l & Hs & _).
  destruct (allocuvm_grows [] own_state l two_dirs (pg 0) 4096 8192 Hs dir0_in) as (s' & l' & Hres).
  - lia.
  - unfold KERNBASE. lia.
  - intros j Hj. apply own_entries. change (npages 4096) with 1 in Hj. change (npages 8192) with 2 in Hj.
    unfold NUPAGES. lia.
  - exists s'. destruct Hres as [(E & _)|[(E & _)|(E & _)]]; [left|left|right]; exact E.
Defined.
End Samples.
