(* ===== verification/Ide.v ===== *)
(** * Disk drivers (ide.c, memide.c)

    A buffer is named by its index in [bcache.buf].  [Disk] is what the rest
    of the file system uses of a driver; the kernel is linked with one of the
    two drivers.  [fs_disk] is the contents of the disk and [fs_writes] the
    block writes it has performed, oldest first. *)

From stdpp Require Import base list gmap strings.
From S2P Require Import Prelude Memory Bytes Kernel KMonad Boot Mmu Spinlock Sched.

(** ** Definitions *)

Definition upd_buf (b : nat) (f : buf -> buf) (s : kstate) : kstate :=
  upd_fs (fun fs => set_fs_bufs (alter f b (fs_bufs fs)) fs) s.
Definition buf_of (s : kstate) (b : nat) : option buf := fs_bufs (k_fs s) !! b.
Definition buf_at (b : nat) : M buf := gets (fun s => buf_of s b) ≫= deref "buf".

(** [b->flags |= f] and [b->flags &= ~f] *)
Definition set_flag (b : nat) (f : Z) : M unit :=
  modify (upd_buf b (fun x => set_b_flags (Z.lor (b_flags x) f) x)).
Definition clear_flag (b : nat) (f : Z) : M unit :=
  modify (upd_buf b (fun x => set_b_flags (Z.ldiff (b_flags x) f) x)).

(** The disk stores [data] in block [n]. *)
Definition disk_write (n : Z) (data : list Z) (s : kstate) : kstate :=
  upd_fs (fun fs => set_fs_writes (fs_writes fs ++ [(n, data)])
    (set_fs_disk (fun k => if k =? n then data else fs_disk fs k) fs)) s.

(** The checks that both drivers start [iderw] with. *)
Definition VALID_DIRTY : Z := Z.lor B_VALID B_DIRTY.

Class Disk : Type := {
  iderw : nat -> M unit;
  disk_intr : M unit
}.

(** ** memide.c: the disk is a table in memory *)

Module Memide.
Section Memide.
Context `{Symbols}.

Definition disksize : Z := fs_img_size / BSIZE.
Definition ideintr : M unit := mret tt.

Definition iderw (b : nat) : M unit :=
  x ← buf_at b;
  if negb (has (b_flags x) B_BUSY) then panic "iderw: buf not busy" else
  if Z.land (b_flags x) VALID_DIRTY =? B_VALID then panic "iderw: nothing to do" else
  if negb (b_dev x =? 1) then panic "iderw: request not for disk 1" else
  if disksize <=? b_blockno x then panic "iderw: block out of range" else
  (if has (b_flags x) B_DIRTY then
     clear_flag b B_DIRTY;;
     modify (disk_write (b_blockno x) (b_data x))
   else
     modify (fun s => upd_buf b (set_b_data (fs_disk (k_fs s) (b_blockno x))) s));;
  set_flag b B_VALID.

End Memide.
End Memide.

(** ** ide.c: programmed I/O and interrupts *)

Module Ide.

Definition SECTOR_SIZE : Z := 512.
Definition IDE_BSY : Z := 128.
Definition IDE_DRDY : Z := 64.
Definition IDE_DF : Z := 32.
Definition IDE_ERR : Z := 1.
Definition IDE_CMD_READ : Z := 32.
Definition IDE_CMD_WRITE : Z := 48.

(** [inb] reads the next byte the device offers; without one the CPU waits
    for ever. *)
Definition inb (port : Z) : M Z := fun e s =>
  match d_in (k_dev s) with
  | [] => Off s
  | v :: vs => Ok v e (upd_dev (set_d_in vs) s)
  end.
Definition outb (port v : Z) : M unit :=
  modify (fun s => upd_dev (set_d_out (d_out (k_dev s) ++ [(port, u8 v)])) s).

(** Wait for the disk to become ready: a status byte a turn. *)
Fixpoint idewait_loop (n : nat) : M Z :=
  match n with
  | O => fun _ s => Off s
  | S n' =>
    r ← inb 503;
    if Z.land r (Z.lor IDE_BSY IDE_DRDY) =? IDE_DRDY then mret r else idewait_loop n'
  end.
Definition idewait (checkerr : Z) : M Z :=
  n ← gets (fun s => length (d_in (k_dev s)));
  r ← idewait_loop (S n);
  mret (if truth checkerr && truth (Z.land r (Z.lor IDE_DF IDE_ERR)) then -1 else 0).

Fixpoint disk1_probe (n : nat) : M unit :=
  match n with
  | O => mret tt
  | S n' =>
    r ← inb 503;
    if truth r then modify (upd_fs (set_fs_havedisk1 1)) else disk1_probe n'
  end.
(** [picenable] and [ioapicenable] route the interrupt; they are not part of
    this model. *)
Definition ideinit : M unit :=
  initlock Lide "ide";;
  idewait 0;;
  outb 502 (Z.lor 224 16);;
  disk1_probe 1000;;
  outb 502 224.

(** Start the request for [b].  The [outsl] of a write hands the 512 bytes to
    the disk. *)
Definition idestart (b : option nat) : M unit :=
  match b with
  | None => panic "idestart"
  | Some b =>
    x ← buf_at b;
    if FSSIZE <=? b_blockno x then panic "incorrect blockno" else
    let sector_per_block := BSIZE / SECTOR_SIZE in
    let sector := s32 (b_blockno x * sector_per_block) in
    if 7 <? sector_per_block then panic "idestart" else
    idewait 0;;
    outb 1014 0;;
    outb 498 sector_per_block;;
    outb 499 (Z.land sector 255);;
    outb 500 (Z.land (Z.shiftr sector 8) 255);;
    outb 501 (Z.land (Z.shiftr sector 16) 255);;
    outb 502 (Z.lor (Z.lor 224 (Z.shiftl (Z.land (b_dev x) 1) 4)) (Z.land (Z.shiftr sector 24) 15));;
    if has (b_flags x) B_DIRTY then
      outb 503 IDE_CMD_WRITE;;
      modify (disk_write sector (b_data x))
    else outb 503 IDE_CMD_READ
  end.

(** The interrupt handler.  [insl] reads the block of the active request. *)
Definition ideintr : M unit :=
  acquire Lide;;
  q ← gets (fun s => fs_idequeue (k_fs s));
  match q with
  | None => release Lide
  | Some b =>
    x ← buf_at b;
    modify (upd_fs (set_fs_idequeue (b_qnext x)));;
    (if negb (has (b_flags x) B_DIRTY) then
       r ← idewait 1;
       when (0 <=? r) (modify (fun s => upd_buf b (set_b_data (fs_disk (k_fs s) (b_blockno x))) s))
     else mret tt);;
    set_flag b B_VALID;;
    clear_flag b B_DIRTY;;
    wakeup (Cbuf b);;
    q ← gets (fun s => fs_idequeue (k_fs s));
    (match q with None => mret tt | Some _ => idestart q end);;
    release Lide
  end.

(** The last buffer of the queue: [for(pp=&idequeue; *pp; pp=&( *pp)->qnext)]. *)
Fixpoint queue_last (n : nat) (bufs : list buf) (b : nat) : nat :=
  match n with
  | O => b
  | S n' =>
    match bufs !! b with
    | Some x => match b_qnext x with None => b | Some c => queue_last n' bufs c end
    | None => b
    end
  end.
Definition enqueue (b : nat) (s : kstate) : kstate :=
  match fs_idequeue (k_fs s) with
  | None => upd_fs (set_fs_idequeue (Some b)) s
  | Some h =>
    let bufs := fs_bufs (k_fs s) in
    upd_buf (queue_last (length bufs) bufs h) (set_b_qnext (Some b)) s
  end.

Definition iderw (b : nat) : M unit :=
  x ← buf_at b;
  if negb (has (b_flags x) B_BUSY) then panic "iderw: buf not busy" else
  if Z.land (b_flags x) VALID_DIRTY =? B_VALID then panic "iderw: nothing to do" else
  havedisk1 ← gets (fun s => fs_havedisk1 (k_fs s));
  if truth (b_dev x) && negb (truth havedisk1) then panic "iderw: ide disk 1 not present" else
  acquire Lide;;
  modify (upd_buf b (set_b_qnext None));;
  modify (enqueue b);;
  q ← gets (fun s => fs_idequeue (k_fs s));
  when (bool_decide (q = Some b)) (idestart q);;
  loop (x ← buf_at b;
        if Z.land (b_flags x) VALID_DIRTY =? B_VALID then mret (Some tt)
        else sleep (Cbuf b) (Some Lide);; mret None);;
  release Lide.

End Ide.

Definition disk_memide `{Symbols} : Disk := {| iderw := Memide.iderw; disk_intr := Memide.ideintr |}.
Definition disk_ide : Disk := {| iderw := Ide.iderw; disk_intr := Ide.ideintr |}.
