(* ===== verification/Ring.v ===== *)
(** * Circular doubly linked lists

    The buffer cache keeps its buffers on a list linked through [next] and
    [prev], with a list head.  For a list [l] of nodes, [ring f g h l] says
    that following [f] from the head [h] visits [l] in order and returns to
    [h], and that [g] goes the same way back. *)

From stdpp Require Import base list sets.
From S2P Require Import Prelude.

Definition ring (f g : nat -> nat) (h : nat) (l : list nat) : Prop :=
  map f (h :: l) = l ++ [h] /\ map g (l ++ [h]) = h :: l /\ NoDup (h :: l).

(** [f] with the value at [a] replaced. *)
Definition fset (f : nat -> nat) (a v : nat) : nat -> nat :=
  fun x => if decide (x = a) then v else f x.

Section Ring.
Implicit Types (f g : nat -> nat) (h a b v : nat) (l : list nat).

Lemma fset_eq f a v : fset f a v a = v.
Proof. unfold fset. by rewrite decide_True. Qed.

Lemma fset_ne f a v x : x <> a -> fset f a v x = f x.
Proof. intros H. unfold fset. by rewrite decide_False. Qed.

Lemma map_fset_notin f a v l : a ∉ l -> map (fset f a v) l = map f l.
Proof.
  intros Ha. apply map_ext_in. intros x Hx%list_elem_of_In. apply fset_ne. set_solver.
Qed.

Lemma map_fset_snoc f a v l : a ∉ l -> map (fset f a v) (l ++ [a]) = map f l ++ [v].
Proof. intros Ha. rewrite map_app, map_fset_notin by done. simpl. by rewrite fset_eq. Qed.

Lemma map_fset_cons f a v l : a ∉ l -> map (fset f a v) (a :: l) = v :: map f l.
Proof. intros Ha. simpl. by rewrite fset_eq, map_fset_notin. Qed.

Lemma ring_nil h f g : ring (fset f h h) (fset g h h) h [].
Proof. unfold ring. simpl. rewrite !fset_eq. split_and!; [done..|]. apply NoDup_singleton. Qed.

Lemma ring_ext f g f' g' h l :
  (forall x, x ∈ h :: l -> f' x = f x /\ g' x = g x) -> ring f g h l -> ring f' g' h l.
Proof.
  intros E (Hf & Hg & Hnd). unfold ring. split_and!; [| |done].
  - rewrite <- Hf. apply map_ext_in. intros x Hx%list_elem_of_In. by apply E.
  - rewrite <- Hg. apply map_ext_in. intros x Hx%list_elem_of_In. apply E. set_solver.
Qed.

(** The node after the head, and before it. *)
Lemma ring_first f g h l : ring f g h l -> head (l ++ [h]) = Some (f h).
Proof. intros (Hf & _ & _). by rewrite <- Hf. Qed.

(** The four assignments that insert [b] behind the head. *)
Lemma ring_insert f g h l b :
  b ∉ h :: l -> ring f g h l ->
  ring (fset (fset f b (f h)) h b) (fset (fset g b h) (f h) b) h (b :: l).
Proof.
  intros Hb (Hf & Hg & Hnd). apply not_elem_of_cons in Hb as [Hbh Hbl].
  assert (Hhl : h ∉ l) by (by apply NoDup_cons in Hnd as [? _]).
  unfold ring. split_and!.
  - change (h :: b :: l) with (h :: (b :: l)).
    rewrite map_fset_cons by set_solver. simpl. rewrite fset_eq.
    rewrite map_fset_notin by done. simpl in Hf. by rewrite <- Hf.
  - destruct l as [|c l]; simpl in Hf, Hg.
    + injection Hf as Hfh. rewrite Hfh. simpl. rewrite (fset_ne _ h b b), !fset_eq by done. done.
    + injection Hf as Hfh Hf'. rewrite Hfh. injection Hg as Hgc Hg'. simpl. rewrite fset_eq, (fset_ne _ c b b) by set_solver.
      rewrite fset_eq. f_equal. f_equal.
      rewrite map_fset_notin by (apply NoDup_cons in Hnd as [_ [? ?]%NoDup_cons]; set_solver).
      rewrite map_fset_notin by set_solver. by rewrite Hg'.
  - apply NoDup_cons. apply NoDup_cons in Hnd as [? ?]. split; [set_solver|].
    by apply NoDup_cons.
Qed.

(** The two assignments that take [b] off the list. *)
Lemma ring_remove f g h l1 b l2 :
  ring f g h (l1 ++ b :: l2) ->
  ring (fset f (g b) (f b)) (fset g (f b) (g b)) h (l1 ++ l2).
Proof.
  intros (Hf & Hg & Hnd).
  destruct (exists_last (l := h :: l1)) as (A & p & EA); [done|].
  assert (exists n C, l2 ++ [h] = n :: C) as (n & C & EC) by (destruct l2; simpl; eauto).
  assert (HlA : length A = length l1).
  { apply (f_equal length) in EA. rewrite length_app in EA. simpl in EA. lia. }
  change (h :: l1 ++ b :: l2) with ((h :: l1) ++ b :: l2) in Hf, Hg, Hnd.
  rewrite EA in Hf, Hg, Hnd. rewrite <- !app_assoc in Hf, Hg. simpl in Hf, Hg. rewrite EC in Hf, Hg.
  rewrite map_app in Hf, Hg. simpl in Hf, Hg.
  apply app_inj_1 in Hf as [HfA Hf]; [|by rewrite length_map].
  apply app_inj_1 in Hg as [HgA Hg]; [|by rewrite length_map].
  injection Hf as Hfp Hfb Hf2. injection Hg as Hgb Hgn HgC. rewrite Hgb, Hfb.
  assert (Hp : p ∉ A ++ l2).
  { rewrite <- app_assoc in Hnd. apply NoDup_app in Hnd as (? & Hd & Hn).
    apply NoDup_cons in Hn as [? ?]. set_solver. }
  assert (Hn : n ∉ l1 ++ C /\ NoDup (h :: l1 ++ l2)).
  { assert (Hpm : (A ++ [p]) ++ b :: l2 ≡ₚ b :: l1 ++ n :: C).
    { rewrite <- EA, <- EC. simpl. rewrite <- Permutation_middle, app_assoc, Permutation_swap.
      rewrite <- Permutation_cons_append. done. }
    rewrite Hpm in Hnd. apply NoDup_cons in Hnd as [_ Hnd].
    split; [by rewrite <- Permutation_middle in Hnd; apply NoDup_cons in Hnd as [? _]|].
    rewrite <- EC, app_assoc, <- Permutation_cons_append in Hnd. done. }
  destruct Hn as [Hn Hnd']. unfold ring. split_and!; [| |done].
  - change (h :: l1 ++ l2) with ((h :: l1) ++ l2). rewrite EA.
    rewrite map_app, map_fset_snoc by set_solver. rewrite map_fset_notin by set_solver.
    rewrite HfA, Hf2, <- !app_assoc. simpl. by rewrite EC.
  - rewrite <- app_assoc, EC, map_app, map_fset_cons by set_solver.
    rewrite map_fset_notin by set_solver. rewrite HgA, HgC.
    change (h :: l1 ++ l2) with ((h :: l1) ++ l2). by rewrite EA, <- app_assoc.
Qed.

(** Following [f] from the head visits the list. *)
Lemma ring_next f g h l i a :
  ring f g h l -> l !! i = Some a -> f a = default h (l !! S i).
Proof.
  intros (Hf & _ & _) Ha. apply (f_equal (lookup (S i))) in Hf. simpl in Hf.
  rewrite list_lookup_fmap, Ha in Hf. simpl in Hf.
  destruct (l !! S i) as [c|] eqn:E; simpl.
  - rewrite lookup_app_l in Hf by (by apply lookup_lt_Some in E). congruence.
  - apply lookup_ge_None in E. apply lookup_lt_Some in Ha.
    rewrite lookup_app_r in Hf by lia. replace (S i - length l)%nat with O in Hf by lia. by simplify_eq/=.
Qed.

(** A ring read backwards. *)
Lemma ring_rev f g h l : ring f g h l -> ring g f h (rev l).
Proof.
  intros (Hf & Hg & Hnd). unfold ring. split_and!.
  - apply (f_equal (@rev nat)) in Hg. rewrite <- map_rev, rev_app_distr in Hg. exact Hg.
  - apply (f_equal (@rev nat)) in Hf. rewrite <- map_rev, rev_app_distr in Hf. exact Hf.
  - rewrite <- (Permutation_rev l). done.
Qed.

End Ring.
