(* ===== verification/Bio.v ===== *)
(** * The buffer cache (bio.c)

    Buffers 0..NBUF-1 and the list head, entry NBUF of the table, form a
    doubly linked list in order of use. *)

From stdpp Require Import base list gmap strings.
From S2P Require Import Prelude Memory Bytes Kernel KMonad Boot Mmu Spinlock Sched Ide.

(** ** Definitions *)

Definition HEAD : nat := NBUF.

(** Put buffer [b] at the front of the list, without a device. *)
Definition binit_one (b : nat) : M unit :=
  h ← buf_at HEAD;
  modify (upd_buf b (set_b_next (b_next h)));;
  modify (upd_buf b (set_b_prev HEAD));;
  modify (upd_buf b (set_b_dev 4294967295));;
  modify (upd_buf (b_next h) (set_b_prev b));;
  modify (upd_buf HEAD (set_b_next b)).
Definition binit : M unit :=
  initlock Lbcache "bcache";;
  modify (upd_buf HEAD (set_b_prev HEAD));;
  modify (upd_buf HEAD (set_b_next HEAD));;
  forM (seq 0 NBUF) binit_one.

(** The buffers met from [b] on, following [next] (or [prev]) up to the
    head. *)
Fixpoint walk_bufs (n : nat) (step : buf -> nat) (bufs : list buf) (b : nat) : list nat :=
  match n with
  | O => []
  | S n' =>
    if (b =? HEAD)%nat then [] else
    match bufs !! b with
    | Some x => b :: walk_bufs n' step bufs (step x)
    | None => []
    end
  end.
Definition chain_of (step : buf -> nat) (s : kstate) : list nat :=
  match buf_of s HEAD with
  | Some h => walk_bufs NBUF step (fs_bufs (k_fs s)) (step h)
  | None => []
  end.

(** The first buffer of a list that satisfies a test. *)
Definition first_buf (f : buf -> bool) (s : kstate) (l : list nat) : option nat :=
  List.find (fun b => match buf_of s b with Some x => f x | None => false end) l.
Definition is_block (dev blockno : Z) (x : buf) : bool :=
  (b_dev x =? dev) && (b_blockno x =? blockno).
Definition recyclable (x : buf) : bool :=
  negb (has (b_flags x) B_BUSY) && negb (has (b_flags x) B_DIRTY).

(** One pass of [bget] from the label [loop]. *)
Definition bget_turn (dev blockno : Z) : M (option nat) :=
  c ← gets (fun s => first_buf (is_block dev blockno) s (chain_of b_next s));
  match c with
  | Some b =>
    x ← buf_at b;
    if negb (has (b_flags x) B_BUSY) then
      set_flag b B_BUSY;;
      release Lbcache;;
      mret (Some b)
    else sleep (Cbuf b) (Some Lbcache);; mret None
  | None =>
    r ← gets (fun s => first_buf recyclable s (chain_of b_prev s));
    match r with
    | Some b =>
      modify (upd_buf b (set_b_dev dev));;
      modify (upd_buf b (set_b_blockno blockno));;
      modify (upd_buf b (set_b_flags B_BUSY));;
      release Lbcache;;
      mret (Some b)
    | None => panic "bget: no buffers"
    end
  end.
Definition bget (dev blockno : Z) : M nat :=
  acquire Lbcache;;
  loop (bget_turn dev blockno).

(** Take [b] off the list and put it back behind the head. *)
Definition to_front (b : nat) : M unit :=
  x ← buf_at b;
  modify (upd_buf (b_next x) (set_b_prev (b_prev x)));;
  x ← buf_at b;
  modify (upd_buf (b_prev x) (set_b_next (b_next x)));;
  h ← buf_at HEAD;
  modify (upd_buf b (set_b_next (b_next h)));;
  modify (upd_buf b (set_b_prev HEAD));;
  modify (upd_buf (b_next h) (set_b_prev b));;
  modify (upd_buf HEAD (set_b_next b)).

Section Bio.
Context `{Disk}.

Definition bread (dev blockno : Z) : M nat :=
  b ← bget dev blockno;
  x ← buf_at b;
  when (negb (has (b_flags x) B_VALID)) (iderw b);;
  mret b.

Definition bwrite (b : nat) : M unit :=
  x ← buf_at b;
  if negb (has (b_flags x) B_BUSY) then panic "bwrite" else
  set_flag b B_DIRTY;;
  iderw b.

Definition brelse (b : nat) : M unit :=
  x ← buf_at b;
  if negb (has (b_flags x) B_BUSY) then panic "brelse" else
  acquire Lbcache;;
  to_front b;;
  clear_flag b B_BUSY;;
  wakeup (Cbuf b);;
  release Lbcache.

(** [b->data], and [memmove]/assignments into it. *)
Definition bdata (b : nat) : M (list Z) := x ← buf_at b; mret (b_data x).
Definition set_bdata (b : nat) (d : list Z) : M unit := modify (upd_buf b (set_b_data d)).

End Bio.
