(* ===== verification/BioSpec.v ===== *)
(** * What the buffer cache promises (bio.c, memide.c)

    A block device as the rest of the file system sees it: [bview] is the
    logical contents of every block, the contents of the disk, the writes the
    disk has performed, the blocks pinned in the cache by [B_DIRTY] and the
    buffers the caller has locked.  [bio_ok] relates it to the buffers of the
    cache, and each function of bio.c is specified by what it does to the
    view. *)

From stdpp Require Import base list gmap strings fin_maps.
From S2P Require Import Prelude Memory Bytes Kernel KMonad Boot Mmu Spinlock Sched Ide Ring Bio.

(** ** What a block operation leaves alone *)

(** Everything but the buffers, the disk, the locks, the saved interrupt flag
    and which threads are asleep. *)
Definition doze_all (l : list proc) : list proc :=
  map (fun p => set_p_threads (map (set_t_state UNUSED) (p_threads p)) p) l.
Definition rest (s : kstate) : kstate :=
  set_k_lock (fun _ => zero_lock)
    (upd_cpu (set_c_intena 0)
      (set_k_ptable (doze_all (k_ptable s))
        (upd_fs (fun fs => set_fs_bufs [] (set_fs_disk (fun _ => []) (set_fs_writes [] fs))) s))).

(** No lock is held. *)
Definition idle (s : kstate) : Prop := cli_ok (k_cpu s) /\ forall lk, unlocked s lk.

Lemma rest_crit lk s : rest (crit lk s) = rest s.
Proof. by destruct s as [[] ? ? ? ? ? ? ? ? ? ? ? ? ? ? ?]. Qed.

Lemma rest_upd_buf b f s : rest (upd_buf b f s) = rest s.
Proof. by destruct s as [? ? ? ? ? ? ? ? ? ? ? ? ? ? [] ?]. Qed.

Lemma rest_disk_write n d s : rest (disk_write n d s) = rest s.
Proof. by destruct s as [? ? ? ? ? ? ? ? ? ? ? ? ? ? [] ?]. Qed.

Lemma doze_wake ch l :
  doze_all (map (fun p => set_p_threads (map (wake ch) (p_threads p)) p) l) = doze_all l.
Proof.
  unfold doze_all. rewrite map_map. apply map_ext. intros p. unfold set_p_threads. cbn. f_equal.
  rewrite map_map. apply map_ext. intros t. unfold wake. destruct (_ && _)%bool; [by destruct t|done].
Qed.

Lemma rest_wakeup1 ch s : rest (wakeup1 ch s) = rest s.
Proof.
  unfold rest, wakeup1. cbn [k_ptable set_k_ptable]. rewrite doze_wake.
  by destruct s as [? ? ? ? ? ? ? ? ? ? ? ? ? ? ? ?].
Qed.

Lemma rest_fs s s' :
  rest s' = rest s ->
  fs_log (k_fs s') = fs_log (k_fs s) /\ fs_sb (k_fs s') = fs_sb (k_fs s) /\
  fs_icache (k_fs s') = fs_icache (k_fs s) /\ fs_ftable (k_fs s') = fs_ftable (k_fs s).
Proof.
  intros E. apply (f_equal k_fs) in E.
  split_and!; [apply (f_equal fs_log) in E|apply (f_equal fs_sb) in E|apply (f_equal fs_icache) in E|
    apply (f_equal fs_ftable) in E]; exact E.
Qed.

Lemma idle_crit lk s : idle s -> idle (crit lk s).
Proof. intros [Hc Hu]. split; [by apply cli_ok_crit|]. intros lk'. by apply unlocked_crit. Qed.

Lemma idle_upd_fs f s : idle s -> idle (upd_fs f s).
Proof. done. Qed.

Lemma idle_wakeup1 ch s : idle s -> idle (wakeup1 ch s).
Proof. done. Qed.

(** ** Critical sections

    Code between [acquire(lk)] and [release(lk)] that leaves the CPU as
    [acquire] left it, from [s1] with the same effect outside the section. *)

Lemma touched_in c : 0 < c_ncli c -> touched c = c.
Proof. intros H. unfold touched. destruct (Z.eqb_spec (c_ncli c) 0); [lia|]. by destruct c. Qed.

Lemma cpu_crit_in lk s : 0 < c_ncli (k_cpu s) -> k_cpu (crit lk s) = k_cpu s.
Proof. intros H. apply (touched_in _ H). Qed.

Lemma rest_released lk s :
  rest (released lk s) = set_k_cpu (set_c_intena 0 (popped (k_cpu s))) (rest s).
Proof. done. Qed.

Lemma rest_acquired lk s :
  rest (acquired lk s) = set_k_cpu (set_c_intena 0 (pushed (k_cpu s))) (rest s).
Proof. done. Qed.

Lemma section_rest lk s1 s2 :
  cli_ok (k_cpu s1) -> k_cpu s2 = k_cpu (acquired lk s1) -> rest s2 = rest (acquired lk s1) ->
  rest (released lk s2) = rest s1.
Proof.
  intros Hc Hcpu Hr. rewrite rest_released, Hr, rest_acquired, Hcpu.
  change (k_cpu (acquired lk s1)) with (pushed (k_cpu s1)). rewrite popped_pushed by done.
  destruct s1 as [[] ? ? ? ? ? ? ? ? ? ? ? ? ? ? ?]. done.
Qed.

Lemma section_idle lk s1 s2 :
  cli_ok (k_cpu s1) -> k_cpu s2 = k_cpu (acquired lk s1) -> (forall lk', lk' <> lk -> unlocked s2 lk') ->
  idle (released lk s2).
Proof.
  intros Hc Hcpu Hu. split.
  - apply cli_ok_released; rewrite Hcpu; [by apply cli_ok_pushed|]. destruct Hc as [? _]. cbn. lia.
  - intros lk'. destruct (decide (lk' = lk)) as [->|Hne]; [apply unlocked_released_eq|].
    apply unlocked_released. by apply Hu.
Qed.

(** ** Flags *)

Lemma land_pow2 f k : 0 <= k -> Z.land f (2 ^ k) = if Z.testbit f k then 2 ^ k else 0.
Proof.
  intros Hk. apply Z.bits_inj'. intros n Hn. rewrite Z.land_spec, Z.pow2_bits_eqb by done.
  destruct (Z.eqb_spec k n) as [->|Hne].
  - destruct (Z.testbit f n); [by rewrite Z.pow2_bits_true|by rewrite Z.bits_0].
  - rewrite andb_false_r. destruct (Z.testbit f k); [by rewrite Z.pow2_bits_false|by rewrite Z.bits_0].
Qed.

Lemma has_pow2 f k : 0 <= k -> has f (2 ^ k) = Z.testbit f k.
Proof.
  intros Hk. unfold has. rewrite land_pow2 by done. destruct (Z.testbit f k); [|done].
  apply truth_true. pose proof (Z.pow_pos_nonneg 2 k). lia.
Qed.

Lemma has_busy f : has f B_BUSY = Z.testbit f 0.
Proof. by apply (has_pow2 f 0). Qed.
Lemma has_valid f : has f B_VALID = Z.testbit f 1.
Proof. by apply (has_pow2 f 1). Qed.
Lemma has_dirty f : has f B_DIRTY = Z.testbit f 2.
Proof. by apply (has_pow2 f 2). Qed.

Lemma valid_dirty_test f :
  (Z.land f VALID_DIRTY =? B_VALID) = has f B_VALID && negb (has f B_DIRTY).
Proof.
  rewrite has_valid, has_dirty. change VALID_DIRTY with (Z.lor (2 ^ 1) (2 ^ 2)).
  rewrite Z.land_lor_distr_r, !land_pow2 by done.
  by destruct (Z.testbit f 1), (Z.testbit f 2).
Qed.

(** Setting and clearing a flag, seen through [has]. *)
Lemma has_lor f a b : has (Z.lor f a) b = has f b || has a b.
Proof.
  unfold has. rewrite Z.land_lor_distr_l. unfold truth. destruct (Z.eqb_spec (Z.land f b) 0) as [->|H]; [done|].
  destruct (Z.eqb_spec (Z.lor (Z.land f b) (Z.land a b)) 0) as [E|]; [|done].
  apply Z.lor_eq_0_iff in E as [? _]. done.
Qed.

(** ** The view *)

Record bview : Type := mkView {
  bv_data : Z -> list Z;
  bv_disk : Z -> list Z;
  bv_writes : list (Z * list Z);
  bv_dirty : gset Z;
  bv_busy : gmap Z nat
}.

Definition zset {A} (f : Z -> A) (n : Z) (v : A) : Z -> A := fun k => if k =? n then v else f k.

(** Buffer [b] of disk 1 holds block [n]. *)
Definition caches (bufs : list buf) (n : Z) (b : nat) (x : buf) : Prop :=
  (b < NBUF)%nat /\ bufs !! b = Some x /\ b_dev x = 1 /\ b_blockno x = n.

Record cache_ok (size : Z) (bufs : list buf) (V : bview) : Prop := {
  co_busy : forall b x, (b < NBUF)%nat -> bufs !! b = Some x -> has (b_flags x) B_BUSY = true ->
    b_dev x = 1 /\ bv_busy V !! b_blockno x = Some b;
  co_dirty : forall b x, (b < NBUF)%nat -> bufs !! b = Some x -> has (b_flags x) B_DIRTY = true ->
    b_dev x = 1 /\ b_blockno x ∈ bv_dirty V;
  co_data : forall n b x, caches bufs n b x ->
    0 <= n < size /\ has (b_flags x) B_VALID = true /\ b_data x = bv_data V n;
  co_uniq : forall n b b' x x', caches bufs n b x -> caches bufs n b' x' -> b = b';
  co_pinned : forall n, n ∈ bv_dirty V -> exists b x, caches bufs n b x /\ has (b_flags x) B_DIRTY = true;
  co_locked : forall n b, bv_busy V !! n = Some b -> exists x, caches bufs n b x /\ has (b_flags x) B_BUSY = true;
  co_clean : forall n, n ∉ bv_dirty V -> bv_busy V !! n = None -> bv_data V n = bv_disk V n
}.

Definition nx (bufs : list buf) (b : nat) : nat := match bufs !! b with Some x => b_next x | None => 0%nat end.
Definition pv (bufs : list buf) (b : nat) : nat := match bufs !! b with Some x => b_prev x | None => 0%nat end.
Definition lru (bufs : list buf) (l : list nat) : Prop :=
  length bufs = S NBUF /\ ring (nx bufs) (pv bufs) HEAD l /\ l ≡ₚ seq 0 NBUF.

Record bio_ok (size : Z) (fs : fsstate) (V : bview) : Prop := {
  bo_lru : exists l, lru (fs_bufs fs) l;
  bo_cache : cache_ok size (fs_bufs fs) V;
  bo_disk : fs_disk fs = bv_disk V;
  bo_writes : fs_writes fs = bv_writes V
}.

(** ** Walking the list *)

Lemma walk_ring step bufs g h l n i :
  let f b := match bufs !! b with Some x => step x | None => 0%nat end in
  h = HEAD -> ring f g h l -> (forall b, b ∈ l -> (b < length bufs)%nat) ->
  (length l <= n + i)%nat ->
  walk_bufs n step bufs (default h (l !! i)) = drop i l.
Proof.
  intros f -> Hr Hb. revert i. induction n as [|n IH]; intros i Hn; cbn [walk_bufs].
  { rewrite drop_ge by lia. done. }
  destruct (l !! i) as [a|] eqn:Ha; cbn [from_option id].
  - assert (Hal : a ∈ l) by (by eapply list_elem_of_lookup_2).
    destruct (Nat.eqb_spec a HEAD) as [->|_].
    { destruct Hr as (_ & _ & Hnd). apply NoDup_cons in Hnd as [? _]. done. }
    destruct (lookup_lt_is_Some_2 bufs a (Hb a Hal)) as [x Hx]. rewrite Hx.
    rewrite (drop_S l a i Ha). f_equal. rewrite <- IH by lia. f_equal.
    pose proof (ring_next f g HEAD l i a Hr Ha) as E. unfold f in E. rewrite Hx in E. done.
  - rewrite Nat.eqb_refl. apply lookup_ge_None in Ha. by rewrite drop_ge.
Qed.

Lemma lru_lt bufs l b : lru bufs l -> b ∈ l -> (b < NBUF)%nat.
Proof. intros (_ & _ & Hp) Hb. rewrite Hp in Hb. apply elem_of_seq in Hb. lia. Qed.

Lemma lru_length bufs l : lru bufs l -> length l = NBUF.
Proof. intros (_ & _ & Hp). by rewrite Hp, length_seq. Qed.

Lemma chain_next s l : lru (fs_bufs (k_fs s)) l -> chain_of b_next s = l.
Proof.
  intros Hl. pose proof Hl as (Hlen & Hr & Hp). unfold chain_of, buf_of.
  destruct (lookup_lt_is_Some_2 (fs_bufs (k_fs s)) HEAD) as [h Hh]; [rewrite Hlen; unfold HEAD; lia|].
  rewrite Hh. pose proof (ring_first _ _ _ _ Hr) as Hf. unfold nx in Hf at 1. rewrite Hh in Hf.
  replace (b_next h) with (default HEAD (l !! 0%nat)).
  - rewrite (walk_ring b_next _ (pv (fs_bufs (k_fs s))) HEAD l NBUF 0); [done|done|done| |].
    + intros b Hb%(lru_lt _ _ _ Hl). rewrite Hlen. lia.
    + rewrite (lru_length _ _ Hl). lia.
  - destruct l; simpl in *; congruence.
Qed.

Lemma chain_prev s l : lru (fs_bufs (k_fs s)) l -> chain_of b_prev s = rev l.
Proof.
  intros Hl. pose proof Hl as (Hlen & Hr & Hp). unfold chain_of, buf_of.
  destruct (lookup_lt_is_Some_2 (fs_bufs (k_fs s)) HEAD) as [h Hh]; [rewrite Hlen; unfold HEAD; lia|].
  apply ring_rev in Hr.
  rewrite Hh. pose proof (ring_first _ _ _ _ Hr) as Hf. unfold pv in Hf at 1. rewrite Hh in Hf.
  replace (b_prev h) with (default HEAD (rev l !! 0%nat)).
  - rewrite (walk_ring b_prev _ (nx (fs_bufs (k_fs s))) HEAD (rev l) NBUF 0); [done|done|done| |].
    + intros b Hb. rewrite <- (Permutation_rev l) in Hb. apply (lru_lt _ _ _ Hl) in Hb. rewrite Hlen. lia.
    + rewrite length_rev, (lru_length _ _ Hl). lia.
  - destruct (rev l); simpl in *; congruence.
Qed.

(** ** Updates of one buffer *)

Lemma upd_buf_bufs b f s : fs_bufs (k_fs (upd_buf b f s)) = alter f b (fs_bufs (k_fs s)).
Proof. done. Qed.

Lemma lru_alter f b bufs l :
  (forall x, b_next (f x) = b_next x /\ b_prev (f x) = b_prev x) -> lru bufs l -> lru (alter f b bufs) l.
Proof.
  intros Hf (Hlen & Hr & Hp). split_and!; [by rewrite length_alter| |done].
  eapply ring_ext; [|exact Hr]. intros c _. unfold nx, pv.
  destruct (decide (b = c)) as [->|Hne].
  - rewrite list_lookup_alter_eq. destruct (bufs !! c) as [x|]; [|done]. apply Hf.
  - by rewrite list_lookup_alter_ne.
Qed.

Lemma upd_buf_twice b f g s : upd_buf b g (upd_buf b f s) = upd_buf b (fun x => g (f x)) s.
Proof.
  unfold upd_buf, upd_fs, set_k_fs. cbn. by rewrite alter_twice.
Qed.

Lemma upd_buf_disk_write b f n d s :
  disk_write n d (upd_buf b f s) = upd_buf b f (disk_write n d s).
Proof. done. Qed.

Lemma buf_at_ok e s b x : buf_of s b = Some x -> buf_at b e s = Ok x e s.
Proof. intros H. unfold buf_at. erewrite bind_ok by apply gets_ok. by rewrite H. Qed.

Lemma buf_upd_eq b f s x : buf_of s b = Some x -> buf_of (upd_buf b f s) b = Some (f x).
Proof. intros H. unfold buf_of. rewrite upd_buf_bufs, list_lookup_alter_eq. unfold buf_of in H. by rewrite H. Qed.

Lemma released_upd_buf lk b f s :
  released lk (upd_buf b f s) = upd_buf b f (released lk s).
Proof. done. Qed.

Section OneBuffer.
Context (size : Z) (bufs : list buf) (V V' : bview) (b : nat) (x x' : buf).
Hypothesis (Hok : cache_ok size bufs V) (Hx : bufs !! b = Some x) (Hb : (b < NBUF)%nat).

Lemma insert_lookup c y :
  <[b := x']> bufs !! c = Some y <-> (c = b /\ y = x') \/ (c <> b /\ bufs !! c = Some y).
Proof.
  rewrite list_lookup_insert_Some. pose proof (lookup_lt_Some _ _ _ Hx). naive_solver.
Qed.

Lemma insert_caches m c y :
  caches (<[b := x']> bufs) m c y <->
  (c = b /\ y = x' /\ b_dev x' = 1 /\ b_blockno x' = m) \/ (c <> b /\ caches bufs m c y).
Proof. unfold caches. rewrite insert_lookup. naive_solver. Qed.

(** The buffer keeps its block. *)
Section SameBlock.
Context (n : Z).
Hypothesis (Hdev : b_dev x = 1) (Hn : b_blockno x = n).
Hypothesis (Hdev' : b_dev x' = 1) (Hn' : b_blockno x' = n) (Hv' : has (b_flags x') B_VALID = true).
Hypothesis (Hoth : forall m, m <> n -> bv_data V' m = bv_data V m /\ bv_disk V' m = bv_disk V m /\
  (m ∈ bv_dirty V' <-> m ∈ bv_dirty V) /\ bv_busy V' !! m = bv_busy V !! m).
Hypothesis (Hdata' : b_data x' = bv_data V' n).
Hypothesis (Hbusy' : bv_busy V' !! n = if has (b_flags x') B_BUSY then Some b else None).
Hypothesis (Hdirty' : n ∈ bv_dirty V' <-> has (b_flags x') B_DIRTY = true).
Hypothesis (Hclean' : n ∉ bv_dirty V' -> bv_busy V' !! n = None -> bv_data V' n = bv_disk V' n).

Lemma same_block_ne m c y : c <> b -> caches bufs m c y -> m <> n.
Proof. intros Hc Hy ->. apply Hc. by apply (co_uniq _ _ _ Hok n c b y x). Qed.

Lemma same_block_kept m c y : m <> n -> caches bufs m c y -> caches (<[b := x']> bufs) m c y.
Proof.
  intros Hne Hy. apply insert_caches. right. split; [|done].
  intros ->. apply Hne. destruct Hy as (_ & Hy & _ & <-). congruence.
Qed.

Lemma same_block_flags c y : (c < NBUF)%nat -> <[b := x']> bufs !! c = Some y ->
  (has (b_flags y) B_BUSY = true -> b_dev y = 1 /\ bv_busy V' !! b_blockno y = Some c) /\
  (has (b_flags y) B_DIRTY = true -> b_dev y = 1 /\ b_blockno y ∈ bv_dirty V').
Proof.
  intros Hc [[-> ->]|[Hne Hy]]%insert_lookup.
  - rewrite Hn', Hdirty', Hbusy'. split; intros Hf; [by rewrite Hf|done].
  - split; intros Hf.
    + destruct (co_busy _ _ _ Hok c y Hc Hy Hf) as [Hd Hbs]. split; [done|].
      destruct (Hoth (b_blockno y)) as (_ & _ & _ & ->); [|done]. by apply (same_block_ne _ c y).
    + destruct (co_dirty _ _ _ Hok c y Hc Hy Hf) as [Hd Hbs]. split; [done|].
      apply (Hoth (b_blockno y)); [|done]. by apply (same_block_ne _ c y).
Qed.

Lemma same_block_uniq m c c' y y' :
  caches (<[b := x']> bufs) m c y -> caches (<[b := x']> bufs) m c' y' -> c = c'.
Proof.
  intros [(-> & -> & _ & <-)|[Hne Hy]]%insert_caches [(-> & -> & _ & E)|[Hne' Hy']]%insert_caches.
  - done.
  - by apply (same_block_ne _ c' y') in Hy'.
  - apply (same_block_ne _ c y) in Hy; [|done]. congruence.
  - by apply (co_uniq _ _ _ Hok m c c' y y').
Qed.

Lemma cache_same_block : cache_ok size (<[b := x']> bufs) V'.
Proof.
  split.
  - intros c y Hc Hy. exact (proj1 (same_block_flags c y Hc Hy)).
  - intros c y Hc Hy. exact (proj2 (same_block_flags c y Hc Hy)).
  - intros m c y [(-> & -> & _ & <-)|[Hne Hy]]%insert_caches.
    + rewrite Hn'. split; [|done]. by apply (co_data _ _ _ Hok n b x).
    + destruct (co_data _ _ _ Hok m c y Hy) as (? & ? & ->). split; [done|]. split; [done|].
      symmetry. apply Hoth. by apply (same_block_ne _ c y).
  - exact same_block_uniq.
  - intros m Hm. destruct (decide (m = n)) as [->|Hne].
    + exists b, x'. split; [|by apply Hdirty']. apply insert_caches. by left.
    + apply (Hoth m Hne) in Hm. destruct (co_pinned _ _ _ Hok m Hm) as (c & y & Hy & Hf).
      exists c, y. split; [|done]. by apply same_block_kept.
  - intros m c Hm. destruct (decide (m = n)) as [->|Hne].
    + rewrite Hbusy' in Hm. destruct (has (b_flags x') B_BUSY) eqn:E; [|done]. injection Hm as <-.
      exists x'. split; [|done]. apply insert_caches. by left.
    + destruct (Hoth m Hne) as (_ & _ & _ & E). rewrite E in Hm.
      destruct (co_locked _ _ _ Hok m c Hm) as (y & Hy & Hf).
      exists y. split; [|done]. by apply same_block_kept.
  - intros m. destruct (decide (m = n)) as [->|Hne]; [done|].
    destruct (Hoth m Hne) as (-> & -> & -> & ->). apply (co_clean _ _ _ Hok).
Qed.
End SameBlock.

(** A clean, unlocked buffer is given to another block. *)
Section NewBlock.
Context (n : Z).
Hypothesis (Hrec : recyclable x = true) (Hrange : 0 <= n < size).
Hypothesis (Hnone : forall c y, ~ caches bufs n c y).
Hypothesis (Hdev' : b_dev x' = 1) (Hn' : b_blockno x' = n) (Hf' : b_flags x' = Z.lor B_BUSY B_VALID).
Hypothesis (Hdata' : b_data x' = bv_disk V n).

Lemma not_cached_clean : n ∉ bv_dirty V /\ bv_busy V !! n = None.
Proof.
  split.
  - intros (c & y & Hy & _)%(co_pinned _ _ _ Hok). by apply (Hnone c y).
  - destruct (bv_busy V !! n) as [c|] eqn:E; [|done].
    apply (co_locked _ _ _ Hok) in E as (y & Hy & _). by destruct (Hnone c y).
Qed.

Lemma new_block_kept m c y : has (b_flags y) B_BUSY = true \/ has (b_flags y) B_DIRTY = true ->
  caches bufs m c y -> caches (<[b := x']> bufs) m c y.
Proof.
  intros Hf Hy. apply insert_caches. right. split; [|done]. intros ->.
  destruct Hy as (_ & Hy & _). simplify_eq. unfold recyclable in Hrec. zbool. destruct Hf; congruence.
Qed.

Lemma new_block_uniq m c c' y y' :
  caches (<[b := x']> bufs) m c y -> caches (<[b := x']> bufs) m c' y' -> c = c'.
Proof.
  intros [(-> & -> & _ & <-)|[Hne Hy]]%insert_caches [(-> & -> & _ & E)|[Hne' Hy']]%insert_caches.
  - done.
  - rewrite Hn' in Hy'. by destruct (Hnone c' y').
  - rewrite <- E, Hn' in Hy. by destruct (Hnone c y).
  - by apply (co_uniq _ _ _ Hok m c c' y y').
Qed.

Lemma cache_new_block :
  cache_ok size (<[b := x']> bufs)
    (mkView (bv_data V) (bv_disk V) (bv_writes V) (bv_dirty V) (<[n := b]> (bv_busy V))).
Proof.
  destruct not_cached_clean as [Hnd Hnb]. split; cbn [bv_data bv_disk bv_dirty bv_busy].
  - intros c y Hc [[-> ->]|[Hne Hy]]%insert_lookup Hf.
    + by rewrite Hn', lookup_insert_eq.
    + destruct (co_busy _ _ _ Hok c y Hc Hy Hf) as [Hd Hbs]. split; [done|].
      rewrite lookup_insert_ne; [done|]. intros E. by apply (Hnone c y).
  - intros c y Hc [[-> ->]|[Hne Hy]]%insert_lookup Hf; [by rewrite Hf' in Hf|].
    by apply (co_dirty _ _ _ Hok c).
  - intros m c y [(-> & -> & _ & <-)|[Hne Hy]]%insert_caches; [|by apply (co_data _ _ _ Hok m c y)].
    rewrite Hn', Hf'. split; [done|]. split; [done|]. rewrite Hdata'. symmetry. by apply (co_clean _ _ _ Hok).
  - exact new_block_uniq.
  - intros m Hm. destruct (co_pinned _ _ _ Hok m Hm) as (c & y & Hy & Hf).
    exists c, y. split; [|done]. apply new_block_kept; auto.
  - intros m c Hm. destruct (decide (m = n)) as [->|Hne].
    + rewrite lookup_insert_eq in Hm. injection Hm as <-. exists x'. rewrite Hf'. split; [|done].
      apply insert_caches. by left.
    + rewrite lookup_insert_ne in Hm by done. destruct (co_locked _ _ _ Hok m c Hm) as (y & Hy & Hf).
      exists y. split; [|done]. apply new_block_kept; auto.
  - intros m Hm. destruct (decide (m = n)) as [->|Hne]; [by rewrite lookup_insert_eq|].
    rewrite lookup_insert_ne by done. by apply (co_clean _ _ _ Hok).
Qed.
End NewBlock.

End OneBuffer.

(** ** Updates of the links *)

Lemma nx_set_next v a bufs : (a < length bufs)%nat -> nx (alter (set_b_next v) a bufs) = fset (nx bufs) a v.
Proof.
  intros Ha. apply functional_extensionality. intros c. unfold nx, fset. case_decide as Hd; [subst|].
  - rewrite list_lookup_alter_eq. destruct (lookup_lt_is_Some_2 bufs a Ha) as [x ->]. done.
  - by rewrite list_lookup_alter_ne.
Qed.

Lemma pv_set_prev v a bufs : (a < length bufs)%nat -> pv (alter (set_b_prev v) a bufs) = fset (pv bufs) a v.
Proof.
  intros Ha. apply functional_extensionality. intros c. unfold pv, fset. case_decide as Hd; [subst|].
  - rewrite list_lookup_alter_eq. destruct (lookup_lt_is_Some_2 bufs a Ha) as [x ->]. done.
  - by rewrite list_lookup_alter_ne.
Qed.

Lemma nx_keep f a bufs : (forall x, b_next (f x) = b_next x) -> nx (alter f a bufs) = nx bufs.
Proof.
  intros Hf. apply functional_extensionality. intros c. unfold nx. destruct (decide (a = c)) as [->|Hne].
  - rewrite list_lookup_alter_eq. destruct (bufs !! c); [apply Hf|done].
  - by rewrite list_lookup_alter_ne.
Qed.

Lemma pv_keep f a bufs : (forall x, b_prev (f x) = b_prev x) -> pv (alter f a bufs) = pv bufs.
Proof.
  intros Hf. apply functional_extensionality. intros c. unfold pv. destruct (decide (a = c)) as [->|Hne].
  - rewrite list_lookup_alter_eq. destruct (bufs !! c); [apply Hf|done].
  - by rewrite list_lookup_alter_ne.
Qed.

(** A buffer without its links. *)
Definition strip (x : buf) : buf := set_b_next 0 (set_b_prev 0 x).

Lemma strip_links f a bufs : (forall x, strip (f x) = strip x) -> map strip (alter f a bufs) = map strip bufs.
Proof.
  intros Hf. apply list_eq. intros i. rewrite !list_lookup_fmap. destruct (decide (a = i)) as [->|Hne].
  - rewrite list_lookup_alter_eq. destruct (bufs !! i); [|done]. cbn. by rewrite Hf.
  - by rewrite list_lookup_alter_ne.
Qed.

Lemma strip_lookup bufs bufs' b x :
  map strip bufs' = map strip bufs -> bufs' !! b = Some x ->
  exists y, bufs !! b = Some y /\ b_flags y = b_flags x /\ b_dev y = b_dev x /\
    b_blockno y = b_blockno x /\ b_data y = b_data x.
Proof.
  intros E Hx. apply (f_equal (lookup b)) in E. rewrite !list_lookup_fmap, Hx in E. cbn in E.
  destruct (bufs !! b) as [y|]; [|done]. exists y. split; [done|]. cbn in E. injection E.
  unfold strip. destruct x, y. cbn. by intros -> _ -> -> ->.
Qed.

Lemma strip_caches bufs bufs' n b x :
  map strip bufs' = map strip bufs -> caches bufs' n b x ->
  exists y, caches bufs n b y /\ b_flags y = b_flags x /\ b_data y = b_data x.
Proof.
  intros E (Hb & Hx & Hd & Hn). destruct (strip_lookup bufs bufs' b x E Hx) as (y & Hy & ? & ? & ? & ?).
  exists y. split; [|done]. split_and!; [done|done|congruence|congruence].
Qed.

Lemma cache_ok_strip size bufs bufs' V :
  map strip bufs' = map strip bufs -> cache_ok size bufs V -> cache_ok size bufs' V.
Proof.
  intros E Hok. split.
  - intros b x Hb Hx Hf. destruct (strip_lookup bufs bufs' b x E Hx) as (y & Hy & Ef & <- & <- & _).
    apply (co_busy _ _ _ Hok b y Hb Hy). congruence.
  - intros b x Hb Hx Hf. destruct (strip_lookup bufs bufs' b x E Hx) as (y & Hy & Ef & <- & <- & _).
    apply (co_dirty _ _ _ Hok b y Hb Hy). congruence.
  - intros n b x Hx. destruct (strip_caches bufs bufs' n b x E Hx) as (y & Hy & <- & <-).
    by apply (co_data _ _ _ Hok n b y).
  - intros n b b' x x' Hx Hx'. destruct (strip_caches bufs bufs' n b x E Hx) as (y & Hy & _).
    destruct (strip_caches bufs bufs' n b' x' E Hx') as (y' & Hy' & _).
    by apply (co_uniq _ _ _ Hok n b b' y y').
  - intros n (b & y & Hy & Hf)%(co_pinned _ _ _ Hok).
    destruct (strip_caches bufs' bufs n b y (eq_sym E) Hy) as (x & Hx & Ef & _).
    exists b, x. split; [done|congruence].
  - intros n b (y & Hy & Hf)%(co_locked _ _ _ Hok).
    destruct (strip_caches bufs' bufs n b y (eq_sym E) Hy) as (x & Hx & Ef & _).
    exists x. split; [done|congruence].
  - apply Hok.
Qed.

(** The six assignments of [brelse] move [b] to the front of the list. *)
Definition relink (b : nat) (bufs : list buf) : list buf :=
  let b1 := alter (set_b_prev (pv bufs b)) (nx bufs b) bufs in
  let b2 := alter (set_b_next (nx b1 b)) (pv b1 b) b1 in
  let hd := nx b2 HEAD in
  alter (set_b_next b) HEAD (alter (set_b_prev b) hd
    (alter (set_b_prev HEAD) b (alter (set_b_next hd) b b2))).

Lemma relink_strip b bufs : map strip (relink b bufs) = map strip bufs.
Proof. unfold relink. by rewrite !strip_links. Qed.

Lemma ring_lt f g (bufs : list buf) l c :
  length bufs = S NBUF -> ring f g HEAD l -> l ≡ₚ seq 0 NBUF -> c ∈ HEAD :: l ->
  (f c < length bufs)%nat /\ (g c < length bufs)%nat.
Proof.
  intros Hlen (Hf & Hg & _) Hp Hc.
  assert (Hall : forall x, x ∈ l ++ [HEAD] -> (x < length bufs)%nat).
  { intros x Hx. rewrite Hp, elem_of_app, elem_of_seq, list_elem_of_singleton in Hx.
    rewrite Hlen. unfold HEAD in Hx. lia. }
  split; apply Hall.
  - rewrite <- Hf. by apply list_elem_of_fmap_2.
  - assert (g c ∈ map g (l ++ [HEAD])) as Hin by (apply list_elem_of_fmap_2; set_solver).
    rewrite Hg in Hin. set_solver.
Qed.

(** The first two assignments unlink [b]. *)
Definition unlink (b : nat) (bufs : list buf) : list buf :=
  let b1 := alter (set_b_prev (pv bufs b)) (nx bufs b) bufs in
  alter (set_b_next (nx b1 b)) (pv b1 b) b1.

Lemma unlink_links b bufs :
  (nx bufs b < length bufs)%nat -> (pv bufs b < length bufs)%nat ->
  length (unlink b bufs) = length bufs /\
  nx (unlink b bufs) = fset (nx bufs) (pv bufs b) (nx bufs b) /\
  pv (unlink b bufs) = fset (pv bufs) (nx bufs b) (pv bufs b).
Proof.
  intros Hn Hp. unfold unlink. set (b1 := alter (set_b_prev (pv bufs b)) (nx bufs b) bufs).
  assert (E1 : nx b1 = nx bufs) by (by apply nx_keep).
  assert (E1' : pv b1 = fset (pv bufs) (nx bufs b) (pv bufs b)) by (by apply pv_set_prev).
  assert (Epb : pv b1 b = pv bufs b) by (rewrite E1'; unfold fset; by case_decide).
  assert (Hl : length b1 = length bufs) by apply length_alter.
  rewrite Epb, E1. split_and!; [by rewrite length_alter| |by rewrite pv_keep].
  rewrite nx_set_next by lia. by rewrite E1.
Qed.

Lemma relink_links b bufs :
  let b2 := unlink b bufs in let hd := nx b2 HEAD in
  (b < length b2)%nat -> (hd < length b2)%nat -> (HEAD < length b2)%nat ->
  length (relink b bufs) = length b2 /\
  nx (relink b bufs) = fset (fset (nx b2) b hd) HEAD b /\
  pv (relink b bufs) = fset (fset (pv b2) b HEAD) hd b.
Proof.
  intros b2 hd Hb Hh HH. unfold relink. fold (unlink b bufs). fold b2. fold hd. split_and!.
  - by rewrite !length_alter.
  - rewrite nx_set_next by (by rewrite !length_alter). f_equal.
    rewrite !(nx_keep (set_b_prev _)) by done. by rewrite nx_set_next.
  - rewrite pv_keep by done. rewrite pv_set_prev by (by rewrite !length_alter). f_equal.
    rewrite pv_set_prev by (by rewrite !length_alter). f_equal. by rewrite pv_keep.
Qed.

Lemma relink_lru b bufs l : lru bufs l -> b ∈ l -> exists l', lru (relink b bufs) l'.
Proof.
  intros (Hlen & Hr & Hp) Hb.
  assert (Hblt : (b < NBUF)%nat) by (rewrite Hp, elem_of_seq in Hb; lia).
  destruct (ring_lt _ _ bufs l b Hlen Hr Hp ltac:(set_solver)) as [Hn1 Hp1].
  destruct (unlink_links b bufs Hn1 Hp1) as (Hl2 & E2 & E2').
  pose proof Hb as (l1 & l2 & ->)%list_elem_of_split.
  assert (Hnd := proj2 (proj2 Hr)). apply ring_remove in Hr. rewrite <- E2, <- E2' in Hr.
  assert (Hhead : b <> HEAD) by (unfold HEAD; lia).
  assert (Hnb : b ∉ HEAD :: l1 ++ l2).
  { apply not_elem_of_cons. split; [done|]. apply NoDup_cons in Hnd as [_ Hnd].
    rewrite <- Permutation_middle in Hnd. by apply NoDup_cons in Hnd as [? _]. }
  pose proof (ring_insert _ _ _ _ b Hnb Hr) as Hr'.
  assert (Hhd : (nx (unlink b bufs) HEAD < length (unlink b bufs))%nat).
  { pose proof (ring_first _ _ _ _ Hr) as Hf. rewrite Hl2, Hlen.
    assert (Hin : nx (unlink b bufs) HEAD ∈ l1 ++ l2 ++ [HEAD]).
    { destruct ((l1 ++ l2) ++ [HEAD]) as [|a r] eqn:E; [done|]. rewrite app_assoc, E. injection Hf as <-. set_solver. }
    assert (Hin' : nx (unlink b bufs) HEAD ∈ HEAD :: l1 ++ b :: l2) by set_solver.
    rewrite Hp in Hin'. apply elem_of_cons in Hin' as [->|Hi%elem_of_seq]; [unfold HEAD; lia|lia]. }
  exists (b :: l1 ++ l2). destruct (relink_links b bufs) as (H1 & H2 & H3); [rewrite Hl2, Hlen; lia|done|rewrite Hl2, Hlen; unfold HEAD; lia|].
  split_and!; [by rewrite H1, Hl2|by rewrite H2, H3|]. rewrite <- Hp. apply Permutation_middle.
Qed.

(** ** Finding a buffer *)

Definition pinned_blocks (V : bview) : gset Z := bv_dirty V ∪ dom (bv_busy V).

Lemma find_block size s l V n :
  lru (fs_bufs (k_fs s)) l -> cache_ok size (fs_bufs (k_fs s)) V ->
  (exists b x, first_buf (is_block 1 n) s l = Some b /\ caches (fs_bufs (k_fs s)) n b x) \/
  (first_buf (is_block 1 n) s l = None /\ forall b x, ~ caches (fs_bufs (k_fs s)) n b x).
Proof.
  intros Hl Hok. unfold first_buf, buf_of. destruct (List.find _ l) as [b|] eqn:E.
  - left. apply find_some in E as [Hin E].
    destruct (fs_bufs (k_fs s) !! b) as [x|] eqn:Hx; [|done].
    unfold is_block in E. zbool. exists b, x. split; [done|]. split_and!; [|done..].
    apply (lru_lt _ _ _ Hl). by apply list_elem_of_In.
  - right. split; [done|]. intros b x (Hb & Hx & Hd & Hn).
    assert (Hin : In b l).
    { apply list_elem_of_In. destruct Hl as (_ & _ & ->). apply elem_of_seq. lia. }
    apply (find_none _ _ E b) in Hin. rewrite Hx in Hin.
    unfold is_block in Hin. by rewrite Hd, Hn, !Z.eqb_refl in Hin.
Qed.

(** Distinct blocks for distinct pinned buffers: with fewer pinned blocks than
    buffers, some buffer can be recycled. *)
Lemma pinned_all size bufs V :
  length bufs = S NBUF -> cache_ok size bufs V ->
  (forall b x, (b < NBUF)%nat -> bufs !! b = Some x -> recyclable x = false) ->
  (NBUF <= base.size (pinned_blocks V))%nat.
Proof.
  intros Hlen Hok Hall.
  set (blk b := match bufs !! b with Some x => b_blockno x | None => 0 end).
  assert (Hpin : forall b, (b < NBUF)%nat -> exists x, caches bufs (blk b) b x /\ blk b ∈ pinned_blocks V).
  { intros b Hb. destruct (lookup_lt_is_Some_2 bufs b) as [x Hx]; [lia|].
    unfold blk. rewrite Hx. exists x. pose proof (Hall b x Hb Hx) as Hr. unfold recyclable in Hr.
    destruct (has (b_flags x) B_BUSY) eqn:Eb.
    - destruct (co_busy _ _ _ Hok b x Hb Hx Eb) as [Hd Hs]. split; [done|].
      apply elem_of_union_r. by apply elem_of_dom_2 in Hs.
    - destruct (has (b_flags x) B_DIRTY) eqn:Ed; [|done].
      destruct (co_dirty _ _ _ Hok b x Hb Hx Ed) as [Hd Hs]. split; [done|]. by apply elem_of_union_l. }
  assert (Hnd : NoDup (blk <$> seq 0 NBUF)).
  { apply NoDup_fmap_2_strong; [|apply NoDup_seq]. intros b c Hb%elem_of_seq Hc%elem_of_seq E.
    destruct (Hpin b ltac:(lia)) as (x & Hx & _), (Hpin c ltac:(lia)) as (y & Hy & _).
    rewrite E in Hx. by apply (co_uniq _ _ _ Hok (blk c) b c x y). }
  rewrite <- (length_seq NBUF 0), <- (length_fmap blk), <- (size_list_to_set (C := gset Z)) by done.
  apply subseteq_size. intros n (b & -> & Hb%elem_of_seq)%elem_of_list_to_set%list_elem_of_fmap.
  by destruct (Hpin b ltac:(lia)) as (_ & _ & ?).
Qed.

Lemma find_recyclable size s l V :
  lru (fs_bufs (k_fs s)) l -> cache_ok size (fs_bufs (k_fs s)) V ->
  (base.size (pinned_blocks V) < NBUF)%nat ->
  exists b x, first_buf recyclable s (rev l) = Some b /\ (b < NBUF)%nat /\
    fs_bufs (k_fs s) !! b = Some x /\ recyclable x = true.
Proof.
  intros Hl Hok Hsz. unfold first_buf, buf_of. destruct (List.find _ (rev l)) as [b|] eqn:E.
  - apply find_some in E as [Hin E]. destruct (fs_bufs (k_fs s) !! b) as [x|] eqn:Hx; [|done].
    exists b, x. split_and!; [done| |done..].
    apply (lru_lt _ _ _ Hl). apply in_rev in Hin. by apply list_elem_of_In.
  - exfalso. apply (Nat.lt_irrefl NBUF). eapply Nat.le_lt_trans; [|exact Hsz].
    apply (pinned_all size (fs_bufs (k_fs s)) V); [apply Hl|done|]. intros b x Hb Hx.
    assert (Hin : In b (rev l)).
    { apply in_rev. rewrite rev_involutive. apply list_elem_of_In. destruct Hl as (_ & _ & ->). apply elem_of_seq. lia. }
    apply (find_none _ _ E b) in Hin. by rewrite Hx in Hin.
Qed.

(** ** The functions of bio.c *)

Lemma consumes_bget dev n : consumes (bget_turn dev n).
Proof.
  unfold bget_turn. apply consumes_bind; [by auto with xv6|]. intros [b|].
  - apply consumes_bind; [unfold buf_at; shrink|]. intros x. destruct (negb _).
    + do 2 (apply consumes_bind; [unfold set_flag; shrink|intros ?]). apply consumes_some.
    + apply consumes_takes. apply takes_bind_l; [apply takes_sleep|intros ?; shrink].
  - apply consumes_bind; [by auto with xv6|]. intros [b|]; [|done].
    do 4 (apply consumes_bind; [shrink|intros ?]). apply consumes_some.
Qed.

Lemma released_buf_acquired lk b f s :
  cli_ok (k_cpu s) -> released lk (upd_buf b f (acquired lk s)) = upd_buf b f (crit lk s).
Proof. intros H. by rewrite released_upd_buf, released_acquired. Qed.

Lemma bget_hit n e s l b x :
  idle s -> lru (fs_bufs (k_fs s)) l -> first_buf (is_block 1 n) s l = Some b ->
  buf_of s b = Some x -> has (b_flags x) B_BUSY = false ->
  bget 1 n e s = Ok b e (upd_buf b (fun x => set_b_flags (Z.lor (b_flags x) B_BUSY) x) (crit Lbcache s)).
Proof.
  intros [Hc Hu] Hl Hf Hx Hb. unfold bget. mstep acquire_free by apply Hu.
  rewrite loop_unfold by apply consumes_bget. unfold bget_turn at 2. rewrite bind_assoc. mstep.
  change (chain_of b_next (acquired Lbcache s)) with (chain_of b_next s).
  rewrite (chain_next s l Hl). change (first_buf ?f (acquired Lbcache s) l) with (first_buf f s l).
  rewrite Hf. rewrite bind_assoc. mstep buf_at_ok by exact Hx. rewrite Hb. cbn [negb].
  unfold set_flag. rewrite bind_assoc. mstep. rewrite bind_assoc.
  mstep release_held by ctl. mstep. by rewrite released_buf_acquired.
Qed.

Lemma bget_miss n e s l b :
  idle s -> lru (fs_bufs (k_fs s)) l -> first_buf (is_block 1 n) s l = None ->
  first_buf recyclable s (rev l) = Some b ->
  bget 1 n e s =
  Ok b e (upd_buf b (fun x => set_b_flags B_BUSY (set_b_blockno n (set_b_dev 1 x))) (crit Lbcache s)).
Proof.
  intros [Hc Hu] Hl Hf Hr. unfold bget. mstep acquire_free by apply Hu.
  rewrite loop_unfold by apply consumes_bget. unfold bget_turn at 2. rewrite bind_assoc. mstep.
  change (chain_of b_next (acquired Lbcache s)) with (chain_of b_next s).
  rewrite (chain_next s l Hl). change (first_buf ?f (acquired Lbcache s) l) with (first_buf f s l).
  rewrite Hf. rewrite bind_assoc. mstep.
  change (chain_of b_prev (acquired Lbcache s)) with (chain_of b_prev s).
  rewrite (chain_prev s l Hl). change (first_buf ?f (acquired Lbcache s) (rev l)) with (first_buf f s (rev l)).
  rewrite Hr. do 3 (rewrite bind_assoc; mstep). rewrite !upd_buf_twice.
  rewrite bind_assoc. mstep release_held by ctl. mstep. by rewrite released_buf_acquired.
Qed.

(** What a driver promises of [iderw] on the blocks [0, size) of disk 1: a
    dirty buffer is written to its block, another one is filled from it, and
    the buffer ends valid and clean. *)
Definition synced (b : nat) (x : buf) (s : kstate) : kstate :=
  if has (b_flags x) B_DIRTY
  then upd_buf b (fun y => set_b_flags (Z.lor (Z.ldiff (b_flags y) B_DIRTY) B_VALID) y)
         (disk_write (b_blockno x) (b_data x) s)
  else upd_buf b (fun y => set_b_flags (Z.lor (b_flags y) B_VALID)
                             (set_b_data (fs_disk (k_fs s) (b_blockno x)) y)) s.

Class DiskOk (D : Disk) (size : Z) : Prop :=
  iderw_ok : forall b x e s, buf_of s b = Some x ->
    has (b_flags x) B_BUSY = true -> has (b_flags x) B_VALID && negb (has (b_flags x) B_DIRTY) = false ->
    b_dev x = 1 -> 0 <= b_blockno x < size ->
    iderw b e s = Ok tt e (synced b x s).

#[export] Instance memide_ok `{Symbols} : DiskOk disk_memide Memide.disksize.
Proof.
  intros b x e s Hx Hb Hv Hd Hn. cbn [iderw disk_memide]. unfold Memide.iderw.
  mstep buf_at_ok by exact Hx. rewrite Hb, valid_dirty_test, Hv, Hd. cbn [negb Z.eqb Pos.eqb].
  destruct (Z.leb_spec Memide.disksize (b_blockno x)); [lia|]. unfold synced.
  destruct (has (b_flags x) B_DIRTY); unfold clear_flag, set_flag.
  - rewrite bind_assoc. mstep. mstep. rewrite modify_ok, upd_buf_disk_write, upd_buf_twice. done.
  - mstep. by rewrite modify_ok, upd_buf_twice.
Qed.

(** What the functions do to the view. *)
Definition lockv (n : Z) (b : nat) (V : bview) : bview :=
  mkView (bv_data V) (bv_disk V) (bv_writes V) (bv_dirty V) (<[n := b]> (bv_busy V)).
Definition unlockv (n : Z) (V : bview) : bview :=
  mkView (bv_data V) (bv_disk V) (bv_writes V) (bv_dirty V) (delete n (bv_busy V)).
Definition setv (n : Z) (d : list Z) (V : bview) : bview :=
  mkView (zset (bv_data V) n d) (bv_disk V) (bv_writes V) (bv_dirty V) (bv_busy V).
Definition pinv (n : Z) (V : bview) : bview :=
  mkView (bv_data V) (bv_disk V) (bv_writes V) (bv_dirty V ∪ {[n]}) (bv_busy V).
Definition writev (n : Z) (V : bview) : bview :=
  mkView (bv_data V) (zset (bv_disk V) n (bv_data V n)) (bv_writes V ++ [(n, bv_data V n)])
    (bv_dirty V ∖ {[n]}) (bv_busy V).

Lemma zset_eq {A} (f : Z -> A) n v : zset f n v n = v.
Proof. unfold zset. by rewrite Z.eqb_refl. Qed.
Lemma zset_ne {A} (f : Z -> A) n v m : m <> n -> zset f n v m = f m.
Proof. intros H. unfold zset. by rewrite (proj2 (Z.eqb_neq m n) H). Qed.

Lemma has_ldiff_ne f j k : 0 <= j -> 0 <= k -> j <> k -> has (Z.ldiff f (2 ^ j)) (2 ^ k) = has f (2 ^ k).
Proof.
  intros Hj Hk Hne. rewrite !has_pow2 by done. rewrite Z.ldiff_spec, Z.pow2_bits_false by done.
  by rewrite andb_true_r.
Qed.

Lemma has_ldiff_eq f k : 0 <= k -> has (Z.ldiff f (2 ^ k)) (2 ^ k) = false.
Proof. intros Hk. rewrite has_pow2 by done. by rewrite Z.ldiff_spec, Z.pow2_bits_true, andb_false_r. Qed.

(** The outcome of a block operation. *)
Record bpost (size : Z) (s s' : kstate) (V : bview) : Prop := {
  bp_idle : idle s';
  bp_rest : rest s' = rest s;
  bp_ok : bio_ok size (k_fs s') V
}.

Section BioOps.
Context (D : Disk) (size : Z) {HD : DiskOk D size}.

(** A buffer that keeps its block and its place in the list. *)
Lemma bio_same_block s V V' n b x f :
  (exists l, lru (fs_bufs (k_fs s)) l) -> cache_ok size (fs_bufs (k_fs s)) V ->
  caches (fs_bufs (k_fs s)) n b x ->
  (forall y, b_next (f y) = b_next y /\ b_prev (f y) = b_prev y) ->
  b_dev (f x) = 1 -> b_blockno (f x) = n -> has (b_flags (f x)) B_VALID = true ->
  (forall m, m <> n -> bv_data V' m = bv_data V m /\ bv_disk V' m = bv_disk V m /\
    (m ∈ bv_dirty V' <-> m ∈ bv_dirty V) /\ bv_busy V' !! m = bv_busy V !! m) ->
  b_data (f x) = bv_data V' n ->
  bv_busy V' !! n = (if has (b_flags (f x)) B_BUSY then Some b else None) ->
  (n ∈ bv_dirty V' <-> has (b_flags (f x)) B_DIRTY = true) ->
  (n ∉ bv_dirty V' -> bv_busy V' !! n = None -> bv_data V' n = bv_disk V' n) ->
  fs_disk (k_fs s) = bv_disk V' -> fs_writes (k_fs s) = bv_writes V' ->
  bio_ok size (k_fs (upd_buf b f s)) V'.
Proof.
  intros [l Hl] Hc (Hb & Hx & Hd & Hn) Hln Hd' Hn' Hv' Ho Hda Hbu Hdi Hcl Hdk Hw.
  split; [| |exact Hdk|exact Hw].
  - exists l. by apply lru_alter.
  - rewrite upd_buf_bufs, (alter_insert _ _ _ x Hx).
    by apply (cache_same_block size (fs_bufs (k_fs s)) V V' b x (f x) Hc Hx Hb n).
Qed.

Lemma locked_buf V s n b :
  bio_ok size (k_fs s) V -> bv_busy V !! n = Some b ->
  exists x, caches (fs_bufs (k_fs s)) n b x /\ has (b_flags x) B_BUSY = true /\
    has (b_flags x) B_VALID = true /\ b_data x = bv_data V n /\ 0 <= n < size /\
    (has (b_flags x) B_DIRTY = true <-> n ∈ bv_dirty V).
Proof.
  intros [_ Hc _ _] Hn. destruct (co_locked _ _ _ Hc n b Hn) as (x & Hx & Hf).
  destruct (co_data _ _ _ Hc n b x Hx) as (Hr & Hv & Hd).
  exists x. split_and!; [done..| | |]; [lia|lia|]. split.
  - intros Hdi. destruct Hx as (Hb & Hx & _ & <-). by apply (co_dirty _ _ _ Hc b x Hb Hx).
  - intros (c & y & Hy & Hdi)%(co_pinned _ _ _ Hc). rewrite (co_uniq _ _ _ Hc n b c x y Hx Hy) in Hx.
    destruct Hx as (_ & Hx & _), Hy as (_ & Hy & _). congruence.
Qed.

Lemma unlocked_flags V s n b x :
  bio_ok size (k_fs s) V -> caches (fs_bufs (k_fs s)) n b x -> bv_busy V !! n = None ->
  has (b_flags x) B_BUSY = false /\ (has (b_flags x) B_DIRTY = true <-> n ∈ bv_dirty V).
Proof.
  intros [_ Hc _ _] Hx Hn. split.
  - destruct (has (b_flags x) B_BUSY) eqn:E; [|done]. destruct Hx as (Hb & Hx & _ & <-).
    destruct (co_busy _ _ _ Hc b x Hb Hx E) as [_ ?]. congruence.
  - split.
    + intros Hdi. destruct Hx as (Hb & Hx & _ & <-). by apply (co_dirty _ _ _ Hc b x Hb Hx).
    + intros (c & y & Hy & Hdi)%(co_pinned _ _ _ Hc). rewrite (co_uniq _ _ _ Hc n b c x y Hx Hy) in Hx.
      destruct Hx as (_ & Hx & _), Hy as (_ & Hy & _). congruence.
Qed.

Lemma bread_hit V n b x l e s :
  idle s -> bio_ok size (k_fs s) V -> lru (fs_bufs (k_fs s)) l -> bv_busy V !! n = None ->
  first_buf (is_block 1 n) s l = Some b -> caches (fs_bufs (k_fs s)) n b x ->
  exists s', bread 1 n e s = Ok b e s' /\ bpost size s s' (lockv n b V).
Proof.
  intros Hi Hok Hl Hn Hf Hx. destruct (unlocked_flags V s n b x Hok Hx Hn) as [Hb Hdi].
  destruct (co_data _ _ _ (bo_cache _ _ _ Hok) n b x Hx) as (Hr & Hv & Hda).
  pose proof Hx as (Hlt & Hxb & Hd & Hno). unfold bread.
  mstep (bget_hit n e s l b x) by done. mstep buf_at_ok by (apply buf_upd_eq; exact Hxb).
  assert (has (Z.lor (b_flags x) B_BUSY) B_VALID = true) as Hv' by (by rewrite has_lor, Hv).
  cbn [b_flags set_b_flags]. rewrite Hv'. unfold when. cbn [negb]. mstep.
  eexists. split; [done|]. split.
  - apply idle_upd_fs. by apply idle_crit.
  - by rewrite rest_upd_buf, rest_crit.
  - apply (bio_same_block (crit Lbcache s) V (lockv n b V) n b x);
      [apply Hok|apply Hok|exact Hx|done|exact Hd|exact Hno|exact Hv'| |exact Hda| | | |apply Hok|apply Hok].
    + intros m Hm. cbn. by rewrite lookup_insert_ne.
    + cbn. rewrite lookup_insert_eq. by rewrite has_lor, Hb.
    + cbn. rewrite has_lor, orb_false_r. symmetry. exact Hdi.
    + cbn. by rewrite lookup_insert_eq.
Qed.

Lemma bread_miss V n b x l e s :
  idle s -> bio_ok size (k_fs s) V -> lru (fs_bufs (k_fs s)) l -> 0 <= n < size ->
  first_buf (is_block 1 n) s l = None -> (forall c y, ~ caches (fs_bufs (k_fs s)) n c y) ->
  first_buf recyclable s (rev l) = Some b -> (b < NBUF)%nat ->
  fs_bufs (k_fs s) !! b = Some x -> recyclable x = true ->
  exists s', bread 1 n e s = Ok b e s' /\ bpost size s s' (lockv n b V).
Proof.
  intros Hi Hok Hl Hr Hf Hnone Hrf Hb Hx Hrec. unfold bread.
  mstep (bget_miss n e s l b) by done.
  set (f := fun x => set_b_flags B_BUSY (set_b_blockno n (set_b_dev 1 x))).
  assert (Hx' : buf_of (upd_buf b f (crit Lbcache s)) b = Some (f x)) by (apply buf_upd_eq; exact Hx).
  mstep buf_at_ok by exact Hx'. unfold when. cbn [b_flags f set_b_flags].
  change (negb (has B_BUSY B_VALID)) with true. cbn iota.
  mstep (iderw_ok b (f x)) by done. unfold synced. change (has (b_flags (f x)) B_DIRTY) with false.
  cbn iota. rewrite upd_buf_twice. eexists. split; [done|]. split.
  - apply idle_upd_fs. by apply idle_crit.
  - by rewrite rest_upd_buf, rest_crit.
  - destruct Hok as [_ Hc Hdk Hw]. split; [| |exact Hdk|exact Hw].
    + exists l. by apply lru_alter.
    + rewrite upd_buf_bufs, (alter_insert _ _ _ x Hx).
      apply (cache_new_block size (fs_bufs (k_fs s)) V b x _ Hc Hx Hb n); try done.
      cbn. by rewrite Hdk.
Qed.

(** [bread] locks the block's buffer, which holds the block's contents. *)
Lemma bread_ok V n e s :
  idle s -> bio_ok size (k_fs s) V -> 0 <= n < size -> bv_busy V !! n = None ->
  (n ∈ bv_dirty V \/ (base.size (pinned_blocks V) < NBUF)%nat) ->
  exists b s', bread 1 n e s = Ok b e s' /\ bpost size s s' (lockv n b V).
Proof.
  intros Hi Hok Hr Hn Hcap. destruct (bo_lru _ _ _ Hok) as [l Hl]. pose proof (bo_cache _ _ _ Hok) as Hc.
  destruct (find_block size s l V n Hl Hc) as [(b & x & Hf & Hx)|[Hf Hnone]].
  - destruct (bread_hit V n b x l e s) as (s' & ? & ?); eauto.
  - destruct Hcap as [Hd|Hcap].
    { apply (co_pinned _ _ _ Hc) in Hd as (b & x & Hx & _). by destruct (Hnone b x). }
    destruct (find_recyclable size s l V Hl Hc Hcap) as (b & x & Hrf & Hb & Hx & Hrec).
    destruct (bread_miss V n b x l e s) as (s' & ? & ?); eauto.
Qed.

Lemma bdata_ok V n b e s :
  bio_ok size (k_fs s) V -> bv_busy V !! n = Some b -> bdata b e s = Ok (bv_data V n) e s.
Proof.
  intros Hok Hn. destruct (locked_buf V s n b Hok Hn) as (x & (_ & Hx & _) & _ & _ & <- & _).
  unfold bdata. by mstep buf_at_ok by exact Hx.
Qed.

Lemma set_bdata_ok V n b d e s :
  idle s -> bio_ok size (k_fs s) V -> bv_busy V !! n = Some b ->
  exists s', set_bdata b d e s = Ok tt e s' /\ bpost size s s' (setv n d V).
Proof.
  intros Hi Hok Hn. destruct (locked_buf V s n b Hok Hn) as (x & Hx & Hb & Hv & Hda & Hr & Hdi).
  unfold set_bdata. rewrite modify_ok. eexists. split; [done|]. split; [done|apply rest_upd_buf|].
  apply (bio_same_block s V (setv n d V) n b x);
    [apply Hok|apply Hok|exact Hx|done|apply Hx|apply Hx|exact Hv| | | | | |apply Hok|apply Hok].
  - intros m Hm. cbn. by rewrite zset_ne.
  - cbn. by rewrite zset_eq.
  - cbn. by rewrite Hn, Hb.
  - symmetry. exact Hdi.
  - cbn. by rewrite Hn.
Qed.

(** [bwrite] puts the locked block on the disk and unpins it. *)
Lemma bwrite_ok V n b e s :
  idle s -> bio_ok size (k_fs s) V -> bv_busy V !! n = Some b ->
  exists s', bwrite b e s = Ok tt e s' /\ bpost size s s' (writev n V).
Proof.
  intros Hi Hok Hn. destruct (locked_buf V s n b Hok Hn) as (x & Hx & Hb & Hv & Hda & Hr & Hdi).
  pose proof Hx as (Hlt & Hxb & Hd & Hno). unfold bwrite. mstep buf_at_ok by exact Hxb. rewrite Hb. cbn [negb].
  unfold set_flag. mstep.
  set (f := fun x => set_b_flags (Z.lor (b_flags x) B_DIRTY) x).
  assert (Hx' : buf_of (upd_buf b f s) b = Some (f x)) by (apply buf_upd_eq; exact Hxb).
  assert (Hdf : has (b_flags (f x)) B_DIRTY = true) by (cbn; rewrite has_lor; apply orb_true_r).
  rewrite (iderw_ok b (f x)); [|exact Hx'|cbn; by rewrite has_lor, Hb|rewrite Hdf; apply andb_false_r|done|by rewrite <- Hno in Hr].
  unfold synced. rewrite Hdf, upd_buf_disk_write, upd_buf_twice. eexists. split; [done|]. split; [done| |].
  { by rewrite rest_upd_buf, rest_disk_write. }
  apply (bio_same_block (disk_write (b_blockno (f x)) (b_data (f x)) s) V (writev n V) n b x);
    [apply Hok|apply Hok|exact Hx|done|exact Hd|exact Hno| | |exact Hda| | | | |].
  - cbn. rewrite has_lor. apply orb_true_r.
  - intros m Hm. cbn. rewrite zset_ne by done. split_and!; [done..| |done]. set_solver.
  - cbn. rewrite Hn, has_lor. change B_DIRTY with (2 ^ 2). change B_BUSY with (2 ^ 0).
    rewrite has_ldiff_ne, has_lor by done. change (2 ^ 0) with B_BUSY. by rewrite Hb.
  - cbn. rewrite has_lor. change B_DIRTY with (2 ^ 2). rewrite has_ldiff_eq by done. cbn. set_solver.
  - cbn. by rewrite zset_eq.
  - cbn. rewrite Hno, Hda. unfold zset. by rewrite (bo_disk _ _ _ Hok).
  - cbn. by rewrite Hno, Hda, (bo_writes _ _ _ Hok).
Qed.

(** Pinning a locked block ([b->flags |= B_DIRTY] in log_write). *)
Lemma pin_ok V n b s :
  bio_ok size (k_fs s) V -> bv_busy V !! n = Some b ->
  bio_ok size (k_fs (upd_buf b (fun x => set_b_flags (Z.lor (b_flags x) B_DIRTY) x) s)) (pinv n V).
Proof.
  intros Hok Hn. destruct (locked_buf V s n b Hok Hn) as (x & Hx & Hb & Hv & Hda & Hr & Hdi).
  apply (bio_same_block s V (pinv n V) n b x);
    [apply Hok|apply Hok|exact Hx|done|apply Hx|apply Hx| | |exact Hda| | | |apply Hok|apply Hok].
  - cbn. by rewrite has_lor, Hv.
  - intros m Hm. cbn. split_and!; [done..| |done]. set_solver.
  - cbn. by rewrite Hn, has_lor, Hb.
  - cbn. rewrite has_lor, orb_true_r. set_solver.
  - cbn. set_solver.
Qed.

(** The list surgery of [brelse], as one update. *)
Definition with_bufs (l : list buf) (s : kstate) : kstate := upd_fs (set_fs_bufs l) s.

Lemma upd_buf_with a f l s : upd_buf a f (with_bufs l s) = with_bufs (alter f a l) s.
Proof. done. Qed.

Lemma links_at l s a e :
  (a < length l)%nat ->
  exists x, buf_at a e (with_bufs l s) = Ok x e (with_bufs l s) /\ b_next x = nx l a /\ b_prev x = pv l a.
Proof.
  intros Ha. destruct (lookup_lt_is_Some_2 l a Ha) as [x Hx]. exists x.
  split; [by apply buf_at_ok|]. unfold nx, pv. by rewrite Hx.
Qed.

Lemma to_front_ok b l s e :
  (b < length l)%nat -> (HEAD < length l)%nat ->
  to_front b e (with_bufs l s) = Ok tt e (with_bufs (relink b l) s).
Proof.
  intros Hb HH. unfold to_front.
  destruct (links_at l s b e Hb) as (x & Ex & E1 & E2). mstep Ex. mstep. rewrite E1, E2, upd_buf_with.
  set (b1 := alter _ _ l). destruct (links_at b1 s b e) as (x1 & Ex1 & F1 & F2).
  { unfold b1. by rewrite length_alter. }
  mstep Ex1. mstep. rewrite F1, F2, upd_buf_with. set (b2 := alter _ _ b1).
  destruct (links_at b2 s HEAD e) as (h & Eh & G1 & _).
  { unfold b2, b1. by rewrite !length_alter. }
  mstep Eh. mstep. rewrite G1. mstep. mstep. rewrite modify_ok. by rewrite !upd_buf_with.
Qed.

Lemma rest_with_bufs l s : rest (with_bufs l s) = rest s.
Proof. by destruct s as [? ? ? ? ? ? ? ? ? ? ? ? ? ? [] ?]. Qed.

Lemma with_bufs_self s : with_bufs (fs_bufs (k_fs s)) s = s.
Proof. by destruct s as [? ? ? ? ? ? ? ? ? ? ? ? ? ? [] ?]. Qed.

Lemma unlock_bio V n b s :
  bio_ok size (k_fs s) V -> bv_busy V !! n = Some b -> (n ∈ bv_dirty V \/ bv_data V n = bv_disk V n) ->
  bio_ok size (k_fs (upd_buf b (fun x => set_b_flags (Z.ldiff (b_flags x) B_BUSY) x)
    (with_bufs (relink b (fs_bufs (k_fs s))) s))) (unlockv n V).
Proof.
  intros Hok Hn Hsync. destruct (locked_buf V s n b Hok Hn) as (x & Hx & Hb & Hv & Hda & Hr & Hdi).
  destruct (bo_lru _ _ _ Hok) as [l Hl]. set (s2 := with_bufs _ s).
  assert (Hst : map strip (fs_bufs (k_fs s2)) = map strip (fs_bufs (k_fs s))) by apply relink_strip.
  destruct (strip_caches _ _ n b x (eq_sym Hst) Hx) as (y & Hy & Ef & Ed).
  apply (bio_same_block s2 V (unlockv n V) n b y); cbn [b_flags set_b_flags];
    [| |exact Hy|done|apply Hy|apply Hy| | | | | | |apply Hok|apply Hok].
  - apply (relink_lru b _ l Hl). destruct Hl as (_ & _ & ->). apply elem_of_seq. destruct Hx. lia.
  - eapply cache_ok_strip; [exact Hst|apply Hok].
  - rewrite Ef. change B_BUSY with (2 ^ 0). change B_VALID with (2 ^ 1). by rewrite has_ldiff_ne.
  - intros m Hm. cbn. by rewrite lookup_delete_ne.
  - cbn. by rewrite Ed.
  - cbn. rewrite lookup_delete_eq. change B_BUSY with (2 ^ 0). by rewrite has_ldiff_eq.
  - cbn. rewrite Ef, <- Hdi. change B_BUSY with (2 ^ 0). change B_DIRTY with (2 ^ 2). by rewrite has_ldiff_ne.
  - cbn. naive_solver.
Qed.

(** [brelse] unlocks the buffer of a block that is pinned or on the disk. *)
Lemma brelse_ok V n b e s :
  idle s -> bio_ok size (k_fs s) V -> bv_busy V !! n = Some b ->
  (n ∈ bv_dirty V \/ bv_data V n = bv_disk V n) ->
  exists s', brelse b e s = Ok tt e s' /\ bpost size s s' (unlockv n V).
Proof.
  intros [Hc Hu] Hok Hn Hsync. destruct (locked_buf V s n b Hok Hn) as (x & Hx & Hb & Hv & Hda & Hr & Hdi).
  pose proof Hx as (Hlt & Hxb & Hd & Hno). destruct (bo_lru _ _ _ Hok) as [l Hl].
  unfold brelse. mstep buf_at_ok by exact Hxb. rewrite Hb. cbn [negb].
  mstep acquire_free by apply Hu. set (s1 := acquired Lbcache s).
  rewrite <- (with_bufs_self s1). change (fs_bufs (k_fs s1)) with (fs_bufs (k_fs s)).
  mstep to_front_ok by (destruct Hl as [-> _]; unfold HEAD; lia).
  set (s2 := with_bufs (relink b (fs_bufs (k_fs s))) s1). unfold clear_flag. mstep.
  set (s3 := upd_buf b _ s2).
  assert (Hc3 : cli_ok (k_cpu s3)) by (change (cli_ok (k_cpu s1)); unfold s1; ctl).
  assert (Hn3 : 0 < c_ncli (k_cpu s3)) by (change (0 < c_ncli (k_cpu s1)); unfold s1; destruct Hc; cbn; lia).
  assert (Hu3 : forall lk, lk <> Lbcache -> unlocked s3 lk).
  { intros lk Hne. change (unlocked s1 lk). unfold s1. apply unlocked_acquired_ne; [done|apply Hu]. }
  mstep wakeup_ok by (first [exact Hc3|by apply Hu3]).
  rewrite release_held; [| |exact Hc3|exact Hn3].
  2:{ change (held (crit Lptable s3) Lbcache). apply held_crit_ne; [done|]. change (held s1 Lbcache). apply held_acquired. }
  set (s4 := wakeup1 (Cbuf b) (crit Lptable s3)).
  assert (Hcpu : k_cpu s4 = k_cpu s1) by (unfold s4; exact (cpu_crit_in Lptable s3 Hn3)).
  eexists. split; [done|]. split.
  - apply (section_idle Lbcache s); [done|done|]. intros lk Hne. change (unlocked (crit Lptable s3) lk).
    apply unlocked_crit. by apply Hu3.
  - apply section_rest; [done|done|]. unfold s4. rewrite rest_wakeup1, rest_crit.
    unfold s3, s2. by rewrite rest_upd_buf, rest_with_bufs.
  - by apply (unlock_bio V n b s).
Qed.

End BioOps.

(** ** binit *)

(** The first [k] buffers are on the list, and are unused. *)
Record binit_inv (l0 l : list buf) (k : nat) : Prop := {
  bi_len : length l = S NBUF;
  bi_ring : ring (nx l) (pv l) HEAD (rev (seq 0 k));
  bi_bufs : forall b x, (b < NBUF)%nat -> l !! b = Some x -> exists x0, l0 !! b = Some x0 /\
    b_flags x = b_flags x0 /\ ((b < k)%nat -> b_dev x = 4294967295)
}.

Definition binit_step (b : nat) (l : list buf) : list buf :=
  alter (set_b_next b) HEAD (alter (set_b_prev b) (nx l HEAD)
    (alter (fun x => set_b_dev 4294967295 (set_b_prev HEAD (set_b_next (nx l HEAD) x))) b l)).

Lemma binit_one_ok b l s e :
  (HEAD < length l)%nat -> binit_one b e (with_bufs l s) = Ok tt e (with_bufs (binit_step b l) s).
Proof.
  intros HH. unfold binit_one. destruct (links_at l s HEAD e HH) as (h & Eh & E1 & _). mstep Eh.
  rewrite E1. do 4 mstep. rewrite modify_ok, !upd_buf_with. unfold binit_step. by rewrite !alter_twice.
Qed.

Lemma binit_step_ring k l :
  (k < NBUF)%nat -> length l = S NBUF -> ring (nx l) (pv l) HEAD (rev (seq 0 k)) ->
  ring (nx (binit_step k l)) (pv (binit_step k l)) HEAD (rev (seq 0 (S k))).
Proof.
  intros Hk Hlen Hr. rewrite seq_S, rev_app_distr. cbn [rev app].
  assert (Hkn : k ∉ HEAD :: rev (seq 0 k)).
  { apply not_elem_of_cons. split; [unfold HEAD; lia|]. rewrite <- (Permutation_rev (seq 0 k)), elem_of_seq. lia. }
  assert (Hhd : (nx l HEAD < length l)%nat).
  { pose proof (ring_first _ _ _ _ Hr) as Hf. rewrite Hlen.
    assert (Hin : nx l HEAD ∈ rev (seq 0 k) ++ [HEAD]).
    { destruct (rev (seq 0 k) ++ [HEAD]) as [|a r]; [done|]. injection Hf as <-. set_solver. }
    rewrite <- (Permutation_rev (seq 0 k)), elem_of_app, elem_of_seq, list_elem_of_singleton in Hin.
    destruct Hin as [?| ->]; [lia|unfold HEAD; lia]. }
  pose proof (ring_insert _ _ _ _ k Hkn Hr) as Hr'. unfold binit_step.
  set (g := fun x => set_b_dev 4294967295 (set_b_prev HEAD (set_b_next (nx l HEAD) x))).
  assert (En : nx (alter g k l) = fset (nx l) k (nx l HEAD)).
  { rewrite <- nx_set_next by lia. unfold g. rewrite <- (alter_twice (set_b_next (nx l HEAD))
      (fun x => set_b_dev 4294967295 (set_b_prev HEAD x))). by rewrite nx_keep. }
  assert (Ep : pv (alter g k l) = fset (pv l) k HEAD).
  { rewrite <- pv_set_prev by lia. unfold g. rewrite <- (alter_twice (fun x => set_b_prev HEAD (set_b_next (nx l HEAD) x))
      (set_b_dev 4294967295)), pv_keep by done.
    rewrite <- (alter_twice (set_b_next (nx l HEAD)) (set_b_prev HEAD)).
    rewrite !pv_set_prev by (rewrite ?length_alter; lia). by rewrite pv_keep. }
  rewrite nx_set_next by (rewrite !length_alter, Hlen; unfold HEAD; lia).
  rewrite (pv_keep (set_b_next k)) by done. rewrite pv_set_prev by (by rewrite length_alter).
  rewrite (nx_keep (set_b_prev k)) by done. by rewrite En, Ep.
Qed.

Lemma binit_step_inv l0 k l : (k < NBUF)%nat -> binit_inv l0 l k -> binit_inv l0 (binit_step k l) (S k).
Proof.
  intros Hk [Hlen Hr Hbf]. split; [unfold binit_step; by rewrite !length_alter|by apply binit_step_ring|].
  intros b x Hb Hx. unfold binit_step in Hx.
  rewrite list_lookup_alter_ne in Hx by (unfold HEAD; lia).
  assert (exists y, alter (fun x => set_b_dev 4294967295 (set_b_prev HEAD (set_b_next (nx l HEAD) x))) k l !! b = Some y
    /\ b_flags x = b_flags y /\ b_dev x = b_dev y) as (y & Hy & -> & ->).
  { destruct (decide (nx l HEAD = b)) as [<-|Hne].
    - rewrite list_lookup_alter_eq in Hx. destruct (alter _ k l !! _) as [y|]; [|done]. cbn in Hx. injection Hx as <-. by exists y.
    - rewrite list_lookup_alter_ne in Hx by done. by exists x. }
  destruct (decide (k = b)) as [->|Hne].
  - rewrite list_lookup_alter_eq in Hy. destruct (l !! b) as [z|] eqn:Hz; [|done]. cbn in Hy. injection Hy as <-.
    destruct (Hbf b z Hb Hz) as (x0 & H0 & Ef & _). by exists x0.
  - rewrite list_lookup_alter_ne in Hy by done. destruct (Hbf b y Hb Hy) as (x0 & H0 & Ef & Hd).
    exists x0. split_and!; [done..|]. intros ?. apply Hd. lia.
Qed.

Lemma binit_loop l0 s e n : forall k l, (k + n = NBUF)%nat -> binit_inv l0 l k ->
  exists l', forM (seq k n) binit_one e (with_bufs l s) = Ok tt e (with_bufs l' s) /\ binit_inv l0 l' NBUF.
Proof.
  induction n as [|n IH]; intros k l Hk Hinv; cbn [seq forM].
  - exists l. replace NBUF with k by lia. done.
  - mstep binit_one_ok by (rewrite (bi_len _ _ _ Hinv); unfold HEAD; lia).
    apply IH; [lia|]. apply binit_step_inv; [lia|done].
Qed.

Definition fresh_view (fs : fsstate) : bview := mkView (fs_disk fs) (fs_disk fs) (fs_writes fs) ∅ ∅.

Lemma unused_cache size bufs disk writes :
  (forall b x, (b < NBUF)%nat -> bufs !! b = Some x ->
    b_dev x = 4294967295 /\ has (b_flags x) B_BUSY = false /\ has (b_flags x) B_DIRTY = false) ->
  cache_ok size bufs (mkView disk disk writes ∅ ∅).
Proof.
  intros Hall.
  assert (Hno : forall n b x, ~ caches bufs n b x).
  { intros n b x (Hb & Hx & Hd & _). destruct (Hall b x Hb Hx) as [E _]. congruence. }
  split; cbn.
  - intros b x Hb Hx Hf. destruct (Hall b x Hb Hx) as (_ & E & _). congruence.
  - intros b x Hb Hx Hf. destruct (Hall b x Hb Hx) as (_ & _ & E). congruence.
  - intros n b x Hx. by destruct (Hno n b x).
  - intros n b b' x x' Hx. by destruct (Hno n b x).
  - intros n Hn. set_solver.
  - intros n b Hn. by rewrite lookup_empty in Hn.
  - done.
Qed.

(** [binit] links all buffers, none of which holds a block. *)
Lemma binit_ok size e s :
  length (fs_bufs (k_fs s)) = S NBUF ->
  (forall b x, (b < NBUF)%nat -> fs_bufs (k_fs s) !! b = Some x ->
    has (b_flags x) B_BUSY = false /\ has (b_flags x) B_DIRTY = false) ->
  exists s', binit e s = Ok tt e s' /\ k_cpu s' = k_cpu s /\
    (idle s -> idle s') /\ bio_ok size (k_fs s') (fresh_view (k_fs s)).
Proof.
  intros Hlen Hfl. unfold binit, initlock. mstep. mstep. mstep.
  set (s1 := upd_lock Lbcache _ s). rewrite <- (with_bufs_self s1), !upd_buf_with.
  change (fs_bufs (k_fs s1)) with (fs_bufs (k_fs s)). set (l := alter _ HEAD (alter _ HEAD _)).
  assert (Hinv : binit_inv (fs_bufs (k_fs s)) l 0).
  { split.
    - unfold l. by rewrite !length_alter.
    - unfold l. rewrite nx_set_next by (rewrite length_alter, Hlen; unfold HEAD; lia).
      rewrite (nx_keep (set_b_prev HEAD)), (pv_keep (set_b_next HEAD)) by done.
      rewrite pv_set_prev by (rewrite Hlen; unfold HEAD; lia). apply ring_nil.
    - intros b x Hb Hx. unfold l in Hx. rewrite !list_lookup_alter_ne in Hx by (unfold HEAD; lia).
      exists x. split_and!; [done..|]. lia. }
  destruct (binit_loop _ s1 e NBUF 0 l ltac:(lia) Hinv) as (l' & El & [Hl' Hr' Hb']).
  exists (with_bufs l' s1). split; [exact El|]. split_and!; [done| |].
  - intros [Hc Hu]. split; [exact Hc|]. intros lk. change (unlocked s1 lk). unfold unlocked, s1.
    destruct (decide (Lbcache = lk)) as [<-|Hne]; [by rewrite lock_upd_eq|]. rewrite lock_upd_ne by done. apply Hu.
  - split; [|apply unused_cache|done..].
    + exists (rev (seq 0 NBUF)). split_and!; [done|done|]. symmetry. apply Permutation_rev.
    + intros b x Hb Hx. destruct (Hb' b x Hb Hx) as (x0 & H0 & -> & Hd). split; [by apply Hd|]. by apply (Hfl b).
Qed.

(** ** The cache refines a disk

    A client that locks blocks, changes and writes them, and unlocks them sees
    an array of blocks. *)

Inductive bop : Type :=
| Bread (n : Z)
| Bset (n : Z) (d : list Z)
| Bwrite (n : Z)
| Brelse (n : Z).

(** Run the operations; [h] has the buffer of each block the client has
    locked.  The result is what the reads returned. *)
Fixpoint run_bops `{Disk} (ops : list bop) (h : gmap Z nat) : M (list (list Z)) :=
  match ops with
  | [] => mret []
  | Bread n :: ops' =>
    b ← bread 1 n;
    d ← bdata b;
    ds ← run_bops ops' (<[n := b]> h);
    mret (d :: ds)
  | Bset n d :: ops' => b ← deref "b" (h !! n); set_bdata b d;; run_bops ops' h
  | Bwrite n :: ops' => b ← deref "b" (h !! n); bwrite b;; run_bops ops' h
  | Brelse n :: ops' => b ← deref "b" (h !! n); brelse b;; run_bops ops' (delete n h)
  end.

(** The array of blocks: contents in use, contents on the disk, and the
    blocks that are locked. *)
Fixpoint spec_bops (ops : list bop) (data disk : Z -> list Z) : list (list Z) * (Z -> list Z) :=
  match ops with
  | [] => ([], disk)
  | Bread n :: ops' => let '(ds, disk') := spec_bops ops' data disk in (data n :: ds, disk')
  | Bset n d :: ops' => spec_bops ops' (zset data n d) disk
  | Bwrite n :: ops' => spec_bops ops' data (zset disk n (data n))
  | Brelse n :: ops' => spec_bops ops' data disk
  end.

(** What a client may do: lock blocks of the disk it has not locked, at most
    NBUF at a time, change and write those it has locked, and unlock those
    whose changes it has written. *)
Fixpoint legal_bops (size : Z) (ops : list bop) (data disk : Z -> list Z) (locked : gset Z) : Prop :=
  match ops with
  | [] => True
  | Bread n :: ops' => 0 <= n < size /\ n ∉ locked /\ (base.size locked < NBUF)%nat /\
      legal_bops size ops' data disk (locked ∪ {[n]})
  | Bset n d :: ops' => n ∈ locked /\ legal_bops size ops' (zset data n d) disk locked
  | Bwrite n :: ops' => n ∈ locked /\ legal_bops size ops' data (zset disk n (data n)) locked
  | Brelse n :: ops' => n ∈ locked /\ data n = disk n /\ legal_bops size ops' data disk (locked ∖ {[n]})
  end.

(** What the client knows of the state: nothing is pinned. *)
Definition unpinned (size : Z) (s : kstate) (V : bview) : Prop :=
  idle s /\ bio_ok size (k_fs s) V /\ bv_dirty V = ∅.

Lemma bops_refine D size (HD : DiskOk D size) ops : forall V e s,
  unpinned size s V -> legal_bops size ops (bv_data V) (bv_disk V) (dom (bv_busy V)) ->
  exists s', run_bops ops (bv_busy V) e s = Ok (spec_bops ops (bv_data V) (bv_disk V)).1 e s' /\
    idle s' /\ fs_disk (k_fs s') = (spec_bops ops (bv_data V) (bv_disk V)).2.
Proof.
  induction ops as [|o ops IH]; intros V e s (Hi & Hok & Hd) Hlegal.
  { exists s. split_and!; [done..|]. apply Hok. }
  destruct o as [n|n d|n|n]; cbn [run_bops spec_bops] in *; destruct Hlegal as [H1 H2].
  - destruct H2 as (Hnl & Hsz & H2).
    assert (Hb : bv_busy V !! n = None) by (by apply not_elem_of_dom).
    destruct (bread_ok D size V n e s Hi Hok H1 Hb) as (b & s1 & E1 & [Hi1 _ Hok1]).
    { right. unfold pinned_blocks. by rewrite Hd, (left_id_L ∅ _). }
    mstep E1. mstep (bdata_ok size (lockv n b V) n b) by (try exact Hok1; apply lookup_insert_eq).
    destruct (IH (lockv n b V) e s1) as (s' & E & Hi' & Hd').
    { split_and!; [done..|]. exact Hd. }
    { cbn. rewrite dom_insert_L, (union_comm_L {[n]}). done. }
    cbn in E, Hd'. mstep E. exists s'. destruct (spec_bops ops (bv_data V) (bv_disk V)). split_and!; done.
  - apply elem_of_dom in H1 as [b Hb]. rewrite Hb. cbn [deref]. mstep.
    destruct (set_bdata_ok size V n b d e s Hi Hok Hb) as (s1 & E1 & [Hi1 _ Hok1]). mstep E1.
    by apply (IH (setv n d V)).
  - apply elem_of_dom in H1 as [b Hb]. rewrite Hb. cbn [deref]. mstep.
    destruct (bwrite_ok D size V n b e s Hi Hok Hb) as (s1 & E1 & [Hi1 _ Hok1]). mstep E1.
    apply (IH (writev n V)); [|done]. split_and!; [done..|]. cbn. rewrite Hd. set_solver.
  - apply elem_of_dom in H1 as [b Hb]. rewrite Hb. cbn [deref]. mstep. destruct H2 as [Hs H2].
    destruct (brelse_ok size V n b e s Hi Hok Hb (or_intror Hs)) as (s1 & E1 & [Hi1 _ Hok1]). mstep E1.
    apply (IH (unlockv n V)); [done|]. cbn. by rewrite dom_delete_L.
Qed.

(** C4: The buffer cache refines an array of blocks: starting from [binit], a
    sequence of lock, change, write and unlock operations on blocks returns
    the contents that an array of blocks would return, whatever is evicted
    and read again in between, and leaves on the disk what the client wrote. *)
Theorem bio_refines_blocks D size (HD : DiskOk D size) ops e s :
  idle s -> length (fs_bufs (k_fs s)) = S NBUF ->
  (forall b x, fs_bufs (k_fs s) !! b = Some x -> b_flags x = 0) ->
  legal_bops size ops (fs_disk (k_fs s)) (fs_disk (k_fs s)) ∅ ->
  exists s', (binit;; run_bops ops ∅) e s =
      Ok (spec_bops ops (fs_disk (k_fs s)) (fs_disk (k_fs s))).1 e s' /\
    idle s' /\ fs_disk (k_fs s') = (spec_bops ops (fs_disk (k_fs s)) (fs_disk (k_fs s))).2.
Proof.
  intros Hi Hlen Hfl Hlegal.
  destruct (binit_ok size e s Hlen) as (s1 & E1 & _ & Hi1 & Hok1).
  { intros b x _ Hx. by rewrite (Hfl b x Hx). }
  mstep E1. apply (bops_refine D size HD ops (fresh_view (k_fs s)) e s1); [|exact Hlegal].
  split_and!; [by apply Hi1|done|done].
Qed.

(** Two blocks are locked, one is changed and written, both are unlocked, and
    the changed one is read again. *)
Definition sample_bops : list bop :=
  [Bread 2; Bread 5; Bset 5 [7]; Bwrite 5; Brelse 2; Brelse 5; Bread 5].

Lemma boot_idle : idle boot.
Proof. split; [split; [done|done]|done]. Qed.

Lemma boot_bufs b x : fs_bufs (k_fs boot) !! b = Some x -> x = zero_buf.
Proof. intros Hx. by apply lookup_replicate in Hx as [-> _]. Qed.

Lemma bio_refines_blocks_witness :
  exists s', (binit;; @run_bops (@disk_memide sample_symbols) sample_bops ∅) [] boot =
      Ok [replicate 512 0; replicate 512 0; [7]] [] s' /\ fs_disk (k_fs s') 5 = [7].
Proof.
  destruct (bio_refines_blocks (@disk_memide sample_symbols) 1000 (@memide_ok sample_symbols) sample_bops [] boot)
    as (s' & E & _ & Hd).
  - exact boot_idle.
  - done.
  - intros b x Hx. by rewrite (boot_bufs b x Hx).
  - unfold sample_bops, legal_bops.
    split_and!; first [lia|set_solver|reflexivity|apply Nat.ltb_lt; reflexivity].
  - exists s'. split; [exact E|]. by rewrite Hd.
Defined.
