(* ===== verification/Log.v ===== *)
(** * The log (log.c) *)

From stdpp Require Import base list gmap strings.
From S2P Require Import Prelude Memory Bytes Kernel KMonad Boot Mmu Spinlock Sched Ide Bio.

(** ** Definitions *)

Definition upd_log (f : log_t -> log_t) (s : kstate) : kstate :=
  upd_fs (fun fs => set_fs_log (f (fs_log fs)) fs) s.
Definition get_log : M log_t := gets (fun s => fs_log (k_fs s)).

(** [lh.block[i]], a C array of LOGSIZE entries. *)
Definition log_block (lg : log_t) (i : Z) : Z := nth (Z.to_nat i) (lg_block lg) 0.
Definition set_log_block (i v : Z) (lg : log_t) : log_t :=
  set_lg_block (<[Z.to_nat i := v]> (lg_block lg)) lg.

(** [readsb] of fs.c: the super block is the first seven words of block 1. *)
Definition decode_sb (d : list Z) : superblock :=
  mkSb (get32 d 0) (get32 d 4) (get32 d 8) (get32 d 12) (get32 d 16) (get32 d 20) (get32 d 24).

Section Log.
Context `{Disk}.

Definition readsb (dev : Z) : M superblock :=
  bp ← bread dev 1;
  d ← bdata bp;
  brelse bp;;
  mret (decode_sb d).

(** The first [n] indices, as the loops [for(i = 0; i < n; i++)] visit them. *)
Definition upto (n : Z) : list Z := map Z.of_nat (seq 0 (Z.to_nat n)).

(** Copy committed blocks from the log to their home location. *)
Definition install_one (tail : Z) : M unit :=
  lg ← get_log;
  lbuf ← bread (lg_dev lg) (u32 (lg_start lg + tail + 1));
  lg ← get_log;
  dbuf ← bread (lg_dev lg) (u32 (log_block lg tail));
  d ← bdata lbuf;
  set_bdata dbuf d;;
  bwrite dbuf;;
  brelse lbuf;;
  brelse dbuf.
Definition install_trans : M unit :=
  lg ← get_log;
  forM (upto (lg_n lg)) install_one.

(** The header block: [n], then the block numbers. *)
Definition read_head : M unit :=
  lg ← get_log;
  buf ← bread (lg_dev lg) (u32 (lg_start lg));
  d ← bdata buf;
  modify (upd_log (set_lg_n (s32 (get32 d 0))));;
  lg ← get_log;
  forM (upto (lg_n lg)) (fun i => modify (upd_log (set_log_block i (s32 (get32 d (4 + 4 * i))))));;
  brelse buf.

Definition write_head : M unit :=
  lg ← get_log;
  buf ← bread (lg_dev lg) (u32 (lg_start lg));
  lg ← get_log;
  d ← bdata buf;
  set_bdata buf (put32 d 0 (u32 (lg_n lg)));;
  forM (upto (lg_n lg)) (fun i =>
    d ← bdata buf;
    set_bdata buf (put32 d (4 + 4 * i) (u32 (log_block lg i))));;
  bwrite buf;;
  brelse buf.

Definition recover_from_log : M unit :=
  read_head;;
  install_trans;;
  modify (upd_log (set_lg_n 0));;
  write_head.

(** [sizeof(struct logheader)] *)
Definition sizeof_logheader : Z := 4 + 4 * LOGSIZE.

Definition initlog (dev : Z) : M unit :=
  if BSIZE <=? sizeof_logheader then panic "initlog: too big logheader" else
  initlock Llog "log";;
  sb ← readsb dev;
  modify (upd_log (set_lg_start (s32 (sb_logstart sb))));;
  modify (upd_log (set_lg_size (s32 (sb_nlog sb))));;
  modify (upd_log (set_lg_dev dev));;
  recover_from_log.

(** One turn of the loop of [begin_op]. *)
Definition begin_turn : M (option unit) :=
  lg ← get_log;
  if truth (lg_committing lg) then sleep Clog (Some Llog);; mret None
  else if LOGSIZE <? lg_n lg + (lg_outstanding lg + 1) * MAXOPBLOCKS then
    sleep Clog (Some Llog);; mret None
  else
    modify (upd_log (fun lg => set_lg_outstanding (lg_outstanding lg + 1) lg));;
    release Llog;;
    mret (Some tt).
Definition begin_op : M unit :=
  acquire Llog;;
  loop begin_turn.

(** Copy modified blocks from the cache to the log. *)
Definition write_log_one (tail : Z) : M unit :=
  lg ← get_log;
  to ← bread (lg_dev lg) (u32 (lg_start lg + tail + 1));
  lg ← get_log;
  from ← bread (lg_dev lg) (u32 (log_block lg tail));
  d ← bdata from;
  set_bdata to d;;
  bwrite to;;
  brelse from;;
  brelse to.
Definition write_log : M unit :=
  lg ← get_log;
  forM (upto (lg_n lg)) write_log_one.

Definition commit : M unit :=
  lg ← get_log;
  when (0 <? lg_n lg)
    (write_log;;
     write_head;;
     install_trans;;
     modify (upd_log (set_lg_n 0));;
     write_head).

Definition end_op : M unit :=
  acquire Llog;;
  modify (upd_log (fun lg => set_lg_outstanding (lg_outstanding lg - 1) lg));;
  lg ← get_log;
  if truth (lg_committing lg) then panic "log.committing" else
  do_commit ← (if lg_outstanding lg =? 0
               then modify (upd_log (set_lg_committing 1));; mret true
               else wakeup Clog;; mret false);
  release Llog;;
  when do_commit
    (commit;;
     acquire Llog;;
     modify (upd_log (set_lg_committing 0));;
     wakeup Clog;;
     release Llog).

(** The index of the first entry [i < n] with [lh.block[i] == blockno], or
    [n]. *)
Definition log_slot (lg : log_t) (blockno : Z) : Z :=
  Z.of_nat (default (Z.to_nat (lg_n lg))
    (find_idx (fun i => u32 (log_block lg i) =? blockno) (upto (lg_n lg)))).

Definition log_write (b : nat) : M unit :=
  lg ← get_log;
  if (LOGSIZE <=? lg_n lg) || (lg_size lg - 1 <=? lg_n lg) then panic "too big a transaction" else
  if lg_outstanding lg <? 1 then panic "log_write outside of trans" else
  acquire Llog;;
  lg ← get_log;
  x ← buf_at b;
  let i := log_slot lg (b_blockno x) in
  modify (upd_log (set_log_block i (s32 (b_blockno x))));;
  when (i =? lg_n lg) (modify (upd_log (fun lg => set_lg_n (lg_n lg + 1) lg)));;
  set_flag b B_DIRTY;;
  release Llog.

End Log.
