(* ===== verification/LogSpec.v ===== *)
(** * Atomic transactions (log.c)

    [commit] writes the pinned blocks of a transaction to the log, then the
    log header, then the blocks themselves, then an empty header.  [replay] is
    what recovery makes of a disk.  Whatever prefix of the writes of [commit]
    (or of [recover_from_log]) has reached the disk when the machine stops,
    the replayed disk is the one before the transaction or the one after it. *)

From stdpp Require Import base list gmap strings.
From S2P Require Import Prelude Memory Bytes Kernel KMonad Boot Mmu Spinlock Sched Ide Ring Bio BioSpec Log.

(** ** Sequences of block writes *)

Definition disk_after (d : Z -> list Z) (ws : list (Z * list Z)) : Z -> list Z :=
  fold_left (fun d w => zset d w.1 w.2) ws d.

(** A block is changed and written to the disk. *)
Definition putv (w : Z * list Z) (V : bview) : bview :=
  mkView (zset (bv_data V) w.1 w.2) (zset (bv_disk V) w.1 w.2) (bv_writes V ++ [w])
    (bv_dirty V ∖ {[w.1]}) (bv_busy V).
Definition appv (ws : list (Z * list Z)) (V : bview) : bview := fold_left (fun V w => putv w V) ws V.

Section Writes.
Implicit Types (d : Z -> list Z) (ws : list (Z * list Z)) (V : bview).

Lemma disk_after_cons d w ws : disk_after d (w :: ws) = disk_after (zset d w.1 w.2) ws.
Proof. done. Qed.

Lemma disk_after_app d ws ws' : disk_after d (ws ++ ws') = disk_after (disk_after d ws) ws'.
Proof. apply fold_left_app. Qed.

Lemma disk_after_out d ws n : n ∉ ws.*1 -> disk_after d ws n = d n.
Proof.
  revert d. induction ws as [|w ws IH]; intros d Hn; [done|]. cbn in Hn. apply not_elem_of_cons in Hn as [H1 H2].
  rewrite disk_after_cons, IH by done. by apply zset_ne.
Qed.

Lemma disk_after_in d ws i w : NoDup ws.*1 -> ws !! i = Some w -> disk_after d ws w.1 = w.2.
Proof.
  revert d i. induction ws as [|w' ws IH]; intros d i Hnd Hi; [done|]. cbn in Hnd. rewrite disk_after_cons.
  apply NoDup_cons in Hnd as [Hni Hnd]. destruct i as [|i]; cbn in Hi.
  - injection Hi as ->. rewrite disk_after_out by done. apply zset_eq.
  - by apply (IH _ i).
Qed.

Lemma appv_app ws ws' V : appv (ws ++ ws') V = appv ws' (appv ws V).
Proof. apply fold_left_app. Qed.

Lemma appv_view ws V :
  bv_data (appv ws V) = disk_after (bv_data V) ws /\ bv_disk (appv ws V) = disk_after (bv_disk V) ws /\
  bv_writes (appv ws V) = bv_writes V ++ ws /\ bv_dirty (appv ws V) = bv_dirty V ∖ list_to_set ws.*1 /\
  bv_busy (appv ws V) = bv_busy V.
Proof.
  revert V. induction ws as [|w ws IH]; intros V.
  { cbn. split_and!; [done..|by rewrite app_nil_r|set_solver|done]. }
  change (appv (w :: ws) V) with (appv ws (putv w V)). destruct (IH (putv w V)) as (-> & -> & -> & -> & ->).
  split_and!; [done..| | |done]; cbn; [by rewrite <- app_assoc|set_solver].
Qed.

End Writes.

(** ** The log on the disk *)

Section LogDisk.
Context (start lsz size : Z).

(** The header block. *)
Definition hdr_n (d : Z -> list Z) : Z := s32 (get32 (d start) 0).
Definition hdr_block (d : Z -> list Z) (i : Z) : Z := u32 (s32 (get32 (d start) (4 + 4 * i))).

Definition in_log (n : Z) : Prop := start <= n < start + lsz.
(** A block of the disk outside the log. *)
Definition home (n : Z) : Prop := 0 <= n < size /\ ~ in_log n.

(** The blocks that recovery installs. *)
Definition installs (d : Z -> list Z) : list (Z * list Z) :=
  map (fun i => (hdr_block d i, d (start + i + 1))) (upto (hdr_n d)).
Definition replay (d : Z -> list Z) : Z -> list Z := disk_after d (installs d).

(** A header that recovery can use: it names distinct blocks outside the
    log, no more than the log holds. *)
Record hdr_ok (d : Z -> list Z) : Prop := {
  ho_n : 0 <= hdr_n d <= lsz - 1 /\ hdr_n d <= LOGSIZE;
  ho_home : forall i, 0 <= i < hdr_n d -> home (hdr_block d i);
  ho_nodup : NoDup (map (hdr_block d) (upto (hdr_n d)));
  ho_len : length (d start) = Z.to_nat BSIZE
}.

(** The disk 1 holds the log in blocks [start, start + lsz). *)
Record geometry : Prop := {
  ge_start : 0 <= start;
  ge_lsz : 1 <= lsz;
  ge_size : start + lsz <= size;
  ge_max : size <= 2147483648
}.
End LogDisk.

Lemma upto_length n : length (upto n) = Z.to_nat n.
Proof. unfold upto. by rewrite length_map, length_seq. Qed.

Lemma elem_of_upto n i : i ∈ upto n <-> 0 <= i < n.
Proof.
  unfold upto. rewrite list_elem_of_fmap. split.
  - intros (k & -> & Hk%elem_of_seq). lia.
  - intros H. exists (Z.to_nat i). rewrite elem_of_seq. split; lia.
Qed.

Lemma lookup_upto n k : (k < Z.to_nat n)%nat -> upto n !! k = Some (Z.of_nat k).
Proof. intros H. unfold upto. rewrite list_lookup_fmap, lookup_seq_lt by done. done. Qed.

Lemma NoDup_upto n : NoDup (upto n).
Proof. unfold upto. apply NoDup_fmap_2; [intros ? ? ?; lia|apply NoDup_seq]. Qed.

(** ** Copying a block *)

Section Commit.
Context (D : Disk) (size : Z) {HD : DiskOk D size}.

Lemma copy_view V x y bx by' src dst :
  x <> y -> bv_busy V !! x = None -> bv_busy V !! y = None ->
  (src = x /\ dst = y) \/ (src = y /\ dst = x) ->
  unlockv dst (unlockv src (writev dst (setv dst (bv_data V src) (lockv y by' (lockv x bx V))))) =
  putv (dst, bv_data V src) V.
Proof.
  intros Hne Hx Hy Hsd. unfold unlockv, writev, setv, lockv, putv. cbn. rewrite zset_eq.
  f_equal. apply map_eq. intros k.
  destruct (decide (k = x)) as [->|Hkx]; [|destruct (decide (k = y)) as [->|Hky]].
  - destruct Hsd as [[-> ->]|[-> ->]].
    + by rewrite lookup_delete_ne, lookup_delete_eq by done.
    + by rewrite lookup_delete_eq.
  - destruct Hsd as [[-> ->]|[-> ->]].
    + by rewrite lookup_delete_eq.
    + by rewrite lookup_delete_ne, lookup_delete_eq by done.
  - destruct Hsd as [[-> ->]|[-> ->]]; by rewrite !lookup_delete_ne, !lookup_insert_ne by done.
Qed.

Lemma bpost_trans s1 s2 s3 V V' :
  bpost size s1 s2 V -> bpost size s2 s3 V' -> bpost size s1 s3 V'.
Proof. intros [_ R1 _] [I2 R2 O2]. split; [done|congruence|done]. Qed.

(** [src] is copied to [dst], which is written; then both are unlocked. *)
Definition copy_tail (src dst : nat) : M unit :=
  d ← bdata src;
  set_bdata dst d;;
  bwrite dst;;
  brelse src;;
  brelse dst.

Lemma copy_tail_ok V src dst bs bd e s :
  idle s -> bio_ok size (k_fs s) V -> src <> dst ->
  bv_busy V !! src = Some bs -> bv_busy V !! dst = Some bd ->
  (src ∈ bv_dirty V \/ bv_data V src = bv_disk V src) ->
  exists s', copy_tail bs bd e s = Ok tt e s' /\
    bpost size s s' (unlockv dst (unlockv src (writev dst (setv dst (bv_data V src) V)))).
Proof.
  intros Hi Hok Hne Hs Hd Hsync. unfold copy_tail.
  mstep (bdata_ok size V src bs) by done.
  destruct (set_bdata_ok size V dst bd (bv_data V src) e s Hi Hok Hd) as (s1 & E1 & P1). mstep E1.
  destruct (bwrite_ok D size _ dst bd e s1 (bp_idle _ _ _ _ P1) (bp_ok _ _ _ _ P1) Hd) as (s2 & E2 & P2). mstep E2.
  destruct (brelse_ok size _ src bs e s2 (bp_idle _ _ _ _ P2) (bp_ok _ _ _ _ P2) Hs) as (s3 & E3 & P3).
  { cbn. rewrite !zset_ne by done. destruct Hsync; [left; set_solver|by right]. }
  mstep E3.
  destruct (brelse_ok size _ dst bd e s3 (bp_idle _ _ _ _ P3) (bp_ok _ _ _ _ P3)) as (s4 & E4 & P4).
  { cbn. by rewrite lookup_delete_ne. }
  { right. cbn. by rewrite !zset_eq. }
  exists s4. split; [done|]. eapply bpost_trans; [|exact P4]. eapply bpost_trans; [|exact P3].
  eapply bpost_trans; [exact P1|exact P2].
Qed.

Lemma size_union_single (X : gset Z) x : (base.size (X ∪ {[x]}) <= base.size X + 1)%nat.
Proof.
  rewrite size_union_alt. apply Nat.add_le_mono_l. rewrite <- (size_singleton (C := gset Z) x).
  apply subseteq_size. set_solver.
Qed.

(** Lock two blocks. *)
Lemma lock_two V x y e s :
  idle s -> bio_ok size (k_fs s) V -> x <> y -> 0 <= x < size -> 0 <= y < size ->
  bv_busy V = ∅ -> (base.size (bv_dirty V) < NBUF)%nat ->
  (y ∈ bv_dirty V \/ (base.size (bv_dirty V) + 1 < NBUF)%nat) ->
  exists bx by' s1 s2, bread 1 x e s = Ok bx e s1 /\ bread 1 y e s1 = Ok by' e s2 /\
    bpost size s s1 (lockv x bx V) /\ bpost size s s2 (lockv y by' (lockv x bx V)).
Proof.
  intros Hi Hok Hne Hx Hy Hb Hsz Hcap.
  destruct (bread_ok D size V x e s Hi Hok Hx) as (bx & s1 & E1 & P1).
  { by rewrite Hb. }
  { right. unfold pinned_blocks. by rewrite Hb, dom_empty_L, (right_id_L ∅ _). }
  destruct (bread_ok D size (lockv x bx V) y e s1) as (by' & s2 & E2 & P2);
    [apply P1|apply P1|done|cbn; by rewrite lookup_insert_ne, Hb| |].
  { destruct Hcap as [Hd|Hcap]; [by left|right]. unfold pinned_blocks. cbn.
    rewrite Hb, dom_insert_L, dom_empty_L, (right_id_L ∅ _).
    eapply Nat.le_lt_trans; [apply size_union_single|exact Hcap]. }
  exists bx, by', s1, s2. split_and!; [done..|]. by eapply bpost_trans.
Qed.

(** ** The loops of log.c *)

Context (start lsz : Z) (G : geometry start lsz size).

(** The in-memory log holds the blocks [bs]. *)
Record log_holds (lg : log_t) (bs : list Z) : Prop := {
  lh_dev : lg_dev lg = 1;
  lh_start : lg_start lg = start;
  lh_n : lg_n lg = Z.of_nat (length bs);
  lh_block : forall i b, bs !! i = Some b -> log_block lg (Z.of_nat i) = b;
  lh_home : Forall (home start lsz size) bs;
  lh_nodup : NoDup bs;
  lh_fits : Z.of_nat (length bs) <= lsz - 1 /\ Z.of_nat (length bs) <= LOGSIZE
}.

Definition slot (i : nat) : Z := start + Z.of_nat i + 1.

Lemma slot_range lg bs i : log_holds lg bs -> (i < length bs)%nat ->
  in_log start lsz (slot i) /\ 0 <= slot i < size /\ u32 (lg_start lg + Z.of_nat i + 1) = slot i.
Proof.
  intros [_ -> _ _ _ _ [Hf _]] Hi. destruct G. unfold in_log, slot. split_and!; try lia.
  apply u32_small. lia.
Qed.

Lemma home_not_slot lg bs i h : log_holds lg bs -> (i < length bs)%nat -> home start lsz size h ->
  slot i <> h /\ 0 <= h < size /\ u32 h = h.
Proof.
  intros Hl Hi [Hr Hn]. destruct (slot_range lg bs i Hl Hi) as (Hin & _). split_and!; try lia; [by intros <-|].
  apply u32_small. destruct G. lia.
Qed.

Lemma holds_home lg bs i h : log_holds lg bs -> bs !! i = Some h -> home start lsz size h.
Proof. intros Hl Hi. by apply (Forall_lookup_1 _ _ _ _ (lh_home _ _ Hl) Hi). Qed.

Lemma home_ne_slot lg bs i h : log_holds lg bs -> (i < length bs)%nat -> h ∈ bs -> h <> slot i.
Proof.
  intros Hl Hi Hh. apply not_eq_sym. eapply (home_not_slot _ _ i h Hl Hi).
  pose proof (lh_home _ _ Hl) as Hf. rewrite Forall_forall in Hf. by apply Hf.
Qed.

Lemma log_kept s s' V : bpost size s s' V -> fs_log (k_fs s') = fs_log (k_fs s).
Proof. intros P. by destruct (rest_fs s s' (bp_rest _ _ _ _ P)) as (-> & _). Qed.

Lemma get_log_ok e s : get_log e s = Ok (fs_log (k_fs s)) e s.
Proof. done. Qed.

(** What [write_log_one] and [install_one] need of the state. *)
Record log_turn (s : kstate) (V : bview) (bs : list Z) : Prop := {
  lt_idle : idle s;
  lt_ok : bio_ok size (k_fs s) V;
  lt_log : log_holds (fs_log (k_fs s)) bs;
  lt_busy : bv_busy V = ∅;
  lt_cap : (base.size (bv_dirty V) < NBUF)%nat
}.

Lemma log_turn_next s s' V w bs :
  log_turn s V bs -> bpost size s s' (putv w V) -> log_turn s' (putv w V) bs.
Proof.
  intros [Hi Hok Hl Hb Hc] P. split; [apply P|apply P|by rewrite (log_kept _ _ _ P)|done|].
  cbn. eapply Nat.le_lt_trans; [|exact Hc]. apply subseteq_size. set_solver.
Qed.

Lemma write_log_one_ok V bs i h e s :
  log_turn s V bs -> bs !! i = Some h -> h ∈ bv_dirty V ->
  exists s', write_log_one (Z.of_nat i) e s = Ok tt e s' /\ bpost size s s' (putv (slot i, bv_data V h) V).
Proof.
  intros [Hi Hok Hl Hb Hc] Hh Hd. assert (Hlt := lookup_lt_Some _ _ _ Hh).
  destruct (slot_range _ _ i Hl Hlt) as (_ & Hr & Eu).
  destruct (home_not_slot _ _ i h Hl Hlt (holds_home _ _ _ _ Hl Hh)) as (Hne & Hrh & Euh).
  destruct (lock_two V (slot i) h e s Hi Hok Hne Hr Hrh Hb Hc (or_introl Hd)) as (bt & bf & s1 & s2 & E1 & E2 & P1 & P2).
  unfold write_log_one. mstep get_log_ok. rewrite Eu, (lh_dev _ _ Hl). mstep E1. mstep get_log_ok.
  rewrite (log_kept _ _ _ P1), (lh_dev _ _ Hl), (lh_block _ _ Hl i h Hh), Euh. mstep E2.
  fold (copy_tail bf bt).
  destruct (copy_tail_ok _ h (slot i) bf bt e s2 (bp_idle _ _ _ _ P2) (bp_ok _ _ _ _ P2)) as (s3 & E3 & P3).
  - done.
  - cbn. apply lookup_insert_eq.
  - cbn. rewrite lookup_insert_ne by done. apply lookup_insert_eq.
  - by left.
  - exists s3. split; [exact E3|]. cbn [bv_data lockv] in P3.
    rewrite (copy_view V (slot i) h bt bf h (slot i)) in P3; [|done|by rewrite Hb|by rewrite Hb|by right].
    by eapply bpost_trans.
Qed.

Lemma install_one_ok V bs i h e s :
  log_turn s V bs -> bs !! i = Some h -> slot i ∉ bv_dirty V ->
  (h ∈ bv_dirty V \/ (base.size (bv_dirty V) + 1 < NBUF)%nat) ->
  exists s', install_one (Z.of_nat i) e s = Ok tt e s' /\ bpost size s s' (putv (h, bv_data V (slot i)) V).
Proof.
  intros [Hi Hok Hl Hb Hc] Hh Hd Hcap. assert (Hlt := lookup_lt_Some _ _ _ Hh).
  destruct (slot_range _ _ i Hl Hlt) as (_ & Hr & Eu).
  destruct (home_not_slot _ _ i h Hl Hlt (holds_home _ _ _ _ Hl Hh)) as (Hne & Hrh & Euh).
  destruct (lock_two V (slot i) h e s Hi Hok Hne Hr Hrh Hb Hc Hcap) as (bl & bd & s1 & s2 & E1 & E2 & P1 & P2).
  unfold install_one. mstep get_log_ok. rewrite Eu, (lh_dev _ _ Hl). mstep E1. mstep get_log_ok.
  rewrite (log_kept _ _ _ P1), (lh_dev _ _ Hl), (lh_block _ _ Hl i h Hh), Euh. mstep E2.
  fold (copy_tail bl bd).
  destruct (copy_tail_ok _ (slot i) h bl bd e s2 (bp_idle _ _ _ _ P2) (bp_ok _ _ _ _ P2)) as (s3 & E3 & P3).
  - done.
  - cbn. rewrite lookup_insert_ne by done. apply lookup_insert_eq.
  - cbn. apply lookup_insert_eq.
  - right. cbn. apply (co_clean _ _ _ (bo_cache _ _ _ Hok)); [done|by rewrite Hb].
  - exists s3. split; [exact E3|]. cbn [bv_data lockv] in P3.
    rewrite (copy_view V (slot i) h bl bd (slot i) h) in P3; [|done|by rewrite Hb|by rewrite Hb|by left].
    by eapply bpost_trans.
Qed.

(** The writes of [write_log] and of [install_trans] for the blocks [suf],
    whose first log slot is [k]. *)
Fixpoint log_writes (k : nat) (data : Z -> list Z) (suf : list Z) : list (Z * list Z) :=
  match suf with
  | [] => []
  | h :: t => (slot k, data h) :: log_writes (S k) data t
  end.
Fixpoint home_writes (k : nat) (data : Z -> list Z) (suf : list Z) : list (Z * list Z) :=
  match suf with
  | [] => []
  | h :: t => (h, data (slot k)) :: home_writes (S k) data t
  end.

Lemma log_writes_ext k d d' suf :
  (forall h, h ∈ suf -> d h = d' h) -> log_writes k d suf = log_writes k d' suf.
Proof.
  revert k. induction suf as [|h t IH]; intros k E; [done|]. cbn. rewrite (E h) by set_solver.
  f_equal. apply IH. set_solver.
Qed.

Lemma home_writes_ext k d d' suf :
  (forall i, (k <= i < k + length suf)%nat -> d (slot i) = d' (slot i)) ->
  home_writes k d suf = home_writes k d' suf.
Proof.
  revert k. induction suf as [|h t IH]; intros k E; [done|]. cbn. rewrite (E k) by (cbn; lia).
  f_equal. apply IH. intros i Hi. apply E. cbn. lia.
Qed.

Lemma write_log_loop suf : forall pre V e s,
  log_turn s V (pre ++ suf) -> (forall h, h ∈ suf -> h ∈ bv_dirty V) ->
  (forall i, (i < length (pre ++ suf))%nat -> slot i ∉ bv_dirty V) ->
  exists s', forM (map Z.of_nat (seq (length pre) (length suf))) write_log_one e s = Ok tt e s' /\
    bpost size s s' (appv (log_writes (length pre) (bv_data V) suf) V).
Proof.
  induction suf as [|h t IH]; intros pre V e s Ht Hd Hs; cbn [length seq map forM].
  { exists s. split; [done|]. split; [apply Ht|done|apply Ht]. }
  assert (Hh : (pre ++ h :: t) !! length pre = Some h) by (by apply list_lookup_middle).
  destruct (write_log_one_ok V (pre ++ h :: t) (length pre) h e s Ht Hh) as (s1 & E1 & P1); [apply Hd; set_solver|].
  mstep E1. apply (log_turn_next _ _ _ _ _ Ht) in P1 as Ht1.
  replace (pre ++ h :: t) with ((pre ++ [h]) ++ t) in Ht1 by (by rewrite <- app_assoc).
  assert (Hsl : slot (length pre) ∉ bv_dirty V) by (apply Hs; rewrite length_app; cbn; lia).
  destruct (IH (pre ++ [h]) _ e s1 Ht1) as (s2 & E2 & P2).
  - intros h' Hh'. cbn. assert (h' ∈ bv_dirty V) by (apply Hd; set_solver). set_solver.
  - intros i Hi. cbn. apply not_elem_of_difference. left. apply Hs. rewrite <- app_assoc in Hi. exact Hi.
  - rewrite length_app in E2, P2. cbn [length] in E2, P2. rewrite Nat.add_1_r in E2, P2.
    exists s2. split; [exact E2|]. eapply bpost_trans; [exact P1|]. cbn [log_writes].
    change (appv ((slot (length pre), bv_data V h) :: ?w) V) with (appv w (putv (slot (length pre), bv_data V h) V)).
    rewrite (log_writes_ext _ _ (bv_data V)) in P2; [exact P2|]. intros h' Hh'. cbn. apply zset_ne.
    eapply (home_ne_slot _ (pre ++ h :: t)); [apply Ht|rewrite length_app; cbn; lia|set_solver].
Qed.

Lemma install_loop suf : forall pre V e s,
  log_turn s V (pre ++ suf) ->
  (forall i, (i < length (pre ++ suf))%nat -> slot i ∉ bv_dirty V) ->
  (forall h, h ∈ suf -> h ∈ bv_dirty V) \/ (base.size (bv_dirty V) + 1 < NBUF)%nat ->
  exists s', forM (map Z.of_nat (seq (length pre) (length suf))) install_one e s = Ok tt e s' /\
    bpost size s s' (appv (home_writes (length pre) (bv_data V) suf) V).
Proof.
  induction suf as [|h t IH]; intros pre V e s Ht Hs Hcap; cbn [length seq map forM].
  { exists s. split; [done|]. split; [apply Ht|done|apply Ht]. }
  assert (Hh : (pre ++ h :: t) !! length pre = Some h) by (by apply list_lookup_middle).
  destruct (install_one_ok V (pre ++ h :: t) (length pre) h e s Ht Hh) as (s1 & E1 & P1).
  { apply Hs. rewrite length_app. cbn. lia. }
  { destruct Hcap as [Hd|?]; [left; apply Hd; set_solver|by right]. }
  mstep E1. apply (log_turn_next _ _ _ _ _ Ht) in P1 as Ht1.
  replace (pre ++ h :: t) with ((pre ++ [h]) ++ t) in Ht1 by (by rewrite <- app_assoc).
  destruct (IH (pre ++ [h]) _ e s1 Ht1) as (s2 & E2 & P2).
  - intros i Hi. cbn. apply not_elem_of_difference. left. apply Hs. rewrite <- app_assoc in Hi. exact Hi.
  - destruct Hcap as [Hd|Hc]; [left|right].
    + intros h' Hh'. cbn. apply elem_of_difference. split; [apply Hd; set_solver|].
      pose proof (lh_nodup _ _ (lt_log _ _ _ Ht)) as Hnd. apply NoDup_app in Hnd as (_ & _ & [Hn _]%NoDup_cons). set_solver.
    + cbn. eapply Nat.le_lt_trans; [|exact Hc]. apply Nat.add_le_mono_r, subseteq_size. set_solver.
  - rewrite length_app in E2, P2. cbn [length] in E2, P2. rewrite Nat.add_1_r in E2, P2.
    exists s2. split; [exact E2|]. eapply bpost_trans; [exact P1|]. cbn [home_writes].
    change (appv ((h, ?d) :: ?w) V) with (appv w (putv (h, d) V)).
    rewrite (home_writes_ext _ _ (bv_data V)) in P2; [exact P2|]. intros i Hi. cbn. apply zset_ne.
    apply not_eq_sym. eapply (home_ne_slot _ (pre ++ h :: t)); [apply Ht|rewrite length_app; cbn; lia|set_solver].
Qed.

(** ** The header *)

Fixpoint hdr_fill (k : nat) (suf : list Z) (d : list Z) : list Z :=
  match suf with
  | [] => d
  | b :: t => hdr_fill (S k) t (put32 d (4 + 4 * Z.of_nat k) (u32 b))
  end.
Definition hdr_bytes (bs : list Z) (d : list Z) : list Z :=
  hdr_fill 0 bs (put32 d 0 (u32 (Z.of_nat (length bs)))).

Lemma hdr_fill_length suf : forall k d,
  4 + 4 * Z.of_nat (k + length suf) <= Z.of_nat (length d) -> length (hdr_fill k suf d) = length d.
Proof.
  induction suf as [|b t IH]; intros k d Hd; cbn in *; [done|].
  rewrite IH; rewrite put32_length; lia.
Qed.

Lemma hdr_fill_before suf : forall k d o,
  4 + 4 * Z.of_nat (k + length suf) <= Z.of_nat (length d) -> 0 <= o -> o + 4 <= 4 + 4 * Z.of_nat k ->
  get32 (hdr_fill k suf d) o = get32 d o.
Proof.
  induction suf as [|b t IH]; intros k d o Hd H0 Ho; cbn in *; [done|].
  rewrite IH; [|rewrite put32_length; lia|lia|lia].
  unfold put32. apply get32_splice_ne; cbn; lia.
Qed.

Lemma hdr_fill_get suf : forall k d j b,
  4 + 4 * Z.of_nat (k + length suf) <= Z.of_nat (length d) -> suf !! j = Some b ->
  get32 (hdr_fill k suf d) (4 + 4 * Z.of_nat (k + j)) = u32 b.
Proof.
  induction suf as [|b' t IH]; intros k d j b Hd Hj; [done|]. cbn [length] in Hd. cbn [hdr_fill].
  destruct j as [|j]; cbn in Hj.
  - injection Hj as ->. rewrite hdr_fill_before; [|rewrite put32_length; lia|lia|lia].
    rewrite Nat.add_0_r. apply get32_put32_eq; [lia|lia|apply u32_range].
  - replace (k + S j)%nat with (S k + j)%nat by lia. apply IH; [rewrite put32_length; lia|done].
Qed.

Lemma hdr_bytes_length bs d : length d = Z.to_nat BSIZE -> Z.of_nat (length bs) <= LOGSIZE ->
  length (hdr_bytes bs d) = Z.to_nat BSIZE.
Proof.
  intros Hd Hn. unfold LOGSIZE, BSIZE in *. unfold hdr_bytes.
  rewrite hdr_fill_length; rewrite put32_length; lia.
Qed.

(** A disk whose header block is the header for [bs]. *)
Lemma hdr_bytes_decode dk bs d :
  dk start = hdr_bytes bs d -> length d = Z.to_nat BSIZE -> Z.of_nat (length bs) <= LOGSIZE ->
  Forall (home start lsz size) bs ->
  hdr_n start dk = Z.of_nat (length bs) /\
  (forall i b, bs !! i = Some b -> hdr_block start dk (Z.of_nat i) = b).
Proof.
  intros Hs Hd Hn Hh. unfold hdr_n, hdr_block. rewrite Hs. unfold hdr_bytes. unfold LOGSIZE, BSIZE in *.
  split.
  - rewrite hdr_fill_before; [|rewrite put32_length; lia|lia|lia].
    rewrite get32_put32_eq by (try lia; apply u32_range). rewrite u32_small by lia. apply s32_small. lia.
  - intros i b Hb. pose proof (hdr_fill_get bs 0 (put32 d 0 (u32 (Z.of_nat (length bs)))) i b) as E.
    cbn [Nat.add] in E. rewrite E; [|rewrite put32_length; lia|done].
    destruct (Forall_lookup_1 _ _ _ _ Hh Hb) as [Hr _]. destruct G. rewrite (u32_small b) by lia.
    rewrite s32_small by lia. apply u32_small. lia.
Qed.

Lemma setv_twice n d d' V : setv n d' (setv n d V) = setv n d' V.
Proof.
  unfold setv. cbn. f_equal. apply functional_extensionality. intros k. unfold zset. by destruct (k =? n).
Qed.

Lemma write_head_loop lg buf suf : forall pre V d e s,
  log_holds lg (pre ++ suf) -> idle s -> bio_ok size (k_fs s) (setv start d V) -> bv_busy V !! start = Some buf ->
  exists s', forM (map Z.of_nat (seq (length pre) (length suf)))
      (fun i => d ← bdata buf; set_bdata buf (put32 d (4 + 4 * i) (u32 (log_block lg i)))) e s = Ok tt e s' /\
    bpost size s s' (setv start (hdr_fill (length pre) suf d) V).
Proof.
  induction suf as [|h t IH]; intros pre V d e s Hl Hi Hok Hb; cbn [length seq map forM hdr_fill].
  { exists s. done. }
  rewrite bind_assoc. mstep (bdata_ok size _ start buf) by done. cbn [bv_data setv]. rewrite zset_eq.
  rewrite (lh_block _ _ Hl (length pre) h) by (by apply list_lookup_middle).
  destruct (set_bdata_ok size _ start buf (put32 d (4 + 4 * Z.of_nat (length pre)) (u32 h)) e s Hi Hok Hb) as (s1 & E1 & P1).
  mstep E1. rewrite setv_twice in P1.
  replace (pre ++ h :: t) with ((pre ++ [h]) ++ t) in Hl by (by rewrite <- app_assoc).
  destruct (IH (pre ++ [h]) V _ e s1 Hl (bp_idle _ _ _ _ P1) (bp_ok _ _ _ _ P1) Hb) as (s2 & E2 & P2).
  rewrite length_app in E2, P2. cbn [length] in E2, P2. rewrite Nat.add_1_r in E2, P2.
  exists s2. split; [exact E2|]. by eapply bpost_trans.
Qed.

Lemma upto_nat n : upto (Z.of_nat n) = map Z.of_nat (seq 0 n).
Proof. unfold upto. by rewrite Nat2Z.id. Qed.

Lemma start_range : 0 <= start < size /\ u32 start = start /\ in_log start lsz start.
Proof. destruct G. unfold in_log. split_and!; try lia. apply u32_small. lia. Qed.

Lemma write_head_ok V bs e s :
  log_turn s V bs -> start ∉ bv_dirty V ->
  exists s', write_head e s = Ok tt e s' /\ bpost size s s' (putv (start, hdr_bytes bs (bv_data V start)) V).
Proof.
  intros [Hi Hok Hl Hb Hc] Hd. destruct start_range as (Hr & Eu & _). unfold write_head. mstep get_log_ok.
  rewrite (lh_dev _ _ Hl), (lh_start _ _ Hl), Eu.
  destruct (bread_ok D size V start e s Hi Hok Hr) as (b & s1 & E1 & P1).
  { by rewrite Hb. }
  { right. unfold pinned_blocks. by rewrite Hb, dom_empty_L, (right_id_L ∅ _). }
  mstep E1. mstep get_log_ok. rewrite (log_kept _ _ _ P1).
  assert (Hbs : bv_busy (lockv start b V) !! start = Some b) by apply lookup_insert_eq.
  mstep (bdata_ok size (lockv start b V) start b) by (try apply P1; exact Hbs). cbn [bv_data lockv].
  rewrite (lh_n _ _ Hl), upto_nat.
  set (d0 := put32 (bv_data V start) 0 (u32 (Z.of_nat (length bs)))).
  destruct (set_bdata_ok size _ start b d0 e s1 (bp_idle _ _ _ _ P1) (bp_ok _ _ _ _ P1) Hbs) as (s2 & E2 & P2). mstep E2.
  destruct (write_head_loop _ b bs [] (lockv start b V) d0 e s2 Hl (bp_idle _ _ _ _ P2) (bp_ok _ _ _ _ P2) Hbs) as (s3 & E3 & P3).
  mstep E3. cbn [length] in P3. change (hdr_fill 0 bs d0) with (hdr_bytes bs (bv_data V start)) in P3.
  destruct (bwrite_ok D size _ start b e s3 (bp_idle _ _ _ _ P3) (bp_ok _ _ _ _ P3) Hbs) as (s4 & E4 & P4). mstep E4.
  destruct (brelse_ok size _ start b e s4 (bp_idle _ _ _ _ P4) (bp_ok _ _ _ _ P4) Hbs) as (s5 & E5 & P5).
  { right. cbn. by rewrite !zset_eq. }
  exists s5. split; [exact E5|]. assert (P := bpost_trans _ _ _ _ _ (bpost_trans _ _ _ _ _ (bpost_trans _ _ _ _ _
    (bpost_trans _ _ _ _ _ P1 P2) P3) P4) P5).
  replace (putv _ V) with (unlockv start (writev start (setv start (hdr_bytes bs (bv_data V start)) (lockv start b V)))); [done|].
  unfold putv, unlockv, writev, setv, lockv. cbn. rewrite zset_eq. f_equal.
  rewrite delete_insert_id by (by rewrite Hb). done.
Qed.

(** ** commit *)

Definition own (data : Z -> list Z) (bs : list Z) : list (Z * list Z) := map (fun h => (h, data h)) bs.
Definition commit_writes (data : Z -> list Z) (bs : list Z) : list (Z * list Z) :=
  let hdr := hdr_bytes bs (data start) in
  log_writes 0 data bs ++ [(start, hdr)] ++ own data bs ++ [(start, hdr_bytes [] hdr)].

Lemma slot_inj i j : slot i = slot j -> i = j.
Proof. unfold slot. lia. Qed.

Lemma log_writes_fst suf : forall k d, (log_writes k d suf).*1 = map slot (seq k (length suf)).
Proof. induction suf as [|h t IH]; intros k d; [done|]. cbn. by rewrite IH. Qed.

Lemma log_writes_lookup suf : forall k d i h,
  suf !! i = Some h -> log_writes k d suf !! i = Some (slot (k + i), d h).
Proof.
  induction suf as [|h' t IH]; intros k d i h Hi; [done|]. destruct i as [|i].
  - injection Hi as ->. by rewrite Nat.add_0_r.
  - change (log_writes (S k) d t !! i = Some (slot (k + S i), d h)). rewrite (IH (S k) d i h Hi). do 3 f_equal. lia.
Qed.

Lemma log_writes_slot d0 d bs i h :
  bs !! i = Some h -> disk_after d0 (log_writes 0 d bs) (slot i) = d h.
Proof.
  intros Hi. apply (disk_after_in d0 (log_writes 0 d bs) i (slot i, d h)).
  - rewrite log_writes_fst. apply NoDup_fmap_2; [intros a b; apply slot_inj|apply NoDup_seq].
  - by apply log_writes_lookup.
Qed.

Lemma log_writes_other d0 d bs n :
  (forall i, (i < length bs)%nat -> n <> slot i) -> disk_after d0 (log_writes 0 d bs) n = d0 n.
Proof.
  intros Hn. apply disk_after_out. rewrite log_writes_fst, list_elem_of_fmap.
  intros (i & -> & Hi%elem_of_seq). by apply (Hn i); [lia|].
Qed.

Lemma home_writes_own suf : forall k d data,
  (forall i h, suf !! i = Some h -> d (slot (k + i)) = data h) -> home_writes k d suf = own data suf.
Proof.
  induction suf as [|h t IH]; intros k d data E; [done|]. cbn.
  rewrite <- (E 0%nat h) by done. rewrite Nat.add_0_r. f_equal. apply IH. intros i h' Hi.
  rewrite <- (E (S i) h') by done. f_equal. f_equal. lia.
Qed.

(** The state in which [end_op] calls [commit]: the blocks of the transaction
    are pinned in the cache and nothing is locked. *)
Record committable (s : kstate) (V : bview) (bs : list Z) : Prop := {
  cm_turn : log_turn s V bs;
  cm_dirty : bv_dirty V = list_to_set bs;
  cm_len : length (bv_data V start) = Z.to_nat BSIZE
}.

Lemma not_dirty_slot s V bs i : committable s V bs -> (i < length bs)%nat -> slot i ∉ bv_dirty V.
Proof.
  intros [Ht -> _] Hi. rewrite elem_of_list_to_set. intros Hin. by apply (home_ne_slot _ bs i _ (lt_log _ _ _ Ht) Hi) in Hin.
Qed.

Lemma home_start_ne h : home start lsz size h -> h <> start.
Proof. intros [_ Hn] ->. apply Hn, start_range. Qed.

Lemma not_dirty_start s V bs : committable s V bs -> start ∉ bv_dirty V.
Proof.
  intros [Ht -> _]. rewrite elem_of_list_to_set. intros Hin. pose proof (lh_home _ _ (lt_log _ _ _ Ht)) as Hf.
  rewrite Forall_forall in Hf. by apply (home_start_ne start (Hf _ Hin)).
Qed.

Lemma log_turn_app s s' V ws bs :
  log_turn s V bs -> bpost size s s' (appv ws V) -> log_turn s' (appv ws V) bs.
Proof.
  intros [Hi Hok Hl Hb Hc] P. destruct (appv_view ws V) as (_ & _ & _ & Ed & Eb).
  split; [apply P|apply P|by rewrite (log_kept _ _ _ P)|by rewrite Eb|].
  rewrite Ed. eapply Nat.le_lt_trans; [|exact Hc]. apply subseteq_size. set_solver.
Qed.

Lemma write_log_ok V bs e s :
  committable s V bs ->
  exists s', write_log e s = Ok tt e s' /\ bpost size s s' (appv (log_writes 0 (bv_data V) bs) V).
Proof.
  intros Hcm. pose proof Hcm as [Ht Hd _]. unfold write_log. mstep get_log_ok.
  rewrite (lh_n _ _ (lt_log _ _ _ Ht)), upto_nat. apply (write_log_loop bs [] V e s Ht).
  - intros h Hh. rewrite Hd. by apply elem_of_list_to_set.
  - intros i Hi. by eapply not_dirty_slot.
Qed.

Lemma install_trans_ok V bs e s :
  log_turn s V bs -> (forall i, (i < length bs)%nat -> slot i ∉ bv_dirty V) ->
  (forall h, h ∈ bs -> h ∈ bv_dirty V) \/ (base.size (bv_dirty V) + 1 < NBUF)%nat ->
  exists s', install_trans e s = Ok tt e s' /\ bpost size s s' (appv (home_writes 0 (bv_data V) bs) V).
Proof.
  intros Ht Hs Hcap. unfold install_trans. mstep get_log_ok.
  rewrite (lh_n _ _ (lt_log _ _ _ Ht)), upto_nat. by apply (install_loop bs [] V e s Ht).
Qed.

(** [write_log] and [write_head]: the transaction is in the log. *)
Lemma commit_logged V bs e s :
  committable s V bs ->
  let ws := log_writes 0 (bv_data V) bs ++ [(start, hdr_bytes bs (bv_data V start))] in
  exists s', (write_log;; write_head) e s = Ok tt e s' /\ bpost size s s' (appv ws V).
Proof.
  intros Hcm. pose proof Hcm as [Ht Hd Hlen]. destruct (write_log_ok V bs e s Hcm) as (s1 & E1 & P1). mstep E1.
  destruct (appv_view (log_writes 0 (bv_data V) bs) V) as (Eda & _ & _ & Edi & _).
  destruct (write_head_ok _ bs e s1 (log_turn_app _ _ _ _ _ Ht P1)) as (s2 & E2 & P2).
  { rewrite Edi. pose proof (not_dirty_start _ _ _ Hcm). set_solver. }
  exists s2. split; [exact E2|]. eapply bpost_trans; [exact P1|]. rewrite appv_app.
  rewrite Eda, log_writes_other in P2; [exact P2|]. intros i Hi. unfold slot. lia.
Qed.

Definition logged_writes (data : Z -> list Z) (bs : list Z) : list (Z * list Z) :=
  log_writes 0 data bs ++ [(start, hdr_bytes bs (data start))].

Lemma logged_blocks lg data bs h : log_holds lg bs -> h ∈ bs -> h ∉ (logged_writes data bs).*1.
Proof.
  intros Hl Hh. unfold logged_writes. rewrite fmap_app, log_writes_fst, elem_of_app. intros [Hi|Hs].
  - apply list_elem_of_fmap in Hi as (i & -> & Hi%elem_of_seq). by apply (home_ne_slot _ bs i _ Hl ltac:(lia)) in Hh.
  - apply list_elem_of_singleton in Hs. apply (home_start_ne h); [|done].
    pose proof (lh_home _ _ Hl) as Hf. rewrite Forall_forall in Hf. by apply Hf.
Qed.

Lemma logged_slot d0 data bs i h :
  bs !! i = Some h -> disk_after d0 (logged_writes data bs) (slot i) = data h.
Proof.
  intros Hi. unfold logged_writes. rewrite disk_after_app. cbn. rewrite zset_ne by (unfold slot; lia).
  by apply log_writes_slot.
Qed.

Lemma logged_start d0 data bs : disk_after d0 (logged_writes data bs) start = hdr_bytes bs (data start).
Proof. unfold logged_writes. rewrite disk_after_app. cbn. apply zset_eq. Qed.

(** [install_trans] after that: the transaction is in place. *)
Lemma commit_installed V bs e s s1 :
  committable s V bs -> bpost size s s1 (appv (logged_writes (bv_data V) bs) V) ->
  exists s', install_trans e s1 = Ok tt e s' /\
    bpost size s s' (appv (own (bv_data V) bs) (appv (logged_writes (bv_data V) bs) V)).
Proof.
  intros Hcm P1. pose proof Hcm as [Ht Hd Hlen]. pose proof (lt_log _ _ _ Ht) as Hl.
  destruct (appv_view (logged_writes (bv_data V) bs) V) as (Eda & _ & _ & Edi & _).
  destruct (install_trans_ok _ bs e s1 (log_turn_app _ _ _ _ _ Ht P1)) as (s2 & E2 & P2).
  { intros i Hi. rewrite Edi. pose proof (not_dirty_slot _ _ _ i Hcm Hi). set_solver. }
  { left. intros h Hh. rewrite Edi, Hd. apply elem_of_difference. split; [by apply elem_of_list_to_set|].
    rewrite elem_of_list_to_set. by eapply logged_blocks. }
  rewrite (home_writes_own bs 0 _ (bv_data V)) in P2.
  2:{ intros i h Hi. rewrite Eda. by apply logged_slot. }
  exists s2. split; [done|]. by eapply bpost_trans.
Qed.

Lemma own_fst data bs : (own data bs).*1 = bs.
Proof. unfold own. rewrite <- list_fmap_compose. apply list_fmap_id. Qed.

Lemma upd_log_fs f s : k_fs (upd_log f s) = set_fs_log (f (fs_log (k_fs s))) (k_fs s).
Proof. done. Qed.

Lemma bio_ok_log lg fs V : bio_ok size fs V -> bio_ok size (set_fs_log lg fs) V.
Proof. intros [H1 H2 H3 H4]. by split. Qed.

Lemma commit_ok V bs e s :
  committable s V bs -> bs <> [] ->
  exists s', commit e s = Ok tt e s' /\ idle s' /\ bio_ok size (k_fs s') (appv (commit_writes (bv_data V) bs) V) /\
    fs_log (k_fs s') = set_lg_n 0 (fs_log (k_fs s)).
Proof.
  intros Hcm Hne. pose proof Hcm as [Ht Hd Hlen]. pose proof (lt_log _ _ _ Ht) as Hl.
  unfold commit. mstep get_log_ok. rewrite (lh_n _ _ Hl).
  destruct (Z.ltb_spec 0 (Z.of_nat (length bs))) as [_|Hz]; [|by destruct bs; cbn in Hz; [|lia]].
  unfold when. destruct (commit_logged V bs e s Hcm) as (s1 & E1 & P1).
  destruct (bind_inv_ok _ _ _ _ _ _ _ E1) as ([] & e1 & sa & Ea & Eb). mstep Ea. mstep Eb. clear Ea Eb e1 sa E1.
  destruct (commit_installed V bs e s s1 Hcm P1) as (s2 & E2 & P2). mstep E2. mstep.
  rewrite <- appv_app in P2. set (ws := _ ++ own _ bs) in P2.
  pose proof (log_turn_app _ _ _ _ _ Ht P2) as Ht2. destruct (appv_view ws V) as (Eda & _ & _ & Edi & _).
  destruct (write_head_ok (appv ws V) [] e (upd_log (set_lg_n 0) s2)) as (s3 & E3 & P3).
  { split; [apply Ht2|rewrite upd_log_fs; apply bio_ok_log, Ht2| |apply Ht2|apply Ht2]. destruct (lt_log _ _ _ Ht2).
    split; cbn; try done; [apply NoDup_nil_2|destruct G; unfold LOGSIZE; lia]. }
  { rewrite Edi. pose proof (not_dirty_start _ _ _ Hcm). set_solver. }
  exists s3. split; [exact E3|]. split_and!; [apply P3| |].
  - replace (appv (commit_writes (bv_data V) bs) V)
      with (putv (start, hdr_bytes [] (bv_data (appv ws V) start)) (appv ws V)); [apply P3|].
    change (putv ?w (appv ws V)) with (appv [w] (appv ws V)). rewrite <- appv_app, Eda.
    unfold ws at 2. rewrite disk_after_app, disk_after_out, logged_start.
    + unfold ws, commit_writes, logged_writes. by rewrite <- !app_assoc.
    + rewrite own_fst. intros Hin. pose proof (lh_home _ _ Hl) as Hf. rewrite Forall_forall in Hf.
      by apply (home_start_ne start (Hf _ Hin)).
  - rewrite (log_kept _ _ _ P3). cbn. by rewrite (log_kept _ _ _ P2).
Qed.

(** ** What recovery makes of a disk *)

Notation hdr_n := (hdr_n start).
Notation hdr_block := (hdr_block start).
Notation installs := (installs start).
Notation replay := (replay start).
Notation home := (home start lsz size).
Notation in_log := (in_log start lsz).
Notation hdr_ok := (hdr_ok start lsz size).

(** The blocks named by the header. *)
Definition hdr_blocks (d : Z -> list Z) : list Z := map (hdr_block d) (upto (hdr_n d)).

Lemma installs_fst d : (installs d).*1 = hdr_blocks d.
Proof. unfold LogSpec.installs, hdr_blocks. rewrite <- list_fmap_compose. done. Qed.

Lemma replay_in d i : hdr_ok d -> 0 <= i < hdr_n d -> replay d (hdr_block d i) = d (start + i + 1).
Proof.
  intros H Hi. unfold LogSpec.replay.
  apply (disk_after_in d (installs d) (Z.to_nat i) (hdr_block d i, d (start + i + 1))).
  - rewrite installs_fst. apply H.
  - unfold LogSpec.installs. rewrite list_lookup_fmap, lookup_upto by lia. cbn. by rewrite Z2Nat.id by lia.
Qed.

Lemma replay_out d n : n ∉ hdr_blocks d -> replay d n = d n.
Proof. intros Hn. apply disk_after_out. by rewrite installs_fst. Qed.

Lemma hdr_blocks_in d n : n ∈ hdr_blocks d <-> exists i, 0 <= i < hdr_n d /\ n = hdr_block d i.
Proof.
  unfold hdr_blocks. rewrite list_elem_of_fmap. split.
  - intros (i & -> & Hi%elem_of_upto). by exists i.
  - intros (i & Hi & ->). exists i. by rewrite elem_of_upto.
Qed.

(** A disk with the same log. *)
Lemma same_log_blocks d d' : (forall n, in_log n -> d' n = d n) ->
  hdr_n d' = hdr_n d /\ hdr_blocks d' = hdr_blocks d /\ (hdr_ok d -> hdr_ok d').
Proof.
  intros E. assert (Es : d' start = d start) by (apply E, start_range).
  assert (En : hdr_n d' = hdr_n d) by (unfold LogSpec.hdr_n; by rewrite Es).
  assert (Eb : forall i, hdr_block d' i = hdr_block d i) by (intros i; unfold LogSpec.hdr_block; by rewrite Es).
  assert (Ebs : hdr_blocks d' = hdr_blocks d).
  { unfold hdr_blocks. rewrite En. apply map_ext. apply Eb. }
  split_and!; [done..|]. intros [H1 H2 H3 H4]. split; [by rewrite En| | |by rewrite Es].
  - intros i Hi. rewrite Eb. apply H2. by rewrite <- En.
  - fold (hdr_blocks d'). by rewrite Ebs.
Qed.

Lemma slot_in_log d i : hdr_ok d -> 0 <= i < hdr_n d -> in_log (start + i + 1).
Proof. intros [[Hn _] _ _ _] Hi. unfold LogSpec.in_log. lia. Qed.

(** Installing some of the blocks does not change what recovery does. *)
Lemma replay_partial d d' :
  hdr_ok d -> (forall n, in_log n -> d' n = d n) ->
  (forall n, home n -> d' n = d n \/ d' n = replay d n) ->
  forall n, home n -> replay d' n = replay d n.
Proof.
  intros Hok E Hh n Hn. destruct (same_log_blocks d d' E) as (En & Eb & Hok').
  destruct (decide (n ∈ hdr_blocks d)) as [Hin|Hout].
  - apply hdr_blocks_in in Hin as (i & Hi & ->). rewrite (replay_in d i) by done.
    assert (Ebi : hdr_block d' i = hdr_block d i) by (unfold LogSpec.hdr_block; by rewrite (E start) by apply start_range).
    rewrite <- Ebi, (replay_in d' i); [|by apply Hok'|by rewrite En]. apply E. by apply (slot_in_log d).
  - rewrite (replay_out d') by (by rewrite Eb). rewrite (replay_out d) by done.
    destruct (Hh n Hn) as [?|Hr]; [done|]. by rewrite Hr, replay_out.
Qed.

Lemma disk_after_take d ws j n :
  NoDup ws.*1 -> disk_after d (take j ws) n = d n \/ disk_after d (take j ws) n = disk_after d ws n.
Proof.
  intros Hnd. destruct (decide (n ∈ (take j ws).*1)) as [Hin|Hout]; [right|left; by apply disk_after_out].
  apply list_elem_of_fmap in Hin as (w & -> & Hw). apply list_elem_of_lookup_1 in Hw as [i Hi].
  rewrite (disk_after_in d (take j ws) i w); [| |done].
  2:{ rewrite fmap_take. rewrite <- (take_drop j ws.*1) in Hnd. by apply NoDup_app in Hnd as (? & _ & _). }
  apply lookup_take_Some in Hi as [Hi _]. by rewrite (disk_after_in d ws i w).
Qed.

(** The writes that finish a logged transaction: install it, clear the
    header. *)
Definition finish_writes (d : Z -> list Z) : list (Z * list Z) :=
  installs d ++ [(start, hdr_bytes [] (d start))].

Lemma home_install d j n : hdr_ok d -> in_log n -> disk_after d (take j (installs d)) n = d n.
Proof.
  intros Hok Hn. apply disk_after_out. rewrite fmap_take, installs_fst. intros Hin%elem_of_take.
  destruct Hin as (i & Hi & _). apply list_elem_of_lookup_2 in Hi.
  apply hdr_blocks_in in Hi as (k & Hk & ->). by destruct (ho_home _ _ _ _ Hok k Hk).
Qed.

Lemma finish_final d n : home n -> disk_after d (finish_writes d) n = replay d n.
Proof.
  intros Hn. unfold finish_writes. rewrite disk_after_app. cbn. apply zset_ne. by apply home_start_ne.
Qed.

Lemma cleared_header d x :
  d start = hdr_bytes [] x -> length x = Z.to_nat BSIZE -> hdr_ok d /\ hdr_n d = 0 /\ forall n, replay d n = d n.
Proof.
  intros Hs Hx. destruct (hdr_bytes_decode d [] x Hs Hx) as [En _]; [cbn; unfold LOGSIZE; lia|done|].
  cbn in En. split_and!; [|done|].
  - split; [rewrite En; destruct G; unfold LOGSIZE; lia|intros i; rewrite En; lia|rewrite En; apply NoDup_nil_2|].
    rewrite Hs. apply hdr_bytes_length; [done|]. cbn. unfold LOGSIZE. lia.
  - intros n. apply replay_out. unfold hdr_blocks. rewrite En. apply not_elem_of_nil.
Qed.

(** Wherever the machine stops while a logged transaction is finished,
    recovery gives the same disk. *)
Lemma finish_prefix d j :
  hdr_ok d ->
  let d' := disk_after d (take j (finish_writes d)) in
  hdr_ok d' /\ forall n, home n -> replay d' n = replay d n.
Proof.
  intros Hok d'. destruct (decide (j <= length (installs d))%nat) as [Hj|Hj].
  - assert (Ed : d' = disk_after d (take j (installs d))).
    { unfold d', finish_writes. by rewrite take_app_le. }
    assert (E : forall n, in_log n -> d' n = d n) by (intros n Hn; rewrite Ed; by apply home_install).
    split; [by apply (same_log_blocks d d' E)|]. apply replay_partial; [done..|]. intros n Hn. rewrite Ed.
    apply disk_after_take. rewrite installs_fst. apply Hok.
  - assert (Ed : d' = zset (replay d) start (hdr_bytes [] (d start))).
    { unfold d', finish_writes. rewrite take_ge by (rewrite length_app; cbn; lia). by rewrite disk_after_app. }
    destruct (cleared_header d' (d start)) as (H1 & _ & H2); [rewrite Ed; apply zset_eq|apply Hok|].
    split; [done|]. intros n Hn. rewrite H2, Ed. apply zset_ne. by apply home_start_ne.
Qed.

Lemma empty_header d : hdr_n d = 0 -> length (d start) = Z.to_nat BSIZE -> hdr_ok d /\ forall n, replay d n = d n.
Proof.
  intros En Hlen. split.
  - split; [rewrite En; destruct G; unfold LOGSIZE; lia|intros i; rewrite En; lia|rewrite En; apply NoDup_nil_2|done].
  - intros n. apply replay_out. unfold hdr_blocks. rewrite En. apply not_elem_of_nil.
Qed.

(** ** Every prefix of the writes of [commit] *)

Section Prefix.
Context (V : bview) (bs : list Z) (lg : log_t).
Hypothesis (Hl : log_holds lg bs) (Hdirty : bv_dirty V = list_to_set bs).
Hypothesis (Hclean : forall n, n ∉ bv_dirty V -> bv_data V n = bv_disk V n).
Hypothesis (Hlen : length (bv_disk V start) = Z.to_nat BSIZE) (Hempty : hdr_n (bv_disk V) = 0).

Let d0 := bv_disk V.
Let d1 := disk_after d0 (logged_writes (bv_data V) bs).

Lemma start_clean : bv_data V start = d0 start.
Proof.
  apply Hclean. rewrite Hdirty, elem_of_list_to_set. intros Hin. pose proof (lh_home _ _ Hl) as Hf.
  rewrite Forall_forall in Hf. by apply (home_start_ne start (Hf _ Hin)).
Qed.

Lemma logged_header : hdr_n d1 = Z.of_nat (length bs) /\
  (forall i b, bs !! i = Some b -> hdr_block d1 (Z.of_nat i) = b).
Proof.
  apply (hdr_bytes_decode d1 bs (bv_data V start)); [apply logged_start|by rewrite start_clean|apply Hl|apply Hl].
Qed.

Lemma logged_hdr_blocks : hdr_blocks d1 = bs.
Proof.
  destruct logged_header as [En Eb]. unfold hdr_blocks. rewrite En, upto_nat. apply list_eq. intros i.
  rewrite !list_lookup_fmap. destruct (bs !! i) as [b|] eqn:E.
  - rewrite lookup_seq_lt by (by apply lookup_lt_Some in E). cbn. by rewrite (Eb i b E).
  - rewrite lookup_seq_ge by (by apply lookup_ge_None in E). done.
Qed.

Lemma logged_hdr_ok : hdr_ok d1.
Proof.
  destruct logged_header as [En Eb]. destruct Hl as [_ _ _ _ Hh Hnd [Hf1 Hf2]]. split.
  - rewrite En. lia.
  - intros i Hi. rewrite En in Hi. destruct (lookup_lt_is_Some_2 bs (Z.to_nat i)) as [b Hb]; [lia|].
    rewrite <- (Z2Nat.id i) by lia. rewrite (Eb _ b Hb). by apply (Forall_lookup_1 _ _ _ _ Hh Hb).
  - fold (hdr_blocks d1). by rewrite logged_hdr_blocks.
  - unfold d1. rewrite logged_start. apply hdr_bytes_length; [by rewrite start_clean|done].
Qed.

Lemma logged_installs : installs d1 = own (bv_data V) bs.
Proof.
  destruct logged_header as [En Eb]. unfold LogSpec.installs, own. rewrite En, upto_nat. apply list_eq. intros i.
  rewrite !list_lookup_fmap. destruct (bs !! i) as [b|] eqn:E.
  - rewrite lookup_seq_lt by (by apply lookup_lt_Some in E). cbn. rewrite (Eb i b E).
    by rewrite <- (logged_slot d0 (bv_data V) bs i b E).
  - rewrite lookup_seq_ge by (by apply lookup_ge_None in E). done.
Qed.

Lemma commit_writes_split : commit_writes (bv_data V) bs = logged_writes (bv_data V) bs ++ finish_writes d1.
Proof.
  unfold commit_writes, finish_writes. rewrite logged_installs. unfold d1. rewrite logged_start.
  unfold logged_writes. by rewrite <- !app_assoc.
Qed.

(** Once the header is written, recovery gives the new contents. *)
Lemma replay_logged n : home n -> replay d1 n = bv_data V n.
Proof.
  intros Hn. destruct (decide (n ∈ bs)) as [Hin|Hout].
  - apply list_elem_of_lookup_1 in Hin as [i Hi]. destruct logged_header as [En Eb].
    rewrite <- (Eb i n Hi) at 1. rewrite replay_in; [|apply logged_hdr_ok|rewrite En; apply lookup_lt_Some in Hi; lia].
    apply (logged_slot d0 (bv_data V) bs i n Hi).
  - rewrite replay_out by (by rewrite logged_hdr_blocks). rewrite Hclean by (by rewrite Hdirty, elem_of_list_to_set).
    unfold d1. apply disk_after_out. unfold logged_writes. rewrite fmap_app, log_writes_fst, elem_of_app.
    intros [Hi|Hs]; [|apply list_elem_of_singleton in Hs; by apply (home_start_ne n)].
    apply list_elem_of_fmap in Hi as (i & -> & Hi%elem_of_seq). destruct Hn as [_ Hn]. apply Hn.
    apply (slot_range lg bs i Hl). lia.
Qed.

(** Before that, it gives the old contents. *)
Lemma replay_unlogged j :
  let d := disk_after d0 (take j (log_writes 0 (bv_data V) bs)) in
  hdr_ok d /\ forall n, home n -> replay d n = d0 n.
Proof.
  intros d.
  assert (Hout : forall n, (forall i, (i < length bs)%nat -> n <> slot i) -> d n = d0 n).
  { intros n Hn. apply disk_after_out. rewrite fmap_take, log_writes_fst. intros (k & Hk & _)%elem_of_take.
    apply list_elem_of_lookup_2, list_elem_of_fmap in Hk as (i & -> & Hi%elem_of_seq). by apply (Hn i); [lia|]. }
  assert (Es : d start = d0 start) by (apply Hout; intros i _; unfold slot; lia).
  destruct (empty_header d) as [H1 H2]; [unfold LogSpec.hdr_n; by rewrite Es|by rewrite Es|].
  split; [done|]. intros n [_ Hn]. rewrite H2. apply Hout. intros i Hi ->. apply Hn.
  by apply (slot_range lg bs i Hl).
Qed.

Lemma commit_prefix j :
  let d := disk_after d0 (take j (commit_writes (bv_data V) bs)) in
  hdr_ok d /\ ((forall n, home n -> replay d n = d0 n) \/ (forall n, home n -> replay d n = bv_data V n)).
Proof.
  intros d. destruct (decide (j <= length (log_writes 0 (bv_data V) bs))%nat) as [Hj|Hj].
  - destruct (replay_unlogged j) as [H1 H2]. unfold d, commit_writes. rewrite take_app_le by done. split; [done|by left].
  - unfold d. rewrite commit_writes_split, take_app_ge by (unfold logged_writes; rewrite length_app; cbn; lia).
    rewrite disk_after_app. destruct (finish_prefix d1 (j - length (logged_writes (bv_data V) bs)) logged_hdr_ok) as [H1 H2].
    split; [done|]. right. intros n Hn. rewrite H2 by done. by apply replay_logged.
Qed.

Lemma commit_final n : home n -> disk_after d0 (commit_writes (bv_data V) bs) n = bv_data V n.
Proof.
  intros Hn. rewrite commit_writes_split, disk_after_app. fold d1. rewrite finish_final by done.
  by apply replay_logged.
Qed.
End Prefix.

(** ** recover_from_log *)

(** The machine has just started on disk [d]: nothing is cached. *)
Record rebooted (s : kstate) (d : Z -> list Z) : Prop := {
  rb_idle : idle s;
  rb_disk : fs_disk (k_fs s) = d;
  rb_bio : bio_ok size (k_fs s) (fresh_view (k_fs s));
  rb_dev : lg_dev (fs_log (k_fs s)) = 1;
  rb_start : lg_start (fs_log (k_fs s)) = start;
  rb_blocks : length (lg_block (fs_log (k_fs s))) = Z.to_nat LOGSIZE
}.

Definition const_log (lg : log_t) (s : kstate) : kstate := upd_log (fun _ => lg) s.

Lemma upd_log_const f lg s : upd_log f (const_log lg s) = const_log (f lg) s.
Proof. done. Qed.

Lemma const_log_self s : const_log (fs_log (k_fs s)) s = s.
Proof. by destruct s as [? ? ? ? ? ? ? ? ? ? ? ? ? ? [] ?]. Qed.

(** The loop of [read_head]. *)
Lemma read_head_loop (v : Z -> Z) e s m : forall k lg,
  (k + m <= length (lg_block lg))%nat -> (forall i, (i < k)%nat -> log_block lg (Z.of_nat i) = v (Z.of_nat i)) ->
  exists lg', forM (map Z.of_nat (seq k m)) (fun i => modify (upd_log (set_log_block i (v i)))) e (const_log lg s) =
      Ok tt e (const_log lg' s) /\
    lg_dev lg' = lg_dev lg /\ lg_start lg' = lg_start lg /\ lg_n lg' = lg_n lg /\
    (forall i, (i < k + m)%nat -> log_block lg' (Z.of_nat i) = v (Z.of_nat i)).
Proof.
  induction m as [|m IH]; intros k lg Hlen Hv; cbn [seq map forM].
  { exists lg. split_and!; [done..|]. intros i Hi. apply Hv. lia. }
  mstep. rewrite upd_log_const. destruct (IH (S k) (set_log_block (Z.of_nat k) (v (Z.of_nat k)) lg)) as (lg' & E & E1 & E2 & E3 & E4).
  - cbn. rewrite length_insert. lia.
  - intros i Hi. unfold log_block. cbn. rewrite !nth_lookup, !Nat2Z.id.
    destruct (decide (i = k)) as [->|Hne].
    + rewrite list_lookup_insert_eq by lia. done.
    + rewrite list_lookup_insert_ne by lia. rewrite <- (Hv i) by lia. unfold log_block. by rewrite nth_lookup, Nat2Z.id.
  - exists lg'. split_and!; [done..|]. intros i Hi. apply E4. lia.
Qed.

Lemma u32_s32_home x : u32 (s32 x) < 2147483648 -> s32 x = u32 (s32 x).
Proof.
  intros H. pose proof (s32_range x) as Hr. destruct (Z_lt_le_dec (s32 x) 0) as [Hn|Hn]; [|symmetry; apply u32_small; lia].
  unfold u32 in *. rewrite <- (Z_mod_plus_full (s32 x) 1), Z.mod_small in H by lia. lia.
Qed.

(** The log that [read_head] leaves in memory. *)
Lemma read_head_holds lg d :
  hdr_ok d -> lg_dev lg = 1 -> lg_start lg = start -> lg_n lg = hdr_n d ->
  (forall i, (i < Z.to_nat (hdr_n d))%nat ->
    log_block lg (Z.of_nat i) = s32 (get32 (d start) (4 + 4 * Z.of_nat i))) ->
  log_holds lg (hdr_blocks d).
Proof.
  intros [[Hn1 Hn2] Hhome Hnd Hlen] L1 L2 L3 L4. assert (Hbl : length (hdr_blocks d) = Z.to_nat (hdr_n d)).
  { unfold hdr_blocks. by rewrite length_map, upto_length. }
  split; [done|done|rewrite L3, Hbl; lia| | |done|rewrite Hbl; lia].
  - intros i b Hb. assert (Hi := lookup_lt_Some _ _ _ Hb). rewrite Hbl in Hi.
    unfold hdr_blocks in Hb. rewrite list_lookup_fmap, lookup_upto in Hb by done. cbn in Hb. injection Hb as <-.
    rewrite L4 by done. destruct (Hhome (Z.of_nat i)) as [Hr _]; [lia|]. destruct G. apply u32_s32_home.
    unfold LogSpec.hdr_block in Hr. lia.
  - apply Forall_forall. intros b (i & Hi & ->)%hdr_blocks_in. by apply Hhome.
Qed.

Lemma read_head_ok e s d :
  rebooted s d -> hdr_ok d ->
  exists s', read_head e s = Ok tt e s' /\ log_turn s' (fresh_view (k_fs s)) (hdr_blocks d).
Proof.
  intros [Hi Hd Hok Hdev Hst Hbl] Hh. destruct start_range as (Hr & Eu & _).
  unfold read_head. mstep get_log_ok. rewrite Hdev, Hst, Eu.
  destruct (bread_ok D size _ start e s Hi Hok Hr) as (b & s1 & E1 & P1); [done| |].
  { right. unfold pinned_blocks. cbn. unfold NBUF. rewrite dom_empty_L, (left_id_L ∅ _), size_empty. lia. }
  mstep E1. assert (Hbs : bv_busy (lockv start b (fresh_view (k_fs s))) !! start = Some b) by apply lookup_insert_eq.
  mstep (bdata_ok size _ start b) by (try apply P1; exact Hbs). cbn [bv_data lockv fresh_view]. rewrite Hd. mstep.
  mstep get_log_ok. rewrite <- (const_log_self s1), upd_log_const, (log_kept _ _ _ P1).
  set (lg1 := set_lg_n _ _). change (lg_n (fs_log (k_fs (const_log lg1 s1)))) with (hdr_n d).
  destruct (read_head_loop (fun i => s32 (get32 (d start) (4 + 4 * i))) e s1 (Z.to_nat (hdr_n d)) 0 lg1)
    as (lg2 & E2 & L1 & L2 & L3 & L4).
  { destruct Hh as [[? ?] _ _ _]. cbn. rewrite Hbl. unfold LOGSIZE in *. lia. }
  { intros i Hi'. lia. }
  mstep E2.
  destruct (brelse_ok size _ start b e (const_log lg2 s1) (bp_idle _ _ _ _ P1) (bio_ok_log lg2 _ _ (bp_ok _ _ _ _ P1)) Hbs
    (or_intror eq_refl)) as (s2 & E3 & P3).
  exists s2. split; [exact E3|].
  replace (unlockv start (lockv start b (fresh_view (k_fs s)))) with (fresh_view (k_fs s)) in P3.
  2:{ unfold unlockv, lockv, fresh_view. cbn. by rewrite delete_insert_id by apply lookup_empty. }
  split; [apply P3|apply P3| |done|cbn; rewrite size_empty; unfold NBUF; lia].
  rewrite (log_kept _ _ _ P3). change (fs_log (k_fs (const_log lg2 s1))) with lg2.
  apply read_head_holds; [done|by rewrite L1|by rewrite L2|by rewrite L3|exact L4].
Qed.

(** The writes of recovery. *)
Lemma home_writes_installs d : home_writes 0 d (hdr_blocks d) = installs d.
Proof.
  assert (Hgen : forall m k, home_writes k d (map (hdr_block d) (map Z.of_nat (seq k m))) =
    map (fun i => (hdr_block d i, d (start + i + 1))) (map Z.of_nat (seq k m))).
  { induction m as [|m IH]; intros k; [done|]. cbn. f_equal. apply IH. }
  apply Hgen.
Qed.

Lemma recover_ok e s d :
  rebooted s d -> hdr_ok d ->
  exists s', recover_from_log e s = Ok tt e s' /\ idle s' /\
    bio_ok size (k_fs s') (appv (finish_writes d) (fresh_view (k_fs s))).
Proof.
  intros Hrb Hh. pose proof (rb_disk _ _ Hrb) as Hd. unfold recover_from_log.
  destruct (read_head_ok e s d Hrb Hh) as (s1 & E1 & T1). mstep E1.
  destruct (install_trans_ok _ _ e s1 T1) as (s2 & E2 & P2).
  { intros i _. apply not_elem_of_empty. }
  { right. cbn. rewrite size_empty. unfold NBUF. lia. }
  mstep E2. mstep. cbn [bv_data fresh_view] in P2. rewrite Hd, home_writes_installs in P2.
  pose proof (log_turn_app _ _ _ _ _ T1 P2) as T2.
  destruct (appv_view (installs d) (fresh_view (k_fs s))) as (Eda & _ & _ & Edi & _).
  destruct (write_head_ok (appv (installs d) (fresh_view (k_fs s))) [] e (upd_log (set_lg_n 0) s2)) as (s3 & E3 & P3).
  { split; [apply T2|rewrite upd_log_fs; apply bio_ok_log, T2| |apply T2|apply T2]. destruct (lt_log _ _ _ T2).
    split; cbn; try done; [apply NoDup_nil_2|destruct G; unfold LOGSIZE; lia]. }
  { rewrite Edi. set_solver. }
  exists s3. split; [exact E3|]. split; [apply P3|].
  unfold finish_writes. rewrite appv_app. replace (d start) with (bv_data (appv (installs d) (fresh_view (k_fs s))) start).
  { apply P3. }
  rewrite Eda. cbn. rewrite Hd. rewrite <- (firstn_all (installs d)). apply home_install; [done|apply start_range].
Qed.

Lemma recover_home e s d :
  rebooted s d -> hdr_ok d ->
  exists s', recover_from_log e s = Ok tt e s' /\ fs_writes (k_fs s') = fs_writes (k_fs s) ++ finish_writes d /\
    forall n, home n -> fs_disk (k_fs s') n = replay d n.
Proof.
  intros Hrb Hh. destruct (recover_ok e s d Hrb Hh) as (s' & E & _ & Hok).
  destruct (appv_view (finish_writes d) (fresh_view (k_fs s))) as (_ & Edk & Ew & _).
  exists s'. split_and!; [done|by rewrite (bo_writes _ _ _ Hok), Ew|].
  intros n Hn. rewrite (bo_disk _ _ _ Hok), Edk. cbn. rewrite (rb_disk _ _ Hrb). by apply finish_final.
Qed.

(** ** log_write *)

(** Inside a transaction: the blocks [bs] are logged and pinned. *)
Record in_txn (s : kstate) (V : bview) (bs : list Z) : Prop := {
  tx_idle : idle s;
  tx_ok : bio_ok size (k_fs s) V;
  tx_log : log_holds (fs_log (k_fs s)) bs;
  tx_dirty : bv_dirty V = list_to_set bs;
  tx_size : lg_size (fs_log (k_fs s)) = lsz;
  tx_out : 1 <= lg_outstanding (fs_log (k_fs s));
  tx_blocks : length (lg_block (fs_log (k_fs s))) = Z.to_nat LOGSIZE
}.

Definition add_block (n : Z) (bs : list Z) : list Z := if decide (n ∈ bs) then bs else bs ++ [n].

Lemma log_block_u32 lg bs i b : log_holds lg bs -> bs !! i = Some b -> u32 (log_block lg (Z.of_nat i)) = b.
Proof.
  intros Hl Hb. rewrite (lh_block _ _ Hl i b Hb). destruct (holds_home _ _ _ _ Hl Hb) as [Hr _].
  apply u32_small. destruct G. lia.
Qed.

Lemma log_slot_found lg bs i n : log_holds lg bs -> bs !! i = Some n -> log_slot lg n = Z.of_nat i.
Proof.
  intros Hl Hi. unfold log_slot. rewrite (lh_n _ _ Hl).
  assert (Hf : find_idx (fun j => u32 (log_block lg j) =? n) (upto (Z.of_nat (length bs))) = Some i).
  { apply find_idx_Some. assert (Hlt := lookup_lt_Some _ _ _ Hi). split.
    - exists (Z.of_nat i). rewrite lookup_upto by lia. split; [done|]. rewrite (log_block_u32 _ _ _ _ Hl Hi). apply Z.eqb_refl.
    - intros j y Hj Hy. rewrite lookup_upto in Hy by lia. injection Hy as <-.
      destruct (lookup_lt_is_Some_2 bs j) as [m Hm]; [lia|]. rewrite (log_block_u32 _ _ _ _ Hl Hm).
      apply Z.eqb_neq. intros ->. pose proof (NoDup_lookup _ _ _ _ (lh_nodup _ _ Hl) Hi Hm). lia. }
  by rewrite Hf.
Qed.

Lemma log_slot_new lg bs n : log_holds lg bs -> n ∉ bs -> log_slot lg n = Z.of_nat (length bs).
Proof.
  intros Hl Hn. unfold log_slot. rewrite (lh_n _ _ Hl).
  assert (Hf : find_idx (fun j => u32 (log_block lg j) =? n) (upto (Z.of_nat (length bs))) = None).
  { apply find_idx_None. intros j y Hy. assert (Hlt := lookup_lt_Some _ _ _ Hy). rewrite upto_length in Hlt.
    rewrite lookup_upto in Hy by lia. injection Hy as <-. destruct (lookup_lt_is_Some_2 bs j) as [m Hm]; [lia|].
    rewrite (log_block_u32 _ _ _ _ Hl Hm). apply Z.eqb_neq. intros ->. apply Hn. by eapply list_elem_of_lookup_2. }
  rewrite Hf. cbn. lia.
Qed.

(** The log after [log_write] of block [n]. *)
Definition logged (n : Z) (lg : log_t) : log_t :=
  let i := log_slot lg n in
  let lg' := set_log_block i (s32 n) lg in
  if i =? lg_n lg then set_lg_n (lg_n lg' + 1) lg' else lg'.

Lemma logged_holds lg bs n :
  log_holds lg bs -> home n -> length (lg_block lg) = Z.to_nat LOGSIZE ->
  (n ∈ bs \/ Z.of_nat (length bs) < lsz - 1 /\ Z.of_nat (length bs) < LOGSIZE) ->
  log_holds (logged n lg) (add_block n bs).
Proof.
  intros Hl Hn Hlen Hroom. pose proof Hl as [L1 L2 L3 L4 L5 L6 [L7 L8]].
  assert (Es : s32 n = n) by (destruct Hn as [Hr _], G; apply s32_small; lia).
  unfold logged, add_block. case_decide as Hin.
  - apply list_elem_of_lookup_1 in Hin as [i Hi]. rewrite (log_slot_found _ _ _ _ Hl Hi), Es.
    assert (Hlt := lookup_lt_Some _ _ _ Hi). rewrite L3, (proj2 (Z.eqb_neq _ _)) by lia.
    split; try done. intros j b Hb. unfold log_block. cbn. rewrite nth_lookup, !Nat2Z.id.
    destruct (decide (i = j)) as [->|Hne].
    + rewrite list_lookup_insert_eq by (rewrite Hlen; unfold LOGSIZE in *; lia). cbn. congruence.
    + rewrite list_lookup_insert_ne by done. rewrite <- (L4 j b Hb). unfold log_block. by rewrite nth_lookup, Nat2Z.id.
  - destruct Hroom as [?|[Hr1 Hr2]]; [done|]. rewrite (log_slot_new _ _ _ Hl Hin), L3, Z.eqb_refl, Es.
    split; try done.
    + cbn. rewrite L3, length_app. cbn. lia.
    + intros j b Hb. unfold log_block. cbn. rewrite nth_lookup, !Nat2Z.id.
      destruct (decide (j = length bs)) as [->|Hne].
      * rewrite list_lookup_middle in Hb by done. injection Hb as <-.
        rewrite list_lookup_insert_eq by (rewrite Hlen; unfold LOGSIZE in *; lia). done.
      * assert (Hlt := lookup_lt_Some _ _ _ Hb). rewrite length_app in Hlt. cbn in Hlt.
        rewrite list_lookup_insert_ne by lia. rewrite lookup_app_l in Hb by lia.
        rewrite <- (L4 j b Hb). unfold log_block. by rewrite nth_lookup, Nat2Z.id.
    + apply Forall_app. split; [done|]. by apply Forall_singleton.
    + apply NoDup_app. split_and!; [done| |apply NoDup_singleton]. set_solver.
    + rewrite length_app. cbn. lia.
Qed.

Lemma rest_const_log lg s : rest (const_log lg s) = const_log lg (rest s).
Proof. by destruct s as [? ? ? ? ? ? ? ? ? ? ? ? ? ? [] ?]. Qed.

Lemma log_update n lg s :
  lg = fs_log (k_fs s) ->
  let s1 := upd_log (set_log_block (log_slot lg n) (s32 n)) s in
  (if log_slot lg n =? lg_n lg then upd_log (fun lg => set_lg_n (lg_n lg + 1) lg) s1 else s1) =
  const_log (logged n lg) s.
Proof. intros -> s1. unfold logged. by destruct (_ =? _). Qed.

Lemma log_write_ok V bs n b e s :
  in_txn s V bs -> home n -> bv_busy V !! n = Some b ->
  Z.of_nat (length bs) < lsz - 1 -> Z.of_nat (length bs) < LOGSIZE ->
  exists s', log_write b e s = Ok tt e s' /\ in_txn s' (pinv n V) (add_block n bs) /\
    fs_log (k_fs s') = logged n (fs_log (k_fs s)) /\
    rest s' = const_log (logged n (fs_log (k_fs s))) (rest s).
Proof.
  intros [[Hc Hu] Hok Hl Hdi Hsz Hout Hbl] Hn Hb Hr1 Hr2.
  destruct (locked_buf size V s n b Hok Hb) as (x & (Hlt & Hx & Hd & Hno) & _).
  unfold log_write. mstep get_log_ok. rewrite (lh_n _ _ Hl), Hsz.
  rewrite (proj2 (Z.leb_gt _ _)), (proj2 (Z.leb_gt _ _)), (proj2 (Z.ltb_ge _ _)) by lia. cbn [orb].
  mstep acquire_free by apply Hu. set (s1 := acquired Llog s). mstep get_log_ok. mstep buf_at_ok by exact Hx.
  change (fs_log (k_fs s1)) with (fs_log (k_fs s)). set (lg := fs_log (k_fs s)). rewrite Hno. mstep.
  set (s2 := upd_log _ s1).
  assert (E : when (log_slot lg n =? lg_n lg) (modify (upd_log (fun lg => set_lg_n (lg_n lg + 1) lg))) e s2 =
    Ok tt e (const_log (logged n lg) s1)).
  { rewrite <- (log_update n lg s1) by done. fold s2. unfold when. by destruct (_ =? _). }
  mstep E. unfold set_flag. mstep. set (s3 := upd_buf b _ _).
  rewrite release_held; [|change (held s1 Llog); apply held_acquired|change (cli_ok (k_cpu s1)); unfold s1; ctl|
    change (0 < c_ncli (k_cpu s1)); destruct Hc; cbn; lia].
  eexists. split; [done|]. assert (Hl' : fs_log (k_fs s3) = logged n lg) by done.
  split; [|split; [exact Hl'|]].
  - split.
    + apply (section_idle Llog s s3); [done|done|]. intros lk Hne. change (unlocked s1 lk).
      apply unlocked_acquired_ne; [done|apply Hu].
    + apply (pin_ok D size V n b (const_log (logged n lg) s1)); [|done]. by apply bio_ok_log.
    + change (log_holds (fs_log (k_fs s3)) (add_block n bs)). rewrite Hl'. apply logged_holds; auto.
    + cbn. rewrite Hdi. unfold add_block. case_decide; set_solver.
    + change (lg_size (fs_log (k_fs s3)) = lsz). rewrite Hl'. unfold logged. by destruct (_ =? _).
    + change (1 <= lg_outstanding (fs_log (k_fs s3))). rewrite Hl'. unfold logged. by destruct (_ =? _).
    + change (length (lg_block (fs_log (k_fs s3))) = Z.to_nat LOGSIZE). rewrite Hl'. unfold logged.
      destruct (_ =? _); cbn; by rewrite length_insert.
  - rewrite <- rest_const_log. apply section_rest; [done|done|]. unfold s3. by rewrite rest_upd_buf.
Qed.

End Commit.

(** ** Theorems *)

(** [recover_from_log] makes the replayed disk, and may itself be interrupted:
    wherever it stops, the header on the disk is usable and recovering again
    gives the same contents outside the log. *)
Theorem recovery_restartable D size (HD : DiskOk D size) start lsz (G : geometry start lsz size) e s d :
  rebooted size start s d -> hdr_ok start lsz size d ->
  exists s' W, recover_from_log e s = Ok tt e s' /\ fs_writes (k_fs s') = fs_writes (k_fs s) ++ W /\
    (forall n, home start lsz size n -> fs_disk (k_fs s') n = replay start d n) /\
    forall j, let d' := disk_after d (take j W) in
      hdr_ok start lsz size d' /\ forall n, home start lsz size n -> replay start d' n = replay start d n.
Proof.
  intros Hrb Hh. destruct (recover_home D size start lsz G e s d Hrb Hh) as (s' & E & Ew & Hd).
  exists s', (finish_writes start d). split_and!; [done..|]. intros j. by apply finish_prefix.
Qed.

(** C1: [commit] is atomic.  It writes the transaction's blocks to the disk, and
    if the machine stops after any number of those block writes, then
    [recover_from_log] at the next start gives, outside the log, either the
    disk from before the transaction or the disk with all of its blocks. *)
Theorem commit_atomic D size (HD : DiskOk D size) start lsz (G : geometry start lsz size) e s V bs :
  committable size start lsz s V bs -> bs <> [] ->
  hdr_n start (fs_disk (k_fs s)) = 0 ->
  exists s' W, commit e s = Ok tt e s' /\ fs_writes (k_fs s') = fs_writes (k_fs s) ++ W /\
    (forall n, home start lsz size n -> fs_disk (k_fs s') n = bv_data V n) /\
    forall j er sr, rebooted size start sr (disk_after (fs_disk (k_fs s)) (take j W)) ->
      exists s'', recover_from_log er sr = Ok tt er s'' /\
        ((forall n, home start lsz size n -> fs_disk (k_fs s'') n = fs_disk (k_fs s) n) \/
         (forall n, home start lsz size n -> fs_disk (k_fs s'') n = bv_data V n)).
Proof.
  intros Hcm Hne Hempty. pose proof Hcm as [[Hi Hok Hl Hb Hcap] Hd Hlen].
  assert (Hclean : forall n, n ∉ bv_dirty V -> bv_data V n = bv_disk V n).
  { intros n Hn. apply (co_clean _ _ _ (bo_cache _ _ _ Hok)); [done|by rewrite Hb]. }
  destruct (commit_ok D size start lsz G V bs e s Hcm Hne) as (s' & E & _ & Hok' & _).
  destruct (appv_view (commit_writes start (bv_data V) bs) V) as (_ & Edk & Ew & _).
  assert (Hpre := commit_prefix size start lsz G V bs (fs_log (k_fs s)) Hl Hd Hclean).
  assert (Hs := start_clean size start lsz G V bs (fs_log (k_fs s)) Hl Hd Hclean).
  rewrite <- (bo_disk _ _ _ Hok) in Hpre, Hs, Edk. rewrite Hs in Hlen. specialize (Hpre Hlen Hempty).
  exists s', (commit_writes start (bv_data V) bs). split_and!; [done|by rewrite (bo_writes _ _ _ Hok'), Ew, (bo_writes _ _ _ Hok)| |].
  - intros n Hn. rewrite (bo_disk _ _ _ Hok'), Edk, (bo_disk _ _ _ Hok).
    rewrite (bo_disk _ _ _ Hok) in Hlen. by eapply commit_final.
  - intros j er sr Hrb. destruct (Hpre j) as [Hh Hcase].
    destruct (recover_home D size start lsz G er sr _ Hrb Hh) as (s'' & E'' & _ & Hd'').
    exists s''. split; [done|]. destruct Hcase as [Ho|Hn]; [left|right]; intros n Hhn; rewrite Hd'' by done; auto.
Qed.

(** ** Witnesses *)

(** The log in blocks 2..31, in a transaction. *)
Definition sample_log : log_t := mkLog 2 30 1 0 1 0 (replicate 30 0).
Definition sample_boot : kstate := const_log sample_log boot.
(** Change block 50 in a transaction. *)
Definition sample_txn : M unit :=
  binit;;
  b ← @bread (@disk_memide sample_symbols) 1 50;
  set_bdata b [7];;
  log_write b;;
  brelse b.

Lemma sample_geometry : geometry 2 30 1000.
Proof. split; lia. Qed.

Lemma sample_txn_ok :
  exists s V, sample_txn [] sample_boot = Ok tt [] s /\ committable 1000 2 30 s V [50] /\
    fs_disk (k_fs s) 2 = replicate 512 0 /\ bv_data V 50 = [7].
Proof.
  set (D := @disk_memide sample_symbols). assert (HD : DiskOk D 1000) by exact (@memide_ok sample_symbols).
  unfold sample_txn. fold D.
  destruct (binit_ok 1000 [] sample_boot) as (s1 & E1 & _ & I1 & O1); [done| |].
  { intros b x _ Hx. by rewrite (boot_bufs b x Hx). }
  assert (L1 : fs_log (k_fs s1) = sample_log).
  { apply (f_equal (fun r => match r with Ok _ _ s => fs_log (k_fs s) | _ => sample_log end)) in E1. symmetry. exact E1. }
  mstep E1. assert (I1' : idle s1) by (apply I1; exact boot_idle).
  destruct (bread_ok D 1000 _ 50 [] s1 I1' O1 ltac:(lia) eq_refl) as (b & s2 & E2 & P2).
  { right. apply Nat.ltb_lt. reflexivity. }
  mstep E2. set (V := fresh_view (k_fs sample_boot)) in *.
  assert (Hb : bv_busy (lockv 50 b V) !! 50 = Some b) by apply lookup_insert_eq.
  destruct (set_bdata_ok 1000 _ 50 b [7] [] s2 (bp_idle _ _ _ _ P2) (bp_ok _ _ _ _ P2) Hb) as (s3 & E3 & P3).
  mstep E3. assert (L3 : fs_log (k_fs s3) = sample_log) by (by rewrite (log_kept _ _ _ _ P3), (log_kept _ _ _ _ P2)).
  destruct (log_write_ok D 1000 2 30 sample_geometry (setv 50 [7] (lockv 50 b V)) [] 50 b [] s3) as (s4 & E4 & T4 & L4 & _).
  { split; [apply P3|apply P3| |done|by rewrite L3|by rewrite L3|by rewrite L3].
    rewrite L3. split; try done. apply NoDup_nil_2. }
  { unfold home, in_log. lia. }
  { done. }
  { cbn. lia. }
  { cbn. unfold LOGSIZE. lia. }
  mstep E4. destruct (brelse_ok 1000 _ 50 b [] s4 (tx_idle _ _ _ _ _ _ T4) (tx_ok _ _ _ _ _ _ T4) Hb) as (s5 & E5 & P5).
  { left. cbn. set_solver. }
  exists s5. eexists. split; [exact E5|]. split; [split|].
  - split; [apply P5|apply P5| | |apply Nat.ltb_lt; reflexivity].
    + rewrite (log_kept _ _ _ _ P5). exact (tx_log _ _ _ _ _ _ T4).
    + cbn. apply delete_insert_id. done.
  - exact (tx_dirty _ _ _ _ _ _ T4).
  - done.
  - split; [|done]. by rewrite (bo_disk _ _ _ (bp_ok _ _ _ _ P5)).
Qed.

Lemma commit_atomic_witness :
  exists s s', sample_txn [] sample_boot = Ok tt [] s /\
    @commit (@disk_memide sample_symbols) [] s = Ok tt [] s' /\ fs_disk (k_fs s') 50 = [7].
Proof.
  destruct sample_txn_ok as (s & V & E & Hcm & Hs & Hv).
  destruct (commit_atomic (@disk_memide sample_symbols) 1000 (@memide_ok sample_symbols) 2 30 sample_geometry [] s V [50] Hcm)
    as (s' & W & E' & _ & Hd & _).
  - discriminate.
  - unfold hdr_n. rewrite Hs. reflexivity.
  - exists s, s'. split; [exact E|]. split; [exact E'|]. rewrite Hd; [exact Hv|]. unfold home, in_log. lia.
Defined.

Lemma recovery_restartable_witness :
  exists s s', binit [] sample_boot = Ok tt [] s /\
    @recover_from_log (@disk_memide sample_symbols) [] s = Ok tt [] s' /\ fs_disk (k_fs s') 50 = replicate 512 0.
Proof.
  destruct (binit_ok 1000 [] sample_boot) as (s1 & E1 & _ & I1 & O1); [done| |].
  { intros b x _ Hx. by rewrite (boot_bufs b x Hx). }
  assert (L1 : fs_log (k_fs s1) = sample_log).
  { apply (f_equal (fun r => match r with Ok _ _ s => fs_log (k_fs s) | _ => sample_log end)) in E1. symmetry. exact E1. }
  destruct (recovery_restartable (@disk_memide sample_symbols) 1000 (@memide_ok sample_symbols) 2 30 sample_geometry [] s1
    (fs_disk (k_fs s1))) as (s' & W & E' & _ & Hd & _).
  - pose proof (bo_disk _ _ _ O1) as Ed. pose proof (bo_writes _ _ _ O1) as Ew.
    split; [apply I1; exact boot_idle|done| |by rewrite L1..]. unfold fresh_view. rewrite Ed, Ew. exact O1.
  - apply (empty_header 1000 2 30 sample_geometry); rewrite (bo_disk _ _ _ O1); reflexivity.
  - exists s1, s'. split; [exact E1|]. split; [exact E'|].
    rewrite Hd by (unfold home, in_log; lia). rewrite (bo_disk _ _ _ O1). reflexivity.
Defined.
