(* ===== verification/Fs.v ===== *)
(** * Inodes, directories and path names (fs.c)

    An inode pointer is an index of [icache.inode].  Functions that fill a
    buffer of the caller return the bytes instead.  The device switch is a
    parameter [DevOps], since the console driver of console.c calls back into
    this file. *)

From stdpp Require Import base list gmap strings.
From S2P Require Import Prelude Memory Bytes Str Kernel KMonad Boot Mmu Spinlock Sched Ide Bio Log.

(** ** Constants (fs.h, stat.h, file.h) *)

Definition ROOTINO : Z := 1.
Definition NDIRECT : Z := 12.
Definition NINDIRECT : Z := BSIZE / 4.
Definition MAXFILE : Z := NDIRECT + NINDIRECT.
Definition IPB : Z := BSIZE / 64.
Definition BPB : Z := BSIZE * 8.
Definition DIRSIZ : Z := 14.
Definition T_DIR : Z := 1.
Definition T_FILE : Z := 2.
Definition T_DEV : Z := 3.
Definition I_BUSY : Z := 1.
Definition I_VALID : Z := 2.
(** [sizeof(struct dirent)] *)
Definition DESZ : Z := 16.

Definition IBLOCK (i : Z) (sb : superblock) : Z := u32 (i / IPB + sb_inodestart sb).
Definition BBLOCK (b : Z) (sb : superblock) : Z := u32 (b / BPB + sb_bmapstart sb).

(** What devsw[] entries do: read [n] bytes (the result and the bytes), and
    write bytes. *)
Class DevOps : Type := {
  dev_read : devfn -> nat -> Z -> M (Z * list Z);
  dev_write : devfn -> nat -> list Z -> M Z
}.

(** ** Definitions *)

Definition upd_inode (i : nat) (f : inode -> inode) (s : kstate) : kstate :=
  upd_fs (fun fs => set_fs_icache (alter f i (fs_icache fs)) fs) s.
Definition inode_at (i : nat) : M inode :=
  gets (fun s => fs_icache (k_fs s) !! i) ≫= deref "inode".
Definition get_sb : M superblock := gets (fun s => fs_sb (k_fs s)).

(** [struct dinode] at byte [o] of a block. *)
Definition put_dinode (d : list Z) (o : Z) (ip : inode) : list Z :=
  let d := put16 d o (u16 (i_type ip)) in
  let d := put16 d (o + 2) (u16 (i_major ip)) in
  let d := put16 d (o + 4) (u16 (i_minor ip)) in
  let d := put16 d (o + 6) (u16 (i_nlink ip)) in
  let d := put32 d (o + 8) (i_size ip) in
  splice d (o + 12) (concat (map le32 (i_addrs ip))).
Definition get_dinode (d : list Z) (o : Z) (ip : inode) : inode :=
  mkInode (i_dev ip) (i_inum ip) (i_ref ip) (i_flags ip)
    (s16 (get16 d o)) (s16 (get16 d (o + 2))) (s16 (get16 d (o + 4))) (s16 (get16 d (o + 6)))
    (get32 d (o + 8)) (map (fun k => get32 d (o + 12 + 4 * Z.of_nat k)) (seq 0 13)).
Definition dinode_off (inum : Z) : Z := 64 * (inum mod IPB).

(** The bits of the free map. *)
Definition bit_set (d : list Z) (bi : Z) : bool := truth (Z.land (byte_at d (bi / 8)) (Z.shiftl 1 (bi mod 8))).
Definition mark_bit (d : list Z) (bi : Z) : list Z :=
  <[Z.to_nat (bi / 8) := Z.lor (byte_at d (bi / 8)) (Z.shiftl 1 (bi mod 8))]> d.
Definition clear_bit (d : list Z) (bi : Z) : list Z :=
  <[Z.to_nat (bi / 8) := Z.ldiff (byte_at d (bi / 8)) (Z.shiftl 1 (bi mod 8))]> d.
(** The first clear bit [bi < BPB] of the block whose first bit is [b]. *)
Definition free_bit (d : list Z) (b size : Z) : option Z :=
  Z.of_nat <$> find_idx (fun bi => negb (bit_set d (Z.of_nat bi)))
    (seq 0 (Z.to_nat (Z.min BPB (size - b)))).

Definition has_flag (ip : inode) (f : Z) : bool := has (i_flags ip) f.

Section Fs.
Context `{Disk, DevOps}.

Definition bzero (dev bno : Z) : M unit :=
  bp ← bread dev bno;
  set_bdata bp (zeros BSIZE);;
  log_write bp;;
  brelse bp.

(** The loop of balloc over the blocks of the free map. *)
Fixpoint balloc_loop (n : nat) (dev b : Z) : M Z :=
  match n with
  | O => panic "balloc: out of blocks"
  | S n' =>
    sb ← get_sb;
    if b <? sb_size sb then
      bp ← bread dev (BBLOCK b sb);
      d ← bdata bp;
      sb ← get_sb;
      match free_bit d b (sb_size sb) with
      | Some bi =>
        set_bdata bp (mark_bit d bi);;
        log_write bp;;
        brelse bp;;
        bzero dev (b + bi);;
        mret (b + bi)
      | None =>
        brelse bp;;
        balloc_loop n' dev (b + BPB)
      end
    else panic "balloc: out of blocks"
  end.
Definition balloc (dev : Z) : M Z :=
  sb ← get_sb;
  balloc_loop (S (Z.to_nat (sb_size sb / BPB + 1))) dev 0.

Definition bfree (dev b : Z) : M unit :=
  sb ← readsb dev;
  modify (upd_fs (set_fs_sb sb));;
  bp ← bread dev (BBLOCK b sb);
  let bi := b mod BPB in
  d ← bdata bp;
  if negb (bit_set d bi) then panic "freeing free block" else
  set_bdata bp (clear_bit d bi);;
  log_write bp;;
  brelse bp.

(** The message that iinit prints is left out. *)
Definition iinit (dev : Z) : M unit :=
  initlock Licache "icache";;
  sb ← readsb dev;
  modify (upd_fs (set_fs_sb sb)).

Definition iget (dev inum : Z) : M nat :=
  acquire Licache;;
  c ← gets (fun s => find_idx (fun ip => (0 <? i_ref ip) && (i_dev ip =? dev) && (i_inum ip =? inum))
                       (fs_icache (k_fs s)));
  match c with
  | Some ip =>
    modify (upd_inode ip (fun x => set_i_ref (i_ref x + 1) x));;
    release Licache;;
    mret ip
  | None =>
    empty ← gets (fun s => find_idx (fun ip => i_ref ip =? 0) (fs_icache (k_fs s)));
    match empty with
    | None => panic "iget: no inodes"
    | Some ip =>
      modify (upd_inode ip (set_i_dev dev));;
      modify (upd_inode ip (set_i_inum inum));;
      modify (upd_inode ip (set_i_ref 1));;
      modify (upd_inode ip (set_i_flags 0));;
      release Licache;;
      mret ip
    end
  end.

(** The loop of ialloc over inode numbers. *)
Fixpoint ialloc_loop (n : nat) (dev type inum : Z) : M nat :=
  match n with
  | O => panic "ialloc: no inodes"
  | S n' =>
    sb ← get_sb;
    if inum <? sb_ninodes sb then
      bp ← bread dev (IBLOCK inum sb);
      d ← bdata bp;
      let o := dinode_off inum in
      if get16 d o =? 0 then
        set_bdata bp (put16 (splice d o (zeros 64)) o (u16 type));;
        log_write bp;;
        brelse bp;;
        iget dev inum
      else
        brelse bp;;
        ialloc_loop n' dev type (inum + 1)
    else panic "ialloc: no inodes"
  end.
Definition ialloc (dev type : Z) : M nat :=
  sb ← get_sb;
  ialloc_loop (S (Z.to_nat (sb_ninodes sb))) dev type 1.

Definition iupdate (i : nat) : M unit :=
  sb ← get_sb;
  ip ← inode_at i;
  bp ← bread (i_dev ip) (IBLOCK (i_inum ip) sb);
  d ← bdata bp;
  ip ← inode_at i;
  set_bdata bp (put_dinode d (dinode_off (i_inum ip)) ip);;
  log_write bp;;
  brelse bp.

Definition idup (ip : nat) : M nat :=
  acquire Licache;;
  modify (upd_inode ip (fun x => set_i_ref (i_ref x + 1) x));;
  release Licache;;
  mret ip.

(** [while(ip->flags & I_BUSY) sleep(ip, &icache.lock);] *)
Definition ilock_turn (i : nat) : M (option unit) :=
  ip ← inode_at i;
  if has_flag ip I_BUSY then sleep (Cinode i) (Some Licache);; mret None else mret (Some tt).

Definition ilock (p : option nat) : M unit :=
  match p with
  | None => panic "ilock"
  | Some i =>
    ip ← inode_at i;
    if i_ref ip <? 1 then panic "ilock" else
    acquire Licache;;
    loop (ilock_turn i);;
    modify (upd_inode i (fun x => set_i_flags (Z.lor (i_flags x) I_BUSY) x));;
    release Licache;;
    ip ← inode_at i;
    if has_flag ip I_VALID then mret tt else
    sb ← get_sb;
    bp ← bread (i_dev ip) (IBLOCK (i_inum ip) sb);
    d ← bdata bp;
    modify (upd_inode i (fun x => get_dinode d (dinode_off (i_inum x)) x));;
    brelse bp;;
    modify (upd_inode i (fun x => set_i_flags (Z.lor (i_flags x) I_VALID) x));;
    ip ← inode_at i;
    if i_type ip =? 0 then panic "ilock: no type" else mret tt
  end.

Definition iunlock (p : option nat) : M unit :=
  match p with
  | None => panic "iunlock"
  | Some i =>
    ip ← inode_at i;
    if negb (has_flag ip I_BUSY) || (i_ref ip <? 1) then panic "iunlock" else
    acquire Licache;;
    modify (upd_inode i (fun x => set_i_flags (Z.ldiff (i_flags x) I_BUSY) x));;
    wakeup (Cinode i);;
    release Licache
  end.

Definition addr_of (ip : inode) (n : Z) : Z := nth (Z.to_nat n) (i_addrs ip) 0.
Definition set_addr (n a : Z) (ip : inode) : inode :=
  set_i_addrs (<[Z.to_nat n := a]> (i_addrs ip)) ip.

Definition itrunc (i : nat) : M unit :=
  forM (upto NDIRECT) (fun k =>
    ip ← inode_at i;
    if truth (addr_of ip k) then
      bfree (i_dev ip) (addr_of ip k);;
      modify (upd_inode i (set_addr k 0))
    else mret tt);;
  ip ← inode_at i;
  (if truth (addr_of ip NDIRECT) then
     bp ← bread (i_dev ip) (addr_of ip NDIRECT);
     forM (upto NINDIRECT) (fun j =>
       d ← bdata bp;
       when (truth (get32 d (4 * j))) (bfree (i_dev ip) (get32 d (4 * j))));;
     brelse bp;;
     ip ← inode_at i;
     bfree (i_dev ip) (addr_of ip NDIRECT);;
     modify (upd_inode i (set_addr NDIRECT 0))
   else mret tt);;
  modify (upd_inode i (set_i_size 0));;
  iupdate i.

Definition iput (i : nat) : M unit :=
  acquire Licache;;
  ip ← inode_at i;
  (if (i_ref ip =? 1) && has_flag ip I_VALID && (i_nlink ip =? 0) then
     if has_flag ip I_BUSY then panic "iput busy" else
     modify (upd_inode i (fun x => set_i_flags (Z.lor (i_flags x) I_BUSY) x));;
     release Licache;;
     itrunc i;;
     modify (upd_inode i (set_i_type 0));;
     iupdate i;;
     acquire Licache;;
     modify (upd_inode i (set_i_flags 0));;
     wakeup (Cinode i)
   else mret tt);;
  modify (upd_inode i (fun x => set_i_ref (i_ref x - 1) x));;
  release Licache.

Definition iunlockput (i : nat) : M unit :=
  iunlock (Some i);;
  iput i.

Definition bmap (i : nat) (bn : Z) : M Z :=
  ip ← inode_at i;
  if bn <? NDIRECT then
    let addr := addr_of ip bn in
    if addr =? 0 then
      addr ← balloc (i_dev ip);
      modify (upd_inode i (set_addr bn addr));;
      mret addr
    else mret addr
  else
  let bn := bn - NDIRECT in
  if bn <? NINDIRECT then
    addr ← (if addr_of ip NDIRECT =? 0 then
              addr ← balloc (i_dev ip);
              modify (upd_inode i (set_addr NDIRECT addr));;
              mret addr
            else mret (addr_of ip NDIRECT));
    bp ← bread (i_dev ip) addr;
    d ← bdata bp;
    let addr := get32 d (4 * bn) in
    addr ← (if addr =? 0 then
              addr ← balloc (i_dev ip);
              d ← bdata bp;
              set_bdata bp (put32 d (4 * bn) addr);;
              log_write bp;;
              mret addr
            else mret addr);
    brelse bp;;
    mret addr
  else panic "bmap: out of range".

(** [struct stat] *)
Record stat : Type := mkStat { st_type : Z; st_dev : Z; st_ino : Z; st_nlink : Z; st_size : Z }.
Definition stati (i : nat) : M stat :=
  ip ← inode_at i;
  mret (mkStat (i_type ip) (s32 (i_dev ip)) (i_inum ip) (i_nlink ip) (i_size ip)).

(** The device of [ip->major], if there is one. *)
Definition dev_of (ip : inode) (s : kstate) : option devfn :=
  if (i_major ip <? 0) || (NDEV <=? i_major ip) then None
  else default None (fs_devsw (k_fs s) !! Z.to_nat (i_major ip)).

(** The loop of readi: [tot] bytes of [n] are read already. *)
Fixpoint readi_loop (fuel : nat) (i : nat) (tot off n : Z) : M (list Z) :=
  match fuel with
  | O => mret []
  | S fuel' =>
    if tot <? n then
      blk ← bmap i (off / BSIZE);
      ip ← inode_at i;
      bp ← bread (i_dev ip) blk;
      let m := Z.min (n - tot) (BSIZE - off mod BSIZE) in
      d ← bdata bp;
      brelse bp;;
      rest ← readi_loop fuel' i (tot + m) (off + m) n;
      mret (slice d (off mod BSIZE) m ++ rest)
    else mret []
  end.
(** Enough turns for [n] bytes: a first and a last partial block. *)
Definition io_fuel (n : Z) : nat := S (S (Z.to_nat (n / BSIZE))).

Definition readi (i : nat) (off n : Z) : M (Z * list Z) :=
  ip ← inode_at i;
  if i_type ip =? T_DEV then
    d ← gets (dev_of ip);
    match d with
    | None => mret (-1, [])
    | Some d => dev_read d i (s32 n)
    end
  else
  if (i_size ip <? off) || (u32 (off + n) <? off) then mret (-1, []) else
  let n := if i_size ip <? off + n then i_size ip - off else n in
  bs ← readi_loop (io_fuel n) i 0 off n;
  mret (s32 n, bs).

(** The loop of writei: [src] are the bytes still to be written. *)
Fixpoint writei_loop (fuel : nat) (i : nat) (tot off n : Z) (src : list Z) : M Z :=
  match fuel with
  | O => mret off
  | S fuel' =>
    if tot <? n then
      blk ← bmap i (off / BSIZE);
      ip ← inode_at i;
      bp ← bread (i_dev ip) blk;
      let m := Z.min (n - tot) (BSIZE - off mod BSIZE) in
      d ← bdata bp;
      set_bdata bp (splice d (off mod BSIZE) (take (Z.to_nat m) src));;
      log_write bp;;
      brelse bp;;
      writei_loop fuel' i (tot + m) (off + m) n (drop (Z.to_nat m) src)
    else mret off
  end.

Definition writei (i : nat) (off : Z) (src : list Z) : M Z :=
  let n := Z.of_nat (length src) in
  ip ← inode_at i;
  if i_type ip =? T_DEV then
    d ← gets (dev_of ip);
    match d with
    | None => mret (-1)
    | Some d => dev_write d i src
    end
  else
  if (i_size ip <? off) || (u32 (off + n) <? off) then mret (-1) else
  if MAXFILE * BSIZE <? off + n then mret (-1) else
  off ← writei_loop (io_fuel n) i 0 off n src;
  ip ← inode_at i;
  (if (0 <? n) && (i_size ip <? off) then
     modify (upd_inode i (set_i_size off));;
     iupdate i
   else mret tt);;
  mret (s32 n).

Definition namecmp (s t : list Z) : Z := Str.strncmp s t (Z.to_nat DIRSIZ).

(** [struct dirent]: the inode number, then the name. *)
Definition de_inum (de : list Z) : Z := get16 de 0.
Definition de_name (de : list Z) : list Z := drop 2 de.

(** The loop of dirlookup. *)
Fixpoint dirlookup_loop (fuel : nat) (dp : nat) (name : list Z) (off : Z) : M (option (nat * Z)) :=
  match fuel with
  | O => mret None
  | S fuel' =>
    ip ← inode_at dp;
    if off <? i_size ip then
      r ← readi dp off DESZ;
      if negb (r.1 =? DESZ) then panic "dirlink read" else
      let de := r.2 in
      if negb (de_inum de =? 0) && (namecmp name (de_name de) =? 0) then
        ip ← inode_at dp;
        c ← iget (i_dev ip) (de_inum de);
        mret (Some (c, off))
      else dirlookup_loop fuel' dp name (u32 (off + DESZ))
    else mret None
  end.
(** The inode and the offset of the entry. *)
Definition dirlookup (dp : nat) (name : list Z) : M (option (nat * Z)) :=
  ip ← inode_at dp;
  if negb (i_type ip =? T_DIR) then panic "dirlookup not DIR" else
  dirlookup_loop (S (Z.to_nat (i_size ip / DESZ + 1))) dp name 0.

(** The offset of the first empty entry, or the end of the directory. *)
Fixpoint dirlink_loop (fuel : nat) (dp : nat) (off : Z) : M Z :=
  match fuel with
  | O => mret off
  | S fuel' =>
    ip ← inode_at dp;
    if off <? i_size ip then
      r ← readi dp off DESZ;
      if negb (r.1 =? DESZ) then panic "dirlink read" else
      if de_inum r.2 =? 0 then mret off else dirlink_loop fuel' dp (off + DESZ)
    else mret off
  end.
Definition dirlink (dp : nat) (name : list Z) (inum : Z) : M Z :=
  f ← dirlookup dp name;
  match f with
  | Some (ip, _) => iput ip;; mret (-1)
  | None =>
    ip ← inode_at dp;
    off ← dirlink_loop (S (Z.to_nat (i_size ip / DESZ + 1))) dp 0;
    r ← writei dp off (le16 inum ++ Str.strncpy name (Z.to_nat DIRSIZ));
    if negb (r =? DESZ) then panic "dirlink" else mret 0
  end.

(** ** Path names *)

Definition SLASH : Z := 47.

(** [while( *path == '/') path++;] and [while( *path != '/' && *path != 0)]. *)
Fixpoint skip_slashes (path : list Z) : list Z :=
  match path with
  | c :: p' => if c =? SLASH then skip_slashes p' else path
  | [] => []
  end.
Fixpoint split_elem (path : list Z) : list Z * list Z :=
  match path with
  | c :: p' => if (c =? SLASH) || (c =? 0) then ([], path) else
               let '(a, b) := split_elem p' in (c :: a, b)
  | [] => ([], [])
  end.
(** The next element, copied into [name], and the rest of the path. *)
Definition skipelem (path name : list Z) : option (list Z * list Z) :=
  let path := skip_slashes path in
  if Str.chr path =? 0 then None else
  let '(s, path) := split_elem path in
  let len := Z.of_nat (length s) in
  let name := if DIRSIZ <=? len then splice name 0 (take (Z.to_nat DIRSIZ) s)
              else splice name 0 (s ++ [0]) in
  Some (skip_slashes path, name).

(** The loop of namex. *)
Fixpoint namex_loop (fuel : nat) (ip : nat) (path : list Z) (nameiparent : bool) (name : list Z)
  : M (option nat * list Z) :=
  match fuel with
  | O => mret (None, name)
  | S fuel' =>
    match skipelem path name with
    | None => if nameiparent then iput ip;; mret (None, name) else mret (Some ip, name)
    | Some (path, name) =>
      ilock (Some ip);;
      x ← inode_at ip;
      if negb (i_type x =? T_DIR) then iunlockput ip;; mret (None, name) else
      if nameiparent && (Str.chr path =? 0) then iunlock (Some ip);; mret (Some ip, name) else
      next ← dirlookup ip name;
      match next with
      | None => iunlockput ip;; mret (None, name)
      | Some (next, _) => iunlockput ip;; namex_loop fuel' next path nameiparent name
      end
    end
  end.
Definition namex (path : list Z) (nameiparent : bool) (name : list Z) : M (option nat * list Z) :=
  ip ← (if Str.chr path =? SLASH then iget ROOTDEV ROOTINO
        else i ← curproc; p ← proc_at i; cwd ← deref "cwd" (p_cwd p); idup cwd);
  namex_loop (S (length path)) ip path nameiparent name.

Definition namei (path : list Z) : M (option nat) :=
  r ← namex path false (zeros DIRSIZ);
  mret r.1.
Definition nameiparent (path name : list Z) : M (option nat * list Z) := namex path true name.

End Fs.
