(* ===== verification/FsBlocks.v ===== *)
(** * Blocks inside a transaction; the free map (fs.c)

    A file system operation runs inside a transaction of log.c.  [txn]
    describes the disk as such an operation sees it: the contents of every
    block, the blocks logged so far and the buffers it has locked.  On top of
    it: [bzero], [balloc] and [bfree] as operations on the free map. *)

From stdpp Require Import base list gmap strings fin_maps.
From S2P Require Import Prelude Memory Bytes Str Kernel KMonad Boot Mmu Spinlock Sched Ide Ring Bio BioSpec Log LogSpec Fs.

Lemma byte_at_zeros n k : byte_at (replicate n 0) k = 0.
Proof.
  unfold byte_at. rewrite nth_lookup. destruct (replicate n 0 !! Z.to_nat k) eqn:E; [|done]. by apply lookup_replicate in E as [-> _].
Qed.

Section FsBlocks.
Context (D : Disk) (size : Z) {HD : DiskOk D size}.
Context (start lsz : Z) (G : geometry start lsz size).

(** ** Blocks *)

(** Blocks [d], the logged blocks [bs] and the locked blocks [B]; a locked
    block is logged or as it is on the disk. *)
Definition txn (s : kstate) (d : Z -> list Z) (bs : list Z) (B : gmap Z nat) : Prop :=
  exists V, in_txn size start lsz s V bs /\ bv_data V = d /\ bv_busy V = B /\
    forall n, is_Some (B !! n) -> n ∈ bs \/ d n = bv_disk V n.

(** What file system operations leave alone but for the inode cache: everything
    but buffers, disk and log. *)
Definition fsrest (s : kstate) : kstate := const_log (mkLog 0 0 0 0 0 0 []) (rest s).

(** Room for [k] more blocks in the log and in the cache. *)
Definition roomy (bs : list Z) (k : Z) : Prop :=
  Z.of_nat (length bs) + k <= lsz - 1 /\ Z.of_nat (length bs) + k <= Z.of_nat NBUF - 2.

Lemma fsrest_rest s s' : rest s' = rest s -> fsrest s' = fsrest s.
Proof. unfold fsrest. by intros ->. Qed.

Lemma fsrest_log s s' lg : rest s' = const_log lg (rest s) -> fsrest s' = fsrest s.
Proof. unfold fsrest. by intros ->. Qed.

Lemma fsrest_fs s s' :
  fsrest s' = fsrest s ->
  fs_sb (k_fs s') = fs_sb (k_fs s) /\ fs_icache (k_fs s') = fs_icache (k_fs s) /\
  fs_devsw (k_fs s') = fs_devsw (k_fs s).
Proof.
  intros E. apply (f_equal k_fs) in E.
  split_and!; [apply (f_equal fs_sb) in E|apply (f_equal fs_icache) in E|apply (f_equal fs_devsw) in E]; exact E.
Qed.

Lemma roomy_add n bs k : roomy bs (k + 1) -> roomy (add_block n bs) k.
Proof.
  unfold roomy, add_block. case_decide; [lia|]. rewrite length_app. simpl. lia.
Qed.

Lemma roomy_le bs k k' : roomy bs k -> k' <= k -> roomy bs k'.
Proof. unfold roomy. lia. Qed.

Lemma pinned_size s V bs : in_txn size start lsz s V bs ->
  (base.size (pinned_blocks V) <= length bs + base.size (bv_busy V))%nat.
Proof.
  intros Ht. unfold pinned_blocks. rewrite (tx_dirty _ _ _ _ _ _ Ht), size_union_alt.
  rewrite size_list_to_set by apply (lh_nodup _ _ _ _ _ (tx_log _ _ _ _ _ _ Ht)).
  apply Nat.add_le_mono_l. rewrite <- (size_dom (D := gset Z)). apply subseteq_size. set_solver.
Qed.

(** A block operation keeps the transaction. *)
Lemma txn_post s s' V V' bs :
  in_txn size start lsz s V bs -> bpost size s s' V' -> bv_dirty V' = bv_dirty V -> in_txn size start lsz s' V' bs.
Proof.
  intros [Hi Ho Hl Hd Hs Hout Hb] P E. pose proof (log_kept size s s' V' P) as El.
  split; rewrite ?El; try done; [apply P|apply P|by rewrite E].
Qed.

Lemma txn_bread s d bs B n e :
  txn s d bs B -> 0 <= n < size -> B !! n = None -> (length bs + base.size B < NBUF)%nat ->
  exists b s', bread 1 n e s = Ok b e s' /\ txn s' d bs (<[n := b]> B) /\ fsrest s' = fsrest s.
Proof.
  intros (V & Ht & <- & <- & Hsync) Hn HB Hcap.
  destruct (bread_ok D size V n e s) as (b & s' & E & P); [apply Ht|apply Ht|done|done| |].
  { right. eapply Nat.le_lt_trans; [by eapply pinned_size|done]. }
  exists b, s'. split; [done|]. split; [|by apply fsrest_rest, P].
  exists (lockv n b V). split_and!; [by eapply txn_post|done|done|].
  intros m [c Hm]. cbn in Hm |- *. destruct (Z.eq_dec m n) as [->|Hne].
  - destruct (decide (n ∈ bs)) as [|Hnb]; [by left|right].
    apply (co_clean _ _ _ (bo_cache _ _ _ (tx_ok _ _ _ _ _ _ Ht))); [|done].
    rewrite (tx_dirty _ _ _ _ _ _ Ht). by rewrite elem_of_list_to_set.
  - rewrite lookup_insert_ne in Hm by done. apply Hsync. by eexists.
Qed.

Lemma txn_bdata s d bs B n b e : txn s d bs B -> B !! n = Some b -> bdata b e s = Ok (d n) e s.
Proof. intros (V & Ht & <- & <- & _) HB. apply (bdata_ok size V n b); [apply Ht|done]. Qed.

(** [set_bdata] and [log_write]. *)
Lemma txn_update s d bs B n b x e :
  txn s d bs B -> B !! n = Some b -> home start lsz size n -> roomy bs 1 ->
  exists s1 s', set_bdata b x e s = Ok tt e s1 /\ log_write b e s1 = Ok tt e s' /\
    txn s' (zset d n x) (add_block n bs) B /\ fsrest s' = fsrest s.
Proof.
  intros (V & Ht & <- & <- & Hsync) HB Hh [Hr1 Hr2].
  destruct (set_bdata_ok size V n b x e s) as (s1 & E1 & P1); [apply Ht|apply Ht|done|].
  assert (T1 : in_txn size start lsz s1 (setv n x V) bs) by (by eapply txn_post).
  destruct (log_write_ok D size start lsz G (setv n x V) bs n b e s1 T1 Hh HB) as (s2 & E2 & T2 & El & Er);
    [lia|unfold LOGSIZE, NBUF in *; lia|].
  exists s1, s2. split; [done|]. split; [done|]. split.
  - exists (pinv n (setv n x V)). split_and!; [done..|]. intros m Hm. cbn.
    destruct (Z.eq_dec m n) as [->|Hne].
    + left. unfold add_block. case_decide; set_solver.
    + rewrite zset_ne by done. destruct (Hsync m Hm) as [?|?]; [left|by right].
      unfold add_block. case_decide; set_solver.
  - rewrite (fsrest_log _ _ _ Er). by apply fsrest_rest, P1.
Qed.

Lemma txn_brelse s d bs B n b e :
  txn s d bs B -> B !! n = Some b ->
  exists s', brelse b e s = Ok tt e s' /\ txn s' d bs (delete n B) /\ fsrest s' = fsrest s.
Proof.
  intros (V & Ht & <- & <- & Hsync) HB.
  destruct (brelse_ok size V n b e s) as (s' & E & P); [apply Ht|apply Ht|done| |].
  { rewrite (tx_dirty _ _ _ _ _ _ Ht), elem_of_list_to_set. apply Hsync. by eexists. }
  exists s'. split; [done|]. split; [|by apply fsrest_rest, P].
  exists (unlockv n V). split_and!; [by eapply txn_post|done|done|].
  intros m [c Hm]. cbn in Hm |- *. apply lookup_delete_Some in Hm as [_ Hm]. apply Hsync. by eexists.
Qed.

Lemma home_range n : home start lsz size n -> 0 <= n < size.
Proof. by intros [? _]. Qed.

(** [bread], [set_bdata], [log_write] and [brelse] in one. *)
Lemma bzero_ok s d bs B n e :
  txn s d bs B -> B !! n = None -> home start lsz size n -> roomy bs 1 -> (base.size B <= 1)%nat ->
  exists s', bzero 1 n e s = Ok tt e s' /\ txn s' (zset d n (zeros BSIZE)) (add_block n bs) B /\
    fsrest s' = fsrest s.
Proof.
  intros Ht HB Hh Hr Hsz. unfold bzero.
  destruct (txn_bread s d bs B n e Ht (home_range n Hh) HB) as (b & s1 & E1 & T1 & F1).
  { unfold roomy, NBUF in *. lia. }
  mstep E1. assert (Hb : <[n := b]> B !! n = Some b) by apply lookup_insert_eq.
  destruct (txn_update s1 d bs _ n b (zeros BSIZE) e T1 Hb Hh Hr) as (s1' & s2 & E1' & E2 & T2 & F2). mstep E1'. mstep E2.
  destruct (txn_brelse s2 _ _ _ n b e T2 Hb) as (s3 & E3 & T3 & F3). exists s3. split; [done|].
  rewrite delete_insert_id in T3 by done. split; [done|congruence].
Qed.


(** ** The free map *)

Lemma bit_set_testbit d bi : 0 <= bi -> bit_set d bi = Z.testbit (byte_at d (bi / 8)) (bi mod 8).
Proof.
  intros Hb. unfold bit_set. pose proof (Z.mod_pos_bound bi 8 ltac:(lia)). rewrite Z.shiftl_1_l, land_pow2 by lia.
  pose proof (Z.pow_pos_nonneg 2 (bi mod 8) ltac:(lia) ltac:(lia)).
  destruct (Z.testbit _ _); [apply truth_true; lia|reflexivity].
Qed.

Lemma byte_at_insert d k v j :
  0 <= k < Z.of_nat (length d) -> 0 <= j -> byte_at (<[Z.to_nat k := v]> d) j = if j =? k then v else byte_at d j.
Proof.
  intros Hk Hj. unfold byte_at. rewrite !nth_lookup. zcase.
  - subst. by rewrite list_lookup_insert_eq by lia.
  - by rewrite list_lookup_insert_ne by lia.
Qed.

Lemma bit_pos bi bj : 0 <= bi -> 0 <= bj -> bi / 8 = bj / 8 -> bi mod 8 = bj mod 8 -> bi = bj.
Proof. intros. rewrite (Z.div_mod bi 8), (Z.div_mod bj 8) by lia. congruence. Qed.

(** Marking or clearing one bit leaves the others. *)
Lemma bit_set_mark d bi bj :
  0 <= bi < 8 * Z.of_nat (length d) -> 0 <= bj -> bit_set (mark_bit d bi) bj = (bj =? bi) || bit_set d bj.
Proof.
  intros Hi Hj. unfold mark_bit. rewrite !bit_set_testbit by lia.
  rewrite byte_at_insert by (Z.div_mod_to_equations; lia).
  pose proof (Z.mod_pos_bound bi 8 ltac:(lia)). pose proof (Z.mod_pos_bound bj 8 ltac:(lia)).
  destruct (Z.eqb_spec (bj / 8) (bi / 8)) as [E|E].
  - rewrite Z.lor_spec, Z.shiftl_1_l, Z.pow2_bits_eqb by lia. rewrite E, orb_comm. f_equal.
    apply Bool.eq_true_iff_eq. rewrite !Z.eqb_eq. split; [|congruence]. intros. apply bit_pos; (lia || congruence).
  - rewrite (proj2 (Z.eqb_neq bj bi)) by congruence. done.
Qed.

Lemma bit_set_clear d bi bj :
  0 <= bi < 8 * Z.of_nat (length d) -> 0 <= bj -> bit_set (clear_bit d bi) bj = negb (bj =? bi) && bit_set d bj.
Proof.
  intros Hi Hj. unfold clear_bit. rewrite !bit_set_testbit by lia.
  rewrite byte_at_insert by (Z.div_mod_to_equations; lia).
  pose proof (Z.mod_pos_bound bi 8 ltac:(lia)). pose proof (Z.mod_pos_bound bj 8 ltac:(lia)).
  destruct (Z.eqb_spec (bj / 8) (bi / 8)) as [E|E].
  - rewrite Z.ldiff_spec, Z.shiftl_1_l, Z.pow2_bits_eqb by lia. rewrite E, andb_comm. do 2 f_equal.
    apply Bool.eq_true_iff_eq. rewrite !Z.eqb_eq. split; [|congruence]. intros. apply bit_pos; (lia || congruence).
  - rewrite (proj2 (Z.eqb_neq bj bi)) by congruence. done.
Qed.

Context (sb : superblock) (data : Z).

(** The layout that mkfs makes: boot block and super block, log, inodes, free
    map, and from [data] on the blocks of files. *)
Record fs_geom : Prop := {
  fg_size : sb_size sb = size;
  fg_start : 2 <= start;
  fg_log : start + lsz <= sb_inodestart sb;
  fg_inodes : 0 <= sb_ninodes sb /\ sb_inodestart sb + sb_ninodes sb / IPB + 1 <= sb_bmapstart sb;
  fg_bmap : sb_bmapstart sb + size / BPB + 1 <= data;
  fg_data : data <= size
}.
Hypothesis FG : fs_geom.

Definition map_block (b : Z) : Z := sb_bmapstart sb + b / BPB.
Definition used (d : Z -> list Z) (b : Z) : bool := bit_set (d (map_block b)) (b mod BPB).

(** The contents of a disk: whole blocks, and the blocks of the system are not
    free. *)
Record disk_ok (d : Z -> list Z) : Prop := {
  dk_len : forall n, 0 <= n < size -> length (d n) = Z.to_nat BSIZE;
  dk_meta : forall b, 0 <= b < data -> used d b = true;
  dk_sb : decode_sb (d 1) = sb
}.

Definition take_block (b : Z) (d : Z -> list Z) : Z -> list Z :=
  zset (zset d (map_block b) (mark_bit (d (map_block b)) (b mod BPB))) b (zeros BSIZE).
Definition give_block (b : Z) (d : Z -> list Z) : Z -> list Z :=
  zset d (map_block b) (clear_bit (d (map_block b)) (b mod BPB)).

Lemma map_block_bounds b : 0 <= b < size -> sb_bmapstart sb <= map_block b < data.
Proof.
  intros Hb. pose proof (fg_bmap FG). unfold map_block. pose proof (Z.div_le_mono b size BPB ltac:(done) ltac:(lia)).
  pose proof (Z.div_pos b BPB ltac:(lia) ltac:(done)). lia.
Qed.

Lemma meta_home n : start + lsz <= n < size -> home start lsz size n.
Proof. intros Hn. destruct G. split; [lia|]. unfold in_log. lia. Qed.

Lemma map_block_home b : 0 <= b < size -> home start lsz size (map_block b).
Proof.
  intros Hb. apply meta_home. pose proof (map_block_bounds b Hb). destruct FG. pose proof (Z.div_pos (sb_ninodes sb) IPB).
  unfold IPB, BSIZE in *. change (512 / 64) with 8 in *. lia.
Qed.

Lemma BBLOCK_eq b : 0 <= b < size -> BBLOCK b sb = map_block b.
Proof.
  intros Hb. unfold BBLOCK. fold (map_block b). rewrite Z.add_comm. apply u32_small.
  pose proof (home_range _ (map_block_home b Hb)). destruct G. lia.
Qed.

Lemma used_data d b : disk_ok d -> 0 <= b < size -> used d b = false -> data <= b.
Proof. intros Hd Hb Hu. destruct (Z_lt_le_dec b data); [|done]. by rewrite (dk_meta d Hd) in Hu by lia. Qed.

Lemma data_home n : data <= n < size -> home start lsz size n.
Proof.
  intros Hn. apply meta_home. destruct FG, G. pose proof (Z.div_pos (sb_ninodes sb) IPB ltac:(lia) ltac:(done)).
  pose proof (Z.div_pos size BPB ltac:(lia) ltac:(done)). lia.
Qed.

Lemma map_block_range b : 0 <= b < size -> 0 <= map_block b < size.
Proof. intros Hb. by apply home_range, map_block_home. Qed.

Lemma data_range b : data <= b < size -> 0 <= b < size.
Proof. intros Hb. by apply home_range, data_home. Qed.

Lemma mod_BPB b : 0 <= b mod BPB < 8 * Z.of_nat (Z.to_nat BSIZE).
Proof. apply (Z.mod_pos_bound b BPB). done. Qed.

Lemma map_block_pos b c : 0 <= b -> 0 <= c -> map_block b = map_block c -> b mod BPB = c mod BPB -> b = c.
Proof.
  intros Hb Hc E1 E2. unfold map_block in E1. rewrite (Z.div_mod b BPB), (Z.div_mod c BPB) by done. lia.
Qed.

Lemma used_take d b c :
  disk_ok d -> data <= b < size -> 0 <= c < size -> used (take_block b d) c = (c =? b) || used d c.
Proof.
  intros Hd Hb Hc. pose proof (data_range b Hb) as Hb'.
  pose proof (map_block_bounds b Hb'). pose proof (map_block_bounds c Hc).
  unfold used, take_block. rewrite zset_ne by lia. unfold zset. zcase.
  - rewrite bit_set_mark; [|rewrite (dk_len d Hd) by (by apply map_block_range); apply mod_BPB|apply mod_BPB]. rewrite <- e. f_equal.
    apply Bool.eq_true_iff_eq. rewrite !Z.eqb_eq. split; [|by intros ->]. intros. apply map_block_pos; lia.
  - rewrite (proj2 (Z.eqb_neq c b)) by congruence. done.
Qed.

Lemma used_give d b c :
  disk_ok d -> 0 <= b < size -> 0 <= c < size -> used (give_block b d) c = negb (c =? b) && used d c.
Proof.
  intros Hd Hb Hc.
  unfold used, give_block, zset. zcase.
  - rewrite bit_set_clear; [|rewrite (dk_len d Hd) by (by apply map_block_range); apply mod_BPB|apply mod_BPB]. rewrite <- e. do 2 f_equal.
    apply Bool.eq_true_iff_eq. rewrite !Z.eqb_eq. split; [|by intros ->]. intros. apply map_block_pos; lia.
  - rewrite (proj2 (Z.eqb_neq c b)) by congruence. done.
Qed.

(** Only blocks of files are locked while [balloc] and [bfree] run. *)
Record locked_ok (d : Z -> list Z) (B : gmap Z nat) : Prop := {
  lk_one : (base.size B <= 1)%nat;
  lk_used : forall n, is_Some (B !! n) -> data <= n < size /\ used d n = true
}.

Lemma locked_map d B b : locked_ok d B -> 0 <= b < size -> B !! map_block b = None.
Proof.
  intros HB Hb. apply eq_None_not_Some. intros Hs. apply (lk_used d B HB) in Hs as [Hs _].
  pose proof (map_block_bounds b Hb). lia.
Qed.

Lemma locked_free d B b : locked_ok d B -> used d b = false -> B !! b = None.
Proof. intros HB Hu. apply eq_None_not_Some. intros Hs. apply (lk_used d B HB) in Hs as [_ Hs]. congruence. Qed.

Lemma free_bit_Some dd b bi :
  free_bit dd b size = Some bi -> 0 <= bi < Z.min BPB (size - b) /\ bit_set dd bi = false /\
    forall j, 0 <= j < bi -> bit_set dd j = true.
Proof.
  unfold free_bit. intros (k & Hk & ->)%fmap_Some. apply find_idx_Some in Hk as ((x & Hx & Hp) & Hlt).
  apply lookup_seq in Hx as [-> Hk]. simpl in Hp. apply negb_true_iff in Hp. simpl in Hk.
  split; [lia|]. split; [done|]. intros j Hj.
  specialize (Hlt (Z.to_nat j) (Z.to_nat j) ltac:(lia)). rewrite Z2Nat.id in Hlt by lia.
  apply negb_false_iff, Hlt. apply lookup_seq. split; lia.
Qed.

Lemma free_bit_None dd b :
  free_bit dd b size = None -> forall j, 0 <= j < Z.min BPB (size - b) -> bit_set dd j = true.
Proof.
  unfold free_bit. intros Hn%fmap_None j Hj. rewrite find_idx_None in Hn.
  specialize (Hn (Z.to_nat j) (Z.to_nat j)). rewrite Z2Nat.id in Hn by lia.
  apply negb_false_iff, Hn, lookup_seq. split; lia.
Qed.

(** Room for a block of the map and for one more. *)
Definition balloc_room (bs : list Z) : Prop :=
  roomy bs 1 /\ forall b, 0 <= b < size -> roomy (add_block (map_block b) bs) 1.

Lemma get_sb_ok s e : fs_sb (k_fs s) = sb -> get_sb e s = Ok sb e s.
Proof. intros E. unfold get_sb. by rewrite gets_ok, E. Qed.

Lemma fsrest_sb s s' : fsrest s' = fsrest s -> fs_sb (k_fs s) = sb -> fs_sb (k_fs s') = sb.
Proof. intros (E & _)%fsrest_fs H. congruence. Qed.

(** The bits of one block of the map. *)
Lemma map_block_row b j : b mod BPB = 0 -> 0 <= j < BPB -> map_block (b + j) = map_block b /\ (b + j) mod BPB = j.
Proof.
  intros Hb Hj. unfold map_block, BPB, BSIZE in *. change (512 * 8) with 4096 in *.
  Z.div_mod_to_equations. lia.
Qed.

Lemma balloc_take s d bs B b bi e :
  txn s d bs B -> disk_ok d -> fs_sb (k_fs s) = sb -> locked_ok d B -> balloc_room bs ->
  b mod BPB = 0 -> 0 <= bi < BPB -> 0 <= b -> b + bi < size -> used d (b + bi) = false ->
  exists s', (bp ← bread 1 (BBLOCK b sb);
     set_bdata bp (mark_bit (d (map_block b)) bi);;
     log_write bp;;
     brelse bp;;
     bzero 1 (b + bi);;
     mret (b + bi)) e s = Ok (b + bi) e s' /\
    txn s' (take_block (b + bi) d) (add_block (b + bi) (add_block (map_block (b + bi)) bs)) B /\
    fsrest s' = fsrest s.
Proof.
  intros Ht Hd Hsb HB Hr Hb Hbi H0 Hlt Hu. destruct (map_block_row b bi Hb Hbi) as [Em Emod].
  assert (Hbr : 0 <= b < size) by lia. rewrite (BBLOCK_eq b Hbr).
  destruct (txn_bread s d bs B (map_block b) e Ht) as (bp & s1 & E1 & T1 & F1);
    [by apply map_block_range|by eapply locked_map| |].
  { destruct HB, Hr as [[_ ?] _]. unfold NBUF in *. lia. }
  mstep E1. set (x := mark_bit _ _). assert (HBb : <[map_block b := bp]> B !! map_block b = Some bp) by apply lookup_insert_eq.
  destruct (txn_update s1 d bs _ (map_block b) bp x e T1 HBb (map_block_home b Hbr)) as (s1' & s2 & E1' & E2 & T2 & F2);
    [apply Hr|].
  mstep E1'. mstep E2. destruct (txn_brelse s2 _ _ _ _ bp e T2 HBb) as (s3 & E3 & T3 & F3). mstep E3.
  rewrite delete_insert_id in T3 by (by eapply locked_map).
  destruct (bzero_ok s3 _ _ B (b + bi) e T3) as (s4 & E4 & T4 & F4).
  - by eapply locked_free.
  - apply data_home. split; [|done]. apply (used_data d); [done|lia|done].
  - by apply Hr.
  - apply HB.
  - mstep E4. exists s4. split; [done|]. split; [|congruence]. unfold take_block. by rewrite Em, Emod.
Qed.

Lemma balloc_loop_ok n : forall b e s d bs B,
  txn s d bs B -> disk_ok d -> fs_sb (k_fs s) = sb -> locked_ok d B -> balloc_room bs ->
  b mod BPB = 0 -> 0 <= b -> size <= b + Z.of_nat n * BPB ->
  (exists x s', balloc_loop n 1 b e s = Ok x e s' /\ b <= x < size /\ used d x = false /\
     (forall y, b <= y < x -> used d y = true) /\
     txn s' (take_block x d) (add_block x (add_block (map_block x) bs)) B /\ fsrest s' = fsrest s) \/
  (exists s', balloc_loop n 1 b e s = Panic "balloc: out of blocks" s' /\ forall y, b <= y < size -> used d y = true).
Proof.
  induction n as [|n IH]; intros b e s d bs B Ht Hd Hsb HB Hr Hb H0 Hn; cbn [balloc_loop].
  { right. exists s. split; [done|]. intros y Hy. lia. }
  mstep get_sb_ok by done. rewrite (fg_size FG). destruct (Z.ltb_spec b size) as [Hlt|Hge].
  2: { right. exists s. split; [done|]. intros y Hy. lia. }
  destruct (txn_bread s d bs B (map_block b) e Ht) as (bp & s1 & E1 & T1 & F1);
    [by apply map_block_range|by eapply locked_map| |].
  { destruct HB, Hr as [[_ ?] _]. unfold NBUF in *. lia. }
  assert (HBb : <[map_block b := bp]> B !! map_block b = Some bp) by apply lookup_insert_eq.
  destruct (free_bit (d (map_block b)) b size) as [bi|] eqn:Ef.
  - apply free_bit_Some in Ef as Hbit. destruct Hbit as (Hbi & Hclr & Hfst). destruct (map_block_row b bi Hb ltac:(lia)) as [Em Emod].
    assert (Hu : used d (b + bi) = false) by (unfold used; by rewrite Em, Emod).
    destruct (balloc_take s d bs B b bi e Ht Hd Hsb HB Hr Hb) as (s' & E & T & F); [lia|lia|lia|done|].
    left. exists (b + bi), s'. rewrite (BBLOCK_eq b) in E |- * by lia. mstep E1. unfold mbind in E at 1. unfold M_bind in E at 1. rewrite E1 in E.
    mstep (txn_bdata s1 d bs _ (map_block b) bp e T1 HBb). mstep get_sb_ok by (by eapply fsrest_sb).
    rewrite (fg_size FG), Ef. split; [exact E|]. split_and!; [lia|lia|done| |done|done].
    intros y Hy. destruct (map_block_row b (y - b) Hb ltac:(lia)) as [Ey Eymod].
    unfold used. replace y with (b + (y - b)) by lia. rewrite Ey, Eymod. apply Hfst. lia.
  - rewrite (BBLOCK_eq b) by lia. mstep E1. mstep (txn_bdata s1 d bs _ (map_block b) bp e T1 HBb).
    mstep get_sb_ok by (by eapply fsrest_sb). rewrite (fg_size FG), Ef.
    destruct (txn_brelse s1 _ _ _ _ bp e T1 HBb) as (s2 & E2 & T2 & F2). mstep E2.
    rewrite delete_insert_id in T2 by (by eapply locked_map).
    assert (Hrow : forall y, b <= y < Z.min (b + BPB) size -> used d y = true).
    { intros y Hy. destruct (map_block_row b (y - b) Hb ltac:(lia)) as [Ey Eymod].
      unfold used. replace y with (b + (y - b)) by lia. rewrite Ey, Eymod. apply (free_bit_None _ _ Ef). lia. }
    destruct (IH (b + BPB) e s2 d bs B T2 Hd) as [(x & s' & E & Hx & Hu & Hall & T & F)|(s' & E & Hall)]; try done.
    + eapply fsrest_sb; [|exact Hsb]. congruence.
    + by rewrite <- (Z.mod_add b 1 BPB) in Hb.
    + unfold BPB, BSIZE in *. lia.
    + unfold BPB, BSIZE in *. lia.
    + left. exists x, s'. assert (b <= b + BPB) by (unfold BPB, BSIZE; lia). split_and!; try done; try lia; [|congruence].
      intros y Hy. destruct (Z_lt_le_dec y (b + BPB)); [apply Hrow|apply Hall]; lia.
    + right. exists s'. split; [done|]. intros y Hy. destruct (Z_lt_le_dec y (b + BPB)); [apply Hrow|apply Hall]; lia.
Qed.

Lemma block_one : 0 <= 1 < sb_bmapstart sb.
Proof. destruct FG, G. pose proof (Z.div_pos (sb_ninodes sb) IPB ltac:(lia) ltac:(done)). lia. Qed.

Lemma take_other b d n : n <> b -> n <> map_block b -> take_block b d n = d n.
Proof. intros. unfold take_block. by rewrite !zset_ne. Qed.

Lemma take_block_ok d b : disk_ok d -> data <= b < size -> used d b = false -> disk_ok (take_block b d).
Proof.
  intros Hd Hb Hu. pose proof (data_range b Hb) as Hb'. pose proof (map_block_bounds b Hb') as Hm. pose proof block_one.
  split.
  - intros n Hn. unfold take_block, zset. zcase; [unfold zeros; by rewrite length_replicate|]. zcase; [|by apply Hd].
    unfold mark_bit. rewrite length_insert. apply Hd. by apply map_block_range.
  - intros c Hc. destruct FG. rewrite used_take by (done || lia). by rewrite (dk_meta d Hd), orb_true_r.
  - rewrite take_other by lia. apply Hd.
Qed.

Lemma give_block_ok d b : disk_ok d -> data <= b < size -> disk_ok (give_block b d).
Proof.
  intros Hd Hb. pose proof (data_range b Hb) as Hb'. pose proof (map_block_bounds b Hb') as Hm. pose proof block_one.
  split.
  - intros n Hn. unfold give_block, zset. zcase; [|by apply Hd].
    unfold clear_bit. rewrite length_insert. apply Hd. by apply map_block_range.
  - intros c Hc. destruct FG. rewrite used_give by (done || lia). rewrite (dk_meta d Hd) by done.
    by rewrite (proj2 (Z.eqb_neq c b)) by lia.
  - unfold give_block. rewrite zset_ne by lia. apply Hd.
Qed.

(** [balloc] with what its callers need. *)
Lemma balloc_ok s d bs B e :
  txn s d bs B -> disk_ok d -> fs_sb (k_fs s) = sb -> locked_ok d B -> balloc_room bs ->
  (exists b s', balloc 1 e s = Ok b e s' /\ data <= b < size /\ used d b = false /\
     (forall y, 0 <= y < b -> used d y = true) /\
     txn s' (take_block b d) (add_block b (add_block (map_block b) bs)) B /\ fsrest s' = fsrest s) \/
  (exists s', balloc 1 e s = Panic "balloc: out of blocks" s' /\ forall y, 0 <= y < size -> used d y = true).
Proof.
  intros Ht Hd Hsb HB Hr. unfold balloc. mstep get_sb_ok by done. rewrite (fg_size FG). destruct G.
  destruct (balloc_loop_ok (S (Z.to_nat (size / BPB + 1))) 0 e s d bs B Ht Hd Hsb HB Hr) as [(b & s' & E & Hb & Hu & Hall & T & F)|?];
    [done|done| |left|by right].
  { unfold BPB, BSIZE. change (512 * 8) with 4096. Z.div_mod_to_equations. lia. }
  exists b, s'. pose proof (used_data d b Hd Hb Hu). split_and!; try done; lia.
Qed.

Lemma readsb_ok s d bs B e :
  txn s d bs B -> disk_ok d -> B !! 1 = None -> (length bs + base.size B < NBUF)%nat ->
  exists s', readsb 1 e s = Ok sb e s' /\ txn s' d bs B /\ fsrest s' = fsrest s.
Proof.
  intros Ht Hd HB Hr. pose proof block_one as H1. destruct FG, G.
  pose proof (Z.div_pos size BPB ltac:(lia) ltac:(done)). unfold readsb.
  destruct (txn_bread s d bs B 1 e Ht) as (b & s1 & E1 & T1 & F1); [lia|done|done|]. mstep E1.
  assert (Hb : <[1 := b]> B !! 1 = Some b) by apply lookup_insert_eq.
  mstep (txn_bdata s1 d bs _ 1 b e T1 Hb). destruct (txn_brelse s1 _ _ _ 1 b e T1 Hb) as (s2 & E2 & T2 & F2). mstep E2.
  rewrite delete_insert_id in T2 by done. exists s2. rewrite (dk_sb d Hd). split; [done|]. split; [done|congruence].
Qed.

Lemma set_sb_same s : fs_sb (k_fs s) = sb -> upd_fs (set_fs_sb sb) s = s.
Proof.
  intros E. transitivity (set_k_fs (k_fs s) s); [|by destruct s].
  unfold upd_fs. f_equal. destruct (k_fs s). cbn in *. by rewrite <- E.
Qed.

Lemma bfree_ok s d bs B b e :
  txn s d bs B -> disk_ok d -> fs_sb (k_fs s) = sb -> locked_ok d B -> roomy bs 1 -> data <= b < size ->
  (used d b = true /\ exists s', bfree 1 b e s = Ok tt e s' /\
     txn s' (give_block b d) (add_block (map_block b) bs) B /\ fsrest s' = fsrest s) \/
  (used d b = false /\ exists s', bfree 1 b e s = Panic "freeing free block" s').
Proof.
  intros Ht Hd Hsb HB Hr Hb. pose proof (data_range b Hb) as Hb'.
  assert (Hcap : (length bs + base.size B < NBUF)%nat) by (destruct HB; unfold roomy, NBUF in *; lia).
  destruct (readsb_ok s d bs B e Ht Hd) as (s1 & E1 & T1 & F1); [|done|].
  { apply eq_None_not_Some. intros Hs. apply (lk_used d B HB) in Hs as [Hs _]. pose proof block_one.
    pose proof (map_block_bounds b Hb'). lia. }
  unfold bfree. mstep E1. pose proof (fsrest_sb _ _ F1 Hsb) as Hsb1. mstep. rewrite set_sb_same by done.
  rewrite BBLOCK_eq by done.
  destruct (txn_bread s1 d bs B (map_block b) e T1) as (bp & s2 & E2 & T2 & F2);
    [by apply map_block_range|by eapply locked_map|done|].
  mstep E2. assert (HBb : <[map_block b := bp]> B !! map_block b = Some bp) by apply lookup_insert_eq.
  mstep (txn_bdata s2 d bs _ (map_block b) bp e T2 HBb). fold (used d b).
  destruct (used d b); cbn [negb]; [left|right; split; [done|by eexists]]. split; [done|].
  destruct (txn_update s2 d bs _ (map_block b) bp (clear_bit (d (map_block b)) (b mod BPB)) e T2 HBb (map_block_home b Hb') Hr)
    as (s2' & s3 & E2' & E3 & T3 & F3). mstep E2'. mstep E3.
  destruct (txn_brelse s3 _ _ _ _ bp e T3 HBb) as (s4 & E4 & T4 & F4). exists s4. split; [done|].
  rewrite delete_insert_id in T4 by (by eapply locked_map). split; [done|congruence].
Qed.

(** What [balloc] does to the contents [d] of the disk when it returns [b]. *)
Record taken (d : Z -> list Z) (b : Z) (d' : Z -> list Z) : Prop := {
  tk_free : data <= b < size /\ used d b = false;
  tk_first : forall c, 0 <= c < b -> used d c = true;
  tk_used : forall c, 0 <= c < size -> used d' c = (c =? b) || used d c;
  tk_zero : d' b = zeros BSIZE;
  tk_other : forall n, n <> b -> n <> map_block b -> d' n = d n
}.

(** C33: [balloc] returns the first block that the bitmap has as free, a block
    of the data area; the block is then used, full of zeros, no other block
    changes but the one of the bitmap, and both are in the transaction.  It
    panics only when every block of the disk is used. *)
Theorem balloc_allocates s d bs B e :
  txn s d bs B -> disk_ok d -> fs_sb (k_fs s) = sb -> locked_ok d B -> balloc_room bs ->
  (exists b s' d', balloc 1 e s = Ok b e s' /\ taken d b d' /\ disk_ok d' /\
     txn s' d' (add_block b (add_block (map_block b) bs)) B /\ fsrest s' = fsrest s) \/
  (exists s', balloc 1 e s = Panic "balloc: out of blocks" s' /\ forall y, 0 <= y < size -> used d y = true).
Proof.
  intros Ht Hd Hsb HB Hr. destruct (balloc_ok s d bs B e Ht Hd Hsb HB Hr) as [(b & s' & E & Hb & Hu & Hf & T & F)|?];
    [left|by right].
  exists b, s', (take_block b d). split_and!; [done| |by apply take_block_ok|done|done].
  split; [done|done|intros c Hc; by apply used_take|by apply zset_eq|intros n; apply take_other].
Qed.

(** [bfree] of a used data block clears its bit of the bitmap and nothing
    else, inside the transaction; a block that is free already is a panic. *)
Theorem bfree_frees s d bs B b e :
  txn s d bs B -> disk_ok d -> fs_sb (k_fs s) = sb -> locked_ok d B -> roomy bs 1 -> data <= b < size ->
  if used d b then
    exists s' d', bfree 1 b e s = Ok tt e s' /\ disk_ok d' /\
      (forall c, 0 <= c < size -> used d' c = negb (c =? b) && used d c) /\
      (forall n, n <> map_block b -> d' n = d n) /\
      txn s' d' (add_block (map_block b) bs) B /\ fsrest s' = fsrest s
  else exists s', bfree 1 b e s = Panic "freeing free block" s'.
Proof.
  intros Ht Hd Hsb HB Hr Hb. destruct (bfree_ok s d bs B b e Ht Hd Hsb HB Hr Hb) as [(-> & s' & E & T & F)|(-> & E)]; [|done].
  exists s', (give_block b d). split_and!; [done|by apply give_block_ok| | |done|done].
  - intros c Hc. apply used_give; [done|by apply data_range|done].
  - intros n Hn. by apply zset_ne.
Qed.
End FsBlocks.
