(* ===== verification/FsInode.v ===== *)
(** * Inodes on disk (fs.c, fs.h)

    [struct dinode] in its block: what [iupdate] writes is what [ilock] reads
    back, and the other inodes of the block stay as they are. *)

From stdpp Require Import base list gmap strings fin_maps list_numbers.
From S2P Require Import Prelude Memory Bytes Str Kernel KMonad Boot Mmu Spinlock Sched Ide Ring Bio BioSpec Log LogSpec Fs FsBlocks.

(** ** Records in a block *)

Lemma byte_ext (a b : list Z) :
  length a = length b -> (forall k, 0 <= k < Z.of_nat (length a) -> byte_at a k = byte_at b k) -> a = b.
Proof.
  intros Hl Hb. apply (list_eq_same_length _ _ (length a)); [done|done|].
  intros i x y Hi Hx Hy. specialize (Hb (Z.of_nat i) ltac:(lia)). unfold byte_at in Hb.
  rewrite Nat2Z.id, !nth_lookup, Hx, Hy in Hb. done.
Qed.

Lemma byte_at_app (a b : list Z) k :
  0 <= k -> byte_at (a ++ b) k = if k <? Z.of_nat (length a) then byte_at a k else byte_at b (k - Z.of_nat (length a)).
Proof.
  intros Hk. unfold byte_at. zcase; [by rewrite app_nth1 by lia|]. rewrite app_nth2 by lia. f_equal. lia.
Qed.

(** Two fields written one after the other. *)
Lemma splice_app d o a b :
  0 <= o -> o + Z.of_nat (length a) + Z.of_nat (length b) <= Z.of_nat (length d) ->
  splice (splice d o a) (o + Z.of_nat (length a)) b = splice d o (a ++ b).
Proof.
  intros Ho Hl. assert (L1 : length (splice d o a) = length d) by (apply splice_length; lia).
  assert (L2 : length (splice (splice d o a) (o + Z.of_nat (length a)) b) = length d) by (rewrite splice_length; rewrite ?L1; lia).
  apply byte_ext; [rewrite L2, splice_length; rewrite ?length_app; lia|]. rewrite L2. intros k Hk.
  destruct (Z_lt_le_dec k o); [|destruct (Z_lt_le_dec k (o + Z.of_nat (length a)));
    [|destruct (Z_lt_le_dec k (o + Z.of_nat (length a) + Z.of_nat (length b)))]].
  - rewrite !byte_at_splice_ne; rewrite ?L1, ?length_app; lia || done.
  - rewrite byte_at_splice_ne by (rewrite ?L1; lia). replace k with (o + (k - o)) by lia.
    rewrite !byte_at_splice_eq by (rewrite ?length_app; lia). rewrite byte_at_app by lia. by rewrite (proj2 (Z.ltb_lt _ _)) by lia.
  - replace k with (o + Z.of_nat (length a) + (k - o - Z.of_nat (length a))) at 1 by lia.
    rewrite byte_at_splice_eq by (rewrite ?L1; lia). replace k with (o + (k - o)) at 2 by lia.
    rewrite byte_at_splice_eq by (rewrite ?length_app; lia). rewrite byte_at_app by lia.
    by rewrite (proj2 (Z.ltb_ge _ _)) by lia.
  - rewrite !byte_at_splice_ne; rewrite ?L1, ?length_app; lia || done.
Qed.

(** The 64 bytes of [struct dinode]. *)
Definition dinode_bytes (ip : inode) : list Z :=
  le16 (u16 (i_type ip)) ++ le16 (u16 (i_major ip)) ++ le16 (u16 (i_minor ip)) ++ le16 (u16 (i_nlink ip)) ++
  le32 (i_size ip) ++ concat (map le32 (i_addrs ip)).

Lemma concat_le32 l : length (concat (map le32 l)) = (4 * length l)%nat.
Proof. induction l as [|x l IH]; [done|]. cbn [map concat]. rewrite length_app, IH. simpl. lia. Qed.

Lemma dinode_bytes_length ip : length (i_addrs ip) = 13%nat -> length (dinode_bytes ip) = 64%nat.
Proof. intros Hl. unfold dinode_bytes. rewrite !length_app, concat_le32, Hl. done. Qed.

Lemma put_dinode_eq d o ip :
  length (i_addrs ip) = 13%nat -> 0 <= o -> o + 64 <= Z.of_nat (length d) ->
  put_dinode d o ip = splice d o (dinode_bytes ip).
Proof.
  intros Hl Ho Hd. unfold put_dinode, put16, put32, dinode_bytes.
  pose proof (concat_le32 (i_addrs ip)) as Hc. rewrite Hl in Hc.
  set (a := le16 (u16 (i_type ip))). set (b := le16 (u16 (i_major ip))). set (c := le16 (u16 (i_minor ip))).
  set (n := le16 (u16 (i_nlink ip))). set (z := le32 (i_size ip)). set (r := concat _).
  change (o + 2) with (o + Z.of_nat (length a)). rewrite (splice_app d o a b) by (simpl; lia).
  change (o + 4) with (o + Z.of_nat (length (a ++ b))). rewrite (splice_app d o (a ++ b) c) by (simpl; lia).
  change (o + 6) with (o + Z.of_nat (length ((a ++ b) ++ c))). rewrite (splice_app d o _ n) by (simpl; lia).
  change (o + 8) with (o + Z.of_nat (length (((a ++ b) ++ c) ++ n))). rewrite (splice_app d o _ z) by (simpl; lia).
  change (o + 12) with (o + Z.of_nat (length ((((a ++ b) ++ c) ++ n) ++ z))).
  rewrite (splice_app d o _ r) by (unfold r; rewrite ?Hc; simpl; lia).
  by rewrite <- !app_assoc.
Qed.

(** The fields fit into their types. *)
Definition s16_range (x : Z) : Prop := -32768 <= x < 32768.
Record inode_fits (ip : inode) : Prop := {
  if_type : s16_range (i_type ip);
  if_major : s16_range (i_major ip);
  if_minor : s16_range (i_minor ip);
  if_nlink : s16_range (i_nlink ip);
  if_size : word (i_size ip);
  if_count : length (i_addrs ip) = 13%nat;
  if_addrs : Forall word (i_addrs ip)
}.

(** The fields that are on the disk. *)
Definition same_dinode (a b : inode) : Prop :=
  i_type a = i_type b /\ i_major a = i_major b /\ i_minor a = i_minor b /\ i_nlink a = i_nlink b /\
  i_size a = i_size b /\ i_addrs a = i_addrs b.

Lemma get16_splice d o bs k :
  0 <= o -> o + Z.of_nat (length bs) <= Z.of_nat (length d) -> 0 <= k -> k + 2 <= Z.of_nat (length bs) ->
  get16 (splice d o bs) (o + k) = get16 bs k.
Proof. intros. unfold get16. rewrite <- Z.add_assoc. by rewrite !byte_at_splice_eq by lia. Qed.

Lemma get32_splice d o bs k :
  0 <= o -> o + Z.of_nat (length bs) <= Z.of_nat (length d) -> 0 <= k -> k + 4 <= Z.of_nat (length bs) ->
  get32 (splice d o bs) (o + k) = get32 bs k.
Proof. intros. unfold get32. rewrite <- !Z.add_assoc. by rewrite !byte_at_splice_eq by lia. Qed.

Lemma get16_le16 v rest : 0 <= v < 65536 -> get16 (le16 v ++ rest) 0 = v.
Proof.
  intros. unfold get16, byte_at. change (Z.to_nat 0) with 0%nat. change (Z.to_nat (0 + 1)) with 1%nat.
  cbn [le16 app nth]. Z.div_mod_to_equations. lia.
Qed.

Lemma get32_le32 v rest : word v -> get32 (le32 v ++ rest) 0 = v.
Proof.
  unfold word. intros. unfold get32, byte_at. change (Z.to_nat 0) with 0%nat. change (Z.to_nat (0 + 1)) with 1%nat.
  change (Z.to_nat (0 + 2)) with 2%nat. change (Z.to_nat (0 + 3)) with 3%nat.
  cbn [le32 app nth]. Z.div_mod_to_equations. lia.
Qed.

Lemma get16_skip a rest k : 0 <= k -> get16 (a ++ rest) (Z.of_nat (length a) + k) = get16 rest k.
Proof.
  intros Hk. unfold get16. rewrite !byte_at_app by lia. rewrite !(proj2 (Z.ltb_ge _ _)) by lia. repeat f_equal; lia.
Qed.

Lemma get32_skip a rest k : 0 <= k -> get32 (a ++ rest) (Z.of_nat (length a) + k) = get32 rest k.
Proof.
  intros Hk. unfold get32. rewrite !byte_at_app by lia. rewrite !(proj2 (Z.ltb_ge _ _)) by lia. repeat f_equal; lia.
Qed.

Lemma addrs_back l : Forall word l -> map (fun k => get32 (concat (map le32 l)) (4 * Z.of_nat k)) (seq 0 (length l)) = l.
Proof.
  induction l as [|x l IH]; [done|]. intros [Hx Hl]%Forall_cons. cbn [length seq map concat]. f_equal; [by apply get32_le32|].
  rewrite <- fmap_S_seq, <- list_fmap_compose. rewrite <- IH at 2 by done. apply list_fmap_ext. intros _ k _. unfold compose.
  replace (4 * Z.of_nat (S k)) with (Z.of_nat (length (le32 x)) + 4 * Z.of_nat k) by (simpl length; lia).
  apply get32_skip. lia.
Qed.

Lemma s16_u16 x : s16_range x -> s16 (u16 x) = x.
Proof. unfold s16_range, s16, u16. intros. cbv zeta. zcase; Z.div_mod_to_equations; lia. Qed.

Lemma u16_range x : 0 <= u16 x < 65536.
Proof. apply Z.mod_pos_bound. done. Qed.

(** The words of a dinode, from its size on. *)
Definition dinode_words (ip : inode) : list Z := le32 (i_size ip) ++ concat (map le32 (i_addrs ip)).

Lemma dinode_bytes_word ip k : 0 <= k -> get32 (dinode_bytes ip) (8 + k) = get32 (dinode_words ip) k.
Proof.
  intros Hk. unfold dinode_bytes. fold (dinode_words ip). rewrite !app_assoc.
  exact (get32_skip (((le16 _ ++ le16 _) ++ le16 _) ++ le16 _) (dinode_words ip) k Hk).
Qed.

Lemma dinode_back d o ip x :
  inode_fits ip -> 0 <= o -> o + 64 <= Z.of_nat (length d) -> same_dinode (get_dinode (put_dinode d o ip) o x) ip.
Proof.
  intros [Ht Hma Hmi Hn Hs Hc Ha] Ho Hd. rewrite put_dinode_eq by done. pose proof (dinode_bytes_length ip Hc) as Hl.
  assert (E16 : forall k, 0 <= k -> k + 2 <= 64 -> get16 (splice d o (dinode_bytes ip)) (o + k) = get16 (dinode_bytes ip) k)
    by (intros; apply get16_splice; rewrite ?Hl; lia).
  assert (E32 : forall k, 0 <= k -> k + 4 <= 64 -> get32 (splice d o (dinode_bytes ip)) (o + k) = get32 (dinode_bytes ip) k)
    by (intros; apply get32_splice; rewrite ?Hl; lia).
  pose proof (E16 0 ltac:(lia) ltac:(lia)) as E0. rewrite Z.add_0_r in E0.
  unfold same_dinode, get_dinode. cbn [i_type i_major i_minor i_nlink i_size i_addrs]. rewrite E0, !E16, E32 by lia.
  split_and!.
  - unfold dinode_bytes. rewrite get16_le16 by apply u16_range. by apply s16_u16.
  - unfold dinode_bytes. rewrite (get16_skip (le16 _) _ 0) by lia. rewrite get16_le16 by apply u16_range. by apply s16_u16.
  - unfold dinode_bytes. rewrite (get16_skip (le16 _) _ 2), (get16_skip (le16 _) _ 0) by lia.
    rewrite get16_le16 by apply u16_range. by apply s16_u16.
  - unfold dinode_bytes. rewrite (get16_skip (le16 _) _ 4), (get16_skip (le16 _) _ 2), (get16_skip (le16 _) _ 0) by lia.
    rewrite get16_le16 by apply u16_range. by apply s16_u16.
  - pose proof (dinode_bytes_word ip 0 ltac:(lia)) as E8. change (8 + 0) with 8 in E8. rewrite E8. unfold dinode_words. by apply (get32_le32 (i_size ip)).
  - etrans; [|exact (addrs_back (i_addrs ip) Ha)]. rewrite Hc. apply map_ext_in. intros k Hk%in_seq.
    rewrite <- Z.add_assoc, E32 by lia. replace (12 + 4 * Z.of_nat k) with (8 + (4 + 4 * Z.of_nat k)) by lia. rewrite dinode_bytes_word by lia.
    apply (get32_skip (le32 (i_size ip))). lia.
Qed.

(** The other inodes of the block. *)
Lemma dinode_other d o ip o' x :
  length (i_addrs ip) = 13%nat -> 0 <= o -> o + 64 <= Z.of_nat (length d) -> 0 <= o' ->
  o' + 64 <= o \/ o + 64 <= o' -> get_dinode (put_dinode d o ip) o' x = get_dinode d o' x.
Proof.
  intros Hc Ho Hd Ho' Hdis. rewrite put_dinode_eq by done. pose proof (dinode_bytes_length ip Hc) as Hl.
  unfold get_dinode. rewrite !get16_splice_ne, get32_splice_ne by (rewrite ?Hl; lia). f_equal.
  apply map_ext_in. intros k Hk%in_seq. apply get32_splice_ne; rewrite ?Hl; lia.
Qed.

Lemma put_dinode_length d o ip :
  length (i_addrs ip) = 13%nat -> 0 <= o -> o + 64 <= Z.of_nat (length d) -> length (put_dinode d o ip) = length d.
Proof. intros Hc Ho Hd. rewrite put_dinode_eq by done. apply splice_length; rewrite ?dinode_bytes_length by done; lia. Qed.

(** ** [iupdate] *)

Section FsInode.
Context (D : Disk) (size : Z) {HD : DiskOk D size}.
Context (start lsz : Z) (G : geometry start lsz size).
Context (sb : superblock) (data : Z).
Hypothesis FG : fs_geom size start lsz sb data.

Definition inode_block (inum : Z) : Z := sb_inodestart sb + inum / IPB.

Lemma inode_block_bounds inum : 0 <= inum < sb_ninodes sb ->
  start + lsz <= inode_block inum < sb_bmapstart sb.
Proof.
  intros Hi. destruct FG. unfold inode_block. pose proof (Z.div_le_mono inum (sb_ninodes sb) IPB ltac:(done) ltac:(lia)).
  pose proof (Z.div_pos inum IPB ltac:(lia) ltac:(done)). lia.
Qed.

Lemma dinode_off_bounds inum : 0 <= dinode_off inum /\ dinode_off inum + 64 <= BSIZE.
Proof. unfold dinode_off. pose proof (Z.mod_pos_bound inum IPB ltac:(done)). unfold IPB, BSIZE in *. change (512 / 64) with 8 in *. lia. Qed.

Lemma bmapstart_size : sb_bmapstart sb < size.
Proof. destruct FG, G. pose proof (Z.div_pos size BPB ltac:(lia) ltac:(done)). lia. Qed.

Lemma inode_block_home inum : 0 <= inum < sb_ninodes sb -> home start lsz size (inode_block inum).
Proof.
  intros Hi. pose proof (inode_block_bounds inum Hi). pose proof bmapstart_size. apply (meta_home size start lsz G). lia.
Qed.

Lemma IBLOCK_eq inum : 0 <= inum < sb_ninodes sb -> IBLOCK inum sb = inode_block inum.
Proof.
  intros Hi. unfold IBLOCK, inode_block. rewrite Z.add_comm. apply u32_small.
  pose proof (inode_block_bounds inum Hi). pose proof bmapstart_size. destruct G. unfold inode_block in *. lia.
Qed.

Definition put_inode (ip : inode) (d : Z -> list Z) : Z -> list Z :=
  zset d (inode_block (i_inum ip)) (put_dinode (d (inode_block (i_inum ip))) (dinode_off (i_inum ip)) ip).

Lemma iupdate_ok s d bs i ip e :
  txn size start lsz s d bs ∅ -> disk_ok size sb data d -> fs_sb (k_fs s) = sb -> fs_icache (k_fs s) !! i = Some ip ->
  i_dev ip = 1 -> 0 <= i_inum ip < sb_ninodes sb -> roomy lsz bs 1 ->
  exists s', iupdate i e s = Ok tt e s' /\
    txn size start lsz s' (put_inode ip d) (add_block (inode_block (i_inum ip)) bs) ∅ /\ fsrest s' = fsrest s.
Proof.
  intros Ht Hd Hsb Hi Hdev Hin Hr. unfold iupdate. mstep (get_sb_ok sb) by done. unfold inode_at.
  rewrite bind_assoc. mstep. rewrite Hi. cbn [deref]. mstep. rewrite Hdev, IBLOCK_eq by done.
  destruct (txn_bread D size start lsz G s d bs ∅ (inode_block (i_inum ip)) e Ht) as (b & s1 & E1 & T1 & F1);
    [by apply (home_range size start lsz), inode_block_home|done|rewrite map_size_empty; unfold roomy, NBUF in *; lia|].
  mstep E1. set (n := inode_block (i_inum ip)) in *.
  assert (HB : <[n := b]> (∅ : gmap Z nat) !! n = Some b) by apply lookup_insert_eq.
  mstep (txn_bdata size start lsz s1 d bs _ n b e T1 HB). rewrite bind_assoc. mstep.
  destruct (fsrest_fs _ _ F1) as (_ & Ei & _). rewrite Ei, Hi. cbn [deref]. mstep.
  destruct (txn_update D size start lsz G s1 d bs _ n b (put_dinode (d n) (dinode_off (i_inum ip)) ip) e T1 HB)
    as (s2 & s3 & E2 & E3 & T3 & F3); [by apply inode_block_home|done|]. mstep E2. mstep E3.
  destruct (txn_brelse size start lsz s3 _ _ _ n b e T3 HB) as (s4 & E4 & T4 & F4). exists s4. split; [done|].
  rewrite delete_insert_id in T4 by done. split; [done|congruence].
Qed.

Lemma dinode_apart a b :
  0 <= a -> 0 <= b -> a <> b -> inode_block a = inode_block b ->
  dinode_off a + 64 <= dinode_off b \/ dinode_off b + 64 <= dinode_off a.
Proof.
  intros Ha Hb Hne E. unfold inode_block, dinode_off, IPB, BSIZE in *. change (512 / 64) with 8 in *.
  Z.div_mod_to_equations. lia.
Qed.

(** [iupdate] puts the inode of the cache into its slot of the inode
    blocks, from which the fields are read back the same, sign and all; no
    other inode and no other block of the disk changes. *)
Theorem iupdate_stores s d bs i ip e :
  txn size start lsz s d bs ∅ -> disk_ok size sb data d -> fs_sb (k_fs s) = sb -> fs_icache (k_fs s) !! i = Some ip ->
  i_dev ip = 1 -> 0 <= i_inum ip < sb_ninodes sb -> inode_fits ip -> roomy lsz bs 1 ->
  exists s' d', iupdate i e s = Ok tt e s' /\
    txn size start lsz s' d' (add_block (inode_block (i_inum ip)) bs) ∅ /\ fsrest s' = fsrest s /\
    (forall x, same_dinode (get_dinode (d' (inode_block (i_inum ip))) (dinode_off (i_inum ip)) x) ip) /\
    (forall inum x, 0 <= inum -> inum <> i_inum ip ->
       get_dinode (d' (inode_block inum)) (dinode_off inum) x = get_dinode (d (inode_block inum)) (dinode_off inum) x) /\
    (forall n, n <> inode_block (i_inum ip) -> d' n = d n).
Proof.
  intros Ht Hd Hsb Hi Hdev Hin Hfit Hr. destruct (iupdate_ok s d bs i ip e Ht Hd Hsb Hi Hdev Hin Hr) as (s' & E & T & F).
  exists s', (put_inode ip d). pose proof (dinode_off_bounds (i_inum ip)) as Hdo. unfold BSIZE in Hdo.
  assert (Hl : length (d (inode_block (i_inum ip))) = 512%nat).
  { apply (dk_len _ _ _ _ Hd). pose proof (inode_block_bounds _ Hin). pose proof bmapstart_size.
    destruct G. lia. }
  split_and!; [done|done|done| | |intros n Hn; by apply zset_ne].
  - intros x. unfold put_inode. rewrite zset_eq. apply dinode_back; [done|lia|lia].
  - intros inum x H0 Hne. unfold put_inode, zset. destruct (Z.eqb_spec (inode_block inum) (inode_block (i_inum ip))) as [Eb|]; [|done].
    rewrite Eb. apply dinode_other; [apply Hfit|lia|lia|apply dinode_off_bounds|by apply dinode_apart; lia].
Qed.
End FsInode.
