(* ===== verification/FsFile.v ===== *)
(** * Files: bmap, readi and writei (fs.c)

    The blocks of an inode, direct and through its indirect block, and the
    bytes in them.  [bmap] finds or allocates the block of an offset; [readi]
    and [writei] are reads and writes of an array of bytes, and leave the
    blocks of all other files alone. *)

From stdpp Require Import base list gmap strings fin_maps list_numbers.
From S2P Require Import Prelude Memory Bytes Str Kernel KMonad Boot Mmu Spinlock Sched Ide Ring Bio BioSpec Log LogSpec Fs FsBlocks.

(** ** The blocks of a file *)

(** Block [bn] of the file; 0 if it has none. *)
Definition fblock (d : Z -> list Z) (ip : inode) (bn : Z) : Z :=
  if bn <? NDIRECT then addr_of ip bn
  else if addr_of ip NDIRECT =? 0 then 0 else get32 (d (addr_of ip NDIRECT)) (4 * (bn - NDIRECT)).
Definition fbyte (d : Z -> list Z) (ip : inode) (off : Z) : Z :=
  byte_at (d (fblock d ip (off / BSIZE))) (off mod BSIZE).

(** All blocks that belong to the file: the blocks of its bytes, and, as slot
    [MAXFILE], its indirect block. *)
Definition fslot (d : Z -> list Z) (ip : inode) (k : Z) : Z :=
  if k =? MAXFILE then addr_of ip NDIRECT else fblock d ip k.
Definition owns (d : Z -> list Z) (ip : inode) (n : Z) : Prop :=
  n <> 0 /\ exists k, 0 <= k <= MAXFILE /\ n = fslot d ip k.

Lemma fslot_block d ip bn : bn < MAXFILE -> fslot d ip bn = fblock d ip bn.
Proof. intros Hb. unfold fslot. by rewrite (proj2 (Z.eqb_neq _ _)) by lia. Qed.
Lemma fslot_ind d ip : fslot d ip MAXFILE = addr_of ip NDIRECT.
Proof. unfold fslot. by rewrite Z.eqb_refl. Qed.

Lemma MAXFILE_eq : MAXFILE = 140.
Proof. done. Qed.
Ltac fsz := rewrite ?MAXFILE_eq in *; unfold NDIRECT, NINDIRECT, BSIZE in *; change (512 / 4) with 128 in *; lia.

Section FsFile.
Context (D : Disk) (size : Z) {HD : DiskOk D size}.
Context (start lsz : Z) (G : geometry start lsz size).
Context (sb : superblock) (data : Z).
Hypothesis FG : fs_geom size start lsz sb data.

Notation txn := (txn size start lsz).
Notation used := (used sb).
Notation disk_ok := (disk_ok size sb data).

Record file_ok (d : Z -> list Z) (ip : inode) : Prop := {
  fo_dev : i_dev ip = 1;
  fo_addrs : length (i_addrs ip) = 13%nat;
  fo_own : forall k, 0 <= k <= MAXFILE -> fslot d ip k <> 0 ->
    data <= fslot d ip k < size /\ used d (fslot d ip k) = true;
  fo_inj : forall k k', 0 <= k <= MAXFILE -> 0 <= k' <= MAXFILE ->
    fslot d ip k <> 0 -> fslot d ip k = fslot d ip k' -> k = k';
  fo_size : 0 <= i_size ip <= MAXFILE * BSIZE;
  fo_full : forall bn, 0 <= bn -> bn * BSIZE < i_size ip -> fblock d ip bn <> 0
}.

Lemma owns_used d ip n : file_ok d ip -> owns d ip n -> data <= n < size /\ used d n = true.
Proof. intros Hf (H0 & k & Hk & ->). by apply (fo_own d ip Hf). Qed.

(** What an operation on the file [ip] may do to the disk: other blocks that
    are in use stay as they are, except for the free map, and new blocks of
    the file were free. *)
Record extends (d : Z -> list Z) (ip : inode) (d' : Z -> list Z) (ip' : inode) : Prop := {
  ex_used : forall n, 0 <= n < size -> used d n = true -> used d' n = true;
  ex_other : forall n, data <= n < size -> used d n = true -> ~ owns d ip n -> d' n = d n;
  ex_meta : forall n, 0 <= n < sb_bmapstart sb -> d' n = d n;
  ex_own : forall n, owns d' ip' n -> owns d ip n \/ used d n = false
}.

Lemma extends_refl d ip : extends d ip d ip.
Proof. split; auto. Qed.

Lemma data_lt n : data <= n < size -> 0 <= n < size.
Proof. intros Hn. eapply data_range; done. Qed.

Lemma extends_trans d1 ip1 d2 ip2 d3 ip3 :
  extends d1 ip1 d2 ip2 -> extends d2 ip2 d3 ip3 -> file_ok d3 ip3 -> extends d1 ip1 d3 ip3.
Proof.
  intros [U1 O1 M1 W1] [U2 O2 M2 W2] Hf. split.
  - intros n Hn Hu. by apply U2, U1.
  - intros n Hn Hu Ho. rewrite O2; [by apply O1|done|by apply U1; [apply data_lt|]|].
    intros [Ho2|Hfr]%W1; [done|congruence].
  - intros n Hn. by rewrite M2, M1.
  - intros n Hn. destruct (W2 n Hn) as [Ho|Hfr]; [by apply W1|]. right.
    destruct (used d1 n) eqn:E; [|done]. destruct (owns_used _ _ _ Hf Hn) as [Hr _].
    by rewrite (U1 n (data_lt n Hr) E) in Hfr.
Qed.

(** The file gets the free block [b] as its slot [k0]. *)
Lemma slot_step d ip d' ip' b k0 :
  file_ok d ip -> 0 <= k0 <= MAXFILE -> fslot d ip k0 = 0 -> data <= b < size -> used d b = false ->
  (forall k, 0 <= k <= MAXFILE -> fslot d' ip' k = if k =? k0 then b else fslot d ip k) ->
  i_dev ip' = i_dev ip -> length (i_addrs ip') = length (i_addrs ip) -> i_size ip' = i_size ip ->
  (forall n, 0 <= n < size -> used d' n = (n =? b) || used d n) ->
  (forall n, data <= n < size -> used d n = true -> n <> addr_of ip NDIRECT -> d' n = d n) ->
  (forall n, 0 <= n < sb_bmapstart sb -> d' n = d n) ->
  file_ok d' ip' /\ extends d ip d' ip'.
Proof.
  intros [Hdev Hlen Hown Hinj Hsz Hfull] Hk0 H0 Hb Hu Hslot Edev Elen Esz EU EO EM.
  assert (Hdata : 0 < data) by (pose proof (block_one size start lsz G sb data FG);
    pose proof (map_block_bounds size start lsz sb data FG b (data_lt b Hb)); lia).
  assert (Hnew : forall k, 0 <= k <= MAXFILE -> fslot d ip k <> b).
  { intros k Hk E. destruct (Hown k Hk ltac:(lia)) as [_ Hu']. congruence. }
  split; [split|split].
  - congruence.
  - congruence.
  - intros k Hk. rewrite Hslot by done. zcase; intros Hn.
    + split; [done|]. rewrite EU by (by apply data_lt). by rewrite Z.eqb_refl.
    + destruct (Hown k Hk Hn) as [Hr Hu']. split; [done|]. rewrite EU by (by apply data_lt). by rewrite Hu', orb_true_r.
  - intros k k' Hk Hk'. rewrite !Hslot by done. repeat zcase; subst; try done.
    + intros _ E. by destruct (Hnew k').
    + intros _ E. by destruct (Hnew k).
    + by apply Hinj.
  - by rewrite Esz.
  - intros bn Hbn Hlt. rewrite Esz in Hlt. assert (bn < MAXFILE) by (unfold BSIZE in *; lia).
    rewrite <- fslot_block by done. rewrite Hslot by lia. rewrite fslot_block by done. zcase; [lia|by apply Hfull].
  - intros n Hn E. by rewrite EU, E, orb_true_r.
  - intros n Hn Hun Ho. apply EO; [done|done|]. intros ->. apply Ho. split; [lia|]. exists MAXFILE. by rewrite fslot_ind.
  - done.
  - intros n (Hn & k & Hk & ->). rewrite Hslot in * by done. revert Hn. zcase; intros Hn; [by right|left].
    split; [done|]. by exists k.
Qed.

Definition inode_in (s : kstate) (i : nat) (ip : inode) : Prop := fs_icache (k_fs s) !! i = Some ip.

Lemma inode_at_ok s i ip e : inode_in s i ip -> inode_at i e s = Ok ip e s.
Proof. intros Hi. unfold inode_at. mstep. by rewrite Hi. Qed.

Lemma inode_rest s s' i ip : fsrest s' = fsrest s -> inode_in s i ip -> inode_in s' i ip.
Proof. unfold inode_in. intros (_ & E & _)%fsrest_fs Hi. congruence. Qed.

Lemma inode_upd s i ip f : inode_in s i ip -> inode_in (upd_inode i f s) i (f ip).
Proof. intros Hi. unfold inode_in in *. cbn. by rewrite list_lookup_alter_eq, Hi. Qed.

Lemma txn_inode s i f d bs B : txn s d bs B -> txn (upd_inode i f s) d bs B.
Proof.
  intros (V & [Hi Ho Hl Hd Hs Hout Hb] & Hda & Hbu & Hsy). exists V. split; [|done]. split; try done.
  destruct Ho as [? ? ? ?]. by split.
Qed.

(** The inode cache may change in entry [i] only. *)
Definition others (i : nat) (s : kstate) : kstate := upd_inode i (fun _ => mkInode 0 0 0 0 0 0 0 0 0 []) (fsrest s).


Lemma others_rest i s s' : fsrest s' = fsrest s -> others i s' = others i s.
Proof. unfold others. by intros ->. Qed.

Lemma others_upd i f s : others i (upd_inode i f s) = others i s.
Proof.
  unfold others. change (fsrest (upd_inode i f s)) with (upd_inode i f (fsrest s)). unfold upd_inode, upd_fs. cbn.
  by rewrite alter_twice.
Qed.

(** *** Room in the log *)

(** The blocks [X] are counted once and for all; [bs] may have [k] others more. *)
Definition weight (X bs : list Z) : nat := length (filter (fun n => n ∉ X) bs).
Definition room (X bs : list Z) (k : Z) : Prop :=
  Z.of_nat (weight X bs) + Z.of_nat (length X) + k <= Z.min (lsz - 2) (Z.of_nat NBUF - 3).

Lemma weight_length X bs : NoDup bs -> (length bs <= weight X bs + length X)%nat.
Proof.
  intros Hnd. unfold weight.
  assert (E : (length (filter (fun n => n ∈ X) bs) <= length X)%nat).
  { apply submseteq_length, NoDup_submseteq; [by apply NoDup_filter|]. intros n. rewrite list_elem_of_filter. tauto. }
  enough (length bs = length (filter (fun n => n ∉ X) bs) + length (filter (fun n => n ∈ X) bs))%nat by lia.
  clear. induction bs as [|n bs IH]; [done|]. rewrite !filter_cons. repeat case_decide; simpl; try tauto; lia.
Qed.

Lemma room_nodup X bs k : NoDup bs -> room X bs k -> 0 <= k -> roomy lsz bs 1.
Proof. intros Hnd Hr Hk. pose proof (weight_length X bs Hnd). unfold room, roomy in *. lia. Qed.

Lemma txn_nodup s d bs B : txn s d bs B -> NoDup bs.
Proof. intros (V & Ht & _). apply (lh_nodup _ _ _ _ _ (tx_log _ _ _ _ _ _ Ht)). Qed.

Lemma add_block_nodup n bs : NoDup bs -> NoDup (add_block n bs).
Proof.
  intros Hnd. unfold add_block. case_decide; [done|]. apply NoDup_app. split_and!; [done| |apply NoDup_singleton].
  intros x Hx ->%list_elem_of_singleton. done.
Qed.

Lemma weight_add X n bs : (weight X (add_block n bs) <= weight X bs + (if decide (n ∈ X) then 0 else 1))%nat.
Proof.
  unfold weight, add_block. case_decide; [lia|]. rewrite filter_app, length_app. unfold filter at 2, list_filter. simpl.
  repeat case_decide; simpl; try done; lia.
Qed.

Lemma room_in X n bs k : n ∈ X -> room X bs k -> room X (add_block n bs) k.
Proof. intros Hn Hr. pose proof (weight_add X n bs) as Hw. rewrite decide_True in Hw by done. unfold room in *. lia. Qed.

Lemma room_out X n bs k : room X bs (k + 1) -> room X (add_block n bs) k.
Proof. intros Hr. pose proof (weight_add X n bs) as Hw. unfold room in *. case_decide; lia. Qed.

Lemma room_le X bs k k' : room X bs k -> k' <= k -> room X bs k'.
Proof. unfold room. lia. Qed.

(** A block that is counted anyway may take the place of one that is counted
    twice. *)
Lemma room_swap F x y bs k : x ∈ F -> room (x :: F) bs k -> room (y :: F) bs k.
Proof.
  intros Hx Hr. enough (weight (y :: F) bs <= weight (x :: F) bs)%nat by (unfold room in *; simpl in *; lia).
  unfold weight. apply submseteq_length, sublist_submseteq. clear -Hx. induction bs as [|n bs IH]; [done|].
  rewrite !filter_cons. repeat case_decide; try done; [by apply sublist_skip|exfalso|by apply sublist_cons].
  set_solver.
Qed.

(** [F] has the blocks of the map. *)
Definition map_blocks_in (F : list Z) : Prop := forall b, 0 <= b < size -> map_block sb b ∈ F.

Lemma room_balloc F x s d bs B k :
  map_blocks_in F -> txn s d bs B -> room (x :: F) bs k -> 0 <= k -> balloc_room size lsz sb bs.
Proof.
  intros HF Ht Hr Hk. pose proof (txn_nodup _ _ _ _ Ht) as Hnd. split; [by eapply room_nodup|].
  intros b Hb. apply (room_nodup (x :: F) _ k); [by apply add_block_nodup| |done]. apply room_in; [|done]. right. by apply HF.
Qed.

Lemma locked_none d : locked_ok size sb data d ∅.
Proof. split; [rewrite map_size_empty; lia|]. intros n [b Hb]. by rewrite lookup_empty in Hb. Qed.

(** *** What [balloc] does to a file *)

Section Alloc.
Context (d : Z -> list Z) (ip : inode) (b : Z).
Hypothesis Hdk : disk_ok d.
Hypothesis Hf : file_ok d ip.
Hypothesis Hb : data <= b < size.
Hypothesis Hu : used d b = false.

Lemma take_used n : data <= n < size -> used d n = true -> take_block sb b d n = d n.
Proof.
  intros Hn Hun. apply take_other; [intros ->; congruence|].
  pose proof (map_block_bounds size start lsz sb data FG b (data_lt b Hb)). lia.
Qed.

Lemma take_meta n : 0 <= n < sb_bmapstart sb -> take_block sb b d n = d n.
Proof.
  intros Hn. pose proof (map_block_bounds size start lsz sb data FG b (data_lt b Hb)). apply take_other; lia.
Qed.

Lemma ind_used : addr_of ip NDIRECT <> 0 -> data <= addr_of ip NDIRECT < size /\ used d (addr_of ip NDIRECT) = true.
Proof. intros Hi. rewrite <- (fslot_ind d) in *. apply (fo_own d ip Hf); [fsz|done]. Qed.

Lemma take_fblock bn : fblock (take_block sb b d) ip bn = fblock d ip bn.
Proof.
  unfold fblock. zcase; [done|]. zcase; [done|]. by rewrite take_used by (by apply ind_used).
Qed.

Lemma take_fslot k : fslot (take_block sb b d) ip k = fslot d ip k.
Proof. unfold fslot. by rewrite take_fblock. Qed.

Lemma take_used_bits n : 0 <= n < size -> used (take_block sb b d) n = (n =? b) || used d n.
Proof. intros Hn. by apply (used_take size start lsz G sb data FG). Qed.

Lemma addr_set a n v : length (i_addrs a) = 13%nat -> 0 <= n < 13 -> forall m, 0 <= m ->
  addr_of (set_addr n v a) m = if m =? n then v else addr_of a m.
Proof.
  intros Hl Hn m Hm. unfold addr_of. cbn. rewrite !nth_lookup. zcase.
  - subst. by rewrite list_lookup_insert_eq by lia.
  - by rewrite list_lookup_insert_ne by lia.
Qed.

(** A new direct block. *)
Lemma direct_step bn :
  0 <= bn < NDIRECT -> fblock d ip bn = 0 ->
  let ip' := set_addr bn b ip in let d' := take_block sb b d in
  file_ok d' ip' /\ extends d ip d' ip' /\ fblock d' ip' bn = b /\
  (forall bn', 0 <= bn' < MAXFILE -> bn' <> bn -> fblock d' ip' bn' = fblock d ip bn').
Proof.
  intros Hbn H0 ip' d'. pose proof (fo_addrs d ip Hf) as Hl.
  assert (Ha : forall m, 0 <= m -> addr_of ip' m = if m =? bn then b else addr_of ip m)
    by (apply addr_set; [done|unfold NDIRECT in *; lia]).
  assert (Hfb : forall k, 0 <= k < MAXFILE -> fblock d' ip' k = if k =? bn then b else fblock d ip k).
  { intros k Hk. unfold d'. rewrite <- take_fblock. unfold fblock. rewrite !Ha by (unfold NDIRECT; lia).
    rewrite (proj2 (Z.eqb_neq NDIRECT bn)) by lia. destruct (Z.ltb_spec k NDIRECT); [done|].
    by rewrite (proj2 (Z.eqb_neq k bn)) by lia. }
  destruct (slot_step d ip d' ip' b bn) as [Hf' He]; try done.
  - fsz.
  - rewrite fslot_block; [done|]. fsz.
  - intros k Hk. unfold fslot. zcase; [|by apply Hfb; lia]. subst k. rewrite Ha by (unfold NDIRECT; lia).
    rewrite !(proj2 (Z.eqb_neq _ _)); [done|..]; fsz.
  - cbn. by rewrite length_insert.
  - apply take_used_bits.
  - intros n Hn Hun _. by apply take_used.
  - apply take_meta.
  - split_and!; [done|done| |].
    + rewrite Hfb; [by rewrite Z.eqb_refl|]. fsz.
    + intros k Hk Hne. rewrite Hfb by done. by rewrite (proj2 (Z.eqb_neq k bn)).
Qed.

Lemma get32_zeros n o : get32 (zeros n) o = 0.
Proof. unfold get32, zeros. by rewrite !byte_at_zeros. Qed.

(** A new indirect block. *)
Lemma ind_step :
  addr_of ip NDIRECT = 0 ->
  let ip' := set_addr NDIRECT b ip in let d' := take_block sb b d in
  file_ok d' ip' /\ extends d ip d' ip' /\ addr_of ip' NDIRECT = b /\
  (forall bn, 0 <= bn < MAXFILE -> fblock d' ip' bn = fblock d ip bn).
Proof.
  intros H0 ip' d'. pose proof (fo_addrs d ip Hf) as Hl.
  assert (Ha : forall m, 0 <= m -> addr_of ip' m = if m =? NDIRECT then b else addr_of ip m)
    by (apply addr_set; [done|fsz]).
  assert (Hi : addr_of ip' NDIRECT = b) by (rewrite Ha by fsz; by rewrite Z.eqb_refl).
  assert (Hfb : forall k, 0 <= k < MAXFILE -> fblock d' ip' k = fblock d ip k).
  { intros k Hk. unfold fblock. rewrite Hi, H0. destruct (Z.ltb_spec k NDIRECT).
    - rewrite Ha by lia. by rewrite (proj2 (Z.eqb_neq k NDIRECT)) by lia.
    - rewrite Z.eqb_refl. zcase; [done|]. unfold d', take_block. rewrite zset_eq. apply get32_zeros. }
  destruct (slot_step d ip d' ip' b MAXFILE) as [Hf' He]; try done.
  - intros k Hk. unfold fslot. zcase; [done|]. apply Hfb. lia.
  - cbn. by rewrite length_insert.
  - apply take_used_bits.
  - intros n Hn Hun _. by apply take_used.
  - apply take_meta.
Qed.

(** A new entry of the indirect block. *)
Lemma entry_step bn :
  NDIRECT <= bn < MAXFILE -> fblock d ip bn = 0 -> addr_of ip NDIRECT <> 0 ->
  let ind := addr_of ip NDIRECT in
  let d' := zset (take_block sb b d) ind (put32 (d ind) (4 * (bn - NDIRECT)) b) in
  file_ok d' ip /\ extends d ip d' ip /\ fblock d' ip bn = b /\
  (forall bn', 0 <= bn' < MAXFILE -> bn' <> bn -> fblock d' ip bn' = fblock d ip bn').
Proof.
  intros Hbn H0 Hi ind d'. destruct (ind_used Hi) as [Hir Hiu]. fold ind in Hi, Hir, Hiu.
  pose proof (dk_len _ _ _ _ Hdk ind (data_lt ind Hir)) as Hlen. pose proof (data_lt b Hb) as Hbr. destruct G.
  assert (Hfb : forall k, 0 <= k < MAXFILE -> fblock d' ip k = if k =? bn then b else fblock d ip k).
  { intros k Hk. unfold fblock. fold ind. destruct (Z.ltb_spec k NDIRECT); [by rewrite (proj2 (Z.eqb_neq k bn)) by lia|].
    rewrite (proj2 (Z.eqb_neq ind 0)) by done. unfold d'. rewrite zset_eq. zcase.
    - subst k. apply get32_put32_eq; [lia| |lia]. rewrite Hlen. fsz.
    - unfold put32. apply get32_splice_ne; [lia|rewrite Hlen; cbn; fsz|lia|cbn; lia]. }
  pose proof (map_block_bounds size start lsz sb data FG) as Hmb.
  destruct (slot_step d ip d' ip b bn) as [Hf' He]; try done.
  - fsz.
  - by rewrite fslot_block by lia.
  - intros k Hk. unfold fslot. zcase; [|by apply Hfb; lia]. by rewrite (proj2 (Z.eqb_neq k bn)) by lia.
  - intros n Hn. rewrite <- take_used_bits by done. unfold FsBlocks.used, d'. pose proof (Hmb n Hn). by rewrite zset_ne by lia.
  - intros n Hn Hun Hne. unfold d'. rewrite zset_ne by done. by apply take_used.
  - intros n Hn. unfold d'. pose proof (Hmb b Hbr). rewrite zset_ne by lia. by apply take_meta.
  - split_and!; [done|done| |].
    + rewrite Hfb by fsz. by rewrite Z.eqb_refl.
    + intros k Hk Hne. rewrite Hfb by done. by rewrite (proj2 (Z.eqb_neq k bn)).
Qed.
End Alloc.

(** *** [bmap] *)

Context (F : list Z).
Hypothesis HF : map_blocks_in F.
Hypothesis HF0 : 0 ∈ F.

(** Inode [i] of the cache is [ip], a file on the disk [d], and [k] more blocks
    may be logged besides its indirect block and the blocks [F]. *)
Record fstate (s : kstate) (i : nat) (d : Z -> list Z) (ip : inode) (bs : list Z) (k : Z) : Prop := {
  fs_txn : txn s d bs ∅;
  fs_dok : disk_ok d;
  fs_file : file_ok d ip;
  fs_inode : inode_in s i ip;
  fs_super : fs_sb (k_fs s) = sb;
  fs_room : room (addr_of ip NDIRECT :: F) bs k
}.

(** The bytes of the file stay as they are. *)
Definition keeps (d : Z -> list Z) (ip : inode) (d' : Z -> list Z) : Prop :=
  forall bn, 0 <= bn < MAXFILE -> fblock d ip bn <> 0 -> d' (fblock d ip bn) = d (fblock d ip bn).

Lemma keeps_take d ip b :
  file_ok d ip -> data <= b < size -> used d b = false -> keeps d ip (take_block sb b d).
Proof.
  intros Hf Hb Hu bn Hbn H0. rewrite <- fslot_block in * by lia.
  destruct (fo_own d ip Hf bn ltac:(lia) H0) as [Hr Hu']. by apply take_used.
Qed.

Lemma super_rest s s' : fsrest s' = fsrest s -> fs_sb (k_fs s) = sb -> fs_sb (k_fs s') = sb.
Proof. apply fsrest_sb. Qed.

(** The disk is full; and all its blocks but one at most are used. *)
Definition full_disk (d : Z -> list Z) : Prop := forall y, 0 <= y < size -> used d y = true.
Definition crowded (d : Z -> list Z) : Prop := exists y0, forall y, 0 <= y < size -> y <> y0 -> used d y = true.

Lemma full_crowded d : full_disk d -> crowded d.
Proof. intros Hf. exists 0. intros y Hy _. by apply Hf. Qed.

(** [balloc] with no block locked, for slot [n] of the inode. *)
Lemma balloc_set s i d ip bs k n e :
  fstate s i d ip bs k -> 0 <= k ->
  (exists b s', (addr ← balloc (i_dev ip); modify (upd_inode i (set_addr n addr));; mret addr) e s = Ok b e s' /\
     data <= b < size /\ used d b = false /\
     txn s' (take_block sb b d) (add_block b (add_block (map_block sb b) bs)) ∅ /\
     inode_in s' i (set_addr n b ip) /\ fs_sb (k_fs s') = sb /\ others i s' = others i s) \/
  (exists s', (addr ← balloc (i_dev ip); modify (upd_inode i (set_addr n addr));; mret addr) e s =
     Panic "balloc: out of blocks" s' /\ full_disk d).
Proof.
  intros [Ht Hd Hf Hi Hsb Hr] Hk. rewrite (fo_dev d ip Hf).
  destruct (balloc_ok D size start lsz G sb data FG s d bs ∅ e Ht Hd Hsb (locked_none d)) as [(b & s1 & E & Hb & Hu & _ & T & Fr)|(s1 & E & Hall)].
  - by eapply room_balloc.
  - left. exists b, (upd_inode i (set_addr n b) s1). split; [mstep E; by mstep|].
    split_and!; [apply Hb|apply Hb|done|..].
    + by apply txn_inode.
    + apply inode_upd. by eapply inode_rest.
    + change (fs_sb (k_fs s1) = sb). by eapply super_rest.
    + rewrite others_upd. by apply others_rest.
  - right. exists s1. split; [by eapply bind_panic|done].
Qed.

(** Only the block addresses of the inode change. *)
Definition same_fields (ip ip' : inode) : Prop := ip' = set_i_addrs (i_addrs ip') ip.

Lemma same_fields_refl ip : same_fields ip ip.
Proof. by destruct ip. Qed.
Lemma same_fields_trans a b c : same_fields a b -> same_fields b c -> same_fields a c.
Proof. unfold same_fields. intros -> ->. done. Qed.

(** The indirect block, allocated if there is none. *)
Lemma bmap_ind s i d ip bs k e :
  fstate s i d ip bs k -> 0 <= k ->
  (exists ind s' d' ip' bs',
    (if addr_of ip NDIRECT =? 0 then
       addr ← balloc (i_dev ip); modify (upd_inode i (set_addr NDIRECT addr));; mret addr
     else mret (addr_of ip NDIRECT)) e s = Ok ind e s' /\
    fstate s' i d' ip' bs' k /\ extends d ip d' ip' /\ addr_of ip' NDIRECT = ind /\ ind <> 0 /\
    (forall bn, 0 <= bn < MAXFILE -> fblock d' ip' bn = fblock d ip bn) /\ i_size ip' = i_size ip /\
    keeps d ip d' /\ (addr_of ip NDIRECT <> 0 -> ip' = ip) /\ same_fields ip ip' /\ others i s' = others i s /\
    (full_disk d' -> crowded d)) \/
  (exists s', (if addr_of ip NDIRECT =? 0 then
       addr ← balloc (i_dev ip); modify (upd_inode i (set_addr NDIRECT addr));; mret addr
     else mret (addr_of ip NDIRECT)) e s = Panic "balloc: out of blocks" s' /\ full_disk d).
Proof.
  intros Hfs Hk. pose proof Hfs as [Ht Hd Hf Hi Hsb Hr]. destruct (Z.eqb_spec (addr_of ip NDIRECT) 0) as [H0|H0].
  2: { left. exists (addr_of ip NDIRECT), s, d, ip, bs. split_and!; try done; [apply extends_refl|apply same_fields_refl|apply full_crowded]. }
  destruct (balloc_set s i d ip bs k NDIRECT e Hfs Hk) as [(b & s' & E & Hb & Hu & T & Hi' & Hsb' & Ho)|?]; [left|by right].
  destruct (ind_step d ip b Hd Hf Hb Hu H0) as (Hf' & He & Ha & Hfb).
  eexists b, s', (take_block sb b d), _, _. split_and!; [exact E| |done|exact Ha| |done|done|by apply keeps_take|done|done|done|].
  - split; [done|by apply (take_block_ok size start lsz G)|done|done|done|]. rewrite Ha. apply room_in; [left|].
    apply room_in; [right; apply HF; by apply data_lt|]. rewrite H0 in Hr. by apply (room_swap F 0).
  - pose proof (data_lt b Hb). intros ->. destruct (block_one size start lsz G sb data FG).
    pose proof (map_block_bounds size start lsz sb data FG 0 ltac:(done)). lia.
  - intros Hall. exists b. intros y Hy Hne. specialize (Hall y Hy).
    rewrite (used_take size start lsz G sb data FG) in Hall by done. by rewrite (proj2 (Z.eqb_neq _ _) Hne) in Hall.
Qed.

(** What [bmap] returns for block [bn]: its block, allocated and cleared if
    there was none; one more block is logged when that block is written. *)
Record mapped_block (d : Z -> list Z) (ip : inode) (bn a : Z) (d' : Z -> list Z) (ip' : inode) (bs' : list Z) (k : Z)
    : Prop := {
  mb_ext : extends d ip d' ip';
  mb_block : fblock d' ip' bn = a;
  mb_some : a <> 0;
  mb_same : forall bn', 0 <= bn' < MAXFILE -> bn' <> bn -> fblock d' ip' bn' = fblock d ip bn';
  mb_old : fblock d ip bn <> 0 -> fblock d ip bn = a;
  mb_new : fblock d ip bn = 0 -> d' a = zeros BSIZE;
  mb_size : i_size ip' = i_size ip;
  mb_ip : fblock d ip bn <> 0 -> ip' = ip;
  mb_fields : same_fields ip ip';
  mb_keeps : keeps d ip d';
  mb_room : room (addr_of ip' NDIRECT :: F) (add_block a bs') (k - 1)
}.

Lemma in_add_block n bs : n ∈ add_block n bs.
Proof. unfold add_block. case_decide; set_solver. Qed.
Lemma add_block_in n bs : n ∈ bs -> add_block n bs = bs.
Proof. intros Hn. unfold add_block. by rewrite decide_True. Qed.
Lemma add_block_mono n m bs : n ∈ bs -> n ∈ add_block m bs.
Proof. intros Hn. unfold add_block. case_decide; set_solver. Qed.

Lemma data_nonzero b : data <= b < size -> b <> 0.
Proof.
  intros Hb ->. pose proof (data_lt 0 Hb) as H0. destruct (block_one size start lsz G sb data FG).
  pose proof (map_block_bounds size start lsz sb data FG 0 H0). lia.
Qed.

(** A new block for slot [bn]. *)
Lemma new_block_mapped d ip bn b d' ip' bs' k :
  file_ok d ip -> data <= b < size -> used d b = false -> keeps d ip d' ->
  extends d ip d' ip' -> fblock d' ip' bn = b -> fblock d ip bn = 0 -> d' b = zeros BSIZE ->
  (forall bn', 0 <= bn' < MAXFILE -> bn' <> bn -> fblock d' ip' bn' = fblock d ip bn') ->
  i_size ip' = i_size ip -> addr_of ip' NDIRECT = addr_of ip NDIRECT -> same_fields ip ip' -> b ∈ bs' ->
  room (addr_of ip NDIRECT :: F) bs' (k - 1) -> mapped_block d ip bn b d' ip' bs' k.
Proof.
  intros Hf Hb Hu Hkp He Eb E0 Hz Hsame Hsz Ha Hsf Hin Hr. split; try done; [by apply data_nonzero|].
  by rewrite add_block_in, Ha.
Qed.

Lemma direct_mapped s i d ip bs k bn e :
  fstate s i d ip bs k -> 1 <= k -> 0 <= bn < NDIRECT -> addr_of ip bn = 0 ->
  (exists b s' d' ip' bs',
     (addr ← balloc (i_dev ip); modify (upd_inode i (set_addr bn addr));; mret addr) e s = Ok b e s' /\
     fstate s' i d' ip' bs' (k - 1) /\ mapped_block d ip bn b d' ip' bs' k /\ others i s' = others i s) \/
  (exists s', (addr ← balloc (i_dev ip); modify (upd_inode i (set_addr bn addr));; mret addr) e s =
     Panic "balloc: out of blocks" s' /\ full_disk d).
Proof.
  intros Hfs Hk Hbn H0. pose proof Hfs as [Ht Hd Hf Hi Hsb Hr].
  destruct (balloc_set s i d ip bs k bn e Hfs ltac:(lia)) as [(b & s' & E & Hb & Hu & T & Hi' & Hsb' & Ho)|?]; [left|by right].
  assert (E0 : fblock d ip bn = 0) by (unfold fblock; by rewrite (proj2 (Z.ltb_lt bn NDIRECT)) by lia).
  destruct (direct_step d ip b Hd Hf Hb Hu bn Hbn E0) as (Hf' & He & Ea & Hsame).
  assert (Ei : addr_of (set_addr bn b ip) NDIRECT = addr_of ip NDIRECT).
  { rewrite addr_set by (apply Hf || fsz). by rewrite (proj2 (Z.eqb_neq _ _)) by lia. }
  assert (Hroom : room (addr_of ip NDIRECT :: F) (add_block b (add_block (map_block sb b) bs)) (k - 1)).
  { apply room_out. replace (k - 1 + 1) with k by lia. apply room_in; [|done]. right. apply HF. by apply data_lt. }
  exists b, s', (take_block sb b d), (set_addr bn b ip), (add_block b (add_block (map_block sb b) bs)).
  split_and!; [exact E| | |done].
  - split; [done|by apply (take_block_ok size start lsz G)|done|done|done|by rewrite Ei].
  - eapply new_block_mapped; try done; [by apply keeps_take|unfold take_block; by rewrite zset_eq|apply in_add_block].
Qed.

(** The entry of [bn] in the indirect block, allocated if there is none. *)
Definition bmap_entry (dev ind j : Z) : M Z :=
  bp ← bread dev ind;
  d ← bdata bp;
  addr ← (if get32 d (4 * j) =? 0 then
            addr ← balloc dev;
            d ← bdata bp;
            set_bdata bp (put32 d (4 * j) addr);;
            log_write bp;;
            mret addr
          else mret (get32 d (4 * j)));
  brelse bp;;
  mret addr.

Lemma entry_found s i d ip bs k bn e :
  fstate s i d ip bs k -> 1 <= k -> NDIRECT <= bn < MAXFILE -> addr_of ip NDIRECT <> 0 -> fblock d ip bn <> 0 ->
  exists s', bmap_entry 1 (addr_of ip NDIRECT) (bn - NDIRECT) e s = Ok (fblock d ip bn) e s' /\
    fstate s' i d ip bs k /\ mapped_block d ip bn (fblock d ip bn) d ip bs k /\ others i s' = others i s.
Proof.
  intros Hfs Hk Hbn Hi0 Hb0. pose proof Hfs as [Ht Hd Hf Hi Hsb Hr]. destruct (ind_used d ip Hf Hi0) as [Hir Hiu].
  set (ind := addr_of ip NDIRECT) in *.
  assert (Eb : get32 (d ind) (4 * (bn - NDIRECT)) = fblock d ip bn).
  { unfold fblock. fold ind. by rewrite (proj2 (Z.ltb_ge _ _)), (proj2 (Z.eqb_neq ind 0)) by (done || lia). }
  destruct (txn_bread D size start lsz G s d bs ∅ ind e Ht) as (b & s1 & E1 & T1 & F1);
    [by apply data_lt|done| |].
  { pose proof (room_nodup _ bs k (txn_nodup _ _ _ _ Ht) Hr ltac:(lia)) as [_ Hr2].
    rewrite map_size_empty. unfold NBUF in *. lia. }
  unfold bmap_entry. mstep E1. assert (HB : <[ind := b]> (∅ : gmap Z nat) !! ind = Some b) by apply lookup_insert_eq.
  mstep (txn_bdata size start lsz s1 d bs _ ind b e T1 HB). rewrite Eb, (proj2 (Z.eqb_neq _ 0) Hb0). mstep.
  destruct (txn_brelse size start lsz s1 d bs _ ind b e T1 HB) as (s2 & E2 & T2 & F2). mstep E2.
  rewrite delete_insert_id in T2 by done. assert (Fr : fsrest s2 = fsrest s) by congruence.
  exists s2. split_and!; [done| | |by apply others_rest].
  - split; try done; [by eapply inode_rest|by eapply super_rest].
  - split; try done; [apply extends_refl|apply same_fields_refl|]. fold ind. apply room_out. by replace (k - 1 + 1) with k by lia.
Qed.

Lemma size_single (ind : Z) (b : nat) : base.size (<[ind := b]> (∅ : gmap Z nat)) = 1%nat.
Proof. rewrite map_size_insert_None by done. by rewrite map_size_empty. Qed.

Lemma locked_single d ind b : data <= ind < size -> used d ind = true -> locked_ok size sb data d (<[ind := b]> ∅).
Proof.
  intros Hr Hu. split; [by rewrite size_single|]. intros n [c Hn].
  apply lookup_insert_Some in Hn as [[<- _]|[_ Hn]]; [done|]. by rewrite lookup_empty in Hn.
Qed.

(** The disk after a new entry was made. *)
Lemma entry_disk_ok d ind x : disk_ok d -> data <= ind < size -> length x = Z.to_nat BSIZE -> disk_ok (zset d ind x).
Proof.
  intros [Hl Hm Hs] Hi Hx. pose proof (data_lt ind Hi) as Hir.
  pose proof (map_block_bounds size start lsz sb data FG) as Hmb. pose proof (block_one size start lsz G sb data FG).
  split.
  - intros n Hn. unfold zset. zcase; [done|by apply Hl].
  - intros b Hb. destruct FG. unfold FsBlocks.used. pose proof (Hmb b ltac:(lia)). rewrite zset_ne by lia. by apply Hm.
  - pose proof (Hmb ind Hir). rewrite zset_ne by lia. done.
Qed.

Lemma entry_new s i d ip bs k bn e :
  fstate s i d ip bs k -> 1 <= k -> NDIRECT <= bn < MAXFILE -> addr_of ip NDIRECT <> 0 -> fblock d ip bn = 0 ->
  (exists b s' d' bs', bmap_entry 1 (addr_of ip NDIRECT) (bn - NDIRECT) e s = Ok b e s' /\
    fstate s' i d' ip bs' (k - 1) /\ mapped_block d ip bn b d' ip bs' k /\ others i s' = others i s) \/
  (exists s', bmap_entry 1 (addr_of ip NDIRECT) (bn - NDIRECT) e s = Panic "balloc: out of blocks" s' /\ full_disk d).
Proof.
  intros Hfs Hk Hbn Hi0 Hb0. pose proof Hfs as [Ht Hd Hf Hi Hsb Hr]. destruct (ind_used d ip Hf Hi0) as [Hir Hiu].
  pose proof (room_nodup _ bs k (txn_nodup _ _ _ _ Ht) Hr ltac:(lia)) as [_ Hcap].
  set (ind := addr_of ip NDIRECT) in *.
  assert (Eb : get32 (d ind) (4 * (bn - NDIRECT)) = 0).
  { rewrite <- Hb0. unfold fblock. fold ind. by rewrite (proj2 (Z.ltb_ge _ _)), (proj2 (Z.eqb_neq ind 0)) by (done || lia). }
  destruct (txn_bread D size start lsz G s d bs ∅ ind e Ht) as (bp & s1 & E1 & T1 & F1);
    [by apply data_lt|done|rewrite map_size_empty; unfold NBUF in *; lia|].
  set (B := <[ind := bp]> (∅ : gmap Z nat)) in *. assert (HB : B !! ind = Some bp) by apply lookup_insert_eq.
  unfold bmap_entry. destruct (balloc_ok D size start lsz G sb data FG s1 d bs B e T1 Hd (super_rest _ _ F1 Hsb)
    (locked_single d ind bp Hir Hiu)) as [(b & s2 & E2 & Hb & Hu & _ & T2 & F2)|(s2 & E2 & Hall)].
  { eapply room_balloc; [exact HF|exact T1|exact Hr|lia]. }
  2: { right. exists s2. split; [|done]. mstep E1. mstep (txn_bdata size start lsz s1 d bs B ind bp e T1 HB). rewrite Eb, Z.eqb_refl.
       rewrite bind_assoc. by eapply bind_panic. }
  left. destruct (entry_step d ip b Hd Hf Hb Hu bn Hbn Hb0 Hi0) as (Hf' & He & Ea & Hsame). fold ind in Hf', He, Ea, Hsame.
  set (x := put32 (d ind) (4 * (bn - NDIRECT)) b) in *. set (d' := zset (take_block sb b d) ind x) in *.
  set (bs1 := add_block b (add_block (map_block sb b) bs)) in *.
  assert (Hroom : room (ind :: F) bs1 (k - 1)).
  { unfold bs1. apply room_out. replace (k - 1 + 1) with k by lia. apply room_in; [|done]. right. apply HF. by apply data_lt. }
  destruct (txn_update D size start lsz G s2 _ bs1 B ind bp x e T2 HB) as (s2' & s3 & E2' & E3 & T3 & F3).
  { by apply (data_home size start lsz G sb data FG). }
  { eapply room_nodup; [by eapply txn_nodup|exact Hroom|lia]. }
  destruct (txn_brelse size start lsz s3 _ _ B ind bp e T3 HB) as (s4 & E4 & T4 & F4).
  unfold B in T4. rewrite delete_insert_id in T4 by done. assert (Fr : fsrest s4 = fsrest s) by congruence.
  assert (Hlen : length x = Z.to_nat BSIZE).
  { pose proof (dk_len _ _ _ _ Hd ind (data_lt ind Hir)) as Hl. unfold x. rewrite put32_length; rewrite ?Hl; fsz. }
  exists b, s4, d', (add_block ind bs1). split_and!; [| | |by apply others_rest].
  - mstep E1. mstep (txn_bdata size start lsz s1 d bs B ind bp e T1 HB). rewrite Eb, Z.eqb_refl, !bind_assoc. mstep E2.
    rewrite !bind_assoc. mstep (txn_bdata size start lsz s2 _ bs1 B ind bp e T2 HB). rewrite take_used by done.
    rewrite bind_assoc. fold x. mstep E2'. rewrite bind_assoc. mstep E3. mstep. mstep E4. done.
  - split; [done| |done|by eapply inode_rest|by eapply super_rest|by apply room_in; [left|]].
    apply entry_disk_ok; [by apply (take_block_ok size start lsz G)|done|done].
  - eapply new_block_mapped; try done.
    + intros bn' Hbn' H0'. unfold d'. rewrite zset_ne; [by apply keeps_take|].
      rewrite <- (fslot_block d) in * by lia. intros E. unfold ind in E. rewrite <- (fslot_ind d ip) in E.
      apply (fo_inj d ip Hf) in E; [lia|lia|fsz|done].
    + unfold d', take_block. rewrite zset_ne by (intros ->; congruence). by rewrite zset_eq.
    + apply same_fields_refl.
    + by apply add_block_mono, in_add_block.
    + by apply room_in; [left|].
Qed.

Lemma fstate_le s i d ip bs k k' : fstate s i d ip bs k -> k' <= k -> fstate s i d ip bs k'.
Proof. intros [? ? ? ? ? ?] Hk. split; try done. by eapply room_le. Qed.

Lemma keeps_trans d1 ip1 d2 ip2 d3 :
  keeps d1 ip1 d2 -> keeps d2 ip2 d3 -> (forall bn, 0 <= bn < MAXFILE -> fblock d1 ip1 bn <> 0 -> fblock d2 ip2 bn = fblock d1 ip1 bn) ->
  keeps d1 ip1 d3.
Proof. intros K1 K2 E bn Hbn H0. rewrite <- (K1 bn Hbn H0), <- (E bn Hbn H0). apply K2; [done|by rewrite E]. Qed.

Lemma mapped_after d0 ip0 d ip bn a d' ip' bs' k :
  extends d0 ip0 d ip -> (forall bn, 0 <= bn < MAXFILE -> fblock d ip bn = fblock d0 ip0 bn) ->
  i_size ip = i_size ip0 -> keeps d0 ip0 d -> (fblock d0 ip0 bn <> 0 -> ip = ip0) -> same_fields ip0 ip -> file_ok d' ip' -> 0 <= bn < MAXFILE ->
  mapped_block d ip bn a d' ip' bs' k -> mapped_block d0 ip0 bn a d' ip' bs' k.
Proof.
  intros He Hfb Hsz Hkp Hip Hsf Hf Hbn [E Eb H0 Hs Ho Hn Hz Hpp Hsf' Hk Hr]. split; try done.
  - by eapply extends_trans.
  - intros bn' Hbn' Hne. by rewrite Hs, Hfb.
  - by rewrite <- Hfb.
  - by rewrite <- Hfb.
  - congruence.
  - intros H1. rewrite Hpp by (by rewrite Hfb). by apply Hip.
  - by eapply same_fields_trans.
  - eapply keeps_trans; [exact Hkp|exact Hk|]. intros bn' Hbn' _. by apply Hfb.
Qed.

Lemma bmap_run i bn e s ip :
  inode_in s i ip ->
  bmap i bn e s =
  if bn <? NDIRECT then
    (if addr_of ip bn =? 0 then addr ← balloc (i_dev ip); modify (upd_inode i (set_addr bn addr));; mret addr
     else mret (addr_of ip bn)) e s
  else if bn - NDIRECT <? NINDIRECT then
    (addr ← (if addr_of ip NDIRECT =? 0 then
               addr ← balloc (i_dev ip); modify (upd_inode i (set_addr NDIRECT addr));; mret addr
             else mret (addr_of ip NDIRECT));
     bmap_entry (i_dev ip) addr (bn - NDIRECT)) e s
  else Panic "bmap: out of range" s.
Proof. intros Hi. unfold bmap. mstep inode_at_ok by exact Hi. destruct (bn <? NDIRECT); [done|]. by destruct (bn - NDIRECT <? NINDIRECT). Qed.

Lemma bmap_ok s i d ip bs k bn e :
  fstate s i d ip bs k -> 1 <= k -> 0 <= bn < MAXFILE ->
  (exists a s' d' ip' bs', bmap i bn e s = Ok a e s' /\ fstate s' i d' ip' bs' (k - 1) /\
     mapped_block d ip bn a d' ip' bs' k /\ others i s' = others i s) \/
  (exists s', bmap i bn e s = Panic "balloc: out of blocks" s' /\ crowded d).
Proof.
  intros Hfs Hk Hbn. pose proof Hfs as [Ht Hd Hf Hi Hsb Hr]. rewrite (bmap_run i bn e s ip Hi).
  destruct (Z.ltb_spec bn NDIRECT) as [Hlt|Hge].
  - destruct (Z.eqb_spec (addr_of ip bn) 0) as [H0|H0]; [|].
    { destruct (direct_mapped s i d ip bs k bn e) as [?|(s' & E & Hall)]; try (done || lia); [by left|].
      right. exists s'. split; [done|by apply full_crowded]. }
    assert (E : fblock d ip bn = addr_of ip bn) by (unfold fblock; by rewrite (proj2 (Z.ltb_lt bn NDIRECT)) by done).
    left. exists (addr_of ip bn), s, d, ip, bs. split_and!; [done|apply (fstate_le s i d ip bs k); [done|lia]| |done].
    split; try done; [apply extends_refl|by rewrite E|apply same_fields_refl|]. apply room_out. by replace (k - 1 + 1) with k by lia.
  - rewrite (proj2 (Z.ltb_lt _ _)) by fsz. rewrite (fo_dev d ip Hf).
    pose proof (bmap_ind s i d ip bs k e Hfs ltac:(lia)) as Hind. rewrite (fo_dev d ip Hf) in Hind.
    destruct Hind as [(ind & s1 & d1 & ip1 & bs1 & E1 & Hfs1 & He1 & Ha & Hi0 & Hfb & Hsz & Hkp & Hip & Hsf & Ho1 & Hcr)|(s1 & E1 & Hall)].
    2: { right. exists s1. split; [by eapply bind_panic|by apply full_crowded]. }
    rewrite (bind_ok _ _ _ _ _ _ _ E1). subst ind.
    assert (Hip' : fblock d ip bn <> 0 -> ip1 = ip).
    { intros Hb. apply Hip. intros Hz. apply Hb. unfold fblock. by rewrite (proj2 (Z.ltb_ge _ _) Hge), Hz. }
    destruct (Z.eq_dec (fblock d1 ip1 bn) 0) as [H0|H0].
    + destruct (entry_new s1 i d1 ip1 bs1 k bn e Hfs1 Hk) as [(b & s2 & d2 & bs2 & E2 & Hfs2 & Hmb & Ho2)|(s2 & E2 & Hall)]; [lia|done|done| |right; exists s2; by auto].
      left. exists b, s2, d2, ip1, bs2. split_and!; [done|done| |congruence]. eapply mapped_after; try done. apply Hfs2.
    + destruct (entry_found s1 i d1 ip1 bs1 k bn e Hfs1 Hk) as (s2 & E2 & Hfs2 & Hmb & Ho2); [lia|done|done|].
      left. eexists _, s2, d1, ip1, bs1. split_and!; [done|apply (fstate_le s2 i d1 ip1 bs1 k); [done|lia]| |congruence].
      eapply mapped_after; try done. apply Hfs2.
Qed.
End FsFile.
