(* ===== verification/FsIO.v ===== *)
(** * Reading and writing files (fs.c)

    [writei] writes a range of bytes of a file and nothing else of it, and
    [readi] reads one, whatever blocks have to be allocated on the way. *)

From stdpp Require Import base list gmap strings fin_maps list_numbers.
From S2P Require Import Prelude Memory Bytes Str Kernel KMonad Boot Mmu Spinlock Sched Ide Ring Bio BioSpec Log LogSpec Fs FsBlocks FsInode FsFile.

Section FsIO.
Context (D : Disk) `{DevOps} (size : Z) {HD : DiskOk D size}.
Context (start lsz : Z) (G : geometry start lsz size).
Context (sb : superblock) (data : Z).
Hypothesis FG : fs_geom size start lsz sb data.
Context (F : list Z).
Hypothesis HF : map_blocks_in size sb F.
Hypothesis HF0 : 0 ∈ F.

Notation txn := (txn size start lsz).
Notation used := (used sb).
Notation disk_ok := (disk_ok size sb data).
Notation file_ok := (file_ok size sb data).
Notation extends := (extends size sb data).
Notation fstate := (fstate size start lsz sb data F).
Notation room := (room lsz).

(** ** Writing *)

(** New contents [x] for block [bn] of the file. *)
Lemma write_step d ip bn x :
  disk_ok d -> file_ok d ip -> 0 <= bn < MAXFILE -> fblock d ip bn <> 0 -> length x = Z.to_nat BSIZE ->
  let d' := zset d (fblock d ip bn) x in
  disk_ok d' /\ file_ok d' ip /\ extends d ip d' ip /\ forall bn', fblock d' ip bn' = fblock d ip bn'.
Proof.
  intros Hd Hf Hbn H0 Hx d'. set (a := fblock d ip bn) in *.
  assert (Ea : fslot d ip bn = a) by (apply fslot_block; lia).
  destruct (fo_own _ _ _ _ _ Hf bn ltac:(lia)) as [Har Hau]; [by rewrite Ea|]. rewrite Ea in Har, Hau.
  assert (Hia : addr_of ip NDIRECT <> a).
  { intros E. rewrite <- (fslot_ind d ip), <- Ea in E. symmetry in E.
    apply (fo_inj _ _ _ _ _ Hf) in E; [lia|lia|rewrite MAXFILE_eq; lia|by rewrite Ea]. }
  assert (Hfb : forall k, fblock d' ip k = fblock d ip k) by (intros k; unfold fblock, d'; by rewrite zset_ne).
  assert (Hsl : forall k, fslot d' ip k = fslot d ip k) by (intros k; unfold fslot; by rewrite Hfb).
  pose proof (map_block_bounds size start lsz sb data FG) as Hmb.
  assert (HU : forall n, 0 <= n < size -> used d' n = used d n).
  { intros n Hn. unfold FsBlocks.used, d'. pose proof (Hmb n Hn). by rewrite zset_ne by lia. }
  split_and!; [by apply (entry_disk_ok size start lsz G)| | |done].
  - destruct Hf as [? ? Hown Hinj ? Hfull]. split; try done.
    + intros k Hk. rewrite Hsl. intros Hn. destruct (Hown k Hk Hn) as [Hr Hu]. split; [done|].
      rewrite HU; [done|]. by apply (data_lt size start lsz G sb data FG).
    + intros k k' Hk Hk'. rewrite !Hsl. by apply Hinj.
    + intros k. rewrite Hfb. apply Hfull.
  - split.
    + intros n Hn E. by rewrite HU.
    + intros n Hn Hun Ho. unfold d'. rewrite zset_ne; [done|]. intros ->. apply Ho. split; [done|]. exists bn. split; [lia|done].
    + intros n Hn. unfold d'. pose proof (Hmb a (data_lt size start lsz G sb data FG a Har)). by rewrite zset_ne by lia.
    + intros n (Hn & k & Hk & E). left. split; [done|]. exists k. by rewrite <- Hsl.
Qed.

(** The bytes [src] are at [off], the others are as before. *)
Record written (d : Z -> list Z) (ip : inode) (off : Z) (src : list Z) (d' : Z -> list Z) (ip' : inode) : Prop := {
  wr_ext : extends d ip d' ip';
  wr_size : i_size ip' = i_size ip;
  wr_ip : (forall x, off <= x < off + Z.of_nat (length src) -> fblock d ip (x / BSIZE) <> 0) -> ip' = ip;
  wr_fields : same_fields ip ip';
  wr_new : forall x, off <= x < off + Z.of_nat (length src) ->
    fblock d' ip' (x / BSIZE) <> 0 /\ fbyte d' ip' x = byte_at src (x - off);
  wr_old : forall x, 0 <= x < MAXFILE * BSIZE -> ~ (off <= x < off + Z.of_nat (length src)) ->
    fblock d ip (x / BSIZE) <> 0 -> fblock d' ip' (x / BSIZE) <> 0 /\ fbyte d' ip' x = fbyte d ip x
}.

Lemma written_nil d ip off : written d ip off [] d ip.
Proof. split; [apply extends_refl|done|done|apply same_fields_refl|simpl; lia|done]. Qed.

Lemma written_app d ip off c1 c2 d1 ip1 d2 ip2 :
  0 <= off -> off + Z.of_nat (length (c1 ++ c2)) <= MAXFILE * BSIZE -> file_ok d2 ip2 ->
  written d ip off c1 d1 ip1 -> written d1 ip1 (off + Z.of_nat (length c1)) c2 d2 ip2 ->
  written d ip off (c1 ++ c2) d2 ip2.
Proof.
  intros H0 Hmax Hf2 [E1 S1 P1 Q1 N1 O1] [E2 S2 P2 Q2 N2 O2]. split; rewrite ?length_app in *.
  - by eapply (extends_trans size start lsz G sb data FG).
  - congruence.
  - intros Hb. rewrite P2; [apply P1; intros x Hx; apply Hb; lia|]. intros x Hx.
    destruct (O1 x ltac:(lia) ltac:(lia)) as [? _]; [apply Hb; lia|done].
  - by eapply same_fields_trans.
  - intros x Hx. destruct (Z_lt_le_dec x (off + Z.of_nat (length c1))) as [Hlt|Hge].
    + destruct (N1 x ltac:(lia)) as [Hb1 Hv1]. destruct (O2 x ltac:(lia) ltac:(lia) Hb1) as [Hb2 Hv2].
      split; [done|]. rewrite Hv2, Hv1. unfold byte_at. by rewrite app_nth1 by lia.
    + destruct (N2 x ltac:(lia)) as [Hb2 Hv2]. split; [done|]. rewrite Hv2. unfold byte_at.
      rewrite app_nth2 by lia. f_equal. lia.
  - intros x Hx Hn Hb. destruct (O1 x Hx ltac:(lia) Hb) as [Hb1 Hv1].
    destruct (O2 x Hx ltac:(lia) Hb1) as [Hb2 Hv2]. split; [done|]. congruence.
Qed.


Lemma byte_at_splice x o c k :
  0 <= o -> o + Z.of_nat (length c) <= Z.of_nat (length x) -> 0 <= k ->
  byte_at (splice x o c) k = if decide (o <= k < o + Z.of_nat (length c)) then byte_at c (k - o) else byte_at x k.
Proof.
  intros Ho Hl Hk. case_decide as Hd.
  - replace k with (o + (k - o)) at 1 by lia. apply byte_at_splice_eq; lia.
  - apply byte_at_splice_ne; lia.
Qed.

Lemma BSIZE_pos : 0 < BSIZE.
Proof. done. Qed.

Lemma block_of_range x : 0 <= x < MAXFILE * BSIZE -> 0 <= x / BSIZE < MAXFILE.
Proof. rewrite MAXFILE_eq. unfold BSIZE. intros Hx. Z.div_mod_to_equations. lia. Qed.

(** Writing [c] into the block of [off], which [bmap] has just found. *)
Lemma write_in_block d ip off c a d1 ip1 bs1 k :
  0 <= off < MAXFILE * BSIZE -> off mod BSIZE + Z.of_nat (length c) <= BSIZE -> (0 < length c)%nat ->
  disk_ok d1 -> file_ok d1 ip1 -> mapped_block size lsz sb data F d ip (off / BSIZE) a d1 ip1 bs1 k ->
  let d2 := zset d1 a (splice (d1 a) (off mod BSIZE) c) in
  disk_ok d2 /\ file_ok d2 ip1 /\ written d ip off c d2 ip1.
Proof.
  intros Hoff Hc Hc0 Hd1 Hf1 [Ext Eb H0 Hsame Hold Hnew Hsz Hip Hsf Hkp _] d2. pose proof (block_of_range off Hoff) as Hbn.
  assert (Eb' : fslot d1 ip1 (off / BSIZE) = a) by (rewrite fslot_block by lia; done).
  destruct (fo_own _ _ _ _ _ Hf1 (off / BSIZE) ltac:(lia)) as [Har _]; [by rewrite Eb'|]. rewrite Eb' in Har.
  pose proof (dk_len _ _ _ _ Hd1 a (data_lt size start lsz G sb data FG a Har)) as Hlen.
  pose proof (Z.mod_pos_bound off BSIZE BSIZE_pos) as Hmod.
  assert (Hl2 : length (splice (d1 a) (off mod BSIZE) c) = Z.to_nat BSIZE)
    by (rewrite splice_length; [done|lia|rewrite Hlen; unfold BSIZE in *; lia]).
  pose proof (write_step d1 ip1 (off / BSIZE) _ Hd1 Hf1 Hbn ltac:(by rewrite Eb) Hl2) as (Hd2 & Hf2 & Ext2 & Hfb).
  rewrite Eb in Hd2, Hf2, Ext2, Hfb. fold d2 in Hd2, Hf2, Ext2, Hfb.
  assert (Hbyte : forall y, 0 <= y -> byte_at (splice (d1 a) (off mod BSIZE) c) y =
    if decide (off mod BSIZE <= y < off mod BSIZE + Z.of_nat (length c)) then byte_at c (y - off mod BSIZE)
    else byte_at (d1 a) y).
  { intros y Hy. apply byte_at_splice; [lia|rewrite Hlen; unfold BSIZE in *; lia|done]. }
  split_and!; [done|done|]. split.
  - by eapply (extends_trans size start lsz G sb data FG).
  - done.
  - intros Hb. apply Hip, Hb. lia.
  - done.
  - intros x Hx. assert (Ex : x / BSIZE = off / BSIZE /\ x mod BSIZE = off mod BSIZE + (x - off))
      by (unfold BSIZE in *; Z.div_mod_to_equations; lia). destruct Ex as [Ex Em].
    unfold fbyte. rewrite Ex, Em, Hfb, Eb. split; [done|]. unfold d2. rewrite zset_eq, Hbyte by lia.
    rewrite decide_True by lia. f_equal. lia.
  - intros x Hx Hnx Hb. pose proof (block_of_range x Hx) as Hbx. unfold fbyte. rewrite !Hfb.
    destruct (Z.eq_dec (x / BSIZE) (off / BSIZE)) as [Ex|Ex].
    + rewrite Ex in *. rewrite Eb. split; [done|]. unfold d2. rewrite zset_eq, Hbyte by (apply Z.mod_pos_bound; done).
      rewrite decide_False by (revert Ex; unfold BSIZE in *; Z.div_mod_to_equations; lia).
      rewrite <- (Hold Hb) at 1. rewrite Hkp by done. done.
    + rewrite (Hsame (x / BSIZE) Hbx Ex). split; [done|]. unfold d2. rewrite zset_ne; [by rewrite Hkp|].
      intros E. apply Ex. apply (fo_inj _ _ _ _ _ Hf1); [lia|lia|..]; rewrite !fslot_block by lia;
        rewrite (Hsame (x / BSIZE) Hbx Ex); [done|congruence].
Qed.

(** One turn of the loop of [writei], before what follows it. *)
Lemma write_turn s i d ip bs k off c e :
  fstate s i d ip bs k -> 1 <= k -> 0 <= off < MAXFILE * BSIZE -> off mod BSIZE + Z.of_nat (length c) <= BSIZE ->
  (0 < length c)%nat ->
  (exists s' d' ip' bs', (forall A (K : M A),
     (blk ← bmap i (off / BSIZE);
      ip ← inode_at i;
      bp ← bread (i_dev ip) blk;
      x ← bdata bp;
      set_bdata bp (splice x (off mod BSIZE) c);;
      log_write bp;;
      brelse bp;; K) e s = K e s') /\
     fstate s' i d' ip' bs' (k - 1) /\ written d ip off c d' ip' /\ others i s' = others i s) \/
  (exists s', forall A (K : M A),
     (blk ← bmap i (off / BSIZE);
      ip ← inode_at i;
      bp ← bread (i_dev ip) blk;
      x ← bdata bp;
      set_bdata bp (splice x (off mod BSIZE) c);;
      log_write bp;;
      brelse bp;; K) e s = Panic "balloc: out of blocks" s' /\ crowded size sb d).
Proof.
  intros Hfs Hk Hoff Hc Hc0. pose proof (block_of_range off Hoff) as Hbn.
  destruct (bmap_ok D size start lsz G sb data FG F HF HF0 s i d ip bs k (off / BSIZE) e Hfs Hk Hbn)
    as [(a & s1 & d1 & ip1 & bs1 & E1 & Hfs1 & Hmb & Ho1)|(s1 & E1 & Hcr)].
  2: { right. exists s1. intros A K. split; [by eapply bind_panic|done]. }
  left. pose proof Hfs1 as [Ht1 Hd1 Hf1 Hi1 Hsb1 Hr1].
  destruct (write_in_block d ip off c a d1 ip1 bs1 k Hoff Hc Hc0 Hd1 Hf1 Hmb) as (Hd2 & Hf2 & Hw).
  assert (Har : data <= a < size).
  { destruct Hmb as [_ Eb H0 _ _ _ _ _ _ _ _]. rewrite <- (fslot_block d1 ip1) in Eb by lia. rewrite <- Eb.
    apply (fo_own _ _ _ _ _ Hf1); [lia|by rewrite Eb]. }
  pose proof (room_nodup lsz _ bs1 (k - 1) (txn_nodup _ _ _ _ _ _ _ Ht1) Hr1 ltac:(lia)) as Hroomy.
  destruct (txn_bread D size start lsz G s1 d1 bs1 ∅ a e Ht1) as (bp & s2 & E2 & T2 & F2);
    [by apply (data_lt size start lsz G sb data FG)|done|rewrite map_size_empty; destruct Hroomy; unfold NBUF in *; lia|].
  assert (HB : <[a := bp]> (∅ : gmap Z nat) !! a = Some bp) by apply lookup_insert_eq.
  set (x := splice (d1 a) (off mod BSIZE) c) in *.
  destruct (txn_update D size start lsz G s2 d1 bs1 _ a bp x e T2 HB) as (s3 & s4 & E3 & E4 & T4 & F4);
    [by apply (data_home size start lsz G sb data FG)|done|].
  destruct (txn_brelse size start lsz s4 _ _ _ a bp e T4 HB) as (s5 & E5 & T5 & F5).
  rewrite delete_insert_id in T5 by done. assert (Fr : fsrest s5 = fsrest s1) by congruence.
  exists s5, (zset d1 a x), ip1, (add_block a bs1). split_and!; [| |done|].
  - intros A K. mstep E1. mstep inode_at_ok by exact Hi1. rewrite (fo_dev _ _ _ _ _ Hf1). mstep E2.
    mstep (txn_bdata size start lsz s2 d1 bs1 _ a bp e T2 HB). fold x. mstep E3. mstep E4. by mstep E5.
  - split; [done|done|done|by eapply inode_rest|by eapply fsrest_sb|apply Hmb].
  - rewrite <- Ho1. by apply others_rest.
Qed.

(** The number of blocks of a range. *)
Definition nblocks (off len : Z) : Z := if len <=? 0 then 0 else (off + len - 1) / BSIZE - off / BSIZE + 1.

Lemma nblocks_turn off len : 0 <= off -> 0 < len ->
  let m := Z.min len (BSIZE - off mod BSIZE) in
  0 < m /\ m <= len /\ off mod BSIZE + m <= BSIZE /\ nblocks off len = nblocks (off + m) (len - m) + 1.
Proof.
  intros Hoff Hlen m. pose proof (Z.mod_pos_bound off BSIZE BSIZE_pos). unfold nblocks.
  rewrite (proj2 (Z.leb_gt len 0)) by lia. split; [lia|]. split; [lia|]. split; [lia|].
  destruct (Z.leb_spec (len - m) 0) as [Hz|Hz]; unfold m, BSIZE in *; Z.div_mod_to_equations; lia.
Qed.

Lemma nblocks_nonneg off len : 0 <= off -> 0 <= nblocks off len.
Proof. intros. unfold nblocks. zcase; unfold BSIZE in *; Z.div_mod_to_equations; lia. Qed.

Lemma writei_loop_ok fuel : forall s i d ip bs k tot off n src e,
  fstate s i d ip bs k -> Z.of_nat (length src) = n - tot -> 0 <= off ->
  off + (n - tot) <= MAXFILE * BSIZE -> nblocks off (n - tot) <= k -> nblocks off (n - tot) <= Z.of_nat fuel ->
  (exists s' d' ip' bs', writei_loop fuel i tot off n src e s = Ok (off + (n - tot)) e s' /\
     fstate s' i d' ip' bs' (k - nblocks off (n - tot)) /\ written d ip off src d' ip' /\ others i s' = others i s) \/
  (exists s', writei_loop fuel i tot off n src e s = Panic "balloc: out of blocks" s' /\
     1 <= nblocks off (n - tot) /\ (nblocks off (n - tot) <= 1 -> crowded size sb d)).
Proof.
  induction fuel as [|fuel IH]; intros s i d ip bs k tot off n src e Hfs Hsrc Hoff Hmax Hk Hfuel.
  - assert (Hz : n - tot = 0).
    { destruct (Z.eq_dec (n - tot) 0) as [|Hne]; [done|]. destruct (nblocks_turn off (n - tot) Hoff ltac:(lia)) as (_ & _ & _ & Hb).
      pose proof (nblocks_nonneg (off + Z.min (n - tot) (BSIZE - off mod BSIZE)) (n - tot - Z.min (n - tot) (BSIZE - off mod BSIZE))).
      pose proof (Z.mod_pos_bound off BSIZE BSIZE_pos). lia. }
    destruct src; [|simpl in Hsrc; lia]. left. exists s, d, ip, bs. cbn. rewrite Hz, Z.add_0_r. split; [done|].
    split; [|split; [apply written_nil|done]]. eapply fstate_le; [done|]. pose proof (nblocks_nonneg off 0 Hoff). lia.
  - cbn [writei_loop]. destruct (Z.ltb_spec tot n) as [Hlt|Hge].
    2: { destruct src; [|simpl in Hsrc; lia]. left. exists s, d, ip, bs. assert (n - tot = 0) as -> by (simpl in Hsrc; lia).
         rewrite Z.add_0_r. split; [done|]. split; [|split; [apply written_nil|done]]. eapply fstate_le; [done|].
         pose proof (nblocks_nonneg off 0 Hoff). lia. }
    destruct (nblocks_turn off (n - tot) Hoff ltac:(lia)) as (Hm0 & Hml & Hmb & Hnb).
    set (m := Z.min (n - tot) (BSIZE - off mod BSIZE)) in *. cbn zeta.
    pose proof (nblocks_nonneg (off + m) (n - tot - m) ltac:(lia)).
    assert (Hlen : Z.of_nat (length (take (Z.to_nat m) src)) = m) by (rewrite length_take; lia).
    destruct (write_turn s i d ip bs k off (take (Z.to_nat m) src) e Hfs ltac:(lia) ltac:(lia) ltac:(lia) ltac:(lia))
      as [(s1 & d1 & ip1 & bs1 & E1 & Hfs1 & Hw1 & Ho1)|(s1 & E1)].
    2: { right. exists s1. destruct (E1 _ (writei_loop fuel i (tot + m) (off + m) n (drop (Z.to_nat m) src))). split_and!; [done|lia|done]. }
    rewrite E1. destruct (IH s1 i d1 ip1 bs1 (k - 1) (tot + m) (off + m) n (drop (Z.to_nat m) src) e Hfs1)
      as [(s2 & d2 & ip2 & bs2 & E2 & Hfs2 & Hw2 & Ho2)|(s2 & E2 & H1 & _)].
    + rewrite length_drop. lia.
    + lia.
    + lia.
    + replace (n - (tot + m)) with (n - tot - m) by lia. lia.
    + replace (n - (tot + m)) with (n - tot - m) by lia. lia.
    + left. exists s2, d2, ip2, bs2. split; [rewrite E2; f_equal; lia|].
      replace (n - (tot + m)) with (n - tot - m) in Hfs2 by lia. split; [|split; [|congruence]].
      * eapply fstate_le; [exact Hfs2|lia].
      * rewrite <- (take_drop (Z.to_nat m) src). apply (written_app _ _ _ _ _ d1 ip1); [lia| |apply Hfs2|done|].
        -- rewrite take_drop. lia.
        -- by rewrite Hlen.
    + right. exists s2. replace (n - (tot + m)) with (n - tot - m) in H1 by lia. split_and!; [done|lia|lia].
Qed.

(** ** The inode is written back *)

Lemma fblock_ext d d' ip : (forall n, data <= n < size -> d' n = d n) -> file_ok d ip ->
  forall bn, fblock d' ip bn = fblock d ip bn.
Proof.
  intros E Hf bn. unfold fblock. zcase; [done|]. destruct (Z.eqb_spec (addr_of ip NDIRECT) 0) as [|H0]; [done|].
  rewrite E; [done|]. by apply (ind_used size sb data d ip Hf).
Qed.

Lemma used_ext d d' : (forall n, sb_bmapstart sb <= n < data -> d' n = d n) -> forall n, 0 <= n < size -> used d' n = used d n.
Proof.
  intros E n Hn. unfold FsBlocks.used. rewrite E; [done|]. by apply (map_block_bounds size start lsz sb data FG).
Qed.

(** A change outside of the files and the free map. *)
Lemma file_ok_ext d d' ip : (forall n, sb_bmapstart sb <= n < size -> d' n = d n) -> file_ok d ip -> file_ok d' ip.
Proof.
  intros E Hf. pose proof (block_one size start lsz G sb data FG). destruct FG.
  assert (Hd : forall n, data <= n < size -> d' n = d n).
  { intros n Hn. apply E. pose proof (Z.div_pos size BPB ltac:(destruct G; lia) ltac:(done)). lia. }
  assert (Hm : forall n, sb_bmapstart sb <= n < data -> d' n = d n) by (intros n Hn; apply E; lia).
  pose proof (fblock_ext d d' ip Hd Hf) as Hfb. pose proof (used_ext d d' Hm) as Hu.
  assert (Hsl : forall k, fslot d' ip k = fslot d ip k) by (intros k; unfold fslot; by rewrite Hfb).
  destruct Hf as [? ? Hown Hinj ? Hfull]. split; try done.
  - intros k Hk. rewrite Hsl. intros Hn. destruct (Hown k Hk Hn) as [Hr Hu']. split; [done|].
    rewrite Hu; [done|]. by apply (data_lt size start lsz G sb data FG).
  - intros k k' Hk Hk'. rewrite !Hsl. by apply Hinj.
  - intros k. rewrite Hfb. apply Hfull.
Qed.

Lemma put_inode_disk d ip :
  disk_ok d -> 0 <= i_inum ip < sb_ninodes sb -> length (i_addrs ip) = 13%nat -> disk_ok (put_inode sb ip d).
Proof.
  intros [Hl Hm Hs] Hi Ha. pose proof (inode_block_bounds size start lsz sb data FG _ Hi) as Hb.
  pose proof (bmapstart_size size start lsz G sb data FG). pose proof (dinode_off_bounds (i_inum ip)).
  assert (Hr : 0 <= inode_block sb (i_inum ip) < size) by (destruct G; lia). split.
  - intros n Hn. unfold put_inode, zset. zcase; [|by apply Hl]. rewrite put_dinode_length by (rewrite ?Hl by done; unfold BSIZE in *; lia).
    by apply Hl.
  - intros b Hbb. destruct FG. rewrite (used_ext d); [by apply Hm| |lia]. intros n Hn. unfold put_inode. by rewrite zset_ne by lia.
  - unfold put_inode. rewrite zset_ne; [done|]. destruct FG, G. lia.
Qed.

(** ** [writei] *)

(** The file and the disk after [src] was written at [off]. *)
Record wrote (d : Z -> list Z) (ip : inode) (off : Z) (src : list Z) (d' : Z -> list Z) (ip' : inode) : Prop := {
  wo_size : i_size ip' = Z.max (i_size ip) (off + Z.of_nat (length src));
  wo_bytes : forall x, 0 <= x < i_size ip' -> fbyte d' ip' x =
    if decide (off <= x < off + Z.of_nat (length src)) then byte_at src (x - off) else fbyte d ip x;
  wo_other : forall n, data <= n < size -> used d n = true -> ~ owns d ip n -> d' n = d n;
  wo_used : forall n, 0 <= n < size -> used d n = true -> used d' n = true;
  wo_meta : forall n, 0 <= n < sb_bmapstart sb -> n <> inode_block sb (i_inum ip) -> d' n = d n;
  wo_type : i_type ip' = i_type ip;
  wo_inum : i_inum ip' = i_inum ip;
  wo_ref : i_ref ip' = i_ref ip;
  wo_dinode : inode_fits ip -> same_dinode (get_dinode (d (inode_block sb (i_inum ip))) (dinode_off (i_inum ip)) ip) ip ->
    same_dinode (get_dinode (d' (inode_block sb (i_inum ip))) (dinode_off (i_inum ip)) ip') ip';
  wo_dinodes : forall inum x, 0 <= inum -> inum <> i_inum ip -> inode_block sb inum = inode_block sb (i_inum ip) ->
    get_dinode (d' (inode_block sb inum)) (dinode_off inum) x = get_dinode (d (inode_block sb inum)) (dinode_off inum) x
}.

Lemma full_block d ip x : file_ok d ip -> 0 <= x < i_size ip -> fblock d ip (x / BSIZE) <> 0.
Proof.
  intros Hf Hx. apply (fo_full _ _ _ _ _ Hf); [apply Z.div_pos; [lia|done]|].
  unfold BSIZE in *. Z.div_mod_to_equations. lia.
Qed.

Section Written.
Context (d : Z -> list Z) (ip : inode) (off : Z) (src : list Z) (d1 : Z -> list Z) (ip1 : inode).
Hypothesis Hf : file_ok d ip.
Hypothesis Hf1 : file_ok d1 ip1.
Hypothesis Hoff : 0 <= off <= i_size ip.
Hypothesis Hmax : off + Z.of_nat (length src) <= MAXFILE * BSIZE.
Hypothesis Hw : written d ip off src d1 ip1.
Let n := Z.of_nat (length src).

Lemma written_block x : 0 <= x < Z.max (i_size ip) (off + n) -> fblock d1 ip1 (x / BSIZE) <> 0.
Proof.
  intros Hx. pose proof (fo_size _ _ _ _ _ Hf). destruct (decide (off <= x < off + n)) as [Hi|Ho].
  - by apply (wr_new _ _ _ _ _ _ Hw).
  - apply (wr_old _ _ _ _ _ _ Hw); [lia|done|]. apply full_block; [done|lia].
Qed.

Lemma written_byte x : 0 <= x < Z.max (i_size ip) (off + n) ->
  fbyte d1 ip1 x = if decide (off <= x < off + n) then byte_at src (x - off) else fbyte d ip x.
Proof.
  intros Hx. pose proof (fo_size _ _ _ _ _ Hf). case_decide as Hd; [by apply (wr_new _ _ _ _ _ _ Hw)|].
  apply (wr_old _ _ _ _ _ _ Hw); [lia|done|]. apply full_block; [done|lia].
Qed.

Definition grown_ip : inode := set_i_size (off + n) ip1.

Lemma grown_file_ok : i_size ip < off + n -> file_ok d1 grown_ip.
Proof.
  intros Hlt. destruct Hf1 as [Hdev Hadd Hown Hinj Hs Hfull]. split; try done.
  - cbn. lia.
  - intros bn Hbn Hb. cbn in Hb. change (fblock d1 grown_ip bn) with (fblock d1 ip1 bn).
    replace bn with (bn * BSIZE / BSIZE) by (by apply Z.div_mul). apply written_block. unfold BSIZE in *. lia.
Qed.

Lemma addrs_word (ip2 : inode) : file_ok d1 ip2 -> Forall word (i_addrs ip2).
Proof.
  intros Hf2. apply Forall_lookup_2. intros k a Hk. pose proof (fo_addrs _ _ _ _ _ Hf2) as Hl.
  assert (Hlt := lookup_lt_Some _ _ _ Hk). rewrite Hl in Hlt.
  assert (Ea : addr_of ip2 (Z.of_nat k) = a) by (unfold addr_of; by rewrite Nat2Z.id, nth_lookup, Hk).
  destruct (Z.eq_dec a 0) as [->|Hne]; [unfold word; lia|].
  assert (Hs : exists k', 0 <= k' <= MAXFILE /\ fslot d1 ip2 k' = a).
  { destruct (decide (k = 12)%nat) as [->|Hk12].
    - exists MAXFILE. split; [rewrite MAXFILE_eq; lia|]. by rewrite fslot_ind.
    - exists (Z.of_nat k). split; [rewrite MAXFILE_eq; lia|]. rewrite fslot_block by (rewrite MAXFILE_eq; lia).
      unfold fblock. rewrite (proj2 (Z.ltb_lt _ _)); [done|]. unfold NDIRECT. lia. }
  destruct Hs as (k' & Hk' & <-). destruct (fo_own _ _ _ _ _ Hf2 k' Hk' Hne) as [Hr _].
  pose proof (data_lt size start lsz G sb data FG _ Hr). destruct G. unfold word. lia.
Qed.

Lemma written_fields : i_type ip1 = i_type ip /\ i_major ip1 = i_major ip /\ i_minor ip1 = i_minor ip /\
  i_nlink ip1 = i_nlink ip /\ i_inum ip1 = i_inum ip /\ i_ref ip1 = i_ref ip.
Proof. pose proof (wr_fields _ _ _ _ _ _ Hw) as Hs. unfold same_fields in Hs. rewrite Hs. done. Qed.

Lemma grown_fits : i_size ip < off + n -> inode_fits ip -> inode_fits grown_ip.
Proof.
  intros Hlt [Ht Hma Hmi Hn _ _ _]. pose proof (grown_file_ok Hlt) as Hf2.
  destruct (written_fields) as (Et & Ema & Emi & En & _ & _).
  split; [by cbn; rewrite Et|by cbn; rewrite Ema|by cbn; rewrite Emi|by cbn; rewrite En| |apply Hf2|by apply addrs_word].
  cbn. revert Hmax. rewrite MAXFILE_eq. unfold word, BSIZE. fold n. lia.
Qed.

Hypothesis Hin : 0 <= i_inum ip < sb_ninodes sb.

Lemma written_wrote : off + n <= i_size ip -> wrote d ip off src d1 ip1.
Proof.
  intros Hle. pose proof (wr_ext _ _ _ _ _ _ Hw) as [EU EO EM EW]. destruct written_fields as (Et & _ & _ & _ & En & Er).
  assert (Eip : ip1 = ip).
  { apply (wr_ip _ _ _ _ _ _ Hw). intros x Hx. apply full_block; [done|]. fold n in Hx. lia. }
  assert (Esz : i_size ip1 = i_size ip) by (apply Hw).
  pose proof (inode_block_bounds size start lsz sb data FG _ Hin) as Hb.
  assert (Eb : d1 (inode_block sb (i_inum ip)) = d (inode_block sb (i_inum ip))) by (apply EM; destruct G; lia).
  split; try done.
  - rewrite Esz. fold n. lia.
  - intros x Hx. fold n. apply written_byte. lia.
  - intros m Hm _. by apply EM.
  - intros _ Hd. by rewrite Eip, Eb.
  - intros inum x _ _ E. by rewrite E, Eb.
Qed.

Lemma grown_wrote : disk_ok d1 -> i_size ip < off + n -> wrote d ip off src (put_inode sb grown_ip d1) grown_ip.
Proof.
  intros Hd1 Hlt. pose proof (wr_ext _ _ _ _ _ _ Hw) as [EU EO EM EW]. destruct written_fields as (Et & _ & _ & _ & En & Er).
  pose proof (inode_block_bounds size start lsz sb data FG _ Hin) as Hb. pose proof (dinode_off_bounds (i_inum ip)) as Hdo.
  pose proof (block_one size start lsz G sb data FG). pose proof (bmapstart_size size start lsz G sb data FG).
  assert (Hdat : sb_bmapstart sb < data) by (destruct FG; pose proof (Z.div_pos size BPB ltac:(destruct G; lia) ltac:(done)); lia).
  set (ib := inode_block sb (i_inum ip)) in *.
  assert (Eq : put_inode sb grown_ip d1 = zset d1 ib (put_dinode (d1 ib) (dinode_off (i_inum ip)) grown_ip)).
  { unfold put_inode. change (i_inum grown_ip) with (i_inum ip1). by rewrite En. }
  assert (Hl : length (d1 ib) = Z.to_nat BSIZE) by (apply (dk_len _ _ _ _ Hd1); destruct G; lia).
  assert (Eib : d1 ib = d ib) by (apply EM; destruct G; lia). rewrite Eq. split.
  - cbn. fold n. lia.
  - intros x Hx. fold n. cbn in Hx. rewrite <- written_byte by lia. unfold fbyte.
    assert (Efb : forall bn, fblock (zset d1 ib (put_dinode (d1 ib) (dinode_off (i_inum ip)) grown_ip)) grown_ip bn = fblock d1 ip1 bn).
    { intros bn. change (fblock d1 ip1 bn) with (fblock d1 grown_ip bn). apply fblock_ext; [|by apply grown_file_ok].
      intros m Hm. apply zset_ne. lia. }
    rewrite Efb, zset_ne; [done|]. pose proof (written_block x ltac:(lia)) as Hne.
    rewrite <- fslot_block in * by (unfold BSIZE in *; Z.div_mod_to_equations; lia).
    pose proof (fo_size _ _ _ _ _ Hf).
    destruct (fo_own _ _ _ _ _ Hf1 (x / BSIZE)); [unfold BSIZE in *; fold n in Hmax; Z.div_mod_to_equations; lia|done|lia].
  - intros m Hm Hu Ho. rewrite zset_ne by lia. by apply EO.
  - intros m Hm Hu. rewrite (used_ext d1); [by apply EU| |done]. intros q Hq. apply zset_ne. lia.
  - intros m Hm Hne. rewrite zset_ne by done. by apply EM.
  - done.
  - done.
  - done.
  - intros Hfit _. rewrite zset_eq. apply dinode_back; [by apply grown_fits|lia|rewrite Hl; unfold BSIZE in *; lia].
  - intros inum x Hi0 Hne E. fold ib in E. rewrite E, zset_eq, <- Eib. apply dinode_other.
    + apply Hf1.
    + lia.
    + rewrite Hl. unfold BSIZE in *. lia.
    + apply dinode_off_bounds.
    + apply (dinode_apart sb); (done || lia).
Qed.
End Written.
Lemma io_fuel_enough off n : 0 <= off -> 0 <= n -> nblocks off n <= Z.of_nat (io_fuel n).
Proof.
  intros Ho Hn. unfold nblocks, io_fuel. rewrite !Nat2Z.inj_succ, Z2Nat.id by (apply Z.div_pos; [lia|done]).
  zcase; unfold BSIZE in *; Z.div_mod_to_equations; lia.
Qed.

(** The new size goes to the inode in memory and to the one on disk. *)
Lemma grow_ok s i d ip off src d1 ip1 bs1 k e :
  file_ok d ip -> fstate s i d1 ip1 bs1 k -> 0 <= off <= i_size ip ->
  off + Z.of_nat (length src) <= MAXFILE * BSIZE -> i_size ip < off + Z.of_nat (length src) ->
  written d ip off src d1 ip1 -> 0 <= i_inum ip < sb_ninodes sb -> inode_block sb (i_inum ip) ∈ F -> 0 <= k ->
  let ip2 := grown_ip off src ip1 in
  exists s', (modify (upd_inode i (set_i_size (off + Z.of_nat (length src))));; iupdate i) e s = Ok tt e s' /\
    fstate s' i (put_inode sb ip2 d1) ip2 (add_block (inode_block sb (i_inum ip)) bs1) k /\ others i s' = others i s.
Proof.
  intros Hf [Ht1 Hd1 Hf1 Hi1 Hsb1 Hr1] Hoff Hmax Hlt Hw Hin HiF Hk ip2. mstep.
  destruct (written_fields d ip off src d1 ip1 Hw) as (_ & _ & _ & _ & En & _).
  pose proof (grown_file_ok d ip off src d1 ip1 Hf Hf1 Hoff Hmax Hw Hlt) as Hf2. fold ip2 in Hf2.
  assert (Hin2 : 0 <= i_inum ip2 < sb_ninodes sb) by (cbn; by rewrite En).
  set (s2 := upd_inode i _ s). pose proof (inode_upd s i ip1 (set_i_size (off + Z.of_nat (length src))) Hi1) as Hi2.
  destruct (iupdate_ok D size start lsz G sb data FG s2 d1 bs1 i ip2 e) as (s' & E & T & Fr); try done.
  { by apply txn_inode. }
  { apply Hf2. }
  { eapply room_nodup; [by eapply txn_nodup|exact Hr1|done]. }
  exists s'. split; [done|]. split; [|by rewrite (others_rest i s2 s' Fr); apply others_upd].
  change (i_inum ip2) with (i_inum ip1) in T. rewrite En in T. split.
  - done.
  - apply put_inode_disk; [done|done|apply Hf2].
  - apply (file_ok_ext d1); [|done]. intros m Hm. unfold put_inode. apply zset_ne.
    pose proof (inode_block_bounds size start lsz sb data FG _ Hin2). lia.
  - by eapply inode_rest.
  - by apply (fsrest_sb _ s2 s').
  - apply room_in; [by right|done].
Qed.

Lemma writei_ok s i d ip bs k off src e :
  let n := Z.of_nat (length src) in
  fstate s i d ip bs k -> i_type ip <> T_DEV -> 0 <= off <= i_size ip -> off + n <= MAXFILE * BSIZE ->
  0 <= i_inum ip < sb_ninodes sb -> inode_block sb (i_inum ip) ∈ F -> nblocks off n <= k ->
  (exists s' d' ip' bs', writei i off src e s = Ok n e s' /\ fstate s' i d' ip' bs' (k - nblocks off n) /\
     wrote d ip off src d' ip' /\ others i s' = others i s) \/
  (exists s', writei i off src e s = Panic "balloc: out of blocks" s' /\ (nblocks off n <= 1 -> crowded size sb d)).
Proof.
  intros n Hfs Hty Hoff Hmax Hin HiF Hk. pose proof Hfs as [Ht Hd Hf Hi Hsb Hr]. unfold writei. fold n.
  mstep inode_at_ok by exact Hi. rewrite (proj2 (Z.eqb_neq _ _) Hty).
  assert (Hn : 0 <= n <= MAXFILE * BSIZE) by lia. rewrite MAXFILE_eq in Hn. unfold BSIZE in Hn.
  rewrite (proj2 (Z.ltb_ge (i_size ip) off)), u32_small, (proj2 (Z.ltb_ge (off + n) off)),
    (proj2 (Z.ltb_ge (MAXFILE * BSIZE) _)) by (rewrite ?MAXFILE_eq in *; unfold BSIZE in *; lia). cbn [orb].
  pose proof (io_fuel_enough off n ltac:(lia) ltac:(lia)) as Hfuel.
  destruct (writei_loop_ok (io_fuel n) s i d ip bs k 0 off n src e Hfs) as [(s1 & d1 & ip1 & bs1 & E1 & Hfs1 & Hw & Ho1)|(s1 & E1 & _ & Hcr)];
    rewrite ?Z.sub_0_r in *; try done; try lia.
  2: { right. exists s1. split; [by eapply bind_panic|done]. }
  left. mstep E1. mstep inode_at_ok by apply Hfs1. rewrite (wr_size _ _ _ _ _ _ Hw).
  assert (E32 : s32 n = n) by (apply s32_small; lia). rewrite E32.
  destruct (Z_lt_le_dec (i_size ip) (off + n)) as [Hlt|Hge].
  - rewrite (proj2 (Z.ltb_lt 0 n)), (proj2 (Z.ltb_lt (i_size ip) _)) by lia. cbn [andb].
    destruct (grow_ok s1 i d ip off src d1 ip1 bs1 (k - nblocks off n) e) as (s2 & E2 & Hfs2 & Ho2); try done; [lia|].
    mstep E2. eexists s2, _, _, _. split_and!; [done|exact Hfs2| |congruence].
    apply grown_wrote; try done; apply Hfs1.
  - rewrite (proj2 (Z.ltb_ge (i_size ip) _)), andb_false_r by lia. mstep.
    eexists s1, d1, ip1, bs1. split_and!; [done|done| |done]. apply written_wrote; try done; apply Hfs1.
Qed.

(** ** [readi] *)

(** The bytes of the file from [off]. *)
Definition fbytes (d : Z -> list Z) (ip : inode) (off n : Z) : list Z :=
  (fun k => fbyte d ip (off + Z.of_nat k)) <$> seq 0 (Z.to_nat n).

Lemma fbytes_length d ip off n : length (fbytes d ip off n) = Z.to_nat n.
Proof. unfold fbytes. by rewrite length_fmap, length_seq. Qed.

Lemma fbytes_at d ip off n k : 0 <= k < n -> byte_at (fbytes d ip off n) k = fbyte d ip (off + k).
Proof.
  intros Hk. unfold byte_at, fbytes. rewrite nth_lookup, list_lookup_fmap, lookup_seq_lt by lia. cbn. f_equal. lia.
Qed.

Lemma fbytes_block d ip off m :
  0 <= off -> 0 <= m -> off mod BSIZE + m <= BSIZE -> length (d (fblock d ip (off / BSIZE))) = Z.to_nat BSIZE ->
  slice (d (fblock d ip (off / BSIZE))) (off mod BSIZE) m = fbytes d ip off m.
Proof.
  intros Ho Hm Hb Hl. pose proof (Z.mod_pos_bound off BSIZE BSIZE_pos). unfold BSIZE in Hl.
  assert (Hs : length (slice (d (fblock d ip (off / BSIZE))) (off mod BSIZE) m) = Z.to_nat m).
  { apply slice_length; rewrite ?Hl; unfold BSIZE in *; lia. }
  apply byte_ext; [by rewrite fbytes_length|]. rewrite Hs. intros k Hk. rewrite fbytes_at by lia. unfold fbyte.
  replace ((off + k) / BSIZE) with (off / BSIZE) by (unfold BSIZE in *; Z.div_mod_to_equations; lia).
  replace ((off + k) mod BSIZE) with (off mod BSIZE + k) by (unfold BSIZE in *; Z.div_mod_to_equations; lia).
  unfold slice, byte_at. rewrite !nth_lookup, lookup_take_lt, lookup_drop by lia. do 2 f_equal. lia.
Qed.

Lemma fbytes_app d ip off m n : 0 <= m <= n -> fbytes d ip off m ++ fbytes d ip (off + m) (n - m) = fbytes d ip off n.
Proof.
  intros Hm. apply byte_ext; [rewrite length_app, !fbytes_length; lia|]. rewrite length_app, !fbytes_length. intros k Hk.
  rewrite byte_at_app, fbytes_length, (fbytes_at d ip off n) by lia. zcase.
  - by apply fbytes_at; lia.
  - rewrite fbytes_at by lia. f_equal. lia.
Qed.

(** A block that the file has is found without a change of the file. *)
Lemma bmap_found s i d ip bs k bn e :
  fstate s i d ip bs k -> 1 <= k -> 0 <= bn < MAXFILE -> fblock d ip bn <> 0 ->
  exists s', bmap i bn e s = Ok (fblock d ip bn) e s' /\ fstate s' i d ip bs k /\ others i s' = others i s.
Proof.
  intros Hfs Hk Hbn H0. pose proof Hfs as [Ht Hd Hf Hi Hsb Hr]. rewrite (bmap_run D i bn e s ip Hi).
  destruct (Z.ltb_spec bn NDIRECT) as [Hlt|Hge].
  - assert (E : fblock d ip bn = addr_of ip bn) by (unfold fblock; by rewrite (proj2 (Z.ltb_lt bn NDIRECT)) by done).
    rewrite E in *. rewrite (proj2 (Z.eqb_neq _ 0) H0). by exists s.
  - assert (Hi0 : addr_of ip NDIRECT <> 0) by (intros Hz; apply H0; unfold fblock; by rewrite (proj2 (Z.ltb_ge _ _) Hge), Hz).
    rewrite (proj2 (Z.ltb_lt _ _)) by fsz. rewrite (fo_dev _ _ _ _ _ Hf), (proj2 (Z.eqb_neq _ 0) Hi0). mstep.
    destruct (entry_found D size start lsz G sb data FG F s i d ip bs k bn e Hfs Hk ltac:(lia) Hi0 H0) as (s' & E & Hfs' & _ & Ho).
    by exists s'.
Qed.

(** One turn of the loop of [readi]. *)
Lemma read_turn s i d ip bs k off m e :
  fstate s i d ip bs k -> 1 <= k -> 0 <= off < i_size ip -> 0 <= m -> off mod BSIZE + m <= BSIZE ->
  exists s', (forall A (K : list Z -> M A),
     (blk ← bmap i (off / BSIZE);
      ip ← inode_at i;
      bp ← bread (i_dev ip) blk;
      x ← bdata bp;
      brelse bp;; K (slice x (off mod BSIZE) m)) e s = K (fbytes d ip off m) e s') /\
     fstate s' i d ip bs k /\ others i s' = others i s.
Proof.
  intros Hfs Hk Hoff Hm Hb. pose proof (fo_size _ _ _ _ _ (fs_file _ _ _ _ _ _ _ _ _ _ _ _ Hfs)) as Hsz.
  pose proof (block_of_range off ltac:(lia)) as Hbn.
  pose proof (full_block d ip off (fs_file _ _ _ _ _ _ _ _ _ _ _ _ Hfs) ltac:(lia)) as H0.
  destruct (bmap_found s i d ip bs k (off / BSIZE) e Hfs Hk Hbn H0) as (s1 & E1 & Hfs1 & Ho1).
  pose proof Hfs1 as [Ht1 Hd1 Hf1 Hi1 Hsb1 Hr1]. set (a := fblock d ip (off / BSIZE)) in *.
  assert (Har : data <= a < size).
  { unfold a. rewrite <- fslot_block by lia. apply (fo_own _ _ _ _ _ Hf1); [lia|by rewrite fslot_block by lia]. }
  pose proof (data_lt size start lsz G sb data FG a Har) as Ha.
  pose proof (room_nodup lsz _ bs k (txn_nodup _ _ _ _ _ _ _ Ht1) Hr1 ltac:(lia)) as Hroomy.
  destruct (txn_bread D size start lsz G s1 d bs ∅ a e Ht1) as (bp & s2 & E2 & T2 & F2);
    [done|done|rewrite map_size_empty; destruct Hroomy; unfold NBUF in *; lia|].
  assert (HB : <[a := bp]> (∅ : gmap Z nat) !! a = Some bp) by apply lookup_insert_eq.
  destruct (txn_brelse size start lsz s2 _ _ _ a bp e T2 HB) as (s3 & E3 & T3 & F3).
  rewrite delete_insert_id in T3 by done. assert (Fr : fsrest s3 = fsrest s1) by congruence.
  exists s3. split_and!.
  - intros A K. mstep E1. mstep inode_at_ok by exact Hi1. rewrite (fo_dev _ _ _ _ _ Hf1). mstep E2.
    mstep (txn_bdata size start lsz s2 d bs _ a bp e T2 HB). mstep E3. unfold a. rewrite fbytes_block; [done|lia|done|done|].
    by apply (dk_len _ _ _ _ Hd1).
  - split; [done|done|done|by eapply inode_rest|by eapply fsrest_sb|done].
  - rewrite <- Ho1. by apply others_rest.
Qed.

Lemma readi_loop_ok fuel : forall s i d ip bs k tot off n e,
  fstate s i d ip bs k -> 1 <= k -> 0 <= tot <= n -> 0 <= off -> off + (n - tot) <= i_size ip ->
  nblocks off (n - tot) <= Z.of_nat fuel ->
  exists s', readi_loop fuel i tot off n e s = Ok (fbytes d ip off (n - tot)) e s' /\
    fstate s' i d ip bs k /\ others i s' = others i s.
Proof.
  induction fuel as [|fuel IH]; intros s i d ip bs k tot off n e Hfs Hk Htot Hoff Hsz Hfuel.
  - assert (n - tot = 0) as ->.
    { destruct (Z.eq_dec (n - tot) 0) as [|Hne]; [done|]. revert Hfuel. unfold nblocks. zcase; [lia|].
      unfold BSIZE. Z.div_mod_to_equations. lia. }
    by exists s.
  - cbn [readi_loop]. destruct (Z.ltb_spec tot n) as [Hlt|Hge].
    2: { assert (n - tot = 0) as -> by lia. by exists s. }
    destruct (nblocks_turn off (n - tot) Hoff ltac:(lia)) as (Hm0 & Hml & Hmb & Hnb).
    set (m := Z.min (n - tot) (BSIZE - off mod BSIZE)) in *. cbn zeta.
    destruct (read_turn s i d ip bs k off m e Hfs Hk ltac:(lia) ltac:(lia) Hmb) as (s1 & E1 & Hfs1 & Ho1).
    rewrite (E1 _ (fun x => rest ← readi_loop fuel i (tot + m) (off + m) n; mret (x ++ rest))).
    destruct (IH s1 i d ip bs k (tot + m) (off + m) n e Hfs1 Hk) as (s2 & E2 & Hfs2 & Ho2); try lia.
    { replace (n - (tot + m)) with (n - tot - m) by lia. lia. }
    mstep E2. exists s2. split; [|split; [done|congruence]].
    replace (n - (tot + m)) with (n - tot - m) by lia. by rewrite fbytes_app by lia.
Qed.

Lemma readi_ok s i d ip bs k off n e :
  fstate s i d ip bs k -> 1 <= k -> i_type ip <> T_DEV -> 0 <= off <= i_size ip -> 0 <= n -> off + n < 4294967296 ->
  let m := Z.min n (i_size ip - off) in
  exists s', readi i off n e s = Ok (m, fbytes d ip off m) e s' /\ fstate s' i d ip bs k /\ others i s' = others i s.
Proof.
  intros Hfs Hk Hty Hoff Hn Hw m. unfold readi. mstep inode_at_ok by apply Hfs. rewrite (proj2 (Z.eqb_neq _ _) Hty).
  pose proof (fo_size _ _ _ _ _ (fs_file _ _ _ _ _ _ _ _ _ _ _ _ Hfs)) as Hsz. rewrite MAXFILE_eq in Hsz. unfold BSIZE in Hsz.
  rewrite (proj2 (Z.ltb_ge (i_size ip) off)), u32_small, (proj2 (Z.ltb_ge (off + n) off)) by lia. cbn [orb]; cbv zeta.
  assert ((if i_size ip <? off + n then i_size ip - off else n) = m) as -> by (unfold m; zcase; lia).
  pose proof (io_fuel_enough off m ltac:(lia) ltac:(lia)) as Hfuel.
  destruct (readi_loop_ok (io_fuel m) s i d ip bs k 0 off m e Hfs Hk) as (s1 & E1 & Hfs1 & Ho1); rewrite ?Z.sub_0_r in *; try lia.
  mstep E1. rewrite s32_small by lia. by exists s1.
Qed.

(** ** The theorems *)

(** C13: [writei] of [n] bytes at [off] of a file returns [n], and then the file
    has these bytes there and its old ones elsewhere, its size is the larger of
    the old one and [off + n], the inode on the disk is the one in memory, and
    no other inode, no block of another file and no block of the system
    changes, whatever blocks were allocated on the way; or [balloc] panics, out
    of blocks.  A write that would leave a hole or make the file larger than
    [MAXFILE] blocks returns -1 and changes nothing. *)
Theorem writei_writes s i d ip bs k off src e :
  let n := Z.of_nat (length src) in
  fstate s i d ip bs k -> i_type ip <> T_DEV -> 0 <= off -> n < 4294967296 ->
  0 <= i_inum ip < sb_ninodes sb -> inode_block sb (i_inum ip) ∈ F -> nblocks off n <= k ->
  if (off <=? i_size ip) && (off + n <=? MAXFILE * BSIZE) then
    (exists s' d' ip' bs', writei i off src e s = Ok n e s' /\ fstate s' i d' ip' bs' (k - nblocks off n) /\
       wrote d ip off src d' ip' /\ others i s' = others i s) \/
    (exists s', writei i off src e s = Panic "balloc: out of blocks" s')
  else writei i off src e s = Ok (-1) e s.
Proof.
  intros n Hfs Hty Hoff Hn Hin HiF Hk. destruct (Z.leb_spec off (i_size ip)) as [Ho|Ho]; cbn [andb].
  - zcase; [destruct (writei_ok s i d ip bs k off src e) as [?|(s' & E & _)]; eauto|]. unfold writei. fold n. mstep inode_at_ok by apply Hfs.
    rewrite (proj2 (Z.eqb_neq _ _) Hty). destruct (_ || _); [done|]. by rewrite (proj2 (Z.ltb_lt (MAXFILE * BSIZE) _)) by lia.
  - unfold writei. fold n. mstep inode_at_ok by apply Hfs. rewrite (proj2 (Z.eqb_neq _ _) Hty).
    by rewrite (proj2 (Z.ltb_lt (i_size ip) off)) by lia.
Qed.

(** C32: [readi] returns the bytes of the file from [off], as many as asked for
    or as there are up to the end of the file, and leaves the file system as it
    is; an offset past the end, or a range that wraps around, is an error. *)
Theorem readi_reads s i d ip bs k off n e :
  fstate s i d ip bs k -> 1 <= k -> i_type ip <> T_DEV -> 0 <= off < 4294967296 -> 0 <= n < 4294967296 ->
  if (off <=? i_size ip) && (off + n <? 4294967296) then
    let m := Z.min n (i_size ip - off) in
    exists s', readi i off n e s = Ok (m, fbytes d ip off m) e s' /\ fstate s' i d ip bs k /\ others i s' = others i s
  else readi i off n e s = Ok (-1, []) e s.
Proof.
  intros Hfs Hk Hty Hoff Hn. destruct (Z.leb_spec off (i_size ip)) as [Ho|Ho]; cbn [andb].
  - zcase; [by apply readi_ok; try lia|]. unfold readi. mstep inode_at_ok by apply Hfs.
    rewrite (proj2 (Z.eqb_neq _ _) Hty). rewrite (proj2 (Z.ltb_lt (u32 (off + n)) off)); [by rewrite orb_true_r|].
    unfold u32. Z.div_mod_to_equations. lia.
  - unfold readi. mstep inode_at_ok by apply Hfs. rewrite (proj2 (Z.eqb_neq _ _) Hty).
    by rewrite (proj2 (Z.ltb_lt (i_size ip) off)) by lia.
Qed.

(** What [writei] wrote is what [readi] reads back. *)
Theorem write_read_back s i d ip bs k off src e :
  let n := Z.of_nat (length src) in
  fstate s i d ip bs k -> i_type ip <> T_DEV -> 0 <= off <= i_size ip -> off + n <= MAXFILE * BSIZE ->
  0 <= i_inum ip < sb_ninodes sb -> inode_block sb (i_inum ip) ∈ F -> nblocks off n + 1 <= k ->
  (exists s', (w ← writei i off src; readi i off w) e s = Ok (n, src) e s') \/
  (exists s', (w ← writei i off src; readi i off w) e s = Panic "balloc: out of blocks" s').
Proof.
  intros n Hfs Hty Hoff Hmax Hin HiF Hk.
  destruct (writei_ok s i d ip bs k off src e Hfs Hty Hoff Hmax Hin HiF ltac:(fold n; lia))
    as [(s1 & d1 & ip1 & bs1 & E1 & Hfs1 & Hw & _)|(s1 & E1 & _)].
  2: { right. exists s1. by eapply bind_panic. }
  left. fold n in E1, Hfs1. mstep E1. pose proof (wo_size _ _ _ _ _ _ Hw) as Hsz. fold n in Hsz.
  destruct (readi_ok s1 i d1 ip1 bs1 (k - nblocks off n) off n e Hfs1) as (s2 & E2 & _); try lia.
  { by rewrite (wo_type _ _ _ _ _ _ Hw). }
  { rewrite MAXFILE_eq in Hmax. unfold BSIZE in Hmax. fold n in Hmax. lia. }
  exists s2. rewrite E2, Z.min_l by lia. do 2 f_equal. unfold n. apply byte_ext; rewrite fbytes_length; [lia|].
  intros x Hx. rewrite fbytes_at, (wo_bytes _ _ _ _ _ _ Hw), decide_True by (fold n; lia). f_equal. lia.
Qed.
End FsIO.
