(* ===== verification/FsDir.v ===== *)
(** * Directories

    A directory of fs.c is a file of entries of sixteen bytes, an inode number
    and a name.  The theorems show that it works as a finite map from names to
    inode numbers: [dirlookup] looks a name up and takes a reference to the
    inode from the inode cache, and [dirlink] adds a name. *)

From stdpp Require Import base list gmap strings fin_maps list_numbers.
From S2P Require Import Prelude Memory Bytes Str Kernel KMonad Boot Mmu Spinlock Sched Ide Ring Bio BioSpec Log LogSpec Fs FsBlocks FsInode FsFile FsIO.

(** ** Names *)

(** A name as an entry has it: DIRSIZ bytes, filled up with zeros. *)
Definition dname (name : list Z) : list Z := Str.strncpy name (Z.to_nat DIRSIZ).

Lemma strncmp_strncpy n : forall s t, Str.strncmp s t n = 0 <-> Str.strncpy s n = Str.strncpy t n.
Proof.
  induction n as [|n IH]; intros s t; [done|]. cbn [Str.strncmp Str.strncpy].
  destruct (Z.eqb_spec (Str.chr s) 0) as [E0|E0], (Z.eqb_spec (Str.chr t) 0) as [F0|F0]; cbn [negb andb].
  - rewrite E0, F0. done.
  - rewrite E0. split; [lia|]. intros [= E _]. congruence.
  - zcase; [lia|]. split; [lia|]. intros [= E _]. congruence.
  - zcase.
    + rewrite IH, e. split; [by intros ->|by intros [= ?]].
    + split; [lia|]. intros [= E _]. congruence.
Qed.

(** [namecmp] compares names as entries have them. *)
Lemma namecmp_dname s t : (namecmp s t =? 0) = bool_decide (dname s = dname t).
Proof.
  apply Bool.eq_iff_eq_true. rewrite Z.eqb_eq, bool_decide_eq_true. apply strncmp_strncpy.
Qed.

Lemma strncpy_length n : forall t, length (Str.strncpy t n) = n.
Proof.
  induction n as [|n IH]; intros t; [done|]. cbn. destruct (_ =? 0); cbn; [by rewrite length_replicate|by rewrite IH].
Qed.

Lemma strncpy_twice n : forall t, Str.strncpy (Str.strncpy t n) n = Str.strncpy t n.
Proof.
  induction n as [|n IH]; intros t; [done|]. cbn [Str.strncpy]. destruct (Z.eqb_spec (Str.chr t) 0) as [E|E].
  - done.
  - cbn [Str.chr]. unfold Str.chr in *. cbn. rewrite (proj2 (Z.eqb_neq _ 0)) by done. by rewrite IH.
Qed.

(** ** The entries of a directory *)

(** The entries in the order of the file, the names that are in use with their
    inode numbers, and the directory as a map. *)
Definition dent (d : Z -> list Z) (ip : inode) (j : nat) : list Z := fbytes d ip (DESZ * Z.of_nat j) DESZ.
Definition ndents (ip : inode) : nat := Z.to_nat (i_size ip / DESZ).
Definition dents (d : Z -> list Z) (ip : inode) : list (list Z) := dent d ip <$> seq 0 (ndents ip).
Definition in_use (de : list Z) : option (list Z * Z) :=
  if de_inum de =? 0 then None else Some (dname (de_name de), de_inum de).
Definition dir_map (d : Z -> list Z) (ip : inode) : gmap (list Z) Z := list_to_map (omap in_use (dents d ip)).

(** The test of [dirlookup]. *)
Definition names (name de : list Z) : bool := negb (de_inum de =? 0) && (namecmp name (de_name de) =? 0).

Lemma names_in_use name de : names name de = bool_decide (fst <$> in_use de = Some (dname name)).
Proof.
  unfold names, in_use. rewrite namecmp_dname. destruct (de_inum de =? 0); cbn.
  - symmetry. apply bool_decide_eq_false. discriminate.
  - apply bool_decide_ext. split; [by intros ->|by intros [= ->]].
Qed.

Lemma dir_find name l :
  (list_to_map (omap in_use l) : gmap (list Z) Z) !! dname name =
    (j ← find_idx (names name) l; de ← l !! j; Some (de_inum de)).
Proof.
  induction l as [|de l IH]; [done|]. cbn [find_idx]. rewrite names_in_use.
  change (omap in_use (de :: l)) with (match in_use de with Some y => y :: omap in_use l | None => omap in_use l end).
  destruct (in_use de) as [[nm v]|] eqn:E; cbn [fmap option_fmap option_map fst].
  - rewrite list_to_map_cons. case_bool_decide as Hn.
    + injection Hn as ->. rewrite lookup_insert_eq. revert E. unfold in_use. destruct (_ =? 0); naive_solver.
    + rewrite lookup_insert_ne by congruence. rewrite IH. by destruct (find_idx _ l).
  - rewrite IH. by destruct (find_idx _ l).
Qed.

Lemma omap_in_use_free a x b : in_use x = None -> omap in_use (a ++ x :: b) = omap in_use (a ++ b).
Proof. intros E. rewrite !omap_app. f_equal. cbn. by rewrite E. Qed.

(** An entry for a name that no entry before it has. *)
Lemma dir_add a de b name inum :
  in_use de = Some (dname name, inum) -> find_idx (names name) a = None ->
  (list_to_map (omap in_use (a ++ de :: b)) : gmap (list Z) Z) =
    <[dname name := inum]> (list_to_map (omap in_use (a ++ b))).
Proof.
  intros E Hn. rewrite !omap_app, !list_to_map_app.
  change (omap in_use (de :: b)) with (match in_use de with Some y => y :: omap in_use b | None => omap in_use b end).
  rewrite E, list_to_map_cons, insert_union_r; [done|]. by rewrite dir_find, Hn.
Qed.

(** ** The inode cache *)

Definition icached (dev inum : Z) (x : inode) : bool := (0 <? i_ref x) && (i_dev x =? dev) && (i_inum x =? inum).

(** No inode has two entries. *)
Definition icache_ok (s : kstate) : Prop :=
  forall a b x y, inode_in s a x -> inode_in s b y -> 0 < i_ref x -> 0 < i_ref y ->
    i_dev x = i_dev y -> i_inum x = i_inum y -> a = b.

Lemma icached_spec dev inum x : icached dev inum x = true <-> 0 < i_ref x /\ i_dev x = dev /\ i_inum x = inum.
Proof. unfold icached. rewrite !andb_true_iff, Z.ltb_lt, !Z.eqb_eq. tauto. Qed.

(** An entry that is taken for an inode. *)
Definition recycled (dev inum : Z) (x : inode) : inode :=
  set_i_flags 0 (set_i_ref 1 (set_i_inum inum (set_i_dev dev x))).

(** Entry [c] holds the inode, with one reference more. *)
Record igot (dev inum : Z) (s : kstate) (c : nat) (s' : kstate) : Prop := {
  ig_entry : exists x, inode_in s c x /\
    (icached dev inum x = true /\ inode_in s' c (set_i_ref (i_ref x + 1) x) \/
     i_ref x = 0 /\ inode_in s' c (recycled dev inum x));
  ig_others : others c s' = others c s;
  ig_ok : icache_ok s -> icache_ok s'
}.

(** A critical section that changes one entry. *)
Definition isection (i : nat) (f : inode -> inode) (s : kstate) : kstate :=
  released Licache (upd_inode i f (acquired Licache s)).

Lemma isection_fs i f s : k_fs (isection i f s) = k_fs (upd_inode i f s).
Proof. done. Qed.

Lemma isection_idle i f s : idle s -> idle (isection i f s).
Proof.
  intros [Hc Hu]. apply (section_idle Licache s); [done|done|]. intros lk Hne.
  change (unlocked (acquired Licache s) lk). by apply unlocked_acquired_ne.
Qed.

Lemma isection_rest i f s : idle s -> fsrest (isection i f s) = upd_inode i f (fsrest s).
Proof.
  intros [Hc _]. unfold isection, fsrest. rewrite rest_released.
  change (rest (upd_inode i f (acquired Licache s))) with (upd_inode i f (rest (acquired Licache s))).
  change (k_cpu (upd_inode i f (acquired Licache s))) with (pushed (k_cpu s)).
  rewrite rest_acquired, popped_pushed by done. by destruct s as [[] ? ? ? ? ? ? ? ? ? ? ? ? ? ? ?].
Qed.

Lemma isection_others i f s : idle s -> others i (isection i f s) = others i s.
Proof. intros Hi. unfold others at 1. rewrite isection_rest by done. exact (others_upd i f s). Qed.

Lemma upd_inode_twice i f g s : upd_inode i f (upd_inode i g s) = upd_inode i (fun x => f (g x)) s.
Proof. unfold upd_inode, upd_fs, set_k_fs, set_fs_icache. cbn. by rewrite alter_twice. Qed.

Lemma isection_in s i f x : inode_in s i x -> inode_in (isection i f s) i (f x).
Proof. apply (inode_upd s). Qed.

Lemma isection_ne s i f a : a <> i -> fs_icache (k_fs (isection i f s)) !! a = fs_icache (k_fs s) !! a.
Proof. intros Hne. rewrite isection_fs. cbn. by apply list_lookup_alter_ne. Qed.

(** Entry [i] may change if it keeps its inode, or no other entry has the new one. *)
Lemma isection_cache_ok s i f x :
  inode_in s i x ->
  (forall a y, a <> i -> inode_in s a y -> 0 < i_ref y -> 0 < i_ref (f x) ->
     i_dev (f x) = i_dev y -> i_inum (f x) = i_inum y -> False) ->
  icache_ok s -> icache_ok (isection i f s).
Proof.
  intros Hx Hno Hok a b u v Ha Hb. unfold inode_in in *.
  destruct (decide (a = i)) as [->|Hai], (decide (b = i)) as [->|Hbi]; [done| | |].
  - pose proof (isection_in s i f x Hx) as E. unfold inode_in in E. rewrite Ha in E. injection E as ->.
    rewrite isection_ne in Hb by done. intros. exfalso. by apply (Hno b v).
  - pose proof (isection_in s i f x Hx) as E. unfold inode_in in E. rewrite Hb in E. injection E as ->.
    rewrite isection_ne in Ha by done. intros. exfalso. by apply (Hno a u).
  - rewrite isection_ne in Ha, Hb by done. by apply Hok.
Qed.

Lemma isection_release i f e s : idle s -> release Licache e (upd_inode i f (acquired Licache s)) = Ok tt e (isection i f s).
Proof.
  intros [Hc Hu]. apply release_held; [exact (held_acquired Licache s)|exact (cli_ok_acquired Licache s Hc)|].
  change (0 < c_ncli (k_cpu (acquired Licache s))). rewrite ncli_acquired. destruct Hc. lia.
Qed.

Lemma iget_ok dev inum e s :
  idle s ->
  (exists c s' f, iget dev inum e s = Ok c e s' /\ igot dev inum s c s' /\ s' = isection c f s) \/
  (exists s', iget dev inum e s = Panic "iget: no inodes" s' /\
     forall c x, inode_in s c x -> i_ref x <> 0 /\ icached dev inum x = false).
Proof.
  intros Hi. pose proof Hi as [Hc Hu]. unfold iget. mstep acquire_free by apply Hu. mstep.
  change (fs_icache (k_fs (acquired Licache s))) with (fs_icache (k_fs s)). fold (icached dev inum).
  destruct (find_idx (icached dev inum) (fs_icache (k_fs s))) as [c|] eqn:Ec.
  - left. apply find_idx_Some in Ec as [(x & Hx & Hcx) _]. mstep. mstep isection_release by exact Hi.
    eexists c, _, _. split_and!; [done| |done]. split; [exists x; split; [done|left; split; [done|exact (isection_in s c _ x Hx)]]|by apply isection_others|].
    intros Hok. apply (isection_cache_ok s c _ x Hx); [|done]. apply icached_spec in Hcx as (H1 & _ & _). cbn. intros a y Hac Hy H2 _ Ed En.
    apply Hac. by apply (Hok a c y x).
  - rewrite find_idx_None in Ec. mstep. change (fs_icache (k_fs (acquired Licache s))) with (fs_icache (k_fs s)).
    destruct (find_idx _ _) as [c|] eqn:Ef.
    + left. apply find_idx_Some in Ef as [(x & Hx & Hcx%Z.eqb_eq) _]. do 4 mstep. rewrite !upd_inode_twice. mstep isection_release by exact Hi.
      eexists c, _, _. split_and!; [done| |done]. split; [exists x; split; [done|right; split; [done|exact (isection_in s c _ x Hx)]]|by apply isection_others|].
      apply (isection_cache_ok s c _ x Hx). cbn. intros a y _ Hy H2 _ Ed En.
      assert (icached dev inum y = true) by (by apply icached_spec). by rewrite (Ec a y Hy) in *.
    + right. rewrite find_idx_None in Ef. eexists. split; [done|]. intros c x Hx. split; [|by apply (Ec c)].
      by apply Z.eqb_neq, (Ef c).
Qed.

Lemma fsrest_same i ip s s' :
  others i s' = others i s -> inode_in s i ip -> inode_in s' i ip -> fsrest s' = fsrest s.
Proof.
  assert (E : forall u, inode_in u i ip -> fsrest u = upd_inode i (fun _ => ip) (others i u)).
  { intros u Hu. unfold others. rewrite upd_inode_twice.
    assert (El : alter (fun _ => ip) i (fs_icache (k_fs (fsrest u))) = fs_icache (k_fs (fsrest u))).
    { change (fs_icache (k_fs (fsrest u))) with (fs_icache (k_fs u)). apply list_eq. intros a.
      destruct (decide (a = i)) as [->|Hne]; [|by rewrite list_lookup_alter_ne].
      rewrite list_lookup_alter_eq. unfold inode_in in Hu. by rewrite Hu. }
    unfold upd_inode, upd_fs. rewrite El. by destruct u as [? ? ? ? ? ? ? ? ? ? ? ? ? ? [] ?]. }
  intros Ho Hi Hi'. by rewrite (E s'), (E s), Ho.
Qed.

Lemma igot_from dev inum s s1 c s' : fsrest s1 = fsrest s -> igot dev inum s1 c s' -> igot dev inum s c s'.
Proof.
  intros Hr [(x & Hx & H) Ho Hok]. pose proof (inode_rest s1 s) as Hto. pose proof (inode_rest s s1) as Hback.
  split.
  - exists x. split; [|done]. by apply Hto.
  - rewrite Ho. by apply others_rest.
  - intros Hs. apply Hok. intros a b y z Hy Hz. apply Hs; by apply Hto.
Qed.

Section FsDir.
Context (D : Disk) `{DevOps} (size : Z) {HD : DiskOk D size}.
Context (start lsz : Z) (G : geometry start lsz size).
Context (sb : superblock) (data : Z).
Hypothesis FG : fs_geom size start lsz sb data.
Context (F : list Z).
Hypothesis HF : map_blocks_in size sb F.
Hypothesis HF0 : 0 ∈ F.

Notation fstate := (fstate size start lsz sb data F).
Notation file_ok := (file_ok size sb data).

(** Inode [i] of the cache is a directory that somebody refers to. *)
Record dstate (s : kstate) (i : nat) (d : Z -> list Z) (ip : inode) (bs : list Z) (k : Z) : Prop := {
  ds_fstate : fstate s i d ip bs k;
  ds_type : i_type ip = T_DIR;
  ds_size : i_size ip mod DESZ = 0;
  ds_ref : 0 < i_ref ip
}.

Lemma dstate_size s i d ip bs k : dstate s i d ip bs k -> i_size ip = DESZ * Z.of_nat (ndents ip) /\ i_size ip <= 71680.
Proof.
  intros [Hf _ Hm _]. pose proof (fo_size _ _ _ _ _ (fs_file _ _ _ _ _ _ _ _ _ _ _ _ Hf)) as Hs.
  rewrite MAXFILE_eq in Hs. unfold ndents, DESZ, BSIZE in *. rewrite Z2Nat.id by (Z.div_mod_to_equations; lia).
  Z.div_mod_to_equations. lia.
Qed.

(** Reading entry [j]. *)
Lemma read_dent s i d ip bs k j e :
  dstate s i d ip bs k -> 1 <= k -> (j < ndents ip)%nat ->
  exists s', readi i (DESZ * Z.of_nat j) DESZ e s = Ok (DESZ, dent d ip j) e s' /\
    dstate s' i d ip bs k /\ fsrest s' = fsrest s.
Proof.
  intros Hd Hk Hj. destruct (dstate_size _ _ _ _ _ _ Hd) as [Hs Hmax]. destruct Hd as [Hf Ht Hm Hr]. unfold DESZ in *.
  destruct (readi_ok D size start lsz G sb data FG F s i d ip bs k (16 * Z.of_nat j) 16 e Hf Hk) as (s' & E & Hf' & Ho);
    [by rewrite Ht|lia|lia|lia|].
  rewrite Z.min_l in E by lia. exists s'. split_and!; [exact E|by split|].
  apply (fsrest_same i ip); [done|apply Hf|apply Hf'].
Qed.

Lemma dirlookup_loop_ok name fuel : forall s i d ip bs k j e,
  dstate s i d ip bs k -> 1 <= k -> (j <= ndents ip)%nat -> (ndents ip - j < fuel)%nat ->
  exists s', dstate s' i d ip bs k /\ fsrest s' = fsrest s /\
    dirlookup_loop fuel i name (DESZ * Z.of_nat j) e s =
      match find_idx (names name) (dent d ip <$> seq j (ndents ip - j)) with
      | None => Ok None e s'
      | Some m => (c ← iget (i_dev ip) (de_inum (dent d ip (j + m))); mret (Some (c, DESZ * Z.of_nat (j + m)))) e s'
      end.
Proof.
  induction fuel as [|fuel IH]; intros s i d ip bs k j e Hd Hk Hj Hfuel; [lia|]. cbn [dirlookup_loop].
  destruct (dstate_size _ _ _ _ _ _ Hd) as [Hs Hmax]. mstep inode_at_ok by apply Hd.
  destruct (decide (j = ndents ip)) as [->|Hne].
  - rewrite Nat.sub_diag, Hs, Z.ltb_irrefl. by exists s.
  - rewrite (proj2 (Z.ltb_lt _ _)) by (unfold DESZ in *; lia).
    destruct (read_dent s i d ip bs k j e Hd Hk ltac:(lia)) as (s1 & E1 & Hd1 & Hr1). mstep E1. cbn [fst snd].
    rewrite Z.eqb_refl. cbn [negb]. fold (names name (dent d ip j)).
    replace (ndents ip - j)%nat with (S (ndents ip - S j)) by lia. cbn [seq fmap list_fmap find_idx].
    destruct (names name (dent d ip j)).
    + mstep inode_at_ok by apply Hd1. exists s1. rewrite Nat.add_0_r. done.
    + replace (u32 (DESZ * Z.of_nat j + DESZ)) with (DESZ * Z.of_nat (S j)) by (unfold DESZ in *; rewrite u32_small; lia).
      destruct (IH s1 i d ip bs k (S j) e Hd1 Hk ltac:(lia) ltac:(lia)) as (s2 & Hd2 & Hr2 & E2).
      exists s2. split_and!; [done|congruence|]. rewrite E2. unfold fmap. destruct (find_idx _ _) as [m|]; [|done]. cbn.
      by rewrite Nat.add_succ_r.
Qed.

(** *** [dirlookup] *)

Lemma isection_txn i f s d bs B : txn size start lsz s d bs B -> txn size start lsz (isection i f s) d bs B.
Proof.
  intros (V & [Hi Ho Hl Hd Hs Hout Hb] & Hda & Hbu & Hsy). exists V. split; [|done].
  split; try done; [by apply isection_idle|]. destruct Ho as [? ? ? ?]. by split.
Qed.

(** A change of the reference count of the directory, or of another entry. *)
Lemma isection_dstate c f s i d ip bs k r :
  dstate s i d ip bs k -> 0 < r -> (if decide (c = i) then f ip = set_i_ref r ip else r = i_ref ip) ->
  dstate (isection c f s) i d (set_i_ref r ip) bs k.
Proof.
  intros [Hf Ht Hm Hr] H0 Hc. pose proof Hf as [Htx Hdk Hfl Hi Hsb Hro].
  assert (Hin : inode_in (isection c f s) i (set_i_ref r ip)).
  { destruct (decide (c = i)) as [->|Hne].
    - rewrite <- Hc. by apply isection_in.
    - unfold inode_in. rewrite isection_ne, Hc by done. rewrite Hi. by destruct ip. }
  split; [|done|done|done]. split; [by apply isection_txn|done| |done|done|exact Hro].
  by destruct Hfl as [? ? ? ? ? ?].
Qed.

Lemma dstate_idle s i d ip bs k : dstate s i d ip bs k -> idle s.
Proof. intros [[(V & Ht & _) _ _ _ _ _] _ _ _]. apply Ht. Qed.

Lemma dstate_got s i d ip bs k dev inum c f :
  dstate s i d ip bs k -> igot dev inum s c (isection c f s) ->
  dstate (isection c f s) i d (set_i_ref (if decide (c = i) then i_ref ip + 1 else i_ref ip) ip) bs k.
Proof.
  intros Hd [(x & Hx & Hgot) _ _]. pose proof (ds_ref _ _ _ _ _ _ Hd) as Hr.
  apply isection_dstate; [done|case_decide; lia|]. case_decide as Ec; [|done]. subst c.
  pose proof (fs_inode _ _ _ _ _ _ _ _ _ _ _ _ (ds_fstate _ _ _ _ _ _ Hd)) as Hi. unfold inode_in in *.
  rewrite Hx in Hi. injection Hi as ->. destruct Hgot as [[Hc E]|[E0 _]]; [|lia].
  pose proof (isection_in s i f ip Hx) as E'. unfold inode_in in E'. rewrite E in E'. by injection E'.
Qed.

(** What a lookup of [name] finds: a reference to the inode, or nothing; there
    may be no room for it in the cache. *)
Lemma dirlookup_ok s i d ip bs k name e :
  dstate s i d ip bs k -> 1 <= k ->
  match dir_map d ip !! dname name with
  | None => exists s', dirlookup i name e s = Ok None e s' /\ dstate s' i d ip bs k /\ fsrest s' = fsrest s
  | Some inum =>
    (exists c j f s1, dirlookup i name e s = Ok (Some (c, DESZ * Z.of_nat j)) e (isection c f s1) /\
       (j < ndents ip)%nat /\ in_use (dent d ip j) = Some (dname name, inum) /\
       dstate s1 i d ip bs k /\ fsrest s1 = fsrest s /\ igot (i_dev ip) inum s1 c (isection c f s1)) \/
    (exists s', dirlookup i name e s = Panic "iget: no inodes" s' /\
       forall c x, inode_in s c x -> i_ref x <> 0 /\ icached (i_dev ip) inum x = false)
  end.
Proof.
  intros Hd Hk. unfold dirlookup. mstep inode_at_ok by apply Hd. rewrite (ds_type _ _ _ _ _ _ Hd). cbn [negb Z.eqb T_DIR Pos.eqb].
  destruct (dirlookup_loop_ok name (S (Z.to_nat (i_size ip / DESZ + 1))) s i d ip bs k 0 e Hd Hk) as (s1 & Hd1 & Hr1 & E1);
    [lia|unfold ndents; lia|]. change (DESZ * Z.of_nat 0) with 0 in E1. rewrite E1, Nat.sub_0_r. clear E1.
  unfold dir_map. rewrite dir_find. fold (dents d ip).
  destruct (find_idx (names name) (dents d ip)) as [j|] eqn:Ej; cbn [mbind option_bind]; [|by exists s1].
  pose proof (find_idx_lt _ _ _ Ej) as Hlt. unfold dents in Hlt. rewrite length_fmap, length_seq in Hlt.
  apply find_idx_Some in Ej as [(de & Hde & Hn) _]. rewrite Hde. cbn.
  unfold dents in Hde. rewrite list_lookup_fmap, lookup_seq_lt in Hde by done. injection Hde as <-.
  rewrite names_in_use in Hn. apply bool_decide_eq_true in Hn.
  assert (Hu : in_use (dent d ip j) = Some (dname name, de_inum (dent d ip j))).
  { revert Hn. unfold in_use. destruct (_ =? 0); [done|]. by intros [= ->]. }
  destruct (iget_ok (i_dev ip) (de_inum (dent d ip j)) e s1 (dstate_idle _ _ _ _ _ _ Hd1)) as [(c & s' & f & E & Hg & ->)|(s' & E & Hf)].
  - left. mstep E. by exists c, j, f, s1.
  - right. exists s'. split; [by eapply bind_panic|]. intros c x Hx. apply (Hf c). by eapply inode_rest.
Qed.

(** *** [dirlink] *)

(** The slot that [dirlink] takes: the first that is free, or a new one. *)
Definition free_slot (l : list (list Z)) : nat :=
  default (length l) (find_idx (fun de => de_inum de =? 0) l).

Lemma dirlink_loop_ok fuel : forall s i d ip bs k j e,
  dstate s i d ip bs k -> 1 <= k -> (j <= ndents ip)%nat -> (ndents ip - j < fuel)%nat ->
  exists s', dstate s' i d ip bs k /\ fsrest s' = fsrest s /\
    dirlink_loop fuel i (DESZ * Z.of_nat j) e s =
      Ok (DESZ * Z.of_nat (j + free_slot (dent d ip <$> seq j (ndents ip - j)))) e s'.
Proof.
  induction fuel as [|fuel IH]; intros s i d ip bs k j e Hd Hk Hj Hfuel; [lia|]. cbn [dirlink_loop].
  destruct (dstate_size _ _ _ _ _ _ Hd) as [Hs Hmax]. mstep inode_at_ok by apply Hd.
  destruct (decide (j = ndents ip)) as [->|Hne].
  - rewrite Nat.sub_diag, Hs, Z.ltb_irrefl. exists s. by rewrite Nat.add_0_r.
  - rewrite (proj2 (Z.ltb_lt _ _)) by (unfold DESZ in *; lia).
    destruct (read_dent s i d ip bs k j e Hd Hk ltac:(lia)) as (s1 & E1 & Hd1 & Hr1). mstep E1. cbn [fst snd].
    rewrite Z.eqb_refl. cbn [negb].
    replace (ndents ip - j)%nat with (S (ndents ip - S j)) by lia. cbn [seq fmap list_fmap].
    unfold free_slot. cbn [find_idx length]. destruct (de_inum (dent d ip j) =? 0).
    + exists s1. cbn. by rewrite Nat.add_0_r.
    + replace (DESZ * Z.of_nat j + DESZ) with (DESZ * Z.of_nat (S j)) by lia.
      destruct (IH s1 i d ip bs k (S j) e Hd1 Hk ltac:(lia) ltac:(lia)) as (s2 & Hd2 & Hr2 & E2).
      exists s2. split_and!; [done|congruence|]. rewrite E2. unfold free_slot, fmap. do 3 f_equal.
      destruct (find_idx _ _) as [m|]; cbn; lia.
Qed.

Lemma free_slot_le l : (free_slot l <= length l)%nat.
Proof.
  unfold free_slot. destruct (find_idx _ l) as [j|] eqn:E; cbn; [|done]. apply find_idx_lt in E. lia.
Qed.

(** An entry at [free_slot] adds its name to the map. *)
Lemma free_slot_add l de name inum :
  in_use de = Some (dname name, inum) -> find_idx (names name) l = None ->
  (list_to_map (omap in_use (take (free_slot l) l ++ de :: drop (S (free_slot l)) l)) : gmap (list Z) Z) =
    <[dname name := inum]> (list_to_map (omap in_use l)).
Proof.
  intros Hde Hn. rewrite find_idx_None in Hn. rewrite (dir_add _ _ _ name inum); [|done|].
  2: { apply find_idx_None. intros a x Hx. apply (Hn a). apply lookup_take_Some in Hx. apply Hx. }
  do 2 f_equal. unfold free_slot. destruct (find_idx _ l) as [j|] eqn:E; cbn.
  - apply find_idx_Some in E as [(x & Hx & H0) _]. rewrite <- (take_drop_middle l j x Hx) at 3.
    rewrite omap_in_use_free; [done|]. unfold in_use. by rewrite H0.
  - by rewrite take_ge, drop_ge, app_nil_r by lia.
Qed.

(** The entry that [dirlink] writes. *)
Definition new_dent (name : list Z) (inum : Z) : list Z := le16 inum ++ dname name.

Lemma new_dent_in_use name inum : 0 < inum < 65536 -> in_use (new_dent name inum) = Some (dname name, inum).
Proof.
  intros Hi. unfold in_use, new_dent, de_inum. rewrite get16_le16 by lia. rewrite (proj2 (Z.eqb_neq _ _)) by lia.
  change (de_name (le16 inum ++ dname name)) with (dname name). unfold dname. by rewrite strncpy_twice.
Qed.

Lemma new_dent_length name inum : length (new_dent name inum) = 16%nat.
Proof. unfold new_dent, dname. rewrite length_app, strncpy_length. done. Qed.

Section Wrote.
Context (s : kstate) (i : nat) (d : Z -> list Z) (ip : inode) (bs : list Z) (k : Z).
Context (j : nat) (de : list Z) (d' : Z -> list Z) (ip' : inode).
Hypothesis Hd : dstate s i d ip bs k.
Hypothesis Hj : (j <= ndents ip)%nat.
Hypothesis Hde : length de = 16%nat.
Hypothesis Hw : wrote size sb data d ip (DESZ * Z.of_nat j) de d' ip'.

Lemma wrote_size : i_size ip' = DESZ * Z.of_nat (ndents ip `max` S j).
Proof.
  rewrite (wo_size _ _ _ _ _ _ _ _ _ Hw), Hde. destruct (dstate_size _ _ _ _ _ _ Hd) as [-> _]. unfold DESZ. lia.
Qed.

Lemma wrote_ndents : ndents ip' = (ndents ip `max` S j)%nat.
Proof. unfold ndents at 1. rewrite wrote_size, Z.mul_comm, Z.div_mul by done. by rewrite Nat2Z.id. Qed.

Lemma wrote_dent a : (a < ndents ip')%nat -> dent d' ip' a = if decide (a = j) then de else dent d ip a.
Proof.
  intros Ha. rewrite wrote_ndents in Ha. pose proof wrote_size as Hs. unfold DESZ in *.
  apply byte_ext; [case_decide; unfold dent; by rewrite !fbytes_length, ?Hde|]. unfold dent at 1. rewrite fbytes_length.
  intros x Hx. unfold dent at 1. rewrite fbytes_at, (wo_bytes _ _ _ _ _ _ _ _ _ Hw), Hde by (unfold DESZ in *; lia). unfold DESZ in *.
  case_decide as Ho; case_decide as Ea; try lia.
  - f_equal. lia.
  - unfold dent. rewrite fbytes_at by (unfold DESZ; lia). done.
Qed.

Lemma wrote_dents : dents d' ip' = take j (dents d ip) ++ de :: drop (S j) (dents d ip).
Proof.
  assert (Hl : length (dents d ip) = ndents ip) by (unfold dents; by rewrite length_fmap, length_seq).
  apply list_eq. intros a. unfold dents at 1. rewrite list_lookup_fmap.
  assert (Htk : length (take j (dents d ip)) = j) by (rewrite length_take; lia).
  assert (Hlk : forall b, (b < ndents ip)%nat -> dents d ip !! b = Some (dent d ip b)).
  { intros b Hb. unfold dents. by rewrite list_lookup_fmap, lookup_seq_lt by done. }
  destruct (decide (a < ndents ip')%nat) as [Ha|Ha].
  - rewrite lookup_seq_lt by done. cbn. rewrite wrote_dent by done. rewrite wrote_ndents in Ha. case_decide as Ea.
    + subst a. rewrite lookup_app_r, Htk, Nat.sub_diag by lia. done.
    + destruct (decide (a < j)%nat).
      * rewrite lookup_app_l, lookup_take_lt by lia. by rewrite Hlk by lia.
      * rewrite lookup_app_r, Htk by lia. destruct (a - j)%nat as [|q] eqn:Eq; [lia|].
        change ((de :: drop (S j) (dents d ip)) !! S q) with (drop (S j) (dents d ip) !! q). rewrite lookup_drop.
        rewrite Hlk by lia. do 2 f_equal. lia.
  - rewrite lookup_seq_ge by lia. rewrite wrote_ndents in Ha. cbn. symmetry. apply lookup_ge_None.
    rewrite length_app, Htk. cbn [length]. rewrite length_drop. lia.
Qed.
End Wrote.

(** A reference that is not the last one to a deleted file is given back. *)
Lemma iput_keeps s c x e :
  idle s -> inode_in s c x -> ((i_ref x =? 1) && has_flag x I_VALID && (i_nlink x =? 0)) = false ->
  iput c e s = Ok tt e (isection c (fun x => set_i_ref (i_ref x - 1) x) s).
Proof.
  intros Hi Hx Hno. unfold iput. mstep acquire_free by apply Hi. mstep inode_at_ok by exact Hx.
  rewrite Hno. do 2 mstep. by apply isection_release.
Qed.

Lemma iput_got dev inum s c f e :
  idle s -> igot dev inum s c (isection c f s) ->
  iput c e (isection c f s) = Ok tt e (isection c (fun x => set_i_ref (i_ref x - 1) x) (isection c f s)).
Proof.
  intros Hi [(x & Hx & Hgot) _ _]. destruct Hgot as [[Hc E]|[E0 E]].
  - apply (iput_keeps _ _ _ _ (isection_idle c f s Hi) E). apply icached_spec in Hc as (H1 & _). cbn.
    by rewrite (proj2 (Z.eqb_neq _ 1)) by lia.
  - by apply (iput_keeps _ _ _ _ (isection_idle c f s Hi) E).
Qed.

Section PutBack.
Context (s s1 : kstate) (i : nat) (d : Z -> list Z) (ip : inode) (bs : list Z) (k dev inum : Z) (c : nat) (f : inode -> inode).
Hypothesis Hd : dstate s1 i d ip bs k.
Hypothesis Hr : fsrest s1 = fsrest s.
Hypothesis Hg : igot dev inum s1 c (isection c f s1).
Let s2 : kstate := isection c (fun x => set_i_ref (i_ref x - 1) x) (isection c f s1).

Lemma put_back : dstate s2 i d ip bs k.
Proof.
  pose proof (dstate_got _ _ _ _ _ _ _ _ _ _ Hd Hg) as Hd1. set (ip1 := set_i_ref _ ip) in Hd1.
  pose proof (ds_ref _ _ _ _ _ _ Hd) as H0. assert (E : ip = set_i_ref (i_ref ip) ip1) by (by destruct ip).
  rewrite E. apply isection_dstate; [done|done|]. unfold ip1. case_decide; [|done]. f_equal. cbn. lia.
Qed.

Lemma put_back_others : others c s2 = others c s.
Proof.
  pose proof (dstate_idle _ _ _ _ _ _ Hd) as Hi. unfold s2.
  rewrite !isection_others by (done || by apply isection_idle). by apply others_rest.
Qed.

Lemma put_back_ref : i_ref <$> fs_icache (k_fs s2) !! c = i_ref <$> fs_icache (k_fs s) !! c.
Proof.
  destruct (ig_entry _ _ _ _ _ Hg) as (x & Hx & Hgot). pose proof (inode_rest s1 s c x (eq_sym Hr) Hx) as Hxs.
  unfold inode_in in Hxs. rewrite Hxs. unfold s2.
  destruct Hgot as [[_ E]|[E0 E]]; apply (isection_in _ _ (fun x => set_i_ref (i_ref x - 1) x)) in E;
    unfold inode_in in E; rewrite E; cbn; f_equal; lia.
Qed.
End PutBack.

(** The second half of [dirlink], when the name is not there. *)
Lemma dirlink_write s i d ip bs k name inum e :
  dstate s i d ip bs k -> 1 <= k -> i_size ip < MAXFILE * BSIZE -> 0 < inum < 65536 ->
  0 <= i_inum ip < sb_ninodes sb -> inode_block sb (i_inum ip) ∈ F -> find_idx (names name) (dents d ip) = None ->
  let j := free_slot (dents d ip) in
  (exists s' d' ip' bs', writei i (DESZ * Z.of_nat j) (new_dent name inum) e s = Ok DESZ e s' /\
     dstate s' i d' ip' bs' (k - 1) /\ wrote size sb data d ip (DESZ * Z.of_nat j) (new_dent name inum) d' ip' /\
     dir_map d' ip' = <[dname name := inum]> (dir_map d ip) /\ others i s' = others i s) \/
  (exists s', writei i (DESZ * Z.of_nat j) (new_dent name inum) e s = Panic "balloc: out of blocks" s' /\ crowded size sb d).
Proof.
  intros Hd Hk Hmax Hn Hin HiF Hno j. destruct (dstate_size _ _ _ _ _ _ Hd) as [Hs _]. pose proof Hd as [Hf Ht Hm Hr].
  assert (Hj : (j <= ndents ip)%nat).
  { unfold j. etransitivity; [apply free_slot_le|]. unfold dents. by rewrite length_fmap, length_seq. }
  pose proof (new_dent_length name inum) as Hl. pose proof (new_dent_in_use name inum Hn) as Hu.
  assert (Hnb : nblocks (DESZ * Z.of_nat j) 16 = 1) by (unfold nblocks, DESZ, BSIZE; cbn; Z.div_mod_to_equations; lia).
  pose proof (writei_ok D size start lsz G sb data FG F HF HF0 s i d ip bs k (DESZ * Z.of_nat j) (new_dent name inum) e Hf) as W.
  rewrite Hl in W. cbv zeta in W. change (Z.of_nat 16) with 16 in W. rewrite Hnb in W.
  destruct W as [(s' & d' & ip' & bs' & E & Hf' & Hw & Ho)|(s' & E & Hcr)]; try done;
    [by rewrite Ht|unfold DESZ in *; lia|rewrite MAXFILE_eq in *; unfold DESZ, BSIZE in *; lia| |right; exists s'; split; [exact E|by apply Hcr]].
  left. exists s', d', ip', bs'. split_and!; [exact E| |done| |done].
  - split; [done|by rewrite (wo_type _ _ _ _ _ _ _ _ _ Hw)| |by rewrite (wo_ref _ _ _ _ _ _ _ _ _ Hw)].
    rewrite (wrote_size s i d ip bs k j _ d' ip' Hd Hj Hl Hw), Z.mul_comm. by apply Z.mod_mul.
  - unfold dir_map. rewrite (wrote_dents s i d ip bs k j _ d' ip' Hd Hj Hl Hw). by apply free_slot_add.
Qed.

Lemma dirlink_none s i d ip bs k name inum e :
  dstate s i d ip bs k -> 1 <= k -> dir_map d ip !! dname name = None ->
  exists s', dstate s' i d ip bs k /\ fsrest s' = fsrest s /\
    dirlink i name inum e s =
      (r ← writei i (DESZ * Z.of_nat (free_slot (dents d ip))) (new_dent name inum);
       if negb (r =? DESZ) then panic "dirlink" else mret 0) e s'.
Proof.
  intros Hd Hk Hno. pose proof (dirlookup_ok s i d ip bs k name e Hd Hk) as Hl. rewrite Hno in Hl.
  destruct Hl as (s1 & E1 & Hd1 & Hr1). unfold dirlink. mstep E1. mstep inode_at_ok by apply Hd1.
  destruct (dirlink_loop_ok (S (Z.to_nat (i_size ip / DESZ + 1))) s1 i d ip bs k 0 e Hd1 Hk) as (s2 & Hd2 & Hr2 & E2);
    [lia|unfold ndents; lia|]. rewrite Nat.sub_0_r in E2. fold (dents d ip) in E2. change (DESZ * Z.of_nat 0) with 0 in E2. mstep E2.
  exists s2. split_and!; [done|congruence|done].
Qed.

(** ** The theorems *)

(** [dirlookup] looks its name up in the directory as a map.  A name that is
    there gives an entry of the inode cache that holds the inode of the map,
    with one reference more than before, and the offset of an entry with this
    name and number; the cache still has no inode twice, and nothing else has
    changed; with no free entry in the cache [iget] panics.  A name that is not
    there gives 0 and changes nothing. *)
Theorem dirlookup_finds s i d ip bs k name e :
  dstate s i d ip bs k -> 1 <= k ->
  match dir_map d ip !! dname name with
  | None => exists s', dirlookup i name e s = Ok None e s' /\ dstate s' i d ip bs k /\ fsrest s' = fsrest s
  | Some inum =>
    (exists c j s', dirlookup i name e s = Ok (Some (c, DESZ * Z.of_nat j)) e s' /\
       in_use (dent d ip j) = Some (dname name, inum) /\ (j < ndents ip)%nat /\ igot (i_dev ip) inum s c s' /\
       dstate s' i d (set_i_ref (if decide (c = i) then i_ref ip + 1 else i_ref ip) ip) bs k) \/
    (exists s', dirlookup i name e s = Panic "iget: no inodes" s' /\
       forall c x, inode_in s c x -> i_ref x <> 0 /\ icached (i_dev ip) inum x = false)
  end.
Proof.
  intros Hd Hk. pose proof (dirlookup_ok s i d ip bs k name e Hd Hk) as Hl.
  destruct (dir_map d ip !! dname name) as [inum|]; [|done].
  destruct Hl as [(c & j & f & s1 & E & Hj & Hu & Hd1 & Hr & Hg)|Hp]; [|by right].
  left. exists c, j, (isection c f s1). split_and!; [done|done|done|by eapply igot_from|by eapply dstate_got].
Qed.

(** C15: [dirlink] adds a name to the directory as a map: a name that is not
    there is mapped to the inode number and every other name as before.  All
    that is written is one entry, in the first free slot or at the end of the
    directory, with the size of its inode in memory and on the disk; or
    [balloc] panics, and then at most one block of the disk was free.  A name
    that is there is an error, and leaves the directory and the reference
    counts as they were; or [iget] panics, and then every entry of the inode
    cache was in use.  The directory has room for an entry: its size is less
    than [MAXFILE] blocks. *)
Theorem dirlink_adds s i d ip bs k name inum e :
  dstate s i d ip bs k -> 1 <= k -> i_size ip < MAXFILE * BSIZE -> 0 < inum < 65536 ->
  0 <= i_inum ip < sb_ninodes sb -> inode_block sb (i_inum ip) ∈ F ->
  match dir_map d ip !! dname name with
  | None =>
    (exists s' d' ip' bs', dirlink i name inum e s = Ok 0 e s' /\ dstate s' i d' ip' bs' (k - 1) /\
       dir_map d' ip' = <[dname name := inum]> (dir_map d ip) /\ others i s' = others i s /\
       wrote size sb data d ip (DESZ * Z.of_nat (free_slot (dents d ip))) (new_dent name inum) d' ip') \/
    (exists s', dirlink i name inum e s = Panic "balloc: out of blocks" s' /\ crowded size sb d)
  | Some _ =>
    (exists c s', dirlink i name inum e s = Ok (-1) e s' /\ dstate s' i d ip bs k /\ others c s' = others c s /\
       i_ref <$> fs_icache (k_fs s') !! c = i_ref <$> fs_icache (k_fs s) !! c) \/
    (exists s', dirlink i name inum e s = Panic "iget: no inodes" s' /\ forall c x, inode_in s c x -> i_ref x <> 0)
  end.
Proof.
  intros Hd Hk Hmax Hn Hin HiF. destruct (dir_map d ip !! dname name) as [inum'|] eqn:Em.
  - pose proof (dirlookup_ok s i d ip bs k name e Hd Hk) as Hl. rewrite Em in Hl.
    destruct Hl as [(c & j & f & s1 & E & _ & _ & Hd1 & Hr & Hg)|(s' & E & Hfull)]; [left|right; exists s'; split; [by eapply bind_panic|by intros c x Hx; apply (Hfull c)]].
    exists c. eexists. unfold dirlink. mstep E. mstep iput_got by (apply (dstate_idle _ _ _ _ _ _ Hd1) || exact Hg).
    split_and!; [done|by eapply put_back|by eapply put_back_others|by eapply put_back_ref].
  - destruct (dirlink_none s i d ip bs k name inum e Hd Hk Em) as (s1 & Hd1 & Hr1 & ->).
    assert (Hno : find_idx (names name) (dents d ip) = None).
    { destruct (find_idx _ _) as [j|] eqn:Ej; [|done]. unfold dir_map in Em. rewrite dir_find, Ej in Em.
      apply find_idx_Some in Ej as [(de & Hde & _) _]. cbn in Em. by rewrite Hde in Em. }
    destruct (dirlink_write s1 i d ip bs k name inum e Hd1 Hk Hmax Hn Hin HiF Hno) as [(s2 & d' & ip' & bs' & E & Hd2 & Hw & Hmap & Ho)|(s2 & E & Hcr)].
    + left. exists s2, d', ip', bs'. mstep E. split_and!; [done|done|done| |exact Hw]. rewrite Ho. by apply others_rest.
    + right. exists s2. split; [by eapply bind_panic|done].
Qed.
End FsDir.
