(* ===== verification/FsPath.v ===== *)
(** * Path names

    [namex] of fs.c walks down the directory tree along a path.  The tree is
    what the inodes on the disk say ([resolve]); the theorems show that a path
    is taken apart into its elements, that [namei] and [nameiparent] find the
    inode that the tree has for it, and that whatever the outcome, no reference
    to an inode is lost or left over. *)

From stdpp Require Import base list gmap strings fin_maps list_numbers.
From S2P Require Import Prelude Memory Bytes Str Kernel KMonad Boot Mmu Spinlock Sched Ide Ring Bio BioSpec Log LogSpec Fs FsBlocks FsInode FsFile FsIO FsDir.

(** ** The elements of a path *)

(** What stands between slashes, up to the terminator; and of that what is not
    empty. *)
Fixpoint pieces (path : list Z) : list (list Z) :=
  match path with
  | [] => [[]]
  | c :: p =>
    if c =? 0 then [[]] else
    if c =? SLASH then [] :: pieces p else
    match pieces p with x :: l => (c :: x) :: l | [] => [[c]] end
  end.
Definition elems (path : list Z) : list (list Z) := filter (fun x => x <> []) (pieces path).

Lemma elems_skip path : elems (skip_slashes path) = elems path.
Proof.
  induction path as [|c p IH]; [done|]. cbn [skip_slashes]. destruct (Z.eqb_spec c SLASH) as [->|]; [|done].
  rewrite IH. done.
Qed.

Lemma skip_slashes_head path : Str.chr (skip_slashes path) <> SLASH.
Proof.
  induction path as [|c p IH]; [done|]. cbn [skip_slashes]. by destruct (Z.eqb_spec c SLASH).
Qed.

Lemma skip_slashes_length path : (length (skip_slashes path) <= length path)%nat.
Proof. induction path as [|c p IH]; [done|]. cbn [skip_slashes]. destruct (_ =? _); cbn in *; lia. Qed.

Lemma pieces_split path :
  let (a, b) := split_elem path in
  length path = (length a + length b)%nat /\ (Str.chr b = SLASH \/ Str.chr b = 0) /\
  pieces path = match b with c :: b' => if c =? SLASH then a :: pieces b' else [a] | [] => [a] end.
Proof.
  induction path as [|c p IH]; [by split; [|split; [right|]]|]. cbn [split_elem pieces].
  destruct (Z.eqb_spec c SLASH) as [->|Hs]; [by split; [|split; [left|]]|].
  destruct (Z.eqb_spec c 0) as [->|H0]; [by split; [|split; [right|]]|]. cbn [orb].
  destruct (split_elem p) as [a b]. destruct IH as (Hl & He & ->). split_and!; [cbn; lia|done|].
  destruct b as [|c' b']; [done|]. by destruct (c' =? SLASH).
Qed.

Lemma split_head path : Str.chr path <> 0 -> Str.chr path <> SLASH -> (split_elem path).1 <> [].
Proof.
  destruct path as [|c p]; [done|]. cbn. intros H0 Hs.
  rewrite (proj2 (Z.eqb_neq _ _) H0), (proj2 (Z.eqb_neq _ _) Hs). by destruct (split_elem p).
Qed.

Lemma elems_end path : Str.chr path = 0 -> elems path = [].
Proof. destruct path as [|c p]; [done|]. cbn. by intros ->. Qed.

Lemma elems_split path :
  Str.chr path <> 0 -> Str.chr path <> SLASH ->
  elems path = (split_elem path).1 :: elems (split_elem path).2.
Proof.
  intros H0 Hs. pose proof (pieces_split path) as Hp. pose proof (split_head path H0 Hs) as Hne.
  destruct (split_elem path) as [a b]. destruct Hp as (_ & He & Hp). cbn in *. unfold elems at 1. rewrite Hp.
  destruct b as [|c b']; [by rewrite filter_cons_True|]. destruct (Z.eqb_spec c SLASH) as [->|Hc];
    rewrite filter_cons_True by done; [done|]. f_equal. symmetry. apply elems_end. by destruct He.
Qed.

Lemma strncpy_take n : forall t, Str.strncpy (take n t) n = Str.strncpy t n.
Proof.
  induction n as [|n IH]; intros t; [done|]. destruct t as [|c t]; [done|]. cbn. destruct (c =? 0); [done|]. by rewrite IH.
Qed.

Lemma strncpy_end x y n : Str.strncpy (x ++ 0 :: y) n = Str.strncpy x n.
Proof.
  revert x. induction n as [|n IH]; intros x; [done|]. destruct x as [|c x]; [done|]. cbn. destruct (c =? 0); [done|]. by rewrite IH.
Qed.

(** [skipelem] takes the first element off a path. *)
Lemma skipelem_ok path name :
  length name = Z.to_nat DIRSIZ ->
  match elems path with
  | [] => skipelem path name = None
  | x :: l => exists path' name', skipelem path name = Some (path', name') /\ elems path' = l /\
      dname name' = dname x /\ length name' = Z.to_nat DIRSIZ /\
      (Str.chr path' =? 0) = bool_decide (l = []) /\ (length path' < length path)%nat
  end.
Proof.
  intros Hn. rewrite <- elems_skip. unfold skipelem. pose proof (skip_slashes_head path) as Hs.
  pose proof (skip_slashes_length path) as Hl. set (p := skip_slashes path) in *.
  destruct (Z.eqb_spec (Str.chr p) 0) as [H0|H0]; [by rewrite elems_end|]. rewrite elems_split by done.
  pose proof (pieces_split p) as Hp. pose proof (split_head p H0 Hs) as Hne. destruct (split_elem p) as [x b].
  destruct Hp as (Hlen & _ & _). cbn [fst snd] in *. pose proof (skip_slashes_length b) as Hlb.
  assert (Hx : (0 < length x)%nat) by (destruct x; [done|cbn; lia]).
  eexists _, _. split; [done|]. split; [apply elems_skip|]. unfold dname, splice, DIRSIZ in *. split_and!.
  - destruct (Z.leb_spec 14 (Z.of_nat (length x))).
    + cbn [Z.to_nat take Nat.add app]. rewrite drop_ge, app_nil_r by (rewrite length_take; lia). apply strncpy_take.
    + cbn [Z.to_nat take Nat.add app]. rewrite <- app_assoc. apply strncpy_end.
  - destruct (Z.leb_spec 14 (Z.of_nat (length x))); cbn [Z.to_nat take Nat.add app];
      rewrite !length_app, length_drop, ?length_take, ?length_app; cbn [length]; lia.
  - rewrite <- (elems_skip b). pose proof (skip_slashes_head b) as Hb. apply Bool.eq_iff_eq_true.
    rewrite Z.eqb_eq, bool_decide_eq_true. split; [apply elems_end|]. intros E.
    destruct (Z.eq_dec (Str.chr (skip_slashes b)) 0) as [|Hc]; [done|]. by rewrite elems_split in E.
  - lia.
Qed.

(** ** References *)

(** The references that the inode cache counts for an inode. *)
Definition count (n : Z) (x : inode) : Z := if i_inum x =? n then i_ref x else 0.
Definition refs (s : kstate) (n : Z) : Z := foldr (fun x r => count n x + r) 0 (fs_icache (k_fs s)).

Lemma count_insert n c x x' (l : list inode) :
  l !! c = Some x ->
  foldr (fun x r => count n x + r) 0 (<[c := x']> l) = foldr (fun x r => count n x + r) 0 l - count n x + count n x'.
Proof.
  revert c. induction l as [|y l IH]; intros [|c]; [done|done| |]; cbn.
  - intros [= ->]. lia.
  - intros Hx. rewrite IH by done. lia.
Qed.

(** Everything but buffers, disk, log and inode cache. *)
Definition beyond (s : kstate) : kstate := upd_fs (set_fs_icache []) (fsrest s).

Lemma others_beyond c s s' : others c s' = others c s -> beyond s' = beyond s.
Proof. intros E. apply (f_equal (upd_fs (set_fs_icache []))) in E. exact E. Qed.

Lemma beyond_sb s s' : beyond s' = beyond s -> fs_sb (k_fs s') = fs_sb (k_fs s).
Proof. intros E. apply (f_equal (fun s => fs_sb (k_fs s))) in E. exact E. Qed.

(** From [s] to [s'] the cache changes in entry [c] only. *)
Record moved (c : nat) (x x' : inode) (s s' : kstate) : Prop := {
  mv_from : inode_in s c x;
  mv_to : inode_in s' c x';
  mv_others : others c s' = others c s
}.

Lemma moved_cache c x x' s s' : moved c x x' s s' -> fs_icache (k_fs s') = <[c := x']> (fs_icache (k_fs s)).
Proof.
  intros [Hx Hx' Ho]. apply (f_equal (fun s => fs_icache (k_fs s))) in Ho.
  change (alter (fun _ => mkInode 0 0 0 0 0 0 0 0 0 []) c (fs_icache (k_fs s')) =
          alter (fun _ => mkInode 0 0 0 0 0 0 0 0 0 []) c (fs_icache (k_fs s))) in Ho.
  unfold inode_in in *. apply list_eq. intros a. destruct (decide (a = c)) as [->|Hne].
  - rewrite list_lookup_insert_eq by (by apply lookup_lt_Some in Hx). done.
  - apply (f_equal (fun l => l !! a)) in Ho. rewrite !list_lookup_alter_ne in Ho by done. by rewrite list_lookup_insert_ne.
Qed.

Lemma moved_refs c x x' s s' n : moved c x x' s s' -> refs s' n = refs s n - count n x + count n x'.
Proof. intros Hm. unfold refs. rewrite (moved_cache _ _ _ _ _ Hm). apply count_insert, Hm. Qed.

(** From [s] to [s'] the reference count of each entry [a] changes by [f a]. *)
Definition ref_at (s : kstate) (a : nat) : option Z := i_ref <$> fs_icache (k_fs s) !! a.
Definition shift (f : nat -> Z) (s s' : kstate) : Prop := forall a, ref_at s' a = (fun k => k + f a) <$> ref_at s a.
Definition at_entry (c a : nat) : Z := if decide (a = c) then 1 else 0.

Lemma shift_trans f g h s1 s2 s3 :
  shift f s1 s2 -> shift g s2 s3 -> (forall a, h a = f a + g a) -> shift h s1 s3.
Proof. intros H1 H2 Hh a. rewrite H2, H1, Hh. destruct (ref_at s1 a); cbn; [f_equal; lia|done]. Qed.

Lemma moved_shift c x x' s s' f :
  moved c x x' s s' -> (forall a, f a = if decide (a = c) then i_ref x' - i_ref x else 0) -> shift f s s'.
Proof.
  intros Hm Hf a. unfold ref_at. rewrite (moved_cache _ _ _ _ _ Hm), Hf. pose proof (mv_from _ _ _ _ _ Hm) as Hx. unfold inode_in in Hx.
  case_decide as E.
  - subst a. rewrite list_lookup_insert_eq by (by apply lookup_lt_Some in Hx). rewrite Hx. cbn. f_equal. lia.
  - rewrite list_lookup_insert_ne by done. destruct (_ !! a); cbn; [f_equal; lia|done].
Qed.

Lemma shift_rest s s' : fsrest s' = fsrest s -> shift (fun _ => 0) s s'.
Proof. intros (_ & E & _)%fsrest_fs a. unfold ref_at. rewrite E. destruct (_ !! a); cbn; [f_equal; lia|done]. Qed.

(** All entries are in use, all but [c]. *)
Definition full (s : kstate) : Prop := forall a x, inode_in s a x -> i_ref x <> 0.
Definition full_but (c : nat) (s : kstate) : Prop := forall a x, inode_in s a x -> a <> c -> i_ref x <> 0.

Lemma full_shift c s s' : shift (at_entry c) s s' -> full s' -> full_but c s.
Proof.
  intros Hs Hf a x Hx Hne. specialize (Hs a). unfold ref_at, at_entry in Hs. unfold inode_in in Hx. rewrite Hx, decide_False in Hs by done.
  destruct (fs_icache (k_fs s') !! a) as [y|] eqn:Ey; [|done]. cbn in Hs. injection Hs as E. pose proof (Hf a y Ey). lia.
Qed.

Lemma moved_other c x x' s s' a y : moved c x x' s s' -> a <> c -> inode_in s' a y <-> inode_in s a y.
Proof. intros Hm Hne. unfold inode_in. rewrite (moved_cache _ _ _ _ _ Hm). by rewrite list_lookup_insert_ne. Qed.

(** The entry keeps its inode, and its references are not more than none. *)
Lemma moved_cache_ok c x x' s s' :
  moved c x x' s s' -> 0 < i_ref x -> i_dev x' = i_dev x -> i_inum x' = i_inum x -> icache_ok s -> icache_ok s'.
Proof.
  intros Hm H0 Ed En Hok a b y z Ha Hb. pose proof (mv_to _ _ _ _ _ Hm) as Hx'. pose proof (mv_from _ _ _ _ _ Hm) as Hx.
  destruct (decide (a = c)) as [->|Ha'], (decide (b = c)) as [->|Hb']; [done| | |].
  - unfold inode_in in Ha, Hx'. rewrite Hx' in Ha. injection Ha as <-. rewrite Ed, En. intros.
    apply (Hok c b x z); [done|by apply (moved_other _ _ _ _ _ _ _ Hm)|done..].
  - unfold inode_in in Hb, Hx'. rewrite Hx' in Hb. injection Hb as <-. rewrite Ed, En. intros.
    apply (Hok a c y x); [by apply (moved_other _ _ _ _ _ _ _ Hm)|done..].
  - apply Hok; by apply (moved_other _ _ _ _ _ _ _ Hm).
Qed.

Lemma isection_moved c f x s : idle s -> inode_in s c x -> moved c x (f x) s (isection c f s).
Proof. intros Hi Hx. split; [done|by apply isection_in|by apply isection_others]. Qed.

Lemma moved_trans c x y z s1 s2 s3 : moved c x y s1 s2 -> moved c y z s2 s3 -> moved c x z s1 s3.
Proof. intros [? ? ?] [? ? ?]. split; [done|done|congruence]. Qed.

Section FsPath.
Context (D : Disk) `{DevOps} (size : Z) {HD : DiskOk D size}.
Context (start lsz : Z) (G : geometry start lsz size).
Context (sb : superblock) (data : Z).
Hypothesis FG : fs_geom size start lsz sb data.

Notation txn := (txn size start lsz).
Notation disk_ok := (disk_ok size sb data).
Notation file_ok := (file_ok size sb data).

(** ** The tree on the disk *)

(** Inode [inum] as the disk has it. *)
Definition disk_inode (d : Z -> list Z) (inum : Z) : inode :=
  get_dinode (d (inode_block sb inum)) (dinode_off inum) (mkInode 1 inum 0 0 0 0 0 0 0 []).

(** The inodes [N] are files and directories with a link to each, and what their
    directories name is among them. *)
Record tree (d : Z -> list Z) (N : Z -> Prop) : Prop := {
  tr_root : N ROOTINO;
  tr_inum : forall n, N n -> 0 <= n < sb_ninodes sb;
  tr_type : forall n, N n -> i_type (disk_inode d n) <> 0;
  tr_link : forall n, N n -> i_nlink (disk_inode d n) <> 0;
  tr_dir : forall n, N n -> i_type (disk_inode d n) = T_DIR ->
    file_ok d (disk_inode d n) /\ i_size (disk_inode d n) mod DESZ = 0 /\
    map_Forall (fun _ m => N m) (dir_map d (disk_inode d n))
}.

(** The inode that a path leads to, or the directory that has its last element. *)
Fixpoint resolve (d : Z -> list Z) (parent : bool) (n : Z) (path : list (list Z)) : option Z :=
  match path with
  | [] => if parent then None else Some n
  | x :: l =>
    if i_type (disk_inode d n) =? T_DIR then
      if parent && bool_decide (l = []) then Some n else
      m ← dir_map d (disk_inode d n) !! dname x; resolve d parent m l
    else None
  end.

(** ** The inode cache and the disk *)

Context (d : Z -> list Z) (N : Z -> Prop) (bs : list Z).
Hypothesis Hdk : disk_ok d.
Hypothesis Htree : tree d N.
Hypothesis Hroom : Z.of_nat (length bs) + 2 <= Z.min (lsz - 2) (Z.of_nat NBUF - 3).

(** An entry for an inode of the tree is not locked, and if it was read it is as
    on the disk. *)
Definition good (x : inode) : Prop :=
  0 < i_ref x -> i_dev x = 1 -> N (i_inum x) ->
  has_flag x I_BUSY = false /\ (has_flag x I_VALID = true -> same_dinode x (disk_inode d (i_inum x))).

Record nstate (s : kstate) : Prop := {
  ns_txn : txn s d bs ∅;
  ns_sb : fs_sb (k_fs s) = sb;
  ns_ok : icache_ok s;
  ns_good : forall c x, inode_in s c x -> good x
}.

(** Entry [c] has more than [k] references to inode [n] of the tree. *)
Definition refers (k : Z) (s : kstate) (c : nat) (n : Z) : Prop :=
  exists x, inode_in s c x /\ k < i_ref x /\ i_dev x = 1 /\ i_inum x = n /\ N n.

Lemma txn_idle s B : txn s d bs B -> idle s.
Proof. intros (V & Ht & _). apply Ht. Qed.

(** The entry after [ilock]. *)
Record locked (x x' : inode) : Prop := {
  lk_dev : i_dev x' = i_dev x;
  lk_inum : i_inum x' = i_inum x;
  lk_ref : i_ref x' = i_ref x;
  lk_busy : has_flag x' I_BUSY = true;
  lk_valid : has_flag x' I_VALID = true;
  lk_same : same_dinode x' (disk_inode d (i_inum x))
}.

Lemma has_set f g : has (Z.lor f g) g = has g g || has f g.
Proof. rewrite has_lor. apply orb_comm. Qed.

(** Reading the inode. *)
Lemma ilock_read s c x e :
  txn s d bs ∅ -> fs_sb (k_fs s) = sb -> inode_in s c x -> i_dev x = 1 -> N (i_inum x) -> has_flag x I_BUSY = true ->
  exists s' x',
    (sb ← get_sb;
     bp ← bread (i_dev x) (IBLOCK (i_inum x) sb);
     d ← bdata bp;
     modify (upd_inode c (fun x => get_dinode d (dinode_off (i_inum x)) x));;
     brelse bp;;
     modify (upd_inode c (fun x => set_i_flags (Z.lor (i_flags x) I_VALID) x));;
     ip ← inode_at c;
     if i_type ip =? 0 then panic "ilock: no type" else mret tt) e s = Ok tt e s' /\
    txn s' d bs ∅ /\ moved c x x' s s' /\ locked x x'.
Proof.
  intros Ht Hsb Hx Hdev Hn Hb. pose proof (tr_inum _ _ Htree _ Hn) as Hin.
  pose proof (inode_block_bounds size start lsz sb data FG _ Hin) as Hib.
  pose proof (bmapstart_size size start lsz G sb data FG) as Hbm. set (ib := inode_block sb (i_inum x)) in *.
  destruct (txn_bread D size start lsz G s d bs ∅ ib e Ht) as (bp & s2 & E2 & T2 & F2);
    [destruct G; lia|done|rewrite map_size_empty; unfold NBUF in *; lia|].
  assert (HB : <[ib := bp]> (∅ : gmap Z nat) !! ib = Some bp) by apply lookup_insert_eq.
  set (f := fun x => get_dinode (d ib) (dinode_off (i_inum x)) x).
  destruct (txn_brelse size start lsz (upd_inode c f s2) _ _ _ ib bp e (txn_inode _ _ _ s2 c f _ _ _ T2) HB) as (s3 & E3 & T3 & F3).
  rewrite delete_insert_id in T3 by done.
  assert (Hx3 : inode_in s3 c (f x)) by (eapply inode_rest; [exact F3|]; apply inode_upd; by eapply inode_rest).
  set (g := fun x => set_i_flags (Z.lor (i_flags x) I_VALID) x).
  exists (upd_inode c g s3), (g (f x)).
  mstep get_sb_ok by exact Hsb. rewrite (IBLOCK_eq size start lsz G sb data FG) by done. fold ib. rewrite Hdev. mstep E2.
  mstep (txn_bdata size start lsz s2 d bs _ ib bp e T2 HB). mstep. mstep E3. mstep.
  mstep inode_at_ok by exact (inode_upd s3 c (f x) g Hx3).
  split_and!.
  - change (i_type (g (f x))) with (i_type (disk_inode d (i_inum x))).
    by rewrite (proj2 (Z.eqb_neq _ _) (tr_type _ _ Htree _ Hn)).
  - by apply txn_inode.
  - split; [done|by apply inode_upd|]. rewrite others_upd, (others_rest c _ _ F3), others_upd. by apply others_rest.
  - split; [done|done|done| | |done]; unfold has_flag; cbn; [|by rewrite has_set].
    rewrite has_lor. unfold has_flag in Hb. by rewrite Hb.
Qed.

Lemma ilock_ok s c x e :
  nstate s -> inode_in s c x -> 0 < i_ref x -> i_dev x = 1 -> N (i_inum x) ->
  exists s' x', ilock (Some c) e s = Ok tt e s' /\ txn s' d bs ∅ /\ moved c x x' s s' /\ locked x x'.
Proof.
  intros [Ht Hsb Hok Hg] Hx Hr Hdev Hn. destruct (Hg c x Hx Hr Hdev Hn) as [Hb Hv]. pose proof (txn_idle _ _ Ht) as Hi.
  unfold ilock. mstep inode_at_ok by exact Hx. rewrite (proj2 (Z.ltb_ge _ _)) by lia. mstep acquire_free by apply Hi.
  assert (El : loop (ilock_turn c) e (acquired Licache s) = Ok tt e (acquired Licache s)).
  { unfold loop. cbn [loop_fuel]. assert (Et : ilock_turn c e (acquired Licache s) = Ok (Some tt) e (acquired Licache s)).
    { unfold ilock_turn. mstep inode_at_ok by exact Hx. by rewrite Hb. }
    by mstep Et. }
  mstep El. mstep. mstep isection_release by exact Hi. set (f := fun x => set_i_flags (Z.lor (i_flags x) I_BUSY) x).
  assert (Hx1 : inode_in (isection c f s) c (f x)) by (by apply isection_in).
  assert (Hm : moved c x (f x) s (isection c f s)) by (by apply isection_moved).
  pose proof (isection_txn size start lsz c f s d bs ∅ Ht) as T1. mstep inode_at_ok by exact Hx1.
  assert (Hb1 : has_flag (f x) I_BUSY = true) by (unfold has_flag; cbn; by rewrite has_set).
  destruct (has_flag (f x) I_VALID) eqn:Ev.
  - exists (isection c f s), (f x). split_and!; [done|done|done|]. split; try done. apply Hv.
    revert Ev. unfold has_flag. cbn. rewrite has_lor. by rewrite orb_false_r.
  - destruct (ilock_read (isection c f s) c (f x) e) as (s' & x' & E & T' & Hm' & L); try done.
    exists s', x'. split_and!; [exact E|done|by eapply moved_trans|]. by destruct L.
Qed.

Lemma iunlock_ok s c x e :
  txn s d bs ∅ -> inode_in s c x -> 0 < i_ref x -> has_flag x I_BUSY = true ->
  exists s', iunlock (Some c) e s = Ok tt e s' /\ txn s' d bs ∅ /\
    moved c x (set_i_flags (Z.ldiff (i_flags x) I_BUSY) x) s s'.
Proof.
  intros Ht Hx Hr Hb. pose proof (txn_idle _ _ Ht) as Hi. pose proof Hi as [Hc Hu].
  unfold iunlock. mstep inode_at_ok by exact Hx. rewrite Hb, (proj2 (Z.ltb_ge _ _)) by lia. cbn [negb orb].
  mstep acquire_free by apply Hu. mstep. set (f := fun x => set_i_flags (Z.ldiff (i_flags x) I_BUSY) x).
  set (s1 := acquired Licache s). set (s3 := upd_inode c f s1).
  assert (Hc3 : cli_ok (k_cpu s3)) by (change (cli_ok (k_cpu s1)); unfold s1; ctl).
  assert (Hn3 : 0 < c_ncli (k_cpu s3)) by (change (0 < c_ncli (k_cpu s1)); unfold s1; destruct Hc; cbn; lia).
  assert (Hu3 : forall lk, lk <> Licache -> unlocked s3 lk).
  { intros lk Hne. change (unlocked s1 lk). unfold s1. apply unlocked_acquired_ne; [done|apply Hu]. }
  mstep wakeup_ok by (first [exact Hc3|by apply Hu3]).
  rewrite release_held; [| |exact Hc3|exact Hn3].
  2:{ change (held (crit Lptable s3) Licache). apply held_crit_ne; [done|]. change (held s1 Licache). apply held_acquired. }
  set (s4 := wakeup1 (Cinode c) (crit Lptable s3)).
  assert (Hcpu : k_cpu s4 = k_cpu s3) by (unfold s4; exact (cpu_crit_in Lptable s3 Hn3)).
  assert (Hrest : fsrest (released Licache s4) = fsrest (isection c f s)).
  { apply fsrest_rest. unfold isection. fold s1 s3. rewrite !rest_released, Hcpu. unfold s4. by rewrite rest_wakeup1, rest_crit. }
  assert (Hidle : idle (released Licache s4)).
  { apply (section_idle Licache s); [done|done|]. intros lk Hne. change (unlocked (crit Lptable s3) lk).
    apply unlocked_crit. by apply Hu3. }
  eexists. split; [done|]. split.
  - destruct (isection_txn size start lsz c f s d bs ∅ Ht) as (V & [_ Ho Hl Hd Hs Hout Hbl] & HV). exists V. split; [by split|done].
  - split; [done| |rewrite (others_rest c _ _ Hrest); by apply isection_others].
    eapply inode_rest; [exact Hrest|]. exact (isection_in s c f x Hx).
Qed.

(** *** One step down the tree *)

(** Entry [c] is locked, the others are as they should be. *)
Record lstate (s : kstate) (c : nat) (x : inode) : Prop := {
  ls_txn : txn s d bs ∅;
  ls_sb : fs_sb (k_fs s) = sb;
  ls_ok : icache_ok s;
  ls_good : forall a y, a <> c -> inode_in s a y -> good y;
  ls_in : inode_in s c x;
  ls_ref : 0 < i_ref x;
  ls_dev : i_dev x = 1;
  ls_tree : N (i_inum x);
  ls_locked : locked x x
}.

Lemma ilock_lstate s c n e :
  nstate s -> refers 0 s c n ->
  exists s' x, ilock (Some c) e s = Ok tt e s' /\ lstate s' c x /\ i_inum x = n /\ beyond s' = beyond s /\
    (forall m, refs s' m = refs s m) /\ shift (fun _ => 0) s s'.
Proof.
  intros Hs (x & Hx & Hr & Hd & <- & Hn). destruct (ilock_ok s c x e Hs Hx Hr Hd Hn) as (s' & x' & E & T & Hm & L).
  pose proof L as [Ld Li Lr Lb Lv Ls]. pose proof (others_beyond _ _ _ (mv_others _ _ _ _ _ Hm)) as Hbe.
  exists s', x'. split_and!; [done| |done|done| |].
  - destruct Hs as [Ht Hsb Hok Hg]. split; try done; rewrite ?Ld, ?Li, ?Lr; try done.
    + by rewrite (beyond_sb _ _ Hbe).
    + by eapply moved_cache_ok.
    + intros a y Hne Hy. apply (Hg a). by apply (moved_other _ _ _ _ _ _ _ Hm).
    + apply Hm.
    + split; try done. by rewrite Li.
  - intros m. rewrite (moved_refs _ _ _ _ _ _ Hm). unfold count. rewrite Li, Lr. lia.
  - apply (moved_shift _ _ _ _ _ _ Hm). intros a. case_decide; lia.
Qed.

Lemma moved_refers c x x' s s' a n k k' :
  moved c x x' s s' -> i_dev x' = i_dev x -> i_inum x' = i_inum x ->
  refers k s a n -> (if decide (a = c) then k < i_ref x -> k' < i_ref x' else k' <= k) -> refers k' s' a n.
Proof.
  intros Hm Ed En (y & Hy & Hk & Hd & Hn & HN) Hr. case_decide as Ea.
  - subst a. pose proof (mv_from _ _ _ _ _ Hm) as Hx. unfold inode_in in Hx, Hy. rewrite Hx in Hy. injection Hy as <-.
    exists x'. split_and!; [apply Hm|by apply Hr|congruence|congruence|done].
  - exists y. split_and!; [by apply (moved_other _ _ _ _ _ _ _ Hm)|lia|done|done|done].
Qed.

Lemma moved_nstate c x x' s s' :
  txn s' d bs ∅ -> moved c x x' s s' -> 0 < i_ref x -> i_dev x' = i_dev x -> i_inum x' = i_inum x ->
  fs_sb (k_fs s) = sb -> icache_ok s -> (forall a y, a <> c -> inode_in s a y -> good y) -> good x' -> nstate s'.
Proof.
  intros Ht Hm Hr Ed En Hsb Hok Hg Hx'. split; [done| |by eapply moved_cache_ok|].
  - by rewrite (beyond_sb _ _ (others_beyond _ _ _ (mv_others _ _ _ _ _ Hm))).
  - intros a y Hy. destruct (decide (a = c)) as [->|Hne].
    + pose proof (mv_to _ _ _ _ _ Hm) as Hc. unfold inode_in in Hc, Hy. rewrite Hc in Hy. by injection Hy as <-.
    + apply (Hg a); [done|]. by apply (moved_other _ _ _ _ _ _ _ Hm).
Qed.

Lemma iunlock_lstate s c x e :
  lstate s c x ->
  exists s', iunlock (Some c) e s = Ok tt e s' /\ nstate s' /\ beyond s' = beyond s /\
    (forall m, refs s' m = refs s m) /\ (forall k a m, refers k s a m -> refers k s' a m) /\ shift (fun _ => 0) s s'.
Proof.
  intros [Ht Hsb Hok Hg Hx Hr Hd Hn [_ _ _ Lb Lv Ls]].
  destruct (iunlock_ok s c x e Ht Hx Hr Lb) as (s' & E & T & Hm). exists s'. split_and!; [done| | | | |].
  - eapply moved_nstate; try done. intros _ _ _. unfold has_flag in *. cbn. change I_BUSY with (2 ^ 0). split; [by apply has_ldiff_eq|done].
  - apply (others_beyond c), Hm.
  - intros m. rewrite (moved_refs _ _ _ _ _ _ Hm). unfold count. cbn. lia.
  - intros k a m Hk. eapply moved_refers; [exact Hm|done|done|exact Hk|]. by case_decide.
  - apply (moved_shift _ _ _ _ _ _ Hm). intros a. cbn. case_decide; lia.
Qed.

Lemma iput_nstate s c n e :
  nstate s -> refers 0 s c n ->
  exists s', iput c e s = Ok tt e s' /\ nstate s' /\ beyond s' = beyond s /\
    (forall m, refs s' m = refs s m - (if n =? m then 1 else 0)) /\
    (forall a m, refers (if decide (a = c) then 1 else 0) s a m -> refers 0 s' a m) /\
    shift (fun a => - at_entry c a) s s'.
Proof.
  intros [Ht Hsb Hok Hg] (x & Hx & Hr & Hd & <- & HN). pose proof (txn_idle _ _ Ht) as Hi.
  destruct (Hg c x Hx Hr Hd HN) as [Hb Hv].
  assert (Hno : ((i_ref x =? 1) && has_flag x I_VALID && (i_nlink x =? 0)) = false).
  { destruct (has_flag x I_VALID); [|by rewrite andb_false_r]. destruct (Hv eq_refl) as (_ & _ & _ & -> & _).
    rewrite (proj2 (Z.eqb_neq _ _) (tr_link _ _ Htree _ HN)). apply andb_false_r. }
  set (f := fun x => set_i_ref (i_ref x - 1) x). pose proof (isection_moved c f x s Hi Hx) as Hm.
  exists (isection c f s). split_and!; [by eapply iput_keeps| | | | |].
  - apply (moved_nstate c x (f x) s); [by apply isection_txn|done..|by intros a y _; apply Hg|by intros _ _ _].
  - apply (others_beyond c), Hm.
  - intros m. rewrite (moved_refs _ _ _ _ _ _ Hm). unfold count, f. cbn [i_inum i_ref set_i_ref]. destruct (i_inum x =? m); lia.
  - intros a m Hk. eapply moved_refers; [exact Hm|done|done|exact Hk|]. case_decide; [cbn; lia|done].
  - apply (moved_shift _ _ _ _ _ _ Hm). intros a. unfold at_entry, f. cbn. case_decide; lia.
Qed.

Lemma iunlockput_lstate s c x e :
  lstate s c x ->
  exists s', iunlockput c e s = Ok tt e s' /\ nstate s' /\ beyond s' = beyond s /\
    (forall m, refs s' m = refs s m - (if i_inum x =? m then 1 else 0)) /\
    (forall a m, refers (if decide (a = c) then 1 else 0) s a m -> refers 0 s' a m) /\
    shift (fun a => - at_entry c a) s s'.
Proof.
  intros Hl. destruct (iunlock_lstate s c x e Hl) as (s1 & E1 & N1 & B1 & R1 & K1 & V1).
  assert (Hr : refers 0 s c (i_inum x)) by (destruct Hl; by exists x).
  destruct (iput_nstate s1 c (i_inum x) e N1 (K1 _ _ _ Hr)) as (s2 & E2 & N2 & B2 & R2 & K2 & V2).
  exists s2. unfold iunlockput. mstep E1. split_and!; [exact E2|done|congruence| | |].
  - intros m. by rewrite R2, R1.
  - intros a m Ha. by apply K2, K1.
  - eapply shift_trans; [exact V1|exact V2|]. intros a. cbn beta. lia.
Qed.

Lemma igot_moved n s c s' :
  igot 1 n s c s' ->
  exists x x', moved c x x' s s' /\ 0 < i_ref x' /\ i_dev x' = 1 /\ i_inum x' = n /\
    (forall m, count m x' = count m x + (if n =? m then 1 else 0)) /\
    (i_flags x' = 0 /\ i_ref x = 0 \/ 0 < i_ref x /\ x' = set_i_ref (i_ref x + 1) x).
Proof.
  intros [(x & Hx & Hgot) Ho _]. exists x. destruct Hgot as [[Hc E]|[E0 E]]; eexists; (split; [by split|]).
  - apply icached_spec in Hc as (H1 & Hd & Hn). split_and!; [cbn; lia|done|done| |by right].
    intros m. unfold count. cbn [i_inum i_ref set_i_ref]. rewrite Hn. destruct (n =? m); lia.
  - split_and!; [done|done|done| |by left]. intros m. unfold count. rewrite E0. cbn. destruct (n =? m), (i_inum x =? m); done.
Qed.

Lemma igot_refs n s c s' : igot 1 n s c s' -> forall m, refs s' m = refs s m + (if n =? m then 1 else 0).
Proof.
  intros (x & x' & Hm & _ & _ & _ & Hc & _)%igot_moved m. rewrite (moved_refs _ _ _ _ _ _ Hm), Hc. lia.
Qed.

Lemma igot_shift n s c s' : igot 1 n s c s' -> shift (at_entry c) s s'.
Proof.
  intros [(x & Hx & Hgot) Ho _]. destruct Hgot as [[_ E]|[E0 E]]; eapply moved_shift; [by split|..|by split|];
    intros a; unfold at_entry; cbn; case_decide; lia.
Qed.

(** Entries that are good stay good when a reference is taken. *)
Lemma igot_good n s c s' a y :
  igot 1 n s c s' -> (forall x, inode_in s a x -> good x) -> inode_in s' a y -> good y.
Proof.
  intros (x & x' & Hm & Hr & Hd & Hn & _ & Hx)%igot_moved Hg Hy. destruct (decide (a = c)) as [->|Hne].
  - pose proof (mv_to _ _ _ _ _ Hm) as Hc. unfold inode_in in Hc, Hy. rewrite Hc in Hy. injection Hy as <-.
    intros _ Hd' HN. destruct Hx as [[Hf _]|[H0 ->]]; [by unfold has_flag; rewrite Hf|].
    apply (Hg x); [apply Hm|done|done|done].
  - apply Hg. by apply (moved_other _ _ _ _ _ _ _ Hm).
Qed.

Lemma fsrest_refs s s' m : fsrest s' = fsrest s -> refs s' m = refs s m.
Proof. intros (_ & E & _)%fsrest_fs. unfold refs. by rewrite E. Qed.

Lemma lstate_rest s s' c x : txn s' d bs ∅ -> fsrest s' = fsrest s -> lstate s c x -> lstate s' c x.
Proof.
  intros Ht Hr [_ Hsb Hok Hg Hx H0 Hd HN HL]. pose proof (inode_rest s' s) as Hto. split; try done.
  - by rewrite (proj1 (fsrest_fs _ _ Hr)).
  - intros a b y z Hy Hz. apply Hok; by apply Hto.
  - intros a y Hne Hy. apply (Hg a); [done|by apply Hto].
  - by eapply inode_rest.
Qed.

Lemma same_file x q :
  i_dev x = 1 -> i_addrs x = i_addrs q -> i_size x = i_size q -> file_ok d q -> file_ok d x /\ dir_map d x = dir_map d q.
Proof. destruct x, q. cbn. intros -> -> -> Hf. split; [|done]. by destruct Hf. Qed.

(** A directory, locked: what [dirlookup] needs. *)
Lemma lstate_dstate s c x :
  lstate s c x -> i_type x = T_DIR ->
  dstate size start lsz sb data [] s c d x bs 1 /\ dir_map d x = dir_map d (disk_inode d (i_inum x)).
Proof.
  intros [Ht Hsb Hok Hg Hx H0 Hd HN [_ _ _ _ _ Hs]] Hty. pose proof Hs as (Et & _ & _ & _ & Es & Ea).
  destruct (tr_dir _ _ Htree _ HN) as (Hf & Hm & _); [congruence|].
  destruct (same_file x _ Hd Ea Es Hf) as [Hf' Hmap]. split; [|done]. split; [|done|by rewrite Es|done]. split; try done.
  unfold room, weight. pose proof (length_filter (fun n => n ∉ [addr_of x NDIRECT]) bs). cbn. lia.
Qed.

(** Taking a reference while entry [c] is locked; it may be one more to [c]. *)
Lemma locked_got s c x c2 f m :
  lstate s c x -> igot 1 m s c2 (isection c2 f s) -> exists x', lstate (isection c2 f s) c x' /\ i_inum x' = i_inum x.
Proof.
  intros [Ht Hsb Hok Hg Hx H0 Hd HN HL] Hgot. destruct (igot_moved _ _ _ _ Hgot) as (y & y' & Hm & Hr & _ & _ & _ & Hy).
  assert (Hx' : exists r, 0 < r /\ inode_in (isection c2 f s) c (set_i_ref r x)).
  { destruct (decide (c = c2)) as [<-|Hne].
    - pose proof (mv_from _ _ _ _ _ Hm) as Hy0. unfold inode_in in Hx, Hy0. rewrite Hx in Hy0. injection Hy0 as <-.
      exists (i_ref x + 1). split; [lia|]. destruct Hy as [[_ ?]|[_ <-]]; [lia|apply Hm].
    - exists (i_ref x). split; [done|]. apply (moved_other _ _ _ _ _ _ _ Hm Hne). by destruct x. }
  destruct Hx' as (r & Hr0 & Hin). exists (set_i_ref r x). split; [|done]. split; try done.
  - by apply isection_txn.
  - by apply (ig_ok _ _ _ _ _ Hgot).
  - intros a z Hne Hz. eapply igot_good; [exact Hgot| |exact Hz]. intros w Hw. by apply (Hg a).
  - by destruct HL.
Qed.

Lemma got_refers s c x c2 f m :
  lstate s c x -> igot 1 m s c2 (isection c2 f s) -> N m -> refers (if decide (c2 = c) then 1 else 0) (isection c2 f s) c2 m.
Proof.
  intros Hl Hgot HN. destruct (igot_moved _ _ _ _ Hgot) as (y & y' & Hm & Hr & Hd & Hn & _ & Hy).
  exists y'. split_and!; [apply Hm| |done|done|done]. case_decide as Ec; [|done]. subst c2.
  pose proof (mv_from _ _ _ _ _ Hm) as Hy0. pose proof (ls_in _ _ _ Hl) as Hx. unfold inode_in in Hx, Hy0.
  rewrite Hx in Hy0. injection Hy0 as <-. pose proof (ls_ref _ _ _ Hl). destruct Hy as [[_ ?]|[_ ->]]; cbn; lia.
Qed.

Lemma lookup_step s c x name e :
  lstate s c x -> i_type x = T_DIR ->
  match dir_map d (disk_inode d (i_inum x)) !! dname name with
  | None => exists s', dirlookup c name e s = Ok None e s' /\ lstate s' c x /\ beyond s' = beyond s /\
      (forall k, refs s' k = refs s k) /\ shift (fun _ => 0) s s'
  | Some m =>
    (exists c2 off s' x', dirlookup c name e s = Ok (Some (c2, off)) e s' /\ lstate s' c x' /\ i_inum x' = i_inum x /\
       beyond s' = beyond s /\ (forall k, refs s' k = refs s k + (if m =? k then 1 else 0)) /\
       refers (if decide (c2 = c) then 1 else 0) s' c2 m /\ shift (at_entry c2) s s') \/
    (exists s', dirlookup c name e s = Panic "iget: no inodes" s' /\ full s)
  end.
Proof.
  intros Hl Hty. destruct (lstate_dstate s c x Hl Hty) as [Hd Hmap].
  pose proof (dirlookup_ok D size start lsz G sb data FG [] s c d x bs 1 name e Hd ltac:(lia)) as Hk. rewrite Hmap in Hk.
  destruct (_ !! dname name) as [m|] eqn:Em.
  - destruct Hk as [(c2 & j & f & s1 & E & _ & _ & Hd1 & Hr1 & Hg)|(s' & E & Hfull)]; [left|right; exists s'; split; [done|]; intros a y Hy; by apply (Hfull a)].
    assert (HN : N m).
    { destruct (tr_dir _ _ Htree _ (ls_tree _ _ _ Hl)) as (_ & _ & Hall); [|by apply (Hall _ _ Em)].
      pose proof (lk_same _ _ (ls_locked _ _ _ Hl)) as (Et & _). congruence. }
    rewrite (ls_dev _ _ _ Hl) in Hg.
    pose proof (lstate_rest s s1 c x (fs_txn _ _ _ _ _ _ _ _ _ _ _ _ (ds_fstate _ _ _ _ _ _ _ _ _ _ _ _ Hd1)) Hr1 Hl) as Hl1.
    destruct (locked_got s1 c x c2 f m Hl1 Hg) as (x' & Hl2 & Hx').
    exists c2, (DESZ * Z.of_nat j), (isection c2 f s1), x'. split_and!; [exact E|done|done| | | |].
    + rewrite (others_beyond _ _ _ (ig_others _ _ _ _ _ Hg)). unfold beyond. by rewrite Hr1.
    + intros k. rewrite (igot_refs _ _ _ _ Hg). by rewrite (fsrest_refs _ _ _ Hr1).
    + by apply (got_refers s1 c x).
    + eapply shift_trans; [by apply shift_rest|by eapply igot_shift|]. intros a. cbn beta. lia.
  - destruct Hk as (s' & E & Hd1 & Hr1). exists s'. split_and!; [exact E| | | |].
    + eapply lstate_rest; [|exact Hr1|done]. apply Hd1.
    + unfold beyond. by rewrite Hr1.
    + intros k. by apply fsrest_refs.
    + by apply shift_rest.
Qed.

(** *** [namex] *)

Definition one (r : option Z) (k : Z) : Z := match r with Some m => if m =? k then 1 else 0 | None => 0 end.

(** The inode [r] was found, with a reference, in exchange for the one to [n];
    for a parent, [name] is the last element of the path. *)
Record arrived (parent : bool) (path : list Z) (n r : option Z) (s : kstate) (res : option nat * list Z) (s' : kstate) : Prop := {
  ar_state : nstate s';
  ar_beyond : beyond s' = beyond s;
  ar_refs : forall k, refs s' k = refs s k - one n k + one r k;
  ar_found : match r, res.1 with Some m, Some c => refers 0 s' c m | None, None => True | _, _ => False end;
  ar_name : parent = true -> r <> None -> exists x, last (elems path) = Some x /\ dname res.2 = dname x
}.

Lemma arrived_from parent path path' n n' r s1 s res s' :
  beyond s1 = beyond s -> (forall k, refs s1 k = refs s k - one n k + one n' k) ->
  (parent = true -> r <> None -> last (elems path) = last (elems path')) ->
  arrived parent path' n' r s1 res s' -> arrived parent path n r s res s'.
Proof.
  intros Hb Hr Hl [Hs Hb' Hr' Hf Hn]. split; [done|congruence| |done|].
  - intros k. rewrite Hr', Hr. lia.
  - intros Hp Hne. rewrite Hl by done. by apply Hn.
Qed.

(** The end of the path. *)
Lemma namex_end (parent : bool) s c n path name e :
  nstate s -> refers 0 s c n ->
  exists res s', (if parent then iput c;; mret (None, name) else mret (Some c, name) : M (option nat * list Z)) e s = Ok res e s' /\
    arrived parent path (Some n) (resolve d parent n []) s res s'.
Proof.
  intros Hs Hc. destruct parent; cbn [resolve].
  - destruct (iput_nstate s c n e Hs Hc) as (s' & E & Hs' & Hb & Hr & _ & _). mstep E. eexists _, s'. split; [done|].
    split; [done|done| |done|done]. intros k. rewrite Hr. cbn. lia.
  - eexists _, s. split; [done|]. split; [done|done| |done|done]. intros k. lia.
Qed.

Lemma namex_loop_ok parent fuel : forall s c n path name e,
  nstate s -> refers 0 s c n -> (length path < fuel)%nat -> length name = Z.to_nat DIRSIZ ->
  (exists res s', namex_loop fuel c path parent name e s = Ok res e s' /\
     arrived parent path (Some n) (resolve d parent n (elems path)) s res s') \/
  (exists s' c', namex_loop fuel c path parent name e s = Panic "iget: no inodes" s' /\
     forall s0, shift (at_entry c) s0 s -> full_but c' s0).
Proof.
  induction fuel as [|fuel IH]; intros s c n path name e Hs Hc Hfuel Hname; [lia|]. cbn [namex_loop].
  pose proof (skipelem_ok path name Hname) as Hk. destruct (elems path) as [|x l] eqn:El.
  { rewrite Hk. left. by apply namex_end. }
  destruct Hk as (path' & name' & -> & Hl & Hd & Hlen & Hend & Hlt).
  destruct (ilock_lstate s c n e Hs Hc) as (s1 & y & E1 & L1 & <- & B1 & R1 & V1). mstep E1.
  mstep inode_at_ok by apply L1. cbn [resolve]. set (q := disk_inode d (i_inum y)).
  assert (Ety : i_type y = i_type q) by (apply (lk_same _ _ (ls_locked _ _ _ L1))). rewrite <- Ety.
  destruct (Z.eqb_spec (i_type y) T_DIR) as [Hty|Hty]; cbn [negb].
  2: { destruct (iunlockput_lstate s1 c y e L1) as (s2 & E2 & N2 & B2 & R2 & _ & _). mstep E2. left. eexists _, s2. split; [done|].
       split; [done|congruence| |done|done]. intros k. rewrite R2, R1. cbn. lia. }
  rewrite Hend. destruct (parent && bool_decide (l = [])) eqn:Epar.
  { destruct (iunlock_lstate s1 c y e L1) as (s2 & E2 & N2 & B2 & R2 & K2 & _). mstep E2. left. eexists _, s2. split; [done|].
    apply andb_true_iff in Epar as [-> ->%bool_decide_eq_true]. split; [done|congruence| | |].
    - intros k. rewrite R2, R1. lia.
    - apply K2. destruct L1. by exists y.
    - intros _ _. rewrite El. by exists x. }
  pose proof (lookup_step s1 c y name' e L1 Hty) as Hstep. fold q in Hstep. rewrite Hd in Hstep.
  destruct (dir_map d q !! dname x) as [m|]; cbn [mbind option_bind].
  2: { destruct Hstep as (s2 & E2 & L2 & B2 & R2 & _). mstep E2.
       destruct (iunlockput_lstate s2 c y e L2) as (s3 & E3 & N3 & B3 & R3 & _ & _). mstep E3. left. eexists _, s3. split; [done|].
       split; [done|congruence| |done|done]. intros k. rewrite R3, R2, R1. cbn. lia. }
  destruct Hstep as [(c2 & off & s2 & y' & E2 & L2 & Ey & B2 & R2 & K2 & V2)|(s2 & E2 & Hf)]; [mstep E2|].
  2: { right. exists s2, c. split; [by eapply bind_panic|]. intros s0 V0. apply (full_shift c s0 s1); [|done].
       eapply shift_trans; [exact V0|exact V1|]. intros a. cbn beta. lia. }
  destruct (iunlockput_lstate s2 c y' e L2) as (s3 & E3 & N3 & B3 & R3 & K3 & V3). mstep E3.
  destruct (IH s3 c2 m path' name' e N3 (K3 _ _ K2) ltac:(lia) Hlen) as [(res & s4 & E4 & A4)|(s4 & c' & E4 & Hf)]; [left|].
  2: { right. exists s4, c'. split; [done|]. intros s0 V0. apply Hf. intros a. rewrite (V3 a), (V2 a), (V1 a), (V0 a).
       destruct (ref_at s0 a); cbn; [f_equal; lia|done]. }
  exists res, s4. rewrite Hl in A4. split; [done|]. eapply arrived_from; [| | |exact A4].
  - congruence.
  - intros k. rewrite R3, R2, R1, Ey. cbn. lia.
  - intros -> _. rewrite El, Hl. destruct l; [done|]. done.
Qed.

(** Where a path starts: at the root, or in the directory of the process. *)
Definition starts (s : kstate) (path : list Z) (n : Z) : Prop :=
  if Str.chr path =? SLASH then n = ROOTINO
  else exists i p c, c_proc (k_cpu s) = Some i /\ k_ptable s !! i = Some p /\ p_cwd p = Some c /\ refers 0 s c n.

Lemma got_nstate s c n f : nstate s -> igot 1 n s c (isection c f s) -> nstate (isection c f s).
Proof.
  intros [Ht Hsb Hok Hg] Hgot. split; [by apply isection_txn|done|by apply Hgot|].
  intros a y Hy. eapply igot_good; [exact Hgot| |exact Hy]. intros x Hx. by apply (Hg a).
Qed.

Lemma got_arrives s c n f :
  nstate s -> N n -> igot 1 n s c (isection c f s) ->
  nstate (isection c f s) /\ refers 0 (isection c f s) c n /\ beyond (isection c f s) = beyond s /\
  forall k, refs (isection c f s) k = refs s k - one None k + one (Some n) k.
Proof.
  intros Hs HN Hgot. split_and!; [by apply (got_nstate s c n)| | |].
  - destruct (igot_moved _ _ _ _ Hgot) as (y & y' & Hm & Hr & Hd & Hn & _). exists y'. split_and!; [apply Hm|done..].
  - apply (others_beyond c), Hgot.
  - intros k. rewrite (igot_refs _ _ _ _ Hgot). cbn. lia.
Qed.

(** [idup] of an entry that is in use takes one more reference, as [iget] would. *)
Lemma idup_ok s c n e :
  nstate s -> refers 0 s c n ->
  idup c e s = Ok c e (isection c (fun x => set_i_ref (i_ref x + 1) x) s) /\
  igot 1 n s c (isection c (fun x => set_i_ref (i_ref x + 1) x) s).
Proof.
  intros [Ht Hsb Hok Hg] (x & Hx & Hr & Hd & Hn & HN). pose proof (txn_idle _ _ Ht) as Hi. split.
  - unfold idup. mstep acquire_free by apply Hi. mstep. by mstep isection_release by exact Hi.
  - set (f := fun x => _). split; [|by apply isection_others|].
    + exists x. split; [done|]. left. split; [by apply icached_spec|]. exact (isection_in s c f x Hx).
    + by apply (moved_cache_ok c x (f x)); [apply isection_moved|..].
Qed.

Definition first_inode (path : list Z) : M nat :=
  if Str.chr path =? SLASH then iget ROOTDEV ROOTINO
  else i ← curproc; p ← proc_at i; cwd ← deref "cwd" (p_cwd p); idup cwd.

Lemma namex_starts s path n e :
  nstate s -> starts s path n ->
  (exists c f, first_inode path e s = Ok c e (isection c f s) /\ N n /\ igot 1 n s c (isection c f s)) \/
  (exists s', first_inode path e s = Panic "iget: no inodes" s' /\ full s).
Proof.
  intros Hs Hst. unfold starts in Hst. unfold first_inode. destruct (Str.chr path =? SLASH).
  - subst n. destruct (iget_ok ROOTDEV ROOTINO e s (txn_idle _ _ (ns_txn _ Hs))) as [(c & s' & f & E & Hg & ->)|(s' & E & Hf)].
    + left. exists c, f. split_and!; [done|apply Htree|done].
    + right. exists s'. split; [done|]. intros a x Hx. by apply (Hf a).
  - left. destruct Hst as (i & p & c & Hi & Hp & Hc & Hr). destruct (idup_ok s c n e Hs Hr) as [E Hg].
    exists c. eexists. split_and!; [|by destruct Hr as (x & _ & _ & _ & _ & HN)|exact Hg].
    unfold curproc, proc_at. do 2 mrun. rewrite Hi. cbn. rewrite Hp. cbn. rewrite Hc. cbn. exact E.
Qed.

(** C14: [namex] finds what the tree has.  From the root, or for a path that does
    not begin with a slash from the directory of the process, it takes the
    elements of the path one by one and returns an entry of the inode cache for
    the inode that the directories on the disk give, or for [nameiparent] the
    directory of the last element and this element; and 0 if there is none.
    In every case all locks are released, the cache agrees with the disk and
    has no inode twice, and the only reference that was added is the one
    returned.  Or [iget] panics, because all entries of the cache are in use,
    apart from the one for the directory that [namex] is in itself. *)
Theorem namex_resolves s path parent name n e :
  nstate s -> starts s path n -> length name = Z.to_nat DIRSIZ ->
  (exists res s', namex path parent name e s = Ok res e s' /\
     arrived parent path None (resolve d parent n (elems path)) s res s') \/
  (exists s' c, namex path parent name e s = Panic "iget: no inodes" s' /\ full_but c s).
Proof.
  intros Hs Hst Hn. unfold namex. fold (first_inode path).
  destruct (namex_starts s path n e Hs Hst) as [(c & f & E & HN & Hg)|(s' & E & Hf)].
  2: { right. exists s', 0%nat. split; [by eapply bind_panic|]. intros a x Hx _. by apply (Hf a). }
  destruct (got_arrives s c n f Hs HN Hg) as (Hs1 & Hc & Hb & Hr). mstep E.
  destruct (namex_loop_ok parent (S (length path)) _ c n path name e Hs1 Hc ltac:(lia) Hn) as [(res & s' & E' & A)|(s' & c' & E' & Hf)].
  - left. exists res, s'. split; [done|]. by eapply arrived_from.
  - right. exists s', c'. split; [done|]. apply Hf. by eapply igot_shift.
Qed.
End FsPath.
