(* ===== verification/Pipe.v ===== *)
(** * Pipes (pipe.c)

    A pipe is the page [p] that [kalloc] returned for it; its fields are the
    entry [p] of [fs_pipes].  What [piperead] stores at [addr] is the list of
    bytes it returns; [pipewrite] reads [addr[i]] with the function [addr]. *)

From stdpp Require Import base list gmap strings.
From S2P Require Import Prelude Memory Bytes Kernel KMonad Boot Mmu Spinlock Kalloc Sched.

(** ** Definitions *)

Definition PIPESIZE : Z := 512.
(** [offsetof(struct pipe, data)]: the lock comes first. *)
Definition PIPE_DATA : Z := 52.

Definition upd_pipe (p : Z) (f : pipe -> pipe) (s : kstate) : kstate :=
  upd_fs (fun fs => set_fs_pipes (alter f p (fs_pipes fs)) fs) s.
Definition pipe_at (p : Z) : M pipe := gets (fun s => fs_pipes (k_fs s) !! p) ≫= deref "pipe".

(** The fields that pipealloc sets; the data are what the page holds. *)
Definition new_pipe (p : Z) (s : kstate) : kstate :=
  upd_fs (fun fs => set_fs_pipes
    (<[p := mkPipe (mread (k_mem s) (v2p p + PIPE_DATA) (Z.to_nat PIPESIZE)) 0 0 1 1]> (fs_pipes fs)) fs) s.

(** [kfree((char* )p)] ends the life of the pipe. *)
Definition free_pipe `{Symbols} (p : Z) : M unit :=
  modify (upd_fs (fun fs => set_fs_pipes (delete p (fs_pipes fs)) fs));;
  kfree p.

Definition pipeclose `{Symbols} (p writable : Z) : M unit :=
  acquire (Lpipe p);;
  (if truth writable then
     modify (upd_pipe p (set_pi_writeopen 0));;
     wakeup (Cnread p)
   else
     modify (upd_pipe p (set_pi_readopen 0));;
     wakeup (Cnwrite p));;
  pi ← pipe_at p;
  if (pi_readopen pi =? 0) && (pi_writeopen pi =? 0) then
    release (Lpipe p);;
    free_pipe p
  else release (Lpipe p).

(** One turn of [while(p->nwrite == p->nread + PIPESIZE)]: [Some false] is the
    return of -1. *)
Definition full_turn (p : Z) : M (option bool) :=
  pi ← pipe_at p;
  if pi_nwrite pi =? u32 (pi_nread pi + PIPESIZE) then
    i ← curproc;
    pr ← proc_at i;
    if (pi_readopen pi =? 0) || truth (p_killed pr) then
      release (Lpipe p);;
      mret (Some false)
    else
      wakeup (Cnread p);;
      sleep (Cnwrite p) (Some (Lpipe p));;
      mret None
  else mret (Some true).

(** [p->data[p->nwrite++ % PIPESIZE] = c] *)
Definition push_byte (c : Z) (pi : pipe) : pipe :=
  set_pi_nwrite (u32 (pi_nwrite pi + 1))
    (set_pi_data (<[Z.to_nat (pi_nwrite pi mod PIPESIZE) := c]> (pi_data pi)) pi).

Fixpoint pipewrite_loop (p : Z) (addr : Z -> M Z) (i : Z) (n : nat) : M bool :=
  match n with
  | O => mret true
  | S n' =>
    ok ← loop (full_turn p);
    if ok : bool then
      c ← addr i;
      modify (upd_pipe p (push_byte c));;
      pipewrite_loop p addr (i + 1) n'
    else mret false
  end.
Definition pipewrite (p : Z) (addr : Z -> M Z) (n : Z) : M Z :=
  acquire (Lpipe p);;
  ok ← pipewrite_loop p addr 0 (Z.to_nat n);
  if ok : bool then
    wakeup (Cnread p);;
    release (Lpipe p);;
    mret n
  else mret (-1).

(** One turn of [while(p->nread == p->nwrite && p->writeopen)]. *)
Definition empty_turn (p : Z) : M (option bool) :=
  pi ← pipe_at p;
  if (pi_nread pi =? pi_nwrite pi) && truth (pi_writeopen pi) then
    i ← curproc;
    pr ← proc_at i;
    if truth (p_killed pr) then
      release (Lpipe p);;
      mret (Some false)
    else
      sleep (Cnread p) (Some (Lpipe p));;
      mret None
  else mret (Some true).

(** [p->data[p->nread % PIPESIZE]] *)
Definition next_byte (pi : pipe) : Z := nth (Z.to_nat (pi_nread pi mod PIPESIZE)) (pi_data pi) 0.

Fixpoint piperead_loop (p : Z) (n : nat) : M (list Z) :=
  match n with
  | O => mret []
  | S n' =>
    pi ← pipe_at p;
    if pi_nread pi =? pi_nwrite pi then mret [] else
    modify (upd_pipe p (set_pi_nread (u32 (pi_nread pi + 1))));;
    rest ← piperead_loop p n';
    mret (next_byte pi :: rest)
  end.
(** The result and the bytes stored at [addr]. *)
Definition piperead (p n : Z) : M (Z * list Z) :=
  acquire (Lpipe p);;
  ok ← loop (empty_turn p);
  if ok : bool then
    bs ← piperead_loop p (Z.to_nat n);
    wakeup (Cnwrite p);;
    release (Lpipe p);;
    mret (Z.of_nat (length bs), bs)
  else mret (-1, []).
