(* ===== verification/PipeSpec.v ===== *)
(** * Pipes are bounded queues (pipe.c)

    The queue of a pipe is what lies between [nread] and [nwrite] in its ring
    buffer.  [pipewrite] appends to it and [piperead] takes from its front,
    under every schedule in which the other end does its part, and the
    counters may wrap around. *)

From stdpp Require Import base list gmap strings list_numbers.
From S2P Require Import Prelude Memory Bytes Kernel KMonad Boot Mmu Spinlock Kalloc Sched Pipe.

(** ** The queue *)

Definition pipe_len (pi : pipe) : Z := u32 (pi_nwrite pi - pi_nread pi).
Definition ring_byte (pi : pipe) (k : Z) : Z := nth (Z.to_nat ((pi_nread pi + k) mod PIPESIZE)) (pi_data pi) 0.
Definition pipe_queue (pi : pipe) : list Z := ring_byte pi <$> seqZ 0 (pipe_len pi).

Record pipe_ok (pi : pipe) : Prop := {
  po_data : length (pi_data pi) = Z.to_nat PIPESIZE;
  po_nread : word (pi_nread pi);
  po_nwrite : word (pi_nwrite pi);
  po_len : pipe_len pi <= PIPESIZE
}.

Lemma pipe_len_nonneg pi : 0 <= pipe_len pi.
Proof. apply u32_range. Qed.

Lemma pipe_queue_length pi : Z.of_nat (length (pipe_queue pi)) = pipe_len pi.
Proof. pose proof (pipe_len_nonneg pi). unfold pipe_queue. rewrite length_fmap, length_seqZ. lia. Qed.

(** The two tests of the code. *)
Lemma full_test pi : pipe_ok pi -> (pi_nwrite pi =? u32 (pi_nread pi + PIPESIZE)) = (pipe_len pi =? PIPESIZE).
Proof.
  intros [_ Hr Hw Hl]. unfold pipe_len, PIPESIZE, u32, word in *. apply Bool.eq_true_iff_eq. rewrite !Z.eqb_eq.
  Z.div_mod_to_equations. lia.
Qed.

Lemma empty_test pi : pipe_ok pi -> (pi_nread pi =? pi_nwrite pi) = (pipe_len pi =? 0).
Proof.
  intros [_ Hr Hw Hl]. unfold pipe_len, PIPESIZE, u32, word in *. apply Bool.eq_true_iff_eq. rewrite !Z.eqb_eq.
  Z.div_mod_to_equations. lia.
Qed.

Lemma nwrite_slot pi : pipe_ok pi -> (pi_nread pi + pipe_len pi) mod PIPESIZE = pi_nwrite pi mod PIPESIZE.
Proof.
  intros [_ Hr Hw _]. unfold pipe_len, PIPESIZE, u32, word in *. Z.div_mod_to_equations. lia.
Qed.

Lemma push_len c pi : pipe_ok pi -> pipe_len pi < PIPESIZE -> pipe_len (push_byte c pi) = pipe_len pi + 1.
Proof.
  intros [_ Hr Hw Hl] Hlt. unfold pipe_len, push_byte, PIPESIZE, u32, word in *. cbn. Z.div_mod_to_equations. lia.
Qed.

Lemma push_ok c pi : pipe_ok pi -> pipe_len pi < PIPESIZE -> pipe_ok (push_byte c pi).
Proof.
  intros Hp Hlt. split; [|apply Hp|apply u32_range|rewrite push_len by done; lia].
  cbn. rewrite length_insert. apply Hp.
Qed.

(** Two bytes of the queue have different slots. *)
Lemma slot_ne pi k k' : 0 <= k < k' -> k' < PIPESIZE ->
  Z.to_nat ((pi_nread pi + k) mod PIPESIZE) <> Z.to_nat ((pi_nread pi + k') mod PIPESIZE).
Proof. intros Hk Hk'. unfold PIPESIZE in *. Z.div_mod_to_equations. lia. Qed.

Lemma push_byte_at c pi k :
  pipe_ok pi -> pipe_len pi < PIPESIZE -> 0 <= k <= pipe_len pi ->
  ring_byte (push_byte c pi) k = if k =? pipe_len pi then c else ring_byte pi k.
Proof.
  intros Hp Hlt Hk. unfold ring_byte. cbn. rewrite <- (nwrite_slot pi Hp). rewrite !nth_lookup.
  destruct (Z.eqb_spec k (pipe_len pi)) as [->|Hne].
  - rewrite list_lookup_insert_eq; [done|]. rewrite (po_data _ Hp). unfold PIPESIZE. Z.div_mod_to_equations. lia.
  - rewrite list_lookup_insert_ne; [done|]. apply not_eq_sym, slot_ne; lia.
Qed.

Lemma push_queue c pi :
  pipe_ok pi -> pipe_len pi < PIPESIZE -> pipe_queue (push_byte c pi) = pipe_queue pi ++ [c].
Proof.
  intros Hp Hlt. unfold pipe_queue. pose proof (pipe_len_nonneg pi). rewrite push_len by done.
  rewrite seqZ_app by lia. rewrite fmap_app. f_equal.
  - apply list_fmap_ext. intros j k Hk%lookup_seqZ. rewrite push_byte_at by (done || lia).
    by rewrite (proj2 (Z.eqb_neq _ _)) by lia.
  - cbn [seqZ]. change (seqZ (0 + pipe_len pi) 1) with [0 + pipe_len pi]. cbn [fmap list_fmap].
    rewrite push_byte_at by (done || lia). by rewrite (proj2 (Z.eqb_eq _ _)) by lia.
Qed.

Definition pop_byte (pi : pipe) : pipe := set_pi_nread (u32 (pi_nread pi + 1)) pi.

Lemma pop_len pi : pipe_ok pi -> 0 < pipe_len pi -> pipe_len (pop_byte pi) = pipe_len pi - 1.
Proof.
  intros [_ Hr Hw Hl] Hlt. unfold pipe_len, pop_byte, PIPESIZE, u32, word in *. cbn. Z.div_mod_to_equations. lia.
Qed.

Lemma pop_ok pi : pipe_ok pi -> 0 < pipe_len pi -> pipe_ok (pop_byte pi).
Proof. intros Hp Hlt. split; [apply Hp|apply u32_range|apply Hp|rewrite pop_len by done; apply po_len in Hp; lia]. Qed.

Lemma pop_queue pi : pipe_ok pi -> 0 < pipe_len pi -> pipe_queue pi = next_byte pi :: pipe_queue (pop_byte pi).
Proof.
  intros Hp Hlt. unfold pipe_queue. rewrite pop_len by done. rewrite seqZ_cons by lia. cbn [fmap list_fmap]. f_equal.
  - unfold ring_byte, next_byte. by rewrite Z.add_0_r.
  - replace (Z.succ 0) with (1 + 0) by lia. rewrite <- fmap_add_seqZ, <- list_fmap_compose.
    replace (Z.pred (pipe_len pi)) with (pipe_len pi - 1) by lia. apply list_fmap_ext. intros _ k _. unfold ring_byte, compose. cbn.
    do 2 f_equal. unfold PIPESIZE, u32. Z.div_mod_to_equations. lia.
Qed.

(** ** The two ends under every schedule *)

Definition pipe_in (s : kstate) (p : Z) (pi : pipe) : Prop := fs_pipes (k_fs s) !! p = Some pi.

Lemma pipe_at_ok s p pi e : pipe_in s p pi -> pipe_at p e s = Ok pi e s.
Proof. intros Hp. unfold pipe_at. mstep. by rewrite Hp. Qed.

Lemma pipe_upd s p pi f : pipe_in s p pi -> pipe_in (upd_pipe p f s) p (f pi).
Proof. intros Hp. unfold pipe_in in *. cbn. by rewrite lookup_alter_eq, Hp. Qed.

Lemma may_sleep_pipe s i t lk p f : may_sleep s i t lk -> may_sleep (upd_pipe p f s) i t lk.
Proof. intros [? ? ? ? ? ? ? ?]. by split. Qed.

Lemma may_sleep_wakeup s i t lk ch :
  lk <> Lptable -> may_sleep s i t lk -> may_sleep (wakeup1 ch (crit Lptable s)) i t lk.
Proof.
  intros Hne [Hp Ht (pr & Hi & Hst) [th Hth] Hh Hn Hc Hu]. split; try done.
  - rewrite wakeup1_proc. change (k_ptable (crit Lptable s)) with (k_ptable s). rewrite Hi. by eexists.
  - rewrite wakeup1_thread, (thread_of_ptable s) by done. rewrite Hth. by eexists.
  - ctl.
Qed.

Lemma shrinks_wakeup ch : shrinks (wakeup ch).
Proof. unfold wakeup. shrink. Qed.
#[local] Hint Resolve shrinks_wakeup : xv6.

Ltac consume :=
  repeat match goal with
  | |- consumes (mret (Some _)) => apply consumes_some
  | |- consumes (if ?b then _ else _) => destruct b
  | |- consumes (sleep _ _ ≫= _) => apply consumes_takes, takes_bind_l; [auto with xv6|intros ?; shrink]
  | |- consumes (_ ≫= _) => apply consumes_bind; [shrink|intros ?]
  end.

Section Ends.
Context (i : nat) (t : tptr) (p : Z).

(** What the rest of the machine does while the thread sleeps: in the end the
    scheduler runs the thread again, nobody holds the lock of the pipe, and
    the pipe has changed as [R] says. *)
Definition serves (R : pipe -> pipe -> Prop) (f : kstate -> kstate) : Prop :=
  forall s pi, held s Lptable -> pipe_in s p pi -> pipe_ok pi ->
    resumed (f s) i t /\ unlocked (f s) (Lpipe p) /\
    (exists pr, k_ptable (f s) !! i = Some pr /\ p_state pr <> RUNNING) /\
    exists pi', pipe_in (f s) p pi' /\ pipe_ok pi' /\ R pi pi'.

(** Readers take from the front, writers append; the other end of the pipe
    stays as it is. *)
Definition reads (pi pi' : pipe) : Prop :=
  pipe_queue pi' `suffix_of` pipe_queue pi /\ pi_writeopen pi' = pi_writeopen pi.
Definition writes (pi pi' : pipe) : Prop :=
  pipe_queue pi `prefix_of` pipe_queue pi' /\ pi_readopen pi' = pi_readopen pi.

Definition asleep_on (ch : chan) (s : kstate) : Prop :=
  (exists th, thread_of s t = Some th /\ t_state th = SLEEPING /\ t_chan th = ch) /\
  held s Lptable /\ unlocked s (Lpipe p).

(** The caller holds the lock of the pipe. *)
Record inside (s : kstate) (pi : pipe) : Prop := {
  in_may : may_sleep s i t (Lpipe p);
  in_pipe : pipe_in s p pi;
  in_ok : pipe_ok pi
}.

Lemma pipe_sleep_off ch s pi :
  inside s pi -> exists s', sleep ch (Some (Lpipe p)) [] s = Off s' /\ asleep_on ch s' /\ pipe_in s' p pi.
Proof.
  intros [Hms Hp _]. eexists. split; [by eapply sleep_off|]. destruct (ms_ex _ _ _ _ Hms) as [th Hth].
  split; [split|by unfold sleep_point; rewrite bool_decide_false].
  - eexists. split; [by apply sleep_point_thread|done].
  - apply sleep_point_locks; [done|apply Hms|by apply Hms].
Qed.

Lemma pipe_sleep_back ch R f e s pi :
  inside s pi -> serves R f ->
  exists s' pi', sleep ch (Some (Lpipe p)) (f :: e) s = Ok tt e s' /\ inside s' pi' /\ R pi pi'.
Proof.
  intros [Hms Hp Hok] Hf. destruct (sleep_point_locks t ch (Lpipe p) s) as [Hh Hu];
    [done|apply Hms|by apply Hms|].
  destruct (Hf (sleep_point t ch (Lpipe p) s) pi Hh) as (Hr & Hul & Hst & pi' & Hp' & Hok' & HR); [|done|].
  { by unfold sleep_point; rewrite bool_decide_false. }
  exists (woken t ch (Lpipe p) f s), pi'. split; [by eapply sleep_woken|]. split; [|done].
  split; [by apply woken_may_sleep|exact Hp'|done].
Qed.

Lemma inside_wakeup ch s pi : inside s pi -> inside (wakeup1 ch (crit Lptable s)) pi.
Proof. intros [Hms Hp Hok]. split; [by apply may_sleep_wakeup|exact Hp|done]. Qed.

Lemma inside_upd f s pi : inside s pi -> pipe_ok (f pi) -> inside (upd_pipe p f s) (f pi).
Proof. intros [Hms Hp Hok] Hf. split; [by apply may_sleep_pipe|by apply pipe_upd|done]. Qed.

Lemma inside_wake_run ch s pi e : inside s pi -> wakeup ch e s = Ok tt e (wakeup1 ch (crit Lptable s)).
Proof. intros [[Hp Ht Hst Hx Hh Hn Hc Hu] _ _]. by apply wakeup_ok; [apply Hu|]. Qed.

Lemma inside_killed s pi : inside s pi -> exists pr, k_ptable s !! i = Some pr /\ c_proc (k_cpu s) = Some i.
Proof. intros [[Hp Ht (pr & Hi & _) Hx Hh Hn Hc Hu] _ _]. eauto. Qed.

(** *** The writer *)

(** The reasons to give up: no reader, or the process was killed. *)
Definition hopeless (s : kstate) (pi : pipe) : Prop :=
  pi_readopen pi = 0 \/ exists pr, k_ptable s !! i = Some pr /\ p_killed pr <> 0.

Lemma full_turn_consumes : consumes (full_turn p).
Proof. unfold full_turn, pipe_at. consume. Qed.

Lemma full_turn_room e s pi :
  inside s pi -> pipe_len pi < PIPESIZE -> full_turn p e s = Ok (Some true) e s.
Proof.
  intros Hin Hl. unfold full_turn. mstep (pipe_at_ok s p pi) by apply Hin. rewrite full_test by apply Hin.
  by rewrite (proj2 (Z.eqb_neq _ _)) by lia.
Qed.

Lemma full_turn_full e s pi :
  inside s pi -> pipe_len pi = PIPESIZE ->
  (hopeless s pi /\ full_turn p e s = Ok (Some false) e (released (Lpipe p) s)) \/
  full_turn p e s =
    (sleep (Cnwrite p) (Some (Lpipe p));; mret None) e (wakeup1 (Cnread p) (crit Lptable s)).
Proof.
  intros Hin Hl. unfold full_turn. mstep (pipe_at_ok s p pi) by apply Hin. rewrite full_test by apply Hin.
  rewrite (proj2 (Z.eqb_eq _ _) Hl). destruct (inside_killed s pi Hin) as (pr & Hi & Hc).
  mstep curproc_ok by done. mstep proc_at_ok by done.
  destruct ((pi_readopen pi =? 0) || truth (p_killed pr)) eqn:Eh.
  - left. destruct (in_may _ _ Hin). mstep release_held by ctl. split; [|done].
    apply orb_true_iff in Eh as [E|E]; [left; by apply Z.eqb_eq|right]. exists pr. split; [done|].
    by apply truth_true.
  - right. by mstep (inside_wake_run (Cnread p) s pi) by done.
Qed.

Section Writer.
Context (R : pipe -> pipe -> Prop).
Hypothesis HR : forall pi pi', R pi pi' -> reads pi pi'.

(** A turn of the others that took [tk] out of the pipe. *)
Definition took (tk : list Z) : Prop := exists a b, R a b /\ pipe_queue a = tk ++ pipe_queue b.

(** From [pi] to [pi'] the writer appended [bs], and the entries of the schedule
    that were used between [e] and [e'] took [tks] out, one list each. *)
Record appended (tks : list (list Z)) (bs : list Z) (pi pi' : pipe) (e e' : env) : Prop := {
  ap_turns : exists used, e = used ++ e' /\ length used = length tks;
  ap_took : Forall took tks;
  ap_queue : concat tks ++ pipe_queue pi' = pipe_queue pi ++ bs;
  ap_open : pi_writeopen pi' = pi_writeopen pi
}.

Lemma pipe_appended_nil pi e : appended [] [] pi pi e e.
Proof. split; [by exists []|constructor|by rewrite app_nil_r|done]. Qed.

Lemma pipe_appended_trans tks tks' bs bs' a b c e1 e2 e3 :
  appended tks bs a b e1 e2 -> appended tks' bs' b c e2 e3 -> appended (tks ++ tks') (bs ++ bs') a c e1 e3.
Proof.
  intros [(u & -> & Hu) T Q O] [(u' & -> & Hu') T' Q' O']. split.
  - exists (u ++ u'). by rewrite app_assoc, !length_app, Hu, Hu'.
  - by apply Forall_app.
  - by rewrite concat_app, <- app_assoc, Q', !app_assoc, Q.
  - congruence.
Qed.

Lemma appended_read a b f e : R a b -> exists tk, appended [tk] [] a b (f :: e) e.
Proof.
  intros Hr. destruct (HR _ _ Hr) as [[tk Hq] Ho]. exists tk. split; [by exists [f]|by repeat constructor; exists a, b| |done].
  cbn [concat]. by rewrite !app_nil_r.
Qed.

Lemma appended_push c pi e : pipe_ok pi -> pipe_len pi < PIPESIZE -> appended [] [c] pi (push_byte c pi) e e.
Proof. intros Hok Hl. split; [by exists []|constructor|by rewrite push_queue|done]. Qed.

(** The inner loop waits for room. *)
Inductive room_ends (pi : pipe) (e : env) : res bool -> Prop :=
| room_found e' s' pi' tks :
    inside s' pi' -> appended tks [] pi pi' e e' -> pipe_len pi' < PIPESIZE -> room_ends pi e (Ok true e' s')
| room_refused e' s' pi' tks :
    inside s' pi' -> appended tks [] pi pi' e e' -> pipe_len pi' = PIPESIZE -> hopeless s' pi' ->
    room_ends pi e (Ok false e' (released (Lpipe p) s'))
| room_stuck s' pi' tks :
    asleep_on (Cnwrite p) s' -> pipe_in s' p pi' -> pipe_ok pi' -> appended tks [] pi pi' e [] -> pipe_len pi' = PIPESIZE ->
    room_ends pi e (Off s').

Lemma room_ends_later pi pi' f e r : R pi pi' -> room_ends pi' e r -> room_ends pi (f :: e) r.
Proof.
  intros Hr Hre. destruct (appended_read pi pi' f e Hr) as [tk Ha].
  destruct Hre as [e' s' pi2 tks Hin Hq Hl|e' s' pi2 tks Hin Hq Hl Hh|s' pi2 tks Has Hp Ho Hq Hl].
  - eapply room_found; [done|exact (pipe_appended_trans _ _ _ _ _ _ _ _ _ _ Ha Hq)|done].
  - eapply room_refused; [done|exact (pipe_appended_trans _ _ _ _ _ _ _ _ _ _ Ha Hq)|done|done].
  - eapply room_stuck; [done|done|done|exact (pipe_appended_trans _ _ _ _ _ _ _ _ _ _ Ha Hq)|done].
Qed.

Lemma full_loop e : forall s pi, inside s pi -> Forall (serves R) e -> room_ends pi e (loop (full_turn p) e s).
Proof.
  induction e as [|f e IH]; intros s pi Hin He; rewrite loop_unfold by apply full_turn_consumes;
    pose proof (po_len _ (in_ok _ _ Hin)) as Hle;
    (destruct (Z.eq_dec (pipe_len pi) PIPESIZE) as [Hl|Hl];
      [|rewrite (bind_ok _ _ _ _ _ _ _ (full_turn_room _ s pi Hin ltac:(lia)));
        eapply room_found; [done|apply pipe_appended_nil|lia]]);
    match goal with |- room_ends _ ?e' _ => pose proof (full_turn_full e' s pi Hin Hl) as Hf0 end;
    (destruct Hf0 as [[Hh E]|E];
      [rewrite (bind_ok _ _ _ _ _ _ _ E); eapply room_refused; [done|apply pipe_appended_nil|done|done]|]);
    pose proof (inside_wakeup (Cnread p) s pi Hin) as Hin'.
  - destruct (pipe_sleep_off (Cnwrite p) _ pi Hin') as (s' & Es & Ha & Hp').
    erewrite bind_off; [|rewrite E; by eapply bind_off].
    eapply room_stuck; [done|done|apply Hin|apply pipe_appended_nil|done].
  - apply Forall_cons in He as [Hf He].
    destruct (pipe_sleep_back (Cnwrite p) R f e _ pi Hin' Hf) as (s' & pi' & Es & Hin2 & HRr).
    erewrite bind_ok; [|rewrite E, (bind_ok _ _ _ _ _ _ _ Es); done]. cbn.
    eapply room_ends_later; [exact HRr|]. by apply IH.
Qed.

(** The ways in which writing [bs] can end, for the pipe [pi] and the schedule
    [e]: all of [bs] is appended; or the pipe is full after the first [k] bytes
    and the write gives up; or it is full and the writer sleeps. *)
Inductive write_ends (pi : pipe) (bs : list Z) (e : env) : res bool -> Prop :=
| write_done e' s' pi' tks :
    inside s' pi' -> appended tks bs pi pi' e e' -> write_ends pi bs e (Ok true e' s')
| write_refused e' s' pi' k tks :
    inside s' pi' -> appended tks (take k bs) pi pi' e e' -> (k < length bs)%nat -> pipe_len pi' = PIPESIZE ->
    hopeless s' pi' -> write_ends pi bs e (Ok false e' (released (Lpipe p) s'))
| write_stuck s' pi' k tks :
    asleep_on (Cnwrite p) s' -> pipe_in s' p pi' -> pipe_ok pi' -> appended tks (take k bs) pi pi' e [] ->
    (k < length bs)%nat -> pipe_len pi' = PIPESIZE -> write_ends pi bs e (Off s').

(** One byte was pushed after something was read. *)
Lemma write_ends_push pi pi1 c bs tks e e1 r :
  pipe_ok pi1 -> appended tks [] pi pi1 e e1 -> pipe_len pi1 < PIPESIZE ->
  write_ends (push_byte c pi1) bs e1 r -> write_ends pi (c :: bs) e r.
Proof.
  intros Hok Ha Hl Hw. pose proof (pipe_appended_trans _ _ _ _ _ _ _ _ _ _ Ha (appended_push c pi1 e1 Hok Hl)) as Hc.
  destruct Hw as [e' s' pi2 tks' Hin Hq|e' s' pi2 k tks' Hin Hq Hk Hl2 Hh|s' pi2 k tks' Has Hp Hok2 Hq Hk Hl2];
    pose proof (pipe_appended_trans _ _ _ _ _ _ _ _ _ _ Hc Hq) as Hall.
  - by eapply write_done.
  - eapply (write_refused _ _ _ _ _ pi2 (S k)); [done|exact Hall|simpl; lia|done|done].
  - eapply (write_stuck _ _ _ _ pi2 (S k)); [done|done|done|exact Hall|simpl; lia|done].
Qed.

Lemma pipewrite_loop_ok addr bs : forall j e s pi,
  (forall k c e' s', bs !! k = Some c -> addr (j + Z.of_nat k) e' s' = Ok c e' s') ->
  inside s pi -> Forall (serves R) e -> write_ends pi bs e (pipewrite_loop p addr j (length bs) e s).
Proof.
  induction bs as [|c bs IH]; intros j e s pi Ha Hin He; cbn [pipewrite_loop length].
  { eapply write_done; [exact Hin|apply pipe_appended_nil]. }
  pose proof (full_loop e s pi Hin He) as Hr. unfold mbind at 1, M_bind at 1.
  destruct Hr as [e' s' pi1 tks Hin1 Hq Hl|e' s' pi1 tks Hin1 Hq Hl Hh|s' pi1 tks Hs1 Hp1 Ho1 Hq Hl].
  - assert (E0 : addr j e' s' = Ok c e' s') by (rewrite <- (Ha 0%nat c) by done; f_equal; lia).
    mstep E0. mstep. eapply write_ends_push; [apply Hin1|done..|].
    apply IH; [|by apply inside_upd, push_ok; [|apply Hin1|]|].
    + intros k b e2 s2 Hk. rewrite <- (Ha (S k) b) by done. f_equal. lia.
    + destruct (ap_turns _ _ _ _ _ _ Hq) as (u & -> & _). by apply Forall_app in He as [_ ?].
  - eapply (write_refused _ _ _ _ _ pi1 0); [done|exact Hq|simpl; lia|done|done].
  - eapply (write_stuck _ _ _ _ pi1 0); [done|done|done|exact Hq|simpl; lia|done].
Qed.

(** A sleeping writer of a full pipe has used up every turn, so turns that take
    something out each have made room for a byte each. *)
Lemma appended_full tks bs pi pi' e :
  appended tks bs pi pi' e [] -> pipe_len pi' = PIPESIZE -> Forall (fun tk => tk <> []) tks ->
  Z.of_nat (length e) + PIPESIZE <= pipe_len pi + Z.of_nat (length bs).
Proof.
  intros [(u & -> & Hu) _ Q _] Hl Hne. rewrite app_nil_r, Hu. apply (f_equal length) in Q. rewrite !length_app in Q.
  pose proof (pipe_queue_length pi). pose proof (pipe_queue_length pi').
  assert (length tks <= length (concat tks))%nat; [|lia]. clear -Hne. induction Hne as [|tk tks Hn _ IH]; cbn; [lia|].
  rewrite length_app. destruct tk; [done|]. cbn. lia.
Qed.
End Writer.

(** The caller before and after the call: it runs, and holds no lock. *)
Record outside (s : kstate) (pi : pipe) : Prop := {
  ou_proc : c_proc (k_cpu s) = Some i;
  ou_thread : c_thread (k_cpu s) = Some t;
  ou_state : exists pr, k_ptable s !! i = Some pr /\ p_state pr <> RUNNING;
  ou_ex : is_Some (thread_of s t);
  ou_cli : cli_ok (k_cpu s);
  ou_ncli : c_ncli (k_cpu s) = 0;
  ou_lock : unlocked s (Lpipe p);
  ou_ptable : unlocked s Lptable;
  ou_pipe : pipe_in s p pi;
  ou_ok : pipe_ok pi
}.

Lemma enter e s pi : outside s pi ->
  acquire (Lpipe p) e s = Ok tt e (acquired (Lpipe p) s) /\ inside (acquired (Lpipe p) s) pi.
Proof.
  intros [? ? ? ? ? ? ? ? ? ?]. split; [by apply acquire_free|]. split; [|done|done].
  split; [done..|ctl|rewrite ncli_acquired; lia|ctl|intros _; ctl].
Qed.

Lemma leave e s pi : inside s pi ->
  release (Lpipe p) e s = Ok tt e (released (Lpipe p) s) /\ outside (released (Lpipe p) s) pi.
Proof.
  intros [[? ? ? ? ? Hn ? Hu] ? ?]. assert (0 < c_ncli (k_cpu s)) by lia.
  split; [by apply release_held|].
  split; [done..|by apply cli_ok_released|rewrite ncli_released; lia|ctl|apply unlocked_released; by auto|done|done].
Qed.


(** C34: [pipewrite] of the bytes [bs], under every schedule in which others
    only read from the pipe.  Nothing is lost, invented or reordered: what the
    others took while the writer slept ([tks], one list for each time it slept),
    followed by what is in the pipe, is the old contents followed by the bytes
    written.  The call writes all of [bs] and returns its length; or the pipe is
    full after the first [k] bytes, and either the call returns -1 because no
    reader is left or the process was killed, or the writer sleeps and
    [ptable.lock] is handed on.  When each turn of the others takes something
    out, it sleeps only while there were fewer turns than bytes for which there
    is no room. *)
Theorem pipewrite_fifo R addr bs e s pi :
  (forall a b, R a b -> reads a b) -> Forall (serves R) e ->
  (forall k c e' s', bs !! k = Some c -> addr (Z.of_nat k) e' s' = Ok c e' s') ->
  outside s pi ->
  (exists e' s' pi' tks, pipewrite p addr (Z.of_nat (length bs)) e s = Ok (Z.of_nat (length bs)) e' s' /\
     outside s' pi' /\ appended R tks bs pi pi' e e') \/
  (exists e' s' pi' tks k, pipewrite p addr (Z.of_nat (length bs)) e s = Ok (-1) e' s' /\
     outside s' pi' /\ (k < length bs)%nat /\ appended R tks (take k bs) pi pi' e e' /\
     pipe_len pi' = PIPESIZE /\ hopeless s' pi') \/
  (exists s' pi' tks k, pipewrite p addr (Z.of_nat (length bs)) e s = Off s' /\
     asleep_on (Cnwrite p) s' /\ pipe_in s' p pi' /\ pipe_ok pi' /\ (k < length bs)%nat /\
     appended R tks (take k bs) pi pi' e [] /\ pipe_len pi' = PIPESIZE /\
     (Forall (fun tk => tk <> []) tks -> Z.of_nat (length e) < pipe_len pi + Z.of_nat (length bs) - PIPESIZE)).
Proof.
  intros HR He Ha Hout. destruct (enter e s pi Hout) as [E Hin]. unfold pipewrite. mstep E.
  rewrite Nat2Z.id. pose proof (pipewrite_loop_ok R HR addr bs 0 e _ pi Ha Hin He) as Hw.
  remember (pipewrite_loop p addr 0 (length bs) e (acquired (Lpipe p) s)) as r eqn:El. symmetry in El.
  destruct Hw as [e' s' pi' tks Hin' Hq|e' s' pi' k tks Hin' Hq Hk Hl Hh|s' pi' k tks Hs Hp Hok Hq Hk Hl].
  - left. mstep El. mstep (inside_wake_run (Cnread p) s' pi') by done.
    destruct (leave e' _ pi' (inside_wakeup (Cnread p) s' pi' Hin')) as [Er Hout']. mstep Er.
    eexists _, _, pi', tks. split; [done|]. by split.
  - right. left. destruct (leave e' s' pi' Hin') as [_ Hout']. mstep El.
    eexists _, _, pi', tks, k. split_and!; [done..|exact Hh].
  - right. right. exists s', pi', tks, k. split_and!; try done; [by eapply bind_off|]. intros Hne.
    pose proof (appended_full _ _ _ _ _ _ Hq Hl Hne) as Hle. rewrite length_take in Hle. lia.
Qed.

(** *** The reader *)

Lemma empty_turn_consumes : consumes (empty_turn p).
Proof. unfold empty_turn, pipe_at. consume. Qed.

Definition ready (pi : pipe) : Prop := 0 < pipe_len pi \/ pi_writeopen pi = 0.
Definition slain (s : kstate) : Prop := exists pr, k_ptable s !! i = Some pr /\ p_killed pr <> 0.

Lemma empty_turn_cases e s pi :
  inside s pi ->
  (ready pi /\ empty_turn p e s = Ok (Some true) e s) \/
  (pipe_len pi = 0 /\ slain s /\ empty_turn p e s = Ok (Some false) e (released (Lpipe p) s)) \/
  (pipe_len pi = 0 /\ empty_turn p e s = (sleep (Cnread p) (Some (Lpipe p));; mret None) e s).
Proof.
  intros Hin. unfold empty_turn, ready. mstep (pipe_at_ok s p pi) by apply Hin. rewrite empty_test by apply Hin.
  pose proof (pipe_len_nonneg pi).
  destruct (Z.eqb_spec (pipe_len pi) 0) as [Hl|Hl]; cbn [andb]; [|left; split; [lia|done]].
  destruct (truth (pi_writeopen pi)) eqn:Ew; [|left; split; [|done]; right; by apply truth_false].
  right. destruct (inside_killed s pi Hin) as (pr & Hi & Hc).
  mstep curproc_ok by done. mstep proc_at_ok by done. destruct (truth (p_killed pr)) eqn:Ek; [left|right; by split].
  mstep (proj1 (leave e s pi Hin)). split_and!; [done| |done]. exists pr. split; [done|]. by apply truth_true.
Qed.

Section Reader.
Context (R : pipe -> pipe -> Prop).
Hypothesis HR : forall pi pi', R pi pi' -> writes pi pi'.

(** A turn of the others that put [wr] into the pipe. *)
Definition wrote (wr : list Z) : Prop := exists a b, R a b /\ pipe_queue b = pipe_queue a ++ wr.

(** From [pi] to [pi'] nothing was read, and the entries of the schedule that
    were used between [e] and [e'] put [wrs] into the pipe, one list each. *)
Record filled (wrs : list (list Z)) (pi pi' : pipe) (e e' : env) : Prop := {
  fi_turns : exists used, e = used ++ e' /\ length used = length wrs;
  fi_wrote : Forall wrote wrs;
  fi_queue : pipe_queue pi' = pipe_queue pi ++ concat wrs;
  fi_open : pi_readopen pi' = pi_readopen pi
}.

Lemma filled_nil pi e : filled [] pi pi e e.
Proof. split; [by exists []|constructor|by rewrite app_nil_r|done]. Qed.

Lemma filled_write wrs a b c f e e' : R a b -> filled wrs b c e e' -> exists wr, filled (wr :: wrs) a c (f :: e) e'.
Proof.
  intros Hr [(u & -> & Hu) T Q O]. destruct (HR _ _ Hr) as [[wr Hq] Ho]. exists wr. split.
  - exists (f :: u). cbn. by rewrite Hu.
  - constructor; [by exists a, b|done].
  - by rewrite Q, Hq, <- app_assoc.
  - congruence.
Qed.

(** How waiting for something to read can end. *)
Inductive wait_ends (pi : pipe) (e : env) : res bool -> Prop :=
| wait_ready e' s' pi' wrs : inside s' pi' -> filled wrs pi pi' e e' -> ready pi' -> wait_ends pi e (Ok true e' s')
| wait_slain e' s' pi' wrs : inside s' pi' -> filled wrs pi pi' e e' -> pipe_len pi' = 0 -> slain s' ->
    wait_ends pi e (Ok false e' (released (Lpipe p) s'))
| wait_stuck s' pi' wrs : asleep_on (Cnread p) s' -> pipe_in s' p pi' -> pipe_ok pi' -> filled wrs pi pi' e [] ->
    pipe_len pi' = 0 -> wait_ends pi e (Off s').

Lemma empty_loop_ready e s pi : inside s pi -> ready pi -> loop (empty_turn p) e s = Ok true e s.
Proof.
  intros Hin Hr. rewrite loop_unfold by apply empty_turn_consumes. unfold empty_turn. rewrite bind_assoc.
  mstep (pipe_at_ok s p pi) by apply Hin. rewrite empty_test by apply Hin.
  destruct Hr as [Hl|Hw].
  - by rewrite (proj2 (Z.eqb_neq (pipe_len pi) 0)) by lia.
  - rewrite Hw. by rewrite andb_false_r.
Qed.

Lemma wait_ends_later pi pi' f e r : R pi pi' -> wait_ends pi' e r -> wait_ends pi (f :: e) r.
Proof.
  intros Hr [e' s' pi2 wrs Hin Hw Hrd|e' s' pi2 wrs Hin Hw Hl Hk|s' pi2 wrs Ha Hp Ho Hw Hl];
    destruct (filled_write wrs pi pi' pi2 f e _ Hr Hw) as [wr Hf].
  - by eapply wait_ready.
  - by eapply wait_slain.
  - by eapply wait_stuck.
Qed.

Lemma empty_loop e : forall s pi, inside s pi -> Forall (serves R) e -> wait_ends pi e (loop (empty_turn p) e s).
Proof.
  induction e as [|f e IH]; intros s pi Hin He; rewrite loop_unfold by apply empty_turn_consumes;
    match goal with |- wait_ends _ ?e' _ => pose proof (empty_turn_cases e' s pi Hin) as Hc end;
    (destruct Hc as [[Hr E]|[(Hl & Hk & E)|(Hl & E)]];
      [rewrite (bind_ok _ _ _ _ _ _ _ E); by eapply wait_ready; [|apply filled_nil|]
      |rewrite (bind_ok _ _ _ _ _ _ _ E); by eapply wait_slain; [|apply filled_nil| |]|]).
  - destruct (pipe_sleep_off (Cnread p) _ pi Hin) as (s' & Es & Ha & Hp').
    erewrite bind_off; [|rewrite E; by eapply bind_off]. eapply wait_stuck; [done|done|apply Hin|apply filled_nil|done].
  - apply Forall_cons in He as [Hf He].
    destruct (pipe_sleep_back (Cnread p) R f e _ pi Hin Hf) as (s' & pi' & Es & Hin2 & HRr).
    erewrite bind_ok; [|rewrite E, (bind_ok _ _ _ _ _ _ _ Es); done]. cbv beta iota.
    eapply wait_ends_later; [exact HRr|]. by apply IH.
Qed.

Lemma piperead_loop_ok n : forall e s pi, inside s pi ->
  exists s' pi', piperead_loop p n e s = Ok (take n (pipe_queue pi)) e s' /\ inside s' pi' /\
    pipe_queue pi' = drop n (pipe_queue pi) /\ pi_writeopen pi' = pi_writeopen pi.
Proof.
  induction n as [|n IH]; intros e s pi Hin; cbn [piperead_loop].
  { exists s, pi. by rewrite drop_0. }
  mstep (pipe_at_ok s p pi) by apply Hin. rewrite empty_test by apply Hin. pose proof (pipe_len_nonneg pi) as H0.
  destruct (Z.eqb_spec (pipe_len pi) 0) as [Hl|Hl].
  - exists s, pi. assert (pipe_queue pi = []) as -> by (unfold pipe_queue; by rewrite Hl). done.
  - mstep. assert (Hlt : 0 < pipe_len pi) by lia. pose proof (pop_ok pi (in_ok _ _ Hin) Hlt) as Hok.
    assert (Hin1 : inside (upd_pipe p (set_pi_nread (u32 (pi_nread pi + 1))) s) (pop_byte pi))
      by (exact (inside_upd (set_pi_nread (u32 (pi_nread pi + 1))) s pi Hin Hok)).
    destruct (IH e _ _ Hin1) as (s' & pi' & E & Hin' & Hq & Hw).
    exists s', pi'. rewrite (pop_queue pi (in_ok _ _ Hin) Hlt). split; [by mstep E|]. by split_and!.
Qed.
End Reader.

(** C35: [piperead] of up to [n] bytes, under every schedule in which others
    only write to the pipe or close its write end.  The reader waits while the
    pipe is empty and its write end open.  With [q] the old contents followed by
    what the others wrote while it slept ([wrs], one list for each time), it
    returns the first [n] bytes of [q], or all of [q] when there are fewer, and
    leaves exactly the rest; [q] is empty only when the write end is closed.  Or
    the process was killed while the pipe is empty and the call returns -1, or
    the reader sleeps on a pipe that was empty all the time.  A pipe with
    something in it, or closed for writing, is read without sleeping. *)
Theorem piperead_fifo R n e s pi :
  (forall a b, R a b -> writes a b) -> Forall (serves R) e -> outside s pi ->
  (exists e' s' pi' wrs, let q := pipe_queue pi ++ concat wrs in
     piperead p n e s = Ok (Z.of_nat (Nat.min (Z.to_nat n) (length q)), take (Z.to_nat n) q) e' s' /\
     outside s' pi' /\ pipe_queue pi' = drop (Z.to_nat n) q /\
     (exists used, e = used ++ e' /\ length used = length wrs) /\ Forall (wrote R) wrs /\
     (q = [] -> pi_writeopen pi' = 0) /\ (ready pi -> wrs = [] /\ e' = e)) \/
  (exists e' s' pi' wrs, piperead p n e s = Ok (-1, []) e' s' /\ outside s' pi' /\ ~ ready pi /\
     filled R wrs pi pi' e e' /\ pipe_len pi' = 0 /\ slain s') \/
  (exists s' pi' wrs, piperead p n e s = Off s' /\ asleep_on (Cnread p) s' /\ pipe_in s' p pi' /\ pipe_ok pi' /\
     filled R wrs pi pi' e [] /\ pipe_len pi' = 0 /\ ~ ready pi).
Proof.
  intros HR He Hout. destruct (enter e s pi Hout) as [E Hin]. unfold piperead. mstep E.
  pose proof (empty_loop R HR e _ pi Hin He) as Hw. pose proof (empty_loop_ready e _ pi Hin) as Hrdy.
  remember (loop (empty_turn p) e (acquired (Lpipe p) s)) as r eqn:El. symmetry in El.
  destruct Hw as [e' s' pi' wrs Hin' [Ht Hwr Hq Ho] Hr|e' s' pi' wrs Hin' Hw Hl Hk|s' pi' wrs Hs Hp Hok Hw Hl].
  - left. destruct (piperead_loop_ok (Z.to_nat n) e' s' pi' Hin') as (s2 & pi2 & E2 & Hin2 & Hq2 & Hw2).
    mstep El. mstep E2.
    mstep (inside_wake_run (Cnwrite p) s2 pi2) by done.
    destruct (leave e' _ pi2 (inside_wakeup (Cnwrite p) s2 pi2 Hin2)) as [Er Hout']. mstep Er.
    eexists _, _, pi2, wrs. cbn zeta. rewrite <- Hq, <- length_take. split_and!; [done..| |].
    + intros Hnil. rewrite Hw2. destruct Hr as [Hr|Hr]; [|done]. by rewrite <- pipe_queue_length, Hnil in Hr.
    + intros Hrd. assert (e' = e) as -> by (pose proof (Hrdy Hrd); congruence). destruct Ht as (u & Hu & Hlu).
      apply (f_equal length) in Hu. rewrite length_app in Hu. split; [|done]. destruct wrs; [done|]. cbn in Hlu. lia.
  - right. left. destruct (leave e' s' pi' Hin') as [_ Hout']. mstep El.
    eexists _, _, pi', wrs. split_and!; [done..| |done|done|exact Hk]. intros Hr. by specialize (Hrdy Hr).
  - right. right. exists s', pi', wrs. split_and!; try done; [by eapply bind_off|]. intros Hr. by specialize (Hrdy Hr).
Qed.
End Ends.

(** ** Witnesses *)

(** A full pipe at page 2148630528, and one that is empty; a reader that takes
    a byte and a writer that adds one while the caller sleeps. *)
Definition sample_pipe (nwrite : Z) : pipe := mkPipe (replicate (Z.to_nat PIPESIZE) 7) 0 nwrite 1 1.
Definition with_pipe (pi : pipe) : kstate :=
  upd_fs (fun fs => set_fs_pipes (<[2148630528 := pi]> (fs_pipes fs)) fs) one_running.
Definition meanwhile (g : pipe -> pipe) (s : kstate) : kstate :=
  upd_pipe 2148630528 g (set_k_fs (k_fs s) (acquired Lptable one_running)).
Definition take_one (pi : pipe) : pipe := if 0 <? pipe_len pi then pop_byte pi else pi.
Definition add_one (pi : pipe) : pipe := if pipe_len pi <? PIPESIZE then push_byte 9 pi else pi.

Lemma meanwhile_serves (g : pipe -> pipe) (R : pipe -> pipe -> Prop) :
  (forall pi, pipe_ok pi -> pipe_ok (g pi) /\ R pi (g pi)) ->
  serves 0 (0, 0)%nat 2148630528 R (meanwhile g).
Proof.
  intros Hg s pi _ Hp Hok. destruct (Hg pi Hok) as [Hok' HR].
  split_and!; [split; done|done|by eexists|]. exists (g pi). split_and!; [|done|done].
  unfold meanwhile. by apply pipe_upd.
Qed.

Lemma take_one_reads pi : pipe_ok pi -> pipe_ok (take_one pi) /\ reads pi (take_one pi).
Proof.
  intros Hok. unfold take_one. zcase; [|by split; [|split]].
  split; [by apply pop_ok|]. split; [|done]. rewrite (pop_queue pi) by done. by apply suffix_cons_r.
Qed.

Lemma add_one_writes pi : pipe_ok pi -> pipe_ok (add_one pi) /\ writes pi (add_one pi).
Proof.
  intros Hok. unfold add_one. zcase; [|by split; [|split]].
  split; [by apply push_ok|]. split; [|done]. rewrite (push_queue 9 pi) by done. by apply prefix_app_r.
Qed.

Lemma sample_outside n : 0 <= n <= PIPESIZE -> outside 0 (0, 0)%nat 2148630528 (with_pipe (sample_pipe n)) (sample_pipe n).
Proof.
  intros Hn. unfold PIPESIZE in Hn. split; [done|done| |by eexists|by split|done|done|done| |].
  - eexists. split; [reflexivity|discriminate].
  - unfold pipe_in, with_pipe. cbn. by rewrite lookup_insert_eq.
  - split; [done|done|unfold word; cbn; lia|]. unfold pipe_len, PIPESIZE. cbn. rewrite u32_small; lia.
Qed.

Definition count_up (k : Z) : M Z := mret (k + 1).

(** The result of a call and the queue of the pipe after it. *)
Definition pipe_after {A} (r : res A) : option (A * list Z) :=
  match r with Ok v _ s => (fun pi => (v, pipe_queue pi)) <$> fs_pipes (k_fs s) !! 2148630528 | _ => None end.

Lemma pipe_after_ok {A} (v : A) e s pi : outside 0 (0, 0)%nat 2148630528 s pi -> pipe_after (Ok v e s) = Some (v, pipe_queue pi).
Proof. intros Ho. unfold pipe_after. by rewrite (ou_pipe _ _ _ _ _ Ho). Qed.

(** Two bytes are written into the full pipe while the others take one byte
    twice. *)
Lemma pipewrite_fifo_witness :
  exists e' s' pi' tks, pipewrite 2148630528 count_up 2 [meanwhile take_one; meanwhile take_one]
    (with_pipe (sample_pipe 512)) = Ok 2 e' s' /\
    pipe_in s' 2148630528 pi' /\ concat tks = [7; 7] /\ pipe_queue pi' = replicate 510 7 ++ [1; 2].
Proof.
  assert (V : pipe_after (pipewrite 2148630528 count_up 2 [meanwhile take_one; meanwhile take_one]
    (with_pipe (sample_pipe 512))) = Some (2, replicate 510 7 ++ [1; 2])) by (vm_compute; reflexivity).
  destruct (pipewrite_fifo 0 (0, 0)%nat 2148630528 reads count_up [1; 2]
    [meanwhile take_one; meanwhile take_one] (with_pipe (sample_pipe 512)) (sample_pipe 512))
    as [(e' & s' & pi' & tks & E & Ho & Hq)|[(e' & s' & pi' & _ & _ & E & Ho & _)|(s' & _ & _ & _ & E & _)]].
  - intros a b Hab. exact Hab.
  - apply Forall_cons; split; [|apply Forall_cons; split; [|apply Forall_nil_2]]; apply meanwhile_serves, take_one_reads.
  - intros [|[|k]] c e' s' Hk; [injection Hk as <-; reflexivity..|discriminate].
  - apply sample_outside. unfold PIPESIZE. lia.
  - change (Z.of_nat (length [1; 2])) with 2 in E. rewrite E, (pipe_after_ok _ _ _ _ Ho) in V. apply (inj Some) in V. apply pair_equal_spec in V as [_ V].
    exists e', s', pi', tks. split; [exact E|]. split; [exact (ou_pipe _ _ _ _ _ Ho)|]. split; [|exact V].
    apply ap_queue in Hq. rewrite V in Hq.
    assert (pipe_queue (sample_pipe 512) = [7; 7] ++ replicate 510 7) as Q by (vm_compute; reflexivity).
    rewrite Q, <- app_assoc in Hq. by apply app_inv_tail in Hq.
  - change (Z.of_nat (length [1; 2])) with 2 in E. rewrite E, (pipe_after_ok _ _ _ _ Ho) in V. discriminate V.
  - change (Z.of_nat (length [1; 2])) with 2 in E. rewrite E in V. discriminate V.
Defined.

(** Ten bytes are asked for; while the reader sleeps, one is written. *)
Lemma piperead_fifo_witness :
  exists e' s' pi', piperead 2148630528 10 [meanwhile add_one] (with_pipe (sample_pipe 0)) = Ok (1, [9]) e' s' /\
    pipe_in s' 2148630528 pi' /\ pipe_queue pi' = [].
Proof.
  assert (V : pipe_after (piperead 2148630528 10 [meanwhile add_one] (with_pipe (sample_pipe 0))) = Some ((1, [9]), []))
    by (vm_compute; reflexivity).
  destruct (piperead_fifo 0 (0, 0)%nat 2148630528 writes 10 [meanwhile add_one] (with_pipe (sample_pipe 0)) (sample_pipe 0))
    as [(e' & s' & pi' & wrs & E & Ho & _)|[(e' & s' & pi' & _ & E & Ho & _)|(s' & _ & _ & E & _)]].
  - intros a b Hab. exact Hab.
  - apply Forall_cons; split; [|apply Forall_nil_2]; apply meanwhile_serves, add_one_writes.
  - apply sample_outside. unfold PIPESIZE. lia.
  - rewrite E, (pipe_after_ok _ _ _ _ Ho) in V. apply (inj Some) in V. apply pair_equal_spec in V as [V1 V2].
    exists e', s', pi'. rewrite V1 in E. split; [exact E|]. split; [exact (ou_pipe _ _ _ _ _ Ho)|exact V2].
  - rewrite E, (pipe_after_ok _ _ _ _ Ho) in V. discriminate V.
  - rewrite E in V. discriminate V.
Defined.
