(* ===== verification/File.v ===== *)
(** * Open files (file.c, and pipealloc of pipe.c) *)

From stdpp Require Import base list gmap strings.
From S2P Require Import Prelude Memory Bytes Kernel KMonad Boot Mmu Spinlock Kalloc Sched Ide Bio Log Fs Pipe.

(** ** Definitions *)

Definition upd_file (f : nat) (g : file -> file) (s : kstate) : kstate :=
  upd_fs (fun fs => set_fs_ftable (alter g f (fs_ftable fs)) fs) s.
Definition file_at (f : nat) : M file := gets (fun s => fs_ftable (k_fs s) !! f) ≫= deref "file".

Definition fileinit : M unit := initlock Lftable "ftable".

Definition filealloc : M (option nat) :=
  acquire Lftable;;
  c ← gets (fun s => find_idx (fun f => f_ref f =? 0) (fs_ftable (k_fs s)));
  match c with
  | Some f =>
    modify (upd_file f (set_f_ref 1));;
    release Lftable;;
    mret (Some f)
  | None => release Lftable;; mret None
  end.

Definition filedup (f : nat) : M nat :=
  acquire Lftable;;
  x ← file_at f;
  if f_ref x <? 1 then panic "filedup" else
  modify (upd_file f (set_f_ref (f_ref x + 1)));;
  release Lftable;;
  mret f.

Section File.
Context `{Symbols, Disk, DevOps}.

Definition fileclose (f : nat) : M unit :=
  acquire Lftable;;
  x ← file_at f;
  if f_ref x <? 1 then panic "fileclose" else
  modify (upd_file f (set_f_ref (f_ref x - 1)));;
  if 0 <? f_ref x - 1 then release Lftable else
  ff ← file_at f;
  modify (upd_file f (set_f_ref 0));;
  modify (upd_file f (set_f_type FD_NONE));;
  release Lftable;;
  match f_type ff with
  | FD_PIPE => pipeclose (f_pipe ff) (f_writable ff)
  | FD_INODE =>
    begin_op;;
    ip ← deref "ip" (f_ip ff);
    iput ip;;
    end_op
  | FD_NONE => mret tt
  end.

(** [None] is the result -1. *)
Definition filestat (f : nat) : M (option stat) :=
  x ← file_at f;
  match f_type x with
  | FD_INODE =>
    ilock (f_ip x);;
    ip ← deref "ip" (f_ip x);
    st ← stati ip;
    iunlock (f_ip x);;
    mret (Some st)
  | _ => mret None
  end.

(** The result and the bytes stored at [addr]. *)
Definition fileread (f : nat) (n : Z) : M (Z * list Z) :=
  x ← file_at f;
  if f_readable x =? 0 then mret (-1, []) else
  match f_type x with
  | FD_PIPE => piperead (f_pipe x) n
  | FD_INODE =>
    ilock (f_ip x);;
    ip ← deref "ip" (f_ip x);
    x ← file_at f;
    r ← readi ip (f_off x) (u32 n);
    when (0 <? r.1) (modify (upd_file f (fun x => set_f_off (u32 (f_off x + r.1)) x)));;
    iunlock (f_ip x);;
    mret r
  | FD_NONE => panic "fileread"
  end.

(** The most bytes that filewrite writes in one transaction. *)
Definition max_write : Z := (LOGSIZE - 1 - 1 - 2) / 2 * 512.

(** The loop of filewrite; [src k n] reads [n] bytes at [addr + k]. *)
Fixpoint filewrite_loop (fuel : nat) (f : nat) (src : Z -> Z -> M (list Z)) (i n : Z) : M Z :=
  match fuel with
  | O => mret i
  | S fuel' =>
    if i <? n then
      let n1 := Z.min (n - i) max_write in
      begin_op;;
      x ← file_at f;
      ilock (f_ip x);;
      ip ← deref "ip" (f_ip x);
      x ← file_at f;
      bs ← src i n1;
      r ← writei ip (f_off x) bs;
      when (0 <? r) (modify (upd_file f (fun x => set_f_off (u32 (f_off x + r)) x)));;
      iunlock (f_ip x);;
      end_op;;
      if r <? 0 then mret i else
      if negb (r =? n1) then panic "short filewrite" else
      filewrite_loop fuel' f src (i + r) n
    else mret i
  end.

Definition filewrite (f : nat) (src : Z -> Z -> M (list Z)) (n : Z) : M Z :=
  x ← file_at f;
  if f_writable x =? 0 then mret (-1) else
  match f_type x with
  | FD_PIPE => pipewrite (f_pipe x) (fun i => bs ← src i 1; mret (byte_at bs 0)) n
  | FD_INODE =>
    i ← filewrite_loop (S (Z.to_nat (n / max_write + 1))) f src 0 n;
    mret (if i =? n then n else -1)
  | FD_NONE => panic "filewrite"
  end.

(** [None] is the result -1, otherwise the two files. *)
Definition pipealloc : M (option (nat * nat)) :=
  f0 ← filealloc;
  f1 ← (match f0 with None => mret None | Some _ => filealloc end);
  p ← (match f0, f1 with Some _, Some _ => kalloc | _, _ => mret 0 end);
  match f0, f1 with
  | Some a, Some b =>
    if p =? 0 then
      fileclose a;;
      fileclose b;;
      mret None
    else
      modify (new_pipe p);;
      initlock (Lpipe p) "pipe";;
      modify (upd_file a (set_f_type FD_PIPE));;
      modify (upd_file a (set_f_readable 1));;
      modify (upd_file a (set_f_writable 0));;
      modify (upd_file a (set_f_pipe p));;
      modify (upd_file b (set_f_type FD_PIPE));;
      modify (upd_file b (set_f_readable 0));;
      modify (upd_file b (set_f_writable 1));;
      modify (upd_file b (set_f_pipe p));;
      mret (Some (a, b))
  | Some a, None => fileclose a;; mret None
  | None, _ => mret None
  end.

End File.
