(* ===== verification/Console.v ===== *)
(** * The console (console.c) and the serial port (uart.c)

    A character goes to the serial port and to the display; the display is
    its memory [d_crt] and the cursor register.  The polling of the serial
    port in [uartputc] gives up after 128 turns and has no other effect. *)

From stdpp Require Import base list gmap strings.
From S2P Require Import Prelude Memory Bytes Str Kernel KMonad Boot Mmu Spinlock Sched Ide Bio Log Fs Kbd.

(** ** Definitions *)

Definition COM1 : Z := 1016.
Definition CRTPORT : Z := 980.
Definition BACKSPACE : Z := 256.
Definition INPUT_BUF : Z := 128.
Definition CONSOLE : Z := 1.
Definition NL : Z := 10.
Definition CR : Z := 13.
(** [C(x)] *)
Definition ctrl (x : Z) : Z := x - 64.

Definition uartputc (c : Z) : M unit :=
  uart ← gets (fun s => d_uart (k_dev s));
  when (truth uart) (Ide.outb COM1 c).

(** [picenable] and [ioapicenable] route the interrupt; they are left out.
    [present] is what the status port says. *)
Definition uartinit (present : bool) : M unit :=
  Ide.outb (COM1 + 2) 0;;
  Ide.outb (COM1 + 3) 128;;
  Ide.outb (COM1 + 0) (115200 / 9600);;
  Ide.outb (COM1 + 1) 0;;
  Ide.outb (COM1 + 3) 3;;
  Ide.outb (COM1 + 4) 0;;
  Ide.outb (COM1 + 1) 1;;
  when present
    (modify (upd_dev (set_d_uart 1));;
     forM (bytes_of "xv6..." ++ [NL]) uartputc).

Definition uartgetc : M Z :=
  uart ← gets (fun s => d_uart (k_dev s));
  q ← gets (fun s => d_comq (k_dev s));
  match q with
  | c :: q' => if truth uart then modify (upd_dev (set_d_comq q'));; mret c else mret (-1)
  | [] => mret (-1)
  end.

(** [crt[pos] = v] *)
Definition set_crt (pos v : Z) (f : Z -> Z) : Z -> Z := fun k => if k =? pos then v else f k.
(** [memmove(crt, crt+80, sizeof(crt[0])*23*80)] and the [memset] after it *)
Definition crt_scroll (pos : Z) (f : Z -> Z) : Z -> Z :=
  fun k => if (pos <=? k) && (k <? 24 * 80) then 0 else
           if (0 <=? k) && (k <? 23 * 80) then f (k + 80) else f k.

Definition cgaputc (c : Z) : M unit :=
  pos ← gets (fun s => d_cursor (k_dev s));
  pos ← (if c =? NL then mret (pos + (80 - pos mod 80))
         else if c =? BACKSPACE then mret (if 0 <? pos then pos - 1 else pos)
         else
           modify (fun s => upd_dev (set_d_crt (set_crt pos (Z.lor (Z.land c 255) 1792) (d_crt (k_dev s)))) s);;
           mret (pos + 1));
  if (pos <? 0) || (25 * 80 <? pos) then panic "pos under/overflow" else
  pos ← (if 24 <=? pos / 80 then
           let pos := pos - 80 in
           modify (fun s => upd_dev (set_d_crt (crt_scroll pos (d_crt (k_dev s)))) s);;
           mret pos
         else mret pos);
  modify (upd_dev (set_d_cursor (u16 pos)));;
  modify (fun s => upd_dev (set_d_crt (set_crt pos (Z.lor 32 1792) (d_crt (k_dev s)))) s).

(** A CPU that writes after a panic stops: [for(;;)]. *)
Definition consputc (c : Z) : M unit :=
  panicked ← gets (fun s => d_panicked (k_dev s));
  if truth panicked then cli;; halt else
  (if c =? BACKSPACE then uartputc 8;; uartputc 32;; uartputc 8 else uartputc c);;
  cgaputc c.

(** ** Formatted output *)

Definition digits (d : Z) : Z := nth (Z.to_nat d) (bytes_of "0123456789abcdef") 0.
(** The digits of [x], least significant first: the do-while loop. *)
Fixpoint digit_loop (fuel : nat) (x base : Z) : list Z :=
  match fuel with
  | O => []
  | S fuel' => digits (x mod base) :: (if x / base =? 0 then [] else digit_loop fuel' (x / base) base)
  end.
(** The characters that printint prints; [buf] has 16 entries. *)
Definition int_chars (xx base : Z) (sign : bool) : list Z :=
  let neg := sign && (xx <? 0) in
  let x := if neg then u32 (- xx) else u32 xx in
  reverse (digit_loop 16 x base ++ (if neg then [45] else [])).
Definition printint (xx base : Z) (sign : bool) : M unit := forM (int_chars xx base sign) consputc.

(** An argument of cprintf: a word, or a string. *)
Inductive farg : Type :=
| AInt (v : Z)
| AStr (s : list Z).

Definition arg_int (a : list farg) : M Z :=
  match a with AInt v :: _ => mret v | _ => fault "cprintf" end.
Definition arg_str (a : list farg) : M (list Z) :=
  match a with AStr s :: _ => mret s | _ => fault "cprintf" end.
Definition PERCENT : Z := 37.

Fixpoint cprintf_loop (fmt : list Z) (args : list farg) : M unit :=
  match fmt with
  | [] => mret tt
  | c :: fmt' =>
    if c =? 0 then mret tt else
    if negb (c =? PERCENT) then consputc c;; cprintf_loop fmt' args else
    match fmt' with
    | [] => mret tt
    | c :: fmt'' =>
      if c =? 0 then mret tt else
      if c =? 100 then v ← arg_int args; printint v 10 true;; cprintf_loop fmt'' (tail args) else
      if (c =? 120) || (c =? 112) then
        v ← arg_int args; printint v 16 false;; cprintf_loop fmt'' (tail args) else
      if c =? 115 then s ← arg_str args; forM s consputc;; cprintf_loop fmt'' (tail args) else
      if c =? PERCENT then consputc PERCENT;; cprintf_loop fmt'' args else
      consputc PERCENT;; consputc c;; cprintf_loop fmt'' args
    end
  end.
Definition cprintf (fmt : list Z) (args : list farg) : M unit :=
  locking ← gets (fun s => d_locking (k_dev s));
  when (truth locking) (acquire Lcons);;
  cprintf_loop fmt args;;
  when (truth locking) (release Lcons).

(** [panic]: print the message and the call stack, then stop.  In the rest of
    the model a call of [panic] is the result [Panic]. *)
Definition panic_prints (msg : string) : M unit :=
  cli;;
  modify (upd_dev (set_d_locking 0));;
  c ← gets (fun s => c_id (k_cpu s));
  cprintf (bytes_of "cpu%d: panic: ") [AInt c];;
  cprintf (bytes_of msg) [];;
  cprintf [NL] [];;
  pcs ← gets (fun s => getcallerpcs (c_ebp (k_cpu s) + 8) s);
  forM pcs (fun pc => cprintf (bytes_of " %p") [AInt pc]);;
  modify (upd_dev (set_d_panicked 1));;
  halt.

(** ** Input *)

Definition inbuf_at (d : devstate) (i : Z) : Z := nth (Z.to_nat (i mod INPUT_BUF)) (d_inbuf d) 0.
Definition get_dev : M devstate := gets k_dev.

(** [while(input.e != input.w && input.buf[(input.e-1) % INPUT_BUF] != NL)] *)
Fixpoint kill_line (n : nat) : M unit :=
  match n with
  | O => mret tt
  | S n' =>
    d ← get_dev;
    if negb (d_e d =? d_w d) && negb (inbuf_at d (u32 (d_e d - 1)) =? NL) then
      modify (upd_dev (set_d_e (u32 (d_e d - 1))));;
      consputc BACKSPACE;;
      kill_line n'
    else mret tt
  end.

(** One character of input. *)
Definition input_char (c : Z) : M unit :=
  d ← get_dev;
  if c =? ctrl 85 then kill_line (Z.to_nat (u32 (d_e d - d_w d))) else
  if (c =? ctrl 72) || (c =? 127) then
    if negb (d_e d =? d_w d) then
      modify (upd_dev (set_d_e (u32 (d_e d - 1))));;
      consputc BACKSPACE
    else mret tt
  else
  if negb (c =? 0) && (u32 (d_e d - d_r d) <? INPUT_BUF) then
    let c := if c =? CR then NL else c in
    modify (upd_dev (set_d_inbuf (<[Z.to_nat (d_e d mod INPUT_BUF) := c]> (d_inbuf d))));;
    modify (upd_dev (set_d_e (u32 (d_e d + 1))));;
    consputc c;;
    d ← get_dev;
    if (c =? NL) || (c =? ctrl 68) || (d_e d =? u32 (d_r d + INPUT_BUF)) then
      modify (upd_dev (set_d_w (d_e d)));;
      wakeup Cinput
    else mret tt
  else mret tt.

(** The loop of consoleintr: [true] when ^P asked for a process listing. *)
Fixpoint consoleintr_loop (n : nat) (getc : M Z) : M bool :=
  match n with
  | O => mret false
  | S n' =>
    c ← getc;
    if c <? 0 then mret false else
    if c =? ctrl 80 then consoleintr_loop n' getc;; mret true else
    input_char c;;
    consoleintr_loop n' getc
  end.
(** Each turn takes a byte from a device queue; [dump] is procdump. *)
Definition consoleintr (getc dump : M Z) : M unit :=
  acquire Lcons;;
  n ← gets (fun s => length (d_kbdq (k_dev s)) + length (d_comq (k_dev s)))%nat;
  doprocdump ← consoleintr_loop (S n) getc;
  release Lcons;;
  if doprocdump : bool then dump;; mret tt else mret tt.
Definition kbdintr (dump : M Z) : M unit := consoleintr kbdgetc dump.
Definition uartintr (dump : M Z) : M unit := consoleintr uartgetc dump.

(** [while(input.r == input.w)]: [Some false] when the process was killed. *)
Definition input_turn : M (option bool) :=
  d ← get_dev;
  if d_r d =? d_w d then
    i ← curproc;
    p ← proc_at i;
    if truth (p_killed p) then mret (Some false) else
    sleep Cinput (Some Lcons);;
    mret None
  else mret (Some true).

Section Dev.
Context `{Disk}.

(** The loop of consoleread over [n] bytes of [target]: the bytes stored, or
    [None] when the process was killed. *)
Fixpoint consoleread_loop (n : nat) (target : Z) : M (option (list Z)) :=
  match n with
  | O => mret (Some [])
  | S n' =>
    ok ← loop input_turn;
    if negb ok then mret None else
    d ← get_dev;
    let c := inbuf_at d (d_r d) in
    modify (upd_dev (set_d_r (u32 (d_r d + 1))));;
    if c =? ctrl 68 then
      when (Z.of_nat n <? target) (modify (upd_dev (set_d_r (d_r d))));;
      mret (Some [])
    else if c =? NL then mret (Some [c])
    else
      rest ← consoleread_loop n' target;
      mret ((fun bs => c :: bs) <$> rest)
  end.
Definition consoleread (ip : nat) (n : Z) : M (Z * list Z) :=
  iunlock (Some ip);;
  acquire Lcons;;
  r ← consoleread_loop (Z.to_nat n) (u32 n);
  release Lcons;;
  ilock (Some ip);;
  match r with
  | None => mret (-1, [])
  | Some bs => mret (Z.of_nat (length bs), bs)
  end.

Definition consolewrite (ip : nat) (bs : list Z) : M Z :=
  iunlock (Some ip);;
  acquire Lcons;;
  forM bs (fun c => consputc (Z.land c 255));;
  release Lcons;;
  ilock (Some ip);;
  mret (Z.of_nat (length bs)).

#[export] Instance dev_console : DevOps :=
  {| dev_read := fun _ => consoleread; dev_write := fun _ => consolewrite |}.

End Dev.

Definition consoleinit : M unit :=
  initlock Lcons "console";;
  modify (upd_fs (fun fs => set_fs_devsw (<[Z.to_nat CONSOLE := Some DevConsole]> (fs_devsw fs)) fs));;
  modify (upd_dev (set_d_locking 1)).
