(* ===== verification/FsSamples.v ===== *)
(** * A sample file system

    A disk as mkfs lays it out, with one file of five bytes, and the kernel in
    a transaction on it: the theorems on fs.c apply to it. *)

From stdpp Require Import base list gmap strings fin_maps list_numbers.
From S2P Require Import Prelude Memory Bytes Str Kernel KMonad Boot Mmu Spinlock Sched Ide Ring Bio BioSpec Log LogSpec Fs FsBlocks FsInode FsFile FsIO Console.

(** ** The disk *)

(** 1000 blocks: the log in 2..31, the inodes in 32..57, the bitmap in 58. *)
Definition sample_sb : superblock := mkSb 1000 941 200 30 2 32 58.
(** The file: inode 1, with the one block 59. *)
Definition sample_ip : inode := mkInode 1 1 1 3 2 0 0 1 5 (59 :: replicate 12 0).

Definition padded (l : list Z) : list Z := l ++ replicate (512 - length l) 0.
Definition fs_disk_of (n : Z) : list Z :=
  if n =? 1 then padded (le32 1000 ++ le32 941 ++ le32 200 ++ le32 30 ++ le32 2 ++ le32 32 ++ le32 58)
  else if n =? 32 then put_dinode (zeros BSIZE) (dinode_off 1) sample_ip
  else if n =? 58 then padded (replicate 7 255 ++ [15])
  else if n =? 59 then padded [104; 101; 108; 108; 111]
  else zeros BSIZE.

Definition fs_boot_with (disk : Z -> list Z) (ip : inode) : kstate :=
  upd_fs (fun fs => set_fs_disk disk (set_fs_sb sample_sb (set_fs_icache (ip :: replicate 49 zero_inode) fs))) sample_boot.
Definition fs_boot : kstate := fs_boot_with fs_disk_of sample_ip.

Definition sample_disk : Disk := @disk_memide sample_symbols.
#[export] Instance sample_disk_ok : DiskOk sample_disk 1000 := @memide_ok sample_symbols.
#[export] Instance sample_devs : DevOps := @dev_console sample_disk.

Lemma sample_fs_geom : fs_geom 1000 2 30 sample_sb 59.
Proof. split; try (cbn; lia); [change (sb_ninodes sample_sb / IPB) with 25|change (1000 / BPB) with 0]; cbn; lia. Qed.

(** A finite check. *)
Lemma by_check (P : Z -> bool) n : forallb P (seqZ 0 n) = true -> forall k, 0 <= k < n -> P k = true.
Proof.
  intros Hc k Hk. rewrite forallb_forall in Hc. apply Hc. apply list_elem_of_In, elem_of_seqZ. lia.
Qed.

Lemma sample_disk_ok_bits : disk_ok 1000 sample_sb 59 fs_disk_of.
Proof.
  split.
  - intros n _. unfold fs_disk_of. repeat case_match; vm_compute; reflexivity.
  - apply (by_check (used sample_sb fs_disk_of) 59). vm_compute. reflexivity.
  - vm_compute. reflexivity.
Qed.

Lemma sample_slot k : 0 <= k <= MAXFILE -> fslot fs_disk_of sample_ip k = if k =? 0 then 59 else 0.
Proof.
  intros Hk. apply Z.eqb_eq.
  apply (by_check (fun k => fslot fs_disk_of sample_ip k =? (if k =? 0 then 59 else 0)) 141); [vm_compute; reflexivity|].
  rewrite MAXFILE_eq in Hk. lia.
Qed.

Lemma sample_file_ok : file_ok 1000 sample_sb 59 fs_disk_of sample_ip.
Proof.
  split; [reflexivity|reflexivity| | |cbn; rewrite MAXFILE_eq; unfold BSIZE; lia|].
  - intros k Hk. rewrite sample_slot by done. zcase; [|done]. intros _. split; [lia|]. vm_compute. reflexivity.
  - intros k k' Hk Hk'. rewrite !sample_slot by done. repeat zcase; lia.
  - intros bn Hbn Hs. cbn in Hs. unfold BSIZE in Hs. assert (bn = 0) as -> by lia. vm_compute. discriminate.
Qed.

(** The blocks that every write may touch: the inode's and the bitmap's. *)
Definition sample_meta : list Z := [0; 32; 58].

Lemma sample_meta_in : map_blocks_in 1000 sample_sb sample_meta.
Proof.
  intros b Hb. unfold map_block, BPB, BSIZE. cbn. rewrite Z.div_small by lia. unfold sample_meta. set_solver.
Qed.

Lemma sample_meta_zero : 0 ∈ sample_meta.
Proof. unfold sample_meta. left. Qed.
Lemma sample_meta_inode : inode_block sample_sb (i_inum sample_ip) ∈ sample_meta.
Proof. change (inode_block sample_sb (i_inum sample_ip)) with 32. unfold sample_meta. right. left. Qed.

(** ** The kernel *)

Lemma boot_txn disk ip :
  exists s, binit [] (fs_boot_with disk ip) = Ok tt [] s /\ txn 1000 2 30 s disk [] ∅ /\ fs_sb (k_fs s) = sample_sb /\
    fs_icache (k_fs s) = ip :: replicate 49 zero_inode.
Proof.
  destruct (binit_ok 1000 [] (fs_boot_with disk ip)) as (s1 & E1 & _ & I1 & O1); [done| |].
  { intros b x _ Hx. by rewrite (boot_bufs b x Hx). }
  assert (K : (fs_log (k_fs s1), fs_sb (k_fs s1), fs_icache (k_fs s1)) =
              (sample_log, sample_sb, ip :: replicate 49 zero_inode)).
  { apply (f_equal (fun r => match r with Ok _ _ s => (fs_log (k_fs s), fs_sb (k_fs s), fs_icache (k_fs s))
                                        | _ => (sample_log, sample_sb, []) end)) in E1. symmetry. exact E1. }
  injection K as KL KS KI. exists s1. split_and!; [done| |done|done].
  exists (fresh_view (k_fs (fs_boot_with disk ip))). split_and!; [|done|done|].
  - split; [apply I1; exact boot_idle|done| |done|by rewrite KL|by rewrite KL|by rewrite KL].
    rewrite KL. split; try done. apply NoDup_nil_2.
  - intros n [x Hx]. by rewrite lookup_empty in Hx.
Qed.

Lemma sample_fs_txn :
  exists s, binit [] fs_boot = Ok tt [] s /\ txn 1000 2 30 s fs_disk_of [] ∅ /\ fs_sb (k_fs s) = sample_sb /\
    fs_icache (k_fs s) = sample_ip :: replicate 49 zero_inode.
Proof. apply boot_txn. Qed.

Lemma sample_fstate :
  exists s, binit [] fs_boot = Ok tt [] s /\
    fstate 1000 2 30 sample_sb 59 sample_meta s 0 fs_disk_of sample_ip [] 3.
Proof.
  destruct sample_fs_txn as (s & E & T & Hsb & Hic). exists s. split; [done|].
  split; [done|exact sample_disk_ok_bits|exact sample_file_ok|by unfold inode_in; rewrite Hic|done|].
  unfold room, weight, sample_meta, NBUF. cbn. lia.
Qed.

(** ** Witnesses *)

Lemma sample_balloc_room : balloc_room 1000 30 sample_sb [].
Proof.
  split; [split; cbn; unfold NBUF; lia|]. intros b _. unfold add_block. rewrite decide_False by (apply not_elem_of_nil).
  split; cbn; unfold NBUF; lia.
Qed.

(** The first free block is 60. *)
Lemma balloc_allocates_witness :
  exists s, binit [] fs_boot = Ok tt [] s /\
    exists s' d', @balloc sample_disk 1 [] s = Ok 60 [] s' /\ taken 1000 sample_sb 59 fs_disk_of 60 d'.
Proof.
  destruct sample_fs_txn as (s & E & T & Hsb & _). exists s. split; [exact E|].
  destruct (balloc_allocates sample_disk 1000 2 30 sample_geometry sample_sb 59 sample_fs_geom s fs_disk_of [] ∅ []
    T sample_disk_ok_bits Hsb (locked_none 1000 sample_sb 59 fs_disk_of) sample_balloc_room) as [(b & s' & d' & Eb & Htk & _)|(s' & _ & Hall)].
  - assert (b = 60) as ->.
    { destruct Htk as [[Hb Hu] Hf _ _ _]. destruct (Z.lt_trichotomy b 60) as [Hlt|[?|Hgt]]; [|done|].
      - assert (b = 59) as -> by lia. vm_compute in Hu. discriminate Hu.
      - specialize (Hf 60 ltac:(lia)). vm_compute in Hf. discriminate Hf. }
    exists s', d'. split; [exact Eb|exact Htk].
  - specialize (Hall 60 ltac:(lia)). vm_compute in Hall. discriminate Hall.
Defined.

Lemma bfree_frees_witness :
  exists s, binit [] fs_boot = Ok tt [] s /\
    exists s' d', @bfree sample_disk 1 59 [] s = Ok tt [] s' /\ used sample_sb d' 59 = false.
Proof.
  destruct sample_fs_txn as (s & E & T & Hsb & _). exists s. split; [exact E|].
  pose proof (bfree_frees sample_disk 1000 2 30 sample_geometry sample_sb 59 sample_fs_geom s fs_disk_of [] ∅ 59 []
    T sample_disk_ok_bits Hsb (locked_none 1000 sample_sb 59 fs_disk_of) (proj1 sample_balloc_room) ltac:(lia)) as Hb.
  assert (Hu : used sample_sb fs_disk_of 59 = true) by (vm_compute; reflexivity). rewrite Hu in Hb.
  destruct Hb as (s' & d' & Eb & _ & Hd & _). exists s', d'. split; [exact Eb|]. rewrite Hd by lia. reflexivity.
Defined.

Lemma sample_fits : inode_fits sample_ip.
Proof. split; unfold s16_range, word; cbn; try lia. repeat constructor; lia. Qed.

Lemma iupdate_stores_witness :
  exists s, binit [] fs_boot = Ok tt [] s /\ exists s', @iupdate sample_disk 0 [] s = Ok tt [] s'.
Proof.
  destruct sample_fs_txn as (s & E & T & Hsb & Hic). exists s. split; [exact E|].
  destruct (iupdate_stores sample_disk 1000 2 30 sample_geometry sample_sb 59 sample_fs_geom s fs_disk_of [] 0 sample_ip []
    T sample_disk_ok_bits Hsb) as (s' & d' & Eu & _); [rewrite Hic; reflexivity|reflexivity|cbn; lia|exact sample_fits
    |exact (proj1 sample_balloc_room)|]. exists s'. exact Eu.
Defined.

Lemma writei_writes_witness :
  exists s, binit [] fs_boot = Ok tt [] s /\
    ((exists s' d' ip' bs', @writei sample_disk sample_devs 0 5 [33; 10] [] s = Ok 2 [] s' /\
        wrote 1000 sample_sb 59 fs_disk_of sample_ip 5 [33; 10] d' ip' /\ fbyte d' ip' 6 = 10 /\ i_size ip' = 7 /\
        fstate 1000 2 30 sample_sb 59 sample_meta s' 0 d' ip' bs' 2) \/
     exists s', @writei sample_disk sample_devs 0 5 [33; 10] [] s = Panic "balloc: out of blocks" s').
Proof.
  destruct sample_fstate as (s & E & Hfs). exists s. split; [exact E|].
  pose proof (writei_writes sample_disk 1000 2 30 sample_geometry sample_sb 59 sample_fs_geom sample_meta sample_meta_in
    sample_meta_zero s 0 fs_disk_of sample_ip [] 3 5 [33; 10] [] Hfs) as Hw. cbv zeta in Hw.
  destruct Hw as [(s' & d' & ip' & bs' & Ew & Hf' & Hwr & _)|Hp]; [discriminate|lia|cbn; lia|cbn; lia| | | |right; exact Hp].
  - exact sample_meta_inode.
  - vm_compute. discriminate.
  - left. exists s', d', ip', bs'. pose proof (wo_size _ _ _ _ _ _ _ _ _ Hwr) as Hs. cbn in Hs.
    split_and!; [exact Ew|exact Hwr| |exact Hs|exact Hf'].
    rewrite (wo_bytes _ _ _ _ _ _ _ _ _ Hwr) by (rewrite Hs; lia). reflexivity.
Defined.

Lemma readi_reads_witness :
  exists s, binit [] fs_boot = Ok tt [] s /\
    exists s', @readi sample_disk sample_devs 0 1 10 [] s = Ok (4, [101; 108; 108; 111]) [] s'.
Proof.
  destruct sample_fstate as (s & E & Hfs). exists s. split; [exact E|].
  pose proof (readi_reads sample_disk 1000 2 30 sample_geometry sample_sb 59 sample_fs_geom sample_meta
    s 0 fs_disk_of sample_ip [] 3 1 10 [] Hfs ltac:(lia) ltac:(discriminate) ltac:(lia) ltac:(lia)) as Hr.
  destruct Hr as (s' & Er & _). exists s'. rewrite Er.
  assert (Eb : fbytes fs_disk_of sample_ip 1 4 = [101; 108; 108; 111]) by (vm_compute; reflexivity).
  change (Z.min 10 (i_size sample_ip - 1)) with 4. rewrite Eb. reflexivity.
Defined.

Lemma write_read_back_witness :
  exists s, binit [] fs_boot = Ok tt [] s /\
    ((exists s', (w ← @writei sample_disk sample_devs 0 4 [79; 33]; @readi sample_disk sample_devs 0 4 w) [] s = Ok (2, [79; 33]) [] s') \/
     (exists s', (w ← @writei sample_disk sample_devs 0 4 [79; 33]; @readi sample_disk sample_devs 0 4 w) [] s =
        Panic "balloc: out of blocks" s')).
Proof.
  destruct sample_fstate as (s & E & Hfs). exists s. split; [exact E|].
  apply (write_read_back sample_disk 1000 2 30 sample_geometry sample_sb 59 sample_fs_geom sample_meta sample_meta_in
    sample_meta_zero s 0 fs_disk_of sample_ip [] 3 4 [79; 33] [] Hfs);
    [discriminate|cbn; lia|rewrite MAXFILE_eq; unfold BSIZE; cbn; lia|cbn; lia| |vm_compute; discriminate].
  exact sample_meta_inode.
Defined.
