(* ===== verification/Proc.v ===== *)
(** * Processes (proc.c, and allocthread of kthread.c)

    A process is an index of [ptable.proc], a thread a pair of a process and
    an index of its [pthreads].  Trap frames and contexts are in the thread's
    kernel stack. *)

From stdpp Require Import base list gmap strings.
From S2P Require Import Prelude Memory Bytes Str Kernel KMonad Boot Mmu Spinlock Kalloc Sched Vm.
From S2P Require Import Ide Bio Log Fs Pipe File Kbd Console.

(** ** Trap frames and contexts (x86.h, proc.h) *)

Definition TF_SIZE : Z := 76.
Definition TF_EAX : Z := 28.
Definition TF_ES : Z := 40.
Definition TF_DS : Z := 44.
Definition TF_TRAPNO : Z := 48.
Definition TF_ERR : Z := 52.
Definition TF_EIP : Z := 56.
Definition TF_CS : Z := 60.
Definition TF_EFLAGS : Z := 64.
Definition TF_ESP : Z := 68.
Definition TF_SS : Z := 72.
Definition CTX_SIZE : Z := 20.
Definition CTX_EBP : Z := 12.
Definition CTX_EIP : Z := 16.

(** A [ushort] field. *)
Definition stk16 (a v : Z) : M unit :=
  modify (upd_mem (fun m => st8 (st8 m (v2p a) v) (v2p a + 1) (v / 256))).
Definition ldk16 (a : Z) : M Z :=
  gets (fun s => ld8 (k_mem s) (v2p a) + 256 * ld8 (k_mem s) (v2p a + 1)).

(** ** Definitions *)

Definition pinit : M unit := initlock Lptable "ptable".

Section Proc.
Context `{Symbols, Disk, DevOps}.

(** Set up a thread of process [i] that starts at [forkret]. *)
Definition allocthread (i : nat) : M (option tptr) :=
  acquire (Lproc i);;
  p ← proc_at i;
  match find_idx (fun t => state_eqb (t_state t) UNUSED) (p_threads p) with
  | None => release (Lproc i);; mret None
  | Some k =>
    let t := (i, k) in
    modify (upd_thread t (set_t_state EMBRYO));;
    tid ← gets k_nexttid;
    modify (set_k_nexttid (s32 (tid + 1)));;
    modify (upd_thread t (set_t_tid tid));;
    modify (upd_thread t (set_t_tproc (Some i)));;
    release (Lproc i);;
    kstack ← kalloc;
    modify (upd_thread t (set_t_kstack kstack));;
    if kstack =? 0 then
      modify (upd_thread t (set_t_state UNUSED));;
      mret None
    else
    let sp := u32 (kstack + KSTACKSIZE) in
    let sp := u32 (sp - TF_SIZE) in
    modify (upd_thread t (set_t_tf sp));;
    let sp := u32 (sp - 4) in
    stk sp sym_trapret;;
    let sp := u32 (sp - CTX_SIZE) in
    modify (upd_thread t (set_t_context sp));;
    memset sp 0 CTX_SIZE;;
    stk (u32 (sp + CTX_EIP)) sym_forkret;;
    mret (Some t)
  end.

Definition allocproc : M (option tptr) :=
  acquire Lptable;;
  c ← gets (fun s => find_idx (fun p => state_eqb (p_state p) UNUSED) (k_ptable s));
  match c with
  | None => release Lptable;; mret None
  | Some i =>
    modify (upd_proc i (set_p_state EMBRYO));;
    pid ← gets k_nextpid;
    modify (set_k_nextpid (s32 (pid + 1)));;
    modify (upd_proc i (set_p_pid pid));;
    modify (upd_proc i (set_p_executed 0));;
    modify (upd_proc i (fun p => set_p_threads (map (set_t_state UNUSED) (p_threads p)) p));;
    release Lptable;;
    initlock (Lproc i) "proc";;
    allocthread i
  end.

(** [t->tproc] *)
Definition tproc_of (t : tptr) : M nat := th ← thread_at t; deref "tproc" (t_tproc th).

(** [safestrcpy(p->name, s, sizeof(p->name))] *)
Definition set_name (s : list Z) (p : proc) : proc :=
  set_p_name (splice (p_name p) 0 (Str.safestrcpy s 16)) p.

Definition userinit : M unit :=
  c ← allocproc;
  t ← deref "userinit" c;
  i ← tproc_of t;
  modify (set_k_initproc (Some i));;
  pgdir ← setupkvm;
  modify (upd_proc i (set_p_pgdir pgdir));;
  if pgdir =? 0 then panic "userinit: out of memory?" else
  inituvm pgdir initcode;;
  modify (upd_proc i (set_p_sz PGSIZE));;
  th ← thread_at t;
  let tf := t_tf th in
  memset tf 0 TF_SIZE;;
  let ds := Z.lor (Z.shiftl SEG_UDATA 3) DPL_USER in
  stk16 (tf + TF_CS) (Z.lor (Z.shiftl SEG_UCODE 3) DPL_USER);;
  stk16 (tf + TF_DS) ds;;
  stk16 (tf + TF_ES) ds;;
  stk16 (tf + TF_SS) ds;;
  stk (tf + TF_EFLAGS) FL_IF;;
  stk (tf + TF_ESP) PGSIZE;;
  stk (tf + TF_EIP) 0;;
  modify (upd_proc i (set_name (bytes_of "initcode")));;
  cwd ← namei (bytes_of "/");
  modify (upd_proc i (set_p_cwd cwd));;
  modify (upd_proc i (set_p_state RUNNABLE));;
  modify (upd_thread t (set_t_state RUNNABLE)).

Definition growproc (n : Z) : M Z :=
  i ← curproc;
  p ← proc_at i;
  let sz := p_sz p in
  sz ← (if 0 <? n then allocuvm (p_pgdir p) sz (u32 (sz + n))
        else if n <? 0 then deallocuvm (p_pgdir p) sz (u32 (sz + n))
        else mret sz);
  if (sz =? 0) && negb (n =? 0) then mret (-1) else
  modify (upd_proc i (set_p_sz sz));;
  switchuvm i;;
  mret 0.

(** The body of fork and of cow_fork, which differ in how the child gets its
    memory. *)
Definition fork_with (copy : Z -> Z -> M Z) : M Z :=
  c ← allocproc;
  match c with
  | None => mret (-1)
  | Some nt =>
    np ← tproc_of nt;
    i ← curproc;
    p ← proc_at i;
    pgdir ← copy (p_pgdir p) (p_sz p);
    modify (upd_proc np (set_p_pgdir pgdir));;
    if pgdir =? 0 then
      th ← thread_at nt;
      kfree (t_kstack th);;
      modify (upd_thread nt (set_t_kstack 0));;
      modify (upd_thread nt (set_t_state UNUSED));;
      modify (upd_proc np (set_p_state UNUSED));;
      mret (-1)
    else
    p ← proc_at i;
    modify (upd_proc np (set_p_sz (p_sz p)));;
    modify (upd_proc np (set_p_parent (Some i)));;
    nth ← thread_at nt;
    t ← curthread;
    th ← thread_at t;
    memmove (t_tf nth) (t_tf th) TF_SIZE;;
    stk (u32 (t_tf nth + TF_EAX)) 0;;
    forM (seq 0 NOFILE) (fun fd =>
      p ← proc_at i;
      match p_ofile p !! fd with
      | Some (Some f) =>
        f ← filedup f;
        modify (upd_proc np (fun q => set_p_ofile (<[fd := Some f]> (p_ofile q)) q))
      | _ => mret tt
      end);;
    p ← proc_at i;
    cwd ← deref "cwd" (p_cwd p);
    cwd ← idup cwd;
    modify (upd_proc np (set_p_cwd (Some cwd)));;
    modify (upd_proc np (set_name (p_name p)));;
    q ← proc_at np;
    let pid := p_pid q in
    acquire Lptable;;
    modify (upd_proc np (set_p_state RUNNABLE));;
    modify (upd_thread nt (set_t_state RUNNABLE));;
    release Lptable;;
    mret pid
  end.
Definition fork : M Z := fork_with copyuvm.
Definition cow_fork : M Z := fork_with cow_shareuvm.

(** The channel [(void* )p] for a process pointer that may be null. *)
Definition proc_chan (p : option nat) : chan :=
  match p with Some i => Cproc i | None => Cnull end.

(** Exit the current process; does not return. *)
Definition exit {A} : M A :=
  i ← curproc;
  initproc ← gets k_initproc;
  if bool_decide (Some i = initproc) then panic "init exiting" else
  forM (seq 0 NOFILE) (fun fd =>
    p ← proc_at i;
    match p_ofile p !! fd with
    | Some (Some f) =>
      fileclose f;;
      modify (upd_proc i (fun p => set_p_ofile (<[fd := None]> (p_ofile p)) p))
    | _ => mret tt
    end);;
  begin_op;;
  p ← proc_at i;
  cwd ← deref "cwd" (p_cwd p);
  iput cwd;;
  end_op;;
  modify (upd_proc i (set_p_cwd None));;
  acquire Lptable;;
  p ← proc_at i;
  modify (wakeup1 (proc_chan (p_parent p)));;
  forM (seq 0 NPROC) (fun j =>
    q ← proc_at j;
    if bool_decide (p_parent q = Some i) then
      initproc ← gets k_initproc;
      modify (upd_proc j (set_p_parent initproc));;
      when (state_eqb (p_state q) ZOMBIE) (modify (wakeup1 (proc_chan initproc)))
    else mret tt);;
  modify (upd_proc i (fun p => set_p_threads (map (fun t =>
    if negb (state_eqb (t_state t) UNUSED) then set_t_chan Cnull (set_t_state ZOMBIE t) else t)
    (p_threads p)) p));;
  modify (upd_proc i (set_p_state ZOMBIE));;
  sched;;
  panic "zombie exit".

(** Free what is left of zombie process [j], with [free] for its memory; its
    pid. *)
Definition reap (free : Z -> M unit) (j : nat) : M Z :=
  p ← proc_at j;
  let pid := p_pid p in
  forM (seq 0 NTHREAD) (fun k =>
    th ← thread_at (j, k);
    if state_eqb (t_state th) UNUSED then mret tt else
    if state_eqb (t_state th) ZOMBIE then
      kfree (t_kstack th);;
      modify (upd_thread (j, k) (set_t_kstack 0))
    else panic "wait: thread is still alive while process is dead");;
  p ← proc_at j;
  free (p_pgdir p);;
  modify (upd_proc j (set_p_state UNUSED));;
  modify (upd_proc j (set_p_pid 0));;
  modify (upd_proc j (set_p_parent None));;
  modify (upd_proc j (fun p => set_p_name (<[0%nat := 0]> (p_name p)) p));;
  modify (upd_proc j (set_p_killed 0));;
  release Lptable;;
  mret pid.

(** The first child that is a zombie; whether there are children. *)
Definition zombie_child (i : nat) (s : kstate) : option nat :=
  find_idx (fun p => bool_decide (p_parent p = Some i) && state_eqb (p_state p) ZOMBIE) (k_ptable s).
Definition have_kids (i : nat) (s : kstate) : bool :=
  existsb (fun p => bool_decide (p_parent p = Some i)) (k_ptable s).

(** One turn of the loop of wait and of cow_wait. *)
Definition wait_turn (free : Z -> M unit) : M (option Z) :=
  i ← curproc;
  z ← gets (zombie_child i);
  match z with
  | Some j => pid ← reap free j; mret (Some pid)
  | None =>
    kids ← gets (have_kids i);
    p ← proc_at i;
    if negb kids || truth (p_killed p) then
      release Lptable;;
      mret (Some (-1))
    else
      sleep (Cproc i) (Some Lptable);;
      mret None
  end.
Definition wait_with (free : Z -> M unit) : M Z :=
  acquire Lptable;;
  loop (wait_turn free).
Definition wait : M Z := wait_with freevm.
Definition cow_wait : M Z := wait_with cow_freevm.

(** One turn of the scheduler's for(;;): switch to each RUNNABLE thread in
    table order.  [swtch] lets the thread run until it switches back. *)
Definition run_thread (i k : nat) : M unit :=
  th ← thread_at (i, k);
  if negb (state_eqb (t_state th) RUNNABLE) then mret tt else
  modify (upd_cpu (set_c_proc (Some i)));;
  modify (upd_cpu (set_c_thread (Some (i, k))));;
  switchuvm i;;
  modify (upd_thread (i, k) (set_t_state RUNNING));;
  others_run;;
  switchkvm;;
  modify (upd_cpu (set_c_thread None)).
Definition scheduler_pass : M unit :=
  sti;;
  acquire Lptable;;
  forM (seq 0 NPROC) (fun i =>
    forM (seq 0 NTHREAD) (run_thread i);;
    modify (upd_cpu (set_c_proc None)));;
  release Lptable.

Definition forkret : M unit :=
  release Lptable;;
  first ← gets k_first;
  when (truth first)
    (modify (set_k_first 0);;
     iinit ROOTDEV;;
     initlog ROOTDEV).

Definition kill (pid : Z) : M Z :=
  acquire Lptable;;
  c ← gets (fun s => find_idx (fun p => p_pid p =? pid) (k_ptable s));
  match c with
  | Some j =>
    modify (upd_proc j (set_p_killed 1));;
    release Lptable;;
    mret 0
  | None => release Lptable;; mret (-1)
  end.

(** ** Listings *)

Definition state_name (st : procstate) : list Z :=
  bytes_of match st with
  | UNUSED => "unused" | EMBRYO => "embryo" | SLEEPING => "sleep "
  | RUNNABLE => "runble" | RUNNING => "run   " | ZOMBIE => "zombie"
  end.

(** A C string of an array: up to the terminator. *)
Fixpoint cstr (l : list Z) : list Z :=
  match l with
  | [] => []
  | c :: l' => if c =? 0 then [] else c :: cstr l'
  end.

Definition print_memory_usage (pgdir : Z) : M unit :=
  forM (seq 0 1024) (fun d =>
    e ← ldk (u32 (pgdir + 4 * Z.of_nat d));
    if has e PTE_U && has e PTE_P then
      let pgtab := p2v (PTE_ADDR e) in
      forM (seq 0 1024) (fun t =>
        v ← ldk (u32 (pgtab + 4 * Z.of_nat t));
        if has v PTE_U && has v PTE_P then
          refs ← gets (page_refs (Z.shiftr v 12));
          let w := if has v PTE_W && negb (has v PTE_SH) then bytes_of "y" else bytes_of "n" in
          cprintf (bytes_of "%p -> %p , [w: %s] , [refs: %d]" ++ [NL])
            [AInt (Z.shiftl (Z.of_nat d) 10 + Z.of_nat t); AInt (Z.shiftr v 12); AStr w; AInt refs]
        else mret tt)
    else mret tt).

(** The call stack of a sleeping thread, up to the first zero. *)
Definition thread_pcs (th : thread) : M (list Z) :=
  ebp ← ldk (u32 (t_context th + CTX_EBP));
  gets (getcallerpcs (u32 (ebp + 8))).

(** The inner loop of procdump runs over the same variable as the outer loop,
    so only the first thread in use is listed, followed by the call stacks of
    all sleeping threads of the process. *)
Definition procdump : M unit :=
  cprintf (bytes_of " - - - - - - - - procdump start - - - - - - - - " ++ [NL]) [];;
  forM (seq 0 NPROC) (fun i =>
    p ← proc_at i;
    if state_eqb (p_state p) UNUSED then mret tt else
    cprintf (bytes_of "proc: %d %s %s" ++ [NL])
      [AInt (p_pid p); AStr (state_name (p_state p)); AStr (cstr (p_name p))];;
    print_memory_usage (p_pgdir p);;
    match find_idx (fun t => negb (state_eqb (t_state t) UNUSED)) (p_threads p) with
    | None => mret tt
    | Some k =>
      th ← thread_at (i, k);
      cprintf (bytes_of "thread: %d %s %s")
        [AInt (t_tid th); AStr (state_name (t_state th)); AStr (cstr (t_name th))];;
      forM (seq 0 NTHREAD) (fun k =>
        th ← thread_at (i, k);
        if state_eqb (t_state th) SLEEPING then
          pcs ← thread_pcs th;
          forM (cstr pcs) (fun pc => cprintf (bytes_of " %p") [AInt pc])
        else mret tt);;
      cprintf [NL] []
    end);;
  cprintf (bytes_of " - - - - - - - -  procdump end  - - - - - - - - " ++ [NL]) [].

End Proc.
