(* ===== verification/Kthread.v ===== *)
(** * Kernel threads (kthread.c)

    [allocthread] is in Proc.v. *)

From stdpp Require Import base list gmap strings.
From S2P Require Import Prelude Memory Bytes Str Kernel KMonad Boot Mmu Spinlock Kalloc Sched Vm.
From S2P Require Import Ide Bio Log Fs Pipe File Kbd Console Proc.

(** ** Definitions *)

(** [wakeup2] runs over [proc->pthreads] up to index NPROC, past the end of
    the array of NTHREAD threads.  [beyond n] is what the accesses to the [n]
    elements after the array, memory that holds other things, do to the
    kernel state. *)
Definition wakeup2 (beyond : nat -> kstate -> kstate) (ch : chan) : M unit :=
  i ← curproc;
  modify (upd_proc i (fun p => set_p_threads (map (wake ch) (p_threads p)) p));;
  modify (beyond (NPROC - NTHREAD)%nat).

Section Kthread.
Context `{Symbols, Disk, DevOps}.

Definition kthread_create (start_func stack stack_size : Z) : M Z :=
  i ← curproc;
  c ← allocthread i;
  match c with
  | None => mret (-1)
  | Some t =>
    th ← thread_at t;
    me ← curthread;
    my ← thread_at me;
    memmove (t_tf th) (t_tf my) TF_SIZE;;
    stk (u32 (t_tf th + TF_EIP)) start_func;;
    stk (u32 (t_tf th + TF_ESP)) (u32 (stack + stack_size));;
    acquire (Lproc i);;
    modify (upd_thread t (set_t_state RUNNABLE));;
    release (Lproc i);;
    th ← thread_at t;
    mret (t_tid th)
  end.

Definition kthread_id : M Z :=
  t ← curthread;
  th ← thread_at t;
  mret (if t_tid th <=? 0 then -1 else t_tid th).

Definition alive (t : thread) : bool :=
  negb (state_eqb (t_state t) UNUSED) && negb (state_eqb (t_state t) ZOMBIE).

Definition kthread_exit {A} (beyond : nat -> kstate -> kstate) : M A :=
  acqptable;;
  t ← curthread;
  modify (upd_thread t (set_t_state ZOMBIE));;
  i ← tproc_of t;
  p ← proc_at i;
  let num_of_threads := length (filter (fun t => alive t = true) (p_threads p)) in
  wakeup2 beyond (Cthread t);;
  (if (num_of_threads =? 0)%nat then relptable;; exit else mret tt);;
  sched;;
  panic "zombie thread exit".

(** Take the kernel stack of zombie [t] and free its slot. *)
Definition bury (i : nat) (t : tptr) : M Z :=
  th ← thread_at t;
  kfree (t_kstack th);;
  modify (upd_thread t (set_t_kstack 0));;
  modify (upd_thread t (set_t_state UNUSED));;
  release (Lproc i);;
  mret 0.

(** One turn of [while(t->state != ZOMBIE) sleep(t, &proc->lock);] *)
Definition join_turn (i : nat) (t : tptr) : M (option unit) :=
  th ← thread_at t;
  if state_eqb (t_state th) ZOMBIE then mret (Some tt)
  else sleep (Cthread t) (Some (Lproc i));; mret None.

Definition kthread_join (thread_id : Z) : M Z :=
  i ← curproc;
  acquire (Lproc i);;
  p ← proc_at i;
  match find_idx (fun t => t_tid t =? thread_id) (p_threads p) with
  | None => release (Lproc i);; mret (-1)
  | Some k =>
    th ← thread_at (i, k);
    if state_eqb (t_state th) ZOMBIE then bury i (i, k) else
    if state_eqb (t_state th) UNUSED then release (Lproc i);; mret 0 else
    loop (join_turn i (i, k));;
    th ← thread_at (i, k);
    if state_eqb (t_state th) UNUSED then panic "kthread_join: thread become unused" else
    bury i (i, k)
  end.

End Kthread.
