(* ===== verification/Exec.v ===== *)
(** * Loading programs (exec.c, and loaduvm of vm.c) *)

From stdpp Require Import base list gmap strings.
From S2P Require Import Prelude Memory Bytes Str Kernel KMonad Boot Mmu Spinlock Kalloc Sched Vm.
From S2P Require Import Ide Bio Log Fs Pipe File Kbd Console Proc.

(** ** The ELF format (elf.h) *)

Definition ELF_MAGIC : Z := 1179403647.
Definition ELF_PROG_LOAD : Z := 1.
Definition ELFHDR_SIZE : Z := 52.
Definition PROGHDR_SIZE : Z := 32.
Definition elf_magic (h : list Z) : Z := get32 h 0.
Definition elf_entry (h : list Z) : Z := get32 h 24.
Definition elf_phoff (h : list Z) : Z := get32 h 28.
Definition elf_phnum (h : list Z) : Z := get16 h 44.
Definition ph_type (h : list Z) : Z := get32 h 0.
Definition ph_off (h : list Z) : Z := get32 h 4.
Definition ph_vaddr (h : list Z) : Z := get32 h 8.
Definition ph_filesz (h : list Z) : Z := get32 h 16.
Definition ph_memsz (h : list Z) : Z := get32 h 20.

Section Exec.
Context `{Symbols, Disk, DevOps}.

(** ** Definitions *)

(** Load [sz] bytes at [offset] of the file into the pages at [addr]. *)
Fixpoint loaduvm_loop (n : nat) (pgdir addr : Z) (ip : nat) (offset i sz : Z) : M Z :=
  match n with
  | O => mret 0
  | S n' =>
    if i <? sz then
      pte ← walkpgdir pgdir (u32 (addr + i)) false;
      if pte =? 0 then panic "loaduvm: address should exist" else
      v ← ldk pte;
      let pa := PTE_ADDR v in
      let n := if u32 (sz - i) <? PGSIZE then u32 (sz - i) else PGSIZE in
      r ← readi ip (u32 (offset + i)) n;
      modify (upd_mem (fun m => mwrite m (v2p (p2v pa)) r.2));;
      if negb (u32 r.1 =? n) then mret (-1) else
      loaduvm_loop n' pgdir addr ip offset (u32 (i + PGSIZE)) sz
    else mret 0
  end.
Definition loaduvm (pgdir addr : Z) (ip : nat) (offset sz : Z) : M Z :=
  if negb (addr mod PGSIZE =? 0) then panic "loaduvm: addr must be page aligned" else
  loaduvm_loop (S (Z.to_nat (sz / PGSIZE + 1))) pgdir addr ip offset 0 sz.

(** What the for loop of wait_before_exec does to another thread. *)
Definition rush_thread (t ot : tptr) : M bool :=
  if bool_decide (ot = t) then mret false else
  th ← thread_at ot;
  if state_eqb (t_state th) UNUSED then mret false else
  if state_eqb (t_state th) ZOMBIE then
    kfree (t_kstack th);;
    modify (upd_thread ot (set_t_kstack 0));;
    modify (upd_thread ot (set_t_state UNUSED));;
    mret false
  else
    when (state_eqb (t_state th) SLEEPING) (modify (upd_thread ot (set_t_state RUNNABLE)));;
    mret true.
Fixpoint rush_threads (t : tptr) (ks : list nat) : M bool :=
  match ks with
  | [] => mret false
  | k :: ks' =>
    a ← rush_thread t (t.1, k);
    b ← rush_threads t ks';
    mret (a || b)
  end.

(** One turn of while(1); [threadsAlive] survives from turn to turn. *)
Fixpoint before_exec_loop (fuel : nat) (cp : nat) (t : tptr) (threadsAlive : bool) : M unit :=
  match fuel with
  | O => halt
  | S fuel' =>
    a ← rush_threads t (seq 0 NTHREAD);
    let threadsAlive := threadsAlive || a in
    if negb threadsAlive then
      modify (upd_proc cp (set_p_executed 0));;
      release (Lproc cp)
    else
      sleep (Cproc cp) (Some (Lproc cp));;
      before_exec_loop fuel' cp t threadsAlive
  end.
(** Each turn but the last sleeps and takes an entry of the schedule. *)
Definition wait_before_exec (t : tptr) : M unit :=
  cp ← tproc_of t;
  acquire (Lproc cp);;
  modify (upd_proc cp (set_p_executed 1));;
  ((fun e s => before_exec_loop (S (length e)) cp t false e s) : M unit).

(** The loop over the program headers: the size of the image, or [None] for
    the jump to [bad]. *)
Fixpoint load_segments (n : nat) (pgdir : Z) (ip : nat) (off sz : Z) : M (option Z) :=
  match n with
  | O => mret (Some sz)
  | S n' =>
    r ← readi ip (u32 off) PROGHDR_SIZE;
    if negb (r.1 =? PROGHDR_SIZE) then mret None else
    let ph := r.2 in
    let off' := s32 (off + PROGHDR_SIZE) in
    if negb (ph_type ph =? ELF_PROG_LOAD) then load_segments n' pgdir ip off' sz else
    if ph_memsz ph <? ph_filesz ph then mret None else
    sz ← allocuvm pgdir sz (u32 (ph_vaddr ph + ph_memsz ph));
    if sz =? 0 then mret None else
    r ← loaduvm pgdir (ph_vaddr ph) ip (ph_off ph) (ph_filesz ph);
    if r <? 0 then mret None else
    load_segments n' pgdir ip off' sz
  end.

(** Push the argument strings: the stack pointer and the addresses of the
    strings, or [None] for the jump to [bad]. *)
Fixpoint push_args (pgdir sp argc : Z) (argv : list (list Z)) : M (option (Z * list Z)) :=
  match argv with
  | [] => mret (Some (sp, []))
  | a :: argv' =>
    if MAXARG <=? argc then mret None else
    let len := Str.strlen a + 1 in
    let sp := Z.land (u32 (sp - len)) 4294967292 in
    r ← copyout pgdir sp (take (Z.to_nat (len - 1)) a ++ [0]);
    if r <? 0 then mret None else
    rest ← push_args pgdir sp (argc + 1) argv';
    mret ((fun x : Z * list Z => (x.1, sp :: x.2)) <$> rest)
  end.
Definition ustack_bytes (sp : Z) (ptrs : list Z) : list Z :=
  let argc := Z.of_nat (length ptrs) in
  concat (map le32 ([4294967295; argc; u32 (sp - (argc + 1) * 4)] ++ ptrs ++ [0])).

(** The last element of the path. *)
Fixpoint last_elem (last path : list Z) : list Z :=
  match path with
  | [] => last
  | c :: p => if c =? 0 then last else if c =? SLASH then last_elem p p else last_elem last p
  end.

(** The user image that exec builds in a new directory. *)
Inductive image : Type :=
| BadFile (pgdir : Z)               (* goto bad with ip locked *)
| BadStack (pgdir : Z)              (* goto bad after the file was closed *)
| Image (pgdir sz sp entry : Z).

Definition load_image (ip : nat) (argv : list (list Z)) : M image :=
  r ← readi ip 0 ELFHDR_SIZE;
  if u32 r.1 <? ELFHDR_SIZE then mret (BadFile 0) else
  let elf := r.2 in
  if negb (elf_magic elf =? ELF_MAGIC) then mret (BadFile 0) else
  pgdir ← setupkvm;
  if pgdir =? 0 then mret (BadFile 0) else
  sz ← load_segments (Z.to_nat (elf_phnum elf)) pgdir ip (s32 (elf_phoff elf)) 0;
  match sz with
  | None => mret (BadFile pgdir)
  | Some sz =>
    iunlockput ip;;
    end_op;;
    let sz := PGROUNDUP sz in
    sz ← allocuvm pgdir sz (u32 (sz + 2 * PGSIZE));
    if sz =? 0 then mret (BadStack pgdir) else
    clearpteu pgdir (u32 (sz - 2 * PGSIZE));;
    a ← push_args pgdir sz 0 argv;
    match a with
    | None => mret (BadStack pgdir)
    | Some (sp, ptrs) =>
      let argc := Z.of_nat (length ptrs) in
      let bytes := ustack_bytes sp ptrs in
      let sp := u32 (sp - (3 + argc + 1) * 4) in
      r ← copyout pgdir sp bytes;
      if r <? 0 then mret (BadStack pgdir) else
      mret (Image pgdir sz sp (elf_entry elf))
    end
  end.

Definition exec (path : list Z) (argv : list (list Z)) : M Z :=
  t ← curthread;
  wait_before_exec t;;
  begin_op;;
  f ← namei path;
  match f with
  | None => end_op;; mret (-1)
  | Some ip =>
    ilock (Some ip);;
    img ← load_image ip argv;
    match img with
    | BadFile pgdir =>
      when (truth pgdir) (freevm pgdir);;
      iunlockput ip;;
      end_op;;
      mret (-1)
    | BadStack pgdir =>
      freevm pgdir;;
      mret (-1)
    | Image pgdir sz sp entry =>
      i ← curproc;
      modify (upd_proc i (set_name (last_elem path path)));;
      p ← proc_at i;
      let oldpgdir := p_pgdir p in
      modify (upd_proc i (set_p_pgdir pgdir));;
      modify (upd_proc i (set_p_sz sz));;
      t ← curthread;
      th ← thread_at t;
      stk (u32 (t_tf th + TF_EIP)) entry;;
      stk (u32 (t_tf th + TF_ESP)) sp;;
      switchuvm i;;
      freevm oldpgdir;;
      mret 0
    end
  end.

End Exec.
