(* ===== verification/Mutex.v ===== *)
(** * Kernel mutexes for user threads (mutex.c)

    The table of mutexes, the four operations, and what each of them does to
    the table.  How the operations of several threads interleave is in
    MutexProtocol.v. *)

From S2P Require Import Prelude Memory Kernel KMonad Boot Spinlock Sched.

(** ** Definitions *)

Definition mxinit : M unit := initlock Lmxtable "mxtable".

Definition mxstate_eqb (a b : mxstate) : bool := bool_decide (a = b).

(** The first entry that is FREE, and the first with a given id. *)
Definition find_free (s : kstate) : option nat :=
  find_idx (fun mx => mxstate_eqb (m_state mx) FREE) (k_mxtable s).
Definition find_mx (mutex_id : Z) (s : kstate) : option nat :=
  find_idx (fun mx => m_mxid mx =? mutex_id) (k_mxtable s).
Definition mutex_at (k : nat) : M kthread_mutex_t :=
  gets (fun s => k_mxtable s !! k) ≫= deref "mutex".

Definition kthread_mutex_alloc : M Z :=
  acquire Lmxtable;;
  f ← gets find_free;
  match f with
  | None => release Lmxtable;; mret (-1)
  | Some k =>
    modify (upd_mutex k (set_m_state UNLOCKED));;
    id ← gets k_nextmxid;
    modify (set_k_nextmxid (s32 (id + 1)));;
    modify (upd_mutex k (set_m_mxid id));;
    modify (upd_mutex k (set_m_owner None));;
    release Lmxtable;;
    mx ← mutex_at k;
    mret (m_mxid mx)
  end.

Definition kthread_mutex_dealloc (mutex_id : Z) : M Z :=
  acquire Lmxtable;;
  f ← gets (find_mx mutex_id);
  match f with
  | None => release Lmxtable;; mret (-1)
  | Some k =>
    mx ← mutex_at k;
    if mxstate_eqb (m_state mx) LOCKED then release Lmxtable;; mret (-1) else
    modify (upd_mutex k (set_m_state FREE));;
    modify (upd_mutex k (set_m_owner None));;
    modify (upd_mutex k (set_m_mxid 0));;
    release Lmxtable;;
    mret 0
  end.

(** [xchg(&mx->state, v)] *)
Definition xchg_mxstate (k : nat) (v : mxstate) : M mxstate :=
  mx ← mutex_at k;
  modify (upd_mutex k (set_m_state v));;
  mret (m_state mx).

(** One turn of the loop [while(xchg(&mx->state, LOCKED) == LOCKED) sleep]. *)
Definition lock_turn (k : nat) : M (option unit) :=
  old ← xchg_mxstate k LOCKED;
  if mxstate_eqb old LOCKED
  then sleep (Cmutex k) (Some Lmxtable);; mret None
  else mret (Some tt).

Definition kthread_mutex_lock (mutex_id : Z) : M Z :=
  acquire Lmxtable;;
  f ← gets (find_mx mutex_id);
  match f with
  | None => release Lmxtable;; mret (-1)
  | Some k =>
    mx ← mutex_at k;
    if mxstate_eqb (m_state mx) FREE
    then panic "kthread_mutex_lock: trying to catch FREE mutex" else
    loop (lock_turn k);;
    t ← gets (fun s => c_thread (k_cpu s));
    modify (upd_mutex k (set_m_owner t));;
    release Lmxtable;;
    mret 0
  end.

Definition kthread_mutex_unlock (mutex_id : Z) : M Z :=
  acquire Lmxtable;;
  f ← gets (find_mx mutex_id);
  match f with
  | None => release Lmxtable;; mret (-1)
  | Some k =>
    mx ← mutex_at k;
    if mxstate_eqb (m_state mx) UNLOCKED then release Lmxtable;; mret (-1) else
    modify (upd_mutex k (set_m_state UNLOCKED));;
    modify (upd_mutex k (set_m_owner None));;
    release Lmxtable;;
    wakeup (Cmutex k);;
    mret 0
  end.

(** ** Invariant of the table

    An entry is FREE exactly when its id is 0, and the other ids are distinct
    and have been handed out already. *)
Record mx_wf (next : Z) (l : list kthread_mutex_t) : Prop := {
  mx_free : forall k mx, l !! k = Some mx -> (m_state mx = FREE <-> m_mxid mx = 0);
  mx_ids : forall k mx, l !! k = Some mx -> 0 <= m_mxid mx < next;
  mx_inj : forall j k a b, l !! j = Some a -> l !! k = Some b ->
    m_mxid a = m_mxid b -> m_mxid a <> 0 -> j = k
}.

(** A thread in a system call that holds no spin lock, while nobody holds
    the two locks the mutex operations need. *)
Record mx_caller (s : kstate) : Prop := {
  mc_cli : cli_ok (k_cpu s);
  mc_mx : unlocked s Lmxtable;
  mc_pt : unlocked s Lptable
}.

(** ** Lemmas *)

Lemma mxstate_eqb_spec a b : reflect (a = b) (mxstate_eqb a b).
Proof. unfold mxstate_eqb. case_bool_decide; by constructor. Qed.

Lemma mutex_at_ok k e s mx : k_mxtable s !! k = Some mx -> mutex_at k e s = Ok mx e s.
Proof. intros H. unfold mutex_at. mstep. by rewrite H. Qed.

Lemma shrinks_mutex_at k : shrinks (mutex_at k).
Proof. unfold mutex_at. shrink. Qed.
#[export] Hint Resolve shrinks_mutex_at : xv6.

Lemma lock_turn_consumes k : consumes (lock_turn k).
Proof.
  unfold lock_turn, xchg_mxstate. apply consumes_bind; [shrink|]. intros old.
  destruct (mxstate_eqb old LOCKED); [|apply consumes_some].
  apply consumes_takes, takes_bind_l; auto with xv6.
Qed.

Lemma mutex_upd_eq k f s mx :
  k_mxtable s !! k = Some mx -> k_mxtable (upd_mutex k f s) !! k = Some (f mx).
Proof. intros H. cbn. by rewrite list_lookup_alter_eq, H. Qed.

Lemma mutex_upd_ne j k f s : j <> k -> k_mxtable (upd_mutex j f s) !! k = k_mxtable s !! k.
Proof. intros H. cbn. by rewrite list_lookup_alter_ne. Qed.

Lemma mutex_upd_compose k f g s :
  upd_mutex k f (upd_mutex k g s) = upd_mutex k (fun mx => f (g mx)) s.
Proof.
  unfold upd_mutex, set_k_mxtable. cbn. f_equal. apply alter_twice.
Qed.

Lemma mutex_upd_same k f s mx :
  k_mxtable s !! k = Some mx -> upd_mutex k f s = set_k_mxtable (<[k:=f mx]> (k_mxtable s)) s.
Proof. intros H. unfold upd_mutex. by rewrite (alter_insert _ _ _ _ H). Qed.

Lemma find_mx_lookup id s k mx :
  find_mx id s = Some k -> k_mxtable s !! k = Some mx -> m_mxid mx = id.
Proof.
  intros [(y & Hy & Hid) _]%find_idx_Some H. rewrite Hy in H. simplify_eq. by apply Z.eqb_eq.
Qed.

Lemma find_mx_Some id s k : find_mx id s = Some k -> is_Some (k_mxtable s !! k).
Proof. intros [(y & Hy & Hid) _]%find_idx_Some. eauto. Qed.

(** With distinct ids, a live mutex is found at its own entry. *)
Lemma find_mx_unique next id s k mx :
  mx_wf next (k_mxtable s) -> k_mxtable s !! k = Some mx -> m_mxid mx = id -> id <> 0 ->
  find_mx id s = Some k.
Proof.
  intros [_ _ Hinj] Hk <- Hne. apply find_idx_Some. split.
  - exists mx. by rewrite Z.eqb_refl.
  - intros j y Hj Hy. apply Z.eqb_neq. intros E.
    assert (j = k) by (eapply Hinj; [done..|congruence]). lia.
Qed.

Lemma find_mx_None id s : find_mx id s = None <-> forall k mx, k_mxtable s !! k = Some mx -> m_mxid mx <> id.
Proof.
  unfold find_mx. rewrite find_idx_None. split; intros H k mx Hk; specialize (H k mx Hk).
  - by apply Z.eqb_neq.
  - by apply Z.eqb_neq.
Qed.

(** Changing one entry keeps the table well-formed. *)
Lemma mx_wf_insert next next' l k mx :
  mx_wf next l -> next <= next' -> (m_state mx = FREE <-> m_mxid mx = 0) -> 0 <= m_mxid mx < next' ->
  (forall j a, l !! j = Some a -> j <> k -> m_mxid a = m_mxid mx -> m_mxid mx = 0) ->
  mx_wf next' (<[k:=mx]> l).
Proof.
  intros [Hf Hi Hj] Hn Hfm Him Hjm. split.
  - intros j a [(-> & <- & _)|[_ ?]]%list_lookup_insert_Some; eauto.
  - intros j a [(-> & <- & _)|[_ H]]%list_lookup_insert_Some; [done|]. apply Hi in H. lia.
  - intros i j a b [(-> & <- & _)|[? ?]]%list_lookup_insert_Some
      [(-> & <- & _)|[? ?]]%list_lookup_insert_Some E E0; [done|..|by eapply Hj].
    + destruct E0. by eapply (Hjm j b).
    + destruct E0. rewrite E. by eapply (Hjm i a).
Qed.

(** ** What the operations do *)

Lemma released_mutex lk k f s : released lk (upd_mutex k f s) = upd_mutex k f (released lk s).
Proof. done. Qed.

Lemma released_nextmxid lk v s : released lk (set_k_nextmxid v s) = set_k_nextmxid v (released lk s).
Proof. done. Qed.

Lemma nextmxid_mutex k f v s : set_k_nextmxid v (upd_mutex k f s) = upd_mutex k f (set_k_nextmxid v s).
Proof. done. Qed.

Lemma alloc_runs e s :
  mx_caller s ->
  kthread_mutex_alloc e s =
  match find_free s with
  | None => Ok (-1) e (crit Lmxtable s)
  | Some k => Ok (k_nextmxid s) e
      (upd_mutex k (fun _ => mkMutex UNLOCKED (k_nextmxid s) None)
         (set_k_nextmxid (s32 (k_nextmxid s + 1)) (crit Lmxtable s)))
  end.
Proof.
  intros [Hc Hu _]. unfold kthread_mutex_alloc. mstep acquire_free by done. mstep.
  change (find_free (acquired Lmxtable s)) with (find_free s).
  rewrite <- released_acquired by done. destruct (find_free s) as [k|] eqn:Hk.
  - mstep. mstep. mstep. mstep. mstep.
    mstep release_held by ctl.
    assert (exists mx, k_mxtable s !! k = Some mx) as [mx Hmx].
    { apply find_idx_Some in Hk as [(mx & Hmx & _) _]. eauto. }
    mstep mutex_at_ok by (cbn; rewrite !alter_twice, list_lookup_alter_eq, Hmx; done).
    cbn [m_mxid set_m_owner set_m_mxid set_m_state fmap option_fmap option_map].
    rewrite nextmxid_mutex, !mutex_upd_compose, released_mutex, released_nextmxid. done.
  - by mstep release_held by ctl.
Qed.

Lemma dealloc_runs id e s :
  mx_caller s ->
  kthread_mutex_dealloc id e s =
  match find_mx id s ≫= (fun k => pair k <$> k_mxtable s !! k) with
  | None => Ok (-1) e (crit Lmxtable s)
  | Some (k, mx) =>
    if mxstate_eqb (m_state mx) LOCKED then Ok (-1) e (crit Lmxtable s) else
    Ok 0 e (upd_mutex k (fun _ => mkMutex FREE 0 None) (crit Lmxtable s))
  end.
Proof.
  intros [Hc Hu _]. unfold kthread_mutex_dealloc. mstep acquire_free by done. mstep.
  change (find_mx id (acquired Lmxtable s)) with (find_mx id s).
  rewrite <- released_acquired by done. destruct (find_mx id s) as [k|] eqn:Hk.
  - destruct (find_mx_Some _ _ _ Hk) as [mx Hmx]. cbn. rewrite Hmx. cbn.
    mstep mutex_at_ok by (exact Hmx).
    destruct (mxstate_eqb (m_state mx) LOCKED); [by mstep release_held by ctl|].
    mstep. mstep. mstep. mstep release_held by ctl. rewrite !mutex_upd_compose, released_mutex. done.
  - by mstep release_held by ctl.
Qed.

Lemma unlock_runs id e s :
  mx_caller s ->
  kthread_mutex_unlock id e s =
  match find_mx id s ≫= (fun k => pair k <$> k_mxtable s !! k) with
  | None => Ok (-1) e (crit Lmxtable s)
  | Some (k, mx) =>
    if mxstate_eqb (m_state mx) UNLOCKED then Ok (-1) e (crit Lmxtable s) else
    Ok 0 e (wakeup1 (Cmutex k) (crit Lptable
      (upd_mutex k (fun x => mkMutex UNLOCKED (m_mxid x) None) (crit Lmxtable s))))
  end.
Proof.
  intros [Hc Hu Hp]. unfold kthread_mutex_unlock. mstep acquire_free by done. mstep.
  change (find_mx id (acquired Lmxtable s)) with (find_mx id s).
  rewrite <- released_acquired by done. destruct (find_mx id s) as [k|] eqn:Hk.
  - destruct (find_mx_Some _ _ _ Hk) as [mx Hmx]. cbn. rewrite Hmx. cbn.
    mstep mutex_at_ok by (exact Hmx).
    destruct (mxstate_eqb (m_state mx) UNLOCKED); [by mstep release_held by ctl|].
    mstep. mstep. mstep release_held by ctl. mstep wakeup_ok by ctl.
    rewrite !mutex_upd_compose, released_mutex. done.
  - by mstep release_held by ctl.
Qed.

Lemma find_free_lookup s k :
  find_free s = Some k -> exists mx, k_mxtable s !! k = Some mx /\ m_state mx = FREE.
Proof.
  intros [(mx & Hmx & Hf) _]%find_idx_Some. exists mx. split; [done|].
  by destruct (mxstate_eqb_spec (m_state mx) FREE).
Qed.

Lemma find_free_None s :
  find_free s = None <-> forall k mx, k_mxtable s !! k = Some mx -> m_state mx <> FREE.
Proof.
  unfold find_free. rewrite find_idx_None. split; intros H k mx Hk; specialize (H k mx Hk).
  - by destruct (mxstate_eqb_spec (m_state mx) FREE).
  - by destruct (mxstate_eqb_spec (m_state mx) FREE).
Qed.

(** [kthread_mutex_alloc] fails exactly when no entry is FREE.  Otherwise it
    returns an id no live mutex has, under which [find_mx] finds a new
    UNLOCKED mutex without an owner; all other entries are untouched and the
    table stays well-formed. *)
Theorem mutex_alloc_fresh e s :
  mx_caller s -> mx_wf (k_nextmxid s) (k_mxtable s) -> 0 < k_nextmxid s < 2147483647 ->
  exists r s', kthread_mutex_alloc e s = Ok r e s' /\ unlocked s' Lmxtable /\
    mx_wf (k_nextmxid s') (k_mxtable s') /\
    (r = -1 <-> forall k mx, k_mxtable s !! k = Some mx -> m_state mx <> FREE) /\
    (r = -1 -> k_mxtable s' = k_mxtable s) /\
    (r <> -1 -> (forall k mx, k_mxtable s !! k = Some mx -> m_mxid mx <> r) /\
       exists k, find_mx r s' = Some k /\ k_mxtable s' = <[k := mkMutex UNLOCKED r None]> (k_mxtable s)).
Proof.
  intros Hc Hwf Hn. rewrite alloc_runs by done.
  destruct (find_free s) as [k|] eqn:Hk; eexists _, _; (split; [done|]).
  - destruct (find_free_lookup s k Hk) as (mx & Hmx & Hfree).
    rewrite (mutex_upd_same k _ (set_k_nextmxid _ (crit Lmxtable s)) mx Hmx).
    set (nx := mkMutex UNLOCKED (k_nextmxid s) None).
    assert (Hwf' : mx_wf (s32 (k_nextmxid s + 1)) (<[k:=nx]> (k_mxtable s))).
    { rewrite s32_small by lia. eapply mx_wf_insert; [exact Hwf|lia|cbn..].
      - split; [done|lia].
      - lia.
      - intros j a Ha _ E. apply (mx_ids _ _ Hwf) in Ha. lia. }
    split_and!; [ctl; apply Hc|exact Hwf'| |lia|].
    + split; [lia|]. intros H. by destruct (H k mx Hmx).
    + intros _. split; [intros j a Ha E; apply (mx_ids _ _ Hwf) in Ha; lia|].
      exists k. split; [|done].
      apply (find_mx_unique (s32 (k_nextmxid s + 1)) _ _ k nx); [exact Hwf'| |done|lia].
      change (<[k:=nx]> (k_mxtable s) !! k = Some nx).
      apply list_lookup_insert_eq. by eapply lookup_lt_Some.
  - pose proof (proj1 (find_free_None s) Hk). split_and!; [ctl; apply Hc|exact Hwf|by split|done|done].
Qed.

(** [kthread_mutex_unlock] of a LOCKED mutex returns 0, leaves it UNLOCKED
    without an owner and makes RUNNABLE exactly the threads that sleep on it;
    of an UNLOCKED or unknown mutex it returns -1 and changes neither the
    table nor a thread. *)
Theorem mutex_unlock_wakes id e s :
  mx_caller s ->
  exists r s', kthread_mutex_unlock id e s = Ok r e s' /\ mx_caller s' /\
    match find_mx id s ≫= (fun k => pair k <$> k_mxtable s !! k) with
    | Some (k, mx) =>
      if decide (m_state mx = UNLOCKED) then r = -1 /\ k_mxtable s' = k_mxtable s /\ k_ptable s' = k_ptable s
      else r = 0 /\ k_mxtable s' = <[k := mkMutex UNLOCKED id None]> (k_mxtable s) /\
        forall t, thread_of s' t =
          (fun th => if decide (t_state th = SLEEPING /\ t_chan th = Cmutex k)
                     then set_t_state RUNNABLE th else th) <$> thread_of s t
    | None => r = -1 /\ k_mxtable s' = k_mxtable s /\ k_ptable s' = k_ptable s
    end.
Proof.
  intros Hc. rewrite unlock_runs by done. pose proof Hc as [Hcli Hm Hp].
  assert (Hcrit : mx_caller (crit Lmxtable s)) by (split; ctl).
  destruct (find_mx id s) as [k|] eqn:Hk; cbn; [|by eexists _, _].
  destruct (find_mx_Some _ _ _ Hk) as [mx Hmx]. rewrite Hmx. cbn.
  destruct (mxstate_eqb_spec (m_state mx) UNLOCKED) as [E|E]; case_decide; try done;
    eexists _, _; (split; [done|]); [done|].
  split; [split; ctl|]. split; [done|]. split.
  - change (alter (fun x => mkMutex UNLOCKED (m_mxid x) None) k (k_mxtable s) = <[k:=mkMutex UNLOCKED id None]> (k_mxtable s)).
    rewrite (alter_insert _ _ _ _ Hmx). by rewrite (find_mx_lookup _ _ _ _ Hk Hmx).
  - intros t. rewrite wakeup1_thread, (thread_of_ptable s) by done.
    destruct (thread_of s t) as [th|]; [|done]. cbn. f_equal.
    unfold wake, state_eqb, chan_eqb. case_decide; repeat case_bool_decide; naive_solver.
Qed.

(** ** [kthread_mutex_lock] under every schedule *)

Section Lock.
Context (i : nat) (t : tptr) (k : nat).

(** Thread [t] sleeps on mutex [k]. *)
Definition waits (s : kstate) : Prop :=
  exists th, thread_of s t = Some th /\ t_state th = SLEEPING /\ t_chan th = Cmutex k.

(** What the machine may do while [t] waits: anything that ends with the
    scheduler running [t] again at a moment when nobody holds [mxtable.lock]
    (a CPU that waits for the lock spins until then). *)
Definition resumes (f : kstate -> kstate) : Prop :=
  forall s, held s Lptable -> waits s ->
    resumed (f s) i t /\ unlocked (f s) Lmxtable /\
    (exists p, k_ptable (f s) !! i = Some p /\ p_state p <> RUNNING) /\
    length (k_mxtable (f s)) = length (k_mxtable s).

Lemma lock_turn_free e s mx :
  k_mxtable s !! k = Some mx -> m_state mx <> LOCKED ->
  lock_turn k e s = Ok (Some tt) e (upd_mutex k (set_m_state LOCKED) s).
Proof.
  intros Hk Hst. unfold lock_turn, xchg_mxstate. rewrite bind_assoc. mstep mutex_at_ok by done.
  rewrite bind_assoc. mstep. mstep. by destruct (mxstate_eqb_spec (m_state mx) LOCKED).
Qed.

Lemma lock_turn_busy e s mx :
  k_mxtable s !! k = Some mx -> m_state mx = LOCKED ->
  lock_turn k e s = (sleep (Cmutex k) (Some Lmxtable);; mret None) e (upd_mutex k (set_m_state LOCKED) s).
Proof.
  intros Hk Hst. unfold lock_turn, xchg_mxstate. rewrite bind_assoc. mstep mutex_at_ok by done.
  rewrite bind_assoc. mstep. mstep. by rewrite Hst.
Qed.

Lemma may_sleep_upd_mutex s f : may_sleep s i t Lmxtable -> may_sleep (upd_mutex k f s) i t Lmxtable.
Proof. intros [? ? ? ? ? ? ? ?]. by split. Qed.

(** The loop of [kthread_mutex_lock]: asleep for good on a LOCKED mutex, or
    done after an [xchg] that found the mutex not LOCKED. *)
Lemma lock_loop e : forall s mx,
  may_sleep s i t Lmxtable -> k_mxtable s !! k = Some mx -> Forall resumes e ->
  (exists s', loop (lock_turn k) e s = Off s' /\ waits s' /\ held s' Lptable /\ unlocked s' Lmxtable /\
     exists mx', k_mxtable s' !! k = Some mx' /\ m_state mx' = LOCKED) \/
  (exists e' s0 mx0, loop (lock_turn k) e s = Ok tt e' (upd_mutex k (set_m_state LOCKED) s0) /\
     may_sleep s0 i t Lmxtable /\ k_mxtable s0 !! k = Some mx0 /\ m_state mx0 <> LOCKED /\
     (m_state mx <> LOCKED -> e' = e /\ s0 = s)).
Proof.
  induction e as [|f e IH]; intros s mx Hms Hk He;
    rewrite loop_unfold by apply lock_turn_consumes.
  all: destruct (decide (m_state mx = LOCKED)) as [Hl|Hl];
    [|right; eexists _, s, mx; split; [by mstep lock_turn_free by done|done]].
  all: pose proof (may_sleep_upd_mutex s (set_m_state LOCKED) Hms) as Hms';
    set (s1 := upd_mutex k (set_m_state LOCKED) s) in *;
    set (sp := sleep_point t (Cmutex k) Lmxtable s1).
  all: assert (Hw : waits sp /\ held sp Lptable /\ unlocked sp Lmxtable) by
    (destruct (ms_ex _ _ _ _ Hms') as [th Hth]; split;
     [eexists; split; [by apply sleep_point_thread|done]|];
     apply sleep_point_locks; [done|apply Hms'|by apply Hms']).
  all: assert (Hk1 : k_mxtable sp !! k = Some (set_m_state LOCKED mx)) by (by apply mutex_upd_eq).
  - left. exists sp. destruct Hw as (Hw & Hh & Hu). split; [|by eauto 6].
    erewrite bind_off; [done|]. rewrite (lock_turn_busy _ _ mx) by done.
    erewrite bind_off; [done|]. by eapply sleep_off.
  - apply Forall_cons in He as [Hf He]. destruct Hw as (Hw & Hh & Hu).
    destruct (Hf sp Hh Hw) as (Hr & Hum & Hp & Hlen).
    set (s2 := woken t (Cmutex k) Lmxtable f s1).
    assert (Hturn : lock_turn k (f :: e) s = Ok None e s2).
    { rewrite (lock_turn_busy _ _ mx) by done.
      erewrite bind_ok; [done|]. by apply (sleep_woken _ _ _ i). }
    assert (Hms2 : may_sleep s2 i t Lmxtable) by (by apply woken_may_sleep).
    assert (exists mx2, k_mxtable s2 !! k = Some mx2) as [mx2 Hk2].
    { apply lookup_lt_is_Some_2. change (k_mxtable s2) with (k_mxtable (f sp)).
      rewrite Hlen. by eapply lookup_lt_Some. }
    destruct (IH s2 mx2 Hms2 Hk2 He) as [(s' & E & H)|(e' & s0 & mx0 & E & H1 & H2 & H3 & H4)].
    + left. exists s'. split; [by mstep Hturn|done].
    + right. exists e', s0, mx0. split; [by mstep Hturn|]. by split_and!.
Qed.

(** [kthread_mutex_lock] of a live mutex under every schedule: either the
    thread is asleep on a LOCKED mutex with no spin lock but [ptable.lock]
    held, or the call returns 0, and at the moment it took the mutex the
    mutex was not LOCKED; it is LOCKED now, the caller is its owner, and
    nothing else of the table changed at that moment.  A mutex that is not
    LOCKED is taken at once, without giving up the CPU. *)
Theorem mutex_lock_spec id e s mx :
  mx_caller s -> running s i t -> (exists p, k_ptable s !! i = Some p /\ p_state p <> RUNNING) ->
  find_mx id s = Some k -> k_mxtable s !! k = Some mx -> m_state mx <> FREE -> Forall resumes e ->
  (exists s', kthread_mutex_lock id e s = Off s' /\ m_state mx = LOCKED /\
     waits s' /\ held s' Lptable /\ unlocked s' Lmxtable /\
     exists mx', k_mxtable s' !! k = Some mx' /\ m_state mx' = LOCKED) \/
  (exists e' s' s0 mx0, kthread_mutex_lock id e s = Ok 0 e' s' /\
     k_mxtable s0 !! k = Some mx0 /\ m_state mx0 <> LOCKED /\
     k_mxtable s' = <[k := mkMutex LOCKED (m_mxid mx0) (Some t)]> (k_mxtable s0) /\
     unlocked s' Lmxtable /\ unlocked s' Lptable /\ c_ncli (k_cpu s') = 0 /\
     (m_state mx <> LOCKED -> e' = e /\ k_mxtable s0 = k_mxtable s)).
Proof.
  intros [Hc Hu Hp] [Rp Rt Rs Rx Rc Rn] Hst Hf Hk Hfree He. unfold kthread_mutex_lock.
  mstep acquire_free by done. mstep.
  change (find_mx id (acquired Lmxtable s)) with (find_mx id s). rewrite Hf.
  mstep mutex_at_ok by (exact Hk). destruct (mxstate_eqb_spec (m_state mx) FREE); [done|].
  assert (Hms : may_sleep (acquired Lmxtable s) i t Lmxtable).
  { split; [exact Rp|exact Rt|exact Hst|exact Rx|ctl|rewrite ncli_acquired; lia|ctl|intros _; ctl]. }
  destruct (lock_loop e (acquired Lmxtable s) mx Hms Hk He)
    as [(s' & E & H)|(e' & s0 & mx0 & E & H1 & H2 & H3 & H4)].
  - left. exists s'. destruct (decide (m_state mx = LOCKED)) as [Hl|Hl].
    + split; [by erewrite bind_off|done].
    + exfalso. rewrite loop_unfold in E by apply lock_turn_consumes.
      by erewrite bind_ok in E by (by apply (lock_turn_free _ _ mx)).
  - right. destruct H1 as [Sp St Ss Sx Sh Sn Sc Su].
    exists e', (released Lmxtable (upd_mutex k (set_m_owner (Some t)) (upd_mutex k (set_m_state LOCKED) s0))), s0, mx0.
    split_and!; try done.
    + mstep E. mstep. change (c_thread (k_cpu (upd_mutex k (set_m_state LOCKED) s0))) with (c_thread (k_cpu s0)).
      rewrite St. mstep. by mstep release_held by ctl.
    + change (alter (set_m_owner (Some t)) k (alter (set_m_state LOCKED) k (k_mxtable s0)) =
              <[k:=mkMutex LOCKED (m_mxid mx0) (Some t)]> (k_mxtable s0)).
      by rewrite alter_twice, (alter_insert _ _ _ _ H2).
    + apply unlocked_released. by apply Su.
    + cbn. lia.
    + intros Hl. by destruct (H4 Hl) as [-> ->].
Qed.

End Lock.

(** ** Id 0

    An entry that is FREE has id 0, so [find_mx 0] finds one. *)

Lemma find_mx_zero next s :
  mx_wf next (k_mxtable s) -> (exists k mx, k_mxtable s !! k = Some mx /\ m_state mx = FREE) ->
  exists k mx, find_mx 0 s = Some k /\ k_mxtable s !! k = Some mx /\ m_state mx = FREE.
Proof.
  intros Hwf (k & mx & Hk & Hf). destruct (find_mx 0 s) as [j|] eqn:E.
  - destruct (find_mx_Some _ _ _ E) as [a Ha]. exists j, a. split_and!; [done..|].
    apply (mx_free _ _ Hwf j a Ha). by eapply find_mx_lookup.
  - exfalso. apply (proj1 (find_mx_None 0 s) E k mx Hk). by apply (mx_free _ _ Hwf k mx Hk).
Qed.

(** A user program can panic the kernel: [kthread_mutex_lock(0)] finds a FREE
    entry of a well-formed table and panics, as long as the table is not
    full. *)
Theorem mutex_lock_zero_panics next e s :
  mx_caller s -> mx_wf next (k_mxtable s) ->
  (exists k mx, k_mxtable s !! k = Some mx /\ m_state mx = FREE) ->
  exists s', kthread_mutex_lock 0 e s = Panic "kthread_mutex_lock: trying to catch FREE mutex" s'.
Proof.
  intros [Hc Hu Hp] Hwf Hex. destruct (find_mx_zero next s Hwf Hex) as (k & mx & Hf & Hk & Hst).
  eexists. unfold kthread_mutex_lock. mstep acquire_free by done. mstep.
  change (find_mx 0 (acquired Lmxtable s)) with (find_mx 0 s). rewrite Hf.
  mstep mutex_at_ok by (exact Hk). by rewrite Hst.
Qed.

(** [kthread_mutex_unlock(0)] turns a FREE entry into an UNLOCKED one that
    keeps id 0: [kthread_mutex_alloc] cannot hand it out any more. *)
Theorem mutex_unlock_zero_leaks next e s :
  mx_caller s -> mx_wf next (k_mxtable s) ->
  (exists k mx, k_mxtable s !! k = Some mx /\ m_state mx = FREE) ->
  exists s' k, kthread_mutex_unlock 0 e s = Ok 0 e s' /\
    k_mxtable s' !! k = Some (mkMutex UNLOCKED 0 None) /\ (forall next', ~ mx_wf next' (k_mxtable s')).
Proof.
  intros Hc Hwf Hex. destruct (find_mx_zero next s Hwf Hex) as (k & mx & Hf & Hk & Hst).
  rewrite unlock_runs by done. rewrite Hf. cbn. rewrite Hk. cbn. rewrite Hst. cbn.
  eexists _, k. split; [done|].
  assert (E : alter (fun x => mkMutex UNLOCKED (m_mxid x) None) k (k_mxtable s) !! k = Some (mkMutex UNLOCKED 0 None)).
  { rewrite list_lookup_alter_eq, Hk. cbn. by rewrite (find_mx_lookup _ _ _ _ Hf Hk). }
  split; [exact E|]. intros next' [Hf' _ _]. discriminate (proj2 (Hf' k _ E) eq_refl).
Qed.

(** ** Witnesses *)

Lemma boot_mx_wf : mx_wf 1 (k_mxtable boot).
Proof.
  split.
  - intros k mx [-> _]%lookup_replicate. by split.
  - intros k mx [-> _]%lookup_replicate. cbn. lia.
  - intros j k a b [-> _]%lookup_replicate _ _ H. by destruct H.
Qed.

Lemma one_running_caller : mx_caller one_running.
Proof. by split. Qed.

Lemma mutex_alloc_fresh_witness :
  exists s', kthread_mutex_alloc [] one_running = Ok 1 [] s'.
Proof.
  destruct (mutex_alloc_fresh [] one_running) as (r & s' & E & _).
  - exact one_running_caller.
  - exact boot_mx_wf.
  - cbn. lia.
  - exists s'. rewrite E. f_equal.
    assert (H : match kthread_mutex_alloc [] one_running with Ok v _ _ => v | _ => 0 end = 1)
      by (vm_compute; reflexivity).
    rewrite E in H. exact H.
Defined.

Lemma mutex_unlock_wakes_witness :
  exists s', kthread_mutex_unlock 5 [] one_running = Ok (-1) [] s' /\ k_mxtable s' = k_mxtable boot.
Proof.
  destruct (mutex_unlock_wakes 5 [] one_running one_running_caller) as (r & s' & E & _ & H).
  change (find_mx 5 one_running) with (None : option nat) in H.
  destruct H as (-> & H & _). exists s'. split; [exact E|exact H].
Defined.

(** Thread 0 asks for mutex 1, which is LOCKED; while it sleeps the mutex is
    unlocked and the scheduler runs the thread again. *)
Definition locked_one : kstate :=
  set_k_mxtable (<[0%nat := mkMutex LOCKED 1 (Some (1, 0)%nat)]> (k_mxtable boot)) one_running.
Definition unlocked_meanwhile (s : kstate) : kstate :=
  upd_mutex 0 (set_m_state UNLOCKED) (set_k_mxtable (k_mxtable s) (acquired Lptable one_running)).

Lemma unlocked_meanwhile_resumes : resumes 0 (0, 0)%nat 0 unlocked_meanwhile.
Proof.
  intros s _ _. split_and!; [|done|by eexists|apply length_alter].
  split; done.
Qed.

Lemma mutex_lock_spec_witness :
  exists e' s', kthread_mutex_lock 1 [unlocked_meanwhile] locked_one = Ok 0 e' s'.
Proof.
  destruct (mutex_lock_spec 0 (0, 0)%nat 0 1 [unlocked_meanwhile] locked_one
              (mkMutex LOCKED 1 (Some (1, 0)%nat))) as [(s' & E & _)|(e' & s' & _ & _ & E & _)].
  - split; reflexivity || (split; [vm_compute; discriminate|done]).
  - split; try reflexivity; [eexists; reflexivity|split; [vm_compute; discriminate|done]].
  - eexists. split; [reflexivity|discriminate].
  - reflexivity.
  - reflexivity.
  - discriminate.
  - constructor; [exact unlocked_meanwhile_resumes|constructor].
  - exfalso.
    assert (H : match kthread_mutex_lock 1 [unlocked_meanwhile] locked_one with Ok _ _ _ => true | _ => false end = true)
      by (vm_compute; reflexivity).
    rewrite E in H. discriminate H.
  - exists e', s'. exact E.
Defined.

Lemma mutex_lock_zero_panics_witness :
  exists s', kthread_mutex_lock 0 [] one_running =
    Panic "kthread_mutex_lock: trying to catch FREE mutex" s'.
Proof.
  apply (mutex_lock_zero_panics 1 [] one_running one_running_caller boot_mx_wf).
  exists 0%nat, zero_mutex. split; reflexivity.
Defined.

Lemma mutex_unlock_zero_leaks_witness :
  exists s' k, kthread_mutex_unlock 0 [] one_running = Ok 0 [] s' /\
    k_mxtable s' !! k = Some (mkMutex UNLOCKED 0 None).
Proof.
  destruct (mutex_unlock_zero_leaks 1 [] one_running one_running_caller boot_mx_wf) as (s' & k & E & H & _).
  - exists 0%nat, zero_mutex. split; reflexivity.
  - exists s', k. split; [exact E|exact H].
Defined.
