(* ===== verification/MutexProtocol.v ===== *)
(** * A kernel mutex used by many threads

    What [kthread_mutex_lock] and [kthread_mutex_unlock] do on one mutex,
    interleaved in every way.  Each step is what one thread does while it holds
    [mxtable.lock] or, for the marking of a sleeper and for the wakeup that
    follows an unlock, [ptable.lock]; the steps are built from the definitions of
    Mutex.v and Sched.v.  The code does not check the owner (the test is
    commented out), so any thread may unlock at any time.  Shown: between two
    successful locks there is always an unlock, no wakeup is lost, and where
    threads unlock only what they have locked, at most one of them has the
    mutex.  The mutex is not deallocated meanwhile. *)

From S2P Require Import Prelude Memory Kernel KMonad Boot Spinlock Sched Mutex.

(** ** Definitions *)

(** Where a thread is with respect to the mutex. *)
Inductive mxpc : Type :=
| MxOut    (* in neither function *)
| MxDoze   (* in sleep: holds ptable.lock, has given up mxtable.lock *)
| MxWait   (* in sleep: has called swtch *)
| MxWake.  (* in kthread_mutex_unlock, wakeup still to be called *)

#[global] Instance mxpc_eq_dec : EqDecision mxpc.
Proof. solve_decision. Defined.

(** What has happened to the mutex: [t] has locked or has unlocked it. *)
Inductive mxev : Type := MxLocked (t : tptr) | MxUnlocked (t : tptr).

(** The events are in a list with the latest one first. *)
Record mxsys : Type := mkMxsys { mx_k : kstate; mx_pc : tptr -> mxpc; mx_evs : list mxev }.

Definition set_pc (t : tptr) (p : mxpc) (f : tptr -> mxpc) : tptr -> mxpc :=
  fun t' => if decide (t' = t) then p else f t'.

(** One turn of [while(xchg(&mx->state, LOCKED) == LOCKED) sleep(mx, ..)], up to
    the mark as SLEEPING, and what follows the loop. *)
Definition lock_attempt (k : nat) (t : tptr) (s : kstate) : kstate * mxpc * list mxev :=
  match xchg_mxstate k LOCKED [] s with
  | Ok old _ s' =>
    if mxstate_eqb old LOCKED then (s', MxDoze, [])
    else (upd_mutex k (set_m_owner (Some t)) s', MxOut, [MxLocked t])
  | _ => (s, MxOut, [])
  end.
(** [if(mx->state == UNLOCKED) return -1; mx->state = UNLOCKED; mx->owner = 0;]:
    by any thread. *)
Definition unlock_attempt (k : nat) (t : tptr) (s : kstate) : kstate * mxpc * list mxev :=
  match mutex_at k [] s with
  | Ok mx _ _ =>
    if mxstate_eqb (m_state mx) UNLOCKED then (s, MxOut, [])
    else (upd_mutex k (set_m_owner None) (upd_mutex k (set_m_state UNLOCKED) s), MxWake, [MxUnlocked t])
  | _ => (s, MxOut, [])
  end.

(** The thread is asleep on mutex [k]. *)
Definition asleep (k : nat) (s : kstate) (t : tptr) : Prop :=
  exists th, thread_of s t = Some th /\ t_state th = SLEEPING /\ t_chan th = Cmutex k.

(** [ptable.lock] is free, as far as the users of the mutex are concerned. *)
Definition no_dozer (x : mxsys) : Prop := forall t, mx_pc x t <> MxDoze.

Definition after_attempt (x : mxsys) (t : tptr) (r : kstate * mxpc * list mxev) : mxsys :=
  let '(s, p, evs) := r in mkMxsys s (set_pc t p (mx_pc x)) (evs ++ mx_evs x).

Inductive mx_step (k : nat) (x : mxsys) : mxsys -> Prop :=
| mxs_lock t : mx_pc x t = MxOut \/ (mx_pc x t = MxWait /\ ~ asleep k (mx_k x) t) ->
    ((lock_attempt k t (mx_k x)).1.2 = MxDoze -> no_dozer x) ->
    mx_step k x (after_attempt x t (lock_attempt k t (mx_k x)))
| mxs_doze t : mx_pc x t = MxDoze ->
    mx_step k x (mkMxsys (dozed t (Cmutex k) (mx_k x)) (set_pc t MxWait (mx_pc x)) (mx_evs x))
| mxs_unlock t : mx_pc x t = MxOut ->
    mx_step k x (after_attempt x t (unlock_attempt k t (mx_k x)))
| mxs_wakeup t : mx_pc x t = MxWake -> no_dozer x ->
    mx_step k x (mkMxsys (wakeup1 (Cmutex k) (mx_k x)) (set_pc t MxOut (mx_pc x)) (mx_evs x))
(** The rest of the kernel: it leaves the mutex alone and puts no thread to
    sleep on it.  Spurious wakeups are allowed. *)
| mxs_other s :
    k_mxtable s !! k = k_mxtable (mx_k x) !! k ->
    (forall t, asleep k s t -> asleep k (mx_k x) t) ->
    mx_step k x (mkMxsys s (mx_pc x) (mx_evs x)).

Inductive mx_reach (k : nat) : mxsys -> Prop :=
| mxr_init x :
    (exists id, k_mxtable (mx_k x) !! k = Some (mkMutex UNLOCKED id None)) ->
    (forall t, mx_pc x t = MxOut) -> (forall t, ~ asleep k (mx_k x) t) -> mx_evs x = [] -> mx_reach k x
| mxr_step x y : mx_reach k x -> mx_step k x y -> mx_reach k y.

(** ** Histories *)

(** The thread whose lock is the latest event. *)
Definition locker (evs : list mxev) : option tptr :=
  match evs with
  | MxLocked t :: _ => Some t
  | _ => None
  end.
(** Locks and unlocks take turns, beginning with a lock. *)
Fixpoint alternates (evs : list mxev) : Prop :=
  match evs with
  | [] => True
  | MxLocked _ :: evs' => locker evs' = None /\ alternates evs'
  | MxUnlocked _ :: evs' => is_Some (locker evs') /\ alternates evs'
  end.
(** The latest event of [t] is a lock: for [t], it has the mutex. *)
Fixpoint has_mutex (t : tptr) (evs : list mxev) : Prop :=
  match evs with
  | [] => False
  | MxLocked u :: evs' => u = t \/ has_mutex t evs'
  | MxUnlocked u :: evs' => u <> t /\ has_mutex t evs'
  end.
(** Every unlock was by a thread that had the mutex. *)
Fixpoint owners_unlock (evs : list mxev) : Prop :=
  match evs with
  | [] => True
  | MxLocked _ :: evs' => owners_unlock evs'
  | MxUnlocked t :: evs' => has_mutex t evs' /\ owners_unlock evs'
  end.

Lemma has_mutex_locker evs : alternates evs -> owners_unlock evs -> forall t, has_mutex t evs <-> locker evs = Some t.
Proof.
  induction evs as [|[u|u] evs IH]; cbn [alternates owners_unlock has_mutex locker].
  - done.
  - intros [Hn Ha] Ho t. rewrite (IH Ha Ho t), Hn. naive_solver.
  - intros [_ Ha] [Hu Ho] t. apply (IH Ha Ho u) in Hu. rewrite (IH Ha Ho t), Hu. naive_solver.
Qed.

(** ** Invariant *)

Record mx_inv (k : nat) (x : mxsys) : Prop := {
  mi_entry : exists id, k_mxtable (mx_k x) !! k =
    Some (mkMutex (if locker (mx_evs x) then LOCKED else UNLOCKED) id (locker (mx_evs x)));
  mi_turns : alternates (mx_evs x);
  mi_sleep : forall t, asleep k (mx_k x) t -> mx_pc x t = MxWait;
  mi_wake : locker (mx_evs x) = None -> forall t, asleep k (mx_k x) t \/ mx_pc x t = MxDoze -> exists w, mx_pc x w = MxWake
}.

(** ** Lemmas *)

Section Protocol.
Context (k : nat).

Lemma asleep_ptable s s' t : k_ptable s' = k_ptable s -> asleep k s' t <-> asleep k s t.
Proof. intros E. unfold asleep. by rewrite (thread_of_ptable s s' t E). Qed.

Lemma asleep_dozed s t t' :
  asleep k (dozed t (Cmutex k) s) t' -> t' = t \/ asleep k s t'.
Proof.
  destruct (decide (t' = t)) as [|Hne]; [auto|right]. unfold asleep, dozed in *.
  by rewrite !thread_upd_ne in H by done.
Qed.

Lemma not_asleep_wakeup1 s t : ~ asleep k (wakeup1 (Cmutex k) s) t.
Proof.
  intros (th & Hth & Hs & Hc). rewrite wakeup1_thread in Hth.
  destruct (thread_of s t) as [a|]; simplify_eq/=. rewrite wake_state in Hs.
  assert (t_chan (wake (Cmutex k) a) = t_chan a) as E by (unfold wake; by destruct (_ && _)%bool).
  case_decide as Hd; [done|]. apply Hd. split; [done|]. congruence.
Qed.

Lemma set_pc_eq t p f : set_pc t p f t = p.
Proof. unfold set_pc. by rewrite decide_True. Qed.

Lemma set_pc_ne t t' p f : t' <> t -> set_pc t p f t' = f t'.
Proof. intros. unfold set_pc. by rewrite decide_False. Qed.

(** A step of a thread that is not in [kthread_mutex_unlock] keeps those that are. *)
Lemma wake_kept t p f : f t <> MxWake -> (exists w, f w = MxWake) -> exists w, set_pc t p f w = MxWake.
Proof. intros Ht [w Hw]. exists w. rewrite set_pc_ne; congruence. Qed.

Lemma lock_attempt_busy t s id o :
  k_mxtable s !! k = Some (mkMutex LOCKED id o) -> lock_attempt k t s = (upd_mutex k (set_m_state LOCKED) s, MxDoze, []).
Proof. intros Hk. unfold lock_attempt, xchg_mxstate. erewrite bind_ok by (by apply mutex_at_ok). done. Qed.

Lemma lock_attempt_free t s id o :
  k_mxtable s !! k = Some (mkMutex UNLOCKED id o) ->
  lock_attempt k t s = (upd_mutex k (set_m_owner (Some t)) (upd_mutex k (set_m_state LOCKED) s), MxOut, [MxLocked t]).
Proof. intros Hk. unfold lock_attempt, xchg_mxstate. erewrite bind_ok by (by apply mutex_at_ok). done. Qed.

Lemma inv_lock x t :
  mx_inv k x -> mx_pc x t <> MxWake -> ~ asleep k (mx_k x) t -> mx_inv k (after_attempt x t (lock_attempt k t (mx_k x))).
Proof.
  intros [(id & E) Ha Hs Hw] Ht Hna. destruct (locker (mx_evs x)) as [o|] eqn:El.
  - rewrite (lock_attempt_busy _ _ _ _ E). cbn.
    assert (Has : forall t', asleep k (upd_mutex k (set_m_state LOCKED) (mx_k x)) t' <-> asleep k (mx_k x) t') by (intros; by apply asleep_ptable).
    split; cbn [mx_k mx_pc mx_evs].
    + rewrite El. exists id. exact (mutex_upd_eq k (set_m_state LOCKED) _ _ E).
    + done.
    + intros t' H%Has. unfold set_pc. case_decide; [by subst|by apply Hs].
    + intros F. congruence.
  - rewrite (lock_attempt_free _ _ _ _ E). cbn. set (s' := upd_mutex _ _ _).
    assert (Has : forall t', asleep k s' t' <-> asleep k (mx_k x) t') by (intros; by apply asleep_ptable).
    split; cbn [mx_k mx_pc mx_evs locker].
    + exists id. exact (mutex_upd_eq k (set_m_owner (Some t)) _ _ (mutex_upd_eq k (set_m_state LOCKED) _ _ E)).
    + done.
    + intros t' H%Has. unfold set_pc. case_decide; [by subst|by apply Hs].
    + done.
Qed.

Lemma inv_doze x t :
  mx_inv k x -> mx_pc x t = MxDoze ->
  mx_inv k (mkMxsys (dozed t (Cmutex k) (mx_k x)) (set_pc t MxWait (mx_pc x)) (mx_evs x)).
Proof.
  intros [(id & E) Ha Hs Hw] Ht. split; cbn [mx_k mx_pc mx_evs]; [by exists id|done| |].
  - intros t' [->|H]%asleep_dozed; [apply set_pc_eq|]. unfold set_pc. case_decide; [done|]. by apply Hs.
  - intros El t' H. apply wake_kept; [by rewrite Ht|]. destruct (decide (t' = t)) as [->|Hne]; [apply (Hw El t); by right|].
    apply (Hw El t'). rewrite set_pc_ne in H by done. destruct H as [[?|H]%asleep_dozed|H]; [done|by left|by right].
Qed.

Lemma inv_unlock x t :
  mx_inv k x -> mx_pc x t = MxOut -> mx_inv k (after_attempt x t (unlock_attempt k t (mx_k x))).
Proof.
  intros [(id & E) Ha Hs Hw] Ht. unfold unlock_attempt. rewrite (mutex_at_ok _ _ _ _ E). destruct (locker (mx_evs x)) as [o|] eqn:El; cbn [m_state].
  - change (mxstate_eqb LOCKED UNLOCKED) with false. cbn [after_attempt app]. set (s' := upd_mutex _ _ _). assert (Has : forall t', asleep k s' t' <-> asleep k (mx_k x) t') by (intros; by apply asleep_ptable).
    split; cbn [mx_k mx_pc mx_evs locker alternates].
    + exists id. exact (mutex_upd_eq k (set_m_owner None) _ _ (mutex_upd_eq k (set_m_state UNLOCKED) _ _ E)).
    + split; [change (is_Some (locker (mx_evs x))); rewrite El; by eexists|done].
    + intros t' H%Has%Hs. unfold set_pc. case_decide; congruence.
    + intros _ _ _. exists t. apply set_pc_eq.
  - change (mxstate_eqb UNLOCKED UNLOCKED) with true. split; cbn [after_attempt app mx_k mx_pc mx_evs].
    + rewrite El. by exists id.
    + done.
    + intros t' H%Hs. unfold set_pc. case_decide; congruence.
    + intros _ t' H. apply (wake_kept t MxOut); [by rewrite Ht|]. apply (Hw eq_refl t').
      unfold set_pc in H. case_decide; [|done]. by destruct H as [H|H]; [left|].
Qed.

Lemma inv_wakeup x t :
  mx_inv k x -> mx_pc x t = MxWake -> no_dozer x ->
  mx_inv k (mkMxsys (wakeup1 (Cmutex k) (mx_k x)) (set_pc t MxOut (mx_pc x)) (mx_evs x)).
Proof.
  intros [(id & E) Ha Hs Hw] Ht Hn. split; cbn [mx_k mx_pc mx_evs]; [by exists id|done| |].
  - intros t' H. by apply not_asleep_wakeup1 in H.
  - intros _ t' [H|H]; [by apply not_asleep_wakeup1 in H|]. unfold set_pc in H. case_decide; [done|]. by apply Hn in H.
Qed.

Lemma mx_inv_step x y : mx_inv k x -> mx_step k x y -> mx_inv k y.
Proof.
  intros Hx Hs. destruct Hs as [t Ht _|t Ht|t Ht|t Ht Hn|s Hk Ha].
  - apply inv_lock; [done|destruct Ht as [->|[-> _]]; done|]. destruct Ht as [Ht|[_ Ht]]; [|done].
    intros F%(mi_sleep _ _ Hx). congruence.
  - by apply inv_doze.
  - by apply inv_unlock.
  - by apply inv_wakeup.
  - destruct Hx as [[id E] Hal Hsl Hw]. split; cbn [mx_k mx_pc mx_evs]; [exists id; by rewrite Hk|done|auto|].
    intros El t [H|H]; [apply (Hw El t); left; auto|apply (Hw El t); by right].
Qed.

Lemma mx_inv_reach x : mx_reach k x -> mx_inv k x.
Proof.
  induction 1 as [x [id Hk] Hpc Hna Hev|x y _ IH Hs]; [|by eapply mx_inv_step].
  split; rewrite ?Hev; cbn.
  - by exists id.
  - done.
  - intros t H. by apply Hna in H.
  - intros _ t [H|H]; [by apply Hna in H|]. by rewrite Hpc in H.
Qed.

(** ** The steps are those of the system calls *)

(** One turn of the loop of [kthread_mutex_lock]. *)
Lemma lock_attempt_code t e s mx :
  k_mxtable s !! k = Some mx ->
  lock_turn k e s = match lock_attempt k t s with
    | (s', MxDoze, _) => (sleep (Cmutex k) (Some Lmxtable);; mret None) e s'
    | _ => Ok (Some tt) e (upd_mutex k (set_m_state LOCKED) s)
    end.
Proof.
  intros Hk. destruct (decide (m_state mx = LOCKED)) as [Hl|Hl].
  - rewrite (lock_turn_busy _ _ _ _ Hk Hl). destruct mx as [st id o]. cbn in Hl. subst. by rewrite (lock_attempt_busy _ _ _ _ Hk).
  - rewrite (lock_turn_free _ _ _ _ Hk Hl). unfold lock_attempt, xchg_mxstate. erewrite bind_ok by (by apply mutex_at_ok).
    mstep. unfold mret, M_ret. by destruct (mxstate_eqb_spec (m_state mx) LOCKED).
Qed.

(** [kthread_mutex_unlock]: the stores under [mxtable.lock], then the wakeup. *)
Lemma unlock_attempt_code t id e s :
  mx_caller s -> find_mx id s = Some k ->
  kthread_mutex_unlock id e s = match unlock_attempt k t (crit Lmxtable s) with
    | (s', MxWake, _) => Ok 0 e (wakeup1 (Cmutex k) (crit Lptable s'))
    | _ => Ok (-1) e (crit Lmxtable s)
    end.
Proof.
  intros Hc Hf. rewrite unlock_runs by done. destruct (find_mx_Some _ _ _ Hf) as [mx Hmx]. rewrite Hf. cbn. rewrite Hmx. cbn.
  unfold unlock_attempt. rewrite (mutex_at_ok k [] (crit Lmxtable s) mx) by exact Hmx.
  destruct (mxstate_eqb (m_state mx) UNLOCKED); [done|]. by rewrite mutex_upd_compose.
Qed.

End Protocol.

(** ** The protocol is safe *)

(** C5: A kernel mutex used by any number of threads in any interleaving, where
    any thread may unlock it, as the code allows.  Successful locks and unlocks
    take turns: between two locks there is an unlock.  The mutex is LOCKED, with
    the locker as its owner, exactly when the latest of them is a lock.  If every
    unlock so far was by a thread that had the mutex, at most one thread has it.
    No wakeup is lost: when a thread sleeps on the mutex, or is about to, and the
    mutex is not locked, the wakeup of an unlocking thread is still to come. *)
Theorem mutex_mutual_exclusion k x :
  mx_reach k x ->
  alternates (mx_evs x) /\
  (exists id, k_mxtable (mx_k x) !! k =
     Some (mkMutex (if locker (mx_evs x) then LOCKED else UNLOCKED) id (locker (mx_evs x)))) /\
  (owners_unlock (mx_evs x) -> forall t t', has_mutex t (mx_evs x) -> has_mutex t' (mx_evs x) -> t = t') /\
  (locker (mx_evs x) = None -> forall t, asleep k (mx_k x) t \/ mx_pc x t = MxDoze -> exists w, mx_pc x w = MxWake).
Proof.
  intros [Hid Ha Hs Hw]%mx_inv_reach. split_and!; [done|done| |done].
  intros Ho t t'. rewrite !(has_mutex_locker _ Ha Ho). congruence.
Qed.

(** ** Witnesses *)

(** Thread 0 of process 0 has locked mutex 0 and thread 1 sleeps on it. *)
Definition mx_start : mxsys :=
  mkMxsys (upd_mutex 0 (fun _ => mkMutex UNLOCKED 1 None) boot) (fun _ => MxOut) [].
Definition mx_lock (t : tptr) (x : mxsys) : mxsys := after_attempt x t (lock_attempt 0 t (mx_k x)).
Definition mx_unlock (t : tptr) (x : mxsys) : mxsys := after_attempt x t (unlock_attempt 0 t (mx_k x)).
Definition mx_sleep (t : tptr) (x : mxsys) : mxsys :=
  mkMxsys (dozed t (Cmutex 0) (mx_k x)) (set_pc t MxWait (mx_pc x)) (mx_evs x).
Definition mx_contended : mxsys := mx_sleep (0, 1)%nat (mx_lock (0, 1)%nat (mx_lock (0, 0)%nat mx_start)).

Lemma boot_threads t th : thread_of boot t = Some th -> th = zero_thread.
Proof.
  unfold thread_of. cbn -[replicate]. destruct (replicate NPROC zero_proc !! t.1) as [p|] eqn:E; [|done].
  apply lookup_replicate in E as [-> _]. cbn -[replicate].
  intros [-> _]%lookup_replicate. done.
Qed.

Lemma mx_start_reach : mx_reach 0 mx_start.
Proof.
  apply mxr_init; [by exists 1|done| |done]. intros t (th & Hth & Hst & _). apply boot_threads in Hth. by subst.
Qed.

Lemma mx_contended_reach : mx_reach 0 mx_contended.
Proof.
  apply (mxr_step 0 (mx_lock (0, 1)%nat (mx_lock (0, 0)%nat mx_start))); [|by apply (mxs_doze 0 _ (0, 1)%nat)].
  apply (mxr_step 0 (mx_lock (0, 0)%nat mx_start)); [apply (mxr_step 0 mx_start); [exact mx_start_reach|]|].
  - apply (mxs_lock 0 mx_start (0, 0)%nat); [by left|done].
  - apply (mxs_lock 0 _ (0, 1)%nat); [by left|]. intros _ t. change (set_pc (0, 0)%nat MxOut (fun _ => MxOut) t <> MxDoze). unfold set_pc. by case_decide.
Qed.

Lemma mutex_mutual_exclusion_witness :
  mx_evs mx_contended = [MxLocked (0, 0)%nat] /\ asleep 0 (mx_k mx_contended) (0, 1)%nat /\
  (exists id, k_mxtable (mx_k mx_contended) !! 0%nat = Some (mkMutex LOCKED id (Some (0, 0)%nat))) /\
  forall t t', has_mutex t (mx_evs mx_contended) -> has_mutex t' (mx_evs mx_contended) -> t = t'.
Proof.
  destruct (mutex_mutual_exclusion 0 mx_contended mx_contended_reach) as (_ & E & H & _).
  split; [reflexivity|]. split; [by eexists|]. split; [exact E|]. apply H. exact I.
Defined.

(** What happens when a thread unlocks a mutex it has not locked: two threads
    have it. *)
Definition mx_stolen : mxsys := mx_lock (0, 2)%nat (mx_unlock (0, 1)%nat (mx_lock (0, 0)%nat mx_start)).

Lemma mutex_stolen : mx_reach 0 mx_stolen /\ has_mutex (0, 0)%nat (mx_evs mx_stolen) /\ has_mutex (0, 2)%nat (mx_evs mx_stolen).
Proof.
  split; [|change (mx_evs mx_stolen) with [MxLocked (0, 2)%nat; MxUnlocked (0, 1)%nat; MxLocked (0, 0)%nat]; cbn; auto 6].
  apply (mxr_step 0 (mx_unlock (0, 1)%nat (mx_lock (0, 0)%nat mx_start))); [|by apply (mxs_lock 0 _ (0, 2)%nat); [left|]].
  apply (mxr_step 0 (mx_lock (0, 0)%nat mx_start)); [|by apply (mxs_unlock 0 _ (0, 1)%nat)].
  apply (mxr_step 0 mx_start); [exact mx_start_reach|]. by apply (mxs_lock 0 mx_start (0, 0)%nat); [left|].
Qed.
