(* ===== verification/Syscall.v ===== *)
(** * System calls: arguments and user memory (syscall.c)

    The kernel reads and writes the memory of the current process through the
    page table in %cr3.  A kernel access to a page that is not present, or a
    write to a page that is not writable (CR0.WP is set), is a page fault in
    kernel mode, which [trap] answers with a panic. *)

From stdpp Require Import base list gmap strings.
From S2P Require Import Prelude Memory Bytes Str Kernel KMonad Boot Mmu Spinlock Kalloc Sched Vm.
From S2P Require Import Ide Bio Log Fs Pipe File Kbd Console Proc.

(** ** Kernel accesses to user memory *)

Definition kernel_pa (m : mem) (pgdir va : Z) (write : bool) : option Z :=
  let v := pte_of m pgdir va in
  if has v PTE_P && (negb write || has v PTE_W) then Some (PTE_ADDR v + va mod PGSIZE) else None.

Definition cur_pgdir (s : kstate) : Z := p2v (c_cr3 (k_cpu s)).
Definition uload8 (va : Z) : M Z :=
  pa ← gets (fun s => kernel_pa (k_mem s) (cur_pgdir s) va false);
  match pa with
  | Some pa => gets (fun s => ld8 (k_mem s) pa)
  | None => panic "trap"
  end.
Definition ustore8 (va v : Z) : M unit :=
  pa ← gets (fun s => kernel_pa (k_mem s) (cur_pgdir s) va true);
  match pa with
  | Some pa => modify (upd_mem (fun m => st8 m pa v))
  | None => panic "trap"
  end.

Fixpoint uload (va : Z) (n : nat) : M (list Z) :=
  match n with
  | O => mret []
  | S n' => c ← uload8 va; rest ← uload (u32 (va + 1)) n'; mret (c :: rest)
  end.
Fixpoint ustore (va : Z) (bs : list Z) : M unit :=
  match bs with
  | [] => mret tt
  | b :: bs' => ustore8 va b;; ustore (u32 (va + 1)) bs'
  end.

(** ** Definitions *)

(** [None] is the result -1. *)
Definition fetchint (addr : Z) : M (option Z) :=
  i ← curproc;
  p ← proc_at i;
  if (p_sz p <=? addr) || (p_sz p <? u32 (addr + 4)) then mret None else
  bs ← uload addr 4;
  mret (Some (s32 (get32 bs 0))).

(** The string at [s], looked for below [ep]. *)
Fixpoint fetchstr_loop (n : nat) (s ep : Z) : M (option (list Z)) :=
  match n with
  | O => mret None
  | S n' =>
    if s <? ep then
      c ← uload8 s;
      if c =? 0 then mret (Some []) else
      rest ← fetchstr_loop n' (s + 1) ep;
      mret ((fun bs => c :: bs) <$> rest)
    else mret None
  end.
Definition fetchstr (addr : Z) : M (option (list Z)) :=
  i ← curproc;
  p ← proc_at i;
  if p_sz p <=? addr then mret None else
  fetchstr_loop (Z.to_nat (p_sz p - addr)) addr (p_sz p).

Definition argint (n : Z) : M (option Z) :=
  t ← curthread;
  th ← thread_at t;
  esp ← ldk (u32 (t_tf th + TF_ESP));
  fetchint (u32 (esp + 4 + 4 * n)).

(** The checks of argptr on pointer [i] and size [size]. *)
Definition argptr_ok (i size sz : Z) : bool :=
  negb ((sz <=? u32 i) || (sz <? u32 (u32 i + size))).
Definition argptr (n size : Z) : M (option Z) :=
  a ← argint n;
  match a with
  | None => mret None
  | Some i =>
    c ← curproc;
    p ← proc_at c;
    mret (if argptr_ok i size (p_sz p) then Some (u32 i) else None)
  end.

Definition argstr (n : Z) : M (option (list Z)) :=
  a ← argint n;
  match a with
  | None => mret None
  | Some addr => fetchstr (u32 addr)
  end.

(** [if(argint(..) < 0) return -1;] and the like *)
Definition orfail {A} (m : M (option A)) (k : A -> M Z) : M Z :=
  r ← m;
  match r with
  | None => mret (-1)
  | Some a => k a
  end.
