(* ===== verification/SyscallSpec.v ===== *)
(** * System call arguments stay inside the process (syscall.c)

    What [fetchint], [fetchstr], [argint], [argptr] and [argstr] return, as
    functions of the memory that the current process sees, when all its pages
    below its size are present. *)

From stdpp Require Import base list gmap strings.
From S2P Require Import Prelude Memory Bytes Str Kernel KMonad Boot Mmu Spinlock Kalloc Sched Vm.
From S2P Require Import Ide Bio Log Fs Pipe File Kbd Console Proc Syscall VmWalk VmSpace Cow VmSamples.

(** ** What the process sees *)

Definition ubyte (s : kstate) (va : Z) : Z :=
  ld8 (k_mem s) (PTE_ADDR (pte_of (k_mem s) (cur_pgdir s) va) + va mod PGSIZE).
Definition uword (s : kstate) (va : Z) : Z :=
  get32 [ubyte s va; ubyte s (va + 1); ubyte s (va + 2); ubyte s (va + 3)] 0.
(** The bytes [va..ep). *)
Fixpoint ubytes (s : kstate) (va : Z) (n : nat) : list Z :=
  match n with
  | O => []
  | S n' => ubyte s va :: ubytes s (va + 1) n'
  end.

(** The string that starts the list: the bytes before its first NUL. *)
Fixpoint cstring (l : list Z) : option (list Z) :=
  match l with
  | [] => None
  | c :: l' => if c =? 0 then Some [] else cons c <$> cstring l'
  end.

Lemma cstring_Some l bs : cstring l = Some bs <-> exists l', l = bs ++ 0 :: l' /\ Forall (fun c => c <> 0) bs.
Proof.
  revert bs. induction l as [|c l IH]; intros bs; simpl.
  - split; [done|]. intros (l' & E & _). by destruct bs.
  - destruct (Z.eqb_spec c 0) as [->|Hc].
    + split; [intros [= <-]; by exists l|]. intros (l' & E & Hall). destruct bs as [|b bs]; [done|].
      injection E as <- ->. by apply Forall_cons in Hall as [? _].
    + split.
      * intros (bs' & E & ->)%fmap_Some. apply IH in E as (l' & -> & Hall). exists l'. split; [done|]. by constructor.
      * intros (l' & E & Hall). destruct bs as [|b bs]; [by injection E as ->|]. injection E as <- ->.
        apply Forall_cons in Hall as [_ Hall]. by rewrite (proj2 (IH bs)) by eauto.
Qed.

Lemma cstring_None l : cstring l = None <-> 0 ∉ l.
Proof.
  induction l as [|c l IH]; simpl; [split; [intros _; apply not_elem_of_nil|done]|].
  rewrite not_elem_of_cons. destruct (Z.eqb_spec c 0) as [->|Hc]; [split; [done|by intros [? _]]|].
  rewrite fmap_None, IH. split; [|by intros [_ ?]]. intros H. by split; [apply not_eq_sym|].
Qed.

Section Args.
Context (s : kstate) (i : nat) (t : tptr) (p : proc) (th : thread).
Hypothesis Hproc : c_proc (k_cpu s) = Some i.
Hypothesis Hentry : k_ptable s !! i = Some p.
Hypothesis Hthread : c_thread (k_cpu s) = Some t.
Hypothesis Hth : thread_of s t = Some th.
Hypothesis Hsz : 0 <= p_sz p < KERNBASE.
(** The pages below the size of the process are present. *)
Hypothesis Hpages : forall va, 0 <= va < p_sz p -> has (pte_of (k_mem s) (cur_pgdir s) va) PTE_P = true.

Lemma uload8_ok va e : 0 <= va < p_sz p -> uload8 va e s = Ok (ubyte s va) e s.
Proof. intros Hva. unfold uload8. mstep. unfold kernel_pa. by rewrite Hpages by done. Qed.

Lemma fetchint_ok addr e :
  word addr -> fetchint addr e s = Ok (if addr + 4 <=? p_sz p then Some (s32 (uword s addr)) else None) e s.
Proof.
  intros Hw. unfold fetchint. mstep curproc_ok by done. mstep proc_at_ok by done. unfold word, KERNBASE in *.
  destruct (Z.leb_spec (p_sz p) addr); cbn [orb]; [by rewrite (proj2 (Z.leb_gt _ _)) by lia|].
  rewrite (u32_small (addr + 4)) by lia. zcase; [by rewrite (proj2 (Z.leb_gt _ _)) by lia|].
  rewrite (proj2 (Z.leb_le _ _)) by lia.
  cbn [uload]. rewrite !(u32_small (addr + 1)), !(u32_small (addr + 1 + 1)), !(u32_small (addr + 1 + 1 + 1)) by lia.
  unfold uword. replace (addr + 2) with (addr + 1 + 1) by lia. replace (addr + 3) with (addr + 1 + 1 + 1) by lia.
  do 4 (rewrite ?bind_assoc; mstep uload8_ok by lia; rewrite ?bind_assoc). by repeat mstep.
Qed.

Lemma fetchstr_loop_ok n : forall a e,
  0 <= a -> a + Z.of_nat n = p_sz p -> fetchstr_loop n a (p_sz p) e s = Ok (cstring (ubytes s a n)) e s.
Proof.
  induction n as [|n IH]; intros a e Ha Hn; cbn [fetchstr_loop ubytes cstring]; [done|].
  rewrite (proj2 (Z.ltb_lt a (p_sz p))) by lia. mstep uload8_ok by lia.
  destruct (ubyte s a =? 0); [done|]. mstep IH by lia. done.
Qed.

(** The address of argument [n], and the argument. *)
Definition arg_addr (n : Z) : Z := u32 (ld32 (k_mem s) (v2p (u32 (t_tf th + TF_ESP))) + 4 + 4 * n).
Definition arg (n : Z) : option Z :=
  if arg_addr n + 4 <=? p_sz p then Some (s32 (uword s (arg_addr n))) else None.

Lemma argint_ok n e : argint n e s = Ok (arg n) e s.
Proof.
  unfold argint. mstep curthread_ok by done. mstep thread_at_ok by done. unfold ldk. mstep.
  apply fetchint_ok, u32_range.
Qed.

(** C39: [argptr] of argument [n] and [size] fails if the argument is not
    below the size of the process.  Otherwise it returns the pointer [a]
    exactly if, for a [size] that is not negative, the block
    [a..a + size) lies in the memory of the process; but for a negative [size]
    it returns [a] whenever [a] is below the size of the process and
    [a + size] does not wrap around. *)
Theorem argptr_bounds n size e :
  -2147483648 <= size < 2147483648 ->
  exists r, argptr n size e s = Ok r e s /\
    forall a, r = Some a <-> exists v, arg n = Some v /\ a = u32 v /\ a < p_sz p /\
      (if 0 <=? size then a + size <= p_sz p else 0 <= a + size).
Proof.
  intros Hsize. unfold argptr. mstep argint_ok. destruct (arg n) as [v|] eqn:Ev.
  2: { exists None. split; [done|]. intros a. split; [done|]. by intros (v & ? & _). }
  mstep curproc_ok by done. mstep proc_at_ok by done. eexists. split; [done|]. intros a.
  pose proof (u32_range v) as Hv. unfold argptr_ok, KERNBASE in *.
  transitivity (a = u32 v /\ u32 v < p_sz p /\ u32 (u32 v + size) <= p_sz p).
  - destruct (Z.leb_spec (p_sz p) (u32 v)), (Z.ltb_spec (p_sz p) (u32 (u32 v + size))); simpl; naive_solver lia.
  - split.
    + intros (-> & Hlt & Hle). exists v. split_and!; [done..|]. generalize dependent (u32 v). intros b Hb Hlt Hle.
      unfold u32 in Hle. zcase; Z.div_mod_to_equations; lia.
    + intros (v' & [= <-] & -> & Hlt & Hle). split_and!; [done..|]. generalize dependent (u32 v). intros b Hb Hlt Hle.
      unfold u32. revert Hle. zcase; Z.div_mod_to_equations; lia.
Qed.

(** [argstr] of argument [n] returns the bytes up to the first NUL at the
    address in the argument, all of them in the memory of the process; it
    fails exactly if the argument is not in the memory of the process, points
    outside it, or there is no NUL between there and its end.  It reads no
    byte outside that memory and changes nothing. *)
Theorem argstr_in_bounds n e :
  exists r, argstr n e s = Ok r e s /\
    match r with
    | Some bs => exists v rest, arg n = Some v /\ u32 v < p_sz p /\
        ubytes s (u32 v) (Z.to_nat (p_sz p - u32 v)) = bs ++ 0 :: rest /\ Forall (fun c => c <> 0) bs
    | None => forall v, arg n = Some v -> u32 v < p_sz p ->
        0 ∉ ubytes s (u32 v) (Z.to_nat (p_sz p - u32 v))
    end.
Proof.
  unfold argstr. mstep argint_ok. destruct (arg n) as [v|] eqn:Ev; [|by exists None].
  unfold fetchstr. mstep curproc_ok by done. mstep proc_at_ok by done. pose proof (u32_range v).
  destruct (Z.leb_spec (p_sz p) (u32 v)) as [Hle|Hlt].
  { exists None. split; [done|]. intros v' [= <-]. lia. }
  rewrite fetchstr_loop_ok by lia. eexists. split; [done|].
  destruct (cstring _) as [bs|] eqn:Ec.
  - apply cstring_Some in Ec as (rest & E & Hall). exists v, rest. by split_and!.
  - apply cstring_None in Ec. by intros v' [= <-] _.
Qed.

End Args.

(** ** Witnesses *)

(** The process of the sample address space in a system call. *)
Definition call_state : kstate := upd_cpu (set_c_cr3 (v2p (pg 0))) own_state.

Lemma call_cpu s c : k_cpu (upd_cpu (set_c_cr3 c) s) = set_c_cr3 c (k_cpu s).
Proof. reflexivity. Qed.
Lemma call_ptable s c : k_ptable (upd_cpu (set_c_cr3 c) s) = k_ptable s.
Proof. reflexivity. Qed.

Lemma call_ok : exists p th, c_proc (k_cpu call_state) = Some 0%nat /\ k_ptable call_state !! 0%nat = Some p /\
  c_thread (k_cpu call_state) = Some (0, 0)%nat /\ thread_of call_state (0, 0)%nat = Some th /\ p_sz p = 4096.
Proof.
  destruct own_ok as (l & _ & Hq & _). destruct six_in_kernel as (p & Hk & _ & Hz).
  destruct (in_kernel_quiet _ _ _ _ Hk Hq) as [Hp He (t & th & Ht & Hth) _].
  assert (t = (0, 0)%nat) as -> by (assert (c_thread (k_cpu own_state) = Some (0, 0)%nat) by (vm_compute; reflexivity); congruence).
  unfold call_state, thread_of. rewrite !call_cpu, !call_ptable.
  exists p, th. split; [exact Hp|]. split; [exact He|]. split; [exact Ht|]. split; [exact Hth|exact Hz].
Qed.

Lemma call_pages va : 0 <= va < 4096 -> has (pte_of (k_mem call_state) (cur_pgdir call_state) va) PTE_P = true.
Proof.
  intros Hva. assert (E : cur_pgdir call_state = pg 0) by (vm_compute; reflexivity). rewrite E.
  rewrite pte_of_page by (unfold word; lia). rewrite Z.div_small by lia.
  vm_compute. reflexivity.
Qed.

Lemma argptr_bounds_witness : exists r, argptr 0 16 [] call_state = Ok r [] call_state.
Proof.
  destruct call_ok as (p & th & H1 & H2 & H3 & H4 & Hz).
  destruct (argptr_bounds call_state 0 (0, 0)%nat p th H1 H2 H3 H4) with (n := 0) (size := 16) (e := @nil (kstate -> kstate))
    as (r & E & _).
  - rewrite Hz. unfold KERNBASE. lia.
  - rewrite Hz. exact call_pages.
  - lia.
  - exists r. exact E.
Defined.

Lemma argstr_in_bounds_witness : exists r, argstr 0 [] call_state = Ok r [] call_state.
Proof.
  destruct call_ok as (p & th & H1 & H2 & H3 & H4 & Hz).
  destruct (argstr_in_bounds call_state 0 (0, 0)%nat p th H1 H2 H3 H4) with (n := 0) (e := @nil (kstate -> kstate))
    as (r & E & _).
  - rewrite Hz. unfold KERNBASE. lia.
  - rewrite Hz. exact call_pages.
  - exists r. exact E.
Defined.
