(* ===== verification/SysFile.v ===== *)
(** * File system calls (sysfile.c)

    A path argument is read from user memory when it is fetched; the source
    keeps a pointer to it.  The uninitialised [name] buffers are taken as
    zero.  [sys_read] stores the bytes that [fileread] obtained once it has
    returned; the source stores them one block (or one byte) at a time. *)

From stdpp Require Import base list gmap strings.
From S2P Require Import Prelude Memory Bytes Str Kernel KMonad Boot Mmu Spinlock Kalloc Sched Vm.
From S2P Require Import Ide Bio Log Fs Pipe File Kbd Console Proc Exec Syscall.

(** ** Definitions *)

Definition O_RDONLY : Z := 0.
Definition O_WRONLY : Z := 1.
Definition O_RDWR : Z := 2.
Definition O_CREATE : Z := 512.

(** The descriptor and its file. *)
Definition argfd (n : Z) : M (option (nat * nat)) :=
  a ← argint n;
  match a with
  | None => mret None
  | Some fd =>
    i ← curproc;
    p ← proc_at i;
    if (fd <? 0) || (Z.of_nat NOFILE <=? fd) then mret None else
    match p_ofile p !! Z.to_nat fd with
    | Some (Some f) => mret (Some (Z.to_nat fd, f))
    | _ => mret None
    end
  end.

Definition fdalloc (f : nat) : M Z :=
  i ← curproc;
  p ← proc_at i;
  match find_idx (fun o => bool_decide (o = None)) (p_ofile p) with
  | Some fd =>
    modify (upd_proc i (fun p => set_p_ofile (<[fd := Some f]> (p_ofile p)) p));;
    mret (Z.of_nat fd)
  | None => mret (-1)
  end.

(** [proc->ofile[fd] = 0] *)
Definition clear_fd (fd : nat) : M unit :=
  i ← curproc;
  modify (upd_proc i (fun p => set_p_ofile (<[fd := None]> (p_ofile p)) p)).

Section SysFile.
Context `{Symbols, Disk, DevOps}.

Definition sys_dup : M Z :=
  orfail (argfd 0) (fun '(_, f) =>
  fd ← fdalloc f;
  if fd <? 0 then mret (-1) else
  filedup f;;
  mret fd).

Definition sys_read : M Z :=
  orfail (argfd 0) (fun '(_, f) =>
  orfail (argint 2) (fun n =>
  orfail (argptr 1 n) (fun p =>
  r ← fileread f n;
  ustore p r.2;;
  mret r.1))).

Definition sys_write : M Z :=
  orfail (argfd 0) (fun '(_, f) =>
  orfail (argint 2) (fun n =>
  orfail (argptr 1 n) (fun p =>
  filewrite f (fun k m => uload (u32 (p + k)) (Z.to_nat m)) n))).

Definition sys_close : M Z :=
  orfail (argfd 0) (fun '(fd, f) =>
  clear_fd fd;;
  fileclose f;;
  mret 0).

(** [sizeof(struct stat)] and its fields. *)
Definition STAT_SIZE : Z := 20.
Definition ustore_stat (a : Z) (st : stat) : M unit :=
  ustore (a + 4) (le32 (u32 (st_dev st)));;
  ustore (a + 8) (le32 (st_ino st));;
  ustore a (le16 (u16 (st_type st)));;
  ustore (a + 12) (le16 (u16 (st_nlink st)));;
  ustore (a + 16) (le32 (st_size st)).
Definition sys_fstat : M Z :=
  orfail (argfd 0) (fun '(_, f) =>
  orfail (argptr 1 STAT_SIZE) (fun a =>
  r ← filestat f;
  match r with
  | None => mret (-1)
  | Some st => ustore_stat a st;; mret 0
  end)).

(** [ip->nlink += d] *)
Definition add_nlink (ip : nat) (d : Z) : M unit :=
  modify (upd_inode ip (fun x => set_i_nlink (s16 (i_nlink x + d)) x)).

Definition sys_link : M Z :=
  orfail (argstr 0) (fun old =>
  orfail (argstr 1) (fun new =>
  begin_op;;
  f ← namei old;
  match f with
  | None => end_op;; mret (-1)
  | Some ip =>
    ilock (Some ip);;
    x ← inode_at ip;
    if i_type x =? T_DIR then iunlockput ip;; end_op;; mret (-1) else
    add_nlink ip 1;;
    iupdate ip;;
    iunlock (Some ip);;
    d ← nameiparent new (zeros DIRSIZ);
    ok ← (match d.1 with
          | None => mret false
          | Some dp =>
            ilock (Some dp);;
            y ← inode_at dp;
            x ← inode_at ip;
            r ← (if negb (i_dev y =? i_dev x) then mret (-1) else dirlink dp d.2 (i_inum x));
            iunlockput dp;;
            mret (0 <=? r)
          end);
    if ok : bool then
      iput ip;;
      end_op;;
      mret 0
    else
      ilock (Some ip);;
      add_nlink ip (-1);;
      iupdate ip;;
      iunlockput ip;;
      end_op;;
      mret (-1)
  end)).

(** No entries after the first two. *)
Fixpoint isdirempty_loop (fuel : nat) (dp : nat) (off : Z) : M bool :=
  match fuel with
  | O => mret true
  | S fuel' =>
    ip ← inode_at dp;
    if off <? i_size ip then
      r ← readi dp off DESZ;
      if negb (r.1 =? DESZ) then panic "isdirempty: readi" else
      if negb (de_inum r.2 =? 0) then mret false else isdirempty_loop fuel' dp (off + DESZ)
    else mret true
  end.
Definition isdirempty (dp : nat) : M bool :=
  ip ← inode_at dp;
  isdirempty_loop (S (Z.to_nat (i_size ip / DESZ + 1))) dp (2 * DESZ).

Definition sys_unlink : M Z :=
  orfail (argstr 0) (fun path =>
  begin_op;;
  d ← nameiparent path (zeros DIRSIZ);
  match d.1 with
  | None => end_op;; mret (-1)
  | Some dp =>
    let name := d.2 in
    let bad : M Z := (iunlockput dp;; end_op;; mret (-1)) in
    ilock (Some dp);;
    if (namecmp name (bytes_of ".") =? 0) || (namecmp name (bytes_of "..") =? 0) then bad else
    e ← dirlookup dp name;
    match e with
    | None => bad
    | Some (ip, off) =>
      ilock (Some ip);;
      x ← inode_at ip;
      if i_nlink x <? 1 then panic "unlink: nlink < 1" else
      empty ← (if i_type x =? T_DIR then isdirempty ip else mret true);
      if negb empty then iunlockput ip;; bad else
      r ← writei dp off (zeros DESZ);
      if negb (r =? DESZ) then panic "unlink: writei" else
      x ← inode_at ip;
      (if i_type x =? T_DIR then add_nlink dp (-1);; iupdate dp else mret tt);;
      iunlockput dp;;
      add_nlink ip (-1);;
      iupdate ip;;
      iunlockput ip;;
      end_op;;
      mret 0
    end
  end).

(** The new (or existing) inode, locked. *)
Definition create (path : list Z) (type major minor : Z) : M (option nat) :=
  d ← nameiparent path (zeros DIRSIZ);
  match d.1 with
  | None => mret None
  | Some dp =>
    let name := d.2 in
    ilock (Some dp);;
    e ← dirlookup dp name;
    match e with
    | Some (ip, _) =>
      iunlockput dp;;
      ilock (Some ip);;
      x ← inode_at ip;
      if (type =? T_FILE) && (i_type x =? T_FILE) then mret (Some ip) else
      iunlockput ip;;
      mret None
    | None =>
      y ← inode_at dp;
      ip ← ialloc (i_dev y) type;
      ilock (Some ip);;
      modify (upd_inode ip (set_i_major (s16 major)));;
      modify (upd_inode ip (set_i_minor (s16 minor)));;
      modify (upd_inode ip (set_i_nlink 1));;
      iupdate ip;;
      x ← inode_at ip;
      (if type =? T_DIR then
         add_nlink dp 1;;
         iupdate dp;;
         r ← dirlink ip (bytes_of ".") (i_inum x);
         if r <? 0 then panic "create dots" else
         y ← inode_at dp;
         r ← dirlink ip (bytes_of "..") (i_inum y);
         if r <? 0 then panic "create dots" else mret tt
       else mret tt);;
      r ← dirlink dp name (i_inum x);
      if r <? 0 then panic "create: dirlink" else
      iunlockput dp;;
      mret (Some ip)
    end
  end.

Definition sys_open : M Z :=
  orfail (argstr 0) (fun path =>
  orfail (argint 1) (fun omode =>
  begin_op;;
  f ← (if has omode O_CREATE then create path T_FILE 0 0 else
       f ← namei path;
       match f with
       | None => mret None
       | Some ip =>
         ilock (Some ip);;
         x ← inode_at ip;
         if (i_type x =? T_DIR) && negb (omode =? O_RDONLY)
         then iunlockput ip;; mret None else mret (Some ip)
       end);
  match f with
  | None => end_op;; mret (-1)
  | Some ip =>
    let bad : M Z := (iunlockput ip;; end_op;; mret (-1)) in
    c ← filealloc;
    match c with
    | None => bad
    | Some f =>
      fd ← fdalloc f;
      if fd <? 0 then fileclose f;; bad else
      iunlock (Some ip);;
      end_op;;
      modify (upd_file f (set_f_type FD_INODE));;
      modify (upd_file f (set_f_ip (Some ip)));;
      modify (upd_file f (set_f_off 0));;
      modify (upd_file f (set_f_readable (b2z (negb (has omode O_WRONLY)))));;
      modify (upd_file f (set_f_writable (b2z (has omode O_WRONLY || has omode O_RDWR))));;
      mret fd
    end
  end)).

(** [end_op(); return -1;] when there is no inode. *)
Definition put_created (ip : option nat) : M Z :=
  match ip with
  | None => end_op;; mret (-1)
  | Some ip => iunlockput ip;; end_op;; mret 0
  end.

Definition sys_mkdir : M Z :=
  begin_op;;
  path ← argstr 0;
  ip ← (match path with None => mret None | Some path => create path T_DIR 0 0 end);
  put_created ip.

Definition sys_mknod : M Z :=
  begin_op;;
  path ← argstr 0;
  ip ← (match path with
        | None => mret None
        | Some path =>
          major ← argint 1;
          match major with
          | None => mret None
          | Some major =>
            minor ← argint 2;
            match minor with
            | None => mret None
            | Some minor => create path T_DEV (s16 major) (s16 minor)
            end
          end
        end);
  put_created ip.

Definition sys_chdir : M Z :=
  begin_op;;
  path ← argstr 0;
  f ← (match path with None => mret None | Some path => namei path end);
  match f with
  | None => end_op;; mret (-1)
  | Some ip =>
    ilock (Some ip);;
    x ← inode_at ip;
    if negb (i_type x =? T_DIR) then iunlockput ip;; end_op;; mret (-1) else
    iunlock (Some ip);;
    i ← curproc;
    p ← proc_at i;
    cwd ← deref "cwd" (p_cwd p);
    iput cwd;;
    end_op;;
    modify (upd_proc i (set_p_cwd (Some ip)));;
    mret 0
  end.

(** The argument strings, or [None] for -1. *)
Fixpoint fetch_argv (n : nat) (uargv i : Z) : M (option (list (list Z))) :=
  match n with
  | O => mret None
  | S n' =>
    a ← fetchint (u32 (uargv + 4 * i));
    match a with
    | None => mret None
    | Some uarg =>
      if u32 uarg =? 0 then mret (Some []) else
      s ← fetchstr (u32 uarg);
      match s with
      | None => mret None
      | Some s =>
        rest ← fetch_argv n' uargv (i + 1);
        mret ((fun l => s :: l) <$> rest)
      end
    end
  end.
Definition sys_exec : M Z :=
  orfail (argstr 0) (fun path =>
  orfail (argint 1) (fun uargv =>
  orfail (fetch_argv (Z.to_nat MAXARG) (u32 uargv) 0) (fun argv =>
  exec path argv))).

Definition sys_pipe : M Z :=
  orfail (argptr 0 8) (fun fd =>
  orfail pipealloc (fun '(rf, wf) =>
  fd0 ← fdalloc rf;
  fd1 ← (if fd0 <? 0 then mret (-1) else fdalloc wf);
  if (fd0 <? 0) || (fd1 <? 0) then
    when (0 <=? fd0) (clear_fd (Z.to_nat fd0));;
    fileclose rf;;
    fileclose wf;;
    mret (-1)
  else
    ustore fd (le32 fd0);;
    ustore (u32 (fd + 4)) (le32 fd1);;
    mret 0)).

End SysFile.
