(* ===== verification/Trap.v ===== *)
(** * Process and thread system calls, dispatch and traps (sysproc.c,
    systhread.c, syscall.c, trap.c) *)

From stdpp Require Import base list gmap strings.
From S2P Require Import Prelude Memory Bytes Str Kernel KMonad Boot Mmu Spinlock Kalloc Sched Vm.
From S2P Require Import Ide Bio Log Fs Pipe File Kbd Console Proc Kthread Exec Mutex Syscall SysFile.

(** ** Definitions *)

Definition T_PGFLT : Z := 14.
Definition T_IRQ0 : Z := 32.
Definition T_SYSCALL : Z := 64.
Definition IRQ_TIMER : Z := 0.
Definition IRQ_KBD : Z := 1.
Definition IRQ_COM1 : Z := 4.
Definition IRQ_IDE : Z := 14.
Definition IRQ_SPURIOUS : Z := 31.

(** Gate descriptors (mmu.h): the low and the high word of the offset, the
    selector, the type, the privilege level and the present bit. *)
Record gatedesc := mk_gate {
  gd_off_15_0 : Z; gd_cs : Z; gd_args : Z; gd_rsv1 : Z;
  gd_type : Z; gd_s : Z; gd_dpl : Z; gd_p : Z; gd_off_31_16 : Z }.
Definition STS_IG32 : Z := 14.
Definition STS_TG32 : Z := 15.
Definition SETGATE (istrap : bool) (sel off d : Z) : gatedesc :=
  {| gd_off_15_0 := Z.land (u32 off) 65535; gd_cs := u16 sel; gd_args := 0; gd_rsv1 := 0;
     gd_type := if istrap then STS_TG32 else STS_IG32; gd_s := 0; gd_dpl := d; gd_p := 1;
     gd_off_31_16 := Z.shiftr (u32 off) 16 |}.

(** The table [idt] for the entry points [vectors] of the generated
    vectors.S. *)
Definition idt_table (vectors : nat -> Z) : list gatedesc :=
  let gates := (fun i => SETGATE false (Z.shiftl SEG_KCODE 3) (vectors i) 0) <$> seq 0 256 in
  <[Z.to_nat T_SYSCALL := SETGATE true (Z.shiftl SEG_KCODE 3) (vectors (Z.to_nat T_SYSCALL)) DPL_USER]> gates.
Definition tvinit (vectors : nat -> Z) : M (list gatedesc) :=
  initlock Ltickslock "time";;
  mret (idt_table vectors).

(** One turn of [while(ticks - ticks0 < n)] in sys_sleep. *)
Definition ticks_turn (ticks0 n : Z) : M (option Z) :=
  ticks ← gets k_ticks;
  if u32 (ticks - ticks0) <? u32 n then
    i ← curproc;
    p ← proc_at i;
    if truth (p_killed p) then release Ltickslock;; mret (Some (-1)) else
    sleep Cticks (Some Ltickslock);;
    mret None
  else
    release Ltickslock;;
    mret (Some 0).

Section Trap.
Context `{Symbols, Disk, DevOps}.
(** What [wakeup2] does past the end of the thread array (Kthread.v). *)
Context (beyond : nat -> kstate -> kstate).

Definition sys_fork : M Z := fork.
Definition sys_exit : M Z := exit.
Definition sys_wait : M Z := wait.
Definition sys_kill : M Z := orfail (argint 0) kill.
Definition sys_getpid : M Z := i ← curproc; p ← proc_at i; mret (p_pid p).

Definition sys_sbrk : M Z :=
  orfail (argint 0) (fun n =>
  i ← curproc;
  p ← proc_at i;
  let addr := s32 (p_sz p) in
  r ← growproc n;
  mret (if r <? 0 then -1 else addr)).

Definition sys_sleep : M Z :=
  orfail (argint 0) (fun n =>
  acquire Ltickslock;;
  ticks0 ← gets k_ticks;
  loop (ticks_turn ticks0 n)).

Definition sys_uptime : M Z :=
  acquire Ltickslock;;
  xticks ← gets k_ticks;
  release Ltickslock;;
  mret (s32 xticks).

Definition sys_cow_fork : M Z := cow_fork.
Definition sys_cow_wait : M Z := cow_wait.
Definition sys_procdump : M Z := procdump;; mret 0.

Definition sys_kthread_create : M Z :=
  orfail (argint 0) (fun start_func =>
  orfail (argint 1) (fun stack =>
  orfail (argint 2) (fun stack_size =>
  kthread_create (u32 start_func) (u32 stack) stack_size))).
Definition sys_kthread_id : M Z := kthread_id.
Definition sys_kthread_exit : M Z := kthread_exit beyond.
Definition sys_kthread_join : M Z := orfail (argint 0) kthread_join.
Definition sys_kthread_mutex_alloc : M Z := kthread_mutex_alloc.
Definition sys_kthread_mutex_dealloc : M Z := orfail (argint 0) kthread_mutex_dealloc.
Definition sys_kthread_mutex_lock : M Z := orfail (argint 0) kthread_mutex_lock.
Definition sys_kthread_mutex_unlock : M Z := orfail (argint 0) kthread_mutex_unlock.

(** The table [syscalls], indexed by the numbers of syscall.h; entry 0 is
    empty. *)
Definition syscalls : list (option (M Z)) :=
  [None; Some sys_fork; Some sys_exit; Some sys_wait; Some sys_pipe; Some sys_read;
   Some sys_kill; Some sys_exec; Some sys_fstat; Some sys_chdir; Some sys_dup;
   Some sys_getpid; Some sys_sbrk; Some sys_sleep; Some sys_uptime; Some sys_open;
   Some sys_write; Some sys_mknod; Some sys_unlink; Some sys_link; Some sys_mkdir;
   Some sys_close; Some sys_kthread_create; Some sys_kthread_id; Some sys_kthread_exit;
   Some sys_kthread_join; Some sys_kthread_mutex_alloc; Some sys_kthread_mutex_dealloc;
   Some sys_kthread_mutex_lock; Some sys_kthread_mutex_unlock; Some sys_cow_fork;
   Some sys_cow_wait; Some sys_procdump].

(** Store the result in %eax of the caller's trap frame. *)
Definition return_value (r : Z) : M unit :=
  t ← curthread;
  th ← thread_at t;
  stk (u32 (t_tf th + TF_EAX)) (u32 r).

Definition syscall : M unit :=
  t ← curthread;
  th ← thread_at t;
  eax ← ldk (u32 (t_tf th + TF_EAX));
  let num := s32 eax in
  match (if 0 <? num then default None (syscalls !! Z.to_nat num) else None) with
  | Some f => r ← f; return_value r
  | None =>
    cprintf (bytes_of "%d %s: unknown sys call %d" ++ [NL])
      [AInt (t_tid th); AStr (cstr (t_name th)); AInt num];;
    return_value (-1)
  end.

(** The process is to stop: [proc->killed || proc->executed]. *)
Definition doomed (p : proc) : bool := truth (p_killed p) || truth (p_executed p).
Definition exit_if_doomed : M unit :=
  i ← curproc;
  p ← proc_at i;
  if doomed p then exit else mret tt.

(** [proc && doomed && (tf->cs&3) == DPL_USER] *)
Definition exit_if_user (cs : Z) : M unit :=
  c ← gets (fun s => c_proc (k_cpu s));
  match c with
  | None => mret tt
  | Some i =>
    p ← proc_at i;
    if doomed p && (Z.land cs 3 =? DPL_USER) then exit else mret tt
  end.

(** The [default] case of trap: a bug of the kernel, or of the process.  The
    register %cr2 has the address of the last page fault. *)
Definition unexpected (tf : Z) : M unit :=
  trapno ← ldk (u32 (tf + TF_TRAPNO));
  cs ← ldk16 (u32 (tf + TF_CS));
  eip ← ldk (u32 (tf + TF_EIP));
  err ← ldk (u32 (tf + TF_ERR));
  cr2 ← gets (fun s => c_cr2 (k_cpu s));
  id ← gets (fun s => c_id (k_cpu s));
  c ← gets (fun s => c_proc (k_cpu s));
  let oops : M unit :=
    (cprintf (bytes_of "unexpected trap %d from cpu %d eip %x (cr2=0x%x)" ++ [NL])
       [AInt trapno; AInt id; AInt eip; AInt cr2];;
     panic "trap") in
  match c with
  | None => oops
  | Some i =>
    if Z.land cs 3 =? 0 then oops else
    p ← proc_at i;
    cprintf (bytes_of "pid %d %s: trap %d err %d on cpu %d eip 0x%x addr 0x%x--kill proc" ++ [NL])
      [AInt (p_pid p); AStr (cstr (p_name p)); AInt trapno; AInt err; AInt id; AInt eip; AInt cr2];;
    modify (upd_proc i (set_p_killed 1))
  end.

(** The switch of trap.  [lapiceoi] acknowledges the interrupt to the local
    APIC and has no effect on the modelled state. *)
Definition trap_case (tf : Z) : M unit :=
  trapno ← ldk (u32 (tf + TF_TRAPNO));
  cs ← ldk16 (u32 (tf + TF_CS));
  if trapno =? T_IRQ0 + IRQ_TIMER then
    c ← gets (fun s => c_id (k_cpu s));
    when (c =? 0)
      (acquire Ltickslock;;
       modify (fun s => set_k_ticks (u32 (k_ticks s + 1)) s);;
       wakeup Cticks;;
       release Ltickslock)
  else if trapno =? T_IRQ0 + IRQ_IDE then disk_intr
  else if trapno =? T_IRQ0 + IRQ_IDE + 1 then mret tt
  else if trapno =? T_IRQ0 + IRQ_KBD then kbdintr (procdump;; mret 0)
  else if trapno =? T_IRQ0 + IRQ_COM1 then uartintr (procdump;; mret 0)
  else if (trapno =? T_IRQ0 + 7) || (trapno =? T_IRQ0 + IRQ_SPURIOUS) then
    eip ← ldk (u32 (tf + TF_EIP));
    id ← gets (fun s => c_id (k_cpu s));
    cprintf (bytes_of "cpu%d: spurious interrupt at %x:%x" ++ [NL]) [AInt id; AInt cs; AInt eip]
  else if trapno =? T_PGFLT then
    c ← gets (fun s => c_proc (k_cpu s));
    match c with
    | Some i =>
      if Z.land cs 3 =? DPL_USER then
        p ← proc_at i;
        r ← cow_copyuvm (p_pgdir p);
        if r =? 0 then unexpected tf else mret tt
      else unexpected tf
    | None => unexpected tf
    end
  else unexpected tf.

Definition trap (tf : Z) : M unit :=
  trapno ← ldk (u32 (tf + TF_TRAPNO));
  if trapno =? T_SYSCALL then
    exit_if_doomed;;
    t ← curthread;
    modify (upd_thread t (set_t_tf tf));;
    syscall;;
    exit_if_doomed
  else
  cs ← ldk16 (u32 (tf + TF_CS));
  trap_case tf;;
  exit_if_user cs;;
  c ← gets (fun s => c_proc (k_cpu s));
  (match c with
   | None => mret tt
   | Some _ =>
     t ← curthread;
     th ← thread_at t;
     when (state_eqb (t_state th) RUNNING && (trapno =? T_IRQ0 + IRQ_TIMER)) yield
   end);;
  exit_if_user cs.

End Trap.
