(* ===== verification/Barrier.v ===== *)
(** * The barrier of the firing squad program (fssp.c)

    A barrier is two mutexes and a counter.  [inc_barrier] is a sequence of
    small steps, one per statement; a step that locks a mutex is possible only
    while the mutex is not locked, and a mutex is unlocked by any thread, as in
    mutex.c.  Shown, for any number of threads and every interleaving: the
    threads pass the barrier in rounds, no thread leaves a round before every
    thread has arrived, and some thread can go on unless one is yet to arrive. *)

From stdpp Require Import base list.
From S2P Require Import Prelude.

(** ** Definitions *)

(** [struct barrier], with the state of the two mutexes in place of their ids. *)
Record barrier : Type := mkBarrier {
  pre_mx : bool;     (* true: LOCKED *)
  post_mx : bool;
  bcounter : Z;
  blimit : Z
}.

(** The statement of [inc_barrier] that is next. *)
Inductive bpc : Type :=
| B_lock_pre | B_inc | B_test_in | B_unlock_pre_in | B_unlock_post_in
| B_lock_post | B_dec | B_test_out | B_unlock_post_out | B_unlock_pre_out.

#[global] Instance bpc_eq_dec : EqDecision bpc.
Proof. solve_decision. Defined.

Definition init_barrier (limit : Z) : barrier := mkBarrier false true 0 limit.
Definition kill_barrier (b : barrier) : barrier := mkBarrier false false 0 0.

(** One step: the barrier after it and the next statement ([None]: the
    function returns); no step while the mutex is locked. *)
Definition inc_barrier (p : bpc) (b : barrier) : option (barrier * option bpc) :=
  let 'mkBarrier pre post c limit := b in
  match p with
  | B_lock_pre => if pre then None else Some (mkBarrier true post c limit, Some B_inc)
  | B_inc => Some (mkBarrier pre post (c + 1) limit, Some B_test_in)
  | B_test_in => Some (b, Some (if c <? limit then B_unlock_pre_in else B_unlock_post_in))
  | B_unlock_pre_in => Some (mkBarrier false post c limit, Some B_lock_post)
  | B_unlock_post_in => Some (mkBarrier pre false c limit, Some B_lock_post)
  | B_lock_post => if post then None else Some (mkBarrier pre true c limit, Some B_dec)
  | B_dec => Some (mkBarrier pre post (c - 1) limit, Some B_test_out)
  | B_test_out => Some (b, Some (if 0 <? c then B_unlock_post_out else B_unlock_pre_out))
  | B_unlock_post_out => Some (mkBarrier pre false c limit, None)
  | B_unlock_pre_out => Some (mkBarrier false post c limit, None)
  end.

(** ** Functions on threads *)

Definition fupd {A} (t : nat) (x : A) (f : nat -> A) : nat -> A := fun u => if decide (u = t) then x else f u.

Lemma fupd_eq {A} t (x : A) f : fupd t x f t = x.
Proof. unfold fupd. by rewrite decide_True. Qed.
Lemma fupd_ne {A} t (x : A) f u : u <> t -> fupd t x f u = f u.
Proof. intros. unfold fupd. by rewrite decide_False. Qed.

(** How many of the threads [0..n) satisfy [P]. *)
Fixpoint count (P : nat -> bool) (n : nat) : Z :=
  match n with
  | O => 0
  | S n' => count P n' + Z.b2z (P n')
  end.

Lemma count_ext P Q n : (forall u, (u < n)%nat -> P u = Q u) -> count P n = count Q n.
Proof. induction n as [|n IH]; intros E; cbn; [done|]. rewrite IH by auto with lia. by rewrite E by lia. Qed.

Lemma count_bounds P n : 0 <= count P n <= Z.of_nat n.
Proof. induction n as [|n IH]; [done|]. cbn [count]. destruct (P n); cbn; lia. Qed.

Lemma count_upd P Q n t :
  (t < n)%nat -> (forall u, u <> t -> Q u = P u) -> count Q n = count P n + Z.b2z (Q t) - Z.b2z (P t).
Proof.
  intros Ht E. induction n as [|n IH]; [lia|]. cbn [count]. destruct (decide (t = n)) as [->|Hne].
  - rewrite (count_ext Q P n) by (intros u Hu; apply E; lia). lia.
  - rewrite IH, (E n) by lia. lia.
Qed.

Lemma count_all P n : count P n = Z.of_nat n -> forall u, (u < n)%nat -> P u = true.
Proof.
  induction n as [|n IH]; intros E u Hu; [lia|]. cbn [count] in E. pose proof (count_bounds P n).
  destruct (P n) eqn:EP; cbn [Z.b2z] in E; [|lia]. destruct (decide (u = n)) as [->|]; [done|]. apply IH; lia.
Qed.

Lemma count_some P n : 0 < count P n -> exists u, (u < n)%nat /\ P u = true.
Proof.
  induction n as [|n IH]; cbn [count]; [lia|]. destruct (P n) eqn:EP; cbn [Z.b2z]; intros Hc; [by exists n; split; [lia|]|].
  destruct IH as (u & Hu & E); [lia|]. exists u. split; [lia|done].
Qed.

Lemma count_none P n : count P n = 0 -> forall u, (u < n)%nat -> P u = false.
Proof.
  induction n as [|n IH]; intros E u Hu; [lia|]. cbn [count] in E. pose proof (count_bounds P n).
  destruct (P n) eqn:EP; cbn [Z.b2z] in E; [lia|]. destruct (decide (u = n)) as [->|]; [done|]. apply IH; lia.
Qed.

(** ** The protocol *)

Notation status := (option bpc).

Section Protocol.
Context (N : nat).
Implicit Types (st : nat -> status) (c : nat -> nat) (b : barrier).

Definition waiting (o : status) : bool := match o with Some B_lock_post => true | _ => false end.
(** Not at the barrier, or before its first lock. *)
Definition away (o : status) : Prop := o = None \/ o = Some B_lock_pre.
(** Has arrived and is to leave. *)
Definition leaving (o : status) : Prop :=
  match o with
  | Some (B_lock_post | B_dec | B_test_out | B_unlock_post_out | B_unlock_pre_out) => True
  | _ => False
  end.

(** A thread that holds no mutex while the threads come in to round [k], and
    while they go out of it; [c] counts the rounds it has left. *)
Definition coming (k : nat) (o : status) (c : nat) : Prop := c = k /\ (away o \/ o = Some B_lock_post).
Definition going (k : nat) (o : status) (c : nat) : Prop := (o = Some B_lock_post /\ c = k) \/ (away o /\ c = S k).

(** The thread that has locked [pre_mx], and the one that has locked [post_mx]. *)
Definition entering (n : Z) (p : bpc) (w : Z) : Prop :=
  match p with
  | B_inc => n = w /\ n < Z.of_nat N
  | B_test_in => n = w + 1
  | B_unlock_pre_in => n = w + 1 /\ n < Z.of_nat N
  | B_unlock_post_in => n = w + 1 /\ n = Z.of_nat N
  | _ => False
  end.
Definition exiting (n : Z) (p : bpc) (w : Z) : Prop :=
  match p with
  | B_dec => n = w + 1
  | B_test_out => n = w
  | B_unlock_post_out => n = w /\ 0 < n
  | B_unlock_pre_out => n = w /\ n = 0
  | _ => False
  end.

Definition waiters st : Z := count (fun u => waiting (st u)) N.

Inductive bar_inv b st c : Prop :=
| bi_coming k :
    pre_mx b = false -> post_mx b = true -> bcounter b = waiters st -> bcounter b < Z.of_nat N ->
    (forall u, (u < N)%nat -> coming k (st u) (c u)) -> bar_inv b st c
| bi_entering k t p :
    pre_mx b = true -> post_mx b = true -> (t < N)%nat -> st t = Some p -> c t = k ->
    entering (bcounter b) p (waiters st) ->
    (forall u, (u < N)%nat -> u <> t -> coming k (st u) (c u)) -> bar_inv b st c
| bi_going k :
    pre_mx b = true -> post_mx b = false -> bcounter b = waiters st -> 0 < bcounter b ->
    (forall u, (u < N)%nat -> going k (st u) (c u)) -> bar_inv b st c
| bi_exiting k t p :
    pre_mx b = true -> post_mx b = true -> (t < N)%nat -> st t = Some p -> c t = k ->
    exiting (bcounter b) p (waiters st) ->
    (forall u, (u < N)%nat -> u <> t -> going k (st u) (c u)) -> bar_inv b st c.

(** What a step of thread [t] does to the two functions. *)
Definition moved (t : nat) (o : status) (c : nat -> nat) : nat -> nat :=
  match o with None => fupd t (S (c t)) c | Some _ => c end.

Lemma waiters_upd st t o : (t < N)%nat ->
  waiters (fupd t o st) = waiters st + Z.b2z (waiting o) - Z.b2z (waiting (st t)).
Proof.
  intros Ht. unfold waiters. rewrite (count_upd (fun u => waiting (st u)) _ N t Ht).
  - by rewrite fupd_eq.
  - intros u Hu. by rewrite fupd_ne.
Qed.

(** The other threads do not see a step of thread [t]. *)
Lemma others_coming k st c t o o' :
  (forall u, (u < N)%nat -> u <> t -> coming k (st u) (c u)) ->
  forall u, (u < N)%nat -> u <> t -> coming k (fupd t o st u) (moved t o' c u).
Proof. intros H u Hu Hne. rewrite fupd_ne by done. unfold moved. destruct o'; [|rewrite fupd_ne by done]; auto. Qed.

Lemma others_going k st c t o o' :
  (forall u, (u < N)%nat -> u <> t -> going k (st u) (c u)) ->
  forall u, (u < N)%nat -> u <> t -> going k (fupd t o st u) (moved t o' c u).
Proof. intros H u Hu Hne. rewrite fupd_ne by done. unfold moved. destruct o'; [|rewrite fupd_ne by done]; auto. Qed.

Lemma all_threads (P : nat -> Prop) t : P t -> (forall u, (u < N)%nat -> u <> t -> P u) -> forall u, (u < N)%nat -> P u.
Proof. intros Ht Ho u Hu. destruct (decide (u = t)) as [->|]; auto. Qed.

(** The threads come in. *)
Lemma step_entering b st c t p b' o k :
  blimit b = Z.of_nat N -> pre_mx b = true -> post_mx b = true -> (t < N)%nat -> st t = Some p -> c t = k ->
  entering (bcounter b) p (waiters st) -> (forall u, (u < N)%nat -> u <> t -> coming k (st u) (c u)) ->
  inc_barrier p b = Some (b', o) -> bar_inv b' (fupd t o st) (moved t o c).
Proof.
  intros Hl Hpre Hpost Ht Hst Hc He Ho Hs. destruct b as [pre post n lim]. cbn in *. subst pre post lim.
  assert (Hw : waiters (fupd t o st) = waiters st + Z.b2z (waiting o) - Z.b2z (waiting (Some p))) by (by rewrite waiters_upd, Hst).
  pose proof (others_coming k st c t o o Ho) as Ho'. destruct p; simplify_eq/=; try done.
  - apply (bi_entering _ _ _ (c t) t B_test_in); try done; [apply fupd_eq|]. cbn. lia.
  - pose proof (count_bounds (fun u => waiting (st u)) N) as Hb. change (count _ N) with (waiters st) in Hb.
    destruct (Z.ltb_spec (waiters st + 1) (Z.of_nat N));
      [apply (bi_entering _ _ _ (c t) t B_unlock_pre_in)|apply (bi_entering _ _ _ (c t) t B_unlock_post_in)];
      try done; try apply fupd_eq; cbn [entering bcounter]; rewrite Hw; cbn; lia || idtac.
    assert (waiting (st t) = false) as Hnw by (by rewrite Hst). split; [lia|].
    destruct (Z.eq_dec (waiters st) (Z.of_nat N)) as [E|]; [|lia]. pose proof (count_all _ _ E t Ht). congruence.
  - destruct He as [-> He]. apply (bi_coming _ _ _ (c t)); try done; [cbn; lia|].
    apply (all_threads _ t); [rewrite fupd_eq; split; auto|done].
  - destruct He as [-> He]. apply (bi_going _ _ _ (c t)); try done; [cbn; lia|cbn; lia|].
    intros u Hu. assert (Hall : waiters (fupd t (Some B_lock_post) st) = Z.of_nat N) by (cbn in Hw; lia).
    pose proof (count_all _ _ Hall u Hu) as Hwu. cbn in Hwu. left.
    destruct (decide (u = t)) as [->|Hne]; [by rewrite fupd_eq|]. destruct (Ho u Hu Hne) as [? _].
    rewrite fupd_ne in * by done. split; [|done]. by destruct (st u) as [[]|].
Qed.

(** The threads go out. *)
Lemma step_exiting b st c t p b' o k :
  blimit b = Z.of_nat N -> pre_mx b = true -> post_mx b = true -> (t < N)%nat -> st t = Some p -> c t = k ->
  exiting (bcounter b) p (waiters st) -> (forall u, (u < N)%nat -> u <> t -> going k (st u) (c u)) ->
  inc_barrier p b = Some (b', o) -> bar_inv b' (fupd t o st) (moved t o c).
Proof.
  intros Hl Hpre Hpost Ht Hst Hc He Ho Hs. destruct b as [pre post n lim]. cbn in *. subst pre post lim.
  assert (Hw : waiters (fupd t o st) = waiters st + Z.b2z (waiting o) - Z.b2z (waiting (Some p))) by (by rewrite waiters_upd, Hst).
  pose proof (others_going k st c t o o Ho) as Ho'. destruct p; simplify_eq/=; try done.
  - apply (bi_exiting _ _ _ (c t) t B_test_out); try done; [apply fupd_eq|]. cbn. lia.
  - pose proof (count_bounds (fun u => waiting (st u)) N) as Hb. change (count _ N) with (waiters st) in Hb.
    destruct (Z.ltb_spec 0 (waiters st));
      [apply (bi_exiting _ _ _ (c t) t B_unlock_post_out)|apply (bi_exiting _ _ _ (c t) t B_unlock_pre_out)];
      try done; try apply fupd_eq; cbn [exiting bcounter]; rewrite Hw; cbn; lia.
  - destruct He as [-> He]. apply (bi_going _ _ _ (c t)); try done; [cbn; lia|].
    apply (all_threads _ t); [|done]. rewrite !fupd_eq. right. split; [by left|done].
  - destruct He as [-> He]. apply (bi_coming _ _ _ (S (c t))); try done; [cbn; lia|cbn; lia|].
    assert (Hnone : waiters (fupd t None st) = 0) by lia.
    intros u Hu. pose proof (count_none _ _ Hnone u Hu) as Hwu. cbn in Hwu.
    destruct (decide (u = t)) as [->|Hne]; [rewrite !fupd_eq; split; [done|by left; left]|].
    destruct (Ho u Hu Hne) as [[E _]|[Ha E]]; rewrite !fupd_ne in * by done; [by rewrite E in Hwu|]. split; [done|by left].
Qed.

Lemma bar_step b st c t p b' o :
  blimit b = Z.of_nat N -> bar_inv b st c -> (t < N)%nat -> st t = Some p -> inc_barrier p b = Some (b', o) ->
  bar_inv b' (fupd t o st) (moved t o c) /\ blimit b' = Z.of_nat N.
Proof.
  intros Hl Hinv Ht Hst Hs. split.
  2: { destruct b as [pre post n lim], p; cbn in *; repeat case_match; by simplify_eq/=. }
  destruct Hinv as [k Hpre Hpost Hn Hlt Hall|k t' p' Hpre Hpost Ht' Hst' Hc He Ho|k Hpre Hpost Hn Hgt Hall|k t' p' Hpre Hpost Ht' Hst' Hc He Ho].
  - destruct (Hall t Ht) as [Hc [[Ha|Ha]|Ha]]; simplify_eq; destruct b; simplify_eq/=.
    apply (bi_entering _ _ _ (c t) t B_inc); try done; [apply fupd_eq| |].
    + cbn. rewrite waiters_upd, Hst by done. cbn. lia.
    + apply (others_coming _ st c t _ (Some B_inc)). intros u Hu _. by apply Hall.
  - destruct (decide (t = t')) as [->|Hne]; [simplify_eq; by eapply step_entering|].
    destruct (Ho t Ht Hne) as [_ [[Ha|Ha]|Ha]]; simplify_eq; destruct b; simplify_eq/=.
  - destruct (Hall t Ht) as [[Ha Hc]|[[Ha|Ha] Hc]]; simplify_eq; destruct b; simplify_eq/=.
    apply (bi_exiting _ _ _ (c t) t B_dec); try done; [apply fupd_eq| |].
    + cbn. rewrite waiters_upd, Hst by done. cbn. lia.
    + apply (others_going _ st c t _ (Some B_dec)). intros u Hu _. by apply Hall.
  - destruct (decide (t = t')) as [->|Hne]; [simplify_eq; by eapply step_exiting|].
    destruct (Ho t Ht Hne) as [[Ha _]|[[Ha|Ha] _]]; simplify_eq; destruct b; simplify_eq/=.
Qed.

(** A thread calls [inc_barrier]. *)
Lemma bar_enter b st c t : bar_inv b st c -> st t = None -> bar_inv b (fupd t (Some B_lock_pre) st) c.
Proof.
  intros Hinv Hst.
  assert (Hw : waiters (fupd t (Some B_lock_pre) st) = waiters st).
  { apply count_ext. intros u _. unfold fupd. case_decide as E; [by rewrite E, Hst|done]. }
  assert (Hco : forall k u, coming k (st u) (c u) -> coming k (fupd t (Some B_lock_pre) st u) (c u)).
  { intros k u Hu. unfold fupd. case_decide; [|done]. destruct Hu as [? _]. split; [done|]. left. by right. }
  assert (Hgo : forall k u, going k (st u) (c u) -> going k (fupd t (Some B_lock_pre) st u) (c u)).
  { intros k u Hu. unfold fupd. case_decide as E; [|done]. subst u. rewrite Hst in Hu. destruct Hu as [[? _]|[_ ?]]; [done|].
    right. split; [by right|done]. }
  destruct Hinv as [k|k t' p Hpre Hpost Ht' Hst'|k|k t' p Hpre Hpost Ht' Hst'].
  - apply (bi_coming _ _ _ k); try done; [by rewrite Hw|auto].
  - assert (t' <> t) by congruence.
    apply (bi_entering _ _ _ k t' p); try done; [by rewrite fupd_ne|by rewrite Hw|auto].
  - apply (bi_going _ _ _ k); try done; [by rewrite Hw|auto].
  - assert (t' <> t) by congruence.
    apply (bi_exiting _ _ _ k t' p); try done; [by rewrite fupd_ne|by rewrite Hw|auto].
Qed.

Lemma bar_start st c : (0 < N)%nat -> (forall u, st u = None) -> (forall u, c u = 0%nat) ->
  bar_inv (init_barrier (Z.of_nat N)) st c.
Proof.
  intros HN Hst Hc.
  assert (Hw : waiters st = 0) by (unfold waiters; rewrite (count_ext _ (fun _ => false)) by (intros u _; by rewrite Hst);
    clear; induction N as [|n IH]; cbn; [done|by rewrite IH]).
  apply (bi_coming _ _ _ 0); try done; [cbn; lia|]. intros u Hu. rewrite Hst, Hc. split; [done|]. by left; left.
Qed.

(** A thread is ahead of another by at most one round, and only after the
    other has arrived at it. *)
Lemma bar_ahead b st c t u :
  bar_inv b st c -> (t < N)%nat -> (u < N)%nat ->
  c u = c t \/ (S (c u) = c t /\ away (st t) /\ leaving (st u)) \/ (c u = S (c t) /\ away (st u) /\ leaving (st t)).
Proof.
  intros Hinv Ht Hu. destruct Hinv as [k Hpre Hpost Hn Hlt Hall|k t' p Hpre Hpost Ht' Hst Hc He Ho|k Hpre Hpost Hn Hgt Hall|k t' p Hpre Hpost Ht' Hst Hc He Ho].
  - left. destruct (Hall t Ht), (Hall u Hu). congruence.
  - left. destruct (decide (t = t')) as [->|], (decide (u = t')) as [->|]; try done;
      [destruct (Ho u Hu)|destruct (Ho t Ht)|destruct (Ho t Ht), (Ho u Hu)]; done || congruence.
  - destruct (Hall t Ht) as [[E ?]|[? ?]], (Hall u Hu) as [[E' ?]|[? ?]]; [left; congruence|right; right|right; left|left; congruence].
    + rewrite E. split_and!; [congruence|done|done].
    + rewrite E'. split_and!; [congruence|done|done].
  - assert (Hl : leaving (st t')) by (rewrite Hst; by destruct p).
    destruct (decide (t = t')) as [->|Ht1], (decide (u = t')) as [->|Hu1]; [by left|..].
    + destruct (Ho u Hu Hu1) as [[E ?]|[? ?]]; [left; congruence|right; right]. split_and!; [congruence|done|done].
    + destruct (Ho t Ht Ht1) as [[E ?]|[? ?]]; [left; congruence|right; left]. split_and!; [congruence|done|done].
    + destruct (Ho t Ht Ht1) as [[E ?]|[? ?]], (Ho u Hu Hu1) as [[E' ?]|[? ?]]; [left; congruence|right; right|right; left|left; congruence].
      * rewrite E. split_and!; [congruence|done|done].
      * rewrite E'. split_and!; [congruence|done|done].
Qed.

(** Some thread at the barrier can go on, or all threads have left the same
    number of rounds, those at the barrier wait, and one is yet to arrive. *)
Lemma bar_progress b st c :
  bar_inv b st c ->
  (exists t p, (t < N)%nat /\ st t = Some p /\ is_Some (inc_barrier p b)) \/
  (exists k u, (u < N)%nat /\ st u = None /\ forall t, (t < N)%nat -> c t = k /\ (st t = None \/ st t = Some B_lock_post)).
Proof.
  intros [k Hpre Hpost Hn Hlt Hall|k t p Hpre Hpost Ht Hst Hc He Ho|k Hpre Hpost Hn Hgt Hall|k t p Hpre Hpost Ht Hst Hc He Ho].
  - destruct (decide (Exists (fun u => st u = Some B_lock_pre) (seq 0 N))) as [Hex|Hno].
    + left. apply Exists_exists in Hex as (t & Hin & Hst). apply elem_of_seq in Hin. exists t, B_lock_pre.
      split_and!; [lia|done|]. destruct b; simplify_eq/=. by eexists.
    + right. exists k. assert (Hcase : forall t, (t < N)%nat -> c t = k /\ (st t = None \/ st t = Some B_lock_post)).
      { intros t Ht. destruct (Hall t Ht) as [? [[?|Hp]|?]]; [by auto| |by auto]. exfalso. apply Hno, Exists_exists.
        exists t. split; [apply elem_of_seq; lia|done]. }
      destruct (decide (Exists (fun u => st u = None) (seq 0 N))) as [Hex|Hno2].
      * apply Exists_exists in Hex as (u & Hin & Hst). apply elem_of_seq in Hin. exists u. split; [lia|done].
      * exfalso. assert (waiters st = Z.of_nat N); [|lia]. unfold waiters. rewrite (count_ext _ (fun _ => true)).
        { clear. induction N; cbn; [done|lia]. }
        intros u Hu. destruct (Hcase u Hu) as [_ [E|E]]; [|by rewrite E]. exfalso. apply Hno2, Exists_exists.
        exists u. split; [apply elem_of_seq; lia|done].
  - left. exists t, p. split_and!; [done|done|]. destruct b, p; cbn in *; by eauto.
  - left. rewrite Hn in Hgt. destruct (count_some _ _ Hgt) as (t & Ht & Hw). exists t, B_lock_post.
    split_and!; [done|by destruct (st t) as [[]|]|]. destruct b; simplify_eq/=. by eexists.
  - left. exists t, p. split_and!; [done|done|]. destruct b, p; cbn in *; by eauto.
Qed.

Lemma bar_inv_ext b st c st' c' :
  (forall u, (u < N)%nat -> st' u = st u) -> (forall u, (u < N)%nat -> c' u = c u) -> bar_inv b st c -> bar_inv b st' c'.
Proof.
  intros Hs Hc Hinv. assert (Hw : waiters st' = waiters st) by (apply count_ext; intros u Hu; by rewrite Hs).
  destruct Hinv as [k|k t p|k|k t p]; [apply (bi_coming _ _ _ k)|apply (bi_entering _ _ _ k t p)|apply (bi_going _ _ _ k)
    |apply (bi_exiting _ _ _ k t p)]; rewrite ?Hw, ?Hs, ?Hc by done; try done; intros u Hu; rewrite ?Hs, ?Hc by done; auto.
Qed.
End Protocol.

(** ** The theorem *)

(** The barrier, where each thread is in it, and how many times each thread
    has returned from it. *)
Record bsys : Type := mkBsys { bs_bar : barrier; bs_st : nat -> status; bs_round : nat -> nat }.

(** [N] threads call [inc_barrier] whenever they like; their steps interleave
    in any way. *)
Inductive bar_reach (N : nat) : bsys -> Prop :=
| br_start : bar_reach N (mkBsys (init_barrier (Z.of_nat N)) (fun _ => None) (fun _ => 0%nat))
| br_call x t :
    bar_reach N x -> (t < N)%nat -> bs_st x t = None ->
    bar_reach N (mkBsys (bs_bar x) (fupd t (Some B_lock_pre) (bs_st x)) (bs_round x))
| br_step x t p b o :
    bar_reach N x -> (t < N)%nat -> bs_st x t = Some p -> inc_barrier p (bs_bar x) = Some (b, o) ->
    bar_reach N (mkBsys b (fupd t o (bs_st x)) (moved t o (bs_round x))).

Lemma bar_reach_inv N x : (0 < N)%nat -> bar_reach N x ->
  bar_inv N (bs_bar x) (bs_st x) (bs_round x) /\ blimit (bs_bar x) = Z.of_nat N.
Proof.
  intros HN. induction 1 as [|x t _ [IH Hl] Ht Hst|x t p b o _ [IH Hl] Ht Hst Hs]; cbn.
  - split; [by apply bar_start|done].
  - split; [by apply bar_enter|done].
  - by eapply bar_step.
Qed.

(** C25: However the calls of [inc_barrier] by [N] threads interleave, a thread
    that has returned from its round [k] finds every other thread arrived at
    round [k] at least: nobody is more than one round behind, and who is behind
    has arrived.  And the barrier never blocks for good: as long as no thread
    stays away, some thread can go on. *)
Theorem barrier_rounds N x :
  (0 < N)%nat -> bar_reach N x ->
  (forall t u, (t < N)%nat -> (u < N)%nat -> (bs_round x u < bs_round x t)%nat ->
     bs_round x t = S (bs_round x u) /\ leaving (bs_st x u) /\ away (bs_st x t)) /\
  ((forall t, (t < N)%nat -> bs_st x t <> None) ->
   exists t p, (t < N)%nat /\ bs_st x t = Some p /\ is_Some (inc_barrier p (bs_bar x))).
Proof.
  intros HN Hr. destruct (bar_reach_inv N x HN Hr) as [Hinv _]. split.
  - intros t u Ht Hu Hlt. destruct (bar_ahead N _ _ _ t u Hinv Ht Hu) as [?|[(? & ? & ?)|(? & ? & ?)]]; [lia|auto|lia].
  - intros Hall. destruct (bar_progress N _ _ _ Hinv) as [?|(k & u & Hu & Hst & _)]; [done|]. by destruct (Hall u Hu).
Qed.

(** Thread [t] calls or goes on, if it can. *)
Definition bar_turn (x : bsys) (t : nat) : bsys :=
  match bs_st x t with
  | None => mkBsys (bs_bar x) (fupd t (Some B_lock_pre) (bs_st x)) (bs_round x)
  | Some p =>
    match inc_barrier p (bs_bar x) with
    | Some (b, o) => mkBsys b (fupd t o (bs_st x)) (moved t o (bs_round x))
    | None => x
    end
  end.

Lemma bar_turns_reach N ts : Forall (fun t => (t < N)%nat) ts -> forall x, bar_reach N x -> bar_reach N (foldl bar_turn x ts).
Proof.
  induction 1 as [|t ts Ht _ IH]; intros x Hx; cbn; [done|]. apply IH. unfold bar_turn.
  destruct (bs_st x t) as [p|] eqn:Hst; [|by apply br_call]. destruct (inc_barrier p (bs_bar x)) as [[b o]|] eqn:Hs; [|done].
  by eapply br_step.
Qed.

(** Three threads: all arrive at the first round, the first one leaves it. *)
Definition three_start : bsys := mkBsys (init_barrier 3) (fun _ => None) (fun _ => 0%nat).
Definition three_turns : list nat := replicate 5 0%nat ++ replicate 5 1%nat ++ replicate 5 2%nat ++ replicate 4 0%nat.

Lemma barrier_rounds_witness :
  let x := foldl bar_turn three_start three_turns in
  bs_round x 0%nat = 1%nat /\ bs_round x 1%nat = 0%nat /\ leaving (bs_st x 1%nat) /\ leaving (bs_st x 2%nat).
Proof.
  assert (Hr : bar_reach 3 (foldl bar_turn three_start three_turns)).
  { apply bar_turns_reach; [repeat constructor|apply br_start]. }
  destruct (barrier_rounds 3 _ ltac:(lia) Hr) as [Hs _].
  split; [reflexivity|]. split; [reflexivity|]. split.
  - apply (Hs 0%nat 1%nat); [lia|lia|]. apply Nat.ltb_lt. reflexivity.
  - apply (Hs 0%nat 2%nat); [lia|lia|]. apply Nat.ltb_lt. reflexivity.
Defined.
