(* ===== verification/Fssp.v ===== *)
(** * The firing squad program (fssp.c)

    The automaton of the soldiers, and the program as a system of threads: the
    main thread and one per soldier, each a sequence of small steps, one per
    access to a shared variable, with the barrier of Barrier.v.  Of the kernel's
    part, [kthread_create] starts a thread with an id of its own, which
    [kthread_id] returns in it.  [kthread_join] has the steps of kthread.c: it
    tests twice whether the thread has exited and then goes to sleep, each time
    without [ptable.lock], so that an exit between the second test and the sleep
    wakes nobody up.  [print_mx] is locked by the main thread only, and so never
    busy. *)

From stdpp Require Import base list strings.
From S2P Require Import Prelude Bytes Barrier.

(** ** The automaton *)

Definition sB : Z := -1.  (* B *)
Definition sQ : Z := 0.   (* Q *)
Definition sP : Z := 1.   (* P *)
Definition sR : Z := 2.   (* R *)
Definition sZ : Z := 3.   (* Z *)
Definition sM : Z := 4.   (* M *)
Definition sX : Z := 5.   (* X *)
Definition sF : Z := 10.  (* F *)

(** [trans_func[curr_state][left_state][right_state]] *)
Definition trans_table : list (list (list Z)) :=
  [
    (* Q *)
    [
      [sQ; sP; sQ; sQ; sB; sQ];
      [sP; sP; sB; sB; sB; sP];
      [sQ; sB; sQ; sB; sB; sB];
      [sQ; sB; sB; sQ; sB; sQ];
      [sB; sB; sB; sB; sB; sB];
      [sQ; sP; sQ; sQ; sB; sB]];
    (* P *)
    [
      [sZ; sZ; sR; sR; sB; sB];
      [sZ; sB; sZ; sZ; sB; sB];
      [sR; sZ; sZ; sB; sB; sZ];
      [sR; sZ; sB; sZ; sB; sZ];
      [sB; sB; sB; sB; sB; sB];
      [sZ; sB; sZ; sZ; sB; sF]];
    (* R *)
    [
      [sB; sB; sR; sP; sZ; sB];
      [sB; sB; sM; sR; sM; sB];
      [sR; sM; sB; sB; sM; sB];
      [sP; sR; sB; sB; sR; sB];
      [sZ; sM; sM; sR; sM; sB];
      [sB; sB; sB; sB; sB; sB]];
    (* Z *)
    [
      [sB; sB; sQ; sP; sQ; sB];
      [sB; sZ; sB; sZ; sB; sB];
      [sQ; sB; sQ; sQ; sB; sQ];
      [sP; sZ; sQ; sF; sQ; sF];
      [sQ; sB; sB; sQ; sQ; sQ];
      [sB; sZ; sQ; sF; sQ; sB]];
    (* M *)
    [
      [sB; sB; sB; sB; sB; sB];
      [sB; sB; sB; sB; sB; sB];
      [sB; sB; sR; sZ; sB; sB];
      [sB; sB; sZ; sB; sB; sB];
      [sB; sB; sB; sB; sB; sB];
      [sB; sB; sB; sB; sB; sB]]].
(** An access outside of the array is undefined. *)
Definition at_index {A} (l : list A) (i : Z) : option A := if i <? 0 then None else l !! Z.to_nat i.
Definition trans_func (curr left right : Z) : option Z :=
  l ← at_index trans_table curr;
  l ← at_index l left;
  at_index l right.

(** The neighbours that soldier [i] of [n] sees. *)
Definition left_of (l : list Z) (i : nat) : option Z := if decide (i = 0%nat) then Some sX else l !! Nat.pred i.
Definition right_of (n : nat) (l : list Z) (i : nat) : option Z := if decide (S i = n) then Some sX else l !! S i.

(** All soldiers change state at once. *)
Definition next_of (n : nat) (l : list Z) (i : nat) : option Z :=
  c ← l !! i;
  a ← left_of l i;
  b ← right_of n l i;
  trans_func c a b.
Definition squad_next (l : list Z) : option (list Z) := mapM (next_of (length l) l) (seq 0 (length l)).

Definition squad_start (n : nat) : list Z := sP :: replicate (n - 1) sQ.
Fixpoint squad (n r : nat) : list Z :=
  match r with
  | O => squad_start n
  | S r' => default [] (squad_next (squad n r'))
  end.

(** The first round at which the first soldier fires, among the first [fuel]. *)
Fixpoint fire_from (fuel r : nat) (l : list Z) : nat :=
  match fuel with
  | O => r
  | S fuel' => if decide (l !! 0%nat = Some sF) then r else fire_from fuel' (S r) (default [] (squad_next l))
  end.
Definition fire_time (n : nat) : nat := fire_from 100 0 (squad_start n).

(** The rounds [r..r+k) are defined and nobody fires in them, then all fire. *)
Fixpoint drill (k : nat) (l : list Z) : bool :=
  match k with
  | O => forallb (fun x => x =? sF) l
  | S k' =>
    forallb (fun x => negb (x =? sF)) l &&
    match squad_next l with
    | Some l' => drill k' l'
    | None => false
    end
  end.

Lemma all_drills : forallb (fun n => drill (fire_time n) (squad_start n)) (seq 1 15) = true.
Proof. vm_compute. reflexivity. Qed.

(** ** The threads *)

(** [soldier], without the stack. *)
Record soldier : Type := mkSoldier { so_state : Z; so_tid : Z; so_index : Z }.

(** What follows a call of [inc_barrier]. *)
Inductive cont : Type :=
| K_start                        (* a soldier: all threads have started *)
| K_write (index : nat) (next : Z)
| K_loop (index : nat)
| K_main_start
| K_main_calc
| K_main_update.

(** The statement that a thread is at, with its local variables. *)
Inductive pc : Type :=
| Unborn
| InBar (p : bpc) (k : cont)
(* soldier_func *)
| S_find
| S_test (index : nat)
| S_curr (index : nat)
| S_left (index : nat) (curr : Z)
| S_right (index : nat) (curr left : Z)
| S_trans (index : nat) (curr left right : Z)
| S_write (index : nat) (next : Z)
| S_exit
(* main *)
| M_state (i : nat)
| M_create (i : nat)
| M_tid (i : nat)
| M_index (i : nat)
| M_general
| M_print (first : bool) (i : nat)
| M_test
(* kthread_join(soldiers[i].tid) *)
| M_join (i : nat)    (* if(t->state == ZOMBIE) *)
| M_wait (i : nat)    (* while(t->state != ZOMBIE) *)
| M_doze (i : nat)    (* sleep(t, &proc->lock), before it takes ptable.lock *)
| M_asleep (i : nat)  (* ... and when it has switched away *)
| Gone.

(** [sy_round] is not part of the program: it counts how many barriers each
    thread has passed. *)
Record sys : Type := mkSys {
  sy_soldiers : list soldier;
  sy_bar : barrier;
  sy_pc : nat -> pc;
  sy_round : nat -> nat;
  sy_out : list Z
}.

Definition goto (t : nat) (p : pc) (s : sys) : sys :=
  mkSys (sy_soldiers s) (sy_bar s) (fupd t p (sy_pc s)) (sy_round s) (sy_out s).
Definition set_soldiers (l : list soldier) (s : sys) : sys :=
  mkSys l (sy_bar s) (sy_pc s) (sy_round s) (sy_out s).
Definition print (l : list Z) (s : sys) : sys :=
  mkSys (sy_soldiers s) (sy_bar s) (sy_pc s) (sy_round s) (sy_out s ++ l).

Definition set_so_state (v : Z) (x : soldier) : soldier := mkSoldier v (so_tid x) (so_index x).
Definition set_so_tid (v : Z) (x : soldier) : soldier := mkSoldier (so_state x) v (so_index x).
Definition set_so_index (v : Z) (x : soldier) : soldier := mkSoldier (so_state x) (so_tid x) v.

Definition states (s : sys) : list Z := so_state <$> sy_soldiers s.

(** The character of a state in [print_soldiers_state]. *)
Definition state_char (x : Z) : Z :=
  if x =? sQ then 81 else if x =? sP then 80 else if x =? sR then 82 else
  if x =? sZ then 90 else if x =? sM then 77 else if x =? sF then 70 else 32.
Definition squad_line (l : list Z) : list Z := (state_char <$> l) ++ [10].

Section Program.
(** The number of soldiers and the ids of their threads. *)
Context (n : nat) (tid : nat -> Z).

(** What a thread does after the barrier. *)
Definition resume (k : cont) : pc :=
  match k with
  | K_start => S_find
  | K_write i next => S_write i next
  | K_loop i => S_test i
  | K_main_start => M_test
  | K_main_calc => InBar B_lock_pre K_main_update
  | K_main_update => M_print false 0
  end.

Definition bar_stmt (t : nat) (p : bpc) (k : cont) (s : sys) : option sys :=
  match inc_barrier p (sy_bar s) with
  | None => None
  | Some (b, o) =>
    let q := match o with Some p' => InBar p' k | None => resume k end in
    Some (mkSys (sy_soldiers s) b (fupd t q (sy_pc s)) (moved t o (sy_round s)) (sy_out s))
  end.

(** The index of the soldier with the id of thread [t]. *)
Definition find_index (t : nat) (s : sys) : option nat :=
  fst <$> list_find (fun x => so_tid x = tid t) (sy_soldiers s).

(** [kthread_exit] wakes the main thread up if it sleeps on this thread. *)
Definition exit_wakes (t : nat) (s : sys) : sys :=
  let s' := goto t Gone s in
  match sy_pc s n with
  | M_asleep i => if decide (i = t) then goto n (M_wait i) s' else s'
  | _ => s'
  end.

Definition soldier_func (t : nat) (p : pc) (s : sys) : option sys :=
  match p with
  | S_find =>
    match find_index t s with
    | Some i => Some (goto t (S_test i) s)
    | None => Some (goto t S_exit (print (bytes_of "ERROR: worng index" ++ [10]) s))
    end
  | S_test i =>
    x ← states s !! i;
    Some (goto t (if x =? sF then S_exit else S_curr i) s)
  | S_curr i => x ← states s !! i; Some (goto t (S_left i x) s)
  | S_left i curr => x ← left_of (states s) i; Some (goto t (S_right i curr x) s)
  | S_right i curr lft => x ← right_of n (states s) i; Some (goto t (S_trans i curr lft x) s)
  | S_trans i curr lft rgt =>
    next ← trans_func curr lft rgt;
    Some (goto t (InBar B_lock_pre (K_write i next)) s)
  | S_write i next =>
    Some (goto t (InBar B_lock_pre (K_loop i)) (set_soldiers (alter (set_so_state next) i (sy_soldiers s)) s))
  | S_exit => Some (exit_wakes t s)
  | _ => None
  end.

(** The soldier's thread is a zombie. *)
Definition exited (s : sys) (i : nat) : bool := match sy_pc s i with Gone => true | _ => false end.

Definition squad_main (t : nat) (p : pc) (s : sys) : option sys :=
  match p with
  | M_state i => Some (goto t (M_create i) (set_soldiers (alter (set_so_state sQ) i (sy_soldiers s)) s))
  | M_create i => Some (goto t (M_tid i) (goto i (InBar B_lock_pre K_start) s))
  | M_tid i => Some (goto t (M_index i) (set_soldiers (alter (set_so_tid (tid i)) i (sy_soldiers s)) s))
  | M_index i =>
    Some (goto t (if (S i <? n)%nat then M_state (S i) else M_general)
            (set_soldiers (alter (set_so_index (Z.of_nat i)) i (sy_soldiers s)) s))
  | M_general => Some (goto t (M_print true 0) (set_soldiers (alter (set_so_state sP) 0%nat (sy_soldiers s)) s))
  | M_print first i =>
    if (i <? n)%nat then
      x ← states s !! i;
      Some (goto t (M_print first (S i)) (print [state_char x] s))
    else Some (goto t (if first then InBar B_lock_pre K_main_start else M_test) (print [10] s))
  | M_test =>
    x ← states s !! 0%nat;
    Some (goto t (if x =? sF then M_join 0 else InBar B_lock_pre K_main_calc) s)
  | M_join i =>
    if (i <? n)%nat then Some (goto t (if exited s i then M_join (S i) else M_wait i) s)
    else Some (goto t Gone (mkSys (sy_soldiers s) (kill_barrier (sy_bar s)) (sy_pc s) (sy_round s) (sy_out s)))
  | M_wait i => Some (goto t (if exited s i then M_join (S i) else M_doze i) s)
  | M_doze i => Some (goto t (M_asleep i) s)
  | _ => None
  end.

(** One step of thread [t]: soldier [t], or the main thread if [t = n]. *)
Definition step (t : nat) (s : sys) : option sys :=
  match sy_pc s t with
  | Unborn | Gone => None
  | InBar p k => bar_stmt t p k s
  | p => if (t <? n)%nat then soldier_func t p s else squad_main t p s
  end.

(** [main] has allocated the soldiers and initialised the barrier; the array
    has any contents. *)
Definition start (junk : list soldier) : sys :=
  mkSys junk (init_barrier (Z.of_nat (S n))) (fun t => if (t <? n)%nat then Unborn else M_state 0) (fun _ => 0%nat) [].

(** Runs of [k] steps, by any threads. *)
Inductive runs (s : sys) : nat -> sys -> Prop :=
| runs_0 : runs s 0 s
| runs_S k s' t s'' : runs s k s' -> (t <= n)%nat -> step t s' = Some s'' -> runs s (S k) s''.
End Program.
