(* ===== verification/FsspSpec.v ===== *)
(** * The firing squad fires (fssp.c)

    The automaton fires all soldiers in the same round, for every number of
    soldiers that the program accepts; and every run of the threads, however
    they interleave, prints exactly the rounds of the automaton and stops after a bounded number
    of steps, with all threads gone or with the main thread asleep in a
    [kthread_join] that has missed the exit of a soldier. *)

From stdpp Require Import base list strings.
From S2P Require Import Prelude Bytes Barrier Fssp.

(** ** The automaton *)

Lemma drill_rounds k : forall n r, drill k (squad n r) = true ->
  (forall j, (j < k)%nat -> squad_next (squad n (r + j)) = Some (squad n (S (r + j))) /\
     forall i x, squad n (r + j) !! i = Some x -> x <> sF) /\
  (forall i x, squad n (r + k) !! i = Some x -> x = sF).
Proof.
  induction k as [|k IH]; intros n r Hd; cbn [drill] in Hd.
  - split; [lia|]. intros i x Hx. rewrite Nat.add_0_r in Hx. rewrite forallb_forall in Hd. apply Z.eqb_eq, Hd.
    by eapply list_elem_of_In, list_elem_of_lookup_2.
  - apply andb_true_iff in Hd as [Hq Hd]. destruct (squad_next (squad n r)) as [l'|] eqn:En; [|done].
    assert (El : squad n (S r) = l') by (cbn; by rewrite En). rewrite <- El in Hd.
    destruct (IH n (S r) Hd) as [Hr Hf]. split.
    + intros j Hj. destruct j as [|j].
      * rewrite Nat.add_0_r. split; [by rewrite El|]. intros i x Hx. rewrite forallb_forall in Hq.
        apply Z.eqb_neq. apply negb_true_iff, Hq. by eapply list_elem_of_In, list_elem_of_lookup_2.
      * replace (r + S j)%nat with (S r + j)%nat by lia. apply Hr. lia.
    + by replace (r + S k)%nat with (S r + k)%nat by lia.
Qed.

#[local] Arguments fire_time : simpl never.
#[local] Arguments squad : simpl never.

Section Squad.
Context (n : nat) (Hn : (1 <= n <= 15)%nat).
Notation T := (fire_time n).
Notation sq := (squad n).

Lemma drilled : drill T (sq 0) = true.
Proof.
  pose proof all_drills as H. rewrite forallb_forall in H. apply H, in_seq. lia.
Qed.

Lemma squad_defined r : (r < T)%nat -> squad_next (sq r) = Some (sq (S r)).
Proof. intros Hr. destruct (drill_rounds T n 0 drilled) as [H _]. exact (proj1 (H r Hr)). Qed.
Lemma squad_quiet r i x : (r < T)%nat -> sq r !! i = Some x -> x <> sF.
Proof. intros Hr. destruct (drill_rounds T n 0 drilled) as [H _]. exact (proj2 (H r Hr) i x). Qed.
Lemma squad_fires i x : sq T !! i = Some x -> x = sF.
Proof. destruct (drill_rounds T n 0 drilled) as [_ H]. exact (H i x). Qed.

Lemma squad_length r : (r <= T)%nat -> length (sq r) = n.
Proof.
  induction r as [|r IH]; intros Hr.
  - change (sq 0) with (squad_start n). cbn. rewrite length_replicate. lia.
  - pose proof (squad_defined r ltac:(lia)) as E. unfold squad_next in E. apply length_mapM in E.
    rewrite length_seq, IH in E by lia. congruence.
Qed.

Lemma squad_lookup r i : (r <= T)%nat -> (i < n)%nat -> exists x, sq r !! i = Some x.
Proof. intros Hr Hi. apply lookup_lt_is_Some_2. by rewrite squad_length. Qed.

Lemma next_of_eq m l i c a b :
  l !! i = Some c -> left_of l i = Some a -> right_of m l i = Some b -> next_of m l i = trans_func c a b.
Proof. intros Hc Ha Hb. unfold next_of. rewrite Hc, Ha. cbn [mbind option_bind]. by rewrite Hb. Qed.

Lemma squad_step r i y : (r < T)%nat -> (i < n)%nat -> next_of n (sq r) i = Some y <-> sq (S r) !! i = Some y.
Proof.
  intros Hr Hi. pose proof (squad_defined r Hr) as E. unfold squad_next in E. rewrite squad_length in E by lia.
  apply mapM_Some in E. pose proof (Forall2_lookup_l _ _ _ i i E ltac:(by rewrite lookup_seq_lt)) as (x & Hx & Ex).
  rewrite Hx, Ex. done.
Qed.


(** ** The invariant of the program *)

Context (tid : nat -> Z) (Htid : forall i j, (i < n)%nat -> (j < n)%nat -> tid i = tid j -> i = j).

Definition st_of (p : pc) : status := match p with InBar q _ => Some q | _ => None end.

(** The round of the automaton after [c] barriers: the first one starts the
    program, and each round has two. *)
Definition rnd (c : nat) : nat := ((c - 1) / 2)%nat.
(** The round that the state of a soldier belongs to. *)
Definition stage (p : pc) (c : nat) : nat := match p with InBar _ (K_loop _) => (c / 2)%nat | _ => rnd c end.

Definition odd_round (c : nat) : Prop := c = (2 * rnd c + 1)%nat.
Definition even_round (c : nat) : Prop := c = (2 * rnd c + 2)%nat.

(** Where a soldier can be after [c] barriers. *)
Definition soldier_ok (u : nat) (p : pc) (c : nat) : Prop :=
  match p with
  | Unborn | InBar _ K_start => c = 0%nat
  | S_find => c = 1%nat
  | S_test i => i = u /\ odd_round c /\ (rnd c <= T)%nat
  | S_curr i => i = u /\ odd_round c /\ (rnd c < T)%nat
  | S_left i x => i = u /\ odd_round c /\ (rnd c < T)%nat /\ sq (rnd c) !! u = Some x
  | S_right i x a => i = u /\ odd_round c /\ (rnd c < T)%nat /\ sq (rnd c) !! u = Some x /\ left_of (sq (rnd c)) u = Some a
  | S_trans i x a b => i = u /\ odd_round c /\ (rnd c < T)%nat /\ sq (rnd c) !! u = Some x /\
      left_of (sq (rnd c)) u = Some a /\ right_of n (sq (rnd c)) u = Some b
  | InBar _ (K_write i y) => i = u /\ odd_round c /\ (rnd c < T)%nat /\ sq (S (rnd c)) !! u = Some y
  | S_write i y => i = u /\ even_round c /\ (rnd c < T)%nat /\ sq (S (rnd c)) !! u = Some y
  | InBar _ (K_loop i) => i = u /\ even_round c /\ (rnd c < T)%nat
  | S_exit | Gone => c = (2 * T + 1)%nat
  | _ => False
  end.

(** The main thread: while it creates the threads ... *)
Definition setup (p : pc) : bool :=
  match p with M_state _ | M_create _ | M_tid _ | M_index _ | M_general => true | _ => false end.
(** ... how many of them there are ... *)
Definition born (p : pc) : nat :=
  match p with M_state i | M_create i => i | M_tid i | M_index i => S i | _ => n end.
Definition made (i : nat) (l : list soldier) : Prop :=
  forall j, (j < i)%nat -> exists x, l !! j = Some x /\ so_state x = sQ /\ so_tid x = tid j.
Definition main_setup (p : pc) (l : list soldier) : Prop :=
  match p with
  | M_state i => (i < n)%nat /\ made i l
  | M_create i | M_tid i => (i < n)%nat /\ made i l /\ exists x, l !! i = Some x /\ so_state x = sQ
  | M_index i => (i < n)%nat /\ made (S i) l
  | M_general => made n l
  | _ => True
  end.
(** ... and where it can be after [c] barriers. *)
Definition main_ok (p : pc) (c : nat) (pcs : nat -> pc) : Prop :=
  match p with
  | M_state _ | M_create _ | M_tid _ | M_index _ | M_general | InBar _ K_main_start => c = 0%nat
  | M_print true i => c = 0%nat /\ (i <= n)%nat
  | M_print false i => odd_round c /\ (1 <= rnd c <= T)%nat /\ (i <= n)%nat
  | M_test => odd_round c /\ (rnd c <= T)%nat
  | InBar _ K_main_calc => odd_round c /\ (rnd c < T)%nat
  | InBar _ K_main_update => even_round c /\ (rnd c < T)%nat
  | M_join i => c = (2 * T + 1)%nat /\ (i <= n)%nat /\ forall j, (j < i)%nat -> pcs j = Gone
  | M_wait i | M_doze i | M_asleep i => c = (2 * T + 1)%nat /\ (i < n)%nat /\ forall j, (j < i)%nat -> pcs j = Gone
  | _ => False
  end.

(** What it has printed: the lines of the rounds before [r]. *)
Definition lines (r : nat) : list Z := flat_map (fun j => squad_line (sq j)) (seq 0 r).
Definition printed (p : pc) (c : nat) : list Z :=
  if setup p then []
  else match p with
       | M_print _ i => lines (rnd c) ++ (state_char <$> take i (sq (rnd c)))
       | _ => lines (S (rnd c))
       end.

Record live (s : sys) : Prop := {
  lv_bar : bar_inv (S n) (sy_bar s) (fun t => st_of (sy_pc s t)) (sy_round s);
  lv_limit : blimit (sy_bar s) = Z.of_nat (S n);
  lv_soldiers : forall u, (u < n)%nat -> soldier_ok u (sy_pc s u) (sy_round s u);
  lv_main : main_ok (sy_pc s n) (sy_round s n) (sy_pc s);
  lv_length : length (sy_soldiers s) = n;
  lv_born : forall u, (u < n)%nat -> sy_pc s u = Unborn <-> (born (sy_pc s n) <= u)%nat;
  lv_setup : main_setup (sy_pc s n) (sy_soldiers s);
  lv_table : setup (sy_pc s n) = false -> forall u, (u < n)%nat -> exists x,
    sy_soldiers s !! u = Some x /\ so_tid x = tid u /\ sq (stage (sy_pc s u) (sy_round s u)) !! u = Some (so_state x);
  lv_out : sy_out s = printed (sy_pc s n) (sy_round s n)
}.

(** The program has ended. *)
Definition ended (s : sys) : Prop := (forall t, (t <= n)%nat -> sy_pc s t = Gone) /\ sy_out s = lines (S T).

(** *** What a thread sees of the others *)

Lemma rnd_odd r : rnd (2 * r + 1) = r.
Proof. unfold rnd. replace (2 * r + 1 - 1)%nat with (r * 2)%nat by lia. by apply Nat.div_mul. Qed.
Lemma rnd_even r : rnd (2 * r + 2) = r.
Proof. unfold rnd. replace (2 * r + 2 - 1)%nat with (1 + r * 2)%nat by lia. by rewrite Nat.div_add. Qed.
Lemma half_even r : ((2 * r + 2) / 2 = S r)%nat.
Proof. replace (2 * r + 2)%nat with (S r * 2)%nat by lia. by apply Nat.div_mul. Qed.

Lemma odd_stage u p c : soldier_ok u p c -> odd_round c -> stage p c = rnd c.
Proof.
  intros Hs Ho. destruct p as [|q k| | | | | | | | | | | | | | | | | | | |]; try done. destruct k as [| |i| | |]; try done.
  destruct Hs as (_ & He & _). unfold odd_round, even_round in *. lia.
Qed.

Lemma leaving_stage u p c : soldier_ok u p c -> leaving (st_of p) -> odd_round (S c) -> stage p c = rnd (S c).
Proof.
  intros Hs Hl Ho. destruct p as [|q k| | | | | | | | | | | | | | | | | | | |]; try done. destruct k as [|i y|i| | |]; try done.
  - cbn in Hs. by subst c.
  - destruct Hs as (_ & Hc & _). unfold odd_round in *. exfalso. lia.
  - destruct Hs as (_ & Hc & _). unfold stage, even_round in *. remember (rnd c) as r eqn:Er. clear Er. subst c.
    replace (S (2 * r + 2))%nat with (2 * S r + 1)%nat by lia. by rewrite rnd_odd, half_even.
Qed.

(** A thread outside of the barrier that has passed an odd number of them sees
    all soldiers in the same round. *)
Lemma all_in_round s t :
  live s -> (t <= n)%nat -> st_of (sy_pc s t) = None -> odd_round (sy_round s t) ->
  forall u, (u < n)%nat -> stage (sy_pc s u) (sy_round s u) = rnd (sy_round s t).
Proof.
  intros Hl Ht Hst Ho u Hu. pose proof (lv_soldiers s Hl u Hu) as Hs.
  destruct (bar_ahead (S n) _ _ _ t u (lv_bar s Hl) ltac:(lia) ltac:(lia)) as [E|[(E & _ & Hlv)|(_ & _ & Hlv)]].
  - rewrite E in *. by eapply odd_stage.
  - rewrite <- E in *. by eapply leaving_stage.
  - by rewrite Hst in Hlv.
Qed.

(** Before the first barrier all soldiers have their first state. *)
Lemma all_at_start s :
  live s -> st_of (sy_pc s n) = None -> sy_round s n = 0%nat ->
  forall u, (u < n)%nat -> sy_round s u = 0%nat /\ stage (sy_pc s u) (sy_round s u) = 0%nat.
Proof.
  intros Hl Hst H0 u Hu. pose proof (lv_soldiers s Hl u Hu) as Hs.
  destruct (bar_ahead (S n) _ _ _ n u (lv_bar s Hl) ltac:(lia) ltac:(lia)) as [E|[(E & _ & Hlv)|(_ & _ & Hlv)]].
  - rewrite E, H0 in *. split; [done|]. destruct (sy_pc s u) as [|q [| |i| | |]| | | | | | | | | | | | | | | | | | | |]; done.
  - lia.
  - by rewrite Hst in Hlv.
Qed.

Lemma setup_round s : live s -> setup (sy_pc s n) = true -> st_of (sy_pc s n) = None /\ sy_round s n = 0%nat.
Proof. intros Hl Hs. pose proof (lv_main s Hl) as Hm. by destruct (sy_pc s n). Qed.

(** *** Steps of a soldier *)

Lemma bar_goto s t p :
  live s -> (t <= n)%nat -> st_of p = st_of (sy_pc s t) \/ (st_of (sy_pc s t) = None /\ st_of p = Some B_lock_pre) ->
  bar_inv (S n) (sy_bar s) (fun u => st_of (fupd t p (sy_pc s) u)) (sy_round s).
Proof.
  intros Hl Ht [E|[E0 E1]].
  - apply (bar_inv_ext _ _ (fun u => st_of (sy_pc s u)) (sy_round s)); [|done|apply Hl].
    intros u _. unfold fupd. by case_decide as Hd; [subst|].
  - pose proof (bar_enter (S n) _ _ _ t (lv_bar s Hl) E0) as Hb.
    eapply bar_inv_ext; [|done|exact Hb]. intros u _. unfold fupd. by case_decide.
Qed.

Lemma main_ok_upd p c pcs u q : main_ok p c pcs -> pcs u <> Gone -> main_ok p c (fupd u q pcs).
Proof.
  intros Hm Hne. destruct p; try done; destruct Hm as (? & ? & Hall); (split_and!; [done|done|]);
  intros j Hj; (rewrite fupd_ne; [by apply Hall|]); intros ->; apply Hne; by apply Hall.
Qed.

Lemma soldier_moves s u p l :
  live s -> (u < n)%nat -> sy_pc s u <> Unborn -> sy_pc s u <> Gone -> st_of (sy_pc s u) = None ->
  (1 <= sy_round s u)%nat -> st_of p = None \/ st_of p = Some B_lock_pre -> p <> Unborn ->
  soldier_ok u p (sy_round s u) ->
  length l = n -> (forall j, j <> u -> l !! j = sy_soldiers s !! j) ->
  (exists x, l !! u = Some x /\ so_tid x = tid u /\ sq (stage p (sy_round s u)) !! u = Some (so_state x)) ->
  live (goto u p (set_soldiers l s)).
Proof.
  intros Hl Hu Hub Hgo Hst H1 Hp Hpu Hs Hlen Ho Hx. pose proof Hl as [Hbar Hlim Hsol Hmain Hl0 Hborn Hset Htab Hout].
  assert (Hns : setup (sy_pc s n) = false).
  { destruct (setup (sy_pc s n)) eqn:E; [|done]. destruct (setup_round s Hl E) as [Hsn H0].
    destruct (all_at_start s Hl Hsn H0 u Hu). lia. }
  assert (Hn' : fupd u p (sy_pc s) n = sy_pc s n) by (apply fupd_ne; lia).
  split; cbn; rewrite ?Hn'; try done.
  - apply bar_goto; [done|lia|]. rewrite Hst. destruct Hp; auto.
  - intros j Hj. destruct (decide (j = u)) as [->|Hne]; [by rewrite fupd_eq|rewrite fupd_ne by done; by apply Hsol].
  - by apply main_ok_upd.
  - intros j Hj. destruct (decide (j = u)) as [->|Hne]; [|rewrite fupd_ne by done; by apply Hborn].
    rewrite fupd_eq. rewrite <- (Hborn u Hu). by split.
  - destruct (sy_pc s n); done.
  - intros _ j Hj. destruct (decide (j = u)) as [->|Hne]; [by rewrite fupd_eq|]. rewrite fupd_ne, Ho by done. by apply Htab.
Qed.

(** A step that changes no state. *)
Lemma soldier_goes s u p :
  live s -> (u < n)%nat -> sy_pc s u <> Unborn -> sy_pc s u <> Gone -> st_of (sy_pc s u) = None ->
  odd_round (sy_round s u) -> st_of p = None \/ st_of p = Some B_lock_pre -> p <> Unborn ->
  (forall i, p <> InBar B_lock_pre (K_loop i)) -> soldier_ok u p (sy_round s u) -> live (goto u p s).
Proof.
  intros Hl Hu Hub Hgo Hst Hod Hp Hpu Hkl Hs.
  assert (Hns : setup (sy_pc s n) = false).
  { destruct (setup (sy_pc s n)) eqn:E; [|done]. destruct (setup_round s Hl E) as [Hsn H0].
    destruct (all_at_start s Hl Hsn H0 u Hu). unfold odd_round in Hod. lia. }
  assert (Es : set_soldiers (sy_soldiers s) s = s) by (by destruct s).
  rewrite <- Es. apply soldier_moves; try done; [unfold odd_round in Hod; lia|apply Hl|].
  destruct (lv_table s Hl Hns u Hu) as (x & Hx & Ht & Hst'). exists x. split_and!; [done|done|].
  rewrite (odd_stage u p _ Hs Hod). rewrite (odd_stage u _ _ (lv_soldiers s Hl u Hu) Hod) in Hst'. done.
Qed.

(** What a soldier reads is the round it is in. *)
Lemma seen_state s t i :
  live s -> (t <= n)%nat -> st_of (sy_pc s t) = None -> odd_round (sy_round s t) -> (i < n)%nat ->
  states s !! i = sq (rnd (sy_round s t)) !! i.
Proof.
  intros Hl Ht Hst Ho Hi.
  assert (Hns : setup (sy_pc s n) = false).
  { destruct (setup (sy_pc s n)) eqn:E; [|done]. destruct (setup_round s Hl E) as [Hsn H0]. unfold odd_round in Ho.
    destruct (decide (t = n)) as [->|]; [lia|]. destruct (all_at_start s Hl Hsn H0 t); lia. }
  destruct (lv_table s Hl Hns i Hi) as (x & Hx & _ & Hsq). rewrite (all_in_round s t Hl Ht Hst Ho i Hi) in Hsq.
  unfold states. by rewrite list_lookup_fmap, Hx, Hsq.
Qed.

Lemma round_bound s t : live s -> (t <= n)%nat -> (sy_round s t <= 2 * T + 1)%nat.
Proof.
  intros Hl Ht. destruct (decide (t = n)) as [->|Hne].
  - pose proof (lv_main s Hl) as Hm. unfold main_ok, odd_round, even_round in Hm. repeat case_match; lia.
  - pose proof (lv_soldiers s Hl t ltac:(lia)) as Hs. unfold soldier_ok, odd_round, even_round in Hs. repeat case_match; lia.
Qed.

Lemma find_own s u : live s -> setup (sy_pc s n) = false -> (u < n)%nat -> find_index tid u s = Some u.
Proof.
  intros Hl Hns Hu. unfold find_index. destruct (lv_table s Hl Hns u Hu) as (x & Hx & Htd & _).
  assert (Hf : list_find (fun x => so_tid x = tid u) (sy_soldiers s) = Some (u, x)); [|by rewrite Hf].
  apply list_find_Some. split_and!; [done|done|]. intros j y Hy Hj Hty.
  destruct (lv_table s Hl Hns j ltac:(lia)) as (y' & Hy' & Htj & _). assert (y' = y) as -> by congruence.
  assert (j = u); [|lia]. apply Htid; [lia|done|congruence].
Qed.

Lemma seen_left s u : live s -> (u < n)%nat -> st_of (sy_pc s u) = None -> odd_round (sy_round s u) ->
  (rnd (sy_round s u) <= T)%nat ->
  exists a, left_of (states s) u = Some a /\ left_of (sq (rnd (sy_round s u))) u = Some a.
Proof.
  intros Hl Hu Hst Ho Hr. unfold left_of. case_decide; [by eexists|].
  rewrite (seen_state s u) by (done || lia). destruct (squad_lookup (rnd (sy_round s u)) (Nat.pred u)) as [x ->]; [done|lia|by eexists].
Qed.

Lemma seen_right s u : live s -> (u < n)%nat -> st_of (sy_pc s u) = None -> odd_round (sy_round s u) ->
  (rnd (sy_round s u) <= T)%nat ->
  exists a, right_of n (states s) u = Some a /\ right_of n (sq (rnd (sy_round s u))) u = Some a.
Proof.
  intros Hl Hu Hst Ho Hr. unfold right_of. case_decide; [by eexists|].
  rewrite (seen_state s u) by (done || lia). destruct (squad_lookup (rnd (sy_round s u)) (S u)) as [x ->]; [done|lia|by eexists].
Qed.

(** A soldier writes its new state. *)
Lemma soldier_writes s u y :
  live s -> (u < n)%nat -> sy_pc s u = S_write u y ->
  live (goto u (InBar B_lock_pre (K_loop u)) (set_soldiers (alter (set_so_state y) u (sy_soldiers s)) s)).
Proof.
  intros Hl Hu Hpc. pose proof (lv_soldiers s Hl u Hu) as Hs. rewrite Hpc in Hs. destruct Hs as (_ & He & Hr & Hy).
  assert (Hns : setup (sy_pc s n) = false).
  { destruct (setup (sy_pc s n)) eqn:E; [|done]. destruct (setup_round s Hl E) as [Hsn H0].
    destruct (all_at_start s Hl Hsn H0 u Hu). unfold even_round in He. lia. }
  apply soldier_moves; try (by rewrite Hpc); try done.
  - unfold even_round in He. lia.
  - by right.
  - by rewrite length_alter, (lv_length s Hl).
  - intros j Hj. by rewrite list_lookup_alter_ne.
  - destruct (lv_table s Hl Hns u Hu) as (x & Hx & Ht & _). exists (set_so_state y x).
    rewrite list_lookup_alter_eq, Hx. split_and!; [done|done|]. unfold stage, even_round in *.
    remember (rnd (sy_round s u)) as r eqn:Er. rewrite He, half_even. done.
Qed.

Lemma soldier_step s u :
  live s -> (u < n)%nat -> sy_pc s u <> Unborn -> sy_pc s u <> Gone -> sy_pc s u <> S_exit -> st_of (sy_pc s u) = None ->
  exists s', soldier_func n tid u (sy_pc s u) s = Some s' /\ live s'.
Proof.
  intros Hl Hu Hub Hgo Hex Hst. pose proof (lv_soldiers s Hl u Hu) as Hs.
  assert (Go : forall p, odd_round (sy_round s u) -> st_of p = None \/ st_of p = Some B_lock_pre -> p <> Unborn ->
    (forall i, p <> InBar B_lock_pre (K_loop i)) -> soldier_ok u p (sy_round s u) -> live (goto u p s))
    by (intros; by apply soldier_goes).
  destruct (sy_pc s u) eqn:Epc; try done; cbn [soldier_func soldier_ok] in *.
  - assert (Hns : setup (sy_pc s n) = false).
    { destruct (setup (sy_pc s n)) eqn:E; [|done]. destruct (setup_round s Hl E) as [Hsn H0].
      destruct (all_at_start s Hl Hsn H0 u Hu). lia. }
    rewrite find_own by done. eexists. split; [done|]. rewrite Hs in Go. apply Go; try done; [by left|].
    split_and!; [done|done|apply Nat.le_0_l].
  - destruct Hs as (-> & Ho & Hr). assert (Hsee : states s !! u = sq (rnd (sy_round s u)) !! u)
      by (apply seen_state; (done || lia || by rewrite Epc)).
    destruct (squad_lookup _ u Hr Hu) as [x Hx]. rewrite Hsee, Hx. cbn. eexists. split; [done|].
    destruct (Z.eqb_spec x sF) as [Ex|Ex]; apply Go; try done; try (by left).
    + destruct (decide (rnd (sy_round s u) = T)) as [E|]; [unfold odd_round in Ho; cbn; lia|].
      by destruct (squad_quiet (rnd (sy_round s u)) u x ltac:(lia) Hx).
    + split_and!; [done|done|]. destruct (decide (rnd (sy_round s u) = T)) as [E|]; [|lia].
      rewrite E in Hx. by pose proof (squad_fires u x Hx).
  - destruct Hs as (-> & Ho & Hr). rewrite (seen_state s u) by (done || lia || by rewrite Epc).
    destruct (squad_lookup (rnd (sy_round s u)) u ltac:(lia) Hu) as [x Hx]. rewrite Hx. cbn. eexists. split; [done|].
    apply Go; [done|by left|done|done|by split_and!].
  - destruct Hs as (-> & Ho & Hr & Hx). destruct (seen_left s u Hl Hu ltac:(by rewrite Epc) Ho ltac:(lia)) as (a & Ha & Ha').
    rewrite Ha. cbn. eexists. split; [done|]. apply Go; [done|by left|done|done|by split_and!].
  - destruct Hs as (-> & Ho & Hr & Hx & Ha). destruct (seen_right s u Hl Hu ltac:(by rewrite Epc) Ho ltac:(lia)) as (c & Hc & Hc').
    rewrite Hc. cbn. eexists. split; [done|]. apply Go; [done|by left|done|done|by split_and!].
  - destruct Hs as (-> & Ho & Hr & Hx & Ha & Hc). destruct (squad_lookup (S (rnd (sy_round s u))) u ltac:(lia) Hu) as [y Hy].
    pose proof (proj2 (squad_step _ _ _ Hr Hu) Hy) as Hnx. rewrite (next_of_eq _ _ _ _ _ _ Hx Ha Hc) in Hnx.
    rewrite Hnx. cbn. eexists. split; [done|].
    apply Go; [done|by right|done|done|by split_and!].
  - destruct Hs as (-> & Ho & Hr & Hy). eexists. split; [done|]. by apply soldier_writes.
Qed.

(** *** Steps of the main thread *)

Lemma main_moves s p l out :
  live s -> st_of (sy_pc s n) = None -> st_of p = None \/ st_of p = Some B_lock_pre ->
  main_ok p (sy_round s n) (sy_pc s) -> born p = born (sy_pc s n) -> length l = n -> main_setup p l ->
  (setup p = false -> forall u, (u < n)%nat -> exists x,
     l !! u = Some x /\ so_tid x = tid u /\ sq (stage (sy_pc s u) (sy_round s u)) !! u = Some (so_state x)) ->
  out = printed p (sy_round s n) ->
  live (mkSys l (sy_bar s) (fupd n p (sy_pc s)) (sy_round s) out).
Proof.
  intros Hl Hst Hp Hm Hb Hlen Hset Htab Hout. pose proof Hl as [Hbar Hlim Hsol Hmain Hl0 Hborn _ _ _].
  assert (Hne : forall u, (u < n)%nat -> fupd n p (sy_pc s) u = sy_pc s u) by (intros; apply fupd_ne; lia).
  split; cbn; rewrite ?fupd_eq; try done.
  - apply bar_goto; [done|lia|]. rewrite Hst. destruct Hp; auto.
  - intros u Hu. rewrite Hne by done. auto.
  - destruct p; try done; destruct Hm as (? & ? & Hj); (split_and!; [done|done|]); intros j ?; rewrite Hne by lia; auto.
  - intros u Hu. rewrite Hne, Hb by done. auto.
  - intros Hs u Hu. rewrite Hne by done. auto.
Qed.

(** The table while the threads are created. *)
Lemma alter_made i j f l : (i <= j)%nat -> made i l -> made i (alter f j l).
Proof. intros Hij Hm k Hk. rewrite list_lookup_alter_ne by lia. auto. Qed.

Lemma main_creates s i : live s -> sy_pc s n = M_create i -> live (goto n (M_tid i) (goto i (InBar B_lock_pre K_start) s)).
Proof.
  intros Hl Hpc. pose proof (lv_setup s Hl) as Hset. rewrite Hpc in Hset. destruct Hset as (Hi & Hmade & Hx).
  pose proof (lv_born s Hl i Hi) as Hb. rewrite Hpc in Hb. cbn in Hb. pose proof (proj2 Hb ltac:(lia)) as Hub.
  pose proof (lv_soldiers s Hl i Hi) as Hsi. rewrite Hub in Hsi. cbn in Hsi.
  pose proof Hl as [Hbar Hlim Hsol Hmain Hl0 Hborn _ _ Hout]. rewrite Hpc in Hmain, Hout.
  pose proof (bar_goto s i (InBar B_lock_pre K_start) Hl ltac:(lia) ltac:(right; by rewrite Hub)) as Hbar'.
  split; cbn; rewrite ?fupd_eq; try done.
  - eapply bar_inv_ext; [|done|exact Hbar']. intros u Hu. unfold fupd at 1. case_decide as E; [|done].
    subst u. rewrite fupd_ne, Hpc by lia. done.
  - intros u Hu. rewrite fupd_ne by lia. destruct (decide (u = i)) as [->|Hne]; [by rewrite fupd_eq|].
    rewrite fupd_ne by done. auto.
  - intros u Hu. rewrite fupd_ne by lia. destruct (decide (u = i)) as [->|Hne]; [rewrite fupd_eq; cbn; split; [done|lia]|].
    rewrite fupd_ne, Hborn, Hpc by done. cbn. lia.
Qed.

Lemma squad_start_at u : (u < n)%nat -> sq 0 !! u = Some (if decide (u = 0%nat) then sP else sQ).
Proof.
  intros Hu. change (sq 0) with (sP :: replicate (n - 1) sQ). destruct u as [|u]; [done|].
  change ((sP :: replicate (n - 1) sQ) !! S u) with (replicate (n - 1) sQ !! u). by rewrite lookup_replicate_2 by lia.
Qed.

Lemma main_setup_step s :
  live s -> setup (sy_pc s n) = true -> exists s', squad_main n tid n (sy_pc s n) s = Some s' /\ live s'.
Proof.
  intros Hl Hsu. destruct (setup_round s Hl Hsu) as [Hst H0]. pose proof (lv_setup s Hl) as Hset.
  pose proof (lv_length s Hl) as Hlen. pose proof (lv_out s Hl) as Hout.
  pose proof (main_moves s) as Go. specialize (Go) with (1 := Hl) (2 := Hst).
  destruct (sy_pc s n) eqn:Epc; try done; cbn [squad_main main_setup] in *.
  - destruct Hset as [Hi Hmade]. eexists. split; [done|]. unfold goto, set_soldiers. cbn. destruct (lookup_lt_is_Some_2 (sy_soldiers s) i) as [x Hx]; [lia|].
    apply Go; try done; [by left|by rewrite length_alter|]. split_and!; [done|by apply alter_made|].
    exists (set_so_state sQ x). by rewrite list_lookup_alter_eq, Hx.
  - eexists. split; [done|]. by apply main_creates.
  - destruct Hset as (Hi & Hmade & x & Hx & Hq). eexists. split; [done|]. unfold goto, set_soldiers. cbn.
    apply Go; try done; [by left|by rewrite length_alter|]. split; [done|]. intros j Hj.
    destruct (decide (j = i)) as [->|Hne]; [exists (set_so_tid (tid i) x); by rewrite list_lookup_alter_eq, Hx|].
    rewrite list_lookup_alter_ne by done. apply Hmade. lia.
  - destruct Hset as (Hi & Hmade). eexists. split; [done|]. unfold goto, set_soldiers. cbn [sy_soldiers sy_bar sy_pc sy_round sy_out].
    assert (Hm2 : made (S i) (alter (set_so_index (Z.of_nat i)) i (sy_soldiers s))).
    { intros j Hj. destruct (Hmade j Hj) as (x & Hx & Hq & Ht). destruct (decide (j = i)) as [->|Hne].
      - exists (set_so_index (Z.of_nat i) x). by rewrite list_lookup_alter_eq, Hx.
      - exists x. by rewrite list_lookup_alter_ne. }
    destruct (Nat.ltb_spec (S i) n); apply Go; try done; try (by left); try (by rewrite length_alter).
    + cbn. lia.
    + cbn. by replace n with (S i) at 1 by lia.
  - eexists. split; [done|]. unfold goto, set_soldiers. cbn [sy_soldiers sy_bar sy_pc sy_round sy_out].
    apply Go; try done; [by left|rewrite H0; split; [done|lia]|by rewrite length_alter| |by rewrite Hout, H0].
    intros _ u Hu. destruct (Hset u Hu) as (x & Hx & Hq & Ht).
    assert (Hst' : st_of (sy_pc s n) = None) by (by rewrite Epc).
    destruct (all_at_start s Hl Hst' H0 u Hu) as [_ ->]. rewrite squad_start_at by done.
    destruct (decide (u = 0%nat)) as [->|Hne]; [exists (set_so_state sP x)|exists x];
      rewrite ?list_lookup_alter_eq, ?list_lookup_alter_ne, Hx by done; [done|by rewrite Hq].
Qed.

Lemma lines_S r : lines (S r) = lines r ++ squad_line (sq r).
Proof. unfold lines. by rewrite seq_S, flat_map_app; cbn; rewrite app_nil_r. Qed.

(** A step of the main thread that leaves the table alone. *)
Lemma main_goes s p out :
  live s -> setup (sy_pc s n) = false -> st_of (sy_pc s n) = None -> st_of p = None \/ st_of p = Some B_lock_pre ->
  main_ok p (sy_round s n) (sy_pc s) -> setup p = false -> out = printed p (sy_round s n) ->
  live (mkSys (sy_soldiers s) (sy_bar s) (fupd n p (sy_pc s)) (sy_round s) out).
Proof.
  intros Hl Hns Hst Hp Hm Hnp Hout. apply main_moves; try done; [|apply Hl| |].
  - destruct p, (sy_pc s n); done.
  - destruct p; done.
  - intros _. by apply (lv_table s Hl).
Qed.

(** A soldier exits, and the main thread is woken up if it sleeps on it. *)
Lemma soldier_exits s u : live s -> (u < n)%nat -> sy_pc s u = S_exit -> live (exit_wakes n u s).
Proof.
  intros Hl Hu Hpc. pose proof (lv_soldiers s Hl u Hu) as Hs. rewrite Hpc in Hs.
  change (sy_round s u = (2 * T + 1)%nat) in Hs. assert (Hg : live (goto u Gone s)).
  { apply soldier_goes; rewrite ?Hpc; try done; [|by left]. unfold odd_round. rewrite Hs, rnd_odd. done. }
  unfold exit_wakes. destruct (sy_pc s n) eqn:Epc; try done. case_decide; [|done]. subst i.
  assert (Epc' : sy_pc (goto u Gone s) n = M_asleep u) by (cbn; by rewrite fupd_ne by lia).
  pose proof (lv_main _ Hg) as Hm. pose proof (lv_out _ Hg) as Hout. rewrite Epc' in Hm, Hout.
  apply (main_goes (goto u Gone s)); try done; try (by rewrite Epc'). by left.
Qed.

(** The state that the main thread prints. *)
Lemma print_sees s first i :
  live s -> sy_pc s n = M_print first i -> (i < n)%nat ->
  exists x, states s !! i = Some x /\ sq (rnd (sy_round s n)) !! i = Some x.
Proof.
  intros Hl Hpc Hi. pose proof (lv_main s Hl) as Hm. rewrite Hpc in Hm. destruct first.
  - destruct Hm as [H0 _]. destruct (lv_table s Hl ltac:(by rewrite Hpc) i Hi) as (x & Hx & _ & Hsq).
    destruct (all_at_start s Hl ltac:(by rewrite Hpc) H0 i Hi) as [_ E]. rewrite E in Hsq. rewrite H0.
    exists (so_state x). split; [|done]. unfold states. by rewrite list_lookup_fmap, Hx.
  - destruct Hm as (Ho & Hr & _). rewrite (seen_state s n) by (done || by rewrite Hpc).
    destruct (squad_lookup (rnd (sy_round s n)) i) as [x ->]; [lia|done|by eexists].
Qed.

Lemma main_prints s first i :
  live s -> sy_pc s n = M_print first i -> exists s', squad_main n tid n (M_print first i) s = Some s' /\ live s'.
Proof.
  intros Hl Hpc. pose proof (lv_out s Hl) as Hout. pose proof (lv_main s Hl) as Hm. rewrite Hpc in Hout, Hm.
  assert (Hr : (rnd (sy_round s n) <= T)%nat) by (destruct first; [destruct Hm as [-> _]; apply Nat.le_0_l|destruct Hm as (_ & ? & _); lia]).
  assert (Hi : (i <= n)%nat) by (destruct first; [by destruct Hm|by destruct Hm as (_ & _ & ?)]).
  cbn [squad_main]. destruct (Nat.ltb_spec i n) as [Hlt|Hge].
  - destruct (print_sees s first i Hl Hpc Hlt) as (x & -> & Hx). cbn. eexists. split; [done|]. unfold goto, print. cbn.
    apply main_goes; try done; try (by rewrite Hpc); [by left| |].
    + destruct first; [destruct Hm; by split; [|lia]|]. destruct Hm as (? & ? & _). split_and!; (done || lia).
    + rewrite Hout. unfold printed. cbn [setup]. rewrite (take_S_r _ _ _ Hx), fmap_app, app_assoc. done.
  - eexists. split; [done|]. unfold goto, print. cbn [sy_soldiers sy_bar sy_pc sy_round sy_out].
    assert (Hline : sy_out s ++ [10] = lines (S (rnd (sy_round s n)))).
    { rewrite Hout, lines_S. unfold printed. cbn [setup]. rewrite take_ge by (rewrite squad_length by done; lia). by rewrite <- app_assoc. }
    apply main_goes; try done; try (by rewrite Hpc); destruct first; try (by left); try (by right); try done.
    + by destruct Hm.
    + destruct Hm as (? & ? & _). split; [done|lia].
Qed.

Lemma main_tests s : live s -> sy_pc s n = M_test -> exists s', squad_main n tid n M_test s = Some s' /\ live s'.
Proof.
  intros Hl Hpc. pose proof (lv_out s Hl) as Hout. pose proof (lv_main s Hl) as Hm. rewrite Hpc in Hout, Hm.
  destruct Hm as [Ho Hr]. cbn [squad_main]. rewrite (seen_state s n) by (done || lia || by rewrite Hpc).
  destruct (squad_lookup (rnd (sy_round s n)) 0 Hr ltac:(lia)) as [x Hx]. rewrite Hx. cbn. eexists. split; [done|]. unfold goto. cbn.
  assert (Hq : x = sF <-> rnd (sy_round s n) = T).
  { split; [intros ->|intros E; rewrite E in Hx; by apply squad_fires in Hx].
    destruct (decide (rnd (sy_round s n) = T)); [done|]. by destruct (squad_quiet (rnd (sy_round s n)) 0 sF ltac:(lia) Hx). }
  destruct (Z.eqb_spec x sF) as [Ex|Ex]; apply main_goes; try done; try (by rewrite Hpc); try (by left); try (by right).
  - apply Hq in Ex. unfold odd_round in Ho. split_and!; [lia|lia|]. intros j Hj. lia.
  - split; [done|]. assert (rnd (sy_round s n) <> T) by (by rewrite <- Hq). lia.
Qed.

(** [kthread_join] goes on until it sleeps. *)
Definition joining (p : pc) : bool := match p with M_join _ | M_wait _ | M_doze _ => true | _ => false end.

Lemma main_joins s :
  live s -> joining (sy_pc s n) = true ->
  exists s', squad_main n tid n (sy_pc s n) s = Some s' /\ (live s' \/ ended s').
Proof.
  intros Hl Hj. pose proof (lv_out s Hl) as Hout. pose proof (lv_main s Hl) as Hm.
  pose proof (main_goes s) as Go. specialize (Go) with (1 := Hl).
  assert (Hnext : forall i, exited s i = true -> (forall j, (j < i)%nat -> sy_pc s j = Gone) -> forall j, (j < S i)%nat -> sy_pc s j = Gone).
  { intros i He Hg j Hlt. destruct (decide (j = i)) as [->|]; [|apply Hg; lia]. unfold exited in He. by destruct (sy_pc s i). }
  destruct (sy_pc s n) eqn:Epc; try done; cbn [squad_main] in *; destruct Hm as (Hc & Hi & Hg).
  - destruct (Nat.ltb_spec i n) as [Hlt|Hge]; (eexists; split; [done|]).
    + left. unfold goto. destruct (exited s i) eqn:He; apply Go; try done; try (by left); cbn; split_and!; (done || lia || by apply Hnext).
    + right. split; cbn.
      * intros t Ht. destruct (decide (t = n)) as [->|]; [apply fupd_eq|]. rewrite fupd_ne by done. apply Hg. lia.
      * rewrite Hout. unfold printed. cbn [setup]. by rewrite Hc, rnd_odd.
  - eexists. split; [done|]. left. unfold goto.
    destruct (exited s i) eqn:He; apply Go; try done; try (by left); cbn; split_and!; (done || lia || by apply Hnext).
  - eexists. split; [done|]. left. unfold goto. apply Go; try done. by left.
Qed.

(** *** Steps at the barrier *)

Definition after_bar (k : cont) (o : status) : pc := match o with Some p => InBar p k | None => resume k end.

Lemma bar_stmt_inv s t p k b o :
  live s -> (t <= n)%nat -> sy_pc s t = InBar p k -> inc_barrier p (sy_bar s) = Some (b, o) ->
  bar_inv (S n) b (fun u => st_of (fupd t (after_bar k o) (sy_pc s) u)) (moved t o (sy_round s)) /\ blimit b = Z.of_nat (S n).
Proof.
  intros Hl Ht Hpc Hs.
  destruct (bar_step (S n) _ (fun u => st_of (sy_pc s u)) (sy_round s) t p b o (lv_limit s Hl) (lv_bar s Hl) ltac:(lia) ltac:(cbn; by rewrite Hpc) Hs) as [Hb Hlim].
  split; [|done]. destruct (decide (st_of (after_bar k o) = o)) as [E|Hne].
  - eapply bar_inv_ext; [|done|exact Hb]. intros u _. unfold fupd. by case_decide.
  - assert (o = None) as -> by (by destruct o). assert (k = K_main_calc) as -> by (by destruct k).
    apply (bar_enter _ _ _ _ t) in Hb; [|by rewrite fupd_eq]. eapply bar_inv_ext; [|done|exact Hb].
    intros u _. unfold fupd. by case_decide.
Qed.

Lemma moved_ne t o c u : u <> t -> moved t o c u = c u.
Proof. intros Hne. destruct o; [done|]. by apply fupd_ne. Qed.
Lemma moved_eq t o c : moved t o c t = match o with Some _ => c t | None => S (c t) end.
Proof. destruct o; [done|]. apply fupd_eq. Qed.

Lemma even_odd c : even_round c -> odd_round (S c) /\ rnd (S c) = S (rnd c).
Proof.
  unfold even_round, odd_round. intros Hc. remember (rnd c) as r eqn:Er. clear Er. subst c.
  replace (S (2 * r + 2))%nat with (2 * S r + 1)%nat by lia. rewrite rnd_odd. lia.
Qed.
Lemma odd_even c : odd_round c -> even_round (S c) /\ rnd (S c) = rnd c.
Proof.
  unfold even_round, odd_round. intros Hc. remember (rnd c) as r eqn:Er. clear Er. subst c.
  replace (S (2 * r + 1))%nat with (2 * r + 2)%nat by lia. rewrite rnd_even. lia.
Qed.

Lemma soldier_passes u p k c o :
  soldier_ok u (InBar p k) c ->
  let c' := match o with Some _ => c | None => S c end in
  soldier_ok u (after_bar k o) c' /\ stage (after_bar k o) c' = stage (InBar p k) c /\ after_bar k o <> Unborn.
Proof.
  intros Hs. destruct o as [q|]; [by destruct k|]. destruct k as [|i y|i| | |]; try done; cbn [soldier_ok after_bar resume] in *.
  - by subst c.
  - destruct Hs as (-> & Ho & Hr & Hy). destruct (odd_even c Ho) as [He Er]. unfold stage. rewrite Er. by split_and!.
  - destruct Hs as (-> & He & Hr). destruct (even_odd c He) as [Ho Er]. unfold stage. rewrite Er. split_and!; [done|done|lia| |done].
    unfold even_round in He. remember (rnd c) as r eqn:E. by rewrite He, half_even.
Qed.

Lemma soldier_at_bar s u p k s' :
  live s -> (u < n)%nat -> sy_pc s u = InBar p k -> bar_stmt u p k s = Some s' -> live s'.
Proof.
  intros Hl Hu Hpc Hs. unfold bar_stmt in Hs. destruct (inc_barrier p (sy_bar s)) as [[b o]|] eqn:Ei; [|done].
  fold (after_bar k o) in Hs. injection Hs as <-. destruct (bar_stmt_inv s u p k b o Hl ltac:(lia) Hpc Ei) as [Hb Hlim].
  pose proof Hl as [_ _ Hsol Hmain Hl0 Hborn Hset Htab Hout]. pose proof (Hsol u Hu) as Hsu. rewrite Hpc in Hsu.
  destruct (soldier_passes u p k _ o Hsu) as (Hok & Hstg & Hnu).
  split; cbn; rewrite ?(fupd_ne u _ _ n), ?moved_ne by lia; try done.
  - intros j Hj. destruct (decide (j = u)) as [->|Hne]; [by rewrite fupd_eq, moved_eq|]. rewrite fupd_ne, moved_ne by done. auto.
  - apply main_ok_upd; [done|by rewrite Hpc].
  - intros j Hj. destruct (decide (j = u)) as [->|Hne]; [|rewrite fupd_ne by done; by apply Hborn].
    rewrite fupd_eq, <- (Hborn u Hu), Hpc. by split.
  - intros Hns j Hj. destruct (decide (j = u)) as [->|Hne]; [|rewrite fupd_ne, moved_ne by done; by apply Htab].
    rewrite fupd_eq, moved_eq, Hstg, <- Hpc. by apply Htab.
Qed.

Lemma main_passes p k c o pcs :
  main_ok (InBar p k) c pcs ->
  let c' := match o with Some _ => c | None => S c end in
  (forall pcs', main_ok (after_bar k o) c' pcs') /\ printed (after_bar k o) c' = printed (InBar p k) c /\
  setup (after_bar k o) = false /\ born (after_bar k o) = n /\ (forall l, main_setup (after_bar k o) l).
Proof.
  intros Hm. destruct o as [q|]; [by destruct k|]. destruct k; try done; cbn [main_ok after_bar resume] in *.
  - subst c. split_and!; try done. intros _. split; [done|]. apply Nat.le_0_l.
  - destruct Hm as [Ho Hr]. destruct (odd_even c Ho) as [He Er]. unfold printed. cbn [setup]. rewrite Er. by split_and!.
  - destruct Hm as [He Hr]. destruct (even_odd c He) as [Ho Er]. unfold printed. cbn [setup]. rewrite Er. split_and!; try done; try lia.
    + intros _. split_and!; [done|lia|lia|lia].
    + by rewrite take_0, app_nil_r.
Qed.

Lemma main_at_bar s p k s' :
  live s -> sy_pc s n = InBar p k -> bar_stmt n p k s = Some s' -> live s'.
Proof.
  intros Hl Hpc Hs. unfold bar_stmt in Hs. destruct (inc_barrier p (sy_bar s)) as [[b o]|] eqn:Ei; [|done].
  fold (after_bar k o) in Hs. injection Hs as <-. destruct (bar_stmt_inv s n p k b o Hl ltac:(lia) Hpc Ei) as [Hb Hlim].
  pose proof Hl as [_ _ Hsol Hmain Hl0 Hborn Hset Htab Hout]. rewrite Hpc in Hmain, Hout, Htab.
  destruct (main_passes p k _ o _ Hmain) as (Hok & Hpr & Hns & Hbn & Hms).
  split; cbn; rewrite ?fupd_eq, ?moved_eq; try done.
  - intros j Hj. rewrite fupd_ne, moved_ne by lia. auto.
  - intros j Hj. rewrite fupd_ne, Hborn, Hpc, Hbn by lia. done.
  - intros _ j Hj. rewrite fupd_ne, moved_ne by lia. auto.
  - by rewrite Hpr.
Qed.

(** *** All steps *)

Lemma live_start junk : length junk = n -> live (start n junk).
Proof.
  intros Hlen. assert (Hn0 : (n <? n)%nat = false) by (apply Nat.ltb_ge; lia). split; cbn -[Nat.ltb]; rewrite ?Hn0; try done.
  - apply bar_start; [lia| |done]. intros u. by destruct (u <? n)%nat.
  - intros u Hu. by rewrite (proj2 (Nat.ltb_lt u n) Hu).
  - intros u Hu. rewrite (proj2 (Nat.ltb_lt u n) Hu). cbn. split; [lia|done].
  - split; [lia|]. intros j Hj. lia.
Qed.

(** A soldier outside of the barrier, and the main thread outside of it, go on,
    unless the main thread sleeps. *)
Lemma soldier_runs s u :
  live s -> (u < n)%nat -> sy_pc s u <> Unborn -> sy_pc s u <> Gone -> st_of (sy_pc s u) = None ->
  exists s', step n tid u s = Some s' /\ live s'.
Proof.
  intros Hl Hu Hub Hgo Hst. assert (Hx : sy_pc s u = S_exit \/ sy_pc s u <> S_exit) by (destruct (sy_pc s u); auto).
  destruct Hx as [Hx|Hx].
  - exists (exit_wakes n u s). split; [|by apply soldier_exits]. unfold step. by rewrite Hx, (proj2 (Nat.ltb_lt u n) Hu).
  - destruct (soldier_step s u Hl Hu Hub Hgo Hx Hst) as (s' & E & Hs'). exists s'. split; [|done].
    unfold step. rewrite (proj2 (Nat.ltb_lt u n) Hu). by destruct (sy_pc s u).
Qed.

Lemma main_runs s :
  live s -> st_of (sy_pc s n) = None -> (forall i, sy_pc s n <> M_asleep i) ->
  exists s', step n tid n s = Some s' /\ (live s' \/ ended s').
Proof.
  intros Hl Hst Hj. pose proof (lv_main s Hl) as Hm.
  assert (Hrun : exists s', squad_main n tid n (sy_pc s n) s = Some s' /\ (live s' \/ ended s')).
  { destruct (setup (sy_pc s n)) eqn:Esu; [destruct (main_setup_step s Hl Esu) as (s' & ? & ?); eauto|].
    destruct (joining (sy_pc s n)) eqn:Ejo; [by apply main_joins|].
    destruct (sy_pc s n) eqn:Epc; try done; [destruct (main_prints s first i Hl Epc) as (s' & ? & ?); eauto| |by destruct (Hj i)].
    destruct (main_tests s Hl Epc) as (s' & ? & ?); eauto. }
  destruct Hrun as (s' & E & Hs'). exists s'. split; [|done]. unfold step.
  rewrite (proj2 (Nat.ltb_ge n n)) by lia. by destruct (sy_pc s n).
Qed.

Lemma live_step s t s' : live s -> (t <= n)%nat -> step n tid t s = Some s' -> live s' \/ ended s'.
Proof.
  intros Hl Ht Hs. destruct (decide (t = n)) as [->|Hne].
  - destruct (st_of (sy_pc s n)) as [p|] eqn:Hst.
    + left. destruct (sy_pc s n) as [|q k| | | | | | | | | | | | | | | | | | | |] eqn:Epc; try done. unfold step in Hs. rewrite Epc in Hs. by eapply main_at_bar.
    + destruct (main_runs s Hl Hst) as (s2 & E & ?); [|congruence]. intros i E. unfold step in Hs.
      by rewrite E, (proj2 (Nat.ltb_ge n n)) in Hs by lia.
  - left. assert (Hu : (t < n)%nat) by lia. destruct (st_of (sy_pc s t)) as [p|] eqn:Hst.
    + destruct (sy_pc s t) as [|q k| | | | | | | | | | | | | | | | | | | |] eqn:Epc; try done. unfold step in Hs. rewrite Epc in Hs. by eapply soldier_at_bar.
    + destruct (soldier_runs s t Hl Hu) as (s2 & E & ?); [| |done|congruence]; intros E; unfold step in Hs; by rewrite E in Hs.
Qed.

(** The program gets stuck only when the main thread has missed an exit: all
    soldiers are gone and it sleeps in [kthread_join]. *)
Definition missed (s : sys) : Prop :=
  (forall u, (u < n)%nat -> sy_pc s u = Gone) /\ (exists i, (i < n)%nat /\ sy_pc s n = M_asleep i) /\ sy_out s = lines (S T).

Lemma asleep_progress s i : live s -> sy_pc s n = M_asleep i ->
  (exists t, (t < n)%nat /\ sy_pc s t <> Gone) \/ missed s.
Proof.
  intros Hl Hpc. pose proof (lv_main s Hl) as Hm. pose proof (lv_out s Hl) as Hout. rewrite Hpc in Hm, Hout.
  destruct Hm as (Hc & Hi & _).
  destruct (decide (Exists (fun u => exited s u = false) (seq 0 n))) as [He|He].
  - left. apply Exists_exists in He as (u & Hu%elem_of_seq & He). exists u. split; [lia|].
    intros E. unfold exited in He. by rewrite E in He.
  - right. split_and!; [|by exists i|rewrite Hout; unfold printed; cbn [setup]; by rewrite Hc, rnd_odd].
    intros u Hu. apply not_Exists_Forall in He; [|apply _]. rewrite Forall_forall in He.
    specialize (He u ltac:(apply elem_of_seq; lia)). cbn in He. unfold exited in He. destruct (sy_pc s u); congruence.
Qed.

Lemma live_progress s : live s -> (exists t s', (t <= n)%nat /\ step n tid t s = Some s') \/ missed s.
Proof.
  intros Hl. destruct (bar_progress (S n) _ _ _ (lv_bar s Hl)) as [(t & p & Ht & Hst & [[b o] Hi])|(k & u & Hu & Hst & Hall)].
  { left. exists t. destruct (sy_pc s t) as [|q c| | | | | | | | | | | | | | | | | | | |] eqn:Epc; try done. injection Hst as ->. eexists. split; [lia|].
    unfold step. rewrite Epc. unfold bar_stmt. by rewrite Hi. }
  assert (Hsol : forall j, (j < n)%nat -> sy_pc s j <> Unborn -> sy_pc s j <> Gone -> st_of (sy_pc s j) = None ->
    exists t s', (t <= n)%nat /\ step n tid t s = Some s').
  { intros j Hj Hub Hgo Hs. destruct (soldier_runs s j Hl Hj Hub Hgo Hs) as (s' & E & _). exists j, s'. split; [lia|done]. }
  pose proof (lv_main s Hl) as Hm. destruct (Hall n ltac:(lia)) as [Hcn Hsn].
  assert (Hborn : forall j, (j < n)%nat -> setup (sy_pc s n) = false -> sy_pc s j <> Unborn).
  { intros j Hj Hns E. apply (lv_born s Hl j Hj) in E. destruct (sy_pc s n); cbn in E; done || lia. }
  destruct (st_of (sy_pc s n)) as [q|] eqn:Hmst.
  - left. assert (Hun : u <> n) by (intros ->; congruence). apply (Hsol u); [lia| | |done].
    + apply Hborn; [lia|]. by destruct (sy_pc s n).
    + intros Hg. pose proof (lv_soldiers s Hl u ltac:(lia)) as Hs. rewrite Hg in Hs. cbn in Hs. destruct (Hall u Hu) as [Hcu _].
      destruct (sy_pc s n) as [|q' c| | | | | | | | | | | | | | | | | | | |]; try done. unfold main_ok, odd_round, even_round in Hm.
      destruct c; lia.
  - assert (Hj : (exists i, sy_pc s n = M_asleep i) \/ forall i, sy_pc s n <> M_asleep i) by (destruct (sy_pc s n); eauto; right; done).
    destruct Hj as [[i Hj]|Hj]; [|left; destruct (main_runs s Hl Hmst Hj) as (s' & E & _); exists n, s'; split; [lia|done]].
    destruct (asleep_progress s i Hl Hj) as [(j & Hjn & Hgo)|]; [left|by right]. rewrite Hj in Hm. destruct Hm as (Hc & _).
    apply (Hsol j); [done|by apply Hborn; [|rewrite Hj]|done|].
    destruct (Hall j ltac:(lia)) as [Hcj [Hs|Hs]]; [done|]. pose proof (lv_soldiers s Hl j Hjn) as Hso.
    destruct (sy_pc s j) as [|q' c| | | | | | | | | | | | | | | | | | | |]; try done. unfold soldier_ok, odd_round, even_round in Hso.
    destruct c; lia.
Qed.

(** *** Termination *)

(** An upper bound of the steps of a thread before its next barrier is passed
    or it exits. *)
Definition bar_rank (p : bpc) : nat :=
  match p with
  | B_lock_pre => 8 | B_inc => 7 | B_test_in => 6 | B_unlock_pre_in | B_unlock_post_in => 5
  | B_lock_post => 4 | B_dec => 3 | B_test_out => 2 | B_unlock_post_out | B_unlock_pre_out => 1
  end.
Definition rank (p : pc) : nat :=
  match p with
  | Unborn => 9
  | InBar p _ => bar_rank p
  | S_exit => 4
  | S_find => 14 | S_test _ => 13 | S_curr _ => 12 | S_left _ _ => 11 | S_right _ _ _ => 10 | S_trans _ _ _ _ => 9 | S_write _ _ => 9
  | M_state i => 2 * n + 4 * (n - i) + 23 | M_create i => 2 * n + 4 * (n - i) + 22
  | M_tid i => 2 * n + 4 * (n - i) + 21 | M_index i => 2 * n + 4 * (n - i) + 20
  | M_general => 2 * n + 19
  | M_print true i => n + 11 + (n - i)
  | M_print false i => 4 * n + 11 + (n - i)
  | M_test => 4 * n + 10
  | M_join i => 4 * (n - i) + 4 | M_wait i => 4 * (n - i) + 3 | M_doze i => 4 * (n - i) + 2 | M_asleep i => 4 * (n - i) + 1
  | Gone => 0
  end.
Definition max_rank : nat := 6 * n + 23.
Definition steps_left (p : pc) (c : nat) : nat := (2 * T + 1 - c) * S max_rank + rank p.

Fixpoint total (f : nat -> nat) (k : nat) : nat :=
  match k with
  | O => 0
  | S k' => total f k' + f k'
  end.

Lemma total_le f g k : (forall u, (u < k)%nat -> (f u <= g u)%nat) -> (total f k <= total g k)%nat.
Proof. induction k as [|k IH]; intros H; cbn; [lia|]. pose proof (H k ltac:(lia)). pose proof (IH ltac:(auto)). lia. Qed.

Lemma total_lt f g k t : (t < k)%nat -> (f t < g t)%nat -> (forall u, (u < k)%nat -> u <> t -> (f u <= g u)%nat) -> (total f k < total g k)%nat.
Proof.
  intros Ht Hlt Ho. induction k as [|k IH]; [lia|]. cbn. destruct (decide (t = k)) as [->|Hne].
  - pose proof (total_le f g k ltac:(intros u Hu; apply Ho; lia)). lia.
  - pose proof (IH ltac:(lia) ltac:(auto with lia)). pose proof (Ho k ltac:(lia) ltac:(lia)). lia.
Qed.

Lemma total_pair f g k t :
  (t < k)%nat -> (forall u, (u < k)%nat -> u <> t -> f u = g u) -> (f t + f k < g t + g k)%nat -> (total f (S k) < total g (S k))%nat.
Proof.
  intros Ht Ho Hlt. cbn.
  assert (Hsum : forall j, (t < j <= k)%nat -> (total f j + g t = total g j + f t)%nat); [|pose proof (Hsum k ltac:(lia)); lia].
  induction j as [|j IH]; intros Hj; [lia|]. cbn. destruct (decide (t = j)) as [->|].
  - assert (forall j', (j' <= j)%nat -> total f j' = total g j') as Hb; [|rewrite (Hb j) by lia; lia].
    induction j' as [|j' IH']; intros Hj'; [done|]. cbn. rewrite IH', Ho by lia. done.
  - rewrite Ho by lia. pose proof (IH ltac:(lia)). lia.
Qed.

Definition measure (s : sys) : nat := total (fun t => steps_left (sy_pc s t) (sy_round s t)) (S n).

Lemma rank_max p : (rank p <= max_rank)%nat.
Proof. unfold max_rank. destruct p; cbn; unfold bar_rank; repeat case_match; lia. Qed.

(** A step of soldier or main code brings the thread closer to a barrier. *)
Lemma soldier_rank u p s s' : p <> S_exit -> soldier_func n tid u p s = Some s' ->
  exists q, sy_pc s' = fupd u q (sy_pc s) /\ sy_round s' = sy_round s /\ (rank q < rank p)%nat.
Proof.
  intros Hx Hs. destruct p; cbn in Hs; try done.
  - destruct (find_index tid u s); injection Hs as <-; eexists; (split; [done|split; [done|cbn; lia]]).
  - apply bind_Some in Hs as (x & _ & [= <-]). eexists. split; [done|split; [done|]]. case_match; cbn; lia.
  - apply bind_Some in Hs as (x & _ & [= <-]). eexists. split; [done|split; [done|]]. cbn. lia.
  - apply bind_Some in Hs as (x & _ & [= <-]). eexists. split; [done|split; [done|]]. cbn. lia.
  - apply bind_Some in Hs as (x & _ & [= <-]). eexists. split; [done|split; [done|]]. cbn. lia.
  - apply bind_Some in Hs as (x & _ & [= <-]). eexists. split; [done|split; [done|]]. cbn. lia.
  - injection Hs as <-. eexists. split; [done|split; [done|]]. cbn. lia.
Qed.

Lemma main_rank p s s' : (forall i, p = M_wait i -> (i < n)%nat) -> squad_main n tid n p s = Some s' ->
  exists q, sy_round s' = sy_round s /\ (rank q < rank p)%nat /\
    (sy_pc s' = fupd n q (sy_pc s) \/ exists i, p = M_create i /\ sy_pc s' = fupd n q (fupd i (InBar B_lock_pre K_start) (sy_pc s))).
Proof.
  intros Hw Hs. destruct p; cbn -[Nat.ltb] in Hs; try done.
  - injection Hs as <-. eexists. split; [done|split; [|by left]]. cbn. lia.
  - injection Hs as <-. eexists. split; [done|split; [|right; by eexists]]. cbn. lia.
  - injection Hs as <-. eexists. split; [done|split; [|by left]]. cbn. lia.
  - injection Hs as <-. eexists. split; [done|split; [|by left]]. destruct (Nat.ltb_spec (S i) n); cbn; lia.
  - injection Hs as <-. eexists. split; [done|split; [|by left]]. cbn. lia.
  - destruct (Nat.ltb_spec i n).
    + apply bind_Some in Hs as (x & _ & [= <-]). eexists. split; [done|split; [|by left]]. destruct first; cbn; lia.
    + injection Hs as <-. eexists. split; [done|split; [|by left]]. destruct first; cbn; lia.
  - apply bind_Some in Hs as (x & _ & [= <-]). eexists. split; [done|split; [|by left]]. case_match; cbn; lia.
  - destruct (Nat.ltb_spec i n).
    + injection Hs as <-. eexists. split; [done|split; [|by left]]. destruct (exited s i); cbn; lia.
    + injection Hs as <-. eexists. split; [done|split; [|by left]]. cbn. lia.
  - injection Hs as <-. eexists. split; [done|split; [|by left]]. specialize (Hw i eq_refl). destruct (exited s i); cbn; lia.
  - injection Hs as <-. eexists. split; [done|split; [|by left]]. cbn. lia.
Qed.

(** A soldier that exits has more steps less than it gives to the main thread. *)
Lemma exit_measure s u : (u < n)%nat -> sy_pc s u = S_exit -> (measure (exit_wakes n u s) < measure s)%nat.
Proof.
  intros Hu Hpc. unfold measure. apply (total_pair _ _ n u Hu).
  - intros j Hj Hju. assert (E : sy_pc (exit_wakes n u s) j = sy_pc s j /\ sy_round (exit_wakes n u s) j = sy_round s j).
    { unfold exit_wakes. destruct (sy_pc s n); try (split; cbn; by rewrite ?fupd_ne by lia). case_decide; split; cbn; by rewrite ?fupd_ne by lia. }
    by rewrite (proj1 E), (proj2 E).
  - unfold exit_wakes, steps_left. rewrite Hpc. destruct (sy_pc s n) eqn:Epc;
      try (cbn; rewrite fupd_eq, fupd_ne, Epc by lia; cbn; lia). case_decide; cbn.
    + subst i. rewrite fupd_eq, !(fupd_ne n _ _ u), fupd_eq by lia. cbn. lia.
    + rewrite fupd_eq, fupd_ne, Epc by lia. cbn. lia.
Qed.

Lemma bar_rank_lt p b b' o : inc_barrier p b = Some (b', o) ->
  match o with Some q => (bar_rank q < bar_rank p)%nat | None => True end.
Proof. destruct b, p; cbn; intros Hs; repeat case_match; simplify_eq/=; done || lia. Qed.

Lemma bar_round s t p k : live s -> (t <= n)%nat -> sy_pc s t = InBar p k -> (sy_round s t < 2 * T + 1)%nat.
Proof.
  intros Hl Ht Hpc. destruct (decide (t = n)) as [->|Hne].
  - pose proof (lv_main s Hl) as Hm. rewrite Hpc in Hm. destruct k; unfold main_ok, odd_round, even_round in Hm; lia.
  - pose proof (lv_soldiers s Hl t ltac:(lia)) as Hs. rewrite Hpc in Hs. destruct k; unfold soldier_ok, odd_round, even_round in Hs; lia.
Qed.

Lemma move_measure s t s' :
  live s -> (t <= n)%nat -> sy_pc s t <> S_exit -> step n tid t s = Some s' -> (measure s' < measure s)%nat.
Proof.
  intros Hl Ht Hx Hs. unfold measure.
  assert (Hother : forall q u, u <> t -> sy_pc s' = fupd t q (sy_pc s) -> sy_round s' u = sy_round s u ->
    (steps_left (sy_pc s' u) (sy_round s' u) <= steps_left (sy_pc s u) (sy_round s u))%nat)
    by (intros q u Hne -> ->; by rewrite fupd_ne).
  destruct (st_of (sy_pc s t)) as [p|] eqn:Hst.
  - destruct (sy_pc s t) as [|q k| | | | | | | | | | | | | | | | | | | |] eqn:Epc; try done. unfold step in Hs. rewrite Epc in Hs.
    unfold bar_stmt in Hs. destruct (inc_barrier q (sy_bar s)) as [[b o]|] eqn:Ei; [|done].
    pose proof (bar_round s t q k Hl Ht Epc). pose proof (bar_rank_lt _ _ _ _ Ei) as Hrk. injection Hs as <-. cbn [sy_pc sy_round].
    apply (total_lt _ _ _ t); [lia| |].
    + rewrite fupd_eq, moved_eq, Epc. unfold steps_left. destruct o as [q'|]; [cbn [rank]; lia|].
      pose proof (rank_max (resume k)). replace (2 * T + 1 - sy_round s t)%nat with (S (2 * T + 1 - S (sy_round s t))) by lia. lia.
    + intros u Hu Hne. by rewrite fupd_ne, moved_ne.
  - assert (Hcase : (exists q, sy_round s' = sy_round s /\ (rank q < rank (sy_pc s t))%nat /\
      (sy_pc s' = fupd t q (sy_pc s) \/ exists i, t = n /\ sy_pc s n = M_create i /\
         sy_pc s' = fupd n q (fupd i (InBar B_lock_pre K_start) (sy_pc s))))).
    { unfold step in Hs. destruct (Nat.ltb_spec t n).
      - assert (soldier_func n tid t (sy_pc s t) s = Some s') as E by (by destruct (sy_pc s t)).
        destruct (soldier_rank _ _ _ _ Hx E) as (q & ? & ? & ?). exists q. auto.
      - assert (t = n) as -> by lia. assert (squad_main n tid n (sy_pc s n) s = Some s') as E by (by destruct (sy_pc s n)).
        assert (Hw : forall i, sy_pc s n = M_wait i -> (i < n)%nat).
        { intros i Ei. pose proof (lv_main s Hl) as Hm. rewrite Ei in Hm. by destruct Hm as (_ & ? & _). }
        destruct (main_rank _ _ _ Hw E) as (q & ? & ? & [?|(i & ? & ?)]); exists q; [auto|]. split_and!; [done|done|]. right. by exists i. }
    destruct Hcase as (q & Hr & Hlt & [Hp|(i & Et & Hpc & Hp)]); apply (total_lt _ _ _ t); try lia.
    + rewrite Hp, fupd_eq, Hr. unfold steps_left. lia.
    + intros u Hu Hne. apply (Hother q); [done|done|by rewrite Hr].
    + subst t. rewrite Hp, fupd_eq, Hr. unfold steps_left. lia.
    + subst t. intros u Hu Hne. rewrite Hp, fupd_ne, Hr by done. destruct (decide (u = i)) as [->|]; [|by rewrite fupd_ne].
      pose proof (lv_born s Hl i ltac:(lia)) as Hb. rewrite Hpc in Hb. rewrite fupd_eq, (proj2 Hb) by (cbn; lia). unfold steps_left. cbn. lia.
Qed.

Lemma step_measure s t s' : live s -> (t <= n)%nat -> step n tid t s = Some s' -> (measure s' < measure s)%nat.
Proof.
  intros Hl Ht Hs. assert (Hx : sy_pc s t = S_exit \/ sy_pc s t <> S_exit) by (destruct (sy_pc s t); auto).
  destruct Hx as [Hx|Hx]; [|by eapply move_measure].
  assert (Hu : (t < n)%nat).
  { destruct (decide (t = n)) as [->|]; [|lia]. pose proof (lv_main s Hl) as Hm. by rewrite Hx in Hm. }
  unfold step in Hs. rewrite Hx, (proj2 (Nat.ltb_lt t n) Hu) in Hs. injection Hs as <-. by apply exit_measure.
Qed.

(** *** Runs *)

Lemma ended_stops s t s' : ended s -> (t <= n)%nat -> step n tid t s <> Some s'.
Proof. intros [Hg _] Ht. unfold step. by rewrite (Hg t Ht). Qed.

Lemma runs_inv junk k s : length junk = n -> runs n tid (start n junk) k s ->
  (live s \/ ended s) /\ (k + measure s <= measure (start n junk))%nat.
Proof.
  intros Hlen. induction 1 as [|k s t s' _ [Hinv Hk] Ht Hs]; [split; [left; by apply live_start|lia]|].
  destruct Hinv as [Hl|He]; [|by apply ended_stops in Hs].
  split; [by eapply live_step|]. pose proof (step_measure s t s' Hl Ht Hs). lia.
Qed.

Lemma start_measure junk : (measure (start n junk) <= S n * ((2 * T + 2) * (6 * n + 24)))%nat.
Proof.
  unfold measure. generalize (S n) as k. induction k as [|k IH]; cbn [total]; [lia|].
  pose proof (rank_max (sy_pc (start n junk) k)). unfold steps_left, max_rank in *. cbn [sy_round start] in *. lia.
Qed.

Lemma lines_prefix r r' : (r <= r')%nat -> lines r `prefix_of` lines r'.
Proof.
  intros Hr. exists (flat_map (fun j => squad_line (sq j)) (seq r (r' - r))). unfold lines. rewrite <- flat_map_app.
  replace r' with (r + (r' - r))%nat at 1 by lia. by rewrite seq_app.
Qed.

Lemma printed_prefix s : live s -> sy_out s `prefix_of` lines (S T).
Proof.
  intros Hl. rewrite (lv_out s Hl). pose proof (round_bound s n Hl ltac:(lia)) as Hb.
  assert (Hr : (rnd (sy_round s n) <= T)%nat) by (unfold rnd; pose proof (Nat.Div0.div_le_mono (sy_round s n - 1) (2 * T) 2 ltac:(lia));
    rewrite (Nat.mul_comm 2 T), Nat.div_mul in * by lia; lia).
  unfold printed. destruct (setup (sy_pc s n)); [apply prefix_nil|].
  assert (Hfull : lines (S (rnd (sy_round s n))) `prefix_of` lines (S T)) by (apply lines_prefix; lia).
  destruct (sy_pc s n); try done. etransitivity; [|exact Hfull]. rewrite lines_S. apply prefix_app.
  unfold squad_line. rewrite <- (take_drop i (sq (rnd (sy_round s n)))) at 2. rewrite fmap_app, <- app_assoc. apply prefix_app_r. done.
Qed.
End Squad.

(** ** The theorems *)

(** C30: The automaton of [trans_func]: for each number of soldiers that the
    program accepts there is a round in which all of them fire; before it the
    table has an entry for every soldier, no index is outside of the table and
    nobody fires. *)
Theorem squad_fires_together n :
  (1 <= n <= 15)%nat ->
  length (squad n (fire_time n)) = n /\ Forall (fun x => x = sF) (squad n (fire_time n)) /\
  forall r, (r < fire_time n)%nat -> squad_next (squad n r) = Some (squad n (S r)) /\ Forall (fun x => x <> sF) (squad n r).
Proof.
  intros Hn. split; [by apply squad_length|]. split.
  - apply Forall_lookup_2. intros i x. by apply squad_fires.
  - intros r Hr. split; [by apply squad_defined|]. apply Forall_lookup_2. intros i x. by apply squad_quiet.
Qed.

(** C6: At every moment of every run of the threads, the program has printed a
    part of the history of the automaton, and some thread can go on, unless the
    whole history is printed, from the start to the round in which all soldiers
    fire, and all soldiers have exited.  Then the main thread has exited as
    well, or it sleeps forever in [kthread_join]: the soldier that it waits for
    has exited between the test and the sleep. *)
Theorem fssp_history n tid junk k s :
  (1 <= n <= 15)%nat -> (forall i j, (i < n)%nat -> (j < n)%nat -> tid i = tid j -> i = j) -> length junk = n ->
  runs n tid (start n junk) k s ->
  sy_out s `prefix_of` lines n (S (fire_time n)) /\
  ((exists t s', (t <= n)%nat /\ step n tid t s = Some s') \/
   sy_out s = lines n (S (fire_time n)) /\ (forall t, (t < n)%nat -> sy_pc s t = Gone) /\
   (sy_pc s n = Gone \/ exists i, (i < n)%nat /\ sy_pc s n = M_asleep i)).
Proof.
  intros Hn Htid Hlen Hr. destruct (runs_inv n Hn tid Htid junk k s Hlen Hr) as [[Hl|[Hg Ho]] _].
  - split; [by eapply printed_prefix|]. destruct (live_progress n Hn tid Htid s Hl) as [?|(Hg & Ha & Ho)]; auto.
  - split; [by rewrite Ho|]. right. split_and!; [done| |left; by apply Hg]. intros t Ht. apply Hg. lia.
Qed.

(** C26: No run of the program goes on forever, whatever the interleaving: the
    number of its steps is bounded.  (A main thread that sleeps forever in
    [kthread_join] takes no step.) *)
Theorem fssp_terminates n tid junk k s :
  (1 <= n <= 15)%nat -> (forall i j, (i < n)%nat -> (j < n)%nat -> tid i = tid j -> i = j) -> length junk = n ->
  runs n tid (start n junk) k s -> (k <= S n * ((2 * fire_time n + 2) * (6 * n + 24)))%nat.
Proof.
  intros Hn Htid Hlen Hr. destruct (runs_inv n Hn tid Htid junk k s Hlen Hr) as [_ Hk].
  pose proof (start_measure n Hn junk). lia.
Qed.

(** ** Witnesses *)

(** Run the threads in turn; [fuel] bounds the number of attempts. *)
Fixpoint drive (n : nat) (tid : nat -> Z) (fuel t : nat) (s : sys) : sys :=
  match fuel with
  | O => s
  | S fuel' =>
    let t' := if (t <? n)%nat then S t else 0%nat in
    match step n tid t s with
    | Some s' => drive n tid fuel' t' s'
    | None => drive n tid fuel' t' s
    end
  end.

Lemma drive_runs n tid s0 fuel : forall k s t, (t <= n)%nat -> runs n tid s0 k s -> exists k', runs n tid s0 k' (drive n tid fuel t s).
Proof.
  induction fuel as [|fuel IH]; intros k s t Ht Hr; cbn [drive]; [by exists k|].
  assert (Ht' : ((if (t <? n)%nat then S t else 0%nat) <= n)%nat) by (destruct (Nat.ltb_spec t n); lia).
  destruct (step n tid t s) as [s'|] eqn:E; [|exact (IH k s _ Ht' Hr)].
  apply (IH (S k)); [done|]. exact (runs_S _ _ _ k s t s' Hr Ht E).
Qed.

Definition two_junk : list soldier := [mkSoldier 7 7 7; mkSoldier 9 9 9].
Definition two_soldiers : sys := start 2 two_junk.
Definition two_done : sys := drive 2 Z.of_nat 480 0 two_soldiers.

Lemma squad_fires_together_witness : squad 15 (fire_time 15) = replicate 15 sF /\ fire_time 15 = 43%nat.
Proof.
  destruct (squad_fires_together 15 ltac:(lia)) as (Hl & Hf & _). split; [|reflexivity].
  symmetry. apply replicate_as_Forall. split; [exact Hl|]. exact (Forall_impl _ _ _ Hf (fun x E => eq_sym E)).
Defined.

Lemma fssp_history_witness :
  exists k, runs 2 Z.of_nat two_soldiers k two_done /\ (forall t, (t <= 2)%nat -> sy_pc two_done t = Gone) /\
    sy_out two_done = bytes_of "PQ" ++ [10] ++ bytes_of "ZP" ++ [10] ++ bytes_of "ZZ" ++ [10] ++ bytes_of "FF" ++ [10].
Proof.
  destruct (drive_runs 2 Z.of_nat two_soldiers 480 0 two_soldiers 0 ltac:(lia) (runs_0 _ _ _)) as [k Hr].
  exists k. split; [exact Hr|].
  destruct (fssp_history 2 Z.of_nat two_junk k two_done ltac:(lia) ltac:(intros; lia) eq_refl Hr) as [_ [(t & s' & Ht & Hs)|(Ho & Hg & _)]].
  - exfalso. assert (E0 : step 2 Z.of_nat 0 two_done = None) by (vm_compute; reflexivity).
    assert (E1 : step 2 Z.of_nat 1 two_done = None) by (vm_compute; reflexivity).
    assert (E2 : step 2 Z.of_nat 2 two_done = None) by (vm_compute; reflexivity).
    assert (t = 0 \/ t = 1 \/ t = 2)%nat as [-> | [-> | ->]] by lia.
    + rewrite E0 in Hs. discriminate Hs.
    + rewrite E1 in Hs. discriminate Hs.
    + rewrite E2 in Hs. discriminate Hs.
  - split; [|rewrite Ho; vm_compute; reflexivity]. intros t Ht.
    destruct (decide (t = 2%nat)) as [->|]; [vm_compute; reflexivity|apply Hg; lia].
Defined.

(** The main thread can hang: it runs ahead to the sleep of its first
    [kthread_join], then both soldiers exit. *)
Fixpoint follow (n : nat) (tid : nat -> Z) (l : list nat) (s : sys) : sys :=
  match l with
  | [] => s
  | t :: l' => follow n tid l' (default s (step n tid t s))
  end.

Lemma follow_runs n tid s0 l : forall k s, Forall (fun t => (t <= n)%nat) l -> runs n tid s0 k s -> exists k', runs n tid s0 k' (follow n tid l s).
Proof.
  induction l as [|t l IH]; intros k s Hl Hr; cbn [follow]; [by exists k|]. apply Forall_cons in Hl as [Ht Hl].
  destruct (step n tid t s) as [s'|] eqn:E; [|by apply (IH k)]. apply (IH (S k)); [done|]. exact (runs_S _ _ _ k s t s' Hr Ht E).
Qed.

Definition two_hung : sys :=
  follow 2 Z.of_nat (replicate 10 2 ++ replicate 6 0 ++ replicate 6 1 ++ [2])%nat (drive 2 Z.of_nat 408 0 two_soldiers).

Lemma join_misses_exit :
  (exists k, runs 2 Z.of_nat two_soldiers k two_hung) /\ sy_pc two_hung 2 = M_asleep 0 /\
  step 2 Z.of_nat 0 two_hung = None /\ step 2 Z.of_nat 1 two_hung = None /\ step 2 Z.of_nat 2 two_hung = None.
Proof.
  split; [|vm_compute; auto].
  destruct (drive_runs 2 Z.of_nat two_soldiers 408 0 two_soldiers 0 ltac:(lia) (runs_0 _ _ _)) as [k Hr].
  apply (follow_runs _ _ _ _ k); [|exact Hr]. by repeat constructor; lia.
Qed.

Lemma fssp_terminates_witness : exists k, runs 2 Z.of_nat two_soldiers k two_done /\ (k <= 864)%nat.
Proof.
  destruct (drive_runs 2 Z.of_nat two_soldiers 480 0 two_soldiers 0 ltac:(lia) (runs_0 _ _ _)) as [k Hr].
  exists k. split; [exact Hr|].
  exact (fssp_terminates 2 Z.of_nat two_junk k two_done ltac:(lia) ltac:(intros; lia) eq_refl Hr).
Defined.
