(* ===== verification/UmallocSpec.v ===== *)
(** * Correctness of malloc and free (umalloc.c)

    The heap is bytes; a block begins with a header of two words, the next
    free block and the size in units of eight bytes.  The invariant [heap]
    says that the free blocks form one circular list in ascending order of
    address, and that no two blocks, free or live, overlap.  [malloc_allocates] and [free_frees] show that the two functions
    keep it, for every answer of [sbrk] that gives fresh room or fails, and
    that the bytes of the live blocks stay as they were. *)

From stdpp Require Import base list sets.
From S2P Require Import Prelude Memory Umalloc.

(** ** Headers *)

Definition word (v : Z) : Prop := 0 <= v < 4294967296.

(** Two headers are the same or do not overlap. *)
Definition hsep (p q : Z) : Prop := p + 8 <= q \/ q + 8 <= p.

Lemma hptr_set_ptr p v m : word v -> hptr (set_ptr p v m) p = v.
Proof. apply ld32_st32_eq. Qed.
Lemma hsize_set_size p v m : word v -> hsize (set_size p v m) p = v.
Proof. apply ld32_st32_eq. Qed.
Lemma hsize_set_ptr p v m : hsize (set_ptr p v m) p = hsize m p.
Proof. apply ld32_st32_ne. lia. Qed.
Lemma hptr_set_size p v m : hptr (set_size p v m) p = hptr m p.
Proof. apply ld32_st32_ne. lia. Qed.

(** [m'] has the headers of [m] but for that of [p]. *)
Definition only_header (p : Z) (m m' : mem) : Prop := forall a, ~ (p <= a < p + 8) -> m' a = m a.

Lemma only_set_ptr p v m : only_header p m (set_ptr p v m).
Proof. intros a Ha. apply st32_other. lia. Qed.
Lemma only_set_size p v m : only_header p m (set_size p v m).
Proof. intros a Ha. apply st32_other. lia. Qed.
Lemma only_trans p m1 m2 m3 : only_header p m1 m2 -> only_header p m2 m3 -> only_header p m1 m3.
Proof. intros H1 H2 a Ha. by rewrite H2, H1. Qed.
Lemma only_hptr p q m m' : only_header p m m' -> hsep p q -> hptr m' q = hptr m q.
Proof. intros H Hs. apply ld32_ext. intros a Ha. apply H. unfold hsep in Hs. lia. Qed.
Lemma only_hsize p q m m' : only_header p m m' -> hsep p q -> hsize m' q = hsize m q.
Proof. intros H Hs. apply ld32_ext. intros a Ha. apply H. unfold hsep in Hs. lia. Qed.

(** ** The free list *)

(** A block: the address of its header and its size in units. *)
Notation block := (Z * Z)%type.
Definition bend (b : block) : Z := b.1 + 8 * b.2.
Definition apart (x y : block) : Prop := bend x <= y.1 \/ bend y <= x.1.

Definition hd_addr (l : list block) (d : Z) : Z := match l with [] => d | b :: _ => b.1 end.

(** The headers of [l] are linked in this order, the last one to [d]. *)
Fixpoint seg (m : mem) (l : list block) (d : Z) : Prop :=
  match l with
  | [] => True
  | b :: l' => hsize m b.1 = b.2 /\ hptr m b.1 = hd_addr l' d /\ seg m l' d
  end.

(** Blocks in the order of their addresses, between [lo] and [hi]. *)
Fixpoint sorted (lo : Z) (l : list block) (hi : Z) : Prop :=
  match l with
  | [] => lo <= hi
  | b :: l' => lo <= b.1 /\ 1 <= b.2 /\ sorted (bend b) l' hi
  end.

Lemma seg_app m A B d : seg m (A ++ B) d <-> seg m A (hd_addr B d) /\ seg m B d.
Proof.
  induction A as [|a A IH]; cbn; [tauto|]. rewrite IH.
  assert (E : hd_addr (A ++ B) d = hd_addr A (hd_addr B d)) by (by destruct A). rewrite E. tauto.
Qed.

Lemma seg_frame m m' l d : (forall b, b ∈ l -> hptr m' b.1 = hptr m b.1 /\ hsize m' b.1 = hsize m b.1) -> seg m l d -> seg m' l d.
Proof.
  induction l as [|b l IH]; intros H; cbn; [done|]. intros (Hs & Hp & Hr). destruct (H b) as [-> ->]; [left|].
  split_and!; [done|done|]. apply IH; [|done]. intros x Hx. apply H. by right.
Qed.

Lemma seg_only p m m' l d : only_header p m m' -> (forall b, b ∈ l -> hsep p b.1) -> seg m l d -> seg m' l d.
Proof. intros Ho Hs. apply seg_frame. intros b Hb. split; [eapply only_hptr|eapply only_hsize]; eauto. Qed.

(** No block of [l] ends where the next one, or after the last one [d], begins. *)
Fixpoint gaps (l : list block) (d : Z) : Prop :=
  match l with
  | [] => True
  | b :: l' => bend b <> hd_addr l' d /\ gaps l' d
  end.

Lemma gaps_app A B d : gaps (A ++ B) d <-> gaps A (hd_addr B d) /\ gaps B d.
Proof.
  induction A as [|a A IH]; cbn; [tauto|]. rewrite IH.
  assert (E : hd_addr (A ++ B) d = hd_addr A (hd_addr B d)) by (by destruct A). rewrite E. tauto.
Qed.

(** The addresses of the blocks of [l]. *)
Definition covers (l : list block) (a : Z) : Prop := exists x, x ∈ l /\ x.1 <= a < bend x.

Lemma covers_app A B a : covers (A ++ B) a <-> covers A a \/ covers B a.
Proof.
  unfold covers. split.
  - intros (x & [Hx|Hx]%elem_of_app & Ha); [left|right]; by exists x.
  - intros [(x & Hx & Ha)|(x & Hx & Ha)]; exists x; (split; [|done]); apply elem_of_app; auto.
Qed.

Lemma covers_cons b l a : covers (b :: l) a <-> b.1 <= a < bend b \/ covers l a.
Proof.
  unfold covers. split.
  - intros (x & [->|Hx]%elem_of_cons & Ha); [by left|right; by exists x].
  - intros [Ha|(x & Hx & Ha)]; [exists b; split; [left|done]|exists x; split; [by right|done]].
Qed.

Lemma covers_nil a : ~ covers [] a.
Proof. intros (x & Hx & _). by apply not_elem_of_nil in Hx. Qed.

Lemma sorted_app lo A B hi : sorted lo (A ++ B) hi <-> exists mid, sorted lo A mid /\ sorted mid B hi.
Proof.
  revert lo. induction A as [|a A IH]; intros lo; cbn.
  - split; [intros H; exists lo; split; [lia|done]|]. intros (mid & Hle & H). destruct B as [|b B]; cbn in *; [lia|]. split; [lia|tauto].
  - rewrite IH. split; [intros (? & ? & mid & ? & ?); by exists mid|intros (mid & (? & ? & ?) & ?); by eauto].
Qed.

Lemma sorted_le lo l hi : sorted lo l hi -> lo <= hi.
Proof. revert lo. induction l as [|b l IH]; intros lo; cbn; [done|]. intros (? & ? & H%IH). unfold bend in H. lia. Qed.

Lemma sorted_in lo l hi b : sorted lo l hi -> b ∈ l -> lo <= b.1 /\ 1 <= b.2 /\ bend b <= hi.
Proof.
  revert lo. induction l as [|c l IH]; intros lo; cbn; [by intros _ ?%not_elem_of_nil|]. intros (? & ? & H) [->|Hin]%elem_of_cons.
  - split_and!; [done|done|by eapply sorted_le].
  - destruct (IH _ H Hin) as (? & ? & ?). unfold bend in *. split_and!; lia.
Qed.

Lemma sorted_weaken lo lo' l hi hi' : sorted lo l hi -> lo' <= lo -> hi <= hi' -> sorted lo' l hi'.
Proof.
  revert lo lo'. induction l as [|b l IH]; intros lo lo'; cbn; [lia|]. intros (? & ? & ?) ? ?. split_and!; [lia|lia|by eapply IH].
Qed.

Lemma sorted_count lo l hi : sorted lo l hi -> 8 * Z.of_nat (length l) <= hi - lo.
Proof.
  revert lo. induction l as [|b l IH]; intros lo; cbn [sorted length]; [lia|]. intros (? & ? & H%IH). unfold bend in H. lia.
Qed.

(** The place of a block that is apart from the blocks of the list. *)
Lemma sorted_place lo l hi b :
  sorted lo l hi -> lo <= b.1 -> 1 <= b.2 -> bend b <= hi -> (forall x, x ∈ l -> apart x b) ->
  exists A B, l = A ++ B /\ sorted lo A b.1 /\ sorted (bend b) B hi.
Proof.
  revert lo. induction l as [|c l IH]; intros lo; cbn [sorted]; [intros; by exists [], []|].
  intros (H1 & H2 & H3) Hlo Hb Hhi Hap. destruct (Hap c ltac:(left)) as [Hc|Hc].
  - destruct (IH (bend c) H3) as (A & B & -> & HA & HB); [unfold bend in *; lia|lia|done| |].
    + intros x Hx. apply Hap. by right.
    + exists (c :: A), B. by split_and!.
  - exists [], (c :: l). by split_and!.
Qed.

Lemma apart_sep x y : 1 <= x.2 -> 1 <= y.2 -> apart x y -> hsep x.1 y.1.
Proof. unfold apart, hsep, bend. lia. Qed.

(** ** The loop of [free] *)

Fixpoint asc (lo : Z) (l : list block) : Prop :=
  match l with
  | [] => True
  | b :: l' => lo < b.1 /\ asc b.1 l'
  end.

Lemma sorted_asc lo' lo l hi : sorted lo l hi -> lo' < lo -> asc lo' l.
Proof.
  revert lo lo'. induction l as [|b l IH]; intros lo lo'; cbn; [done|]. intros (? & ? & H) ?. split; [lia|].
  apply (IH (bend b)); [done|]. unfold bend. lia.
Qed.

Lemma asc_in lo l b : asc lo l -> b ∈ l -> lo < b.1.
Proof.
  revert lo. induction l as [|c l IH]; intros lo; cbn; [by intros _ ?%not_elem_of_nil|]. intros [? H] [->|Hin]%elem_of_cons; [done|].
  pose proof (IH _ H Hin). lia.
Qed.

Lemma asc_tail lo A q B : asc lo (A ++ q :: B) -> asc q.1 B.
Proof. revert lo. induction A as [|a A IH]; intros lo; cbn; [by intros [_ ?]|]. intros [_ H]. by eapply IH. Qed.

(** From a block before the place of [bp] ... *)
Lemma walk_up m bp d p B f : forall A q,
  seg m (q :: A ++ p :: B) d -> asc q.1 (A ++ p :: B) -> p.1 < bp -> d <= p.1 -> (forall x, x ∈ B -> bp < x.1) ->
  free_walk (S (length A) + S f) m bp q.1 = Some p.1.
Proof.
  induction A as [|a A IH]; intros q Hseg Hasc Hp Hd HB.
  - destruct Hseg as (_ & Hq & Hs & Hpp & _), Hasc as [Hqp _]. cbn [app hd_addr] in Hq. cbn [length Nat.add free_walk].
    rewrite Hq. destruct (Z.ltb_spec q.1 bp); [|lia]. destruct (Z.ltb_spec bp p.1); [lia|]. cbn [andb].
    destruct (Z.leb_spec p.1 q.1); [lia|]. cbn [andb]. destruct (Z.ltb_spec p.1 bp); [|lia]. cbn [andb].
    destruct B as [|b B]; cbn [hd_addr] in Hpp; rewrite Hpp.
    + destruct (Z.ltb_spec bp d); [lia|]. by destruct (Z.leb_spec d p.1); [|lia].
    + pose proof (HB b ltac:(left)). by destruct (Z.ltb_spec bp b.1); [|lia].
  - cbn [app] in *. destruct Hseg as (_ & Hq & Hrest), Hasc as [Hqa Hasc]. cbn [hd_addr] in Hq.
    assert (Hap : a.1 < p.1) by (apply (asc_in _ _ p Hasc); apply elem_of_app; right; left).
    cbn [length Nat.add free_walk]. rewrite Hq. destruct (Z.ltb_spec bp a.1); [lia|]. rewrite andb_false_r.
    destruct (Z.leb_spec a.1 q.1); [lia|]. cbn [andb]. by apply IH.
Qed.

(** ... and from the block at the place itself, or one after it. *)
Lemma walk_here m bp d p B f :
  seg m (p :: B) d -> p.1 < bp -> d <= p.1 -> (forall x, x ∈ B -> bp < x.1) -> free_walk (S f) m bp p.1 = Some p.1.
Proof.
  intros (Hs & Hpp & _) Hp Hd HB. cbn [free_walk]. rewrite Hpp. destruct (Z.ltb_spec p.1 bp); [|lia]. cbn [andb].
  destruct B as [|b B]; cbn [hd_addr].
  + destruct (Z.ltb_spec bp d); [lia|]. by destruct (Z.leb_spec d p.1); [|lia].
  + pose proof (HB b ltac:(left)). by destruct (Z.ltb_spec bp b.1); [|lia].
Qed.

Lemma walk_down m bp d f : d < bp -> forall L q,
  seg m (q :: L) d -> asc q.1 L -> bp < q.1 -> free_walk (length (q :: L) + f) m bp q.1 = free_walk f m bp d.
Proof.
  intros Hd. induction L as [|a L IH]; intros q (_ & Hq & Hseg) Hasc Hbq; cbn [length Nat.add free_walk]; rewrite Hq; cbn [hd_addr].
  - destruct (Z.ltb_spec q.1 bp); [lia|]. destruct (Z.ltb_spec bp d); [lia|]. cbn [orb andb]. by rewrite andb_false_r.
  - destruct Hasc as [Hqa Hasc]. destruct (Z.ltb_spec q.1 bp); [lia|]. destruct (Z.leb_spec a.1 q.1); [lia|]. cbn [andb].
    apply IH; [done|done|lia].
Qed.

Lemma walk_mono m bp f g p q : free_walk f m bp q = Some p -> (f <= g)%nat -> free_walk g m bp q = Some p.
Proof.
  revert g q. induction f as [|f IH]; intros g q Hf Hg; [done|]. destruct g as [|g]; [lia|]. cbn [free_walk] in *.
  destruct (_ && _); [done|]. destruct (_ && _); [done|]. apply IH; [done|lia].
Qed.

(** The loop finds the place from every block of the circle. *)
Lemma free_walk_ok m bp base F1 p B q fuel :
  seg m (F1 ++ p :: B) base -> hd_addr (F1 ++ p :: B) 0 = base -> asc (base - 1) (F1 ++ p :: B) ->
  p.1 < bp -> (forall x, x ∈ B -> bp < x.1) -> q ∈ F1 ++ p :: B -> (length (F1 ++ p :: B) < fuel)%nat ->
  free_walk fuel m bp q.1 = Some p.1.
Proof.
  intros Hseg Hhd Hasc Hp HB Hq Hfuel.
  assert (Hbp : base <= p.1) by (pose proof (asc_in _ _ p Hasc ltac:(apply elem_of_app; right; left)); lia).
  assert (Hup : forall f, free_walk (length F1 + S f) m bp base = Some p.1).
  { intros f. destruct F1 as [|c F1]; cbn in Hhd; subst base; [by apply (walk_here m bp p.1 p B)|].
    apply (walk_up m bp c.1 p B f F1 c); try done. apply Hasc. }
  apply elem_of_app in Hq as [Hq|Hq].
  - apply list_elem_of_split in Hq as (A1 & A2 & ->). rewrite <- app_assoc in Hseg, Hasc. cbn [app] in Hseg, Hasc.
    apply seg_app in Hseg as [_ Hseg]. eapply (walk_mono _ _ (S (length A2) + S 0)).
    + apply (walk_up m bp base p B 0 A2 q); try done. by eapply asc_tail.
    + rewrite !length_app in Hfuel. cbn in *. lia.
  - apply seg_app in Hseg as [_ Hseg]. apply elem_of_cons in Hq as [->|Hq].
    + destruct fuel as [|fuel]; [lia|]. by apply (walk_here m bp base p B).
    + destruct Hseg as (_ & _ & Hseg). pose proof (HB q Hq) as Hbq. apply list_elem_of_split in Hq as (B1 & B2 & ->).
      apply seg_app in Hseg as [_ Hseg]. eapply (walk_mono _ _ (length (q :: B2) + (length F1 + S 0))).
      * rewrite (walk_down m bp base); [by apply Hup|lia|done| |done].
        apply asc_tail in Hasc. by eapply asc_tail.
      * rewrite length_app in Hfuel. cbn in *. rewrite length_app in Hfuel. cbn in *. lia.
Qed.

(** ** Linking a block in *)

(** The list after the block [b] is put between [A] and [B], joined with the
    blocks next to it. *)
Definition join_right (b : block) (B : list block) : block * list block :=
  match B with
  | c :: B' => if bend b =? c.1 then ((b.1, b.2 + c.2), B') else (b, B)
  | [] => (b, [])
  end.
Definition join_left (p b : block) : list block :=
  if bend p =? b.1 then [(p.1, p.2 + b.2)] else [p; b].
Definition linked (F1 : list block) (p b : block) (B : list block) : list block :=
  let '(b', B') := join_right b B in F1 ++ join_left p b' ++ B'.

(** A block as the allocator may have it. *)
Definition fits (hi : Z) (b : block) : Prop := 0 <= b.1 /\ 0 <= b.2 /\ bend b <= hi.

Lemma hadd_block hi b n : fits hi b -> hi < 2147483648 -> n = b.2 -> hadd b.1 n = bend b.
Proof. intros (? & ? & ?) ? ->. unfold hadd, bend in *. apply u32_small. lia. Qed.

Lemma join_next_ok m p b B d hi :
  hi < 2147483648 -> fits hi b -> word d -> d <> bend b -> hptr m p = hd_addr B d -> hsize m b.1 = b.2 -> seg m B d ->
  hsep p b.1 -> (forall x, x ∈ B -> fits hi x /\ hsep b.1 x.1) ->
  let '(b', B') := join_right b B in
  let m' := join_next b.1 p m in
  only_header b.1 m m' /\ hsize m' b.1 = b'.2 /\ hptr m' b.1 = hd_addr B' d.
Proof.
  intros Hhi Hb Hd Hdb Hp Hs Hseg Hpb HB. unfold join_next. rewrite (hadd_block hi) by done. rewrite Hp.
  destruct B as [|c B]; cbn [join_right hd_addr].
  - destruct (Z.eqb_spec (bend b) d); [congruence|]. split_and!; [apply only_set_ptr|by rewrite hsize_set_ptr|by apply hptr_set_ptr].
  - destruct Hseg as (Hcs & Hcp & _). destruct (HB c ltac:(left)) as [Hc Hbc]. destruct (Z.eqb_spec (bend b) c.1) as [E|E].
    + set (m1 := set_size b.1 _ m). assert (Ho : only_header b.1 m m1) by apply only_set_size.
      assert (Hw : word (hd_addr B d)).
      { destruct B as [|x B]; [done|]. destruct (HB x ltac:(right; left)) as [(? & ? & ?) _]. unfold word, bend in *. cbn. lia. }
      assert (E1 : hptr m1 p = c.1) by (rewrite (only_hptr b.1) with (1 := Ho); [done|unfold hsep in *; lia]). rewrite E1.
      assert (E2 : hptr m1 c.1 = hd_addr B d) by (rewrite (only_hptr b.1) with (1 := Ho); done). rewrite E2.
      split_and!; [eapply only_trans; [exact Ho|apply only_set_ptr]| |by apply hptr_set_ptr].
      rewrite hsize_set_ptr. unfold m1. rewrite hsize_set_size by apply u32_range. rewrite Hs, Hcs. cbn.
      destruct Hb as (? & ? & ?), Hc as (? & ? & ?). unfold bend in *. apply u32_small. lia.
    + split_and!; [apply only_set_ptr|by rewrite hsize_set_ptr|]. cbn [hd_addr]. apply hptr_set_ptr. destruct Hc as (? & ? & ?). unfold word, bend in *. lia.
Qed.

Lemma join_prev_ok m p b nxt hi :
  hi < 2147483648 -> fits hi p -> fits hi b -> p.1 < b.1 -> bend p <= b.1 -> hsize m p.1 = p.2 -> hsize m b.1 = b.2 ->
  hptr m b.1 = nxt -> word nxt -> hsep p.1 b.1 ->
  let m' := join_prev b.1 p.1 m in only_header p.1 m m' /\ seg m' (join_left p b) nxt.
Proof.
  intros Hhi Hp Hb Hlt Hle Hps Hbs Hbn Hn Hpb. unfold join_prev, join_left. rewrite (hadd_block hi) by done.
  pose proof Hb as (? & ? & ?). pose proof Hp as (? & ? & ?). destruct (Z.eqb_spec (bend p) b.1) as [E|E].
  - set (m1 := set_size p.1 _ m). assert (Ho : only_header p.1 m m1) by apply only_set_size.
    assert (E1 : hptr m1 b.1 = nxt) by (rewrite (only_hptr p.1) with (1 := Ho); done). rewrite E1.
    split; [eapply only_trans; [exact Ho|apply only_set_ptr]|]. cbn. split_and!; [|by apply hptr_set_ptr|done].
    rewrite hsize_set_ptr. unfold m1. rewrite hsize_set_size by apply u32_range. rewrite Hps, Hbs. unfold bend in *. apply u32_small. lia.
  - pose proof (only_set_ptr p.1 b.1 m) as Ho. split; [done|]. cbn. split_and!.
    + by rewrite hsize_set_ptr.
    + apply hptr_set_ptr. unfold word, bend in *. lia.
    + by rewrite (only_hsize p.1) with (1 := Ho).
    + by rewrite (only_hptr p.1) with (1 := Ho).
    + done.
Qed.

Lemma link_ok m F1 p b B d hi :
  hi < 2147483648 -> 0 <= d < b.1 -> fits hi p -> fits hi b -> bend p <= b.1 -> hsize m b.1 = b.2 -> seg m (F1 ++ p :: B) d ->
  hsep p.1 b.1 -> p.1 < b.1 -> (forall x, x ∈ F1 -> hsep p.1 x.1 /\ hsep b.1 x.1) ->
  (forall x, x ∈ B -> fits hi x /\ bend b <= x.1 /\ hsep p.1 x.1 /\ hsep b.1 x.1) ->
  let m' := join_prev b.1 p.1 (join_next b.1 p.1 m) in
  seg m' (linked F1 p b B) d /\ (forall a, ~ (p.1 <= a < p.1 + 8) -> ~ (b.1 <= a < b.1 + 8) -> m' a = m a).
Proof.
  intros Hhi Hd Hp Hb Hle Hbs Hseg Hpb Hlt H1 HB m'. apply seg_app in Hseg as [HsF (Hps & Hpn & HsB)]. cbn [hd_addr] in HsF.
  assert (Hdw : word d) by (destruct Hb as (? & ? & ?); unfold word, bend in *; lia).
  assert (Hdb : d <> bend b) by (destruct Hb as (? & ? & ?); unfold bend in *; lia).
  pose proof (join_next_ok m p.1 b B d hi Hhi Hb Hdw Hdb Hpn Hbs HsB Hpb ltac:(intros x Hx; destruct (HB x Hx) as (? & ? & ? & ?); by split)) as Hn.
  unfold linked. destruct (join_right b B) as [b' B'] eqn:Ej. destruct Hn as (Ho1 & Hs1 & Hn1). set (m1 := join_next b.1 p.1 m) in *.
  assert (Hb' : b'.1 = b.1 /\ fits hi b' /\ forall x, x ∈ B' -> x ∈ B).
  { unfold join_right in Ej. destruct B as [|c B0]; [by simplify_eq|]. destruct (Z.eqb_spec (bend b) c.1) as [E|E]; simplify_eq/=; [|done].
    split_and!; [done| |by right]. destruct (HB c ltac:(left)) as ((? & ? & ?) & _), Hb as (? & ? & ?). unfold fits, bend in *. cbn. lia. }
  destruct Hb' as (Eb & Hfb & Hin).
  assert (Hw : word (hd_addr B' d)).
  { destruct B' as [|x B'']; [done|]. destruct (HB x ltac:(apply Hin; left)) as ((? & ? & ?) & _). unfold word, bend in *. cbn. lia. }
  destruct (join_prev_ok m1 p b' (hd_addr B' d) hi) as [Ho2 Hs2]; rewrite ?Eb; try done.
  { by rewrite (only_hsize b.1) with (1 := Ho1); [|unfold hsep in *; lia]. }
  rewrite Eb in Ho2, Hs2. fold m' in Ho2, Hs2. split.
  - apply seg_app. split.
    + assert (hd_addr (join_left p b' ++ B') d = p.1) as -> by (unfold join_left; by destruct (_ =? _)).
      eapply seg_only; [exact Ho2|intros x Hx; by apply H1|]. eapply seg_only; [exact Ho1|intros x Hx; by apply H1|done].
    + apply seg_app. split; [done|]. eapply seg_only; [exact Ho2|intros x Hx%Hin; by apply HB|].
      eapply seg_only; [exact Ho1|intros x Hx%Hin; by apply HB|].
      unfold join_right in Ej. destruct B as [|c B0]; [by simplify_eq|]. destruct (_ =? _); simplify_eq/=; tauto.
  - intros a Ha1 Ha2. rewrite Ho2, Ho1; done.
Qed.

(** The new list is sorted and covers the old one and the new block only. *)
Lemma join_apart x y z : 1 <= z.2 -> bend x = y.1 -> apart x z -> apart y z -> apart (x.1, x.2 + y.2) z.
Proof. unfold apart, bend. cbn. lia. Qed.

Lemma linked_sorted lo A p b B hi :
  sorted lo (A ++ [p]) b.1 -> 1 <= b.2 -> sorted (bend b) B hi -> sorted lo (linked A p b B) hi.
Proof.
  intros HA Hb HB. apply sorted_app in HA as (mid & HA & Hp1 & Hp2 & Hp). cbn in Hp. unfold linked.
  assert (Hj : let '(b', B') := join_right b B in b'.1 = b.1 /\ 1 <= b'.2 /\ sorted (bend b') B' hi).
  { destruct B as [|c B]; cbn; [done|]. destruct HB as (Hc1 & Hc2 & HB). destruct (Z.eqb_spec (bend b) c.1) as [E|E]; [|done].
    cbn. split_and!; [done|lia|]. eapply sorted_weaken; [exact HB| |lia]. unfold bend in *. cbn. lia. }
  destruct (join_right b B) as [b' B']. destruct Hj as (E & Hb' & HB'). apply sorted_app. exists mid. split; [done|].
  unfold join_left. destruct (Z.eqb_spec (bend p) b'.1) as [E'|E']; cbn; split_and!; try done; try lia.
  eapply sorted_weaken; [exact HB'| |lia]. unfold bend in *. cbn. lia.
Qed.

Lemma linked_apart A p b B z :
  1 <= z.2 -> (forall x, x ∈ A ++ p :: B -> apart x z) -> apart b z -> forall x, x ∈ linked A p b B -> apart x z.
Proof.
  intros Hz Hall Hb x. unfold linked.
  assert (Hj : let '(b', B') := join_right b B in apart b' z /\ forall x, x ∈ B' -> x ∈ B).
  { destruct B as [|c B]; cbn; [done|]. destruct (Z.eqb_spec (bend b) c.1) as [E|E]; [|done]. split; [|by right].
    apply join_apart; try done. apply Hall. set_solver. }
  destruct (join_right b B) as [b' B']. destruct Hj as [Hb' Hin]. unfold join_left.
  destruct (Z.eqb_spec (bend p) b'.1) as [E|E]; rewrite !elem_of_app; cbn; rewrite ?elem_of_cons.
  - intros [Hx|[[->|Hx]|Hx]]; [apply Hall; set_solver| |by apply not_elem_of_nil in Hx|apply Hall; set_solver].
    apply join_apart; try done. apply Hall. set_solver.
  - intros [Hx|[[->|[->|Hx]]|Hx]]; [apply Hall; set_solver|apply Hall; set_solver|done|by apply not_elem_of_nil in Hx|apply Hall; set_solver].
Qed.

(** No two blocks of the new list touch, if none of the old list did. *)
Lemma linked_gaps A p b B : 0 < bend b -> gaps (A ++ p :: B) 0 -> gaps (linked A p b B) 0.
Proof.
  intros Hb Hg. apply gaps_app in Hg as [HA [Hp HB]]. cbn [hd_addr] in HA. unfold linked.
  assert (Hj : let '(b', B') := join_right b B in b'.1 = b.1 /\ bend b' <> hd_addr B' 0 /\ gaps B' 0).
  { destruct B as [|c B]; cbn; [split_and!; [done|lia|done]|]. destruct HB as [Hc HB]. destruct (Z.eqb_spec (bend b) c.1) as [E|E]; [|done].
    split_and!; [done| |done]. unfold bend in *. cbn in *. lia. }
  destruct (join_right b B) as [b' B']. destruct Hj as (E & Hb' & HB'). apply gaps_app. unfold join_left.
  destruct (Z.eqb_spec (bend p) b'.1) as [E'|E']; cbn; split_and!; try done. unfold bend in *. cbn. lia.
Qed.

(** The new list has the addresses of the old one and of the block. *)
Lemma linked_covers A p b B a :
  0 <= p.2 -> 0 <= b.2 -> (forall x, x ∈ B -> 0 <= x.2) ->
  covers (linked A p b B) a <-> covers (A ++ p :: B) a \/ b.1 <= a < bend b.
Proof.
  intros Hp Hb HB. unfold linked.
  assert (Hj : let '(b', B') := join_right b B in b'.1 = b.1 /\ 0 <= b'.2 /\
    (b'.1 <= a < bend b' \/ covers B' a <-> b.1 <= a < bend b \/ covers B a)).
  { destruct B as [|c B]; cbn; [done|]. pose proof (HB c ltac:(left)). destruct (Z.eqb_spec (bend b) c.1) as [E|E]; [|done].
    cbn. split_and!; [done|lia|]. rewrite covers_cons. unfold bend in *. cbn in *. split; [|intros [?|[?|?]]]; (lia || tauto || idtac).
    intros [?|?]; [|tauto]. destruct (Z.lt_ge_cases a (b.1 + 8 * b.2)); [left; lia|right; left; lia]. }
  destruct (join_right b B) as [b' B']. destruct Hj as (E & Hb' & Hj). rewrite !covers_app, covers_cons. unfold join_left.
  destruct (Z.eqb_spec (bend p) b'.1) as [E'|E']; rewrite !covers_cons; pose proof (covers_nil a).
  - assert ((p.1, p.2 + b'.2).1 <= a < bend (p.1, p.2 + b'.2) <-> p.1 <= a < bend p \/ b'.1 <= a < bend b') as ->
      by (unfold bend in *; cbn; lia). tauto.
  - tauto.
Qed.

(** The block is there, or part of a larger one. *)
Lemma linked_has A p b B : 0 <= p.2 -> (forall x, x ∈ B -> 0 <= x.2) -> exists x, x ∈ linked A p b B /\ b.2 <= x.2.
Proof.
  intros Hp HB. unfold linked.
  assert (Hj : b.2 <= (join_right b B).1.2).
  { destruct B as [|c B]; cbn; [done|]. pose proof (HB c ltac:(left)). destruct (_ =? _); cbn; lia. }
  destruct (join_right b B) as [b' B']. cbn in Hj. unfold join_left. destruct (_ =? _).
  - exists (p.1, p.2 + b'.2). split; [set_solver|cbn; lia].
  - exists b'. split; [set_solver|done].
Qed.

Lemma linked_prev A p b B : exists y, y ∈ linked A p b B /\ y.1 = p.1.
Proof.
  unfold linked. destruct (join_right b B) as [b' B']. unfold join_left. destruct (_ =? _); [exists (p.1, p.2 + b'.2)|exists p]; split; set_solver.
Qed.

Lemma linked_length A p b B : (length (linked A p b B) <= length A + length B + 2)%nat.
Proof.
  unfold linked, join_left. destruct B as [|c B]; cbn; [destruct (_ =? _); rewrite !length_app; cbn; lia|].
  destruct (_ =? _), (_ =? _); rewrite !length_app; cbn; lia.
Qed.

Lemma linked_base base b B : base < b.1 ->
  linked [] (base, 0) b B = (base, 0) :: (let '(b', B') := join_right b B in b' :: B').
Proof.
  intros Hb. unfold linked. assert (E : (join_right b B).1.1 = b.1) by (destruct B as [|c B]; cbn; [done|]; by destruct (_ =? _)).
  destruct (join_right b B) as [b' B']. cbn in E. unfold join_left.
  destruct (Z.eqb_spec (bend (base, 0)) b'.1) as [E'|]; [unfold bend in E'; cbn in E'; lia|done].
Qed.

Lemma base_sorted lo b B hi : lo <= b.1 -> 1 <= b.2 -> sorted (bend b) B hi ->
  sorted lo (let '(b', B') := join_right b B in b' :: B') hi.
Proof.
  intros Hlo Hb HB. destruct B as [|c B]; cbn; [done|]. destruct HB as (Hc1 & Hc2 & HB).
  destruct (Z.eqb_spec (bend b) c.1) as [E|E]; cbn; [|done]. split_and!; [done|lia|]. eapply sorted_weaken; [exact HB| |lia].
  unfold bend in *. cbn. lia.
Qed.

(** Headers in the order of their addresses. *)
Fixpoint spaced (lo : Z) (l : list block) : Prop :=
  match l with
  | [] => True
  | b :: l' => lo <= b.1 /\ spaced (b.1 + 8) l'
  end.

Lemma sorted_spaced lo' lo l hi : sorted lo l hi -> lo' <= lo -> spaced lo' l.
Proof.
  revert lo lo'. induction l as [|b l IH]; intros lo lo'; cbn; [done|]. intros (? & ? & H) ?. split; [lia|].
  apply (IH (bend b)); [done|]. unfold bend. lia.
Qed.

Lemma spaced_le lo l x : spaced lo l -> x ∈ l -> lo <= x.1.
Proof.
  revert lo. induction l as [|b l IH]; intros lo; cbn; [by intros _ ?%not_elem_of_nil|].
  intros [? H] [->|Hx]%elem_of_cons; [done|]. pose proof (IH _ H Hx). lia.
Qed.

Lemma spaced_lt lo A B x y : spaced lo (A ++ B) -> x ∈ A -> y ∈ B -> x.1 + 8 <= y.1.
Proof.
  revert lo. induction A as [|a A IH]; intros lo; cbn; [by intros _ ?%not_elem_of_nil|].
  intros [? H] [->|Hx]%elem_of_cons Hy; [|by eapply IH]. apply (spaced_le _ _ y H). set_solver.
Qed.

(** ** The heap *)

Fixpoint disjoint_blocks (l : list block) : Prop :=
  match l with
  | [] => True
  | b :: l' => (forall y, y ∈ l' -> apart b y) /\ disjoint_blocks l'
  end.

Section Heap.
Context (base lo : Z).
Hypothesis Hbase : 0 < base /\ base + 8 <= lo.

(** The free blocks [l], no two of which touch, and the blocks in use [live]. *)
Record heap (s : uheap) (l live : list block) : Prop := {
  hp_seg : seg (uh_mem s) ((base, 0) :: l) base;
  hp_sorted : sorted lo l (uh_brk s);
  hp_gaps : gaps ((base, 0) :: l) 0;
  hp_brk : uh_brk s < 2147483648;
  hp_freep : exists x, x ∈ (base, 0) :: l /\ x.1 = uh_freep s;
  hp_live : forall y, y ∈ live -> lo <= y.1 /\ 1 <= y.2 /\ bend y <= uh_brk s /\ hsize (uh_mem s) y.1 = y.2;
  hp_sep : forall x y, x ∈ l -> y ∈ live -> apart x y;
  hp_disj : disjoint_blocks live
}.

(** The bytes of a block, its header included, are the same. *)
Definition same_block (m m' : mem) (y : block) : Prop := forall a, y.1 <= a < bend y -> m' a = m a.

Lemma same_block_trans m1 m2 m3 y : same_block m1 m2 y -> same_block m2 m3 y -> same_block m1 m3 y.
Proof. intros H1 H2 a Ha. by rewrite H2, H1. Qed.

Lemma same_block_size m m' y : 1 <= y.2 -> same_block m m' y -> hsize m' y.1 = hsize m y.1.
Proof. intros Hy H. apply ld32_ext. intros a Ha. apply H. unfold bend. lia. Qed.

Lemma heap_fuel_enough s l live : heap s l live -> (length ((base, 0%Z) :: l) < heap_fuel s)%nat.
Proof.
  intros Hh. pose proof (sorted_count _ _ _ (hp_sorted _ _ _ Hh)). pose proof (sorted_le _ _ _ (hp_sorted _ _ _ Hh)).
  unfold heap_fuel. cbn. assert (Z.of_nat (length l) <= uh_brk s / 8) by (apply Z.div_le_lower_bound; lia). lia.
Qed.

Lemma bumped b s live l : heap s l (b :: live) -> hadd (hadd b.1 1) (-1) = b.1.
Proof.
  intros Hh. destruct (hp_live _ _ _ Hh b ltac:(left)) as (? & ? & ? & _). pose proof (hp_brk _ _ _ Hh). unfold hadd, bend in *.
  rewrite (u32_small (b.1 + 8 * 1)) by lia. replace (b.1 + 8 * 1 + 8 * -1) with b.1 by lia. apply u32_small. lia.
Qed.

(** The list after the block [b] is freed. *)
Lemma free_place s l live b :
  heap s l (b :: live) ->
  exists F1 p B, (base, 0) :: l = F1 ++ p :: B /\ bend p <= b.1 /\ p.1 < b.1 /\ hsep p.1 b.1 /\ sorted (bend b) B (uh_brk s) /\
    fits (uh_brk s) p /\ (forall x, x ∈ F1 -> hsep p.1 x.1 /\ hsep b.1 x.1) /\
    (forall x, x ∈ B -> fits (uh_brk s) x /\ bend b <= x.1 /\ hsep p.1 x.1 /\ hsep b.1 x.1) /\
    exists l', linked F1 p b B = (base, 0) :: l' /\ sorted lo l' (uh_brk s).
Proof.
  intros Hh. destruct (hp_live _ _ _ Hh b ltac:(left)) as (Hb1 & Hb2 & Hb3 & _). pose proof (hp_sorted _ _ _ Hh) as Hs.
  destruct (sorted_place lo l (uh_brk s) b Hs Hb1 Hb2 Hb3) as (A & B & -> & HA & HB).
  { intros x Hx. apply (hp_sep _ _ _ Hh); [done|left]. }
  assert (HBx : forall x, x ∈ B -> fits (uh_brk s) x /\ bend b <= x.1 /\ 1 <= x.2).
  { intros x Hx. destruct (sorted_in _ _ _ _ HB Hx) as (? & ? & ?). unfold fits, bend in *. lia. }
  destruct A as [|p A _] using rev_ind.
  - exists [], (base, 0), B. split_and!; [done|unfold bend; cbn; lia|cbn; lia|unfold hsep; cbn; lia|done| | | |].
    + pose proof (sorted_le _ _ _ Hs). unfold fits, bend. cbn. lia.
    + intros x Hx. by apply not_elem_of_nil in Hx.
    + intros x Hx. destruct (HBx x Hx) as (? & ? & ?). unfold hsep, fits, bend in *. cbn. split_and!; (done || lia).
    + rewrite linked_base by (cbn; lia). eexists. split; [done|]. by apply base_sorted.
  - pose proof HA as HA0. apply sorted_app in HA as (mid & HA & Hp1 & Hp2 & Hp3). cbn in Hp3. pose proof (sorted_le _ _ _ HA) as Hlm.
    exists ((base, 0) :: A), p, B. split_and!; [by rewrite <- app_assoc|done|unfold bend in *; lia|unfold hsep, bend in *; lia|done| | | |].
    + unfold fits, bend in *. lia.
    + intros x [->|Hx]%elem_of_cons; [unfold hsep, bend in *; cbn; lia|]. destruct (sorted_in _ _ _ _ HA Hx) as (? & ? & ?).
      unfold hsep, bend in *. lia.
    + intros x Hx. destruct (HBx x Hx) as (? & ? & ?). unfold hsep, fits, bend in *. split_and!; (done || lia).
    + exists (linked A p b B). split; [unfold linked; by destruct (join_right b B)|]. by apply linked_sorted.
Qed.

Lemma free_ok s l live b :
  heap s l (b :: live) ->
  exists s' l', free (hadd b.1 1) s = Some s' /\ heap s' l' live /\ uh_brk s' = uh_brk s /\
    (exists x, x ∈ l' /\ b.2 <= x.2) /\ (length l' <= S (length l))%nat /\
    (forall a, covers l' a <-> covers l a \/ b.1 <= a < bend b) /\
    forall y, y ∈ live -> same_block (uh_mem s) (uh_mem s') y.
Proof.
  intros Hh. pose proof (hp_live _ _ _ Hh b ltac:(left)) as (Hb1 & Hb2 & Hb3 & Hb4).
  destruct (free_place s l live b Hh) as (F1 & p & B & EF & Hpb & Hlt & Hsep & HsB & Hfp & HF1 & HB & l' & El & Hsl).
  destruct (hp_freep _ _ _ Hh) as (q & Hq & Eq). pose proof (hp_brk _ _ _ Hh) as Hbk. pose proof (hp_seg _ _ _ Hh) as Hseg.
  assert (Hwalk : free_walk (heap_fuel s) (uh_mem s) b.1 (uh_freep s) = Some p.1).
  { rewrite <- Eq. pose proof (heap_fuel_enough _ _ _ Hh) as Hfl. rewrite EF in Hseg, Hq, Hfl.
    apply (free_walk_ok _ _ base F1 p B q); try done.
    - by rewrite <- EF.
    - rewrite <- EF. cbn. split; [lia|]. eapply sorted_asc; [apply Hh|lia].
    - intros x Hx. destruct (HB x Hx) as (_ & ? & _). unfold bend in *. lia. }
  unfold free. rewrite (bumped b s live l Hh), Hwalk. cbn [mbind option_bind]. rewrite EF in Hseg.
  destruct (link_ok (uh_mem s) F1 p b B base (uh_brk s)) as [Hseg' Hframe]; try done; [lia|unfold fits; lia|].
  rewrite El in Hseg'. set (m' := join_prev _ _ _) in *.
  assert (Hsame : forall y, y ∈ live -> same_block (uh_mem s) m' y).
  { intros y Hy a Ha. destruct (hp_live _ _ _ Hh y ltac:(by right)) as (Hy1 & Hy2 & Hy3 & _).
    assert (Hyb : apart b y) by (by apply (hp_disj _ _ _ Hh)).
    assert (Hyp : p = (base, 0) \/ p ∈ l) by (assert (p ∈ (base, 0) :: l) by (rewrite EF; set_solver); by apply elem_of_cons).
    apply Hframe.
    - destruct Hyp as [->|Hp]; [cbn; lia|]. pose proof (hp_sep _ _ _ Hh p y Hp ltac:(by right)).
      destruct (sorted_in _ _ _ _ (hp_sorted _ _ _ Hh) Hp) as (? & ? & ?). unfold apart, bend in *. lia.
    - unfold apart, bend in *. lia. }
  eexists _, l'. split; [done|]. split; [|split; [done|split; [|split; [|split; [|done]]]]].
  - split; cbn; try done.
    + change (gaps ((base, 0) :: l') 0). rewrite <- El. apply linked_gaps; [unfold bend; lia|]. rewrite <- EF. apply Hh.
    + destruct (linked_prev F1 p b B) as (y & Hy & Ey). rewrite El in Hy. by exists y.
    + intros y Hy. destruct (hp_live _ _ _ Hh y ltac:(by right)) as (? & ? & ? & Hs). split_and!; try done.
      rewrite (same_block_size _ _ y) with (2 := Hsame y Hy); done.
    + intros x y Hx Hy. assert (Hx' : x ∈ linked F1 p b B) by (rewrite El; by right).
      destruct (hp_live _ _ _ Hh y ltac:(by right)) as (Hy1 & Hy2 & Hy3 & _).
      eapply (linked_apart F1 p b B); [done| |by apply (hp_disj _ _ _ Hh)|done].
      intros z. rewrite <- EF. intros [->|Hz]%elem_of_cons; [left; unfold bend; cbn; lia|]. apply (hp_sep _ _ _ Hh); [done|by right].
    + apply (hp_disj _ _ _ Hh).
  - destruct (linked_has F1 p b B) as (x & Hx & Hxs); [apply Hfp|intros x Hx; by destruct (HB x Hx) as ((? & ? & ?) & _)|].
    rewrite El in Hx. apply elem_of_cons in Hx as [->|Hx]; [cbn in Hxs; lia|by exists x].
  - apply (f_equal length) in EF, El. pose proof (linked_length F1 p b B). rewrite length_app in EF. cbn in EF, El. lia.
  - intros a. assert (Hno : forall l0, covers ((base, 0) :: l0) a <-> covers l0 a).
    { intros l0. rewrite covers_cons. unfold bend. cbn. split; [intros [?|?]; [lia|done]|auto]. }
    rewrite <- (Hno l'), <- (Hno l), <- El, EF. apply linked_covers; [apply Hfp|lia|].
    intros x Hx. by destruct (HB x Hx) as ((_ & ? & _) & _).
Qed.

(** ** [morecore] *)

Context (room : Z -> Z -> bool).
Hypothesis Hroom : forall brk n, room brk n = true -> brk + n < 2147483648.

Lemma heap_bounds s l live : heap s l live -> lo <= uh_brk s /\ uh_freep s <> 0 /\
  (forall x, x ∈ (base, 0) :: l -> x.1 + 8 <= uh_brk s).
Proof.
  intros Hh. pose proof (sorted_le _ _ _ (hp_sorted _ _ _ Hh)).
  assert (Hall : forall x, x ∈ (base, 0) :: l -> base <= x.1 /\ x.1 + 8 <= uh_brk s).
  { intros x [->|Hx]%elem_of_cons; [cbn; lia|]. destruct (sorted_in _ _ _ _ (hp_sorted _ _ _ Hh) Hx) as (? & ? & ?). unfold bend in *. lia. }
  split_and!; [done| |intros x Hx; by apply Hall]. destruct (hp_freep _ _ _ Hh) as (x & Hx & <-). destruct (Hall x Hx). lia.
Qed.

(** The kernel's new memory is one block in use, which is then freed. *)
Lemma grown_heap s l live nu :
  heap s l live -> 1 <= nu -> uh_brk s + 8 * nu < 2147483648 ->
  let s' := mkHeap (set_size (uh_brk s) nu (uh_mem s)) (uh_freep s) (uh_brk s + 8 * nu) in
  heap s' l ((uh_brk s, nu) :: live) /\ forall y, y ∈ live -> same_block (uh_mem s) (uh_mem s') y.
Proof.
  intros Hh Hnu Hmax s'. destruct (heap_bounds s l live Hh) as (Hlo & _ & Hall). pose proof (only_set_size (uh_brk s) nu (uh_mem s)) as Ho.
  assert (Hsame : forall y, y ∈ live -> same_block (uh_mem s) (uh_mem s') y).
  { intros y Hy a Ha. destruct (hp_live _ _ _ Hh y Hy) as (? & ? & ? & _). apply Ho. lia. }
  split; [|done]. split; cbn; try done.
  - apply (seg_only (uh_brk s) (uh_mem s) _ ((base, 0) :: l)); [done| |apply Hh]. intros x Hx. pose proof (Hall x Hx). unfold hsep. lia.
  - eapply sorted_weaken; [apply Hh|lia|lia].
  - apply (hp_gaps _ _ _ Hh).
  - apply Hh.
  - intros y [->|Hy]%elem_of_cons; cbn.
    + split_and!; [done|done|unfold bend; cbn; lia|]. apply hsize_set_size. unfold word. lia.
    + destruct (hp_live _ _ _ Hh y Hy) as (? & ? & ? & Hs). split_and!; [done|done|lia|].
      rewrite <- Hs. by apply same_block_size; [|apply Hsame].
  - intros x y Hx [->|Hy]%elem_of_cons; [|by apply (hp_sep _ _ _ Hh)]. left. cbn.
    by destruct (sorted_in _ _ _ _ (hp_sorted _ _ _ Hh) Hx) as (? & ? & ?).
  - split; [|apply Hh]. intros y Hy. right. cbn. by destruct (hp_live _ _ _ Hh y Hy) as (? & ? & ? & _).
Qed.

Lemma morecore_ok s l live nu :
  heap s l live -> 1 <= nu -> 8 * nu < 2147483648 ->
  (morecore room nu s = Some (0, s) /\ room (uh_brk s) (8 * Z.max 4096 nu) = false) \/
  exists s' l', morecore room nu s = Some (uh_freep s', s') /\ heap s' l' live /\
    (exists x, x ∈ l' /\ nu <= x.2) /\ (length l' <= S (length l))%nat /\ forall y, y ∈ live -> same_block (uh_mem s) (uh_mem s') y.
Proof.
  intros Hh H1 H8. unfold morecore. set (n := if nu <? 4096 then 4096 else nu).
  assert (Hn : nu <= n /\ 1 <= n /\ 8 * n < 2147483648) by (unfold n; zcase; lia).
  rewrite u32_small, s32_small by lia. unfold sbrk. assert (Em : 8 * Z.max 4096 nu = n * 8) by (unfold n; zcase; lia). rewrite Em.
  destruct (room (uh_brk s) (n * 8)) eqn:Er; [right|by left].
  apply Hroom in Er. replace (n * 8) with (8 * n) in * by lia. cbn [uh_mem uh_freep uh_brk].
  destruct (grown_heap s l live n Hh ltac:(lia) Er) as [Hg Hs1].
  destruct (free_ok _ _ _ _ Hg) as (s' & l' & E & Hh' & _ & (x & Hx & Hxs) & Hlen & _ & Hs2). cbn [fst snd] in *.
  exists s', l'. rewrite E. cbn. split_and!; [done|done|exists x; split; [done|lia]|done|].
  intros y Hy. eapply same_block_trans; [by apply Hs1|by apply Hs2].
Qed.

(** ** [malloc] *)

Lemma heap_spaced s l live : heap s l live -> spaced base ((base, 0) :: l).
Proof. intros Hh. split; [cbn; lia|]. eapply sorted_spaced; [apply Hh|cbn; lia]. Qed.

(** The block before [x] in the circle is the one before it in memory. *)
Lemma prev_block m F0 pr x B y :
  seg m ((F0 ++ [pr]) ++ x :: B) base -> spaced base ((F0 ++ [pr]) ++ x :: B) -> hd_addr (F0 ++ [pr]) 0 = base ->
  y ∈ (F0 ++ [pr]) ++ x :: B -> hptr m y.1 = x.1 -> y.1 = pr.1.
Proof.
  intros Hseg Hs Hhd Hy Hp. apply elem_of_app in Hy as [[Hy|Hy]%elem_of_app|Hy].
  - apply list_elem_of_split in Hy as (C & D & ->). exfalso. pose proof Hs as Hs'.
    rewrite <- !app_assoc in Hseg. cbn [app] in Hseg. apply seg_app in Hseg as [_ (_ & E & _)]. rewrite Hp in E.
    assert (Hc : exists c, c ∈ D ++ [pr] /\ c.1 = x.1) by (destruct D as [|c D]; cbn in E; eexists; (split; [left|done])).
    destruct Hc as (c & Hc & Ec). pose proof (spaced_lt _ _ _ c x Hs' ltac:(set_solver) ltac:(left)). lia.
  - by apply list_elem_of_singleton in Hy as ->.
  - exfalso. apply list_elem_of_split in Hy as (C & D & E). rewrite E in Hseg.
    apply seg_app in Hseg as [_ Hseg]. apply seg_app in Hseg as [_ (_ & En & _)]. rewrite Hp in En.
    assert (Hx : x ∈ C ++ [y]) by (destruct C; injection E as -> _; left).
    destruct D as [|d D]; cbn in En.
    + assert (Hb : exists b, b ∈ F0 ++ [pr] /\ b.1 = base) by (destruct (F0 ++ [pr]) as [|b F] eqn:EF; [by destruct F0|]; exists b; split; [left|done]).
      destruct Hb as (b & Hb & Eb). pose proof (spaced_lt _ _ _ b x Hs Hb ltac:(left)). lia.
    + rewrite E in Hs. replace ((F0 ++ [pr]) ++ C ++ y :: d :: D) with (((F0 ++ [pr]) ++ C ++ [y]) ++ d :: D) in Hs
        by (by rewrite <- !app_assoc).
      pose proof (spaced_lt _ _ _ x d Hs ltac:(set_solver) ltac:(left)). lia.
Qed.

Lemma sorted_others A x B hi z : sorted lo (A ++ x :: B) hi -> z ∈ A ++ B -> apart z x.
Proof.
  intros Hs. apply sorted_app in Hs as (mid & HA & Hx1 & Hx2 & HB). intros [Hz|Hz]%elem_of_app.
  - left. destruct (sorted_in _ _ _ _ HA Hz) as (? & ? & ?). lia.
  - right. by destruct (sorted_in _ _ _ _ HB Hz) as (? & ? & ?).
Qed.

(** A block before [x], or the static header, ends before [x]. *)
Lemma last_below A x B hi F0 pr :
  (base, 0) :: A = F0 ++ [pr] -> sorted lo (A ++ x :: B) hi -> 0 < bend pr <= x.1.
Proof.
  intros EF Hs. apply sorted_app in Hs as (mid & HA & Hm & _). pose proof (sorted_le _ _ _ HA).
  assert (Hin : pr ∈ (base, 0) :: A) by (rewrite EF; set_solver). apply elem_of_cons in Hin as [->|Hin]; [unfold bend; cbn; lia|].
  destruct (sorted_in _ _ _ _ HA Hin) as (? & ? & ?). unfold bend in *. lia.
Qed.

(** What [malloc] takes: the block in use and the heap that is left. *)
Definition taken_out (s : uheap) (live : list block) (nunits : Z) (p : Z) (m : mem) (prev : Z) : Prop :=
  lo <= p /\ (exists l, heap (mkHeap m prev (uh_brk s)) l ((p, nunits) :: live)) /\ forall z, z ∈ live -> same_block (uh_mem s) m z.

(** The whole block is taken out of the list. *)
Lemma carve_whole s A x B live y :
  heap s (A ++ x :: B) live -> y ∈ (base, 0) :: A ++ x :: B -> hptr (uh_mem s) y.1 = x.1 ->
  taken_out s live x.2 x.1 (set_ptr y.1 (hptr (uh_mem s) x.1) (uh_mem s)) y.1.
Proof.
  intros Hh Hy Hp. set (m' := set_ptr _ _ _). pose proof (hp_sorted _ _ _ Hh) as Hs. pose proof (hp_seg _ _ _ Hh) as Hseg.
  pose proof (heap_spaced _ _ _ Hh) as Hsp. destruct (exists_last (l := (base, 0) :: A)) as (F0 & pr & EF); [done|].
  change ((base, 0) :: A ++ x :: B) with (((base, 0) :: A) ++ x :: B) in *. rewrite EF in *.
  assert (Hhd : hd_addr (F0 ++ [pr]) 0 = base) by (by rewrite <- EF).
  assert (Ey : y.1 = pr.1) by (by eapply prev_block).
  assert (Ho : only_header pr.1 (uh_mem s) m') by (unfold m'; rewrite Ey; apply only_set_ptr).
  assert (HF0 : forall z, z ∈ F0 -> hsep pr.1 z.1).
  { intros z Hz. rewrite <- app_assoc in Hsp. pose proof (spaced_lt _ _ _ z pr Hsp Hz ltac:(left)). unfold hsep. lia. }
  assert (HxB : forall z, z ∈ x :: B -> hsep pr.1 z.1).
  { intros z Hz. pose proof (spaced_lt _ _ _ pr z Hsp ltac:(set_solver) Hz). unfold hsep. lia. }
  pose proof (hp_brk _ _ _ Hh) as Hbk. destruct (sorted_in _ _ _ x Hs ltac:(set_solver)) as (Hx1 & Hx2 & Hx3).
  assert (Hlive : forall z, z ∈ live -> same_block (uh_mem s) m' z).
  { intros z Hz a Ha. apply Ho. destruct (hp_live _ _ _ Hh z Hz) as (Hz1 & Hz2 & _ & _).
    assert (Hpr : pr ∈ (base, 0) :: A) by (rewrite EF; set_solver). apply elem_of_cons in Hpr as [->|Hpr]; [cbn; lia|].
    pose proof (hp_sep _ _ _ Hh pr z ltac:(set_solver) Hz) as Hap. destruct (sorted_in _ _ _ pr Hs ltac:(set_solver)) as (? & ? & ?).
    unfold apart, bend in *. lia. }
  apply seg_app in Hseg as [HsA (Hxs & Hxn & HsB)]. apply seg_app in HsA as [HsF (Hps & Hpp & _)]. cbn [hd_addr] in *.
  assert (Hw : word (hptr (uh_mem s) x.1)) by apply ld32_range.
  split; [done|]. split; [|done]. exists (A ++ B). split; cbn [uh_mem uh_freep uh_brk].
  - change ((base, 0) :: A ++ B) with (((base, 0) :: A) ++ B). rewrite EF, <- app_assoc. apply seg_app. split; [by eapply seg_only|].
    cbn. split_and!; [by rewrite <- Hps; unfold m'; rewrite Ey, hsize_set_ptr|unfold m'; by rewrite Ey, hptr_set_ptr|].
    eapply seg_only; [exact Ho| |done]. intros z Hz. apply HxB. by right.
  - apply sorted_app in Hs as (mid & HA & Hm & _ & HB). apply sorted_app. exists mid. split; [done|].
    eapply sorted_weaken; [exact HB| |lia]. unfold bend. lia.
  - pose proof (hp_gaps _ _ _ Hh) as Hg. change ((base, 0) :: A ++ x :: B) with (((base, 0) :: A) ++ x :: B) in Hg.
    change ((base, 0) :: A ++ B) with (((base, 0) :: A) ++ B). rewrite EF, <- app_assoc in *.
    apply gaps_app in Hg as [Hg1 [_ [_ Hg2]]]. apply gaps_app. split; [exact Hg1|]. cbn. split; [|done].
    assert (Hpx : 0 < bend pr <= x.1) by (by eapply last_below). apply sorted_app in Hs as (mid & _ & _ & _ & HB).
    destruct B as [|c B]; cbn; [lia|]. destruct HB as (? & _). unfold bend in *. lia.
  - done.
  - exists pr. split; [|done]. assert (pr ∈ (base, 0) :: A) by (rewrite EF; set_solver). set_solver.
  - intros z [->|Hz]%elem_of_cons.
    + cbn. split_and!; [done|done|done|]. rewrite (only_hsize pr.1) with (1 := Ho); [done|]. apply HxB. left.
    + destruct (hp_live _ _ _ Hh z Hz) as (? & ? & ? & Hzs). split_and!; try done. rewrite <- Hzs. by apply same_block_size; [|apply Hlive].
  - intros z w Hz [->|Hw']%elem_of_cons; [destruct x; by eapply sorted_others|]. apply (hp_sep _ _ _ Hh); [set_solver|done].
  - split; [|apply Hh]. intros z Hz. destruct x. apply (hp_sep _ _ _ Hh); [set_solver|done].
Qed.

(** The tail of the block is taken, the rest stays in the list. *)
Lemma carve_part s A x B live y nunits :
  heap s (A ++ x :: B) live -> y ∈ (base, 0) :: A ++ x :: B -> 1 <= nunits < x.2 ->
  let p := x.1 + 8 * (x.2 - nunits) in
  taken_out s live nunits p (set_size p nunits (set_size x.1 (x.2 - nunits) (uh_mem s))) y.1.
Proof.
  intros Hh Hy Hn p. set (m1 := set_size x.1 (x.2 - nunits) (uh_mem s)). set (m' := set_size p nunits m1).
  pose proof (hp_sorted _ _ _ Hh) as Hs. pose proof (hp_brk _ _ _ Hh) as Hbk.
  destruct (sorted_in _ _ _ x Hs ltac:(set_solver)) as (Hx1 & Hx2 & Hx3). unfold bend in Hx3.
  assert (Hin : forall a, ~ (x.1 <= a < bend x) -> m' a = uh_mem s a).
  { intros a Ha. unfold m', bend in *. rewrite only_set_size by lia. apply only_set_size. lia. }
  assert (Hlive : forall z, z ∈ live -> same_block (uh_mem s) m' z).
  { intros z Hz a Ha. apply Hin. pose proof (hp_sep _ _ _ Hh x z ltac:(set_solver) Hz) as Hap. unfold apart in Hap. lia. }
  assert (Hsep : forall z, z ∈ ((base, 0) :: A) ++ B -> hptr m' z.1 = hptr (uh_mem s) z.1 /\ hsize m' z.1 = hsize (uh_mem s) z.1).
  { intros z Hz. assert (Hzx : z.1 + 8 <= x.1 \/ bend x <= z.1).
    { cbn in Hz. apply elem_of_cons in Hz as [->|Hz]; [cbn; lia|]. pose proof (sorted_others _ _ _ _ z Hs Hz) as Hap.
      destruct (sorted_in _ _ _ z Hs ltac:(set_solver)) as (? & ? & ?). unfold apart, bend in *. lia. }
    split; apply ld32_ext; intros a Ha; apply Hin; unfold bend in *; lia. }
  pose proof (hp_seg _ _ _ Hh) as Hseg. change ((base, 0) :: A ++ x :: B) with (((base, 0) :: A) ++ x :: B) in Hseg.
  apply seg_app in Hseg as [HsA (Hxs & Hxn & HsB)]. cbn [hd_addr] in HsA.
  assert (Exs : hsize m' x.1 = x.2 - nunits).
  { unfold m'. rewrite (only_hsize p) with (1 := only_set_size _ _ _); [|unfold hsep, p; lia]. apply hsize_set_size. unfold word. lia. }
  assert (Exn : hptr m' x.1 = hptr (uh_mem s) x.1).
  { unfold m'. rewrite (only_hptr p) with (1 := only_set_size _ _ _); [|unfold hsep, p; lia]. apply hptr_set_size. }
  split; [unfold p; lia|]. split; [|done]. exists (A ++ (x.1, x.2 - nunits) :: B). split; cbn [uh_mem uh_freep uh_brk].
  - change ((base, 0) :: A ++ (x.1, x.2 - nunits) :: B) with (((base, 0) :: A) ++ (x.1, x.2 - nunits) :: B).
    apply seg_app. split; [eapply seg_frame; [|exact HsA]; intros z Hz; apply Hsep; set_solver|].
    split_and!; [done|exact (eq_trans Exn Hxn)|]. eapply seg_frame; [|exact HsB]. intros z Hz. apply Hsep. set_solver.
  - apply sorted_app in Hs as (mid & HA & Hm & _ & HB). apply sorted_app. exists mid. split; [done|]. cbn. split_and!; [done|lia|].
    eapply sorted_weaken; [exact HB| |lia]. unfold bend. cbn. lia.
  - pose proof (hp_gaps _ _ _ Hh) as Hg. change ((base, 0) :: A ++ x :: B) with (((base, 0) :: A) ++ x :: B) in Hg.
    change ((base, 0) :: A ++ (x.1, x.2 - nunits) :: B) with (((base, 0) :: A) ++ (x.1, x.2 - nunits) :: B).
    apply gaps_app in Hg as [Hg1 [_ Hg2]]. apply gaps_app. split; [exact Hg1|]. split; [|done].
    apply sorted_app in Hs as (mid & _ & _ & _ & HB). destruct B as [|c B]; cbn; [unfold bend; cbn; lia|].
    destruct HB as (? & _). unfold bend in *. cbn. lia.
  - done.
  - rewrite elem_of_cons, elem_of_app, elem_of_cons in Hy.
    destruct Hy as [->|[Hy|[->|Hy]]]; [exists (base, 0)|exists y|exists (x.1, x.2 - nunits)|exists y]; (split; [set_solver|done]).
  - intros z [->|Hz]%elem_of_cons.
    + cbn. split_and!; [unfold p; lia|lia|unfold bend, p; cbn; lia|]. unfold m'. apply hsize_set_size. unfold word. lia.
    + destruct (hp_live _ _ _ Hh z Hz) as (? & ? & ? & Hzs). split_and!; try done. rewrite <- Hzs. by apply same_block_size; [|apply Hlive].
  - intros z w Hz [->|Hw]%elem_of_cons.
    + apply elem_of_app in Hz as [Hz|[->|Hz]%elem_of_cons]; [| |]; [|left; unfold bend, p; cbn; lia|];
        pose proof (sorted_others _ _ _ _ z Hs ltac:(set_solver)) as Hap; unfold apart, bend, p in *; cbn; lia.
    + apply elem_of_app in Hz as [Hz|[->|Hz]%elem_of_cons]; [apply (hp_sep _ _ _ Hh); [set_solver|done]| |apply (hp_sep _ _ _ Hh); [set_solver|done]].
      pose proof (hp_sep _ _ _ Hh x w ltac:(set_solver) Hw) as Hap. unfold apart, bend in *. cbn. lia.
  - split; [|apply Hh]. intros w Hw. pose proof (hp_sep _ _ _ Hh x w ltac:(set_solver) Hw) as Hap.
    destruct (hp_live _ _ _ Hh w Hw) as (? & ? & _). unfold apart, bend, p in *. cbn. lia.
Qed.

Lemma carve_ok s l live y x nunits :
  heap s l live -> y ∈ (base, 0) :: l -> x ∈ (base, 0) :: l -> hptr (uh_mem s) y.1 = x.1 -> 1 <= nunits <= x.2 ->
  let '(p, m) := carve nunits y.1 x.1 (uh_mem s) in taken_out s live nunits p m y.1.
Proof.
  intros Hh Hy Hx Hp Hn. apply elem_of_cons in Hx as [->|Hx]; [cbn in Hn; lia|].
  apply list_elem_of_split in Hx as (A & B & ->). pose proof (hp_seg _ _ _ Hh) as Hseg.
  change ((base, 0) :: A ++ x :: B) with (((base, 0) :: A) ++ x :: B) in Hseg. apply seg_app in Hseg as [_ (Hxs & _ & _)].
  destruct (sorted_in _ _ _ x (hp_sorted _ _ _ Hh) ltac:(set_solver)) as (Hx1 & Hx2 & Hx3). pose proof (hp_brk _ _ _ Hh) as Hbk.
  unfold carve. rewrite Hxs. destruct (Z.eqb_spec x.2 nunits) as [<-|Hne]; [by apply (carve_whole s A x B)|].
  rewrite (u32_small (x.2 - nunits)) by (unfold bend in *; lia). rewrite hsize_set_size by (unfold word, bend in *; lia).
  unfold hadd. rewrite u32_small by (unfold bend in *; lia). apply (carve_part s A x B live y nunits Hh Hy). lia.
Qed.

(** The search: [W] are the blocks still to be looked at, the last of them is
    the one that [freep] points to. *)
Lemma search_ok s nunits (F : list block) d q : forall W prev f,
  prev ∈ F -> (forall x, x ∈ W ++ [q] -> x ∈ F) -> hptr (uh_mem s) prev.1 = hd_addr (W ++ [q]) d -> seg (uh_mem s) (W ++ [q]) d ->
  q.1 = uh_freep s -> (forall x, x ∈ W -> x.1 <> uh_freep s) ->
  (exists y x, y ∈ F /\ x ∈ F /\ nunits <= x.2 /\ hptr (uh_mem s) y.1 = x.1 /\
     malloc_loop room (length (W ++ [q]) + f) nunits prev.1 (hd_addr (W ++ [q]) d) s =
     let '(p, m) := carve nunits y.1 x.1 (uh_mem s) in Some (hadd p 1, mkHeap m y.1 (uh_brk s))) \/
  ((forall x, x ∈ W ++ [q] -> x.2 < nunits) /\
   malloc_loop room (length (W ++ [q]) + f) nunits prev.1 (hd_addr (W ++ [q]) d) s =
     ('(p, s') ← morecore room nunits s; if p =? 0 then Some (0, s') else malloc_loop room f nunits p (hptr (uh_mem s') p) s')).
Proof.
  induction W as [|a W IH]; intros prev f Hprev HF Hp Hseg Hq HW.
  - cbn [app hd_addr length Nat.add malloc_loop] in *. destruct Hseg as (Hqs & _ & _). rewrite Hqs.
    destruct (Z.leb_spec nunits q.2) as [Hle|Hlt].
    + left. exists prev, q. split_and!; [done|apply HF; left|done|done|done].
    + right. split; [by intros x ->%list_elem_of_singleton|]. by rewrite Hq, Z.eqb_refl.
  - cbn [app hd_addr length Nat.add malloc_loop] in *. destruct Hseg as (Has & Han & Hseg). rewrite Has.
    destruct (Z.leb_spec nunits a.2) as [Hle|Hlt].
    + left. exists prev, a. split_and!; [done|apply HF; left|done|done|done].
    + destruct (Z.eqb_spec a.1 (uh_freep s)) as [E|E]; [by destruct (HW a ltac:(left))|]. rewrite Han.
      destruct (IH a f) as [Hl|[Hr1 Hr2]]; try done; [apply HF; left|intros x Hx; apply HF; by right|intros x Hx; apply HW; by right|by left|].
      right. split; [|done]. by intros x [->|Hx]%elem_of_cons; [|apply Hr1].
Qed.

(** The circle seen from the block after [freep]. *)
Lemma rotate s l live :
  heap s l live -> exists W q, q.1 = uh_freep s /\ (forall x, x ∈ W ++ [q] <-> x ∈ (base, 0) :: l) /\
    (forall x, x ∈ W -> x.1 <> uh_freep s) /\ length (W ++ [q]) = S (length l) /\
    hptr (uh_mem s) q.1 = hd_addr (W ++ [q]) 0 /\ seg (uh_mem s) (W ++ [q]) (hd_addr (W ++ [q]) 0).
Proof.
  intros Hh. destruct (hp_freep _ _ _ Hh) as (q & Hq & Eq). apply list_elem_of_split in Hq as (F1 & F2 & EF).
  pose proof (hp_seg _ _ _ Hh) as Hseg. pose proof (heap_spaced _ _ _ Hh) as Hsp. rewrite EF in Hseg, Hsp.
  assert (Hd : hd_addr (F1 ++ [q]) 0 = base) by (destruct F1; cbn in *; by injection EF as <-).
  exists (F2 ++ F1), q. rewrite EF. rewrite <- Eq. split_and!; [done|set_solver| | | |].
  - intros x [Hx|Hx]%elem_of_app Ex.
    + replace (F1 ++ q :: F2) with ((F1 ++ [q]) ++ F2) in Hsp by (by rewrite <- app_assoc).
      pose proof (spaced_lt _ _ _ q x Hsp ltac:(set_solver) Hx). lia.
    + pose proof (spaced_lt _ _ _ x q Hsp Hx ltac:(left)). lia.
  - apply (f_equal length) in EF. rewrite !length_app in *. cbn in *. lia.
  - apply seg_app in Hseg as [_ (_ & -> & _)]. rewrite <- app_assoc. by destruct F2.
  - rewrite <- app_assoc. replace (F1 ++ q :: F2) with ((F1 ++ [q]) ++ F2) in Hseg by (by rewrite <- app_assoc).
    apply seg_app in Hseg as [Hs1 Hs2]. apply seg_app. split.
    + assert (hd_addr (F1 ++ [q]) (hd_addr (F2 ++ F1 ++ [q]) 0) = base) as -> by (by rewrite <- Hd; destruct F1). done.
    + assert (hd_addr (F2 ++ F1 ++ [q]) 0 = hd_addr F2 base) as -> by (rewrite <- Hd; by destruct F2). done.
Qed.

(** One round of the search. *)
Lemma search_round s l live nunits f :
  heap s l live -> 1 <= nunits ->
  (exists p m y, taken_out s live nunits p m y /\
     malloc_loop room (S (length l) + f) nunits (uh_freep s) (hptr (uh_mem s) (uh_freep s)) s =
       Some (hadd p 1, mkHeap m y (uh_brk s))) \/
  ((forall x, x ∈ l -> x.2 < nunits) /\
   malloc_loop room (S (length l) + f) nunits (uh_freep s) (hptr (uh_mem s) (uh_freep s)) s =
     ('(p, s') ← morecore room nunits s; if p =? 0 then Some (0, s') else malloc_loop room f nunits p (hptr (uh_mem s') p) s')).
Proof.
  intros Hh Hn. destruct (rotate s l live Hh) as (W & q & Eq & HF & HW & Hlen & Hp & Hseg).
  destruct (search_ok s nunits ((base, 0) :: l) (hd_addr (W ++ [q]) 0) q W q f) as [(y & x & Hy & Hx & Hnx & Hyx & E)|[Hall E]]; try done.
  - apply HF. set_solver.
  - intros x Hx. by apply HF.
  - rewrite Hp. by destruct W.
  - left. rewrite Hlen, Eq in E. pose proof (carve_ok s l live y x nunits Hh Hy Hx Hyx ltac:(lia)) as Hc.
    destruct (carve nunits y.1 x.1 (uh_mem s)) as [p m]. exists p, m, y.1. split; [done|]. rewrite <- E. f_equal. rewrite <- Eq, Hp. by destruct W.
  - right. split; [intros x Hx; apply Hall, HF; by right|]. rewrite Hlen, Eq in E. rewrite <- E. f_equal. rewrite <- Eq, Hp. by destruct W.
Qed.

Lemma apart_sym x y : apart x y -> apart y x.
Proof. unfold apart. tauto. Qed.

Lemma disjoint_perm live live' : live ≡ₚ live' -> disjoint_blocks live -> disjoint_blocks live'.
Proof.
  induction 1 as [|x l l' Hp IH|x y l|l1 l2 l3 _ IH1 _ IH2]; cbn; [done| | |auto].
  - intros [H ?]. split; [|auto]. intros z Hz. apply H. by rewrite Hp.
  - intros (Hy & Hx & Hl). split; [|split; [|done]].
    + intros z [->|Hz]%elem_of_cons; [apply apart_sym, Hy; left|by apply Hx].
    + intros z Hz. apply Hy. by right.
Qed.

Lemma heap_perm s l live live' : live ≡ₚ live' -> heap s l live -> heap s l live'.
Proof.
  intros Hp [? ? ? ? ? Hl Hs Hd]. split; try done; [|intros x y Hx Hy; apply Hs; [done|by rewrite Hp]|by eapply disjoint_perm].
  intros y Hy. apply Hl. by rewrite Hp.
Qed.

(** The allocator before its first use, or with some free list. *)
Definition heap_state (s : uheap) (live : list block) : Prop :=
  (uh_freep s = 0 /\ live = [] /\ lo <= uh_brk s < 2147483648) \/ exists l, heap s l live.

Lemma heap_init s : lo <= uh_brk s < 2147483648 ->
  heap (mkHeap (set_size base 0 (set_ptr base base (uh_mem s))) base (uh_brk s)) [] [].
Proof.
  intros Hb. assert (Hw : word base) by (unfold word; lia). split; cbn; try done; [|lia|unfold bend; cbn; split; [lia|done]|lia|exists (base, 0); split; [left|done]| |].
  - split_and!; [by apply hsize_set_size|by rewrite hptr_set_size, hptr_set_ptr|done].
  - intros y Hy. by apply not_elem_of_nil in Hy.
  - intros x y Hx. by apply not_elem_of_nil in Hx.
Qed.

Lemma units_ok nbytes : 0 <= nbytes < 2147483632 ->
  1 <= units nbytes /\ nbytes + 8 <= 8 * units nbytes /\ 8 * units nbytes < 2147483648.
Proof.
  intros Hn. unfold units. rewrite (u32_small (nbytes + 8 - 1)) by lia.
  rewrite u32_small by (Z.div_mod_to_equations; lia). Z.div_mod_to_equations. lia.
Qed.

(** What [malloc] returns: a block of its own that is large enough, or 0, and
    then no free block is large enough and the kernel has no room for more; no
    byte of a block in use changes. *)
Definition malloc_result (s : uheap) (live : list block) (nbytes r : Z) (s' : uheap) : Prop :=
  (forall y, y ∈ live -> same_block (uh_mem s) (uh_mem s') y) /\
  ((exists p, r = p + 8 /\ lo <= p /\ r + nbytes <= bend (p, units nbytes) /\ heap_state s' ((p, units nbytes) :: live)) \/
   (r = 0 /\ room (uh_brk s) (8 * Z.max 4096 (units nbytes)) = false /\ uh_brk s' = uh_brk s /\
    exists l, heap s' l live /\ forall x, x ∈ l -> x.2 < units nbytes)).

Lemma taken_result s live nbytes p m y :
  0 <= nbytes < 2147483632 -> taken_out s live (units nbytes) p m y ->
  (forall z, z ∈ live -> same_block (uh_mem s) m z) /\
  exists p', hadd p 1 = p' + 8 /\ lo <= p' /\ hadd p 1 + nbytes <= bend (p', units nbytes) /\
    heap_state (mkHeap m y (uh_brk s)) ((p', units nbytes) :: live).
Proof.
  intros Hn (Hp & [l Hh] & Hs). destruct (units_ok nbytes Hn) as (H1 & H2 & _). split; [done|]. exists p.
  destruct (hp_live _ _ _ Hh (p, units nbytes) ltac:(left)) as (_ & _ & Hb & _). pose proof (hp_brk _ _ _ Hh). cbn in *. unfold bend in *. cbn in *.
  unfold hadd. rewrite u32_small by lia. split_and!; [lia|done|lia|]. right. by exists l.
Qed.

Lemma malloc_heap s l live nbytes fuel :
  heap s l live -> 0 <= nbytes < 2147483632 -> (2 * length l + 4 <= fuel)%nat ->
  exists r s', malloc_loop room fuel (units nbytes) (uh_freep s) (hptr (uh_mem s) (uh_freep s)) s = Some (r, s') /\
    malloc_result s live nbytes r s'.
Proof.
  intros Hh Hn Hfuel. destruct (units_ok nbytes Hn) as (H1 & H2 & H3).
  destruct (search_round s l live (units nbytes) (fuel - S (length l)) Hh H1) as [(p & m & y & Ht & E)|[Hsmall E]];
    replace (S (length l) + (fuel - S (length l)))%nat with fuel in E by lia; rewrite E.
  { eexists _, _. split; [done|]. destruct (taken_result s live nbytes p m y Hn Ht) as [Hs Hr]. split; [done|by left]. }
  destruct (morecore_ok s l live (units nbytes) Hh H1 H3) as [[-> Hno]|(s1 & l1 & -> & Hh1 & (x & Hx & Hxn) & Hlen & Hsame)]; cbn.
  { exists 0, s. split; [done|]. split; [by intros y Hy a Ha|]. right. split_and!; try done. by exists l. }
  destruct (heap_bounds s1 l1 live Hh1) as (_ & Hfp & _). rewrite (proj2 (Z.eqb_neq _ _) Hfp).
  destruct (search_round s1 l1 live (units nbytes) (fuel - S (length l) - S (length l1)) Hh1 H1) as [(p & m & y & Ht & E1)|[Hall _]].
  - replace (S (length l1) + (fuel - S (length l) - S (length l1)))%nat with (fuel - S (length l))%nat in E1 by lia. rewrite E1.
    eexists _, _. split; [done|]. destruct (taken_result s1 live nbytes p m y Hn Ht) as [Hs1 Hr]. split; [|by left].
    intros z Hz. eapply same_block_trans; [by apply Hsame|by apply Hs1].
  - pose proof (Hall x Hx). lia.
Qed.
End Heap.

(** ** The theorems *)

(** C23: [malloc] of fewer than 2^31 - 16 bytes returns, in any state that calls of
    [malloc] and [free] have left.  It returns a block that is large enough,
    apart from all blocks in use and from the free list; or it returns 0, and
    then no free block is large enough and the kernel refused the memory that
    [morecore] asked for.  No byte of a block in use changes. *)
Theorem malloc_allocates base lo room s live nbytes :
  0 < base /\ base + 8 <= lo -> (forall brk n, room brk n = true -> brk + n < 2147483648) ->
  heap_state base lo s live -> 0 <= nbytes < 2147483632 ->
  exists r s', malloc base room nbytes s = Some (r, s') /\ malloc_result base lo room s live nbytes r s'.
Proof.
  intros Hb Hroom Hst Hn. unfold malloc. destruct Hst as [(-> & -> & Hbrk)|[l Hh]].
  - cbn [Z.eqb]. set (s0 := mkHeap _ base (uh_brk s)). pose proof (heap_init base lo Hb s Hbrk) as Hh. fold s0 in Hh.
    destruct (malloc_heap base lo Hb room Hroom s0 [] [] nbytes (2 * heap_fuel s0 + 2) Hh Hn ltac:(cbn; pose proof (heap_fuel_enough base lo Hb s0 [] [] Hh); cbn in *; lia))
      as (r & s' & E & _ & Hr). exists r, s'. split; [done|]. split; [|exact Hr]. intros y Hy. by apply not_elem_of_nil in Hy.
  - destruct (heap_bounds base lo Hb s l live Hh) as (_ & Hfp & _). rewrite (proj2 (Z.eqb_neq _ _) Hfp).
    apply (malloc_heap base lo Hb room Hroom s l live nbytes); [done|done|].
    pose proof (heap_fuel_enough base lo Hb s l live Hh) as Hf. cbn in Hf. lia.
Qed.

(** C24: [free] of a block in use returns.  The addresses on the free list
    are afterwards those that were on it and those of the block; the list is
    sorted and no two of its blocks touch, so the block is joined with the free
    blocks next to it.  No byte of the other blocks in use changes. *)
Theorem free_frees base lo s l live1 b live2 :
  0 < base /\ base + 8 <= lo -> heap base lo s l (live1 ++ b :: live2) ->
  exists s' l', free (b.1 + 8) s = Some s' /\ heap base lo s' l' (live1 ++ live2) /\ uh_brk s' = uh_brk s /\
    (forall a, covers l' a <-> covers l a \/ b.1 <= a < bend b) /\
    forall y, y ∈ live1 ++ live2 -> same_block (uh_mem s) (uh_mem s') y.
Proof.
  intros Hb Hh. apply (heap_perm base lo Hb s l _ (b :: live1 ++ live2)) in Hh; [|by rewrite Permutation_middle].
  destruct (free_ok base lo Hb s l _ b Hh) as (s' & l' & E & Hh' & Hbrk & _ & _ & Hcov & Hsame).
  destruct (hp_live _ _ _ _ _ Hh b ltac:(left)) as (? & ? & ? & _). pose proof (hp_brk _ _ _ _ _ Hh).
  assert (Ep : hadd b.1 1 = b.1 + 8) by (unfold hadd, bend in *; rewrite u32_small; lia). rewrite Ep in E.
  by exists s', l'.
Qed.

(** ** Witnesses *)

Definition fresh_heap : uheap := mkHeap (fun _ => 0) 0 8192.
Definition room_below (brk n : Z) : bool := brk + n <? 2147483648.

Lemma room_below_ok brk n : room_below brk n = true -> brk + n < 2147483648.
Proof. unfold room_below. lia. Qed.

Lemma fresh_heap_ok : heap_state 1000 4096 fresh_heap [].
Proof. left. split_and!; [done|done|cbn; lia|cbn; lia]. Qed.

(** The first block is the end of the memory that [morecore] gets. *)
Lemma malloc_allocates_witness :
  exists s', malloc 1000 room_below 100 fresh_heap = Some (40856, s') /\ heap_state 1000 4096 s' [(40848, 14)].
Proof.
  destruct (malloc_allocates 1000 4096 room_below fresh_heap [] 100 ltac:(lia) room_below_ok fresh_heap_ok ltac:(lia))
    as (r & s' & E & _ & Hr).
  assert (Er : fst <$> malloc 1000 room_below 100 fresh_heap = Some 40856) by (vm_compute; reflexivity).
  rewrite E in Er. injection Er as ->. exists s'. split; [exact E|].
  destruct Hr as [(p & Hp & _ & _ & Hst)|[Hr _]]; [|discriminate Hr]. assert (p = 40848) as -> by lia. exact Hst.
Defined.

(** A block of ten units in use in front of a free block of twenty, which [free]
    makes one free block of thirty. *)
Definition two_blocks : uheap :=
  mkHeap (set_size 8272 20 (set_ptr 8272 1000 (set_size 8192 10 (set_size 1000 0 (set_ptr 1000 8272 (fun _ => 0)))))) 1000 8432.

Lemma two_blocks_ok : heap 1000 4096 two_blocks [(8272, 20)] [(8192, 10)].
Proof.
  split.
  - vm_compute. done.
  - vm_compute. done.
  - vm_compute. done.
  - done.
  - exists (1000, 0). split; [left|done].
  - intros y ->%list_elem_of_singleton. vm_compute. done.
  - intros x y ->%list_elem_of_singleton ->%list_elem_of_singleton. right. vm_compute. done.
  - split; [intros y Hy; by apply not_elem_of_nil in Hy|done].
Qed.

Lemma free_frees_witness :
  exists s' l', free 8200 two_blocks = Some s' /\ heap 1000 4096 s' l' [] /\ covers l' 8192 /\ covers l' 8431 /\
    hptr (uh_mem s') 1000 = 8192 /\ hsize (uh_mem s') 8192 = 30.
Proof.
  destruct (free_frees 1000 4096 two_blocks [(8272, 20)] [] (8192, 10) [] ltac:(lia) two_blocks_ok) as (s' & l' & E & Hh & _ & Hcov & _).
  change (free 8200 two_blocks = Some s') in E. exists s', l'. split; [exact E|]. split; [exact Hh|].
  split; [apply Hcov; right; vm_compute; done|]. split; [apply Hcov; left; exists (8272, 20); split; [left|vm_compute; done]|].
  assert (Ep : (fun s => (hptr (uh_mem s) 1000, hsize (uh_mem s) 8192)) <$> free 8200 two_blocks = Some (8192, 30)) by (vm_compute; reflexivity).
  rewrite E in Ep. injection Ep as E1 E2. split; [exact E1|exact E2].
Defined.
