(* ===== verification/User.v ===== *)
(** * User programs

    A user program is a computation [U A]: it makes system calls, and what the
    kernel answers is a list of replies.  A run on some replies gives the
    calls that were made, in order, and then the program has returned a value,
    has exited, or waits for the reply to its last call.  Theorems quantify
    over the replies, so they cover whatever the kernel does.  A process that
    forks goes on as the parent or as the child, as the reply says.

    [prog C R A] is the same for calls [C] with replies [R]; the code that
    programs devices (Hw.v and later) is such a program over device accesses. *)

From stdpp Require Import base list.
From S2P Require Import Prelude.

(** ** Definitions *)

(** The system calls of user.h that the programs use. *)
Inductive call : Type :=
| Fork | Wait | Pipe
| Read (fd n : Z) | Write (fd : Z) (bs : list Z)
| Open (path : list Z) (mode : Z) | Close (fd : Z) | Fstat (fd : Z) | Dup (fd : Z)
| Exec (path : list Z) (argv : list (list Z))
| Chdir (path : list Z) | Mkdir (path : list Z) | Unlink (path : list Z)
| Link (old new : list Z) | Mknod (path : list Z) (major minor : Z)
| Kill (pid : Z) | Sleep (n : Z).

(** What a call returns, and the bytes it stores for the program. *)
Record reply : Type := mkReply { r_val : Z; r_bytes : list Z }.

(** A program that makes calls of type [C] with replies of type [R]. *)
Inductive ures (C R A : Type) : Type :=
| URet (a : A) (calls : list C) (rs : list R)
| UExit (calls : list C)
| UWait (calls : list C).
Arguments URet {C R A} _ _ _.
Arguments UExit {C R A} _.
Arguments UWait {C R A} _.

Definition prog (C R A : Type) : Type := list R -> ures C R A.
Notation U := (prog call reply).

Section Monad.
Context {C R : Type}.

(** The calls [cs] come before those of [r]. *)
Definition after {A} (cs : list C) (r : ures C R A) : ures C R A :=
  match r with
  | URet a cs' rs => URet a (cs ++ cs') rs
  | UExit cs' => UExit (cs ++ cs')
  | UWait cs' => UWait (cs ++ cs')
  end.

#[global] Instance U_ret : MRet (prog C R) := fun A a rs => URet a [] rs.
#[global] Instance U_bind : MBind (prog C R) := fun A B f m rs =>
  match m rs with
  | URet a cs rs' => after cs (f a rs')
  | UExit cs => UExit cs
  | UWait cs => UWait cs
  end.

Definition sys (c : C) : prog C R R := fun rs =>
  match rs with
  | [] => UWait [c]
  | r :: rs' => URet r [c] rs'
  end.
(** A call without a reply. *)
Definition tell (c : C) : prog C R unit := fun rs => URet tt [c] rs.
(** [exit()] *)
Definition uexit {A} : prog C R A := fun _ => UExit [].

Fixpoint uforM {A} (l : list A) (f : A -> prog C R unit) : prog C R unit :=
  match l with
  | [] => mret tt
  | x :: l' => f x ;; uforM l' f
  end.

(** A loop that carries [s]; each turn makes a call or leaves the loop, so one
    more turn than there are replies is enough. *)
Fixpoint uloop_fuel {S A} (fuel : nat) (body : S -> prog C R (S + A)) (s : S) : prog C R A :=
  match fuel with
  | O => fun _ => UWait []
  | S fuel' =>
    r ← body s;
    match r with
    | inl s' => uloop_fuel fuel' body s'
    | inr a => mret a
    end
  end.
Definition uloop {S A} (body : S -> prog C R (S + A)) (s : S) : prog C R A :=
  fun rs => uloop_fuel (1 + length rs) body s rs.

(** ** Facts about the monad *)

Lemma after_after {A} cs cs' (r : ures C R A) : after cs (after cs' r) = after (cs ++ cs') r.
Proof. destruct r; cbn; by rewrite app_assoc. Qed.

Lemma after_nil {A} (r : ures C R A) : after [] r = r.
Proof. by destruct r. Qed.

Lemma ubind_ret {A B} (m : prog C R A) (f : A -> prog C R B) rs a cs rs' :
  m rs = URet a cs rs' -> (m ≫= f) rs = after cs (f a rs').
Proof. intros E. unfold mbind, U_bind. by rewrite E. Qed.

Lemma ubind_exit {A B} (m : prog C R A) (f : A -> prog C R B) rs cs : m rs = UExit cs -> (m ≫= f) rs = UExit cs.
Proof. intros E. unfold mbind, U_bind. by rewrite E. Qed.

Lemma ubind_wait {A B} (m : prog C R A) (f : A -> prog C R B) rs cs : m rs = UWait cs -> (m ≫= f) rs = UWait cs.
Proof. intros E. unfold mbind, U_bind. by rewrite E. Qed.

Lemma ubind_assoc {A B D} (m : prog C R A) (f : A -> prog C R B) (g : B -> prog C R D) rs :
  ((m ≫= f) ≫= g) rs = (m ≫= (fun a => f a ≫= g)) rs.
Proof.
  unfold mbind, U_bind. destruct (m rs) as [a cs rs'|cs|cs]; cbn; try done. destruct (f a rs') as [b cs' rs''|cs'|cs']; cbn; try done.
  by rewrite after_after.
Qed.

Lemma sys_reply c r rs : sys c (r :: rs) = URet r [c] rs.
Proof. done. Qed.
(** *** Fuel *)

(** No run leaves more replies than there were. *)
Definition ushrinks {A} (m : prog C R A) : Prop := forall rs a cs rs', m rs = URet a cs rs' -> (length rs' <= length rs)%nat.
(** A turn that goes on has taken a reply. *)
Definition uturns {S A} (body : S -> prog C R (S + A)) : Prop :=
  forall s rs s' cs rs', body s rs = URet (inl s') cs rs' -> (length rs' < length rs)%nat.

Lemma uloop_enough {S A} (body : S -> prog C R (S + A)) (Hb : uturns body) : forall f g s rs,
  (length rs < f)%nat -> (length rs < g)%nat -> uloop_fuel f body s rs = uloop_fuel g body s rs.
Proof.
  induction f as [|f IH]; intros g s rs Hf Hg; [lia|]. destruct g as [|g]; [lia|]. cbn [uloop_fuel]. unfold mbind, U_bind.
  destruct (body s rs) as [[s'|a] cs rs'|cs|cs] eqn:E; try done. apply Hb in E. f_equal. apply IH; lia.
Qed.

Lemma uloop_unfold {S A} (body : S -> prog C R (S + A)) s rs :
  uturns body -> uloop body s rs = (r ← body s; match r with inl s' => uloop body s' | inr a => mret a end) rs.
Proof.
  intros Hb. unfold uloop at 1. cbn [Nat.add uloop_fuel]. unfold mbind, U_bind.
  destruct (body s rs) as [[s'|a] cs rs'|cs|cs] eqn:E; try done. apply Hb in E. unfold uloop. f_equal. apply uloop_enough; [done|lia|lia].
Qed.

End Monad.

(** A call of which only the value matters, and one of which nothing does. *)
Definition sysv {C} (c : C) : prog C reply Z := r ← sys c; mret (r_val r).
Definition sys_ {C} (c : C) : prog C reply unit := _ ← sys c; mret tt.
Lemma sysv_reply {C} (c : C) r rs : sysv c (r :: rs) = URet (r_val r) [c] rs.
Proof. done. Qed.
Lemma sys__reply {C} (c : C) r rs : sys_ c (r :: rs) = URet tt [c] rs.
Proof. done. Qed.

