(* ===== verification/Ulib.v ===== *)
(** * The user library (ulib.c, printf.c)

    A string is the list of the bytes at its address; reading past the end
    gives 0, the terminator.  Shown: what [printint] prints is read back by
    [atoi], and fits into its buffer; the copy loop of [memmove] is a move of
    the whole range unless it runs into its own output. *)

From stdpp Require Import base list strings.
From S2P Require Import Prelude Memory Bytes Str User.

(** ** ulib.c *)

Module Ulib.

(** The bytes that strcpy writes. *)
Fixpoint strcpy (t : list Z) : list Z :=
  match t with
  | [] => [0]
  | c :: t' => if c =? 0 then [0] else c :: strcpy t'
  end.

Fixpoint strcmp (p q : list Z) : Z :=
  match p with
  | [] => 0 - Str.chr q
  | c :: p' => if negb (c =? 0) && (c =? Str.chr q) then strcmp p' (tail q) else c - Str.chr q
  end.

Fixpoint strlen (s : list Z) : Z :=
  match s with
  | [] => 0
  | c :: s' => if c =? 0 then 0 else 1 + strlen s'
  end.

Definition memset (m : mem) (dst c n : Z) : mem := Str.stosb m dst c (Z.to_nat n).

(** The string from the first [c] on. *)
Fixpoint strchr (s : list Z) (c : Z) : option (list Z) :=
  match s with
  | [] => None
  | x :: s' => if x =? 0 then None else if x =? c then Some s else strchr s' c
  end.

(** The bytes that gets has read so far are [buf]; the result ends with the
    terminator. *)
Definition gets_turn (max : Z) (buf : list Z) : U (list Z + list Z) :=
  if Z.of_nat (length buf) + 1 <? max then
    r ← sys (Read 0 1);
    if r_val r <? 1 then mret (inr buf)
    else
      let c := Str.chr (r_bytes r) in
      mret (if (c =? 10) || (c =? 13) then inr (buf ++ [c]) else inl (buf ++ [c]))
  else mret (inr buf).
Definition gets (max : Z) : U (list Z) :=
  buf ← uloop (gets_turn max) [];
  mret (buf ++ [0]).

(** The result and the bytes of the [struct stat]. *)
Definition stat (n : list Z) : U (Z * list Z) :=
  fd ← sysv (Open n 0);
  if fd <? 0 then mret (-1, [])
  else
    r ← sys (Fstat fd);
    sys_ (Close fd);;
    mret (r_val r, r_bytes r).

Definition is_digit (c : Z) : bool := (48 <=? c) && (c <=? 57).
Fixpoint atoi_loop (s : list Z) (n : Z) : Z :=
  match s with
  | c :: s' => if is_digit c then atoi_loop s' (s32 (n * 10 + c - 48)) else n
  | [] => n
  end.
Definition atoi (s : list Z) : Z := atoi_loop s 0.

(** The loop copies upwards. *)
Definition memmove (m : mem) (vdst vsrc n : Z) : mem := Str.move_up m vdst vsrc (Z.to_nat n).

End Ulib.

(** ** printf.c *)

Module Printf.

Definition putc (fd c : Z) : U unit := sys_ (Write fd [c]).

Definition digits (d : Z) : Z := nth (Z.to_nat d) (bytes_of "0123456789ABCDEF") 0.

(** The do-while loop: the digits of [x], least significant first. *)
Fixpoint digit_loop (fuel : nat) (x base : Z) : list Z :=
  match fuel with
  | O => []
  | S fuel' => digits (x mod base) :: (if x / base =? 0 then [] else digit_loop fuel' (x / base) base)
  end.

(** What [buf] holds when it is printed. *)
Definition int_buf (xx base : Z) (sgn : bool) : list Z :=
  if sgn && (xx <? 0) then digit_loop 32 (u32 (- xx)) base ++ [45]
  else digit_loop 32 (u32 xx) base.
Definition printint (fd xx base : Z) (sgn : bool) : U unit := uforM (rev (int_buf xx base sgn)) (putc fd).

(** An argument: a word, and the string at this address if it is a pointer.
    There are as many as the format uses. *)
Record parg : Type := mkArg { a_word : Z; a_str : list Z }.
Definition no_arg : parg := mkArg 0 [].
(** A pointer that is not null. *)
Definition str_arg (s : list Z) : parg := mkArg 1 s.
Definition int_arg (v : Z) : parg := mkArg v [].

Definition till_nul (s : list Z) : list Z := take (Z.to_nat (Ulib.strlen s)) s.

(** [state]: a '%' was read. *)
Fixpoint printf_loop (fd : Z) (fmt : list Z) (state : bool) (ap : list parg) : U unit :=
  match fmt with
  | [] => mret tt
  | c :: fmt' =>
    if c =? 0 then mret tt
    else if negb state then
      if c =? 37 then printf_loop fd fmt' true ap
      else putc fd c;; printf_loop fd fmt' false ap
    else if c =? 100 then printint fd (s32 (a_word (hd no_arg ap))) 10 true;; printf_loop fd fmt' false (tail ap)
    else if (c =? 120) || (c =? 112) then
      printint fd (s32 (a_word (hd no_arg ap))) 16 false;; printf_loop fd fmt' false (tail ap)
    else if c =? 115 then
      let s := if a_word (hd no_arg ap) =? 0 then bytes_of "(null)" else a_str (hd no_arg ap) in
      uforM (till_nul s) (putc fd);; printf_loop fd fmt' false (tail ap)
    else if c =? 99 then putc fd (Z.land (a_word (hd no_arg ap)) 255);; printf_loop fd fmt' false (tail ap)
    else if c =? 37 then putc fd c;; printf_loop fd fmt' false ap
    else putc fd 37;; putc fd c;; printf_loop fd fmt' false ap
  end.
Definition printf (fd : Z) (fmt : list Z) (ap : list parg) : U unit := printf_loop fd fmt false ap.

End Printf.

(** ** Printing and reading numbers *)

Lemma s32_u32 x : s32 (u32 x) = s32 x.
Proof. unfold s32. by rewrite u32_idemp. Qed.

Lemma s32_eqm x y : u32 x = u32 y -> s32 x = s32 y.
Proof. intros E. by rewrite <- (s32_u32 x), E, s32_u32. Qed.

Lemma digits_dec d : 0 <= d < 10 -> Printf.digits d = 48 + d.
Proof.
  intros Hd. assert (d = 0 \/ d = 1 \/ d = 2 \/ d = 3 \/ d = 4 \/ d = 5 \/ d = 6 \/ d = 7 \/ d = 8 \/ d = 9) as Hc by lia.
  by repeat destruct Hc as [->|Hc]; [..|subst d].
Qed.

Lemma atoi_digit d s n : 0 <= d < 10 -> Ulib.atoi_loop (48 + d :: s) (s32 n) = Ulib.atoi_loop s (s32 (n * 10 + d)).
Proof.
  intros Hd. cbn [Ulib.atoi_loop]. unfold Ulib.is_digit.
  rewrite (proj2 (Z.leb_le 48 (48 + d))), (proj2 (Z.leb_le (48 + d) 57)) by lia. cbn [andb]. f_equal. apply s32_eqm.
  replace (s32 n * 10 + (48 + d) - 48) with (s32 n * 10 + d) by lia. unfold u32.
  rewrite <- (Z.add_mod_idemp_l (s32 n * 10)), <- (Z.mul_mod_idemp_l (s32 n)) by lia. fold (u32 (s32 n)). rewrite u32_s32.
  unfold u32. by rewrite Z.mul_mod_idemp_l, Z.add_mod_idemp_l by lia.
Qed.

(** The digits of [x], printed last first, are read as [x]. *)
Lemma digit_loop_read f : forall x s, 0 <= x < 10 ^ Z.of_nat f ->
  (0 < f)%nat -> Ulib.atoi_loop (rev (Printf.digit_loop f x 10) ++ s) 0 = Ulib.atoi_loop s (s32 x).
Proof.
  induction f as [|f IH]; intros x s Hx Hf; [lia|]. cbn [Printf.digit_loop].
  assert (Hm := Z.mod_pos_bound x 10 ltac:(lia)). assert (Hq := Z_div_mod_eq_full x 10). rewrite digits_dec by done.
  rewrite Nat2Z.inj_succ, Z.pow_succ_r in Hx by lia.
  destruct (Z.eqb_spec (x / 10) 0) as [E|E]; cbn [rev app]; [change 0 with (s32 0) at 1; rewrite atoi_digit by done; f_equal; f_equal; lia|].
  rewrite <- !app_assoc. cbn [app]. rewrite IH; [|lia|destruct f; [cbn in Hx; lia|lia]].
  rewrite atoi_digit by done. f_equal. f_equal. lia.
Qed.

(** No more digits than it takes. *)
Lemma digit_loop_length base k f : 1 < base -> forall x, 0 <= x < base ^ Z.of_nat k -> (0 < k)%nat ->
  (1 <= length (Printf.digit_loop (S f) x base) <= k)%nat.
Proof.
  intros Hb. revert k. induction f as [|f IH]; intros k x Hx Hk; cbn [Printf.digit_loop length].
  - destruct (x / base =? 0); cbn [length]; lia.
  - destruct (Z.eqb_spec (x / base) 0) as [E|E]; cbn [length]; [lia|]. destruct k as [|k]; [lia|].
    rewrite Nat2Z.inj_succ, Z.pow_succ_r in Hx by lia.
    assert (Hq : 0 <= x / base < base ^ Z.of_nat k) by (split; [apply Z.div_pos; lia|apply Z.div_lt_upper_bound; lia]).
    destruct k as [|k]; [cbn in Hq; lia|]. pose proof (IH (S k) (x / base) Hq ltac:(lia)). cbn [Printf.digit_loop length] in *. lia.
Qed.

(** One byte per call. *)
Definition putcs (fd : Z) (bs : list Z) : list call := map (fun c => Write fd [c]) bs.

Lemma uforM_putc fd bs : forall rs, (length bs <= length rs)%nat ->
  uforM bs (Printf.putc fd) rs = URet tt (putcs fd bs) (drop (length bs) rs).
Proof.
  induction bs as [|b bs IH]; intros rs Hl; [done|]. destruct rs as [|r rs]; cbn [length] in Hl; [lia|]. cbn [uforM putcs map length drop].
  unfold mbind, U_bind, Printf.putc. rewrite sys__reply. change (λ c : Z, sys_ (Write fd [c])) with (Printf.putc fd).
  rewrite IH by lia. done.
Qed.



(** ** memmove *)

Lemma ulib_memmove_moves m d s n x : byte_mem m -> 0 <= n -> d <= s \/ s + n <= d ->
  Ulib.memmove m d s n x = mmove m d s n x.
Proof. intros Hm Hn Hd. unfold Ulib.memmove. rewrite move_up_spec; [by rewrite Z2Nat.id|done|lia]. Qed.

(** One address up, the loop copies the first byte over the whole range. *)
Lemma ulib_memmove_smears m s n : byte_mem m -> forall x, s <= x <= s + Z.of_nat n -> Ulib.memmove m (s + 1) s (Z.of_nat n) x = m s.
Proof.
  unfold Ulib.memmove. rewrite Nat2Z.id. revert m s. induction n as [|n IH]; intros m s Hm x Hx; cbn [Str.move_up]; [f_equal; lia|].
  rewrite ld8_byte by done. assert (E1 : st8 m (s + 1) (m s) (s + 1) = m s) by (unfold st8; rewrite Z.eqb_refl; apply Z.mod_small, Hm).
  destruct (decide (x = s)) as [->|Hne]; [|rewrite IH; [done|by apply st8_bytes|lia]].
  assert (Hlow : forall k m' d s', s < d -> Str.move_up m' d s' k s = m' s).
  { induction k as [|k IHk]; intros m' d s' Hd; cbn [Str.move_up]; [done|]. rewrite IHk by lia. unfold st8. zcase; lia || done. }
  rewrite Hlow by lia. unfold st8. zcase; lia || done.
Qed.
