(* ===== verification/Grep.v ===== *)
(** * grep (grep.c)

    The matcher of grep.c against regular expressions as such: a pattern is
    parsed into anchors and items, an item list denotes a set of strings, and
    [match] finds a substring in this set.  Then the loop that cuts what it
    reads into lines: it writes exactly the lines that match, provided that
    every piece it reads has a newline in it.  Without this the text it holds
    is dropped. *)

From stdpp Require Import base list strings.
From S2P Require Import Prelude Bytes Str User Ulib.

(** ** The program *)

Module Grep.

(** [here]: matchhere of the rest of the pattern. *)
Fixpoint matchstar (here : list Z -> bool) (c : Z) (text : list Z) : bool :=
  here text ||
  match text with
  | x :: text' => negb (x =? 0) && ((x =? c) || (c =? 46)) && matchstar here c text'
  | [] => false
  end.

Fixpoint matchhere (re text : list Z) : bool :=
  match re with
  | [] => true
  | c :: re1 =>
    if c =? 0 then true
    else if Str.chr re1 =? 42 then
      match re1 with
      | _ :: re2 => matchstar (fun t => matchhere re2 t) c text
      | [] => false
      end
    else if (c =? 36) && (Str.chr re1 =? 0) then Str.chr text =? 0
    else
      match text with
      | x :: text' => negb (x =? 0) && ((c =? 46) || (c =? x)) && matchhere re1 text'
      | [] => false
      end
  end.

(** The do-while loop of match. *)
Fixpoint match_loop (re text : list Z) : bool :=
  matchhere re text ||
  match text with
  | x :: text' => negb (x =? 0) && match_loop re text'
  | [] => false
  end.
Definition match_ (re text : list Z) : bool :=
  if Str.chr re =? 94 then matchhere (tail re) text else match_loop re text.

(** The inner loop, on the bytes from [p] on; what is left of them. *)
Fixpoint grep_lines (fuel : nat) (pattern p : list Z) : U (list Z) :=
  match fuel with
  | O => mret p
  | S fuel' =>
    match Ulib.strchr p 10 with
    | None => mret p
    | Some q =>
      let line := take (length p - length q) p in
      (if match_ pattern line then sys_ (Write 1 (line ++ [10])) else mret tt);;
      grep_lines fuel' pattern (tail q)
    end
  end.

(** A turn of the outer loop; [held] are the first [m] bytes of [buf]. *)
Definition grep_turn (pattern : list Z) (fd : Z) (held : list Z) : U (list Z + unit) :=
  r ← sys (Read fd (1024 - Z.of_nat (length held) - 1));
  if r_val r <=? 0 then mret (inr tt)
  else
    let buf := held ++ take (Z.to_nat (r_val r)) (r_bytes r) in
    p ← grep_lines (length buf) pattern buf;
    mret (inl (if (length p =? length buf)%nat then [] else p)).
Definition grep (pattern : list Z) (fd : Z) : U unit := uloop (grep_turn pattern fd) [].

Definition grep_file (pattern file : list Z) : U unit :=
  fd ← sysv (Open file 0);
  if fd <? 0 then Printf.printf 1 (bytes_of "grep: cannot open %s" ++ [10]) [Printf.str_arg file];; uexit
  else grep pattern fd;; sys_ (Close fd).
Definition main (argv : list (list Z)) : U unit :=
  match argv with
  | _ :: pattern :: files =>
    match files with
    | [] => grep pattern 0;; uexit
    | _ => uforM files (grep_file pattern);; uexit
    end
  | _ => Printf.printf 2 (bytes_of "usage: grep pattern [file ...]" ++ [10]) [];; uexit
  end.

End Grep.

(** ** Regular expressions *)

Inductive item : Type :=
| One (c : option Z)
| Star (c : option Z).
Record regexp : Type := mkRegexp { re_bol : bool; re_items : list item; re_eol : bool }.

(** '.' stands for any character. *)
Definition atom (c : Z) : option Z := if c =? 46 then None else Some c.
Fixpoint parse_items (re : list Z) : list item * bool :=
  match re with
  | [] => ([], false)
  | c :: re1 =>
    match re1 with
    | d :: re2 =>
      if d =? 42 then (Star (atom c) :: (parse_items re2).1, (parse_items re2).2)
      else (One (atom c) :: (parse_items re1).1, (parse_items re1).2)
    | [] => if c =? 36 then ([], true) else ([One (atom c)], false)
    end
  end.
Definition parse (re : list Z) : regexp :=
  match re with
  | c :: re' => if c =? 94 then mkRegexp true (parse_items re').1 (parse_items re').2
                else mkRegexp false (parse_items re).1 (parse_items re).2
  | [] => mkRegexp false [] false
  end.

(** The strings that an item list stands for. *)
Definition is_atom (c : option Z) (x : Z) : Prop := match c with None => True | Some y => x = y end.
Fixpoint denotes (l : list item) (w : list Z) : Prop :=
  match l with
  | [] => w = []
  | One c :: l' => exists x w', w = x :: w' /\ is_atom c x /\ denotes l' w'
  | Star c :: l' => exists u w', w = u ++ w' /\ Forall (is_atom c) u /\ denotes l' w'
  end.

(** A substring, at the anchored ends if there are anchors. *)
Definition occurs (r : regexp) (text : list Z) : Prop :=
  exists pre mid suf, text = pre ++ mid ++ suf /\ denotes (re_items r) mid /\
    (re_bol r = true -> pre = []) /\ (re_eol r = true -> suf = []).
Definition occurs_here (p : list item * bool) (text : list Z) : Prop :=
  exists mid suf, text = mid ++ suf /\ denotes p.1 mid /\ (p.2 = true -> suf = []).

(** ** The matcher is right *)

Definition nonul (s : list Z) : Prop := Forall (fun c => c <> 0) s.

Lemma nonul_chr c s : nonul (c :: s) -> (c =? 0) = false.
Proof. intros Hn. inversion Hn; subst. by apply Z.eqb_neq. Qed.

Lemma nonul_tail c s : nonul (c :: s) -> nonul s.
Proof. intros Hn. by inversion Hn. Qed.

Lemma atom_ok c x : is_atom (atom c) x <-> ((x =? c) || (c =? 46)) = true.
Proof. unfold atom. destruct (Z.eqb_spec c 46), (Z.eqb_spec x c); cbn; naive_solver. Qed.

Lemma atom_ok' c x : is_atom (atom c) x <-> ((c =? 46) || (c =? x)) = true.
Proof. rewrite atom_ok, orb_comm, (Z.eqb_sym x c). done. Qed.

Lemma matchstar_occurs here p c : (forall t, nonul t -> here t = true <-> occurs_here p t) ->
  forall t, nonul t -> Grep.matchstar here c t = true <-> occurs_here (Star (atom c) :: p.1, p.2) t.
Proof.
  intros Hh. unfold occurs_here. induction t as [|x t IH]; intros Hn; cbn [Grep.matchstar denotes fst snd].
  - rewrite orb_false_r, Hh by done. unfold occurs_here. split.
    + intros (mid & suf & E & Hd & He). exists mid, suf. repeat split; try done. by exists [], mid.
    + intros (mid & suf & E & (u & w & -> & Hu & Hd) & He). destruct u; [|done]. by exists w, suf.
  - rewrite (nonul_chr _ _ Hn), orb_true_iff, Hh by done. cbn [negb andb]. rewrite andb_true_iff, <- atom_ok, IH by (by eapply nonul_tail).
    unfold occurs_here. split.
    + intros [(mid & suf & E & Hd & He)|[Hx (mid & suf & -> & (u & w & -> & Hu & Hd) & He)]].
      * exists mid, suf. repeat split; try done. by exists [], mid.
      * exists (x :: u ++ w), suf. repeat split; try done. exists (x :: u), w. by repeat constructor.
    + intros (mid & suf & E & (u & w & -> & Hu & Hd) & He). destruct u as [|y u]; [left; by exists w, suf|right].
      cbn in E. injection E as <- ->. inversion Hu; subst. split; [done|]. exists (u ++ w), suf. repeat split; try done. by exists u, w.
Qed.

Lemma one_occurs c p t : occurs_here (One (atom c) :: p.1, p.2) t <->
  exists x t', t = x :: t' /\ ((c =? 46) || (c =? x)) = true /\ occurs_here p t'.
Proof.
  unfold occurs_here. cbn [denotes fst snd]. split.
  - intros (mid & suf & -> & (x & w & -> & Hx & Hd) & He). exists x, (w ++ suf). rewrite <- atom_ok'. eauto 10.
  - intros (x & t' & -> & Hx & mid & suf & -> & Hd & He). exists (x :: mid), suf. rewrite <- atom_ok' in Hx. eauto 10.
Qed.

Lemma nil_occurs e t : occurs_here ([], e) t <-> (e = true -> t = []).
Proof.
  unfold occurs_here. cbn [denotes fst snd]. split.
  - intros (mid & suf & -> & -> & He) E. by apply He.
  - intros He. by exists [], t.
Qed.

Lemma matchhere_occurs n : forall re, (length re <= n)%nat -> nonul re -> forall t, nonul t ->
  Grep.matchhere re t = true <-> occurs_here (parse_items re) t.
Proof.
  induction n as [|n IH]; intros re Hl Hre t Ht; (destruct re as [|c re1]; [split; [intros _; by apply (nil_occurs false)|done]|]); cbn [length] in Hl; [lia|].
  pose proof (nonul_tail _ _ Hre) as Hre1. cbn [Grep.matchhere parse_items]. rewrite (nonul_chr _ _ Hre).
  destruct re1 as [|d re2]; [|cbn [Str.chr nth]; destruct (Z.eqb_spec d 42) as [->|Hd]].
  - cbn [Str.chr nth Z.eqb andb]. destruct (Z.eqb_spec c 36) as [->|Hc]; cbn [andb].
    + rewrite nil_occurs. destruct t as [|x t]; [by split|]. cbn. rewrite (nonul_chr _ _ Ht). split; [done|]. intros H. by discriminate H.
    + rewrite (one_occurs c ([], false)). destruct t as [|x t]; [split; [done|by intros (?&?&?&?)]|].
      rewrite (nonul_chr _ _ Ht), andb_true_r. cbn [negb andb]. assert (Ho : forall t, occurs_here ([], false) t) by (intros u; by apply nil_occurs). naive_solver.
  - apply (matchstar_occurs _ (parse_items re2)); [|done]. intros t' Ht'. apply IH; [cbn [length] in Hl; lia|by eapply nonul_tail|done].
  - unfold Str.chr at 1. cbn [nth]. rewrite (nonul_chr _ _ Hre1), andb_false_r. rewrite one_occurs.
    destruct t as [|x t]; [split; [done|by intros (?&?&?&?)]|]. rewrite (nonul_chr _ _ Ht). cbn [negb andb].
    rewrite andb_true_iff, IH by (try (by eapply nonul_tail); cbn [length] in *; done || lia). naive_solver.
Qed.

Lemma match_loop_occurs re : nonul re -> forall t, nonul t ->
  Grep.match_loop re t = true <-> exists pre suf, t = pre ++ suf /\ occurs_here (parse_items re) suf.
Proof.
  intros Hre. induction t as [|x t IH]; intros Ht; cbn [Grep.match_loop].
  - rewrite orb_false_r, (matchhere_occurs (length re)) by done. split; [by exists [], []|].
    intros (pre & suf & E & Ho). symmetry in E. by apply app_eq_nil in E as [-> ->].
  - rewrite (nonul_chr _ _ Ht), orb_true_iff, (matchhere_occurs (length re)) by done. cbn [negb andb].
    rewrite IH by (by eapply nonul_tail). split.
    + intros [Ho|(pre & suf & -> & Ho)]; [by exists [], (x :: t)|by exists (x :: pre), suf].
    + intros (pre & suf & E & Ho). destruct pre as [|y pre]; cbn in E; [subst suf; by left|]. injection E as <- ->. right. by exists pre, suf.
Qed.

(** C28: The pattern matcher of grep finds what the pattern means.  For every
    pattern and text, [match] answers yes exactly if the text has a substring
    among the strings that the pattern stands for, where '.' is any
    character, a character with '*' any number of them, and '^' and '$' tie
    the substring to the ends of the text. *)
Theorem match_finds (re text : list Z) : nonul re -> nonul text ->
  Grep.match_ re text = true <-> occurs (parse re) text.
Proof.
  intros Hre Ht. unfold Grep.match_, occurs, parse. destruct re as [|c re']; cbn [Str.chr nth tail].
  - change (0 =? 94) with false. cbv iota. rewrite match_loop_occurs by done. cbn. split; intros _; [by exists [], [], text|]. exists [], text. split; [done|]. by apply (nil_occurs false).
  - destruct (Z.eqb_spec c 94) as [->|Hc]; cbn [re_bol re_items re_eol].
    + rewrite (matchhere_occurs (length re')) by (try done; by eapply nonul_tail). unfold occurs_here. split.
      * intros (mid & suf & -> & Hd & He). by exists [], mid, suf.
      * intros (pre & mid & suf & -> & Hd & Hp & He). rewrite Hp by done. by exists mid, suf.
    + rewrite match_loop_occurs by done. unfold occurs_here. split.
      * intros (pre & ? & -> & mid & suf & -> & Hd & He). by exists pre, mid, suf.
      * intros (pre & mid & suf & -> & Hd & Hp & He). exists pre, (mid ++ suf). split; [done|]. by exists mid, suf.
Qed.

Lemma match_finds_witness : occurs (parse (bytes_of "^a.*b$")) (bytes_of "axxb").
Proof. apply (match_finds (bytes_of "^a.*b$") (bytes_of "axxb")); [by repeat constructor|by repeat constructor|reflexivity]. Defined.

(** ** The lines that are written *)

(** The lines of a text that end with a newline, and what comes after. *)
Fixpoint split_lines (t : list Z) : list (list Z) * list Z :=
  match t with
  | [] => ([], [])
  | x :: t' =>
    let (ls, r) := split_lines t' in
    if x =? 10 then ([] :: ls, r)
    else match ls with [] => ([], x :: r) | l :: ls' => ((x :: l) :: ls', r) end
  end.

Lemma split_line a t : 10 ∉ a -> split_lines (a ++ 10 :: t) = (a :: (split_lines t).1, (split_lines t).2).
Proof.
  induction a as [|x a IH]; intros Ha; cbn [app split_lines]; [by destruct (split_lines t)|].
  rewrite not_elem_of_cons in Ha. rewrite IH by naive_solver. zcase; [naive_solver|done].
Qed.

Lemma split_no_line a : 10 ∉ a -> split_lines a = ([], a).
Proof.
  induction a as [|x a IH]; intros Ha; [done|]. rewrite not_elem_of_cons in Ha. cbn [split_lines]. rewrite IH by naive_solver.
  zcase; [naive_solver|done].
Qed.

Lemma split_app t : forall u, split_lines (t ++ u) =
  ((split_lines t).1 ++ (split_lines ((split_lines t).2 ++ u)).1, (split_lines ((split_lines t).2 ++ u)).2).
Proof.
  induction t as [|x t IH]; intros u; cbn [app split_lines fst snd]; [by destruct (split_lines u)|]. rewrite IH.
  destruct (split_lines t) as [ls r]; cbn [fst snd]. zcase; [done|]. destruct ls as [|l ls]; cbn [app fst snd]; [|done].
  cbn [split_lines]. zcase; [done|]. by destruct (split_lines (r ++ u)) as [[|l ls] r'].
Qed.

Lemma strchr_spec t c : nonul t -> c <> 0 ->
  match Ulib.strchr t c with
  | Some q => exists a b, t = a ++ c :: b /\ c ∉ a /\ q = c :: b
  | None => c ∉ t
  end.
Proof.
  intros Hn Hc. induction t as [|x t IH]; cbn [Ulib.strchr]; [apply not_elem_of_nil|].
  rewrite (nonul_chr _ _ Hn). zcase; [by exists [], t; split; [by subst|split; [apply not_elem_of_nil|by subst]]|].
  specialize (IH (nonul_tail _ _ Hn)). destruct (Ulib.strchr t c) as [q|].
  - destruct IH as (a & b & -> & Ha & ->). exists (x :: a), b. rewrite not_elem_of_cons. naive_solver.
  - rewrite not_elem_of_cons. naive_solver.
Qed.

(** The calls for the matching ones among some lines. *)
Definition selected (re : list Z) (ls : list (list Z)) : list (list Z) := List.filter (Grep.match_ re) ls.
Definition write_lines (ls : list (list Z)) : list call := map (fun l => Write 1 (l ++ [10])) ls.

Lemma grep_lines_run re f : forall p ws rs, (length p <= f)%nat -> nonul p ->
  length ws = length (selected re (split_lines p).1) ->
  Grep.grep_lines f re p (ws ++ rs) = URet (split_lines p).2 (write_lines (selected re (split_lines p).1)) rs.
Proof.
  induction f as [|f IH]; intros p ws rs Hf Hn Hw; cbn [Grep.grep_lines].
  { destruct p; [|cbn in Hf; lia]. by destruct ws. }
  pose proof (strchr_spec p 10 Hn ltac:(lia)) as Hq. destruct (Ulib.strchr p 10) as [q|].
  2: { rewrite split_no_line in * by done. by destruct ws. }
  destruct Hq as (a & b & -> & Ha & ->). rewrite split_line in * by done. cbn [fst snd selected List.filter tail] in *.
  rewrite length_app in *. cbn [length] in *. replace (length a + S (length b) - S (length b))%nat with (length a) by lia.
  rewrite take_app_length. assert (Hnb : nonul b) by (apply Forall_app in Hn as [_ Hn]; by eapply nonul_tail).
  fold (selected re (split_lines b).1) in *. unfold mbind, U_bind. destruct (Grep.match_ re a).
  - destruct ws as [|w ws]; [done|]. injection Hw as Hw. cbn [app]. rewrite sys__reply, IH by (done || lia). done.
  - cbn [mret U_ret after]. rewrite after_nil, IH by (done || lia). done.
Qed.

Lemma split_rest_length t : (length (split_lines t).2 <= length t)%nat /\ (10 ∈ t -> (length (split_lines t).2 < length t)%nat) /\ 10 ∉ (split_lines t).2.
Proof.
  induction t as [|x t (IH1 & IH2 & IH3)]; cbn [split_lines length]; [split; [done|]; split; [by intros ?%not_elem_of_nil|apply not_elem_of_nil]|].
  destruct (split_lines t) as [ls r] eqn:E. cbn [snd] in *. zcase; cbn [snd length]; [split; [lia|]; by split; [lia|]|].
  destruct ls as [|l ls]; cbn [snd length]; [|split; [lia|]; by split; [lia|]]. split; [lia|].
  assert (E' : 10 ∉ t -> r = t) by (intros Hn; rewrite split_no_line in E by done; congruence).
  rewrite elem_of_cons, not_elem_of_cons. split; [|split; [lia|done]]. intros [?|Ht]; [lia|]. specialize (IH2 Ht). lia.
Qed.

(** Pieces of text that the reads return, each with the replies to the writes
    that follow it.  Every piece has a newline, and it fits into the rest of
    the buffer. *)
Fixpoint feed_ok (re held : list Z) (feed : list (list Z * list reply)) : Prop :=
  match feed with
  | [] => True
  | (c, ws) :: feed' =>
    nonul c /\ 10 ∈ c /\ (length held + length c <= 1023)%nat /\
    length ws = length (selected re (split_lines (held ++ c)).1) /\
    feed_ok re (split_lines (held ++ c)).2 feed'
  end.
Definition feed_replies (feed : list (list Z * list reply)) : list reply :=
  concat (map (fun '(c, ws) => mkReply (Z.of_nat (length c)) c :: ws) feed).
Definition feed_text (feed : list (list Z * list reply)) : list Z := concat feed.*1.

Definition is_write (c : call) : bool := match c with Write _ _ => true | _ => false end.
Definition good_read (fd : Z) (c : call) : Prop := match c with Read fd' n => fd' = fd /\ 1 <= n <= 1023 | _ => True end.

Lemma grep_turns re fd : uturns (Grep.grep_turn re fd).
Proof.
  intros s rs s' cs rs'. unfold Grep.grep_turn, mbind, U_bind. destruct rs as [|r rs]; [done|]. cbn [sys].
  destruct (r_val r <=? 0); [done|]. destruct (Grep.grep_lines _ _ _ rs) as [p cs0 rs0|cs0|cs0] eqn:E; try done. cbn.
  intros [= _ _ <-]. revert E. generalize (length (s ++ take (Z.to_nat (r_val r)) (r_bytes r))) as f.
  generalize (s ++ take (Z.to_nat (r_val r)) (r_bytes r)) as q. intros q f. cut (forall q rs cs0, Grep.grep_lines f re q rs = URet p cs0 rs0 -> (length rs0 <= length rs)%nat).
  { intros H E. apply H in E. lia. }
  clear. induction f as [|f IH]; intros q rs cs0; cbn [Grep.grep_lines]; [by intros [= _ _ ->]|].
  destruct (Ulib.strchr q 10) as [q'|]; [|by intros [= _ _ ->]]. unfold mbind, U_bind. destruct (Grep.match_ _ _).
  - destruct rs as [|w rs]; [done|]. rewrite sys__reply. destruct (Grep.grep_lines _ _ _ rs) as [p' cs1 rs1|cs1|cs1] eqn:E; try done.
    cbn. intros [= -> _ ->]. apply IH in E. lia.
  - cbn [mret U_ret]. destruct (Grep.grep_lines _ _ _ rs) as [p' cs1 rs1|cs1|cs1] eqn:E; try done.
    cbn. intros [= -> _ ->]. by apply IH in E.
Qed.

Lemma grep_turn_run re fd held c ws rs : nonul held -> nonul c -> 10 ∈ c -> 10 ∉ held ->
  length ws = length (selected re (split_lines (held ++ c)).1) ->
  Grep.grep_turn re fd held (mkReply (Z.of_nat (length c)) c :: ws ++ rs) =
  URet (inl (split_lines (held ++ c)).2)
    (Read fd (1023 - Z.of_nat (length held)) :: write_lines (selected re (split_lines (held ++ c)).1)) rs.
Proof.
  intros Hh Hc Hnl Hno Hw. unfold Grep.grep_turn. unfold mbind, U_bind. cbn [sys r_val r_bytes].
  rewrite (proj2 (Z.leb_gt _ _)) by (destruct c; [by apply not_elem_of_nil in Hnl|cbn; lia]).
  rewrite Nat2Z.id, firstn_all. rewrite (grep_lines_run re _ _ ws rs); [|done|by apply Forall_app|done]. cbn [mret U_ret after app].
  destruct (split_rest_length (held ++ c)) as (_ & Hlt & _). specialize (Hlt ltac:(apply elem_of_app; by right)).
  rewrite (proj2 (Nat.eqb_neq _ _)) by lia. rewrite app_nil_r. do 3 f_equal. lia.
Qed.

Lemma write_lines_writes ls : List.filter is_write (write_lines ls) = write_lines ls.
Proof. induction ls as [|l ls IH]; [done|]. cbn. by f_equal. Qed.

Lemma selected_app re a b : selected re (a ++ b) = selected re a ++ selected re b.
Proof. apply List.filter_app. Qed.

Lemma grep_loop_run re fd feed : forall held rs, nonul held -> 10 ∉ held -> (length held <= 1022)%nat -> feed_ok re held feed ->
  exists cs, uloop (Grep.grep_turn re fd) held (feed_replies feed ++ mkReply 0 [] :: rs) = URet tt cs rs /\
    Forall (good_read fd) cs /\
    List.filter is_write cs = write_lines (selected re (split_lines (held ++ feed_text feed)).1).
Proof.
  induction feed as [|[c ws] feed IH]; intros held rs Hh Hno Hl Hok; rewrite uloop_unfold by apply grep_turns; cbn [feed_ok] in Hok.
  - exists [Read fd (1024 - Z.of_nat (length held) - 1)]. rewrite app_nil_r, split_no_line by done. split; [done|].
    split; [|done]. constructor; [split; [done|lia]|constructor].
  - destruct Hok as (Hc & Hnl & Hfit & Hw & Hok). destruct (split_rest_length (held ++ c)) as (_ & Hlt & Hno').
    specialize (Hlt ltac:(apply elem_of_app; by right)). rewrite length_app in Hlt.
    assert (Hn' : nonul (split_lines (held ++ c)).2).
    { assert (Hhc : nonul (held ++ c)) by (by apply Forall_app). revert Hhc. generalize (held ++ c) as t. clear.
      induction t as [|x t IH]; intros Hn; [done|]. specialize (IH (nonul_tail _ _ Hn)). cbn [split_lines].
      destruct (split_lines t) as [ls r]. zcase; [done|]. destruct ls; [|done]. constructor; [by inversion Hn|done]. }
    destruct (IH _ rs Hn' Hno' ltac:(lia) Hok) as (cs & Hrun & Hr & Hcs). unfold feed_replies. cbn [map concat app].
    rewrite <- app_assoc. fold (feed_replies feed). erewrite ubind_ret by (by apply grep_turn_run). cbv beta iota. rewrite Hrun.
    eexists. split; [done|]. split.
    + cbn. constructor; [split; [done|lia]|]. apply Forall_app. split; [|done]. apply Forall_forall. intros x Hx.
      apply list_elem_of_In, in_map_iff in Hx as (l & <- & _). done.
    + cbn [app List.filter is_write]. rewrite List.filter_app, write_lines_writes, Hcs. unfold feed_text. cbn [fmap list_fmap concat fst].
      rewrite app_assoc, (split_app (held ++ c)). cbn [fst]. rewrite selected_app. unfold write_lines. by rewrite map_app.
Qed.

(** C29: What grep writes.  The text of a file arrives in any number of pieces,
    each of which has a newline and fits into the buffer.  Then [grep] reads
    to the end of the file, never asks for no bytes or for more than fit, and
    writes exactly the lines of the whole text that match, in order and
    complete, also those that were cut by the ends of the pieces. *)
Theorem grep_writes_matches (re : list Z) (fd : Z) (feed : list (list Z * list reply)) (rs : list reply) : feed_ok re [] feed ->
  exists cs, Grep.grep re fd (feed_replies feed ++ mkReply 0 [] :: rs) = URet tt cs rs /\
    Forall (good_read fd) cs /\
    List.filter is_write cs = write_lines (selected re (split_lines (feed_text feed)).1).
Proof.
  intros Hok. destruct (grep_loop_run re fd feed [] rs) as (cs & Hrun & Hr & Hw); [constructor|apply not_elem_of_nil|cbn; lia|done|].
  exists cs. repeat split; done.
Qed.

Definition grep_sample : list (list Z * list reply) :=
  [(bytes_of "one" ++ [10] ++ bytes_of "tw", [mkReply 4 []]); (bytes_of "o" ++ [10] ++ bytes_of "six" ++ [10], [mkReply 4 []])].
Lemma grep_writes_matches_witness :
  feed_ok (bytes_of "o") [] grep_sample /\
  exists cs, Grep.grep (bytes_of "o") 3 (feed_replies grep_sample ++ mkReply 0 [] :: []) = URet tt cs [] /\
    Forall (good_read 3) cs /\ List.filter is_write cs = write_lines [bytes_of "one"; bytes_of "two"].
Proof.
  assert (H : feed_ok (bytes_of "o") [] grep_sample).
  { do 2 (split; [by apply (bool_decide_eq_true_1 (Forall (fun c => c <> 0) _))|]; split; [by apply (bool_decide_eq_true_1 (10 ∈ _))|]; split; [by apply (proj1 (Nat.leb_le _ _))|]; split; [done|]). exact I. }
  split; [exact H|]. exact (grep_writes_matches (bytes_of "o") 3 grep_sample [] H).
Defined.

(** Two reads of a line that is longer than what is there: the first part is
    gone, and nothing matches. *)
Lemma grep_drops_split_line :
  Grep.grep (bytes_of "abc") 0 [mkReply 2 (bytes_of "ab"); mkReply 2 (bytes_of "c" ++ [10]); mkReply 0 []] =
    URet tt [Read 0 1023; Read 0 1023; Read 0 1023] [] /\
  Grep.match_ (bytes_of "abc") (bytes_of "abc") = true.
Proof. split; reflexivity. Qed.
