(* ===== verification/Sh.v ===== *)
(** * The shell (sh.c)

    A pointer into the line is the text from there on, so [s < es] is that the
    text is not empty; a parsed command has the two pointers of each string,
    and [nulterminate] stores the terminators into the line, from which the
    strings are then read.  The parser returns the message if the code
    panics.  Its fuel is more than it needs: see the specification. *)

From stdpp Require Import base list strings.
From S2P Require Import Prelude Bytes Str User Ulib.

Module Sh.

(** ** Commands *)

(** [A] is what a string is: two pointers, or its bytes. *)
Inductive cmd (A : Type) : Type :=
| ExecCmd (argv : list A)
| RedirCmd (c : cmd A) (file : A) (mode fd : Z)
| PipeCmd (l r : cmd A)
| ListCmd (l r : cmd A)
| BackCmd (c : cmd A).
#[global] Arguments ExecCmd {A} _.
#[global] Arguments RedirCmd {A} _ _ _ _.
#[global] Arguments PipeCmd {A} _ _.
#[global] Arguments ListCmd {A} _ _.
#[global] Arguments BackCmd {A} _.

Definition token : Type := list Z * list Z.

Fixpoint map_cmd {A B} (f : A -> B) (c : cmd A) : cmd B :=
  match c with
  | ExecCmd argv => ExecCmd (map f argv)
  | RedirCmd c' file mode fd => RedirCmd (map_cmd f c') (f file) mode fd
  | PipeCmd l r => PipeCmd (map_cmd f l) (map_cmd f r)
  | ListCmd l r => ListCmd (map_cmd f l) (map_cmd f r)
  | BackCmd c' => BackCmd (map_cmd f c')
  end.

(** The constructors; the memory that malloc returns is a new object. *)
Definition execcmd {A} : cmd A := ExecCmd [].
Definition redircmd {A} (c : cmd A) (file : A) (mode fd : Z) : cmd A := RedirCmd c file mode fd.
Definition pipecmd {A} (l r : cmd A) : cmd A := PipeCmd l r.
Definition listcmd {A} (l r : cmd A) : cmd A := ListCmd l r.
Definition backcmd {A} (c : cmd A) : cmd A := BackCmd c.

(** ** Running a command *)

Definition nl (s : string) : list Z := bytes_of s ++ [10].

Definition panic {A} (s : list Z) : U A := Printf.printf 2 (nl "%s") [Printf.str_arg s];; uexit.
Definition fork1 : U Z :=
  pid ← sysv Fork;
  if pid =? -1 then panic (bytes_of "fork") else mret pid.

Fixpoint runcmd (c : cmd (list Z)) : U unit :=
  match c with
  | ExecCmd argv =>
    match argv with
    | [] => uexit
    | a :: _ =>
      sys_ (Exec a argv);;
      Printf.printf 2 (nl "exec %s failed") [Printf.str_arg a];;
      uexit
    end
  | RedirCmd c' file mode fd =>
    sys_ (Close fd);;
    r ← sysv (Open file mode);
    if r <? 0 then Printf.printf 2 (nl "open %s failed") [Printf.str_arg file];; uexit
    else runcmd c';; uexit
  | ListCmd l r =>
    pid ← fork1;
    (if pid =? 0 then runcmd l else mret tt);;
    sys_ Wait;;
    runcmd r;;
    uexit
  | PipeCmd l r =>
    p ← sys Pipe;
    if r_val p <? 0 then panic (bytes_of "pipe")
    else
      let p0 := get32 (r_bytes p) 0 in
      let p1 := get32 (r_bytes p) 4 in
      pid ← fork1;
      (if pid =? 0 then
         sys_ (Close 1);; sys_ (Dup p1);; sys_ (Close p0);; sys_ (Close p1);; runcmd l
       else mret tt);;
      pid ← fork1;
      (if pid =? 0 then
         sys_ (Close 0);; sys_ (Dup p0);; sys_ (Close p0);; sys_ (Close p1);; runcmd r
       else mret tt);;
      sys_ (Close p0);; sys_ (Close p1);; sys_ Wait;; sys_ Wait;; uexit
  | BackCmd c' =>
    pid ← fork1;
    (if pid =? 0 then runcmd c' else mret tt);;
    uexit
  end.

(** ** Tokens *)

Definition whitespace : list Z := [32; 9; 13; 10; 11].
Definition symbols : list Z := bytes_of "<|>&;()".
Definition is_in (set : list Z) (c : Z) : bool :=
  match Ulib.strchr set c with Some _ => true | None => false end.

Fixpoint skip_ws (s : list Z) : list Z :=
  match s with
  | c :: s' => if is_in whitespace c then skip_ws s' else s
  | [] => []
  end.
Fixpoint skip_word (s : list Z) : list Z :=
  match s with
  | c :: s' => if negb (is_in whitespace c) && negb (is_in symbols c) then skip_word s' else s
  | [] => []
  end.

(** The switch: the token and the end of it. *)
Definition scan (s : list Z) : Z * list Z :=
  if Str.chr s =? 0 then (0, s)
  else if is_in (bytes_of "|();&<") (Str.chr s) then (Str.chr s, tail s)
  else if Str.chr s =? 62 then
    if Str.chr (tail s) =? 62 then (43, tail (tail s)) else (62, tail s)
  else (97, skip_word s).
(** The token, [q] and [eq], and the new [*ps]. *)
Definition gettoken (ps : list Z) : Z * token * list Z :=
  let q := skip_ws ps in
  let (ret, eq) := scan q in
  (ret, (q, eq), skip_ws eq).
Definition peek (ps toks : list Z) : bool * list Z :=
  let s := skip_ws ps in
  (negb (Str.chr s =? 0) && is_in toks (Str.chr s), s).

(** ** The parser *)

Inductive pres (A : Type) : Type :=
| POk (a : A)
| PPanic (msg : list Z)
| PFuel.
#[global] Arguments POk {A} _.
#[global] Arguments PPanic {A} _.
#[global] Arguments PFuel {A}.
#[global] Instance pres_ret : MRet pres := fun A a => POk a.
#[global] Instance pres_bind : MBind pres := fun A B f m =>
  match m with
  | POk a => f a
  | PPanic msg => PPanic msg
  | PFuel => PFuel
  end.

Definition pcmd : Type := cmd token.

Fixpoint parseredirs (fuel : nat) (c : pcmd) (ps : list Z) : pres (pcmd * list Z) :=
  match fuel with
  | O => PFuel
  | S fuel' =>
    let (b, ps) := peek ps (bytes_of "<>") in
    if negb b then mret (c, ps)
    else
      let '(tok, _, ps) := gettoken ps in
      let '(tok2, q, ps) := gettoken ps in
      if negb (tok2 =? 97) then PPanic (bytes_of "missing file for redirection")
      else
        let c :=
          if tok =? 60 then redircmd c q 0 0
          else if tok =? 62 then redircmd c q (Z.lor 1 512) 1
          else if tok =? 43 then redircmd c q (Z.lor 1 512) 1
          else c in
        parseredirs fuel' c ps
  end.

(** [cmd->argv[argc] = q]: the exec command is the innermost one of [ret]. *)
Fixpoint add_arg (ret : pcmd) (q : token) : pcmd :=
  match ret with
  | ExecCmd argv => ExecCmd (argv ++ [q])
  | RedirCmd c file mode fd => RedirCmd (add_arg c q) file mode fd
  | _ => ret
  end.

Fixpoint args_loop (fuel : nat) (argc : Z) (ret : pcmd) (ps : list Z) : pres (pcmd * list Z) :=
  match fuel with
  | O => PFuel
  | S fuel' =>
    let (b, ps) := peek ps (bytes_of "|)&;") in
    if b then mret (ret, ps)
    else
      let '(tok, q, ps) := gettoken ps in
      if tok =? 0 then mret (ret, ps)
      else if negb (tok =? 97) then PPanic (bytes_of "syntax")
      else
        let ret := add_arg ret q in
        let argc := argc + 1 in
        if 10 <=? argc then PPanic (bytes_of "too many args")
        else
          '(ret, ps) ← parseredirs (S (length ps)) ret ps;
          args_loop fuel' argc ret ps
  end.

(** The [while] of parseline. *)
Fixpoint back_loop (fuel : nat) (c : pcmd) (ps : list Z) : pres (pcmd * list Z) :=
  match fuel with
  | O => PFuel
  | S fuel' =>
    let (b, ps) := peek ps (bytes_of "&") in
    if b then
      let '(_, _, ps) := gettoken ps in
      back_loop fuel' (backcmd c) ps
    else mret (c, ps)
  end.

(** The four functions of the parser call one another: each is given the ones
    it calls, and [parseline] ties them together with fuel. *)
Definition pipe_body (parseexec parsepipe : list Z -> pres (pcmd * list Z)) (ps : list Z) : pres (pcmd * list Z) :=
  '(c, ps) ← parseexec ps;
  let (b, ps) := peek ps (bytes_of "|") in
  if b then
    let '(_, _, ps) := gettoken ps in
    '(r, ps) ← parsepipe ps;
    mret (pipecmd c r, ps)
  else mret (c, ps).
Definition exec_body (parseblock : list Z -> pres (pcmd * list Z)) (ps : list Z) : pres (pcmd * list Z) :=
  let (b, ps) := peek ps (bytes_of "(") in
  if b then parseblock ps
  else
    '(ret, ps) ← parseredirs (S (length ps)) execcmd ps;
    args_loop (S (length ps)) 0 ret ps.
Definition block_body (parseline : list Z -> pres (pcmd * list Z)) (ps : list Z) : pres (pcmd * list Z) :=
  let (b, ps) := peek ps (bytes_of "(") in
  if negb b then PPanic (bytes_of "parseblock")
  else
    let '(_, _, ps) := gettoken ps in
    '(c, ps) ← parseline ps;
    let (b, ps) := peek ps (bytes_of ")") in
    if negb b then PPanic (bytes_of "syntax - missing )")
    else
      let '(_, _, ps) := gettoken ps in
      parseredirs (S (length ps)) c ps.
Definition line_body (parsepipe parseline : list Z -> pres (pcmd * list Z)) (ps : list Z) : pres (pcmd * list Z) :=
  '(c, ps) ← parsepipe ps;
  '(c, ps) ← back_loop (S (length ps)) c ps;
  let (b, ps) := peek ps (bytes_of ";") in
  if b then
    let '(_, _, ps) := gettoken ps in
    '(r, ps) ← parseline ps;
    mret (listcmd c r, ps)
  else mret (c, ps).

Fixpoint parseline (fuel : nat) (ps : list Z) {struct fuel} : pres (pcmd * list Z) :=
  match fuel with O => PFuel | S fuel' => line_body (parsepipe fuel') (parseline fuel') ps end
with parsepipe (fuel : nat) (ps : list Z) {struct fuel} : pres (pcmd * list Z) :=
  match fuel with O => PFuel | S fuel' => pipe_body (parseexec fuel') (parsepipe fuel') ps end
with parseexec (fuel : nat) (ps : list Z) {struct fuel} : pres (pcmd * list Z) :=
  match fuel with O => PFuel | S fuel' => exec_body (parseblock fuel') ps end
with parseblock (fuel : nat) (ps : list Z) {struct fuel} : pres (pcmd * list Z) :=
  match fuel with O => PFuel | S fuel' => block_body (parseline fuel') ps end.

(** [es] is the length of the line and [buf] its bytes with the terminator. *)
Definition put_nul (es : nat) (buf : list Z) (p : list Z) : list Z := <[(es - length p)%nat := 0]> buf.
Fixpoint nulterminate (es : nat) (buf : list Z) (c : pcmd) : list Z :=
  match c with
  | ExecCmd argv => fold_left (fun b a => put_nul es b a.2) argv buf
  | RedirCmd c' file _ _ => put_nul es (nulterminate es buf c') file.2
  | PipeCmd l r => nulterminate es (nulterminate es buf l) r
  | ListCmd l r => nulterminate es (nulterminate es buf l) r
  | BackCmd c' => nulterminate es buf c'
  end.

(** The string that a pointer points to. *)
Definition string_at (es : nat) (buf : list Z) (a : token) : list Z := Printf.till_nul (drop (es - length a.1) buf).

Definition parse_fuel (s : list Z) : nat := 4 * length s + 4.

Definition parsecmd (s : list Z) : U (cmd (list Z)) :=
  match parseline (parse_fuel s) s with
  | POk (c, ps) =>
    let (_, ps) := peek ps [] in
    match ps with
    | [] => let es := length s in mret (map_cmd (string_at es (nulterminate es (s ++ [0]) c)) c)
    | _ => Printf.printf 2 (nl "leftovers: %s") [Printf.str_arg ps];; panic (bytes_of "syntax")
    end
  | PPanic msg => panic msg
  | PFuel => uexit
  end.

(** ** The command loop *)

(** The line, or [None] at the end of the input. *)
Definition getcmd (nbuf : Z) : U (option (list Z)) :=
  Printf.printf 2 (bytes_of "$ ") [];;
  buf ← Ulib.gets nbuf;
  mret (if Str.chr buf =? 0 then None else Some (Printf.till_nul buf)).

Definition console_turn (_ : unit) : U (unit + unit) :=
  fd ← sysv (Open (bytes_of "console") 2);
  if 0 <=? fd then
    if 3 <=? fd then sys_ (Close fd);; mret (inr tt) else mret (inl tt)
  else mret (inr tt).

Definition is_cd (buf : list Z) : bool :=
  (nth 0 buf 0 =? 99) && (nth 1 buf 0 =? 100) && (nth 2 buf 0 =? 32).
Definition main_turn (_ : unit) : U (unit + unit) :=
  l ← getcmd 100;
  match l with
  | None => mret (inr tt)
  | Some buf =>
    if is_cd buf then
      let dir := drop 3 (take (length buf - 1) buf) in
      r ← sysv (Chdir dir);
      (if r <? 0 then Printf.printf 2 (nl "cannot cd %s") [Printf.str_arg dir] else mret tt);;
      mret (inl tt)
    else
      pid ← fork1;
      (if pid =? 0 then c ← parsecmd buf; runcmd c else mret tt);;
      sys_ Wait;;
      mret (inl tt)
  end.
Definition main : U unit :=
  uloop console_turn tt;;
  uloop main_turn tt;;
  uexit.

End Sh.
