(* ===== verification/ShSpec.v ===== *)
(** * The parser of the shell: specification

    The parser ends with the fuel it is given; what it returns is well formed,
    and the strings that the terminators cut out of the line are the words
    that it saw.  Every well-formed command can be written as a line, and the
    parser gives back this command. *)

From stdpp Require Import base list strings.
From S2P Require Import Prelude Bytes Str User Ulib Grep Sh.

Import Sh.

(** ** Well-formed commands *)

Definition wordc (c : Z) : bool := negb (is_in whitespace c) && negb (is_in symbols c).
(** A word has no white space, no symbol and no terminator in it. *)
Definition is_word (w : list Z) : Prop := w <> [] /\ Forall (fun c => c <> 0 /\ wordc c = true) w.

Fixpoint wf_cmd {A} (P : A -> Prop) (c : cmd A) : Prop :=
  match c with
  | ExecCmd argv => (length argv <= 9)%nat /\ Forall P argv
  | RedirCmd c' file mode fd => wf_cmd P c' /\ P file /\ (mode = 0 /\ fd = 0 \/ mode = 513 /\ fd = 1)
  | PipeCmd l r => wf_cmd P l /\ wf_cmd P r
  | ListCmd l r => wf_cmd P l /\ wf_cmd P r
  | BackCmd c' => wf_cmd P c'
  end.

#[global] Instance is_word_dec w : Decision (is_word w).
Proof. unfold is_word. apply _. Defined.

#[global] Instance wf_cmd_dec {A} (P : A -> Prop) `{!forall a, Decision (P a)} c : Decision (wf_cmd P c).
Proof. induction c; cbn [wf_cmd]; apply _. Defined.

Lemma wf_map {A B} (P : A -> Prop) (Q : B -> Prop) (f : A -> B) c :
  (forall a, P a -> Q (f a)) -> wf_cmd P c -> wf_cmd Q (map_cmd f c).
Proof.
  intros H. induction c as [argv|c IH file mode fd|l IHl r IHr|l IHl r IHr|c IH]; cbn; try naive_solver.
  intros [Hl Ha]. rewrite length_map. split; [done|]. apply Forall_fmap. by eapply Forall_impl.
Qed.

Lemma map_cmd_ext {A B} (P : A -> Prop) (f g : A -> B) c :
  (forall a, P a -> f a = g a) -> wf_cmd P c -> map_cmd f c = map_cmd g c.
Proof.
  intros H. induction c as [argv|c IH file mode fd|l IHl r IHr|l IHl r IHr|c IH]; cbn; try (intros; f_equal; naive_solver).
  intros [_ Ha]. f_equal. induction Ha; cbn; f_equal; auto.
Qed.

(** ** Tokens *)

(** What follows a word. *)
Definition edge (s : list Z) : Prop := match s with [] => True | c :: _ => wordc c = false end.
(** The pointers of a word of the line. *)
Definition tok_ok (buf : list Z) (a : token) : Prop :=
  suffix a.1 buf /\ exists w, a.1 = w ++ a.2 /\ is_word w /\ edge a.2.
Definition text (a : token) : list Z := take (length a.1 - length a.2) a.1.

Lemma text_word w s : text (w ++ s, s) = w.
Proof. unfold text. cbn [fst snd]. rewrite length_app. replace (length w + length s - length s)%nat with (length w) by lia. apply take_app_length. Qed.

Lemma nonul_suffix s buf : suffix s buf -> nonul buf -> nonul s.
Proof. intros [k ->] Hn. by apply Forall_app in Hn as [_ ?]. Qed.

Lemma skip_ws_suffix s : suffix (skip_ws s) s.
Proof. induction s as [|c s IH]; cbn [skip_ws]; [done|]. destruct (is_in whitespace c); [by apply suffix_cons_r|done]. Qed.

Lemma skip_ws_head s : match skip_ws s with c :: _ => is_in whitespace c = false | [] => True end.
Proof. induction s as [|c s IH]; cbn [skip_ws]; [done|]. by destruct (is_in whitespace c) eqn:E. Qed.

Lemma skip_word_spec s : nonul s -> exists w, s = w ++ skip_word s /\ Forall (fun c => c <> 0 /\ wordc c = true) w /\ edge (skip_word s).
Proof.
  induction s as [|c s IH]; intros Hn; cbn [skip_word]; [by exists []|]. fold (wordc c). destruct (wordc c) eqn:E.
  - destruct IH as (w & Hs & Hw & He); [by eapply nonul_tail|]. exists (c :: w). split; [cbn; by f_equal|]. split; [|done].
    constructor; [|done]. split; [by inversion Hn|done].
  - by exists [].
Qed.

Lemma skip_word_app w s : Forall (fun c => c <> 0 /\ wordc c = true) w -> edge s -> skip_word (w ++ s) = s.
Proof.
  intros Hw He. induction Hw as [|c w [_ Hc] Hw IH]; cbn [app skip_word].
  - destruct s as [|c s]; [done|]. cbn [skip_word]. cbn in He. unfold wordc in He. by rewrite He.
  - unfold wordc in Hc. by rewrite Hc.
Qed.

Lemma scan_suffix s tok eq : scan s = (tok, eq) -> suffix eq s.
Proof.
  assert (Ht : forall t : list Z, suffix (tail t) t) by (intros [|c t]; [done|by apply suffix_cons_r]).
  assert (Hw : suffix (skip_word s) s).
  { clear. induction s as [|c s IH]; cbn [skip_word]; [done|]. destruct (_ && _)%bool; [by apply suffix_cons_r|done]. }
  unfold scan. repeat case_match; intros [= <- <-]; try done. etrans; [apply Ht|apply Ht].
Qed.

Lemma scan_spec s tok eq : nonul s -> match s with c :: _ => is_in whitespace c = false | [] => True end -> scan s = (tok, eq) ->
  (tok = 0 /\ s = [] \/ tok <> 0 /\ (length eq < length s)%nat) /\
  (tok = 97 -> exists w, s = w ++ eq /\ is_word w /\ edge eq).
Proof.
  intros Hn Hws. unfold scan. destruct s as [|c s]; [intros H; injection H as <- <-; split; [by left|done]|]. cbn [Str.chr nth tail].
  rewrite (nonul_chr _ _ Hn). destruct (is_in (bytes_of "|();&<") c) eqn:Es.
  { intros [= <- <-]. split; [right; split; [|cbn; lia]; by inversion Hn|]. intros ->. done. }
  destruct (Z.eqb_spec c 62) as [->|H62].
  { destruct (nth 0 s 0 =? 62) eqn:E; intros H; injection H as <- <-; (split; [right; split; [done|]|done]); [|cbn; lia].
    destruct s; cbn; lia. }
  intros [= <- <-]. destruct (skip_word_spec (c :: s) Hn) as (w & Hs & Hw & He).
  assert (Hc : wordc c = true).
  { unfold wordc. rewrite Hws. cbn [negb andb]. revert Es. unfold is_in. cbn. intros Es.
    repeat match goal with |- context [if ?x =? ?y then _ else _] => destruct (Z.eqb_spec x y); subst end; done. }
  assert (Hne : w <> []) by (intros ->; cbn [app] in Hs; rewrite <- Hs in He; cbn in He; congruence).
  split; [|intros _; by exists w]. right. split; [done|]. rewrite Hs at 2. rewrite length_app. destruct w; [done|cbn; lia].
Qed.

Section Good.
Context (buf : list Z) (Hbuf : nonul buf).

Lemma gettoken_good s tok a s' : suffix s buf -> gettoken s = (tok, a, s') ->
  suffix s' buf /\ (length s' <= length s)%nat /\ (tok = 0 \/ (length s' < length s)%nat) /\
  (Str.chr s <> 0 -> is_in whitespace (Str.chr s) = false -> (length s' < length s)%nat) /\ (tok = 97 -> tok_ok buf a).
Proof.
  intros Hs. unfold gettoken. destruct (scan (skip_ws s)) as [t e] eqn:E. intros [= <- <- <-].
  pose proof (skip_ws_suffix s) as H1. pose proof (scan_suffix _ _ _ E) as H2. pose proof (skip_ws_suffix e) as H3.
  assert (Hq : suffix (skip_ws s) buf) by (by etrans).
  destruct (scan_spec _ _ _ (nonul_suffix _ _ Hq Hbuf) (skip_ws_head s) E) as [Hz Ha].
  pose proof (suffix_length _ _ H1). pose proof (suffix_length _ _ H2). pose proof (suffix_length _ _ H3).
  split; [by etrans; [|etrans]|]. split; [lia|]. split; [destruct Hz as [[? _]|[_ ?]]; [by left|right; lia]|]. split.
  - intros Hc Hw. destruct s as [|c s]; [done|]. cbn in Hw. destruct Hz as [[_ Hz]|[_ ?]]; [|lia]. cbn [skip_ws] in Hz. by rewrite Hw in Hz.
  - intros ->. by split; [|apply Ha].
Qed.

Lemma peek_good s toks b s' : suffix s buf -> peek s toks = (b, s') ->
  s' = skip_ws s /\ suffix s' buf /\ (length s' <= length s)%nat /\
  (b = true -> Str.chr s' <> 0 /\ is_in whitespace (Str.chr s') = false /\ is_in toks (Str.chr s') = true).
Proof.
  intros Hs. unfold peek. intros [= <- <-]. pose proof (skip_ws_suffix s) as H1. split; [done|]. split; [by etrans|].
  split; [by apply suffix_length|]. intros [Hc Ht]%andb_true_iff. apply negb_true_iff, Z.eqb_neq in Hc. split; [done|]. split; [|done].
  pose proof (skip_ws_head s) as Hh. by destruct (skip_ws s).
Qed.

(** A result: it is well formed, and no longer than what there was. *)
Definition good (n : nat) (r : pres (pcmd * list Z)) : Prop :=
  match r with
  | POk (c, s) => wf_cmd (tok_ok buf) c /\ suffix s buf /\ (length s <= n)%nat
  | PPanic _ => True
  | PFuel => False
  end.

Lemma good_le n m r : good n r -> (n <= m)%nat -> good m r.
Proof. destruct r as [[c s]|msg|]; cbn; try done. intros (? & ? & ?) ?. split; [done|]. split; [done|lia]. Qed.

(** A call of the parser that is followed by [f]. *)
Lemma good_bind n m r f : good n r ->
  (forall c s, wf_cmd (tok_ok buf) c -> suffix s buf -> (length s <= n)%nat -> good m (f (c, s))) -> good m (r ≫= f).
Proof. destruct r as [[c s]|msg|]; cbn; try done. intros (? & ? & ?) Hf. by apply Hf. Qed.

Lemma parseredirs_good f : forall c s, (length s < f)%nat -> wf_cmd (tok_ok buf) c -> suffix s buf ->
  good (length s) (parseredirs f c s).
Proof.
  induction f as [|f IH]; intros c s Hf Hc Hs; [lia|]. cbn [parseredirs]. destruct (peek s _) as [b s1] eqn:E1.
  destruct (peek_good _ _ _ _ Hs E1) as (-> & Hs1 & Hl1 & Hb). destruct b; cbn [negb]; [|cbn; auto].
  destruct (gettoken (skip_ws s)) as [[tok a] s2] eqn:E2. destruct (gettoken_good _ _ _ _ Hs1 E2) as (Hs2 & Hl2 & _ & Hlt & _).
  destruct (gettoken s2) as [[tok2 q] s3] eqn:E3. destruct (gettoken_good _ _ _ _ Hs2 E3) as (Hs3 & Hl3 & _ & _ & Hq).
  destruct (Z.eqb_spec tok2 97) as [->|]; cbn [negb]; [|done]. destruct Hb as (Hb1 & Hb2 & _); [done|]. specialize (Hlt Hb1 Hb2).
  eapply good_le; [apply IH; [lia| |done]|lia]. repeat case_match; cbn; auto 10.
Qed.

(** The exec command inside [ret] has [k] arguments. *)
Fixpoint spine (k : nat) (ret : pcmd) : Prop :=
  match ret with
  | ExecCmd argv => length argv = k
  | RedirCmd c _ _ _ => spine k c
  | _ => False
  end.

Lemma add_arg_good k ret a : spine k ret -> (k < 9)%nat -> wf_cmd (tok_ok buf) ret -> tok_ok buf a ->
  spine (S k) (add_arg ret a) /\ wf_cmd (tok_ok buf) (add_arg ret a).
Proof.
  intros Hk Hlt. induction ret as [argv|c IH file mode fd|l IHl r IHr|l IHl r IHr|c IH]; cbn in *; try done.
  - intros [Hl Ha] Hq. rewrite length_app. cbn [length]. split; [lia|]. split; [lia|]. by apply Forall_app_2; [|constructor].
  - intros (Hc & Hf & Hm) Hq. destruct (IH Hk Hc Hq). auto.
Qed.

Lemma parseredirs_spine k f : forall c s, spine k c -> match parseredirs f c s with POk (c', _) => spine k c' | _ => True end.
Proof.
  induction f as [|f IH]; intros c s Hk; cbn [parseredirs]; [done|]. destruct (peek s _) as [[] s1]; cbn [negb]; [|done].
  destruct (gettoken s1) as [[tok a] s2]. destruct (gettoken s2) as [[tok2 q] s3]. destruct (tok2 =? 97); cbn [negb]; [|done].
  apply IH. by repeat case_match.
Qed.

Lemma args_loop_good f : forall k ret s, (length s < f)%nat -> (k <= 9)%nat -> spine k ret -> wf_cmd (tok_ok buf) ret -> suffix s buf ->
  good (length s) (args_loop f (Z.of_nat k) ret s).
Proof.
  induction f as [|f IH]; intros k ret s Hf Hk Hsp Hc Hs; [lia|]. cbn [args_loop]. destruct (peek s _) as [b s1] eqn:E1.
  destruct (peek_good _ _ _ _ Hs E1) as (-> & Hs1 & Hl1 & Hb). destruct b; [cbn; auto|].
  destruct (gettoken (skip_ws s)) as [[tok a] s2] eqn:E2. destruct (gettoken_good _ _ _ _ Hs1 E2) as (Hs2 & Hl2 & Hz & _ & Hq).
  destruct (Z.eqb_spec tok 0); [cbn; split; [done|]; split; [done|lia]|]. destruct (Z.eqb_spec tok 97) as [->|]; cbn [negb]; [|done].
  destruct (Z.leb_spec 10 (Z.of_nat k + 1)); [done|]. destruct Hz as [?|Hz]; [done|].
  destruct (add_arg_good k ret a) as [Hsp' Hc']; try done; [lia|by apply Hq|].
  pose proof (parseredirs_good (S (length s2)) (add_arg ret a) s2 ltac:(lia) Hc' Hs2) as Hg.
  pose proof (parseredirs_spine (S k) (S (length s2)) (add_arg ret a) s2 Hsp') as Hr.
  destruct (parseredirs _ _ _) as [[c3 s3]|msg|]; cbn in Hg |- *; try done. destruct Hg as (Hc3 & Hs3 & Hl3).
  replace (Z.of_nat k + 1) with (Z.of_nat (S k)) by lia. eapply good_le; [apply IH; try done; lia|lia].
Qed.

Lemma back_loop_good f : forall c s, (length s < f)%nat -> wf_cmd (tok_ok buf) c -> suffix s buf ->
  good (length s) (back_loop f c s).
Proof.
  induction f as [|f IH]; intros c s Hf Hc Hs; [lia|]. cbn [back_loop]. destruct (peek s _) as [b s1] eqn:E1.
  destruct (peek_good _ _ _ _ Hs E1) as (-> & Hs1 & Hl1 & Hb). destruct b; [|cbn; auto].
  destruct (gettoken (skip_ws s)) as [[tok a] s2] eqn:E2. destruct (gettoken_good _ _ _ _ Hs1 E2) as (Hs2 & Hl2 & _ & Hlt & _).
  destruct Hb as (Hb1 & Hb2 & _); [done|]. specialize (Hlt Hb1 Hb2). eapply good_le; [apply IH; try done; lia|lia].
Qed.

(** A symbol that [peek] has seen is taken by the next [gettoken]. *)
Lemma taken_good s toks s1 tok a s2 : suffix s buf -> peek s toks = (true, s1) -> gettoken s1 = (tok, a, s2) ->
  suffix s2 buf /\ (length s2 < length s)%nat.
Proof.
  intros Hs E1 E2. destruct (peek_good _ _ _ _ Hs E1) as (-> & Hs1 & Hl1 & Hb).
  destruct (gettoken_good _ _ _ _ Hs1 E2) as (Hs2 & Hl2 & _ & Hlt & _). destruct Hb as (Hb1 & Hb2 & _); [done|].
  specialize (Hlt Hb1 Hb2). split; [done|lia].
Qed.

Lemma skipped_good s toks b s1 : suffix s buf -> peek s toks = (b, s1) -> suffix s1 buf /\ (length s1 <= length s)%nat.
Proof. intros Hs E1. destruct (peek_good _ _ _ _ Hs E1) as (-> & Hs1 & Hl1 & _). done. Qed.

Ltac take_symbol :=
  match goal with |- context [peek ?s ?t] =>
    let b := fresh "b" in let s1 := fresh "s" in let E := fresh "E" in
    destruct (peek s t) as [b s1] eqn:E; destruct (skipped_good s t b s1 ltac:(done) E) as [? ?];
    destruct b; cbn [negb]; [|try done];
    match goal with |- context [gettoken s1] =>
      let s2 := fresh "s" in let E2 := fresh "E" in
      destruct (gettoken s1) as [[? ?] s2] eqn:E2; destruct (taken_good s t s1 _ _ s2 ltac:(done) E E2) as [? ?]
    | _ => idtac
    end
  end.

Lemma parse_good f : forall s, suffix s buf ->
  ((4 * length s + 4 <= f)%nat -> good (length s) (parseline f s)) /\
  ((4 * length s + 3 <= f)%nat -> good (length s) (parsepipe f s)) /\
  ((4 * length s + 2 <= f)%nat -> good (length s) (parseexec f s)) /\
  ((4 * length s + 1 <= f)%nat -> good (length s) (parseblock f s)).
Proof.
  induction f as [|f IH]; intros s Hs; [repeat split; lia|]. split_and!; intros Hf; cbn [parseline parsepipe parseexec parseblock]; unfold line_body, pipe_body, exec_body, block_body.
  - eapply good_bind; [apply IH; [done|lia]|]. intros c1 s1 Hc1 Hs1 Hl1. eapply good_bind; [apply back_loop_good; [lia|done|done]|].
    intros c2 s2 Hc2 Hs2 Hl2. cbv beta iota. take_symbol; [|cbn; split; [done|split; [done|lia]]].
    eapply good_bind; [apply IH; [done|lia]|]. intros cr sr Hcr Hsr Hlr. cbn. split; [done|split; [done|lia]].
  - eapply good_bind; [apply IH; [done|lia]|]. intros c1 s1 Hc1 Hs1 Hl1. cbv beta iota. take_symbol; [|cbn; split; [done|split; [done|lia]]].
    eapply good_bind; [apply IH; [done|lia]|]. intros cr sr Hcr Hsr Hlr. cbn. split; [done|split; [done|lia]].
  - take_symbol; [eapply good_le; [apply IH; [done|lia]|lia]|].
    pose proof (parseredirs_good (S (length s0)) (ExecCmd []) s0 ltac:(lia) ltac:(cbn; split; [lia|constructor]) ltac:(done)) as Hg.
    pose proof (parseredirs_spine 0 (S (length s0)) (ExecCmd []) s0 eq_refl) as Hr.
    destruct (parseredirs _ _ _) as [[cr sr]|msg|]; cbn in Hg; unfold mbind, pres_bind; try done. destruct Hg as (Hcr & Hsr & Hlr).
    eapply good_le; [apply (args_loop_good _ 0); try done; lia|lia].
  - take_symbol. eapply good_bind; [apply IH; [done|lia]|]. intros cb sb Hcb Hsb Hlb. cbv beta iota. take_symbol.
    eapply good_le; [apply parseredirs_good; [lia|done|done]|lia].
Qed.

End Good.

(** ** The terminators *)

Lemma till_nul_word w s : Forall (fun c => c <> 0 /\ wordc c = true) w -> Printf.till_nul (w ++ 0 :: s) = w.
Proof.
  intros Hw. unfold Printf.till_nul. replace (Z.to_nat (Ulib.strlen (w ++ 0 :: s))) with (length w); [apply take_app_length|].
  enough (E : Ulib.strlen (w ++ 0 :: s) = Z.of_nat (length w)) by lia. induction Hw as [|c w [Hc _] Hw IH]; [done|].
  cbn [app Ulib.strlen length]. rewrite (proj2 (Z.eqb_neq c 0)) by done. lia.
Qed.

Section Nul.
Context (buf : list Z).
Let es := length buf.

(** The line, with terminators where no word goes on. *)
Definition nul_inv (b : list Z) : Prop :=
  length b = S es /\ forall i, b !! i = (buf ++ [0]) !! i \/ b !! i = Some 0 /\ edge (drop i buf).
Definition nulled (b : list Z) (a : token) : Prop := b !! (es - length a.2)%nat = Some 0.
Definition keeps_nul (b b' : list Z) : Prop := forall i, b !! i = Some 0 -> b' !! i = Some 0.

Lemma tok_offset a : tok_ok buf a -> exists k w, buf = k ++ w ++ a.2 /\ a.1 = w ++ a.2 /\ is_word w /\ edge a.2 /\
  (es - length a.1)%nat = length k /\ (es - length a.2)%nat = (length k + length w)%nat.
Proof.
  intros ([k Hk] & w & Hq & Hw & He). exists k, w. rewrite <- Hq. unfold es.
  do 4 (split; [done|]). rewrite Hk, Hq, !length_app. lia.
Qed.

Lemma put_nul_inv b a : nul_inv b -> tok_ok buf a ->
  nul_inv (put_nul es b a.2) /\ nulled (put_nul es b a.2) a /\ keeps_nul b (put_nul es b a.2).
Proof.
  intros [Hl Hi] Ha. destruct (tok_offset a Ha) as (k & w & Hk & Hq & Hw & He & Ho & Ho2). unfold put_nul, nulled, keeps_nul.
  assert (Hb : (es - length a.2 < length b)%nat) by lia. split; [split; [by rewrite length_insert|]|split].
  - intros i. destruct (decide (i = es - length a.2)%nat) as [->|Hne]; [|rewrite list_lookup_insert_ne by done; apply Hi].
    right. rewrite list_lookup_insert_eq by done. split; [done|]. rewrite Ho2, Hk, app_assoc, drop_app_length' by (rewrite length_app; lia). done.
  - by apply list_lookup_insert_eq.
  - intros i Hz. destruct (decide (i = es - length a.2)%nat) as [->|Hne]; [by apply list_lookup_insert_eq|by rewrite list_lookup_insert_ne].
Qed.

Lemma keeps_nul_wf b b' c : keeps_nul b b' -> wf_cmd (nulled b) c -> wf_cmd (nulled b') c.
Proof.
  intros Hk. induction c as [argv|c IH file mode fd|l IHl r IHr|l IHl r IHr|c IH]; cbn; try naive_solver.
  - intros [Hl Ha]. split; [done|]. eapply Forall_impl; [done|]. intros a Hz. by apply Hk.
  - intros (Hc & Hf & Hm). split; [by apply IH|]. split; [by apply Hk|done].
Qed.

Lemma fold_nul_inv argv : Forall (tok_ok buf) argv -> forall b, nul_inv b ->
  let b' := fold_left (fun b a => put_nul es b a.2) argv b in nul_inv b' /\ Forall (nulled b') argv /\ keeps_nul b b'.
Proof.
  induction 1 as [|a argv Ha _ IH]; intros b Hb; cbn [fold_left]; [split; [done|]; split; [constructor|by intros ?]|].
  destruct (put_nul_inv b a Hb Ha) as (H1 & H2 & H3). destruct (IH _ H1) as (H4 & H5 & H6). split; [done|]. split.
  - constructor; [by apply H6|done].
  - intros i Hz. by apply H6, H3.
Qed.

Lemma nulterminate_inv c : forall b, nul_inv b -> wf_cmd (tok_ok buf) c ->
  nul_inv (nulterminate es b c) /\ wf_cmd (nulled (nulterminate es b c)) c /\ keeps_nul b (nulterminate es b c).
Proof.
  induction c as [argv|c IH file mode fd|l IHl r IHr|l IHl r IHr|c IH]; intros b Hb; cbn [wf_cmd nulterminate].
  - intros [Hl Ha]. destruct (fold_nul_inv argv Ha b Hb) as (H1 & H2 & H3). by split; [|split; [split|]].
  - intros (Hc & Hf & Hm). destruct (IH b Hb Hc) as (H1 & H2 & H3). destruct (put_nul_inv _ file H1 Hf) as (H4 & H5 & H6).
    split; [done|]. split; [split; [by eapply keeps_nul_wf|done]|]. intros i Hz. by apply H6, H3.
  - intros [Hl Hr]. destruct (IHl b Hb Hl) as (H1 & H2 & H3). destruct (IHr _ H1 Hr) as (H4 & H5 & H6).
    split; [done|]. split; [split; [by eapply keeps_nul_wf|done]|]. intros i Hz. by apply H6, H3.
  - intros [Hl Hr]. destruct (IHl b Hb Hl) as (H1 & H2 & H3). destruct (IHr _ H1 Hr) as (H4 & H5 & H6).
    split; [done|]. split; [split; [by eapply keeps_nul_wf|done]|]. intros i Hz. by apply H6, H3.
  - apply (IH b Hb).
Qed.

(** The string that is cut out is the word. *)
Lemma string_at_text b a : nul_inv b -> nulled b a -> tok_ok buf a -> string_at es b a = text a.
Proof.
  intros [Hl Hi] Hz Ha. destruct (tok_offset a Ha) as (k & w & Hk & Hq & [_ Hw] & He & Ho & Ho2).
  replace (text a) with w by (unfold text; rewrite Hq, length_app; replace (length w + length a.2 - length a.2)%nat with (length w) by lia; by rewrite take_app_length).
  unfold string_at, nulled in *. rewrite Ho. rewrite Ho2 in Hz.
  assert (E : drop (length k) b = w ++ 0 :: drop (S (length k + length w)) b).
  { rewrite <- (take_drop (length w) (drop (length k) b)), drop_drop. f_equal.
    - apply list_eq. intros j. destruct (decide (j < length w)%nat) as [Hj|Hj].
      2: { rewrite lookup_take_ge by lia. symmetry. apply lookup_ge_None_2. lia. }
      rewrite lookup_take_lt, lookup_drop by lia. destruct (lookup_lt_is_Some_2 w j Hj) as [x Hx].
      destruct (Hi (length k + j)%nat) as [->|[_ Hed]].
      + rewrite Hk, <- !app_assoc, lookup_app_r by lia. replace (length k + j - length k)%nat with j by lia. by rewrite lookup_app_l by lia.
      + exfalso. revert Hed. rewrite Hk, drop_app_ge by lia. replace (length k + j - length k)%nat with j by lia.
        rewrite drop_app_le by lia. rewrite (drop_S _ _ _ Hx). cbn. rewrite Forall_forall in Hw.
        intros Hc. destruct (Hw x) as [_ Hwx]; [by eapply list_elem_of_lookup_2|]. congruence.
    - apply drop_S. done. }
  rewrite E. by apply till_nul_word.
Qed.

Lemma nul_inv_start : nul_inv (buf ++ [0]).
Proof. split; [rewrite length_app; cbn; unfold es; lia|]. intros i. by left. Qed.

End Nul.

(** ** Writing a command as a line *)

Inductive level : Type := LLine | LBack | LPipe | LExec.

Definition paren (t : list Z) : list Z := [40] ++ t ++ [41].
Definition show_args (ws : list (list Z)) : list Z := concat (map (fun w => w ++ [32]) ws).
Definition show_redir (r : list Z * Z) : list Z := [if r.2 =? 0 then 60 else 62] ++ r.1 ++ [32].
Definition show_redirs (rl : list (list Z * Z)) : list Z := concat (map show_redir rl).

(** A command at a place of the grammar; with parentheses if it has to. *)
Fixpoint show (v : level) (c : cmd (list Z)) : list Z :=
  match c with
  | ExecCmd argv => show_args argv
  | RedirCmd c' file _ fd => show LExec c' ++ show_redir (file, fd)
  | PipeCmd l r =>
    let t := show LExec l ++ [124] ++ show LPipe r in match v with LExec => paren t | _ => t end
  | ListCmd l r =>
    let t := show LBack l ++ [59] ++ show LLine r in match v with LLine => t | _ => paren t end
  | BackCmd c' =>
    let t := show LBack c' ++ [38] in match v with LLine | LBack => t | _ => paren t end
  end.

(** *** Tokens of a shown command *)

Definition follow (set rest : list Z) : Prop := match rest with [] => True | c :: _ => c ∈ set end.
Definition nows (s : list Z) : Prop := skip_ws s = s.

Lemma skip_ws_idemp s : skip_ws (skip_ws s) = skip_ws s.
Proof. induction s as [|c s IH]; cbn [skip_ws]; [done|]. destruct (is_in whitespace c) eqn:E; [done|]. cbn [skip_ws]. by rewrite E. Qed.

Lemma nows_cons c s : is_in whitespace c = false -> nows (c :: s).
Proof. intros E. unfold nows. cbn [skip_ws]. by rewrite E. Qed.

Ltac follow_cases H :=
  repeat match type of H with
  | _ ∈ [] => by apply not_elem_of_nil in H
  | _ ∈ _ :: _ => apply elem_of_cons in H as [->|H]
  end.

Lemma word_head w : is_word w -> exists c w', w = c :: w' /\ c <> 0 /\ is_in whitespace c = false /\ is_in symbols c = false.
Proof.
  intros [Hne Hw]. destruct w as [|c w]; [done|]. inversion Hw as [|? ? [Hc Hwc] _]; subst. exists c, w.
  apply andb_true_iff in Hwc as [H1%negb_true_iff H2%negb_true_iff]. done.
Qed.

Lemma is_in_false set sub c : Forall (fun x => x ∈ set) sub -> 0 ∉ set -> is_in set c = false -> is_in sub c = false.
Proof.
  rewrite Forall_forall. intros Hs H0 Hc. unfold is_in in *.
  assert (Hn : forall l, 0 ∉ l -> match Ulib.strchr l c with Some _ => c ∈ l | None => c ∉ l end).
  { induction l as [|x l IH]; intros Hl; cbn [Ulib.strchr]; [apply not_elem_of_nil|]. rewrite not_elem_of_cons in Hl.
    rewrite (proj2 (Z.eqb_neq x 0)) by naive_solver. zcase; [subst; apply elem_of_cons; by left|].
    specialize (IH ltac:(naive_solver)). destruct (Ulib.strchr l c); [apply elem_of_cons; by right|rewrite not_elem_of_cons; naive_solver]. }
  assert (H0' : 0 ∉ sub) by (intros H; by apply H0, Hs).
  pose proof (Hn set H0) as H1. pose proof (Hn sub H0') as H2. destruct (Ulib.strchr set c); [done|].
  destruct (Ulib.strchr sub c); [|done]. by apply Hs in H2.
Qed.

Lemma word_not_in w s set : is_word w -> Forall (fun x => x ∈ symbols) set -> peek (w ++ s) set = (false, w ++ s).
Proof.
  intros Hw Hs. destruct (word_head w Hw) as (c & w' & -> & Hc & H1 & H2). unfold peek. cbn [app skip_ws]. rewrite H1. cbn [Str.chr nth].
  rewrite (is_in_false symbols set c Hs); [by rewrite andb_false_r| |done]. by apply (bool_decide_eq_true_1 (0 ∉ symbols)).
Qed.

Lemma gettoken_word w s : is_word w -> nows s -> gettoken (w ++ 32 :: s) = (97, (w ++ 32 :: s, 32 :: s), s).
Proof.
  intros Hw Hs. destruct (word_head w Hw) as (c & w' & Ew & Hc & H1 & H2). destruct Hw as [_ Hw]. unfold gettoken.
  assert (E1 : skip_ws (w ++ 32 :: s) = w ++ 32 :: s) by (rewrite Ew; cbn [app skip_ws]; by rewrite H1). rewrite E1.
  assert (E2 : scan (w ++ 32 :: s) = (97, 32 :: s)).
  { unfold scan. rewrite (skip_word_app w (32 :: s)) by done. rewrite Ew. cbn [app Str.chr nth].
    rewrite (proj2 (Z.eqb_neq c 0)) by done. rewrite (is_in_false symbols (bytes_of "|();&<") c);
      [|by apply (bool_decide_eq_true_1 (Forall (fun x => x ∈ symbols) _))|by apply (bool_decide_eq_true_1 (0 ∉ symbols))|done].
    rewrite (proj2 (Z.eqb_neq c 62)); [done|]. intros ->. done. }
  rewrite E2. by change (skip_ws (32 :: s)) with (skip_ws s); rewrite Hs.
Qed.

(** *** Parsing what was shown *)

Definition parses (r : pres (pcmd * list Z)) (c : cmd (list Z)) (rest : list Z) : Prop :=
  exists c', r = POk (c', rest) /\ map_cmd text c' = c.

Lemma parses_ret c' c rest : map_cmd text c' = c -> parses (mret (c', rest)) c rest.
Proof. intros H. by exists c'. Qed.

Lemma parses_bind r f c rest c2 rest2 : parses r c rest ->
  (forall c', map_cmd text c' = c -> parses (f (c', rest)) c2 rest2) -> parses (r ≫= f) c2 rest2.
Proof. intros (c' & -> & Hc) Hf. by apply Hf. Qed.

Lemma peek_follow set set' rest : follow set rest -> Forall (fun x => is_in set' x = false /\ is_in whitespace x = false) set ->
  peek rest set' = (false, rest).
Proof.
  intros Hf Hs. unfold peek. destruct rest as [|c rest]; [done|]. rewrite Forall_forall in Hs. destruct (Hs c Hf) as [H1 H2].
  cbn [skip_ws]. rewrite H2. cbn [Str.chr nth]. by rewrite H1, andb_false_r.
Qed.

Lemma follow_nows set rest : follow set rest -> Forall (fun x => is_in whitespace x = false) set -> nows rest.
Proof. intros Hf Hs. destruct rest as [|c rest]; [done|]. rewrite Forall_forall in Hs. by apply nows_cons, Hs. Qed.

(** The redirections [rl], the last one outermost. *)
Definition redir (c : cmd (list Z)) (r : list Z * Z) : cmd (list Z) := RedirCmd c r.1 (if r.2 =? 0 then 0 else 513) r.2.
Definition wrap (rl : list (list Z * Z)) (c : cmd (list Z)) : cmd (list Z) := fold_left redir rl c.
Definition redir_ok (r : list Z * Z) : Prop := is_word r.1 /\ (r.2 = 0 \/ r.2 = 1).

Lemma show_redirs_nows rl rest : nows rest -> nows (show_redirs rl ++ rest).
Proof. intros Hr. destruct rl as [|r rl]; [done|]. cbn. by destruct (r.2 =? 0). Qed.

Lemma show_redirs_cons file fd rl rest :
  show_redirs ((file, fd) :: rl) ++ rest = (if fd =? 0 then 60 else 62) :: file ++ 32 :: show_redirs rl ++ rest.
Proof. unfold show_redirs, show_redir. cbn [map concat app fst snd]. by rewrite <- !app_assoc. Qed.

Definition ends : list Z := bytes_of "|)&;".

Lemma gettoken_redir fd file s : is_word file -> fd = 0 \/ fd = 1 ->
  gettoken ((if fd =? 0 then 60 else 62) :: file ++ s) =
  ((if fd =? 0 then 60 else 62), ((if fd =? 0 then 60 else 62) :: file ++ s, file ++ s), file ++ s).
Proof.
  intros Hw Hfd. destruct (word_head file Hw) as (c & w' & -> & Hc & H1 & H2). unfold gettoken.
  assert (Hs : skip_ws ((c :: w') ++ s) = (c :: w') ++ s) by (cbn [app skip_ws]; by rewrite H1).
  assert (Hne : c <> 62) by (by intros ->). destruct Hfd as [->| ->]; cbn [Z.eqb]; [|].
  - change (skip_ws (60 :: (c :: w') ++ s)) with (60 :: (c :: w') ++ s).
    change (scan (60 :: (c :: w') ++ s)) with (60, (c :: w') ++ s). cbv beta iota. by rewrite Hs.
  - change (skip_ws (62 :: (c :: w') ++ s)) with (62 :: (c :: w') ++ s). 
    replace (scan (62 :: (c :: w') ++ s)) with (62, (c :: w') ++ s); [cbv beta iota; by rewrite Hs|].
    unfold scan. cbn. by rewrite (proj2 (Z.eqb_neq c 62)).
Qed.

Lemma parseredirs_shown rl : forall f c rest, Forall redir_ok rl -> nows rest -> peek rest (bytes_of "<>") = (false, rest) ->
  (length (show_redirs rl ++ rest) < f)%nat ->
  parses (parseredirs f c (show_redirs rl ++ rest)) (wrap rl (map_cmd text c)) rest.
Proof.
  induction rl as [|[file fd] rl IH]; intros f c rest Hrl Hn Hp Hf; (destruct f as [|f]; [lia|]); cbn [parseredirs].
  - cbn [show_redirs map concat app]. rewrite Hp. by apply parses_ret.
  - inversion Hrl as [|? ? [Hw Hfd] Hrl']; subst. cbn [fst snd] in *. rewrite show_redirs_cons in *.
    assert (Hpk : peek ((if fd =? 0 then 60 else 62) :: file ++ 32 :: show_redirs rl ++ rest) (bytes_of "<>") =
      (true, (if fd =? 0 then 60 else 62) :: file ++ 32 :: show_redirs rl ++ rest)) by (destruct Hfd as [->| ->]; done).
    rewrite Hpk. cbn [negb]. rewrite gettoken_redir by done. rewrite gettoken_word by (try apply show_redirs_nows; done). cbn [Z.eqb Pos.eqb negb].
    match goal with |- parses (parseredirs f ?c1 _) _ _ => replace (wrap ((file, fd) :: rl) (map_cmd text c)) with (wrap rl (map_cmd text c1)) end.
    + apply IH; try done. cbn [length] in Hf. rewrite length_app in Hf. cbn [length] in Hf. lia.
    + unfold wrap. cbn [fold_left redir fst snd]. unfold redircmd. destruct Hfd as [->| ->]; cbn [Z.eqb Pos.eqb map_cmd]; by rewrite text_word.
Qed.

Lemma show_args_cons w ws rest : show_args (w :: ws) ++ rest = w ++ 32 :: show_args ws ++ rest.
Proof. unfold show_args. cbn [map concat]. by rewrite <- !app_assoc. Qed.

Lemma args_nows ws rl rest : Forall is_word ws -> nows rest -> nows (show_args ws ++ show_redirs rl ++ rest).
Proof.
  intros Hw Hr. destruct ws as [|w ws]; [by apply show_redirs_nows|]. inversion Hw as [|? ? Hw1 _]; subst. rewrite show_args_cons.
  destruct (word_head w Hw1) as (c & w' & -> & _ & H1 & _). by apply nows_cons.
Qed.

Lemma ends_nows rest : follow ends rest -> nows rest.
Proof. intros H. apply (follow_nows ends); [done|]. by repeat constructor. Qed.

(** The loop over the arguments, up to the end of the command. *)
Lemma args_end f k ret c rest : follow ends rest -> map_cmd text ret = c -> parses (args_loop (S f) k ret rest) c rest.
Proof.
  intros Hf Hc. cbn [args_loop]. destruct rest as [|x rest]; [by apply parses_ret|]. cbn in Hf. follow_cases Hf; by apply parses_ret.
Qed.

Lemma no_redirs ws rest : Forall is_word ws -> follow ends rest \/ ws <> [] ->
  peek (show_args ws ++ rest) (bytes_of "<>") = (false, show_args ws ++ rest).
Proof.
  intros Hw Hr. destruct ws as [|w ws].
  - destruct Hr as [Hr|?]; [|done]. apply (peek_follow ends); [done|]. by repeat constructor.
  - inversion Hw as [|? ? Hw1 _]; subst. rewrite show_args_cons. apply word_not_in; [done|]. by apply (bool_decide_eq_true_1 (Forall _ _)).
Qed.

Lemma parseredirs_none f c s : peek s (bytes_of "<>") = (false, s) -> parseredirs (S f) c s = POk (c, s).
Proof. intros E. cbn [parseredirs]. by rewrite E. Qed.

Lemma args_shown ws : forall f k argv rl rest, ws <> [] -> Forall is_word ws -> Forall redir_ok rl -> follow ends rest ->
  (k + length ws <= 9)%nat -> (length (show_args ws ++ show_redirs rl ++ rest) < f)%nat ->
  parses (args_loop f (Z.of_nat k) (ExecCmd argv) (show_args ws ++ show_redirs rl ++ rest)) (wrap rl (ExecCmd (map text argv ++ ws))) rest.
Proof.
  induction ws as [|w ws IH]; intros f k argv rl rest Hne Hws Hrl Hr Hk Hf; [done|]. destruct f as [|f]; [lia|].
  inversion Hws as [|? ? Hw Hws']; subst. cbn [args_loop]. rewrite show_args_cons in *.
  rewrite word_not_in by (try done; by apply (bool_decide_eq_true_1 (Forall _ _))).
  rewrite gettoken_word by (try apply args_nows; try apply ends_nows; done). cbn [Z.eqb Pos.eqb negb add_arg length] in *.
  rewrite (proj2 (Z.leb_gt 10 (Z.of_nat k + 1))) by lia. rewrite !length_app in Hf. cbn [length] in Hf.
  assert (Ht : map text (argv ++ [(w ++ 32 :: show_args ws ++ show_redirs rl ++ rest, 32 :: show_args ws ++ show_redirs rl ++ rest)]) = map text argv ++ [w])
    by (rewrite map_app; cbn [map]; by rewrite text_word).
  destruct ws as [|w2 ws].
  - eapply parses_bind.
    + apply (parseredirs_shown rl); [done|by apply ends_nows|by apply (no_redirs []); [|left]|cbn; lia].
    + intros c' Hc'. cbv beta iota. destruct f as [|f]; [lia|]. apply args_end; [done|]. rewrite Hc'. f_equal. cbn [map_cmd]. f_equal. exact Ht.
  - rewrite parseredirs_none by (apply no_redirs; [done|by right]). cbn [mbind pres_bind]. replace (Z.of_nat k + 1) with (Z.of_nat (S k)) by lia.
    replace (map text argv ++ w :: w2 :: ws) with ((map text argv ++ [w]) ++ w2 :: ws) by (by rewrite <- app_assoc). rewrite <- Ht.
    apply IH; try done; [cbn [length] in *; lia|rewrite !length_app in *; lia].
Qed.

Lemma no_block ws rl rest : Forall is_word ws -> Forall redir_ok rl -> follow ends rest ->
  peek (show_args ws ++ show_redirs rl ++ rest) (bytes_of "(") = (false, show_args ws ++ show_redirs rl ++ rest).
Proof.
  intros Hws Hrl Hr. destruct ws as [|w ws].
  - destruct rl as [|[file fd] rl]; [apply (peek_follow ends); [done|by repeat constructor]|]. cbn [show_args map concat app].
    inversion Hrl as [|? ? [_ Hfd] _]; subst. rewrite show_redirs_cons. cbn in Hfd. by destruct Hfd as [->| ->].
  - inversion Hws as [|? ? Hw _]; subst. rewrite show_args_cons. apply word_not_in; [done|]. by apply (bool_decide_eq_true_1 (Forall _ _)).
Qed.

Lemma parseexec_args f ws rl rest : Forall is_word ws -> (length ws <= 9)%nat -> Forall redir_ok rl -> follow ends rest ->
  parses (parseexec (S f) (show_args ws ++ show_redirs rl ++ rest)) (wrap rl (ExecCmd ws)) rest.
Proof.
  intros Hws Hl Hrl Hr. cbn [parseexec]; unfold exec_body. rewrite no_block by done. destruct ws as [|w ws].
  - eapply parses_bind.
    + apply (parseredirs_shown rl); [done|by apply ends_nows|by apply (no_redirs []); [|left]|cbn; lia].
    + intros c' Hc'. cbv beta iota. by apply args_end.
  - rewrite parseredirs_none by (apply no_redirs; [done|by right]). apply (args_shown (w :: ws) _ 0 []); try done. lia.
Qed.

(** *** The grammar *)

Lemma parseexec_skip f s : parseexec f (skip_ws s) = parseexec f s.
Proof. destruct f as [|f]; [done|]. cbn [parseexec]; unfold exec_body. unfold peek. by rewrite skip_ws_idemp. Qed.
Lemma parsepipe_skip f s : parsepipe f (skip_ws s) = parsepipe f s.
Proof. destruct f as [|f]; [done|]. cbn [parsepipe]; unfold pipe_body. by rewrite parseexec_skip. Qed.
Lemma parseline_skip f s : parseline f (skip_ws s) = parseline f s.
Proof. destruct f as [|f]; [done|]. cbn [parseline]; unfold line_body. by rewrite parsepipe_skip. Qed.

Fixpoint backs (k : nat) (c : cmd (list Z)) : cmd (list Z) := match k with O => c | S k' => backs k' (BackCmd c) end.

Lemma back_loop_shown k : forall f c c0 rest, follow (bytes_of ");") rest -> map_cmd text c = c0 -> (k < f)%nat ->
  parses (back_loop f c (replicate k 38 ++ rest)) (backs k c0) rest.
Proof.
  induction k as [|k IH]; intros f c c0 rest Hr Hc Hf; (destruct f as [|f]; [lia|]); cbn [back_loop replicate app backs].
  - rewrite (peek_follow (bytes_of ");")); [by apply parses_ret|done|by repeat constructor].
  - change (peek (38 :: replicate k 38 ++ rest) (bytes_of "&")) with (true, 38 :: replicate k 38 ++ rest). cbv beta iota.
    assert (E : exists a, gettoken (38 :: replicate k 38 ++ rest) = (38, a, replicate k 38 ++ rest)).
    { eexists. unfold gettoken. cbn. f_equal. destruct k; [|done]. apply (follow_nows (bytes_of ");")); [done|by repeat constructor]. }
    destruct E as [a ->]. apply IH; [done|by rewrite <- Hc|lia].
Qed.

Definition shown_exec (c : cmd (list Z)) : Prop := forall f rl rest, Forall redir_ok rl -> follow ends rest ->
  let s := show LExec c ++ show_redirs rl ++ rest in
  (4 * length s + 2 <= f)%nat -> parses (parseexec f s) (wrap rl c) rest.
Definition shown_pipe (c : cmd (list Z)) : Prop := forall f rest, follow (bytes_of ")&;") rest ->
  let s := show LPipe c ++ rest in
  (4 * length s + 3 <= f)%nat -> parses (parsepipe f s) c rest.
Definition shown_back (c : cmd (list Z)) : Prop := forall f k rest, follow (bytes_of ");") rest ->
  let s := show LBack c ++ replicate k 38 ++ rest in
  (4 * length s + 3 <= f)%nat ->
  parses ('(c, s) ← parsepipe f s; back_loop (S (length s)) c s) (backs k c) rest.
Definition shown_line (c : cmd (list Z)) : Prop := forall f rest, follow [41] rest ->
  let s := show LLine c ++ rest in
  (4 * length s + 4 <= f)%nat -> parses (parseline f s) c rest.

(** A symbol of the grammar is seen and taken. *)
Lemma take_sym x set s : x <> 0 -> is_in whitespace x = false -> is_in set x = true -> peek (x :: s) set = (true, x :: s).
Proof. intros H0 H1 H2. unfold peek. cbn [skip_ws]. rewrite H1. cbn [Str.chr nth]. by rewrite H2, (proj2 (Z.eqb_neq x 0)). Qed.

Lemma get_sym x s : x ∈ bytes_of "|();&<" -> exists a, gettoken (x :: s) = (x, a, skip_ws s).
Proof. intros H. cbn in H. follow_cases H; by eexists. Qed.

Lemma follow_sub set set' rest : follow set rest -> bool_decide (Forall (fun x => x ∈ set') set) = true -> follow set' rest.
Proof. intros Hf Hs%bool_decide_eq_true. destruct rest as [|c rest]; [done|]. rewrite Forall_forall in Hs. by apply Hs. Qed.

Lemma shown_pipe_exec c : shown_exec c -> show LPipe c = show LExec c -> shown_pipe c.
Proof.
  intros He E f rest Hr s. subst s. rewrite E. intros Hf. destruct f as [|f]; [lia|]. cbn [parsepipe]; unfold pipe_body.
  assert (Hr' : follow ends rest) by (by eapply follow_sub).
  eapply parses_bind; [apply (He f [] rest); [done|done|cbn [app show_redirs map concat]; lia]|].
  intros c' Hc'. cbv beta iota. rewrite (peek_follow (bytes_of ")&;")); [by apply parses_ret|done|by repeat constructor].
Qed.

Lemma shown_back_pipe c : shown_pipe c -> show LBack c = show LPipe c -> shown_back c.
Proof.
  intros Hp E f k rest Hr s. subst s. rewrite E. intros Hf. eapply parses_bind; [apply Hp; [|done]|].
  - destruct k; [by eapply follow_sub|by apply (bool_decide_eq_true_1 (38 ∈ _))].
  - intros c' Hc'. cbv beta iota. apply back_loop_shown; [done|done|]. rewrite length_app, length_replicate. lia.
Qed.

Lemma parseline_bind f s : parseline (S f) s = (
    '(c, ps) ← ('(c, ps) ← parsepipe f s; back_loop (S (length ps)) c ps);
    let (b, ps) := peek ps (bytes_of ";") in
    if b then let '(_, _, ps) := gettoken ps in '(r, ps) ← parseline f ps; mret (ListCmd c r, ps) else mret (c, ps)).
Proof. cbn [parseline]; unfold line_body. destruct (parsepipe f s) as [[c ps]|msg|]; done. Qed.

Lemma shown_line_back c : shown_back c -> show LLine c = show LBack c -> shown_line c.
Proof.
  intros Hb E f rest Hr s. subst s. rewrite E. intros Hf. destruct f as [|f]; [lia|]. rewrite parseline_bind.
  assert (Hr' : follow (bytes_of ");") rest) by (by eapply follow_sub).
  eapply parses_bind; [apply (Hb f 0%nat rest); [done|cbn [replicate app]; lia]|].
  intros c' Hc'. cbv beta iota. rewrite (peek_follow [41]); [by apply parses_ret|done|by repeat constructor].
Qed.

(** A command in parentheses. *)
Lemma shown_exec_line c : shown_line c -> show LExec c = paren (show LLine c) -> shown_exec c.
Proof.
  intros Hl E f rl rest Hrl Hr s. subst s. rewrite E. unfold paren. cbn [app]. rewrite <- !app_assoc. cbn [app length]. intros Hf.
  destruct f as [|[|f]]; [lia|lia|]. cbn [parseexec parseblock]; unfold exec_body, block_body. rewrite take_sym by done. cbv beta iota. rewrite take_sym by done. cbn [negb].
  destruct (get_sym 40 (show LLine c ++ 41 :: show_redirs rl ++ rest)) as [a ->]; [by apply (bool_decide_eq_true_1 (_ ∈ _))|]. cbv beta iota. rewrite parseline_skip.
  eapply parses_bind; [apply Hl; [by apply elem_of_cons; left|rewrite !length_app in *; cbn [length] in *; lia]|].
  intros c' Hc'. cbv beta iota. rewrite take_sym by done. cbn [negb].
  destruct (get_sym 41 (show_redirs rl ++ rest)) as [a' ->]; [by apply (bool_decide_eq_true_1 (_ ∈ _))|]. cbv beta iota. rewrite show_redirs_nows by (by apply ends_nows).
  rewrite <- Hc'. apply parseredirs_shown; [done|by apply ends_nows|by apply (no_redirs []); [|left]|lia].
Qed.

Lemma shown_all c : wf_cmd is_word c -> shown_exec c /\ shown_pipe c /\ shown_back c /\ shown_line c.
Proof.
  assert (Hup : forall c, shown_exec c -> show LPipe c = show LExec c -> show LBack c = show LPipe c -> show LLine c = show LBack c ->
    shown_exec c /\ shown_pipe c /\ shown_back c /\ shown_line c).
  { intros c0 He E1 E2 E3. pose proof (shown_pipe_exec c0 He E1) as Hp. pose proof (shown_back_pipe c0 Hp E2) as Hb.
    by pose proof (shown_line_back c0 Hb E3). }
  induction c as [argv|c IH file mode fd|l IHl r IHr|l IHl r IHr|c IH]; cbn [wf_cmd].
  - intros [Hl Ha]. apply Hup; try done. intros f rl rest Hrl Hr s Hf. subst s. destruct f as [|f]; [lia|]. by apply parseexec_args.
  - intros (Hc & Hw & Hm). apply Hup; try done. intros f rl rest Hrl Hr s. subst s. cbn [show]. intros Hf.
    destruct (IH Hc) as [He _]. specialize (He f ((file, fd) :: rl) rest). rewrite <- app_assoc in *.
    change (show_redirs ((file, fd) :: rl)) with (show_redir (file, fd) ++ show_redirs rl) in He. cbv zeta in He. rewrite <- (app_assoc (show_redir _)) in He.
    replace (RedirCmd c file mode fd) with (redir c (file, fd)) by (unfold redir; destruct Hm as [[-> ->]|[-> ->]]; done).
    apply He; [constructor; [|done]; split; [done|]; cbn; lia|done|done].
  - intros [Hl Hr]. destruct (IHl Hl) as [Hel _], (IHr Hr) as (_ & Hpr & _).
    assert (Hp : shown_pipe (PipeCmd l r)).
    { intros f rest Hre s. subst s. cbn [show]. rewrite <- !app_assoc. cbn [app]. intros Hf. destruct f as [|f]; [lia|]. cbn [parsepipe]; unfold pipe_body.
      rewrite length_app in Hf. cbn [length] in Hf. eapply parses_bind.
      { apply (Hel f []); [done|by apply elem_of_cons; left|cbn [app show_redirs map concat]; rewrite length_app; cbn [length]; lia]. }
      intros c' Hc'. cbv beta iota. rewrite take_sym by done. destruct (get_sym 124 (show LPipe r ++ rest)) as [a ->]; [by apply (bool_decide_eq_true_1 (_ ∈ _))|].
      cbv beta iota. rewrite parsepipe_skip. eapply parses_bind; [apply Hpr; [done|lia]|]. intros c2 Hc2. apply parses_ret. cbn. by rewrite Hc2, Hc'. }
    pose proof (shown_back_pipe _ Hp eq_refl) as Hb. pose proof (shown_line_back _ Hb eq_refl) as Hln. by pose proof (shown_exec_line _ Hln eq_refl).
  - intros [Hl Hr]. destruct (IHl Hl) as (_ & _ & Hbl & _), (IHr Hr) as (_ & _ & _ & Hlr).
    assert (Hln : shown_line (ListCmd l r)).
    { intros f rest Hre s. subst s. cbn [show]. rewrite <- !app_assoc. cbn [app]. intros Hf. destruct f as [|f]; [lia|]. rewrite parseline_bind.
      rewrite length_app in Hf. cbn [length] in Hf. eapply parses_bind.
      { apply (Hbl f 0%nat); [by apply (bool_decide_eq_true_1 (59 ∈ _))|cbn [replicate app]; rewrite length_app; cbn [length]; lia]. }
      intros c' Hc'. cbv beta iota. rewrite take_sym by done. destruct (get_sym 59 (show LLine r ++ rest)) as [a ->]; [by apply (bool_decide_eq_true_1 (_ ∈ _))|].
      cbv beta iota. rewrite parseline_skip. eapply parses_bind; [apply Hlr; [done|lia]|]. intros c2 Hc2. apply parses_ret. cbn. by rewrite Hc2, Hc'. }
    pose proof (shown_exec_line _ Hln eq_refl) as He. pose proof (shown_pipe_exec _ He eq_refl) as Hp. by pose proof (shown_back_pipe _ Hp eq_refl).
  - intros Hc. destruct (IH Hc) as (_ & _ & Hbc & _).
    assert (Hb : shown_back (BackCmd c)).
    { intros f k rest Hre s. subst s. cbn [show]. rewrite <- !app_assoc. intros Hf. exact (Hbc f (S k) rest Hre Hf). }
    pose proof (shown_line_back _ Hb eq_refl) as Hln. pose proof (shown_exec_line _ Hln eq_refl) as He. by pose proof (shown_pipe_exec _ He eq_refl).
Qed.

(** ** parsecmd *)

Lemma wf_and {A} (P Q : A -> Prop) c : wf_cmd P c -> wf_cmd Q c -> wf_cmd (fun a => P a /\ Q a) c.
Proof.
  induction c as [argv|c IH file mode fd|l IHl r IHr|l IHl r IHr|c IH]; cbn; try naive_solver.
  intros [Hl Ha] [_ Hb]. split; [done|]. apply Forall_and. done.
Qed.

(** A line that parses: the strings are the words, and they are well formed. *)
Lemma parse_strings s c : nonul s -> wf_cmd (tok_ok s) c ->
  map_cmd (string_at (length s) (nulterminate (length s) (s ++ [0]) c)) c = map_cmd text c /\ wf_cmd is_word (map_cmd text c).
Proof.
  intros Hn Hc. destruct (nulterminate_inv s c (s ++ [0]) (nul_inv_start s) Hc) as (H1 & H2 & _). split.
  - apply (map_cmd_ext (fun a => tok_ok s a /\ nulled s (nulterminate (length s) (s ++ [0]) c) a)); [|by apply wf_and].
    intros a [Ha Hz]. by apply string_at_text.
  - apply (wf_map (tok_ok s)); [|done]. intros [q e] (_ & w & Hq & Hw & _). cbn [fst snd] in Hq. subst q. by rewrite text_word.
Qed.

Lemma show_nonul c : wf_cmd is_word c -> forall v, nonul (show v c).
Proof.
  assert (Hw : forall w, is_word w -> nonul w) by (intros w [_ H]; eapply Forall_impl; [done|naive_solver]).
  assert (Happ : forall a b, nonul a -> nonul b -> nonul (a ++ b)) by (intros; by apply Forall_app_2).
  assert (Hp : forall t, nonul t -> nonul (paren t)) by (intros t Ht; repeat apply Happ; try done; by repeat constructor).
  assert (H1 : forall x, x <> 0 -> nonul [x]) by (intros; by repeat constructor).
  induction c as [argv|c IH file mode fd|l IHl r IHr|l IHl r IHr|c IH]; cbn [wf_cmd show].
  - intros [_ Ha] _. unfold show_args. induction Ha as [|w argv Hwd _ IHa]; [constructor|]. cbn. apply Happ; [|done]. apply Happ; [by apply Hw|by apply H1].
  - intros (Hc & Hf & _) _. apply Happ; [by apply IH|]. unfold show_redir. apply Happ; [apply H1; by case_match|]. apply Happ; [by apply Hw|by apply H1].
  - intros [Hl Hr] v. assert (nonul (show LExec l ++ [124] ++ show LPipe r)) by (repeat apply Happ; auto). destruct v; auto.
  - intros [Hl Hr] v. assert (nonul (show LBack l ++ [59] ++ show LLine r)) by (repeat apply Happ; auto). destruct v; auto.
  - intros Hc v. assert (nonul (show LBack c ++ [38])) by (repeat apply Happ; auto). destruct v; auto.
Qed.

Lemma parsecmd_show c rs : wf_cmd is_word c -> parsecmd (show LLine c) rs = URet c [] rs.
Proof.
  intros Hc. destruct (shown_all c Hc) as (_ & _ & _ & Hl). set (s := show LLine c).
  destruct (Hl (parse_fuel s) [] I) as (c' & E & Ht); [rewrite app_nil_r; unfold parse_fuel; fold s; lia|]. rewrite app_nil_r in E.
  pose proof (show_nonul c Hc LLine) as Hn. destruct (parse_good s Hn (parse_fuel s) s) as [Hg _]; [done|].
  specialize (Hg ltac:(unfold parse_fuel; lia)). fold s in E. unfold parsecmd. rewrite E in Hg. rewrite E. destruct Hg as (Hwf & _ & _).
  cbn. unfold mret, U_ret. f_equal. rewrite (proj1 (parse_strings s c' Hn Hwf)). done.
Qed.

Lemma panic_exits {A} msg rs (a : A) cs rs' : panic msg rs <> URet a cs rs'.
Proof. unfold panic, mbind, U_bind. destruct (Printf.printf _ _ _ rs); done. Qed.

(** C22: Every well-formed command can be written as a line of the shell (with
    parentheses where the grammar needs them), and the parser returns exactly
    this command for it: its structure of pipes, lists, background commands
    and redirections, and its words as the strings that [nulterminate] cuts
    out of the line.  It makes no system call on the way. *)
Theorem shell_roundtrip (c : cmd (list Z)) (rs : list reply) : wf_cmd is_word c -> parsecmd (show LLine c) rs = URet c [] rs.
Proof. intros Hc. pose proof (parsecmd_show c rs Hc) as H. exact H. Qed.

(** (echo hi > f; cat) | wc & *)
Definition sh_sample : cmd (list Z) :=
  BackCmd (PipeCmd (ListCmd (RedirCmd (ExecCmd [bytes_of "echo"; bytes_of "hi"]) (bytes_of "f") 513 1) (ExecCmd [bytes_of "cat"]))
    (ExecCmd [bytes_of "wc"])).
Lemma sh_sample_wf : wf_cmd is_word sh_sample.
Proof. by apply (bool_decide_eq_true_1 (wf_cmd is_word sh_sample)). Defined.
Lemma shell_roundtrip_witness : parsecmd (bytes_of "(echo hi >f ;cat )|wc &") [] = URet sh_sample [] [].
Proof. exact (shell_roundtrip sh_sample [] sh_sample_wf). Defined.

(** C27: The parser of the shell ends on every line, with a well-formed command
    or with an error message.  A command that it returns has words without
    white space, symbols or terminators, no exec command in it has more than
    nine of them (so the array of ten has room for the null pointer), its
    redirections are the two kinds that the grammar has, and to parse the
    command written out gives the same command again. *)
Theorem shell_parse_wf (s : list Z) : nonul s ->
  parseline (parse_fuel s) s <> PFuel /\
  forall rs c cs rs', parsecmd s rs = URet c cs rs' ->
    wf_cmd is_word c /\ cs = [] /\ rs' = rs /\ parsecmd (show LLine c) rs = URet c [] rs.
Proof.
  intros Hn. destruct (parse_good s Hn (parse_fuel s) s) as [Hg _]; [done|]. specialize (Hg ltac:(unfold parse_fuel; lia)). unfold parsecmd at 1.
  destruct (parseline (parse_fuel s) s) as [[c0 ps]|msg|]; [|split; [done|]; intros rs c cs rs' E; by apply panic_exits in E|done].
  split; [done|]. destruct Hg as (Hwf & _ & _). destruct (parse_strings s c0 Hn Hwf) as [E Hw]. intros rs c cs rs'.
  destruct (peek ps []) as [b [|x ps']].
  - cbn. rewrite E. intros H. injection H as <- <- <-. split; [done|]. split; [done|]. split; [done|]. by apply parsecmd_show.
  - unfold mbind, U_bind. destruct (Printf.printf _ _ _ rs) as [u cs1 rs1|cs1|cs1]; try done.
    destruct (panic (bytes_of "syntax") rs1) as [a cs2 rs2|cs2|cs2] eqn:Ep; try done. by apply panic_exits in Ep.
Qed.

Lemma shell_parse_wf_witness : nonul (bytes_of "(echo hi>f;cat)|wc&") /\ wf_cmd is_word sh_sample.
Proof.
  assert (H : nonul (bytes_of "(echo hi>f;cat)|wc&")) by (by repeat constructor). split; [exact H|].
  exact (proj1 (proj2 (shell_parse_wf (bytes_of "(echo hi>f;cat)|wc&") H) [] sh_sample [] [] eq_refl)).
Defined.
