(* ===== verification/Mkfs.v ===== *)
(** * Making a file system (mkfs.c)

    The state is the image file, sector by sector, with the two counters of
    the program; [None] is an exit with an error or a failed assertion.  What
    the program reads on the host, names and contents, is its input.  The
    host is little-endian, as [IBLOCK] and balloc of mkfs.c use fields of
    [sb] as they are. *)

From stdpp Require Import base list strings.
From S2P Require Import Prelude Memory Bytes Str Kernel KMonad Boot BioSpec Log Fs.

Module Mkfs.

Record st : Type := mkSt {
  im : Z -> list Z;
  im_len : Z;
  freeinode : Z;
  freeblock : Z
}.

Definition Mk (A : Type) : Type := st -> option (A * st).
#[global] Instance Mk_ret : MRet Mk := fun A a s => Some (a, s).
#[global] Instance Mk_bind : MBind Mk := fun A B f m s =>
  match m s with
  | Some (a, s') => f a s'
  | None => None
  end.
Definition assert_ (b : bool) : Mk unit := fun s => if b then Some (tt, s) else None.

(** *** Constants *)

Definition NINODES : Z := 200.
Definition nbitmap : Z := FSSIZE / (BSIZE * 8) + 1.
Definition ninodeblocks : Z := NINODES / IPB + 1.
Definition nlog : Z := LOGSIZE.
Definition nmeta : Z := 2 + nlog + ninodeblocks + nbitmap.
Definition nblocks : Z := FSSIZE - nmeta.

(** The bytes that are stored, read as a number. *)
Definition xshort (x : Z) : Z := get16 [x mod 256; Z.shiftr x 8 mod 256] 0.
Definition xint (x : Z) : Z :=
  get32 [x mod 256; Z.shiftr x 8 mod 256; Z.shiftr x 16 mod 256; Z.shiftr x 24 mod 256] 0.

Definition sb : superblock :=
  mkSb (xint FSSIZE) (xint nblocks) (xint NINODES) (xint nlog) (xint 2) (xint (2 + nlog))
    (xint (2 + nlog + ninodeblocks)).
Definition sb_bytes : list Z :=
  concat (map le32 [sb_size sb; sb_nblocks sb; sb_ninodes sb; sb_nlog sb; sb_logstart sb; sb_inodestart sb; sb_bmapstart sb]).

(** *** Sectors and inodes *)

(** A write behind the end makes the file longer. *)
Definition wsect (sec : Z) (buf : list Z) : Mk unit := fun s =>
  Some (tt, mkSt (zset (im s) sec buf) (Z.max (im_len s) (sec + 1)) (freeinode s) (freeblock s)).
Definition rsect (sec : Z) : Mk (list Z) := fun s => if sec <? im_len s then Some (im s sec, s) else None.

Definition winode (inum : Z) (ip : inode) : Mk unit :=
  let bn := IBLOCK inum sb in
  buf ← rsect bn;
  wsect bn (put_dinode buf (dinode_off inum) ip).
Definition rinode (inum : Z) : Mk inode :=
  let bn := IBLOCK inum sb in
  buf ← rsect bn;
  mret (get_dinode buf (dinode_off inum) zero_inode).

Definition next_inode : Mk Z := fun s => Some (freeinode s, mkSt (im s) (im_len s) (u32 (freeinode s + 1)) (freeblock s)).
Definition next_block : Mk Z := fun s => Some (freeblock s, mkSt (im s) (im_len s) (freeinode s) (u32 (freeblock s + 1))).

Definition new_dinode (type : Z) : inode := mkInode 0 0 0 0 (s16 (xshort type)) 0 0 (xshort 1) (xint 0) (replicate 13 0).
Definition ialloc (type : Z) : Mk Z :=
  inum ← next_inode;
  winode inum (new_dinode type);;
  mret inum.

(** The blocks [0 .. used-1] of the bitmap. *)
Definition bitmap (used : Z) : list Z := fold_left mark_bit (map Z.of_nat (seq 0 (Z.to_nat used))) (zeros BSIZE).
Definition balloc (used : Z) : Mk unit :=
  assert_ (used <? BSIZE * 8);;
  wsect (sb_bmapstart sb) (bitmap used).

(** *** Appending to a file *)

(** The block [fbn] of the file, a new one if there is none. *)
Definition find_block (din : inode) (fbn : Z) : Mk (inode * Z) :=
  if fbn <? NDIRECT then
    din ← (if xint (addr_of din fbn) =? 0 then b ← next_block; mret (set_addr fbn (xint b) din) else mret din);
    mret (din, xint (addr_of din fbn))
  else
    din ← (if xint (addr_of din NDIRECT) =? 0 then b ← next_block; mret (set_addr NDIRECT (xint b) din) else mret din);
    indirect ← rsect (xint (addr_of din NDIRECT));
    let k := 4 * (fbn - NDIRECT) in
    indirect ←
      (if get32 indirect k =? 0 then
         b ← next_block;
         let indirect := put32 indirect k (xint b) in
         wsect (xint (addr_of din NDIRECT)) indirect;;
         mret indirect
       else mret indirect);
    mret (din, xint (get32 indirect k)).

(** [p]: the bytes that are left, [n] of them. *)
Fixpoint iappend_loop (fuel : nat) (din : inode) (off : Z) (p : list Z) : Mk (inode * Z) :=
  match p with
  | [] => mret (din, off)
  | _ =>
    match fuel with
    | O => fun _ => None
    | S fuel' =>
      let fbn := off / BSIZE in
      assert_ (fbn <? MAXFILE);;
      '(din, x) ← find_block din fbn;
      let n1 := Z.min (Z.of_nat (length p)) ((fbn + 1) * BSIZE - off) in
      buf ← rsect x;
      wsect x (splice buf (off - fbn * BSIZE) (take (Z.to_nat n1) p));;
      iappend_loop fuel' din (off + n1) (drop (Z.to_nat n1) p)
    end
  end.
Definition iappend (inum : Z) (p : list Z) : Mk unit :=
  din ← rinode inum;
  '(din, off) ← iappend_loop (length p) din (xint (i_size din)) p;
  winode inum (set_i_size (xint off) din).

(** *** The program *)

(** [struct dirent] with a name that was copied into zeroes. *)
Definition dirent (inum : Z) (name : list Z) : list Z := le16 (xshort inum) ++ name ++ replicate (14 - length name) 0.

Fixpoint forM {A} (l : list A) (f : A -> Mk unit) : Mk unit :=
  match l with
  | [] => mret tt
  | x :: l' => f x;; forM l' f
  end.

(** A file of the host: the argument, and the pieces that [read] returns, if
    it can be opened. *)
Definition hostfile : Type := list Z * option (list (list Z)).

Definition skip_underscore (name : list Z) : list Z := if Str.chr name =? 95 then tail name else name.
Definition add_file (rootino : Z) (f : hostfile) : Mk unit :=
  assert_ (negb (existsb (Z.eqb 47) f.1));;
  match f.2 with
  | None => fun _ => None
  | Some chunks =>
    inum ← ialloc T_FILE;
    iappend rootino (dirent inum (Str.strncpy (skip_underscore f.1) 14));;
    forM chunks (iappend inum)
  end.

Definition fix_root (rootino : Z) : Mk unit :=
  din ← rinode rootino;
  let off := xint (i_size din) in
  let off := (off / BSIZE + 1) * BSIZE in
  winode rootino (set_i_size (xint off) din).

Definition empty_image : st := mkSt (fun _ => []) 0 1 0.
Definition set_freeblock (b : Z) : Mk unit := fun s => Some (tt, mkSt (im s) (im_len s) (freeinode s) b).
Definition get_freeblock : Mk Z := fun s => Some (freeblock s, s).

Definition main (files : list hostfile) : Mk unit :=
  set_freeblock nmeta;;
  forM (map Z.of_nat (seq 0 (Z.to_nat FSSIZE))) (fun i => wsect i (zeros BSIZE));;
  wsect 1 (splice (zeros BSIZE) 0 sb_bytes);;
  rootino ← ialloc T_DIR;
  assert_ (rootino =? ROOTINO);;
  iappend rootino (dirent rootino (bytes_of "."));;
  iappend rootino (dirent rootino (bytes_of ".."));;
  forM files (add_file rootino);;
  fix_root rootino;;
  used ← get_freeblock;
  balloc used.

End Mkfs.
