(* ===== verification/MkfsSpec.v ===== *)
(** * Appending to a file of the image (mkfs.c)

    [iappend] of mkfs.c on one file: which blocks it takes, what is then in
    them, and that it leaves the blocks of other files alone. *)

From stdpp Require Import base list gmap strings fin_maps list_numbers.
From S2P Require Import Prelude Memory Bytes Str Kernel KMonad Boot Mmu Spinlock Sched Ide Ring Bio BioSpec Log LogSpec Fs FsBlocks FsInode FsFile FsIO Mkfs.

Import Mkfs.

(** ** Numbers *)

Lemma xint_id x : word x -> xint x = x.
Proof. intros Hx. unfold xint. rewrite !Z.shiftr_div_pow2 by lia. exact (get32_le32 x [] Hx). Qed.

Lemma xshort_id x : 0 <= x < 65536 -> xshort x = x.
Proof. intros Hx. unfold xshort. rewrite !Z.shiftr_div_pow2 by lia. exact (get16_le16 x [] Hx). Qed.

Lemma mk_sb : sb = mkSb 1000 941 200 30 2 32 58.
Proof. reflexivity. Qed.

(** Blocks for a file of [x] bytes, with the indirect one. *)
Definition cost (x : Z) : Z := (x + 511) / 512 + (if 6144 <? x then 1 else 0).

Lemma cost_mono x y : x <= y -> cost x <= cost y.
Proof. intros H. unfold cost. pose proof (Z.div_le_mono (x + 511) (y + 511) 512 ltac:(lia) ltac:(lia)). repeat zcase; lia. Qed.

Lemma cost_nonneg x : 0 <= x -> 0 <= cost x.
Proof. intros H. unfold cost. pose proof (Z.div_pos (x + 511) 512 ltac:(lia) ltac:(lia)). zcase; lia. Qed.

(** A piece within one block. *)
Lemma cost_piece off m : 0 <= off -> 1 <= m -> off + m <= (off / 512 + 1) * 512 -> cost (off + m) = cost (off + 1).
Proof. intros Ho Hm Hb. unfold cost. repeat zcase; Z.div_mod_to_equations; lia. Qed.

Lemma cost_next off : 0 <= off -> cost (off + 1) = cost off +
  (if off mod 512 =? 0 then 1 else 0) + (if off =? 6144 then 1 else 0).
Proof. intros Ho. unfold cost. repeat zcase; Z.div_mod_to_equations; lia. Qed.

(** ** One file *)

(** The image: whole sectors, and zeroes from [freeblock] on. *)
Record img_ok (s : st) : Prop := {
  io_len : im_len s = 1000;
  io_block : forall n, 0 <= n < 1000 -> length (im s n) = 512%nat;
  io_free : 59 <= freeblock s <= 1000;
  io_zero : forall n, freeblock s <= n < 1000 -> im s n = zeros 512
}.

Record slots_ok (d : Z -> list Z) (fb : Z) (ip : inode) : Prop := {
  so_len : length (i_addrs ip) = 13%nat;
  so_rng : forall k, 0 <= k <= MAXFILE -> fslot d ip k <> 0 -> 59 <= fslot d ip k < fb;
  so_inj : forall k k', 0 <= k <= MAXFILE -> 0 <= k' <= MAXFILE -> fslot d ip k <> 0 -> fslot d ip k = fslot d ip k' -> k = k'
}.

(** A file with the contents [c]; it has exactly the blocks that it needs, and
    the last one is filled up with zeros. *)
Record cfile (d : Z -> list Z) (fb : Z) (ip : inode) (c : list Z) : Prop := {
  cf_slots : slots_ok d fb ip;
  cf_max : Z.of_nat (length c) <= MAXFILE * 512;
  cf_need : forall bn, 0 <= bn < MAXFILE -> fblock d ip bn = 0 <-> Z.of_nat (length c) <= bn * 512;
  cf_ind : addr_of ip NDIRECT = 0 <-> Z.of_nat (length c) <= 6144;
  cf_bytes : forall off, 0 <= off < MAXFILE * 512 -> fblock d ip (off / 512) <> 0 -> fbyte d ip off = byte_at c off
}.

(** The file gets the block [fb] as its slot [k0]. *)
Lemma slots_add d fb ip d' ip' k0 : slots_ok d fb ip -> 59 <= fb -> 0 <= k0 <= MAXFILE -> fslot d ip k0 = 0 ->
  (forall k, 0 <= k <= MAXFILE -> fslot d' ip' k = if k =? k0 then fb else fslot d ip k) ->
  length (i_addrs ip') = 13%nat -> slots_ok d' (fb + 1) ip'.
Proof.
  intros [Hl Hr Hi] Hfb Hk0 H0 Hs Hl'. split; [done|..].
  - intros k Hk. rewrite Hs by done. zcase; [lia|]. intros Hn. specialize (Hr k Hk Hn). lia.
  - intros k k' Hk Hk'. rewrite !Hs by done. repeat zcase; subst; try done; intros Hn E.
    + assert (fslot d ip k' <> 0) as Hn' by lia. specialize (Hr k' Hk' Hn'). lia.
    + specialize (Hr k Hk Hn). lia.
    + by apply Hi.
Qed.

Lemma slots_le d fb fb' ip : slots_ok d fb ip -> fb <= fb' -> slots_ok d fb' ip.
Proof. intros [Hl Hr Hi] Hle. split; [done| |done]. intros k Hk Hn. specialize (Hr k Hk Hn). lia. Qed.

Lemma set_addr_len n v ip : length (i_addrs ip) = 13%nat -> length (i_addrs (set_addr n v ip)) = 13%nat.
Proof. intros Hl. cbn. by rewrite length_insert. Qed.

(** A new direct block, a new indirect block, and a new entry of it. *)
Lemma fslot_direct d ip b bn : length (i_addrs ip) = 13%nat -> 0 <= bn < NDIRECT ->
  forall k, 0 <= k <= MAXFILE -> fslot d (set_addr bn b ip) k = if k =? bn then b else fslot d ip k.
Proof.
  intros Hl Hb k Hk. pose proof (addr_set ip bn b Hl ltac:(fsz)) as Ha. unfold fslot, fblock.
  rewrite !Ha by fsz. rewrite (proj2 (Z.eqb_neq NDIRECT bn)) by lia. repeat zcase; try done; fsz.
Qed.

Lemma fslot_indirect d ip b : length (i_addrs ip) = 13%nat -> addr_of ip NDIRECT = 0 -> d b = zeros 512 ->
  forall k, 0 <= k <= MAXFILE -> fslot d (set_addr NDIRECT b ip) k = if k =? MAXFILE then b else fslot d ip k.
Proof.
  intros Hl H0 Hz k Hk. pose proof (addr_set ip NDIRECT b Hl ltac:(fsz)) as Ha. unfold fslot, fblock.
  rewrite !Ha by fsz. rewrite Z.eqb_refl, H0, Hz, get32_zeros. cbn [Z.eqb]. repeat zcase; try done; fsz.
Qed.

Lemma fslot_entry d ip b bn : length (i_addrs ip) = 13%nat -> addr_of ip NDIRECT <> 0 -> NDIRECT <= bn < MAXFILE -> word b ->
  length (d (addr_of ip NDIRECT)) = 512%nat ->
  forall k, 0 <= k <= MAXFILE ->
  fslot (zset d (addr_of ip NDIRECT) (put32 (d (addr_of ip NDIRECT)) (4 * (bn - NDIRECT)) b)) ip k = if k =? bn then b else fslot d ip k.
Proof.
  intros Hl H0 Hb Hw Hd k Hk. unfold fslot, fblock, zset. rewrite Z.eqb_refl, (proj2 (Z.eqb_neq _ 0)) by done.
  destruct (Z.eqb_spec k MAXFILE); [by rewrite (proj2 (Z.eqb_neq k bn)) by lia|]. destruct (Z.ltb_spec k NDIRECT); [by rewrite (proj2 (Z.eqb_neq k bn)) by lia|].
  destruct (Z.eqb_spec k bn) as [->|Hne]; [apply get32_put32_eq; unfold word in *; fsz|]. unfold put32. apply get32_splice_ne; cbn [length le32]; fsz.
Qed.

(** What the search for the block of offset [off] has done. *)
Record found (s : st) (ip : inode) (off : Z) (s' : st) (ip' : inode) (x : Z) : Prop := {
  fd_img : img_ok s';
  fd_fb : freeblock s' = freeblock s + cost (off + 1) - cost off;
  fd_ino : freeinode s' = freeinode s;
  fd_slots : slots_ok (im s') (freeblock s') ip';
  fd_blk : forall bn, 0 <= bn < MAXFILE -> fblock (im s') ip' bn = if bn =? off / 512 then x else fblock (im s) ip bn;
  fd_x : x <> 0;
  fd_old : fblock (im s) ip (off / 512) <> 0 -> x = fblock (im s) ip (off / 512);
  fd_new : fblock (im s) ip (off / 512) = 0 -> im s' x = zeros 512;
  fd_ind : addr_of ip' NDIRECT = 0 <-> off + 1 <= 6144;
  fd_frame : forall n, n < freeblock s -> addr_of ip NDIRECT = 0 \/ n <> addr_of ip NDIRECT -> im s' n = im s n;
  fd_own : forall n, owns (im s') ip' n -> owns (im s) ip n \/ freeblock s <= n;
  fd_same : same_fields ip ip'
}.

Definition bump (s : st) : st := mkSt (im s) (im_len s) (freeinode s) (freeblock s + 1).

Lemma next_block_ok s : img_ok s -> freeblock s < 1000 -> next_block s = Some (freeblock s, bump s) /\ img_ok (bump s).
Proof.
  intros [Hl Hb Hf Hz] Hlt. unfold next_block, bump. rewrite u32_small by lia. split; [done|]. split; cbn; auto; [lia|].
  intros n Hn. apply Hz. lia.
Qed.

Lemma owns_add d fb ip d' ip' k0 : (forall k, 0 <= k <= MAXFILE -> fslot d' ip' k = if k =? k0 then fb else fslot d ip k) ->
  forall n, owns d' ip' n -> owns d ip n \/ fb <= n.
Proof.
  intros Hs n (Hn & k & Hk & ->). rewrite Hs in * by done. revert Hn. zcase; intros Hn; [right; lia|left]. split; [done|]. by exists k.
Qed.

Lemma fblock_add d fb ip d' ip' k0 : (forall k, 0 <= k <= MAXFILE -> fslot d' ip' k = if k =? k0 then fb else fslot d ip k) ->
  forall bn, 0 <= bn < MAXFILE -> fblock d' ip' bn = if bn =? k0 then fb else fblock d ip bn.
Proof. intros Hs bn Hb. rewrite <- !fslot_block by lia. apply Hs. lia. Qed.

Lemma off_block off : 0 <= off < MAXFILE * 512 -> 0 <= off / 512 < MAXFILE /\ (off < 6144 <-> off / 512 < NDIRECT).
Proof. rewrite MAXFILE_eq. unfold NDIRECT. intros Ho. Z.div_mod_to_equations. lia. Qed.

Section Found.
Context (s : st) (ip : inode) (c : list Z).
Context (Hs : img_ok s) (Hc : cfile (im s) (freeblock s) ip c).
Let off := Z.of_nat (length c).
Context (Hoff : off < MAXFILE * 512) (Hcap : freeblock s + cost (off + 1) - cost off <= 1000).
Let bn := off / 512.

(** The block is missing exactly at the start of one. *)
Lemma missing : fblock (im s) ip bn = 0 <-> off mod 512 = 0.
Proof.
  destruct (off_block off ltac:(unfold off in *; lia)) as [Hb _]. rewrite (cf_need _ _ _ _ Hc) by done. fold off. unfold bn, off. Z.div_mod_to_equations. lia.
Qed.

(** The block is there. *)
Lemma found_old : fblock (im s) ip bn <> 0 -> found s ip off s ip (fblock (im s) ip bn).
Proof.
  intros Hn. assert (Hm : off mod 512 <> 0) by (intros E; by apply Hn, missing).
  split; try done; auto.
  - rewrite cost_next by (unfold off; lia). repeat zcase; try lia. subst. by rewrite e in Hm.
  - apply Hc.
  - intros b Hb. zcase; [by subst|done].
  - rewrite (cf_ind _ _ _ _ Hc). fold off. destruct (decide (off = 6144)) as [E|]; [by rewrite E in Hm|lia].
  - apply same_fields_refl.
Qed.

(** A new direct block. *)
Lemma found_direct : bn < NDIRECT -> fblock (im s) ip bn = 0 -> found s ip off (bump s) (set_addr bn (freeblock s) ip) (freeblock s).
Proof.
  intros Hlt H0. pose proof (proj1 missing H0) as Hm. destruct (off_block off ltac:(unfold off in *; lia)) as [Hb Hd]. fold bn in Hb, Hd.
  assert (Hcost : cost (off + 1) = cost off + 1) by (rewrite cost_next by (unfold off; lia); repeat zcase; fsz).
  destruct (next_block_ok s Hs ltac:(lia)) as [_ Hi]. pose proof (so_len _ _ _ (cf_slots _ _ _ _ Hc)) as Hl.
  pose proof (fslot_direct (im s) ip (freeblock s) bn Hl ltac:(lia)) as Hsl.
  pose proof (io_free s Hs). split; try done; cbn [bump freeblock im].
  - lia.
  - apply (slots_add (im s) _ ip _ _ bn); [apply Hc|lia|lia|by rewrite fslot_block by lia|done|by apply set_addr_len].
  - by apply fblock_add.
  - lia.
  - intros _. apply (io_zero s Hs). lia.
  - rewrite (addr_set ip bn (freeblock s) Hl) by fsz. rewrite (proj2 (Z.eqb_neq _ _)) by lia. rewrite (cf_ind _ _ _ _ Hc). fold off.
    unfold NDIRECT in *. lia.
  - by eapply owns_add.
Qed.

(** A new entry of the indirect block [a]. *)
Definition entry_st (s1 : st) (a b : Z) : st :=
  mkSt (zset (im s1) a (put32 (im s1 a) (4 * (bn - NDIRECT)) b)) (im_len s1) (freeinode s1) (freeblock s1 + 1).

Lemma entry_img s1 a b : img_ok s1 -> 59 <= a < freeblock s1 -> freeblock s1 < 1000 -> NDIRECT <= bn < MAXFILE -> img_ok (entry_st s1 a b).
Proof.
  intros [Hl Hb Hf Hz] Ha Hlt Hbn. split; cbn; [done| |lia|].
  - intros n Hn. unfold zset. zcase; [|by apply Hb]. rewrite put32_length; [apply Hb; lia|fsz|rewrite Hb by lia; fsz].
  - intros n Hn. rewrite zset_ne by lia. apply Hz. lia.
Qed.

Lemma found_entry : NDIRECT <= bn -> addr_of ip NDIRECT <> 0 -> fblock (im s) ip bn = 0 ->
  found s ip off (entry_st s (addr_of ip NDIRECT) (freeblock s)) ip (freeblock s).
Proof.
  intros Hge Ha H0. pose proof (proj1 missing H0) as Hm. destruct (off_block off ltac:(unfold off in *; lia)) as [Hb Hd]. fold bn in Hb, Hd.
  assert (Hne : off <> 6144) by (rewrite (cf_ind _ _ _ _ Hc) in Ha; fold off in Ha; lia).
  assert (Hcost : cost (off + 1) = cost off + 1) by (rewrite cost_next by (unfold off; lia); repeat zcase; lia).
  destruct (cf_slots _ _ _ _ Hc) as [Hl Hr Hi]. pose proof (io_free s Hs).
  assert (Har : 59 <= addr_of ip NDIRECT < freeblock s) by (pose proof (Hr MAXFILE ltac:(fsz)) as Hr'; rewrite fslot_ind in Hr'; by apply Hr').
  pose proof (fslot_entry (im s) ip (freeblock s) bn Hl Ha ltac:(lia) ltac:(unfold word; lia) ltac:(apply (io_block s Hs); lia)) as Hsl.
  split; try done; cbn [entry_st freeblock im].
  - apply entry_img; [done|lia|lia|lia].
  - lia.
  - apply (slots_add (im s) _ ip _ _ bn); [apply Hc|lia|lia|by rewrite fslot_block by lia|done|done].
  - by apply fblock_add.
  - lia.
  - intros _. rewrite zset_ne by lia. apply (io_zero s Hs). lia.
  - rewrite (cf_ind _ _ _ _ Hc). fold off. unfold NDIRECT in *. lia.
  - intros n Hn [?|Hne']; [done|]. by rewrite zset_ne.
  - by eapply owns_add.
  - apply same_fields_refl.
Qed.

(** A new indirect block with its first entry. *)
Lemma found_indirect : NDIRECT <= bn -> addr_of ip NDIRECT = 0 ->
  let ip1 := set_addr NDIRECT (freeblock s) ip in
  freeblock s + 1 < 1000 /\ found s ip off (entry_st (bump s) (freeblock s) (freeblock s + 1)) ip1 (freeblock s + 1).
Proof.
  intros Hge Ha ip1. destruct (off_block off ltac:(unfold off in *; lia)) as [Hb Hd]. fold bn in Hb, Hd.
  assert (E : off = 6144) by (rewrite (cf_ind _ _ _ _ Hc) in Ha; fold off in Ha; unfold NDIRECT in *; lia).
  assert (H0 : fblock (im s) ip bn = 0) by (apply missing; by rewrite E).
  assert (Hcost : cost (off + 1) = cost off + 2) by (by rewrite E). assert (Hlt : freeblock s + 1 < 1000) by lia.
  destruct (cf_slots _ _ _ _ Hc) as [Hl Hr Hi]. pose proof (io_free s Hs). split; [done|].
  destruct (next_block_ok s Hs ltac:(lia)) as [_ Hi1].
  pose proof (fslot_indirect (im s) ip (freeblock s) Hl Ha ltac:(apply (io_zero s Hs); lia)) as Hs1. fold ip1 in Hs1.
  assert (So1 : slots_ok (im s) (freeblock s + 1) ip1) by (apply (slots_add (im s) _ ip _ _ MAXFILE); [apply Hc|lia|fsz|by rewrite fslot_ind|done|by apply set_addr_len]).
  assert (Ha1 : addr_of ip1 NDIRECT = freeblock s) by (unfold ip1; rewrite (addr_set ip NDIRECT) by (done || fsz); by rewrite Z.eqb_refl).
  assert (Hs2 : forall k, 0 <= k <= MAXFILE -> fslot (zset (im s) (freeblock s) (put32 (im s (freeblock s)) (4 * (bn - NDIRECT)) (freeblock s + 1))) ip1 k =
    if k =? bn then freeblock s + 1 else fslot (im s) ip1 k).
  { pose proof (fslot_entry (im s) ip1 (freeblock s + 1) bn) as He. rewrite Ha1 in He.
    apply He; [apply So1|lia|lia|unfold word; lia|]. apply (io_block s Hs). lia. }
  split; try done; cbn [entry_st bump freeblock im].
  - apply (entry_img (bump s)); [done|cbn; lia|cbn; lia|lia].
  - lia.
  - apply (slots_add (im s) _ ip1 _ _ bn); [done|lia|lia|rewrite Hs1, fslot_block by lia; by rewrite (proj2 (Z.eqb_neq bn MAXFILE)) by lia|done|by apply set_addr_len].
  - intros k Hk. rewrite <- fslot_block by lia. rewrite Hs2, Hs1 by lia. rewrite (proj2 (Z.eqb_neq k MAXFILE)) by lia. by rewrite fslot_block by lia.
  - lia.
  - intros _. rewrite zset_ne by lia. apply (io_zero s Hs). lia.
  - rewrite Ha1. lia.
  - intros n Hn Hne. by rewrite zset_ne by lia.
  - intros n Hn. destruct (owns_add _ _ _ _ _ _ Hs2 n Hn) as [Ho|Hle]; [|right; lia]. by apply (owns_add _ _ _ _ _ _ Hs1 n Ho).
Qed.

End Found.

Lemma slot_word d fb ip k : slots_ok d fb ip -> fb <= 1000 -> 0 <= k <= MAXFILE -> word (fslot d ip k).
Proof.
  intros Hs Hfb Hk. destruct (Z.eq_dec (fslot d ip k) 0) as [->|Hn]; [unfold word; lia|].
  pose proof (so_rng _ _ _ Hs k Hk Hn). unfold word. lia.
Qed.

Lemma rsect_ok s n : img_ok s -> n < 1000 -> rsect n s = Some (im s n, s).
Proof. intros Hs Hn. unfold rsect. rewrite (io_len s Hs). by rewrite (proj2 (Z.ltb_lt _ _)). Qed.

Lemma wsect_ok s n b : img_ok s -> n < 1000 -> wsect n b s = Some (tt, mkSt (zset (im s) n b) (im_len s) (freeinode s) (freeblock s)).
Proof. intros Hs Hn. unfold wsect. rewrite (io_len s Hs). by rewrite Z.max_l by lia. Qed.

(** Running the first part of a sequence. *)
Lemma mk_bind {A B} (m : Mk A) (f : A -> Mk B) s a s' : m s = Some (a, s') -> (m ≫= f) s = f a s'.
Proof. intros E. unfold mbind, Mk_bind. by rewrite E. Qed.

Section Find.
Context (s : st) (ip : inode) (c : list Z).
Context (Hs : img_ok s) (Hc : cfile (im s) (freeblock s) ip c).
Let off := Z.of_nat (length c).
Context (Hoff : off < MAXFILE * 512) (Hcap : freeblock s + cost (off + 1) - cost off <= 1000).

Definition finds : Prop := exists s' ip' x, find_block ip (off / 512) s = Some ((ip', x), s') /\ found s ip off s' ip' x.

Lemma off_range : 0 <= off / 512 < MAXFILE.
Proof. apply off_block. unfold off in *. lia. Qed.

Lemma find_direct : off / 512 < NDIRECT -> finds.
Proof.
  intros Hlt. pose proof (io_free s Hs) as Hfr. pose proof (cf_slots _ _ _ _ Hc) as Hsl. pose proof off_range as Hb. unfold finds, find_block.
  rewrite (proj2 (Z.ltb_lt _ _)) by done.
  assert (Ef : fblock (im s) ip (off / 512) = addr_of ip (off / 512)) by (unfold fblock; by rewrite (proj2 (Z.ltb_lt _ _))).
  assert (Hw : word (addr_of ip (off / 512))) by (rewrite <- Ef, <- fslot_block by lia; apply (slot_word _ (freeblock s)); [done|lia|lia]).
  rewrite (xint_id (addr_of ip _)) by done. destruct (Z.eqb_spec (addr_of ip (off / 512)) 0) as [E|E].
  - pose proof (found_direct s ip c Hs Hc Hoff Hcap Hlt ltac:(by fold off; rewrite Ef)) as F. fold off in F.
    assert (freeblock s < 1000) by (pose proof (fd_fb _ _ _ _ _ _ F) as Hfb; cbn in Hfb; lia).
    eexists _, _, _. split; [|exact F]. rewrite (mk_bind _ _ s (set_addr (off / 512) (xint (freeblock s)) ip) (bump s)).
    2: { by rewrite (mk_bind _ _ s _ _ (proj1 (next_block_ok s Hs ltac:(lia)))). }
    rewrite xint_id by (unfold word; lia). rewrite (addr_set ip (off / 512) _ (so_len _ _ _ Hsl)) by fsz. rewrite Z.eqb_refl.
    rewrite xint_id by (unfold word; lia). done.
  - exists s, ip, (fblock (im s) ip (off / 512)). split; [|apply (found_old s ip c Hs Hc Hoff); by fold off; rewrite Ef].
    rewrite Ef. unfold mbind, Mk_bind, mret, Mk_ret. by rewrite xint_id.
Qed.

Lemma find_indirect : NDIRECT <= off / 512 -> addr_of ip NDIRECT = 0 -> finds.
Proof.
  intros Hge E. pose proof (io_free s Hs) as Hfr. pose proof (cf_slots _ _ _ _ Hc) as Hsl. pose proof off_range as Hb. unfold finds, find_block.
  rewrite (proj2 (Z.ltb_ge _ _)) by done. rewrite E. change (xint 0 =? 0) with true. cbv iota.
  destruct (found_indirect s ip c Hs Hc Hoff Hcap Hge E) as [Hlt F]. fold off in F. eexists _, _, _. split; [|exact F].
  destruct (next_block_ok s Hs ltac:(lia)) as [En Hs1]. rewrite (mk_bind _ _ s (set_addr NDIRECT (xint (freeblock s)) ip) (bump s)) by (by rewrite (mk_bind _ _ s _ _ En)).
  rewrite xint_id by (unfold word; lia). rewrite (addr_set ip NDIRECT _ (so_len _ _ _ Hsl)) by fsz. rewrite Z.eqb_refl.
  rewrite (xint_id (freeblock s)) by (unfold word; lia). rewrite (mk_bind _ _ _ _ _ (rsect_ok (bump s) (freeblock s) Hs1 ltac:(lia))).
  change (im (bump s) (freeblock s)) with (im s (freeblock s)). pose proof (io_zero s Hs (freeblock s) ltac:(lia)) as Hz. rewrite Hz, get32_zeros. cbn [Z.eqb].
  destruct (next_block_ok (bump s) Hs1 ltac:(cbn; lia)) as [En2 Hs2]. erewrite mk_bind.
  2: { rewrite (mk_bind _ _ _ _ _ En2). erewrite mk_bind; [done|]. apply wsect_ok; [done|lia]. }
  cbn [freeblock bump]. rewrite (xint_id (freeblock s + 1)) by (unfold word; lia).
  rewrite get32_put32_eq by (unfold word, zeros; rewrite ?length_replicate; fsz). rewrite xint_id by (unfold word; lia). unfold entry_st.
  cbn [im im_len freeinode freeblock bump]. by rewrite Hz.
Qed.

Lemma find_entry : NDIRECT <= off / 512 -> addr_of ip NDIRECT <> 0 -> finds.
Proof.
  intros Hge E. pose proof (io_free s Hs) as Hfr. pose proof (cf_slots _ _ _ _ Hc) as Hsl. pose proof off_range as Hb. unfold finds, find_block.
  rewrite (proj2 (Z.ltb_ge _ _)) by done.
  assert (Ef : fblock (im s) ip (off / 512) = get32 (im s (addr_of ip NDIRECT)) (4 * (off / 512 - NDIRECT))).
  { unfold fblock. rewrite (proj2 (Z.ltb_ge _ _)) by done. by rewrite (proj2 (Z.eqb_neq _ _)). }
  pose proof (slot_word _ _ _ MAXFILE Hsl ltac:(lia) ltac:(fsz)) as Hwi. rewrite fslot_ind in Hwi.
  assert (Har : 59 <= addr_of ip NDIRECT < freeblock s) by (pose proof (so_rng _ _ _ Hsl MAXFILE ltac:(fsz)) as Hr'; rewrite fslot_ind in Hr'; by apply Hr').
  rewrite (xint_id (addr_of ip NDIRECT)), (proj2 (Z.eqb_neq _ 0)) by done. rewrite (mk_bind _ _ s ip s) by done.
  rewrite (xint_id (addr_of ip NDIRECT)) by done. rewrite (mk_bind _ _ _ _ _ (rsect_ok s (addr_of ip NDIRECT) Hs ltac:(lia))). rewrite <- Ef.
  destruct (Z.eqb_spec (fblock (im s) ip (off / 512)) 0) as [E0|E0].
  - pose proof (found_entry s ip c Hs Hc Hoff Hcap Hge E E0) as F. fold off in F.
    assert (freeblock s < 1000) by (pose proof (fd_fb _ _ _ _ _ _ F) as Hfb; cbn in Hfb; lia).
    eexists _, _, _. split; [|exact F]. destruct (next_block_ok s Hs ltac:(lia)) as [En Hs1]. erewrite mk_bind.
    2: { rewrite (mk_bind _ _ _ _ _ En). erewrite mk_bind; [done|]. apply wsect_ok; [done|lia]. }
    rewrite (xint_id (freeblock s)) by (unfold word; lia). rewrite get32_put32_eq by (rewrite ?(io_block s Hs) by lia; fsz). by rewrite xint_id by (unfold word; lia).
  - exists s, ip, (fblock (im s) ip (off / 512)). split; [|by apply (found_old s ip c Hs Hc Hoff)]. rewrite (mk_bind _ _ s (im s (addr_of ip NDIRECT)) s) by done.
    rewrite <- Ef. rewrite xint_id; [done|]. rewrite <- fslot_block by lia. apply (slot_word _ (freeblock s)); [done|lia|lia].
Qed.

Lemma find_block_ok : finds.
Proof.
  destruct (Z_lt_le_dec (off / 512) NDIRECT); [by apply find_direct|].
  destruct (Z.eq_dec (addr_of ip NDIRECT) 0); [by apply find_indirect|by apply find_entry].
Qed.

End Find.

(** The bytes [p] were appended to the file. *)
Record appended (s : st) (ip : inode) (c p : list Z) (s' : st) (ip' : inode) : Prop := {
  ap_img : img_ok s';
  ap_fb : freeblock s' = freeblock s + cost (Z.of_nat (length (c ++ p))) - cost (Z.of_nat (length c));
  ap_ino : freeinode s' = freeinode s;
  ap_file : cfile (im s') (freeblock s') ip' (c ++ p);
  ap_frame : forall n, n < freeblock s -> ~ owns (im s) ip n -> im s' n = im s n;
  ap_own : forall n, owns (im s') ip' n -> owns (im s) ip n \/ freeblock s <= n;
  ap_same : same_fields ip ip'
}.

Lemma appended_nil s ip c : img_ok s -> cfile (im s) (freeblock s) ip c -> appended s ip c [] s ip.
Proof. intros Hs Hc. split; rewrite ?app_nil_r; try done; auto; [lia|apply same_fields_refl]. Qed.

Lemma appended_trans s ip c p1 p2 s1 ip1 s2 ip2 :
  appended s ip c p1 s1 ip1 -> appended s1 ip1 (c ++ p1) p2 s2 ip2 -> appended s ip c (p1 ++ p2) s2 ip2.
Proof.
  intros A B. pose proof (cost_mono (Z.of_nat (length c)) (Z.of_nat (length (c ++ p1))) ltac:(rewrite length_app; lia)) as Hm.
  pose proof (ap_fb _ _ _ _ _ _ A) as Hfb. destruct B as [Bi Bfb Bn Bf Bfr Bo Bs]. rewrite <- app_assoc in *. split; try done.
  - lia.
  - rewrite Bn. apply A.
  - intros n Hn Ho. rewrite Bfr; [by apply A|lia|]. intros [?|?]%(ap_own _ _ _ _ _ _ A); [done|lia].
  - intros n [Ho|Hle]%Bo; [by apply (ap_own _ _ _ _ _ _ A)|right; lia].
  - eapply same_fields_trans; [apply A|done].
Qed.

Lemma zset_img s n b : img_ok s -> 0 <= n < freeblock s -> length b = 512%nat ->
  img_ok (mkSt (zset (im s) n b) (im_len s) (freeinode s) (freeblock s)).
Proof.
  intros [Hl Hb Hf Hz] Hn Hlen. split; cbn; [done| |done|].
  - intros m Hm. unfold zset. zcase; [done|by apply Hb].
  - intros m Hm. rewrite zset_ne by lia. by apply Hz.
Qed.

(** A block of the file that is not its indirect one is written. *)
Lemma fslot_data d ip x b k : addr_of ip NDIRECT = 0 \/ x <> addr_of ip NDIRECT -> fslot (zset d x b) ip k = fslot d ip k.
Proof.
  intros Hx. unfold fslot, fblock. repeat zcase; try done. rewrite zset_ne; [done|]. destruct Hx; congruence.
Qed.

Section Piece.
Context (s : st) (ip : inode) (c p : list Z) (s1 : st) (ip1 : inode) (x : Z).
Context (Hs : img_ok s) (Hc : cfile (im s) (freeblock s) ip c).
Let off := Z.of_nat (length c).
Context (Hp : p <> []) (Hin : off + Z.of_nat (length p) <= (off / 512 + 1) * 512) (Hmax : off + Z.of_nat (length p) <= MAXFILE * 512).
Context (F : found s ip off s1 ip1 x).

Let b1 := splice (im s1 x) (off - off / 512 * 512) p.
Let s2 := mkSt (zset (im s1) x b1) (im_len s1) (freeinode s1) (freeblock s1).

Lemma piece_pos : 0 <= off /\ 1 <= Z.of_nat (length p) /\ 0 <= off / 512 < MAXFILE /\ 0 <= off - off / 512 * 512 < 512 /\ off = off / 512 * 512 + off mod 512.
Proof.
  assert (1 <= Z.of_nat (length p)) by (destruct p; [done|cbn; lia]). rewrite MAXFILE_eq in *. unfold off in *. Z.div_mod_to_equations. lia.
Qed.

Lemma piece_slot : fslot (im s1) ip1 (off / 512) = x.
Proof.
  pose proof piece_pos. rewrite fslot_block by lia. rewrite (fd_blk _ _ _ _ _ _ F) by lia. by rewrite Z.eqb_refl.
Qed.

Lemma piece_x : 59 <= x < freeblock s1 /\ (addr_of ip1 NDIRECT = 0 \/ x <> addr_of ip1 NDIRECT) /\ length (im s1 x) = 512%nat.
Proof.
  pose proof piece_pos. pose proof (fd_slots _ _ _ _ _ _ F) as Hsl. pose proof (io_free s1 (fd_img _ _ _ _ _ _ F)).
  pose proof (so_rng _ _ _ Hsl (off / 512) ltac:(lia)) as Hr. rewrite piece_slot in Hr. specialize (Hr (fd_x _ _ _ _ _ _ F)).
  split; [done|]. split; [|apply (io_block s1); [apply F|lia]]. right. intros E.
  assert (Ek : off / 512 = MAXFILE); [|lia]. apply (so_inj _ _ _ Hsl); [lia|fsz|by rewrite piece_slot; apply F|]. by rewrite piece_slot, fslot_ind.
Qed.

Lemma piece_fslot k : fslot (im s2) ip1 k = fslot (im s1) ip1 k.
Proof. apply fslot_data. apply piece_x. Qed.

Lemma piece_fblock bn : 0 <= bn < MAXFILE -> fblock (im s2) ip1 bn = if bn =? off / 512 then x else fblock (im s) ip bn.
Proof. intros Hb. rewrite <- fslot_block by lia. rewrite piece_fslot, fslot_block by lia. by apply (fd_blk _ _ _ _ _ _ F). Qed.

(** The blocks of the old contents: [x] is the last one or new. *)
Lemma piece_old o : 0 <= o < MAXFILE * 512 -> fblock (im s) ip (o / 512) <> 0 ->
  fbyte (im s1) ip1 o = byte_at c o /\ fblock (im s1) ip1 (o / 512) = fblock (im s) ip (o / 512).
Proof.
  intros Ho Hnz. destruct (off_block o Ho) as [Hob _].
  assert (E : fblock (im s1) ip1 (o / 512) = fblock (im s) ip (o / 512)).
  { rewrite (fd_blk _ _ _ _ _ _ F) by lia. zcase; [|done]. rewrite e in *. by apply (fd_old _ _ _ _ _ _ F). }
  split; [|done]. rewrite <- (cf_bytes _ _ _ _ Hc) by done. unfold fbyte. change BSIZE with 512. rewrite E.
  rewrite (fd_frame _ _ _ _ _ _ F); [done|..].
  - rewrite <- fslot_block in * by lia. by apply (so_rng _ _ _ (cf_slots _ _ _ _ Hc)); [lia|].
  - right. intros Ei. rewrite <- fslot_block in * by lia. rewrite <- (fslot_ind (im s)) in Ei.
    assert (Ek : o / 512 = MAXFILE); [|lia]. apply (so_inj _ _ _ (cf_slots _ _ _ _ Hc)); [lia|fsz|done|done].
Qed.

(** Block [x] before the write: the end of the old contents, then zeros. *)
Lemma piece_before o : o / 512 = off / 512 -> byte_at (im s1 x) (o mod 512) = byte_at c o.
Proof.
  intros Ek. pose proof piece_pos as (P1 & P2 & P3 & P4 & P5).
  destruct (Z.eq_dec (fblock (im s) ip (off / 512)) 0) as [E0|Hnz].
  - rewrite (fd_new _ _ _ _ _ _ F E0). pose proof (cf_need _ _ _ _ Hc (off / 512) ltac:(lia)) as Hn. fold off in Hn.
    apply Hn in E0. unfold byte_at. assert (Hle : off <= o) by (clear - E0 Ek; Z.div_mod_to_equations; lia).
    rewrite (nth_overflow c) by (unfold off in Hle; lia).
    apply byte_at_zeros.
  - rewrite <- Ek in Hnz. destruct (piece_old o) as [Hb Hx]; [rewrite MAXFILE_eq in *; Z.div_mod_to_equations; lia|done|].
    rewrite <- Hb. unfold fbyte. change BSIZE with 512. rewrite Ek, <- (fslot_block (im s1)), piece_slot by lia. done.
Qed.

Lemma piece_bytes o : 0 <= o < MAXFILE * 512 -> fblock (im s2) ip1 (o / 512) <> 0 -> fbyte (im s2) ip1 o = byte_at (c ++ p) o.
Proof.
  intros Ho Hnz. pose proof piece_pos as (P1 & P2 & P3 & P4 & P5). pose proof piece_x as (Hx & Hxi & Hxl). destruct (off_block o Ho) as [Hob _].
  rewrite piece_fblock in Hnz by lia. rewrite byte_at_app by lia. fold off.
  unfold fbyte. change BSIZE with 512. rewrite piece_fblock by lia. cbn [im s2]. destruct (Z.eqb_spec (o / 512) (off / 512)) as [Ek|Nk].
  - rewrite zset_eq. unfold b1. destruct (decide (off <= o < off + Z.of_nat (length p))) as [Hi|Hno].
    + rewrite (proj2 (Z.ltb_ge _ _)) by lia. replace (o mod 512) with (off - off / 512 * 512 + (o - off)) by (Z.div_mod_to_equations; lia).
      apply byte_at_splice_eq; [lia|rewrite Hxl; lia|lia].
    + rewrite byte_at_splice_ne, piece_before; [|done|lia|rewrite Hxl; Z.div_mod_to_equations; lia|apply Z.mod_pos_bound; lia|Z.div_mod_to_equations; lia].
      zcase; [done|]. unfold byte_at. rewrite !nth_overflow by (unfold off in *; lia). done.
  - pose proof (cf_need _ _ _ _ Hc (o / 512) ltac:(lia)) as Hn. fold off in Hn.
    assert (Hlt : o < off) by (destruct (Z_lt_le_dec (o / 512 * 512) off); [Z.div_mod_to_equations; lia|by destruct Hnz; apply Hn]).
    rewrite (proj2 (Z.ltb_lt _ _)) by lia. destruct (piece_old o Ho Hnz) as [<- Eb]. unfold fbyte. change BSIZE with 512. rewrite Eb, zset_ne; [done|].
    intros E. apply Nk. apply (so_inj _ _ _ (fd_slots _ _ _ _ _ _ F)); [lia|lia|..]; rewrite ?piece_slot, fslot_block by lia; congruence.
Qed.

Lemma piece_appended : appended s ip c p s2 ip1.
Proof.
  pose proof piece_pos as (P1 & P2 & P3 & P4 & P5). pose proof piece_x as (Hx & Hxi & Hxl).
  assert (Hlen : Z.of_nat (length (c ++ p)) = off + Z.of_nat (length p)) by (rewrite length_app; unfold off; lia).
  split; rewrite ?Hlen.
  - apply zset_img; [apply F|lia|]. unfold b1. rewrite splice_length; [done|lia|lia].
  - cbn. rewrite (fd_fb _ _ _ _ _ _ F), (cost_piece off (Z.of_nat (length p))) by lia. done.
  - apply F.
  - split; rewrite ?Hlen; [|done|..].
    + destruct (fd_slots _ _ _ _ _ _ F) as [Hl Hr Hi]. split; [done|..]; intros k; rewrite ?piece_fslot; [apply Hr|].
      intros k'. rewrite !piece_fslot. apply Hi.
    + intros bn Hb. rewrite piece_fblock by done. pose proof (cf_need _ _ _ _ Hc bn Hb) as Hn. fold off in Hn. zcase.
      * subst bn. split; [|lia]. intros E0. by destruct (fd_x _ _ _ _ _ _ F).
      * rewrite Hn. Z.div_mod_to_equations. lia.
    + rewrite (fd_ind _ _ _ _ _ _ F). Z.div_mod_to_equations. lia.
    + exact piece_bytes.
  - intros n Hn Ho. cbn. assert (n <> x).
    { intros ->. destruct (fd_own _ _ _ _ _ _ F x) as [?|?]; [|done|lia]. split; [apply F|]. exists (off / 512). rewrite piece_slot. split; [lia|done]. }
    rewrite zset_ne by done. apply (fd_frame _ _ _ _ _ _ F); [done|]. destruct (Z.eq_dec (addr_of ip NDIRECT) 0) as [|Hi]; [by left|right].
    intros E. apply Ho. split; [by rewrite E|]. exists MAXFILE. rewrite fslot_ind. split; [fsz|done].
  - intros n (Hn & k & Hk & ->). rewrite piece_fslot in *. apply (fd_own _ _ _ _ _ _ F). split; [done|]. by exists k.
  - apply F.
Qed.

End Piece.

Lemma iappend_loop_ok fuel : forall s ip c p, (length p <= fuel)%nat -> img_ok s -> cfile (im s) (freeblock s) ip c ->
  Z.of_nat (length (c ++ p)) <= MAXFILE * 512 ->
  freeblock s + cost (Z.of_nat (length (c ++ p))) - cost (Z.of_nat (length c)) <= 1000 ->
  exists s' ip', iappend_loop fuel ip (Z.of_nat (length c)) p s = Some ((ip', Z.of_nat (length (c ++ p))), s') /\ appended s ip c p s' ip'.
Proof.
  induction fuel as [|fuel IH]; intros s ip c p Hf Hs Hc Hmax Hcap;
    (destruct p as [|y p]; [rewrite app_nil_r in *; exists s, ip; split; [done|by apply appended_nil]|]); cbn [length] in Hf; [lia|].
  cbn [iappend_loop]. set (q := y :: p) in *. set (off := Z.of_nat (length c)) in *. change BSIZE with 512 in *.
  assert (Hq : 1 <= Z.of_nat (length q)) by (cbn; lia). rewrite length_app in *. rewrite Nat2Z.inj_add in *. fold off in Hmax, Hcap |- *.
  assert (Ho : 0 <= off < MAXFILE * 512) by lia. destruct (off_block off Ho) as [Hb _].
  set (n1 := Z.min (Z.of_nat (length q)) ((off / 512 + 1) * 512 - off)).
  assert (Hn1 : 1 <= n1 <= Z.of_nat (length q) /\ off + n1 <= (off / 512 + 1) * 512) by (unfold n1; Z.div_mod_to_equations; lia).
  assert (Hl1 : Z.of_nat (length (take (Z.to_nat n1) q)) = n1) by (rewrite length_take; lia).
  pose proof (cost_mono (off + n1) (off + Z.of_nat (length q)) ltac:(lia)) as Hm. pose proof (cost_piece off n1 ltac:(lia) ltac:(lia) ltac:(lia)) as Hcp.
  destruct (find_block_ok s ip c Hs Hc ltac:(fold off; lia) ltac:(fold off; lia)) as (s1 & ip1 & x & E1 & F). fold off in E1, F.
  assert (Hp1 : take (Z.to_nat n1) q <> []) by (intros E; rewrite E in Hl1; cbn in Hl1; lia).
  pose proof (piece_appended s ip c (take (Z.to_nat n1) q) s1 ip1 x Hc Hp1 ltac:(fold off; lia) ltac:(fold off; lia) F) as A. fold off in A.
  destruct (piece_x s ip c (take (Z.to_nat n1) q) s1 ip1 x Hp1 ltac:(fold off; lia) ltac:(fold off; lia) F) as (Hx & _ & _).
  pose proof (fd_img _ _ _ _ _ _ F) as Hs1. pose proof (io_free s1 Hs1). unfold assert_. rewrite (proj2 (Z.ltb_lt _ _)) by lia.
  rewrite (mk_bind _ _ s tt s) by done. rewrite (mk_bind _ _ _ _ _ E1). cbv beta iota. fold n1.
  rewrite (mk_bind _ _ _ _ _ (rsect_ok s1 x Hs1 ltac:(lia))). rewrite (mk_bind _ _ _ _ _ (wsect_ok s1 x _ Hs1 ltac:(lia))).
  set (s2 := mkSt _ _ _ _) in *. assert (Ec : Z.of_nat (length (c ++ take (Z.to_nat n1) q)) = off + n1) by (rewrite length_app; unfold off; lia).
  pose proof (ap_fb _ _ _ _ _ _ A) as Hfb. fold off in Hfb. rewrite Ec in Hfb. rewrite <- Ec.
  destruct (IH s2 ip1 (c ++ take (Z.to_nat n1) q) (drop (Z.to_nat n1) q)) as (s3 & ip3 & E3 & A3).
  - rewrite length_drop. unfold q in *. cbn [length] in *. lia.
  - apply A.
  - apply A.
  - rewrite <- app_assoc, take_drop, length_app. lia.
  - rewrite Ec, <- app_assoc, take_drop, length_app, Nat2Z.inj_add. fold off. lia.
  - exists s3, ip3. rewrite E3, <- app_assoc, take_drop, length_app, Nat2Z.inj_add. fold off. split; [done|].
    rewrite <- (take_drop (Z.to_nat n1) q). by eapply appended_trans.
Qed.
