(* ===== verification/MkfsImage.v ===== *)
(** * The image that mkfs makes

    The layout, the free map, the inodes and the contents of the image, in the
    terms of the theorems on fs.c: a kernel that mounts it starts from a disk
    that satisfies what those theorems assume. *)

From stdpp Require Import base list gmap strings fin_maps list_numbers.
From S2P Require Import Prelude Memory Bytes Str Kernel KMonad Boot Mmu Spinlock Sched Ide Ring Bio BioSpec Log LogSpec Fs FsBlocks FsInode FsFile FsIO Mkfs MkfsSpec.

Import Mkfs.

(** ** The inodes *)

Definition dino (d : Z -> list Z) (inum : Z) : inode := get_dinode (d (IBLOCK inum sb)) (dinode_off inum) zero_inode.
Definition put_ino (d : Z -> list Z) (inum : Z) (ip : inode) : Z -> list Z :=
  zset d (IBLOCK inum sb) (put_dinode (d (IBLOCK inum sb)) (dinode_off inum) ip).
(** An inode as it is on the disk only. *)
Definition on_disk (ip : inode) : Prop := i_dev ip = 0 /\ i_inum ip = 0 /\ i_ref ip = 0 /\ i_flags ip = 0.

Lemma IBLOCK_range inum : 0 <= inum < 200 -> IBLOCK inum sb = 32 + inum / 8 /\ 32 <= 32 + inum / 8 < 58.
Proof.
  intros Hi. rewrite mk_sb. unfold IBLOCK. cbn [sb_inodestart]. change IPB with 8.
  rewrite u32_small; Z.div_mod_to_equations; lia.
Qed.

Lemma put_ino_data d inum ip n : 0 <= inum < 200 -> n < 32 \/ 58 <= n -> put_ino d inum ip n = d n.
Proof. intros Hi Hn. unfold put_ino. destruct (IBLOCK_range inum Hi) as [-> ?]. by rewrite zset_ne by lia. Qed.

Lemma put_ino_back d inum ip : 0 <= inum < 200 -> length (d (IBLOCK inum sb)) = 512%nat -> inode_fits ip -> on_disk ip ->
  dino (put_ino d inum ip) inum = ip.
Proof.
  intros Hi Hl Hf (H1 & H2 & H3 & H4). unfold dino, put_ino. rewrite zset_eq. pose proof (dinode_off_bounds inum) as [Ho1 Ho2]. change BSIZE with 512 in Ho2.
  destruct (dinode_back (d (IBLOCK inum sb)) (dinode_off inum) ip zero_inode Hf ltac:(lia) ltac:(lia)) as (E1 & E2 & E3 & E4 & E5 & E6).
  destruct ip as [a1 a2 a3 a4 a5 a6 a7 a8 a9 a10]. cbn [i_dev i_inum i_ref i_flags] in *. subst a1 a2 a3 a4. unfold get_dinode in *.
  cbn [i_type i_major i_minor i_nlink i_size i_addrs i_dev i_inum i_ref i_flags zero_inode] in *. congruence.
Qed.

Lemma put_ino_other d inum ip inum' : 0 <= inum < 200 -> 0 <= inum' < 200 -> inum <> inum' -> length (d (IBLOCK inum sb)) = 512%nat ->
  length (i_addrs ip) = 13%nat -> dino (put_ino d inum ip) inum' = dino d inum'.
Proof.
  intros Hi Hi' Hne Hl Ha. unfold dino, put_ino, zset. destruct (Z.eqb_spec (IBLOCK inum' sb) (IBLOCK inum sb)) as [E|E]; [|done]. rewrite E.
  pose proof (dinode_off_bounds inum) as [Ho1 Ho2]. pose proof (dinode_off_bounds inum') as [Ho3 Ho4]. change BSIZE with 512 in *.
  apply dinode_other; [done|lia|lia|lia|]. apply (dinode_apart sb inum' inum); [lia|lia|lia|].
  destruct (IBLOCK_range inum Hi) as [E1 _], (IBLOCK_range inum' Hi') as [E2 _]. unfold inode_block. rewrite mk_sb. cbn [sb_inodestart]. change IPB with 8. lia.
Qed.

Definition with_ino (s : st) (inum : Z) (ip : inode) : st := mkSt (put_ino (im s) inum ip) (im_len s) (freeinode s) (freeblock s).

Lemma winode_ok s inum ip : img_ok s -> 0 <= inum < 200 -> length (i_addrs ip) = 13%nat ->
  winode inum ip s = Some (tt, with_ino s inum ip) /\ img_ok (with_ino s inum ip).
Proof.
  intros Hs Hi Ha. destruct (IBLOCK_range inum Hi) as [E Hr]. pose proof (dinode_off_bounds inum) as [Ho1 Ho2]. change BSIZE with 512 in Ho2. pose proof (io_free s Hs).
  assert (Hl : length (im s (IBLOCK inum sb)) = 512%nat) by (apply (io_block s Hs); lia). split.
  - unfold winode. rewrite (mk_bind _ _ _ _ _ (rsect_ok s (IBLOCK inum sb) Hs ltac:(lia))). by rewrite wsect_ok by (done || lia).
  - apply zset_img; [done|lia|]. rewrite put_dinode_length; [done|done|lia|lia].
Qed.

Lemma rinode_ok s inum : img_ok s -> 0 <= inum < 200 -> rinode inum s = Some (dino (im s) inum, s).
Proof.
  intros Hs Hi. destruct (IBLOCK_range inum Hi) as [E Hr]. unfold rinode. by rewrite (mk_bind _ _ _ _ _ (rsect_ok s (IBLOCK inum sb) Hs ltac:(lia))).
Qed.

(** A file whose blocks did not change. *)
Lemma cfile_frame d fb ip c d' fb' : cfile d fb ip c -> fb <= fb' -> (forall n, owns d ip n -> d' n = d n) ->
  cfile d' fb' ip c /\ forall k, 0 <= k <= MAXFILE -> fslot d' ip k = fslot d ip k.
Proof.
  intros Hc Hle Hd. destruct Hc as [Hsl Hmax Hneed Hind Hb].
  assert (Hfb : forall bn, fblock d' ip bn = fblock d ip bn).
  { intros bn. unfold fblock. repeat zcase; try done. rewrite Hd; [done|]. split; [done|]. exists MAXFILE. rewrite fslot_ind. split; [fsz|done]. }
  assert (Hfs : forall k, 0 <= k <= MAXFILE -> fslot d' ip k = fslot d ip k) by (intros k Hk; unfold fslot; zcase; [done|apply Hfb]).
  split; [|done]. split; [|done|intros bn; rewrite Hfb; apply Hneed|done|].
  - apply (slots_le _ fb); [|done]. destruct Hsl as [Hl Hr Hi]. split; [done|..]; intros k; [intros Hk; rewrite Hfs by done; by apply Hr|].
    intros k' Hk Hk'. rewrite !Hfs by done. by apply Hi.
  - intros o Ho Hnz. rewrite Hfb in Hnz. rewrite <- Hb by done. unfold fbyte. rewrite Hfb. change BSIZE with 512. rewrite Hd; [done|].
    destruct (off_block o Ho) as [Hob _]. split; [done|]. exists (o / 512). rewrite fslot_block by lia. split; [lia|done].
Qed.

Lemma cfile_addrs d fb ip ip' c : i_addrs ip' = i_addrs ip -> cfile d fb ip c -> cfile d fb ip' c.
Proof.
  intros E [[Hl Hr Hi] Hm Hn Hd Hb].
  assert (Ha : forall n, addr_of ip' n = addr_of ip n) by (intros n; unfold addr_of; by rewrite E).
  assert (Hf : forall bn, fblock d ip' bn = fblock d ip bn) by (intros bn; unfold fblock; by rewrite !Ha).
  assert (Hs : forall k, fslot d ip' k = fslot d ip k) by (intros k; unfold fslot; by rewrite Ha, Hf).
  split; [split|done|intros bn; rewrite Hf; apply Hn|by rewrite Ha|intros o Ho; unfold fbyte; rewrite !Hf; by apply Hb].
  - by rewrite E.
  - intros k. rewrite Hs. apply Hr.
  - intros k k'. rewrite !Hs. apply Hi.
Qed.

Lemma owns_frame d ip d' : (forall k, 0 <= k <= MAXFILE -> fslot d' ip k = fslot d ip k) -> forall n, owns d' ip n <-> owns d ip n.
Proof.
  intros Hf n. split; intros (Hn & k & Hk & ->); (split; [done|]); exists k; (split; [done|]); [by apply Hf|by rewrite Hf].
Qed.

(** ** All files *)

(** A file: its type and its contents; the first one has inode 1. *)
Notation mfile := (Z * list Z)%type.
Definition fsize (f : mfile) : Z := Z.of_nat (length f.2).
Definition total (fs : list mfile) : Z := foldr (fun f a => cost (fsize f) + a) 0 fs.
(** They fit on the disk. *)
Record fits (fs : list mfile) : Prop := {
  ft_inodes : (length fs <= 199)%nat;
  ft_blocks : total fs <= 941;
  ft_sizes : Forall (fun f => fsize f <= MAXFILE * 512) fs
}.

Lemma total_app a b : total (a ++ b) = total a + total b.
Proof. unfold total. induction a as [|f a IH]; [done|]. cbn [app foldr]. rewrite IH. lia. Qed.

Lemma total_insert fs i f f' : fs !! i = Some f -> total (<[i := f']> fs) = total fs + cost (fsize f') - cost (fsize f).
Proof.
  unfold total. revert i. induction fs as [|g fs IH]; intros i Hi; [done|]. destruct i as [|i]; cbn [lookup list_lookup] in Hi.
  - injection Hi as ->. cbn [insert list_insert foldr]. lia.
  - change (<[S i := f']> (g :: fs)) with (g :: <[i := f']> fs). cbn [foldr]. rewrite (IH i Hi). lia.
Qed.

Record file_at (s : st) (i : nat) (f : mfile) : Prop := {
  fa_file : cfile (im s) (freeblock s) (dino (im s) (1 + Z.of_nat i)) f.2;
  fa_type : i_type (dino (im s) (1 + Z.of_nat i)) = f.1 /\ 0 <= f.1 < 100;
  fa_dev : i_major (dino (im s) (1 + Z.of_nat i)) = 0 /\ i_minor (dino (im s) (1 + Z.of_nat i)) = 0;
  fa_nlink : i_nlink (dino (im s) (1 + Z.of_nat i)) = 1;
  fa_size : i_size (dino (im s) (1 + Z.of_nat i)) = fsize f
}.

Record mk_inv (s : st) (fs : list mfile) : Prop := {
  mi_img : img_ok s;
  mi_sb : im s 1 = splice (zeros BSIZE) 0 sb_bytes;
  mi_ino : freeinode s = 1 + Z.of_nat (length fs);
  mi_fb : freeblock s = 59 + total fs;
  mi_file : forall i f, fs !! i = Some f -> file_at s i f;
  mi_apart : forall i j, i <> j -> (i < length fs)%nat -> (j < length fs)%nat ->
    forall n, owns (im s) (dino (im s) (1 + Z.of_nat i)) n -> ~ owns (im s) (dino (im s) (1 + Z.of_nat j)) n;
  mi_free : forall inum, freeinode s <= inum < 200 -> i_type (dino (im s) inum) = 0
}.

Lemma owns_rng d fb ip c n : cfile d fb ip c -> owns d ip n -> 59 <= n < fb.
Proof. intros Hc (Hn & k & Hk & ->). by apply (so_rng _ _ _ (cf_slots _ _ _ _ Hc)). Qed.

Lemma slots_words d fb ip : slots_ok d fb ip -> fb <= 1000 -> Forall word (i_addrs ip).
Proof.
  intros Hs Hfb. apply Forall_lookup_2. intros k a Hk. pose proof (so_len _ _ _ Hs) as Hl. assert (Hlt := lookup_lt_Some _ _ _ Hk). rewrite Hl in Hlt.
  assert (Ea : addr_of ip (Z.of_nat k) = a) by (unfold addr_of; by rewrite Nat2Z.id, nth_lookup, Hk). rewrite <- Ea.
  destruct (decide (k = 12)%nat) as [->|Hk12].
  - pose proof (slot_word d fb ip MAXFILE Hs Hfb ltac:(fsz)) as Hw. by rewrite fslot_ind in Hw.
  - pose proof (slot_word d fb ip (Z.of_nat k) Hs Hfb ltac:(fsz)) as Hw. rewrite fslot_block in Hw by fsz. unfold fblock in Hw.
    by rewrite (proj2 (Z.ltb_lt _ _)) in Hw by fsz.
Qed.

(** Another file is there as before. *)
Lemma file_at_frame s i f s' : file_at s i f -> dino (im s') (1 + Z.of_nat i) = dino (im s) (1 + Z.of_nat i) -> freeblock s <= freeblock s' ->
  (forall n, owns (im s) (dino (im s) (1 + Z.of_nat i)) n -> im s' n = im s n) ->
  file_at s' i f /\ forall n, owns (im s') (dino (im s') (1 + Z.of_nat i)) n <-> owns (im s) (dino (im s) (1 + Z.of_nat i)) n.
Proof.
  intros [Hc Ht Hd Hn Hs] E Hle Hfr. destruct (cfile_frame _ _ _ _ (im s') (freeblock s') Hc Hle Hfr) as [Hc' Hsl]. rewrite E.
  split; [split; by rewrite ?E|]. by apply owns_frame.
Qed.

(** *** Appending *)

Section Append.
Context (s : st) (fs : list mfile) (i : nat) (t : Z) (c p : list Z).
Context (Hinv : mk_inv s fs) (Hi : fs !! i = Some (t, c)) (Hfit : fits (<[i := (t, c ++ p)]> fs)).
Let inum := 1 + Z.of_nat i.
Let ip := dino (im s) inum.

Lemma append_num : 0 <= inum < 200 /\ (i < length fs)%nat.
Proof. pose proof (lookup_lt_Some _ _ _ Hi) as Hlt. pose proof (ft_inodes _ Hfit) as Hn. rewrite length_insert in Hn. unfold inum. lia. Qed.

Lemma append_runs : exists s1 ip1, iappend_loop (length p) ip (xint (i_size ip)) p s = Some ((ip1, Z.of_nat (length (c ++ p))), s1) /\ appended s ip c p s1 ip1.
Proof.
  destruct (mi_file _ _ Hinv i _ Hi) as [Hc _ _ _ Hsz]. cbn [fst snd] in *. fold inum ip in Hc, Hsz. unfold fsize in Hsz. cbn [snd] in Hsz.
  pose proof (cf_max _ _ _ _ Hc) as Hm. rewrite Hsz, xint_id by (unfold word; rewrite MAXFILE_eq in Hm; lia).
  apply iappend_loop_ok; [done|apply Hinv|done|..].
  - pose proof (ft_sizes _ Hfit) as Hs. rewrite Forall_lookup in Hs. apply (Hs i (t, c ++ p)). apply list_lookup_insert_eq. apply append_num.
  - pose proof (ft_blocks _ Hfit) as Hb. rewrite (total_insert fs i (t, c)) in Hb by done. rewrite (mi_fb _ _ Hinv). unfold fsize in Hb. cbn [snd] in Hb. lia.
Qed.

Context (s1 : st) (ip1 : inode) (A : appended s ip c p s1 ip1).
Let ip2 := set_i_size (xint (Z.of_nat (length (c ++ p)))) ip1.
Let s2 := with_ino s1 inum ip2.

Lemma append_fits : Z.of_nat (length (c ++ p)) <= MAXFILE * 512 /\ inode_fits ip2 /\ on_disk ip2.
Proof.
  destruct (mi_file _ _ Hinv i _ Hi) as [_ Ht Hd Hn _]. cbn [fst snd] in *. fold inum ip in Ht, Hd, Hn.
  pose proof (ap_file _ _ _ _ _ _ A) as Hc. pose proof (cf_max _ _ _ _ Hc) as Hm. pose proof (cf_slots _ _ _ _ Hc) as Hsl.
  pose proof (ap_same _ _ _ _ _ _ A) as Es. split; [done|]. unfold same_fields in Es.
  assert (Ef : i_type ip1 = i_type ip /\ i_major ip1 = i_major ip /\ i_minor ip1 = i_minor ip /\ i_nlink ip1 = i_nlink ip) by (by rewrite Es).
  destruct Ef as (E1 & E2 & E3 & E4). split; [|by unfold ip2; rewrite Es].
  split; unfold s16_range; cbn [ip2 set_i_size i_type i_major i_minor i_nlink i_size i_addrs]; rewrite ?E1, ?E2, ?E3, ?E4; try lia.
  - rewrite xint_id; unfold word; rewrite MAXFILE_eq in Hm; lia.
  - apply Hsl.
  - eapply slots_words; [done|]. apply (io_free s1 (ap_img _ _ _ _ _ _ A)).
Qed.

Lemma append_dino j : (j < length fs)%nat -> dino (im s2) (1 + Z.of_nat j) = if decide (j = i) then ip2 else dino (im s) (1 + Z.of_nat j).
Proof.
  intros Hj. pose proof append_num as [Hn _]. destruct append_fits as (_ & Hf & Ho). pose proof (ft_inodes _ Hfit) as Hlen. rewrite length_insert in Hlen.
  assert (Hl : length (im s1 (IBLOCK inum sb)) = 512%nat).
  { apply (io_block s1 (ap_img _ _ _ _ _ _ A)). destruct (IBLOCK_range inum Hn) as [-> ?]. lia. }
  case_decide as Hd; [subst j; by apply put_ino_back|]. cbn [im s2 with_ino]. rewrite put_ino_other; [|done|lia|unfold inum; lia|done|apply Hf].
  unfold dino. f_equal. destruct (IBLOCK_range (1 + Z.of_nat j) ltac:(lia)) as [-> Hr]. apply (ap_frame _ _ _ _ _ _ A).
  - pose proof (io_free s (mi_img _ _ Hinv)). lia.
  - intros Hown. eapply owns_rng in Hown; [|apply (fa_file _ _ _ (mi_file _ _ Hinv i _ Hi))]. lia.
Qed.

Lemma append_fb : freeblock s <= freeblock s1.
Proof.
  rewrite (ap_fb _ _ _ _ _ _ A). pose proof (cost_mono (Z.of_nat (length c)) (Z.of_nat (length (c ++ p))) ltac:(rewrite length_app; lia)). lia.
Qed.

(** The file itself, and who owns its blocks now. *)
Lemma append_this : file_at s2 i (t, c ++ p) /\ forall n, owns (im s2) (dino (im s2) inum) n -> owns (im s) ip n \/ freeblock s <= n.
Proof.
  pose proof append_num as [Hn Hlt]. destruct append_fits as (Hm & Hf & Ho). pose proof (append_dino i Hlt) as Ed. rewrite decide_True in Ed by done. fold inum in Ed.
  destruct (mi_file _ _ Hinv i _ Hi) as [_ Ht Hd Hnl _]. cbn [fst snd] in *. fold inum ip in Ht, Hd, Hnl.
  pose proof (ap_file _ _ _ _ _ _ A) as Hc. pose proof (ap_same _ _ _ _ _ _ A) as Es. unfold same_fields in Es.
  destruct (cfile_frame (im s1) (freeblock s1) ip1 (c ++ p) (im s2) (freeblock s2) Hc ltac:(cbn; lia)) as [Hc2 Hsl2].
  { intros n Hown. eapply owns_rng in Hown; [|done]. apply put_ino_data; [done|lia]. }
  assert (Ef : i_type ip1 = i_type ip /\ i_major ip1 = i_major ip /\ i_minor ip1 = i_minor ip /\ i_nlink ip1 = i_nlink ip) by (by rewrite Es).
  destruct Ef as (E1 & E2 & E3 & E4). split.
  - split; fold inum; rewrite Ed; cbn [fst snd ip2 set_i_size i_type i_major i_minor i_nlink i_size]; rewrite ?E1, ?E2, ?E3, ?E4; try done; [by apply (cfile_addrs _ _ ip1)|].
    unfold fsize. cbn [snd]. apply xint_id. unfold word. rewrite MAXFILE_eq in Hm. lia.
  - intros n Hown. rewrite Ed in Hown. apply (ap_own _ _ _ _ _ _ A). by apply (owns_frame _ ip1 _ Hsl2).
Qed.

Lemma append_other j f : fs !! j = Some f -> j <> i ->
  file_at s2 j f /\ forall n, owns (im s2) (dino (im s2) (1 + Z.of_nat j)) n <-> owns (im s) (dino (im s) (1 + Z.of_nat j)) n.
Proof.
  intros Hj Hne. pose proof (lookup_lt_Some _ _ _ Hj) as Hlt. pose proof append_num as [Hn Hil]. apply file_at_frame.
  - by apply (mi_file _ _ Hinv).
  - rewrite append_dino by done. by rewrite decide_False.
  - apply append_fb.
  - intros n Hown. pose proof (owns_rng _ _ _ _ _ (fa_file _ _ _ (mi_file _ _ Hinv j f Hj)) Hown).
    cbn [s2 with_ino im]. rewrite put_ino_data by (done || lia). apply (ap_frame _ _ _ _ _ _ A); [lia|]. by apply (mi_apart _ _ Hinv j i).
Qed.

Lemma append_inv : mk_inv s2 (<[i := (t, c ++ p)]> fs).
Proof.
  pose proof append_num as [Hn Hil]. destruct append_this as [Hthis Hown]. pose proof (io_free s (mi_img _ _ Hinv)) as Hfr.
  assert (Hlow : forall n, n < 59 -> im s1 n = im s n).
  { intros n Hlt. apply (ap_frame _ _ _ _ _ _ A); [lia|]. intros Ho. eapply owns_rng in Ho; [|apply (fa_file _ _ _ (mi_file _ _ Hinv i _ Hi))]. lia. }
  split; rewrite ?length_insert.
  - apply winode_ok; [apply A|done|]. apply append_fits.
  - cbn. rewrite put_ino_data by (done || lia). rewrite Hlow by lia. apply Hinv.
  - cbn. rewrite (ap_ino _ _ _ _ _ _ A). apply Hinv.
  - cbn. rewrite (ap_fb _ _ _ _ _ _ A), (mi_fb _ _ Hinv), (total_insert fs i (t, c)) by done. unfold fsize. cbn [snd]. lia.
  - intros j f Hj. destruct (decide (j = i)) as [->|Hne]; [rewrite list_lookup_insert_eq in Hj by done; by injection Hj as <-|].
    rewrite list_lookup_insert_ne in Hj by done. by apply append_other.
  - assert (Hi' : forall j, (j < length fs)%nat -> j <> i -> forall n, owns (im s2) (dino (im s2) (1 + Z.of_nat j)) n ->
      ~ owns (im s2) (dino (im s2) inum) n).
    { intros j Hj Hne n Hoj [Hoi|Hge]%Hown; destruct (lookup_lt_is_Some_2 fs j Hj) as [f Hf]; apply (proj2 (append_other j f Hf Hne)) in Hoj.
      - by apply (mi_apart _ _ Hinv j i Hne Hj Hil n).
      - eapply owns_rng in Hoj; [|apply (fa_file _ _ _ (mi_file _ _ Hinv j f Hf))]. lia. }
    intros j k Hjk Hj Hk n Ho1 Ho2. destruct (decide (j = i)) as [->|Hji]; [by apply (Hi' k Hk ltac:(done) n)|].
    destruct (decide (k = i)) as [->|Hki]; [by apply (Hi' j Hj Hji n)|].
    destruct (lookup_lt_is_Some_2 fs j Hj) as [f Hf]. destruct (lookup_lt_is_Some_2 fs k Hk) as [g Hg].
    apply (proj2 (append_other j f Hf Hji)) in Ho1. apply (proj2 (append_other k g Hg Hki)) in Ho2. by apply (mi_apart _ _ Hinv j k Hjk Hj Hk n).
  - intros m Hm. cbn in Hm. rewrite (ap_ino _ _ _ _ _ _ A), (mi_ino _ _ Hinv) in Hm. rewrite <- (mi_free _ _ Hinv m) by (rewrite (mi_ino _ _ Hinv); lia). f_equal.
    cbn [s2 with_ino im]. rewrite put_ino_other; [|done|lia|unfold inum; lia| |apply append_fits].
    + unfold dino. rewrite Hlow; [done|]. destruct (IBLOCK_range m ltac:(lia)) as [-> ?]. lia.
    + apply (io_block s1 (ap_img _ _ _ _ _ _ A)). destruct (IBLOCK_range inum Hn) as [-> ?]. lia.
Qed.

End Append.

Lemma iappend_ok s fs i t c p : mk_inv s fs -> fs !! i = Some (t, c) -> fits (<[i := (t, c ++ p)]> fs) ->
  exists s', iappend (1 + Z.of_nat i) p s = Some (tt, s') /\ mk_inv s' (<[i := (t, c ++ p)]> fs).
Proof.
  intros Hinv Hi Hfit. destruct (append_num fs i t c p Hi Hfit) as [Hn _]. destruct (append_runs s fs i t c p Hinv Hi Hfit) as (s1 & ip1 & E1 & A).
  eexists. split; [|by eapply append_inv]. unfold iappend. rewrite (mk_bind _ _ _ _ _ (rinode_ok s _ (mi_img _ _ Hinv) Hn)).
  rewrite (mk_bind _ _ _ _ _ E1). cbv beta iota. apply winode_ok; [apply A|done|]. cbn. apply (cf_slots _ _ _ _ (ap_file _ _ _ _ _ _ A)).
Qed.

(** *** A new inode *)

Lemma new_cfile d fb : cfile d fb (new_dinode 0) [].
Proof.
  assert (Ha : forall n, addr_of (new_dinode 0) n = 0).
  { intros n. unfold addr_of. cbn [i_addrs new_dinode]. rewrite nth_lookup. destruct (replicate 13 0 !! Z.to_nat n) eqn:E; [|done].
    by apply lookup_replicate in E as [-> _]. }
  assert (Hb : forall bn, fblock d (new_dinode 0) bn = 0) by (intros bn; unfold fblock; rewrite !Ha; by destruct (bn <? NDIRECT)).
  assert (Hs : forall k, fslot d (new_dinode 0) k = 0) by (intros k; unfold fslot; rewrite Ha, Hb; by destruct (k =? MAXFILE)).
  split; [split; [done|intros k; by rewrite Hs|intros k k'; by rewrite Hs]|done| | |intros o _; by rewrite Hb].
  - intros bn Hbn. rewrite Hb. split; [cbn; lia|done].
  - rewrite Ha. cbn. split; [lia|done].
Qed.

Lemma new_dinode_fits t : 0 <= t < 100 -> inode_fits (new_dinode t) /\ on_disk (new_dinode t) /\ i_type (new_dinode t) = t.
Proof.
  intros Ht. assert (E : i_type (new_dinode t) = t).
  { cbn [new_dinode i_type]. rewrite xshort_id by lia. unfold s16, u16. cbv zeta. zcase; Z.div_mod_to_equations; lia. }
  split; [|done]. split; unfold s16_range; rewrite ?E; try lia; try done; cbn; unfold word; try lia. repeat constructor; lia.
Qed.

Lemma ialloc_ok s fs t : mk_inv s fs -> fits (fs ++ [(t, [])]) -> 0 <= t < 100 ->
  exists s', ialloc t s = Some (1 + Z.of_nat (length fs), s') /\ mk_inv s' (fs ++ [(t, [])]).
Proof.
  intros Hinv Hfit Ht. destruct (new_dinode_fits t Ht) as (Hf & Ho & Et). pose proof (ft_inodes _ Hfit) as Hlen. rewrite length_app in Hlen. cbn [length] in Hlen.
  set (inum := 1 + Z.of_nat (length fs)). set (s1 := mkSt (im s) (im_len s) (inum + 1) (freeblock s)). pose proof (mi_img _ _ Hinv) as Hs.
  assert (Hs1 : img_ok s1) by (destruct Hs; by split). assert (Hn : 0 <= inum < 200) by (unfold inum; lia).
  assert (Hl : length (im s (IBLOCK inum sb)) = 512%nat) by (apply (io_block s Hs); destruct (IBLOCK_range inum Hn) as [-> ?]; lia).
  destruct (winode_ok s1 inum (new_dinode t) Hs1 Hn (if_count _ Hf)) as [Ew Hs2]. exists (with_ino s1 inum (new_dinode t)). split.
  { unfold ialloc. erewrite mk_bind. 2: { unfold next_inode. rewrite (mi_ino _ _ Hinv), u32_small by (unfold inum in Hn; lia). reflexivity. }
    fold inum s1. by rewrite (mk_bind _ _ _ _ _ Ew). }
  set (s2 := with_ino s1 inum (new_dinode t)) in *.
  assert (Hd : forall m, 0 <= m < 200 -> m <> inum -> dino (im s2) m = dino (im s) m) by (intros m Hm Hne; by apply put_ino_other).
  assert (Hdn : dino (im s2) inum = new_dinode t) by (by apply put_ino_back).
  assert (Hfr : forall j f, fs !! j = Some f -> file_at s2 j f /\ forall n, owns (im s2) (dino (im s2) (1 + Z.of_nat j)) n <-> owns (im s) (dino (im s) (1 + Z.of_nat j)) n).
  { intros j f Hj. pose proof (lookup_lt_Some _ _ _ Hj). apply file_at_frame; [by apply (mi_file _ _ Hinv)|apply Hd; unfold inum; lia|cbn; lia|].
    intros n Hown. eapply owns_rng in Hown; [|apply (fa_file _ _ _ (mi_file _ _ Hinv j f Hj))]. apply put_ino_data; [done|lia]. }
  assert (Hnone : forall n, ~ owns (im s2) (dino (im s2) inum) n).
  { intros n (Hn0 & k & Hk & ->). rewrite Hdn in Hn0. apply Hn0. pose proof (cf_slots _ _ _ _ (new_cfile (im s2) 0)) as [_ Hr _].
    destruct (Z.eq_dec (fslot (im s2) (new_dinode t) k) 0) as [|Hne]; [done|]. change (fslot (im s2) (new_dinode 0) k <> 0) in Hne. specialize (Hr k Hk Hne). lia. }
  split; rewrite ?length_app.
  - done.
  - cbn. rewrite put_ino_data by (done || lia). apply Hinv.
  - cbn. unfold inum. lia.
  - cbn [s2 s1 with_ino freeblock]. rewrite (mi_fb _ _ Hinv), total_app. change (total [(t, [])]) with 0. lia.
  - intros j f Hj. apply lookup_app_Some in Hj as [Hj|[Hge Hj]]; [by apply Hfr|]. destruct (j - length fs)%nat as [|k] eqn:Ek; [|done].
    injection Hj as <-. replace j with (length fs) by lia. split; fold inum; rewrite Hdn; try done.
    by apply (cfile_addrs _ _ (new_dinode 0)), new_cfile.
  - intros i j Hij Hi Hj n Ho1 Ho2. cbn [length] in *.
    destruct (decide (i = length fs)) as [->|Hni]; [by apply (Hnone n)|]. destruct (decide (j = length fs)) as [->|Hnj]; [by apply (Hnone n)|].
    destruct (lookup_lt_is_Some_2 fs i ltac:(lia)) as [f Hf1]. destruct (lookup_lt_is_Some_2 fs j ltac:(lia)) as [g Hf2].
    apply (proj2 (Hfr i f Hf1)) in Ho1. apply (proj2 (Hfr j g Hf2)) in Ho2. by apply (mi_apart _ _ Hinv i j Hij ltac:(lia) ltac:(lia) n).
  - intros m Hm. cbn in Hm. rewrite Hd by lia. apply (mi_free _ _ Hinv). rewrite (mi_ino _ _ Hinv). unfold inum in Hm. lia.
Qed.

(** ** The program *)

(** *** The empty file system *)

Lemma zero_sectors k m : forall s, im_len s = Z.of_nat k -> (forall n, 0 <= n < Z.of_nat k -> im s n = zeros 512) ->
  exists s', forM (map Z.of_nat (seq k m)) (fun i => wsect i (zeros BSIZE)) s = Some (tt, s') /\ im_len s' = Z.of_nat (k + m) /\
    freeinode s' = freeinode s /\ freeblock s' = freeblock s /\ forall n, 0 <= n < Z.of_nat (k + m) -> im s' n = zeros 512.
Proof.
  revert k. induction m as [|m IH]; intros k s Hl Hz; cbn [seq map forM].
  - exists s. rewrite Nat.add_0_r. done.
  - destruct (IH (S k) (mkSt (zset (im s) (Z.of_nat k) (zeros BSIZE)) (Z.of_nat (S k)) (freeinode s) (freeblock s))) as (s' & E & Hl' & Hi & Hb & Hz').
    + done.
    + intros n Hn. cbn [im]. unfold zset. zcase; [done|]. apply Hz. lia.
    + exists s'. erewrite mk_bind; [rewrite Nat.add_succ_r; done|]. unfold wsect. rewrite Hl. by replace (Z.max (Z.of_nat k) (Z.of_nat k + 1)) with (Z.of_nat (S k)) by lia.
Qed.

Lemma empty_inv : exists s0 s1 s, set_freeblock nmeta empty_image = Some (tt, s0) /\
  forM (map Z.of_nat (seq 0 (Z.to_nat FSSIZE))) (fun i => wsect i (zeros BSIZE)) s0 = Some (tt, s1) /\
  wsect 1 (splice (zeros BSIZE) 0 sb_bytes) s1 = Some (tt, s) /\ mk_inv s [].
Proof.
  set (s0 := mkSt (fun _ => []) 0 1 59). exists s0.
  destruct (zero_sectors 0 1000 s0) as (s1 & E1 & Hl & Hi & Hb & Hz); [done|lia|]. change (Z.to_nat FSSIZE) with 1000%nat. exists s1.
  eexists. split; [done|]. split; [exact E1|]. split; [done|]. change (Z.of_nat (0 + 1000)) with 1000 in *. split; cbn [im im_len freeinode freeblock length]; rewrite ?Hl, ?Hi, ?Hb; try done.
  - split; cbn [im im_len freeblock]; rewrite ?Hl, ?Hb; [done| |cbn; lia|].
    + intros n Hn. unfold zset. zcase; [|rewrite Hz by lia; by unfold zeros; rewrite length_replicate]. by rewrite splice_length.
    + intros n Hn. cbn in Hn. rewrite zset_ne by lia. apply Hz. lia.
  - intros i j _ Hi'. lia.
  - intros m Hm. cbn in Hm. unfold dino. destruct (IBLOCK_range m ltac:(lia)) as [-> Hr]. rewrite zset_ne by lia. rewrite Hz by lia.
    cbn [get_dinode i_type]. unfold get16, zeros. by rewrite !byte_at_zeros.
Qed.

(** *** Fewer or shorter files fit as well *)

Definition shorter (fs fs' : list mfile) : Prop := exists a b, fs' = a ++ b /\ Forall2 (fun f f' => fsize f <= fsize f') fs a.

Lemma total_nonneg fs : 0 <= total fs.
Proof.
  unfold total. induction fs as [|f fs IH]; cbn [foldr]; [done|]. pose proof (cost_nonneg (fsize f) ltac:(unfold fsize; lia)). lia.
Qed.

Lemma fits_shorter fs fs' : shorter fs fs' -> fits fs' -> fits fs.
Proof.
  intros (a & b & -> & H2) [Hi Hb Hs]. rewrite length_app in Hi. rewrite total_app in Hb. pose proof (total_nonneg b). apply Forall_app in Hs as [Hs _].
  assert (Ht : total fs <= total a).
  { unfold total. clear -H2. induction H2 as [|f f' fs a Hf _ IH]; [done|]. cbn [foldr]. pose proof (cost_mono _ _ Hf). lia. }
  split; [|lia|].
  - apply Forall2_length in H2. lia.
  - clear -H2 Hs. induction H2 as [|f f' fs a Hf _ IH]; [constructor|]. apply Forall_cons in Hs as [Hs1 Hs2]. constructor; [lia|by apply IH].
Qed.

Lemma shorter_refl fs : shorter fs fs.
Proof. exists fs, []. rewrite app_nil_r. split; [done|]. induction fs; constructor; [lia|done]. Qed.

Lemma shorter_app fs fs' g : shorter fs fs' -> shorter fs (fs' ++ g).
Proof. intros (a & b & -> & H2). exists a, (b ++ g). by rewrite app_assoc. Qed.

Lemma shorter_cons f f' fs fs' : fsize f <= fsize f' -> shorter fs fs' -> shorter (f :: fs) (f' :: fs').
Proof. intros Hf (a & b & -> & H2). exists (f' :: a), b. split; [done|by constructor]. Qed.

Lemma shorter_snoc fs f f' : fsize f <= fsize f' -> shorter (fs ++ [f]) (fs ++ [f']).
Proof. intros Hf. exists (fs ++ [f']), []. rewrite app_nil_r. split; [done|]. apply Forall2_app; [|by constructor]. induction fs; constructor; [lia|done]. Qed.

Lemma insert_last (fs : list mfile) r f f' : <[S (length fs) := f']> (r :: fs ++ [f]) = r :: fs ++ [f'].
Proof. change (<[S (length fs) := f']> (r :: fs ++ [f])) with (r :: <[length fs := f']> (fs ++ [f])). f_equal. rewrite insert_app_r_alt by lia. by rewrite Nat.sub_diag. Qed.

(** *** The files of the host *)

Definition host_ok (f : hostfile) : Prop := existsb (Z.eqb 47) f.1 = false /\ is_Some f.2.
Definition content (f : hostfile) : list Z := match f.2 with Some chunks => concat chunks | None => [] end.
(** The entries of the root directory, from inode number [n] on. *)
Fixpoint entries (n : Z) (files : list hostfile) : list Z :=
  match files with
  | [] => []
  | f :: files' => dirent n (Str.strncpy (skip_underscore f.1) 14) ++ entries (n + 1) files'
  end.
Definition host_files (files : list hostfile) : list mfile := map (fun f => (T_FILE, content f)) files.

Lemma chunks_ok chunks : forall s r fs c, mk_inv s (r :: fs ++ [(T_FILE, c)]) -> fits (r :: fs ++ [(T_FILE, c ++ concat chunks)]) ->
  exists s', forM chunks (iappend (2 + Z.of_nat (length fs))) s = Some (tt, s') /\ mk_inv s' (r :: fs ++ [(T_FILE, c ++ concat chunks)]).
Proof.
  induction chunks as [|p chunks IH]; intros s r fs c Hinv Hfit; cbn [forM concat] in *.
  - exists s. rewrite app_nil_r in *. done.
  - destruct (iappend_ok s (r :: fs ++ [(T_FILE, c)]) (S (length fs)) T_FILE c p Hinv) as (s1 & E1 & H1).
    + change ((r :: fs ++ [(T_FILE, c)]) !! S (length fs)) with ((fs ++ [(T_FILE, c)]) !! length fs). by rewrite lookup_app_r, Nat.sub_diag by lia.
    + rewrite insert_last. eapply fits_shorter; [|exact Hfit]. apply shorter_cons; [lia|]. apply shorter_snoc. unfold fsize. cbn [snd]. rewrite !length_app. lia.
    + rewrite insert_last in H1. replace (1 + Z.of_nat (S (length fs))) with (2 + Z.of_nat (length fs)) in E1 by lia.
      destruct (IH s1 r fs (c ++ p) H1) as (s2 & E2 & H2); [by rewrite <- app_assoc|]. exists s2. rewrite (mk_bind _ _ _ _ _ E1). rewrite <- app_assoc in H2. done.
Qed.

Lemma add_file_ok s rc fs f : mk_inv s ((T_DIR, rc) :: fs) -> host_ok f ->
  let rc' := rc ++ dirent (2 + Z.of_nat (length fs)) (Str.strncpy (skip_underscore f.1) 14) in
  fits ((T_DIR, rc') :: fs ++ [(T_FILE, content f)]) ->
  exists s', add_file 1 f s = Some (tt, s') /\ mk_inv s' ((T_DIR, rc') :: fs ++ [(T_FILE, content f)]).
Proof.
  intros Hinv [Hn [chunks Ec]] rc' Hfit. unfold add_file, content in *. rewrite Hn, Ec in *. cbn [negb]. rewrite (mk_bind _ _ s tt s) by done.
  assert (Hr : fsize (T_DIR, rc) <= fsize (T_DIR, rc')) by (unfold fsize, rc'; cbn [snd]; rewrite length_app; lia).
  destruct (ialloc_ok s _ T_FILE Hinv) as (s1 & E1 & H1).
  { eapply fits_shorter; [|exact Hfit]. apply shorter_cons; [done|]. apply shorter_snoc. unfold fsize. cbn. lia. }
  { unfold T_FILE. lia. }
  rewrite (mk_bind _ _ _ _ _ E1). cbn [length]. replace (1 + Z.of_nat (S (length fs))) with (2 + Z.of_nat (length fs)) by lia.
  destruct (iappend_ok s1 _ 0 T_DIR rc (dirent (2 + Z.of_nat (length fs)) (Str.strncpy (skip_underscore f.1) 14)) H1) as (s2 & E2 & H2); [done| |].
  { cbn [insert list_insert app]. eapply fits_shorter; [|exact Hfit]. apply shorter_cons; [done|]. apply shorter_snoc. unfold fsize. cbn. lia. }
  change (1 + Z.of_nat 0) with 1 in E2. rewrite (mk_bind _ _ _ _ _ E2).
  by apply (chunks_ok chunks s2 (T_DIR, rc') fs []).
Qed.

Lemma add_files_ok files : forall s rc fs, mk_inv s ((T_DIR, rc) :: fs) -> Forall host_ok files ->
  let all := (T_DIR, rc ++ entries (2 + Z.of_nat (length fs)) files) :: fs ++ host_files files in
  fits all -> exists s', forM files (add_file 1) s = Some (tt, s') /\ mk_inv s' all.
Proof.
  induction files as [|f files IH]; intros s rc fs Hinv Hok all Hfit; unfold all in *; clear all; cbn [forM entries host_files map] in *.
  - exists s. rewrite !app_nil_r in *. done.
  - inversion Hok as [|? ? Hf Hok']; subst.
    assert (Eapp : fs ++ (T_FILE, content f) :: map (fun f => (T_FILE, content f)) files = (fs ++ [(T_FILE, content f)]) ++ host_files files) by (by rewrite <- app_assoc).
    rewrite Eapp in *. destruct (add_file_ok s rc fs f Hinv Hf) as (s1 & E1 & H1).
    { eapply fits_shorter; [|exact Hfit]. apply shorter_cons; [unfold fsize; cbn [snd]; rewrite !length_app; lia|]. apply shorter_app, shorter_refl. }
    destruct (IH s1 _ (fs ++ [(T_FILE, content f)]) H1 Hok') as (s2 & E2 & H2).
    { rewrite length_app. cbn [length]. replace (2 + Z.of_nat (length fs + 1)) with (2 + Z.of_nat (length fs) + 1) by lia. by rewrite <- app_assoc. }
    exists s2. rewrite (mk_bind _ _ _ _ _ E1). split; [done|]. rewrite length_app in H2. cbn [length] in H2.
    replace (2 + Z.of_nat (length fs + 1)) with (2 + Z.of_nat (length fs) + 1) in H2 by lia. by rewrite <- app_assoc in H2.
Qed.

Definition root_dir (files : list hostfile) : list Z :=
  dirent 1 (bytes_of ".") ++ dirent 1 (bytes_of "..") ++ entries 2 files.
Definition all_files (files : list hostfile) : list mfile := (T_DIR, root_dir files) :: host_files files.

(** The last steps: the size of the root directory, and the bitmap. *)
Definition root_size (sz : Z) : Z := (sz / 512 + 1) * 512.
Definition root_ino (s : st) : inode := set_i_size (root_size (i_size (dino (im s) 1))) (dino (im s) 1).
Definition finished (s : st) : st :=
  mkSt (zset (put_ino (im s) 1 (root_ino s)) 58 (bitmap (freeblock s))) (im_len s) (freeinode s) (freeblock s).

Lemma finish_ok s fs : mk_inv s fs -> fs <> [] -> (fix_root 1;; used ← get_freeblock; balloc used) s = Some (tt, finished s).
Proof.
  intros Hinv Hne. pose proof (mi_img _ _ Hinv) as Hs. pose proof (io_free s Hs). destruct fs as [|f fs]; [done|].
  destruct (mi_file _ _ Hinv 0 f eq_refl) as [Hc _ _ _ Hsz]. change (1 + Z.of_nat 0) with 1 in *. pose proof (cf_max _ _ _ _ Hc) as Hm. fold (fsize f) in Hm. rewrite MAXFILE_eq in Hm.
  assert (Hz : 0 <= i_size (dino (im s) 1) <= 71680) by (rewrite Hsz; unfold fsize in *; lia).
  destruct (winode_ok s 1 (root_ino s) Hs ltac:(lia)) as [Ew Hs2]; [apply (cf_slots _ _ _ _ Hc)|].
  rewrite (mk_bind _ _ s tt (with_ino s 1 (root_ino s))).
  - rewrite (mk_bind _ _ _ (freeblock s) (with_ino s 1 (root_ino s))) by done. unfold balloc, assert_. change (BSIZE * 8) with 4096.
    rewrite (proj2 (Z.ltb_lt _ _)) by lia. rewrite (mk_bind _ _ _ tt (with_ino s 1 (root_ino s))) by done. rewrite mk_sb. cbn [sb_bmapstart].
    by rewrite wsect_ok by (done || lia).
  - unfold fix_root. rewrite (mk_bind _ _ _ _ _ (rinode_ok s 1 Hs ltac:(lia))). change BSIZE with 512.
    rewrite (xint_id (i_size _)) by (unfold word; lia). rewrite xint_id by (unfold word; Z.div_mod_to_equations; lia). exact Ew.
Qed.

Lemma main_ok files : Forall host_ok files -> fits (all_files files) ->
  exists s, main files empty_image = Some (tt, finished s) /\ mk_inv s (all_files files).
Proof.
  intros Hok Hfit. destruct empty_inv as (sa & sz & s0 & Ea & Ez & E0 & H0).
  assert (Hd : forall p, fsize (T_DIR, p) <= fsize (T_DIR, root_dir files) -> fits [(T_DIR, p)]).
  { intros p Hp. eapply fits_shorter; [|exact Hfit]. apply shorter_cons; [done|]. exists [], (host_files files). split; [done|constructor]. }
  destruct (ialloc_ok s0 [] T_DIR H0) as (s1 & E1 & H1); [apply Hd; unfold fsize; cbn; lia|unfold T_DIR; lia|]. change (1 + Z.of_nat 0) with 1 in E1.
  destruct (iappend_ok s1 _ 0 T_DIR [] (dirent 1 (bytes_of ".")) H1) as (s2 & E2 & H2); [done|apply Hd; unfold fsize, root_dir; cbn [snd app]; rewrite !length_app; lia|].
  destruct (iappend_ok s2 _ 0 T_DIR (dirent 1 (bytes_of ".")) (dirent 1 (bytes_of "..")) H2) as (s3 & E3 & H3);
    [done|apply Hd; unfold fsize, root_dir; cbn [snd app]; rewrite !length_app; lia|]. change (1 + Z.of_nat 0) with 1 in *. cbn [insert list_insert app] in H3.
  destruct (add_files_ok files s3 _ [] H3 Hok) as (s4 & E4 & H4); [cbn [length]; rewrite <- app_assoc; exact Hfit|].
  cbn [length] in H4. change (2 + Z.of_nat 0) with 2 in H4. rewrite <- app_assoc in H4. change ([] ++ host_files files) with (host_files files) in H4.
  exists s4. split; [|exact H4]. unfold main. rewrite (mk_bind _ _ _ _ _ Ea), (mk_bind _ _ _ _ _ Ez), (mk_bind _ _ _ _ _ E0), (mk_bind _ _ _ _ _ E1).
  change (1 =? ROOTINO) with true. rewrite (mk_bind _ _ s1 tt s1) by done.
  rewrite (mk_bind _ _ _ _ _ E2), (mk_bind _ _ _ _ _ E3), (mk_bind _ _ _ _ _ E4). by apply (finish_ok s4 _ H4).
Qed.

(** ** The image *)

(** The inode that [ilock] loads from the disk. *)
Definition loaded (d : Z -> list Z) (inum : Z) : inode :=
  get_dinode (d (IBLOCK inum sb)) (dinode_off inum) (mkInode 1 inum 1 0 0 0 0 0 0 []).

Lemma bitmap_bits u : 0 <= u <= 4096 -> length (bitmap u) = 512%nat /\ forall b, 0 <= b < 4096 -> bit_set (bitmap u) b = (b <? u).
Proof.
  intros Hu. assert (Hn : (Z.to_nat u <= 4096)%nat) by lia. rewrite <- (Z2Nat.id u) by lia. revert Hn. generalize (Z.to_nat u) as n. clear. unfold bitmap. setoid_rewrite Nat2Z.id.
  induction n as [|n IH]; intros Hn.
  - split; [done|]. intros b Hb. cbn [seq map fold_left]. rewrite (proj2 (Z.ltb_ge _ _)) by lia. unfold bit_set, zeros. by rewrite byte_at_zeros.
  - destruct IH as [Hl Hb]; [lia|]. rewrite seq_S, map_app, fold_left_app. cbn [map fold_left]. split.
    + unfold mark_bit. by rewrite length_insert.
    + intros b Hbr. rewrite bit_set_mark by (rewrite ?Hl; lia). rewrite Hb by done. apply Bool.eq_true_iff_eq. rewrite orb_true_iff, Z.eqb_eq, !Z.ltb_lt. lia.
Qed.

Lemma mk_geom : fs_geom 1000 2 30 sb 59.
Proof. rewrite mk_sb. split; try (cbn; lia); [change (sb_ninodes _ / IPB) with 25|change (1000 / BPB) with 0]; cbn; lia. Qed.

Lemma cfile_file_ok d fb ip c : cfile d fb ip c -> fb <= 1000 -> (forall b, 0 <= b < 1000 -> used sb d b = (b <? fb)) -> i_dev ip = 1 ->
  0 <= i_size ip <= MAXFILE * 512 -> (forall bn, 0 <= bn -> bn * 512 < i_size ip -> bn * 512 < Z.of_nat (length c)) -> file_ok 1000 sb 59 d ip.
Proof.
  intros Hc Hfb Hu Hd Hs Hfull. destruct (cf_slots _ _ _ _ Hc) as [Hl Hr Hi]. split; try done.
  - intros k Hk Hn. specialize (Hr k Hk Hn). split; [lia|]. rewrite Hu by lia. apply Z.ltb_lt. lia.
  - intros bn Hbn Hlt. change BSIZE with 512 in Hlt. specialize (Hfull bn Hbn Hlt). rewrite (cf_need _ _ _ _ Hc); [lia|]. pose proof (cf_max _ _ _ _ Hc). lia.
Qed.

Lemma cfile_fbytes d fb ip c : cfile d fb ip c -> fbytes d ip 0 (Z.of_nat (length c)) = c.
Proof.
  intros Hc. apply byte_ext; [rewrite fbytes_length; lia|]. intros k Hk. rewrite fbytes_length in Hk. rewrite fbytes_at by lia.
  pose proof (cf_max _ _ _ _ Hc) as Hm. assert (Ho : 0 <= 0 + k < MAXFILE * 512) by lia. apply (cf_bytes _ _ _ _ Hc); [done|].
  rewrite (cf_need _ _ _ _ Hc) by (by apply off_block). clear -Hk. Z.div_mod_to_equations. lia.
Qed.

Section Image.
Context (s : st) (fs : list mfile) (Hinv : mk_inv s fs) (Hfit : fits fs) (Hne : fs <> []).
Let d := im (finished s).

Lemma fin_data n : n < 32 \/ 59 <= n -> d n = im s n.
Proof. intros Hn. unfold d. cbn [finished im]. rewrite zset_ne by lia. apply put_ino_data; lia. Qed.

Lemma root_file : exists f, fs !! 0%nat = Some f /\ file_at s 0 f /\ 0 <= fsize f <= 71680.
Proof.
  destruct fs as [|f fs'] eqn:E; [done|]. exists f. split; [done|]. pose proof (mi_file _ _ Hinv 0 f eq_refl) as Hf. split; [done|].
  pose proof (cf_max _ _ _ _ (fa_file _ _ _ Hf)) as Hm. fold (fsize f) in Hm. rewrite MAXFILE_eq in Hm. unfold fsize in *. lia.
Qed.

Lemma fin_dino inum : 0 <= inum < 200 -> dino d inum = if inum =? 1 then root_ino s else dino (im s) inum.
Proof.
  intros Hi. destruct root_file as (f & _ & [Hc Ht Hd Hn Hz] & Hf). change (1 + Z.of_nat 0) with 1 in *. pose proof (mi_img _ _ Hinv) as Hs.
  assert (E58 : dino d inum = dino (put_ino (im s) 1 (root_ino s)) inum).
  { unfold dino. f_equal. destruct (IBLOCK_range inum Hi) as [-> ?]. unfold d. cbn [finished im]. by rewrite zset_ne by lia. }
  rewrite E58. assert (Hl : length (im s (IBLOCK 1 sb)) = 512%nat) by (apply (io_block s Hs); destruct (IBLOCK_range 1 ltac:(lia)) as [-> ?]; lia).
  zcase; [subst; apply put_ino_back; [lia|exact Hl| |repeat split]|apply put_ino_other; [lia|lia|lia|exact Hl|apply (cf_slots _ _ _ _ Hc)]].
  split; unfold s16_range; cbn [root_ino set_i_size i_type i_major i_minor i_nlink i_size i_addrs]; rewrite ?Hn; try lia.
  - rewrite Hz. unfold word, root_size. Z.div_mod_to_equations. lia.
  - apply (cf_slots _ _ _ _ Hc).
  - eapply slots_words; [apply Hc|]. apply (io_free s Hs).
Qed.

Lemma fin_used b : 0 <= b < 1000 -> used sb d b = (b <? freeblock s).
Proof.
  intros Hb. unfold used, map_block. rewrite mk_sb. cbn [sb_bmapstart]. change BPB with 4096. rewrite Z.div_small, Z.mod_small by lia.
  unfold d. cbn [finished im]. change (58 + 0) with 58. rewrite zset_eq. apply bitmap_bits; [|lia]. pose proof (io_free s (mi_img _ _ Hinv)). lia.
Qed.

Lemma fin_disk : disk_ok 1000 sb 59 d.
Proof.
  pose proof (mi_img _ _ Hinv) as Hs. pose proof (io_free s Hs). destruct root_file as (f & _ & [Hc _ _ _ _] & _). split.
  - intros n Hn. change (Z.to_nat BSIZE) with 512%nat. unfold d. cbn [finished im]. unfold zset. zcase; [apply bitmap_bits; lia|].
    apply (io_block (with_ino s 1 (root_ino s))); [|done]. apply winode_ok; [done|lia|apply (cf_slots _ _ _ _ Hc)].
  - intros b Hb. rewrite fin_used by lia. apply Z.ltb_lt. lia.
  - rewrite fin_data by lia. rewrite (mi_sb _ _ Hinv). vm_compute. reflexivity.
Qed.

(** The files, with the blocks that they have. *)
Lemma fin_file i f : fs !! i = Some f -> let ip := loaded d (1 + Z.of_nat i) in
  cfile d (freeblock s) ip f.2 /\ i_type ip = f.1 /\ i_nlink ip = 1 /\ i_size ip = (if (i =? 0)%nat then root_size (fsize f) else fsize f) /\
  forall n, owns d ip n <-> owns (im s) (dino (im s) (1 + Z.of_nat i)) n.
Proof.
  intros Hi ip. pose proof (lookup_lt_Some _ _ _ Hi) as Hlt. pose proof (ft_inodes _ Hfit) as Hlen.
  destruct (mi_file _ _ Hinv i f Hi) as [Hc [Ht _] _ Hn Hz]. pose proof (fin_dino (1 + Z.of_nat i) ltac:(lia)) as Ed.
  assert (El : i_addrs ip = i_addrs (dino d (1 + Z.of_nat i)) /\ i_type ip = i_type (dino d (1 + Z.of_nat i)) /\
    i_nlink ip = i_nlink (dino d (1 + Z.of_nat i)) /\ i_size ip = i_size (dino d (1 + Z.of_nat i))) by done.
  destruct El as (E1 & E2 & E3 & E4). assert (Ea : i_addrs ip = i_addrs (dino (im s) (1 + Z.of_nat i))).
  { rewrite E1, Ed. zcase; [|done]. replace (1 + Z.of_nat i) with 1 by lia. done. }
  assert (Hc' : cfile (im s) (freeblock s) ip f.2) by (by apply (cfile_addrs _ _ (dino (im s) (1 + Z.of_nat i)))).
  assert (Ho : forall n, owns (im s) ip n <-> owns (im s) (dino (im s) (1 + Z.of_nat i)) n).
  { intros n. unfold owns, fslot, fblock, addr_of. by rewrite Ea. }
  destruct (cfile_frame _ _ _ _ d (freeblock s) Hc' ltac:(lia)) as [Hcd Hsl].
  { intros n Hown. eapply owns_rng in Hown; [|exact Hc']. apply fin_data. lia. }
  split; [done|]. rewrite E2, E3, E4, Ed. split_and!.
  - zcase; [|done]. rewrite e in Ht. exact Ht.
  - zcase; [|done]. rewrite e in Hn. exact Hn.
  - destruct (Nat.eqb_spec i 0) as [->|Hi0]; [change (1 + Z.of_nat 0 =? 1) with true; cbv iota; cbn [root_ino set_i_size i_size]; by rewrite <- Hz|].
    by rewrite (proj2 (Z.eqb_neq _ _)) by lia.
  - intros n. rewrite <- Ho. by apply owns_frame.
Qed.

Lemma fin_file_ok i f : fs !! i = Some f -> i <> 0%nat \/ fsize f mod 512 <> 0 -> file_ok 1000 sb 59 d (loaded d (1 + Z.of_nat i)).
Proof.
  intros Hi Hor. destruct (fin_file i f Hi) as (Hc & _ & _ & Hz & _). pose proof (cf_max _ _ _ _ Hc) as Hm. fold (fsize f) in Hm.
  pose proof (io_free s (mi_img _ _ Hinv)). rewrite MAXFILE_eq in Hm. assert (Hf0 : 0 <= fsize f) by (unfold fsize; lia).
  eapply cfile_file_ok; [exact Hc|lia|exact fin_used|reflexivity|..]; rewrite ?MAXFILE_eq; rewrite Hz; unfold root_size.
  - destruct (Nat.eqb_spec i 0); [|lia]. destruct Hor as [?|Hor]; [lia|]. Z.div_mod_to_equations. lia.
  - intros bn Hbn. fold (fsize f). destruct (Nat.eqb_spec i 0); [|lia]. destruct Hor as [?|Hor]; [lia|]. Z.div_mod_to_equations. lia.
Qed.

End Image.

(** The file system [fs] on the disk [d]: exactly the blocks below [fb] are in
    use, and the files have their contents, in blocks of their own. *)
Record holds (d : Z -> list Z) (fb : Z) (fs : list mfile) : Prop := {
  hd_disk : disk_ok 1000 sb 59 d;
  hd_used : forall b, 0 <= b < 1000 -> used sb d b = (b <? fb);
  hd_file : forall i f, fs !! i = Some f -> let ip := loaded d (1 + Z.of_nat i) in
    i_type ip = f.1 /\ i_nlink ip = 1 /\ fbytes d ip 0 (fsize f) = f.2 /\
    (i <> 0%nat -> i_size ip = fsize f) /\ (i <> 0%nat \/ fsize f mod 512 <> 0 -> file_ok 1000 sb 59 d ip);
  hd_root : forall f, fs !! 0%nat = Some f -> i_size (loaded d 1) = root_size (fsize f) /\
    (fsize f mod 512 <> 0 -> forall off, 0 <= off < root_size (fsize f) -> fbyte d (loaded d 1) off = byte_at f.2 off);
  hd_apart : forall i j, i <> j -> (i < length fs)%nat -> (j < length fs)%nat ->
    forall n, owns d (loaded d (1 + Z.of_nat i)) n -> ~ owns d (loaded d (1 + Z.of_nat j)) n;
  hd_free : forall inum, Z.of_nat (length fs) < inum < 200 -> i_type (loaded d inum) = 0
}.

Lemma finished_holds s fs : mk_inv s fs -> fits fs -> fs <> [] -> holds (im (finished s)) (59 + total fs) fs.
Proof.
  intros Hinv Hfit Hne. split.
  - by eapply fin_disk.
  - intros b Hb. rewrite <- (mi_fb _ _ Hinv). by apply (fin_used s fs).
  - intros i f Hi ip. destruct (fin_file s fs Hinv Hfit Hne i f Hi) as (Hc & Ht & Hn & Hz & _). fold ip in Hc, Ht, Hn, Hz. split_and!; try done.
    + by eapply cfile_fbytes.
    + intros Hi0. rewrite Hz. by rewrite (proj2 (Nat.eqb_neq _ _)).
    + intros Hor. by eapply fin_file_ok.
  - intros f Hi. destruct (fin_file s fs Hinv Hfit Hne 0 f Hi) as (Hc & _ & _ & Hz & _). split; [exact Hz|]. intros Hm off Ho.
    pose proof (cf_max _ _ _ _ Hc) as Hmax. fold (fsize f) in Hmax. unfold root_size in Ho. rewrite MAXFILE_eq in Hmax.
    assert (Hof : 0 <= off < MAXFILE * 512) by (rewrite MAXFILE_eq; Z.div_mod_to_equations; lia). apply (cf_bytes _ _ _ _ Hc); [done|].
    rewrite (cf_need _ _ _ _ Hc) by (by apply off_block). fold (fsize f). clear -Ho Hm. Z.div_mod_to_equations. lia.
  - intros i j Hij Hi Hj n Ho1 Ho2. destruct (lookup_lt_is_Some_2 fs i Hi) as [f Hf]. destruct (lookup_lt_is_Some_2 fs j Hj) as [g Hg].
    destruct (fin_file s fs Hinv Hfit Hne i f Hf) as (_ & _ & _ & _ & H1). destruct (fin_file s fs Hinv Hfit Hne j g Hg) as (_ & _ & _ & _ & H2).
    apply H1 in Ho1. apply H2 in Ho2. by apply (mi_apart _ _ Hinv i j Hij Hi Hj n).
  - intros inum Hi. destruct fs as [|f fs']; [done|]. cbn [length] in Hi. change (i_type (loaded (im (finished s)) inum)) with (i_type (dino (im (finished s)) inum)).
    rewrite (fin_dino s _ Hinv Hfit Hne) by lia. rewrite (proj2 (Z.eqb_neq _ _)) by lia. apply (mi_free _ _ Hinv). rewrite (mi_ino _ _ Hinv). cbn [length]. lia.
Qed.

(** C7: The image that mkfs makes.  For any files of the host that can be
    opened, have no slash in the name, and fit (at most 198 of them, none
    longer than the largest file, and enough blocks), mkfs succeeds, and its
    image is a disk that the theorems on fs.c apply to: the layout of the
    super block, the free map (exactly the blocks handed out are in use), and
    for every file an inode with its length, its contents byte by byte in
    blocks of its own, one link, and all other inodes free.  The root
    directory has the entries of the files; it is a well-formed file too
    unless its entries fill their last block exactly (30 files): the size is then
    rounded up to one block more than was allocated. *)
Theorem mkfs_image (files : list hostfile) : Forall host_ok files -> fits (all_files files) ->
  exists s, main files empty_image = Some (tt, s) /\ fs_geom 1000 2 30 sb 59 /\
    holds (im s) (59 + total (all_files files)) (all_files files).
Proof.
  intros Hok Hfit. destruct (main_ok files Hok Hfit) as (s & E & Hinv). exists (finished s).
  split; [exact E|]. split; [exact mk_geom|]. by apply finished_holds.
Qed.

Definition mkfs_sample : list hostfile := [(bytes_of "README", Some [bytes_of "xv6"]); (bytes_of "_cat", Some [])].
Lemma mkfs_image_witness : exists s, main mkfs_sample empty_image = Some (tt, s) /\
  file_ok 1000 sb 59 (im s) (loaded (im s) 2) /\ fbytes (im s) (loaded (im s) 2) 0 3 = bytes_of "xv6" /\ used sb (im s) 61 = false.
Proof.
  destruct (mkfs_image mkfs_sample) as (s & E & _ & [_ Hu Hf _ _ _]).
  - repeat constructor; by eexists.
  - split; [cbn; lia|by apply Z.leb_le|]. repeat constructor; by apply Z.leb_le.
  - exists s. split; [exact E|]. destruct (Hf 1%nat _ eq_refl) as (_ & _ & Hb & _ & Ho). split; [apply Ho; by left|]. split; [exact Hb|].
    rewrite Hu by lia. reflexivity.
Defined.

(** If the entries of the root directory fill their blocks exactly, its size
    covers one block more than it has. *)
Lemma mkfs_root_gap files : Forall host_ok files -> fits (all_files files) -> fsize (T_DIR, root_dir files) mod 512 = 0 ->
  fsize (T_DIR, root_dir files) < MAXFILE * 512 ->
  exists s, main files empty_image = Some (tt, s) /\ let ip := loaded (im s) 1 in let bn := fsize (T_DIR, root_dir files) / 512 in
    bn * 512 < i_size ip /\ fblock (im s) ip bn = 0.
Proof.
  intros Hok Hfit Hm Hlt. destruct (main_ok files Hok Hfit) as (s & E & Hinv). exists (finished s). split; [exact E|]. intros ip bn.
  destruct (fin_file s (all_files files) Hinv Hfit ltac:(done) 0 _ eq_refl) as (Hc & _ & _ & Hz & _). change (1 + Z.of_nat 0) with 1 in *. fold ip in Hc, Hz.
  assert (0 <= fsize (T_DIR, root_dir files)) by (unfold fsize; lia). split.
  - rewrite Hz. cbn [Nat.eqb]. unfold root_size, bn. lia.
  - apply (cf_need _ _ _ _ Hc); unfold bn; fold (fsize (T_DIR, root_dir files)); rewrite MAXFILE_eq in *; Z.div_mod_to_equations; lia.
Qed.
