(* ===== verification/MkfsTree.v ===== *)
(** * The directory tree that mkfs makes

    The root directory of the image as a map from names to inodes, and the tree
    of which [namex] resolves paths: every file of the host is found under its
    name, and is the file with its contents.  On such a disk the theorems about
    directories and path names have their witnesses. *)

From stdpp Require Import base list gmap strings fin_maps list_numbers.
From S2P Require Import Prelude Memory Bytes Str Kernel KMonad Boot Mmu Spinlock Sched Ide Ring Bio BioSpec Log LogSpec Fs FsBlocks FsInode FsFile FsIO FsDir FsPath Console FsSamples Mkfs MkfsSpec MkfsImage.

Import Mkfs.

(** ** The root directory *)

(** The names, with the inodes that they stand for. *)
Fixpoint numbered (n : Z) (files : list hostfile) : list (list Z * Z) :=
  match files with
  | [] => []
  | f :: files' => (skip_underscore f.1, n) :: numbered (n + 1) files'
  end.
Definition root_names (files : list hostfile) : list (list Z * Z) :=
  (bytes_of ".", 1) :: (bytes_of "..", 1) :: numbered 2 files.

Lemma numbered_lookup files : forall n i, numbered n files !! i = (fun f => (skip_underscore f.1, n + Z.of_nat i)) <$> files !! i.
Proof.
  induction files as [|f files IH]; intros n [|i]; cbn; [done|done|by rewrite Z.add_0_r|]. rewrite IH.
  replace (n + 1 + Z.of_nat i) with (n + Z.of_nat (S i)) by lia. done.
Qed.

Lemma numbered_length files : forall n, length (numbered n files) = length files.
Proof. induction files as [|f files IH]; intros n; cbn; [done|]. by rewrite IH. Qed.

Definition named (x : list Z * Z) : list Z := new_dent x.1 x.2.

Lemma dirent_named n nm : 0 <= n < 65536 -> dirent n (Str.strncpy nm 14) = named (nm, n).
Proof.
  intros Hn. unfold dirent, named, new_dent, dname. rewrite strncpy_length. cbn [replicate Nat.sub]. rewrite app_nil_r.
  by rewrite xshort_id.
Qed.

Lemma entries_named files : forall n, 0 <= n -> n + Z.of_nat (length files) <= 65536 ->
  entries n files = concat (named <$> numbered n files).
Proof.
  induction files as [|f files IH]; intros n Hn Hl; [done|]. cbn [length] in Hl. cbn [entries numbered fmap list_fmap concat].
  rewrite dirent_named by lia. rewrite IH by lia. done.
Qed.

Lemma root_dir_named files : (length files <= 1000)%nat -> root_dir files = concat (named <$> root_names files).
Proof.
  intros Hl. unfold root_dir, root_names. cbn [fmap list_fmap concat]. by rewrite entries_named by lia.
Qed.

Lemma chunk_at (L : list (list Z)) : Forall (fun x => length x = 16%nat) L ->
  forall j k, 0 <= k < 16 -> byte_at (concat L) (16 * Z.of_nat j + k) = byte_at (nth j L []) k.
Proof.
  induction 1 as [|x L Hx HL IH]; intros j k Hk.
  - unfold byte_at. cbn. destruct j; destruct (Z.to_nat _), (Z.to_nat k); done.
  - cbn [concat]. rewrite byte_at_app, Hx by lia. destruct j as [|j]; cbn [nth].
    + rewrite (proj2 (Z.ltb_lt _ _)) by lia. f_equal.
    + rewrite (proj2 (Z.ltb_ge _ _)) by lia. rewrite <- IH by done. f_equal. lia.
Qed.

Lemma chunks_length (L : list (list Z)) : Forall (fun x => length x = 16%nat) L -> length (concat L) = (16 * length L)%nat.
Proof. induction 1 as [|x L Hx HL IH]; [done|]. cbn. rewrite length_app, Hx, IH. lia. Qed.

Lemma named_length l : Forall (fun x => length x = 16%nat) (named <$> l).
Proof. apply Forall_fmap, Forall_true. intros x. apply new_dent_length. Qed.

(** A directory with the entries [l], then zeros. *)
Section Named.
Context (d : Z -> list Z) (ip : inode) (l : list (list Z * Z)).
Hypothesis Hl : (length l <= ndents ip)%nat.
Hypothesis Hb : forall off, 0 <= off < DESZ * Z.of_nat (ndents ip) -> fbyte d ip off = byte_at (concat (named <$> l)) off.

Lemma dent_named j : (j < ndents ip)%nat -> dent d ip j = default (replicate 16 0) (named <$> l !! j).
Proof.
  intros Hj. apply byte_ext.
  - unfold dent. rewrite fbytes_length. destruct (l !! j); [|done]. symmetry. apply new_dent_length.
  - unfold dent. rewrite fbytes_length. intros k Hk. unfold DESZ in *.
    rewrite fbytes_at, Hb, chunk_at, nth_lookup, list_lookup_fmap by (lia || apply named_length).
    destruct (l !! j); cbn [fmap option_fmap option_map default from_option]; [done|]. rewrite (byte_at_zeros 16). apply (byte_at_zeros 0).
Qed.

Lemma dents_named : dents d ip = (named <$> l) ++ replicate (ndents ip - length l) (replicate 16 0).
Proof.
  apply list_eq. intros j. unfold dents. rewrite list_lookup_fmap. destruct (decide (j < ndents ip)%nat) as [Hj|Hj].
  - rewrite lookup_seq_lt by done. cbn [fmap option_fmap option_map Nat.add]. rewrite dent_named by done.
    destruct (decide (j < length l)%nat) as [Hjl|Hjl].
    + rewrite lookup_app_l by (by rewrite length_fmap). rewrite list_lookup_fmap. by destruct (lookup_lt_is_Some_2 l j) as [x ->].
    + rewrite lookup_app_r by (rewrite length_fmap; lia). rewrite length_fmap, lookup_replicate_2 by lia.
      by rewrite lookup_ge_None_2 by lia.
  - rewrite lookup_seq_ge by lia. symmetry. apply lookup_ge_None. rewrite length_app, length_fmap, length_replicate. lia.
Qed.

Lemma dir_map_named : Forall (fun x => 0 < x.2 < 65536) l -> dir_map d ip = list_to_map ((fun x => (dname x.1, x.2)) <$> l).
Proof.
  intros Hn. unfold dir_map. f_equal. rewrite dents_named, omap_app.
  assert (Ez : forall n, omap in_use (replicate n (replicate 16 0)) = []) by (induction n as [|n IH]; [done|exact IH]).
  rewrite Ez, app_nil_r. clear -Hn. induction Hn as [|[nm v] l Hv _ IH]; [done|]. cbn [snd] in Hv.
  change (omap in_use (named <$> (nm, v) :: l)) with
    (match in_use (new_dent nm v) with Some y => y :: omap in_use (named <$> l) | None => omap in_use (named <$> l) end).
  rewrite new_dent_in_use by done. cbn. f_equal. exact IH.
Qed.
End Named.

(** ** The tree *)

Section Tree.
Context (d : Z -> list Z) (fb : Z) (files : list hostfile).
Hypothesis Hold : holds d fb (all_files files).
Hypothesis Hfit : fits (all_files files).
Hypothesis Hgap : fsize (T_DIR, root_dir files) mod 512 <> 0.

Lemma files_few : (length files <= 198)%nat.
Proof. pose proof (ft_inodes _ Hfit) as Hl. unfold all_files, host_files in Hl. cbn [length] in Hl. rewrite length_map in Hl. lia. Qed.

Lemma root_fsize : fsize (T_DIR, root_dir files) = 16 * (2 + Z.of_nat (length files)).
Proof.
  pose proof files_few. unfold fsize. cbn [snd]. rewrite root_dir_named by lia. rewrite chunks_length by apply named_length.
  rewrite length_fmap. cbn [length root_names]. rewrite numbered_length. lia.
Qed.

Lemma image_root : dir_map d (loaded d 1) = list_to_map ((fun x => (dname x.1, x.2)) <$> root_names files).
Proof.
  pose proof files_few as Hl. destruct (hd_root _ _ _ Hold _ eq_refl) as [Hs Hb]. specialize (Hb Hgap). cbn [snd] in Hb.
  pose proof root_fsize as Hf. assert (Hn : DESZ * Z.of_nat (ndents (loaded d 1)) = root_size (fsize (T_DIR, root_dir files))).
  { unfold ndents, DESZ. rewrite Hs. unfold root_size. rewrite Hf. Z.div_mod_to_equations. lia. }
  apply dir_map_named.
  - cbn [length root_names]. rewrite numbered_length. unfold root_size in Hn. rewrite Hf in Hn. unfold DESZ in Hn. Z.div_mod_to_equations. lia.
  - intros off Ho. rewrite Hn in Ho. rewrite <- root_dir_named by lia. by apply Hb.
  - apply Forall_cons_2; [cbn; lia|]. apply Forall_cons_2; [cbn; lia|]. apply Forall_lookup_2. intros i x Hx. rewrite numbered_lookup in Hx.
    destruct (files !! i) as [f|] eqn:E; [|done]. injection Hx as <-. apply lookup_lt_Some in E. unfold snd, hostfile in *. lia.
Qed.

(** The inodes that mkfs has given out. *)
Definition image_inodes (n : Z) : Prop := 1 <= n <= 1 + Z.of_nat (length files).

Lemma image_file n : image_inodes n -> exists f, all_files files !! Z.to_nat (n - 1) = Some f /\
  (f = (T_DIR, root_dir files) /\ n = 1 \/ f.1 = T_FILE /\ exists g, files !! Z.to_nat (n - 2) = Some g /\ f.2 = content g).
Proof.
  intros Hn. unfold image_inodes in Hn. destruct (Z.to_nat (n - 1)) as [|i] eqn:E; [exists (T_DIR, root_dir files); split; [done|left; split; [done|lia]]|].
  replace (Z.to_nat (n - 2)) with i by lia. destruct (lookup_lt_is_Some_2 files i) as [g Hg]; [lia|].
  exists (T_FILE, content g). split; [|right; split; [done|by exists g]].
  change (((fun f => (T_FILE, content f)) <$> files) !! i = Some (T_FILE, content g)).
  by rewrite list_lookup_fmap, Hg.
Qed.

Lemma disk_loaded n : 0 <= n < 200 ->
  i_type (disk_inode sb d n) = i_type (loaded d n) /\ i_nlink (disk_inode sb d n) = i_nlink (loaded d n) /\
  i_size (disk_inode sb d n) = i_size (loaded d n) /\ i_addrs (disk_inode sb d n) = i_addrs (loaded d n).
Proof.
  intros Hn. unfold disk_inode, loaded. rewrite (IBLOCK_eq 1000 2 30 sample_geometry sb 59 mk_geom) by (rewrite mk_sb; exact Hn). done.
Qed.

Lemma image_type n : image_inodes n -> i_type (loaded d n) = (if n =? 1 then T_DIR else T_FILE) /\ i_nlink (loaded d n) = 1 /\
  (n = 1 \/ exists g, files !! Z.to_nat (n - 2) = Some g /\ i_size (loaded d n) = Z.of_nat (length (content g)) /\
     fbytes d (loaded d n) 0 (i_size (loaded d n)) = content g) /\ file_ok 1000 sb 59 d (loaded d n).
Proof.
  intros Hn. destruct (image_file n Hn) as (f & Hf & Hcase). pose proof (hd_file _ _ _ Hold _ _ Hf) as H. unfold image_inodes in Hn.
  replace (1 + Z.of_nat (Z.to_nat (n - 1))) with n in H by lia. cbv zeta in H. destruct H as (Ht & Hl & Hb & Hz & Hok).
  destruct Hcase as [[-> ->]|[Hty (g & Hg & Hc)]].
  - split_and!; [exact Ht|done|by left|]. apply Hok. by right.
  - assert (Hi : Z.to_nat (n - 1) <> 0%nat).
    { intros E. rewrite E in Hf. injection Hf as <-. done. }
    split_and!; [rewrite Ht, Hty; by rewrite (proj2 (Z.eqb_neq n 1)) by lia|done| |apply Hok; by left].
    right. exists g. rewrite (Hz Hi), Hb. unfold fsize. rewrite Hc. done.
Qed.

Lemma image_tree : tree 1000 sb 59 d image_inodes.
Proof.
  pose proof files_few as Hfew. assert (Hr : forall n, image_inodes n -> 0 <= n < 200) by (unfold image_inodes; lia).
  assert (E1 : sb_ninodes sb = 200) by (by rewrite mk_sb). split.
  - unfold image_inodes, ROOTINO. lia.
  - intros n Hn. rewrite E1. by apply Hr.
  - intros n Hn. destruct (disk_loaded n (Hr n Hn)) as [-> _]. destruct (image_type n Hn) as [-> _]. by destruct (n =? 1).
  - intros n Hn. destruct (disk_loaded n (Hr n Hn)) as (_ & -> & _). by destruct (image_type n Hn) as (_ & -> & _).
  - intros n Hn Hty. destruct (disk_loaded n (Hr n Hn)) as (Et & _ & Es & Ea). destruct (image_type n Hn) as (Ht & _ & _ & Hok).
    assert (n = 1) as ->. { rewrite Et, Ht in Hty. destruct (Z.eqb_spec n 1); [done|discriminate]. }
    destruct (same_file 1000 sb 59 d (disk_inode sb d 1) _ eq_refl Ea Es Hok) as [Hok' Em]. split_and!; [done| |].
    + rewrite Es. destruct (hd_root _ _ _ Hold _ eq_refl) as [-> _]. unfold root_size, DESZ. rewrite <- Z.mul_mod_idemp_r by done. by rewrite Z.mul_0_r.
    + rewrite Em, image_root. intros k v Hv. apply elem_of_list_to_map_2 in Hv. apply list_elem_of_fmap in Hv as ([nm v'] & [= -> ->] & Hin).
      unfold image_inodes. unfold root_names in Hin. repeat (apply elem_of_cons in Hin as [[= _ ->]|Hin]; [cbn; lia|]).
      apply list_elem_of_lookup in Hin as [i Hi]. rewrite numbered_lookup in Hi. destruct (files !! i) eqn:E; [|done].
      injection Hi as _ <-. apply lookup_lt_Some in E. unfold hostfile in *. lia.
Qed.

(** The name of a file leads to its inode. *)
Lemma image_resolves i f :
  NoDup ((fun x => dname x.1) <$> root_names files) -> files !! i = Some f ->
  forall nm, dname nm = dname (skip_underscore f.1) -> resolve sb d false ROOTINO [nm] = Some (2 + Z.of_nat i).
Proof.
  intros Hnd Hf nm Enm. pose proof files_few as Hfew. cbn [resolve]. unfold ROOTINO.
  destruct (disk_loaded 1 ltac:(lia)) as (Et & _ & Es & Ea). assert (H1 : image_inodes 1) by (unfold image_inodes; lia).
  destruct (image_type 1 H1) as (Ht & _ & _ & Hok). rewrite Et, Ht. cbn [Z.eqb Pos.eqb T_DIR andb].
  destruct (same_file 1000 sb 59 d (disk_inode sb d 1) _ eq_refl Ea Es Hok) as [_ Em]. rewrite Em, image_root.
  assert (El : (list_to_map ((fun x => (dname x.1, x.2)) <$> root_names files) : gmap (list Z) Z) !! dname nm = Some (2 + Z.of_nat i)).
  { apply elem_of_list_to_map_1; [by rewrite <- list_fmap_compose|]. apply list_elem_of_fmap. exists (skip_underscore f.1, 2 + Z.of_nat i).
    split; [by rewrite Enm|]. do 2 right. apply (list_elem_of_lookup_2 _ i). by rewrite numbered_lookup, Hf. }
  by rewrite El.
Qed.
End Tree.


(** ** Witnesses *)

Lemma sample_host : Forall host_ok mkfs_sample /\ fits (all_files mkfs_sample).
Proof.
  split; [repeat constructor; by eexists|]. split; [cbn; lia|by apply Z.leb_le|]. repeat constructor; by apply Z.leb_le.
Qed.


(** The sample image, and its root directory in the inode cache. *)
Lemma sample_image : exists s, main mkfs_sample empty_image = Some (tt, s) /\ holds (im s) 61 (all_files mkfs_sample).
Proof.
  destruct (main_ok mkfs_sample (proj1 sample_host) (proj2 sample_host)) as (s & E & Hinv). exists (finished s).
  split; [done|]. apply (finished_holds s _ Hinv (proj2 sample_host)). done.
Qed.

Definition sample_root (d : Z -> list Z) : inode := loaded d 1.

Lemma sample_dstate d :
  holds d 61 (all_files mkfs_sample) ->
  (exists s, binit [] (fs_boot_with d (sample_root d)) = Ok tt [] s /\
    dstate 1000 2 30 sb 59 sample_meta s 0 d (sample_root d) [] 3 /\
    fs_icache (k_fs s) = sample_root d :: replicate 49 zero_inode) /\
  dir_map d (sample_root d) = list_to_map [(dname (bytes_of "."), 1); (dname (bytes_of ".."), 1);
    (dname (bytes_of "README"), 2); (dname (bytes_of "cat"), 3)].
Proof.
  intros Hh. pose proof (proj2 sample_host) as Hfit. assert (Hgap : fsize (T_DIR, root_dir mkfs_sample) mod 512 <> 0) by discriminate.
  split; [|exact (image_root d 61 mkfs_sample Hh Hfit Hgap)].
  destruct (boot_txn d (sample_root d)) as (s & E & T & Hsb & Hic). exists s. split; [done|]. split; [|done].
  destruct (image_type d 61 mkfs_sample Hh Hgap 1) as (Ht & _ & _ & Hok); [unfold image_inodes; cbn; lia|].
  destruct (hd_root _ _ _ Hh _ eq_refl) as [Hs _]. unfold sample_root. split; [|done|by rewrite Hs|done].
  split; [done|apply Hh|done|by unfold inode_in; rewrite Hic|by rewrite Hsb, mk_sb|].
  unfold room, weight, sample_meta, NBUF. cbn. lia.
Qed.

(** The root directory has a file cat, as inode 3. *)
Lemma dirlookup_finds_witness :
  exists img s, main mkfs_sample empty_image = Some (tt, img) /\
    binit [] (fs_boot_with (im img) (sample_root (im img))) = Ok tt [] s /\
    exists c j s', @dirlookup sample_disk sample_devs 0 (bytes_of "cat") [] s = Ok (Some (c, DESZ * Z.of_nat j)) [] s' /\
      igot 1 3 s c s'.
Proof.
  destruct sample_image as (img & E & Hh). destruct (sample_dstate (im img) Hh) as [(s & Eb & Hd & Hic) Hm].
  exists img, s. split; [exact E|]. split; [exact Eb|].
  pose proof (dirlookup_finds sample_disk 1000 2 30 sample_geometry sb 59 mk_geom sample_meta s 0 (im img) _ [] 3
    (bytes_of "cat") [] Hd ltac:(lia)) as Hl. rewrite Hm in Hl.
  change (list_to_map _ !! dname (bytes_of "cat")) with (Some 3) in Hl. destruct Hl as [(c & j & s' & El & _ & _ & Hg & _)|(s' & _ & Hfull)].
  - exists c, j, s'. split; [exact El|exact Hg].
  - exfalso. destruct (Hfull 1%nat zero_inode) as [H0 _]; [unfold inode_in; rewrite Hic; reflexivity|]. apply H0. reflexivity.
Defined.

(** A link to README as inode 2 under the name README2. *)
Lemma dirlink_adds_witness :
  exists img s, main mkfs_sample empty_image = Some (tt, img) /\
    binit [] (fs_boot_with (im img) (sample_root (im img))) = Ok tt [] s /\
    exists s' d' ip', @dirlink sample_disk sample_devs 0 (bytes_of "README2") 2 [] s = Ok 0 [] s' /\
      dir_map d' ip' !! dname (bytes_of "README2") = Some 2 /\ dir_map d' ip' !! dname (bytes_of "cat") = Some 3.
Proof.
  destruct sample_image as (img & E & Hh). destruct (sample_dstate (im img) Hh) as [(s & Eb & Hd & _) Hm].
  exists img, s. split; [exact E|]. split; [exact Eb|]. destruct (hd_root _ _ _ Hh _ eq_refl) as [Hs _].
  pose proof (dirlink_adds sample_disk 1000 2 30 sample_geometry sb 59 mk_geom sample_meta) as Hl.
  specialize (Hl ltac:(rewrite mk_sb; exact sample_meta_in) sample_meta_zero s 0%nat (im img) _ [] 3
    (bytes_of "README2") 2 [] Hd ltac:(lia)). rewrite Hm in Hl.
  change (list_to_map _ !! dname (bytes_of "README2")) with (@None Z) in Hl.
  destruct Hl as [(s' & d' & ip' & bs' & El & _ & Hmap & _)|(s' & _ & y & Hcr)].
  - unfold sample_root. rewrite Hs. vm_compute. reflexivity.
  - lia.
  - rewrite mk_sb. cbn. lia.
  - rewrite mk_sb. exact sample_meta_inode.
  - exists s', d', ip'. split; [exact El|]. rewrite Hmap. split; reflexivity.
  - exfalso. pose proof (hd_used _ _ _ Hh) as Hu. destruct (decide (y = 900)) as [->|Hne].
    + specialize (Hcr 901 ltac:(lia) ltac:(lia)). rewrite Hu in Hcr by lia. discriminate Hcr.
    + specialize (Hcr 900 ltac:(lia) ltac:(lia)). rewrite Hu in Hcr by lia. discriminate Hcr.
Defined.

Lemma sample_nstate d N : exists s, binit [] (fs_boot_with d zero_inode) = Ok tt [] s /\ nstate 1000 2 30 sb d N [] s /\
  (forall n, refs s n = 0) /\ inode_in s 0 zero_inode /\ inode_in s 1 zero_inode.
Proof.
  destruct (boot_txn d zero_inode) as (s & E & T & Hsb & Hic). exists s. split; [done|].
  assert (Hz : forall c x, inode_in s c x -> i_ref x = 0).
  { intros c x Hx. unfold inode_in in Hx. rewrite Hic in Hx. change (zero_inode :: replicate 49 zero_inode) with (replicate 50 zero_inode) in Hx.
    by apply lookup_replicate in Hx as [-> _]. }
  split_and!; [| |unfold inode_in; by rewrite Hic..].
  - split; [done|by rewrite Hsb, mk_sb| |].
    + intros a b x y Hx _ H0. rewrite (Hz a x Hx) in H0. lia.
    + intros c x Hx H0. rewrite (Hz c x Hx) in H0. lia.
  - intros n. unfold refs. rewrite Hic. change (zero_inode :: replicate 49 zero_inode) with (replicate 50 zero_inode).
    assert (H0 : count n zero_inode = 0) by (unfold count; by destruct (_ =? n)). generalize 50%nat as m.
    induction m as [|m IH]; [done|]. cbn [replicate foldr]. rewrite H0, IH. done.
Qed.

(** The path /README leads to inode 2, and one reference to it is taken. *)
Lemma namex_resolves_witness :
  exists img s, main mkfs_sample empty_image = Some (tt, img) /\ binit [] (fs_boot_with (im img) zero_inode) = Ok tt [] s /\
    exists c name s', @namex sample_disk sample_devs (bytes_of "/README") false (zeros DIRSIZ) [] s = Ok (Some c, name) [] s' /\
      refs s' 2 = 1 /\ refs s' 1 = 0.
Proof.
  destruct sample_image as (img & E & Hh). pose proof (proj2 sample_host) as Hfit.
  assert (Hgap : fsize (T_DIR, root_dir mkfs_sample) mod 512 <> 0) by discriminate.
  destruct (sample_nstate (im img) (image_inodes mkfs_sample)) as (s & Eb & Hs & Hr & H0 & H1). exists img, s. split; [exact E|]. split; [exact Eb|].
  assert (Hres : resolve sb (im img) false ROOTINO (elems (bytes_of "/README")) = Some 2).
  { apply (image_resolves _ _ _ Hh Hfit Hgap 0 (bytes_of "README", Some [bytes_of "xv6"])); [|reflexivity|reflexivity].
    apply (bool_decide_unpack _). reflexivity. }
  destruct (namex_resolves sample_disk 1000 2 30 sample_geometry sb 59 mk_geom (im img) _ [] (hd_disk _ _ _ Hh)
    (image_tree _ _ _ Hh Hfit Hgap) ltac:(vm_compute; discriminate) s (bytes_of "/README") false (zeros DIRSIZ) ROOTINO [] Hs eq_refl eq_refl)
    as [([[c|] name] & s' & En & [_ _ Hrf Hf _])|(s' & c & _ & Hfull)].
  - exists c, name, s'. split; [exact En|]. rewrite Hres in Hrf. rewrite !Hrf, !Hr. split; reflexivity.
  - rewrite Hres in Hf. destruct Hf.
  - exfalso. destruct (decide (c = 0%nat)) as [->|Hne].
    + apply (Hfull 1%nat zero_inode H1); [lia|reflexivity].
    + apply (Hfull 0%nat zero_inode H0); [lia|reflexivity].
Defined.
