(* ===== verification/Progs.v ===== *)
(** * The small programs (cat.c, echo.c, wc.c, ls.c, init.c, kill.c, ln.c, mkdir.c, rm.c, zombie.c)

    The arguments are [argv], the name of the program first.  Shown: what cat
    and wc do with a file that is read in any pieces. *)

From stdpp Require Import base list strings.
From S2P Require Import Prelude Memory Bytes Str Kernel User Ulib Sh Grep Fs.

(** ** Definitions *)

Definition say (fd : Z) (s : string) (ap : list Printf.parg) : U unit := Printf.printf fd (Sh.nl s) ap.

(** [n] bytes of a reply. *)
Definition got (r : reply) : list Z := take (Z.to_nat (r_val r)) (r_bytes r).

Module Cat.

Definition cat_turn (fd : Z) (_ : unit) : U (unit + Z) :=
  r ← sys (Read fd 512);
  if 0 <? r_val r then sys_ (Write 1 (got r));; mret (inl tt)
  else mret (inr (r_val r)).
Definition cat (fd : Z) : U unit :=
  n ← uloop (cat_turn fd) tt;
  if n <? 0 then say 1 "cat: read error" [];; uexit else mret tt.

Definition cat_file (name : list Z) : U unit :=
  fd ← sysv (Open name 0);
  if fd <? 0 then say 1 "cat: cannot open %s" [Printf.str_arg name];; uexit
  else cat fd;; sys_ (Close fd).
Definition main (argv : list (list Z)) : U unit :=
  match tail argv with
  | [] => cat 0;; uexit
  | files => uforM files cat_file;; uexit
  end.

End Cat.

Module Echo.

Fixpoint echo_loop (args : list (list Z)) : U unit :=
  match args with
  | [] => mret tt
  | a :: rest =>
    Printf.printf 1 (bytes_of "%s%s") [Printf.str_arg a; Printf.str_arg (match rest with [] => [10] | _ => [32] end)];;
    echo_loop rest
  end.
Definition main (argv : list (list Z)) : U unit := echo_loop (tail argv);; uexit.

End Echo.

Module Wc.

Record counts : Type := mkCounts { l : Z; w : Z; c : Z; inword : bool }.

(** The body of the [for] loop. *)
Definition count_char (k : counts) (x : Z) : counts :=
  let c' := s32 (c k + 1) in
  let l' := if x =? 10 then s32 (l k + 1) else l k in
  if Sh.is_in [32; 13; 9; 10; 11] x then mkCounts l' (w k) c' false
  else if negb (inword k) then mkCounts l' (s32 (w k + 1)) c' true
  else mkCounts l' (w k) c' (inword k).

Definition wc_turn (fd : Z) (k : counts) : U (counts + counts * Z) :=
  r ← sys (Read fd 512);
  mret (if 0 <? r_val r then inl (fold_left count_char (got r) k) else inr (k, r_val r)).
Definition wc (fd : Z) (name : list Z) : U unit :=
  '(k, n) ← uloop (wc_turn fd) (mkCounts 0 0 0 false);
  if n <? 0 then say 1 "wc: read error" [];; uexit
  else say 1 "%d %d %d %s" [Printf.int_arg (l k); Printf.int_arg (w k); Printf.int_arg (c k); Printf.str_arg name].

Definition wc_file (name : list Z) : U unit :=
  fd ← sysv (Open name 0);
  if fd <? 0 then say 1 "wc: cannot open %s" [Printf.str_arg name];; uexit
  else wc fd name;; sys_ (Close fd).
Definition main (argv : list (list Z)) : U unit :=
  match tail argv with
  | [] => wc 0 [];; uexit
  | files => uforM files wc_file;; uexit
  end.

End Wc.

Module Ls.

(** What is behind the last slash. *)
Fixpoint base_name (path : list Z) : list Z :=
  match path with
  | [] => []
  | x :: path' => if existsb (Z.eqb 47) path then (if existsb (Z.eqb 47) path' then base_name path' else if x =? 47 then path' else path) else path
  end.
Definition fmtname (path : list Z) : list Z :=
  let p := base_name path in
  if DIRSIZ <=? Ulib.strlen p then p else p ++ replicate (Z.to_nat (DIRSIZ - Ulib.strlen p)) 32.

(** [struct stat] *)
Definition st_type (b : list Z) : Z := s16 (get16 b 0).
Definition st_ino (b : list Z) : Z := get32 b 8.
Definition st_size (b : list Z) : Z := get32 b 16.
Definition ls_line (path st : list Z) : U unit :=
  say 1 "%s %d %d %d" [Printf.str_arg (fmtname path); Printf.int_arg (st_type st); Printf.int_arg (st_ino st); Printf.int_arg (st_size st)].

Definition entry_turn (path : list Z) (fd : Z) (_ : unit) : U (unit + unit) :=
  r ← sys (Read fd 16);
  if negb (r_val r =? 16) then mret (inr tt)
  else
    let de := r_bytes r in
    if get16 de 0 =? 0 then mret (inl tt)
    else
      let buf := path ++ [47] ++ Printf.till_nul (slice de 2 DIRSIZ) in
      '(v, st) ← Ulib.stat buf;
      (if v <? 0 then say 1 "ls: cannot stat %s" [Printf.str_arg buf] else ls_line buf st);;
      mret (inl tt).

Definition ls (path : list Z) : U unit :=
  fd ← sysv (Open path 0);
  if fd <? 0 then say 2 "ls: cannot open %s" [Printf.str_arg path]
  else
    r ← sys (Fstat fd);
    if r_val r <? 0 then say 2 "ls: cannot stat %s" [Printf.str_arg path];; sys_ (Close fd)
    else
      let st := r_bytes r in
      (if st_type st =? T_FILE then ls_line path st
       else if st_type st =? T_DIR then
         if 512 <? Ulib.strlen path + 1 + DIRSIZ + 1 then say 1 "ls: path too long" []
         else uloop (entry_turn path fd) tt
       else mret tt);;
      sys_ (Close fd).

Definition main (argv : list (list Z)) : U unit :=
  match tail argv with
  | [] => ls (bytes_of ".");; uexit
  | paths => uforM paths ls;; uexit
  end.

End Ls.

Module Init.

Definition wait_turn (pid : Z) (_ : unit) : U (unit + unit) :=
  wpid ← sysv Wait;
  if (0 <=? wpid) && negb (wpid =? pid) then say 1 "zombie!" [];; mret (inl tt) else mret (inr tt).
Definition shell_turn (_ : unit) : U (unit + unit) :=
  say 1 "init: starting sh" [];;
  pid ← sysv Fork;
  if pid <? 0 then say 1 "init: fork failed" [];; uexit
  else if pid =? 0 then sys_ (Exec (bytes_of "sh") [bytes_of "sh"]);; say 1 "init: exec sh failed" [];; uexit
  else uloop (wait_turn pid) tt;; mret (inl tt).
Definition main : U unit :=
  fd ← sysv (Open (bytes_of "console") 2);
  (if fd <? 0 then sys_ (Mknod (bytes_of "console") 1 1);; sys_ (Open (bytes_of "console") 2) else mret tt);;
  sys_ (Dup 0);;
  sys_ (Dup 0);;
  uloop shell_turn tt.

End Init.

Module KillCmd.

Definition main (argv : list (list Z)) : U unit :=
  match tail argv with
  | [] => say 2 "usage: kill pid..." [];; uexit
  | pids => uforM pids (fun a => sys_ (Kill (Ulib.atoi a)));; uexit
  end.

End KillCmd.

Module Ln.

Definition main (argv : list (list Z)) : U unit :=
  match argv with
  | [_; old; new] =>
    r ← sysv (Link old new);
    (if r <? 0 then say 2 "link %s %s: failed" [Printf.str_arg old; Printf.str_arg new] else mret tt);;
    uexit
  | _ => say 2 "Usage: ln old new" [];; uexit
  end.

End Ln.

(** mkdir.c and rm.c: up to the first call that fails. *)
Fixpoint each_until (call_ : list Z -> call) (msg : string) (args : list (list Z)) : U unit :=
  match args with
  | [] => mret tt
  | a :: rest =>
    r ← sysv (call_ a);
    if r <? 0 then say 2 msg [Printf.str_arg a] else each_until call_ msg rest
  end.

Module MkdirCmd.

Definition main (argv : list (list Z)) : U unit :=
  match tail argv with
  | [] => say 2 "Usage: mkdir files..." [];; uexit
  | args => each_until Mkdir "mkdir: %s failed to create" args;; uexit
  end.

End MkdirCmd.

Module Rm.

Definition main (argv : list (list Z)) : U unit :=
  match tail argv with
  | [] => say 2 "Usage: rm files..." [];; uexit
  | args => each_until Unlink "rm: %s failed to delete" args;; uexit
  end.

End Rm.

Module Zombie.

Definition main : U unit :=
  pid ← sysv Fork;
  (if 0 <? pid then sys_ (Sleep 5) else mret tt);;
  uexit.

End Zombie.

(** ** Reading a file in pieces *)

(** The pieces as the reads return them, none empty; then the end. *)
Definition piece_ok (p : list Z) : Prop := p <> [].
Definition piece_reply (p : list Z) : reply := mkReply (Z.of_nat (length p)) p.

Lemma got_piece p : got (piece_reply p) = p.
Proof. unfold got. cbn. by rewrite Nat2Z.id, firstn_all. Qed.

Lemma piece_pos_val p : piece_ok p -> (0 <? r_val (piece_reply p)) = true.
Proof. intros Hp. apply Z.ltb_lt. cbn. destruct p; [done|cbn; lia]. Qed.

Lemma cat_turns fd : uturns (Cat.cat_turn fd).
Proof.
  intros s rs s' cs rs'. unfold Cat.cat_turn, mbind, U_bind. destruct rs as [|r rs]; [done|]. cbn [sys].
  destruct (0 <? r_val r); [|done]. destruct rs as [|w rs]; [done|]. cbn. intros [= _ _ <-]. lia.
Qed.

(** cat writes the text that it reads, piece by piece, whatever the writes
    return. *)
Lemma cat_copies fd feed rs : Forall (fun '(p, _) => piece_ok p) feed ->
  Cat.cat fd (concat (map (fun '(p, w) => [piece_reply p; w]) feed) ++ mkReply 0 [] :: rs) =
  URet tt (concat (map (fun '(p, _) => [Read fd 512; Write 1 p]) feed) ++ [Read fd 512]) rs.
Proof.
  intros Hf. unfold Cat.cat. enough (E : uloop (Cat.cat_turn fd) tt (concat (map (fun '(p, w) => [piece_reply p; w]) feed) ++ mkReply 0 [] :: rs) =
    URet 0 (concat (map (fun '(p, _) => [Read fd 512; Write 1 p]) feed) ++ [Read fd 512]) rs).
  { unfold mbind, U_bind. rewrite E. cbn. by rewrite app_nil_r. }
  induction Hf as [|[p w] feed Hp Hf IH]; rewrite uloop_unfold by apply cat_turns; [done|]. cbn [map concat app].
  rewrite (ubind_ret _ _ _ (inl tt) [Read fd 512; Write 1 p] (concat (map (fun '(p, w) => [piece_reply p; w]) feed) ++ mkReply 0 [] :: rs)).
  - rewrite IH. done.
  - unfold Cat.cat_turn, mbind, U_bind. cbn [sys]. rewrite piece_pos_val, got_piece by done. done.
Qed.

Lemma wc_turns fd : uturns (Wc.wc_turn fd).
Proof.
  intros s rs s' cs rs'. unfold Wc.wc_turn, mbind, U_bind. destruct rs as [|r rs]; [done|]. cbn. intros [= _ _ <-]. lia.
Qed.

Lemma wc_reads fd pieces : forall k rs, Forall piece_ok pieces ->
  uloop (Wc.wc_turn fd) k (map piece_reply pieces ++ mkReply 0 [] :: rs) =
  URet (fold_left Wc.count_char (concat pieces) k, 0) (replicate (S (length pieces)) (Read fd 512)) rs.
Proof.
  induction pieces as [|p pieces IH]; intros k rs Hp; rewrite uloop_unfold by apply wc_turns; [done|]. inversion Hp; subst. cbn [map app concat].
  rewrite (ubind_ret _ _ _ (inl (fold_left Wc.count_char p k)) [Read fd 512] (map piece_reply pieces ++ mkReply 0 [] :: rs)).
  - rewrite IH by done. by rewrite fold_left_app.
  - unfold Wc.wc_turn, mbind, U_bind. cbn [sys]. rewrite piece_pos_val, got_piece by done. done.
Qed.

Definition space (x : Z) : bool := Sh.is_in [32; 13; 9; 10; 11] x.
Definition newlines (t : list Z) : Z := Z.of_nat (length (List.filter (fun x => x =? 10) t)).
(** Words begin where a character follows white space or nothing. *)
Fixpoint word_starts (gap : bool) (t : list Z) : Z :=
  match t with
  | [] => 0
  | x :: t' => (if gap && negb (space x) then 1 else 0) + word_starts (space x) t'
  end.

Lemma wc_fold t : forall k, let k' := fold_left Wc.count_char t k in
  s32 (Wc.l k') = s32 (Wc.l k + newlines t) /\ s32 (Wc.w k') = s32 (Wc.w k + word_starts (negb (Wc.inword k)) t) /\
  s32 (Wc.c k') = s32 (Wc.c k + Z.of_nat (length t)).
Proof.
  assert (Hs : forall a b, s32 (s32 a + b) = s32 (a + b)).
  { intros a b. apply s32_eqm. by rewrite <- u32_add_l, u32_s32, u32_add_l. }
  induction t as [|x t IH]; intros k; cbn [fold_left length word_starts newlines List.filter]; [rewrite !Z.add_0_r; done|].
  destruct (IH (Wc.count_char k x)) as (H1 & H2 & H3). cbv zeta in *. rewrite H1, H2, H3. unfold newlines, Wc.count_char. cbn [List.filter]. fold (space x).
  destruct (x =? 10), (space x), (Wc.inword k); cbn [negb andb Wc.l Wc.w Wc.c Wc.inword length]; rewrite ?Hs;
    (split; [|split]); apply (f_equal s32); lia.
Qed.
