(* ===== verification/Hw.v ===== *)
(** * Interrupt controllers, clock and timer (picirq.c, ioapic.c, lapic.c, timer.c)

    The code that programs devices is a program over device accesses: a write
    to a port or to a device register is a call without a reply, a read is a
    call whose reply is the value.  Shown: [cmostime] gives the date that the
    clock holds once two readings agree ([cmostime_reads]), in either encoding
    of the clock; the I/O APIC's table has every interrupt disabled after
    [ioapicinit], and [ioapicenable] enables one of them for one processor;
    [picenable] clears one bit of the mask. *)

From stdpp Require Import base list strings.
From S2P Require Import Prelude Kernel User Trap.

(** ** Device accesses *)

Inductive io : Type :=
| Out (port v : Z) | In (port : Z) | Insl (port cnt : Z)
| Store (addr v : Z) | Store16 (addr v : Z) | Load (addr : Z)
| Readeflags | Cprintf (fmt : string) (args : list Z)
| Kalloc | Memmove (dst : Z) (bs : list Z).

Notation HW := (prog io reply).

(** [outb], [inb], and the 32-bit accesses to device registers. *)
Definition outb (port v : Z) : HW unit := tell (Out port (u8 v)).
Definition inb (port : Z) : HW Z := v ← sysv (In port); mret (u8 v).
Definition store (addr v : Z) : HW unit := tell (Store addr (u32 v)).
Definition load (addr : Z) : HW Z := v ← sysv (Load addr); mret (u32 v).

Definition IRQ_ERROR : Z := 19.

(** ** picirq.c *)

Module Pic.

Definition IO_PIC1 : Z := 32.
Definition IO_PIC2 : Z := 160.
Definition IRQ_SLAVE : Z := 2.

(** The functions are given [irqmask] and return the new one. *)
Definition irqmask : Z := Z.land 65535 (Z.lnot (Z.shiftl 1 IRQ_SLAVE)).
Definition picsetmask (mask : Z) : HW Z :=
  outb (IO_PIC1 + 1) mask;;
  outb (IO_PIC2 + 1) (Z.shiftr mask 8);;
  mret mask.
Definition picenable (irqmask irq : Z) : HW Z :=
  picsetmask (u16 (Z.land irqmask (Z.lnot (Z.shiftl 1 irq)))).
Definition picinit (irqmask : Z) : HW Z :=
  outb (IO_PIC1 + 1) 255;;
  outb (IO_PIC2 + 1) 255;;
  outb IO_PIC1 17;;
  outb (IO_PIC1 + 1) T_IRQ0;;
  outb (IO_PIC1 + 1) (Z.shiftl 1 IRQ_SLAVE);;
  outb (IO_PIC1 + 1) 3;;
  outb IO_PIC2 17;;
  outb (IO_PIC2 + 1) (T_IRQ0 + 8);;
  outb (IO_PIC2 + 1) IRQ_SLAVE;;
  outb (IO_PIC2 + 1) 3;;
  outb IO_PIC1 104;;
  outb IO_PIC1 10;;
  outb IO_PIC2 104;;
  outb IO_PIC2 10;;
  if negb (irqmask =? 65535) then picsetmask irqmask else mret irqmask.

End Pic.

(** ** ioapic.c *)

Module Ioapic.

Definition IOAPIC : Z := 4273995776.
Definition REG_ID : Z := 0.
Definition REG_VER : Z := 1.
Definition REG_TABLE : Z := 16.
Definition INT_DISABLED : Z := 65536.

(** [ioapic->reg] is at offset 0, [ioapic->data] at offset 16. *)
Definition ioapicread (reg : Z) : HW Z := store IOAPIC reg;; load (IOAPIC + 16).
Definition ioapicwrite (reg data : Z) : HW unit := store IOAPIC reg;; store (IOAPIC + 16) data.

Definition disable_int (i : Z) : HW unit :=
  ioapicwrite (REG_TABLE + 2 * i) (Z.lor INT_DISABLED (T_IRQ0 + i));;
  ioapicwrite (REG_TABLE + 2 * i + 1) 0.
Definition ioapicinit (ismp : bool) (ioapicid : Z) : HW unit :=
  if negb ismp then mret tt
  else
    v ← ioapicread REG_VER;
    let maxintr := Z.land (Z.shiftr v 16) 255 in
    w ← ioapicread REG_ID;
    let id := Z.shiftr w 24 in
    (if negb (id =? ioapicid) then tell (Cprintf "ioapicinit: id isn't equal to ioapicid; not a MP" []) else mret tt);;
    uforM (map Z.of_nat (seq 0 (Z.to_nat (maxintr + 1)))) disable_int.
Definition ioapicenable (ismp : bool) (irq cpunum : Z) : HW unit :=
  if negb ismp then mret tt
  else
    ioapicwrite (REG_TABLE + 2 * irq) (T_IRQ0 + irq);;
    ioapicwrite (REG_TABLE + 2 * irq + 1) (Z.shiftl cpunum 24).

End Ioapic.

(** ** timer.c *)

Module Timer.

Definition IO_TIMER1 : Z := 64.
Definition TIMER_FREQ : Z := 1193182.
Definition TIMER_DIV (x : Z) : Z := (TIMER_FREQ + x / 2) / x.
Definition TIMER_MODE : Z := IO_TIMER1 + 3.
Definition TIMER_SEL0 : Z := 0.
Definition TIMER_RATEGEN : Z := 4.
Definition TIMER_16BIT : Z := 48.

Definition timerinit (irqmask : Z) : HW Z :=
  outb TIMER_MODE (Z.lor (Z.lor TIMER_SEL0 TIMER_RATEGEN) TIMER_16BIT);;
  outb IO_TIMER1 (TIMER_DIV 100 mod 256);;
  outb IO_TIMER1 (TIMER_DIV 100 / 256);;
  Pic.picenable irqmask IRQ_TIMER.

End Timer.

(** ** lapic.c *)

Module Lapic.

(** Registers, as indices of words. *)
Definition ID : Z := 32 / 4.
Definition VER : Z := 48 / 4.
Definition TPR : Z := 128 / 4.
Definition EOI : Z := 176 / 4.
Definition SVR : Z := 240 / 4.
Definition ENABLE : Z := 256.
Definition ESR : Z := 640 / 4.
Definition ICRLO : Z := 768 / 4.
Definition INIT : Z := 1280.
Definition STARTUP : Z := 1536.
Definition DELIVS : Z := 4096.
Definition ASSERT : Z := 16384.
Definition LEVEL : Z := 32768.
Definition BCAST : Z := 524288.
Definition ICRHI : Z := 784 / 4.
Definition TIMER : Z := 800 / 4.
Definition X1 : Z := 11.
Definition PERIODIC : Z := 131072.
Definition PCINT : Z := 832 / 4.
Definition LINT0 : Z := 848 / 4.
Definition LINT1 : Z := 864 / 4.
Definition ERROR : Z := 880 / 4.
Definition MASKED : Z := 65536.
Definition TICR : Z := 896 / 4.
Definition TDCR : Z := 992 / 4.

Section Regs.
(** The address of the registers; [0] if there is no local APIC. *)
Variable lapic : Z.

Definition reg (index : Z) : Z := u32 (lapic + 4 * index).
Definition lapicw (index value : Z) : HW unit := store (reg index) value;; _ ← load (reg ID); mret tt.

(** [while(lapic[ICRLO] & DELIVS)] *)
Definition deliver_turn (_ : unit) : HW (unit + unit) :=
  v ← load (reg ICRLO);
  mret (if truth (Z.land v DELIVS) then inl tt else inr tt).
Definition lapicinit : HW unit :=
  if lapic =? 0 then mret tt
  else
    lapicw SVR (Z.lor ENABLE (T_IRQ0 + IRQ_SPURIOUS));;
    lapicw TDCR X1;;
    lapicw TIMER (Z.lor PERIODIC (T_IRQ0 + IRQ_TIMER));;
    lapicw TICR 10000000;;
    lapicw LINT0 MASKED;;
    lapicw LINT1 MASKED;;
    v ← load (reg VER);
    (if 4 <=? Z.land (Z.shiftr v 16) 255 then lapicw PCINT MASKED else mret tt);;
    lapicw ERROR (T_IRQ0 + IRQ_ERROR);;
    lapicw ESR 0;;
    lapicw ESR 0;;
    lapicw EOI 0;;
    lapicw ICRHI 0;;
    lapicw ICRLO (Z.lor (Z.lor BCAST INIT) LEVEL);;
    uloop deliver_turn tt;;
    lapicw TPR 0.

(** [n] is the static counter of warnings; the result is the number of the
    processor and the counter. *)
Definition cpunum (n caller : Z) : HW (Z * Z) :=
  fl ← sysv Readeflags;
  n' ← (if truth (Z.land fl FL_IF) then
          (if n =? 0 then tell (Cprintf "cpu called from %x with interrupts enabled" [caller]) else mret tt);;
          mret (s32 (n + 1))
        else mret n);
  if truth lapic then v ← load (reg ID); mret (Z.shiftr v 24, n') else mret (0, n').
Definition lapiceoi : HW unit := if truth lapic then lapicw EOI 0 else mret tt.

Definition CMOS_PORT : Z := 112.
Definition CMOS_RETURN : Z := 113.

(** The warm reset vector: the real-mode address 40:67. *)
Definition wrv : Z := p2v (Z.lor (Z.shiftl 64 4) 103).
Definition startup_ipi (apicid addr : Z) : HW unit :=
  lapicw ICRHI (Z.shiftl apicid 24);;
  lapicw ICRLO (Z.lor STARTUP (Z.shiftr addr 12)).
(** [microdelay] does nothing. *)
Definition lapicstartap (apicid addr : Z) : HW unit :=
  outb CMOS_PORT 15;;
  outb (CMOS_PORT + 1) 10;;
  tell (Store16 wrv 0);;
  tell (Store16 (wrv + 2) (u16 (Z.shiftr addr 4)));;
  lapicw ICRHI (Z.shiftl apicid 24);;
  lapicw ICRLO (Z.lor (Z.lor INIT LEVEL) ASSERT);;
  lapicw ICRLO (Z.lor INIT LEVEL);;
  startup_ipi apicid addr;;
  startup_ipi apicid addr.

End Regs.

(** *** The clock *)

Record rtcdate : Type := mkDate { second : Z; minute : Z; hour : Z; day : Z; month : Z; year : Z }.

Definition CMOS_STATA : Z := 10.
Definition CMOS_STATB : Z := 11.
Definition CMOS_UIP : Z := Z.shiftl 1 7.

Definition cmos_read (reg : Z) : HW Z := outb CMOS_PORT reg;; inb CMOS_RETURN.
Definition fill_rtcdate : HW rtcdate :=
  s ← cmos_read 0;
  mi ← cmos_read 2;
  h ← cmos_read 4;
  d ← cmos_read 7;
  mo ← cmos_read 8;
  y ← cmos_read 9;
  mret (mkDate s mi h d mo y).

(** [memcmp(&t1, &t2, sizeof(t1)) == 0] *)
Definition date_eqb (a b : rtcdate) : bool :=
  (second a =? second b) && (minute a =? minute b) && (hour a =? hour b) &&
  (day a =? day b) && (month a =? month b) && (year a =? year b).
Definition read_turn (_ : unit) : HW (unit + rtcdate) :=
  t1 ← fill_rtcdate;
  a ← cmos_read CMOS_STATA;
  if truth (Z.land a CMOS_UIP) then mret (inl tt)
  else
    t2 ← fill_rtcdate;
    mret (if date_eqb t1 t2 then inr t1 else inl tt).

Definition CONV (x : Z) : Z := u32 (Z.shiftr x 4 * 10 + Z.land x 15).
Definition map_date (f : Z -> Z) (t : rtcdate) : rtcdate :=
  mkDate (f (second t)) (f (minute t)) (f (hour t)) (f (day t)) (f (month t)) (f (year t)).
Definition cmostime : HW rtcdate :=
  sb ← cmos_read CMOS_STATB;
  let bcd := Z.land sb (Z.shiftl 1 2) =? 0 in
  t1 ← uloop read_turn tt;
  let t := if bcd then map_date CONV t1 else t1 in
  mret (mkDate (second t) (minute t) (hour t) (day t) (month t) (u32 (year t + 2000))).

End Lapic.

(** ** What the controllers' registers hold *)

Lemma load_reply a r rs : load a (r :: rs) = URet (u32 (r_val r)) [Load a] rs.
Proof. done. Qed.
Lemma inb_reply p r rs : inb p (r :: rs) = URet (u8 (r_val r)) [In p] rs.
Proof. done. Qed.

(** The I/O APIC: the selected register, and the registers. *)
Fixpoint ioapic_regs (sel : Z) (r : Z -> Z) (cs : list io) : Z * (Z -> Z) :=
  match cs with
  | [] => (sel, r)
  | Store a v :: cs' =>
    if a =? Ioapic.IOAPIC then ioapic_regs v r cs'
    else if a =? Ioapic.IOAPIC + 16 then ioapic_regs sel (fun i => if i =? sel then v else r i) cs'
    else ioapic_regs sel r cs'
  | _ :: cs' => ioapic_regs sel r cs'
  end.
Definition ioapic_after (r : Z -> Z) (cs : list io) : Z -> Z := snd (ioapic_regs 0 r cs).

Section IoapicFacts.
Import Ioapic.

Lemma ioapic_regs_app cs cs' sel r :
  ioapic_regs sel r (cs ++ cs') = ioapic_regs (fst (ioapic_regs sel r cs)) (snd (ioapic_regs sel r cs)) cs'.
Proof.
  revert sel r. induction cs as [|c cs IH]; intros sel r; [done|]. destruct c; cbn [app ioapic_regs]; try apply IH.
  repeat (case_match; try apply IH).
Qed.

Definition write_calls (rg data : Z) : list io := [Store IOAPIC (u32 rg); Store (IOAPIC + 16) (u32 data)].

Lemma ioapicwrite_calls rg data rs : ioapicwrite rg data rs = URet tt (write_calls rg data) rs.
Proof. done. Qed.

Definition disable_calls (i : Z) : list io :=
  write_calls (REG_TABLE + 2 * i) (Z.lor INT_DISABLED (T_IRQ0 + i)) ++ write_calls (REG_TABLE + 2 * i + 1) 0.

Lemma disable_all_calls l rs : uforM l disable_int rs = URet tt (concat (map disable_calls l)) rs.
Proof.
  revert rs. induction l as [|i l IH]; intros rs; [done|]. cbn [uforM map concat].
  by rewrite (ubind_ret _ _ _ tt (disable_calls i) rs eq_refl), IH.
Qed.

(** The redirection entry of an interrupt: disabled, with its vector, for no CPU. *)
Definition disabled (r : Z -> Z) (i : Z) : Prop :=
  r (REG_TABLE + 2 * i) = Z.lor INT_DISABLED (T_IRQ0 + i) /\ r (REG_TABLE + 2 * i + 1) = 0.

Lemma regs_write sel r rg data :
  0 <= rg < W32 -> ioapic_regs sel r (write_calls rg data) = (rg, fun i => if i =? rg then u32 data else r i).
Proof. intros H. unfold write_calls. by rewrite (u32_small rg H). Qed.

Lemma regs_disable sel r i :
  0 <= i < 256 -> exists sel', ioapic_regs sel r (disable_calls i) =
    (sel', fun j => if j =? REG_TABLE + 2 * i + 1 then 0 else if j =? REG_TABLE + 2 * i then Z.lor INT_DISABLED (T_IRQ0 + i) else r j).
Proof.
  intros Hi. unfold disable_calls. rewrite ioapic_regs_app, !regs_write by (unfold REG_TABLE, W32; lia). cbn [fst snd].
  eexists. rewrite (u32_small 0), (u32_small (Z.lor _ _)); [done| |lia]. unfold INT_DISABLED, T_IRQ0.
  split; [apply Z.lor_nonneg; lia|]. apply Z.log2_lt_cancel. rewrite Z.log2_lor by lia.
  apply Z.max_lub_lt; [done|]. apply (Z.le_lt_trans _ (Z.log2 288)); [apply Z.log2_le_mono; lia|done].
Qed.

Lemma regs_disable_all n : (n <= 256)%nat -> forall sel r i, 0 <= i < Z.of_nat n ->
  disabled (snd (ioapic_regs sel r (concat (map disable_calls (map Z.of_nat (seq 0 n)))))) i.
Proof.
  induction n as [|n IH]; intros Hn sel r i Hi; [lia|].
  rewrite seq_S, !map_app, concat_app, ioapic_regs_app. cbn [map concat]. rewrite app_nil_r, Nat.add_0_l.
  destruct (regs_disable (fst (ioapic_regs sel r (concat (map disable_calls (map Z.of_nat (seq 0 n))))))
    (snd (ioapic_regs sel r (concat (map disable_calls (map Z.of_nat (seq 0 n)))))) (Z.of_nat n) ltac:(lia)) as [sel' ->]. cbn [snd].
  destruct (decide (i = Z.of_nat n)) as [->|]; unfold disabled.
  - repeat (zcase; try lia).
  - destruct (IH ltac:(lia) sel r i ltac:(lia)) as [H1 H2]. repeat (zcase; try lia); done.
Qed.

(** Every interrupt the controller has is disabled after [ioapicinit]. *)
Lemma ioapicinit_disables ioapicid v w rs r i :
  0 <= i <= Z.land (Z.shiftr (u32 (r_val v)) 16) 255 ->
  exists cs, ioapicinit true ioapicid (v :: w :: rs) = URet tt cs rs /\ disabled (ioapic_after r cs) i.
Proof.
  intros Hi. set (maxintr := Z.land (Z.shiftr (u32 (r_val v)) 16) 255) in *.
  assert (0 <= maxintr < 256) as Hm. { unfold maxintr. change 255 with (Z.ones 8). rewrite Z.land_ones by lia. apply Z.mod_pos_bound. lia. }
  set (n := Z.to_nat (maxintr + 1)).
  exists ([Store IOAPIC 1; Load (IOAPIC + 16); Store IOAPIC 0; Load (IOAPIC + 16)] ++
    (if negb (Z.shiftr (u32 (r_val w)) 24 =? ioapicid) then [Cprintf "ioapicinit: id isn't equal to ioapicid; not a MP" []] else []) ++
    concat (map disable_calls (map Z.of_nat (seq 0 n)))).
  split.
  - unfold ioapicinit. cbn [negb].
    rewrite (ubind_ret (ioapicread REG_VER) _ (v :: w :: rs) (u32 (r_val v)) [Store IOAPIC 1; Load (IOAPIC + 16)] (w :: rs) eq_refl). cbn zeta. fold maxintr. fold n.
    rewrite (ubind_ret (ioapicread REG_ID) _ (w :: rs) (u32 (r_val w)) [Store IOAPIC 0; Load (IOAPIC + 16)] rs eq_refl). cbn zeta.
    destruct (negb (Z.shiftr (u32 (r_val w)) 24 =? ioapicid));
      (erewrite ubind_ret; [|reflexivity]); by rewrite disable_all_calls.
  - unfold ioapic_after. rewrite ioapic_regs_app, ioapic_regs_app. apply regs_disable_all; unfold n; lia.
Qed.

(** [ioapicenable] enables one interrupt for one processor and leaves the
    others as they are. *)
Lemma ioapicenable_enables irq cpu rs r :
  0 <= irq < 24 -> 0 <= cpu < 256 ->
  exists cs, ioapicenable true irq cpu rs = URet tt cs rs /\
    ioapic_after r cs (REG_TABLE + 2 * irq) = T_IRQ0 + irq /\
    ioapic_after r cs (REG_TABLE + 2 * irq + 1) = cpu * 2 ^ 24 /\
    (forall i, i <> irq -> disabled r i -> disabled (ioapic_after r cs) i).
Proof.
  intros Hi Hc. exists (write_calls (REG_TABLE + 2 * irq) (T_IRQ0 + irq) ++ write_calls (REG_TABLE + 2 * irq + 1) (Z.shiftl cpu 24)).
  split; [done|]. unfold ioapic_after. rewrite ioapic_regs_app.
  rewrite !regs_write by (unfold REG_TABLE, W32; lia). cbn [fst snd]. rewrite Z.shiftl_mul_pow2 by lia.
  rewrite !u32_small by (unfold T_IRQ0; lia). repeat split; [repeat (zcase; try lia)..|].
  all: destruct H0; repeat (zcase; try lia); done.
Qed.

End IoapicFacts.

(** [picenable] gives the two controllers the two halves of a mask that has
    the bit of [irq] cleared and the others as before. *)
Lemma picenable_clears mask irq rs :
  0 <= mask < 65536 -> 0 <= irq < 16 ->
  exists mask', Pic.picenable mask irq rs = URet mask' [Out 33 (mask' mod 256); Out 161 (mask' / 256)] rs /\
    (forall i, 0 <= i < 16 -> Z.testbit mask' i = if i =? irq then false else Z.testbit mask i).
Proof.
  intros Hm Hirq. exists (u16 (Z.land mask (Z.lnot (Z.shiftl 1 irq)))).
  assert (0 <= u16 (Z.land mask (Z.lnot (Z.shiftl 1 irq))) < 65536) as Hr by (apply Z.mod_pos_bound; lia). split.
  - unfold Pic.picenable. set (m' := u16 _) in *.
    change (URet (R := reply) m' [Out 33 (u8 m'); Out 161 (u8 (Z.shiftr m' 8))] rs = URet m' [Out 33 (m' mod 256); Out 161 (m' / 256)] rs).
    unfold u8. rewrite Z.shiftr_div_pow2 by lia. change (2 ^ 8) with 256.
    rewrite (Z.mod_small (_ / 256)); [done|]. split; [apply Z.div_pos; lia|]. apply Z.div_lt_upper_bound; lia.
  - intros i Hi. unfold u16. change 65536 with (2 ^ 16).
    rewrite Z.mod_pow2_bits_low, Z.land_spec, Z.lnot_spec, Z.shiftl_spec by lia.
    destruct (Z.eqb_spec i irq) as [->|Hn].
    + rewrite Z.sub_diag. cbn. apply andb_false_r.
    + assert (Z.testbit 1 (i - irq) = false) as ->; [|by rewrite andb_true_r].
      destruct (decide (i < irq)); [apply Z.testbit_neg_r; lia|]. apply (Z.bits_above_log2 1); cbn; lia.
Qed.

(** ** Reading the clock *)

Section Clock.
Import Lapic.

Definition byte_reply (v : Z) : reply := mkReply v [].
Definition date_replies (t : rtcdate) : list reply :=
  map byte_reply [second t; minute t; hour t; day t; month t; year t].

(** One pass of the loop that does not succeed: an update is in progress, or
    the second reading differs from the first. *)
Inductive attempt : Type :=
| Updating (t : rtcdate) (a : Z)
| Changed (t : rtcdate) (a : Z) (t' : rtcdate).
Definition fails (x : attempt) : Prop :=
  match x with
  | Updating _ a => truth (Z.land (u8 a) CMOS_UIP) = true
  | Changed t a t' => truth (Z.land (u8 a) CMOS_UIP) = false /\ map_date u8 t <> map_date u8 t'
  end.
Definition attempt_replies (x : attempt) : list reply :=
  match x with
  | Updating t a => date_replies t ++ [byte_reply a]
  | Changed t a t' => date_replies t ++ byte_reply a :: date_replies t'
  end.

(** How the clock stores a number, given its status register B. *)
Definition encode (sb x : Z) : Z := if Z.land (u8 sb) (Z.shiftl 1 2) =? 0 then x / 10 * 16 + x mod 10 else x.
Definition two_digits (t : rtcdate) : Prop :=
  Forall (fun x => 0 <= x < 100) [second t; minute t; hour t; day t; month t; year t].

Lemma fill_rtcdate_reads s mi h d mo y rs : fill_rtcdate (s :: mi :: h :: d :: mo :: y :: rs) =
  URet (map_date u8 (mkDate (r_val s) (r_val mi) (r_val h) (r_val d) (r_val mo) (r_val y)))
    (concat (map (fun rg => [Out CMOS_PORT rg; In CMOS_RETURN]) [0; 2; 4; 7; 8; 9])) rs.
Proof. done. Qed.

Lemma fill_reads t rs : exists cs, fill_rtcdate (date_replies t ++ rs) = URet (map_date u8 t) cs rs.
Proof. by eexists. Qed.

Lemma cmos_reads rg r rs : cmos_read rg (r :: rs) = URet (u8 (r_val r)) [Out CMOS_PORT (u8 rg); In CMOS_RETURN] rs.
Proof. done. Qed.

Lemma date_eqb_spec a b : reflect (a = b) (date_eqb a b).
Proof.
  apply iff_reflect. unfold date_eqb. rewrite !andb_true_iff, !Z.eqb_eq.
  destruct a, b; cbn. split; [by intros [= -> -> -> -> -> ->]|by intros [[[[[-> ->] ->] ->] ->] ->]].
Qed.

Lemma CONV_encode x : 0 <= x < 100 -> CONV (u8 (x / 10 * 16 + x mod 10)) = x.
Proof.
  intros Hx. assert (0 <= x / 10 < 10) by (split; [apply Z.div_pos|apply Z.div_lt_upper_bound]; lia).
  pose proof (Z.mod_pos_bound x 10 ltac:(lia)). unfold CONV, u8. rewrite (Z.mod_small _ 256) by lia.
  rewrite Z.shiftr_div_pow2 by lia. change 15 with (Z.ones 4). rewrite Z.land_ones by lia. change (2 ^ 4) with 16.
  rewrite Z.div_add_l, (Z.div_small (x mod 10)), Z.add_comm, (Z.add_comm (_ * 16)), Z_mod_plus_full by lia.
  rewrite (Z.mod_small (x mod 10)) by lia. rewrite u32_small by lia. pose proof (Z.div_mod x 10 ltac:(lia)). lia.
Qed.

Lemma read_turn_fails x rs : fails x -> exists cs, read_turn tt (attempt_replies x ++ rs) = URet (inl tt) cs rs.
Proof.
  destruct x as [t a|t a t']; cbn [fails attempt_replies]; [intros Ha|intros [Ha Ht]]; unfold read_turn; rewrite <- app_assoc.
  - destruct (fill_reads t ([byte_reply a] ++ rs)) as [cs E]. rewrite (ubind_ret _ _ _ _ _ _ E). clear E.
    cbn [app]. rewrite (ubind_ret _ _ _ _ _ _ (cmos_reads _ (byte_reply a) rs)). cbn [r_val byte_reply]. rewrite Ha. by eexists.
  - cbn [app]. destruct (fill_reads t (byte_reply a :: date_replies t' ++ rs)) as [cs E]. rewrite (ubind_ret _ _ _ _ _ _ E). clear E.
    rewrite (ubind_ret _ _ _ _ _ _ (cmos_reads _ (byte_reply a) _)). cbn [r_val byte_reply]. rewrite Ha.
    destruct (fill_reads t' rs) as [cs' E']. rewrite (ubind_ret _ _ _ _ _ _ E').
    destruct (date_eqb_spec (map_date u8 t) (map_date u8 t')); [done|]. by eexists.
Qed.

Lemma read_turn_succeeds t a rs :
  truth (Z.land (u8 a) CMOS_UIP) = false ->
  exists cs, read_turn tt (date_replies t ++ byte_reply a :: date_replies t ++ rs) = URet (inr (map_date u8 t)) cs rs.
Proof.
  intros Ha. unfold read_turn. destruct (fill_reads t (byte_reply a :: date_replies t ++ rs)) as [cs E].
  rewrite (ubind_ret _ _ _ _ _ _ E). clear E.
  rewrite (ubind_ret _ _ _ _ _ _ (cmos_reads _ (byte_reply a) _)). cbn [r_val byte_reply]. rewrite Ha.
  destruct (fill_reads t rs) as [cs' E']. rewrite (ubind_ret _ _ _ _ _ _ E').
  destruct (date_eqb_spec (map_date u8 t) (map_date u8 t)); [|done]. by eexists.
Qed.

Lemma read_turns : uturns read_turn.
Proof.
  intros [] rs s' cs rs' E. destruct rs as [|r0 rs]; [done|].
  do 6 (destruct rs as [|? rs]; [done|]). unfold read_turn in E.
  rewrite (ubind_ret _ _ _ _ _ _ (fill_rtcdate_reads _ _ _ _ _ _ _)) in E.
  rewrite (ubind_ret _ _ _ _ _ _ (cmos_reads _ _ _)) in E. destruct (truth _).
  { injection E; intros; subst; cbn; lia. }
  do 6 (destruct rs as [|? rs]; [done|]). rewrite (ubind_ret _ _ _ _ _ _ (fill_rtcdate_reads _ _ _ _ _ _ _)) in E.
  destruct (date_eqb _ _); [done|]. injection E; intros; subst; cbn; lia.
Qed.

Lemma read_loop bad t a rs :
  Forall fails bad -> truth (Z.land (u8 a) CMOS_UIP) = false ->
  exists cs, uloop read_turn tt (concat (map attempt_replies bad) ++ date_replies t ++ byte_reply a :: date_replies t ++ rs) =
    URet (map_date u8 t) cs rs.
Proof.
  intros Hb Ha. induction Hb as [|x bad Hx _ [cs IH]]; cbn [map concat]; rewrite (uloop_unfold _ _ _ read_turns).
  - destruct (read_turn_succeeds t a rs Ha) as [cs E]. rewrite (ubind_ret _ _ _ _ _ _ E). by eexists.
  - rewrite <- app_assoc. set (rest := concat (map attempt_replies bad) ++ _) in *.
    destruct (read_turn_fails x rest Hx) as [cs' E]. rewrite (ubind_ret _ _ _ _ _ _ E), IH. by eexists.
Qed.

Lemma decode_date sb t : two_digits t ->
  (if Z.land (u8 sb) (Z.shiftl 1 2) =? 0 then map_date CONV (map_date u8 (map_date (encode sb) t))
   else map_date u8 (map_date (encode sb) t)) = t.
Proof.
  unfold two_digits, encode. rewrite !Forall_cons. intros (H1 & H2 & H3 & H4 & H5 & H6 & _). destruct t; cbn [second minute hour day month year] in *.
  destruct (Z.land (u8 sb) (Z.shiftl 1 2) =? 0); unfold map_date; cbn [second minute hour day month year];
    [by rewrite !CONV_encode by done|unfold u8; by rewrite !Z.mod_small by lia].
Qed.

(** [cmostime] returns the date of the clock, whichever encoding the
    clock uses, after any number of passes in which an update was going on or
    the two readings differed. *)
Theorem cmostime_reads sb bad t a rs :
  two_digits t -> Forall fails bad -> truth (Z.land (u8 a) CMOS_UIP) = false ->
  let now := date_replies (map_date (encode sb) t) in
  exists cs, cmostime (byte_reply sb :: concat (map attempt_replies bad) ++ now ++ byte_reply a :: now ++ rs) =
    URet (mkDate (second t) (minute t) (hour t) (day t) (month t) (year t + 2000)) cs rs.
Proof.
  intros Ht Hb Ha now. unfold cmostime. rewrite (ubind_ret _ _ _ _ _ _ (cmos_reads _ (byte_reply sb) _)). cbn zeta.
  cbn [r_val byte_reply].
  destruct (read_loop bad (map_date (encode sb) t) a rs Hb Ha) as [cs E]. rewrite (ubind_ret _ _ _ _ _ _ E).
  rewrite (decode_date sb t Ht). unfold two_digits in Ht. rewrite !Forall_cons in Ht. rewrite u32_small by lia. by eexists.
Qed.

Lemma cmostime_reads_witness : exists cs,
  cmostime (map byte_reply ([2] ++ [1; 0; 0; 0; 0; 0; 128] ++ [89; 89; 35; 49; 18; 22; 0; 0; 0; 0; 1; 1; 23] ++
    [0; 0; 0; 1; 1; 23; 38; 0; 0; 0; 1; 1; 23])) = URet (mkDate 0 0 0 1 1 2017) cs [].
Proof.
  apply (cmostime_reads 2 [Updating (mkDate 1 0 0 0 0 0) 128; Changed (mkDate 89 89 35 49 18 22) 0 (mkDate 0 0 0 1 1 23)]
    (mkDate 0 0 0 1 1 17) 38 []).
  - by repeat constructor.
  - by repeat constructor.
  - done.
Defined.

End Clock.
