(* ===== verification/Mp.v ===== *)
(** * Multiprocessor tables (mp.c, mp.h)

    [mpinit] searches physical memory for the MP structures and counts the
    processors.  Shown: a search returns the first structure with the
    signature and a zero checksum; on a table of known entries the loop ends
    and counts them, up to the NCPU for which there is room, and writes past the
    array when there are more ([mpinit_counts]); on an entry of an unknown type
    it never ends, since the default case does not advance the pointer. *)

From stdpp Require Import base list strings.
From S2P Require Import Prelude Memory Bytes Kernel User Trap Hw.

Module Mp.

(** ** Definitions *)

(** The kernel reads physical memory at virtual addresses from KERNBASE.  A
    pointer that passes the end of the address space is undefined in C; here
    it does not wrap around. *)
Definition rd8 (m : mem) (p : Z) : Z := ld8 m (v2p p).
Definition rd16 (m : mem) (p : Z) : Z := rd8 m p + 256 * rd8 m (p + 1).
Definition rd32 (m : mem) (p : Z) : Z := ld32 m (v2p p).
Definition memcmp4 (m : mem) (p : Z) (s : string) : bool := bool_decide (mread m (v2p p) 4 = bytes_of s).

Fixpoint sum_loop (m : mem) (addr : Z) (n : nat) (sum : Z) : Z :=
  match n with
  | O => sum
  | S n' => sum_loop m (addr + 1) n' (sum + rd8 m addr)
  end.
Definition sum (m : mem) (addr len : Z) : Z := u8 (sum_loop m addr (Z.to_nat len) 0).

(** [struct mp] is 16 bytes. *)
Definition mp_physaddr (m : mem) (mp : Z) : Z := rd32 m (mp + 4).
Definition mp_imcrp (m : mem) (mp : Z) : Z := rd8 m (mp + 12).
(** [struct mpconf] is 44 bytes. *)
Definition conf_length (m : mem) (conf : Z) : Z := rd16 m (conf + 4).
Definition conf_version (m : mem) (conf : Z) : Z := rd8 m (conf + 6).
Definition conf_lapicaddr (m : mem) (conf : Z) : Z := rd32 m (conf + 36).
(** [struct mpproc] is 20 bytes, [struct mpioapic] 8. *)
Definition proc_apicid (m : mem) (p : Z) : Z := rd8 m (p + 1).
Definition proc_flags (m : mem) (p : Z) : Z := rd8 m (p + 3).
Definition ioapic_apicno (m : mem) (p : Z) : Z := rd8 m (p + 1).

Definition MPPROC : Z := 0.
Definition MPBUS : Z := 1.
Definition MPIOAPIC : Z := 2.
Definition MPIOINTR : Z := 3.
Definition MPLINTR : Z := 4.
Definition MPBOOT : Z := 2.

(** Each turn looks at the next 16 bytes. *)
Fixpoint search1_loop (n : nat) (m : mem) (p e : Z) : Z :=
  match n with
  | O => 0
  | S n' =>
    if p <? e then
      if memcmp4 m p "_MP_" && (sum m p 16 =? 0) then p else search1_loop n' m (p + 16) e
    else 0
  end.
Definition mpsearch1 (m : mem) (a len : Z) : Z :=
  let addr := p2v a in search1_loop (Z.to_nat ((len + 15) / 16)) m addr (addr + len).

Definition mpsearch (m : mem) : Z :=
  let bda := p2v 1024 in
  let p := Z.shiftl (Z.lor (Z.shiftl (rd8 m (bda + 15)) 8) (rd8 m (bda + 14))) 4 in
  let first :=
    if truth p then mpsearch1 m p 1024
    else let p := Z.lor (Z.shiftl (rd8 m (bda + 20)) 8) (rd8 m (bda + 19)) * 1024 in mpsearch1 m (u32 (p - 1024)) 1024 in
  if truth first then first else mpsearch1 m 983040 65536.

(** The two structures, [*pmp] and the result. *)
Definition mpconfig (m : mem) : option (Z * Z) :=
  let mp := mpsearch m in
  if (mp =? 0) || (mp_physaddr m mp =? 0) then None
  else
    let conf := p2v (mp_physaddr m mp) in
    if negb (memcmp4 m conf "PCMP") then None
    else if negb (conf_version m conf =? 1) && negb (conf_version m conf =? 4) then None
    else if negb (sum m conf (conf_length m conf) =? 0) then None
    else Some (mp, conf).

Definition NCPU : Z := 8.
(** The globals that [mpinit] sets; [cpu_ids] are the [id] fields of
    [cpus[NCPU]]. *)
Record mpstate : Type := mkMp { bcpu : Z; ismp : bool; ncpu : Z; ioapicid : Z; lapic : Z; cpu_ids : list Z }.

(** One turn of the loop; the new [p].  [None] is a write past [cpus]. *)
Definition mpentry (m : mem) (p : Z) (s : mpstate) : HW (option (Z * mpstate)) :=
  let ty := rd8 m p in
  if ty =? MPPROC then
    ok ← (if negb (ncpu s =? proc_apicid m p) then
            tell (Cprintf "mpinit: ncpu=%d apicid=%d" [ncpu s; proc_apicid m p]);; mret false
          else mret (ismp s));
    let b := if truth (Z.land (proc_flags m p) MPBOOT) then ncpu s else bcpu s in
    if NCPU <=? ncpu s then mret None else
    mret (Some (p + 20, mkMp b ok (ncpu s + 1) (ioapicid s) (lapic s) (<[Z.to_nat (ncpu s) := ncpu s]> (cpu_ids s))))
  else if ty =? MPIOAPIC then
    mret (Some (p + 8, mkMp (bcpu s) (ismp s) (ncpu s) (ioapic_apicno m p) (lapic s) (cpu_ids s)))
  else if (ty =? MPBUS) || (ty =? MPIOINTR) || (ty =? MPLINTR) then mret (Some (p + 8, s))
  else
    tell (Cprintf "mpinit: unknown config type %x" [ty]);;
    mret (Some (p, mkMp (bcpu s) false (ncpu s) (ioapicid s) (lapic s) (cpu_ids s))).
(** How the loop ends: with the globals, not after the given number of turns, or
    with a write past [cpus]. *)
Inductive mpres : Type :=
| MpDone (s : mpstate)
| MpLoops
| MpOverrun.
Fixpoint mpentries (fuel : nat) (m : mem) (p e : Z) (s : mpstate) : HW mpres :=
  match fuel with
  | O => mret MpLoops
  | S fuel' =>
    if p <? e then
      r ← mpentry m p s;
      match r with
      | Some (p, s) => mpentries fuel' m p e s
      | None => mret MpOverrun
      end
    else mret (MpDone s)
  end.
Definition mpinit (fuel : nat) (m : mem) (s : mpstate) : HW mpres :=
  let s := mkMp 0 (ismp s) (ncpu s) (ioapicid s) (lapic s) (cpu_ids s) in
  match mpconfig m with
  | None => mret (MpDone s)
  | Some (mp, conf) =>
    let s := mkMp (bcpu s) true (ncpu s) (ioapicid s) (conf_lapicaddr m conf) (cpu_ids s) in
    r ← mpentries fuel m (conf + 44) (conf + conf_length m conf) s;
    match r with
    | MpDone s =>
      if negb (ismp s) then mret (MpDone (mkMp (bcpu s) (ismp s) 1 0 0 (cpu_ids s)))
      else
        (if truth (mp_imcrp m mp) then outb 34 112;; v ← inb 35; outb 35 (Z.lor v 1) else mret tt);;
        mret (MpDone s)
    | _ => mret r
    end
  end.
(** [bcpu-cpus] *)
Definition mpbcpu (s : mpstate) : Z := bcpu s.

End Mp.

(** ** The search *)

Section Search.
Import Mp.
Variable m : mem.

Definition is_mp (p : Z) : bool := memcmp4 m p "_MP_" && (sum m p 16 =? 0).

(** The result is the first of the [n] places that holds the structure. *)
Lemma search1_first n p :
  let r := search1_loop n m p (p + 16 * Z.of_nat n) in
  (r = 0 /\ (forall k, 0 <= k < Z.of_nat n -> is_mp (p + 16 * k) = false)) \/
  (exists k, 0 <= k < Z.of_nat n /\ r = p + 16 * k /\ is_mp r = true /\ forall j, 0 <= j < k -> is_mp (p + 16 * j) = false).
Proof.
  revert p. induction n as [|n IH]; intros p; cbn zeta; [left; split; [done|lia]|]. cbn [search1_loop].
  destruct (Z.ltb_spec p (p + 16 * Z.of_nat (S n))); [|lia]. fold (is_mp p). destruct (is_mp p) eqn:E.
  - right. exists 0. rewrite Z.mul_0_r, Z.add_0_r. repeat split; auto; lia.
  - specialize (IH (p + 16)). cbn zeta in IH. replace (p + 16 + 16 * Z.of_nat n) with (p + 16 * Z.of_nat (S n)) in IH by lia.
    assert (forall k, 0 <= k -> (1 <= k -> is_mp (p + 16 + 16 * (k - 1)) = false) -> is_mp (p + 16 * k) = false) as Hs.
    { intros k Hk Hf. destruct (decide (k = 0)) as [->|]; [by rewrite Z.mul_0_r, Z.add_0_r|].
      replace (p + 16 * k) with (p + 16 + 16 * (k - 1)) by lia. apply Hf. lia. }
    destruct IH as [[Hr Hn]|(k & Hk & Hr & Hm & Hn)].
    + left. split; [done|]. intros k Hk. apply Hs; [lia|]. intros. apply Hn. lia.
    + right. exists (k + 1). split; [lia|]. split; [lia|]. split; [done|]. intros j Hj. apply Hs; [lia|]. intros. apply Hn. lia.
Qed.

Lemma mpsearch1_first a n :
  0 <= n ->
  let r := mpsearch1 m a (16 * n) in
  (r = 0 /\ (forall k, 0 <= k < n -> is_mp (p2v a + 16 * k) = false)) \/
  (exists k, 0 <= k < n /\ r = p2v a + 16 * k /\ is_mp r = true /\ forall j, 0 <= j < k -> is_mp (p2v a + 16 * j) = false).
Proof.
  intros Hn. unfold mpsearch1. replace ((16 * n + 15) / 16) with n by (apply (Z.div_unique _ _ _ 15); lia).
  pose proof (search1_first (Z.to_nat n) (p2v a)) as H. rewrite Z2Nat.id in H by lia. exact H.
Qed.

End Search.

(** ** The table *)

Section Table.
Import Mp.

Inductive entry : Type :=
| EProc (apicid flags : Z)
| EIoapic (apicno : Z)
| EOther (type : Z).

Definition entry_size (x : entry) : Z := match x with EProc _ _ => 20 | _ => 8 end.
Definition entry_at (m : mem) (p : Z) (x : entry) : Prop :=
  match x with
  | EProc a f => rd8 m p = MPPROC /\ proc_apicid m p = a /\ proc_flags m p = f
  | EIoapic n => rd8 m p = MPIOAPIC /\ ioapic_apicno m p = n
  | EOther t => rd8 m p = t /\ (t = MPBUS \/ t = MPIOINTR \/ t = MPLINTR)
  end.
(** The entries fill the memory from [p] to [e]. *)
Fixpoint entries_at (m : mem) (p : Z) (es : list entry) (e : Z) : Prop :=
  match es with
  | [] => p = e
  | x :: es' => entry_at m p x /\ entries_at m (p + entry_size x) es' e
  end.

(** The processors of a table, as pairs of id and flags. *)
Definition procs (es : list entry) : list (Z * Z) :=
  omap (fun x => match x with EProc a f => Some (a, f) | _ => None end) es.
Fixpoint in_order (n : Z) (ps : list (Z * Z)) : bool :=
  match ps with
  | [] => true
  | (a, _) :: ps' => (n =? a) && in_order (n + 1) ps'
  end.
(** The last processor with the boot flag; [b] if there is none. *)
Fixpoint boot_index (b n : Z) (ps : list (Z * Z)) : Z :=
  match ps with
  | [] => b
  | (_, f) :: ps' => boot_index (if truth (Z.land f MPBOOT) then n else b) (n + 1) ps'
  end.
Fixpoint last_ioapic (d : Z) (es : list entry) : Z :=
  match es with
  | [] => d
  | EIoapic n :: es' => last_ioapic n es'
  | _ :: es' => last_ioapic d es'
  end.

(** The table's [es] counted on top of [s]. *)
Definition counted (s : mpstate) (es : list entry) (s' : mpstate) : Prop :=
  bcpu s' = boot_index (bcpu s) (ncpu s) (procs es) /\
  ismp s' = ismp s && in_order (ncpu s) (procs es) /\
  ncpu s' = ncpu s + Z.of_nat (length (procs es)) /\
  ioapicid s' = last_ioapic (ioapicid s) es /\
  lapic s' = lapic s /\
  length (cpu_ids s') = length (cpu_ids s) /\
  (forall i, ncpu s <= i < ncpu s' -> cpu_ids s' !! Z.to_nat i = Some i) /\
  (forall i, 0 <= i -> ~ (ncpu s <= i < ncpu s') -> cpu_ids s' !! Z.to_nat i = cpu_ids s !! Z.to_nat i).
(** The counter is inside the array, or one past its end. *)
Definition cpus_ok (s : mpstate) : Prop := length (cpu_ids s) = Z.to_nat NCPU /\ 0 <= ncpu s <= NCPU.

Lemma entry_size_pos x : 0 < entry_size x.
Proof. destruct x; cbn; lia. Qed.

Lemma entries_at_le m es p e : entries_at m p es e -> p <= e.
Proof.
  revert p. induction es as [|x es IH]; intros p; cbn; [lia|]. intros [_ H]. apply IH in H. pose proof (entry_size_pos x). lia.
Qed.

(** One known entry advances the pointer past it and counts it, if there is room. *)
Lemma mpentry_counts m p x s rs :
  entry_at m p x -> cpus_ok s -> ncpu s + Z.of_nat (length (procs [x])) <= NCPU ->
  exists cs s', mpentry m p s rs = URet (Some (p + entry_size x, s')) cs rs /\ counted s [x] s'.
Proof.
  unfold mpentry, cpus_ok, NCPU. destruct x as [a f|n|t]; cbn [entry_at entry_size]; intros He [Hlen Hn0] Hroom.
  - destruct He as (-> & -> & ->). cbn in Hroom. cbn [Z.eqb MPPROC]. rewrite (proj2 (Z.leb_gt 8 (ncpu s))) by lia.
    assert (Hlt : (Z.to_nat (ncpu s) < length (cpu_ids s))%nat) by (rewrite Hlen; lia).
    assert (Hids : (forall i, ncpu s <= i < ncpu s + 1 -> <[Z.to_nat (ncpu s) := ncpu s]> (cpu_ids s) !! Z.to_nat i = Some i) /\
      (forall i, 0 <= i -> ~ (ncpu s <= i < ncpu s + 1) -> <[Z.to_nat (ncpu s) := ncpu s]> (cpu_ids s) !! Z.to_nat i = cpu_ids s !! Z.to_nat i)).
    { split; [intros i Hi; replace i with (ncpu s) by lia; by apply list_lookup_insert_eq|]. intros i Hi Hni. apply list_lookup_insert_ne. lia. }
    destruct (Z.eqb_spec (ncpu s) a) as [<-|Hn]; cbn [negb]; eexists _, _; (split; [reflexivity|]); unfold counted;
      cbn -[Z.land Z.add Z.to_nat]; rewrite ?Z.eqb_refl, ?(proj2 (Z.eqb_neq _ _) Hn), ?andb_false_r, ?andb_true_r, length_insert;
      split_and!; (done || apply Hids).
  - destruct He as (-> & ->). eexists _, _. split; [reflexivity|]. unfold counted; cbn. rewrite andb_true_r, Z.add_0_r.
    split_and!; (done || intros; lia).
  - destruct He as [-> Ht]. eexists _, s. split; [by destruct Ht as [->|[->| ->]]|]. unfold counted; cbn. rewrite andb_true_r, Z.add_0_r.
    split_and!; (done || intros; lia).
Qed.

(** A processor more than there is room for. *)
Lemma mpentry_overrun m p a f s rs :
  entry_at m p (EProc a f) -> ncpu s = NCPU -> exists cs, mpentry m p s rs = URet None cs rs.
Proof.
  intros (Ht & Ha & Hf) Hn. unfold mpentry. rewrite Ht. cbn [Z.eqb MPPROC]. rewrite Hn, Z.leb_refl. destruct (negb _); by eexists.
Qed.

Lemma counted_cons s x es s1 s' : 0 <= ncpu s -> counted s [x] s1 -> counted s1 es s' -> counted s (x :: es) s'.
Proof.
  intros H0 (B & I & N & O & L & K & C & D) (B' & I' & N' & O' & L' & K' & C' & D').
  assert (ncpu s' = ncpu s + Z.of_nat (length (procs (x :: es)))) as Hn.
  { rewrite N', N. unfold procs. destruct x; cbn -[Z.of_nat]; lia. }
  assert (ncpu s <= ncpu s1) as H1 by lia.
  unfold counted. rewrite B', I', O', L', K', Hn, B, I, O, L, K, N. rewrite <- Hn.
  split_and!; try done.
  - destruct x; cbn; rewrite ?Z.add_0_r; done.
  - destruct x as [a f| |]; cbn -[Z.add]; rewrite ?Z.add_0_r, ?andb_true_r; try done. by rewrite andb_assoc.
  - by destruct x.
  - intros i Hi. destruct (decide (ncpu s1 <= i)); [apply C'; lia|]. rewrite D' by lia. apply C. lia.
  - intros i Hi Hni. rewrite D', D by lia. done.
Qed.

Lemma counted_ok s es s' : cpus_ok s -> counted s es s' -> ncpu s + Z.of_nat (length (procs es)) <= NCPU -> cpus_ok s'.
Proof. intros [Hl Hn] (_ & _ & N & _ & _ & K & _) Hr. split; [by rewrite K|lia]. Qed.

Lemma procs_cons x es : length (procs (x :: es)) = (length (procs [x]) + length (procs es))%nat.
Proof. unfold procs. by destruct x. Qed.

(** One turn for each entry, and one to see the end, is enough. *)
Lemma mpentries_counts m e es : forall fuel p s rs,
  (length es < fuel)%nat -> entries_at m p es e -> cpus_ok s -> ncpu s + Z.of_nat (length (procs es)) <= NCPU ->
  exists cs s', mpentries fuel m p e s rs = URet (MpDone s') cs rs /\ counted s es s'.
Proof.
  induction es as [|x es IH]; intros [|fuel] p s rs Hf He Hok Hroom; cbn [length] in Hf; try lia; cbn [mpentries entries_at] in *.
  - subst e. destruct (Z.ltb_spec p p); [lia|]. eexists _, s. split; [done|]. unfold counted; cbn. rewrite andb_true_r, Z.add_0_r.
    split_and!; (done || intros; lia).
  - destruct He as [Hx He]. pose proof (entries_at_le _ _ _ _ He). pose proof (entry_size_pos x). rewrite procs_cons in Hroom.
    destruct (Z.ltb_spec p e); [|lia]. destruct (mpentry_counts m p x s rs Hx Hok ltac:(lia)) as (cs & s1 & E & Hc1).
    rewrite (ubind_ret _ _ _ _ _ _ E). pose proof (counted_ok _ _ _ Hok Hc1 ltac:(lia)) as Hok1. pose proof Hc1 as (_ & _ & N1 & _).
    destruct (IH fuel (p + entry_size x) s1 rs ltac:(lia) He Hok1 ltac:(lia)) as (cs' & s' & -> & H').
    eexists _, s'. split; [done|]. apply (counted_cons s x es s1); [apply Hok|done|done].
Qed.

Lemma mpentries_overrun m e es : forall fuel p s rs,
  (length es < fuel)%nat -> entries_at m p es e -> cpus_ok s -> NCPU < ncpu s + Z.of_nat (length (procs es)) ->
  exists cs, mpentries fuel m p e s rs = URet MpOverrun cs rs.
Proof.
  induction es as [|x es IH]; intros [|fuel] p s rs Hf He Hok Hroom; cbn [length] in Hf; try lia; cbn [mpentries entries_at] in *.
  - destruct Hok as [_ ?]. cbn in Hroom. lia.
  - destruct He as [Hx He]. pose proof (entries_at_le _ _ _ _ He). pose proof (entry_size_pos x). rewrite procs_cons in Hroom.
    destruct (Z.ltb_spec p e); [|lia]. destruct (decide (ncpu s + Z.of_nat (length (procs [x])) <= NCPU)) as [Hx1|Hx1].
    + destruct (mpentry_counts m p x s rs Hx Hok Hx1) as (cs & s1 & E & Hc1). pose proof (counted_ok _ _ _ Hok Hc1 Hx1) as Hok1.
      pose proof Hc1 as (_ & _ & N1 & _). rewrite (ubind_ret _ _ _ _ _ _ E).
      destruct (IH fuel (p + entry_size x) s1 rs ltac:(lia) He Hok1 ltac:(lia)) as (cs' & ->). by eexists.
    + destruct Hok as [_ Hn]. destruct x as [a f| |]; [|cbn in Hx1; lia..].
      destruct (mpentry_overrun m p a f s rs Hx) as (cs & E); [cbn in Hx1; lia|]. rewrite (ubind_ret _ _ _ _ _ _ E). by eexists.
Qed.

(** An entry of an unknown type: the loop looks at it again and again. *)
Lemma mpentries_stuck m p e : p < e -> MPLINTR < rd8 m p -> forall fuel s rs, exists cs, mpentries fuel m p e s rs = URet MpLoops cs rs.
Proof.
  intros Hp Ht. induction fuel as [|fuel IH]; intros s rs; [by eexists|]. cbn [mpentries]. destruct (Z.ltb_spec p e); [|lia].
  assert (exists s', mpentry m p s rs = URet (Some (p, s')) [Cprintf "mpinit: unknown config type %x" [rd8 m p]] rs) as [s' E].
  { unfold mpentry. eexists. revert Ht. unfold MPPROC, MPIOAPIC, MPBUS, MPIOINTR, MPLINTR. repeat (zcase; try lia). done. }
  rewrite (ubind_ret _ _ _ _ _ _ E). destruct (IH s' rs) as [cs ->]. by eexists.
Qed.

(** C21: [mpinit] on a configuration table of known entries.  With at most NCPU
    processors it ends: if their APIC ids are 0, 1, 2, ... it has counted them,
    numbered them and found the boot processor and the I/O APIC; otherwise it
    has fallen back to one processor without an APIC.  With more than NCPU
    processors it writes past the end of the array [cpus]. *)
Theorem mpinit_counts fuel m s mp conf es r rs :
  mpconfig m = Some (mp, conf) -> entries_at m (conf + 44) es (conf + conf_length m conf) ->
  (length es < fuel)%nat -> ncpu s = 0 -> length (cpu_ids s) = Z.to_nat NCPU ->
  let n := Z.of_nat (length (procs es)) in
  exists cs rs',
    if NCPU <? n then mpinit fuel m s (r :: rs) = URet MpOverrun cs rs'
    else exists s', mpinit fuel m s (r :: rs) = URet (MpDone s') cs rs' /\
      ismp s' = in_order 0 (procs es) /\
      mpbcpu s' = boot_index 0 0 (procs es) /\
      (forall i, 0 <= i < n -> cpu_ids s' !! Z.to_nat i = Some i) /\
      (ncpu s', ioapicid s', lapic s') =
        if ismp s' then (n, last_ioapic (ioapicid s) es, conf_lapicaddr m conf) else (1, 0, 0).
Proof.
  intros Hc He Hf Hs Hl n. unfold mpinit. rewrite Hc. cbn [bcpu ismp ncpu ioapicid lapic cpu_ids].
  set (s0 := mkMp 0 true (ncpu s) (ioapicid s) (conf_lapicaddr m conf) (cpu_ids s)).
  assert (Hok : cpus_ok s0) by (split; [done|cbn; rewrite Hs; unfold NCPU; lia]). assert (Hn0 : ncpu s0 = 0) by exact Hs.
  destruct (Z.ltb_spec NCPU n) as [Hbig|Hsmall].
  { destruct (mpentries_overrun m _ es fuel _ s0 (r :: rs) Hf He Hok) as [cs E]; [rewrite Hn0; exact Hbig|].
    rewrite (ubind_ret _ _ _ _ _ _ E). by eexists _, _. }
  destruct (mpentries_counts m _ es fuel _ s0 (r :: rs) Hf He Hok) as (cs & s1 & E & H1); [rewrite Hn0; exact Hsmall|].
  rewrite (ubind_ret _ _ _ _ _ _ E). clear E. destruct H1 as (B & I & N & O & L & _ & C & _). rewrite Hn0 in *. cbn [bcpu ismp ioapicid lapic s0 andb] in *.
  unfold mpbcpu. destruct (ismp s1) eqn:Ei; cbn [negb].
  - destruct (truth (mp_imcrp m mp)).
    all: eexists _, _, s1; split; [reflexivity|]; rewrite Ei, B, O, L, N; repeat split; auto; intros; apply C; unfold n in *; lia.
  - eexists _, _, _. split; [reflexivity|]. cbn. repeat split; auto. intros. apply C. unfold n in *. lia.
Qed.

(** A machine with two processors, a bus and an I/O APIC. *)
Definition sample_mem : mem :=
  mwrite (mwrite (mwrite (fun _ => 0) 1039 [16])
    65536 [95; 77; 80; 95; 0; 0; 2; 0; 1; 4; 30; 0; 128; 0; 0; 0])
    131072 ([80; 67; 77; 80; 100; 0; 4; 84; 0; 0; 0; 0; 0; 0; 0; 0; 0; 0; 0; 0; 0; 0; 0; 0; 0; 0; 0; 0; 0; 0; 0; 0; 0; 0; 4; 0; 0; 0; 224; 254; 0; 0; 0; 0] ++
      [0; 0; 20; 3; 0; 0; 0; 0; 0; 0; 0; 0; 0; 0; 0; 0; 0; 0; 0; 0] ++ [0; 1; 20; 1; 0; 0; 0; 0; 0; 0; 0; 0; 0; 0; 0; 0; 0; 0; 0; 0] ++ [1; 0; 0; 0; 0; 0; 0; 0] ++ [2; 2; 0; 0; 0; 0; 0; 0]).
Definition sample_entries : list entry := [EProc 0 3; EProc 1 1; EOther 1; EIoapic 2].

Lemma mpinit_counts_witness : exists cs rs' s',
  mpinit 5 sample_mem (mkMp 0 false 0 0 0 (replicate 8 0)) [mkReply 0 []] = URet (MpDone s') cs rs' /\
    ismp s' = true /\ mpbcpu s' = 0 /\ (forall i, 0 <= i < 2 -> cpu_ids s' !! Z.to_nat i = Some i) /\
    (ncpu s', ioapicid s', lapic s') = if ismp s' then (2, 2, 4276092928) else (1, 0, 0).
Proof.
  apply (mpinit_counts 5 sample_mem (mkMp 0 false 0 0 0 (replicate 8 0)) 2147549184 2147614720 sample_entries).
  - vm_compute. reflexivity.
  - repeat split; try (vm_compute; reflexivity). by left.
  - cbn. lia.
  - reflexivity.
  - reflexivity.
Defined.

End Table.
