(* ===== verification/Start.v ===== *)
(** * Starting the other processors, and the boot page directory (main.c)

    [startothers] puts the entry code at 0x7000 and, for each processor but
    the one it runs on, a stack, the function to enter and a page directory
    below it, then sends the start-up interrupts and waits.  Shown: each of
    the other processors is started with its own stack ([startothers_starts]);
    the boot page directory maps the first 4 MB at 0 and at KERNBASE. *)

From stdpp Require Import base list strings.
From S2P Require Import Prelude Memory Kernel User Mmu Hw.

Module Start.

(** ** Definitions *)

Section Start.
(** The image of entryother.S and the addresses of [mpenter], [entrypgdir] and
    of the field [started] of each [struct cpu], which the linker sets. *)
Variables (entryother : list Z) (mpenter entrypgdir : Z) (started : Z -> Z).
(** The return address that [cpunum] prints. *)
Variable ret_addr : Z.
(** The globals: the local APIC and the ids of the processors. *)
Variables (lapic : Z) (cpu_id : Z -> Z).

Definition code : Z := p2v 28672.

(** [while(c->started == 0)] *)
Definition started_turn (c : Z) (_ : unit) : HW (unit + unit) :=
  v ← load (started c);
  mret (if v =? 0 then inl tt else inr tt).
(** [n] is the counter of warnings of [cpunum]. *)
Definition start_cpu (n c : Z) : HW Z :=
  cn ← Lapic.cpunum lapic n ret_addr;
  if c =? cn.1 then mret cn.2
  else
    stack ← sysv Kalloc;
    store (code - 4) (stack + KSTACKSIZE);;
    store (code - 8) mpenter;;
    store (code - 12) (v2p entrypgdir);;
    Lapic.lapicstartap lapic (u8 (cpu_id c)) (v2p code);;
    uloop (started_turn c) tt;;
    mret cn.2.
Fixpoint start_cpus (n : Z) (cs : list Z) : HW Z :=
  match cs with
  | [] => mret n
  | c :: cs' => n' ← start_cpu n c; start_cpus n' cs'
  end.
Definition startothers (n ncpu : Z) : HW Z :=
  tell (Memmove code entryother);;
  start_cpus n (map Z.of_nat (seq 0 (Z.to_nat ncpu))).

End Start.

Definition PDXSHIFT : Z := 22.
(** The entry at an index of [entrypgdir]. *)
Definition entrypgdir_entry (i : Z) : Z :=
  if (i =? 0) || (i =? Z.shiftr KERNBASE PDXSHIFT) then Z.lor (Z.lor (Z.lor 0 PTE_P) PTE_W) PTE_PS else 0.

End Start.

(** ** The processors that are started *)

Section Started.
Import Start.
Variables (entryother : list Z) (mpenter entrypgdir : Z) (started : Z -> Z) (ret_addr : Z).
Variables (lapic : Z) (cpu_id : Z -> Z).

(** The start-up interrupts of a run: the APIC id, the page the processor
    starts at, and the stack pointer it finds there. *)
Fixpoint startups (sp hi : Z) (cs : list io) : list (Z * Z * Z) :=
  match cs with
  | [] => []
  | Store a v :: cs' =>
    if a =? code - 4 then startups v hi cs'
    else if a =? Lapic.reg lapic Lapic.ICRHI then startups sp v cs'
    else if (a =? Lapic.reg lapic Lapic.ICRLO) && (Z.land v 1792 =? Lapic.STARTUP) then (Z.shiftr hi 24, Z.land v 255, sp) :: startups sp hi cs'
    else startups sp hi cs'
  | _ :: cs' => startups sp hi cs'
  end.

(** The registers are above the entry code and do not wrap around. *)
Hypothesis Hlapic : 2147520512 <= lapic <= 4294963200.

Lemma startups_app cs sp hi :
  exists sp' hi', forall cs', startups sp hi (cs ++ cs') = startups sp hi cs ++ startups sp' hi' cs'.
Proof.
  revert sp hi. induction cs as [|c cs IH]; intros sp hi; [by exists sp, hi|]. destruct c; cbn [app startups]; try apply IH.
  repeat (case_match; try apply IH). destruct (IH sp hi) as (sp' & hi' & E). exists sp', hi'. intros cs'. by rewrite E.
Qed.

(** A processor's replies: to [cpunum], [kalloc], the reads that follow the
    seven writes to the APIC, and the polls of [started]. *)
Inductive answers (own : Z) : list Z -> list (Z * Z) -> list reply -> Prop :=
| answers_nil : answers own [] [] []
| answers_own fl v cs aps rs :
  truth (Z.land fl FL_IF) = false -> Z.shiftr (u32 v) 24 = own ->
  answers own cs aps rs -> answers own (own :: cs) aps (mkReply fl [] :: mkReply v [] :: rs)
| answers_ap c fl v stack ws zs up cs aps rs :
  c <> own -> truth (Z.land fl FL_IF) = false -> Z.shiftr (u32 v) 24 = own ->
  length ws = 7%nat -> Forall (fun r => u32 (r_val r) = 0) zs -> u32 (r_val up) <> 0 ->
  answers own cs aps rs ->
  answers own (c :: cs) ((c, stack) :: aps)
    (mkReply fl [] :: mkReply v [] :: mkReply stack [] :: ws ++ zs ++ up :: rs).

Lemma started_turns c : uturns (started_turn started c).
Proof.
  intros [] [|r rs] s' cs rs' E; [done|]. unfold started_turn in E. rewrite (ubind_ret _ _ _ _ _ _ (load_reply _ _ _)) in E.
  destruct (u32 (r_val r) =? 0); [|done]. injection E; intros; subst; cbn; lia.
Qed.

Lemma started_turn_reply c r rs : started_turn started c tt (r :: rs) =
  URet (if u32 (r_val r) =? 0 then inl tt else inr tt) [Load (started c)] rs.
Proof. done. Qed.

Lemma started_loop c zs up rs :
  Forall (fun r => u32 (r_val r) = 0) zs -> u32 (r_val up) <> 0 ->
  uloop (started_turn started c) tt (zs ++ up :: rs) = URet tt (replicate (S (length zs)) (Load (started c))) rs.
Proof.
  intros Hz Hu. induction Hz as [|r zs Hr _ IH]; cbn [app]; rewrite (uloop_unfold _ _ _ (started_turns c)), (ubind_ret _ _ _ _ _ _ (started_turn_reply _ _ _)).
  - by rewrite (proj2 (Z.eqb_neq _ _) Hu).
  - by rewrite Hr, Z.eqb_refl, IH.
Qed.

Definition w_calls (i v : Z) : list io := [Store (Lapic.reg lapic i) (u32 v); Load (Lapic.reg lapic Lapic.ID)].
Definition ipi_calls (a : Z) : list io :=
  w_calls Lapic.ICRHI (Z.shiftl a 24) ++ w_calls Lapic.ICRLO (Z.lor Lapic.STARTUP (Z.shiftr (v2p code) 12)).
Definition ap_calls (c stack : Z) : list io :=
  [Store (code - 4) (u32 (stack + KSTACKSIZE)); Store (code - 8) (u32 mpenter); Store (code - 12) (u32 (v2p entrypgdir));
   Out Lapic.CMOS_PORT 15; Out (Lapic.CMOS_PORT + 1) 10; Store16 Lapic.wrv 0; Store16 (Lapic.wrv + 2) (u16 (Z.shiftr (v2p code) 4))] ++
  w_calls Lapic.ICRHI (Z.shiftl (u8 (cpu_id c)) 24) ++ w_calls Lapic.ICRLO (Z.lor (Z.lor Lapic.INIT Lapic.LEVEL) Lapic.ASSERT) ++
  w_calls Lapic.ICRLO (Z.lor Lapic.INIT Lapic.LEVEL) ++ ipi_calls (u8 (cpu_id c)) ++ ipi_calls (u8 (cpu_id c)).

Lemma reg_addr i : 0 <= i < 1024 -> Lapic.reg lapic i = lapic + 4 * i.
Proof. intros. unfold Lapic.reg. apply u32_small. lia. Qed.

Lemma apic_hi a : 0 <= a < 256 -> Z.shiftr (u32 (Z.shiftl a 24)) 24 = a.
Proof.
  intros Ha. rewrite Z.shiftl_mul_pow2, u32_small, Z.shiftr_div_pow2 by lia. apply Z.div_mul. lia.
Qed.

(** A write to the high half of the command register, one to the low half. *)
Lemma startups_hi v cs sp hi : startups sp hi (w_calls Lapic.ICRHI v ++ cs) = startups sp (u32 v) cs.
Proof.
  cbn [w_calls app startups]. rewrite (reg_addr Lapic.ICRHI), Z.eqb_refl by done. change (code - 4) with 2147512316.
  destruct (Z.eqb_spec (lapic + 4 * Lapic.ICRHI) 2147512316); [|done]. change Lapic.ICRHI with 196 in *. lia.
Qed.
Lemma startups_lo v cs sp hi : 0 <= v < W32 -> startups sp hi (w_calls Lapic.ICRLO v ++ cs) =
  if Z.land v 1792 =? Lapic.STARTUP then (Z.shiftr hi 24, Z.land v 255, sp) :: startups sp hi cs else startups sp hi cs.
Proof.
  intros Hv. cbn [w_calls app startups]. rewrite !reg_addr, Z.eqb_refl, u32_small by done. change (code - 4) with 2147512316.
  change Lapic.ICRHI with 196. change Lapic.ICRLO with 192.
  destruct (Z.eqb_spec (lapic + 4 * 192) 2147512316), (Z.eqb_spec (lapic + 4 * 192) (lapic + 4 * 196)); try lia. done.
Qed.

Lemma startups_ap c stack sp hi :
  let up := (u8 (cpu_id c), 7, u32 (stack + KSTACKSIZE)) in startups sp hi (ap_calls c stack) = [up; up].
Proof.
  pose proof (Z.mod_pos_bound (cpu_id c) 256 ltac:(lia)) as Ha. fold (u8 (cpu_id c)) in Ha.
  assert (forall sp hi cs, startups sp hi (ipi_calls (u8 (cpu_id c)) ++ cs) =
    (u8 (cpu_id c), 7, sp) :: startups sp (u32 (Z.shiftl (u8 (cpu_id c)) 24)) cs) as Hipi.
  { intros sp' hi' cs. unfold ipi_calls. rewrite <- app_assoc, startups_hi, startups_lo by done. by rewrite apic_hi. }
  cbn zeta. unfold ap_calls. cbn [app startups]. rewrite Z.eqb_refl, !reg_addr by done.
  change (code - 4) with 2147512316. change (code - 8) with 2147512312. change (code - 12) with 2147512308.
  change (2147512312 =? 2147512316) with false. change (2147512308 =? 2147512316) with false.
  assert (forall x i, x < 2147520512 -> 0 <= i -> (x =? lapic + 4 * i) = false) as Hd by (intros; apply Z.eqb_neq; lia).
  rewrite !Hd by done. cbn [andb]. rewrite startups_hi, !startups_lo by done.
  change (Z.land (Z.lor (Z.lor Lapic.INIT Lapic.LEVEL) Lapic.ASSERT) 1792 =? Lapic.STARTUP) with false.
  change (Z.land (Z.lor Lapic.INIT Lapic.LEVEL) 1792 =? Lapic.STARTUP) with false. cbn match.
  rewrite Hipi. f_equal. by rewrite <- (app_nil_r (ipi_calls _)), Hipi.
Qed.

Lemma startups_loads n a cs sp hi : startups sp hi (replicate n (Load a) ++ cs) = startups sp hi cs.
Proof. by induction n. Qed.

Lemma startups_skip a cs sp hi : startups sp hi ([Readeflags; Load a; Kalloc] ++ cs) = startups sp hi cs.
Proof. done. Qed.

Lemma cpunum_reply n fl v rs : truth (Z.land fl FL_IF) = false ->
  Lapic.cpunum lapic n ret_addr (mkReply fl [] :: mkReply v [] :: rs) =
  URet (Z.shiftr (u32 v) 24, n) [Readeflags; Load (Lapic.reg lapic Lapic.ID)] rs.
Proof.
  intros Hf. unfold Lapic.cpunum. rewrite (ubind_ret _ _ _ _ _ _ (sysv_reply _ _ _)). cbn [r_val]. rewrite Hf.
  unfold truth. rewrite (proj2 (Z.eqb_neq lapic 0)) by lia. done.
Qed.

Lemma start_own own n fl v rs :
  truth (Z.land fl FL_IF) = false -> Z.shiftr (u32 v) 24 = own ->
  start_cpu mpenter entrypgdir started ret_addr lapic cpu_id n own (mkReply fl [] :: mkReply v [] :: rs) =
  URet n [Readeflags; Load (Lapic.reg lapic Lapic.ID)] rs.
Proof.
  intros Hf Hv. unfold start_cpu. rewrite (ubind_ret _ _ _ _ _ _ (cpunum_reply n fl v rs Hf)). cbn [fst snd].
  by rewrite Hv, Z.eqb_refl.
Qed.

Lemma start_ap own n c fl v stack ws zs up rs :
  c <> own -> truth (Z.land fl FL_IF) = false -> Z.shiftr (u32 v) 24 = own ->
  length ws = 7%nat -> Forall (fun r => u32 (r_val r) = 0) zs -> u32 (r_val up) <> 0 ->
  start_cpu mpenter entrypgdir started ret_addr lapic cpu_id n c (mkReply fl [] :: mkReply v [] :: mkReply stack [] :: ws ++ zs ++ up :: rs) =
  URet n ([Readeflags; Load (Lapic.reg lapic Lapic.ID); Kalloc] ++ ap_calls c stack ++ replicate (S (length zs)) (Load (started c))) rs.
Proof.
  intros Hc Hf Hv Hw Hz Hu. unfold start_cpu. rewrite (ubind_ret _ _ _ _ _ _ (cpunum_reply n fl v _ Hf)). cbn [fst snd].
  rewrite Hv, (proj2 (Z.eqb_neq c own) Hc). rewrite (ubind_ret _ _ _ _ _ _ (sysv_reply _ _ _)). cbn [r_val].
  do 8 (destruct ws as [|? ws]; [try done|]); [|done]. cbn [app].
  do 3 (erewrite ubind_ret; [|reflexivity]). erewrite (ubind_ret (Lapic.lapicstartap _ _ _)); [|reflexivity].
  rewrite (ubind_ret _ _ _ _ _ _ (started_loop c zs up rs Hz Hu)). cbn -[replicate]. rewrite app_nil_r. reflexivity.
Qed.

Definition ups (aps : list (Z * Z)) : list (Z * Z * Z) :=
  concat (map (fun '(c, stack) => let up := (u8 (cpu_id c), 7, u32 (stack + KSTACKSIZE)) in [up; up]) aps).

Lemma start_cpus_starts own n l aps rs rest : answers own l aps rs -> forall sp hi,
  exists cs, start_cpus mpenter entrypgdir started ret_addr lapic cpu_id n l (rs ++ rest) = URet n cs rest /\
    startups sp hi cs = ups aps /\ map fst aps = filter (fun c => c <> own) l.
Proof.
  induction 1 as [|fl v l aps rs Hf Hv _ IH|c fl v stack ws zs up l aps rs Hc Hf Hv Hw Hz Hu _ IH]; intros sp hi; cbn [start_cpus app].
  - by exists [].
  - rewrite (ubind_ret _ _ _ _ _ _ (start_own own n fl v (rs ++ rest) Hf Hv)). destruct (IH sp hi) as (cs & -> & E & F).
    eexists. split; [reflexivity|]. split; [done|]. by rewrite filter_cons_False by auto.
  - rewrite <- !app_assoc. cbn [app]. rewrite (ubind_ret _ _ _ _ _ _ (start_ap own n c fl v stack ws zs up (rs ++ rest) Hc Hf Hv Hw Hz Hu)).
    destruct (startups_app (ap_calls c stack) sp hi) as (sp' & hi' & Hs). destruct (IH sp' hi') as (cs & -> & E & F).
    eexists. split; [reflexivity|]. rewrite filter_cons_True by done. split; [|cbn; by rewrite F].
    rewrite <- !app_assoc, startups_skip, Hs, startups_loads, startups_ap, E. reflexivity.
Qed.

(** On the processor [own], [startothers] starts every other processor
    (and not itself), in order: its APIC gets the two start-up interrupts for
    the page of the entry code while the word below the code holds the top of
    that processor's own stack. *)
Theorem startothers_starts own n ncpu aps rs rest :
  answers own (map Z.of_nat (seq 0 (Z.to_nat ncpu))) aps rs ->
  exists cs, startothers entryother mpenter entrypgdir started ret_addr lapic cpu_id n ncpu (rs ++ rest) = URet n cs rest /\
    startups 0 0 cs = ups aps /\ map fst aps = filter (fun c => c <> own) (map Z.of_nat (seq 0 (Z.to_nat ncpu))).
Proof.
  intros Ha. unfold startothers. rewrite (ubind_ret (tell _) _ _ tt _ _ eq_refl).
  destruct (start_cpus_starts own n _ aps rs rest Ha 0 0) as (cs & -> & E & F). eexists. split; [reflexivity|]. done.
Qed.

End Started.

(** ** The boot page directory *)

Section BootDir.
Import Start.

(** A directory entry with PTE_PS maps 4 MB. *)
Definition boot_translate (va : Z) : option Z :=
  let pde := entrypgdir_entry (PDX va) in
  if has pde PTE_P && has pde PTE_PS then Some (Z.land pde 4290772992 + va mod 4194304) else None.

Lemma entrypgdir_maps va : 0 <= va < W32 ->
  boot_translate va =
    if (va <? 4194304) then Some va
    else if (KERNBASE <=? va) && (va <? KERNBASE + 4194304) then Some (v2p va) else None.
Proof.
  intros Hva. unfold W32 in Hva. assert (PDX va = va / 4194304) as Hp.
  { unfold PDX. rewrite Z.shiftr_div_pow2 by lia. change 1023 with (Z.ones 10). rewrite Z.land_ones by lia. apply Z.mod_small.
    split; [apply Z.div_pos; lia|apply Z.div_lt_upper_bound; lia]. }
  unfold boot_translate, entrypgdir_entry. rewrite Hp. change (Z.shiftr KERNBASE PDXSHIFT) with 512. change KERNBASE with 2147483648.
  assert (Z.land (Z.lor (Z.lor (Z.lor 0 PTE_P) PTE_W) PTE_PS) 4290772992 = 0) as Hb by done.
  pose proof (Z.div_mod va 4194304 ltac:(lia)). pose proof (Z.mod_pos_bound va 4194304 ltac:(lia)).
  destruct (Z.eqb_spec (va / 4194304) 0) as [E|]; [|destruct (Z.eqb_spec (va / 4194304) 512) as [E|]]; cbn -[Z.modulo Z.div v2p];
    repeat (zcase; cbn [andb]; try lia); try done.
  - f_equal. lia.
  - f_equal. unfold v2p. rewrite u32_small by (change KERNBASE with 2147483648; lia). change KERNBASE with 2147483648. lia.
Qed.

End BootDir.
