(* ===== verification/Bootmain.v ===== *)
(** * The boot loader (bootmain.c)

    The boot loader reads the kernel, an ELF file that starts at sector 1 of
    the disk, with the ports of the disk controller.  Physical memory is passed
    through; a result [None] is the return to bootasm.S, [Some] the jump to the
    kernel's entry.  Shown ([bootmain_loads]): for any number of polls of the
    controller, the sectors that are asked for are those of the header page and
    the segments, and the kernel is entered with each segment's bytes of the
    file at its physical address, followed by zeros. *)

From stdpp Require Import base list.
From S2P Require Import Prelude Memory Bytes Kernel User Hw.

Module Bootmain.

(** ** Definitions *)

Definition SECTSIZE : Z := 512.
Definition ELF_MAGIC : Z := 1179403647.

(** [struct elfhdr] and [struct proghdr] in memory. *)
Definition elf_magic (m : mem) (elf : Z) : Z := ld32 m elf.
Definition elf_entry (m : mem) (elf : Z) : Z := ld32 m (elf + 24).
Definition elf_phoff (m : mem) (elf : Z) : Z := ld32 m (elf + 28).
Definition elf_phnum (m : mem) (elf : Z) : Z := ld8 m (elf + 44) + 256 * ld8 m (elf + 45).
Definition ph_off (m : mem) (ph : Z) : Z := ld32 m (ph + 4).
Definition ph_paddr (m : mem) (ph : Z) : Z := ld32 m (ph + 12).
Definition ph_filesz (m : mem) (ph : Z) : Z := ld32 m (ph + 16).
Definition ph_memsz (m : mem) (ph : Z) : Z := ld32 m (ph + 20).

Definition wait_turn (_ : unit) : HW (unit + unit) :=
  v ← inb 503;
  mret (if negb (Z.land v 192 =? 64) then inl tt else inr tt).
Definition waitdisk : HW unit := uloop wait_turn tt.

(** [insl] stores exactly the words it is asked for. *)
Definition readsect (m : mem) (dst offset : Z) : HW mem :=
  waitdisk;;
  outb 498 1;;
  outb 499 offset;;
  outb 500 (Z.shiftr offset 8);;
  outb 501 (Z.shiftr offset 16);;
  outb 502 (Z.lor (Z.shiftr offset 24) 224);;
  outb 503 32;;
  waitdisk;;
  r ← sys (Insl 496 (SECTSIZE / 4));
  mret (mwrite m dst (resize (Z.to_nat SECTSIZE) 0 (r_bytes r))).

(** A loop that has not ended after [fuel] turns is left waiting. *)
Fixpoint readseg_loop (fuel : nat) (m : mem) (pa epa offset : Z) : HW mem :=
  match fuel with
  | O => fun _ => UWait []
  | S fuel' =>
    if pa <? epa then
      m' ← readsect m pa offset;
      readseg_loop fuel' m' (u32 (pa + SECTSIZE)) epa (u32 (offset + 1))
    else mret m
  end.
Definition readseg (m : mem) (pa count offset : Z) : HW mem :=
  let epa := u32 (pa + count) in
  let pa := u32 (pa - offset mod SECTSIZE) in
  let offset := u32 (offset / SECTSIZE + 1) in
  readseg_loop (S (Z.to_nat ((epa - pa + SECTSIZE - 1) / SECTSIZE))) m pa epa offset.

(** The loop over the program headers: [n] is the number left. *)
Definition load_segment (m : mem) (ph : Z) : HW mem :=
  let pa := ph_paddr m ph in
  let filesz := ph_filesz m ph in
  m' ← readseg m pa filesz (ph_off m ph);
  mret (if ph_filesz m' ph <? ph_memsz m' ph
        then mset m' (u32 (pa + ph_filesz m' ph)) 0 (ph_memsz m' ph - ph_filesz m' ph) else m').
Fixpoint load_segments (n : nat) (m : mem) (ph : Z) : HW mem :=
  match n with
  | O => mret m
  | S n' => m' ← load_segment m ph; load_segments n' m' (ph + 32)
  end.

Definition elf : Z := 65536.
Definition bootmain (m : mem) : HW (option (Z * mem)) :=
  m ← readseg m elf 4096 0;
  if negb (elf_magic m elf =? ELF_MAGIC) then mret None
  else
    m' ← load_segments (Z.to_nat (elf_phnum m elf)) m (u32 (elf + elf_phoff m elf));
    mret (Some (elf_entry m' elf, m')).

End Bootmain.

(** ** Reading sectors *)

Section Sectors.
Import Bootmain.

(** The disk: the bytes of each sector. *)
Variable disk : Z -> list Z.
Hypothesis disk_sectors : forall o, length (disk o) = 512%nat.

(** The kernel file, as memory that starts at 0. *)
Definition img : mem := fun k => nth (Z.to_nat (k mod 512)) (disk (k / 512 + 1)) 0 mod 256.

Definition ready (r : reply) : bool := Z.land (u8 (r_val r)) 192 =? 64.

(** The replies when the sectors [os] are read: polls until the disk is ready,
    before the command and before the data, and then the data. *)
Inductive served : list Z -> list reply -> Prop :=
| served_nil : served [] []
| served_cons o os b1 r1 b2 r2 v rs :
  Forall (fun r => ready r = false) b1 -> ready r1 = true ->
  Forall (fun r => ready r = false) b2 -> ready r2 = true ->
  served os rs -> served (o :: os) (b1 ++ r1 :: b2 ++ r2 :: mkReply v (disk o) :: rs).

(** The sectors that read commands ask for, from the address registers. *)
Fixpoint asked (a0 a1 a2 a3 : Z) (cs : list io) : list Z :=
  match cs with
  | [] => []
  | Out p v :: cs' =>
    if p =? 499 then asked v a1 a2 a3 cs'
    else if p =? 500 then asked a0 v a2 a3 cs'
    else if p =? 501 then asked a0 a1 v a3 cs'
    else if p =? 502 then asked a0 a1 a2 v cs'
    else if (p =? 503) && (v =? 32) then
      a0 + 256 * a1 + 65536 * a2 + 16777216 * Z.land a3 15 :: asked a0 a1 a2 a3 cs'
    else asked a0 a1 a2 a3 cs'
  | _ :: cs' => asked a0 a1 a2 a3 cs'
  end.

Lemma wait_turn_reply r rs : wait_turn tt (r :: rs) = URet (if negb (ready r) then inl tt else inr tt) [In 503] rs.
Proof. done. Qed.

Lemma wait_turns : uturns wait_turn.
Proof.
  intros [] [|r rs] s' cs rs' E; [done|]. rewrite wait_turn_reply in E. destruct (ready r); [done|]. injection E; intros; subst; cbn; lia.
Qed.

Lemma waitdisk_polls b r rs :
  Forall (fun r => ready r = false) b -> ready r = true ->
  waitdisk (b ++ r :: rs) = URet tt (replicate (S (length b)) (In 503)) rs.
Proof.
  intros Hb Hr. unfold waitdisk. induction Hb as [|x b Hx _ IH]; cbn [app]; rewrite (uloop_unfold _ _ _ wait_turns), (ubind_ret _ _ _ _ _ _ (wait_turn_reply _ _)).
  - by rewrite Hr.
  - rewrite Hx. cbn -[uloop replicate]. by rewrite IH.
Qed.

Definition sect_calls (n1 n2 : nat) (o : Z) : list io :=
  replicate (S n1) (In 503) ++
  [Out 498 1; Out 499 (u8 o); Out 500 (u8 (Z.shiftr o 8)); Out 501 (u8 (Z.shiftr o 16)); Out 502 (u8 (Z.lor (Z.shiftr o 24) 224)); Out 503 32] ++
  replicate (S n2) (In 503) ++ [Insl 496 128].

Lemma readsect_reads m dst o b1 r1 b2 r2 v bs rs :
  Forall (fun r => ready r = false) b1 -> ready r1 = true -> Forall (fun r => ready r = false) b2 -> ready r2 = true ->
  length bs = 512%nat ->
  readsect m dst o (b1 ++ r1 :: b2 ++ r2 :: mkReply v bs :: rs) = URet (mwrite m dst bs) (sect_calls (length b1) (length b2) o) rs.
Proof.
  intros H1 R1 H2 R2 Hl. unfold readsect. rewrite (ubind_ret _ _ _ _ _ _ (waitdisk_polls b1 r1 _ H1 R1)).
  do 6 (erewrite ubind_ret; [|reflexivity]). rewrite (ubind_ret _ _ _ _ _ _ (waitdisk_polls b2 r2 _ H2 R2)).
  rewrite (ubind_ret _ _ _ _ _ _ (sys_reply _ _ _)). cbn [r_bytes].
  replace (resize (Z.to_nat SECTSIZE) 0 bs) with bs by (symmetry; by rewrite resize_all_alt). reflexivity.
Qed.

(** The four registers hold a 28-bit sector number. *)
Lemma lba_bytes o : 0 <= o < 2 ^ 28 ->
  u8 o + 256 * u8 (Z.shiftr o 8) + 65536 * u8 (Z.shiftr o 16) + 16777216 * Z.land (u8 (Z.lor (Z.shiftr o 24) 224)) 15 = o.
Proof.
  intros Ho. assert (0 <= o / 2 ^ 24 < 16) as Hh by (split; [apply Z.div_pos|apply Z.div_lt_upper_bound]; lia).
  rewrite !Z.shiftr_div_pow2 by lia.
  assert (Z.land (u8 (Z.lor (o / 2 ^ 24) 224)) 15 = o / 2 ^ 24) as ->.
  { assert (o / 2 ^ 24 ∈ map Z.of_nat (seq 0 16)) as Hin.
    { apply list_elem_of_In, in_map_iff. exists (Z.to_nat (o / 2 ^ 24)). split; [lia|]. apply in_seq. lia. }
    revert Hin. generalize (o / 2 ^ 24). apply Forall_forall. repeat constructor. }
  unfold u8. change (2 ^ 8) with 256. change (2 ^ 16) with 65536. change (2 ^ 24) with 16777216 in *. Z.div_mod_to_equations. lia.
Qed.

Lemma asked_polls n cs a0 a1 a2 a3 : asked a0 a1 a2 a3 (replicate n (In 503) ++ cs) = asked a0 a1 a2 a3 cs.
Proof. by induction n. Qed.

(** The calls [cs] ask for the sectors [os], whatever the registers hold. *)
Definition asks (cs : list io) (os : list Z) : Prop :=
  forall a0 a1 a2 a3, exists b0 b1 b2 b3, forall cs', asked a0 a1 a2 a3 (cs ++ cs') = os ++ asked b0 b1 b2 b3 cs'.

Lemma asks_nil : asks [] [].
Proof. intros a0 a1 a2 a3. by exists a0, a1, a2, a3. Qed.
Lemma asks_app cs cs' os os' : asks cs os -> asks cs' os' -> asks (cs ++ cs') (os ++ os').
Proof.
  intros H H' a0 a1 a2 a3. destruct (H a0 a1 a2 a3) as (b0 & b1 & b2 & b3 & E). destruct (H' b0 b1 b2 b3) as (c0 & c1 & c2 & c3 & E').
  exists c0, c1, c2, c3. intros cs''. by rewrite <- !app_assoc, E, E'.
Qed.
Lemma asks_sect n1 n2 o : 0 <= o < 2 ^ 28 -> asks (sect_calls n1 n2 o) [o].
Proof.
  intros Ho a0 a1 a2 a3. exists (u8 o), (u8 (Z.shiftr o 8)), (u8 (Z.shiftr o 16)), (u8 (Z.lor (Z.shiftr o 24) 224)). intros cs'.
  unfold sect_calls. rewrite <- !app_assoc, asked_polls. cbn -[u8 Z.shiftr Z.lor replicate Z.mul Z.add Z.land].
  rewrite (lba_bytes o Ho). f_equal. apply (asked_polls (S n2) (Insl 496 128 :: cs')).
Qed.

(** *** A range of sectors *)

Definition sectors (o : Z) (n : nat) : list Z := map (fun i => o + Z.of_nat i) (seq 0 n).
Lemma sectors_S o n : sectors o (S n) = o :: sectors (o + 1) n.
Proof.
  unfold sectors. cbn [seq map]. rewrite Z.add_0_r. f_equal. rewrite <- seq_shift, map_map. apply map_ext. lia.
Qed.

(** Memory with the sectors from [o] copied to [pa]. *)
Definition with_sectors (m : mem) (pa o : Z) (n : nat) : mem :=
  fun x => if (pa <=? x) && (x <? pa + 512 * Z.of_nat n) then img ((o - 1) * 512 + (x - pa)) else m x.

Lemma mwrite_sector m pa o x : mwrite m pa (disk o) x = if (pa <=? x) && (x <? pa + 512) then img ((o - 1) * 512 + (x - pa)) else m x.
Proof.
  unfold mwrite. rewrite disk_sectors. change (Z.of_nat 512) with 512.
  destruct (Z.leb_spec pa x), (Z.ltb_spec x (pa + 512)); cbn [andb]; try done. unfold img.
  rewrite (Z.add_comm (_ * 512)), Z_mod_plus_full, Z.div_add, (Z.mod_small (x - pa)), (Z.div_small (x - pa)) by lia.
  by replace (0 + (o - 1) + 1) with o by lia.
Qed.

Lemma with_sectors_S m pa o n x :
  with_sectors (mwrite m pa (disk o)) (pa + 512) (o + 1) n x = with_sectors m pa o (S n) x.
Proof.
  unfold with_sectors. rewrite mwrite_sector.
  repeat (zcase; cbn [andb]; try lia); try done; f_equal; lia.
Qed.

Lemma readseg_loop_reads n : forall fuel m pa epa o rs rest,
  (n < fuel)%nat -> epa <= pa + 512 * Z.of_nat n -> (n = O \/ pa + 512 * (Z.of_nat n - 1) < epa) ->
  0 <= pa -> pa + 512 * Z.of_nat n < W32 -> 0 <= o -> o + Z.of_nat n <= 2 ^ 28 -> served (sectors o n) rs ->
  exists m' cs, readseg_loop fuel m pa epa o (rs ++ rest) = URet m' cs rest /\
    (forall x, m' x = with_sectors m pa o n x) /\ asks cs (sectors o n).
Proof.
  induction n as [|n IH]; intros [|fuel] m pa epa o rs rest Hf He He' Hpa Hw Ho Ho' Hs; try lia; cbn [readseg_loop].
  - destruct (Z.ltb_spec pa epa); [lia|]. cbn in Hs. inversion Hs; subst. exists m, []. split; [done|]. split; [|apply asks_nil].
    intros x. unfold with_sectors. repeat (zcase; cbn [andb]; try lia); done.
  - unfold W32 in Hw. destruct (Z.ltb_spec pa epa); [|lia]. rewrite sectors_S in Hs.
    inversion Hs as [|? ? b1 r1 b2 r2 v rs' H1 R1 H2 R2 Hs']; subst. rewrite <- app_assoc. cbn [app]. rewrite <- app_assoc. cbn [app].
    rewrite (ubind_ret _ _ _ _ _ _ (readsect_reads m pa o b1 r1 b2 r2 v (disk o) (rs' ++ rest) H1 R1 H2 R2 (disk_sectors o))).
    change SECTSIZE with 512. rewrite !u32_small by lia.
    destruct (IH fuel (mwrite m pa (disk o)) (pa + 512) epa (o + 1) rs' rest ltac:(lia) ltac:(lia) ltac:(lia) ltac:(lia) ltac:(unfold W32; lia) ltac:(lia) ltac:(lia) Hs') as (m' & cs & -> & Hm & Ha).
    exists m'. eexists. split; [reflexivity|]. split.
    + intros x. rewrite Hm. apply with_sectors_S.
    + rewrite sectors_S. apply (asks_app _ _ [o]); [apply asks_sect; lia|done].
Qed.

(** *** A segment *)

(** How many sectors [readseg] reads. *)
Definition nsect (count offset : Z) : nat := Z.to_nat ((count + offset mod 512 + 511) / 512).
Definition seg_sectors (count offset : Z) : list Z := sectors (offset / 512 + 1) (nsect count offset).

Lemma readseg_reads m pa count offset rs rest :
  0 <= count -> 0 <= offset -> offset mod 512 <= pa -> pa + count + 512 < W32 -> offset / 512 + Z.of_nat (nsect count offset) < 2 ^ 28 ->
  served (seg_sectors count offset) rs ->
  exists m' cs, readseg m pa count offset (rs ++ rest) = URet m' cs rest /\
    (forall x, m' x = with_sectors m (pa - offset mod 512) (offset / 512 + 1) (nsect count offset) x) /\ asks cs (seg_sectors count offset).
Proof.
  intros Hc Ho Hpa Hw Hs Hr. unfold W32 in Hw. pose proof (Z.mod_pos_bound offset 512 ltac:(lia)).
  assert (0 <= offset / 512) by (apply Z.div_pos; lia).
  unfold readseg. change SECTSIZE with 512. rewrite !u32_small by lia.
  assert (Z.of_nat (nsect count offset) = (count + offset mod 512 + 511) / 512) as Hn by (apply Z2Nat.id, Z.div_pos; lia).
  assert (512 * Z.of_nat (nsect count offset) <= count + offset mod 512 + 511 < 512 * Z.of_nat (nsect count offset) + 512) as Hb.
  { rewrite Hn. Z.div_mod_to_equations. lia. }
  apply readseg_loop_reads; try done; unfold W32; try lia. unfold nsect.
  replace (pa + count - (pa - offset mod 512) + 512 - 1) with (count + offset mod 512 + 511) by lia. lia.
Qed.

(** ** The kernel *)

Record seg : Type := mkSeg { s_off : Z; s_paddr : Z; s_filesz : Z; s_memsz : Z }.
Definition seg_at (m : mem) (ph : Z) : seg := mkSeg (ph_off m ph) (ph_paddr m ph) (ph_filesz m ph) (ph_memsz m ph).
Definition sectors_of (s : seg) : list Z := seg_sectors (s_filesz s) (s_off s).

(** The memory that loading a segment may change, and the segment's end. *)
Definition seg_lo (s : seg) : Z := s_paddr s - s_off s mod 512.
Definition seg_end (s : seg) : Z := s_paddr s + Z.max (s_filesz s) (s_memsz s).
Definition seg_hi (s : seg) : Z := Z.max (seg_lo s + 512 * Z.of_nat (nsect (s_filesz s) (s_off s))) (seg_end s).

(** The segment fits in memory and on the disk and is not over the header page. *)
Definition seg_ok (s : seg) : Prop :=
  0 <= seg_lo s /\ seg_end s + 512 < W32 /\ s_off s / 512 + Z.of_nat (nsect (s_filesz s) (s_off s)) < 2 ^ 28 /\
  (seg_hi s <= elf \/ elf + 4096 <= seg_lo s).
(** Loading a segment leaves the ones before it alone. *)
Fixpoint apart (ss : list seg) : Prop :=
  match ss with
  | [] => True
  | s :: ss' => Forall (fun t => seg_hi t <= s_paddr s \/ seg_end s <= seg_lo t) ss' /\ apart ss'
  end.

(** The segment's bytes of the file, and then zeros. *)
Definition loaded (m : mem) (s : seg) : Prop :=
  (forall x, s_paddr s <= x < s_paddr s + s_filesz s -> m x = img (s_off s + (x - s_paddr s))) /\
  (forall x, s_paddr s + s_filesz s <= x < s_paddr s + s_memsz s -> m x = 0).

(** The first page of the file is in the scratch space. *)
Definition header (m : mem) : Prop := forall x, 0 <= x < 4096 -> m (elf + x) = img x.

Lemma header_ld8 m k : header m -> 0 <= k < 4096 -> ld8 m (elf + k) = ld8 img k.
Proof. intros H Hk. unfold ld8. by rewrite H. Qed.
Lemma header_ld32 m k : header m -> 0 <= k -> k + 4 <= 4096 -> ld32 m (elf + k) = ld32 img k.
Proof. intros H Hk Hk'. unfold ld32. rewrite <- !Z.add_assoc, !header_ld8 by (done || lia). done. Qed.
Lemma header_seg m k : header m -> 0 <= k -> k + 32 <= 4096 -> seg_at m (elf + k) = seg_at img k.
Proof.
  intros H Hk Hk'. unfold seg_at, ph_off, ph_paddr, ph_filesz, ph_memsz. by rewrite <- !Z.add_assoc, !header_ld32 by (done || lia).
Qed.

Lemma seg_nonneg m ph : let s := seg_at m ph in 0 <= s_off s /\ 0 <= s_paddr s /\ 0 <= s_filesz s /\ 0 <= s_memsz s.
Proof. unfold seg_at, ph_off, ph_paddr, ph_filesz, ph_memsz. cbn. repeat split; apply ld32_range. Qed.

Lemma with_sectors_loaded m s x :
  0 <= s_filesz s -> 0 <= s_off s ->
  let m1 := with_sectors m (seg_lo s) (s_off s / 512 + 1) (nsect (s_filesz s) (s_off s)) in
  (s_paddr s <= x < s_paddr s + s_filesz s -> m1 x = img (s_off s + (x - s_paddr s))) /\
  (~ (seg_lo s <= x < seg_hi s) -> m1 x = m x).
Proof.
  intros Hf Ho. cbn zeta. unfold with_sectors, seg_hi, seg_lo. pose proof (Z.mod_pos_bound (s_off s) 512 ltac:(lia)).
  assert (s_off s mod 512 + s_filesz s <= 512 * Z.of_nat (nsect (s_filesz s) (s_off s))) as Hn.
  { unfold nsect. rewrite Z2Nat.id by (apply Z.div_pos; lia). Z.div_mod_to_equations. lia. }
  pose proof (Z.div_mod (s_off s) 512 ltac:(lia)). split; intros Hx.
  - repeat (zcase; cbn [andb]; try lia). f_equal. lia.
  - repeat (zcase; cbn [andb]; try lia); done.
Qed.

Lemma load_segment_loads m k rs rest :
  header m -> 0 <= k -> k + 32 <= 4096 ->
  let s := seg_at img k in
  seg_ok s -> served (sectors_of s) rs ->
  exists m' cs, load_segment m (elf + k) (rs ++ rest) = URet m' cs rest /\ loaded m' s /\
    (forall x, ~ (seg_lo s <= x < seg_hi s) -> m' x = m x) /\ asks cs (sectors_of s).
Proof.
  intros Hh Hk Hk' s (Hlo & Hend & Hd & Hpage) Hs. pose proof (seg_nonneg img k) as (H1 & H2 & H3 & H4). fold s in H1, H2, H3, H4.
  pose proof (header_seg m k Hh Hk Hk') as E. fold s in E. unfold load_segment.
  change (ph_paddr m (elf + k)) with (s_paddr (seg_at m (elf + k))). change (ph_filesz m (elf + k)) with (s_filesz (seg_at m (elf + k))).
  change (ph_off m (elf + k)) with (s_off (seg_at m (elf + k))). rewrite E.
  destruct (readseg_reads m (s_paddr s) (s_filesz s) (s_off s) rs rest) as (m1 & cs & E1 & Hm & Ha);
    [done|done|unfold seg_lo in *; lia|unfold seg_end, W32 in *; lia|done|done|]. rewrite (ubind_ret _ _ _ _ _ _ E1).
  assert (forall x, ~ (seg_lo s <= x < seg_hi s) -> m1 x = m x) as Hout.
  { intros x Hx. rewrite Hm. by apply (with_sectors_loaded m s x H3 H1). }
  assert (header m1) as Hh1. { intros x Hx. rewrite Hout; [by apply Hh|]. unfold elf in *. lia. }
  change (ph_filesz m1 (elf + k)) with (s_filesz (seg_at m1 (elf + k))). change (ph_memsz m1 (elf + k)) with (s_memsz (seg_at m1 (elf + k))).
  rewrite (header_seg m1 k Hh1 Hk Hk'). fold s.
  eexists _, _. split; [reflexivity|]. rewrite app_nil_r. split; [split|split]; [intros x Hx..|done].
  - assert (m1 x = img (s_off s + (x - s_paddr s))) as E2 by (rewrite Hm; by apply (with_sectors_loaded m s x H3 H1)).
    destruct (Z.ltb_spec (s_filesz s) (s_memsz s)); [|done]. rewrite mset_other; [done|]. rewrite u32_small by (unfold seg_end, W32 in *; lia). lia.
  - destruct (Z.ltb_spec (s_filesz s) (s_memsz s)); [|lia]. rewrite mset_in; [done|]. rewrite u32_small by (unfold seg_end, W32 in *; lia). lia.
  - destruct (Z.ltb_spec (s_filesz s) (s_memsz s)); [|by apply Hout].
    rewrite mset_other; [by apply Hout|]. pose proof (Z.mod_pos_bound (s_off s) 512 ltac:(lia)).
    rewrite u32_small by (unfold seg_end, W32 in *; lia). unfold seg_hi, seg_end, seg_lo in *. lia.
Qed.

Lemma served_app os os' rs : served (os ++ os') rs -> exists rs1 rs2, rs = rs1 ++ rs2 /\ served os rs1 /\ served os' rs2.
Proof.
  revert rs. induction os as [|o os IH]; cbn; intros rs Hs; [exists [], rs; split; [done|]; split; [constructor|done]|].
  inversion Hs as [|? ? b1 r1 b2 r2 v rs' H1 R1 H2 R2 Hs']; subst. destruct (IH _ Hs') as (rs1 & rs2 & -> & Hs1 & Hs2).
  exists (b1 ++ r1 :: b2 ++ r2 :: mkReply v (disk o) :: rs1), rs2. split; [|split; [by constructor|done]].
  rewrite <- app_assoc. cbn. by rewrite <- app_assoc.
Qed.

(** The segments of the program headers from [k] on. *)
Definition segs (n : nat) (k : Z) : list seg := map (fun i => seg_at img (k + 32 * Z.of_nat i)) (seq 0 n).
Lemma segs_S n k : segs (S n) k = seg_at img k :: segs n (k + 32).
Proof.
  unfold segs. cbn [seq map]. rewrite Z.mul_0_r, Z.add_0_r. f_equal. rewrite <- seq_shift, map_map. apply map_ext. intros i. f_equal. lia.
Qed.

Lemma loaded_kept m m' s t : 0 <= s_filesz s -> seg_hi t <= s_paddr s \/ seg_end s <= seg_lo t ->
  (forall x, ~ (seg_lo t <= x < seg_hi t) -> m' x = m x) -> loaded m s -> loaded m' s.
Proof.
  intros H0 Hd Hm [H1 H2]. unfold seg_end in Hd. split; intros x Hx; rewrite Hm by lia; [by apply H1|by apply H2].
Qed.

Lemma load_segments_loads n : forall m k rs rest,
  header m -> 0 <= k -> k + 32 * Z.of_nat n <= 4096 -> Forall seg_ok (segs n k) -> apart (segs n k) ->
  served (concat (map sectors_of (segs n k))) rs ->
  exists m' cs, load_segments n m (elf + k) (rs ++ rest) = URet m' cs rest /\ header m' /\ Forall (loaded m') (segs n k) /\
    (forall s, 0 <= s_filesz s -> loaded m s -> Forall (fun t => seg_hi t <= s_paddr s \/ seg_end s <= seg_lo t) (segs n k) -> loaded m' s) /\
    asks cs (concat (map sectors_of (segs n k))).
Proof.
  induction n as [|n IH]; intros m k rs rest Hh Hk Hk' Hok Hap Hs.
  - cbn in Hs. inversion Hs; subst. exists m, []. split; [done|]. split; [done|]. split; [constructor|]. split; [done|apply asks_nil].
  - rewrite segs_S in *. cbn [map concat load_segments] in *. destruct Hap as [Hap1 Hap].
    apply Forall_cons in Hok as [Hok1 Hok]. destruct (served_app _ _ _ Hs) as (rs1 & rs2 & -> & Hs1 & Hs2). rewrite <- app_assoc.
    destruct (load_segment_loads m k rs1 (rs2 ++ rest) Hh Hk ltac:(lia) Hok1 Hs1) as (m1 & cs1 & E1 & Hl1 & Hout & Ha1).
    rewrite (ubind_ret _ _ _ _ _ _ E1). rewrite <- Z.add_assoc.
    assert (header m1) as Hh1. { intros x Hx. rewrite Hout; [by apply Hh|]. destruct Hok1 as (_ & _ & _ & Hp). unfold elf in *. lia. }
    destruct (IH m1 (k + 32) rs2 rest Hh1 ltac:(lia) ltac:(lia) Hok Hap Hs2) as (m2 & cs2 & -> & Hh2 & Hl2 & Hkeep & Ha2).
    eexists m2, _. split; [reflexivity|]. split; [done|]. split; [constructor; [apply Hkeep; [apply seg_nonneg|done|done]|done]|].
    split; [|by apply asks_app]. intros s Hz Hls Hf. apply Forall_cons in Hf as [Hf1 Hf]. apply Hkeep; [done| |done]. by apply (loaded_kept m m1 s (seg_at img k)).
Qed.

(** The program headers of the kernel, and the sectors the boot loader reads. *)
Definition kernel_segs : list seg := segs (Z.to_nat (elf_phnum img 0)) (elf_phoff img 0).
Definition boot_sectors : list Z := seg_sectors 4096 0 ++ concat (map sectors_of kernel_segs).

Lemma header_loads m rs rest : served (seg_sectors 4096 0) rs ->
  exists m1 cs, readseg m elf 4096 0 (rs ++ rest) = URet m1 cs rest /\ header m1 /\ asks cs (seg_sectors 4096 0).
Proof.
  intros Hs. destruct (readseg_reads m elf 4096 0 rs rest) as (m1 & cs & E & Hm & Ha); [done..|].
  exists m1, cs. split; [done|]. split; [|done]. intros x Hx. rewrite Hm. unfold with_sectors.
  change (elf - 0 mod 512) with elf. change (Z.of_nat (nsect 4096 0)) with 8. change (0 / 512 + 1 - 1) with 0.
  repeat (zcase; cbn [andb]; try lia). f_equal. lia.
Qed.

(** A disk without an ELF file: the loader returns after the header page. *)
Lemma bootmain_rejects m rs : elf_magic img 0 <> ELF_MAGIC -> served (seg_sectors 4096 0) rs ->
  exists cs, bootmain m rs = URet None cs [] /\ asked 0 0 0 0 cs = seg_sectors 4096 0.
Proof.
  intros Hmagic Hs. unfold bootmain. rewrite <- (app_nil_r rs). destruct (header_loads m rs [] Hs) as (m1 & cs & E & Hh & Ha).
  rewrite (ubind_ret _ _ _ _ _ _ E). assert (elf_magic m1 elf = elf_magic img 0) as ->. { unfold elf_magic. by rewrite <- (header_ld32 m1 0). }
  rewrite (proj2 (Z.eqb_neq _ _) Hmagic). eexists. split; [reflexivity|]. destruct (Ha 0 0 0 0) as (b0 & b1 & b2 & b3 & E'). by rewrite E', app_nil_r.
Qed.

(** Replies without a poll that fails. *)
Lemma served_plain os : served os (concat (map (fun o => [mkReply 64 []; mkReply 64 []; mkReply 0 (disk o)]) os)).
Proof. induction os as [|o os IH]; cbn; [constructor|]. by apply (served_cons o os [] _ [] _). Qed.

(** The boot loader reads the header page and the segments of the kernel,
    those sectors and no others, and enters the kernel at its entry point with
    each segment loaded: its bytes of the file at its physical address, and
    zeros from there to its size in memory. *)
Theorem bootmain_loads m rs :
  elf_magic img 0 = ELF_MAGIC -> elf_phoff img 0 + 32 * elf_phnum img 0 <= 4096 ->
  Forall seg_ok kernel_segs -> apart kernel_segs -> served boot_sectors rs ->
  exists m' cs, bootmain m rs = URet (Some (elf_entry img 0, m')) cs [] /\
    asked 0 0 0 0 cs = boot_sectors /\ Forall (loaded m') kernel_segs.
Proof.
  intros Hmagic Hph Hok Hap Hs. destruct (served_app _ _ _ Hs) as (rs1 & rs2 & -> & Hs1 & Hs2). unfold bootmain.
  destruct (header_loads m rs1 rs2 Hs1) as (m1 & cs1 & E1 & Hh & Ha1). rewrite (ubind_ret _ _ _ _ _ _ E1).
  pose proof (ld8_range img 44). pose proof (ld8_range img 45). pose proof (ld32_range img 28) as Hp.
  assert (elf_phnum m1 elf = elf_phnum img 0) as ->. { unfold elf_phnum. by rewrite !(header_ld8 m1) by done. }
  assert (elf_phoff m1 elf = elf_phoff img 0) as ->. { unfold elf_phoff. by rewrite (header_ld32 m1) by done. }
  assert (elf_magic m1 elf = elf_magic img 0) as ->. { unfold elf_magic. by rewrite <- (header_ld32 m1 0). }
  rewrite Hmagic, Z.eqb_refl. cbn [negb]. unfold elf_phnum, elf_phoff in *. change (0 + 28) with 28 in *. change (0 + 44) with 44 in *. change (0 + 45) with 45 in *.
  rewrite u32_small by (unfold elf; lia). rewrite <- (app_nil_r rs2).
  destruct (load_segments_loads (Z.to_nat (ld8 img 44 + 256 * ld8 img 45)) m1 (ld32 img 28) rs2 [] Hh ltac:(lia) ltac:(lia) Hok Hap Hs2) as (m2 & cs2 & E2 & Hh2 & Hl & _ & Ha2).
  rewrite (ubind_ret _ _ _ _ _ _ E2). exists m2. eexists. split; [|split; [|done]].
  - unfold elf_entry. by rewrite (header_ld32 m2) by done.
  - destruct (asks_app _ _ _ _ Ha1 Ha2 0 0 0 0) as (b0 & b1 & b2 & b3 & E). specialize (E []). cbn [asked] in E. rewrite !app_nil_r in *. apply E.
Qed.

End Sectors.

(** A kernel with one segment: 100 bytes from byte 1000 of the file, 600 in memory. *)
Definition sample_header : list Z :=
  [127; 69; 76; 70] ++ repeat 0 20 ++ le32 1048588 ++ le32 52 ++ repeat 0 12 ++ le16 1 ++ repeat 0 6 ++
  le32 1 ++ le32 1000 ++ le32 2148532224 ++ le32 1048576 ++ le32 100 ++ le32 600 ++ repeat 0 8.
Definition sample_disk (o : Z) : list Z := if o =? 1 then sample_header ++ repeat 0 428 else repeat (o mod 256) 512.

Lemma sample_disk_sectors o : length (sample_disk o) = 512%nat.
Proof. unfold sample_disk. destruct (o =? 1); [done|apply repeat_length]. Qed.
