(* ===== verification/Asm.v ===== *)
(** * The assembly code (swtch.S, trapasm.S, vectors.pl, usys.S, initcode.S)

    Assembly routines are lists of instructions, run on a processor with
    general and segment registers, flags and a memory addressed by the virtual
    addresses of the current page directory.  Shown: a thread that [swtch]
    left goes on, when some thread switches back to it, with its callee-saved
    registers, after its call ([swtch_returns]); and a user program that calls
    a stub of usys.S goes on after the call with all its registers, [eax]
    being what the kernel put in the trap frame ([syscall_returns]). *)

From stdpp Require Import base list gmap strings.
From S2P Require Import Prelude Memory Kernel KMonad Boot Ide Fs File Console Proc Syscall SysFile Trap.

(** ** The processor *)

Inductive gpr : Type := EAX | ECX | EDX | EBX | ESP | EBP | ESI | EDI.
Inductive sreg : Type := CS | DS | ES | FS | GS | SS.
#[global] Instance gpr_eq_dec : EqDecision gpr.
Proof. solve_decision. Defined.
#[global] Instance sreg_eq_dec : EqDecision sreg.
Proof. solve_decision. Defined.

Record machine : Type := mkX { rg : gpr -> Z; sr : sreg -> Z; mm : mem; eip : Z; eflags : Z }.

Definition setr (r : gpr) (v : Z) (s : machine) : machine :=
  mkX (fun q => if decide (q = r) then v else rg s q) (sr s) (mm s) (eip s) (eflags s).
Definition sets (r : sreg) (v : Z) (s : machine) : machine :=
  mkX (rg s) (fun q => if decide (q = r) then v else sr s q) (mm s) (eip s) (eflags s).
Definition setm (m : mem) (s : machine) : machine := mkX (rg s) (sr s) m (eip s) (eflags s).
Definition set_eip (v : Z) (s : machine) : machine := mkX (rg s) (sr s) (mm s) v (eflags s).
Definition set_eflags (v : Z) (s : machine) : machine := mkX (rg s) (sr s) (mm s) (eip s) v.

Definition push (v : Z) (s : machine) : machine :=
  let sp := u32 (rg s ESP - 4) in setr ESP sp (setm (st32 (mm s) sp v) s).
Definition top (s : machine) : Z := ld32 (mm s) (rg s ESP).
Definition drop4 (s : machine) : machine := setr ESP (u32 (rg s ESP + 4)) s.

(** The instructions the routines use.  [Movl_load d b r] is [movl d(%b), %r],
    [Movl_store r b] is [movl %r, (%b)]. *)
Inductive instr : Type :=
| Pushl (r : gpr) | Pushl_seg (r : sreg) | Pushl_imm (v : Z)
| Popl (r : gpr) | Popl_seg (r : sreg) | Pushal | Popal
| Movl (r d : gpr) | Movl_imm (v : Z) (d : gpr) | Movl_load (disp : Z) (b d : gpr) | Movl_store (r b : gpr)
| Movw_imm_ax (v : Z) | Movw_ax (d : sreg) | Addl_esp (n : Z)
| Ret | Iret.

Definition pop_to (r : gpr) (s : machine) : machine := let v := top s in setr r v (drop4 s).
(** A selector is the low half of a word. *)
Definition pop_seg (r : sreg) (s : machine) : machine := let v := top s mod 65536 in sets r v (drop4 s).

(** [iret] to a less privileged level also pops the stack. *)
Definition iret (s : machine) : machine :=
  let cpl := Z.land (sr s CS) 3 in
  let s := drop4 (set_eip (top s) s) in
  let s := pop_seg CS s in
  let s := drop4 (set_eflags (top s) s) in
  if cpl <? Z.land (sr s CS) 3 then
    let sp := top s in
    let s := pop_seg SS (drop4 s) in
    setr ESP sp s
  else s.

Definition step (i : instr) (s : machine) : machine :=
  match i with
  | Pushl r => push (rg s r) s
  | Pushl_seg r => push (sr s r) s
  | Pushl_imm v => push v s
  | Popl r => pop_to r s
  | Popl_seg r => pop_seg r s
  | Pushal =>
    let sp := rg s ESP in
    push (rg s EDI) (push (rg s ESI) (push (rg s EBP) (push sp
      (push (rg s EBX) (push (rg s EDX) (push (rg s ECX) (push (rg s EAX) s)))))))
  | Popal => pop_to EAX (pop_to ECX (pop_to EDX (pop_to EBX (drop4 (pop_to EBP (pop_to ESI (pop_to EDI s)))))))
  | Movl r d => setr d (rg s r) s
  | Movl_imm v d => setr d v s
  | Movl_load disp b d => setr d (ld32 (mm s) (u32 (rg s b + disp))) s
  | Movl_store r b => setm (st32 (mm s) (rg s b) (rg s r)) s
  | Movw_imm_ax v => setr EAX (rg s EAX / 65536 * 65536 + v) s
  | Movw_ax d => sets d (rg s EAX mod 65536) s
  | Addl_esp n => setr ESP (u32 (rg s ESP + n)) s
  | Ret => set_eip (top s) (drop4 s)
  | Iret => iret s
  end.
Fixpoint run (code : list instr) (s : machine) : machine :=
  match code with
  | [] => s
  | i :: code' => run code' (step i s)
  end.

(** A trap or [int] through a gate of the descriptor table: from user code the
    stack is the one of the task segment.  [ret] is the address to return to,
    [err] the error code if the trap has one. *)
Definition gate (ss0 esp0 ret : Z) (err : option Z) (s : machine) : machine :=
  let s1 := if 0 <? Z.land (sr s CS) 3
            then push (rg s ESP) (push (sr s SS) (setr ESP esp0 (sets SS ss0 s))) else s in
  let s2 := push ret (push (sr s CS) (push (eflags s) s1)) in
  let s3 := match err with Some e => push e s2 | None => s2 end in
  sets CS (SEG_KCODE * 8) s3.

(** ** The routines *)

Definition swtch : list instr :=
  [ Movl_load 4 ESP EAX; Movl_load 8 ESP EDX;
    Pushl EBP; Pushl EBX; Pushl ESI; Pushl EDI;
    Movl_store ESP EAX; Movl EDX ESP;
    Popl EDI; Popl ESI; Popl EBX; Popl EBP;
    Ret ].

(** Up to [call trap], and from there on. *)
Definition alltraps : list instr :=
  [ Pushl_seg DS; Pushl_seg ES; Pushl_seg FS; Pushl_seg GS; Pushal;
    Movw_imm_ax (SEG_KDATA * 8); Movw_ax DS; Movw_ax ES;
    Movw_imm_ax (SEG_KCPU * 8); Movw_ax FS; Movw_ax GS;
    Pushl ESP ].
Definition trapret : list instr :=
  [ Popal; Popl_seg GS; Popl_seg FS; Popl_seg ES; Popl_seg DS; Addl_esp 8; Iret ].
Definition after_trap : list instr := Addl_esp 4 :: trapret.

(** The entry point of trap [i], which goes on at [alltraps]. *)
Definition has_errcode (i : Z) : bool := (i =? 8) || ((10 <=? i) && (i <=? 14)) || (i =? 17).
Definition vector (i : Z) : list instr := (if negb (has_errcode i) then [Pushl_imm 0] else []) ++ [Pushl_imm i].

(** *** The stubs of usys.S *)

(** The system calls, and their numbers (syscall.h). *)
Inductive sysname : Type :=
| Sys_fork | Sys_exit | Sys_wait | Sys_pipe | Sys_read | Sys_kill | Sys_exec | Sys_fstat | Sys_chdir | Sys_dup
| Sys_getpid | Sys_sbrk | Sys_sleep | Sys_uptime | Sys_open | Sys_write | Sys_mknod | Sys_unlink | Sys_link
| Sys_mkdir | Sys_close | Sys_kthread_create | Sys_kthread_id | Sys_kthread_exit | Sys_kthread_join
| Sys_kthread_mutex_alloc | Sys_kthread_mutex_dealloc | Sys_kthread_mutex_lock | Sys_kthread_mutex_unlock
| Sys_cow_fork | Sys_cow_wait | Sys_procdump.
Definition SYS (n : sysname) : Z :=
  match n with
  | Sys_fork => 1 | Sys_exit => 2 | Sys_wait => 3 | Sys_pipe => 4 | Sys_read => 5 | Sys_kill => 6
  | Sys_exec => 7 | Sys_fstat => 8 | Sys_chdir => 9 | Sys_dup => 10 | Sys_getpid => 11 | Sys_sbrk => 12
  | Sys_sleep => 13 | Sys_uptime => 14 | Sys_open => 15 | Sys_write => 16 | Sys_mknod => 17 | Sys_unlink => 18
  | Sys_link => 19 | Sys_mkdir => 20 | Sys_close => 21 | Sys_kthread_create => 22 | Sys_kthread_id => 23
  | Sys_kthread_exit => 24 | Sys_kthread_join => 25 | Sys_kthread_mutex_alloc => 26
  | Sys_kthread_mutex_dealloc => 27 | Sys_kthread_mutex_lock => 28 | Sys_kthread_mutex_unlock => 29
  | Sys_cow_fork => 30 | Sys_cow_wait => 31 | Sys_procdump => 32
  end.
(** The stubs, in the order of the file. *)
Definition usys : list sysname :=
  [Sys_fork; Sys_exit; Sys_wait; Sys_pipe; Sys_read; Sys_write; Sys_close; Sys_kill; Sys_exec; Sys_open;
   Sys_mknod; Sys_unlink; Sys_fstat; Sys_link; Sys_mkdir; Sys_chdir; Sys_dup; Sys_getpid; Sys_sbrk; Sys_sleep;
   Sys_uptime; Sys_kthread_create; Sys_kthread_id; Sys_kthread_exit; Sys_kthread_join;
   Sys_kthread_mutex_alloc; Sys_kthread_mutex_dealloc; Sys_kthread_mutex_lock; Sys_kthread_mutex_unlock;
   Sys_cow_fork; Sys_cow_wait; Sys_procdump].

(** [SYSCALL(name)] before and after [int $T_SYSCALL]. *)
Definition stub (num : Z) : list instr := [Movl_imm num EAX].
Definition stub_end : list instr := [Ret].

(** [start], before [int $T_SYSCALL]. *)
Definition initcode (init argv sys_exec : Z) : list instr :=
  [Pushl_imm argv; Pushl_imm init; Pushl_imm 0; Movl_imm sys_exec EAX].

(** ** Facts about stacks *)

(** The words from address [a] on. *)
Fixpoint words_at (m : mem) (a : Z) (ws : list Z) : Prop :=
  match ws with
  | [] => True
  | w :: ws' => ld32 m a = w /\ words_at m (a + 4) ws'
  end.
Definition word (v : Z) : Prop := 0 <= v < 4294967296.
(** Room for [n] words below the stack pointer. *)
Definition room (n : Z) (s : machine) : Prop := 4 * n <= rg s ESP < 4294967296.

Lemma words_at_ext m m' ws a :
  (forall x, a <= x < a + 4 * Z.of_nat (length ws) -> m' x = m x) -> words_at m a ws -> words_at m' a ws.
Proof.
  revert a. induction ws as [|w ws IH]; intros a Hx; cbn; [done|]. cbn [length] in Hx. intros [Hw Hws]. split.
  - rewrite <- Hw. apply ld32_ext. intros x Hx'. apply Hx. lia.
  - apply IH; [|done]. intros x Hx'. apply Hx. lia.
Qed.

Lemma push_esp v s : room 1 s -> rg (push v s) ESP = rg s ESP - 4.
Proof. intros Hr. unfold room in Hr. cbn. apply u32_small. lia. Qed.
Lemma push_rg v s r : r <> ESP -> rg (push v s) r = rg s r.
Proof. intros Hr. cbn. by rewrite decide_False. Qed.

Lemma push_words v s ws : room 1 s -> word v -> words_at (mm s) (rg s ESP) ws -> words_at (mm (push v s)) (rg (push v s) ESP) (v :: ws).
Proof.
  intros Hr Hv Hw. rewrite (push_esp v s Hr). unfold room in Hr. cbn [push words_at]. split.
  - cbn. rewrite u32_small by lia. by apply ld32_st32_eq.
  - replace (rg s ESP - 4 + 4) with (rg s ESP) by lia. revert Hw. apply words_at_ext. intros x Hx. cbn. apply st32_other.
    rewrite u32_small by lia. lia.
Qed.
Lemma push_above v s x : room 1 s -> rg s ESP <= x -> mm (push v s) x = mm s x.
Proof. intros Hr Hx. unfold room in Hr. cbn. apply st32_other. rewrite u32_small by lia. lia. Qed.

Definition push_all (vs : list Z) (s : machine) : machine := fold_left (fun s v => push v s) vs s.

Lemma push_all_spec vs : forall s ws,
  room (Z.of_nat (length vs)) s -> Forall word vs -> words_at (mm s) (rg s ESP) ws ->
  let s' := push_all vs s in
  rg s' ESP = rg s ESP - 4 * Z.of_nat (length vs) /\
  words_at (mm s') (rg s' ESP) (rev vs ++ ws) /\
  (forall x, rg s ESP <= x \/ x < rg s ESP - 4 * Z.of_nat (length vs) -> mm s' x = mm s x) /\
  (forall r, r <> ESP -> rg s' r = rg s r) /\ sr s' = sr s /\ eip s' = eip s /\ eflags s' = eflags s.
Proof.
  induction vs as [|v vs IH]; intros s ws Hr Hf Hw; cbn [push_all fold_left rev app length] in *.
  { repeat split; auto; lia. }
  apply Forall_cons in Hf as [Hv Hf]. unfold room in Hr. assert (room 1 s) as Hr1 by (unfold room; lia).
  pose proof (push_esp v s Hr1) as He.
  destruct (IH (push v s) (v :: ws)) as (E & W & M & R & S & P & F); [unfold room; rewrite He; lia|done|by apply push_words|].
  unfold push_all in *. rewrite He in *. split; [rewrite E; lia|]. split; [by rewrite <- app_assoc|]. split.
  { intros x Hx. rewrite M by lia. cbn. apply st32_other. rewrite u32_small by lia. lia. }
  split; [|done]. intros r Hn. by rewrite R, push_rg by done.
Qed.

(** ** Context switches *)

Section Swtch.

Definition old_arg (s : machine) : Z := ld32 (mm s) (u32 (rg s ESP + 4)).
Definition new_arg (s : machine) : Z := ld32 (mm s) (u32 (rg s ESP + 8)).
Definition saved (s : machine) : list Z := [rg s EBP; rg s EBX; rg s ESI; rg s EDI].

(** The memory after the context is saved. *)
Definition saved_mem (s : machine) : mem := st32 (mm (push_all (saved s) s)) (old_arg s) (rg (push_all (saved s) s) ESP).

(** The context at the new stack pointer is loaded. *)
Lemma swtch_loads s :
  new_arg s + 20 < 4294967296 ->
  let s' := run swtch s in let m := saved_mem s in let c := new_arg s in
  mm s' = m /\ rg s' EDI = ld32 m c /\ rg s' ESI = ld32 m (c + 4) /\ rg s' EBX = ld32 m (c + 8) /\
  rg s' EBP = ld32 m (c + 12) /\ eip s' = ld32 m (c + 16) /\ rg s' ESP = c + 20 /\ sr s' = sr s.
Proof.
  intros Hc. pose proof (ld32_range (mm s) (u32 (rg s ESP + 8))) as Hr. fold (new_arg s) in Hr. cbn zeta.
  assert (u32 (new_arg s + 4) = new_arg s + 4) as E1 by (apply u32_small; lia).
  assert (u32 (u32 (new_arg s + 4) + 4) = new_arg s + 8) as E2 by (rewrite E1, u32_small by lia; lia).
  assert (u32 (u32 (u32 (new_arg s + 4) + 4) + 4) = new_arg s + 12) as E3 by (rewrite E2, u32_small by lia; lia).
  assert (u32 (u32 (u32 (u32 (new_arg s + 4) + 4) + 4) + 4) = new_arg s + 16) as E4 by (rewrite E3, u32_small by lia; lia).
  repeat split.
  - change (ld32 (saved_mem s) (u32 (new_arg s + 4)) = ld32 (saved_mem s) (new_arg s + 4)). by rewrite E1.
  - change (ld32 (saved_mem s) (u32 (u32 (new_arg s + 4) + 4)) = ld32 (saved_mem s) (new_arg s + 8)). by rewrite E2.
  - change (ld32 (saved_mem s) (u32 (u32 (u32 (new_arg s + 4) + 4) + 4)) = ld32 (saved_mem s) (new_arg s + 12)). by rewrite E3.
  - change (ld32 (saved_mem s) (u32 (u32 (u32 (u32 (new_arg s + 4) + 4) + 4) + 4)) = ld32 (saved_mem s) (new_arg s + 16)). by rewrite E4.
  - change (u32 (u32 (u32 (u32 (u32 (new_arg s + 4) + 4) + 4) + 4) + 4) = new_arg s + 20). rewrite E4, u32_small by lia. lia.
Qed.

Lemma words_ctx m c edi esi ebx ebp ret : words_at m c [edi; esi; ebx; ebp; ret] ->
  ld32 m c = edi /\ ld32 m (c + 4) = esi /\ ld32 m (c + 8) = ebx /\ ld32 m (c + 12) = ebp /\ ld32 m (c + 16) = ret.
Proof.
  cbn. replace (c + 4 + 4) with (c + 8) by lia. replace (c + 8 + 4) with (c + 12) by lia. replace (c + 12 + 4) with (c + 16) by lia. tauto.
Qed.

(** The first switch to a thread, whose stack allocthread has set up, enters
    [forkret], with [trapret] as its return address. *)
Lemma swtch_enters s edi esi ebx ebp forkret trapret :
  new_arg s + 20 < 4294967296 -> words_at (saved_mem s) (new_arg s) [edi; esi; ebx; ebp; forkret; trapret] ->
  eip (run swtch s) = forkret /\ top (run swtch s) = trapret.
Proof.
  intros Hc W. destruct (swtch_loads s Hc) as (M & _ & _ & _ & _ & E & P & _). unfold top. rewrite E, P, M. cbn in W.
  rewrite <- !Z.add_assoc in W. cbn in W. tauto.
Qed.

(** The frame [swtch] builds on the stack of its caller. *)
Definition context_of (s : machine) : list Z := rev (saved s) ++ [top s].

(** The caller's context is at the address that is stored at [old]. *)
Lemma swtch_saves s :
  room 4 s -> (forall r, word (rg s r)) -> old_arg s + 4 <= rg s ESP - 16 \/ rg s ESP + 4 <= old_arg s ->
  words_at (saved_mem s) (rg s ESP - 16) (context_of s) /\ ld32 (saved_mem s) (old_arg s) = rg s ESP - 16 /\
  (forall x, rg s ESP <= x \/ x < rg s ESP - 16 -> ~ (old_arg s <= x < old_arg s + 4) -> saved_mem s x = mm s x).
Proof.
  intros Hr Hw Ho. destruct (push_all_spec (saved s) s [top s]) as (E & W & M & _); [done| |by cbn|].
  { unfold saved. repeat constructor; apply Hw. }
  change (4 * Z.of_nat (length (saved s))) with 16 in *. unfold saved_mem. rewrite E in *. unfold room in Hr. split; [|split].
  - revert W. apply words_at_ext. intros x Hx. change (4 * Z.of_nat (length (context_of s))) with 20 in Hx.
    apply st32_other. lia.
  - apply ld32_st32_eq. lia.
  - intros x Hx Hx'. rewrite st32_other by done. by apply M.
Qed.

(** C17: a thread that called [swtch] from the state [s] goes on when a later
    call, from the state [s2], switches to the context pointer it stored: its
    callee-saved registers are those it had, its stack pointer is above the
    return address of the call and it continues at that address.  The memory
    of the saved frame and of the pointer must be unchanged and apart from
    the stack of the thread that switches back. *)
Theorem swtch_returns s s2 :
  room 4 s -> (forall r, word (rg s r)) -> rg s ESP + 4 < 4294967296 ->
  old_arg s + 4 <= rg s ESP - 16 \/ rg s ESP + 4 <= old_arg s ->
  (forall x, rg s ESP - 16 <= x < rg s ESP + 4 \/ old_arg s <= x < old_arg s + 4 -> mm s2 x = mm (run swtch s) x) ->
  room 4 s2 -> (forall r, word (rg s2 r)) -> new_arg s2 = ld32 (mm s2) (old_arg s) ->
  rg s2 ESP <= rg s ESP - 16 \/ rg s ESP + 4 <= rg s2 ESP - 16 ->
  old_arg s2 + 4 <= rg s ESP - 16 \/ rg s ESP + 4 <= old_arg s2 ->
  old_arg s2 + 4 <= rg s2 ESP - 16 \/ rg s2 ESP + 4 <= old_arg s2 ->
  let s' := run swtch s2 in
  (forall r, r ∈ [EBP; EBX; ESI; EDI] -> rg s' r = rg s r) /\ rg s' ESP = rg s ESP + 4 /\ eip s' = top s.
Proof.
  intros Hr Hw He Ho Hm Hr2 Hw2 Hn Hd Ho2 Ho2'. destruct (swtch_saves s Hr Hw Ho) as (W & P & _).
  destruct (swtch_saves s2 Hr2 Hw2 Ho2') as (_ & _ & M2).
  change (mm (run swtch s)) with (saved_mem s) in Hm.
  assert (new_arg s2 = rg s ESP - 16) as Hc. { rewrite Hn, <- P. apply ld32_ext. intros x Hx. apply Hm. lia. }
  destruct (swtch_loads s2) as (_ & R1 & R2 & R3 & R4 & R5 & R6 & _); [lia|]. rewrite Hc in *.
  assert (words_at (saved_mem s2) (rg s ESP - 16) (context_of s)) as W2.
  { revert W. apply words_at_ext. intros x Hx. change (4 * Z.of_nat (length (context_of s))) with 20 in Hx.
    rewrite M2 by lia. apply Hm. lia. }
  apply words_ctx in W2 as (W1 & W2 & W3 & W4 & W5). rewrite W1 in R1. rewrite W2 in R2. rewrite W3 in R3. rewrite W4 in R4. rewrite W5 in R5.
  cbn zeta. split; [|split; [lia|done]]. intros r Hin. by repeat (apply elem_of_cons in Hin as [->|Hin]; [assumption|]); apply not_elem_of_nil in Hin.
Qed.

Definition calls_swtch (m : mem) (esp old new : Z) : machine :=
  mkX (fun r => if decide (r = ESP) then esp else esp + 5) (fun _ => 16) (st32 (st32 m (esp + 4) old) (esp + 8) new) 100 0.
Lemma calls_swtch_args m esp old new : 0 <= esp < 4294967280 -> word old -> word new ->
  old_arg (calls_swtch m esp old new) = old /\ new_arg (calls_swtch m esp old new) = new.
Proof.
  intros He Ho Hn. unfold old_arg, new_arg, calls_swtch. cbn [mm rg]. rewrite decide_True by done. rewrite !u32_small by lia.
  split; [rewrite ld32_st32_ne by lia|]; by apply ld32_st32_eq.
Qed.

(** Two threads: the first saved its context pointer at 5000, the second has
    its stack at 2000. *)
Definition sample_thread : machine := calls_swtch (fun _ => 0) 1000 5000 3000.
Definition sample_other : machine := calls_swtch (mm (run swtch sample_thread)) 2000 6000 984.

Lemma swtch_returns_witness : let s' := run swtch sample_other in
  (forall r, r ∈ [EBP; EBX; ESI; EDI] -> rg s' r = rg sample_thread r) /\ rg s' ESP = rg sample_thread ESP + 4 /\ eip s' = top sample_thread.
Proof.
  destruct (calls_swtch_args (fun _ => 0) 1000 5000 3000) as [E _]; [by split..|]. fold sample_thread in E.
  destruct (calls_swtch_args (mm (run swtch sample_thread)) 2000 6000 984) as [O N]; [by split..|]. fold sample_other in O, N.
  assert (rg sample_thread ESP = 1000 /\ rg sample_other ESP = 2000) as [E1 E2] by done.
  assert (forall r, word (rg sample_thread r)) as W1 by (intros []; by split).
  assert (forall r, word (rg sample_other r)) as W2 by (intros []; by split).
  destruct (swtch_saves sample_thread) as (_ & P & _); [by split|done|rewrite E, E1; lia|]. rewrite E, E1 in P.
  assert (forall x, ~ (2004 <= x < 2012) -> mm sample_other x = mm (run swtch sample_thread) x) as M.
  { intros x Hx. unfold sample_other, calls_swtch. cbn [mm]. by rewrite !st32_other by lia. }
  assert (new_arg sample_other = ld32 (mm sample_other) (old_arg sample_thread)) as Hn.
  { rewrite N, E. change 984 with (1000 - 16). rewrite <- P. change (saved_mem sample_thread) with (mm (run swtch sample_thread)). apply ld32_ext. intros x Hx. symmetry. apply M. lia. }
  apply (swtch_returns sample_thread sample_other); [|exact W1| | | | |exact W2|exact Hn|..]; unfold room; rewrite ?E, ?O, ?E1, ?E2; try lia.
  intros x Hx. apply M. lia.
Defined.

End Swtch.

(** ** Traps and system calls *)

(** *** Dispatch *)

Section Dispatch.
Context `{Symbols, Disk, DevOps}.
(** What [wakeup2] does past the end of the thread array. *)
Context (beyond : nat -> kstate -> kstate).

Definition handler (n : sysname) : M Z :=
  match n with
  | Sys_fork => sys_fork | Sys_exit => sys_exit | Sys_wait => sys_wait | Sys_pipe => sys_pipe
  | Sys_read => sys_read | Sys_kill => sys_kill | Sys_exec => sys_exec | Sys_fstat => sys_fstat
  | Sys_chdir => sys_chdir | Sys_dup => sys_dup | Sys_getpid => sys_getpid | Sys_sbrk => sys_sbrk
  | Sys_sleep => sys_sleep | Sys_uptime => sys_uptime | Sys_open => sys_open | Sys_write => sys_write
  | Sys_mknod => sys_mknod | Sys_unlink => sys_unlink | Sys_link => sys_link | Sys_mkdir => sys_mkdir
  | Sys_close => sys_close | Sys_kthread_create => sys_kthread_create | Sys_kthread_id => sys_kthread_id
  | Sys_kthread_exit => sys_kthread_exit beyond | Sys_kthread_join => sys_kthread_join
  | Sys_kthread_mutex_alloc => sys_kthread_mutex_alloc
  | Sys_kthread_mutex_dealloc => sys_kthread_mutex_dealloc | Sys_kthread_mutex_lock => sys_kthread_mutex_lock
  | Sys_kthread_mutex_unlock => sys_kthread_mutex_unlock | Sys_cow_fork => sys_cow_fork
  | Sys_cow_wait => sys_cow_wait | Sys_procdump => sys_procdump
  end.

(** Every stub reaches the function of its name: the number it puts in [eax] is
    the index of that function in the table of syscall.c. *)
Lemma stub_dispatches n : n ∈ usys /\ syscalls beyond !! Z.to_nat (SYS n) = Some (Some (handler n)) /\ word (SYS n).
Proof. split; [|by destruct n]. unfold usys. destruct n; repeat constructor. Qed.

End Dispatch.

Section Traps.

Lemma words_at_nth m ws : forall a k w, words_at m a ws -> ws !! k = Some w -> ld32 m (a + 4 * Z.of_nat k) = w.
Proof.
  induction ws as [|v ws IH]; intros a k w Hw Hk; [done|]. destruct Hw as [Hv Hw]. destruct k as [|k].
  - injection Hk as <-. by replace (a + 4 * Z.of_nat 0) with a by lia.
  - replace (a + 4 * Z.of_nat (S k)) with (a + 4 + 4 * Z.of_nat k) by lia. by apply IH.
Qed.

(** The words of [struct trapframe], in the order of x86.h. *)
Definition trapframe (edi esi ebp oesp ebx edx ecx eax gs fs es ds trapno err ip cs fl sp ss : Z) : list Z :=
  [edi; esi; ebp; oesp; ebx; edx; ecx; eax; gs; fs; es; ds; trapno; err; ip; cs; fl; sp; ss].

(** A trap out of user code, up to the call of [trap]. *)
Definition trap_entry (ss0 esp0 ret i : Z) (e : Z) (s : machine) : machine :=
  run alltraps (run (vector i) (gate ss0 esp0 ret (if has_errcode i then Some e else None) s)).

Lemma push_all_app l l' s : push_all (l ++ l') s = push_all l' (push_all l s).
Proof. apply fold_left_app. Qed.
Lemma push_all_sets l r v s : push_all l (sets r v s) = sets r v (push_all l s).
Proof. revert s. induction l as [|w l IH]; intros s; [done|]. apply (IH (push w s)). Qed.
Lemma push_all_sr l s : sr (push_all l s) = sr s.
Proof. revert s. induction l as [|w l IH]; intros s; [done|]. apply (IH (push w s)). Qed.
Lemma push_all_rg l s r : r <> ESP -> rg (push_all l s) r = rg s r.
Proof. intros Hr. revert s. induction l as [|w l IH]; intros s; [done|]. cbn. rewrite IH. by apply push_rg. Qed.
Lemma run_app c c' s : run (c ++ c') s = run c' (run c s).
Proof. revert s. induction c as [|i c IH]; intros s; [done|apply IH]. Qed.

(** What the processor and the vector push, and what [alltraps] pushes. *)
Definition entry_words (ret i e : Z) (s : machine) : list Z :=
  [sr s SS; rg s ESP; eflags s; sr s CS; ret; if has_errcode i then e else 0; i].
Definition seg_words (s : machine) : list Z := [sr s DS; sr s ES; sr s FS; sr s GS].
Definition gpr_words (sp : Z) (s : machine) : list Z := [rg s EAX; rg s ECX; rg s EDX; rg s EBX; sp; rg s EBP; rg s ESI; rg s EDI].

Lemma vector_pushes ss0 esp0 ret i e s : 0 < Z.land (sr s CS) 3 ->
  run (vector i) (gate ss0 esp0 ret (if has_errcode i then Some e else None) s) =
  sets CS (SEG_KCODE * 8) (push_all (entry_words ret i e s) (setr ESP esp0 (sets SS ss0 s))).
Proof.
  intros Hu. unfold gate, vector, entry_words. rewrite (proj2 (Z.ltb_lt _ _) Hu). by destruct (has_errcode i).
Qed.

Lemma rg_sets r v s : rg (sets r v s) = rg s.
Proof. reflexivity. Qed.
Lemma seg_words_cs v s : seg_words (sets CS v s) = seg_words s.
Proof. reflexivity. Qed.
Lemma seg_words_push l s : seg_words (push_all l s) = seg_words s.
Proof. unfold seg_words. by rewrite push_all_sr. Qed.
Lemma gpr_words_sets sp r v s : gpr_words sp (sets r v s) = gpr_words sp s.
Proof. reflexivity. Qed.
Lemma gpr_words_push sp l s : gpr_words sp (push_all l s) = gpr_words sp s.
Proof. unfold gpr_words. by rewrite !push_all_rg by done. Qed.

Lemma alltraps_pushes s :
  let s1 := push_all (seg_words s) s in
  let s2 := push_all (gpr_words (rg s1 ESP) s) s1 in
  let s' := run alltraps s in
  mm s' = mm (push (rg s2 ESP) s2) /\ rg s' ESP = rg (push (rg s2 ESP) s2) ESP /\ sr s' CS = sr s2 CS.
Proof.
  cbn zeta. change alltraps with ([Pushl_seg DS; Pushl_seg ES; Pushl_seg FS; Pushl_seg GS] ++ [Pushal] ++ drop 5 alltraps).
  rewrite !run_app. change (run [Pushl_seg DS; Pushl_seg ES; Pushl_seg FS; Pushl_seg GS] s) with (push_all (seg_words s) s).
  set (s1 := push_all (seg_words s) s).
  assert (forall sp, gpr_words sp s = gpr_words sp s1) as ->. { intros sp. unfold s1. by rewrite gpr_words_push. }
  assert (forall t, run [Pushal] t = push_all (gpr_words (rg t ESP) t) t) as -> by reflexivity. generalize (push_all (gpr_words (rg s1 ESP) s1) s1).
  intros s2. repeat split.
Qed.

(** A machine's registers hold words, its selectors are 16 bits. *)
Definition words_ok (s : machine) : Prop := (forall r, word (rg s r)) /\ (forall r, 0 <= sr s r < 65536) /\ word (eflags s).

Lemma rg_word_push l s : word (rg s ESP) -> word (rg (push_all l s) ESP).
Proof.
  revert s. induction l as [|w l IH]; intros s Hs; [done|]. cbn. apply IH. cbn. apply u32_range.
Qed.

Definition trap_words (ret i e oesp : Z) (s : machine) : list Z := entry_words ret i e s ++ seg_words s ++ gpr_words oesp s.

Lemma trap_words_word ret i e oesp s :
  words_ok s -> word ret -> word i -> word e -> word oesp -> Forall word (trap_words ret i e oesp s).
Proof.
  intros (Hr & Hs & Hfl) Hret Hi He Ho.
  assert (forall r, word (sr s r)) as Hsw by (intros r; specialize (Hs r); unfold word; lia).
  assert (word (if has_errcode i then e else 0)) as Hei by (destruct (has_errcode i); [exact He|split; lia]).
  unfold trap_words, entry_words, seg_words, gpr_words. cbn [app].
  repeat (apply Forall_cons_2; [first [exact (Hr _)|exact (Hsw _)|assumption]|]). apply Forall_nil_2.
Qed.

Lemma trap_entry_pushes ss0 esp0 ret i e s : 0 < Z.land (sr s CS) 3 -> word esp0 ->
  let s' := trap_entry ss0 esp0 ret i e s in
  exists oesp, word oesp /\ let s2 := push_all (trap_words ret i e oesp s) (setr ESP esp0 (sets SS ss0 s)) in
    mm s' = mm (push (rg s2 ESP) s2) /\ rg s' ESP = rg (push (rg s2 ESP) s2) ESP /\ sr s' CS = SEG_KCODE * 8.
Proof.
  intros Hu H0. cbn zeta. unfold trap_entry. rewrite (vector_pushes _ _ _ _ _ _ Hu).
  set (s0 := setr ESP esp0 (sets SS ss0 s)). set (s1 := sets CS (SEG_KCODE * 8) (push_all (entry_words ret i e s) s0)).
  destruct (alltraps_pushes s1) as (M2 & R2 & S2). set (oesp := rg (push_all (seg_words s1) s1) ESP) in *.
  assert (word oesp) as Ho by (apply rg_word_push; unfold s1; rewrite rg_sets; apply (rg_word_push _ s0); exact H0).
  assert (seg_words s1 = seg_words s) as Es. { unfold s1. by rewrite seg_words_cs, seg_words_push. }
  assert (gpr_words oesp s1 = gpr_words oesp s) as Eg. { unfold s1. by rewrite gpr_words_sets, gpr_words_push. }
  exists oesp. split; [exact Ho|]. clearbody oesp. rewrite Es, Eg, <- push_all_app in M2, R2, S2.
  unfold trap_words. rewrite push_all_app. clear Ho Es Eg. subst s1. generalize dependent (push_all (entry_words ret i e s) s0).
  intros s3 M2 R2 S2. rewrite push_all_sets in M2, R2, S2. generalize dependent (push_all (seg_words s ++ gpr_words oesp s) s3).
  intros s2 M2 R2 S2. rewrite M2, R2, S2. repeat split.
Qed.

(** A list of words pushed, and then the address of the last one. *)
Lemma push_frame vs s : room (Z.of_nat (length vs) + 1) s -> Forall word vs ->
  let s2 := push_all vs s in let s' := push (rg s2 ESP) s2 in let a := rg s ESP - 4 * Z.of_nat (length vs) in
  rg s' ESP = a - 4 /\ ld32 (mm s') (a - 4) = a /\ words_at (mm s') a (rev vs) /\
  (forall x, x < a - 4 \/ rg s ESP <= x -> mm s' x = mm s x).
Proof.
  intros Hr Hv. unfold room in Hr. cbn zeta. destruct (push_all_spec vs s []) as (E & W & M & _); [unfold room; lia|done|done|].
  rewrite app_nil_r in W. generalize dependent (push_all vs s). intros s2 E W M. assert (room 1 s2) as Hr2 by (unfold room; lia).
  destruct (push_words (rg s2 ESP) s2 _ Hr2 ltac:(unfold word; lia) W) as [Wt Wf]. rewrite (push_esp _ _ Hr2) in *. rewrite E in *.
  replace (rg s ESP - 4 * Z.of_nat (length vs) - 4 + 4) with (rg s ESP - 4 * Z.of_nat (length vs)) in Wf by lia.
  split; [done|]. split; [done|]. split; [done|]. intros x Hx. transitivity (mm s2 x); [|apply M; lia].
  cbn. apply st32_other. rewrite u32_small by lia. lia.
Qed.

(** The frame of a trap out of user code. *)
Definition user_frame (ret i e oesp : Z) (s : machine) : list Z :=
  trapframe (rg s EDI) (rg s ESI) (rg s EBP) oesp (rg s EBX) (rg s EDX) (rg s ECX) (rg s EAX) (sr s GS) (sr s FS) (sr s ES) (sr s DS)
    i (if has_errcode i then e else 0) ret (sr s CS) (eflags s) (rg s ESP) (sr s SS).

(** [trap] is called with the address of a trap frame that holds the registers
    of the user code, at the top of the kernel stack. *)
Lemma trap_entry_frame ss0 esp0 ret i e s :
  0 < Z.land (sr s CS) 3 -> words_ok s -> word ret -> word i -> word e -> 80 <= esp0 < 4294967296 ->
  let s' := trap_entry ss0 esp0 ret i e s in let tf := esp0 - TF_SIZE in
  rg s' ESP = tf - 4 /\ top s' = tf /\ sr s' CS = SEG_KCODE * 8 /\
  (exists oesp, words_at (mm s') tf (user_frame ret i e oesp s)) /\
  (forall x, x < tf - 4 \/ esp0 <= x -> mm s' x = mm s x).
Proof.
  intros Hu Hok Hret Hi He H0. cbn zeta.
  destruct (trap_entry_pushes ss0 esp0 ret i e s Hu ltac:(unfold word; lia)) as (oesp & Ho & M & R & S).
  pose proof (trap_words_word ret i e oesp s Hok Hret Hi He Ho) as Hw.
  change (user_frame ret i e) with (fun oesp s => rev (trap_words ret i e oesp s)). cbv beta.
  assert (Z.of_nat (length (trap_words ret i e oesp s)) = 19) as Hl by reflexivity.
  destruct (push_frame (trap_words ret i e oesp s) (setr ESP esp0 (sets SS ss0 s))) as (E & T & W & X); [|done|].
  { unfold room. rewrite Hl. change (rg (setr ESP esp0 (sets SS ss0 s)) ESP) with esp0. lia. }
  unfold top. rewrite M, R. change TF_SIZE with 76. rewrite Hl in *. change (rg (setr ESP esp0 (sets SS ss0 s)) ESP) with esp0 in *.
  change (mm (setr ESP esp0 (sets SS ss0 s))) with (mm s) in X. change (esp0 - 4 * 19) with (esp0 - 76) in *. rewrite E.
  split; [done|]. split; [done|]. split; [done|]. split; [by exists oesp|done].
Qed.

(** The words on the stack. *)
Definition stack (s : machine) (ws : list Z) : Prop :=
  words_at (mm s) (rg s ESP) ws /\ 0 <= rg s ESP /\ rg s ESP + 4 * Z.of_nat (length ws) < 4294967296.

Lemma drop4_stack s w ws : stack s (w :: ws) -> top s = w /\ stack (drop4 s) ws /\ rg (drop4 s) ESP = rg s ESP + 4.
Proof.
  intros ([W1 W] & H0 & H1). cbn [length] in H1. split; [done|].
  assert (rg (drop4 s) ESP = rg s ESP + 4) as E by (cbn; apply u32_small; lia).
  split; [|done]. unfold stack. rewrite E. split; [done|]. lia.
Qed.

Lemma pop_to_stack r s w ws : r <> ESP -> stack s (w :: ws) ->
  stack (pop_to r s) ws /\ rg (pop_to r s) r = w /\ (forall q, q <> r -> q <> ESP -> rg (pop_to r s) q = rg s q) /\
  sr (pop_to r s) = sr s /\ mm (pop_to r s) = mm s.
Proof.
  intros Hr Hs. destruct (drop4_stack s w ws Hs) as (T & S & E). unfold pop_to. rewrite T. split; [|split; [|split; [|done]]].
  - unfold stack. replace (rg (setr r w (drop4 s)) ESP) with (rg (drop4 s) ESP) by (unfold setr; cbn [rg]; rewrite decide_False by congruence; done). exact S.
  - cbn. by rewrite decide_True.
  - intros q Hq Hq'. cbn. rewrite decide_False by done. by rewrite decide_False.
Qed.

Lemma pop_seg_stack r s w ws : stack s (w :: ws) ->
  stack (pop_seg r s) ws /\ sr (pop_seg r s) r = w mod 65536 /\ (forall q, q <> r -> sr (pop_seg r s) q = sr s q) /\
  (forall q, q <> ESP -> rg (pop_seg r s) q = rg s q) /\ mm (pop_seg r s) = mm s.
Proof.
  intros Hs. destruct (drop4_stack s w ws Hs) as (T & S & E). unfold pop_seg. rewrite T. split; [exact S|]. split; [|split; [|split; [|done]]].
  - cbn. by rewrite decide_True.
  - intros q Hq. cbn. by rewrite decide_False.
  - intros q Hq. cbn. by rewrite decide_False.
Qed.

Lemma popal_loads s edi esi ebp oesp ebx edx ecx eax ws :
  stack s (edi :: esi :: ebp :: oesp :: ebx :: edx :: ecx :: eax :: ws) ->
  let s' := step Popal s in
  stack s' ws /\ (rg s' EDI, rg s' ESI, rg s' EBP, rg s' EBX, rg s' EDX, rg s' ECX, rg s' EAX) = (edi, esi, ebp, ebx, edx, ecx, eax) /\
  sr s' = sr s /\ mm s' = mm s.
Proof.
  intros H0. cbn [step]. destruct (pop_to_stack EDI _ _ _ ltac:(done) H0) as (H1 & V1 & R1 & S1 & M1). set (s1 := pop_to EDI s) in *. clearbody s1.
  destruct (pop_to_stack ESI _ _ _ ltac:(done) H1) as (H2 & V2 & R2 & S2 & M2). set (s2 := pop_to ESI s1) in *. clearbody s2.
  destruct (pop_to_stack EBP _ _ _ ltac:(done) H2) as (H3 & V3 & R3 & S3 & M3). set (s3 := pop_to EBP s2) in *. clearbody s3.
  destruct (drop4_stack _ _ _ H3) as (_ & H4 & _).
  assert (forall q, q <> ESP -> rg (drop4 s3) q = rg s3 q) as R4 by (intros q Hq; cbn; by rewrite decide_False).
  assert (sr (drop4 s3) = sr s3 /\ mm (drop4 s3) = mm s3) as [S4 M4] by done. set (s4 := drop4 s3) in *. clearbody s4.
  destruct (pop_to_stack EBX _ _ _ ltac:(done) H4) as (H5 & V5 & R5 & S5 & M5). set (s5 := pop_to EBX s4) in *. clearbody s5.
  destruct (pop_to_stack EDX _ _ _ ltac:(done) H5) as (H6 & V6 & R6 & S6 & M6). set (s6 := pop_to EDX s5) in *. clearbody s6.
  destruct (pop_to_stack ECX _ _ _ ltac:(done) H6) as (H7 & V7 & R7 & S7 & M7). set (s7 := pop_to ECX s6) in *. clearbody s7.
  destruct (pop_to_stack EAX _ _ _ ltac:(done) H7) as (H8 & V8 & R8 & S8 & M8). set (s8 := pop_to EAX s7) in *. clearbody s8.
  split; [done|]. split; [|by rewrite S8, S7, S6, S5, S4, S3, S2, S1, M8, M7, M6, M5, M4, M3, M2, M1].
  rewrite V8, !R8, V7, !R7, V6, !R6, V5, !R5, !R4, V3, !R3, V2, !R2, V1 by done. done.
Qed.

Lemma segs_load s gs fs es ds trapno err ws :
  stack s (gs :: fs :: es :: ds :: trapno :: err :: ws) ->
  let s' := run [Popl_seg GS; Popl_seg FS; Popl_seg ES; Popl_seg DS; Addl_esp 8] s in
  stack s' ws /\ (sr s' GS, sr s' FS, sr s' ES, sr s' DS) = (gs mod 65536, fs mod 65536, es mod 65536, ds mod 65536) /\
  sr s' CS = sr s CS /\ (forall q, q <> ESP -> rg s' q = rg s q) /\ mm s' = mm s.
Proof.
  intros H0. cbn [run step].
  destruct (pop_seg_stack GS _ _ _ H0) as (H1 & V1 & S1 & R1 & M1). set (s1 := pop_seg GS s) in *. clearbody s1.
  destruct (pop_seg_stack FS _ _ _ H1) as (H2 & V2 & S2 & R2 & M2). set (s2 := pop_seg FS s1) in *. clearbody s2.
  destruct (pop_seg_stack ES _ _ _ H2) as (H3 & V3 & S3 & R3 & M3). set (s3 := pop_seg ES s2) in *. clearbody s3.
  destruct (pop_seg_stack DS _ _ _ H3) as (H4 & V4 & S4 & R4 & M4). set (s4 := pop_seg DS s3) in *. clearbody s4.
  destruct H4 as ((_ & _ & W) & P & Q). cbn [length] in Q.
  assert (rg (setr ESP (u32 (rg s4 ESP + 8)) s4) ESP = rg s4 ESP + 8) as E by (cbn; apply u32_small; lia).
  split; [|split; [|split; [|split; [|by cbn; rewrite M4, M3, M2, M1]]]].
  - unfold stack. rewrite E. replace (rg s4 ESP + 8) with (rg s4 ESP + 4 + 4) by lia. split; [done|]. lia.
  - cbn [sr setr]. rewrite V4, !S4, V3, !S3, V2, !S2, V1 by done. done.
  - cbn [sr setr]. by rewrite S4, S3, S2, S1 by done.
  - intros q Hq. cbn [rg setr]. rewrite decide_False by done. by rewrite R4, R3, R2, R1 by done.
Qed.

Lemma iret_loads s ip cs fl sp ss :
  stack s [ip; cs; fl; sp; ss] -> Z.land (sr s CS) 3 = 0 -> 0 < Z.land (cs mod 65536) 3 ->
  let s' := iret s in
  eip s' = ip /\ sr s' CS = cs mod 65536 /\ eflags s' = fl /\ rg s' ESP = sp /\ sr s' SS = ss mod 65536 /\
  (forall q, q <> ESP -> rg s' q = rg s q) /\ (forall q, q <> CS -> q <> SS -> sr s' q = sr s q) /\ mm s' = mm s.
Proof.
  intros H0 Hc Hr. unfold iret. rewrite Hc. destruct (drop4_stack _ _ _ H0) as (T0 & H1 & _). rewrite T0.
  change (stack (drop4 (set_eip ip s)) [cs; fl; sp; ss]) in H1.
  assert (forall q, q <> ESP -> rg (drop4 (set_eip ip s)) q = rg s q) as R1 by (intros q Hq; cbn; by rewrite decide_False).
  assert (sr (drop4 (set_eip ip s)) = sr s /\ mm (drop4 (set_eip ip s)) = mm s /\ eip (drop4 (set_eip ip s)) = ip) as (S1 & M1 & I1) by done.
  set (s1 := drop4 (set_eip ip s)) in *. clearbody s1.
  destruct (pop_seg_stack CS _ _ _ H1) as (H2 & V2 & S2 & R2 & M2). assert (eip (pop_seg CS s1) = eip s1) as I2 by done.
  set (s2 := pop_seg CS s1) in *. clearbody s2. destruct (drop4_stack _ _ _ H2) as (T2 & H3 & _). rewrite T2.
  change (stack (drop4 (set_eflags fl s2)) [sp; ss]) in H3.
  assert (forall q, q <> ESP -> rg (drop4 (set_eflags fl s2)) q = rg s2 q) as R3 by (intros q Hq; cbn; by rewrite decide_False).
  assert (sr (drop4 (set_eflags fl s2)) = sr s2 /\ mm (drop4 (set_eflags fl s2)) = mm s2 /\ eip (drop4 (set_eflags fl s2)) = eip s2 /\
    eflags (drop4 (set_eflags fl s2)) = fl) as (S3 & M3 & I3 & F3) by done.
  set (s3 := drop4 (set_eflags fl s2)) in *. clearbody s3. rewrite S3, V2, (proj2 (Z.ltb_lt _ _) Hr).
  destruct (drop4_stack _ _ _ H3) as (T3 & H4 & _). rewrite T3.
  assert (forall q, q <> ESP -> rg (drop4 s3) q = rg s3 q) as R4 by (intros q Hq; cbn; by rewrite decide_False).
  destruct (pop_seg_stack SS _ _ _ H4) as (_ & V5 & S5 & R5 & M5). split_and!; try done.
  - cbn. by rewrite I3, I2.
  - change (sr (pop_seg SS (drop4 s3)) CS = cs mod 65536). rewrite S5 by done. cbn. by rewrite S3.
  - intros q Hq. transitivity (rg (pop_seg SS (drop4 s3)) q); [cbn; by rewrite !decide_False|]. by rewrite R5, R4, R3, R2, R1.
  - intros q Hq Hq'. change (sr (pop_seg SS (drop4 s3)) q = sr s q). rewrite S5 by done. cbn. by rewrite S3, S2, S1.
  - change (mm (pop_seg SS (drop4 s3)) = mm s). rewrite M5. cbn. by rewrite M3, M2, M1.
Qed.

(** [trapret] loads the registers from the frame and returns to user code. *)
Lemma trapret_loads s tf edi esi ebp oesp ebx edx ecx eax gs fs es ds trapno err ip cs fl sp ss :
  rg s ESP = tf -> 0 <= tf -> tf + TF_SIZE < 4294967296 -> Z.land (sr s CS) 3 = 0 -> 0 < Z.land (cs mod 65536) 3 ->
  words_at (mm s) tf (trapframe edi esi ebp oesp ebx edx ecx eax gs fs es ds trapno err ip cs fl sp ss) ->
  let s' := run trapret s in
  (rg s' EDI, rg s' ESI, rg s' EBP, rg s' EBX, rg s' EDX, rg s' ECX, rg s' EAX, rg s' ESP) = (edi, esi, ebp, ebx, edx, ecx, eax, sp) /\
  (sr s' GS, sr s' FS, sr s' ES, sr s' DS) = (gs mod 65536, fs mod 65536, es mod 65536, ds mod 65536) /\
  sr s' CS = cs mod 65536 /\ sr s' SS = ss mod 65536 /\ eip s' = ip /\ eflags s' = fl /\ mm s' = mm s.
Proof.
  intros E Ht Ht' Hcpl Hrpl W. change TF_SIZE with 76 in Ht'. cbn zeta.
  change trapret with ([Popal] ++ [Popl_seg GS; Popl_seg FS; Popl_seg ES; Popl_seg DS; Addl_esp 8] ++ [Iret]). rewrite !run_app.
  assert (stack s (trapframe edi esi ebp oesp ebx edx ecx eax gs fs es ds trapno err ip cs fl sp ss)) as H0.
  { unfold stack. rewrite E. split; [done|]. cbn [trapframe length]. lia. }
  destruct (popal_loads _ _ _ _ _ _ _ _ _ _ H0) as (H1 & R1 & S1 & M1).
  change (run [Popal] s) with (step Popal s). set (s1 := step Popal s) in *. clearbody s1.
  destruct (segs_load _ _ _ _ _ _ _ _ H1) as (H2 & V2 & C2 & R2 & M2).
  set (s2 := run [Popl_seg GS; Popl_seg FS; Popl_seg ES; Popl_seg DS; Addl_esp 8] s1) in *. clearbody s2.
  destruct (iret_loads s2 ip cs fl sp ss H2) as (I3 & C3 & F3 & P3 & SS3 & R3 & S3 & M3); [by rewrite C2, S1|done|].
  change (run [Iret] s2) with (iret s2). rewrite P3, C3, SS3, I3, F3, M3, !R3, !S3, !R2, V2, M2, M1 by done.
  injection R1 as -> -> -> -> -> -> ->. done.
Qed.

(** After [call trap], its argument is still on the stack. *)
Lemma trapret_returns s tf edi esi ebp oesp ebx edx ecx eax gs fs es ds trapno err ip cs fl sp ss :
  rg s ESP = tf - 4 -> 4 <= tf -> tf + TF_SIZE < 4294967296 -> Z.land (sr s CS) 3 = 0 -> 0 < Z.land (cs mod 65536) 3 ->
  words_at (mm s) tf (trapframe edi esi ebp oesp ebx edx ecx eax gs fs es ds trapno err ip cs fl sp ss) ->
  let s' := run after_trap s in
  (rg s' EDI, rg s' ESI, rg s' EBP, rg s' EBX, rg s' EDX, rg s' ECX, rg s' EAX, rg s' ESP) = (edi, esi, ebp, ebx, edx, ecx, eax, sp) /\
  (sr s' GS, sr s' FS, sr s' ES, sr s' DS) = (gs mod 65536, fs mod 65536, es mod 65536, ds mod 65536) /\
  sr s' CS = cs mod 65536 /\ sr s' SS = ss mod 65536 /\ eip s' = ip /\ eflags s' = fl /\ mm s' = mm s.
Proof.
  intros Hesp Ht Ht' Hcpl Hrpl W. cbn zeta. change after_trap with ([Addl_esp 4] ++ trapret). rewrite run_app.
  assert (rg (run [Addl_esp 4] s) ESP = tf) as E.
  { change (u32 (rg s ESP + 4) = tf). rewrite Hesp, u32_small; unfold TF_SIZE in Ht'; lia. }
  assert (sr (run [Addl_esp 4] s) = sr s /\ mm (run [Addl_esp 4] s) = mm s) as [S0 M0] by done. generalize dependent (run [Addl_esp 4] s).
  intros s0 E S0 M0. rewrite <- M0. apply (trapret_loads s0 tf edi esi ebp oesp ebx edx ecx eax gs fs es ds trapno err); try assumption; [lia|by rewrite S0|by rewrite M0].
Qed.

Lemma words_at_app m a l l' : words_at m a (l ++ l') <-> words_at m a l /\ words_at m (a + 4 * Z.of_nat (length l)) l'.
Proof.
  revert a. induction l as [|w l IH]; intros a; cbn [app words_at length]; [rewrite Z.add_0_r; tauto|]. rewrite IH.
  replace (a + 4 + 4 * Z.of_nat (length l)) with (a + 4 * Z.of_nat (S (length l))) by lia. tauto.
Qed.

(** The kernel has changed [eax] in the frame at [tf], and nothing else there. *)
Definition sets_eax (tf v : Z) (m m' : mem) : Prop :=
  ld32 m' (tf + TF_EAX) = v /\ (forall x, tf <= x < tf + TF_SIZE -> ~ (tf + TF_EAX <= x < tf + TF_EAX + 4) -> m' x = m x).

Lemma frame_sets_eax tf v m m' edi esi ebp oesp ebx edx ecx eax gs fs es ds trapno err ip cs fl sp ss :
  sets_eax tf v m m' ->
  words_at m tf (trapframe edi esi ebp oesp ebx edx ecx eax gs fs es ds trapno err ip cs fl sp ss) ->
  words_at m' tf (trapframe edi esi ebp oesp ebx edx ecx v gs fs es ds trapno err ip cs fl sp ss).
Proof.
  intros [Hv Hm] W. unfold TF_EAX, TF_SIZE in *.
  apply (words_at_app m tf [edi; esi; ebp; oesp; ebx; edx; ecx] (eax :: _)) in W as [W1 W2]. apply (words_at_app m _ [eax]) in W2 as [_ W2].
  apply (words_at_app m' tf [edi; esi; ebp; oesp; ebx; edx; ecx] (v :: _)). split; [|split].
  - revert W1. apply words_at_ext. intros x Hx. cbn [length] in Hx. apply Hm; lia.
  - exact Hv.
  - revert W2. apply words_at_ext. intros x Hx. cbn [length] in Hx. apply Hm; lia.
Qed.

(** What the call of [trap] does, seen from the assembly code: it keeps the
    stack pointer and the privilege level, as every C function does, stores the
    result of the system call in the frame and leaves the user's return
    address alone. *)
Definition kernel_serves (tf v usp : Z) (s s' : machine) : Prop :=
  rg s' ESP = rg s ESP /\ Z.land (sr s' CS) 3 = 0 /\ sets_eax tf v (mm s) (mm s') /\ ld32 (mm s') usp = ld32 (mm s) usp.

Lemma not_errcode_syscall : has_errcode T_SYSCALL = false.
Proof. reflexivity. Qed.

Lemma stub_ok num s : words_ok s -> word num -> words_ok (run (stub num) s).
Proof.
  intros (Hr & Hs & Hf) Hn. split; [|done]. intros r. cbn. destruct (decide (r = EAX)); [done|apply Hr].
Qed.

(** The frame of a system call; [eax] is the number or the result. *)
Definition syscall_frame (eax next oesp : Z) (s : machine) : list Z :=
  trapframe (rg s EDI) (rg s ESI) (rg s EBP) oesp (rg s EBX) (rg s EDX) (rg s ECX) eax (sr s GS) (sr s FS) (sr s ES) (sr s DS)
    T_SYSCALL 0 next (sr s CS) (eflags s) (rg s ESP) (sr s SS).

Lemma syscall_enters ss0 esp0 next num s :
  0 < Z.land (sr s CS) 3 -> words_ok s -> word num -> word next -> 80 <= esp0 < 4294967296 ->
  let s1 := trap_entry ss0 esp0 next T_SYSCALL 0 (run (stub num) s) in
  rg s1 ESP = esp0 - TF_SIZE - 4 /\ top s1 = esp0 - TF_SIZE /\
  (exists oesp, words_at (mm s1) (esp0 - TF_SIZE) (syscall_frame num next oesp s)) /\
  (forall x, x < esp0 - TF_SIZE - 4 \/ esp0 <= x -> mm s1 x = mm s x).
Proof.
  intros Hu Hok Hn Hx H0. cbn zeta.
  destruct (trap_entry_frame ss0 esp0 next T_SYSCALL 0 (run (stub num) s) Hu (stub_ok num s Hok Hn) Hx ltac:(by split) ltac:(by split) H0)
    as (E & T & _ & (oesp & W) & X).
  generalize dependent (trap_entry ss0 esp0 next T_SYSCALL 0 (run (stub num) s)). intros s1 E T W X.
  split; [exact E|]. split; [exact T|]. split; [|exact X]. exists oesp. exact W.
Qed.

Lemma syscall_leaves s s2 tf v next oesp :
  0 < Z.land (sr s CS) 3 -> words_ok s -> rg s ESP + 4 < 4294967296 -> 4 <= tf -> tf + TF_SIZE < 4294967296 ->
  rg s2 ESP = tf - 4 -> Z.land (sr s2 CS) 3 = 0 -> words_at (mm s2) tf (syscall_frame v next oesp s) -> ld32 (mm s2) (rg s ESP) = top s ->
  let s3 := run after_trap s2 in let s4 := run stub_end s3 in
  eip s3 = next /\ eip s4 = top s /\ rg s4 EAX = v /\ rg s4 ESP = rg s ESP + 4 /\
  (forall r, r <> EAX -> r <> ESP -> rg s4 r = rg s r) /\ (forall r, sr s4 r = sr s r) /\ eflags s4 = eflags s.
Proof.
  intros Hu (Hr & Hs & _) Hsp Ht Ht' P C W Hw. cbn zeta.
  assert (forall r, sr s r mod 65536 = sr s r) as Hmod by (intros r; apply Z.mod_small, Hs).
  assert (0 < Z.land (sr s CS mod 65536) 3) as Hu' by (rewrite Hmod; exact Hu).
  destruct (trapret_returns s2 tf _ _ _ _ _ _ _ _ _ _ _ _ _ _ _ _ _ _ _ P Ht Ht' C Hu' W) as (R3 & S3 & C3 & SS3 & I3 & F3 & M3).
  generalize dependent (run after_trap s2). intros s3 R3 S3 C3 SS3 I3 F3 M3.
  injection R3 as R1 R2 R3 R4 R5 R6 R7 R8. injection S3 as G1 G2 G3 G4. rewrite Hmod in *. split_and!; try done.
  - change (ld32 (mm s3) (rg s3 ESP) = top s). by rewrite M3, R8.
  - change (u32 (rg s3 ESP + 4) = rg s ESP + 4). rewrite R8. apply u32_small. specialize (Hr ESP). unfold word in Hr. lia.
  - intros r Hn1 Hn2. cbn. rewrite decide_False by done. by destruct r.
  - intros r. by destruct r.
Qed.

(** C16: a user program calls the stub of the system call [num] of usys.S.
    [trap] gets a trap frame with that number in [eax], the trap number of
    system calls and the user's stack pointer.  When the kernel has served the
    call, [trapret] and the end of the stub bring the program to the return
    address of its call, with the result in [eax] and with every other
    register, selector and the flags as they were. *)
Theorem syscall_returns ss0 esp0 next num v s s2 :
  0 < Z.land (sr s CS) 3 -> words_ok s -> word num -> word next -> 80 <= esp0 < 4294967296 ->
  rg s ESP + 4 <= esp0 - 80 ->
  let s1 := trap_entry ss0 esp0 next T_SYSCALL 0 (run (stub num) s) in
  let tf := esp0 - TF_SIZE in
  let s3 := run after_trap s2 in
  let s4 := run stub_end s3 in
  kernel_serves tf v (rg s ESP) s1 s2 ->
  top s1 = tf /\ ld32 (mm s1) (tf + TF_EAX) = num /\ ld32 (mm s1) (tf + TF_TRAPNO) = T_SYSCALL /\ ld32 (mm s1) (tf + TF_ESP) = rg s ESP /\
  eip s3 = next /\ eip s4 = top s /\ rg s4 EAX = v /\ rg s4 ESP = rg s ESP + 4 /\
  (forall r, r <> EAX -> r <> ESP -> rg s4 r = rg s r) /\ (forall r, sr s4 r = sr s r) /\ eflags s4 = eflags s.
Proof.
  intros Hu Hok Hn Hx H0 Hsp. cbn zeta. intros (P & C & He & Hw).
  destruct (syscall_enters ss0 esp0 next num s Hu Hok Hn Hx H0) as (E & T & (oesp & W) & X).
  generalize dependent (trap_entry ss0 esp0 next T_SYSCALL 0 (run (stub num) s)). intros s1 P He Hw E T W X.
  pose proof (frame_sets_eax _ _ _ _ _ _ _ _ _ _ _ _ _ _ _ _ _ _ _ _ _ _ _ He W) as W2. rewrite E in P.
  assert (ld32 (mm s2) (rg s ESP) = top s) as Hret.
  { rewrite Hw. apply ld32_ext. intros x Hx'. apply X. unfold TF_SIZE. lia. }
  split; [exact T|]. split; [exact (words_at_nth _ _ _ 7 _ W eq_refl)|]. split; [exact (words_at_nth _ _ _ 12 _ W eq_refl)|].
  split; [exact (words_at_nth _ _ _ 17 _ W eq_refl)|].
  apply (syscall_leaves s s2 (esp0 - TF_SIZE) v next oesp); try assumption; unfold TF_SIZE; lia.
Qed.

(** initcode.S calls exec: [argptr] finds the two arguments above the place of
    a return address. *)
Lemma initcode_args init argv num s : room 3 s -> word init -> word argv -> rg s ESP < 4294967296 ->
  let s' := run (initcode init argv num) s in
  rg s' EAX = num /\ rg s' ESP = rg s ESP - 12 /\ ld32 (mm s') (rg s' ESP + 4) = init /\ ld32 (mm s') (rg s' ESP + 8) = argv.
Proof.
  intros Hr Hi Ha Hs. destruct (push_all_spec [argv; init; 0] s []) as (E & W & _); [done|repeat (apply Forall_cons_2; [done|]); apply Forall_nil_2|done|].
  change (run (initcode init argv num) s) with (setr EAX num (push_all [argv; init; 0] s)). generalize dependent (push_all [argv; init; 0] s).
  intros s1 E (_ & W1 & W2 & _). cbn zeta. change (rg (setr EAX num s1) ESP) with (rg s1 ESP). change (mm (setr EAX num s1)) with (mm s1).
  rewrite <- Z.add_assoc in W2. done.
Qed.

(** A call of [getpid] (number 11) whose result is 7. *)
Definition sample_user : machine :=
  mkX (fun r => if decide (r = ESP) then 12000 else 5) (fun r => if decide (r = CS) then 35 else 43)
    (st32 (fun _ => 0) 12000 321) 100 514.
Definition sample_served (s : machine) : machine := setm (st32 (mm s) (2379218944 - TF_SIZE + TF_EAX) 7) s.

Lemma syscall_returns_witness :
  let s1 := trap_entry 16 2379218944 102 T_SYSCALL 0 (run (stub 11) sample_user) in
  let tf := 2379218944 - TF_SIZE in
  let s3 := run after_trap (sample_served s1) in
  let s4 := run stub_end s3 in
  top s1 = tf /\ ld32 (mm s1) (tf + TF_EAX) = 11 /\ ld32 (mm s1) (tf + TF_TRAPNO) = T_SYSCALL /\ ld32 (mm s1) (tf + TF_ESP) = 12000 /\
  eip s3 = 102 /\ eip s4 = top sample_user /\ rg s4 EAX = 7 /\ rg s4 ESP = 12000 + 4 /\
  (forall r, r <> EAX -> r <> ESP -> rg s4 r = rg sample_user r) /\ (forall r, sr s4 r = sr sample_user r) /\ eflags s4 = eflags sample_user.
Proof.
  assert (words_ok sample_user) as Hok by (split; [|split]; [intros []; by split..|by split]).
  assert (0 < Z.land (sr sample_user CS) 3) as Hu by done. assert (word 11 /\ word 102) as [Hn Hx] by (by repeat split).
  assert (80 <= 2379218944 < 4294967296) as H0 by done. assert (rg sample_user ESP + 4 <= 2379218944 - 80) as Hsp by done.
  refine (syscall_returns 16 2379218944 102 11 7 sample_user _ Hu Hok Hn Hx H0 Hsp _).
  destruct (trap_entry_frame 16 2379218944 102 T_SYSCALL 0 (run (stub 11) sample_user) Hu (stub_ok 11 _ Hok Hn) Hx ltac:(by split) ltac:(by split) H0)
    as (_ & _ & C & _).
  generalize dependent (trap_entry 16 2379218944 102 T_SYSCALL 0 (run (stub 11) sample_user)). intros s1 C.
  unfold sample_served. split; [reflexivity|]. split; [cbn [sr setm]; by rewrite C|]. split; [split|].
  - by apply ld32_st32_eq.
  - intros x _ Hx'. by apply st32_other.
  - apply ld32_st32_ne. right. done.
Defined.

End Traps.
