(* ===== verification/BootAsm.v ===== *)
(** * Entering the kernel (bootasm.S, entry.S, entryother.S, asm.h)

    The code that runs before C code can: it sets up segments, protected mode
    and paging.  Shown: the descriptors of asm.h are those of mmu.h, and the
    boot segments are flat; the boot block, with bootmain.c, enters a kernel
    whose segments are loaded ([boot_enters_kernel]); the code at [entry] and
    the code the other processors start at turn on paging with [entrypgdir]
    and get the stack and the function they are given. *)

From stdpp Require Import base list sets.
From S2P Require Import Asm Vm Prelude Memory Bytes Kernel User Mmu Hw Start Bootmain.

(** ** Segment descriptors (asm.h) *)

(** [.word] and [.byte] as the assembler lays them out. *)
Definition SEG_NULLASM : list Z := le16 0 ++ le16 0 ++ [0; 0; 0; 0].
Definition SEG_ASM (type base lim : Z) : list Z :=
  le16 (Z.land (Z.shiftr lim 12) 65535) ++ le16 (Z.land base 65535) ++
  [Z.land (Z.shiftr base 16) 255; Z.lor 144 type; Z.lor 192 (Z.land (Z.shiftr lim 28) 15); Z.land (Z.shiftr base 24) 255].

(** The bytes of a [struct segdesc]: bit fields are laid out from the low bit. *)
Definition segdesc_bytes (d : segdesc) : list Z :=
  le16 (lim_15_0 d) ++ le16 (base_15_0 d) ++
  [base_23_16 d; sd_type d + 16 * sd_s d + 32 * sd_dpl d + 128 * sd_p d;
   lim_19_16 d + 16 * sd_avl d + 32 * sd_rsv1 d + 64 * sd_db d + 128 * sd_g d; base_31_24 d].

(** What the processor takes from a descriptor. *)
Definition desc_base (d : list Z) : Z := get16 d 2 + 65536 * byte_at d 4 + 16777216 * byte_at d 7.
Definition desc_limit (d : list Z) : Z :=
  let lim := get16 d 0 + 65536 * (byte_at d 6 mod 16) in if Z.testbit (byte_at d 6) 7 then 4096 * lim + 4095 else lim.

(** ** The processor *)

Record boot : Type := mkBoot {
  b_if : bool; b_sel : sreg -> Z; b_gdt : list (list Z); b_cr0 : Z; b_cr3 : Z; b_cr4 : Z; b_esp : Z }.

Definition CR0_PE : Z := 1.
Definition CR0_WP : Z := 65536.
Definition CR0_PG : Z := 2147483648.
Definition CR4_PSE : Z := 16.

Definition set_sel (rs : list sreg) (v : Z) (b : boot) : boot :=
  mkBoot (b_if b) (fun r => if decide (r ∈ rs) then v else b_sel b r) (b_gdt b) (b_cr0 b) (b_cr3 b) (b_cr4 b) (b_esp b).
Definition clear_if (b : boot) : boot := mkBoot false (b_sel b) (b_gdt b) (b_cr0 b) (b_cr3 b) (b_cr4 b) (b_esp b).
Definition lgdt (g : list (list Z)) (b : boot) : boot := mkBoot (b_if b) (b_sel b) g (b_cr0 b) (b_cr3 b) (b_cr4 b) (b_esp b).
Definition or_cr0 (v : Z) (b : boot) : boot := mkBoot (b_if b) (b_sel b) (b_gdt b) (Z.lor (b_cr0 b) v) (b_cr3 b) (b_cr4 b) (b_esp b).
Definition set_cr3 (v : Z) (b : boot) : boot := mkBoot (b_if b) (b_sel b) (b_gdt b) (b_cr0 b) v (b_cr4 b) (b_esp b).
Definition or_cr4 (v : Z) (b : boot) : boot := mkBoot (b_if b) (b_sel b) (b_gdt b) (b_cr0 b) (b_cr3 b) (Z.lor (b_cr4 b) v) (b_esp b).
Definition set_esp (v : Z) (b : boot) : boot := mkBoot (b_if b) (b_sel b) (b_gdt b) (b_cr0 b) (b_cr3 b) (b_cr4 b) v.

(** ** The code *)

Module BootAsm.

Definition gdt : list (list Z) :=
  [SEG_NULLASM; SEG_ASM (Z.lor STA_X STA_R) 0 4294967295; SEG_ASM STA_W 0 4294967295].

(** Real mode up to the far jump, which loads %cs, and the data segments of
    protected mode. *)
Definition real_mode (b : boot) : boot := set_sel [DS; ES; SS] 0 (clear_if b).
Definition protect (b : boot) : boot := set_sel [CS] (SEG_KCODE * 8) (or_cr0 CR0_PE (lgdt gdt b)).
Definition start32 (b : boot) : boot := set_sel [FS; GS] 0 (set_sel [DS; ES; SS] (SEG_KDATA * 8) b).

(** seta20.1 and seta20.2 wait for the keyboard controller. *)
Definition a20_turn (_ : unit) : HW (unit + unit) :=
  al ← inb 100;
  mret (if truth (Z.land al 2) then inl tt else inr tt).
Definition seta20 : HW unit :=
  uloop a20_turn tt;;
  outb 100 209;;
  uloop a20_turn tt;;
  outb 96 223.

(** bootasm.S: [start] is the address of the boot block.  The result is the
    processor and what bootmain returns: [None] if it does return, to the code
    that stops the machine. *)
Definition bootasm (m : mem) (b : boot) : HW (boot * option (Z * mem)) :=
  let b := real_mode b in
  seta20;;
  let b := set_esp 31744 (start32 (protect b)) in
  r ← Bootmain.bootmain m;
  mret (b, r).

(** entry.S: paging is turned on with the directory at [entrypgdir]; [stack]
    and [main] are addresses the linker sets.  The result is the processor and
    the address of the jump. *)
Definition entry (entrypgdir stack main : Z) (b : boot) : boot * Z :=
  let b := or_cr4 CR4_PSE b in
  let b := set_cr3 (v2p entrypgdir) b in
  let b := or_cr0 (Z.lor CR0_PG CR0_WP) b in
  (set_esp (stack + KSTACKSIZE) b, main).

(** entryother.S, at [start]: the words below it are the stack, the function
    and the page directory.  The call is to the function. *)
Definition entryother (m : mem) (start : Z) (b : boot) : boot * Z :=
  let b := start32 (protect (real_mode b)) in
  let b := or_cr4 CR4_PSE b in
  let b := set_cr3 (ld32 m (start - 12)) b in
  let b := or_cr0 (Z.lor (Z.lor CR0_PE CR0_PG) CR0_WP) b in
  (set_esp (ld32 m (start - 4)) b, ld32 m (start - 8)).

End BootAsm.

(** ** Segments *)

Lemma lor_high b : 0 <= b < 16 ->
  Z.lor 144 b = b + 16 * 1 + 32 * 0 + 128 * 1 /\ Z.lor 192 b = b + 16 * 0 + 32 * 0 + 64 * 1 + 128 * 1.
Proof.
  intros Hb. assert (b ∈ map Z.of_nat (seq 0 16)) as Hin.
  { apply list_elem_of_In, in_map_iff. exists (Z.to_nat b). split; [lia|]. apply in_seq. lia. }
  clear Hb. revert b Hin. apply Forall_forall. repeat constructor.
Qed.

(** [SEG_ASM] of asm.h builds the descriptor that [SEG] of mmu.h describes. *)
Lemma SEG_ASM_is_SEG type base lim : 0 <= type < 16 -> 0 <= base < W32 -> 0 <= lim < W32 ->
  SEG_ASM type base lim = segdesc_bytes (SEG type base lim 0).
Proof.
  unfold W32. intros Ht Hb Hl. assert (0 <= lim / 2 ^ 28 < 16) as Hl' by (split; [apply Z.div_pos|apply Z.div_lt_upper_bound]; lia).
  assert (0 <= base / 2 ^ 24 < 256) as Hb' by (split; [apply Z.div_pos|apply Z.div_lt_upper_bound]; lia).
  unfold SEG_ASM, segdesc_bytes, SEG. cbn [lim_15_0 base_15_0 base_23_16 sd_type sd_s sd_dpl sd_p lim_19_16 sd_avl sd_rsv1 sd_db sd_g base_31_24].
  rewrite !(Z.shiftr_div_pow2 lim 28), !(Z.shiftr_div_pow2 base 24) by lia.
  change 15 with (Z.ones 4). rewrite (Z.land_ones (lim / 2 ^ 28)) by lia. rewrite (Z.mod_small (lim / 2 ^ 28)) by lia.
  assert (Z.land (base / 2 ^ 24) 255 = base / 2 ^ 24) as ->.
  { change 255 with (Z.ones 8). rewrite Z.land_ones by lia. apply Z.mod_small. lia. }
  destruct (lor_high type Ht) as [-> _]. by destruct (lor_high _ Hl') as [_ ->].
Qed.

(** ** The boot block *)

Section Boot.
Import BootAsm.
Variable disk : Z -> list Z.
Hypothesis disk_sectors : forall o, length (disk o) = 512%nat.

(** The keyboard controller is busy for some polls, and then is not. *)
Definition a20_busy (r : reply) : bool := truth (Z.land (u8 (r_val r)) 2).

Lemma a20_turn_reply r rs : a20_turn tt (r :: rs) = URet (if a20_busy r then inl tt else inr tt) [In 100] rs.
Proof. done. Qed.
Lemma a20_turns : uturns a20_turn.
Proof.
  intros [] [|r rs] s' cs rs' E; [done|]. rewrite a20_turn_reply in E. destruct (a20_busy r); [|done]. injection E; intros; subst; cbn; lia.
Qed.
Lemma a20_polls b r rs : Forall (fun r => a20_busy r = true) b -> a20_busy r = false ->
  uloop a20_turn tt (b ++ r :: rs) = URet tt (replicate (S (length b)) (In 100)) rs.
Proof.
  intros Hb Hr. induction Hb as [|x b Hx _ IH]; cbn [app]; rewrite (uloop_unfold _ _ _ a20_turns), (ubind_ret _ _ _ _ _ _ (a20_turn_reply _ _)).
  - by rewrite Hr.
  - rewrite Hx. cbn -[uloop replicate]. by rewrite IH.
Qed.

Definition a20_calls (n1 n2 : nat) : list io :=
  replicate (S n1) (In 100) ++ [Out 100 209] ++ replicate (S n2) (In 100) ++ [Out 96 223].
Lemma seta20_calls p1 r1 p2 r2 rs :
  Forall (fun r => a20_busy r = true) p1 -> a20_busy r1 = false -> Forall (fun r => a20_busy r = true) p2 -> a20_busy r2 = false ->
  seta20 (p1 ++ r1 :: p2 ++ r2 :: rs) = URet tt (a20_calls (length p1) (length p2)) rs.
Proof.
  intros H1 R1 H2 R2. unfold seta20. rewrite (ubind_ret _ _ _ _ _ _ (a20_polls p1 r1 _ H1 R1)).
  rewrite (ubind_ret (outb 100 209) _ (p2 ++ r2 :: rs) tt [Out 100 209] _ eq_refl).
  rewrite (ubind_ret _ _ _ _ _ _ (a20_polls p2 r2 _ H2 R2)). reflexivity.
Qed.

Lemma asked_a20 n1 n2 cs a0 a1 a2 a3 : asked a0 a1 a2 a3 (a20_calls n1 n2 ++ cs) = asked a0 a1 a2 a3 cs.
Proof.
  assert (forall n cs, asked a0 a1 a2 a3 (replicate n (In 100) ++ cs) = asked a0 a1 a2 a3 cs) as Hp by (intros n cs'; by induction n).
  unfold a20_calls. rewrite <- !app_assoc, Hp. cbn [app asked]. cbn [Z.eqb Pos.eqb]. cbn [andb]. by rewrite (Hp (S n2)).
Qed.

(** C20: from any state of the processor, the boot block enables address line
    20, switches to protected mode with flat segments, reads the sectors of
    the kernel and of nothing else, and enters the kernel at its entry point
    with every segment loaded: its bytes of the file at its physical address
    and zeros from there to its size in memory. *)
Theorem boot_enters_kernel m b p1 r1 p2 r2 rs :
  Forall (fun r => a20_busy r = true) p1 -> a20_busy r1 = false -> Forall (fun r => a20_busy r = true) p2 -> a20_busy r2 = false ->
  Bootmain.elf_magic (img disk) 0 = Bootmain.ELF_MAGIC -> Bootmain.elf_phoff (img disk) 0 + 32 * Bootmain.elf_phnum (img disk) 0 <= 4096 ->
  Forall seg_ok (kernel_segs disk) -> apart (kernel_segs disk) -> served disk (boot_sectors disk) rs ->
  exists b' m' cs, bootasm m b (p1 ++ r1 :: p2 ++ r2 :: rs) = URet (b', Some (Bootmain.elf_entry (img disk) 0, m')) cs [] /\
    Out 100 209 ∈ cs /\ Out 96 223 ∈ cs /\ asked 0 0 0 0 cs = boot_sectors disk /\ Forall (loaded disk m') (kernel_segs disk) /\
    b_if b' = false /\ Z.testbit (b_cr0 b') 0 = true /\
    (forall r, r ∈ [CS; DS; ES; SS] -> exists d, b_gdt b' !! Z.to_nat (b_sel b' r / 8) = Some d /\ desc_base d = 0 /\ desc_limit d = 4294967295).
Proof.
  intros H1 R1 H2 R2 Hmagic Hph Hok Hap Hs. unfold bootasm. rewrite (ubind_ret _ _ _ _ _ _ (seta20_calls p1 r1 p2 r2 rs H1 R1 H2 R2)).
  destruct (bootmain_loads disk disk_sectors m rs Hmagic Hph Hok Hap Hs) as (m' & cs & E & Ha & Hl). rewrite (ubind_ret _ _ _ _ _ _ E).
  eexists _, m', _. split; [reflexivity|]. split; [|split; [|split; [|split; [done|split; [done|split]]]]].
  - apply elem_of_app. left. unfold a20_calls. set_solver.
  - apply elem_of_app. left. unfold a20_calls. set_solver.
  - by rewrite asked_a20, app_nil_r.
  - cbn [b_cr0 set_esp start32 protect set_sel or_cr0 lgdt]. rewrite Z.lor_spec. apply orb_true_r.
  - intros r Hr. by repeat (apply elem_of_cons in Hr as [->|Hr]; [by eexists|]); apply not_elem_of_nil in Hr.
Qed.

(** At [entry], paging is on, with 4 MB pages and write protection, and the page
    directory is [entrypgdir], which maps the code that runs and the kernel. *)
Lemma entry_pages entrypgdir stk main b :
  let '(b', target) := entry entrypgdir stk main b in
  target = main /\ b_esp b' = stk + KSTACKSIZE /\ b_cr3 b' = v2p entrypgdir /\
  Z.testbit (b_cr0 b') 31 = true /\ Z.testbit (b_cr0 b') 16 = true /\ Z.testbit (b_cr4 b') 4 = true /\
  (forall i, Z.testbit (b_cr0 b) i = true -> Z.testbit (b_cr0 b') i = true).
Proof.
  cbn [entry b_esp b_cr3 b_cr0 b_cr4 set_esp set_cr3 or_cr0 or_cr4]. rewrite !Z.lor_spec.
  repeat split; try done; try apply orb_true_r. intros i Hi. by rewrite Z.lor_spec, Hi.
Qed.

(** A processor that starts at 0x7000 runs the function on the stack and with
    the page directory whose addresses [startothers] has put below the code. *)
Lemma entryother_enters m b stk fn pgdir :
  words_at m (28672 - 12) [pgdir; fn; stk] ->
  let '(b', target) := entryother m 28672 b in
  target = fn /\ b_esp b' = stk /\ b_cr3 b' = pgdir /\ b_if b' = false /\
  Z.testbit (b_cr0 b') 0 = true /\ Z.testbit (b_cr0 b') 31 = true /\ Z.testbit (b_cr4 b') 4 = true /\
  b_sel b' CS = SEG_KCODE * 8 /\ b_sel b' SS = SEG_KDATA * 8.
Proof.
  intros (<- & <- & <- & _). cbn [entryother b_esp b_cr3 b_cr0 b_cr4 set_esp set_cr3 or_cr0 or_cr4]. rewrite !Z.lor_spec.
  repeat split; try done; apply orb_true_r.
Qed.

End Boot.

Lemma boot_enters_kernel_witness : exists b' m' cs,
  BootAsm.bootasm (fun _ => 0) (mkBoot true (fun _ => 0) [] 16 0 0 0)
    ([mkReply 2 []] ++ mkReply 0 [] :: [] ++ mkReply 28 [] ::
     concat (map (fun o => [mkReply 64 []; mkReply 64 []; mkReply 0 (sample_disk o)]) [1; 2; 3; 4; 5; 6; 7; 8; 2; 3])) =
    URet (b', Some (1048588, m')) cs [] /\
  Out 100 209 ∈ cs /\ Out 96 223 ∈ cs /\ asked 0 0 0 0 cs = [1; 2; 3; 4; 5; 6; 7; 8; 2; 3] /\
  Forall (loaded sample_disk m') [mkSeg 1000 1048576 100 600] /\ b_if b' = false /\ Z.testbit (b_cr0 b') 0 = true /\
  (forall r, r ∈ [CS; DS; ES; SS] -> exists d, b_gdt b' !! Z.to_nat (b_sel b' r / 8) = Some d /\ desc_base d = 0 /\ desc_limit d = 4294967295).
Proof.
  assert (kernel_segs sample_disk = [mkSeg 1000 1048576 100 600]) as Es by reflexivity.
  assert (boot_sectors sample_disk = [1; 2; 3; 4; 5; 6; 7; 8; 2; 3]) as Eb by reflexivity. rewrite <- Es, <- Eb.
  apply (boot_enters_kernel sample_disk sample_disk_sectors).
  - by repeat constructor.
  - reflexivity.
  - constructor.
  - reflexivity.
  - reflexivity.
  - apply Z.leb_le. reflexivity.
  - rewrite Es. constructor; [|constructor]. split; [done|]. split; [done|]. split; [done|]. by right.
  - rewrite Es. repeat constructor.
  - apply served_plain.
Defined.
