(* ===== verification/KthreadSpec.v ===== *)
(** * Correctness of kernel threads (kthread.c)

    What [allocthread] and [kthread_create] set up, down to the words on the
    kernel stack of the new thread: the first switch to it enters [forkret],
    returns to [trapret] and starts user code at the function and on the stack
    that the caller asked for.  [kthread_exit] wakes the threads that wait for the
    thread, and [kthread_join] gives its slot and its kernel stack back. *)

From stdpp Require Import base list gmap strings list_numbers.
From S2P Require Import Prelude Memory Bytes Str Kernel KMonad Boot Mmu Spinlock Kalloc Sched Vm Ide Bio Log Fs Pipe File Kbd Console Proc Kthread Asm.

Section KthreadSpec.
Context `{Symbols, !SymbolsOk, Disk, DevOps}.

(** ** A new thread *)

(** The fields that [allocthread] sets. *)
Definition new_thread (tid : Z) (i : nat) (x : Z) (th : thread) : thread :=
  set_t_context (x + 3996) (set_t_tf (x + 4020) (set_t_kstack x
    (set_t_tproc (Some i) (set_t_tid tid (set_t_state EMBRYO th))))).
(** Its kernel stack: room for a trap frame, the address of [trapret], and a
    context with the address of [forkret]. *)
Definition new_stack (x : Z) (m : mem) : mem :=
  st32 (mset (st32 m (v2p (x + 4016)) sym_trapret) (v2p (x + 3996)) 0 20) (v2p (x + 4012)) sym_forkret.

Record thread_made (s : kstate) (i k : nat) (x : Z) (s' : kstate) : Prop := {
  md_table : k_ptable s' = k_ptable (upd_thread (i, k) (new_thread (k_nexttid s) i x) s);
  md_mem : k_mem s' = new_stack x (k_mem s);
  md_tid : k_nexttid s' = s32 (k_nexttid s + 1);
  md_cur : c_proc (k_cpu s') = c_proc (k_cpu s) /\ c_thread (k_cpu s') = c_thread (k_cpu s);
  md_cli : cli_ok (k_cpu s');
  md_locks : forall lk, unlocked s lk -> unlocked s' lk
}.

Lemma upd_thread_twice t f g s : upd_thread t f (upd_thread t g s) = upd_thread t (fun x => f (g x)) s.
Proof.
  unfold upd_thread, upd_proc, set_k_ptable. cbn. rewrite alter_twice. f_equal.
  apply list_eq. intros j. destruct (decide (j = t.1)) as [->|Hne]; [|by rewrite !list_lookup_alter_ne].
  rewrite !list_lookup_alter_eq. destruct (k_ptable s !! t.1) as [p|]; [|done]. cbn. f_equal. unfold set_p_threads. cbn.
  by rewrite alter_twice.
Qed.

Lemma upd_thread_table t f a b : k_ptable a = k_ptable b -> k_ptable (upd_thread t f a) = k_ptable (upd_thread t f b).
Proof. unfold upd_thread, upd_proc. cbn. by intros ->. Qed.

(** What the allocator leaves alone. *)
Record kept (s s' : kstate) : Prop := {
  kp_table : k_ptable s' = k_ptable s;
  kp_tid : k_nexttid s' = k_nexttid s;
  kp_cur : c_proc (k_cpu s') = c_proc (k_cpu s) /\ c_thread (k_cpu s') = c_thread (k_cpu s);
  kp_cli : cli_ok (k_cpu s) -> cli_ok (k_cpu s');
  kp_locks : forall lk, unlocked s lk -> unlocked s' lk
}.

Lemma kept_crit s : kept s (kmem_crit s).
Proof.
  unfold kmem_crit. destruct (truth _); [|done]. split; try done. intros lk. apply unlocked_crit.
Qed.

Lemma kept_kalloc s : kept s (kalloc_state s).
Proof. destruct (kept_crit s) as [? ? ? ? ?]. by split. Qed.

Lemma kept_kfree v s : kept s (kfree_state v s).
Proof. destruct (kept_crit (upd_mem (fun m => mset m (v2p v) 1 PGSIZE) s)) as [? ? ? ? ?]. by split. Qed.

Lemma kpage_range x : kpage x -> KERNBASE <= x /\ x + 4096 <= KERNBASE + PHYSTOP.
Proof. intros (Hm & _ & Hr). unfold PGSIZE, KERNBASE, PHYSTOP in *. Z.div_mod_to_equations. lia. Qed.

Lemma v2p_in x a : kpage x -> 0 <= a <= 4096 -> v2p (x + a) = x - KERNBASE + a.
Proof.
  intros Hx Ha. destruct (kpage_range x Hx). unfold v2p. rewrite u32_small by (unfold KERNBASE, PHYSTOP in *; lia). lia.
Qed.

(** Writes into page [x] keep a free list that does not have it. *)
Lemma free_list_page_write s s' x l :
  kpage x -> x ∉ l -> k_kmem s' = k_kmem s ->
  (forall a, ~ (x - KERNBASE <= a < x - KERNBASE + 4096) -> k_mem s' a = k_mem s a) ->
  free_list s l -> free_list s' l.
Proof.
  intros Hx Hnin Hk Hm. apply free_list_frame; [done|]. intros y Hy Hpy. apply ld32_ext. intros a Ha. apply Hm.
  assert (y <> x) by congruence. destruct (kpage_disjoint y x); [done..| |]; lia.
Qed.

Lemma new_stack_other x m a : kpage x -> ~ (x - KERNBASE + 3996 <= a < x - KERNBASE + 4020) -> new_stack x m a = m a.
Proof.
  intros Hx Ha. unfold new_stack. rewrite !v2p_in by (done || lia). rewrite st32_other, mset_other, st32_other by lia. done.
Qed.

(** [allocthread] with a free slot and a free page. *)
Lemma allocthread_ok i e s p k x l :
  cli_ok (k_cpu s) -> unlocked s (Lproc i) -> unlocked s Lkmem -> k_ptable s !! i = Some p ->
  find_idx (fun t => state_eqb (t_state t) UNUSED) (p_threads p) = Some k -> free_list s (x :: l) ->
  exists s', allocthread i e s = Ok (Some (i, k)) e s' /\ thread_made s i k x s' /\ free_list s' l.
Proof.
  intros Hc Hu Hk Hp Hf Hfl. pose proof (free_list_page _ _ x Hfl (list_elem_of_here _ _)) as Hx.
  assert (Hnin : x ∉ l) by (destruct Hfl as [_ Hn _]; by apply NoDup_cons in Hn as [? _]).
  unfold allocthread. mstep acquire_free by exact Hu. mstep proc_at_ok by exact Hp. rewrite Hf. do 5 mstep.
  mstep release_held by ctl. set (s2 := released (Lproc i) _).
  assert (Hs2 : k_ptable s2 = k_ptable (upd_thread (i, k) (fun th => set_t_tproc (Some i) (set_t_tid (k_nexttid s) (set_t_state EMBRYO th))) s)).
  { change (k_ptable s2) with (k_ptable (upd_thread (i, k) (set_t_tproc (Some i)) (upd_thread (i, k) (set_t_tid (k_nexttid s))
      (upd_thread (i, k) (set_t_state EMBRYO) s)))). by rewrite !upd_thread_twice. }
  assert (Hr2 : kmem_ready s2) by (split; unfold s2; ctl).
  assert (Hfl2 : free_list s2 (x :: l)) by (by destruct Hfl).
  destruct (kalloc_pop e s2 x l Hfl2 Hr2) as [Ek Hfl3]. mstep Ek. set (s3 := kalloc_state s2) in *. mstep.
  rewrite (proj2 (Z.eqb_neq x 0)) by (by apply kpage_nonzero). cbv zeta. unfold stk, memset.
  pose proof (kpage_range x Hx) as Hxr. unfold KERNBASE, PHYSTOP in Hxr.
  unfold KSTACKSIZE, TF_SIZE, CTX_SIZE, CTX_EIP. rewrite (u32_small (x + 4096)), (u32_small (x + 4096 - 76)) by lia.
  rewrite (u32_small (x + 4096 - 76 - 4)), (u32_small (x + 4096 - 76 - 4 - 20)), (u32_small (x + 4096 - 76 - 4 - 20 + 16)) by lia.
  replace (x + 4096 - 76) with (x + 4020) by lia. replace (x + 4020 - 4) with (x + 4016) by lia.
  replace (x + 4016 - 20) with (x + 3996) by lia. replace (x + 3996 + 16) with (x + 4012) by lia. do 5 mstep.
  destruct (kept_kalloc s2) as [K1 K2 K3 K4 K5]. fold s3 in K1, K2, K3, K4, K5.
  eexists. split; [done|]. split; [split|].
  - match goal with |- k_ptable ?X = _ => change (k_ptable X) with (k_ptable (upd_thread (i, k) (set_t_context (x + 3996))
      (upd_thread (i, k) (set_t_tf (x + 4020)) (upd_thread (i, k) (set_t_kstack x) s3)))) end.
    rewrite !upd_thread_twice, (upd_thread_table _ _ _ _ K1), (upd_thread_table _ _ _ _ Hs2). by rewrite upd_thread_twice.
  - change (new_stack x (k_mem s3) = new_stack x (k_mem s)). unfold s3. by rewrite kalloc_state_mem.
  - exact K2.
  - exact K3.
  - apply K4. apply Hr2.
  - intros lk Hlk. change (unlocked s3 lk). apply K5. unfold s2.
    destruct (decide (lk = Lproc i)) as [->|Hne]; [apply unlocked_released_eq|]. apply unlocked_released.
    change (unlocked (acquired (Lproc i) s) lk). by apply unlocked_acquired_ne.
  - revert Hfl3. apply (free_list_page_write _ _ x); [done|done|done|]. intros a Ha. apply (new_stack_other x (k_mem s3)); [done|lia].
Qed.

(** No free slot: nothing changes.  No free page: the slot is free again. *)
Lemma allocthread_full i e s p :
  cli_ok (k_cpu s) -> unlocked s (Lproc i) -> k_ptable s !! i = Some p ->
  find_idx (fun t => state_eqb (t_state t) UNUSED) (p_threads p) = None ->
  allocthread i e s = Ok None e (crit (Lproc i) s).
Proof.
  intros Hc Hu Hp Hf. unfold allocthread. mstep acquire_free by exact Hu. mstep proc_at_ok by exact Hp. rewrite Hf.
  mstep release_held by ctl. by rewrite released_acquired.
Qed.

Lemma allocthread_nopage i e s p k :
  cli_ok (k_cpu s) -> unlocked s (Lproc i) -> unlocked s Lkmem -> k_ptable s !! i = Some p ->
  find_idx (fun t => state_eqb (t_state t) UNUSED) (p_threads p) = Some k -> free_list s [] ->
  exists s', allocthread i e s = Ok None e s' /\ free_list s' [] /\ k_mem s' = k_mem s /\
    k_ptable s' = k_ptable (upd_thread (i, k) (fun th => set_t_state UNUSED (set_t_kstack 0
      (set_t_tproc (Some i) (set_t_tid (k_nexttid s) th)))) s).
Proof.
  intros Hc Hu Hk Hp Hf Hfl. unfold allocthread. mstep acquire_free by exact Hu. mstep proc_at_ok by exact Hp. rewrite Hf. do 5 mstep.
  mstep release_held by ctl. set (s2 := released (Lproc i) _).
  assert (Hs2 : k_ptable s2 = k_ptable (upd_thread (i, k) (fun th => set_t_tproc (Some i) (set_t_tid (k_nexttid s) (set_t_state EMBRYO th))) s)).
  { change (k_ptable s2) with (k_ptable (upd_thread (i, k) (set_t_tproc (Some i)) (upd_thread (i, k) (set_t_tid (k_nexttid s))
      (upd_thread (i, k) (set_t_state EMBRYO) s)))). by rewrite !upd_thread_twice. }
  assert (Hr2 : kmem_ready s2) by (split; unfold s2; ctl). assert (Hfl2 : free_list s2 []) by (by destruct Hfl).
  destruct (kalloc_none e s2 Hfl2 Hr2) as [Ek Hfl3]. mstep Ek. mstep. change (0 =? 0) with true. mstep. destruct (kept_crit s2) as [K1 _ _ _ _].
  eexists. split; [done|]. split; [by destruct Hfl3|]. split; [exact (kmem_crit_mem s2)|].
  match goal with |- k_ptable ?X = _ => change (k_ptable X) with (k_ptable (upd_thread (i, k) (set_t_state UNUSED)
    (upd_thread (i, k) (set_t_kstack 0) (kmem_crit s2)))) end.
  rewrite upd_thread_twice, (upd_thread_table _ _ _ _ K1), (upd_thread_table _ _ _ _ Hs2). by rewrite upd_thread_twice.
Qed.

(** ** [kthread_create] *)

(** The memory that the kernel sees at its addresses. *)
Definition vmem (s : kstate) (a : Z) : Z := k_mem s (v2p a).

Lemma ld32_vmem s x a : kpage x -> 0 <= a <= 4092 -> ld32 (vmem s) (x + a) = ld32 (k_mem s) (x - KERNBASE + a).
Proof.
  intros Hx Ha. unfold ld32, ld8, vmem. rewrite <- !(Z.add_assoc x a), !v2p_in by (done || lia). by rewrite !Z.add_assoc.
Qed.

Lemma words_at_intro m ws : forall a, (forall k w, ws !! k = Some w -> ld32 m (a + 4 * Z.of_nat k) = w) -> words_at m a ws.
Proof.
  induction ws as [|w ws IH]; intros a Hk; [done|]. split.
  - rewrite <- (Hk 0%nat w eq_refl). by rewrite Z.add_0_r.
  - apply IH. intros k v Hv. rewrite <- (Hk (S k) v Hv). f_equal. lia.
Qed.

(** The stack of a new thread, as [swtch] finds it. *)
Lemma new_stack_words x m s' :
  kpage x -> (forall a, x - KERNBASE + 3996 <= a < x - KERNBASE + 4020 -> k_mem s' a = new_stack x m a) ->
  words_at (vmem s') (x + 3996) [0; 0; 0; 0; sym_forkret; sym_trapret].
Proof.
  intros Hx Hm. apply words_at_intro. intros k w Hk. assert (Hlt : (k < 6)%nat) by (by apply lookup_lt_Some in Hk).
  rewrite <- Z.add_assoc, (ld32_vmem s' x) by (done || lia). rewrite (ld32_ext _ (new_stack x m)) by (intros a Ha; apply Hm; lia).
  unfold new_stack. rewrite !v2p_in by (done || lia). destruct forkret_word, trapret_word.
  destruct (decide (k = 4)%nat) as [->|K4].
  { replace (x - KERNBASE + (3996 + 4 * Z.of_nat 4)) with (x - KERNBASE + 4012) by lia. rewrite ld32_st32_eq by lia. by injection Hk. }
  rewrite ld32_st32_ne by lia.
  destruct (decide (k = 5)%nat) as [->|K5].
  { replace (x - KERNBASE + (3996 + 4 * Z.of_nat 5)) with (x - KERNBASE + 4016) by lia. rewrite ld32_mset_out, ld32_st32_eq by lia. by injection Hk. }
  rewrite ld32_mset_zero by lia. destruct k as [|[|[|[|k]]]]; [by injection Hk..|lia].
Qed.

(** A trap frame in page [x], copied from page [y] with another [eip] and [esp]. *)
Definition start_frame (x y ip sp : Z) (m : mem) : mem :=
  st32 (st32 (mmove m (v2p (x + 4020)) (v2p (y + 4020)) 76) (v2p (x + 4076)) ip) (v2p (x + 4088)) sp.

Lemma start_frame_words s s' x y ip sp ws m :
  kpage x -> kpage y -> x <> y -> word ip -> word sp -> length ws = 19%nat -> words_at (vmem s) (y + 4020) ws ->
  (forall a, y - KERNBASE <= a < y - KERNBASE + 4096 -> m a = k_mem s a) -> k_mem s' = start_frame x y ip sp m ->
  words_at (vmem s') (x + 4020) (<[17%nat := sp]> (<[14%nat := ip]> ws)).
Proof.
  intros Hx Hy Hne Hip Hsp Hl W Hm Hs'. apply words_at_intro. intros k w Hk.
  assert (Hlt : (k < 19)%nat) by (apply lookup_lt_Some in Hk; rewrite !length_insert in Hk; lia).
  rewrite <- Z.add_assoc, (ld32_vmem s' x) by (done || lia). rewrite Hs'. unfold start_frame. rewrite !v2p_in by (done || lia).
  destruct (decide (k = 17)%nat) as [->|H17].
  { rewrite list_lookup_insert_eq in Hk by (rewrite length_insert; lia). injection Hk as <-.
    replace (x - KERNBASE + (4020 + 4 * Z.of_nat 17)) with (x - KERNBASE + 4088) by lia. by apply ld32_st32_eq. }
  rewrite ld32_st32_ne by lia. rewrite list_lookup_insert_ne in Hk by done. destruct (decide (k = 14)%nat) as [->|H14].
  { rewrite list_lookup_insert_eq in Hk by lia. injection Hk as <-.
    replace (x - KERNBASE + (4020 + 4 * Z.of_nat 14)) with (x - KERNBASE + 4076) by lia. by apply ld32_st32_eq. }
  rewrite ld32_st32_ne by lia. rewrite list_lookup_insert_ne in Hk by done.
  rewrite ld32_mmove_in by lia. rewrite <- (words_at_nth _ _ _ _ _ W Hk).
  replace (y + 4020 + 4 * Z.of_nat k) with (y + (4020 + 4 * Z.of_nat k)) by lia. rewrite (ld32_vmem s y) by (done || lia). rewrite (ld32_ext _ (k_mem s)); [f_equal; lia|].
  intros a Ha. apply Hm. lia.
Qed.

Lemma start_frame_other x y ip sp m a :
  kpage x -> kpage y -> ~ (x - KERNBASE + 4020 <= a < x - KERNBASE + 4096) -> start_frame x y ip sp m a = m a.
Proof.
  intros Hx Hy Ha. unfold start_frame. rewrite !v2p_in by (done || lia). by rewrite !st32_other, mmove_other by lia.
Qed.

(** A thread [me] of process [i] that runs in the kernel, with its trap frame at
    the top of its kernel stack [y]. *)
Record kernel_caller (s : kstate) (i : nat) (me : tptr) (my : thread) (y : Z) : Prop := {
  ik_proc : c_proc (k_cpu s) = Some i;
  ik_thread : c_thread (k_cpu s) = Some me;
  ik_my : thread_of s me = Some my;
  ik_used : t_state my <> UNUSED;
  ik_tf : t_tf my = y + 4020;
  ik_page : kpage y;
  ik_cli : cli_ok (k_cpu s)
}.

(** The caller, the free slot [k] and the free page [x] of a creation. *)
Record may_create (s : kstate) (i k : nat) (x : Z) (l : list Z) (y : Z) : Prop := {
  mc_proc : exists p, k_ptable s !! i = Some p /\
    find_idx (fun t => state_eqb (t_state t) UNUSED) (p_threads p) = Some k;
  mc_free : free_list s (x :: l);
  mc_stack : y ∉ x :: l;
  mc_lock : unlocked s (Lproc i);
  mc_kmem : unlocked s Lkmem
}.

Lemma free_slot_thread s i k p :
  k_ptable s !! i = Some p -> find_idx (fun t => state_eqb (t_state t) UNUSED) (p_threads p) = Some k ->
  exists th, thread_of s (i, k) = Some th /\ t_state th = UNUSED.
Proof.
  intros Hp Hf. apply find_idx_Some in Hf as [(th & Hth & Hs) _]. exists th. unfold thread_of. cbn. rewrite Hp. split; [done|].
  by destruct (t_state th).
Qed.

(** [kthread_create] in the kernel's own terms. *)
Lemma kthread_create_ok ip stack size e s i me my y k x l :
  kernel_caller s i me my y -> may_create s i k x l y ->
  exists th s', thread_of s (i, k) = Some th /\ kthread_create ip stack size e s = Ok (k_nexttid s) e s' /\
    thread_of s' (i, k) = Some (set_t_state RUNNABLE (new_thread (k_nexttid s) i x th)) /\
    (forall t, t <> (i, k) -> thread_of s' t = thread_of s t) /\ free_list s' l /\
    k_nexttid s' = s32 (k_nexttid s + 1) /\ (forall lk, unlocked s lk -> unlocked s' lk) /\
    k_mem s' = start_frame x y ip (u32 (stack + size)) (new_stack x (k_mem s)).
Proof.
  intros [Cp Ct My Us Tf Py Hc] [(p & Hp & Hf) Hfl Hy Hl Hk]. destruct (free_slot_thread _ _ _ _ Hp Hf) as (th & Hth & Hun).
  pose proof (free_list_page _ _ x Hfl (list_elem_of_here _ _)) as Hx. pose proof (kpage_range x Hx) as Hxr.
  assert (Hnin : x ∉ l) by (destruct Hfl as [_ Hn _]; by apply NoDup_cons in Hn as [? _]).
  assert (Hme : me <> (i, k)) by congruence. exists th. unfold kthread_create. mstep curproc_ok by exact Cp.
  destruct (allocthread_ok i e s p k x l Hc Hl Hk Hp Hf Hfl) as (s1 & E & [T1 M1 N1 [_ C1] L1 U1] & Hfl1). mstep E.
  assert (Hth1 : thread_of s1 (i, k) = Some (new_thread (k_nexttid s) i x th)).
  { rewrite (thread_of_ptable _ _ _ T1). by apply thread_upd_eq. }
  assert (Ho1 : forall t, t <> (i, k) -> thread_of s1 t = thread_of s t).
  { intros t Ht. rewrite (thread_of_ptable _ _ _ T1). by apply thread_upd_ne. }
  mstep thread_at_ok by exact Hth1. mstep curthread_ok by (rewrite C1; exact Ct). mstep thread_at_ok by (rewrite Ho1; [exact My|done]).
  unfold memmove, stk. cbn [t_tf new_thread set_t_tf set_t_context]. rewrite Tf. unfold TF_SIZE, TF_EIP, TF_ESP, KERNBASE, PHYSTOP in *.
  rewrite (u32_small (x + 4020 + 56)), (u32_small (x + 4020 + 68)) by lia. replace (x + 4020 + 56) with (x + 4076) by lia. replace (x + 4020 + 68) with (x + 4088) by lia. do 3 mstep.
  mstep acquire_free by (apply U1; exact Hl). mstep. mstep release_held by ctl. set (s3 := released (Lproc i) _).
  assert (Tn : thread_of s3 (i, k) = Some (set_t_state RUNNABLE (new_thread (k_nexttid s) i x th))).
  { change (thread_of (upd_thread (i, k) (set_t_state RUNNABLE) s1) (i, k) = Some (set_t_state RUNNABLE (new_thread (k_nexttid s) i x th))). by apply thread_upd_eq. }
  mstep thread_at_ok by exact Tn. exists s3. split_and!; try done.
  - intros t Ht. rewrite <- (Ho1 t Ht). change (thread_of (upd_thread (i, k) (set_t_state RUNNABLE) s1) t = thread_of s1 t). by apply thread_upd_ne.
  - revert Hfl1. apply (free_list_page_write _ _ x); [done|done|done|]. intros a Ha. change (start_frame x y ip (u32 (stack + size)) (k_mem s1) a = k_mem s1 a). apply start_frame_other; [done..|].
    unfold KERNBASE in *. lia.
  - intros lk Hlk. unfold s3. destruct (decide (lk = Lproc i)) as [->|Hne]; [apply unlocked_released_eq|]. apply unlocked_released.
    match goal with |- context [acquired (Lproc i) ?S] => change (unlocked (acquired (Lproc i) S) lk) end. apply unlocked_acquired_ne; [done|]. by apply U1.
  - change (start_frame x y ip (u32 (stack + size)) (k_mem s1) = start_frame x y ip (u32 (stack + size)) (new_stack x (k_mem s))). by rewrite M1.
Qed.

(** ** The first switch to a new thread *)

(** [m] is about to run [swtch] to the context [c] in page [x]; its stack and the
    place of its own context pointer are outside the page. *)
Record switches_to (m : machine) (c x : Z) : Prop := {
  sw_room : room 4 m;
  sw_words : forall r, word (rg m r);
  sw_new : new_arg m = c;
  sw_old : old_arg m + 4 <= rg m ESP - 16 \/ rg m ESP + 4 <= old_arg m;
  sw_stack : rg m ESP <= x \/ x + 4096 <= rg m ESP - 16;
  sw_ptr : old_arg m + 4 <= x \/ x + 4096 <= old_arg m
}.
(** [forkret] was entered in [m] and has returned in [m2], with the trap frame at
    [tf] as it was. *)
Record forkret_returned (m m2 : machine) (tf : Z) : Prop := {
  fr_eip : eip m2 = top m;
  fr_esp : rg m2 ESP = rg m ESP + 4;
  fr_cs : sr m2 CS = sr m CS;
  fr_frame : forall a, tf <= a < tf + TF_SIZE -> mm m2 a = mm m a
}.

Lemma saved_page m c x mem' a :
  switches_to m c x -> (forall a, x <= a < x + 4096 -> mm m a = mem' a) -> x <= a < x + 4096 -> mm (run swtch m) a = mem' a.
Proof.
  intros [Hr Hw _ Ho Hs Hp] Hm Ha. destruct (swtch_saves m Hr Hw Ho) as (_ & _ & M).
  change (mm (run swtch m)) with (saved_mem m). rewrite <- Hm by done. apply M; lia.
Qed.

(** A thread whose kernel stack holds a context with [forkret], the address of
    [trapret] and a trap frame of user code starts as the frame says. *)
Lemma first_switch m m2 x mem' edi esi ebp oesp ebx edx ecx eax gs fs es ds trapno err ip cs fl sp ss :
  kpage x -> switches_to m (x + 3996) x -> (forall a, x <= a < x + 4096 -> mm m a = mem' a) ->
  words_at mem' (x + 3996) [0; 0; 0; 0; sym_forkret; sym_trapret] ->
  words_at mem' (x + 4020) (trapframe edi esi ebp oesp ebx edx ecx eax gs fs es ds trapno err ip cs fl sp ss) ->
  Z.land (sr m CS) 3 = 0 -> 0 < Z.land (cs mod 65536) 3 -> forkret_returned (run swtch m) m2 (x + 4020) ->
  let u := run trapret m2 in
  eip (run swtch m) = sym_forkret /\ eip m2 = sym_trapret /\
  (rg u EDI, rg u ESI, rg u EBP, rg u EBX, rg u EDX, rg u ECX, rg u EAX, rg u ESP) = (edi, esi, ebp, ebx, edx, ecx, eax, sp) /\
  (sr u GS, sr u FS, sr u ES, sr u DS) = (gs mod 65536, fs mod 65536, es mod 65536, ds mod 65536) /\
  sr u CS = cs mod 65536 /\ sr u SS = ss mod 65536 /\ eip u = ip /\ eflags u = fl.
Proof.
  intros Hx Hsw Hm Wc Wf Hk Hu [Fi Fp Fc Ff]. pose proof (kpage_range x Hx) as Hxr. unfold KERNBASE, PHYSTOP in Hxr.
  pose proof (fun a => saved_page m _ x mem' a Hsw Hm) as Hs. destruct Hsw as [_ _ Hn _ _ _]. cbn zeta.
  destruct (swtch_enters m 0 0 0 0 sym_forkret sym_trapret) as [E T]; [lia| |].
  { rewrite Hn. revert Wc. apply words_at_ext. intros a Ha. cbn [length] in Ha. apply Hs. lia. }
  destruct (swtch_loads m) as (_ & _ & _ & _ & _ & _ & P & S); [lia|]. rewrite Hn in P.
  destruct (trapret_loads m2 (x + 4020) edi esi ebp oesp ebx edx ecx eax gs fs es ds trapno err ip cs fl sp ss)
    as (R1 & R2 & R3 & R4 & R5 & R6 & _); [lia|lia|unfold TF_SIZE; lia|by rewrite Fc, S|done| |].
  { revert Wf. apply words_at_ext. intros a Ha. cbn [length trapframe] in Ha. rewrite Ff by (unfold TF_SIZE; lia). apply Hs. lia. }
  rewrite Fi, T. done.
Qed.

(** C18: [kthread_create] with a free thread slot and a free page returns the next
    thread identifier; the new thread is RUNNABLE, on a kernel stack of its own,
    and no other thread and no memory outside that stack has changed.  The first
    [swtch] to it enters [forkret], which returns to [trapret], which starts user
    code at [ip] with the stack pointer at [stack + size] and with every other
    register, selector and the flags as the creating thread had them. *)
Theorem kthread_create_starts ip stack size e s i me my y k x l edi esi ebp oesp ebx edx ecx eax gs fs es ds trapno err ip0 cs fl sp0 ss :
  kernel_caller s i me my y -> may_create s i k x l y -> word ip ->
  words_at (vmem s) (t_tf my) (trapframe edi esi ebp oesp ebx edx ecx eax gs fs es ds trapno err ip0 cs fl sp0 ss) ->
  0 < Z.land (cs mod 65536) 3 ->
  exists th s', kthread_create ip stack size e s = Ok (k_nexttid s) e s' /\
    thread_of s' (i, k) = Some th /\ t_state th = RUNNABLE /\ t_tid th = k_nexttid s /\ t_tproc th = Some i /\
    t_kstack th = x /\ t_context th = x + 3996 /\ t_tf th = x + 4020 /\
    (forall t, t <> (i, k) -> thread_of s' t = thread_of s t) /\ free_list s' l /\ (forall lk, unlocked s lk -> unlocked s' lk) /\
    (forall a, ~ (v2p x <= a < v2p x + PGSIZE) -> k_mem s' a = k_mem s a) /\
    forall m m2, switches_to m (t_context th) (t_kstack th) ->
      (forall a, t_kstack th <= a < t_kstack th + PGSIZE -> mm m a = vmem s' a) ->
      Z.land (sr m CS) 3 = 0 -> forkret_returned (run swtch m) m2 (t_tf th) ->
      let u := run trapret m2 in
      eip (run swtch m) = sym_forkret /\ eip m2 = sym_trapret /\ eip u = ip /\ rg u ESP = u32 (stack + size) /\
      (rg u EDI, rg u ESI, rg u EBP, rg u EBX, rg u EDX, rg u ECX, rg u EAX) = (edi, esi, ebp, ebx, edx, ecx, eax) /\
      (sr u GS, sr u FS, sr u ES, sr u DS) = (gs mod 65536, fs mod 65536, es mod 65536, ds mod 65536) /\
      sr u CS = cs mod 65536 /\ sr u SS = ss mod 65536 /\ eflags u = fl.
Proof.
  intros Hin Hcr Hip W Hu. destruct (kthread_create_ok ip stack size e s i me my y k x l Hin Hcr) as (th & s' & _ & E & T & O & F & _ & U & M).
  destruct Hin as [_ _ _ _ Tf Hy _], Hcr as [_ Hfl Hny _ _]. rewrite Tf in W.
  pose proof (free_list_page _ _ x Hfl (list_elem_of_here _ _)) as Hx. apply not_elem_of_cons in Hny as [Hne _].
  assert (Hv : v2p x = x - KERNBASE) by (rewrite <- (Z.add_0_r x) at 1; rewrite v2p_in by (done || lia); lia).
  assert (Hout : forall a, ~ (x - KERNBASE + 3996 <= a < x - KERNBASE + 4096) -> k_mem s' a = k_mem s a).
  { intros a Ha. rewrite M, start_frame_other by (done || lia). apply new_stack_other; [done|lia]. }
  exists (set_t_state RUNNABLE (new_thread (k_nexttid s) i x th)), s'. rewrite Hv. unfold PGSIZE. split_and!; try done.
  { intros a Ha. apply Hout. lia. }
  intros m m2 Hsw Hm Hk Hf. cbn [t_context t_kstack t_tf set_t_state new_thread set_t_context set_t_tf set_t_kstack] in *. cbn zeta.
  destruct (first_switch m m2 x (vmem s') edi esi ebp oesp ebx edx ecx eax gs fs es ds trapno err ip cs fl (u32 (stack + size)) ss)
    as (E1 & E2 & R & S & C1 & C2 & E3 & C3); try assumption.
  - apply (new_stack_words x (k_mem s)); [done|]. intros a Ha. rewrite M. apply start_frame_other; [done..|lia].
  - apply (start_frame_words s s' x y ip (u32 (stack + size)) (trapframe edi esi ebp oesp ebx edx ecx eax gs fs es ds trapno err ip0 cs fl sp0 ss) (new_stack x (k_mem s))); try done.
    + unfold word, u32. apply Z.mod_pos_bound. lia.
    + intros a Ha. apply new_stack_other; [done|]. destruct (kpage_disjoint y x); [done..| |]; lia.
  - revert R S C1 C2 E3 C3. generalize (run trapret m2). intros u R S C1 C2 E3 C3. injection R as -> -> -> -> -> -> -> ->. split_and!; assumption || reflexivity.
Qed.

(** Without a free slot, or without a free page, [kthread_create] returns -1. *)
Lemma kthread_create_full ip stack size e s i me my y p :
  kernel_caller s i me my y -> unlocked s (Lproc i) -> k_ptable s !! i = Some p ->
  find_idx (fun t => state_eqb (t_state t) UNUSED) (p_threads p) = None ->
  kthread_create ip stack size e s = Ok (-1) e (crit (Lproc i) s).
Proof.
  intros [Cp Ct My Us Tf Py Hc] Hu Hp Hf. unfold kthread_create. mstep curproc_ok by exact Cp. by mstep (allocthread_full i e s p Hc Hu Hp Hf).
Qed.

Lemma kthread_create_nopage ip stack size e s i me my y p k :
  kernel_caller s i me my y -> unlocked s (Lproc i) -> unlocked s Lkmem -> k_ptable s !! i = Some p ->
  find_idx (fun t => state_eqb (t_state t) UNUSED) (p_threads p) = Some k -> free_list s [] ->
  exists s', kthread_create ip stack size e s = Ok (-1) e s' /\ k_mem s' = k_mem s /\
    (exists th, thread_of s' (i, k) = Some th /\ t_state th = UNUSED /\ t_kstack th = 0) /\
    forall t, t <> (i, k) -> thread_of s' t = thread_of s t.
Proof.
  intros [Cp Ct My Us Tf Py Hc] Hu Hk Hp Hf Hfl. unfold kthread_create. mstep curproc_ok by exact Cp.
  destruct (allocthread_nopage i e s p k Hc Hu Hk Hp Hf Hfl) as (s' & E & _ & M & T). mstep E. exists s'. split; [done|].
  destruct (free_slot_thread _ _ _ _ Hp Hf) as (th & Hth & _). split; [done|]. split.
  - eexists. split; [rewrite (thread_of_ptable _ _ _ T); by apply thread_upd_eq|done].
  - intros t Ht. rewrite (thread_of_ptable _ _ _ T). by apply thread_upd_ne.
Qed.

(** ** [kthread_join] *)

Section Join.
Variables (i : nat) (me : tptr) (k : nat).

(** What [kthread_join] needs to bury thread [(i, k)]: the allocator's lock is
    free and the kernel stack of a zombie is a page that is in use. *)
Record can_bury (s : kstate) (l : list Z) : Prop := {
  cb_free : free_list s l;
  cb_kmem : unlocked s Lkmem;
  cb_stack : forall th, thread_of s (i, k) = Some th -> t_state th = ZOMBIE -> kpage (t_kstack th) /\ t_kstack th ∉ l
}.
(** The caller sleeps on the thread. *)
Definition joins (s : kstate) : Prop :=
  exists th, thread_of s me = Some th /\ t_state th = SLEEPING /\ t_chan th = Cthread (i, k).

(** What the machine may do while the caller waits: anything that ends with the
    scheduler running it again when nobody holds the lock of the process, with
    the thread's slot still there. *)
Definition rejoins (f : kstate -> kstate) : Prop :=
  forall s, held s Lptable -> joins s ->
    resumed (f s) i me /\ unlocked (f s) (Lproc i) /\
    (exists p, k_ptable (f s) !! i = Some p /\ p_state p <> RUNNING) /\
    is_Some (thread_of (f s) (i, k)) /\ exists l, can_bury (f s) l.

Lemma join_turn_consumes : consumes (join_turn i (i, k)).
Proof.
  unfold join_turn. apply consumes_bind; [shrink|]. intros th.
  destruct (state_eqb (t_state th) ZOMBIE); [apply consumes_some|]. apply consumes_takes, takes_bind_l; auto with xv6.
Qed.

Lemma join_turn_zombie e s th : thread_of s (i, k) = Some th -> t_state th = ZOMBIE -> join_turn i (i, k) e s = Ok (Some tt) e s.
Proof. intros Hth Hz. unfold join_turn. mstep thread_at_ok by exact Hth. by rewrite Hz. Qed.

Lemma join_turn_waits e s th :
  thread_of s (i, k) = Some th -> t_state th <> ZOMBIE ->
  join_turn i (i, k) e s = (sleep (Cthread (i, k)) (Some (Lproc i));; mret None) e s.
Proof. intros Hth Hz. unfold join_turn. mstep thread_at_ok by exact Hth. by destruct (t_state th). Qed.

(** Waking up changes nothing of a thread but a channel. *)
Lemma woken_thread t ch lk f s t' th :
  thread_of (f (sleep_point t ch lk s)) t' = Some th ->
  exists th', thread_of (woken t ch lk f s) t' = Some th' /\ t_state th' = t_state th /\ t_kstack th' = t_kstack th.
Proof.
  intros Hth. set (g := upd_cpu (set_c_intena (c_intena (k_cpu (sleep_point t ch lk s)))) (f (sleep_point t ch lk s))).
  rewrite (thread_of_ptable (upd_thread t (set_t_chan Cnull) g)) by done. destruct (decide (t = t')) as [<-|Hne].
  - exists (set_t_chan Cnull th). split; [by apply thread_upd_eq|done].
  - exists th. by rewrite thread_upd_ne.
Qed.

Lemma woken_can_bury f s l :
  is_Some (thread_of (f (sleep_point me (Cthread (i, k)) (Lproc i) s)) (i, k)) ->
  can_bury (f (sleep_point me (Cthread (i, k)) (Lproc i) s)) l -> can_bury (woken me (Cthread (i, k)) (Lproc i) f s) l.
Proof.
  intros [th Hth] [Hfl Hk Hst]. split.
  - by destruct Hfl.
  - unfold woken. apply unlocked_acquired_ne; [done|]. by apply unlocked_released.
  - intros th' Hth' Hz. destruct (woken_thread me (Cthread (i, k)) (Lproc i) f s (i, k) th Hth) as (th2 & E & S & K).
    rewrite E in Hth'. injection Hth' as <-. rewrite K. apply Hst; [done|by rewrite <- S].
Qed.

Lemma join_loop e : forall s th l,
  may_sleep s i me (Lproc i) -> thread_of s (i, k) = Some th -> can_bury s l -> Forall rejoins e ->
  (exists s', loop (join_turn i (i, k)) e s = Off s' /\ joins s' /\ held s' Lptable /\ unlocked s' (Lproc i)) \/
  (exists e' s0 th0 l0, loop (join_turn i (i, k)) e s = Ok tt e' s0 /\ may_sleep s0 i me (Lproc i) /\
     thread_of s0 (i, k) = Some th0 /\ t_state th0 = ZOMBIE /\ can_bury s0 l0).
Proof.
  induction e as [|f e IH]; intros s th l Hms Hth Hb He; rewrite loop_unfold by apply join_turn_consumes.
  all: destruct (decide (t_state th = ZOMBIE)) as [Hz|Hz];
    [right; eexists _, s, th, l; split; [by mstep (join_turn_zombie _ s th Hth Hz)|done]|].
  all: set (sp := sleep_point me (Cthread (i, k)) (Lproc i) s).
  all: assert (Hw : joins sp /\ held sp Lptable /\ unlocked sp (Lproc i)) by
    (destruct (ms_ex _ _ _ _ Hms) as [tm Htm]; split;
     [eexists; split; [by apply sleep_point_thread|done]|apply sleep_point_locks; [done|apply Hms|by apply Hms]]).
  - left. exists sp. split; [|done]. erewrite bind_off; [done|]. rewrite (join_turn_waits _ _ th) by done.
    erewrite bind_off; [done|]. by eapply sleep_off.
  - apply Forall_cons in He as [Hf He]. destruct Hw as (Hw & Hh & Hu). destruct (Hf sp Hh Hw) as (Hr & Hup & Hp & [th1 Hth1] & l1 & Hb1).
    assert (Hturn : join_turn i (i, k) (f :: e) s = Ok None e (woken me (Cthread (i, k)) (Lproc i) f s)).
    { rewrite (join_turn_waits _ _ th) by done. erewrite bind_ok; [done|]. by apply (sleep_woken _ _ _ i). }
    destruct (woken_thread me (Cthread (i, k)) (Lproc i) f s (i, k) th1 Hth1) as (th2 & E2 & _).
    destruct (IH (woken me (Cthread (i, k)) (Lproc i) f s) th2 l1) as [(s' & E & H')|(e' & s0 & th0 & l0 & E & H')]; [|done| |done| |].
    + by apply woken_may_sleep.
    + by apply woken_can_bury.
    + left. exists s'. split; [by mstep Hturn|done].
    + right. exists e', s0, th0, l0. split; [by mstep Hturn|done].
Qed.

(** The dead thread of [s0] is gone in [s]: its slot is free and its kernel stack
    is on the free list. *)
Record buried (s0 s : kstate) (th : thread) (l : list Z) : Prop := {
  by_zombie : thread_of s0 (i, k) = Some th /\ t_state th = ZOMBIE;
  by_slot : thread_of s (i, k) = Some (set_t_state UNUSED (set_t_kstack 0 th));
  by_others : forall t, t <> (i, k) -> thread_of s t = thread_of s0 t;
  by_free : free_list s (t_kstack th :: l);
  by_lock : unlocked s (Lproc i);
  by_locks : forall lk, unlocked s0 lk -> unlocked s lk
}.

Lemma bury_ok e s th l :
  held s (Lproc i) -> cli_ok (k_cpu s) -> 0 < c_ncli (k_cpu s) -> thread_of s (i, k) = Some th -> t_state th = ZOMBIE -> can_bury s l ->
  exists s', bury i (i, k) e s = Ok 0 e s' /\ buried s s' th l.
Proof.
  intros Hh Hc Hn0 Hth Hz [Hfl Hk Hst]. destruct (Hst th Hth Hz) as [Hp Hn]. unfold bury. mstep thread_at_ok by exact Hth.
  assert (Hr : kmem_ready s) by (by split). destruct (kfree_push e s _ l Hp Hn Hfl Hr) as [E Hfl2]. mstep E.
  destruct (kept_kfree (t_kstack th) s) as [T _ _ C U]. set (s1 := kfree_state (t_kstack th) s) in *.
  assert (Hh1 : held s1 (Lproc i)).
  { unfold s1, kfree_state, kmem_crit. destruct (truth _); [|done]. ctl. }
  assert (Hn1 : c_ncli (k_cpu s1) = c_ncli (k_cpu s)) by (unfold s1, kfree_state, kmem_crit; by destruct (truth _)).
  pose proof (C Hc) as Hc1. clearbody s1. do 2 mstep. mstep release_held by ctl. eexists. split; [done|]. set (s2 := upd_thread (i, k) (set_t_state UNUSED) _).
  assert (T2 : k_ptable s2 = k_ptable (upd_thread (i, k) (fun x => set_t_state UNUSED (set_t_kstack 0 x)) s)).
  { unfold s2. rewrite upd_thread_twice. by apply upd_thread_table. }
  split.
  - done.
  - change (thread_of s2 (i, k) = Some (set_t_state UNUSED (set_t_kstack 0 th))).
    rewrite (thread_of_ptable _ _ _ T2). exact (thread_upd_eq (i, k) (fun x => set_t_state UNUSED (set_t_kstack 0 x)) s th Hth).
  - intros t Ht. change (thread_of s2 t = thread_of s t). rewrite (thread_of_ptable _ _ _ T2). by apply thread_upd_ne.
  - by destruct Hfl2.
  - apply unlocked_released_eq.
  - intros lk Hlk. apply unlocked_released. change (unlocked s1 lk). by apply U.
Qed.

(** A ZOMBIE is buried at once.  Only the lock of the process and the one of the
    allocator matter: [ptable.lock], under which [kthread_exit] marks its thread
    ZOMBIE and goes on running on its kernel stack until [sched] has switched
    away, may be held by another CPU. *)
Lemma kthread_join_zombie thread_id e s p th l :
  running s i me -> unlocked s (Lproc i) -> k_ptable s !! i = Some p ->
  find_idx (fun t => t_tid t =? thread_id) (p_threads p) = Some k -> thread_of s (i, k) = Some th ->
  t_state th = ZOMBIE -> can_bury s l ->
  exists s', kthread_join thread_id e s = Ok 0 e s' /\ buried (acquired (Lproc i) s) s' th l.
Proof.
  intros [Rp Rt Rs Rx Rc Rn] Hu Hp Hf Hth Hz [Hfl Hk Hst]. unfold kthread_join. mstep curproc_ok by exact Rp.
  mstep acquire_free by exact Hu. mstep proc_at_ok by exact Hp. rewrite Hf. set (s1 := acquired (Lproc i) s).
  assert (Hth1 : thread_of s1 (i, k) = Some th) by exact Hth. mstep thread_at_ok by exact Hth1.
  assert (state_eqb (t_state th) ZOMBIE = true) as -> by (by rewrite Hz).
  destruct (bury_ok e s1 th l) as (s' & E & B); [unfold s1; ctl|unfold s1; ctl|unfold s1; rewrite ncli_acquired; lia|done|done| |].
  { split; [by destruct Hfl|by apply unlocked_acquired_ne|exact Hst]. }
  by exists s'.
Qed.

(** C19: [kthread_join] of a thread of the process under every schedule.  Of a
    thread that is UNUSED it returns 0 at once.  Otherwise the caller sleeps on
    the thread, with the lock of the process given up, or the call returns 0
    after it saw the thread as a ZOMBIE and freed its kernel stack and its
    slot.  It never panics, and a thread that is a ZOMBIE is freed at once. *)
Theorem kthread_join_waits thread_id e s p th l :
  running s i me -> unlocked s (Lproc i) -> unlocked s Lptable ->
  k_ptable s !! i = Some p -> p_state p <> RUNNING ->
  find_idx (fun t => t_tid t =? thread_id) (p_threads p) = Some k -> thread_of s (i, k) = Some th ->
  can_bury s l -> Forall rejoins e ->
  (t_state th = UNUSED /\ kthread_join thread_id e s = Ok 0 e (crit (Lproc i) s)) \/
  (exists s', kthread_join thread_id e s = Off s' /\ t_state th <> ZOMBIE /\ joins s' /\ held s' Lptable /\ unlocked s' (Lproc i)) \/
  (exists e' s0 s' th0 l0, kthread_join thread_id e s = Ok 0 e' s' /\ buried s0 s' th0 l0 /\
     (t_state th = ZOMBIE -> e' = e /\ k_ptable s0 = k_ptable s /\ th0 = th /\ l0 = l)).
Proof.
  intros Hrun Hu Hpt Hp Hst Hf Hth Hb He. destruct (decide (t_state th = ZOMBIE)) as [Hz|Hz].
  { right. right. destruct (kthread_join_zombie thread_id e s p th l Hrun Hu Hp Hf Hth Hz Hb) as (s' & E & B).
    exists e, (acquired (Lproc i) s), s', th, l. done. }
  destruct Hrun as [Rp Rt Rs Rx Rc Rn]. unfold kthread_join. mstep curproc_ok by exact Rp.
  mstep acquire_free by exact Hu. mstep proc_at_ok by exact Hp. rewrite Hf. set (s1 := acquired (Lproc i) s).
  assert (Hth1 : thread_of s1 (i, k) = Some th) by exact Hth. mstep thread_at_ok by exact Hth1.
  assert (Hb1 : can_bury s1 l).
  { destruct Hb as [Hfl Hk Hz']. split; [by destruct Hfl|by apply unlocked_acquired_ne|exact Hz']. }
  assert (state_eqb (t_state th) ZOMBIE = false) as -> by (by destruct (t_state th)).
  destruct (decide (t_state th = UNUSED)) as [Hun|Hun].
  { left. split; [done|]. assert (state_eqb (t_state th) UNUSED = true) as -> by (by rewrite Hun). mstep release_held by (unfold s1; ctl). unfold s1. by rewrite released_acquired. }
  assert (state_eqb (t_state th) UNUSED = false) as -> by (by destruct (t_state th)). right.
  assert (Hms : may_sleep s1 i me (Lproc i)).
  { split; [exact Rp|exact Rt|by exists p|exact Rx|unfold s1; ctl|unfold s1; rewrite ncli_acquired; lia|unfold s1; ctl|intros _; unfold s1; ctl]. }
  destruct (join_loop e s1 th l Hms Hth1 Hb1 He) as [(s' & E & H')|(e' & s0 & th0 & l0 & E & Hms0 & Ht0 & Hz0 & Hb0)].
  - left. exists s'. split; [by erewrite bind_off|done].
  - right. destruct (bury_ok e' s0 th0 l0 (ms_held _ _ _ _ Hms0) (ms_cli _ _ _ _ Hms0) ltac:(rewrite (ms_ncli _ _ _ _ Hms0); lia) Ht0 Hz0 Hb0) as (s' & E' & B).
    exists e', s0, s', th0, l0. split; [|by split]. mstep E. mstep thread_at_ok by exact Ht0. rewrite Hz0. exact E'.
Qed.

(** A thread identifier that the process does not have: -1. *)
Lemma kthread_join_unknown thread_id e s p :
  running s i me -> unlocked s (Lproc i) -> k_ptable s !! i = Some p ->
  find_idx (fun t => t_tid t =? thread_id) (p_threads p) = None ->
  kthread_join thread_id e s = Ok (-1) e (crit (Lproc i) s).
Proof.
  intros [Rp Rt Rs Rx Rc Rn] Hu Hp Hf. unfold kthread_join. mstep curproc_ok by exact Rp. mstep acquire_free by exact Hu.
  mstep proc_at_ok by exact Hp. rewrite Hf. mstep release_held by ctl. by rewrite released_acquired.
Qed.

End Join.

(** ** [kthread_exit] *)

(** A thread of process [i] after thread [me] of the process has exited. *)
Definition after_exit (me t : tptr) (th : thread) : thread :=
  if decide (t = me) then set_t_state ZOMBIE th else wake (Cthread me) th.

Lemma thread_wake i ch s t :
  thread_of (upd_proc i (fun p => set_p_threads (map (wake ch) (p_threads p)) p) s) t =
  (fun th => if decide (t.1 = i) then wake ch th else th) <$> thread_of s t.
Proof.
  unfold thread_of, upd_proc. cbn. destruct (decide (t.1 = i)) as [<-|Hne].
  - rewrite list_lookup_alter_eq. destruct (k_ptable s !! t.1) as [p|]; [|done]. cbn. apply list_lookup_fmap.
  - rewrite list_lookup_alter_ne by done. by rewrite option_fmap_id.
Qed.

(** [kthread_exit] in a process with another living thread, when the memory that
    [wakeup2] visits past the array does not look like sleeping threads: the
    thread is a ZOMBIE and every thread of the process that waits for it is
    RUNNABLE when the CPU is given away, with [ptable.lock] held all the time. *)
Theorem kthread_exit_wakes beyond s i me p k th :
  running s i me -> unlocked s Lptable -> k_ptable s !! i = Some p -> p_state p <> RUNNING ->
  t_tproc <$> thread_of s me = Some (Some i) -> (i, k) <> me -> thread_of s (i, k) = Some th -> alive th = true ->
  (forall n s, beyond n s = s) ->
  exists s', kthread_exit (A:=unit) beyond [] s = Off s' /\ held s' Lptable /\
    forall t, thread_of s' t = (fun th => if decide (t.1 = i) then after_exit me t th else th) <$> thread_of s t.
Proof.
  intros [Rp Rt Rs [tm Rx] Rc Rn] Hu Hp Hst Htp Hk Hth Ha Hb. rewrite Rx in Htp. injection Htp as Htp. unfold kthread_exit.
  unfold acqptable. mstep acquire_free by exact Hu. mstep curthread_ok by exact Rt. mstep.
  set (s1 := upd_thread me (set_t_state ZOMBIE) (acquired Lptable s)).
  assert (Hm1 : thread_of s1 me = Some (set_t_state ZOMBIE tm)) by (by apply thread_upd_eq).
  assert (E1 : tproc_of me [] s1 = Ok i [] s1).
  { unfold tproc_of. mstep thread_at_ok by exact Hm1. cbn [t_tproc set_t_state]. by rewrite Htp. }
  mstep E1. assert (Hp1 : exists p1, k_ptable s1 !! i = Some p1 /\ p_state p1 = p_state p).
  { eexists. split; [unfold s1, upd_thread; rewrite Rs; by apply proc_upd_eq|done]. }
  destruct Hp1 as (p1 & Hp1 & Hst1). mstep proc_at_ok by exact Hp1.
  assert (Hal : (length (filter (fun t => alive t = true) (p_threads p1)) =? 0)%nat = false).
  { apply Nat.eqb_neq. intros L0. apply length_zero_iff_nil in L0. apply (not_elem_of_nil th). rewrite <- L0.
    apply list_elem_of_filter. split; [done|]. apply (list_elem_of_lookup_2 _ k).
    assert (Hk1 : thread_of s1 (i, k) = Some th) by (unfold s1; by rewrite thread_upd_ne). unfold thread_of in Hk1. cbn [fst snd] in Hk1. by rewrite Hp1 in Hk1. }
  rewrite Hal. unfold wakeup2. rewrite bind_assoc. mstep curproc_ok by exact Rp. rewrite bind_assoc. mstep. mstep. mstep. rewrite Hb.
  set (s2 := upd_proc i _ s1).
  assert (Hs : sched [] s2 = Off s2).
  { rewrite (sched_runs [] s2 i me (set_p_threads (map (wake (Cthread me)) (p_threads p1)) p1)); try done.
    - change (c_ncli (k_cpu (acquired Lptable s)) = 1). rewrite ncli_acquired. lia.
    - exact (proc_upd_eq i (fun p => set_p_threads (map (wake (Cthread me)) (p_threads p)) p) s1 p1 Hp1).
    - cbn. by rewrite Hst1. }
  exists s2. split; [by erewrite bind_off|]. split; [unfold s2, s1; ctl|]. intros t. unfold s2, s1. rewrite thread_wake.
  unfold after_exit. destruct (decide (t = me)) as [->|Hne].
  - rewrite (thread_upd_eq me _ _ tm) by exact Rx. change (thread_of (acquired Lptable s) me) with (thread_of s me). rewrite Rx. cbn. by destruct (decide _).
  - rewrite thread_upd_ne by done. done.
Qed.


End KthreadSpec.

(** ** Witnesses *)

(** Process 0 of the sample kernel has one thread, whose kernel stack is at
    [sample_stack] and holds a trap frame of user code. *)
Definition sample_stack : Z := 2148638720.
Definition sample_frame : list Z := [7; 7; 7; 7; 7; 7; 7; 7; 7; 7; 43; 43; 64; 0; 4096; 35; 514; 12000; 43].
Fixpoint put_words (ws : list Z) (a : Z) (m : mem) : mem :=
  match ws with
  | [] => m
  | w :: ws' => st32 (put_words ws' (a + 4) m) a w
  end.
Definition sample_thread0 : thread := mkThread sample_stack RUNNING 1 (Some 0%nat) (sample_stack + 4020) 0 Cnull 0 [].
Definition sample_proc0 (ts : list thread) : proc := set_p_threads ts zero_proc.
Definition sample_calling (ts : list thread) : kstate :=
  set_k_cpu (mkCpu 0 0 0 false (Some 0%nat) (Some (0, 0)%nat) 0 0 0 0 0 [] 0)
    (set_k_ptable [sample_proc0 ts]
      (upd_mem (put_words sample_frame (v2p (sample_stack + 4020))) two_pages_state)).

Lemma sample_free ts : @free_list sample_symbols (sample_calling ts) two_pages.
Proof.
  split.
  - vm_compute. repeat split; reflexivity.
  - apply (bool_decide_unpack _). vm_compute. exact I.
  - repeat constructor; vm_compute; done.
Qed.

(** The machine when the function it is about to enter has returned at once. *)
Definition returned (m : machine) : machine := set_eip (top m) (setr ESP (rg m ESP + 4) m).
Lemma returned_forkret m tf : forkret_returned m (returned m) tf.
Proof. by split. Qed.

Lemma kthread_create_starts_witness :
  exists s' m m2, @kthread_create sample_symbols 5000 20000 4000 [] (sample_calling [sample_thread0; zero_thread]) = Ok 1 [] s' /\
    eip (run swtch m) = 2148540000 /\ eip m2 = 2148550000 /\ eip (run trapret m2) = 5000 /\ rg (run trapret m2) ESP = 24000.
Proof.
  destruct (@kthread_create_starts sample_symbols sample_symbols_ok 5000 20000 4000 [] (sample_calling [sample_thread0; zero_thread]) 0 (0, 0)%nat
    sample_thread0 sample_stack 1 2148630528 [2148634624] 7 7 7 7 7 7 7 7 7 7 43 43 64 0 4096 35 514 12000 43) as (th & s' & E & T & _ & _ & _ & K & Hc & F & _ & _ & _ & _ & R).
  - by split.
  - split; [by eexists|exact (sample_free _)| |done|done]. apply (bool_decide_unpack _). vm_compute. exact I.
  - by split.
  - vm_compute. repeat split; reflexivity.
  - done.
  - set (m := calls_swtch (vmem s') 1000 5000 (t_context th)).
    set (m2 := returned (run swtch m)). exists s', m, m2.
    rewrite Hc, K, F in R. destruct (calls_swtch_args (vmem s') 1000 5000 (t_context th)) as [A1 A2]; [by split|by split|by rewrite Hc; split|].
    fold m in A1, A2. assert (rg m ESP = 1000) as Hsp by done. destruct (R m m2) as (R1 & R2 & R3 & R4 & _).
    + split; [by split| |by rewrite A2|rewrite A1, Hsp; lia|rewrite Hsp; lia|rewrite A1; lia].
      intros r. change (word (if decide (r = ESP) then 1000 else 1000 + 5)). destruct (decide (r = ESP)); by split.
    + intros a Ha. cbn [m calls_swtch mm]. unfold PGSIZE in Ha. rewrite !st32_other by lia. done.
    + done.
    + apply returned_forkret.
    + split; [exact E|]. split; [exact R1|]. split; [exact R2|]. split; [exact R3|exact R4].
Defined.

(** A thread that still runs when the caller looks at it, and is dead when the
    scheduler goes back to the caller. *)
Definition sample_child (st : procstate) : thread := mkThread 2148642816 st 2 (Some 0%nat) 0 0 Cnull 0 [].
Definition sample_dead : kstate := acquired Lptable (sample_calling [sample_thread0; sample_child ZOMBIE]).

Lemma sample_can_bury st : @can_bury sample_symbols 0 1 (sample_calling [sample_thread0; sample_child st]) two_pages.
Proof.
  split; [exact (sample_free _)|done|]. intros th [= <-] _. split; [by vm_compute|]. apply (bool_decide_unpack _). vm_compute. exact I.
Qed.

Lemma kthread_join_waits_witness :
  exists s0 s' th l, @kthread_join sample_symbols 2 [fun _ => sample_dead] (sample_calling [sample_thread0; sample_child RUNNING]) = Ok 0 [] s' /\
    @buried sample_symbols 0 1 s0 s' th l.
Proof.
  destruct (@kthread_join_waits sample_symbols 0 (0, 0)%nat 1 2 [fun _ => sample_dead] (sample_calling [sample_thread0; sample_child RUNNING])
    (sample_proc0 [sample_thread0; sample_child RUNNING]) (sample_child RUNNING) two_pages)
    as [[H _]|[(s' & E & _)|(e' & s0 & s' & th & l & E & B & _)]]; try done.
  - apply sample_can_bury.
  - constructor; [|done]. intros s _ _. split; [by split|]. split; [done|]. split; [by eexists|]. split; [by eexists|].
    exists two_pages. destruct (sample_can_bury ZOMBIE) as [F _ S]. split; [by destruct F|done|exact S].
  - exists s0, s', th, l. split; [|exact B]. rewrite E.
    assert (match @kthread_join sample_symbols 2 [fun _ => sample_dead] (sample_calling [sample_thread0; sample_child RUNNING]) with
                     | Ok _ e _ => length e | _ => 1%nat end = 0%nat) as X by (vm_compute; reflexivity).
    rewrite E in X. by destruct e'.
Defined.
